(* ===== verification/_CoqProject ===== *)
-Q . S2P
Prelude.v
Conv.v
Const.v
Wp.v
PktHd.v
Frame.v
FrameSafe.v
FrameCodec.v
Buf.v
PktAux.v
ClientHello.v
TransportParams.v
TransportParamsCodec.v
Ringbuf.v
Ratelim.v
WindowFilter.v
Pq.v
Ksl.v
KslTree.v
KslInv.v
KslInsert.v
KslRemove.v
KslSearch.v
KslChain.v
KslSim.v
KslIter.v
KslSpec.v
KslMap.v
Gaptr.v
Idtr.v
Reorder.v
Vec.v
FrameChain.v
Strm.v
StrmTx.v
StrmTxInv.v
StrmTxPop.v
StrmTxLoop.v
StrmTxSpec.v
StrmSend.v
StrmSendInv.v
StrmSendSpec.v
StrmSendRun.v
ConnCrypto.v
Acktr.v
KslStore.v
AcktrSpec.v
Map.v
MapSpec.v
ConnStream.v
ConnStreamInv.v
ConnStreamCalls.v
ConnStreamEmit.v
ConnStreamSpec.v
ConnStreamRun.v
ConnStat.v
Rst.v
Cc.v
CcCbrt.v
CcSpec.v
CcCubic.v
CcRun.v
Recovery.v
Rtb.v
RtbInv.v
RtbStep.v
RtbAck.v
RtbProcess.v
RtbLose.v
RtbDetect.v
RtbRecv.v
RtbConn.v
RtbOps.v
RtbSend.v
RtbPto.v
RtbRun.v
RtbSpec.v
RtbRetry.v
RtbTop.v
