(* ===== verification/Prelude.v ===== *)
(** * Verification of the zngtcp2 transport core

    zngtcp2 (a fork of ngtcp2) is an implementation of QUIC, RFC 9000.  The
    library under src/lib turns UDP payloads into frames and back, keeps the
    state of a connection and decides what to send.  This development models
    its wire formats, its data structures and the decisions that do not
    depend on the TLS library, one file per component, and proves the
    properties that make them correct.

    ** Conventions

    C integers are [Z]; every operation that can wrap is written with [u8],
    [u16], [u32], [u64] or [i64].  Bytes are [Z] values in lists.  A function
    that returns an error code is a function into [res]: [Ok] is a normal
    return, [Err] an error code, [Fault] an access outside an object, a failed
    [assert] or [ngtcp2_unreachable].  A theorem that a function does not give
    [Fault] is a theorem that it is memory safe on that input.  A function
    that returns a code and also leaves state behind returns both in [Ok].  A
    loop is a [Fixpoint] on its data or on fuel; the fuel is the number of
    bytes or of elements, and a theorem shows that it is not exhausted (an
    exhausted fuel is [Fault]).  Memory allocation is an argument: the outcome
    of an allocation, or the number of blocks that are left.

    ** Files

    - [Prelude], [Const], [Wp]: outcomes, lengths, machine integers, orders;
      the constants of the headers; weakest-precondition rules for safety.
    - [Conv] (ngtcp2_conv.c): fixed-width and variable-length integers.
    - [PktHd] (ngtcp2_pkt.c, ngtcp2_cid.c): long and short packet headers,
      the version and the connection ids of any long packet, recovery of
      truncated packet numbers.
    - [Frame], [FrameSafe], [FrameCodec] (ngtcp2_pkt.c): the frame decoders
      and encoders; safety of the former; round trip of both.
    - [PktAux] (ngtcp2_pkt.c): validation of ACK frames, sizing of STREAM and
      CRYPTO data, Version Negotiation, Retry and Stateless Reset packets.
    - [ClientHello] (ngtcp2_pkt.c): search for the server name.
    - [TransportParams], [TransportParamsCodec]
      (ngtcp2_transport_params.c): decoder and its safety; encoder and round
      trip.
    - [Buf] (ngtcp2_buf.c, ngtcp2_buf_alloc.c): the buffer contract, slices,
      ownership and the default allocator.
    - [Ringbuf], [Ratelim], [WindowFilter], [Pq] (the C files of these
      names): a ring buffer, a token bucket, a windowed maximum, a heap with
      intrusive indices.
    - [Ksl] (ngtcp2_ksl.c): the paged skip list, an ordered map with
      iterators; a block has an address, and its pointers to its neighbours,
      [front] and [back] are in a store ([ksl_mem]).  [KslTree] has the same
      functions on the tree alone, without addresses and pointers; [KslInv] its
      invariant, [KslInsert], [KslRemove], [KslSearch] what each kind of
      operation does to it.  [KslChain] has the chains of the blocks and what
      splitting and merging do to them, [KslSim] that the functions of [Ksl]
      do to the tree what those of [KslTree] do, and keep the chains.
      [KslIter] has the invariant of a list and its iterators, [KslSpec] the
      contract of each operation on a whole list, [KslMap] the refinement of a
      sorted association list.
    - [Gaptr], [Idtr] (ngtcp2_range.c, ngtcp2_gaptr.c, ngtcp2_idtr.c):
      interval arithmetic, the set of offsets that were pushed, as a skip list
      of the gaps, and the set of stream ids that were opened.
    - [Reorder] (ngtcp2_reorder.c): the out-of-order data of a stream; [Strm]
      (ngtcp2_strm.c): a stream; [ConnCrypto]
      (ngtcp2_conn.c): conn_recv_crypto, from a CRYPTO frame to the calls of
      the TLS library.
    - [Vec], [FrameChain] (ngtcp2_vec.c, ngtcp2_frame_chain.c): arrays of
      vectors, and the frames that are kept until they are acknowledged.
      [StrmTx] (ngtcp2_strm.c): the queue of the frames of a stream that are
      to be sent again.  [StrmTxInv] says what is pending, [StrmTxPop] deals
      with the frame at the head, [StrmTxLoop] with the search,
      [StrmTxSpec] with cutting and merging.
    - [StrmSend] (ngtcp2_conn.c, ngtcp2_rtb.c): the sending half of a stream:
      submission of data, lost and acknowledged STREAM frames, and the events
      of the network as steps.  [StrmSendInv] has the lemmas on single
      operations, [StrmSendSpec] the invariant and its steps, [StrmSendRun]
      every sequence of events.
    - [Acktr], [AcktrSpec] (ngtcp2_acktr.c): the packet numbers that were
      received, the ACK frames that were sent, creation of ACK frames.
    - [Map], [MapSpec] (ngtcp2_map.c): the hash map of the streams.
    - [ConnStream] (ngtcp2_conn.c): the streams of a connection: STREAM,
      RESET_STREAM, STOP_SENDING, MAX_STREAM_DATA and MAX_STREAMS frames, the
      callbacks and what the application calls in them, opening and closing,
      flow control of what is received.  [ConnStreamInv] has the protocol of
      the callbacks and the invariant, [ConnStreamCalls] the calls of the
      application, in its callbacks too, [ConnStreamEmit] the callbacks and the
      stored data, [ConnStreamSpec] the frames that carry data,
      [ConnStreamRun] the rest and every sequence of events.
    - [ConnStat], [Rst] (ngtcp2_conn_stat.h, ngtcp2_rst.c): the statistics that
      recovery uses, and the delivery rate sampler.  [Cc] (ngtcp2_cc.c): the
      interface of the congestion controllers, Reno and CUBIC.  [CcSpec] has
      the laws of the interface as a class and Reno, [CcCubic] CUBIC, [CcRun]
      every sequence of callbacks, [CcCbrt] the cube root.
    - [KslStore]: objects that a skip list points to, which [Acktr] and [Rtb]
      share.
    - [Recovery] (ngtcp2_conn.c): the round trip time, the probe timeout and
      the loss detection timer.  [Rtb] (ngtcp2_rtb.c): the packets in flight
      and the detection of lost packets.  [RtbConn] (ngtcp2_conn.c): their
      callers, ECN, skipped packet numbers and the reset of the path.
      [RtbInv] and [RtbStep] have the invariant and its steps, [RtbAck],
      [RtbProcess] and [RtbRecv] the ACK frame, [RtbLose] and [RtbDetect] the
      detection, [RtbSend], [RtbOps], [RtbPto] and [RtbRun] the other
      operations, [RtbSpec] the specification, [RtbRetry] that a Retry packet finds
      no lost packets, [RtbTop] every sequence of events and the theorems.
    ** Theorems

    - Wire formats: what an encoder writes the decoder reads back, encoders
      announce the length they write and fail with NGTCP2_ERR_NOBUF exactly
      when the buffer is shorter (C1, C5, C6, C8, C9, C14, C16, C20);
      decoders are total and memory safe on every input and enforce the limits
      of the protocol (C2, C4, C7, C17, C19); truncated packet numbers are
      recovered within the window of RFC 9000 (C3).
    - Rules: ACK validation is the arithmetic of packet numbers (C12), the
      payload of a frame is the largest that fits, a server name that is
      present is found (C18), buffers keep their contract (C10, C11).
    - Data structures refine their abstract types: deque (C21), ideal token
      bucket (C22), windowed maximum (C23), priority queue (C24), sorted
      association list (C25 to C27), whose traversal follows the pointers
      between the leaves (C26); [KslMap.ksl_insert_oom_loses] is a defect
      of the skip list when memory runs out.
    - Received data: a push into the reorder buffer (C29) and what it drops
      ([Reorder.reorder_push_drops_tail]), the ownership of the buffers and where it fails (C31), CRYPTO
      data reach the TLS library in order (C32).
    - Sets of numbers: the gap tracker is the set of pushed ranges (C33), a
      stream id is opened once (C34).
    - Acknowledgements: an ACK frame acknowledges what was received, and
      everything that was received until the peer knows it (C35).
    - The hash map is a finite map while it has at most 255 keys (C36), and
      what happens with more ([MapSpec.map_loses_keys]).
    - Streams: whatever the peer sends and the application does, inside its
      callbacks too, no assertion fails, the callbacks of each stream follow
      their protocol and the limits of flow control hold (C37).  The map of the
      streams is a finite map there; an insertion that fails is assumed not to
      store the stream, which the resize at the end of ngtcp2_map_insert can
      violate.
    - Data to be sent again: what is taken out of the queue is not yet
      acknowledged, and nothing that is pending gets lost (C38).
    - The sending half of a stream: whatever is submitted, sent, lost and
      acknowledged, in any order, no byte is forgotten (C39).
    - Congestion control: Reno and CUBIC never overflow or fail an assertion
      and keep the window within its bounds, and a congestion event reduces
      it (C13), and what happens to CUBIC
      after persistent congestion ([CcRun.cubic_window_collapses]); the cube
      root is exact (C40).
    - Loss detection: in every state that a sequence of events leads to no
      assertion fails, the counters and the bytes in flight are right and no
      entry leaks (C28); an ACK frame removes exactly what it acknowledges
      (C30); exactly the packets that the rule of RFC 9002 names are declared
      lost (C15).  The events are bounded by what they let the congestion
      window grow, 2^47 bytes in all ([CC_LIMIT]); [conn_ops] stands for what
      happens to the frames of a packet (rtb_reclaim_frame, process_acked_pkt,
      rtb_reclaim_frame_on_retry), with the laws of [RtbStep.AppLaws]: they
      return.
    ** Not modelled

    The connection object of ngtcp2_conn.c as a whole and the packet assembly
    it does; the BBR congestion controller; what loss detection does to frames
    other than STREAM frames; logging (log, qlog, fmt, str); the crypto glue (ngtcp2_crypto.c, ngtcp2_ppe.c,
    crypto/shared.c, crypto/zpicotls), which calls a TLS library that is not
    part of the repository; the allocators; socket addresses; the example
    applications, the tests and third-party code. *)

From stdpp Require Export base list numbers tactics.
From Stdlib Require Export ZArith Lia.

#[global] Open Scope Z_scope.

(** ** Outcomes of C code

    A C function that can fail returns a negative error code; a function
    that reads or writes out of bounds, violates an [assert] or reaches
    [ngtcp2_unreachable] has no defined result.  [Ok] is a normal return,
    [Err e] the return of the error code [e], and [Fault] undefined
    behaviour, a failed assertion or a call of [ngtcp2_unreachable]. *)
Inductive res (A : Type) : Type :=
| Ok (a : A)
| Err (e : Z)
| Fault.
Arguments Ok {A} a.
Arguments Err {A} e.
Arguments Fault {A}.

Definition bind {A B : Type} (c : res A) (f : A -> res B) : res B :=
  match c with
  | Ok a => f a
  | Err e => Err e
  | Fault => Fault
  end.

Declare Scope res_scope.
Delimit Scope res_scope with res.

Notation "'let*' x ':=' c 'in' k" := (bind c (fun x => k))
  (at level 10, x pattern, c at level 100, k at level 200) : res_scope.

Notation "'assert!' b ';' k" := (if b then k else Fault)
  (at level 10, b at level 100, k at level 200) : res_scope.

#[global] Open Scope res_scope.

Lemma bind_Ok_inv {A B : Type} (c : res A) (f : A -> res B) (b : B) :
  bind c f = Ok b -> exists a, c = Ok a /\ f a = Ok b.
Proof. destruct c; simpl; intros; naive_solver. Qed.

Lemma bind_no_fault {A B : Type} (c : res A) (f : A -> res B) :
  c <> Fault -> (forall a, c = Ok a -> f a <> Fault) -> bind c f <> Fault.
Proof. destruct c; simpl; naive_solver. Qed.

(** ** Lengths in Z

    Sizes and offsets of the C code are [size_t]/[uint64_t] values; the
    model keeps them in Z and writes the wrap-around out where the code
    can reach it. *)
Definition zlen {A : Type} (l : list A) : Z := Z.of_nat (length l).
Definition ztake {A : Type} (n : Z) (l : list A) : list A := take (Z.to_nat n) l.
Definition zdrop {A : Type} (n : Z) (l : list A) : list A := drop (Z.to_nat n) l.

Create HintDb zlen.
Create Rewrite HintDb zlen.

Section Zlen.
Context {A : Type}.
Implicit Types (l k : list A) (n : Z).

Lemma zlen_nil : zlen (@nil A) = 0.
Proof. reflexivity. Qed.

Lemma zlen_cons x l : zlen (x :: l) = 1 + zlen l.
Proof. unfold zlen; simpl; lia. Qed.

Lemma zlen_app l k : zlen (l ++ k) = zlen l + zlen k.
Proof. unfold zlen; rewrite length_app; lia. Qed.

Lemma zlen_nonneg l : 0 <= zlen l.
Proof. unfold zlen; lia. Qed.

Lemma zlen_zdrop n l : 0 <= n <= zlen l -> zlen (zdrop n l) = zlen l - n.
Proof. unfold zlen, zdrop; rewrite length_drop; lia. Qed.

Lemma zlen_ztake n l : 0 <= n <= zlen l -> zlen (ztake n l) = n.
Proof. unfold zlen, ztake; rewrite length_take; lia. Qed.

Lemma zlen_replicate m (x : A) : zlen (replicate m x) = Z.of_nat m.
Proof. unfold zlen; by rewrite length_replicate. Qed.

Lemma zlen_0_nil l : zlen l = 0 -> l = [].
Proof. destruct l; [done|]. rewrite zlen_cons. pose proof (zlen_nonneg l). lia. Qed.

Lemma zlen_ge_cons l : 1 <= zlen l -> exists x k, l = x :: k.
Proof. destruct l; [by rewrite zlen_nil|eauto]. Qed.

Lemma ztake_zdrop n l : ztake n l ++ zdrop n l = l.
Proof. apply take_drop. Qed.

Lemma ztake_app_eq n l k : n = zlen l -> ztake n (l ++ k) = l.
Proof. intros ->; unfold ztake, zlen. rewrite Nat2Z.id. apply take_app_length. Qed.

Lemma zdrop_app_eq n l k : n = zlen l -> zdrop n (l ++ k) = k.
Proof. intros ->; unfold zdrop, zlen. rewrite Nat2Z.id. apply drop_app_length. Qed.

Lemma zdrop_0 l : zdrop 0 l = l.
Proof. reflexivity. Qed.

Lemma zdrop_zdrop a b l : 0 <= a -> 0 <= b -> zdrop a (zdrop b l) = zdrop (b + a) l.
Proof. intros. unfold zdrop. rewrite drop_drop. f_equal; lia. Qed.

Lemma Forall_zdrop (P : A -> Prop) n l : Forall P l -> Forall P (zdrop n l).
Proof. apply Forall_drop. Qed.

Lemma Forall_ztake (P : A -> Prop) n l : Forall P l -> Forall P (ztake n l).
Proof. apply Forall_take. Qed.
End Zlen.

#[export] Hint Rewrite @zlen_nil @zlen_cons @zlen_app @zlen_replicate : zlen.
#[export] Hint Resolve zlen_nonneg Forall_zdrop Forall_ztake : zlen.

(** [zl] normalises lengths; [zlia] also feeds the non-negativity of every
    remaining length to [lia]. *)
Ltac zl := autorewrite with zlen in *.
Ltac zlen_pos :=
  repeat match goal with
  | |- context [zlen ?l] =>
      lazymatch goal with
      | H : 0 <= zlen l |- _ => fail
      | _ => pose proof (zlen_nonneg l)
      end
  | H0 : context [zlen ?l] |- _ =>
      lazymatch goal with
      | H : 0 <= zlen l |- _ => fail
      | _ => pose proof (zlen_nonneg l)
      end
  end.
Ltac zlia := zl; zlen_pos; lia.

(** Case analysis on the boolean comparisons of the code. *)
Ltac bcase :=
  repeat match goal with
  | |- context [?a <? ?b] => destruct (Z.ltb_spec a b)
  | |- context [?a <=? ?b] => destruct (Z.leb_spec a b)
  | |- context [?a =? ?b] => destruct (Z.eqb_spec a b)
  | H : context [?a <? ?b] |- _ => destruct (Z.ltb_spec a b)
  | H : context [?a <=? ?b] |- _ => destruct (Z.leb_spec a b)
  | H : context [?a =? ?b] |- _ => destruct (Z.eqb_spec a b)
  end.

(** ** Machine integers *)
Definition u8 (x : Z) : Z := x mod 2 ^ 8.
Definition u16 (x : Z) : Z := x mod 2 ^ 16.
Definition u32 (x : Z) : Z := x mod 2 ^ 32.
Definition u64 (x : Z) : Z := x mod 2 ^ 64.
Definition UINT64_MAX : Z := 2 ^ 64 - 1.
Definition SIZE_MAX : Z := 2 ^ 64 - 1.

(** Conversion of a 64-bit pattern to [int64_t]. *)
Definition i64 (x : Z) : Z :=
  let y := u64 x in if y <? 2 ^ 63 then y else y - 2 ^ 64.

Definition is_u64 (x : Z) : Prop := 0 <= x < 2 ^ 64.

Lemma u64_small x : is_u64 x -> u64 x = x.
Proof. unfold is_u64, u64. intros. by apply Z.mod_small. Qed.

Lemma u64_range x : is_u64 (u64 x).
Proof. unfold is_u64, u64. apply Z.mod_pos_bound. lia. Qed.

Lemma u32_small x : 0 <= x < 2 ^ 32 -> u32 x = x.
Proof. apply Z.mod_small. Qed.

Lemma u8_small x : 0 <= x < 2 ^ 8 -> u8 x = x.
Proof. apply Z.mod_small. Qed.

Lemma i64_small x : 0 <= x < 2 ^ 63 -> i64 x = x.
Proof.
  intros. unfold i64. rewrite u64_small by (unfold is_u64; lia). bcase; lia.
Qed.

#[export] Hint Resolve u64_range : zlen.

(** Bitwise operations the code uses to pack fields. *)
Lemma lor_shiftl_add b a k :
  0 <= k -> 0 <= a < 2 ^ k -> Z.lor (b * 2 ^ k) a = b * 2 ^ k + a.
Proof.
  intros Hk Ha.
  assert (Hland : Z.land (b * 2 ^ k) a = 0).
  { rewrite <- Z.shiftl_mul_pow2 by lia. apply Z.bits_inj'. intros i Hi.
    rewrite Z.land_spec, Z.bits_0.
    destruct (Z.ltb_spec i k).
    - rewrite Z.shiftl_spec_low by lia. done.
    - replace a with (a mod 2 ^ k) by (apply Z.mod_small; lia).
      rewrite Z.mod_pow2_bits_high by lia. apply andb_false_r. }
  rewrite <- Z.lxor_lor by done. by rewrite <- Z.add_nocarry_lxor.
Qed.

Lemma land_ones_mod x k : 0 <= k -> Z.land x (2 ^ k - 1) = x mod 2 ^ k.
Proof. intros. rewrite <- Z.land_ones by done. by rewrite Z.ones_equiv, Z.sub_1_r. Qed.

(** Clearing the low [k] bits of a 64-bit value. *)
Lemma land_high_bits x k : 0 <= k <= 64 -> 0 <= x < 2 ^ 64 ->
  Z.land x (2 ^ 64 - 2 ^ k) = x / 2 ^ k * 2 ^ k.
Proof.
  intros Hk Hx.
  replace (2 ^ 64 - 2 ^ k) with (Z.shiftl (Z.ones (64 - k)) k).
  - rewrite <- Z.shiftl_mul_pow2, <- Z.shiftr_div_pow2 by lia.
    apply Z.bits_inj'. intros i Hi. rewrite Z.land_spec.
    destruct (Z.ltb_spec i k).
    + rewrite !Z.shiftl_spec_low by lia. apply andb_false_r.
    + rewrite !Z.shiftl_spec, Z.shiftr_spec by lia.
      replace (i - k + k) with i by lia. destruct (Z.ltb_spec i 64).
      * rewrite Z.ones_spec_low by lia. apply andb_true_r.
      * rewrite Z.ones_spec_high, andb_false_r by lia.
        replace x with (x mod 2 ^ 64) by (apply Z.mod_small; lia).
        by rewrite Z.mod_pow2_bits_high by lia.
  - rewrite Z.shiftl_mul_pow2, Z.ones_equiv by lia.
    replace (Z.pred (2 ^ (64 - k)) * 2 ^ k) with (2 ^ (64 - k) * 2 ^ k - 2 ^ k) by lia.
    rewrite <- Z.pow_add_r by lia. do 2 f_equal. lia.
Qed.

(** ** Bytes and pointers into a buffer

    A pointer into a buffer is the suffix of the buffer it points to: [*p]
    is its head, [p + n] drops [n] bytes, [p - base] is the difference of
    the lengths.  A read past the end of the buffer is a [Fault], and so is
    a pointer moved past one beyond its end. *)
Definition byte (b : Z) : Prop := 0 <= b < 256.
Definition bytes (l : list Z) : Prop := Forall byte l.

Definition read8 (p : list Z) : res Z :=
  match p with
  | [] => Fault
  | b :: _ => Ok b
  end.

Definition advance (p : list Z) (n : Z) : res (list Z) :=
  if (0 <=? n) && (n <=? zlen p) then Ok (zdrop n p) else Fault.

(** [memcpy] of [n] bytes out of the buffer, returning the bytes and the
    pointer after them. *)
Definition get_bytes (p : list Z) (n : Z) : res (list Z * list Z) :=
  if (0 <=? n) && (n <=? zlen p) then Ok (ztake n p, zdrop n p) else Fault.

Lemma read8_cons b p : read8 (b :: p) = Ok b.
Proof. reflexivity. Qed.

Lemma advance_ok p n : 0 <= n <= zlen p -> advance p n = Ok (zdrop n p).
Proof. intros. unfold advance. bcase; simpl; lia || done. Qed.

Lemma get_bytes_ok p n : 0 <= n <= zlen p -> get_bytes p n = Ok (ztake n p, zdrop n p).
Proof. intros. unfold get_bytes. bcase; simpl; lia || done. Qed.

Lemma advance_app l k n : n = zlen l -> advance (l ++ k) n = Ok k.
Proof.
  intros ->. rewrite advance_ok by zlia. by rewrite zdrop_app_eq.
Qed.

Lemma get_bytes_app l k n : n = zlen l -> get_bytes (l ++ k) n = Ok (l, k).
Proof.
  intros ->. rewrite get_bytes_ok by zlia.
  by rewrite ztake_app_eq, zdrop_app_eq.
Qed.

Lemma get_bytes_all l : get_bytes l (zlen l) = Ok (l, []).
Proof. rewrite <- (app_nil_r l) at 1. by apply get_bytes_app. Qed.

Lemma bytes_app l k : bytes (l ++ k) <-> bytes l /\ bytes k.
Proof. apply Forall_app. Qed.

Lemma bytes_cons b l : bytes (b :: l) <-> byte b /\ bytes l.
Proof. apply Forall_cons_iff. Qed.

#[export] Hint Rewrite bytes_app bytes_cons : zlen.

(** ** Strict weak orders

    What the comparison callbacks of the containers ([ngtcp2_pq_less],
    [ngtcp2_ksl_compar]) have to be. *)
Class StrictWeakOrder {A : Type} (less : A -> A -> bool) : Prop := {
  less_asym a b : less a b = true -> less b a = false;
  less_negtrans a b c : less a b = false -> less b c = false -> less a c = false;
}.

Section StrictWeakOrder.
Context {A : Type} {less : A -> A -> bool} `{!StrictWeakOrder less}.
Implicit Types (a b c : A).

Lemma less_irrefl a : less a a = false.
Proof. destruct (less a a) eqn:E; [|done]. by rewrite (less_asym _ _ E) in E. Qed.

Lemma less_trans a b c : less a b = true -> less b c = true -> less a c = true.
Proof.
  intros Hab Hbc. destruct (less a c) eqn:E; [done|].
  by rewrite (less_negtrans _ _ _ E (less_asym _ _ Hbc)) in Hab.
Qed.

(** A weak and a strict comparison compose. *)
Lemma less_le_trans a b c : less b a = false -> less b c = true -> less a c = true.
Proof.
  intros Hba Hbc. destruct (less a c) eqn:E; [done|].
  by rewrite (less_negtrans _ _ _ Hba E) in Hbc.
Qed.

Lemma less_trans_le a b c : less a b = true -> less c b = false -> less a c = true.
Proof.
  intros Hab Hcb. destruct (less a c) eqn:E; [done|].
  by rewrite (less_negtrans _ _ _ E Hcb) in Hab.
Qed.
End StrictWeakOrder.
