(* ===== verification/Conv.v ===== *)
(** * Integer conversion: [lib/ngtcp2_conv.c] and [lib/ngtcp2_conv.h]

    Big-endian integers, QUIC variable-length integers and truncated packet
    numbers.  A reader takes the pointer it reads from (the rest of the
    buffer, see [Prelude]) and returns the value and the pointer after it.
    A writer takes the bytes written so far, [p] standing for the output
    from its base up to the C pointer [p], and returns them extended.
    [memcpy] followed by [ntohl]/[ntohs]/[be64toh] is the big-endian value
    of the bytes on every host. *)

From S2P Require Import Prelude.

(** ** Big-endian integers *)
Definition be_decode (l : list Z) : Z := fold_left (fun a b => a * 256 + b) l 0.

Fixpoint be_encode (n : nat) (v : Z) : list Z :=
  match n with
  | O => []
  | S m => (v / 256 ^ Z.of_nat m) mod 256 :: be_encode m v
  end.

Definition get_be (n : Z) (p : list Z) : res (Z * list Z) :=
  let* (l, p') := get_bytes p n in Ok (be_decode l, p').

Definition ngtcp2_get_uint64be (p : list Z) : res (Z * list Z) := get_be 8 p.
Definition ngtcp2_get_uint32be (p : list Z) : res (Z * list Z) := get_be 4 p.
Definition ngtcp2_get_uint24be (p : list Z) : res (Z * list Z) := get_be 3 p.
Definition ngtcp2_get_uint16be (p : list Z) : res (Z * list Z) := get_be 2 p.

(** [ngtcp2_get_uint16] and [ngtcp2_put_uint16] copy two bytes without
    changing their order: the model keeps the two bytes of the object. *)
Definition ngtcp2_get_uint16 (p : list Z) : res (list Z * list Z) := get_bytes p 2.

Definition ngtcp2_put_uint64be (p : list Z) (n : Z) : list Z := p ++ be_encode 8 (u64 n).
Definition ngtcp2_put_uint32be (p : list Z) (n : Z) : list Z := p ++ be_encode 4 (u32 n).
Definition ngtcp2_put_uint24be (p : list Z) (n : Z) : list Z := p ++ be_encode 3 (u32 n).
Definition ngtcp2_put_uint16be (p : list Z) (n : Z) : list Z := p ++ be_encode 2 (u16 n).
Definition ngtcp2_put_uint16 (p : list Z) (n : list Z) : list Z := p ++ ztake 2 n.

(** ** Variable-length integers *)
Definition ngtcp2_get_uvarintlen (p : list Z) : res Z :=
  let* b := read8 p in Ok (Z.shiftl 1 (Z.shiftr b 6)).

Definition ngtcp2_get_uvarint (p : list Z) : res (Z * list Z) :=
  let* b := read8 p in
  match Z.shiftr b 6 with
  | 0 => let* p' := advance p 1 in Ok (b, p')
  | 1 => let* (n16, p') := ngtcp2_get_uint16be p in Ok (Z.land n16 0x3FFF, p')
  | 2 => let* (n32, p') := ngtcp2_get_uint32be p in Ok (Z.land n32 0x3FFFFFFF, p')
  | 3 => let* (n64, p') := ngtcp2_get_uint64be p in
         Ok (Z.land n64 0x3FFFFFFFFFFFFFFF, p')
  | _ => Fault
  end.

Definition ngtcp2_get_varint (p : list Z) : res (Z * list Z) :=
  let* (n, p') := ngtcp2_get_uvarint p in Ok (i64 n, p').

(** [*p |= m], where [p] is where the last write started. *)
Definition or_first (m : Z) (l : list Z) : list Z :=
  match l with
  | [] => []
  | b :: t => Z.lor b m :: t
  end.

Definition ngtcp2_put_uvarint (p : list Z) (n : Z) : res (list Z) :=
  if n <? 64 then Ok (p ++ [u8 n])
  else if n <? 16384 then
    Ok (p ++ or_first 0x40 (ngtcp2_put_uint16be [] (u16 n)))
  else if n <? 1073741824 then
    Ok (p ++ or_first 0x80 (ngtcp2_put_uint32be [] (u32 n)))
  else
    assert! n <? 4611686018427387904;
    Ok (p ++ or_first 0xC0 (ngtcp2_put_uint64be [] n)).

Definition ngtcp2_put_uvarint30 (p : list Z) (n : Z) : res (list Z) :=
  assert! n <? 1073741824;
  Ok (p ++ or_first 0x80 (ngtcp2_put_uint32be [] n)).

Definition ngtcp2_put_uvarintlen (n : Z) : res Z :=
  if n <? 64 then Ok 1
  else if n <? 16384 then Ok 2
  else if n <? 1073741824 then Ok 4
  else assert! n <? 4611686018427387904; Ok 8.

(** ** Packet numbers and stream ids *)
Definition ngtcp2_get_pkt_num (p : list Z) (pkt_numlen : Z) : res Z :=
  match pkt_numlen with
  | 1 => read8 p
  | 2 => let* (s, _) := ngtcp2_get_uint16be p in Ok s
  | 3 => let* (l, _) := ngtcp2_get_uint24be p in Ok l
  | 4 => let* (l, _) := ngtcp2_get_uint32be p in Ok l
  | _ => Fault
  end.

Definition ngtcp2_put_pkt_num (p : list Z) (pkt_num len : Z) : res (list Z) :=
  match len with
  | 1 => Ok (p ++ [u8 pkt_num])
  | 2 => Ok (ngtcp2_put_uint16be p (u16 pkt_num))
  | 3 => Ok (ngtcp2_put_uint24be p (u32 pkt_num))
  | 4 => Ok (ngtcp2_put_uint32be p (u32 pkt_num))
  | _ => Fault
  end.

Definition ngtcp2_ord_stream_id (stream_id : Z) : Z :=
  u64 (u64 (Z.shiftr stream_id 2) + 1).

(** ** Lemmas on big-endian encodings *)
Lemma be_decode_acc l a : fold_left (fun a b => a * 256 + b) l a = a * 256 ^ zlen l + be_decode l.
Proof.
  revert a. unfold be_decode. induction l as [|b l IH]; intros a; simpl.
  - rewrite zlen_nil. simpl. lia.
  - rewrite IH, (IH (0 * 256 + b)), zlen_cons, Z.pow_add_r by zlia. lia.
Qed.

Lemma be_decode_cons b l : be_decode (b :: l) = b * 256 ^ zlen l + be_decode l.
Proof. unfold be_decode at 1; simpl. rewrite be_decode_acc. lia. Qed.

Lemma be_decode_bound l : bytes l -> 0 <= be_decode l < 256 ^ zlen l.
Proof.
  induction 1 as [|b l Hb _ IH]; [by cbn|].
  rewrite be_decode_cons, zlen_cons, Z.pow_add_r by zlia. unfold byte in Hb. nia.
Qed.

Lemma zlen_be_encode n v : zlen (be_encode n v) = Z.of_nat n.
Proof. induction n; simpl; [done|]. rewrite zlen_cons. lia. Qed.

Lemma bytes_be_encode n v : bytes (be_encode n v).
Proof.
  induction n; simpl; constructor; [|done]. unfold byte. apply Z.mod_pos_bound; lia.
Qed.

Lemma be_decode_encode n v : be_decode (be_encode n v) = v mod 256 ^ Z.of_nat n.
Proof.
  induction n as [|n IH]; [by rewrite Z.mod_1_r|].
  cbn [be_encode]. rewrite be_decode_cons, zlen_be_encode, IH.
  rewrite Nat2Z.inj_succ, Z.pow_succ_r, Z.mul_comm with (n := 256) by lia.
  rewrite Z.rem_mul_r by (pose proof (Z.pow_pos_nonneg 256 (Z.of_nat n)); lia). lia.
Qed.

#[export] Hint Rewrite zlen_be_encode : zlen.
#[export] Hint Resolve bytes_be_encode : zlen.

Lemma get_be_encode n v rest :
  0 <= v < 256 ^ Z.of_nat n -> get_be (Z.of_nat n) (be_encode n v ++ rest) = Ok (v, rest).
Proof.
  intros. unfold get_be. rewrite get_bytes_app by zlia. simpl.
  by rewrite be_decode_encode, Z.mod_small.
Qed.

Lemma get_be_ok n p : 0 <= n <= zlen p -> get_be n p = Ok (be_decode (ztake n p), zdrop n p).
Proof. intros. unfold get_be. by rewrite get_bytes_ok. Qed.

(** ** The reference encoding of a variable-length integer *)
Definition uvarint_size (n : Z) : nat :=
  if n <? 64 then 1 else if n <? 16384 then 2 else if n <? 1073741824 then 4 else 8.

Definition uvarint_bytes (n : Z) : list Z :=
  let k := uvarint_size n in
  be_encode k (n + Z.log2 (Z.of_nat k) * 2 ^ (8 * Z.of_nat k - 2)).

Lemma be_encode_add_high k n c : be_encode k (n + c * 256 ^ Z.of_nat k) = be_encode k n.
Proof.
  revert c. induction k as [|k IH]; intros c; [done|].
  assert (0 < 256 ^ Z.of_nat k) by (apply Z.pow_pos_nonneg; lia).
  cbn [be_encode]. rewrite Nat2Z.inj_succ, Z.pow_succ_r by lia.
  replace (n + c * (256 * 256 ^ Z.of_nat k)) with (n + (c * 256) * 256 ^ Z.of_nat k) by lia.
  rewrite IH, Z.div_add, Z.mod_add by lia. done.
Qed.

Lemma be_encode_or k m n :
  0 <= n < 2 ^ (8 * Z.of_nat (S k) - 2) -> 0 <= m < 4 ->
  or_first (m * 64) (be_encode (S k) n)
  = be_encode (S k) (n + m * 2 ^ (8 * Z.of_nat (S k) - 2)).
Proof.
  intros Hn Hm. cbn [be_encode or_first].
  replace (8 * Z.of_nat (S k) - 2) with (6 + 8 * Z.of_nat k) in * by lia.
  assert (H256 : 256 ^ Z.of_nat k = 2 ^ (8 * Z.of_nat k)).
  { rewrite Z.pow_mul_r by lia. done. }
  rewrite Z.pow_add_r in * by lia. rewrite <- H256 in *.
  replace (n + m * (2 ^ 6 * 256 ^ Z.of_nat k)) with (n + (m * 64) * 256 ^ Z.of_nat k) by lia.
  rewrite be_encode_add_high. f_equal.
  set (q := 256 ^ Z.of_nat k) in *.
  assert (0 < q) by (subst q; apply Z.pow_pos_nonneg; lia).
  assert (0 <= n / q < 64) by (split; [apply Z.div_pos; lia | apply Z.div_lt_upper_bound; lia]).
  rewrite Z.div_add by lia. rewrite !Z.mod_small by lia.
  rewrite Z.lor_comm. change 64 with (2 ^ 6). rewrite lor_shiftl_add; lia.
Qed.

Lemma put_uvarint_eq p n :
  0 <= n < 2 ^ 62 -> ngtcp2_put_uvarint p n = Ok (p ++ uvarint_bytes n).
Proof.
  intros Hn. unfold ngtcp2_put_uvarint, uvarint_bytes, uvarint_size, ngtcp2_put_uint16be,
    ngtcp2_put_uint32be, ngtcp2_put_uint64be, u16, u32, u64.
  bcase; try lia; cbn [app]; rewrite ?Z.mod_mod by lia; do 2 f_equal.
  - simpl. unfold u8. rewrite Z.div_1_r. do 2 f_equal. lia.
  - rewrite Z.mod_small by lia. apply (be_encode_or 1 1); simpl; lia.
  - rewrite Z.mod_small by lia. apply (be_encode_or 3 2); simpl; lia.
  - rewrite Z.mod_small by lia. apply (be_encode_or 7 3); simpl; lia.
Qed.

Lemma uvarint_size_cases n :
  uvarint_size n = 1%nat \/ uvarint_size n = 2%nat \/
  uvarint_size n = 4%nat \/ uvarint_size n = 8%nat.
Proof. unfold uvarint_size. bcase; auto. Qed.

Lemma zlen_uvarint_bytes n : zlen (uvarint_bytes n) = Z.of_nat (uvarint_size n).
Proof. unfold uvarint_bytes. by rewrite zlen_be_encode. Qed.

Lemma bytes_uvarint_bytes n : bytes (uvarint_bytes n).
Proof. apply bytes_be_encode. Qed.

Lemma put_uvarintlen_eq n :
  0 <= n < 2 ^ 62 -> ngtcp2_put_uvarintlen n = Ok (zlen (uvarint_bytes n)).
Proof.
  intros. rewrite zlen_uvarint_bytes. unfold ngtcp2_put_uvarintlen, uvarint_size.
  bcase; try lia; done.
Qed.

#[export] Hint Resolve bytes_uvarint_bytes : zlen.

(** The two top bits of the first byte select the length; the mask the
    code applies removes them again. *)
Lemma be_encode_first k m n :
  0 <= n < 2 ^ (8 * Z.of_nat (S k) - 2) -> 0 <= m < 4 ->
  exists b t, be_encode (S k) (n + m * 2 ^ (8 * Z.of_nat (S k) - 2)) = b :: t
              /\ Z.shiftr b 6 = m.
Proof.
  intros Hk Hm. rewrite <- be_encode_or by done. cbn [be_encode or_first].
  eexists _, _. split; [done|].
  replace (8 * Z.of_nat (S k) - 2) with (6 + 8 * Z.of_nat k) in * by lia.
  rewrite Z.pow_add_r in Hk by lia.
  replace (256 ^ Z.of_nat k) with (2 ^ (8 * Z.of_nat k)) by (rewrite Z.pow_mul_r by lia; done).
  assert (0 <= n / 2 ^ (8 * Z.of_nat k) < 64).
  { split; [apply Z.div_pos; lia | apply Z.div_lt_upper_bound; lia]. }
  rewrite (Z.mod_small _ 256) by lia. rewrite Z.shiftr_lor.
  rewrite !Z.shiftr_div_pow2 by lia. change (2 ^ 6) with 64. rewrite Z.div_mul by lia.
  rewrite Z.div_small by lia. done.
Qed.

Lemma land_mask_high e m n : 0 <= e -> 0 <= n < 2 ^ e -> Z.land (n + m * 2 ^ e) (2 ^ e - 1) = n.
Proof. intros. rewrite land_ones_mod, Z.mod_add, Z.mod_small; lia. Qed.

(** Reading back the reference encoding. *)
Lemma get_uvarint_bytes n rest :
  0 <= n < 2 ^ 62 -> ngtcp2_get_uvarint (uvarint_bytes n ++ rest) = Ok (n, rest).
Proof.
  intros Hn. unfold uvarint_bytes, uvarint_size, ngtcp2_get_uvarint.
  bcase; cbv zeta.
  - simpl. rewrite !Z.div_1_r, Z.add_0_r, Z.mod_small by lia.
    rewrite Z.shiftr_div_pow2, Z.div_small by lia.
    rewrite advance_ok by zlia. done.
  - destruct (be_encode_first 1 1 n) as (b & t & E & Hb); [simpl; lia | lia |].
    change (Z.log2 (Z.of_nat 2)) with 1. rewrite E at 1. cbn [app read8 bind]. rewrite Hb.
    unfold ngtcp2_get_uint16be. rewrite (get_be_encode 2) by (simpl; lia).
    cbn [bind]. do 2 f_equal. apply (land_mask_high 14 1 n); lia.
  - destruct (be_encode_first 3 2 n) as (b & t & E & Hb); [simpl; lia | lia |].
    change (Z.log2 (Z.of_nat 4)) with 2. rewrite E at 1. cbn [app read8 bind]. rewrite Hb.
    unfold ngtcp2_get_uint32be. rewrite (get_be_encode 4) by (simpl; lia).
    cbn [bind]. do 2 f_equal. apply (land_mask_high 30 2 n); lia.
  - destruct (be_encode_first 7 3 n) as (b & t & E & Hb); [simpl; lia | lia |].
    change (Z.log2 (Z.of_nat 8)) with 3. rewrite E at 1. cbn [app read8 bind]. rewrite Hb.
    unfold ngtcp2_get_uint64be. rewrite (get_be_encode 8) by (simpl; lia).
    cbn [bind]. do 2 f_equal. apply (land_mask_high 62 3 n); lia.
Qed.

(** Reading arbitrary bytes: the value fits in 62 bits, and the pointer
    moves by the announced length, which is 1, 2, 4 or 8. *)
Lemma byte_shiftr6 b : byte b -> Z.shiftr b 6 = 0 \/ Z.shiftr b 6 = 1 \/ Z.shiftr b 6 = 2 \/ Z.shiftr b 6 = 3.
Proof.
  unfold byte. intros. rewrite Z.shiftr_div_pow2 by lia. change (2 ^ 6) with 64.
  assert (0 <= b / 64 < 4) by (split; [apply Z.div_pos; lia | apply Z.div_lt_upper_bound; lia]).
  lia.
Qed.

Lemma get_uvarintlen_ok p :
  bytes p -> 1 <= zlen p ->
  exists n, ngtcp2_get_uvarintlen p = Ok n /\ (n = 1 \/ n = 2 \/ n = 4 \/ n = 8).
Proof.
  intros Hb Hl. destruct p as [|b p]; [by rewrite zlen_nil in Hl|].
  apply Forall_cons_iff in Hb as [Hb _].
  unfold ngtcp2_get_uvarintlen. cbn [read8 bind]. eexists; split; [done|].
  destruct (byte_shiftr6 b Hb) as [E|[E|[E|E]]]; rewrite E; auto.
Qed.

Lemma land_ones_bound x e : 0 <= e -> 0 <= Z.land x (2 ^ e - 1) < 2 ^ e.
Proof. intros. rewrite land_ones_mod by done. apply Z.mod_pos_bound. lia. Qed.

Lemma get_uvarint_tight p n :
  bytes p -> ngtcp2_get_uvarintlen p = Ok n -> n <= zlen p ->
  exists v, ngtcp2_get_uvarint p = Ok (v, zdrop n p) /\ 0 <= v < 2 ^ (8 * n - 2).
Proof.
  intros Hb Hn Hl. destruct p as [|b p]; [done|].
  apply Forall_cons_iff in Hb as [Hb _].
  unfold ngtcp2_get_uvarintlen, ngtcp2_get_uvarint in *. cbn [read8 bind] in *.
  injection Hn as Hn.
  destruct (byte_shiftr6 b Hb) as [E|[E|[E|E]]]; rewrite E in *; subst n.
  - change (Z.shiftl 1 0) with 1 in *. rewrite advance_ok by zlia. cbn [bind].
    eexists; split; [done|].
    rewrite Z.shiftr_div_pow2 in E by lia. apply Z.div_small_iff in E; unfold byte in Hb; lia.
  - change (Z.shiftl 1 1) with 2 in *. unfold ngtcp2_get_uint16be.
    rewrite get_be_ok by lia. cbn [bind].
    eexists; split; [done|]. apply (land_ones_bound _ 14). lia.
  - change (Z.shiftl 1 2) with 4 in *. unfold ngtcp2_get_uint32be.
    rewrite get_be_ok by lia. cbn [bind].
    eexists; split; [done|]. apply (land_ones_bound _ 30). lia.
  - change (Z.shiftl 1 3) with 8 in *. unfold ngtcp2_get_uint64be.
    rewrite get_be_ok by lia. cbn [bind].
    eexists; split; [done|]. apply (land_ones_bound _ 62). lia.
Qed.

Lemma get_uvarint_short p n :
  bytes p -> ngtcp2_get_uvarintlen p = Ok n -> zlen p < n -> ngtcp2_get_uvarint p = Fault.
Proof.
  intros Hb Hn Hl. destruct p as [|b p]; [done|].
  apply Forall_cons_iff in Hb as [Hb _].
  unfold ngtcp2_get_uvarintlen, ngtcp2_get_uvarint, ngtcp2_get_uint16be, ngtcp2_get_uint32be,
    ngtcp2_get_uint64be, get_be, get_bytes in *. cbn [read8 bind] in *. injection Hn as Hn.
  destruct (byte_shiftr6 b Hb) as [E|[E|[E|E]]]; rewrite E in *; subst n.
  1: change (Z.shiftl 1 0) with 1 in *; zlia.
  1: change (Z.shiftl 1 1) with 2 in *.
  2: change (Z.shiftl 1 2) with 4 in *.
  3: change (Z.shiftl 1 3) with 8 in *.
  all: bcase; done || lia.
Qed.

Lemma get_uvarint_ok p n :
  bytes p -> ngtcp2_get_uvarintlen p = Ok n -> n <= zlen p ->
  exists v, ngtcp2_get_uvarint p = Ok (v, zdrop n p) /\ 0 <= v < 2 ^ 62.
Proof.
  intros Hb Hn Hl. destruct (get_uvarint_tight p n Hb Hn Hl) as (v & E & Hv).
  exists v; split; [done|]. split; [lia|].
  destruct (get_uvarintlen_ok p Hb) as (n' & E' & Hn').
  { destruct p; [done|zlia]. }
  rewrite Hn in E'. simplify_eq. eapply Z.lt_le_trans; [apply Hv|].
  apply Z.pow_le_mono_r; lia.
Qed.

Lemma get_varint_ok p n :
  bytes p -> ngtcp2_get_uvarintlen p = Ok n -> n <= zlen p ->
  exists v, ngtcp2_get_varint p = Ok (v, zdrop n p) /\ 0 <= v < 2 ^ 62.
Proof.
  intros Hb Hn Hl. destruct (get_uvarint_ok p n Hb Hn Hl) as (v & E & Hv).
  exists v. unfold ngtcp2_get_varint. rewrite E. cbn [bind]. by rewrite i64_small by lia.
Qed.

Lemma get_varint_bytes n rest :
  0 <= n < 2 ^ 62 -> ngtcp2_get_varint (uvarint_bytes n ++ rest) = Ok (n, rest).
Proof.
  intros. unfold ngtcp2_get_varint. rewrite get_uvarint_bytes by done.
  cbn [bind]. by rewrite i64_small by lia.
Qed.

Lemma get_uvarintlen_bytes n rest :
  0 <= n < 2 ^ 62 ->
  ngtcp2_get_uvarintlen (uvarint_bytes n ++ rest) = Ok (zlen (uvarint_bytes n)).
Proof.
  intros Hn. rewrite zlen_uvarint_bytes.
  unfold ngtcp2_get_uvarintlen, uvarint_bytes, uvarint_size. bcase; cbv zeta.
  - simpl. rewrite !Z.div_1_r, Z.add_0_r, Z.mod_small, Z.shiftr_div_pow2, Z.div_small by lia.
    done.
  - destruct (be_encode_first 1 1 n) as (b & t & E & Hb); [simpl; lia | lia |].
    change (Z.log2 (Z.of_nat 2)) with 1. rewrite E. cbn [app read8 bind]. by rewrite Hb.
  - destruct (be_encode_first 3 2 n) as (b & t & E & Hb); [simpl; lia | lia |].
    change (Z.log2 (Z.of_nat 4)) with 2. rewrite E. cbn [app read8 bind]. by rewrite Hb.
  - destruct (be_encode_first 7 3 n) as (b & t & E & Hb); [simpl; lia | lia |].
    change (Z.log2 (Z.of_nat 8)) with 3. rewrite E. cbn [app read8 bind]. by rewrite Hb.
Qed.


(** ** Properties of the conversions *)

(** C1: every integer below 2^62 survives a round trip through
    [ngtcp2_put_uvarint] and [ngtcp2_get_uvarint], whatever follows it in
    the buffer; the bytes written are exactly as many as
    [ngtcp2_put_uvarintlen] announced, and the reader's
    [ngtcp2_get_uvarintlen] agrees. *)
Theorem uvarint_roundtrip (p : list Z) (n : Z) (rest : list Z) :
  0 <= n < 2 ^ 62 ->
  exists bs,
    ngtcp2_put_uvarint p n = Ok (p ++ bs) /\
    ngtcp2_put_uvarintlen n = Ok (zlen bs) /\
    ngtcp2_get_uvarintlen (bs ++ rest) = Ok (zlen bs) /\
    ngtcp2_get_uvarint (bs ++ rest) = Ok (n, rest).
Proof.
  intros Hn. exists (uvarint_bytes n).
  auto using put_uvarint_eq, put_uvarintlen_eq, get_uvarintlen_bytes, get_uvarint_bytes.
Qed.

Lemma uvarint_roundtrip_witness :
  exists bs,
    ngtcp2_put_uvarint [] 494878333 = Ok ([] ++ bs) /\
    ngtcp2_put_uvarintlen 494878333 = Ok (zlen bs) /\
    ngtcp2_get_uvarintlen (bs ++ [7]) = Ok (zlen bs) /\
    ngtcp2_get_uvarint (bs ++ [7]) = Ok (494878333, [7]).
Proof. apply (uvarint_roundtrip [] 494878333 [7]). lia. Defined.

(** C2: on arbitrary bytes the reader either consumes the 1, 2, 4 or 8 bytes
    its first byte announces and yields a value below 2^62 that the writer
    accepts and encodes in no more bytes, or reads past the end of the
    buffer exactly when fewer bytes than announced are left. *)
Theorem get_uvarint_spec (p : list Z) :
  bytes p -> 1 <= zlen p ->
  exists n, ngtcp2_get_uvarintlen p = Ok n /\
    (if n <=? zlen p then
       exists v k, ngtcp2_get_uvarint p = Ok (v, zdrop n p) /\ 0 <= v < 2 ^ 62 /\
                   ngtcp2_put_uvarintlen v = Ok k /\ 1 <= k <= n /\ n <= 8
     else ngtcp2_get_uvarint p = Fault).
Proof.
  intros Hb Hl. destruct (get_uvarintlen_ok p Hb Hl) as (n & En & Hn).
  exists n; split; [done|]. destruct (Z.leb_spec n (zlen p)).
  - destruct (get_uvarint_ok p n) as (v & Ev & Hv); [done..|].
    destruct (get_uvarint_tight p n) as (v' & Ev' & Hv'); [done..|].
    rewrite Ev in Ev'. simplify_eq.
    exists v', (zlen (uvarint_bytes v')). rewrite put_uvarintlen_eq, zlen_uvarint_bytes by done.
    split_and!; try done; unfold uvarint_size; destruct Hn as [->|[->|[->| ->]]]; cbn in Hv';
      bcase; lia.
  - eauto using get_uvarint_short.
Qed.

Lemma get_uvarint_spec_witness :
  exists n, ngtcp2_get_uvarintlen [0x40; 0x25; 9] = Ok n /\
    (if n <=? zlen [0x40; 0x25; 9] then
       exists v k, ngtcp2_get_uvarint [0x40; 0x25; 9] = Ok (v, zdrop n [0x40; 0x25; 9]) /\
                   0 <= v < 2 ^ 62 /\ ngtcp2_put_uvarintlen v = Ok k /\ 1 <= k <= n /\ n <= 8
     else ngtcp2_get_uvarint [0x40; 0x25; 9] = Fault).
Proof.
  apply (get_uvarint_spec [0x40; 0x25; 9]).
  - repeat constructor; discriminate.
  - discriminate.
Defined.
