(* ===== verification/Const.v ===== *)
(** * Constants of the public and internal headers

    Error codes ([lib/includes/zngtcp2/zngtcp2.h]), packet and frame types,
    header bits and limits ([lib/ngtcp2_pkt.h]), with the values of the
    source. *)

From S2P Require Import Prelude.

(** ** Error codes *)
Definition NGTCP2_ERR_INVALID_ARGUMENT : Z := -201.
Definition NGTCP2_ERR_NOBUF : Z := -202.
Definition NGTCP2_ERR_PROTO : Z := -203.
Definition NGTCP2_ERR_ACK_FRAME : Z := -205.
Definition NGTCP2_ERR_STREAM_IN_USE : Z := -207.
Definition NGTCP2_ERR_FLOW_CONTROL : Z := -209.
Definition NGTCP2_ERR_STREAM_LIMIT : Z := -211.
Definition NGTCP2_ERR_FINAL_SIZE : Z := -212.
Definition NGTCP2_ERR_CRYPTO : Z := -213.
Definition NGTCP2_ERR_REQUIRED_TRANSPORT_PARAM : Z := -215.
Definition NGTCP2_ERR_MALFORMED_TRANSPORT_PARAM : Z := -216.
Definition NGTCP2_ERR_FRAME_ENCODING : Z := -217.
Definition NGTCP2_ERR_STREAM_STATE : Z := -221.
Definition NGTCP2_ERR_TRANSPORT_PARAM : Z := -225.
Definition NGTCP2_ERR_INTERNAL : Z := -228.
Definition NGTCP2_ERR_CRYPTO_BUFFER_EXCEEDED : Z := -229.
Definition NGTCP2_ERR_VERSION_NEGOTIATION : Z := -235.
Definition NGTCP2_ERR_VERSION_NEGOTIATION_FAILURE : Z := -237.
Definition NGTCP2_ERR_NOMEM : Z := -501.
Definition NGTCP2_ERR_CALLBACK_FAILURE : Z := -502.
Definition NGTCP2_ERR_BUF_CONTRACT : Z := -503.

(** ** Versions, connection ids, packets *)
Definition NGTCP2_PROTO_VER_V1 : Z := 0x00000001.
Definition NGTCP2_PROTO_VER_V2 : Z := 0x6B3343CF.
Definition NGTCP2_RESERVED_VERSION_MASK : Z := 0x0A0A0A0A.
Definition NGTCP2_MAX_UDP_PAYLOAD_SIZE : Z := 1200.
Definition NGTCP2_MAX_CIDLEN : Z := 20.
Definition NGTCP2_MIN_CIDLEN : Z := 1.
Definition NGTCP2_MIN_INITIAL_DCIDLEN : Z := 8.
Definition NGTCP2_STATELESS_RESET_TOKENLEN : Z := 16.
Definition NGTCP2_MIN_STATELESS_RESET_RANDLEN : Z := 5.
Definition NGTCP2_RETRY_TAGLEN : Z := 16.
Definition NGTCP2_MAX_VARINT : Z := 2 ^ 62 - 1.

Definition NGTCP2_PKT_FLAG_NONE : Z := 0x00.
Definition NGTCP2_PKT_FLAG_LONG_FORM : Z := 0x01.
Definition NGTCP2_PKT_FLAG_FIXED_BIT_CLEAR : Z := 0x02.
Definition NGTCP2_PKT_FLAG_KEY_PHASE : Z := 0x04.

Definition NGTCP2_PKT_VERSION_NEGOTIATION : Z := 0x80.
Definition NGTCP2_PKT_INITIAL : Z := 0x10.
Definition NGTCP2_PKT_0RTT : Z := 0x11.
Definition NGTCP2_PKT_HANDSHAKE : Z := 0x12.
Definition NGTCP2_PKT_RETRY : Z := 0x13.
Definition NGTCP2_PKT_1RTT : Z := 0x40.

Definition NGTCP2_HEADER_FORM_BIT : Z := 0x80.
Definition NGTCP2_FIXED_BIT_MASK : Z := 0x40.
Definition NGTCP2_LONG_TYPE_MASK : Z := 0x30.
Definition NGTCP2_LONG_RESERVED_BIT_MASK : Z := 0x0C.
Definition NGTCP2_SHORT_RESERVED_BIT_MASK : Z := 0x18.
Definition NGTCP2_SHORT_KEY_PHASE_BIT : Z := 0x04.
Definition NGTCP2_MIN_LONG_HEADERLEN : Z := 1 + 4 + 1 + 1 + 1 + 1.
Definition NGTCP2_PKT_LENGTHLEN : Z := 4.

Definition NGTCP2_PKT_TYPE_INITIAL_V1 : Z := 0x0.
Definition NGTCP2_PKT_TYPE_0RTT_V1 : Z := 0x1.
Definition NGTCP2_PKT_TYPE_HANDSHAKE_V1 : Z := 0x2.
Definition NGTCP2_PKT_TYPE_RETRY_V1 : Z := 0x3.
Definition NGTCP2_PKT_TYPE_INITIAL_V2 : Z := 0x1.
Definition NGTCP2_PKT_TYPE_0RTT_V2 : Z := 0x2.
Definition NGTCP2_PKT_TYPE_HANDSHAKE_V2 : Z := 0x3.
Definition NGTCP2_PKT_TYPE_RETRY_V2 : Z := 0x0.

(** ** Frames *)
Definition NGTCP2_STREAM_FIN_BIT : Z := 0x01.
Definition NGTCP2_STREAM_LEN_BIT : Z := 0x02.
Definition NGTCP2_STREAM_OFF_BIT : Z := 0x04.
Definition NGTCP2_MAX_ACK_RANGES : Z := 32.
Definition NGTCP2_MAX_STREAM_DATACNT : Z := 256.

Definition NGTCP2_FRAME_PADDING : Z := 0x00.
Definition NGTCP2_FRAME_PING : Z := 0x01.
Definition NGTCP2_FRAME_ACK : Z := 0x02.
Definition NGTCP2_FRAME_ACK_ECN : Z := 0x03.
Definition NGTCP2_FRAME_RESET_STREAM : Z := 0x04.
Definition NGTCP2_FRAME_STOP_SENDING : Z := 0x05.
Definition NGTCP2_FRAME_CRYPTO : Z := 0x06.
Definition NGTCP2_FRAME_NEW_TOKEN : Z := 0x07.
Definition NGTCP2_FRAME_STREAM : Z := 0x08.
Definition NGTCP2_FRAME_MAX_DATA : Z := 0x10.
Definition NGTCP2_FRAME_MAX_STREAM_DATA : Z := 0x11.
Definition NGTCP2_FRAME_MAX_STREAMS_BIDI : Z := 0x12.
Definition NGTCP2_FRAME_MAX_STREAMS_UNI : Z := 0x13.
Definition NGTCP2_FRAME_DATA_BLOCKED : Z := 0x14.
Definition NGTCP2_FRAME_STREAM_DATA_BLOCKED : Z := 0x15.
Definition NGTCP2_FRAME_STREAMS_BLOCKED_BIDI : Z := 0x16.
Definition NGTCP2_FRAME_STREAMS_BLOCKED_UNI : Z := 0x17.
Definition NGTCP2_FRAME_NEW_CONNECTION_ID : Z := 0x18.
Definition NGTCP2_FRAME_RETIRE_CONNECTION_ID : Z := 0x19.
Definition NGTCP2_FRAME_PATH_CHALLENGE : Z := 0x1A.
Definition NGTCP2_FRAME_PATH_RESPONSE : Z := 0x1B.
Definition NGTCP2_FRAME_CONNECTION_CLOSE : Z := 0x1C.
Definition NGTCP2_FRAME_CONNECTION_CLOSE_APP : Z := 0x1D.
Definition NGTCP2_FRAME_HANDSHAKE_DONE : Z := 0x1E.
Definition NGTCP2_FRAME_DATAGRAM : Z := 0x30.
Definition NGTCP2_FRAME_DATAGRAM_LEN : Z := 0x31.

(** ** Time *)
Definition NGTCP2_NANOSECONDS : Z := 1.
Definition NGTCP2_MICROSECONDS : Z := 1000.
Definition NGTCP2_MILLISECONDS : Z := 1000000.
Definition NGTCP2_SECONDS : Z := 1000000000.

Definition NGTCP2_ERR_FATAL : Z := -500.

Definition ngtcp2_err_is_fatal (liberr : Z) : bool := liberr <? NGTCP2_ERR_FATAL.
