(* ===== verification/Wp.v ===== *)
(** * A weakest-precondition calculus for outcomes

    [wp c Q E] holds when [c] returns normally in [Q] or returns an error
    code in [E]; it excludes [Fault].  The rules follow the reader
    operations of [Prelude] and [Conv]; [wp_step] applies them and
    discharges the bounds with [lia], so that the memory-safety proof of a
    decoder is a run through its code. *)

From S2P Require Import Prelude Conv.

Definition wp {A : Type} (c : res A) (Q : A -> Prop) (E : Z -> Prop) : Prop :=
  match c with
  | Ok a => Q a
  | Err e => E e
  | Fault => False
  end.

Section Rules.
Context {A B : Type} (E : Z -> Prop).

Lemma wp_bind (c : res A) (f : A -> res B) Q :
  wp c (fun a => wp (f a) Q E) E -> wp (bind c f) Q E.
Proof. by destruct c. Qed.

Lemma wp_mono (c : res A) (Q Q' : A -> Prop) (E' : Z -> Prop) :
  wp c Q E -> (forall a, Q a -> Q' a) -> (forall e, E e -> E' e) -> wp c Q' E'.
Proof. destruct c; simpl; auto. Qed.

Lemma wp_no_fault (c : res A) Q : wp c Q E -> c <> Fault.
Proof. by destruct c. Qed.

Lemma wp_read8 p (Q : Z -> Prop) :
  bytes p -> 1 <= zlen p ->
  (forall b p', p = b :: p' -> 0 <= b < 256 -> Q b) -> wp (read8 p) Q E.
Proof.
  destruct p as [|b p]; [by rewrite zlen_nil|]. intros Hb _ H.
  apply Forall_cons_iff in Hb as [Hb _]. simpl. eauto.
Qed.

Lemma wp_advance p n (Q : list Z -> Prop) :
  bytes p -> 0 <= n <= zlen p ->
  (forall p', zdrop n p = p' -> zlen p' = zlen p - n -> bytes p' -> Q p') ->
  wp (advance p n) Q E.
Proof.
  intros Hb Hn H. rewrite advance_ok by done. simpl.
  apply H; [done | by apply zlen_zdrop | by apply Forall_zdrop].
Qed.

Lemma wp_get_bytes p n (Q : list Z * list Z -> Prop) :
  bytes p -> 0 <= n <= zlen p ->
  (forall l p', zdrop n p = p' -> zlen p' = zlen p - n -> bytes p' ->
                ztake n p = l -> zlen l = n -> bytes l -> Q (l, p')) ->
  wp (get_bytes p n) Q E.
Proof.
  intros Hb Hn H. rewrite get_bytes_ok by done. simpl.
  apply H; [done | by apply zlen_zdrop | by apply Forall_zdrop | done | by apply zlen_ztake
           | by apply Forall_ztake].
Qed.

Lemma wp_get_be p n (Q : Z * list Z -> Prop) :
  bytes p -> 0 <= n <= zlen p ->
  (forall v p', zdrop n p = p' -> zlen p' = zlen p - n -> bytes p' ->
                0 <= v < 256 ^ n -> Q (v, p')) ->
  wp (get_be n p) Q E.
Proof.
  intros Hb Hn H. rewrite get_be_ok by done. simpl.
  apply H; [done | by apply zlen_zdrop | by apply Forall_zdrop |].
  pose proof (be_decode_bound (ztake n p) ltac:(by apply Forall_ztake)) as Hd.
  by rewrite zlen_ztake in Hd.
Qed.

Lemma wp_get_uvarintlen p (Q : Z -> Prop) :
  bytes p -> 1 <= zlen p ->
  (forall n, ngtcp2_get_uvarintlen p = Ok n -> 1 <= n <= 8 -> Q n) ->
  wp (ngtcp2_get_uvarintlen p) Q E.
Proof.
  intros Hb Hl H. destruct (get_uvarintlen_ok p Hb Hl) as (n & En & Hn).
  rewrite En. apply H; [done|lia].
Qed.

Lemma wp_get_uvarint p n (Q : Z * list Z -> Prop) :
  bytes p -> ngtcp2_get_uvarintlen p = Ok n -> 0 <= n <= zlen p ->
  (forall v p', 0 <= v < 2 ^ 62 -> zdrop n p = p' -> zlen p' = zlen p - n -> bytes p' ->
                Q (v, p')) ->
  wp (ngtcp2_get_uvarint p) Q E.
Proof.
  intros Hb En Hn H. destruct (get_uvarint_ok p n) as (v & Ev & Hv); [done..|lia|].
  rewrite Ev. apply H; [done|done| by apply zlen_zdrop | by apply Forall_zdrop].
Qed.

Lemma wp_get_varint p n (Q : Z * list Z -> Prop) :
  bytes p -> ngtcp2_get_uvarintlen p = Ok n -> 0 <= n <= zlen p ->
  (forall v p', 0 <= v < 2 ^ 62 -> zdrop n p = p' -> zlen p' = zlen p - n -> bytes p' ->
                Q (v, p')) ->
  wp (ngtcp2_get_varint p) Q E.
Proof.
  intros Hb En Hn H. destruct (get_varint_ok p n) as (v & Ev & Hv); [done..|lia|].
  rewrite Ev. apply H; [done|done| by apply zlen_zdrop | by apply Forall_zdrop].
Qed.
End Rules.

(** Two names of the same suffix are merged. *)
Ltac wp_same :=
  repeat match goal with
  | H1 : zdrop ?n ?p = ?q, H2 : zdrop ?n ?p = ?r |- _ =>
      first [ constr_eq q r; fail 1
            | let E := fresh in assert (E : r = q) by congruence; clear H2; subst r ]
  end.

Ltac wp_lia := first [ assumption | lia | (zlen_pos; lia) ].

Ltac wp_or x y :=
  let E := fresh in
  destruct (x || y) eqn:E;
  rewrite ?orb_true_iff, ?orb_false_iff, ?Z.ltb_lt, ?Z.ltb_ge, ?Z.eqb_eq, ?Z.eqb_neq in E.

Ltac wp_step :=
  lazymatch goal with
  | |- wp (bind _ _) _ _ => apply wp_bind
  | |- wp (Ok _) _ _ => cbn [wp]
  | |- wp (Err _) _ _ => cbn [wp]
  | |- wp (read8 _) _ _ => apply wp_read8; [assumption | wp_lia | intros ? ? ? ?]
  | |- wp (advance _ _) _ _ => apply wp_advance; [assumption | wp_lia | intros ? ? ? ?; wp_same]
  | |- wp (get_bytes _ _) _ _ =>
      apply wp_get_bytes; [assumption | wp_lia | intros ? ? ? ? ? ? ? ?; wp_same]
  | |- wp (get_be _ _) _ _ => apply wp_get_be; [assumption | wp_lia | intros ? ? ? ? ? ?; wp_same]
  | |- wp (ngtcp2_get_uint32be _) _ _ => unfold ngtcp2_get_uint32be
  | |- wp (ngtcp2_get_uint16be _) _ _ => unfold ngtcp2_get_uint16be
  | |- wp (ngtcp2_get_uint24be _) _ _ => unfold ngtcp2_get_uint24be
  | |- wp (ngtcp2_get_uvarintlen _) _ _ =>
      apply wp_get_uvarintlen; [assumption | wp_lia | intros ? ? ?]
  | |- wp (ngtcp2_get_uvarint _) _ _ =>
      eapply wp_get_uvarint; [assumption | eassumption | wp_lia | intros ? ? ? ? ? ?; wp_same]
  | |- wp (ngtcp2_get_varint _) _ _ =>
      eapply wp_get_varint; [assumption | eassumption | wp_lia | intros ? ? ? ? ? ?; wp_same]
  | |- wp (if ?a <? ?b then _ else _) _ _ => destruct (Z.ltb_spec a b)
  | |- wp (if ?a =? ?b then _ else _) _ _ => destruct (Z.eqb_spec a b)
  | |- wp (if ?a <=? ?b then _ else _) _ _ => destruct (Z.leb_spec a b)
  | |- wp (if negb (?a =? ?b) then _ else _) _ _ => destruct (Z.eqb_spec a b); cbn [negb]
  | |- wp (if ?x || ?y then _ else _) _ _ => wp_or x y
  | |- wp (let '(_, _) := _ in _) _ _ => cbv beta iota
  | |- wp (let x := _ in _) _ _ => cbv zeta
  end; try (exfalso; lia).
Ltac wp_steps := repeat (wp_step; cbv beta iota zeta).

(** Running a decoder on the bytes an encoder produced. *)
Lemma advance_cons1 b p : advance (b :: p) 1 = Ok p.
Proof. rewrite advance_ok by zlia. done. Qed.

Lemma advance_0 p n : n = 0 -> advance p n = Ok p.
Proof. intros ->. rewrite advance_ok by zlia. done. Qed.

Lemma advance_app_le l r n : zlen l <= n -> advance (l ++ r) n = advance r (n - zlen l).
Proof.
  intros Hn. unfold advance.
  replace (n <=? zlen (l ++ r)) with (n - zlen l <=? zlen r) by (rewrite zlen_app; bcase; lia).
  replace (0 <=? n) with (0 <=? n - zlen l) by (zlen_pos; bcase; lia).
  destruct (_ && _) eqn:E; [|done]. f_equal. unfold zdrop, zlen in *.
  rewrite drop_app_ge by lia. f_equal. lia.
Qed.

Lemma advance_cons_le b r n : 1 <= n -> advance (b :: r) n = advance r (n - 1).
Proof. intros. change (b :: r) with ([b] ++ r). by rewrite (advance_app_le [b] r n) by zlia. Qed.

(** Comparisons of named constants. *)
Ltac ceqb :=
  repeat match goal with
  | |- context [Z.eqb ?a ?b] =>
      is_const a; is_const b;
      let v := eval vm_compute in (Z.eqb a b) in
      match v with
      | true => change (Z.eqb a b) with true
      | false => change (Z.eqb a b) with false
      end
  end; cbv beta iota.

Ltac rt_if :=
  match goal with
  | |- context [if ?a <? ?b then _ else _] =>
      first [ destruct (Z.ltb_spec a b); [solve [exfalso; zlia] |]
            | destruct (Z.ltb_spec a b); [| solve [exfalso; zlia]] ]
  | |- context [if ?a <=? ?b then _ else _] =>
      destruct (Z.leb_spec a b); [| solve [exfalso; zlia]]
  | |- context [if ?a =? ?b then _ else _] =>
      first [ destruct (Z.eqb_spec a b); [| solve [exfalso; zlia]]
            | destruct (Z.eqb_spec a b); [solve [exfalso; zlia] |] ]
  end.

Ltac rt_step :=
  first
  [ match goal with
    | |- context [read8 (?b :: ?p)] => rewrite (read8_cons b p)
    | |- context [advance ?p ?n] => rewrite (advance_0 p n) by zlia
    | |- context [advance (?b :: ?p) ?n] => rewrite (advance_cons_le b p n) by zlia
    | |- context [advance (?l ++ ?r) ?n] => rewrite (advance_app_le l r n) by zlia
    | |- context [get_bytes (?l ++ ?r) ?k] => rewrite (get_bytes_app l r k) by zlia
    | |- context [ngtcp2_get_uvarintlen (uvarint_bytes ?n ++ ?r)] =>
        rewrite (get_uvarintlen_bytes n r) by wp_lia
    | |- context [ngtcp2_get_uvarint (uvarint_bytes ?n ++ ?r)] =>
        rewrite (get_uvarint_bytes n r) by wp_lia
    | |- context [ngtcp2_get_varint (uvarint_bytes ?n ++ ?r)] =>
        rewrite (get_varint_bytes n r) by wp_lia
    end
  | rt_if ]; cbn [bind]; cbv beta iota zeta.
Ltac rt_steps := repeat rt_step.

(** The fixed four-byte form of [ngtcp2_put_uvarint30]. *)
Definition uvarint30_bytes (n : Z) : list Z := be_encode 4 (n + 2 * 2 ^ 30).

Lemma zlen_uvarint30_bytes n : zlen (uvarint30_bytes n) = 4.
Proof. reflexivity. Qed.

Lemma put_uvarint30_eq p n :
  0 <= n < 2 ^ 30 -> ngtcp2_put_uvarint30 p n = Ok (p ++ uvarint30_bytes n).
Proof.
  intros. unfold ngtcp2_put_uvarint30. destruct (Z.ltb_spec n 1073741824); [|lia].
  unfold ngtcp2_put_uint32be. rewrite u32_small by lia. cbn [app].
  do 2 f_equal. apply (be_encode_or 3 2); simpl; lia.
Qed.

Lemma get_uvarintlen30 n r :
  0 <= n < 2 ^ 30 -> ngtcp2_get_uvarintlen (uvarint30_bytes n ++ r) = Ok 4.
Proof.
  intros. destruct (be_encode_first 3 2 n) as (b & t & E & Hb); [simpl; lia | lia |].
  unfold uvarint30_bytes. change (2 * 2 ^ 30) with (2 * 2 ^ (8 * Z.of_nat 4 - 2)).
  rewrite E. unfold ngtcp2_get_uvarintlen. cbn [app read8 bind]. by rewrite Hb.
Qed.

Lemma get_uvarint30 n r :
  0 <= n < 2 ^ 30 -> ngtcp2_get_uvarint (uvarint30_bytes n ++ r) = Ok (n, r).
Proof.
  intros. destruct (be_encode_first 3 2 n) as (b & t & E & Hb); [simpl; lia | lia |].
  unfold uvarint30_bytes, ngtcp2_get_uvarint.
  change (2 * 2 ^ 30) with (2 * 2 ^ (8 * Z.of_nat 4 - 2)) at 1.
  rewrite E at 1. cbn [app read8 bind]. rewrite Hb.
  unfold ngtcp2_get_uint32be. rewrite (get_be_encode 4) by (simpl; lia).
  cbn [bind]. do 2 f_equal. apply (land_mask_high 30 2 n); lia.
Qed.

#[export] Hint Rewrite zlen_uvarint30_bytes : zlen.
