(* ===== verification/PktHd.v ===== *)
(** * QUIC packet headers: [lib/ngtcp2_pkt.c] (headers, packet numbers)

    Long and short header codecs, packet types of QUIC v1 and v2, the
    version/connection-id peek of a datagram and the reconstruction of a
    truncated packet number.  Connection ids are the list of their
    [datalen] bytes ([lib/ngtcp2_cid.c]). *)

From S2P Require Import Prelude Conv Const Wp.

(** ** Connection ids *)
Definition ngtcp2_cid_init (p : list Z) (datalen : Z) : res (list Z) :=
  assert! datalen <=? NGTCP2_MAX_CIDLEN;
  if datalen =? 0 then Ok []
  else let* (d, _) := get_bytes p datalen in Ok d.

(** [memcmp] of the first [n] bytes, reduced to its sign. *)
Fixpoint memcmp (a b : list Z) (n : nat) : Z :=
  match n, a, b with
  | S m, x :: a', y :: b' =>
      if x <? y then -1 else if y <? x then 1 else memcmp a' b' m
  | _, _, _ => 0
  end.

Definition ngtcp2_cid_eq (cid other : list Z) : bool :=
  (zlen cid =? zlen other) && (memcmp cid other (length cid) =? 0).

Definition ngtcp2_cid_less (lhs rhs : list Z) : bool :=
  let s := zlen lhs <? zlen rhs in
  let n := if s then length lhs else length rhs in
  let c := memcmp lhs rhs n in
  (c <? 0) || ((c =? 0) && s).

(** ** Packet headers *)
Record ngtcp2_pkt_hd := mk_pkt_hd {
  hd_dcid : list Z;
  hd_scid : list Z;
  hd_pkt_num : Z;
  (** [token] and [tokenlen]: the token's bytes *)
  hd_token : list Z;
  hd_pkt_numlen : Z;
  hd_len : Z;
  hd_version : Z;
  hd_type : Z;
  hd_flags : Z;
}.

Definition ngtcp2_pkt_hd_init (flags type : Z) (dcid scid : option (list Z))
    (pkt_num pkt_numlen version : Z) : ngtcp2_pkt_hd :=
  {| hd_flags := flags; hd_type := type;
     hd_dcid := match dcid with Some d => d | None => [] end;
     hd_scid := match scid with Some d => d | None => [] end;
     hd_pkt_num := pkt_num; hd_token := []; hd_pkt_numlen := pkt_numlen;
     hd_version := version; hd_len := 0 |}.

Definition ngtcp2_is_supported_version (version : Z) : bool :=
  (version =? NGTCP2_PROTO_VER_V1) || (version =? NGTCP2_PROTO_VER_V2).

Definition ngtcp2_is_reserved_version (version : Z) : bool :=
  Z.land version NGTCP2_RESERVED_VERSION_MASK =? NGTCP2_RESERVED_VERSION_MASK.

Definition ngtcp2_pkt_get_type_long (version c : Z) : Z :=
  let pkt_type := Z.shiftr (Z.land c NGTCP2_LONG_TYPE_MASK) 4 in
  if version =? NGTCP2_PROTO_VER_V2 then
    if pkt_type =? NGTCP2_PKT_TYPE_INITIAL_V2 then NGTCP2_PKT_INITIAL
    else if pkt_type =? NGTCP2_PKT_TYPE_0RTT_V2 then NGTCP2_PKT_0RTT
    else if pkt_type =? NGTCP2_PKT_TYPE_HANDSHAKE_V2 then NGTCP2_PKT_HANDSHAKE
    else if pkt_type =? NGTCP2_PKT_TYPE_RETRY_V2 then NGTCP2_PKT_RETRY
    else 0
  else if negb (ngtcp2_is_supported_version version) then 0
  else if pkt_type =? NGTCP2_PKT_TYPE_INITIAL_V1 then NGTCP2_PKT_INITIAL
  else if pkt_type =? NGTCP2_PKT_TYPE_0RTT_V1 then NGTCP2_PKT_0RTT
  else if pkt_type =? NGTCP2_PKT_TYPE_HANDSHAKE_V1 then NGTCP2_PKT_HANDSHAKE
  else if pkt_type =? NGTCP2_PKT_TYPE_RETRY_V1 then NGTCP2_PKT_RETRY
  else 0.

Definition ngtcp2_pkt_versioned_type (version pkt_type : Z) : res Z :=
  if version =? NGTCP2_PROTO_VER_V2 then
    if pkt_type =? NGTCP2_PKT_INITIAL then Ok NGTCP2_PKT_TYPE_INITIAL_V2
    else if pkt_type =? NGTCP2_PKT_0RTT then Ok NGTCP2_PKT_TYPE_0RTT_V2
    else if pkt_type =? NGTCP2_PKT_HANDSHAKE then Ok NGTCP2_PKT_TYPE_HANDSHAKE_V2
    else if pkt_type =? NGTCP2_PKT_RETRY then Ok NGTCP2_PKT_TYPE_RETRY_V2
    else Fault
  else
    if pkt_type =? NGTCP2_PKT_INITIAL then Ok NGTCP2_PKT_TYPE_INITIAL_V1
    else if pkt_type =? NGTCP2_PKT_0RTT then Ok NGTCP2_PKT_TYPE_0RTT_V1
    else if pkt_type =? NGTCP2_PKT_HANDSHAKE then Ok NGTCP2_PKT_TYPE_HANDSHAKE_V1
    else if pkt_type =? NGTCP2_PKT_RETRY then Ok NGTCP2_PKT_TYPE_RETRY_V1
    else Fault.

Definition ngtcp2_pkt_verify_reserved_bits (c : Z) : Z :=
  if negb (Z.land c NGTCP2_HEADER_FORM_BIT =? 0) then
    if Z.land c NGTCP2_LONG_RESERVED_BIT_MASK =? 0 then 0 else NGTCP2_ERR_PROTO
  else if Z.land c NGTCP2_SHORT_RESERVED_BIT_MASK =? 0 then 0 else NGTCP2_ERR_PROTO.

(** ** Peeking at a datagram *)
Record ngtcp2_version_cid := mk_version_cid {
  vc_version : Z;
  vc_dcid : list Z;
  vc_scid : list Z;
}.

(** The return value is 0 or [NGTCP2_ERR_VERSION_NEGOTIATION]: with the
    latter [*dest] is filled as well. *)
Definition ngtcp2_pkt_decode_version_cid (data : list Z) (short_dcidlen : Z)
    : res (ngtcp2_version_cid * Z) :=
  let datalen := zlen data in
  assert! negb (datalen =? 0);
  let* c := read8 data in
  if negb (Z.land c NGTCP2_HEADER_FORM_BIT =? 0) then
    let len := 1 + 4 + 1 + 1 in
    if datalen <? len then Err NGTCP2_ERR_INVALID_ARGUMENT else
    let* p := advance data 5 in
    let* dcidlen := read8 p in
    let len := len + dcidlen in
    if datalen <? len then Err NGTCP2_ERR_INVALID_ARGUMENT else
    let* p := advance data (5 + 1 + dcidlen) in
    let* scidlen := read8 p in
    let len := len + scidlen in
    if datalen <? len then Err NGTCP2_ERR_INVALID_ARGUMENT else
    let* p := advance data 1 in
    let* (version, _) := ngtcp2_get_uint32be p in
    let supported_version := ngtcp2_is_supported_version version in
    if supported_version
       && ((NGTCP2_MAX_CIDLEN <? dcidlen) || (NGTCP2_MAX_CIDLEN <? scidlen))
    then Err NGTCP2_ERR_INVALID_ARGUMENT else
    if negb (version =? 0) && negb supported_version
       && (datalen <? NGTCP2_MAX_UDP_PAYLOAD_SIZE)
    then Err NGTCP2_ERR_INVALID_ARGUMENT else
    let* p := advance data 6 in
    let* (dcid, _) := get_bytes p dcidlen in
    let* p := advance data (6 + dcidlen + 1) in
    let* (scid, _) := get_bytes p scidlen in
    let dest := mk_version_cid version dcid scid in
    if version =? 0 then Ok (dest, 0) else
    if negb supported_version then Ok (dest, NGTCP2_ERR_VERSION_NEGOTIATION)
    else Ok (dest, 0)
  else
    assert! short_dcidlen <=? NGTCP2_MAX_CIDLEN;
    let len := 1 + short_dcidlen in
    if datalen <? len then Err NGTCP2_ERR_INVALID_ARGUMENT else
    let* p := advance data 1 in
    let* (dcid, _) := get_bytes p short_dcidlen in
    Ok (mk_version_cid 0 dcid [], 0).

(** ** Long headers

    The decoder returns the header and the number of bytes it occupies. *)
Definition decode_hd_long_type (c version : Z) : res (Z * Z * Z) :=
  if version =? 0 then
    Ok (NGTCP2_PKT_VERSION_NEGOTIATION, NGTCP2_PKT_FLAG_NONE, 5 + 2)
  else
    let flags :=
      if Z.land c NGTCP2_FIXED_BIT_MASK =? 0
      then Z.lor NGTCP2_PKT_FLAG_LONG_FORM NGTCP2_PKT_FLAG_FIXED_BIT_CLEAR
      else NGTCP2_PKT_FLAG_LONG_FORM in
    let type := ngtcp2_pkt_get_type_long version c in
    if type =? 0 then Err NGTCP2_ERR_INVALID_ARGUMENT
    else if type =? NGTCP2_PKT_INITIAL then
      Ok (type, flags, 1 + NGTCP2_MIN_LONG_HEADERLEN - 1)
    else if type =? NGTCP2_PKT_RETRY then Ok (type, flags, 5 + 2)
    else if (type =? NGTCP2_PKT_HANDSHAKE) || (type =? NGTCP2_PKT_0RTT) then
      Ok (type, flags, NGTCP2_MIN_LONG_HEADERLEN - 1)
    else Fault.

(** The Token field of an Initial packet: [ntokenlen], the token, the new
    [len] and the pointer after the field. *)
Definition decode_hd_long_token (type pktlen len : Z) (p : list Z)
    : res (Z * list Z * Z * list Z) :=
  if type =? NGTCP2_PKT_INITIAL then
    let* ntokenlen := ngtcp2_get_uvarintlen p in
    let len := len + ntokenlen - 1 in
    if pktlen <? len then Err NGTCP2_ERR_INVALID_ARGUMENT else
    let* (vi, p) := ngtcp2_get_uvarint p in
    if pktlen - len <? vi then Err NGTCP2_ERR_INVALID_ARGUMENT else
    let tokenlen := vi in
    let len := len + tokenlen in
    let* (token, p) := get_bytes p tokenlen in
    Ok (ntokenlen, token, len, p)
  else Ok (0, [], len, p).

(** The Length field: [nlonglen], its value and the new [len]. *)
Definition decode_hd_long_length (type flags pktlen len : Z) (p : list Z)
    : res (Z * Z * Z) :=
  if type =? NGTCP2_PKT_RETRY then Ok (0, 0, len)
  else if Z.land flags NGTCP2_PKT_FLAG_LONG_FORM =? 0 then
    assert! type =? NGTCP2_PKT_VERSION_NEGOTIATION; Ok (0, 0, len)
  else
    let* nlonglen := ngtcp2_get_uvarintlen p in
    let len := len + nlonglen - 1 in
    if pktlen <? len then Err NGTCP2_ERR_INVALID_ARGUMENT else
    let* (vi, _) := ngtcp2_get_uvarint p in
    Ok (nlonglen, vi, len).

Definition ngtcp2_pkt_decode_hd_long (pkt : list Z) : res (ngtcp2_pkt_hd * Z) :=
  let pktlen := zlen pkt in
  if pktlen <? 5 then Err NGTCP2_ERR_INVALID_ARGUMENT else
  let* c := read8 pkt in
  if Z.land c NGTCP2_HEADER_FORM_BIT =? 0 then Err NGTCP2_ERR_INVALID_ARGUMENT else
  let* p := advance pkt 1 in
  let* (version, _) := ngtcp2_get_uint32be p in
  let* (type, flags, len) := decode_hd_long_type c version in
  if pktlen <? len then Err NGTCP2_ERR_INVALID_ARGUMENT else
  let* p := advance pkt 5 in
  let* dcil := read8 p in
  if NGTCP2_MAX_CIDLEN <? dcil then Err NGTCP2_ERR_INVALID_ARGUMENT else
  let len := len + dcil in
  if pktlen <? len then Err NGTCP2_ERR_INVALID_ARGUMENT else
  let* p := advance p (1 + dcil) in
  let* scil := read8 p in
  if NGTCP2_MAX_CIDLEN <? scil then Err NGTCP2_ERR_INVALID_ARGUMENT else
  let len := len + scil in
  if pktlen <? len then Err NGTCP2_ERR_INVALID_ARGUMENT else
  let* p := advance p (1 + scil) in
  let* (ntokenlen, token, len, p) := decode_hd_long_token type pktlen len p in
  let* (nlonglen, longlen, len) := decode_hd_long_length type flags pktlen len p in
  let* p := advance pkt 6 in
  let* dcid := ngtcp2_cid_init p dcil in
  let* p := advance p (dcil + 1) in
  let* scid := ngtcp2_cid_init p scil in
  let* p := advance p scil in
  let* p := advance p (ntokenlen + zlen token) in
  let* p := advance p nlonglen in
  assert! pktlen - zlen p =? len;
  Ok (mk_pkt_hd dcid scid 0 token 0 longlen version type flags, len).

(** The first byte of a long header. *)
Definition encode_hd_long_first (hd : ngtcp2_pkt_hd) (vtype : Z) : Z :=
  let c := u8 (Z.lor (Z.lor NGTCP2_HEADER_FORM_BIT (Z.shiftl vtype 4))
                     (u32 (hd_pkt_numlen hd - 1))) in
  if Z.land (hd_flags hd) NGTCP2_PKT_FLAG_FIXED_BIT_CLEAR =? 0
  then Z.lor c NGTCP2_FIXED_BIT_MASK else c.

Definition ngtcp2_pkt_encode_hd_long (outlen : Z) (hd : ngtcp2_pkt_hd) : res (list Z) :=
  let len := NGTCP2_MIN_LONG_HEADERLEN + zlen (hd_dcid hd) + zlen (hd_scid hd) - 2 in
  let len :=
    if negb (hd_type hd =? NGTCP2_PKT_RETRY)
    then len + (NGTCP2_PKT_LENGTHLEN + hd_pkt_numlen hd) else len in
  let* len :=
    if hd_type hd =? NGTCP2_PKT_INITIAL then
      let* n := ngtcp2_put_uvarintlen (zlen (hd_token hd)) in
      Ok (len + (n + zlen (hd_token hd)))
    else Ok len in
  if outlen <? len then Err NGTCP2_ERR_NOBUF else
  let* vtype := ngtcp2_pkt_versioned_type (hd_version hd) (hd_type hd) in
  let p := [encode_hd_long_first hd vtype] in
  let p := ngtcp2_put_uint32be p (hd_version hd) in
  let p := p ++ [u8 (zlen (hd_dcid hd))] in
  let p := p ++ hd_dcid hd in
  let p := p ++ [u8 (zlen (hd_scid hd))] in
  let p := p ++ hd_scid hd in
  let* p :=
    if hd_type hd =? NGTCP2_PKT_INITIAL then
      let* p := ngtcp2_put_uvarint p (zlen (hd_token hd)) in
      Ok (p ++ hd_token hd)
    else Ok p in
  let* p :=
    if negb (hd_type hd =? NGTCP2_PKT_RETRY) then
      let* p := ngtcp2_put_uvarint30 p (u32 (hd_len hd)) in
      ngtcp2_put_pkt_num p (hd_pkt_num hd) (hd_pkt_numlen hd)
    else Ok p in
  assert! zlen p =? len;
  Ok p.

(** ** Short headers *)
Definition ngtcp2_pkt_decode_hd_short (pkt : list Z) (dcidlen : Z)
    : res (ngtcp2_pkt_hd * Z) :=
  let pktlen := zlen pkt in
  let len := 1 + dcidlen in
  assert! dcidlen <=? NGTCP2_MAX_CIDLEN;
  if pktlen <? len then Err NGTCP2_ERR_INVALID_ARGUMENT else
  let* c := read8 pkt in
  if negb (Z.land c NGTCP2_HEADER_FORM_BIT =? 0) then Err NGTCP2_ERR_INVALID_ARGUMENT else
  let flags :=
    if Z.land c NGTCP2_FIXED_BIT_MASK =? 0
    then Z.lor NGTCP2_PKT_FLAG_NONE NGTCP2_PKT_FLAG_FIXED_BIT_CLEAR
    else NGTCP2_PKT_FLAG_NONE in
  let* p := advance pkt 1 in
  let* dcid := ngtcp2_cid_init p dcidlen in
  let* p := advance p dcidlen in
  assert! pktlen - zlen p =? len;
  Ok (mk_pkt_hd dcid [] 0 [] 0 0 0 NGTCP2_PKT_1RTT flags, len).

Definition ngtcp2_pkt_encode_hd_short (outlen : Z) (hd : ngtcp2_pkt_hd) : res (list Z) :=
  let len := 1 + zlen (hd_dcid hd) + hd_pkt_numlen hd in
  if outlen <? len then Err NGTCP2_ERR_NOBUF else
  let c := u8 (hd_pkt_numlen hd - 1) in
  let c :=
    if Z.land (hd_flags hd) NGTCP2_PKT_FLAG_FIXED_BIT_CLEAR =? 0
    then Z.lor c NGTCP2_FIXED_BIT_MASK else c in
  let c :=
    if negb (Z.land (hd_flags hd) NGTCP2_PKT_FLAG_KEY_PHASE =? 0)
    then Z.lor c NGTCP2_SHORT_KEY_PHASE_BIT else c in
  let p := [c] in
  let p := p ++ hd_dcid hd in
  let* p := ngtcp2_put_pkt_num p (hd_pkt_num hd) (hd_pkt_numlen hd) in
  assert! zlen p =? len;
  Ok p.

(** ** Packet number reconstruction *)
Definition ngtcp2_pkt_adjust_pkt_num (max_pkt_num pkt_num pkt_numlen : Z) : res Z :=
  let expected := u64 (u64 max_pkt_num + 1) in
  let win := u64 (Z.shiftl 1 (pkt_numlen * 8)) in
  let hwin := win / 2 in
  let mask := u64 (win - 1) in
  let cand := Z.lor (Z.land expected (u64 (Z.lnot mask))) (u64 pkt_num) in
  if u64 (cand + hwin) <=? expected then
    assert! cand <=? NGTCP2_MAX_VARINT - win;
    Ok (i64 (u64 (cand + win)))
  else if (u64 (expected + hwin) <? cand) && (win <=? cand) then
    Ok (i64 (u64 (cand - win)))
  else Ok (i64 cand).

(** ** Lemmas on packet numbers *)

Lemma adjust_cand_eq k expected s :
  0 <= k <= 62 -> 0 <= expected < 2 ^ 64 -> 0 <= s < 2 ^ k ->
  Z.lor (Z.land expected (u64 (Z.lnot (u64 (u64 (Z.shiftl 1 k) - 1))))) (u64 s)
  = expected / 2 ^ k * 2 ^ k + s.
Proof.
  intros Hk He Hs.
  assert (2 ^ k <= 2 ^ 62) by (apply Z.pow_le_mono_r; lia).
  assert (0 < 2 ^ k) by lia.
  rewrite Z.shiftl_mul_pow2, Z.mul_1_l by lia.
  rewrite (u64_small (2 ^ k)), (u64_small (2 ^ k - 1)), (u64_small s) by (unfold is_u64; lia).
  replace (u64 (Z.lnot (2 ^ k - 1))) with (2 ^ 64 - 2 ^ k).
  2:{ unfold u64, Z.lnot. apply (Z.mod_unique_pos _ _ (-1)); lia. }
  rewrite land_high_bits by lia. apply lor_shiftl_add; lia.
Qed.


(** The decision of the reconstruction, on unbounded integers. *)
Lemma adjust_choice w e pn :
  0 < w -> 0 <= e -> 0 <= pn -> e - w / 2 < pn <= e + w / 2 -> w mod 2 = 0 ->
  let cand := e / w * w + pn mod w in
  (cand + w / 2 <= e -> pn = cand + w) /\
  (e < cand + w / 2 -> e + w / 2 < cand -> w <= cand /\ pn = cand - w) /\
  (e < cand + w / 2 -> cand <= e + w / 2 -> pn = cand) /\ 0 <= cand < e + w.
Proof.
  intros Hw He Hp Hr Hev cand. subst cand.
  pose proof (Z.div_mod e w ltac:(lia)). pose proof (Z.mod_pos_bound e w ltac:(lia)).
  pose proof (Z.div_mod pn w ltac:(lia)). pose proof (Z.mod_pos_bound pn w ltac:(lia)).
  pose proof (Z.div_pos e w He Hw). pose proof (Z.div_pos pn w Hp Hw).
  pose proof (Z.div_mod w 2 ltac:(lia)).
  set (q := e / w) in *; set (a := pn / w) in *; set (r := e mod w) in *;
    set (s := pn mod w) in *; set (h := w / 2) in *.
  assert (a = q - 1 \/ a = q \/ a = q + 1) as [Ha|[Ha|Ha]] by nia.
  all: split_and!; intros; nia.
Qed.

Lemma put_get_pkt_num pn len rest :
  1 <= len <= 4 ->
  exists l, (forall p, ngtcp2_put_pkt_num p pn len = Ok (p ++ l)) /\ zlen l = len /\ bytes l /\
            ngtcp2_get_pkt_num (l ++ rest) len = Ok (pn mod 2 ^ (8 * len)).
Proof.
  intros Hl. assert (len = 1 \/ len = 2 \/ len = 3 \/ len = 4) as [->|[->|[->| ->]]] by lia;
    cbn -[be_encode get_be Z.pow]; unfold ngtcp2_put_uint16be, ngtcp2_put_uint24be,
    ngtcp2_put_uint32be, ngtcp2_get_uint16be, ngtcp2_get_uint24be, ngtcp2_get_uint32be.
  - exists [u8 pn]. split_and!; try done. constructor; [|done].
    unfold byte, u8. apply Z.mod_pos_bound. lia.
  - exists (be_encode 2 (u16 (u16 pn))). rewrite zlen_be_encode. split_and!; auto with zlen.
    unfold u16. rewrite Z.mod_mod by lia. rewrite (get_be_encode 2); [done|].
    apply Z.mod_pos_bound. lia.
  - exists (be_encode 3 (u32 (u32 pn))). rewrite zlen_be_encode. split_and!; auto with zlen.
    unfold get_be. rewrite get_bytes_app by zlia. cbn [bind].
    rewrite be_decode_encode. unfold u32. rewrite Z.mod_mod by lia. f_equal.
    change (256 ^ Z.of_nat 3) with (2 ^ 24). change (2 ^ 32) with (2 ^ 24 * 2 ^ 8).
    rewrite Z.rem_mul_r by lia. by rewrite (Z.mul_comm (2 ^ 24)), Z.mod_add, Z.mod_mod by lia.
  - exists (be_encode 4 (u32 (u32 pn))). rewrite zlen_be_encode. split_and!; auto with zlen.
    unfold u32. rewrite Z.mod_mod by lia. rewrite (get_be_encode 4); [done|].
    apply Z.mod_pos_bound. lia.
Qed.

Lemma adjust_pkt_num_mod max_pkt_num pn pkt_numlen :
  -1 <= max_pkt_num < 2 ^ 62 -> 0 <= pn < 2 ^ 62 -> 1 <= pkt_numlen <= 4 ->
  max_pkt_num + 1 - 2 ^ (8 * pkt_numlen - 1) < pn
    <= max_pkt_num + 1 + 2 ^ (8 * pkt_numlen - 1) ->
  ngtcp2_pkt_adjust_pkt_num max_pkt_num (pn mod 2 ^ (8 * pkt_numlen)) pkt_numlen = Ok pn.
Proof.
  intros Hm Hp Hl Hw. unfold ngtcp2_pkt_adjust_pkt_num.
  assert (HE : u64 (u64 max_pkt_num + 1) = max_pkt_num + 1).
  { unfold u64. rewrite Z.add_mod_idemp_l by lia. apply Z.mod_small. lia. }
  rewrite HE. cbv zeta.
  rewrite adjust_cand_eq;
    [| lia | lia | rewrite (Z.mul_comm pkt_numlen 8); apply Z.mod_pos_bound; lia].
  rewrite (Z.mul_comm pkt_numlen 8). set (w := 2 ^ (8 * pkt_numlen)).
  assert (Hww : w = 2 * 2 ^ (8 * pkt_numlen - 1)).
  { subst w. rewrite <- Z.pow_succ_r by lia. f_equal. lia. }
  assert (Hwb : 0 < w <= 2 ^ 32) by (subst w; split; [lia | apply Z.pow_le_mono_r; lia]).
  assert (Hh : w / 2 = 2 ^ (8 * pkt_numlen - 1)) by (rewrite Hww, Z.mul_comm; apply Z.div_mul; lia).
  assert (Hev : w mod 2 = 0) by (rewrite Hww, Z.mul_comm; apply Z.mod_mul; lia).
  rewrite (u64_small (Z.shiftl 1 (8 * pkt_numlen)))
    by (rewrite Z.shiftl_mul_pow2 by lia; unfold is_u64; fold w; lia).
  rewrite Z.shiftl_mul_pow2, Z.mul_1_l by lia. fold w.
  destruct (adjust_choice w (max_pkt_num + 1) pn) as (Hc1 & Hc2 & Hc3 & Hc); [lia..|].
  set (cand := (max_pkt_num + 1) / w * w + pn mod w) in *.
  rewrite !(u64_small (_ + w / 2)) by (unfold is_u64; lia).
  unfold NGTCP2_MAX_VARINT.
  destruct (Z.leb_spec (cand + w / 2) (max_pkt_num + 1)).
  - destruct (Z.leb_spec cand (2 ^ 62 - 1 - w)); [|lia].
    rewrite u64_small, i64_small by (unfold is_u64; lia). f_equal. lia.
  - destruct (Z.ltb_spec (max_pkt_num + 1 + w / 2) cand); simpl.
    + destruct Hc2 as [? ?]; [done..|]. destruct (Z.leb_spec w cand); [|lia].
      rewrite u64_small, i64_small by (unfold is_u64; lia). f_equal. lia.
    + rewrite i64_small by lia. f_equal. lia.
Qed.

(** C3: packet number truncation is lossless in the window of RFC 9000,
    Appendix A: a packet number encoded in 1 to 4 bytes by
    [ngtcp2_put_pkt_num], read back by [ngtcp2_get_pkt_num] and expanded
    by [ngtcp2_pkt_adjust_pkt_num] relative to the largest packet number
    received is the original, provided it lies within half the window
    around the expected packet number. *)
Theorem pkt_num_recovered (max_pkt_num pn pkt_numlen : Z) :
  -1 <= max_pkt_num < 2 ^ 62 -> 0 <= pn < 2 ^ 62 -> 1 <= pkt_numlen <= 4 ->
  max_pkt_num + 1 - 2 ^ (8 * pkt_numlen - 1) < pn
    <= max_pkt_num + 1 + 2 ^ (8 * pkt_numlen - 1) ->
  exists p t,
    ngtcp2_put_pkt_num [] pn pkt_numlen = Ok p /\ zlen p = pkt_numlen /\
    ngtcp2_get_pkt_num p pkt_numlen = Ok t /\
    ngtcp2_pkt_adjust_pkt_num max_pkt_num t pkt_numlen = Ok pn.
Proof.
  intros Hm Hp Hl Hw.
  destruct (put_get_pkt_num pn pkt_numlen [] Hl) as (l & E1 & E2 & _ & E3).
  specialize (E1 []).
  rewrite app_nil_r in E3. exists l, (pn mod 2 ^ (8 * pkt_numlen)).
  split_and!; [done..|]. by apply adjust_pkt_num_mod.
Qed.

Lemma pkt_num_recovered_witness :
  exists p t,
    ngtcp2_put_pkt_num [] 0xa82f9b32 2 = Ok p /\ zlen p = 2 /\
    ngtcp2_get_pkt_num p 2 = Ok t /\
    ngtcp2_pkt_adjust_pkt_num 0xa82f30ea t 2 = Ok 0xa82f9b32.
Proof. apply (pkt_num_recovered 0xa82f30ea 0xa82f9b32 2); lia. Defined.

Lemma wp_cid_init p n (Q : list Z -> Prop) E :
  bytes p -> 0 <= n <= zlen p -> n <= NGTCP2_MAX_CIDLEN ->
  (forall d, zlen d = n -> bytes d -> Q d) -> wp (ngtcp2_cid_init p n) Q E.
Proof.
  intros Hb Hn Hm H. unfold ngtcp2_cid_init. destruct (Z.leb_spec n NGTCP2_MAX_CIDLEN); [|lia].
  wp_steps.
  - apply H; [by subst n|constructor].
  - apply H; done.
Qed.

Lemma get_type_long_cases version c :
  let t := ngtcp2_pkt_get_type_long version c in
  t = 0 \/ t = NGTCP2_PKT_INITIAL \/ t = NGTCP2_PKT_0RTT \/ t = NGTCP2_PKT_HANDSHAKE
  \/ t = NGTCP2_PKT_RETRY.
Proof.
  unfold ngtcp2_pkt_get_type_long.
  repeat match goal with |- context [if ?b then _ else _] => destruct b end; auto 6.
Qed.

Definition long_hd_fields_ok (hd : ngtcp2_pkt_hd) : Prop :=
  bytes (hd_dcid hd) /\ zlen (hd_dcid hd) <= NGTCP2_MAX_CIDLEN /\
  bytes (hd_scid hd) /\ zlen (hd_scid hd) <= NGTCP2_MAX_CIDLEN /\
  bytes (hd_token hd) /\ 0 <= hd_len hd < 2 ^ 62 /\ 0 <= hd_version hd < 2 ^ 32.

(** The length of the fixed part each packet type requires. *)
Inductive long_type_len : Z -> Z -> Z -> Prop :=
| ltl_vn : long_type_len NGTCP2_PKT_VERSION_NEGOTIATION NGTCP2_PKT_FLAG_NONE 7
| ltl_initial f : Z.land f NGTCP2_PKT_FLAG_LONG_FORM <> 0 -> long_type_len NGTCP2_PKT_INITIAL f 9
| ltl_retry f : Z.land f NGTCP2_PKT_FLAG_LONG_FORM <> 0 -> long_type_len NGTCP2_PKT_RETRY f 7
| ltl_handshake f : Z.land f NGTCP2_PKT_FLAG_LONG_FORM <> 0 -> long_type_len NGTCP2_PKT_HANDSHAKE f 8
| ltl_0rtt f : Z.land f NGTCP2_PKT_FLAG_LONG_FORM <> 0 -> long_type_len NGTCP2_PKT_0RTT f 8.

Lemma wp_decode_type c version :
  wp (decode_hd_long_type c version) (fun '(type, flags, len) => long_type_len type flags len)
     (fun e => e = NGTCP2_ERR_INVALID_ARGUMENT).
Proof.
  unfold decode_hd_long_type. destruct (version =? 0); [constructor|]. cbv zeta.
  assert (Hf : Z.land (if Z.land c NGTCP2_FIXED_BIT_MASK =? 0
      then Z.lor NGTCP2_PKT_FLAG_LONG_FORM NGTCP2_PKT_FLAG_FIXED_BIT_CLEAR
      else NGTCP2_PKT_FLAG_LONG_FORM) NGTCP2_PKT_FLAG_LONG_FORM <> 0).
  { by destruct (_ =? 0). }
  destruct (get_type_long_cases version c) as [E|[E|[E|[E|E]]]]; cbv zeta in E; rewrite E;
    simpl; try done; by constructor.
Qed.

Lemma wp_decode_token type flags fixed pktlen len d p :
  long_type_len type flags fixed -> bytes p ->
  0 <= d -> len = fixed + d -> zlen p = pktlen - (7 + d) -> len <= pktlen ->
  wp (decode_hd_long_token type pktlen len p)
     (fun '(n, token, len', p') =>
        0 <= n /\ zlen p' = zlen p - n - zlen token /\ bytes p' /\ bytes token /\
        len' <= pktlen /\ len' = len + n + zlen token - (if type =? NGTCP2_PKT_INITIAL then 1 else 0))
     (fun e => e = NGTCP2_ERR_INVALID_ARGUMENT).
Proof.
  intros Ht Hb Hd Hlen Hp Hl. unfold decode_hd_long_token.
  destruct (Z.eqb_spec type NGTCP2_PKT_INITIAL).
  - inversion Ht; subst; try done. wp_steps; try done. split_and!; try done; lia.
  - wp_steps. change (zlen []) with 0. split_and!; try done; try constructor; lia.
Qed.

Lemma wp_decode_length type flags fixed pktlen len p :
  long_type_len type flags fixed -> bytes p ->
  zlen p = pktlen - len + (if fixed =? 7 then 0 else 1) -> len <= pktlen ->
  wp (decode_hd_long_length type flags pktlen len p)
     (fun '(n, v, len') => 0 <= n <= zlen p /\ len' = len + n - (if fixed =? 7 then 0 else 1) /\
                           0 <= v < 2 ^ 62)
     (fun e => e = NGTCP2_ERR_INVALID_ARGUMENT).
Proof.
  intros Ht Hb Hp Hl. unfold decode_hd_long_length.
  destruct Ht as [|f Hf|f Hf|f Hf|f Hf]; try (apply Z.eqb_neq in Hf; rewrite Hf);
    cbn -[Z.land ngtcp2_get_uvarintlen wp] in Hp |- *; wp_steps; try done; split_and!; try done; zlen_pos; lia.
Qed.

(** C4: decoding a long header never reads outside the packet, never trips
    an assertion and terminates with a header or [INVALID_ARGUMENT] on
    every byte string; the header it returns lies inside the packet and
    has connection ids of at most [NGTCP2_MAX_CIDLEN] bytes. *)
Theorem decode_hd_long_safe (pkt : list Z) :
  bytes pkt ->
  wp (ngtcp2_pkt_decode_hd_long pkt)
     (fun '(hd, len) => 7 <= len <= zlen pkt /\ long_hd_fields_ok hd)
     (fun e => e = NGTCP2_ERR_INVALID_ARGUMENT).
Proof.
  intros Hb. unfold ngtcp2_pkt_decode_hd_long, NGTCP2_MAX_CIDLEN.
  wp_steps; try done.
  eapply wp_mono; [apply wp_decode_type | | done]. intros [[type flags] fixed] Ht.
  assert (7 <= fixed <= 9) by (inversion Ht; lia).
  wp_steps; try done.
  eapply wp_mono; [eapply (wp_decode_token _ _ fixed _ _ (b0 + b1)); try done; lia | | done].
  intros [[[nt token] len'] q'] (Hn & Hp' & Hbp' & Hbt & Hl' & Heq).
  wp_step. cbv beta iota.
  eapply wp_mono; [eapply (wp_decode_length _ _ fixed); try done | | done].
  { inversion Ht; subst; simpl in *; lia. }
  intros [[m lv] len''] (Hm & Heq' & Hv).
  assert (Hfin : len'' = 7 + b0 + b1 + nt + zlen token + m) by (inversion Ht; subst; simpl in *; lia).
  assert (Hbound : len'' <= zlen pkt) by (inversion Ht; subst; simpl in *; lia).
  pose proof (zlen_nonneg token).
  do 2 wp_step. apply wp_bind, wp_cid_init; [done|lia|by unfold NGTCP2_MAX_CIDLEN; lia|]. intros dcid Hd Hbd.
  do 2 wp_step. apply wp_bind, wp_cid_init; [done|lia|by unfold NGTCP2_MAX_CIDLEN; lia|]. intros scid Hs Hbs.
  wp_steps. unfold long_hd_fields_ok, NGTCP2_MAX_CIDLEN; simpl. split_and!; try done; lia.
Qed.

Lemma decode_hd_long_safe_witness :
  let pkt := [0xC3; 0x6B; 0x33; 0x43; 0xCF; 1; 9; 0; 0x40; 0; 3; 1; 2; 3] in
  wp (ngtcp2_pkt_decode_hd_long pkt)
     (fun '(hd, len) => 7 <= len <= zlen pkt /\ long_hd_fields_ok hd)
     (fun e => e = NGTCP2_ERR_INVALID_ARGUMENT).
Proof.
  apply decode_hd_long_safe. repeat constructor; discriminate.
Defined.

(** ** Round trips of the headers *)
Definition long_hd_wf (hd : ngtcp2_pkt_hd) : Prop :=
  (hd_version hd = NGTCP2_PROTO_VER_V1 \/ hd_version hd = NGTCP2_PROTO_VER_V2) /\
  (hd_type hd = NGTCP2_PKT_INITIAL \/ hd_type hd = NGTCP2_PKT_0RTT \/
   hd_type hd = NGTCP2_PKT_HANDSHAKE \/ hd_type hd = NGTCP2_PKT_RETRY) /\
  (hd_flags hd = NGTCP2_PKT_FLAG_LONG_FORM \/
   hd_flags hd = Z.lor NGTCP2_PKT_FLAG_LONG_FORM NGTCP2_PKT_FLAG_FIXED_BIT_CLEAR) /\
  zlen (hd_dcid hd) <= NGTCP2_MAX_CIDLEN /\ zlen (hd_scid hd) <= NGTCP2_MAX_CIDLEN /\
  (hd_type hd = NGTCP2_PKT_INITIAL \/ hd_token hd = []) /\ zlen (hd_token hd) < 2 ^ 62 /\
  1 <= hd_pkt_numlen hd <= 4 /\
  0 <= hd_len hd < 2 ^ 30 /\ (hd_type hd = NGTCP2_PKT_RETRY -> hd_len hd = 0).

(** What the decoder reports for [hd]: the packet number is protected and
    left to the caller. *)
Definition strip_pkt_num (hd : ngtcp2_pkt_hd) : ngtcp2_pkt_hd :=
  mk_pkt_hd (hd_dcid hd) (hd_scid hd) 0 (hd_token hd) 0 (hd_len hd) (hd_version hd)
    (hd_type hd) (hd_flags hd).

Lemma encode_hd_long_first_ok hd :
  long_hd_wf hd ->
  exists vtype, ngtcp2_pkt_versioned_type (hd_version hd) (hd_type hd) = Ok vtype /\
    let c := encode_hd_long_first hd vtype in
    byte c /\ (Z.land c NGTCP2_HEADER_FORM_BIT =? 0) = false /\
    Z.land c 0x03 + 1 = hd_pkt_numlen hd /\
    decode_hd_long_type c (hd_version hd)
    = Ok (hd_type hd, hd_flags hd,
          if hd_type hd =? NGTCP2_PKT_INITIAL then 9
          else if hd_type hd =? NGTCP2_PKT_RETRY then 7 else 8).
Proof.
  intros (Hv & Ht & Hf & _ & _ & _ & _ & Hn & _).
  assert (hd_pkt_numlen hd = 1 \/ hd_pkt_numlen hd = 2 \/ hd_pkt_numlen hd = 3 \/
          hd_pkt_numlen hd = 4) as Hn' by lia.
  unfold encode_hd_long_first.
  destruct Hv as [-> | ->], Ht as [-> | [-> | [-> | ->]]], Hf as [-> | ->],
    Hn' as [-> | [-> | [-> | ->]]];
    (eexists; split; [reflexivity|]); vm_compute; repeat split; first [reflexivity | discriminate].
Qed.

(** The bytes of a long header after its first byte. *)
Definition long_hd_tail (hd : ngtcp2_pkt_hd) (pn : list Z) : list Z :=
  be_encode 4 (hd_version hd) ++ zlen (hd_dcid hd) :: hd_dcid hd ++
  zlen (hd_scid hd) :: hd_scid hd ++
  (if hd_type hd =? NGTCP2_PKT_INITIAL
   then uvarint_bytes (zlen (hd_token hd)) ++ hd_token hd else []) ++
  (if hd_type hd =? NGTCP2_PKT_RETRY then [] else uvarint30_bytes (hd_len hd) ++ pn).

Lemma encode_hd_long_eq outlen hd vtype pn :
  long_hd_wf hd ->
  ngtcp2_pkt_versioned_type (hd_version hd) (hd_type hd) = Ok vtype ->
  (forall p, ngtcp2_put_pkt_num p (hd_pkt_num hd) (hd_pkt_numlen hd) = Ok (p ++ pn)) ->
  zlen pn = hd_pkt_numlen hd ->
  ngtcp2_pkt_encode_hd_long outlen hd =
    let out := encode_hd_long_first hd vtype :: long_hd_tail hd pn in
    if outlen <? zlen out then Err NGTCP2_ERR_NOBUF else Ok out.
Proof.
  intros Hwf Hvt Hpn Hpl. destruct Hwf as (Hv & Ht & _ & Hd & Hs & Htok & Htl & Hn & Hl & _).
  unfold ngtcp2_pkt_encode_hd_long, long_hd_tail, NGTCP2_MAX_CIDLEN, ngtcp2_put_uint32be in *.
  rewrite Hvt, !(u8_small (zlen _)), (u32_small (hd_len hd)) by (zlen_pos; lia).
  replace (u32 (hd_version hd)) with (hd_version hd)
    by (destruct Hv as [-> | ->]; reflexivity).
  rewrite put_uvarintlen_eq by (zlen_pos; lia).
  assert (Hput : forall p, ngtcp2_put_uvarint p (zlen (hd_token hd))
      = Ok (p ++ uvarint_bytes (zlen (hd_token hd)))).
  { intros; apply put_uvarint_eq; zlen_pos; lia. }
  assert (H30 : forall p, ngtcp2_put_uvarint30 p (hd_len hd) = Ok (p ++ uvarint30_bytes (hd_len hd))).
  { intros; by apply put_uvarint30_eq. }
  cbv zeta.
  destruct Ht as [E|[E|[E|E]]]; rewrite E; cbn -[zlen app be_encode Z.ltb];
    repeat (first [rewrite Hput | rewrite H30 | rewrite Hpn]; cbn -[zlen app be_encode Z.ltb]);
    rewrite <- ?app_assoc; cbn -[zlen be_encode Z.ltb];
    unfold NGTCP2_MIN_LONG_HEADERLEN, NGTCP2_PKT_LENGTHLEN; zl;
    rewrite ?app_nil_r; bcase; try (exfalso; zlia); done.
Qed.

Lemma cid_init_app l r n :
  n = zlen l -> n <= NGTCP2_MAX_CIDLEN -> ngtcp2_cid_init (l ++ r) n = Ok l.
Proof.
  intros -> Hn. unfold ngtcp2_cid_init. destruct (Z.leb_spec (zlen l) NGTCP2_MAX_CIDLEN); [|lia].
  destruct (Z.eqb_spec (zlen l) 0) as [E|].
  - apply zlen_0_nil in E. by subst.
  - by rewrite get_bytes_app.
Qed.

Ltac hd_step :=
  first
  [ match goal with
    | |- context [ngtcp2_cid_init (?l ++ ?r) ?n] =>
        rewrite (cid_init_app l r n) by (unfold NGTCP2_MAX_CIDLEN in *; zlia)
    | |- context [ngtcp2_get_uvarintlen (uvarint30_bytes ?n ++ ?r)] =>
        rewrite (get_uvarintlen30 n r) by lia
    | |- context [ngtcp2_get_uvarint (uvarint30_bytes ?n ++ ?r)] =>
        rewrite (get_uvarint30 n r) by lia
    end; cbn [bind]; cbv beta iota zeta
  | rt_step ].

Lemma decode_hd_long_eq hd c pn payload :
  long_hd_wf hd -> zlen pn = hd_pkt_numlen hd ->
  (Z.land c NGTCP2_HEADER_FORM_BIT =? 0) = false ->
  decode_hd_long_type c (hd_version hd)
  = Ok (hd_type hd, hd_flags hd,
        if hd_type hd =? NGTCP2_PKT_INITIAL then 9
        else if hd_type hd =? NGTCP2_PKT_RETRY then 7 else 8) ->
  ngtcp2_pkt_decode_hd_long (c :: long_hd_tail hd pn ++ payload)
  = Ok (strip_pkt_num hd,
        zlen (c :: long_hd_tail hd pn)
        - (if hd_type hd =? NGTCP2_PKT_RETRY then 0 else hd_pkt_numlen hd)).
Proof.
  intros (Hv & Ht & Hf & Hd & Hs & Htok & Htl & Hn & Hl & Hr) Hpl Hc Hty.
  assert (Hv4 : 0 <= hd_version hd < 256 ^ Z.of_nat 4) by (destruct Hv as [-> | ->]; done).
  assert (Hlf : (Z.land (hd_flags hd) NGTCP2_PKT_FLAG_LONG_FORM =? 0) = false)
    by (destruct Hf as [-> | ->]; reflexivity).
  unfold ngtcp2_pkt_decode_hd_long, long_hd_tail, strip_pkt_num, decode_hd_long_token,
    decode_hd_long_length, NGTCP2_MAX_CIDLEN in *.
  rewrite <- !app_assoc. cbn [app]. rewrite <- !app_assoc.
  destruct Ht as [E|[E|[E|E]]]; rewrite E in *; clear E; revert Hty; ceqb; intros Hty;
    cbn [app]; rewrite <- ?app_assoc; cbn [app].
  all: try (destruct Htok as [?|Htok]; [done|]; rewrite Htok in * ).
  all: try (rewrite (Hr eq_refl) in * ).
  all: repeat (hd_step; ceqb; try rewrite Hc; try rewrite Hlf; unfold ngtcp2_get_uint32be;
        try rewrite (get_be_encode 4) by done; try rewrite Hty; cbn [bind]; cbv beta iota zeta).
  all: do 2 f_equal; zlia.
Qed.

(** C5: a long header that [ngtcp2_pkt_encode_hd_long] writes (QUIC v1 or v2;
    Initial, 0-RTT, Handshake or Retry) is read back by
    [ngtcp2_pkt_decode_hd_long] as the same header, whatever payload
    follows; the encoder refuses exactly the buffers that are too small,
    the low bits of the first byte give the length of the packet number,
    and the packet number field follows the part the decoder consumed. *)
Theorem hd_long_roundtrip (outlen : Z) (hd : ngtcp2_pkt_hd) (payload : list Z) :
  long_hd_wf hd ->
  exists c tl pn,
    let out := c :: tl in
    let n := zlen out - (if hd_type hd =? NGTCP2_PKT_RETRY then 0 else hd_pkt_numlen hd) in
    ngtcp2_pkt_encode_hd_long outlen hd
      = (if outlen <? zlen out then Err NGTCP2_ERR_NOBUF else Ok out) /\
    ngtcp2_pkt_decode_hd_long (out ++ payload) = Ok (strip_pkt_num hd, n) /\
    Z.land c 0x03 + 1 = hd_pkt_numlen hd /\
    (hd_type hd <> NGTCP2_PKT_RETRY ->
     zdrop n (out ++ payload) = pn ++ payload /\
     ngtcp2_get_pkt_num (pn ++ payload) (hd_pkt_numlen hd)
       = Ok (hd_pkt_num hd mod 2 ^ (8 * hd_pkt_numlen hd))).
Proof.
  intros Hwf. pose proof Hwf as (_ & _ & _ & _ & _ & _ & _ & Hn & _).
  destruct (encode_hd_long_first_ok hd Hwf) as (vt & Evt & _ & Ec & En & Ety).
  destruct (put_get_pkt_num (hd_pkt_num hd) _ payload Hn) as (pn & Epn & Hpn & _ & Egp).
  exists (encode_hd_long_first hd vt), (long_hd_tail hd pn), pn. cbv zeta. split_and!.
  - by apply encode_hd_long_eq.
  - by apply decode_hd_long_eq.
  - done.
  - intros Hr. split; [|done]. apply Z.eqb_neq in Hr. unfold long_hd_tail. rewrite Hr.
    rewrite !app_comm_cons, !app_assoc, <- (app_assoc _ pn payload).
    apply zdrop_app_eq. zlia.
Qed.

Lemma hd_long_roundtrip_witness :
  let hd := mk_pkt_hd [1; 2; 3; 4; 5; 6; 7; 8] [9] 0x1234 [42; 43] 2 100
              NGTCP2_PROTO_VER_V2 NGTCP2_PKT_INITIAL NGTCP2_PKT_FLAG_LONG_FORM in
  exists c tl pn,
    let out := c :: tl in
    let n := zlen out - (if hd_type hd =? NGTCP2_PKT_RETRY then 0 else hd_pkt_numlen hd) in
    ngtcp2_pkt_encode_hd_long 1200 hd
      = (if 1200 <? zlen out then Err NGTCP2_ERR_NOBUF else Ok out) /\
    ngtcp2_pkt_decode_hd_long (out ++ [0; 0]) = Ok (strip_pkt_num hd, n) /\
    Z.land c 0x03 + 1 = hd_pkt_numlen hd /\
    (hd_type hd <> NGTCP2_PKT_RETRY ->
     zdrop n (out ++ [0; 0]) = pn ++ [0; 0] /\
     ngtcp2_get_pkt_num (pn ++ [0; 0]) (hd_pkt_numlen hd)
       = Ok (hd_pkt_num hd mod 2 ^ (8 * hd_pkt_numlen hd))).
Proof.
  apply hd_long_roundtrip.
  unfold long_hd_wf; simpl. repeat split; auto; discriminate.
Defined.

(** ** Short headers *)
Definition short_hd_wf (hd : ngtcp2_pkt_hd) : Prop :=
  zlen (hd_dcid hd) <= NGTCP2_MAX_CIDLEN /\ 1 <= hd_pkt_numlen hd <= 4.

Definition short_hd_first (hd : ngtcp2_pkt_hd) : Z :=
  let c := u8 (hd_pkt_numlen hd - 1) in
  let c :=
    if Z.land (hd_flags hd) NGTCP2_PKT_FLAG_FIXED_BIT_CLEAR =? 0
    then Z.lor c NGTCP2_FIXED_BIT_MASK else c in
  if negb (Z.land (hd_flags hd) NGTCP2_PKT_FLAG_KEY_PHASE =? 0)
  then Z.lor c NGTCP2_SHORT_KEY_PHASE_BIT else c.

Lemma short_hd_first_ok hd :
  short_hd_wf hd ->
  let c := short_hd_first hd in
  (Z.land c NGTCP2_HEADER_FORM_BIT =? 0) = true /\ Z.land c 0x03 + 1 = hd_pkt_numlen hd /\
  (Z.land c NGTCP2_FIXED_BIT_MASK =? 0)
    = negb (Z.land (hd_flags hd) NGTCP2_PKT_FLAG_FIXED_BIT_CLEAR =? 0) /\
  (Z.land c NGTCP2_SHORT_KEY_PHASE_BIT =? 0)
    = (Z.land (hd_flags hd) NGTCP2_PKT_FLAG_KEY_PHASE =? 0).
Proof.
  intros [_ Hn]. unfold short_hd_first.
  assert (hd_pkt_numlen hd = 1 \/ hd_pkt_numlen hd = 2 \/ hd_pkt_numlen hd = 3 \/
          hd_pkt_numlen hd = 4) as [-> | [-> | [-> | ->]]] by lia;
    destruct (Z.land (hd_flags hd) NGTCP2_PKT_FLAG_FIXED_BIT_CLEAR =? 0),
      (Z.land (hd_flags hd) NGTCP2_PKT_FLAG_KEY_PHASE =? 0); vm_compute; repeat split.
Qed.

(** C6: a 1-RTT header written by [ngtcp2_pkt_encode_hd_short] is read back by
    [ngtcp2_pkt_decode_hd_short] with the same destination connection id;
    the fixed bit, the key phase bit and the packet number length of the
    first byte are the ones of the header, and the packet number follows
    the connection id. *)
Theorem hd_short_roundtrip (outlen : Z) (hd : ngtcp2_pkt_hd) (payload : list Z) :
  short_hd_wf hd ->
  exists c pn,
    let out := c :: hd_dcid hd ++ pn in
    ngtcp2_pkt_encode_hd_short outlen hd
      = (if outlen <? zlen out then Err NGTCP2_ERR_NOBUF else Ok out) /\
    ngtcp2_pkt_decode_hd_short (out ++ payload) (zlen (hd_dcid hd))
      = Ok (mk_pkt_hd (hd_dcid hd) [] 0 [] 0 0 0 NGTCP2_PKT_1RTT
              (if Z.land (hd_flags hd) NGTCP2_PKT_FLAG_FIXED_BIT_CLEAR =? 0
               then NGTCP2_PKT_FLAG_NONE else NGTCP2_PKT_FLAG_FIXED_BIT_CLEAR),
            1 + zlen (hd_dcid hd)) /\
    Z.land c 0x03 + 1 = hd_pkt_numlen hd /\
    (Z.land c NGTCP2_SHORT_KEY_PHASE_BIT =? 0)
      = (Z.land (hd_flags hd) NGTCP2_PKT_FLAG_KEY_PHASE =? 0) /\
    ngtcp2_get_pkt_num (pn ++ payload) (hd_pkt_numlen hd)
      = Ok (hd_pkt_num hd mod 2 ^ (8 * hd_pkt_numlen hd)).
Proof.
  intros Hwf. destruct (short_hd_first_ok hd Hwf) as (Hf & Hn & Hfix & Hkp).
  destruct Hwf as [Hd Hl].
  destruct (put_get_pkt_num (hd_pkt_num hd) _ payload Hl)
    as (pn & Epn & Hpn & _ & Egp).
  exists (short_hd_first hd), pn. cbv zeta. split_and!; try done.
  - unfold ngtcp2_pkt_encode_hd_short. fold (short_hd_first hd). cbn [app]. rewrite Epn.
    cbn [bind app]. zl. bcase; try (exfalso; zlia); done.
  - unfold ngtcp2_pkt_decode_hd_short. cbn [app]. rewrite <- app_assoc. cbv zeta.
    do 2 rt_if. cbn [read8 bind]. rewrite Hf, Hfix. cbn [negb].
    repeat hd_step.
    by destruct (Z.land (hd_flags hd) NGTCP2_PKT_FLAG_FIXED_BIT_CLEAR =? 0).
Qed.

Lemma hd_short_roundtrip_witness :
  let hd := mk_pkt_hd [1; 2; 3] [] 0x0102 [] 2 0 0 NGTCP2_PKT_1RTT NGTCP2_PKT_FLAG_KEY_PHASE in
  exists c pn,
    let out := c :: hd_dcid hd ++ pn in
    ngtcp2_pkt_encode_hd_short 5 hd
      = (if 5 <? zlen out then Err NGTCP2_ERR_NOBUF else Ok out) /\
    ngtcp2_pkt_decode_hd_short (out ++ []) (zlen (hd_dcid hd))
      = Ok (mk_pkt_hd (hd_dcid hd) [] 0 [] 0 0 0 NGTCP2_PKT_1RTT
              (if Z.land (hd_flags hd) NGTCP2_PKT_FLAG_FIXED_BIT_CLEAR =? 0
               then NGTCP2_PKT_FLAG_NONE else NGTCP2_PKT_FLAG_FIXED_BIT_CLEAR),
            1 + zlen (hd_dcid hd)) /\
    Z.land c 0x03 + 1 = hd_pkt_numlen hd /\
    (Z.land c NGTCP2_SHORT_KEY_PHASE_BIT =? 0)
      = (Z.land (hd_flags hd) NGTCP2_PKT_FLAG_KEY_PHASE =? 0) /\
    ngtcp2_get_pkt_num (pn ++ []) (hd_pkt_numlen hd)
      = Ok (hd_pkt_num hd mod 2 ^ (8 * hd_pkt_numlen hd)).
Proof. apply hd_short_roundtrip. repeat split; discriminate. Defined.
