(* ===== verification/Frame.v ===== *)
(** * QUIC frames: the frame codec of [lib/ngtcp2_pkt.c]

    One decoder and one encoder per frame type, with the dispatchers
    [ngtcp2_frame_decoder_decode] and [ngtcp2_pkt_encode_frame].  A decoder
    takes the payload and returns the frame and the number of bytes it
    occupies; it walks the payload once to check that all fields are there
    and a second time to read them, as the code does.  An encoder takes the
    size of the output buffer and returns the bytes it writes.  A
    [ngtcp2_vec] or an [ngtcp2_buf] of a frame is the bytes it refers to. *)

From S2P Require Import Prelude Conv Const Wp PktHd.

(** ** Data *)
Record ngtcp2_stream := mk_stream {
  st_type : Z;
  st_flags : Z;
  st_fin : bool;
  st_stream_id : Z;
  st_offset : Z;
  (** [data]/[datacnt] *)
  st_data : list (list Z);
  (** [txbuf_present]/[txbuf] *)
  st_txbuf : option (list Z);
}.

Record ngtcp2_ack_range := mk_ack_range { ar_gap : Z; ar_len : Z }.

Record ngtcp2_ack := mk_ack {
  ack_type : Z;
  ack_largest_ack : Z;
  ack_delay : Z;
  ack_delay_unscaled : Z;
  (** [ecn] is only meaningful for [NGTCP2_FRAME_ACK_ECN] *)
  ack_ecn : option (Z * Z * Z);
  ack_first_ack_range : Z;
  (** [ranges]/[rangecnt] *)
  ack_ranges : list ngtcp2_ack_range;
}.

Inductive ngtcp2_frame :=
| Fr_stream (fr : ngtcp2_stream)
| Fr_ack (fr : ngtcp2_ack)
| Fr_padding (len : Z)
| Fr_reset_stream (stream_id app_error_code final_size : Z)
| Fr_connection_close (type error_code frame_type : Z) (reason : list Z)
| Fr_max_data (max_data : Z)
| Fr_max_stream_data (stream_id max_stream_data : Z)
| Fr_max_streams (type max_streams : Z)
| Fr_ping
| Fr_data_blocked (offset : Z)
| Fr_stream_data_blocked (stream_id offset : Z)
| Fr_streams_blocked (type max_streams : Z)
| Fr_new_connection_id (seq retire_prior_to : Z) (cid token : list Z)
| Fr_stop_sending (stream_id app_error_code : Z)
| Fr_path_challenge (data : list Z)
| Fr_path_response (data : list Z)
| Fr_new_token (token : list Z)
| Fr_retire_connection_id (seq : Z)
| Fr_handshake_done
| Fr_datagram (type : Z) (data : list (list Z)).

(** ** Decoders *)
Definition ngtcp2_pkt_decode_stream_frame (payload : list Z) : res (ngtcp2_frame * Z) :=
  let payloadlen := zlen payload in
  let len := 1 + 1 in
  if payloadlen <? len then Err NGTCP2_ERR_FRAME_ENCODING else
  let* type := read8 payload in
  let* p := advance payload 1 in
  let* n := ngtcp2_get_uvarintlen p in
  let len := len + n - 1 in
  if payloadlen <? len then Err NGTCP2_ERR_FRAME_ENCODING else
  let* p := advance p n in
  let* (len, p) :=
    if negb (Z.land type NGTCP2_STREAM_OFF_BIT =? 0) then
      let len := len + 1 in
      if payloadlen <? len then Err NGTCP2_ERR_FRAME_ENCODING else
      let* n := ngtcp2_get_uvarintlen p in
      let len := len + n - 1 in
      if payloadlen <? len then Err NGTCP2_ERR_FRAME_ENCODING else
      let* p := advance p n in
      Ok (len, p)
    else Ok (len, p) in
  let* (len, datalen, ndatalen) :=
    if negb (Z.land type NGTCP2_STREAM_LEN_BIT =? 0) then
      let len := len + 1 in
      if payloadlen <? len then Err NGTCP2_ERR_FRAME_ENCODING else
      let* ndatalen := ngtcp2_get_uvarintlen p in
      let len := len + ndatalen - 1 in
      if payloadlen <? len then Err NGTCP2_ERR_FRAME_ENCODING else
      let* (vi, _) := ngtcp2_get_uvarint p in
      if payloadlen - len <? vi then Err NGTCP2_ERR_FRAME_ENCODING else
      Ok (len + vi, vi, ndatalen)
    else Ok (payloadlen, 0, 0) in
  let* p := advance payload 1 in
  let flags := u8 (Z.land type (Z.lnot NGTCP2_FRAME_STREAM)) in
  let fin := negb (Z.land type NGTCP2_STREAM_FIN_BIT =? 0) in
  let* (stream_id, p) := ngtcp2_get_varint p in
  let* (offset, p) :=
    if negb (Z.land type NGTCP2_STREAM_OFF_BIT =? 0)
    then ngtcp2_get_uvarint p else Ok (0, p) in
  let* (p, datalen) :=
    if negb (Z.land type NGTCP2_STREAM_LEN_BIT =? 0)
    then let* p := advance p ndatalen in Ok (p, datalen)
    else Ok (p, payloadlen - (payloadlen - zlen p)) in
  let* (data, p) :=
    if negb (datalen =? 0)
    then let* (d, p) := get_bytes p datalen in Ok ([d], p)
    else Ok ([], p) in
  assert! payloadlen - zlen p =? len;
  Ok (Fr_stream (mk_stream NGTCP2_FRAME_STREAM flags fin stream_id offset data None), len).

(** [count] length-delimited integers are skipped, each checked. *)
Fixpoint skip_uvarints (count : nat) (payloadlen len : Z) (p : list Z) : res (Z * list Z) :=
  match count with
  | O => Ok (len, p)
  | S count =>
      let* n := ngtcp2_get_uvarintlen p in
      let len := len + n - 1 in
      if payloadlen <? len then Err NGTCP2_ERR_FRAME_ENCODING else
      let* p := advance p n in
      skip_uvarints count payloadlen len p
  end.

(** The loop over the additional ranges: a Gap and an ACK Range Length each. *)
Fixpoint skip_ack_ranges (rangecnt : nat) (payloadlen len : Z) (p : list Z)
    : res (Z * list Z) :=
  match rangecnt with
  | O => Ok (len, p)
  | S i =>
      let* (len, p) := skip_uvarints 2 payloadlen len p in
      skip_ack_ranges i payloadlen len p
  end.

(** [dest->ranges] is [frd->buf.ack_ranges], an array of
    [NGTCP2_MAX_ACK_RANGES] entries: a store beyond it is a [Fault]. *)
Fixpoint get_ack_ranges (cnt : nat) (i : Z) (p : list Z)
    : res (list ngtcp2_ack_range * list Z) :=
  match cnt with
  | O => Ok ([], p)
  | S cnt =>
      assert! i <? NGTCP2_MAX_ACK_RANGES;
      let* (gap, p) := ngtcp2_get_uvarint p in
      let* (len, p) := ngtcp2_get_uvarint p in
      let* (l, p) := get_ack_ranges cnt (i + 1) p in
      Ok (mk_ack_range gap len :: l, p)
  end.

(** [for (; i < rangecnt; ++i)] over the ranges that do not fit. *)
Fixpoint pass_ack_ranges (cnt : nat) (p : list Z) : res (list Z) :=
  match cnt with
  | O => Ok p
  | S cnt =>
      let* n := ngtcp2_get_uvarintlen p in
      let* p := advance p n in
      let* n := ngtcp2_get_uvarintlen p in
      let* p := advance p n in
      pass_ack_ranges cnt p
  end.

Definition ngtcp2_pkt_decode_ack_frame (payload : list Z) : res (ngtcp2_frame * Z) :=
  let payloadlen := zlen payload in
  let len := 1 + 1 + 1 + 1 + 1 in
  if payloadlen <? len then Err NGTCP2_ERR_FRAME_ENCODING else
  let* type := read8 payload in
  let* p := advance payload 1 in
  (* Largest Acknowledged *)
  let* n := ngtcp2_get_uvarintlen p in
  let len := len + n - 1 in
  if payloadlen <? len then Err NGTCP2_ERR_FRAME_ENCODING else
  let* p := advance p n in
  (* ACK Delay *)
  let* n := ngtcp2_get_uvarintlen p in
  let len := len + n - 1 in
  if payloadlen <? len then Err NGTCP2_ERR_FRAME_ENCODING else
  let* p := advance p n in
  (* ACK Range Count *)
  let* nrangecnt := ngtcp2_get_uvarintlen p in
  let len := len + nrangecnt - 1 in
  if payloadlen <? len then Err NGTCP2_ERR_FRAME_ENCODING else
  let* (vi, p) := ngtcp2_get_uvarint p in
  if (SIZE_MAX / (1 + 1) <? vi) || (payloadlen - len <? vi * (1 + 1))
  then Err NGTCP2_ERR_FRAME_ENCODING else
  let rangecnt := vi in
  let len := len + rangecnt * (1 + 1) in
  (* First ACK Range *)
  let* n := ngtcp2_get_uvarintlen p in
  let len := len + n - 1 in
  if payloadlen <? len then Err NGTCP2_ERR_FRAME_ENCODING else
  let* p := advance p n in
  let* (len, p) := skip_ack_ranges (Z.to_nat rangecnt) payloadlen len p in
  let* (len, p) :=
    if type =? NGTCP2_FRAME_ACK_ECN then
      let len := len + 3 in
      if payloadlen <? len then Err NGTCP2_ERR_FRAME_ENCODING else
      skip_uvarints 3 payloadlen len p
    else Ok (len, p) in
  let max_rangecnt := Z.min NGTCP2_MAX_ACK_RANGES rangecnt in
  let* p := advance payload 1 in
  let* (largest_ack, p) := ngtcp2_get_varint p in
  let* (delay, p) := ngtcp2_get_uvarint p in
  let* p := advance p nrangecnt in
  let* (first_ack_range, p) := ngtcp2_get_uvarint p in
  let* (ranges, p) := get_ack_ranges (Z.to_nat max_rangecnt) 0 p in
  let* p := pass_ack_ranges (Z.to_nat (rangecnt - max_rangecnt)) p in
  let* (ecn, p) :=
    if type =? NGTCP2_FRAME_ACK_ECN then
      let* (ect0, p) := ngtcp2_get_uvarint p in
      let* (ect1, p) := ngtcp2_get_uvarint p in
      let* (ce, p) := ngtcp2_get_uvarint p in
      Ok (Some (ect0, ect1, ce), p)
    else Ok (None, p) in
  assert! payloadlen - zlen p =? len;
  Ok (Fr_ack (mk_ack type largest_ack delay 0 ecn first_ack_range ranges), len).

(** [for (; p != ep && *p == NGTCP2_FRAME_PADDING; ++p)] *)
Fixpoint skip_padding (p : list Z) : list Z :=
  match p with
  | b :: p' => if b =? NGTCP2_FRAME_PADDING then skip_padding p' else p
  | [] => []
  end.

Definition ngtcp2_pkt_decode_padding_frame (payload : list Z) : res (ngtcp2_frame * Z) :=
  let payloadlen := zlen payload in
  assert! 0 <? payloadlen;
  let* p := advance payload 1 in
  let p := skip_padding p in
  let len := payloadlen - zlen p in
  Ok (Fr_padding len, len).

Definition ngtcp2_pkt_decode_reset_stream_frame (payload : list Z) : res (ngtcp2_frame * Z) :=
  let payloadlen := zlen payload in
  let len := 1 + 1 + 1 + 1 in
  if payloadlen <? len then Err NGTCP2_ERR_FRAME_ENCODING else
  let* p := advance payload 1 in
  let* n := ngtcp2_get_uvarintlen p in
  let len := len + n - 1 in
  if payloadlen <? len then Err NGTCP2_ERR_FRAME_ENCODING else
  let* p := advance p n in
  let* n := ngtcp2_get_uvarintlen p in
  let len := len + n - 1 in
  if payloadlen <? len then Err NGTCP2_ERR_FRAME_ENCODING else
  let* p := advance p n in
  let* n := ngtcp2_get_uvarintlen p in
  let len := len + n - 1 in
  if payloadlen <? len then Err NGTCP2_ERR_FRAME_ENCODING else
  let* p := advance payload 1 in
  let* (stream_id, p) := ngtcp2_get_varint p in
  let* (app_error_code, p) := ngtcp2_get_uvarint p in
  let* (final_size, p) := ngtcp2_get_uvarint p in
  assert! payloadlen - zlen p =? len;
  Ok (Fr_reset_stream stream_id app_error_code final_size, len).

Definition ngtcp2_pkt_decode_connection_close_frame (payload : list Z)
    : res (ngtcp2_frame * Z) :=
  let payloadlen := zlen payload in
  let len := 1 + 1 + 1 in
  if payloadlen <? len then Err NGTCP2_ERR_FRAME_ENCODING else
  let* type := read8 payload in
  let* p := advance payload 1 in
  let* n := ngtcp2_get_uvarintlen p in
  let len := len + n - 1 in
  if payloadlen <? len then Err NGTCP2_ERR_FRAME_ENCODING else
  let* p := advance p n in
  let* (len, p) :=
    if type =? NGTCP2_FRAME_CONNECTION_CLOSE then
      let len := len + 1 in
      let* n := ngtcp2_get_uvarintlen p in
      let len := len + n - 1 in
      if payloadlen <? len then Err NGTCP2_ERR_FRAME_ENCODING else
      let* p := advance p n in
      Ok (len, p)
    else Ok (len, p) in
  let* nreasonlen := ngtcp2_get_uvarintlen p in
  let len := len + nreasonlen - 1 in
  if payloadlen <? len then Err NGTCP2_ERR_FRAME_ENCODING else
  let* (vi, _) := ngtcp2_get_uvarint p in
  if payloadlen - len <? vi then Err NGTCP2_ERR_FRAME_ENCODING else
  let reasonlen := vi in
  let len := len + reasonlen in
  let* p := advance payload 1 in
  let* (error_code, p) := ngtcp2_get_uvarint p in
  let* (frame_type, p) :=
    if type =? NGTCP2_FRAME_CONNECTION_CLOSE
    then ngtcp2_get_uvarint p else Ok (0, p) in
  let* p := advance p nreasonlen in
  let* (reason, p) :=
    if reasonlen =? 0 then Ok ([], p) else get_bytes p reasonlen in
  assert! payloadlen - zlen p =? len;
  Ok (Fr_connection_close type error_code frame_type reason, len).

Definition ngtcp2_pkt_decode_max_data_frame (payload : list Z) : res (ngtcp2_frame * Z) :=
  let payloadlen := zlen payload in
  let len := 1 + 1 in
  if payloadlen <? len then Err NGTCP2_ERR_FRAME_ENCODING else
  let* p := advance payload 1 in
  let* n := ngtcp2_get_uvarintlen p in
  let len := len + n - 1 in
  if payloadlen <? len then Err NGTCP2_ERR_FRAME_ENCODING else
  let* (max_data, p) := ngtcp2_get_uvarint p in
  assert! payloadlen - zlen p =? len;
  Ok (Fr_max_data max_data, len).

Definition ngtcp2_pkt_decode_max_stream_data_frame (payload : list Z)
    : res (ngtcp2_frame * Z) :=
  let payloadlen := zlen payload in
  let len := 1 + 1 + 1 in
  if payloadlen <? len then Err NGTCP2_ERR_FRAME_ENCODING else
  let* p := advance payload 1 in
  let* n := ngtcp2_get_uvarintlen p in
  let len := len + n - 1 in
  if payloadlen <? len then Err NGTCP2_ERR_FRAME_ENCODING else
  let* p := advance p n in
  let* n := ngtcp2_get_uvarintlen p in
  let len := len + n - 1 in
  if payloadlen <? len then Err NGTCP2_ERR_FRAME_ENCODING else
  let* p := advance payload 1 in
  let* (stream_id, p) := ngtcp2_get_varint p in
  let* (max_stream_data, p) := ngtcp2_get_uvarint p in
  assert! payloadlen - zlen p =? len;
  Ok (Fr_max_stream_data stream_id max_stream_data, len).

Definition ngtcp2_pkt_decode_max_streams_frame (payload : list Z) : res (ngtcp2_frame * Z) :=
  let payloadlen := zlen payload in
  let len := 1 + 1 in
  if payloadlen <? len then Err NGTCP2_ERR_FRAME_ENCODING else
  let* p := advance payload 1 in
  let* n := ngtcp2_get_uvarintlen p in
  let len := len + n - 1 in
  if payloadlen <? len then Err NGTCP2_ERR_FRAME_ENCODING else
  let* type := read8 payload in
  let* (max_streams, p) := ngtcp2_get_uvarint p in
  assert! payloadlen - zlen p =? len;
  Ok (Fr_max_streams type max_streams, len).

Definition ngtcp2_pkt_decode_ping_frame (payload : list Z) : res (ngtcp2_frame * Z) :=
  assert! 0 <? zlen payload;
  Ok (Fr_ping, 1).

Definition ngtcp2_pkt_decode_data_blocked_frame (payload : list Z) : res (ngtcp2_frame * Z) :=
  let payloadlen := zlen payload in
  let len := 1 + 1 in
  if payloadlen <? len then Err NGTCP2_ERR_FRAME_ENCODING else
  let* p := advance payload 1 in
  let* n := ngtcp2_get_uvarintlen p in
  let len := len + n - 1 in
  if payloadlen <? len then Err NGTCP2_ERR_FRAME_ENCODING else
  let* (offset, p) := ngtcp2_get_uvarint p in
  assert! payloadlen - zlen p =? len;
  Ok (Fr_data_blocked offset, len).

Definition ngtcp2_pkt_decode_stream_data_blocked_frame (payload : list Z)
    : res (ngtcp2_frame * Z) :=
  let payloadlen := zlen payload in
  let len := 1 + 1 + 1 in
  if payloadlen <? len then Err NGTCP2_ERR_FRAME_ENCODING else
  let* p := advance payload 1 in
  let* n := ngtcp2_get_uvarintlen p in
  let len := len + n - 1 in
  if payloadlen <? len then Err NGTCP2_ERR_FRAME_ENCODING else
  let* p := advance p n in
  let* n := ngtcp2_get_uvarintlen p in
  let len := len + n - 1 in
  if payloadlen <? len then Err NGTCP2_ERR_FRAME_ENCODING else
  let* p := advance payload 1 in
  let* (stream_id, p) := ngtcp2_get_varint p in
  let* (offset, p) := ngtcp2_get_uvarint p in
  assert! payloadlen - zlen p =? len;
  Ok (Fr_stream_data_blocked stream_id offset, len).

Definition ngtcp2_pkt_decode_streams_blocked_frame (payload : list Z)
    : res (ngtcp2_frame * Z) :=
  let payloadlen := zlen payload in
  let len := 1 + 1 in
  if payloadlen <? len then Err NGTCP2_ERR_FRAME_ENCODING else
  let* p := advance payload 1 in
  let* n := ngtcp2_get_uvarintlen p in
  let len := len + n - 1 in
  if payloadlen <? len then Err NGTCP2_ERR_FRAME_ENCODING else
  let* type := read8 payload in
  let* (max_streams, p) := ngtcp2_get_uvarint p in
  assert! payloadlen - zlen p =? len;
  Ok (Fr_streams_blocked type max_streams, len).

Definition ngtcp2_pkt_decode_new_connection_id_frame (payload : list Z)
    : res (ngtcp2_frame * Z) :=
  let payloadlen := zlen payload in
  let len := 1 + 1 + 1 + 1 + 16 in
  if payloadlen <? len then Err NGTCP2_ERR_FRAME_ENCODING else
  let* p := advance payload 1 in
  let* n := ngtcp2_get_uvarintlen p in
  let len := len + n - 1 in
  if payloadlen <? len then Err NGTCP2_ERR_FRAME_ENCODING else
  let* p := advance p n in
  let* n := ngtcp2_get_uvarintlen p in
  let len := len + n - 1 in
  if payloadlen <? len then Err NGTCP2_ERR_FRAME_ENCODING else
  let* p := advance p n in
  let* cil := read8 p in
  if (cil <? NGTCP2_MIN_CIDLEN) || (NGTCP2_MAX_CIDLEN <? cil)
  then Err NGTCP2_ERR_FRAME_ENCODING else
  let len := len + cil in
  if payloadlen <? len then Err NGTCP2_ERR_FRAME_ENCODING else
  let* p := advance payload 1 in
  let* (seq, p) := ngtcp2_get_uvarint p in
  let* (retire_prior_to, p) := ngtcp2_get_uvarint p in
  let* p := advance p 1 in
  let* cid := ngtcp2_cid_init p cil in
  let* p := advance p cil in
  let* (token, p) := get_bytes p NGTCP2_STATELESS_RESET_TOKENLEN in
  assert! payloadlen - zlen p =? len;
  Ok (Fr_new_connection_id seq retire_prior_to cid token, len).

Definition ngtcp2_pkt_decode_stop_sending_frame (payload : list Z) : res (ngtcp2_frame * Z) :=
  let payloadlen := zlen payload in
  let len := 1 + 1 + 1 in
  if payloadlen <? len then Err NGTCP2_ERR_FRAME_ENCODING else
  let* p := advance payload 1 in
  let* n := ngtcp2_get_uvarintlen p in
  let len := len + n - 1 in
  if payloadlen <? len then Err NGTCP2_ERR_FRAME_ENCODING else
  let* p := advance p n in
  let* n := ngtcp2_get_uvarintlen p in
  let len := len + n - 1 in
  if payloadlen <? len then Err NGTCP2_ERR_FRAME_ENCODING else
  let* p := advance payload 1 in
  let* (stream_id, p) := ngtcp2_get_varint p in
  let* (app_error_code, p) := ngtcp2_get_uvarint p in
  assert! payloadlen - zlen p =? len;
  Ok (Fr_stop_sending stream_id app_error_code, len).

Definition ngtcp2_pkt_decode_path_challenge_frame (payload : list Z)
    : res (ngtcp2_frame * Z) :=
  let payloadlen := zlen payload in
  let len := 1 + 8 in
  if payloadlen <? len then Err NGTCP2_ERR_FRAME_ENCODING else
  let* p := advance payload 1 in
  let* (data, p) := get_bytes p 8 in
  assert! payloadlen - zlen p =? len;
  Ok (Fr_path_challenge data, len).

Definition ngtcp2_pkt_decode_path_response_frame (payload : list Z)
    : res (ngtcp2_frame * Z) :=
  let payloadlen := zlen payload in
  let len := 1 + 8 in
  if payloadlen <? len then Err NGTCP2_ERR_FRAME_ENCODING else
  let* p := advance payload 1 in
  let* (data, p) := get_bytes p 8 in
  assert! payloadlen - zlen p =? len;
  Ok (Fr_path_response data, len).

Definition ngtcp2_pkt_decode_crypto_frame (payload : list Z) : res (ngtcp2_frame * Z) :=
  let payloadlen := zlen payload in
  let len := 1 + 1 + 1 in
  if payloadlen <? len then Err NGTCP2_ERR_FRAME_ENCODING else
  let* p := advance payload 1 in
  let* n := ngtcp2_get_uvarintlen p in
  let len := len + n - 1 in
  if payloadlen <? len then Err NGTCP2_ERR_FRAME_ENCODING else
  let* p := advance p n in
  let* ndatalen := ngtcp2_get_uvarintlen p in
  let len := len + ndatalen - 1 in
  if payloadlen <? len then Err NGTCP2_ERR_FRAME_ENCODING else
  let* (vi, _) := ngtcp2_get_uvarint p in
  if payloadlen - len <? vi then Err NGTCP2_ERR_FRAME_ENCODING else
  let datalen := vi in
  let len := len + datalen in
  let* p := advance payload 1 in
  let* (offset, p) := ngtcp2_get_uvarint p in
  let* p := advance p ndatalen in
  let* (data, p) :=
    if negb (datalen =? 0)
    then let* (d, p) := get_bytes p datalen in Ok ([d], p)
    else Ok ([], p) in
  assert! payloadlen - zlen p =? len;
  Ok (Fr_stream (mk_stream NGTCP2_FRAME_CRYPTO 0 false 0 offset data None), len).

Definition ngtcp2_pkt_decode_new_token_frame (payload : list Z) : res (ngtcp2_frame * Z) :=
  let payloadlen := zlen payload in
  let len := 1 + 1 in
  if payloadlen <? len then Err NGTCP2_ERR_FRAME_ENCODING else
  let* p := advance payload 1 in
  let* n := ngtcp2_get_uvarintlen p in
  let len := len + n - 1 in
  if payloadlen <? len then Err NGTCP2_ERR_FRAME_ENCODING else
  let* (vi, p) := ngtcp2_get_uvarint p in
  if payloadlen - len <? vi then Err NGTCP2_ERR_FRAME_ENCODING else
  let datalen := vi in
  let len := len + datalen in
  let* (token, p) := get_bytes p datalen in
  assert! payloadlen - zlen p =? len;
  Ok (Fr_new_token token, len).

Definition ngtcp2_pkt_decode_retire_connection_id_frame (payload : list Z)
    : res (ngtcp2_frame * Z) :=
  let payloadlen := zlen payload in
  let len := 1 + 1 in
  if payloadlen <? len then Err NGTCP2_ERR_FRAME_ENCODING else
  let* p := advance payload 1 in
  let* n := ngtcp2_get_uvarintlen p in
  let len := len + n - 1 in
  if payloadlen <? len then Err NGTCP2_ERR_FRAME_ENCODING else
  let* (seq, p) := ngtcp2_get_uvarint p in
  assert! payloadlen - zlen p =? len;
  Ok (Fr_retire_connection_id seq, len).

Definition ngtcp2_pkt_decode_handshake_done_frame (payload : list Z)
    : res (ngtcp2_frame * Z) :=
  assert! 0 <? zlen payload;
  Ok (Fr_handshake_done, 1).

Definition ngtcp2_pkt_decode_datagram_frame (payload : list Z) : res (ngtcp2_frame * Z) :=
  let payloadlen := zlen payload in
  let len := 1 in
  assert! 0 <? payloadlen;
  let* type := read8 payload in
  let* p := advance payload 1 in
  let* (datalen, len, p) :=
    if type =? NGTCP2_FRAME_DATAGRAM then Ok (payloadlen - 1, payloadlen, p)
    else if type =? NGTCP2_FRAME_DATAGRAM_LEN then
      let len := len + 1 in
      if payloadlen <? len then Err NGTCP2_ERR_FRAME_ENCODING else
      let* n := ngtcp2_get_uvarintlen p in
      let len := len + n - 1 in
      if payloadlen <? len then Err NGTCP2_ERR_FRAME_ENCODING else
      let* (vi, p) := ngtcp2_get_uvarint p in
      if payloadlen - len <? vi then Err NGTCP2_ERR_FRAME_ENCODING else
      Ok (vi, len + vi, p)
    else Fault in
  let* (data, p) :=
    if negb (datalen =? 0)
    then let* (d, p) := get_bytes p datalen in Ok ([d], p)
    else Ok ([], p) in
  assert! payloadlen - zlen p =? len;
  Ok (Fr_datagram type data, len).

(** [switch (type)] of the frame decoder. *)
Definition ngtcp2_frame_decoder_decode (payload : list Z) : res (ngtcp2_frame * Z) :=
  if zlen payload =? 0 then Err NGTCP2_ERR_FRAME_ENCODING else
  let* type := read8 payload in
  if type =? NGTCP2_FRAME_PADDING then ngtcp2_pkt_decode_padding_frame payload
  else if type =? NGTCP2_FRAME_RESET_STREAM then ngtcp2_pkt_decode_reset_stream_frame payload
  else if (type =? NGTCP2_FRAME_CONNECTION_CLOSE) || (type =? NGTCP2_FRAME_CONNECTION_CLOSE_APP)
  then ngtcp2_pkt_decode_connection_close_frame payload
  else if type =? NGTCP2_FRAME_MAX_DATA then ngtcp2_pkt_decode_max_data_frame payload
  else if type =? NGTCP2_FRAME_MAX_STREAM_DATA
  then ngtcp2_pkt_decode_max_stream_data_frame payload
  else if (type =? NGTCP2_FRAME_MAX_STREAMS_BIDI) || (type =? NGTCP2_FRAME_MAX_STREAMS_UNI)
  then ngtcp2_pkt_decode_max_streams_frame payload
  else if type =? NGTCP2_FRAME_PING then ngtcp2_pkt_decode_ping_frame payload
  else if type =? NGTCP2_FRAME_DATA_BLOCKED then ngtcp2_pkt_decode_data_blocked_frame payload
  else if type =? NGTCP2_FRAME_STREAM_DATA_BLOCKED
  then ngtcp2_pkt_decode_stream_data_blocked_frame payload
  else if (type =? NGTCP2_FRAME_STREAMS_BLOCKED_BIDI) || (type =? NGTCP2_FRAME_STREAMS_BLOCKED_UNI)
  then ngtcp2_pkt_decode_streams_blocked_frame payload
  else if type =? NGTCP2_FRAME_NEW_CONNECTION_ID
  then ngtcp2_pkt_decode_new_connection_id_frame payload
  else if type =? NGTCP2_FRAME_STOP_SENDING then ngtcp2_pkt_decode_stop_sending_frame payload
  else if (type =? NGTCP2_FRAME_ACK) || (type =? NGTCP2_FRAME_ACK_ECN)
  then ngtcp2_pkt_decode_ack_frame payload
  else if type =? NGTCP2_FRAME_PATH_CHALLENGE
  then ngtcp2_pkt_decode_path_challenge_frame payload
  else if type =? NGTCP2_FRAME_PATH_RESPONSE
  then ngtcp2_pkt_decode_path_response_frame payload
  else if type =? NGTCP2_FRAME_CRYPTO then ngtcp2_pkt_decode_crypto_frame payload
  else if type =? NGTCP2_FRAME_NEW_TOKEN then ngtcp2_pkt_decode_new_token_frame payload
  else if type =? NGTCP2_FRAME_RETIRE_CONNECTION_ID
  then ngtcp2_pkt_decode_retire_connection_id_frame payload
  else if type =? NGTCP2_FRAME_HANDSHAKE_DONE
  then ngtcp2_pkt_decode_handshake_done_frame payload
  else if (type =? NGTCP2_FRAME_DATAGRAM) || (type =? NGTCP2_FRAME_DATAGRAM_LEN)
  then ngtcp2_pkt_decode_datagram_frame payload
  else if Z.land type (Z.lnot (NGTCP2_FRAME_STREAM - 1)) =? NGTCP2_FRAME_STREAM
  then ngtcp2_pkt_decode_stream_frame payload
  else Err NGTCP2_ERR_FRAME_ENCODING.

(** ** Encoders

    An encoder computes the length of the frame first, returns
    [NGTCP2_ERR_NOBUF] when the buffer of [outlen] bytes is shorter, and
    asserts at the end that it wrote exactly that many bytes: a run without
    [Fault] never writes past [outlen].  [p] is the list of the bytes
    written so far. *)

(** [ngtcp2_vec_len] *)
Fixpoint ngtcp2_vec_len (vec : list (list Z)) : Z :=
  match vec with
  | [] => 0
  | v :: vec => zlen v + ngtcp2_vec_len vec
  end.

(** [for (i = 0; i < fr->datacnt; ++i)] with the assertion that no vector
    is empty. *)
Fixpoint put_nonempty_vecs (p : list Z) (vec : list (list Z)) : res (list Z) :=
  match vec with
  | [] => Ok p
  | v :: vec => assert! negb (zlen v =? 0); put_nonempty_vecs (p ++ v) vec
  end.

Fixpoint put_vecs (p : list Z) (vec : list (list Z)) : list Z :=
  match vec with
  | [] => p
  | v :: vec => if zlen v =? 0 then put_vecs p vec else put_vecs (p ++ v) vec
  end.

Definition ngtcp2_pkt_encode_stream_frame (outlen : Z) (fr : ngtcp2_stream)
    : res (list Z * ngtcp2_frame) :=
  let len := 1 in
  let flags := NGTCP2_STREAM_LEN_BIT in
  let flags := if st_fin fr then Z.lor flags NGTCP2_STREAM_FIN_BIT else flags in
  let* (flags, len) :=
    if negb (st_offset fr =? 0) then
      let* n := ngtcp2_put_uvarintlen (st_offset fr) in
      Ok (Z.lor flags NGTCP2_STREAM_OFF_BIT, len + n)
    else Ok (flags, len) in
  let* n := ngtcp2_put_uvarintlen (u64 (st_stream_id fr)) in
  let len := len + n in
  let datalen :=
    match st_txbuf fr with
    | Some txbuf => zlen txbuf
    | None => ngtcp2_vec_len (st_data fr)
    end in
  let* n := ngtcp2_put_uvarintlen datalen in
  let len := len + n in
  let len := len + datalen in
  if outlen <? len then Err NGTCP2_ERR_NOBUF else
  let p := [Z.lor flags NGTCP2_FRAME_STREAM] in
  let fr' := mk_stream (st_type fr) flags (st_fin fr) (st_stream_id fr) (st_offset fr)
                       (st_data fr) (st_txbuf fr) in
  let* p := ngtcp2_put_uvarint p (u64 (st_stream_id fr)) in
  let* p :=
    if negb (st_offset fr =? 0) then ngtcp2_put_uvarint p (st_offset fr) else Ok p in
  let* p := ngtcp2_put_uvarint p datalen in
  let* p :=
    match st_txbuf fr with
    | Some txbuf => Ok (p ++ txbuf)
    | None => put_nonempty_vecs p (st_data fr)
    end in
  assert! zlen p =? len;
  Ok (p, Fr_stream fr').

(** The loop that adds up the lengths of the ranges. *)
Fixpoint ack_ranges_len (len : Z) (ranges : list ngtcp2_ack_range) : res Z :=
  match ranges with
  | [] => Ok len
  | r :: ranges =>
      let* n := ngtcp2_put_uvarintlen (ar_gap r) in
      let* m := ngtcp2_put_uvarintlen (ar_len r) in
      ack_ranges_len (len + n + m) ranges
  end.

Fixpoint put_ack_ranges (p : list Z) (ranges : list ngtcp2_ack_range) : res (list Z) :=
  match ranges with
  | [] => Ok p
  | r :: ranges =>
      let* p := ngtcp2_put_uvarint p (ar_gap r) in
      let* p := ngtcp2_put_uvarint p (ar_len r) in
      put_ack_ranges p ranges
  end.

(** [fr->ecn]: its value is only set for [NGTCP2_FRAME_ACK_ECN]. *)
Definition ngtcp2_pkt_encode_ack_frame (outlen : Z) (fr : ngtcp2_ack) : res (list Z) :=
  let rangecnt := zlen (ack_ranges fr) in
  let* n1 := ngtcp2_put_uvarintlen (u64 (ack_largest_ack fr)) in
  let* n2 := ngtcp2_put_uvarintlen (ack_delay fr) in
  let* n3 := ngtcp2_put_uvarintlen rangecnt in
  let* n4 := ngtcp2_put_uvarintlen (ack_first_ack_range fr) in
  let len := 1 + n1 + n2 + n3 + n4 in
  let* len := ack_ranges_len len (ack_ranges fr) in
  let* len :=
    if ack_type fr =? NGTCP2_FRAME_ACK_ECN then
      match ack_ecn fr with
      | Some (ect0, ect1, ce) =>
          let* n1 := ngtcp2_put_uvarintlen ect0 in
          let* n2 := ngtcp2_put_uvarintlen ect1 in
          let* n3 := ngtcp2_put_uvarintlen ce in
          Ok (len + (n1 + n2 + n3))
      | None => Fault
      end
    else Ok len in
  if outlen <? len then Err NGTCP2_ERR_NOBUF else
  let p := [u8 (ack_type fr)] in
  let* p := ngtcp2_put_uvarint p (u64 (ack_largest_ack fr)) in
  let* p := ngtcp2_put_uvarint p (ack_delay fr) in
  let* p := ngtcp2_put_uvarint p rangecnt in
  let* p := ngtcp2_put_uvarint p (ack_first_ack_range fr) in
  let* p := put_ack_ranges p (ack_ranges fr) in
  let* p :=
    if ack_type fr =? NGTCP2_FRAME_ACK_ECN then
      match ack_ecn fr with
      | Some (ect0, ect1, ce) =>
          let* p := ngtcp2_put_uvarint p ect0 in
          let* p := ngtcp2_put_uvarint p ect1 in
          ngtcp2_put_uvarint p ce
      | None => Fault
      end
    else Ok p in
  assert! zlen p =? len;
  Ok p.

Definition ngtcp2_pkt_encode_padding_frame (outlen len : Z) : res (list Z) :=
  if outlen <? len then Err NGTCP2_ERR_NOBUF
  else Ok (replicate (Z.to_nat len) 0).

Definition ngtcp2_pkt_encode_reset_stream_frame (outlen stream_id app_error_code final_size : Z)
    : res (list Z) :=
  let* n1 := ngtcp2_put_uvarintlen (u64 stream_id) in
  let* n2 := ngtcp2_put_uvarintlen app_error_code in
  let* n3 := ngtcp2_put_uvarintlen final_size in
  let len := 1 + n1 + n2 + n3 in
  if outlen <? len then Err NGTCP2_ERR_NOBUF else
  let p := [NGTCP2_FRAME_RESET_STREAM] in
  let* p := ngtcp2_put_uvarint p (u64 stream_id) in
  let* p := ngtcp2_put_uvarint p app_error_code in
  let* p := ngtcp2_put_uvarint p final_size in
  assert! zlen p =? len;
  Ok p.

Definition ngtcp2_pkt_encode_connection_close_frame
    (outlen type error_code frame_type : Z) (reason : list Z) : res (list Z) :=
  let reasonlen := zlen reason in
  let* n1 := ngtcp2_put_uvarintlen error_code in
  let* n2 :=
    if type =? NGTCP2_FRAME_CONNECTION_CLOSE then ngtcp2_put_uvarintlen frame_type
    else Ok 0 in
  let* n3 := ngtcp2_put_uvarintlen reasonlen in
  let len := 1 + n1 + n2 + n3 + reasonlen in
  if outlen <? len then Err NGTCP2_ERR_NOBUF else
  let p := [u8 type] in
  let* p := ngtcp2_put_uvarint p error_code in
  let* p :=
    if type =? NGTCP2_FRAME_CONNECTION_CLOSE then ngtcp2_put_uvarint p frame_type
    else Ok p in
  let* p := ngtcp2_put_uvarint p reasonlen in
  let p := if negb (reasonlen =? 0) then p ++ reason else p in
  assert! zlen p =? len;
  Ok p.

Definition ngtcp2_pkt_encode_max_data_frame (outlen max_data : Z) : res (list Z) :=
  let* n := ngtcp2_put_uvarintlen max_data in
  let len := 1 + n in
  if outlen <? len then Err NGTCP2_ERR_NOBUF else
  let* p := ngtcp2_put_uvarint [NGTCP2_FRAME_MAX_DATA] max_data in
  assert! zlen p =? len;
  Ok p.

Definition ngtcp2_pkt_encode_max_stream_data_frame (outlen stream_id max_stream_data : Z)
    : res (list Z) :=
  let* n1 := ngtcp2_put_uvarintlen (u64 stream_id) in
  let* n2 := ngtcp2_put_uvarintlen max_stream_data in
  let len := 1 + n1 + n2 in
  if outlen <? len then Err NGTCP2_ERR_NOBUF else
  let* p := ngtcp2_put_uvarint [NGTCP2_FRAME_MAX_STREAM_DATA] (u64 stream_id) in
  let* p := ngtcp2_put_uvarint p max_stream_data in
  assert! zlen p =? len;
  Ok p.

Definition ngtcp2_pkt_encode_max_streams_frame (outlen type max_streams : Z) : res (list Z) :=
  let* n := ngtcp2_put_uvarintlen max_streams in
  let len := 1 + n in
  if outlen <? len then Err NGTCP2_ERR_NOBUF else
  let* p := ngtcp2_put_uvarint [u8 type] max_streams in
  assert! zlen p =? len;
  Ok p.

Definition ngtcp2_pkt_encode_ping_frame (outlen : Z) : res (list Z) :=
  if outlen <? 1 then Err NGTCP2_ERR_NOBUF else Ok [NGTCP2_FRAME_PING].

Definition ngtcp2_pkt_encode_data_blocked_frame (outlen offset : Z) : res (list Z) :=
  let* n := ngtcp2_put_uvarintlen offset in
  let len := 1 + n in
  if outlen <? len then Err NGTCP2_ERR_NOBUF else
  let* p := ngtcp2_put_uvarint [NGTCP2_FRAME_DATA_BLOCKED] offset in
  assert! zlen p =? len;
  Ok p.

Definition ngtcp2_pkt_encode_stream_data_blocked_frame (outlen stream_id offset : Z)
    : res (list Z) :=
  let* n1 := ngtcp2_put_uvarintlen (u64 stream_id) in
  let* n2 := ngtcp2_put_uvarintlen offset in
  let len := 1 + n1 + n2 in
  if outlen <? len then Err NGTCP2_ERR_NOBUF else
  let* p := ngtcp2_put_uvarint [NGTCP2_FRAME_STREAM_DATA_BLOCKED] (u64 stream_id) in
  let* p := ngtcp2_put_uvarint p offset in
  assert! zlen p =? len;
  Ok p.

Definition ngtcp2_pkt_encode_streams_blocked_frame (outlen type max_streams : Z)
    : res (list Z) :=
  let* n := ngtcp2_put_uvarintlen max_streams in
  let len := 1 + n in
  if outlen <? len then Err NGTCP2_ERR_NOBUF else
  let* p := ngtcp2_put_uvarint [u8 type] max_streams in
  assert! zlen p =? len;
  Ok p.

(** [token] is an array of [NGTCP2_STATELESS_RESET_TOKENLEN] bytes. *)
Definition ngtcp2_pkt_encode_new_connection_id_frame
    (outlen seq retire_prior_to : Z) (cid token : list Z) : res (list Z) :=
  let* n1 := ngtcp2_put_uvarintlen seq in
  let* n2 := ngtcp2_put_uvarintlen retire_prior_to in
  let len := 1 + n1 + n2 + 1 + zlen cid + NGTCP2_STATELESS_RESET_TOKENLEN in
  if outlen <? len then Err NGTCP2_ERR_NOBUF else
  let* p := ngtcp2_put_uvarint [NGTCP2_FRAME_NEW_CONNECTION_ID] seq in
  let* p := ngtcp2_put_uvarint p retire_prior_to in
  let p := p ++ [u8 (zlen cid)] in
  let p := p ++ cid in
  let p := p ++ token in
  assert! zlen p =? len;
  Ok p.

Definition ngtcp2_pkt_encode_stop_sending_frame (outlen stream_id app_error_code : Z)
    : res (list Z) :=
  let* n1 := ngtcp2_put_uvarintlen (u64 stream_id) in
  let* n2 := ngtcp2_put_uvarintlen app_error_code in
  let len := 1 + n1 + n2 in
  if outlen <? len then Err NGTCP2_ERR_NOBUF else
  let* p := ngtcp2_put_uvarint [NGTCP2_FRAME_STOP_SENDING] (u64 stream_id) in
  let* p := ngtcp2_put_uvarint p app_error_code in
  assert! zlen p =? len;
  Ok p.

(** [data] is an array of 8 bytes. *)
Definition ngtcp2_pkt_encode_path_challenge_frame (outlen : Z) (data : list Z)
    : res (list Z) :=
  let len := 1 + 8 in
  if outlen <? len then Err NGTCP2_ERR_NOBUF else
  let p := NGTCP2_FRAME_PATH_CHALLENGE :: data in
  assert! zlen p =? len;
  Ok p.

Definition ngtcp2_pkt_encode_path_response_frame (outlen : Z) (data : list Z)
    : res (list Z) :=
  let len := 1 + 8 in
  if outlen <? len then Err NGTCP2_ERR_NOBUF else
  let p := NGTCP2_FRAME_PATH_RESPONSE :: data in
  assert! zlen p =? len;
  Ok p.

(** The [assert(fr->data[i].base)] of the loop is about a null pointer,
    which the model of a vector by its bytes does not have. *)
Definition ngtcp2_pkt_encode_crypto_frame (outlen : Z) (fr : ngtcp2_stream) : res (list Z) :=
  let len := 1 in
  let* n := ngtcp2_put_uvarintlen (st_offset fr) in
  let len := len + n in
  let datalen := ngtcp2_vec_len (st_data fr) in
  let* n := ngtcp2_put_uvarintlen datalen in
  let len := len + n in
  let len := len + datalen in
  if outlen <? len then Err NGTCP2_ERR_NOBUF else
  let p := [NGTCP2_FRAME_CRYPTO] in
  let* p := ngtcp2_put_uvarint p (st_offset fr) in
  let* p := ngtcp2_put_uvarint p datalen in
  let p := fold_left (fun p v => p ++ v) (st_data fr) p in
  assert! zlen p =? len;
  Ok p.

Definition ngtcp2_pkt_encode_new_token_frame (outlen : Z) (token : list Z) : res (list Z) :=
  let tokenlen := zlen token in
  let* n := ngtcp2_put_uvarintlen tokenlen in
  let len := 1 + n + tokenlen in
  assert! negb (tokenlen =? 0);
  if outlen <? len then Err NGTCP2_ERR_NOBUF else
  let* p := ngtcp2_put_uvarint [NGTCP2_FRAME_NEW_TOKEN] tokenlen in
  let p := p ++ token in
  assert! zlen p =? len;
  Ok p.

Definition ngtcp2_pkt_encode_retire_connection_id_frame (outlen seq : Z) : res (list Z) :=
  let* n := ngtcp2_put_uvarintlen seq in
  let len := 1 + n in
  if outlen <? len then Err NGTCP2_ERR_NOBUF else
  let* p := ngtcp2_put_uvarint [NGTCP2_FRAME_RETIRE_CONNECTION_ID] seq in
  assert! zlen p =? len;
  Ok p.

Definition ngtcp2_pkt_encode_handshake_done_frame (outlen : Z) : res (list Z) :=
  if outlen <? 1 then Err NGTCP2_ERR_NOBUF else Ok [NGTCP2_FRAME_HANDSHAKE_DONE].

Definition ngtcp2_pkt_encode_datagram_frame (outlen type : Z) (data : list (list Z))
    : res (list Z) :=
  let datalen := ngtcp2_vec_len data in
  let* n := if type =? NGTCP2_FRAME_DATAGRAM then Ok 0 else ngtcp2_put_uvarintlen datalen in
  let len := 1 + n + datalen in
  assert! (type =? NGTCP2_FRAME_DATAGRAM) || (type =? NGTCP2_FRAME_DATAGRAM_LEN);
  if outlen <? len then Err NGTCP2_ERR_NOBUF else
  let p := [u8 type] in
  let* p :=
    if type =? NGTCP2_FRAME_DATAGRAM_LEN then ngtcp2_put_uvarint p datalen else Ok p in
  let p := put_vecs p data in
  assert! zlen p =? len;
  Ok p.

(** [switch (fr->hd.type)]: the member of the union is selected by the
    type; a member that does not belong to its type is a [Fault].  The
    frame is returned because [ngtcp2_pkt_encode_stream_frame] sets its
    [flags]. *)
Definition ngtcp2_pkt_encode_frame (outlen : Z) (fr : ngtcp2_frame)
    : res (list Z * ngtcp2_frame) :=
  let keep (c : res (list Z)) := let* p := c in Ok (p, fr) in
  match fr with
  | Fr_stream s =>
      if st_type s =? NGTCP2_FRAME_STREAM then ngtcp2_pkt_encode_stream_frame outlen s
      else if st_type s =? NGTCP2_FRAME_CRYPTO
      then keep (ngtcp2_pkt_encode_crypto_frame outlen s)
      else Fault
  | Fr_ack a =>
      if (ack_type a =? NGTCP2_FRAME_ACK) || (ack_type a =? NGTCP2_FRAME_ACK_ECN)
      then keep (ngtcp2_pkt_encode_ack_frame outlen a) else Fault
  | Fr_padding len => keep (ngtcp2_pkt_encode_padding_frame outlen len)
  | Fr_reset_stream id ec fs => keep (ngtcp2_pkt_encode_reset_stream_frame outlen id ec fs)
  | Fr_connection_close type ec ft reason =>
      if (type =? NGTCP2_FRAME_CONNECTION_CLOSE) || (type =? NGTCP2_FRAME_CONNECTION_CLOSE_APP)
      then keep (ngtcp2_pkt_encode_connection_close_frame outlen type ec ft reason) else Fault
  | Fr_max_data m => keep (ngtcp2_pkt_encode_max_data_frame outlen m)
  | Fr_max_stream_data id m => keep (ngtcp2_pkt_encode_max_stream_data_frame outlen id m)
  | Fr_max_streams type m =>
      if (type =? NGTCP2_FRAME_MAX_STREAMS_BIDI) || (type =? NGTCP2_FRAME_MAX_STREAMS_UNI)
      then keep (ngtcp2_pkt_encode_max_streams_frame outlen type m) else Fault
  | Fr_ping => keep (ngtcp2_pkt_encode_ping_frame outlen)
  | Fr_data_blocked o => keep (ngtcp2_pkt_encode_data_blocked_frame outlen o)
  | Fr_stream_data_blocked id o =>
      keep (ngtcp2_pkt_encode_stream_data_blocked_frame outlen id o)
  | Fr_streams_blocked type m =>
      if (type =? NGTCP2_FRAME_STREAMS_BLOCKED_BIDI) || (type =? NGTCP2_FRAME_STREAMS_BLOCKED_UNI)
      then keep (ngtcp2_pkt_encode_streams_blocked_frame outlen type m) else Fault
  | Fr_new_connection_id seq rpt cid token =>
      keep (ngtcp2_pkt_encode_new_connection_id_frame outlen seq rpt cid token)
  | Fr_stop_sending id ec => keep (ngtcp2_pkt_encode_stop_sending_frame outlen id ec)
  | Fr_path_challenge d => keep (ngtcp2_pkt_encode_path_challenge_frame outlen d)
  | Fr_path_response d => keep (ngtcp2_pkt_encode_path_response_frame outlen d)
  | Fr_new_token t => keep (ngtcp2_pkt_encode_new_token_frame outlen t)
  | Fr_retire_connection_id seq =>
      keep (ngtcp2_pkt_encode_retire_connection_id_frame outlen seq)
  | Fr_handshake_done => keep (ngtcp2_pkt_encode_handshake_done_frame outlen)
  | Fr_datagram type d =>
      if (type =? NGTCP2_FRAME_DATAGRAM) || (type =? NGTCP2_FRAME_DATAGRAM_LEN)
      then keep (ngtcp2_pkt_encode_datagram_frame outlen type d) else Fault
  end.
