(* ===== verification/FrameSafe.v ===== *)
(** * Memory safety of the frame decoder

    For every payload the decoders of [Frame] either return a frame whose
    fields are in range and which occupies between one and [payloadlen]
    bytes, or return [NGTCP2_ERR_FRAME_ENCODING]; no read is out of bounds
    and no assertion fails.  The two passes of the ACK decoder are related
    by [vrun]: the first pass establishes that a run of integers is inside
    the payload, the second one reads it. *)

From S2P Require Import Prelude Conv Const Wp PktHd Frame.

Definition varint (n : Z) : Prop := 0 <= n < 2 ^ 62.

Definition ack_range_ok (r : ngtcp2_ack_range) : Prop := varint (ar_gap r) /\ varint (ar_len r).

Definition ecn_ok (ecn : Z * Z * Z) : Prop :=
  varint (ecn.1.1) /\ varint (ecn.1.2) /\ varint (ecn.2).

(** The fields of a frame have the ranges of their wire format. *)
Definition frame_ok (fr : ngtcp2_frame) : Prop :=
  match fr with
  | Fr_stream s =>
      (st_type s = NGTCP2_FRAME_STREAM \/ st_type s = NGTCP2_FRAME_CRYPTO) /\
      varint (st_stream_id s) /\ varint (st_offset s) /\
      Forall (fun v => bytes v /\ 1 <= zlen v) (st_data s)
  | Fr_ack a =>
      ((ack_type a = NGTCP2_FRAME_ACK /\ ack_ecn a = None) \/
       (ack_type a = NGTCP2_FRAME_ACK_ECN /\
        exists ecn, ack_ecn a = Some ecn /\ ecn_ok ecn)) /\
      varint (ack_largest_ack a) /\ varint (ack_delay a) /\
      varint (ack_first_ack_range a) /\ zlen (ack_ranges a) <= NGTCP2_MAX_ACK_RANGES /\
      Forall ack_range_ok (ack_ranges a)
  | Fr_padding len => 1 <= len
  | Fr_reset_stream id ec fs => varint id /\ varint ec /\ varint fs
  | Fr_connection_close type ec ft reason =>
      (type = NGTCP2_FRAME_CONNECTION_CLOSE \/
       (type = NGTCP2_FRAME_CONNECTION_CLOSE_APP /\ ft = 0)) /\
      varint ec /\ varint ft /\ bytes reason
  | Fr_max_data m => varint m
  | Fr_max_stream_data id m => varint id /\ varint m
  | Fr_max_streams type m =>
      (type = NGTCP2_FRAME_MAX_STREAMS_BIDI \/ type = NGTCP2_FRAME_MAX_STREAMS_UNI) /\ varint m
  | Fr_ping => True
  | Fr_data_blocked o => varint o
  | Fr_stream_data_blocked id o => varint id /\ varint o
  | Fr_streams_blocked type m =>
      (type = NGTCP2_FRAME_STREAMS_BLOCKED_BIDI \/ type = NGTCP2_FRAME_STREAMS_BLOCKED_UNI)
      /\ varint m
  | Fr_new_connection_id seq rpt cid token =>
      varint seq /\ varint rpt /\ bytes cid /\
      NGTCP2_MIN_CIDLEN <= zlen cid <= NGTCP2_MAX_CIDLEN /\
      bytes token /\ zlen token = NGTCP2_STATELESS_RESET_TOKENLEN
  | Fr_stop_sending id ec => varint id /\ varint ec
  | Fr_path_challenge d => bytes d /\ zlen d = 8
  | Fr_path_response d => bytes d /\ zlen d = 8
  | Fr_new_token t => bytes t
  | Fr_retire_connection_id seq => varint seq
  | Fr_handshake_done => True
  | Fr_datagram type d =>
      (type = NGTCP2_FRAME_DATAGRAM \/ type = NGTCP2_FRAME_DATAGRAM_LEN) /\
      Forall (fun v => bytes v /\ 1 <= zlen v) d
  end.

(** What a decoder promises for a payload. *)
Definition decoded (payload : list Z) (r : ngtcp2_frame * Z) : Prop :=
  frame_ok r.1 /\ 1 <= r.2 <= zlen payload.

Definition frame_encoding_error (e : Z) : Prop := e = NGTCP2_ERR_FRAME_ENCODING.

Abbreviation safe payload c := (wp c (decoded payload) frame_encoding_error).

#[local] Ltac fin :=
  repeat match goal with
  | |- frame_encoding_error _ => reflexivity
  | |- decoded _ _ => split; cbn [fst snd frame_ok st_type st_stream_id st_offset st_data]; [|wp_lia]
  | |- _ /\ _ => split
  | |- varint _ => unfold varint; wp_lia
  | |- True => exact I
  | |- bytes _ => assumption
  | |- Forall _ [] => constructor
  | |- Forall _ [_] => constructor; [split; [assumption|wp_lia] | constructor]
  | |- ?x = ?x => reflexivity
  end.

#[local] Ltac frame_steps := cbv zeta; wp_steps; fin; try wp_lia.

(** ** Decoders with a fixed number of fields *)
Section Fixed.
Context (payload : list Z) (Hb : bytes payload).

Lemma decode_reset_stream_safe : safe payload (ngtcp2_pkt_decode_reset_stream_frame payload).
Proof. unfold ngtcp2_pkt_decode_reset_stream_frame. frame_steps. Qed.

Lemma decode_max_data_safe : safe payload (ngtcp2_pkt_decode_max_data_frame payload).
Proof. unfold ngtcp2_pkt_decode_max_data_frame. frame_steps. Qed.

Lemma decode_max_stream_data_safe :
  safe payload (ngtcp2_pkt_decode_max_stream_data_frame payload).
Proof. unfold ngtcp2_pkt_decode_max_stream_data_frame. frame_steps. Qed.

Lemma decode_data_blocked_safe : safe payload (ngtcp2_pkt_decode_data_blocked_frame payload).
Proof. unfold ngtcp2_pkt_decode_data_blocked_frame. frame_steps. Qed.

Lemma decode_stream_data_blocked_safe :
  safe payload (ngtcp2_pkt_decode_stream_data_blocked_frame payload).
Proof. unfold ngtcp2_pkt_decode_stream_data_blocked_frame. frame_steps. Qed.

Lemma decode_stop_sending_safe : safe payload (ngtcp2_pkt_decode_stop_sending_frame payload).
Proof. unfold ngtcp2_pkt_decode_stop_sending_frame. frame_steps. Qed.

Lemma decode_path_challenge_safe :
  safe payload (ngtcp2_pkt_decode_path_challenge_frame payload).
Proof. unfold ngtcp2_pkt_decode_path_challenge_frame. frame_steps. Qed.

Lemma decode_path_response_safe :
  safe payload (ngtcp2_pkt_decode_path_response_frame payload).
Proof. unfold ngtcp2_pkt_decode_path_response_frame. frame_steps. Qed.

Lemma decode_new_token_safe : safe payload (ngtcp2_pkt_decode_new_token_frame payload).
Proof. unfold ngtcp2_pkt_decode_new_token_frame. frame_steps. Qed.

Lemma decode_retire_connection_id_safe :
  safe payload (ngtcp2_pkt_decode_retire_connection_id_frame payload).
Proof. unfold ngtcp2_pkt_decode_retire_connection_id_frame. frame_steps. Qed.

Lemma decode_ping_safe : 1 <= zlen payload -> safe payload (ngtcp2_pkt_decode_ping_frame payload).
Proof. intros. unfold ngtcp2_pkt_decode_ping_frame. frame_steps. Qed.

Lemma decode_handshake_done_safe :
  1 <= zlen payload -> safe payload (ngtcp2_pkt_decode_handshake_done_frame payload).
Proof. intros. unfold ngtcp2_pkt_decode_handshake_done_frame. frame_steps. Qed.

End Fixed.

(** ** Decoders that depend on the type byte *)
Section Typed.
Context (type : Z) (tl : list Z) (Hb : bytes (type :: tl)).

Abbreviation payload := (type :: tl).

#[local] Ltac typed_steps :=
  pose proof (zlen_cons type tl); pose proof (zlen_nonneg tl);
  cbv zeta; cbn [read8 bind];
  repeat (wp_step; cbv beta iota zeta; cbn [read8 bind]); fin;
  first [wp_lia | tauto | idtac].

Lemma decode_max_streams_safe :
  type = NGTCP2_FRAME_MAX_STREAMS_BIDI \/ type = NGTCP2_FRAME_MAX_STREAMS_UNI ->
  safe payload (ngtcp2_pkt_decode_max_streams_frame payload).
Proof. intros. unfold ngtcp2_pkt_decode_max_streams_frame. typed_steps. Qed.

Lemma decode_streams_blocked_safe :
  type = NGTCP2_FRAME_STREAMS_BLOCKED_BIDI \/ type = NGTCP2_FRAME_STREAMS_BLOCKED_UNI ->
  safe payload (ngtcp2_pkt_decode_streams_blocked_frame payload).
Proof. intros. unfold ngtcp2_pkt_decode_streams_blocked_frame. typed_steps. Qed.

Lemma decode_connection_close_safe :
  type = NGTCP2_FRAME_CONNECTION_CLOSE \/ type = NGTCP2_FRAME_CONNECTION_CLOSE_APP ->
  safe payload (ngtcp2_pkt_decode_connection_close_frame payload).
Proof.
  intros. unfold ngtcp2_pkt_decode_connection_close_frame. typed_steps.
  all: try (by repeat constructor). all: tauto.
Qed.

Lemma decode_datagram_safe :
  type = NGTCP2_FRAME_DATAGRAM \/ type = NGTCP2_FRAME_DATAGRAM_LEN ->
  safe payload (ngtcp2_pkt_decode_datagram_frame payload).
Proof. intros Ht. unfold ngtcp2_pkt_decode_datagram_frame. typed_steps. all: tauto. Qed.

Lemma decode_crypto_safe : safe payload (ngtcp2_pkt_decode_crypto_frame payload).
Proof. unfold ngtcp2_pkt_decode_crypto_frame. typed_steps. all: tauto. Qed.

Lemma decode_stream_safe : safe payload (ngtcp2_pkt_decode_stream_frame payload).
Proof. unfold ngtcp2_pkt_decode_stream_frame. typed_steps. all: tauto. Qed.

Lemma decode_new_connection_id_safe :
  safe payload (ngtcp2_pkt_decode_new_connection_id_frame payload).
Proof.
  unfold ngtcp2_pkt_decode_new_connection_id_frame. typed_steps.
  unfold NGTCP2_MIN_CIDLEN, NGTCP2_MAX_CIDLEN in *.
  apply wp_cid_init; [done|lia|unfold NGTCP2_MAX_CIDLEN; lia|]. intros cid Hl Hc.
  do 2 wp_step. wp_step. unfold NGTCP2_STATELESS_RESET_TOKENLEN. wp_steps.
  fin; unfold NGTCP2_MIN_CIDLEN, NGTCP2_MAX_CIDLEN, NGTCP2_STATELESS_RESET_TOKENLEN; lia.
Qed.

Lemma skip_padding_len p : 0 <= zlen (skip_padding p) <= zlen p.
Proof. induction p as [|b p IH]; simpl; [zlia|]. destruct (b =? _); zlia. Qed.

Lemma decode_padding_safe : safe payload (ngtcp2_pkt_decode_padding_frame payload).
Proof.
  unfold ngtcp2_pkt_decode_padding_frame. cbv zeta.
  pose proof (zlen_cons type tl); pose proof (zlen_nonneg tl). rewrite advance_cons1.
  cbn [bind]. pose proof (skip_padding_len tl). wp_steps. fin; lia.
Qed.
End Typed.

(** ** Runs of integers *)
Inductive vrun : nat -> list Z -> list Z -> Prop :=
| vrun_O p : vrun 0 p p
| vrun_S k n p q :
    ngtcp2_get_uvarintlen p = Ok n -> 0 <= n <= zlen p ->
    vrun k (zdrop n p) q -> vrun (S k) p q.

Lemma vrun_S_inv k p q :
  vrun (S k) p q ->
  exists n, ngtcp2_get_uvarintlen p = Ok n /\ 0 <= n <= zlen p /\ vrun k (zdrop n p) q.
Proof. inversion 1; eauto. Qed.

Lemma vrun_split a b p r : vrun (a + b) p r -> exists q, vrun a p q /\ vrun b q r.
Proof.
  revert p; induction a as [|a IH]; intros p; simpl.
  - eauto using vrun_O.
  - intros (n & En & Hn & (q & ? & ?)%IH)%vrun_S_inv. eauto using vrun_S.
Qed.

Lemma vrun_app a b p q r : vrun a p q -> vrun b q r -> vrun (a + b) p r.
Proof. induction 1; simpl; eauto using vrun_S. Qed.

Lemma vrun_bytes k p q : vrun k p q -> bytes p -> bytes q.
Proof. induction 1; intros; [done|]. apply IHvrun. by apply Forall_zdrop. Qed.

Lemma wp_vrun_get k p q (Q : Z * list Z -> Prop) E :
  bytes p -> vrun (S k) p q ->
  (forall v p', varint v -> bytes p' -> vrun k p' q -> Q (v, p')) ->
  wp (ngtcp2_get_uvarint p) Q E.
Proof.
  intros Hb (n & En & Hn & Hv)%vrun_S_inv H. eapply wp_get_uvarint; [done..|].
  intros v p' ? <- ? ?. by apply H.
Qed.

Lemma wp_vrun_varint k p q (Q : Z * list Z -> Prop) E :
  bytes p -> vrun (S k) p q ->
  (forall v p', varint v -> bytes p' -> vrun k p' q -> Q (v, p')) ->
  wp (ngtcp2_get_varint p) Q E.
Proof.
  intros Hb (n & En & Hn & Hv)%vrun_S_inv H. eapply wp_get_varint; [done..|].
  intros v p' ? <- ? ?. by apply H.
Qed.

(** The first pass: [len] counts the bytes passed so far and one byte for
    each of the integers that are still to come. *)
Lemma wp_skip_uvarints k r payloadlen len p :
  bytes p -> len + zlen p = payloadlen + Z.of_nat k + r -> len <= payloadlen -> 0 <= r ->
  wp (skip_uvarints k payloadlen len p)
     (fun '(len', p') => vrun k p p' /\ len' + zlen p' = payloadlen + r /\ len' <= payloadlen)
     frame_encoding_error.
Proof.
  revert len p. induction k as [|k IH]; intros len p Hb He Hl Hr; simpl skip_uvarints.
  - cbn [wp]. split_and!; [apply vrun_O|lia..].
  - do 2 wp_step. wp_step; [wp_step; reflexivity|]. do 2 wp_step.
    eapply wp_mono; [apply IH; [done|lia..]| |done].
    intros [len' q] (Hv & ? & ?). subst p'. split_and!; [eapply vrun_S; eauto; lia|lia..].
Qed.

Lemma skip_uvarints_add a b payloadlen len p :
  skip_uvarints (a + b) payloadlen len p
  = (let* (len, p) := skip_uvarints a payloadlen len p in skip_uvarints b payloadlen len p).
Proof.
  revert len p; induction a as [|a IH]; intros len p; [done|].
  cbn [Nat.add skip_uvarints]. destruct (ngtcp2_get_uvarintlen p); simpl; [|done..].
  destruct (_ <? _); [done|]. destruct (advance p _); simpl; auto.
Qed.

Lemma skip_ack_ranges_eq k payloadlen len p :
  skip_ack_ranges k payloadlen len p = skip_uvarints (k * 2) payloadlen len p.
Proof.
  revert len p; induction k as [|k IH]; intros len p; [done|].
  change (S k * 2)%nat with (2 + k * 2)%nat. rewrite skip_uvarints_add.
  cbn [skip_ack_ranges]. destruct (skip_uvarints 2 _ _ _) as [[]| |]; simpl; auto.
Qed.

Lemma wp_get_ack_ranges k i p q :
  bytes p -> vrun (k * 2) p q -> i + Z.of_nat k <= NGTCP2_MAX_ACK_RANGES ->
  wp (get_ack_ranges k i p)
     (fun '(l, p') => p' = q /\ zlen l = Z.of_nat k /\ Forall ack_range_ok l)
     frame_encoding_error.
Proof.
  revert i p; induction k as [|k IH]; intros i p Hb Hv Hi; simpl get_ack_ranges.
  - inversion Hv; subst. cbn [wp]. auto using Forall_nil.
  - cbn [Nat.mul Nat.add] in Hv. wp_step. wp_step.
    eapply wp_vrun_get; [done..|]. intros gap p1 ? ? ?. wp_step.
    eapply wp_vrun_get; [done..|]. intros rlen p2 ? ? ?. wp_step.
    eapply wp_mono; [apply IH; [done..|lia]| |done].
    intros [l p3] (-> & Hl & Hf). cbn [wp]. split_and!; [done|zlia|].
    constructor; [by split|done].
Qed.

Lemma wp_pass_ack_ranges k p q :
  bytes p -> vrun (k * 2) p q ->
  wp (pass_ack_ranges k p) (fun p' => p' = q) frame_encoding_error.
Proof.
  revert p; induction k as [|k IH]; intros p Hb Hv; simpl pass_ack_ranges.
  - by inversion Hv; subst.
  - cbn [Nat.mul Nat.add] in Hv. apply vrun_S_inv in Hv as (n & En & Hn & Hv).
    apply vrun_S_inv in Hv as (m & Em & Hm & Hv). rewrite En. cbn [bind].
    rewrite advance_ok by done. cbn [bind]. rewrite Em. cbn [bind]. rewrite advance_ok by done.
    cbn [bind]. apply IH; [|done]. by repeat apply Forall_zdrop.
Qed.
Lemma wp_bind_inv {A B : Type} (c : res A) (f : A -> res B) Q E :
  wp (bind c f) Q E -> wp c (fun a => wp (f a) Q E) E.
Proof. by destruct c. Qed.

Lemma vrun_zlen k p q : vrun k p q -> zlen q <= zlen p.
Proof. induction 1; [done|]. rewrite zlen_zdrop in * by done. lia. Qed.

(** The body of the ACK frame behind First ACK Range: the additional ranges
    and, in an ECN frame, the three counts. *)
Lemma wp_skip_ack_tail (type : Z) k payloadlen len p :
  bytes p -> len + zlen p = payloadlen + Z.of_nat k * 2 -> len <= payloadlen ->
  wp (let* (len, p) := skip_ack_ranges k payloadlen len p in
      if type =? NGTCP2_FRAME_ACK_ECN then
        let len := len + 3 in
        if payloadlen <? len then Err NGTCP2_ERR_FRAME_ENCODING else
        skip_uvarints 3 payloadlen len p
      else Ok (len, p))
     (fun '(len', p') =>
        len' + zlen p' = payloadlen /\ len' <= payloadlen /\
        vrun (k * 2 + if type =? NGTCP2_FRAME_ACK_ECN then 3 else 0) p p')
     frame_encoding_error.
Proof.
  intros Hb He Hl. rewrite skip_ack_ranges_eq. wp_step.
  eapply wp_mono; [apply (wp_skip_uvarints (k * 2) 0); [done|lia..]| |done].
  intros [len1 p1] (Hv & ? & ?).
  assert (bytes p1) by (eapply vrun_bytes; eauto).
  destruct (type =? NGTCP2_FRAME_ACK_ECN); cbv zeta.
  - wp_step; [wp_step; reflexivity|].
    eapply wp_mono; [apply (wp_skip_uvarints 3 0); [done|lia..]| |done].
    intros [len2 p2] (Hv2 & ? & ?). split_and!; [lia..|]. by eapply vrun_app.
  - cbn [wp]. split_and!; [lia..|]. by rewrite Nat.add_0_r.
Qed.

(** The values the second pass reads behind First ACK Range. *)
Definition ack_tail_ok (type : Z) (q : list Z)
    (r : list ngtcp2_ack_range * option (Z * Z * Z) * list Z) : Prop :=
  let '(ranges, ecn, p) := r in
  p = q /\ zlen ranges <= NGTCP2_MAX_ACK_RANGES /\ Forall ack_range_ok ranges /\
  ((type = NGTCP2_FRAME_ACK /\ ecn = None) \/
   (type = NGTCP2_FRAME_ACK_ECN /\ exists e, ecn = Some e /\ ecn_ok e)).

Lemma wp_get_ack_tail (type rangecnt : Z) p q :
  type = NGTCP2_FRAME_ACK \/ type = NGTCP2_FRAME_ACK_ECN ->
  bytes p -> 0 <= rangecnt ->
  vrun (Z.to_nat rangecnt * 2 + if type =? NGTCP2_FRAME_ACK_ECN then 3 else 0) p q ->
  let max_rangecnt := Z.min NGTCP2_MAX_ACK_RANGES rangecnt in
  wp (let* (ranges, p) := get_ack_ranges (Z.to_nat max_rangecnt) 0 p in
      let* p := pass_ack_ranges (Z.to_nat (rangecnt - max_rangecnt)) p in
      let* (ecn, p) :=
        if type =? NGTCP2_FRAME_ACK_ECN then
          let* (ect0, p) := ngtcp2_get_uvarint p in
          let* (ect1, p) := ngtcp2_get_uvarint p in
          let* (ce, p) := ngtcp2_get_uvarint p in
          Ok (Some (ect0, ect1, ce), p)
        else Ok (None, p) in
      Ok (ranges, ecn, p)) (ack_tail_ok type q) frame_encoding_error.
Proof.
  intros Ht Hb Hc Hv mr.
  assert (0 <= mr <= rangecnt /\ mr <= NGTCP2_MAX_ACK_RANGES)
    by (subst mr; unfold NGTCP2_MAX_ACK_RANGES; lia).
  replace (Z.to_nat rangecnt * 2)%nat
    with (Z.to_nat mr * 2 + Z.to_nat (rangecnt - mr) * 2)%nat in Hv by lia.
  apply vrun_split in Hv as (q2 & (q1 & Hv1 & Hv2)%vrun_split & Hv3).
  assert (bytes q1) by (eapply vrun_bytes; eauto). assert (bytes q2) by (eapply vrun_bytes; eauto).
  wp_step. eapply wp_mono; [apply (wp_get_ack_ranges _ _ _ q1); [done..|lia]| |done].
  intros [ranges p1] (-> & Hl & Hf). cbv beta iota. wp_step.
  eapply wp_mono; [by apply (wp_pass_ack_ranges _ _ q2)| |done]. intros ? ->. wp_step.
  destruct (Z.eqb_spec type NGTCP2_FRAME_ACK_ECN).
  - apply wp_bind. eapply wp_vrun_get; [done..|]; intros e0 p0 ? ? Hv0.
    apply wp_bind. eapply wp_vrun_get; [done..|]; intros e1 p1 ? ? Hv1'.
    apply wp_bind. eapply wp_vrun_get; [done..|]; intros e2 p2 ? ? Hv2'.
    inversion Hv2'; subst. cbn [wp]. split_and!; [done|lia|done|].
    right. split; [done|]. eexists; split; [done|by split_and!].
  - inversion Hv3; subst. cbn [wp]. split_and!; [done|lia|done|].
    left. tauto.
Qed.

Lemma decode_ack_safe type tl :
  bytes (type :: tl) -> type = NGTCP2_FRAME_ACK \/ type = NGTCP2_FRAME_ACK_ECN ->
  wp (ngtcp2_pkt_decode_ack_frame (type :: tl)) (decoded (type :: tl)) frame_encoding_error.
Proof.
  intros Hb Ht. set (payload := type :: tl) in *.
  assert (Hr : read8 payload = Ok type) by done. clearbody payload.
  unfold ngtcp2_pkt_decode_ack_frame. rewrite Hr. cbn [bind]. cbv zeta.
  do 24 (wp_step; try reflexivity; cbv beta iota zeta).
  match goal with
  | |- wp (bind (skip_ack_ranges ?k ?pl ?l ?p) _) _ _ =>
      pose proof (wp_skip_ack_tail type k pl l p ltac:(assumption) ltac:(lia) ltac:(lia)) as T;
      destruct (skip_ack_ranges k pl l p) as [[len1 p1]| |]; cbn [bind] in *; [|exact T|done]
  end.
  wp_step. eapply wp_mono; [exact T| |done]. intros [len2 q] (? & ? & Hv). clear T.
  wp_steps.
  match goal with
  | |- wp (get_ack_ranges ?k _ ?p) _ _ =>
      pose proof (wp_get_ack_tail type v p q Ht ltac:(assumption) ltac:(lia) Hv) as T2;
      cbv zeta in T2;
      destruct (get_ack_ranges k 0 p) as [[ranges p2]| |]; cbn [bind wp] in *; [|exact T2|done]
  end.
  destruct (pass_ack_ranges _ _) as [p3| |]; cbn [bind wp] in *; [|exact T2|done].
  apply wp_bind. apply wp_bind_inv in T2. eapply wp_mono; [exact T2| |done].
  intros [ecn p4] (-> & ? & ? & ?). wp_step. cbn [wp]. apply vrun_zlen in Hv.
  split; cbn [fst snd]; [|lia].
  unfold varint. split_and!; try done; lia.
Qed.

Create HintDb frame_safe.
#[export] Hint Resolve
  decode_padding_safe decode_reset_stream_safe decode_connection_close_safe
  decode_max_data_safe decode_max_stream_data_safe decode_max_streams_safe
  decode_ping_safe decode_data_blocked_safe decode_stream_data_blocked_safe
  decode_streams_blocked_safe decode_new_connection_id_safe decode_stop_sending_safe
  decode_ack_safe decode_path_challenge_safe decode_path_response_safe decode_crypto_safe
  decode_new_token_safe decode_retire_connection_id_safe decode_handshake_done_safe
  decode_datagram_safe decode_stream_safe : frame_safe.

(** C7: the frame decoder is memory safe.  For every payload of bytes it
    either returns a frame whose fields are in the ranges of the wire format
    together with the number of bytes the frame occupies, at least one and
    at most [payloadlen], or it returns [NGTCP2_ERR_FRAME_ENCODING]; it never
    reads out of bounds, overruns the ACK range buffer, or fails an
    assertion. *)
Theorem frame_decode_safe (payload : list Z) :
  bytes payload ->
  wp (ngtcp2_frame_decoder_decode payload) (decoded payload) frame_encoding_error.
Proof.
  destruct payload as [|type tl]; intros Hb; [reflexivity|].
  unfold ngtcp2_frame_decoder_decode. cbn [read8 bind].
  assert (1 <= zlen (type :: tl)) by zlia.
  wp_step.
  repeat match goal with
  | |- wp (if ?c then _ else _) _ _ =>
      destruct c eqn:?;
      [ rewrite ?orb_true_iff, ?Z.eqb_eq in *;
        auto with frame_safe
      | ]
  end.
  reflexivity.
Qed.

Lemma frame_decode_safe_witness :
  let payload := [0x02; 0x05; 0x00; 0x01; 0x01; 0x00; 0x01; 0xFF] in
  wp (ngtcp2_frame_decoder_decode payload) (decoded payload) frame_encoding_error.
Proof. apply frame_decode_safe. repeat constructor; vm_compute; congruence. Defined.
