(* ===== verification/FrameCodec.v ===== *)
(** * Frame encoding: exact output and round trip

    [frame_bytes] is the wire format of a frame.  The encoder of [Frame]
    writes exactly these bytes, or returns [NGTCP2_ERR_NOBUF] exactly when
    they do not fit; the decoder reads them back. *)

From S2P Require Import Prelude Conv Const Wp PktHd Frame FrameSafe.

(** ** Wire format *)

(** The bytes a STREAM or CRYPTO frame carries. *)
Definition stream_payload (s : ngtcp2_stream) : list Z :=
  match st_txbuf s with Some txbuf => txbuf | None => concat (st_data s) end.

Definition stream_flags (s : ngtcp2_stream) : Z :=
  NGTCP2_STREAM_LEN_BIT + (if st_fin s then NGTCP2_STREAM_FIN_BIT else 0)
  + (if st_offset s =? 0 then 0 else NGTCP2_STREAM_OFF_BIT).

Definition ack_range_bytes (r : ngtcp2_ack_range) : list Z :=
  uvarint_bytes (ar_gap r) ++ uvarint_bytes (ar_len r).

Definition ack_ranges_bytes (l : list ngtcp2_ack_range) : list Z :=
  concat (map ack_range_bytes l).

Definition ecn_bytes (ecn : option (Z * Z * Z)) : list Z :=
  match ecn with
  | Some (ect0, ect1, ce) => uvarint_bytes ect0 ++ uvarint_bytes ect1 ++ uvarint_bytes ce
  | None => []
  end.

(** A field of bytes behind its length. *)
Definition opaque_bytes (l : list Z) : list Z := uvarint_bytes (zlen l) ++ l.

Definition frame_bytes (fr : ngtcp2_frame) : list Z :=
  match fr with
  | Fr_stream s =>
      if st_type s =? NGTCP2_FRAME_STREAM then
        NGTCP2_FRAME_STREAM + stream_flags s :: uvarint_bytes (st_stream_id s)
        ++ (if st_offset s =? 0 then [] else uvarint_bytes (st_offset s))
        ++ opaque_bytes (stream_payload s)
      else NGTCP2_FRAME_CRYPTO :: uvarint_bytes (st_offset s) ++ opaque_bytes (stream_payload s)
  | Fr_ack a =>
      ack_type a :: uvarint_bytes (ack_largest_ack a) ++ uvarint_bytes (ack_delay a)
      ++ uvarint_bytes (zlen (ack_ranges a)) ++ uvarint_bytes (ack_first_ack_range a)
      ++ ack_ranges_bytes (ack_ranges a) ++ ecn_bytes (ack_ecn a)
  | Fr_padding len => replicate (Z.to_nat len) NGTCP2_FRAME_PADDING
  | Fr_reset_stream id ec fs =>
      NGTCP2_FRAME_RESET_STREAM :: uvarint_bytes id ++ uvarint_bytes ec ++ uvarint_bytes fs
  | Fr_connection_close type ec ft reason =>
      type :: uvarint_bytes ec
      ++ (if type =? NGTCP2_FRAME_CONNECTION_CLOSE then uvarint_bytes ft else [])
      ++ opaque_bytes reason
  | Fr_max_data m => NGTCP2_FRAME_MAX_DATA :: uvarint_bytes m
  | Fr_max_stream_data id m => NGTCP2_FRAME_MAX_STREAM_DATA :: uvarint_bytes id ++ uvarint_bytes m
  | Fr_max_streams type m => type :: uvarint_bytes m
  | Fr_ping => [NGTCP2_FRAME_PING]
  | Fr_data_blocked o => NGTCP2_FRAME_DATA_BLOCKED :: uvarint_bytes o
  | Fr_stream_data_blocked id o =>
      NGTCP2_FRAME_STREAM_DATA_BLOCKED :: uvarint_bytes id ++ uvarint_bytes o
  | Fr_streams_blocked type m => type :: uvarint_bytes m
  | Fr_new_connection_id seq rpt cid token =>
      NGTCP2_FRAME_NEW_CONNECTION_ID :: uvarint_bytes seq ++ uvarint_bytes rpt
      ++ zlen cid :: cid ++ token
  | Fr_stop_sending id ec => NGTCP2_FRAME_STOP_SENDING :: uvarint_bytes id ++ uvarint_bytes ec
  | Fr_path_challenge d => NGTCP2_FRAME_PATH_CHALLENGE :: d
  | Fr_path_response d => NGTCP2_FRAME_PATH_RESPONSE :: d
  | Fr_new_token t => NGTCP2_FRAME_NEW_TOKEN :: opaque_bytes t
  | Fr_retire_connection_id seq => NGTCP2_FRAME_RETIRE_CONNECTION_ID :: uvarint_bytes seq
  | Fr_handshake_done => [NGTCP2_FRAME_HANDSHAKE_DONE]
  | Fr_datagram type d =>
      type :: (if type =? NGTCP2_FRAME_DATAGRAM then concat d else opaque_bytes (concat d))
  end.

(** What the encoders require besides [frame_ok]: lengths that fit the wire
    format, and a NEW_TOKEN frame with a token. *)
Definition frame_encodable (fr : ngtcp2_frame) : Prop :=
  frame_ok fr /\
  match fr with
  | Fr_stream s =>
      zlen (stream_payload s) < 2 ^ 62 /\ bytes (stream_payload s) /\
      (st_type s = NGTCP2_FRAME_CRYPTO -> st_txbuf s = None)
  | Fr_connection_close _ _ _ reason => zlen reason < 2 ^ 62
  | Fr_new_token t => 1 <= zlen t < 2 ^ 62
  | Fr_datagram _ d => zlen (concat d) < 2 ^ 62
  | _ => True
  end.

(** The frame after encoding: [fr->flags] of a STREAM frame is set. *)
Definition frame_sent (fr : ngtcp2_frame) : ngtcp2_frame :=
  match fr with
  | Fr_stream s =>
      if st_type s =? NGTCP2_FRAME_STREAM then
        Fr_stream (mk_stream (st_type s) (stream_flags s) (st_fin s) (st_stream_id s)
                             (st_offset s) (st_data s) (st_txbuf s))
      else fr
  | _ => fr
  end.

(** ** Vectors and ranges *)
Lemma vec_len_eq v : ngtcp2_vec_len v = zlen (concat v).
Proof. induction v as [|a v IH]; simpl; [done|]. rewrite zlen_app. lia. Qed.

Lemma put_nonempty_vecs_eq p v :
  Forall (fun v => bytes v /\ 1 <= zlen v) v -> put_nonempty_vecs p v = Ok (p ++ concat v).
Proof.
  intros H. revert p. induction H as [|a v [_ Ha] H IH]; intros p; simpl.
  - by rewrite app_nil_r.
  - destruct (Z.eqb_spec (zlen a) 0); [lia|]. simpl. rewrite IH. by rewrite <- app_assoc.
Qed.

Lemma put_vecs_eq p v : put_vecs p v = p ++ concat v.
Proof.
  revert p; induction v as [|a v IH]; intros p; simpl; [by rewrite app_nil_r|].
  rewrite !IH. destruct (Z.eqb_spec (zlen a) 0) as [E|]; [|by rewrite <- app_assoc].
  by rewrite (zlen_0_nil a E).
Qed.

Lemma fold_app_eq (p : list Z) v : fold_left (fun p v => p ++ v) v p = p ++ concat v.
Proof.
  revert p; induction v as [|a v IH]; intros p; simpl; [by rewrite app_nil_r|].
  by rewrite IH, <- app_assoc.
Qed.

Lemma ack_ranges_len_eq l len :
  Forall ack_range_ok l -> ack_ranges_len len l = Ok (len + zlen (ack_ranges_bytes l)).
Proof.
  intros H. revert len. induction H as [|r l [Hg Hl] H IH]; intros len; simpl.
  - f_equal. unfold ack_ranges_bytes. simpl. zlia.
  - rewrite !put_uvarintlen_eq by done. cbn [bind]. rewrite IH. f_equal.
    unfold ack_ranges_bytes, ack_range_bytes. simpl. zl. lia.
Qed.

Lemma put_ack_ranges_eq l p :
  Forall ack_range_ok l -> put_ack_ranges p l = Ok (p ++ ack_ranges_bytes l).
Proof.
  intros H. revert p. induction H as [|r l [Hg Hl] H IH]; intros p; simpl.
  - unfold ack_ranges_bytes. simpl. by rewrite app_nil_r.
  - rewrite put_uvarint_eq by done. cbn [bind]. rewrite put_uvarint_eq by done. cbn [bind].
    rewrite IH. unfold ack_ranges_bytes, ack_range_bytes. simpl. by rewrite <- !app_assoc.
Qed.

(** ** Encoders *)
#[local] Ltac enc_step :=
  first
  [ rewrite u64_small by (unfold is_u64, varint in *; lia)
  | rewrite put_uvarintlen_eq by (unfold varint in *; wp_lia)
  | rewrite put_uvarint_eq by (unfold varint in *; wp_lia)
  | rewrite vec_len_eq
  | rewrite put_vecs_eq
  | rewrite fold_app_eq
  | rewrite put_nonempty_vecs_eq by assumption
  | rewrite ack_ranges_len_eq by assumption
  | rewrite put_ack_ranges_eq by assumption ];
  cbn [bind].

(** The tail every encoder shares: the computed length is the length of
    the bytes written. *)
Lemma enc_finish {A : Type} (outlen len : Z) (p q : list Z) (k : list Z -> res A) (x : A) :
  p = q -> zlen q = len -> k q = Ok x ->
  (let* r := if outlen <? len then Err NGTCP2_ERR_NOBUF
             else (assert! zlen p =? len; Ok p) in k r)
  = if outlen <? zlen q then Err NGTCP2_ERR_NOBUF else Ok x.
Proof.
  intros -> <- Hk. rewrite Z.eqb_refl. by destruct (outlen <? zlen q).
Qed.

#[local] Ltac enc_simple :=
  cbv zeta; repeat enc_step;
  apply enc_finish;
  [ rewrite <- ?app_assoc; reflexivity | unfold opaque_bytes; zl; wp_lia | reflexivity ].

Lemma enc_finish_pair {A : Type} (outlen len : Z) (p q : list Z) (x : A) :
  p = q -> zlen q = len ->
  (if outlen <? len then Err NGTCP2_ERR_NOBUF else (assert! zlen p =? len; Ok (p, x)))
  = if outlen <? zlen q then Err NGTCP2_ERR_NOBUF else Ok (q, x).
Proof. intros -> <-. rewrite Z.eqb_refl. by destruct (outlen <? zlen q). Qed.

Section Encoders.
Context (outlen : Z).

Definition encodes (fr : ngtcp2_frame) : Prop :=
  ngtcp2_pkt_encode_frame outlen fr
  = if outlen <? zlen (frame_bytes fr) then Err NGTCP2_ERR_NOBUF
    else Ok (frame_bytes fr, frame_sent fr).

#[local] Ltac enc_start := unfold encodes; cbn [ngtcp2_pkt_encode_frame frame_bytes frame_sent].

Lemma encode_padding len : 1 <= len -> encodes (Fr_padding len).
Proof.
  intros. enc_start. unfold ngtcp2_pkt_encode_padding_frame.
  rewrite zlen_replicate, Z2Nat.id by lia. by destruct (outlen <? len).
Qed.

Lemma encode_one_byte fr t (k : res (list Z)) :
  ngtcp2_pkt_encode_frame outlen fr = (let* p := k in Ok (p, fr)) ->
  k = (if outlen <? 1 then Err NGTCP2_ERR_NOBUF else Ok [t]) ->
  frame_bytes fr = [t] -> frame_sent fr = fr -> encodes fr.
Proof.
  unfold encodes. intros -> -> -> ->. change (zlen [t]) with 1. by destruct (outlen <? 1).
Qed.

Lemma encode_new_connection_id seq rpt cid token :
  frame_ok (Fr_new_connection_id seq rpt cid token) ->
  encodes (Fr_new_connection_id seq rpt cid token).
Proof.
  intros (? & ? & ? & Hc & ? & Ht). enc_start.
  unfold ngtcp2_pkt_encode_new_connection_id_frame, NGTCP2_STATELESS_RESET_TOKENLEN,
    NGTCP2_MIN_CIDLEN, NGTCP2_MAX_CIDLEN in *.
  rewrite (u8_small (zlen cid)) by lia. enc_simple.
Qed.

Lemma encode_new_token t : 1 <= zlen t < 2 ^ 62 -> encodes (Fr_new_token t).
Proof.
  intros. enc_start. unfold ngtcp2_pkt_encode_new_token_frame.
  destruct (Z.eqb_spec (zlen t) 0); [lia|]. cbn [negb]. enc_simple.
Qed.

Lemma encode_max_streams type m :
  frame_ok (Fr_max_streams type m) -> encodes (Fr_max_streams type m).
Proof.
  intros [[-> | ->] ?]; enc_start; ceqb; cbn [orb];
    unfold ngtcp2_pkt_encode_max_streams_frame; enc_simple.
Qed.

Lemma encode_streams_blocked type m :
  frame_ok (Fr_streams_blocked type m) -> encodes (Fr_streams_blocked type m).
Proof.
  intros [[-> | ->] ?]; enc_start; ceqb; cbn [orb];
    unfold ngtcp2_pkt_encode_streams_blocked_frame; enc_simple.
Qed.

Lemma encode_connection_close type ec ft reason :
  frame_encodable (Fr_connection_close type ec ft reason) ->
  encodes (Fr_connection_close type ec ft reason).
Proof.
  intros [[Ht (? & ? & ?)] ?]. enc_start. unfold ngtcp2_pkt_encode_connection_close_frame.
  destruct Ht as [-> | [-> ->]]; ceqb; cbn [orb]; cbv zeta;
    (destruct (Z.eqb_spec (zlen reason) 0) as [E|]; cbn [negb];
     [ rewrite (zlen_0_nil _ E) in *; change (zlen []) with 0 | ]); enc_simple.
Qed.

Lemma encode_datagram type d :
  frame_encodable (Fr_datagram type d) -> encodes (Fr_datagram type d).
Proof.
  intros [[Ht ?] ?]. enc_start. unfold ngtcp2_pkt_encode_datagram_frame.
  destruct Ht as [-> | ->]; ceqb; cbn [orb bind]; enc_simple.
Qed.

Lemma encode_ack a : frame_ok (Fr_ack a) -> encodes (Fr_ack a).
Proof.
  intros (Ht & ? & ? & ? & Hr & ?). enc_start. unfold ngtcp2_pkt_encode_ack_frame.
  unfold NGTCP2_MAX_ACK_RANGES in Hr.
  destruct Ht as [[-> ->] | (-> & ecn & -> & He)]; ceqb; cbn [orb ecn_bytes].
  - rewrite app_nil_r. enc_simple.
  - destruct ecn as [[ect0 ect1] ce], He as (? & ? & ?); cbn [fst snd] in *. enc_simple.
Qed.

Lemma stream_flags_or s :
  (let flags := if st_fin s then Z.lor NGTCP2_STREAM_LEN_BIT NGTCP2_STREAM_FIN_BIT
                else NGTCP2_STREAM_LEN_BIT in
   if st_offset s =? 0 then flags else Z.lor flags NGTCP2_STREAM_OFF_BIT) = stream_flags s.
Proof. unfold stream_flags. by destruct (st_fin s), (st_offset s =? 0). Qed.

Lemma stream_type_or s :
  Z.lor (stream_flags s) NGTCP2_FRAME_STREAM = NGTCP2_FRAME_STREAM + stream_flags s.
Proof. unfold stream_flags. by destruct (st_fin s), (st_offset s =? 0). Qed.

Lemma encode_stream s : frame_encodable (Fr_stream s) -> encodes (Fr_stream s).
Proof.
  intros [([Ht | Ht] & ? & ? & Hd) (Hl & Hb & Hx)]; enc_start; rewrite Ht; ceqb.
  - unfold ngtcp2_pkt_encode_stream_frame. rewrite <- stream_type_or, <- stream_flags_or, Ht.
    unfold stream_payload, opaque_bytes in *. cbv zeta.
    destruct (st_offset s =? 0); cbn [negb]; destruct (st_txbuf s);
      repeat enc_step; apply enc_finish_pair;
      first [ by rewrite <- ?app_assoc | zl; lia ].
  - unfold ngtcp2_pkt_encode_crypto_frame, stream_payload in *. rewrite (Hx Ht) in *.
    enc_simple.
Qed.

Lemma encode_frame_eq fr : frame_encodable fr -> encodes fr.
Proof.
  intros H. destruct (H) as [Hok Henc]. destruct fr.
  all: try (by auto using encode_stream, encode_ack, encode_padding, encode_connection_close,
    encode_max_streams, encode_streams_blocked, encode_new_connection_id, encode_new_token,
    encode_datagram).
  all: try (eapply encode_one_byte; reflexivity).
  all: cbn [frame_ok] in Hok; destruct_and?; enc_start;
    unfold ngtcp2_pkt_encode_reset_stream_frame,
      ngtcp2_pkt_encode_max_data_frame, ngtcp2_pkt_encode_max_stream_data_frame,
      ngtcp2_pkt_encode_data_blocked_frame, ngtcp2_pkt_encode_stream_data_blocked_frame,
      ngtcp2_pkt_encode_stop_sending_frame, ngtcp2_pkt_encode_path_challenge_frame,
      ngtcp2_pkt_encode_path_response_frame, ngtcp2_pkt_encode_retire_connection_id_frame;
    enc_simple.
Qed.
End Encoders.

(** C8: the exact output of the frame encoder.  For every frame whose fields
    are in range, [ngtcp2_pkt_encode_frame] returns [NGTCP2_ERR_NOBUF] when
    the wire format of the frame is longer than the buffer, and otherwise
    writes exactly the wire format, leaving the frame unchanged but for the
    flags of a STREAM frame; no assertion fails. *)
Theorem encode_frame_spec (outlen : Z) (fr : ngtcp2_frame) :
  frame_encodable fr ->
  ngtcp2_pkt_encode_frame outlen fr
  = if outlen <? zlen (frame_bytes fr) then Err NGTCP2_ERR_NOBUF
    else Ok (frame_bytes fr, frame_sent fr).
Proof. apply encode_frame_eq. Qed.

Lemma encode_frame_spec_witness :
  let fr := Fr_stream (mk_stream NGTCP2_FRAME_STREAM 0 true 4 1000 [[1; 2]; [3]] None) in
  ngtcp2_pkt_encode_frame 8 fr
  = if 8 <? zlen (frame_bytes fr) then Err NGTCP2_ERR_NOBUF
    else Ok (frame_bytes fr, frame_sent fr).
Proof.
  apply encode_frame_spec. split; [|split_and!; vm_compute; try done; repeat constructor; done].
  split_and!; [left|..]; vm_compute; try done. repeat constructor; done.
Defined.

(** ** Round trip *)

(** A frame as the decoder reports it: the data in one vector, which is
    absent when it is empty, and the fields that are not on the wire at
    their defaults. *)
Definition vec_of (l : list Z) : list (list Z) := if zlen l =? 0 then [] else [l].

Definition frame_received (fr : ngtcp2_frame) : ngtcp2_frame :=
  match fr with
  | Fr_stream s =>
      if st_type s =? NGTCP2_FRAME_STREAM then
        Fr_stream (mk_stream NGTCP2_FRAME_STREAM (stream_flags s) (st_fin s) (st_stream_id s)
                             (st_offset s) (vec_of (stream_payload s)) None)
      else Fr_stream (mk_stream NGTCP2_FRAME_CRYPTO 0 false 0 (st_offset s)
                                (vec_of (stream_payload s)) None)
  | Fr_ack a =>
      Fr_ack (mk_ack (ack_type a) (ack_largest_ack a) (ack_delay a) 0 (ack_ecn a)
                     (ack_first_ack_range a) (ack_ranges a))
  | Fr_datagram type d => Fr_datagram type (vec_of (concat d))
  | _ => fr
  end.

(** The frames whose end is given by what follows them: padding runs up to
    the next frame, and a DATAGRAM frame without a length fills the packet. *)
Definition frame_followed (fr : ngtcp2_frame) (rest : list Z) : Prop :=
  match fr with
  | Fr_padding _ => match rest with [] => True | b :: _ => b <> NGTCP2_FRAME_PADDING end
  | Fr_datagram type _ => type = NGTCP2_FRAME_DATAGRAM -> rest = []
  | _ => True
  end.

Lemma zlen_uvarint_bytes_range n : 1 <= zlen (uvarint_bytes n) <= 8.
Proof. rewrite zlen_uvarint_bytes. destruct (uvarint_size_cases n) as [->|[->|[->| ->]]]; lia. Qed.

(** Reading a vector that may be empty. *)
Lemma vec_of_if (l r : list Z) :
  (if negb (zlen l =? 0) then Ok ([l], r) else Ok ([], l ++ r)) = Ok (vec_of l, r).
Proof.
  unfold vec_of. destruct (Z.eqb_spec (zlen l) 0) as [E|]; [|done].
  by rewrite (zlen_0_nil l E).
Qed.

Lemma opaque_if (l r : list Z) :
  (if zlen l =? 0 then Ok ([], l ++ r) else Ok (l, r)) = Ok (l, r).
Proof.
  destruct (Z.eqb_spec (zlen l) 0) as [E|]; [|done]. by rewrite (zlen_0_nil l E).
Qed.

Lemma ack_ranges_bytes_len l : 2 * zlen l <= zlen (ack_ranges_bytes l).
Proof.
  unfold ack_ranges_bytes. induction l as [|r l IH]; simpl; [done|]. unfold ack_range_bytes at 1.
  pose proof (zlen_uvarint_bytes_range (ar_gap r)).
  pose proof (zlen_uvarint_bytes_range (ar_len r)). zl. lia.
Qed.

Section Decoders.
Context (rest : list Z).

Definition decodes (fr : ngtcp2_frame) : Prop :=
  ngtcp2_frame_decoder_decode (frame_bytes fr ++ rest)
  = Ok (frame_received fr, zlen (frame_bytes fr)).

#[local] Ltac dec_start :=
  unfold decodes; cbn [frame_bytes frame_received app];
  unfold ngtcp2_frame_decoder_decode; cbn [read8 bind];
  rewrite <- ?app_assoc;
  match goal with
  | |- context [zlen (?t :: ?l) =? 0] =>
      destruct (Z.eqb_spec (zlen (t :: l)) 0); [exfalso; zlia|]
  end; ceqb; cbn [orb].

(** The size of every integer on the wire. *)
#[local] Ltac uv_sizes :=
  repeat match goal with
  | |- context [uvarint_bytes ?n] =>
      lazymatch goal with
      | H : 1 <= zlen (uvarint_bytes n) <= 8 |- _ => fail
      | _ => pose proof (zlen_uvarint_bytes_range n)
      end
  end.

#[local] Ltac dec_run :=
  unfold varint, opaque_bytes in *; rewrite <- ?app_assoc; cbn [app]; cbv zeta; uv_sizes;
  repeat (first [rewrite vec_of_if | rewrite opaque_if | hd_step]; ceqb; cbn [negb orb bind read8]; cbv beta iota zeta);
  try (do 2 f_equal; zlia).

(** A length check with two conditions that do not hold. *)
#[local] Ltac or_false :=
  match goal with
  | |- context [if ?x || ?y then _ else _] =>
      replace (x || y) with false
        by (symmetry; change (SIZE_MAX / (1 + 1)) with (2 ^ 63 - 1);
            apply orb_false_iff; split; apply Z.ltb_ge; zlia)
  end; cbv beta iota.

Lemma decode_plain fr :
  frame_encodable fr ->
  match fr with
  | Fr_stream _ | Fr_ack _ | Fr_padding _ | Fr_connection_close _ _ _ _ | Fr_datagram _ _
  | Fr_max_streams _ _ | Fr_streams_blocked _ _  | Fr_new_connection_id _ _ _ _ => True
  | _ => decodes fr
  end.
Proof.
  intros [Hok Henc]. destruct fr; try done; cbn [frame_ok] in Hok; destruct_and?;
    dec_start; 
    unfold ngtcp2_pkt_decode_reset_stream_frame,
      ngtcp2_pkt_decode_max_data_frame, ngtcp2_pkt_decode_max_stream_data_frame,
      ngtcp2_pkt_decode_ping_frame, ngtcp2_pkt_decode_data_blocked_frame,
      ngtcp2_pkt_decode_stream_data_blocked_frame, ngtcp2_pkt_decode_stop_sending_frame,
      ngtcp2_pkt_decode_path_challenge_frame, ngtcp2_pkt_decode_path_response_frame,
      ngtcp2_pkt_decode_new_token_frame, ngtcp2_pkt_decode_retire_connection_id_frame,
      ngtcp2_pkt_decode_handshake_done_frame.
  all: dec_run.
Qed.

Lemma decode_max_streams_bytes type m :
  frame_ok (Fr_max_streams type m) -> decodes (Fr_max_streams type m).
Proof.
  intros [[-> | ->] ?]; dec_start; unfold ngtcp2_pkt_decode_max_streams_frame; dec_run.
Qed.

Lemma decode_streams_blocked_bytes type m :
  frame_ok (Fr_streams_blocked type m) -> decodes (Fr_streams_blocked type m).
Proof.
  intros [[-> | ->] ?]; dec_start; unfold ngtcp2_pkt_decode_streams_blocked_frame; dec_run.
Qed.

Lemma decode_new_connection_id_bytes seq rpt cid token :
  frame_ok (Fr_new_connection_id seq rpt cid token) ->
  decodes (Fr_new_connection_id seq rpt cid token).
Proof.
  intros (? & ? & ? & Hc & ? & Ht). dec_start.
  unfold ngtcp2_pkt_decode_new_connection_id_frame, NGTCP2_STATELESS_RESET_TOKENLEN,
    NGTCP2_MIN_CIDLEN, NGTCP2_MAX_CIDLEN in *. cbn [app]. rewrite <- ?app_assoc.
  dec_run. or_false. do 2 f_equal. zlia.
Qed.

Lemma decode_connection_close_bytes type ec ft reason :
  frame_encodable (Fr_connection_close type ec ft reason) ->
  decodes (Fr_connection_close type ec ft reason).
Proof.
  intros [[Ht (? & ? & ?)] ?].
  destruct Ht as [-> | [-> ->]]; dec_start; unfold ngtcp2_pkt_decode_connection_close_frame;
    dec_run.
Qed.

Lemma decode_datagram_bytes type d :
  frame_encodable (Fr_datagram type d) -> frame_followed (Fr_datagram type d) rest ->
  decodes (Fr_datagram type d).
Proof.
  intros [[Ht ?] ?]. cbn [frame_followed]. 
  destruct Ht as [-> | ->]; intros Hr; dec_start; unfold ngtcp2_pkt_decode_datagram_frame.
  - rewrite Hr, app_nil_r by done. cbv zeta. rt_if. cbn [read8 bind].
    rewrite advance_cons1. cbn [bind]. ceqb. cbn [bind].
    replace (zlen (NGTCP2_FRAME_DATAGRAM :: concat d) - 1) with (zlen (concat d)) by zlia.
    rewrite get_bytes_all. cbn [bind]. unfold vec_of.
    destruct (Z.eqb_spec (zlen (concat d)) 0) as [E|]; cbn [negb bind];
      [rewrite (zlen_0_nil _ E)|]; by rt_if.
  - dec_run.
Qed.

Lemma skip_padding_replicate n :
  frame_followed (Fr_padding 0) rest ->
  skip_padding (replicate n NGTCP2_FRAME_PADDING ++ rest) = rest.
Proof.
  intros H. induction n as [|n IH]; simpl; [|done].
  destruct rest as [|b r]; [done|]. simpl in *. by destruct (Z.eqb_spec b NGTCP2_FRAME_PADDING).
Qed.

Lemma decode_padding_bytes len :
  1 <= len -> frame_followed (Fr_padding len) rest -> decodes (Fr_padding len).
Proof.
  intros Hl Hf. unfold decodes. cbn [frame_bytes frame_received].
  destruct (Z.to_nat len) as [|n] eqn:E; [lia|]. cbn [replicate app].
  unfold ngtcp2_frame_decoder_decode, ngtcp2_pkt_decode_padding_frame. rt_if.
  cbn [read8 bind]. ceqb. cbv zeta. rt_if. rewrite advance_cons1. cbn [bind].
  rewrite skip_padding_replicate by done.
  replace (zlen _ - zlen rest) with len by (zl; lia). do 2 f_equal. zl. lia.
Qed.

Lemma decode_crypto_bytes s :
  frame_encodable (Fr_stream s) -> st_type s = NGTCP2_FRAME_CRYPTO -> decodes (Fr_stream s).
Proof.
  intros [(_ & ? & ? & Hd) (Hl & Hb & Hx)] Ht. unfold decodes.
  cbn [frame_bytes frame_received]. rewrite Ht. ceqb. dec_start.
  unfold ngtcp2_pkt_decode_crypto_frame. dec_run.
Qed.

Lemma decode_stream_type t p :
  8 <= t < 16 -> ngtcp2_frame_decoder_decode (t :: p) = ngtcp2_pkt_decode_stream_frame (t :: p).
Proof.
  intros Ht. unfold ngtcp2_frame_decoder_decode. rt_if. cbn [read8 bind].
  assert (t = 8 \/ t = 9 \/ t = 10 \/ t = 11 \/ t = 12 \/ t = 13 \/ t = 14 \/ t = 15)
    as [->|[->|[->|[->|[->|[->|[->| ->]]]]]]] by lia; reflexivity.
Qed.

Lemma stream_type_bits s :
  let t := NGTCP2_FRAME_STREAM + stream_flags s in
  8 <= t < 16 /\ (Z.land t NGTCP2_STREAM_OFF_BIT =? 0) = (st_offset s =? 0) /\
  (Z.land t NGTCP2_STREAM_LEN_BIT =? 0) = false /\
  negb (Z.land t NGTCP2_STREAM_FIN_BIT =? 0) = st_fin s /\
  u8 (Z.land t (Z.lnot NGTCP2_FRAME_STREAM)) = stream_flags s.
Proof. unfold stream_flags. destruct (st_fin s), (st_offset s =? 0); by vm_compute. Qed.

Lemma decode_stream_bytes s :
  frame_encodable (Fr_stream s) -> st_type s = NGTCP2_FRAME_STREAM -> decodes (Fr_stream s).
Proof.
  intros [(_ & ? & ? & Hd) (Hl & Hb & Hx)] Ht. unfold decodes.
  cbn [frame_bytes frame_received]. rewrite Ht. ceqb. cbn [app].
  destruct (stream_type_bits s) as (Hr & Hoff & Hlen & Hfin & Hfl). cbv zeta in *.
  set (t := NGTCP2_FRAME_STREAM + stream_flags s) in *. clearbody t.
  rewrite decode_stream_type by done. unfold ngtcp2_pkt_decode_stream_frame.
  cbn [read8 bind]. rewrite Hoff, Hlen, Hfin, Hfl. cbn [negb].
  destruct (Z.eqb_spec (st_offset s) 0) as [E|]; rewrite ?E; cbn [negb]; dec_run.
Qed.

Lemma skip_ack_ranges_bytes l pl len r :
  Forall ack_range_ok l -> len - 2 * zlen l + zlen (ack_ranges_bytes l) <= pl ->
  skip_ack_ranges (length l) pl len (ack_ranges_bytes l ++ r)
  = Ok (len - 2 * zlen l + zlen (ack_ranges_bytes l), r).
Proof.
  intros H. revert len. induction H as [|a l [Hg Hl] H IH]; intros len Hlen.
  - simpl. do 2 f_equal. zl. unfold ack_ranges_bytes. simpl. zlia.
  - unfold ack_ranges_bytes in *. cbn [length skip_ack_ranges map concat] in *.
    unfold ack_range_bytes at 1 3. rewrite zlen_app in Hlen. unfold ack_range_bytes at 1 in Hlen.
    rewrite <- !app_assoc. cbn [skip_uvarints].
    assert (2 * zlen l <= zlen (concat (map ack_range_bytes l))) by apply ack_ranges_bytes_len.
    unfold varint in *. uv_sizes. rewrite zlen_cons in *. zl.
    dec_run. rewrite IH by lia. do 2 f_equal. unfold ack_range_bytes. zl. lia.
Qed.

Lemma get_ack_ranges_bytes l i r :
  Forall ack_range_ok l -> i + zlen l <= NGTCP2_MAX_ACK_RANGES ->
  get_ack_ranges (length l) i (ack_ranges_bytes l ++ r) = Ok (l, r).
Proof.
  intros H. revert i. induction H as [|a l [Hg Hl] H IH]; intros i Hi; [done|].
  unfold ack_ranges_bytes in *. cbn [length get_ack_ranges map concat].
  unfold ack_range_bytes at 1. rewrite <- !app_assoc. dec_run.
  rewrite IH by zlia. cbn [bind]. by destruct a.
Qed.

Lemma decode_ack_bytes a : frame_ok (Fr_ack a) -> decodes (Fr_ack a).
Proof.
  intros (Ht & ? & ? & ? & Hr & Hf). unfold NGTCP2_MAX_ACK_RANGES in Hr.
  pose proof (ack_ranges_bytes_len (ack_ranges a)).
  assert (Hn : Z.to_nat (zlen (ack_ranges a)) = length (ack_ranges a)) by (unfold zlen; lia).
  assert (Hm : Z.min NGTCP2_MAX_ACK_RANGES (zlen (ack_ranges a)) = zlen (ack_ranges a))
    by (unfold NGTCP2_MAX_ACK_RANGES; lia).
  destruct Ht as [[Ht He] | (Ht & [[ect0 ect1] ce] & He & Hecn)]; unfold decodes;
    cbn [frame_bytes frame_received]; rewrite Ht, He; dec_start;
    unfold ngtcp2_pkt_decode_ack_frame; cbn [ecn_bytes].
  - dec_run. or_false. rewrite Hm, Hn, Z.sub_diag.
    rewrite skip_ack_ranges_bytes by (try done; zlia). cbn [bind].
    rewrite get_ack_ranges_bytes by (try done; unfold NGTCP2_MAX_ACK_RANGES; lia).
    change (Z.to_nat 0) with 0%nat. cbn [bind pass_ack_ranges]. dec_run.
  - destruct Hecn as (? & ? & ?); cbn [fst snd] in *.
    dec_run. or_false. rewrite Hm, Hn, Z.sub_diag.
    rewrite skip_ack_ranges_bytes by (try done; zlia). cbn [bind skip_uvarints].
    rewrite get_ack_ranges_bytes by (try done; unfold NGTCP2_MAX_ACK_RANGES; lia).
    change (Z.to_nat 0) with 0%nat. cbn [bind pass_ack_ranges]. dec_run.
Qed.

Lemma decode_frame_bytes fr :
  frame_encodable fr -> frame_followed fr rest -> decodes fr.
Proof.
  intros H Hf. pose proof (decode_plain fr H). destruct (H) as [Hok Henc].
  destruct fr; auto using decode_ack_bytes, decode_padding_bytes,
    decode_connection_close_bytes, decode_max_streams_bytes, decode_streams_blocked_bytes,
    decode_new_connection_id_bytes, decode_datagram_bytes.
  destruct (proj1 Hok); [by apply decode_stream_bytes | by apply decode_crypto_bytes].
Qed.
End Decoders.

(** C9: encode/decode round trip for every frame type.  Whatever
    [ngtcp2_pkt_encode_frame] writes for a frame with fields in range is
    decoded by [ngtcp2_frame_decoder_decode] to the same frame, with the
    data in one vector, and the decoder consumes exactly the bytes of the
    frame, whatever follows it in the packet (for PADDING: another frame;
    for a DATAGRAM frame without a length: nothing). *)
Theorem frame_roundtrip (outlen : Z) (fr sent : ngtcp2_frame) (out rest : list Z) :
  frame_encodable fr -> frame_followed fr rest ->
  ngtcp2_pkt_encode_frame outlen fr = Ok (out, sent) ->
  zlen out <= outlen /\
  ngtcp2_frame_decoder_decode (out ++ rest) = Ok (frame_received fr, zlen out).
Proof.
  intros H Hf. rewrite encode_frame_eq by done.
  destruct (Z.ltb_spec outlen (zlen (frame_bytes fr))); [done|]. intros [= <- _].
  split; [done|]. by apply decode_frame_bytes.
Qed.

Lemma frame_roundtrip_witness :
  let fr := Fr_ack (mk_ack NGTCP2_FRAME_ACK_ECN 1000 25 7 (Some (1, 2, 3)) 4
                      [mk_ack_range 5 6; mk_ack_range 100 0]) in
  zlen (frame_bytes fr) <= 100 /\
  ngtcp2_frame_decoder_decode (frame_bytes fr ++ [0x01])
  = Ok (frame_received fr, zlen (frame_bytes fr)).
Proof.
  apply (frame_roundtrip 100 _
    (Fr_ack (mk_ack NGTCP2_FRAME_ACK_ECN 1000 25 7 (Some (1, 2, 3)) 4
                      [mk_ack_range 5 6; mk_ack_range 100 0]))); [|exact I|reflexivity].
  split; [|exact I]. cbn. unfold varint. split_and!; try lia.
  - right. split; [done|]. eexists. split; [done|]. unfold ecn_ok, varint. simpl. lia.
  - change (2 <= 32). lia.
  - unfold ack_range_ok, varint. repeat constructor; simpl; lia.
Defined.
