(* ===== verification/Buf.v ===== *)
(** * Buffers with an owner: [lib/ngtcp2_buf.c] and [lib/ngtcp2_buf_alloc.c]

    [ngtcp2_buf] is the zero-copy contract of the library: four pointers
    into a block of memory, a role, and an owner whose [retain]/[release]
    callbacks count the references.  A pointer is its address, [None] is
    [NULL]; the pointers of a buffer are pointers into one block, so that
    the comparisons of the code are comparisons of addresses.  What the
    callbacks promise is the class [OwnerLaws]; the reference-counting
    owner of the default allocator is an instance of it. *)

From stdpp Require Import gmap.
From S2P Require Import Prelude Const Wp.

Definition NGTCP2_BUF_ROLE_INTERNAL : Z := 0.
Definition NGTCP2_BUF_ROLE_TX_PACKET : Z := 5.
Definition NGTCP2_BUF_ROLE_TX_DATAGRAM : Z := 8.

Record ngtcp2_buf := mk_buf {
  b_begin : option Z;
  b_end : option Z;
  b_pos : option Z;
  b_last : option Z;
  b_origin : option Z;
  b_role : Z;
  b_owner : option Z;
  (** whether the callback pointers are set *)
  b_retain : bool;
  b_release : bool;
}.

(** [(ngtcp2_buf){0}] *)
Definition buf_zero : ngtcp2_buf := mk_buf None None None None None 0 None false false.

Definition is_null (p : option Z) : bool := match p with None => true | Some _ => false end.

Definition addr (p : option Z) : Z := match p with None => 0 | Some a => a end.

Definition buf_role_bad (role : Z) : bool := NGTCP2_BUF_ROLE_TX_DATAGRAM <? role.

Definition buf_bad_range (buf : option ngtcp2_buf) : bool :=
  match buf with
  | None => true
  | Some b =>
      if is_null (b_begin b) || is_null (b_end b) || is_null (b_pos b) || is_null (b_last b)
      then true
      else (addr (b_pos b) <? addr (b_begin b)) || (addr (b_last b) <? addr (b_pos b))
           || (addr (b_end b) <? addr (b_last b))
  end.

Definition ngtcp2_buf_init (begin : option Z) (len : Z) (origin : option Z) (role : Z)
    (owner : option Z) (retain release : bool) : ngtcp2_buf :=
  {| b_begin := begin;
     b_end := match begin with Some a => Some (a + len) | None => None end;
     b_pos := begin; b_last := begin; b_origin := origin; b_role := role;
     b_owner := owner; b_retain := retain; b_release := release |}.

Definition ngtcp2_buf_init_internal (begin : option Z) (len : Z) : ngtcp2_buf :=
  ngtcp2_buf_init begin len None NGTCP2_BUF_ROLE_INTERNAL None false false.

Definition has_owner (b : ngtcp2_buf) : bool :=
  negb (is_null (b_owner b)) || b_retain b || b_release b.

Definition owner_complete (b : ngtcp2_buf) : bool :=
  negb (is_null (b_owner b)) && b_retain b && b_release b.

Definition ngtcp2_buf_validate (buf : option ngtcp2_buf) (role : Z) : Z :=
  match buf with
  | None => NGTCP2_ERR_BUF_CONTRACT
  | Some b =>
      if buf_bad_range buf || buf_role_bad role || buf_role_bad (b_role b)
         || negb (b_role b =? role) || (has_owner b && negb (owner_complete b))
      then NGTCP2_ERR_BUF_CONTRACT else 0
  end.

Definition ngtcp2_buf_len (b : ngtcp2_buf) : Z := addr (b_last b) - addr (b_pos b).
Definition ngtcp2_buf_cap (b : ngtcp2_buf) : Z := addr (b_end b) - addr (b_begin b).
Definition ngtcp2_buf_left (b : ngtcp2_buf) : Z := addr (b_end b) - addr (b_last b).

Definition set_last (b : ngtcp2_buf) (last : option Z) : ngtcp2_buf :=
  mk_buf (b_begin b) (b_end b) (b_pos b) last (b_origin b) (b_role b) (b_owner b)
         (b_retain b) (b_release b).

Definition ngtcp2_buf_trunc (b : ngtcp2_buf) (len : Z) : ngtcp2_buf :=
  if len <? ngtcp2_buf_len b then set_last b (Some (addr (b_pos b) + len)) else b.

Definition ngtcp2_buf_reset (b : ngtcp2_buf) : ngtcp2_buf :=
  mk_buf (b_begin b) (b_end b) (b_begin b) (b_begin b) (b_origin b) (b_role b) (b_owner b)
         (b_retain b) (b_release b).

(** [*dest = *src; *src = (ngtcp2_buf){0}]: the new [*dest] and [*src]. *)
Definition ngtcp2_buf_move (src : ngtcp2_buf) : ngtcp2_buf * ngtcp2_buf := (src, buf_zero).

(** ** Owners

    The [retain] and [release] callbacks act on the state [S] of the
    application; [refs s o] is the number of references of owner [o]. *)
Class OwnerOps (S : Type) := {
  owner_retain : Z -> S -> res (Z * S);
  owner_release : Z -> S -> res S;
  refs : S -> Z -> Z;
}.

Class OwnerLaws (S : Type) `{OwnerOps S} := {
  owner_retain_law s o :
    0 < refs s o < SIZE_MAX ->
    exists rv s', owner_retain o s = Ok (rv, s') /\
      forall o', refs s' o' = refs s o' + (if (rv =? 0) && (o' =? o) then 1 else 0);
  owner_release_law s o :
    0 < refs s o <= SIZE_MAX ->
    exists s', owner_release o s = Ok s' /\
      forall o', refs s' o' = refs s o' - (if o' =? o then 1 else 0);
}.

Section Ownership.
Context {S : Type} `{OwnerOps S}.

Definition ngtcp2_buf_retain_owner (buf : option ngtcp2_buf) (s : S) : res (Z * S) :=
  match buf with
  | None => Ok (NGTCP2_ERR_BUF_CONTRACT, s)
  | Some b =>
      match b_owner b with
      | Some o =>
          if negb (b_retain b) || negb (b_release b) then Ok (NGTCP2_ERR_BUF_CONTRACT, s)
          else
            let* (rv, s) := owner_retain o s in
            if negb (rv =? 0) then Ok (NGTCP2_ERR_BUF_CONTRACT, s) else Ok (0, s)
      | None => Ok (NGTCP2_ERR_BUF_CONTRACT, s)
      end
  end.

(** The buffer and the state after the release. *)
Definition ngtcp2_buf_release_owner (buf : option ngtcp2_buf) (s : S)
    : res (option ngtcp2_buf * S) :=
  match buf with
  | None => Ok (None, s)
  | Some b =>
      let* s :=
        match b_owner b with
        | Some o => if b_release b then owner_release o s else Ok s
        | None => Ok s
        end in
      Ok (Some buf_zero, s)
  end.

(** [dest] is [None] for a [NULL] destination; the result is the return
    value, [*dest] and the state. *)
Definition ngtcp2_buf_slice (dest src : option ngtcp2_buf) (off len role : Z) (s : S)
    : res (Z * option ngtcp2_buf * S) :=
  match dest, src with
  | None, _ | _, None => Ok (NGTCP2_ERR_BUF_CONTRACT, dest, s)
  | Some _, Some b =>
      if buf_bad_range src || (ngtcp2_buf_len b <? off)
         || (ngtcp2_buf_len b - off <? len) || buf_role_bad role
      then Ok (NGTCP2_ERR_BUF_CONTRACT, dest, s)
      else
        let buf :=
          mk_buf (b_begin b) (b_end b) (Some (addr (b_pos b) + off))
                 (Some (addr (b_pos b) + off + len)) (b_origin b) role (b_owner b)
                 (b_retain b) (b_release b) in
        if has_owner b then
          let* (rv, s) := ngtcp2_buf_retain_owner src s in
          if negb (rv =? 0) then Ok (rv, dest, s) else Ok (0, Some buf, s)
        else Ok (0, Some buf, s)
  end.
End Ownership.

(** ** The default allocator

    The heap of the default owners maps the address of an
    [ngtcp2_default_buf_owner] to its [refcount]; an owner that was freed is
    not in the heap any more, and touching it is a [Fault]. *)
Abbreviation heap := (gmap Z Z).

Definition default_owner_retain (owner : Z) (h : heap) : res (Z * heap) :=
  match h !! owner with
  | Some refcount => Ok (0, <[owner := u64 (refcount + 1)]> h)
  | None => Fault
  end.

Definition default_owner_release (owner : Z) (h : heap) : res heap :=
  match h !! owner with
  | Some refcount =>
      assert! negb (refcount =? 0);
      let refcount := u64 (refcount - 1) in
      if negb (refcount =? 0) then Ok (<[owner := refcount]> h) else Ok (delete owner h)
  | None => Fault
  end.

#[export] Instance default_owner_ops : OwnerOps heap := {
  owner_retain := default_owner_retain;
  owner_release := default_owner_release;
  refs h o := match h !! o with Some n => n | None => 0 end;
}.

Record ngtcp2_buf_alloc_info := mk_alloc_info {
  ai_role : Z;
  ai_origin : option Z;
  ai_size : Z;
  ai_headroom : Z;
  ai_tailroom : Z;
  ai_align : Z;
  ai_flags : Z;
}.

(** The callbacks of an allocator; [user_data] is part of the closures. *)
Record ngtcp2_buf_allocator (S : Type) := mk_allocator {
  al_alloc : option (ngtcp2_buf -> ngtcp2_buf_alloc_info -> S -> res (Z * ngtcp2_buf * S));
  al_grow : option (ngtcp2_buf -> Z -> ngtcp2_buf_alloc_info -> S -> res (Z * ngtcp2_buf * S));
  al_release : option (ngtcp2_buf -> S -> res (ngtcp2_buf * S));
}.
Arguments mk_allocator {S}.
Arguments al_alloc {S}.
Arguments al_grow {S}.
Arguments al_release {S}.

Definition size_add (a b : Z) : res Z :=
  if SIZE_MAX - a <? b then Err NGTCP2_ERR_BUF_CONTRACT else Ok (a + b).

Definition validate_info (info : option ngtcp2_buf_alloc_info) : Z :=
  match info with
  | None => NGTCP2_ERR_BUF_CONTRACT
  | Some info =>
      if buf_role_bad (ai_role info) then NGTCP2_ERR_BUF_CONTRACT
      else if (ai_align info =? 0) || negb (Z.land (ai_align info) (ai_align info - 1) =? 0)
      then NGTCP2_ERR_BUF_CONTRACT
      else
        match (let* total := size_add (ai_headroom info) (ai_size info) in
               size_add total (ai_tailroom info)) with
        | Ok _ => 0
        | _ => NGTCP2_ERR_BUF_CONTRACT
        end
  end.

Definition align_ptr (p align : Z) : Z :=
  Z.land (u64 (p + align - 1)) (u64 (Z.lnot (align - 1))).

(** [sizeof(ngtcp2_default_buf_owner)], the offset of its [data]. *)
Definition sizeof_owner : Z := 16.

Section DefaultAllocator.
(** [ngtcp2_mem_malloc]: the address of a fresh block, or [NULL]. *)
Variable malloc : Z -> heap -> option Z.

Definition default_alloc (out : ngtcp2_buf) (info : ngtcp2_buf_alloc_info) (h : heap)
    : res (Z * ngtcp2_buf * heap) :=
  let align := ai_align info in
  match (let* total := size_add (ai_headroom info) (ai_size info) in
         let* total := size_add total (ai_tailroom info) in
         let* alloclen := size_add sizeof_owner total in
         let* alloclen := size_add alloclen (u64 (align - 1)) in
         Ok (total, alloclen)) with
  | Fault => Fault
  | Err rv => Ok (rv, out, h)
  | Ok (total, alloclen) =>
      match malloc alloclen h with
      | None => Ok (NGTCP2_ERR_NOMEM, out, h)
      | Some owner =>
          let h := <[owner := 1]> h in
          let begin := align_ptr (owner + sizeof_owner) align in
          let b := ngtcp2_buf_init (Some begin) total (ai_origin info) (ai_role info)
                     (Some owner) true true in
          let pos := Some (begin + ai_headroom info) in
          Ok (0, mk_buf (b_begin b) (b_end b) pos pos (b_origin b) (b_role b) (b_owner b)
                        (b_retain b) (b_release b), h)
      end
  end.

Definition default_release (buf : ngtcp2_buf) (h : heap) : res (ngtcp2_buf * heap) :=
  let* (buf, h) := ngtcp2_buf_release_owner (Some buf) h in
  match buf with Some b => Ok (b, h) | None => Fault end.

Definition ngtcp2_buf_allocator_default : ngtcp2_buf_allocator heap :=
  mk_allocator (Some default_alloc) None (Some default_release).
End DefaultAllocator.

Section Alloc.
Context {S : Type}.

Definition ngtcp2_buf_alloc (allocator : option (ngtcp2_buf_allocator S)) (out : ngtcp2_buf)
    (info : option ngtcp2_buf_alloc_info) (s : S) : res (Z * ngtcp2_buf * S) :=
  let rv := validate_info info in
  match info with
  | None => Ok (rv, out, s)
  | Some i =>
      if negb (rv =? 0) then Ok (rv, out, s) else
      match allocator with
      | Some (mk_allocator (Some alloc) _ (Some release)) =>
          let* (rv, out, s) := alloc out i s in
          if negb (rv =? 0) then Ok (rv, out, s) else
          if negb (ngtcp2_buf_validate (Some out) (ai_role i) =? 0)
             || (addr (b_end out) - addr (b_pos out) <? ai_size i + ai_tailroom i)
          then
            let* (out, s) := release out s in Ok (NGTCP2_ERR_BUF_CONTRACT, out, s)
          else if (1 <? ai_align i)
                  && negb (Z.land (addr (b_pos out)) (ai_align i - 1) =? 0)
          then
            let* (out, s) := release out s in Ok (NGTCP2_ERR_BUF_CONTRACT, out, s)
          else Ok (0, out, s)
      | _ => Ok (NGTCP2_ERR_BUF_CONTRACT, out, s)
      end
  end.

Definition ngtcp2_buf_grow (allocator : option (ngtcp2_buf_allocator S)) (buf : ngtcp2_buf)
    (size : Z) (info : option ngtcp2_buf_alloc_info) (s : S) : res (Z * ngtcp2_buf * S) :=
  let rv := validate_info info in
  match info with
  | None => Ok (rv, buf, s)
  | Some i =>
      if negb (rv =? 0) then Ok (rv, buf, s) else
      match allocator with
      | Some (mk_allocator _ (Some grow) _) => grow buf size i s
      | _ => Ok (NGTCP2_ERR_BUF_CONTRACT, buf, s)
      end
  end.

Definition ngtcp2_buf_alloc_release (allocator : option (ngtcp2_buf_allocator S))
    (buf : ngtcp2_buf) (s : S) : res (ngtcp2_buf * S) :=
  match allocator with
  | Some (mk_allocator _ _ (Some release)) => release buf s
  | _ => Ok (buf, s)
  end.
End Alloc.

(** ** Theorems *)

(** The reference-counting owner keeps the promises of the interface. *)
#[export] Instance default_owner_laws : OwnerLaws heap.
Proof.
  split; intros h o Hr; unfold refs in Hr |- *; cbn [owner_retain owner_release default_owner_ops] in *;
    unfold default_owner_retain, default_owner_release;
    destruct (h !! o) as [n|] eqn:E; try lia; unfold SIZE_MAX in Hr.
  - eexists 0, _. split; [done|]. intros o'. destruct (Z.eqb_spec o' o) as [->|Hne].
    + rewrite lookup_insert_eq, E, u64_small by (unfold is_u64; lia). done.
    + rewrite lookup_insert_ne by done. simpl. lia.
  - destruct (Z.eqb_spec n 0); [lia|]. cbn [negb]. rewrite u64_small by (unfold is_u64; lia).
    destruct (Z.eqb_spec (n - 1) 0); cbn [negb]; (eexists; split; [done|]); intros o';
      destruct (Z.eqb_spec o' o) as [->|Hne].
    + rewrite lookup_delete_eq, E. lia.
    + rewrite lookup_delete_ne by done. lia.
    + rewrite lookup_insert_eq, E. lia.
    + rewrite lookup_insert_ne by done. lia.
Qed.

(** The address range a valid buffer exposes. *)
Lemma bad_range_false b :
  buf_bad_range (Some b) = false <->
  exists e0 e1 e2 e3, b_begin b = Some e0 /\ b_pos b = Some e1 /\ b_last b = Some e2 /\
    b_end b = Some e3 /\ e0 <= e1 <= e2 /\ e2 <= e3.
Proof.
  unfold buf_bad_range, is_null, addr.
  destruct (b_begin b) as [e0|], (b_end b) as [e3|], (b_pos b) as [e1|], (b_last b) as [e2|];
    simpl; try (split; [done|]; intros (? & ? & ? & ? & ? & ? & ? & ? & _); done).
  rewrite !orb_false_iff, !Z.ltb_ge. split.
  - intros. exists e0, e1, e2, e3. split_and!; done || lia.
  - intros (? & ? & ? & ? & [= ->] & [= ->] & [= ->] & [= ->] & ?). lia.
Qed.

Section Slice.
Context {S : Type} `{HL : OwnerLaws S}.

(** Every owner a buffer refers to is alive. *)
Definition owner_alive (b : ngtcp2_buf) (s : S) : Prop :=
  forall o, b_owner b = Some o -> 0 < refs s o < SIZE_MAX.

Lemma retain_owner_spec b s :
  owner_alive b s ->
  exists rv s', ngtcp2_buf_retain_owner (Some b) s = Ok (rv, s') /\
    (rv <> 0 -> forall o, refs s' o = refs s o) /\
    (rv = 0 -> b_release b = true /\ exists o, b_owner b = Some o /\
       forall o', refs s' o' = refs s o' + (if o' =? o then 1 else 0)).
Proof.
  intros Ha. unfold ngtcp2_buf_retain_owner. destruct (b_owner b) as [o|] eqn:Eo.
  2:{ eexists _, s. split; [done|]. by split. }
  destruct (b_retain b), (b_release b); cbn [negb orb];
    try (eexists _, s; split; [done|]; by split).
  destruct (owner_retain_law s o) as (rv & s' & E & Hr); [auto|]. rewrite E. cbn [bind].
  destruct (Z.eqb_spec rv 0) as [->|]; cbn [negb].
  - eexists 0, s'. split; [done|]. split; [done|]. intros _. split; [done|]. exists o.
    split; [done|]. intros o'. rewrite Hr. by cbn [Z.eqb andb].
  - eexists _, s'. split; [done|]. split; [|done]. intros _ o'. rewrite Hr. simpl. lia.
Qed.

Lemma release_owner_spec b s :
  (forall o, b_owner b = Some o -> b_release b = true /\ 0 < refs s o <= SIZE_MAX) ->
  exists s', ngtcp2_buf_release_owner (Some b) s = Ok (Some buf_zero, s') /\
    forall o', refs s' o' = refs s o' - (if bool_decide (b_owner b = Some o') then 1 else 0).
Proof.
  intros Ha. unfold ngtcp2_buf_release_owner. destruct (b_owner b) as [o|] eqn:Eo.
  - destruct (Ha o eq_refl) as [-> Hr]. destruct (owner_release_law s o Hr) as (s' & E & Hs).
    rewrite E. cbn [bind]. eexists. split; [done|]. intros o'. rewrite Hs.
    destruct (Z.eqb_spec o' o), (bool_decide_reflect (Some o = Some o')); congruence || lia.
  - cbn [bind]. eexists. split; [done|]. intros o'. rewrite bool_decide_false by done. lia.
Qed.
End Slice.

(** C10: slicing a buffer.  For every owner interface that keeps
    [OwnerLaws], [ngtcp2_buf_slice] of a live buffer returns; on an error
    [*dest] and all reference counts are unchanged; on success the request
    was inside the readable bytes, the slice is well formed, has the
    requested role and window, and holds exactly one more reference on the
    owner of the source, which [ngtcp2_buf_release_owner] gives back. *)
Theorem buf_slice_spec {S : Type} `{OwnerLaws S} (dest b : ngtcp2_buf) (off len role : Z) (s : S) :
  0 <= off -> 0 <= len -> owner_alive b s ->
  exists rv dest' s',
    ngtcp2_buf_slice (Some dest) (Some b) off len role s = Ok (rv, Some dest', s') /\
    (rv <> 0 -> dest' = dest /\ forall o, refs s' o = refs s o) /\
    (rv = 0 ->
       off + len <= ngtcp2_buf_len b /\
       buf_bad_range (Some dest') = false /\ b_role dest' = role /\
       b_begin dest' = b_begin b /\ b_end dest' = b_end b /\
       addr (b_pos dest') = addr (b_pos b) + off /\ ngtcp2_buf_len dest' = len /\
       (forall o, refs s' o = refs s o + (if bool_decide (b_owner b = Some o) then 1 else 0)) /\
       exists s'', ngtcp2_buf_release_owner (Some dest') s' = Ok (Some buf_zero, s'') /\
                   forall o, refs s'' o = refs s o).
Proof.
  intros Ho Hl Ha. unfold ngtcp2_buf_slice.
  destruct (_ || _) eqn:Ec; [eexists _, _, _; by split|].
  rewrite !orb_false_iff, !Z.ltb_ge in Ec. destruct Ec as [[[Hr Hoff] Hlen] Hrole].
  set (buf := mk_buf _ _ _ _ _ _ _ _ _).
  assert (Hw : buf_bad_range (Some buf) = false).
  { apply bad_range_false in Hr as (e0 & e1 & e2 & e3 & E0 & E1 & E2 & E3 & ? & ?).
    unfold ngtcp2_buf_len, addr in Hoff, Hlen. rewrite E1, E2 in Hoff, Hlen.
    apply bad_range_false. subst buf. cbn. rewrite E0, E1, E3. cbn.
    eexists _, _, _, _. split_and!; done || lia. }
  assert (Hbl : ngtcp2_buf_len buf = len) by (unfold ngtcp2_buf_len; subst buf; simpl; lia).
  assert (Hrel : forall s', (forall o, b_owner b = Some o ->
      b_release b = true /\ refs s' o = refs s o + 1) ->
      (forall o, refs s' o = refs s o + (if bool_decide (b_owner b = Some o) then 1 else 0)) ->
      exists s'', ngtcp2_buf_release_owner (Some buf) s' = Ok (Some buf_zero, s'') /\
                  forall o, refs s'' o = refs s o).
  { intros s' Hal Hs'. destruct (release_owner_spec buf s') as (s'' & E & Hs'').
    - intros o Eo. destruct (Hal o Eo). specialize (Ha o Eo). split; [done|lia].
    - eexists. split; [done|]. intros o. rewrite Hs'', Hs'. subst buf; cbn. lia. }
  destruct (has_owner b) eqn:Eh.
  - destruct (retain_owner_spec b s Ha) as (rv & s' & E & Herr & Hok). rewrite E. cbn [bind].
    destruct (Z.eqb_spec rv 0) as [->|]; cbn [negb].
    + destruct (Hok eq_refl) as (Hb & o & Eo & Hs').
      assert (Hs2 : forall o', refs s' o'
                = refs s o' + (if bool_decide (b_owner b = Some o') then 1 else 0)).
      { intros o'. rewrite Hs', Eo.
        destruct (Z.eqb_spec o' o), (bool_decide_reflect (Some o = Some o')); congruence || lia. }
      exists 0, buf, s'. split; [done|]. split; [done|]. intros _.
      split_and!; try done; [lia|]. apply Hrel; [|done]. intros o' Eo'. split; [done|].
      rewrite Hs2. by rewrite bool_decide_true.
    + exists rv, dest, s'. split; [done|]. split; [|done]. auto.
  - unfold has_owner in Eh. rewrite !orb_false_iff in Eh. destruct Eh as [[Eh _] _].
    destruct (b_owner b) as [o|] eqn:Eo; [done|].
    exists 0, buf, s. split; [done|]. split; [done|]. intros _.
    assert (forall o, refs s o = refs s o + (if bool_decide (@None Z = Some o) then 1 else 0))
      by (intros; rewrite bool_decide_false by done; lia).
    split_and!; try done; [lia|]. by apply Hrel.
Qed.

Lemma buf_slice_spec_witness :
  let b := mk_buf (Some 100) (Some 200) (Some 110) (Some 150) None 1 (Some 84) true true in
  exists rv dest' s',
    ngtcp2_buf_slice (Some buf_zero) (Some b) 8 16 2 ({[84 := 1]} : heap)
      = Ok (rv, Some dest', s') /\
    (rv <> 0 -> dest' = buf_zero /\ forall o, refs s' o = refs ({[84 := 1]} : heap) o) /\
    (rv = 0 ->
       8 + 16 <= ngtcp2_buf_len b /\
       buf_bad_range (Some dest') = false /\ b_role dest' = 2 /\
       b_begin dest' = b_begin b /\ b_end dest' = b_end b /\
       addr (b_pos dest') = addr (b_pos b) + 8 /\ ngtcp2_buf_len dest' = 16 /\
       (forall o, refs s' o = refs ({[84 := 1]} : heap) o
                  + (if bool_decide (b_owner b = Some o) then 1 else 0)) /\
       exists s'', ngtcp2_buf_release_owner (Some dest') s' = Ok (Some buf_zero, s'') /\
                   forall o, refs s'' o = refs ({[84 := 1]} : heap) o).
Proof.
  apply (buf_slice_spec buf_zero
    (mk_buf (Some 100) (Some 200) (Some 110) (Some 150) None 1 (Some 84) true true)
    8 16 2 ({[84 := 1]} : heap)); [lia|lia|].
  intros o [= <-]. by vm_compute.
Defined.

(** ** Allocation *)

(** The test [align & (align - 1)] accepts powers of two only. *)
Lemma land_pred_pow2 a : 0 < a -> Z.land a (a - 1) = 0 -> exists k, 0 <= k /\ a = 2 ^ k.
Proof.
  intros Ha Hl. exists (Z.log2 a). split; [apply Z.log2_nonneg|].
  destruct (Z.log2_spec a Ha) as [Hlo Hhi]. pose proof (Z.log2_nonneg a).
  destruct (Z.eq_dec a (2 ^ Z.log2 a)) as [|Hne]; [done|]. exfalso.
  assert (Hk : Z.log2 (a - 1) = Z.log2 a) by (apply Z.log2_unique; lia).
  assert (Hb : Z.testbit (Z.land a (a - 1)) (Z.log2 a) = true).
  { rewrite Z.land_spec, Z.bit_log2 by lia. rewrite <- Hk. apply Z.bit_log2. lia. }
  by rewrite Hl, Z.bits_0 in Hb.
Qed.

Lemma align_ptr_spec p align :
  0 < p -> 0 < align -> Z.land align (align - 1) = 0 -> p + align - 1 < 2 ^ 64 ->
  p <= align_ptr p align <= p + align - 1 /\ align_ptr p align mod align = 0.
Proof.
  intros Hp Ha Hl Hb. destruct (land_pred_pow2 align Ha Hl) as (k & Hk & ->).
  assert (Hk64 : k < 64).
  { destruct (Z.lt_ge_cases k 64); [done|].
    assert (2 ^ 64 <= 2 ^ k) by (apply Z.pow_le_mono_r; lia). lia. }
  unfold align_ptr. rewrite u64_small by (unfold is_u64; lia).
  replace (u64 (Z.lnot (2 ^ k - 1))) with (2 ^ 64 - 2 ^ k).
  2:{ unfold u64, Z.lnot. apply (Z.mod_unique_pos _ _ (-1)); lia. }
  rewrite land_high_bits by lia.
  pose proof (Z.div_mod (p + 2 ^ k - 1) (2 ^ k) ltac:(lia)).
  pose proof (Z.mod_pos_bound (p + 2 ^ k - 1) (2 ^ k) ltac:(lia)).
  split; [lia|]. apply Z.mod_mul. lia.
Qed.

(** The low bits test [pos & (align - 1)] is divisibility by [align]. *)
Lemma land_align_mod p align :
  0 < align -> Z.land align (align - 1) = 0 -> Z.land p (align - 1) = p mod align.
Proof.
  intros Ha Hl. destruct (land_pred_pow2 align Ha Hl) as (k & Hk & ->). by apply land_ones_mod.
Qed.

(** A request whose sizes are [size_t] values. *)
Definition info_sizes (i : ngtcp2_buf_alloc_info) : Prop :=
  is_u64 (ai_size i) /\ is_u64 (ai_headroom i) /\ is_u64 (ai_tailroom i) /\ is_u64 (ai_align i).

(** What the header asks of a request: a role of the enumeration, an
    alignment that is a power of two, and sizes whose sum is a [size_t]. *)
Definition request_ok (i : ngtcp2_buf_alloc_info) : Prop :=
  ai_role i <= NGTCP2_BUF_ROLE_TX_DATAGRAM /\ (exists k, 0 <= k /\ ai_align i = 2 ^ k) /\
  ai_headroom i + ai_size i + ai_tailroom i <= SIZE_MAX.

(** The block the default allocator asks [malloc] for, where the storage
    begins in the block [o], and the buffer over it. *)
Definition block_len (i : ngtcp2_buf_alloc_info) : Z :=
  sizeof_owner + (ai_headroom i + ai_size i + ai_tailroom i) + (ai_align i - 1).

Definition block_begin (i : ngtcp2_buf_alloc_info) (o : Z) : Z :=
  align_ptr (o + sizeof_owner) (ai_align i).

Definition block_buf (i : ngtcp2_buf_alloc_info) (o : Z) : ngtcp2_buf :=
  let begin := block_begin i o in
  mk_buf (Some begin) (Some (begin + (ai_headroom i + ai_size i + ai_tailroom i)))
         (Some (begin + ai_headroom i)) (Some (begin + ai_headroom i))
         (ai_origin i) (ai_role i) (Some o) true true.

Lemma pow2_land_pred k : 0 <= k -> Z.land (2 ^ k) (2 ^ k - 1) = 0.
Proof. intros. rewrite land_ones_mod by done. apply Z.mod_same. lia. Qed.

(** [validate_info] accepts exactly these, and has one error. *)
Lemma validate_info_spec i :
  info_sizes i ->
  (request_ok i -> validate_info (Some i) = 0) /\
  (~ request_ok i -> validate_info (Some i) = NGTCP2_ERR_BUF_CONTRACT).
Proof.
  unfold validate_info, buf_role_bad, size_add, info_sizes, is_u64, request_ok. intros (? & ? & ? & ?).
  split.
  - intros (Hr & (k & Hk & Ea) & Ht).
    destruct (Z.ltb_spec NGTCP2_BUF_ROLE_TX_DATAGRAM (ai_role i)); [lia|].
    rewrite Ea, pow2_land_pred by done. destruct (Z.eqb_spec (2 ^ k) 0); [lia|]. cbn [orb negb Z.eqb].
    destruct (Z.ltb_spec (SIZE_MAX - ai_headroom i) (ai_size i)); [lia|]. cbn [bind].
    by destruct (Z.ltb_spec (SIZE_MAX - (ai_headroom i + ai_size i)) (ai_tailroom i)); [lia|].
  - intros Hn. destruct (Z.ltb_spec NGTCP2_BUF_ROLE_TX_DATAGRAM (ai_role i)); [done|].
    destruct (_ || _) eqn:E; [done|]. rewrite orb_false_iff, negb_false_iff, Z.eqb_neq, Z.eqb_eq in E.
    destruct E as [E1 E2].
    destruct (Z.ltb_spec (SIZE_MAX - ai_headroom i) (ai_size i)); cbn [bind]; [done|].
    destruct (Z.ltb_spec (SIZE_MAX - (ai_headroom i + ai_size i)) (ai_tailroom i)); [done|].
    destruct Hn. split_and!; [lia| |lia]. apply land_pred_pow2; [lia|done].
Qed.

Section DefaultAlloc.
Variable malloc : Z -> heap -> option Z.

(** [malloc] returns a block of the requested size that is inside the (one past its end too)
    address space and not in use. *)
Definition malloc_fresh : Prop :=
  forall n h p, malloc n h = Some p -> h !! p = None /\ 0 < p /\ p + n < 2 ^ 64.

Hypothesis Hmalloc : malloc_fresh.

Lemma validate_info_ok i :
  info_sizes i -> validate_info (Some i) = 0 ->
  0 <= NGTCP2_BUF_ROLE_TX_DATAGRAM - ai_role i /\
  0 < ai_align i /\ Z.land (ai_align i) (ai_align i - 1) = 0 /\
  ai_headroom i + ai_size i + ai_tailroom i <= SIZE_MAX.
Proof.
  unfold validate_info, buf_role_bad, size_add, info_sizes, is_u64. intros (? & ? & ? & ?).
  destruct (Z.ltb_spec NGTCP2_BUF_ROLE_TX_DATAGRAM (ai_role i)); [done|].
  destruct (_ || _) eqn:E; [done|]. rewrite orb_false_iff, negb_false_iff, Z.eqb_neq, Z.eqb_eq in E.
  destruct E.
  destruct (Z.ltb_spec (SIZE_MAX - ai_headroom i) (ai_size i)); cbn [bind]; [done|].
  destruct (Z.ltb_spec (SIZE_MAX - (ai_headroom i + ai_size i)) (ai_tailroom i)); [done|]. lia.
Qed.

(** The default allocation: each error without a block, or a block of its
    own with the requested space behind [pos]. *)
Lemma default_alloc_spec out i h :
  info_sizes i -> validate_info (Some i) = 0 ->
  default_alloc malloc out i h
    = (if SIZE_MAX <? block_len i then Ok (NGTCP2_ERR_BUF_CONTRACT, out, h) else
       match malloc (block_len i) h with
       | None => Ok (NGTCP2_ERR_NOMEM, out, h)
       | Some o => Ok (0, block_buf i o, <[o := 1]> h)
       end) /\
  (forall o, malloc (block_len i) h = Some o ->
     h !! o = None /\ o + sizeof_owner <= block_begin i o /\
     block_begin i o + (ai_headroom i + ai_size i + ai_tailroom i) <= o + block_len i /\
     block_begin i o mod ai_align i = 0).
Proof.
  intros Hs Hv. destruct (validate_info_ok i Hs Hv) as (_ & Ha & Hp & Ht).
  destruct Hs as (? & ? & ? & ?). unfold is_u64 in *. split.
  - unfold default_alloc, size_add, block_len, sizeof_owner.
    rewrite (u64_small (ai_align i - 1)) by (unfold is_u64; lia).
    destruct (Z.ltb_spec (SIZE_MAX - ai_headroom i) (ai_size i)); [lia|]. cbn [bind].
    destruct (Z.ltb_spec (SIZE_MAX - (ai_headroom i + ai_size i)) (ai_tailroom i)); [lia|].
    cbn [bind]. set (total := ai_headroom i + ai_size i + ai_tailroom i) in *.
    destruct (Z.ltb_spec (SIZE_MAX - 16) total), (Z.ltb_spec SIZE_MAX (16 + total + (ai_align i - 1)));
      cbn [bind]; try done; try lia.
    + by destruct (Z.ltb_spec (SIZE_MAX - (16 + total)) (ai_align i - 1)); [|lia].
    + destruct (Z.ltb_spec (SIZE_MAX - (16 + total)) (ai_align i - 1)); [lia|]. cbn [bind].
      by destruct (malloc _ h).
  - intros o Em. destruct (Hmalloc _ _ _ Em) as (Hf & Ho & Hb).
    unfold block_len, sizeof_owner in *.
    destruct (align_ptr_spec (o + 16) (ai_align i)) as [Hr Hm]; [lia|done|done|lia|].
    unfold block_begin, sizeof_owner. split_and!; done || lia.
Qed.

Lemma default_release_fresh b o h :
  b_owner b = Some o -> b_release b = true -> h !! o = None ->
  default_release b (<[o := 1]> h) = Ok (buf_zero, h).
Proof.
  intros Eo Er Hf. unfold default_release, ngtcp2_buf_release_owner. rewrite Eo, Er.
  cbn [owner_release default_owner_ops]. unfold default_owner_release.
  rewrite lookup_insert_eq. cbn. by rewrite delete_insert_id.
Qed.
End DefaultAlloc.

(** The checks of [ngtcp2_buf_alloc] on the buffer of the default allocator. *)
Lemma block_buf_pos_mod i o :
  0 < ai_align i -> block_begin i o mod ai_align i = 0 ->
  addr (b_pos (block_buf i o)) mod ai_align i = ai_headroom i mod ai_align i.
Proof. intros Ha Hb. cbn. by rewrite <- Z.add_mod_idemp_l, Hb by lia. Qed.

Lemma block_buf_check i o :
  info_sizes i -> validate_info (Some i) = 0 ->
  block_begin i o mod ai_align i = 0 ->
  ngtcp2_buf_validate (Some (block_buf i o)) (ai_role i) = 0 /\
  addr (b_end (block_buf i o)) - addr (b_pos (block_buf i o)) = ai_size i + ai_tailroom i /\
  Z.land (addr (b_pos (block_buf i o))) (ai_align i - 1) = ai_headroom i mod ai_align i.
Proof.
  intros Hs Hv Hb. destruct (validate_info_ok i Hs Hv) as (Hr & Ha & Hp & Ht).
  destruct Hs as (? & ? & ? & ?). unfold is_u64 in *. split_and!.
  - unfold ngtcp2_buf_validate, buf_role_bad, block_buf. cbn. rewrite Z.eqb_refl. cbn.
    bcase; cbn; try done; lia.
  - simpl. lia.
  - rewrite land_align_mod by done. by apply block_buf_pos_mod.
Qed.

(** C11: allocation with the default allocator.  [ngtcp2_buf_alloc] returns
    for every request, with exactly this result:
    - a request with a role out of range, an alignment that is not a power
      of two or sizes that overflow: [NGTCP2_ERR_BUF_CONTRACT];
    - a block (owner, storage and alignment slack) larger than [SIZE_MAX]:
      [NGTCP2_ERR_BUF_CONTRACT];
    - no memory for that block: [NGTCP2_ERR_NOMEM];
    - a headroom that is not a multiple of the alignment:
      [NGTCP2_ERR_BUF_CONTRACT] after the block has been given back;
    - otherwise success.
    A failure leaves no block behind, and [out] as it was (cleared when a
    block was given back).  On success the buffer is valid for its role and
    has the requested geometry: [headroom] bytes before [pos], which is
    [last], and [size + tailroom] bytes behind it; [pos] has the requested
    alignment; the fresh block [o] has one reference, and owner and storage
    lie inside it without overlap. *)
Theorem buf_alloc_default_spec (malloc : Z -> heap -> option Z) (out : ngtcp2_buf)
    (i : ngtcp2_buf_alloc_info) (h : heap) :
  malloc_fresh malloc -> info_sizes i ->
  exists rv b h',
    ngtcp2_buf_alloc (Some (ngtcp2_buf_allocator_default malloc)) out (Some i) h
      = Ok (rv, b, h') /\
    (~ request_ok i -> rv = NGTCP2_ERR_BUF_CONTRACT /\ b = out /\ h' = h) /\
    (request_ok i -> SIZE_MAX < block_len i ->
       rv = NGTCP2_ERR_BUF_CONTRACT /\ b = out /\ h' = h) /\
    (request_ok i -> block_len i <= SIZE_MAX -> malloc (block_len i) h = None ->
       rv = NGTCP2_ERR_NOMEM /\ b = out /\ h' = h) /\
    (forall o, request_ok i -> block_len i <= SIZE_MAX -> malloc (block_len i) h = Some o ->
       ai_headroom i mod ai_align i <> 0 ->
       rv = NGTCP2_ERR_BUF_CONTRACT /\ b = buf_zero /\ h' = h) /\
    (forall o, request_ok i -> block_len i <= SIZE_MAX -> malloc (block_len i) h = Some o ->
       ai_headroom i mod ai_align i = 0 ->
       rv = 0 /\ h !! o = None /\ h' = <[o := 1]> h /\
       ngtcp2_buf_validate (Some b) (ai_role i) = 0 /\
       b_role b = ai_role i /\ b_origin b = ai_origin i /\ b_owner b = Some o /\
       b_last b = b_pos b /\
       addr (b_pos b) - addr (b_begin b) = ai_headroom i /\
       addr (b_end b) - addr (b_pos b) = ai_size i + ai_tailroom i /\
       addr (b_pos b) mod ai_align i = 0 /\
       o + sizeof_owner <= addr (b_begin b) /\ addr (b_end b) <= o + block_len i).
Proof.
  intros Hm Hs. unfold ngtcp2_buf_alloc. destruct (validate_info_spec i Hs) as [Hv1 Hv2].
  destruct (Z.eqb_spec (validate_info (Some i)) 0) as [Hv|Hv]; cbn [negb].
  2:{ eexists _, _, h. split; [done|].
      split_and!; [intros Hn; by rewrite (Hv2 Hn)|..]; intros; by destruct Hv; apply Hv1. }
  cbn [ngtcp2_buf_allocator_default].
  assert (Hn : ~ request_ok i -> False) by (intros Hn; by rewrite (Hv2 Hn) in Hv).
  destruct (default_alloc_spec malloc Hm out i h Hs Hv) as [-> Hb].
  destruct (Z.ltb_spec SIZE_MAX (block_len i)); cbn [bind].
  { eexists _, _, h. split; [done|]. split_and!; try done; intros; first [by destruct Hn | exfalso; lia | congruence]. }
  destruct (malloc (block_len i) h) as [o|] eqn:Em; cbn [bind].
  2:{ eexists _, _, h. split; [done|]. split_and!; try done; intros; first [by destruct Hn | exfalso; lia | congruence]. }
  destruct (Hb o eq_refl) as (Hf & Ho & He & Hbm).
  destruct (block_buf_check i o Hs Hv Hbm) as (Hval & Hsp & Hpm).
  destruct (validate_info_ok i Hs Hv) as (_ & Ha & _ & _).
  cbn [Z.eqb negb]. rewrite Hval, Hsp, Z.ltb_irrefl, Hpm. cbn [Z.eqb negb orb].
  destruct (Z.eqb_spec (ai_headroom i mod ai_align i) 0) as [E0|E0]; cbn [negb].
  - rewrite andb_false_r. exists 0, (block_buf i o), (<[o := 1]> h). split; [done|].
    split_and!; try (intros; first [by destruct Hn | exfalso; lia | congruence]).
    intros o' _ _ [= <-] _. rewrite block_buf_pos_mod by done.
    split_and!; try done; simpl; lia.
  - destruct (Z.ltb_spec 1 (ai_align i)); cbn [negb andb].
    + rewrite (default_release_fresh (block_buf i o) o h) by done. cbn [bind].
      eexists _, _, h. split; [done|]. split_and!; try done; intros; first [by destruct Hn | exfalso; lia | congruence].
    + replace (ai_align i) with 1 in E0 by lia. by rewrite Z.mod_1_r in E0.
Qed.

Lemma buf_alloc_default_spec_witness :
  let malloc := fun n h => if bool_decide (h !! 4096 = None) && (n <? 8192) then Some 4096 else None in
  let i := mk_alloc_info NGTCP2_BUF_ROLE_TX_PACKET None 1200 32 32 16 0 in
  exists rv b h',
    ngtcp2_buf_alloc (Some (ngtcp2_buf_allocator_default malloc)) buf_zero (Some i) (∅ : heap)
      = Ok (rv, b, h') /\
    rv = 0 /\ h' = <[4096 := 1]> ∅ /\ ngtcp2_buf_validate (Some b) (ai_role i) = 0 /\
    addr (b_pos b) - addr (b_begin b) = 32 /\ addr (b_end b) - addr (b_pos b) = 1232 /\
    addr (b_pos b) mod 16 = 0.
Proof.
  destruct (buf_alloc_default_spec
    (fun n h => if bool_decide (h !! 4096 = None) && (n <? 8192) then Some 4096 else None) buf_zero
    (mk_alloc_info NGTCP2_BUF_ROLE_TX_PACKET None 1200 32 32 16 0) ∅)
    as (rv & b & h' & E & _ & _ & _ & _ & Hok).
  - intros n h p. case_bool_decide; [|done]. destruct (Z.ltb_spec n 8192); [|done].
    intros [= <-]. split_and!; [done|lia..].
  - unfold info_sizes, is_u64. simpl. lia.
  - destruct (Hok 4096) as (Erv & _ & Eh & Hv & _ & _ & _ & _ & Hp & He & Hm & _);
      [split_and!; [by vm_compute | by exists 4 | by vm_compute]|by vm_compute|by vm_compute|done|].
    exists rv, b, h'. by split_and!.
Defined.
