(* ===== verification/PktAux.v ===== *)
(** * Other packets and packet utilities of [lib/ngtcp2_pkt.c]

    Validation of ACK frames, the largest data that fits a frame, Version
    Negotiation, Stateless Reset and Retry packets, and the search for the
    server name in a ClientHello.  A packet is written to a destination
    [ngtcp2_buf]; the model returns the bytes stored at [dest->pos] and the
    buffer with its new [last].  The AEAD that computes the integrity tag of
    a Retry packet, [ops->encrypt_retry], is a parameter. *)

From S2P Require Import Prelude Conv Const Wp PktHd Frame FrameSafe Buf.

(** ** ACK frames *)
Fixpoint validate_ack_ranges (largest_ack min_pkt_num : Z) (ranges : list ngtcp2_ack_range) : Z :=
  match ranges with
  | [] => 0
  | r :: ranges =>
      if largest_ack <? i64 (ar_gap r) + 2 then NGTCP2_ERR_ACK_FRAME else
      let largest_ack := largest_ack - (i64 (ar_gap r) + 2) in
      if largest_ack <? i64 (ar_len r) then NGTCP2_ERR_ACK_FRAME else
      let largest_ack := largest_ack - i64 (ar_len r) in
      if largest_ack <? min_pkt_num then NGTCP2_ERR_PROTO else
      validate_ack_ranges largest_ack min_pkt_num ranges
  end.

Definition ngtcp2_pkt_validate_ack (fr : ngtcp2_ack) (min_pkt_num : Z) : Z :=
  let largest_ack := ack_largest_ack fr in
  if largest_ack <? i64 (ack_first_ack_range fr) then NGTCP2_ERR_ACK_FRAME else
  let largest_ack := largest_ack - i64 (ack_first_ack_range fr) in
  if largest_ack <? min_pkt_num then NGTCP2_ERR_PROTO else
  validate_ack_ranges largest_ack min_pkt_num (ack_ranges fr).

(** ** Data that fits a frame *)

(** The cascade both functions end with: [left] is the space behind the
    frame header, before the Length field. *)
Definition max_datalen (len left : Z) : Z :=
  if (8 + 1073741823 <? left) && (1073741823 <? len) then
    Z.min (Z.min len 4611686018427387903) (left - 8)
  else if (4 + 16383 <? left) && (16383 <? len) then
    Z.min (Z.min len 1073741823) (left - 4)
  else if (2 + 63 <? left) && (63 <? len) then
    Z.min (Z.min len 16383) (left - 2)
  else Z.min (Z.min len 63) (left - 1).

Definition ngtcp2_pkt_stream_max_datalen (stream_id offset len left : Z) : res Z :=
  let* n1 := ngtcp2_put_uvarintlen (u64 stream_id) in
  let* n2 := if negb (offset =? 0) then ngtcp2_put_uvarintlen offset else Ok 0 in
  let n := 1 + n1 + n2 in
  if left <=? n then Ok SIZE_MAX else
  Ok (max_datalen len (left - n)).

Definition ngtcp2_pkt_crypto_max_datalen (offset len left : Z) : res Z :=
  let* n1 := ngtcp2_put_uvarintlen offset in
  let n := 1 + n1 in
  if left <=? n + 1 then Ok SIZE_MAX else
  Ok (max_datalen len (left - n)).

Definition ngtcp2_pkt_datagram_framelen (len : Z) : res Z :=
  let* n := ngtcp2_put_uvarintlen len in
  Ok (1 + n + len).

(** ** Destination buffers *)
Definition pkt_validate_tx_dest (dest : ngtcp2_buf) : Z :=
  let rv := ngtcp2_buf_validate (Some dest) NGTCP2_BUF_ROLE_TX_PACKET in
  if negb (rv =? 0)
     || (negb (is_null (b_origin dest)) && negb (bool_decide (b_origin dest = Some 1)))
  then NGTCP2_ERR_BUF_CONTRACT else 0.

Definition buf_destlen (dest : ngtcp2_buf) : Z := addr (b_end dest) - addr (b_pos dest).

(** [dest->last = p] after [p] bytes were stored at [dest->pos]. *)
Definition buf_stored (dest : ngtcp2_buf) (p : list Z) : ngtcp2_buf :=
  set_last dest (Some (addr (b_pos dest) + zlen p)).

(** ** Version Negotiation *)
Definition ngtcp2_pkt_write_version_negotiation (dest : ngtcp2_buf) (unused_random : Z)
    (dcid scid : list Z) (sv : list Z) : res (list Z * ngtcp2_buf) :=
  let len := 1 + 4 + 1 + zlen dcid + 1 + zlen scid + zlen sv * 4 in
  assert! zlen dcid <? 256;
  assert! zlen scid <? 256;
  let rv := pkt_validate_tx_dest dest in
  if negb (rv =? 0) then Err rv else
  if buf_destlen dest <? len then Err NGTCP2_ERR_NOBUF else
  let p := [Z.lor 0xC0 unused_random] in
  let p := ngtcp2_put_uint32be p 0 in
  let p := p ++ [u8 (zlen dcid)] in
  let p := if negb (zlen dcid =? 0) then p ++ dcid else p in
  let p := p ++ [u8 (zlen scid)] in
  let p := if negb (zlen scid =? 0) then p ++ scid else p in
  let p := fold_left ngtcp2_put_uint32be sv p in
  assert! zlen p =? len;
  Ok (p, buf_stored dest p).

(** [for (; payload != end;)] over the four-byte versions. *)
Fixpoint decode_versions (cnt : nat) (payload : list Z) : res (list Z) :=
  match payload, cnt with
  | [], _ => Ok []
  | _, O => Fault
  | _, S cnt =>
      let* (v, payload) := ngtcp2_get_uint32be payload in
      let* l := decode_versions cnt payload in
      Ok (v :: l)
  end.

Definition ngtcp2_pkt_decode_version_negotiation (payload : list Z) : res (list Z * Z) :=
  let payloadlen := zlen payload in
  assert! payloadlen mod 4 =? 0;
  let* l := decode_versions (length payload) payload in
  Ok (l, payloadlen / 4).

(** ** Stateless Reset *)
Definition ngtcp2_pkt_decode_stateless_reset (payload : list Z) : res (list Z * list Z) :=
  let payloadlen := zlen payload in
  if payloadlen <? NGTCP2_MIN_STATELESS_RESET_RANDLEN + NGTCP2_STATELESS_RESET_TOKENLEN
  then Err NGTCP2_ERR_INVALID_ARGUMENT else
  let randlen := payloadlen - NGTCP2_STATELESS_RESET_TOKENLEN in
  let* (rand, p) := get_bytes payload randlen in
  let* (token, _) := get_bytes p NGTCP2_STATELESS_RESET_TOKENLEN in
  Ok (rand, token).

(** [token] is an array of [NGTCP2_STATELESS_RESET_TOKENLEN] bytes. *)
Definition ngtcp2_pkt_write_stateless_reset2 (dest : ngtcp2_buf) (token rand : list Z)
    : res (list Z * ngtcp2_buf) :=
  let rv := pkt_validate_tx_dest dest in
  if negb (rv =? 0) then Err rv else
  let destlen := buf_destlen dest in
  if destlen <? NGTCP2_MIN_STATELESS_RESET_RANDLEN + NGTCP2_STATELESS_RESET_TOKENLEN
  then Err NGTCP2_ERR_NOBUF else
  if zlen rand <? NGTCP2_MIN_STATELESS_RESET_RANDLEN then Err NGTCP2_ERR_INVALID_ARGUMENT else
  let randlen := Z.min (destlen - NGTCP2_STATELESS_RESET_TOKENLEN) (zlen rand) in
  let* (r, _) := get_bytes rand randlen in
  let p := r ++ token in
  match p with
  | base :: p =>
      let p := u8 (Z.lor (Z.land base 0x3F) 0x40) :: p in
      Ok (p, buf_stored dest p)
  | [] => Fault
  end.

(** ** Retry *)
Record ngtcp2_pkt_retry := mk_pkt_retry {
  rt_odcid : list Z;
  rt_token : list Z;
  rt_tag : list Z;
}.

(** [dest->odcid] is filled in by the caller. *)
Definition ngtcp2_pkt_decode_retry (odcid payload : list Z) : res ngtcp2_pkt_retry :=
  let payloadlen := zlen payload in
  let len := 1 + NGTCP2_RETRY_TAGLEN in
  if payloadlen <? len then Err NGTCP2_ERR_INVALID_ARGUMENT else
  let tokenlen := payloadlen - NGTCP2_RETRY_TAGLEN in
  let* (token, p) := get_bytes payload tokenlen in
  let* (tag, _) := get_bytes p NGTCP2_RETRY_TAGLEN in
  Ok (mk_pkt_retry odcid token tag).

Definition ngtcp2_pkt_encode_pseudo_retry (destlen : Z) (hd : ngtcp2_pkt_hd) (unused : Z)
    (odcid token : list Z) : res (list Z) :=
  if destlen <? 1 + zlen odcid then Err NGTCP2_ERR_NOBUF else
  let p := [u8 (zlen odcid)] ++ odcid in
  let destlen := destlen - zlen p in
  let* q := ngtcp2_pkt_encode_hd_long destlen hd in
  if destlen <? zlen q + zlen token then Err NGTCP2_ERR_NOBUF else
  match q with
  | c :: q => Ok (p ++ (Z.lor (Z.land c 0xF0) unused :: q) ++ token)
  | [] => Fault
  end.

(** [NGTCP2_RETRY_NONCE_V1] and [NGTCP2_RETRY_NONCE_V2] *)
Definition NGTCP2_RETRY_NONCE_V1 : list Z :=
  [0x46; 0x15; 0x99; 0xd3; 0x5d; 0x63; 0x2b; 0xf2; 0x23; 0x98; 0x25; 0xbb].
Definition NGTCP2_RETRY_NONCE_V2 : list Z :=
  [0xd8; 0x69; 0x69; 0xbc; 0x2d; 0x7c; 0x6d; 0x99; 0x90; 0xef; 0xb0; 0x4a].

Definition retry_nonce (version : Z) : list Z :=
  if version =? NGTCP2_PROTO_VER_V2 then NGTCP2_RETRY_NONCE_V2 else NGTCP2_RETRY_NONCE_V1.

Section Retry.
(** [ops->encrypt_retry] with the key of [aead_ctx]: from the nonce and the
    associated data to the return value and the bytes put into the tag
    buffer. *)
Variable encrypt_retry : list Z -> list Z -> Z * list Z.

(** The tag of a pseudo packet, as both functions compute it. *)
Definition retry_tag (version : Z) (pseudo_retry : list Z) : res (list Z) :=
  let '(rv, tag) := encrypt_retry (retry_nonce version) pseudo_retry in
  if negb (rv =? 0) then
    Err (if rv =? NGTCP2_ERR_BUF_CONTRACT then rv else NGTCP2_ERR_CALLBACK_FAILURE)
  else if negb (zlen tag =? NGTCP2_RETRY_TAGLEN) then Err NGTCP2_ERR_BUF_CONTRACT
  else Ok tag.

Definition ngtcp2_pkt_write_retry (dest : ngtcp2_buf) (version : Z)
    (dcid scid odcid token : list Z) : res (list Z * ngtcp2_buf) :=
  assert! 0 <? zlen token;
  assert! negb (ngtcp2_cid_eq scid odcid);
  if zlen odcid <? NGTCP2_MIN_INITIAL_DCIDLEN then Err NGTCP2_ERR_INVALID_ARGUMENT else
  let rv := pkt_validate_tx_dest dest in
  if negb (rv =? 0) then Err rv else
  let hd := ngtcp2_pkt_hd_init NGTCP2_PKT_FLAG_LONG_FORM NGTCP2_PKT_RETRY (Some dcid)
              (Some scid) 0 1 version in
  let* pseudo_retry := ngtcp2_pkt_encode_pseudo_retry 1500 hd 0 odcid token in
  let* tag := retry_tag version pseudo_retry in
  let offset := 1 + zlen odcid in
  if buf_destlen dest <? zlen pseudo_retry + NGTCP2_RETRY_TAGLEN - offset
  then Err NGTCP2_ERR_NOBUF else
  let* p := advance pseudo_retry offset in
  let p := p ++ tag in
  Ok (p, buf_stored dest p).

Definition ngtcp2_pkt_verify_retry_tag (version : Z) (retry : ngtcp2_pkt_retry)
    (pkt : list Z) : res Z :=
  let pktlen := zlen pkt in
  assert! NGTCP2_RETRY_TAGLEN <=? pktlen;
  if 1500 <? 1 + zlen (rt_odcid retry) + pktlen - NGTCP2_RETRY_TAGLEN
  then Err NGTCP2_ERR_PROTO else
  let p := [u8 (zlen (rt_odcid retry))] ++ rt_odcid retry in
  let* (q, _) := get_bytes pkt (pktlen - NGTCP2_RETRY_TAGLEN) in
  let p := p ++ q in
  let* tag := retry_tag version p in
  if negb (memcmp (rt_tag retry) tag (Z.to_nat NGTCP2_RETRY_TAGLEN) =? 0)
  then Err NGTCP2_ERR_PROTO else Ok 0.
End Retry.

(** ** ACK frames denote disjoint blocks of packet numbers *)

(** The blocks of packet numbers of an ACK frame, from the largest down:
    [(lo, hi)] acknowledges [lo .. hi]. *)
Fixpoint ack_blocks_below (lo : Z) (ranges : list ngtcp2_ack_range) : list (Z * Z) :=
  match ranges with
  | [] => []
  | r :: ranges =>
      let hi := lo - ar_gap r - 2 in
      (hi - ar_len r, hi) :: ack_blocks_below (hi - ar_len r) ranges
  end.

Definition ack_blocks (fr : ngtcp2_ack) : list (Z * Z) :=
  let lo := ack_largest_ack fr - ack_first_ack_range fr in
  (lo, ack_largest_ack fr) :: ack_blocks_below lo (ack_ranges fr).

(** The verdict on the first block that is not acceptable. *)
Definition ack_verdict (min_pkt_num : Z) (blocks : list (Z * Z)) : Z :=
  match List.find (fun b => (b.1 <? 0) || (b.1 <? min_pkt_num)) blocks with
  | Some b => if b.1 <? 0 then NGTCP2_ERR_ACK_FRAME else NGTCP2_ERR_PROTO
  | None => 0
  end.

Lemma validate_ack_ranges_eq lo m ranges :
  Forall ack_range_ok ranges ->
  validate_ack_ranges lo m ranges = ack_verdict m (ack_blocks_below lo ranges).
Proof.
  intros H. revert lo. induction H as [|r ranges [Hg Hl] H IH]; intros lo; [done|].
  cbn [validate_ack_ranges ack_blocks_below]. unfold varint in *.
  rewrite !i64_small by lia. cbv zeta. unfold ack_verdict. cbn [List.find fst].
  replace (lo - (ar_gap r + 2) - ar_len r) with (lo - ar_gap r - 2 - ar_len r) by lia.
  destruct (Z.ltb_spec lo (ar_gap r + 2)).
  { destruct (Z.ltb_spec (lo - ar_gap r - 2 - ar_len r) 0) as [E|]; [|lia]. cbn [orb fst].
    apply Z.ltb_lt in E. by rewrite E. }
  destruct (Z.ltb_spec (lo - (ar_gap r + 2)) (ar_len r)).
  { destruct (Z.ltb_spec (lo - ar_gap r - 2 - ar_len r) 0) as [E|]; [|lia]. cbn [orb fst].
    apply Z.ltb_lt in E. by rewrite E. }
  destruct (Z.ltb_spec (lo - ar_gap r - 2 - ar_len r) 0) as [|E]; [lia|]. cbn [orb].
  destruct (_ <? m); [|apply IH]. cbn [fst]. apply Z.ltb_ge in E. by rewrite E.
Qed.

(** Consecutive blocks are in descending order with a gap between them. *)
Fixpoint blocks_descend (blocks : list (Z * Z)) : Prop :=
  match blocks with
  | b :: ((c :: _) as rest) => c.2 + 1 < b.1 /\ blocks_descend rest
  | _ => True
  end.

Lemma ack_blocks_descend hi lo ranges :
  Forall ack_range_ok ranges -> blocks_descend ((lo, hi) :: ack_blocks_below lo ranges).
Proof.
  intros H. revert hi lo. induction H as [|r ranges [Hg Hl] H IH]; intros hi lo; [done|].
  cbn [ack_blocks_below]. split; [cbn; unfold varint in *; lia|]. apply IH.
Qed.

Lemma find_none_Forall {A} (f : A -> bool) l : List.find f l = None <-> Forall (fun x => f x = false) l.
Proof.
  induction l as [|a l IH]; simpl; [split; [constructor|done]|].
  rewrite Forall_cons_iff, <- IH. destruct (f a) eqn:E; [|tauto].
  split; [done|]. by intros [? _].
Qed.

(** C12: validation of ACK frames.  The return value of
    [ngtcp2_pkt_validate_ack] is decided by the first block of packet
    numbers that starts below zero ([NGTCP2_ERR_ACK_FRAME]) or below
    [min_pkt_num] ([NGTCP2_ERR_PROTO]); it is 0 exactly when every block
    starts at or above both, and then the blocks are disjoint, separated by
    at least one packet number, and descend from the largest acknowledged
    one. *)
Theorem validate_ack_spec (fr : ngtcp2_ack) (min_pkt_num : Z) :
  frame_ok (Fr_ack fr) ->
  ngtcp2_pkt_validate_ack fr min_pkt_num = ack_verdict min_pkt_num (ack_blocks fr) /\
  (ngtcp2_pkt_validate_ack fr min_pkt_num = 0 <->
     Forall (fun b => 0 <= b.1 /\ min_pkt_num <= b.1) (ack_blocks fr)) /\
  blocks_descend (ack_blocks fr).
Proof.
  intros (_ & Hla & _ & Hfr & _ & Hr). unfold varint in *.
  assert (E : ngtcp2_pkt_validate_ack fr min_pkt_num = ack_verdict min_pkt_num (ack_blocks fr)).
  { unfold ngtcp2_pkt_validate_ack, ack_blocks, ack_verdict. rewrite i64_small by lia. cbv zeta.
    cbn [List.find fst]. rewrite validate_ack_ranges_eq by done.
    destruct (Z.ltb_spec (ack_largest_ack fr) (ack_first_ack_range fr)).
    - destruct (Z.ltb_spec (ack_largest_ack fr - ack_first_ack_range fr) 0) as [E|]; [|lia].
      cbn [orb fst]. apply Z.ltb_lt in E. by rewrite E.
    - destruct (Z.ltb_spec (ack_largest_ack fr - ack_first_ack_range fr) 0) as [|E]; [lia|].
      cbn [orb]. destruct (_ <? min_pkt_num); [|done]. cbn [fst]. apply Z.ltb_ge in E. by rewrite E. }
  split; [done|]. split; [|by apply ack_blocks_descend].
  rewrite E. unfold ack_verdict. split.
  - destruct (List.find _ _) as [b|] eqn:Ef; [by destruct (b.1 <? 0)|]. intros _.
    apply find_none_Forall in Ef. eapply List.Forall_impl; [|exact Ef].
    intros b. rewrite orb_false_iff, !Z.ltb_ge. lia.
  - intros Hf. destruct (List.find _ _) as [b|] eqn:Ef; [|done]. exfalso.
    apply List.find_some in Ef as [Hin Hb]. apply (proj1 (List.Forall_forall _ _) Hf) in Hin.
    rewrite orb_true_iff, !Z.ltb_lt in Hb. lia.
Qed.

Lemma validate_ack_spec_witness :
  let fr := mk_ack NGTCP2_FRAME_ACK 100 0 0 None 10 [mk_ack_range 3 5; mk_ack_range 0 20] in
  ngtcp2_pkt_validate_ack fr 7 = ack_verdict 7 (ack_blocks fr) /\
  (ngtcp2_pkt_validate_ack fr 7 = 0 <->
     Forall (fun b => 0 <= b.1 /\ 7 <= b.1) (ack_blocks fr)) /\
  blocks_descend (ack_blocks fr).
Proof.
  apply validate_ack_spec. cbn. unfold varint. split_and!; try lia.
  - by left.
  - change (2 <= 32). lia.
  - unfold ack_range_ok, varint. repeat constructor; simpl; lia.
Defined.

(** ** Data that fits a frame *)

(** Size of a STREAM or CRYPTO frame body: the Length field and [n] bytes. *)
Definition datalen_size (n : Z) : Z := zlen (uvarint_bytes n) + n.

Lemma max_datalen_best len left :
  0 <= len -> 1 <= left < 2 ^ 62 ->
  let r := max_datalen len left in
  0 <= r <= len /\ datalen_size r <= left /\
  forall n, r < n <= len -> n < 2 ^ 62 -> left < datalen_size n.
Proof.
  intros Hl Hf r. subst r. unfold max_datalen, datalen_size.
  assert (Hu : forall n, zlen (uvarint_bytes n) = if n <? 64 then 1 else if n <? 16384 then 2
                         else if n <? 1073741824 then 4 else 8).
  { intros n. rewrite zlen_uvarint_bytes. unfold uvarint_size. bcase; try lia; done. }
  repeat match goal with
  | |- context [if (?a <? ?b) && (?c <? ?d) then _ else _] =>
      destruct (Z.ltb_spec a b), (Z.ltb_spec c d); cbn [andb]
  end; (split; [lia|split; [|intros n Hn Hn2]]); rewrite Hu; bcase; lia.
Qed.

(** The data that fits.  [ngtcp2_pkt_stream_max_datalen] returns
    [(size_t)-1] exactly when not even an empty STREAM frame fits into
    [left] bytes, and otherwise the largest amount of the [len] bytes whose
    STREAM frame fits; [ngtcp2_pkt_crypto_max_datalen] the same for CRYPTO
    frames, where the frame must carry at least one byte. *)
Theorem max_datalen_spec (stream_id offset len left : Z) :
  varint stream_id -> varint offset -> 0 <= len -> 0 <= left < 2 ^ 62 ->
  let hs := 1 + zlen (uvarint_bytes stream_id)
            + (if offset =? 0 then 0 else zlen (uvarint_bytes offset)) in
  let hc := 1 + zlen (uvarint_bytes offset) in
  (exists r, ngtcp2_pkt_stream_max_datalen stream_id offset len left = Ok r /\
     (r = SIZE_MAX <-> left < hs + datalen_size 0) /\
     (r <> SIZE_MAX ->
        0 <= r <= len /\ hs + datalen_size r <= left /\
        forall n, r < n <= len -> n < 2 ^ 62 -> left < hs + datalen_size n)) /\
  (exists r, ngtcp2_pkt_crypto_max_datalen offset len left = Ok r /\
     (r = SIZE_MAX <-> left < hc + datalen_size 1) /\
     (r <> SIZE_MAX ->
        0 <= r <= len /\ hc + datalen_size r <= left /\
        forall n, r < n <= len -> n < 2 ^ 62 -> left < hc + datalen_size n)).
Proof.
  intros Hi Ho Hl Hf hs hc. unfold varint in *.
  assert (D0 : datalen_size 0 = 1) by done. assert (D1 : datalen_size 1 = 2) by done.
  assert (HS : 2 ^ 62 < SIZE_MAX) by (unfold SIZE_MAX; lia).
  assert (Hd : forall n, n <= datalen_size n) by (intros n; unfold datalen_size; zlia).
  split.
  - unfold ngtcp2_pkt_stream_max_datalen. rewrite u64_small by (unfold is_u64; lia).
    rewrite put_uvarintlen_eq by done. cbn [bind].
    assert (E : (if negb (offset =? 0) then ngtcp2_put_uvarintlen offset else Ok 0)
                = Ok (if offset =? 0 then 0 else zlen (uvarint_bytes offset))).
    { destruct (offset =? 0); [done|]. by apply put_uvarintlen_eq. }
    rewrite E. cbn [bind]. fold hs.
    assert (1 <= hs) by (subst hs; destruct (offset =? 0); zlia).
    destruct (Z.leb_spec left hs).
    { exists SIZE_MAX. split; [done|]. split; [|done]. rewrite D0. split; lia. }
    destruct (max_datalen_best len (left - hs)) as (Hr & Hfit & Hmax); [lia|lia|].
    eexists. split; [done|]. specialize (Hd (max_datalen len (left - hs))). split; [lia|].
    intros _. split; [done|]. split; [lia|]. intros n ? ?. specialize (Hmax n). lia.
  - unfold ngtcp2_pkt_crypto_max_datalen. rewrite put_uvarintlen_eq by done. cbn [bind]. fold hc.
    assert (1 <= hc) by (subst hc; zlia).
    destruct (Z.leb_spec left (hc + 1)).
    { exists SIZE_MAX. split; [done|]. split; [|done]. rewrite D1. split; lia. }
    destruct (max_datalen_best len (left - hc)) as (Hr & Hfit & Hmax); [lia|lia|].
    eexists. split; [done|]. specialize (Hd (max_datalen len (left - hc))). split; [lia|].
    intros _. split; [done|]. split; [lia|]. intros n ? ?. specialize (Hmax n). lia.
Qed.

Lemma max_datalen_spec_witness :
  let hs := 1 + zlen (uvarint_bytes 4) + (if 100 =? 0 then 0 else zlen (uvarint_bytes 100)) in
  let hc := 1 + zlen (uvarint_bytes 100) in
  (exists r, ngtcp2_pkt_stream_max_datalen 4 100 5000 1200 = Ok r /\
     (r = SIZE_MAX <-> 1200 < hs + datalen_size 0) /\
     (r <> SIZE_MAX ->
        0 <= r <= 5000 /\ hs + datalen_size r <= 1200 /\
        forall n, r < n <= 5000 -> n < 2 ^ 62 -> 1200 < hs + datalen_size n)) /\
  (exists r, ngtcp2_pkt_crypto_max_datalen 100 5000 1200 = Ok r /\
     (r = SIZE_MAX <-> 1200 < hc + datalen_size 1) /\
     (r <> SIZE_MAX ->
        0 <= r <= 5000 /\ hc + datalen_size r <= 1200 /\
        forall n, r < n <= 5000 -> n < 2 ^ 62 -> 1200 < hc + datalen_size n)).
Proof. apply (max_datalen_spec 4 100 5000 1200); unfold varint; lia. Defined.

(** ** Version Negotiation *)
Lemma fold_put_uint32be l p :
  fold_left ngtcp2_put_uint32be l p = p ++ concat (map (fun v => be_encode 4 (u32 v)) l).
Proof.
  revert p. induction l as [|v l IH]; intros p; simpl; [by rewrite app_nil_r|].
  rewrite IH. unfold ngtcp2_put_uint32be. by rewrite <- app_assoc.
Qed.

Lemma zlen_versions l : zlen (concat (map (fun v => be_encode 4 (u32 v)) l)) = zlen l * 4.
Proof.
  induction l as [|v l IH]; [done|]. cbn [map concat]. rewrite zlen_app, zlen_be_encode, IH, zlen_cons.
  lia.
Qed.

Lemma decode_versions_encode l cnt :
  Forall (fun v => 0 <= v < 2 ^ 32) l -> (length l <= cnt)%nat ->
  decode_versions cnt (concat (map (fun v => be_encode 4 (u32 v)) l)) = Ok l.
Proof.
  intros H. revert cnt. induction H as [|v l Hv H IH]; intros cnt Hc; [by destruct cnt|].
  destruct cnt as [|cnt]; [simpl in Hc; lia|]. cbn [map concat].
  assert (E : exists b t, be_encode 4 (u32 v) = b :: t) by (simpl; eauto).
  destruct E as (b & t & E). rewrite E. cbn [app decode_versions].
  change (b :: t ++ ?x) with ((b :: t) ++ x). rewrite <- E. unfold ngtcp2_get_uint32be.
  rewrite u32_small by done. rewrite (get_be_encode 4) by (simpl; lia). cbn [bind].
  rewrite IH by (simpl in Hc; lia). done.
Qed.

(** A destination of [destlen] bytes that meets the buffer contract. *)
Definition tx_dest (dest : ngtcp2_buf) (destlen : Z) : Prop :=
  pkt_validate_tx_dest dest = 0 /\ buf_destlen dest = destlen.

(** The wire format of a Version Negotiation packet. *)
Definition vn_versions (sv : list Z) : list Z := concat (map (fun v => be_encode 4 (u32 v)) sv).

Definition vn_bytes (rnd : Z) (dcid scid sv : list Z) : list Z :=
  Z.lor 0xC0 rnd :: be_encode 4 0
  ++ zlen dcid :: dcid ++ zlen scid :: scid ++ vn_versions sv.

Section VersionNegotiation.
Context (rnd : Z) (dcid scid sv : list Z).
Context (Hd20 : zlen dcid <= 20) (Hs20 : zlen scid <= 20).

Let pkt := vn_bytes rnd dcid scid sv.
Let hdlen := 7 + zlen dcid + zlen scid.

Lemma zlen_vn_bytes : zlen pkt = hdlen + zlen sv * 4.
Proof.
  subst pkt hdlen. unfold vn_bytes, vn_versions. zl. rewrite zlen_versions. lia.
Qed.

Lemma vn_first_byte : (Z.land (Z.lor 0xC0 rnd) NGTCP2_HEADER_FORM_BIT =? 0) = false.
Proof.
  apply Z.eqb_neq. rewrite Z.land_lor_distr_l. by intros [? _]%Z.lor_eq_0_iff.
Qed.

Lemma vn_write dest destlen :
  tx_dest dest destlen ->
  ngtcp2_pkt_write_version_negotiation dest rnd dcid scid sv
  = if destlen <? hdlen + zlen sv * 4 then Err NGTCP2_ERR_NOBUF
    else Ok (pkt, buf_stored dest pkt).
Proof.
  intros [Hv Hd]. unfold ngtcp2_pkt_write_version_negotiation. rewrite Hv, Hd. cbn [negb Z.eqb].
  destruct (Z.ltb_spec (zlen dcid) 256); [|lia]. destruct (Z.ltb_spec (zlen scid) 256); [|lia].
  replace (1 + 4 + 1 + zlen dcid + 1 + zlen scid + zlen sv * 4)
    with (hdlen + zlen sv * 4) by (subst hdlen; lia).
  destruct (_ <? _); [done|]. rewrite <- zlen_vn_bytes, fold_put_uint32be.
  fold (vn_versions sv). rewrite !u8_small by (zlen_pos; lia). unfold ngtcp2_put_uint32be.
  match goal with |- context [zlen ?l =? _] => assert (E : l = pkt) end.
  { subst pkt. unfold vn_bytes.
    destruct (Z.eqb_spec (zlen dcid) 0) as [E1|]; [rewrite (zlen_0_nil dcid E1)|];
      (destruct (Z.eqb_spec (zlen scid) 0) as [E2|]; [rewrite (zlen_0_nil scid E2)|]);
      cbn [negb]; rewrite <- ?app_assoc; done. }
  by rewrite E, Z.eqb_refl.
Qed.

#[local] Ltac vn_run :=
  pose proof zlen_vn_bytes; subst pkt hdlen; unfold vn_bytes in *;
  rewrite ?zlen_cons, ?zlen_app in *; pose proof vn_first_byte;
  repeat (first [ hd_step | rewrite vn_first_byte
                | unfold ngtcp2_get_uint32be; rewrite (get_be_encode 4) by (simpl; lia) ];
          cbn [negb bind read8]; cbv beta iota zeta).

Lemma vn_decode_version_cid n :
  ngtcp2_pkt_decode_version_cid pkt n = Ok (mk_version_cid 0 dcid scid, 0).
Proof.
  unfold ngtcp2_pkt_decode_version_cid. vn_run.
  match goal with |- context [?a =? 0] => destruct (Z.eqb_spec a 0); [lia|] end. done.
Qed.

Lemma vn_decode_hd_long :
  ngtcp2_pkt_decode_hd_long pkt
  = Ok (mk_pkt_hd dcid scid 0 [] 0 0 0 NGTCP2_PKT_VERSION_NEGOTIATION NGTCP2_PKT_FLAG_NONE,
        hdlen).
Proof.
  unfold ngtcp2_pkt_decode_hd_long. vn_run.
  change (decode_hd_long_type (Z.lor 0xC0 rnd) 0)
    with (Ok (NGTCP2_PKT_VERSION_NEGOTIATION, NGTCP2_PKT_FLAG_NONE, 7)). cbn [bind].
  unfold decode_hd_long_token, decode_hd_long_length, NGTCP2_MAX_CIDLEN. ceqb.
  change (Z.land NGTCP2_PKT_FLAG_NONE NGTCP2_PKT_FLAG_LONG_FORM) with 0. cbn [bind Z.eqb].
  repeat (hd_step; ceqb; cbn [bind]).
  by do 2 f_equal.
Qed.

Lemma vn_decode_versions :
  Forall (fun v => 0 <= v < 2 ^ 32) sv ->
  ngtcp2_pkt_decode_version_negotiation (zdrop hdlen pkt) = Ok (sv, zlen sv).
Proof.
  intros Hsv. subst pkt hdlen.
  assert (E : zdrop (7 + zlen dcid + zlen scid) (vn_bytes rnd dcid scid sv) = vn_versions sv).
  { set (hd := Z.lor 0xC0 rnd :: be_encode 4 0 ++ zlen dcid :: dcid ++ zlen scid :: scid).
    replace (vn_bytes rnd dcid scid sv) with (hd ++ vn_versions sv).
    - apply zdrop_app_eq. subst hd. zl. lia.
    - subst hd. unfold vn_bytes. cbn [app]. repeat (rewrite <- ?app_assoc; cbn [app]). done. }
  rewrite E. unfold ngtcp2_pkt_decode_version_negotiation. unfold vn_versions at 1 2 4.
  rewrite zlen_versions, Z.mod_mul, Z.div_mul by lia. cbn [Z.eqb].
  unfold vn_versions. rewrite decode_versions_encode; [done|done|].
  pose proof (zlen_versions sv). unfold zlen in *. lia.
Qed.
End VersionNegotiation.

(** C14: Version Negotiation.  [ngtcp2_pkt_write_version_negotiation] fills
    a valid destination exactly when the packet fits, and a receiver reads
    back version 0, both connection ids and the list of versions: with
    [ngtcp2_pkt_decode_version_cid], with [ngtcp2_pkt_decode_hd_long], and
    with [ngtcp2_pkt_decode_version_negotiation] behind the header. *)
Theorem version_negotiation_roundtrip (dest : ngtcp2_buf) (destlen rnd : Z)
    (dcid scid sv : list Z) (short_dcidlen : Z) :
  tx_dest dest destlen ->
  zlen dcid <= NGTCP2_MAX_CIDLEN -> zlen scid <= NGTCP2_MAX_CIDLEN ->
  Forall (fun v => 0 <= v < 2 ^ 32) sv ->
  let hdlen := 7 + zlen dcid + zlen scid in
  exists pkt,
    zlen pkt = hdlen + zlen sv * 4 /\
    ngtcp2_pkt_write_version_negotiation dest rnd dcid scid sv
      = (if destlen <? zlen pkt then Err NGTCP2_ERR_NOBUF else Ok (pkt, buf_stored dest pkt)) /\
    ngtcp2_pkt_decode_version_cid pkt short_dcidlen = Ok (mk_version_cid 0 dcid scid, 0) /\
    ngtcp2_pkt_decode_hd_long pkt
      = Ok (mk_pkt_hd dcid scid 0 [] 0 0 0 NGTCP2_PKT_VERSION_NEGOTIATION NGTCP2_PKT_FLAG_NONE,
            hdlen) /\
    ngtcp2_pkt_decode_version_negotiation (zdrop hdlen pkt) = Ok (sv, zlen sv).
Proof.
  intros Ht Hd Hs Hsv hdlen. unfold NGTCP2_MAX_CIDLEN in *. exists (vn_bytes rnd dcid scid sv).
  split_and!.
  - apply zlen_vn_bytes.
  - rewrite zlen_vn_bytes. by apply vn_write.
  - by apply vn_decode_version_cid.
  - by apply vn_decode_hd_long.
  - by apply vn_decode_versions.
Qed.

(** A transmit buffer of 1200 bytes for the witnesses. *)
Definition sample_tx_dest : ngtcp2_buf :=
  ngtcp2_buf_init (Some 4096) 1200 None NGTCP2_BUF_ROLE_TX_PACKET None false false.

Lemma version_negotiation_roundtrip_witness :
  exists pkt,
    zlen pkt = 7 + zlen [1; 2; 3] + zlen [4] + zlen [NGTCP2_PROTO_VER_V2; NGTCP2_PROTO_VER_V1] * 4 /\
    ngtcp2_pkt_write_version_negotiation sample_tx_dest 0x15 [1; 2; 3] [4]
        [NGTCP2_PROTO_VER_V2; NGTCP2_PROTO_VER_V1]
      = (if 1200 <? zlen pkt then Err NGTCP2_ERR_NOBUF
         else Ok (pkt, buf_stored sample_tx_dest pkt)) /\
    ngtcp2_pkt_decode_version_cid pkt 8 = Ok (mk_version_cid 0 [1; 2; 3] [4], 0) /\
    ngtcp2_pkt_decode_hd_long pkt
      = Ok (mk_pkt_hd [1; 2; 3] [4] 0 [] 0 0 0 NGTCP2_PKT_VERSION_NEGOTIATION
              NGTCP2_PKT_FLAG_NONE, 7 + zlen [1; 2; 3] + zlen [4]) /\
    ngtcp2_pkt_decode_version_negotiation (zdrop (7 + zlen [1; 2; 3] + zlen [4]) pkt)
      = Ok ([NGTCP2_PROTO_VER_V2; NGTCP2_PROTO_VER_V1],
            zlen [NGTCP2_PROTO_VER_V2; NGTCP2_PROTO_VER_V1]).
Proof.
  apply version_negotiation_roundtrip; [by split|by vm_compute|by vm_compute|].
  repeat constructor; by vm_compute.
Defined.

(** ** Stateless Reset *)

Lemma reset_first_byte b :
  let c := u8 (Z.lor (Z.land b 0x3F) 0x40) in
  Z.land c NGTCP2_HEADER_FORM_BIT = 0 /\ Z.land c NGTCP2_FIXED_BIT_MASK = NGTCP2_FIXED_BIT_MASK.
Proof.
  cbv zeta. unfold u8. rewrite <- land_ones_mod by lia.
  rewrite !Z.land_lor_distr_l, <- !Z.land_assoc.
  split; [change (Z.land 0x3F _) with 0 at 1 | change (Z.land 0x3F _) with 0 at 1];
    by rewrite Z.land_0_r.
Qed.

(** Stateless Reset.  Into a valid destination
    [ngtcp2_pkt_write_stateless_reset2] writes as many of the random bytes
    as fit, at least [NGTCP2_MIN_STATELESS_RESET_RANDLEN], followed by the
    token; the packet looks like a short header packet (header form bit 0,
    fixed bit 1), its size never exceeds the destination, and
    [ngtcp2_pkt_decode_stateless_reset] finds the token. *)
Theorem stateless_reset_roundtrip (dest : ngtcp2_buf) (destlen : Z) (token rand : list Z) :
  tx_dest dest destlen -> zlen token = NGTCP2_STATELESS_RESET_TOKENLEN ->
  match ngtcp2_pkt_write_stateless_reset2 dest token rand with
  | Ok (pkt, dest') =>
      zlen pkt = Z.min destlen (zlen rand + NGTCP2_STATELESS_RESET_TOKENLEN) /\
      dest' = buf_stored dest pkt /\
      (exists c p, pkt = c :: p /\ Z.land c NGTCP2_HEADER_FORM_BIT = 0 /\
                   Z.land c NGTCP2_FIXED_BIT_MASK = NGTCP2_FIXED_BIT_MASK) /\
      (exists r, ngtcp2_pkt_decode_stateless_reset pkt = Ok (r, token) /\
                 drop 1 r = drop 1 (ztake (zlen r) rand))
  | Err e =>
      (e = NGTCP2_ERR_NOBUF /\
       destlen < NGTCP2_MIN_STATELESS_RESET_RANDLEN + NGTCP2_STATELESS_RESET_TOKENLEN) \/
      (e = NGTCP2_ERR_INVALID_ARGUMENT /\ zlen rand < NGTCP2_MIN_STATELESS_RESET_RANDLEN)
  | Fault => False
  end.
Proof.
  intros [Hv Hd] Ht. unfold ngtcp2_pkt_write_stateless_reset2. rewrite Hv, Hd. cbn [negb Z.eqb].
  unfold NGTCP2_MIN_STATELESS_RESET_RANDLEN, NGTCP2_STATELESS_RESET_TOKENLEN in *.
  destruct (Z.ltb_spec destlen (5 + 16)); [by left|].
  destruct (Z.ltb_spec (zlen rand) 5); [by right|].
  set (n := Z.min (destlen - 16) (zlen rand)).
  rewrite get_bytes_ok by lia. cbn [bind].
  assert (Hn : zlen (ztake n rand) = n) by (apply zlen_ztake; lia).
  destruct (ztake n rand) as [|b r] eqn:Er; [change (zlen []) with 0 in Hn; lia|].
  cbn [app]. set (c := u8 _).
  zl. split; [lia|]. split; [done|]. split.
  - exists c, (r ++ token). split; [done|]. apply reset_first_byte.
  - unfold ngtcp2_pkt_decode_stateless_reset, NGTCP2_MIN_STATELESS_RESET_RANDLEN,
      NGTCP2_STATELESS_RESET_TOKENLEN. zl.
    destruct (Z.ltb_spec (1 + (zlen r + zlen token)) (5 + 16)); [lia|].
    change (c :: r ++ token) with ((c :: r) ++ token).
    rewrite get_bytes_app by zlia. cbn [bind].
    replace 16 with (zlen token) by lia. rewrite get_bytes_all. cbn [bind]. eexists. split; [done|].
    simpl. zl. rewrite Hn, Er. done.
Qed.

Lemma stateless_reset_roundtrip_witness :
  let token := [1; 2; 3; 4; 5; 6; 7; 8; 9; 10; 11; 12; 13; 14; 15; 16] in
  let rand := [0xFF; 21; 22; 23; 24; 25] in
  match ngtcp2_pkt_write_stateless_reset2 sample_tx_dest token rand with
  | Ok (pkt, dest') =>
      zlen pkt = Z.min 1200 (zlen rand + NGTCP2_STATELESS_RESET_TOKENLEN) /\
      dest' = buf_stored sample_tx_dest pkt /\
      (exists c p, pkt = c :: p /\ Z.land c NGTCP2_HEADER_FORM_BIT = 0 /\
                   Z.land c NGTCP2_FIXED_BIT_MASK = NGTCP2_FIXED_BIT_MASK) /\
      (exists r, ngtcp2_pkt_decode_stateless_reset pkt = Ok (r, token) /\
                 drop 1 r = drop 1 (ztake (zlen r) rand))
  | Err e =>
      (e = NGTCP2_ERR_NOBUF /\
       1200 < NGTCP2_MIN_STATELESS_RESET_RANDLEN + NGTCP2_STATELESS_RESET_TOKENLEN) \/
      (e = NGTCP2_ERR_INVALID_ARGUMENT /\ zlen rand < NGTCP2_MIN_STATELESS_RESET_RANDLEN)
  | Fault => False
  end.
Proof. apply stateless_reset_roundtrip; [by split|by vm_compute]. Defined.

(** ** Retry *)
Lemma memcmp_refl l n : memcmp l l n = 0.
Proof.
  revert n. induction l as [|b l IH]; intros [|n]; simpl; try done.
  rewrite Z.ltb_irrefl. apply IH.
Qed.

Definition retry_hd (version : Z) (dcid scid : list Z) : ngtcp2_pkt_hd :=
  ngtcp2_pkt_hd_init NGTCP2_PKT_FLAG_LONG_FORM NGTCP2_PKT_RETRY (Some dcid) (Some scid) 0 1 version.

(** The first byte of a Retry packet: the unused bits are cleared. *)
Definition retry_first (version : Z) : Z :=
  if version =? NGTCP2_PROTO_VER_V2 then 0xC0 else 0xF0.

Section RetryPacket.
Context (version : Z) (dcid scid odcid token : list Z).
Context (Hv : version = NGTCP2_PROTO_VER_V1 \/ version = NGTCP2_PROTO_VER_V2).
Context (Hd : zlen dcid <= NGTCP2_MAX_CIDLEN) (Hs : zlen scid <= NGTCP2_MAX_CIDLEN).

Let hd := retry_hd version dcid scid.
Let body := retry_first version :: long_hd_tail hd [0].

Lemma retry_hd_wf : long_hd_wf hd.
Proof.
  subst hd. unfold long_hd_wf, retry_hd, ngtcp2_pkt_hd_init. cbn.
  change (zlen []) with 0. split_and!; tauto || done || lia.
Qed.

Lemma encode_pseudo_retry_eq destlen :
  zlen odcid <= 255 ->
  ngtcp2_pkt_encode_pseudo_retry destlen hd 0 odcid token
  = if destlen <? 1 + zlen odcid + zlen body + zlen token then Err NGTCP2_ERR_NOBUF
    else Ok ((zlen odcid :: odcid) ++ body ++ token).
Proof.
  intros Ho. unfold ngtcp2_pkt_encode_pseudo_retry.
  destruct (encode_hd_long_first_ok hd retry_hd_wf) as (vt & Evt & _).
  rewrite (encode_hd_long_eq _ hd vt [0]) by (apply retry_hd_wf || done).
  cbv zeta. rewrite u8_small by (zlen_pos; lia). cbn [app].
  set (q := encode_hd_long_first hd vt :: long_hd_tail hd [0]).
  assert (Eq : zlen q = zlen body) by (subst q body; by rewrite !zlen_cons).
  assert (Ec : Z.lor (Z.land (encode_hd_long_first hd vt) 0xF0) 0 = retry_first version).
  { subst hd. unfold retry_hd, ngtcp2_pkt_hd_init in *. cbn in Evt.
    destruct Hv as [E|E]; rewrite E in *; cbn in Evt; injection Evt as <-; reflexivity. }
  rewrite zlen_cons. zlen_pos.
  destruct (Z.ltb_spec destlen (1 + zlen odcid)).
  { destruct (Z.ltb_spec destlen (1 + zlen odcid + zlen body + zlen token)); [done|zlia]. }
  destruct (Z.ltb_spec (destlen - (1 + zlen odcid)) (zlen q)); cbn [bind].
  { destruct (Z.ltb_spec destlen (1 + zlen odcid + zlen body + zlen token)); [done|zlia]. }
  destruct (Z.ltb_spec (destlen - (1 + zlen odcid)) (zlen q + zlen token)).
  { destruct (Z.ltb_spec destlen (1 + zlen odcid + zlen body + zlen token)); [done|zlia]. }
  destruct (Z.ltb_spec destlen (1 + zlen odcid + zlen body + zlen token)); [zlia|].
  subst q body. cbv beta iota. by rewrite Ec.
Qed.

Lemma decode_retry_hd tl :
  ngtcp2_pkt_decode_hd_long (body ++ tl) = Ok (strip_pkt_num hd, zlen body).
Proof.
  subst body. cbn [app]. rewrite (decode_hd_long_eq hd _ [0]).
  - by do 2 f_equal.
  - apply retry_hd_wf.
  - done.
  - by destruct Hv as [-> | ->].
  - subst hd. unfold retry_hd, ngtcp2_pkt_hd_init. cbn. by destruct Hv as [-> | ->].
Qed.
End RetryPacket.

(** C16: Retry.  For any deterministic [encrypt_retry], a packet written by
    [ngtcp2_pkt_write_retry] (QUIC v1 or v2) fits its destination, is parsed
    as a Retry packet with the same connection ids and token, and its tag
    is accepted by [ngtcp2_pkt_verify_retry_tag] of a client that knows the
    original destination connection id. *)
Theorem retry_roundtrip (encrypt_retry : list Z -> list Z -> Z * list Z)
    (dest dest' : ngtcp2_buf) (destlen version : Z) (dcid scid odcid token pkt : list Z) :
  tx_dest dest destlen ->
  version = NGTCP2_PROTO_VER_V1 \/ version = NGTCP2_PROTO_VER_V2 ->
  zlen dcid <= NGTCP2_MAX_CIDLEN -> zlen scid <= NGTCP2_MAX_CIDLEN ->
  zlen odcid <= NGTCP2_MAX_CIDLEN ->
  ngtcp2_pkt_write_retry encrypt_retry dest version dcid scid odcid token = Ok (pkt, dest') ->
  zlen pkt <= destlen /\ dest' = buf_stored dest pkt /\
  exists hd n retry,
    ngtcp2_pkt_decode_hd_long pkt = Ok (hd, n) /\
    hd_type hd = NGTCP2_PKT_RETRY /\ hd_version hd = version /\
    hd_dcid hd = dcid /\ hd_scid hd = scid /\
    ngtcp2_pkt_decode_retry odcid (zdrop n pkt) = Ok retry /\
    rt_odcid retry = odcid /\ rt_token retry = token /\
    ngtcp2_pkt_verify_retry_tag encrypt_retry version retry pkt = Ok 0.
Proof.
  intros [Hval Hdl] Hv Hd Hs Ho. unfold ngtcp2_pkt_write_retry. rewrite Hval, Hdl. cbn [negb Z.eqb].
  destruct (Z.ltb_spec 0 (zlen token)) as [Ht|]; [|done].
  destruct (negb (ngtcp2_cid_eq scid odcid)); [|done].
  destruct (Z.ltb_spec (zlen odcid) NGTCP2_MIN_INITIAL_DCIDLEN); [done|].
  fold (retry_hd version dcid scid).
  rewrite encode_pseudo_retry_eq by (done || unfold NGTCP2_MAX_CIDLEN in *; lia).
  set (body := retry_first version :: long_hd_tail (retry_hd version dcid scid) [0]).
  destruct (Z.ltb_spec 1500 (1 + zlen odcid + zlen body + zlen token)) as [|Hfit]; [done|].
  cbn [bind]. set (pseudo := (zlen odcid :: odcid) ++ body ++ token).
  destruct (retry_tag encrypt_retry version pseudo) as [tag| |] eqn:Etag; cbn [bind]; [|done..].
  assert (Htag : zlen tag = NGTCP2_RETRY_TAGLEN).
  { revert Etag. unfold retry_tag. destruct (encrypt_retry _ _) as [rv tg].
    destruct (negb (rv =? 0)); [done|]. destruct (Z.eqb_spec (zlen tg) NGTCP2_RETRY_TAGLEN); [|done].
    by intros [= <-]. }
  destruct (Z.ltb_spec destlen (zlen pseudo + NGTCP2_RETRY_TAGLEN - (1 + zlen odcid))); [done|].
  assert (Hps : zlen pseudo = 1 + zlen odcid + zlen body + zlen token)
    by (subst pseudo; zl; lia).
  assert (Ea : advance pseudo (1 + zlen odcid) = Ok (body ++ token))
    by (subst pseudo; apply advance_app; by rewrite zlen_cons).
  rewrite Ea. cbn [bind]. intros E.
  assert (Epk : pkt = (body ++ token) ++ tag /\ dest' = buf_stored dest ((body ++ token) ++ tag))
    by (split; congruence).
  destruct Epk as [-> ->]. clear E. unfold NGTCP2_RETRY_TAGLEN in *.
  split; [rewrite !zlen_app; lia|]. split; [done|].
  exists (strip_pkt_num (retry_hd version dcid scid)), (zlen body), (mk_pkt_retry odcid token tag).
  split_and!; try done.
  - rewrite <- app_assoc. by apply decode_retry_hd.
  - rewrite <- app_assoc, zdrop_app_eq by done. unfold ngtcp2_pkt_decode_retry, NGTCP2_RETRY_TAGLEN.
    rewrite zlen_app. destruct (Z.ltb_spec (zlen token + zlen tag) (1 + 16)); [lia|].
    rewrite get_bytes_app by lia. cbn [bind]. rewrite <- Htag, get_bytes_all. done.
  - unfold ngtcp2_pkt_verify_retry_tag, NGTCP2_RETRY_TAGLEN. rewrite !zlen_app. cbn [rt_odcid rt_tag].
    destruct (Z.leb_spec 16 (zlen body + zlen token + zlen tag)); [|zlia].
    destruct (Z.ltb_spec 1500 (1 + zlen odcid + (zlen body + zlen token + zlen tag) - 16)); [lia|].
    rewrite get_bytes_app by (rewrite zlen_app; lia). cbn [bind].
    rewrite u8_small by (unfold NGTCP2_MAX_CIDLEN in *; zlen_pos; lia).
    cbn [app]. change (zlen odcid :: odcid ++ body ++ token) with pseudo.
    rewrite Etag. cbn [bind]. by rewrite memcmp_refl.
Qed.

Lemma retry_roundtrip_witness :
  let enc := fun nonce aad : list Z => (0, replicate 16 (zlen aad mod 256)) in
  let odcid := [1; 2; 3; 4; 5; 6; 7; 8] in
  let pkt := match ngtcp2_pkt_write_retry enc sample_tx_dest NGTCP2_PROTO_VER_V2
                     [9] [10; 11] odcid [77; 78] with Ok (p, _) => p | _ => [] end in
  zlen pkt <= 1200 /\ buf_stored sample_tx_dest pkt = buf_stored sample_tx_dest pkt /\
  exists hd n retry,
    ngtcp2_pkt_decode_hd_long pkt = Ok (hd, n) /\
    hd_type hd = NGTCP2_PKT_RETRY /\ hd_version hd = NGTCP2_PROTO_VER_V2 /\
    hd_dcid hd = [9] /\ hd_scid hd = [10; 11] /\
    ngtcp2_pkt_decode_retry odcid (zdrop n pkt) = Ok retry /\
    rt_odcid retry = odcid /\ rt_token retry = [77; 78] /\
    ngtcp2_pkt_verify_retry_tag enc NGTCP2_PROTO_VER_V2 retry pkt = Ok 0.
Proof.
  intros enc odcid pkt.
  apply (retry_roundtrip enc sample_tx_dest (buf_stored sample_tx_dest pkt) 1200
           NGTCP2_PROTO_VER_V2 [9] [10; 11] odcid [77; 78] pkt);
    [by split|by right|by vm_compute|by vm_compute|by vm_compute|].
  vm_compute. reflexivity.
Defined.
