(* ===== verification/ClientHello.v ===== *)
(** * The server name in a ClientHello: [ngtcp2_pkt_find_server_name] of
    [lib/ngtcp2_pkt.c]

    The function walks over the TLS ClientHello in a CRYPTO buffer.  Its
    [ngtcp2_buf] is the list of the readable bytes [pos .. last];
    [ngtcp2_buf_trunc] shortens it.  The return value 0 (no server name) is
    [None]. *)

From S2P Require Import Prelude Conv Const Wp.

(** [ngtcp2_buf_trunc] *)
Definition trunc (buf : list Z) (len : Z) : list Z :=
  if len <? zlen buf then ztake len buf else buf.

(** [None] is the return value -1. *)
Definition pkt_tls_skip8 (buf : list Z) : res (option (list Z)) :=
  if zlen buf <? 1 then Ok None else
  let* len := read8 buf in
  let* buf := advance buf 1 in
  if zlen buf <? len then Ok None else
  let* buf := advance buf len in
  Ok (Some buf).

Definition pkt_tls_skip16 (buf : list Z) : res (option (list Z)) :=
  if zlen buf <? 2 then Ok None else
  let* (len, buf) := ngtcp2_get_uint16be buf in
  if zlen buf <? len then Ok None else
  let* buf := advance buf len in
  Ok (Some buf).

(** The Server Name Indication extension, behind its type. *)
Definition find_sni_ext (buf : list Z) : res (option (list Z)) :=
  (* extension_data *)
  let* (len, buf) := ngtcp2_get_uint16be buf in
  if (zlen buf <? len) || (len <? 2) then Ok None else
  let buf := trunc buf len in
  (* server_name_list *)
  let* (len, buf) := ngtcp2_get_uint16be buf in
  if (zlen buf <? len) || (len <? 1 + 2) then Ok None else
  let buf := trunc buf len in
  (* name_type *)
  let* name_type := read8 buf in
  let* buf := advance buf 1 in
  if negb (name_type =? 0) then Ok None else
  (* name *)
  let* (len, buf) := ngtcp2_get_uint16be buf in
  if zlen buf <? len then Ok None else
  let* (server_name, _) := get_bytes buf len in
  Ok (Some server_name).

(** [for (;;)]: every round but the last consumes an extension of at least
    four bytes, so that [fuel] above the length of the buffer is enough. *)
Fixpoint find_sni_loop (fuel : nat) (buf : list Z) : res (option (list Z)) :=
  match fuel with
  | O => Fault
  | S fuel =>
      if zlen buf <? 2 * 2 then Ok None else
      let* (ext_type, buf) := ngtcp2_get_uint16be buf in
      if negb (ext_type =? 0) then
        let* r := pkt_tls_skip16 buf in
        match r with
        | None => Ok None
        | Some buf => find_sni_loop fuel buf
        end
      else find_sni_ext buf
  end.

Definition ngtcp2_pkt_find_server_name (v : list Z) : res (option (list Z)) :=
  assert! negb (zlen v =? 0);
  let buf := v in
  (* Handshake msg_type and length *)
  if zlen buf <? 1 + 3 then Ok None else
  let* msg_type := read8 buf in
  let* buf := advance buf 1 in
  if negb (msg_type =? 1) then Ok None else
  let* (msglen, buf) := ngtcp2_get_uint24be buf in
  let buf := trunc buf msglen in
  (* legacy_version(0x0303) *)
  if zlen buf <? 2 then Ok None else
  let* (legacy_ver, buf) := ngtcp2_get_uint16be buf in
  if negb (legacy_ver =? 0x0303) then Ok None else
  (* random *)
  if zlen buf <? 32 then Ok None else
  let* buf := advance buf 32 in
  (* legacy_session_id *)
  let* r := pkt_tls_skip8 buf in
  match r with
  | None => Ok None
  | Some buf =>
  (* cipher_suites *)
  let* r := pkt_tls_skip16 buf in
  match r with
  | None => Ok None
  | Some buf =>
  (* legacy_compression_methods *)
  let* r := pkt_tls_skip8 buf in
  match r with
  | None => Ok None
  | Some buf =>
  (* extensions *)
  if zlen buf <? 2 then Ok None else
  let* (len, buf) := ngtcp2_get_uint16be buf in
  let buf := trunc buf len in
  find_sni_loop (S (length buf)) buf
  end end end.

(** ** Safety: the name is a part of the input *)

(** [l] is a contiguous part of [v]. *)
Definition infix_of (l v : list Z) : Prop := exists a b, v = a ++ l ++ b.

Lemma infix_refl v : infix_of v v.
Proof. exists [], []. by rewrite app_nil_r. Qed.

Lemma infix_trans a b c : infix_of a b -> infix_of b c -> infix_of a c.
Proof.
  intros (a1 & a2 & ->) (b1 & b2 & ->). exists (b1 ++ a1), (a2 ++ b2). by rewrite <- !app_assoc.
Qed.

Lemma infix_zdrop n l v : infix_of l v -> infix_of (zdrop n l) v.
Proof.
  apply infix_trans. exists (ztake n l), []. by rewrite app_nil_r, ztake_zdrop.
Qed.

Lemma infix_ztake n l v : infix_of l v -> infix_of (ztake n l) v.
Proof. apply infix_trans. exists [], (zdrop n l). cbn. by rewrite ztake_zdrop. Qed.

Lemma trunc_spec buf len v :
  0 <= len -> bytes buf -> infix_of buf v ->
  bytes (trunc buf len) /\ infix_of (trunc buf len) v /\ zlen (trunc buf len) = Z.min len (zlen buf).
Proof.
  intros. unfold trunc. destruct (Z.ltb_spec len (zlen buf)).
  - rewrite zlen_ztake by lia. split_and!; [by apply Forall_ztake|by apply infix_ztake|lia].
  - split_and!; [done|done|lia].
Qed.

Definition no_error (e : Z) : Prop := False.

(** What every step of the walk keeps: the buffer is a part of the input. *)
Definition inside (v : list Z) (n : Z) (r : option (list Z)) : Prop :=
  match r with
  | None => True
  | Some buf => bytes buf /\ infix_of buf v /\ zlen buf <= n
  end.

#[local] Ltac infix :=
  repeat match goal with
  | H : zdrop ?n ?p = ?q |- infix_of ?q _ => rewrite <- H; apply infix_zdrop
  end; assumption.

Section Safety.
Context (v : list Z).

Lemma skip8_inside buf :
  bytes buf -> infix_of buf v -> wp (pkt_tls_skip8 buf) (inside v (zlen buf)) no_error.
Proof.
  intros Hb Hi. unfold pkt_tls_skip8. wp_steps; cbn [inside]; try done.
  split_and!; [done|infix|lia].
Qed.

Lemma skip16_inside buf :
  bytes buf -> infix_of buf v -> wp (pkt_tls_skip16 buf) (inside v (zlen buf - 2)) no_error.
Proof.
  intros Hb Hi. unfold pkt_tls_skip16. wp_steps; cbn [inside]; try done.
  split_and!; [done|infix|lia].
Qed.

Lemma find_sni_ext_inside buf :
  bytes buf -> infix_of buf v -> 2 <= zlen buf ->
  wp (find_sni_ext buf) (inside v (zlen buf)) no_error.
Proof.
  intros Hb Hi Hl. unfold find_sni_ext. cbv zeta. wp_steps; cbn [inside]; try done.
  destruct (trunc_spec p' v0 v) as (? & ? & ?); [lia|done|infix|].
  wp_steps; cbn [inside]; try done.
  match goal with |- context [trunc ?b ?n] =>
    destruct (trunc_spec b n v) as (? & ? & ?); [lia|done|infix|] end.
  wp_steps; cbn [inside]; try done.
  match goal with H : ztake _ _ = ?l |- context [infix_of ?l _] => rewrite <- H in * end.
  split_and!; [done|apply infix_ztake; infix|lia].
Qed.

Lemma find_sni_loop_inside fuel buf :
  bytes buf -> infix_of buf v -> (length buf < fuel)%nat ->
  wp (find_sni_loop fuel buf) (inside v (zlen buf)) no_error.
Proof.
  revert buf. induction fuel as [|fuel IH]; intros buf Hb Hi Hf; [lia|].
  cbn [find_sni_loop]. wp_steps; cbn [inside]; try done.
  - eapply wp_mono; [apply find_sni_ext_inside; [done|infix|lia]| |done].
    intros [r|]; [|done]. intros (? & ? & ?). cbn. split_and!; [done..|lia].
  - eapply wp_mono; [apply skip16_inside; [done|infix]| |done].
    intros [q|]; [|done]. intros (Hbq & Hiq & Hlq). cbv beta iota.
    eapply wp_mono; [apply IH; [done..|unfold zlen in *; lia]| |done].
    intros [r|]; [|done]. intros (? & ? & ?). cbn. split_and!; [done..|lia].
Qed.
End Safety.

(** C17: the search for the server name is memory safe and terminates: for
    every non-empty buffer of bytes it returns, within the fuel given to its
    loop, either nothing or a name that is a contiguous part of the
    buffer. *)
Theorem find_server_name_safe (v : list Z) :
  bytes v -> 1 <= zlen v ->
  wp (ngtcp2_pkt_find_server_name v) (inside v (zlen v)) no_error.
Proof.
  intros Hb Hl. unfold ngtcp2_pkt_find_server_name. cbv zeta. pose proof (infix_refl v).
  destruct (Z.eqb_spec (zlen v) 0); [lia|]. cbn [negb].
  wp_steps; cbn [inside]; try done.
  match goal with |- context [trunc ?b ?n] =>
    destruct (trunc_spec b n v) as (? & ? & ?); [lia|done|infix|] end.
  wp_steps; cbn [inside]; try done.
  eapply wp_mono; [apply (skip8_inside v); [done|infix]| |done].
  intros [b1|]; [|done]. intros (? & ? & ?). cbv beta iota. wp_step.
  eapply wp_mono; [by apply (skip16_inside v)| |done].
  intros [b2|]; [|done]. intros (? & ? & ?). cbv beta iota. wp_step.
  eapply wp_mono; [by apply (skip8_inside v)| |done].
  intros [b3|]; [|done]. intros (? & ? & ?). cbv beta iota.
  wp_steps; cbn [inside]; try done.
  match goal with |- context [trunc ?b ?n] =>
    destruct (trunc_spec b n v) as (? & ? & ?); [lia|done|infix|] end.
  eapply wp_mono; [apply (find_sni_loop_inside v); [done..|lia]| |done].
  intros [r|]; [|done]. intros (? & ? & ?). cbn. split_and!; [done..|lia].
Qed.

Lemma find_server_name_safe_witness :
  let v := [1; 0; 0; 2; 3; 3] in
  wp (ngtcp2_pkt_find_server_name v) (inside v (zlen v)) no_error.
Proof.
  apply find_server_name_safe; [|by vm_compute]. repeat constructor; by vm_compute.
Defined.

(** ** Completeness on well-formed messages *)

(** The TLS encoding of a ClientHello. *)
Definition tls_vec8 (l : list Z) : list Z := zlen l :: l.
Definition tls_vec16 (l : list Z) : list Z := be_encode 2 (zlen l) ++ l.
Definition tls_ext (e : Z * list Z) : list Z := be_encode 2 e.1 ++ tls_vec16 e.2.
Definition tls_exts (l : list (Z * list Z)) : list Z := concat (map tls_ext l).

(** The extension that carries the host name. *)
Definition sni_ext (name : list Z) : Z * list Z := (0, tls_vec16 (0 :: tls_vec16 name)).

Definition client_hello (random sid ciphers compression : list Z) (exts : list (Z * list Z))
    : list Z :=
  let body := be_encode 2 0x0303 ++ random ++ tls_vec8 sid ++ tls_vec16 ciphers
              ++ tls_vec8 compression ++ tls_vec16 (tls_exts exts) in
  1 :: be_encode 3 (zlen body) ++ body.

Definition ext_ok (e : Z * list Z) : Prop := 0 < e.1 < 2 ^ 16 /\ zlen e.2 < 2 ^ 16.

Lemma trunc_all buf len : zlen buf <= len -> trunc buf len = buf.
Proof. intros. unfold trunc. destruct (Z.ltb_spec len (zlen buf)); [lia|done]. Qed.

Lemma trunc_app l r : trunc (l ++ r) (zlen l) = l.
Proof.
  unfold trunc. rewrite zlen_app. destruct (Z.ltb_spec (zlen l) (zlen l + zlen r)).
  - by apply ztake_app_eq.
  - by rewrite (zlen_0_nil r), app_nil_r by zlia.
Qed.

Lemma get_uint16be_encode n r :
  0 <= n < 2 ^ 16 -> ngtcp2_get_uint16be (be_encode 2 n ++ r) = Ok (n, r).
Proof. intros. unfold ngtcp2_get_uint16be. by rewrite (get_be_encode 2) by (simpl; lia). Qed.

Lemma skip8_vec l r : zlen l < 256 -> pkt_tls_skip8 (tls_vec8 l ++ r) = Ok (Some r).
Proof. intros. unfold pkt_tls_skip8, tls_vec8. cbn [app]. rt_steps. done. Qed.

Lemma skip16_vec l r : zlen l < 2 ^ 16 -> pkt_tls_skip16 (tls_vec16 l ++ r) = Ok (Some r).
Proof.
  intros. unfold pkt_tls_skip16, tls_vec16. rewrite <- app_assoc. rt_if.
  rewrite get_uint16be_encode by (zlen_pos; lia). cbn [bind]. rt_steps. done.
Qed.

Lemma find_sni_ext_found name r :
  zlen (sni_ext name).2 < 2 ^ 16 ->
  find_sni_ext (tls_vec16 (sni_ext name).2 ++ r) = Ok (Some name).
Proof.
  unfold sni_ext. cbn [snd]. intros Hl. unfold find_sni_ext.
  unfold tls_vec16 at 1. rewrite <- app_assoc, get_uint16be_encode by (zlen_pos; lia).
  cbn [bind]. rewrite trunc_app.
  assert (zlen (tls_vec16 (0 :: tls_vec16 name)) = 5 + zlen name) by (unfold tls_vec16; zl; lia).
  assert (zlen (0 :: tls_vec16 name) = 3 + zlen name) by (unfold tls_vec16; zl; lia).
  replace ((zlen _ <? zlen _) || (zlen _ <? 2)) with false
    by (symmetry; apply orb_false_iff; rewrite !Z.ltb_ge, zlen_app; zlen_pos; lia).
  unfold tls_vec16 at 1. rewrite get_uint16be_encode by (zlen_pos; lia). cbn [bind].
  replace ((zlen _ <? zlen _) || (zlen _ <? 1 + 2)) with false
    by (symmetry; apply orb_false_iff; rewrite !Z.ltb_ge; zlen_pos; lia).
  rewrite trunc_all by lia. cbn [read8 bind]. rewrite advance_cons1. cbn [bind negb Z.eqb].
  unfold tls_vec16. rewrite get_uint16be_encode by (zlen_pos; lia). cbn [bind].
  rewrite Z.ltb_irrefl. by rewrite get_bytes_all.
Qed.

Lemma tls_ext_app e r : tls_ext e ++ r = be_encode 2 e.1 ++ tls_vec16 e.2 ++ r.
Proof. unfold tls_ext. by rewrite <- app_assoc. Qed.

Lemma find_sni_loop_step fuel e r :
  0 <= e.1 < 2 ^ 16 ->
  find_sni_loop (S fuel) (tls_ext e ++ r)
  = if negb (e.1 =? 0) then
      let* q := pkt_tls_skip16 (tls_vec16 e.2 ++ r) in
      match q with None => Ok None | Some buf => find_sni_loop fuel buf end
    else find_sni_ext (tls_vec16 e.2 ++ r).
Proof.
  intros He. rewrite tls_ext_app. cbn [find_sni_loop].
  match goal with |- context [if ?a <? 2 * 2 then _ else _] =>
    destruct (Z.ltb_spec a (2 * 2)); [unfold tls_vec16 in *; zlia|] end.
  by rewrite get_uint16be_encode.
Qed.

Lemma find_sni_loop_found fuel pre name post :
  Forall ext_ok pre -> zlen (sni_ext name).2 < 2 ^ 16 -> (length pre < fuel)%nat ->
  find_sni_loop fuel (tls_exts (pre ++ sni_ext name :: post)) = Ok (Some name).
Proof.
  intros H Hn. revert fuel. unfold tls_exts. induction H as [|e pre [He Hd] H IH]; intros fuel Hf;
    (destruct fuel as [|fuel]; [simpl in Hf; lia|]); cbn [app map concat].
  - rewrite find_sni_loop_step by done. by apply (find_sni_ext_found name).
  - rewrite find_sni_loop_step by lia. destruct (Z.eqb_spec e.1 0); [lia|]. cbn [negb].
    rewrite skip16_vec by done. cbn [bind]. apply IH. simpl in Hf. lia.
Qed.

Lemma find_sni_loop_none fuel exts :
  Forall ext_ok exts -> (length exts < fuel)%nat -> find_sni_loop fuel (tls_exts exts) = Ok None.
Proof.
  intros H. revert fuel. unfold tls_exts. induction H as [|e exts [He Hd] H IH]; intros fuel Hf;
    (destruct fuel as [|fuel]; [simpl in Hf; lia|]); cbn [map concat]; [done|].
  rewrite find_sni_loop_step by lia. destruct (Z.eqb_spec e.1 0); [lia|]. cbn [negb].
  rewrite skip16_vec by done. cbn [bind]. apply IH. simpl in Hf. lia.
Qed.

Lemma tls_exts_length l : (length l <= length (tls_exts l))%nat.
Proof.
  unfold tls_exts. induction l as [|e l IH]; [done|]. cbn [map concat length].
  rewrite length_app. unfold tls_ext at 1. rewrite length_app. cbn [be_encode length]. lia.
Qed.

(** The walk to the extensions. *)
Lemma find_server_name_exts random sid ciphers compression exts tail :
  zlen random = 32 -> zlen sid < 256 -> zlen ciphers < 2 ^ 16 -> zlen compression < 256 ->
  zlen (tls_exts exts) < 2 ^ 16 ->
  ngtcp2_pkt_find_server_name (client_hello random sid ciphers compression exts ++ tail)
  = find_sni_loop (S (length (tls_exts exts))) (tls_exts exts).
Proof.
  intros Hr Hs Hc Hm He. unfold client_hello. cbv zeta.
  set (exv := tls_vec16 (tls_exts exts)).
  set (body := be_encode 2 0x0303 ++ _).
  assert (Hbl : zlen body < 2 ^ 24).
  { subst body exv. unfold tls_vec8, tls_vec16. zl. lia. }
  assert (Hbm : 36 <= zlen body).
  { subst body exv. unfold tls_vec8, tls_vec16. zlia. }
  unfold ngtcp2_pkt_find_server_name. cbn [app]. rewrite <- app_assoc.
  match goal with |- context [zlen ?l =? 0] =>
    assert (4 <= zlen l) by (zl; zlen_pos; lia);
    destruct (Z.eqb_spec (zlen l) 0); [lia|]; destruct (Z.ltb_spec (zlen l) (1 + 3)); [lia|] end.
  cbn [negb read8 bind]. rewrite advance_cons1. cbn [bind negb Z.eqb].
  unfold ngtcp2_get_uint24be. rewrite (get_be_encode 3) by (simpl; zlen_pos; lia). cbn [bind].
  rewrite trunc_app. destruct (Z.ltb_spec (zlen body) 2); [lia|]. subst body.
  rewrite get_uint16be_encode by lia. cbn [bind negb Z.eqb].
  rewrite zlen_app, Hr. match goal with |- context [32 + ?a <? 32] =>
    destruct (Z.ltb_spec (32 + a) 32); [zlia|] end.
  rewrite advance_app by done. cbn [bind]. rewrite skip8_vec by done. cbn [bind].
  rewrite skip16_vec by done. cbn [bind]. rewrite skip8_vec by done. cbn [bind].
  subst exv. unfold tls_vec16. rewrite zlen_app, zlen_be_encode.
  match goal with |- context [?a <? 2] => destruct (Z.ltb_spec a 2); [zlia|] end.
  rewrite get_uint16be_encode by (zlen_pos; lia). cbn [bind]. by rewrite trunc_all.
Qed.

(** C18: the server name is found.  In every well-formed ClientHello whose
    first extension of type 0 is a Server Name Indication for [name],
    [ngtcp2_pkt_find_server_name] returns exactly [name], whatever
    extensions surround it and whatever bytes follow the message; without
    an extension of type 0 it finds nothing. *)
Theorem find_server_name_complete (random sid ciphers compression name tail : list Z)
    (pre post exts : list (Z * list Z)) :
  zlen random = 32 -> zlen sid < 256 -> zlen ciphers < 2 ^ 16 -> zlen compression < 256 ->
  Forall ext_ok pre -> zlen (sni_ext name).2 < 2 ^ 16 ->
  zlen (tls_exts (pre ++ sni_ext name :: post)) < 2 ^ 16 ->
  Forall ext_ok exts -> zlen (tls_exts exts) < 2 ^ 16 ->
  ngtcp2_pkt_find_server_name
    (client_hello random sid ciphers compression (pre ++ sni_ext name :: post) ++ tail)
    = Ok (Some name) /\
  ngtcp2_pkt_find_server_name (client_hello random sid ciphers compression exts ++ tail) = Ok None.
Proof.
  intros. split; rewrite find_server_name_exts by done.
  - apply find_sni_loop_found; [done..|].
    pose proof (tls_exts_length (pre ++ sni_ext name :: post)). rewrite length_app in *. lia.
  - apply find_sni_loop_none; [done|]. pose proof (tls_exts_length exts). lia.
Qed.

Lemma find_server_name_complete_witness :
  let random := replicate 32 7 in
  let name := [0x61; 0x2e; 0x62] in
  ngtcp2_pkt_find_server_name
    (client_hello random [] [0x13; 1] [0] ([(43, [2; 3; 4])] ++ sni_ext name :: [(57, [])]) ++ [9])
    = Ok (Some name) /\
  ngtcp2_pkt_find_server_name (client_hello random [] [0x13; 1] [0] [(43, [2; 3; 4])] ++ [9])
    = Ok None.
Proof.
  apply find_server_name_complete; try (by vm_compute); repeat constructor; by vm_compute.
Defined.
