(* ===== verification/TransportParams.v ===== *)
(** * Transport parameters: [lib/ngtcp2_transport_params.c]

    The record of the QUIC transport parameters, its encoder (a pass that
    computes the length and a pass that writes) and its decoder (a loop over
    the parameters that ignores unknown ones).  The fields of the C struct
    with a [_present] flag that are written as a whole are options; the
    preferred address and the version information keep their flags, because
    the decoder fills parts of them.  Ports are the two bytes in network
    order the code copies.  The helpers that return -1 in C return
    [NGTCP2_ERR_MALFORMED_TRANSPORT_PARAM], the code all their callers turn
    it into. *)

From S2P Require Import Prelude Conv Const Wp PktHd FrameSafe.

Definition NGTCP2_TRANSPORT_PARAM_ORIGINAL_DESTINATION_CONNECTION_ID : Z := 0x00.
Definition NGTCP2_TRANSPORT_PARAM_MAX_IDLE_TIMEOUT : Z := 0x01.
Definition NGTCP2_TRANSPORT_PARAM_STATELESS_RESET_TOKEN : Z := 0x02.
Definition NGTCP2_TRANSPORT_PARAM_MAX_UDP_PAYLOAD_SIZE : Z := 0x03.
Definition NGTCP2_TRANSPORT_PARAM_INITIAL_MAX_DATA : Z := 0x04.
Definition NGTCP2_TRANSPORT_PARAM_INITIAL_MAX_STREAM_DATA_BIDI_LOCAL : Z := 0x05.
Definition NGTCP2_TRANSPORT_PARAM_INITIAL_MAX_STREAM_DATA_BIDI_REMOTE : Z := 0x06.
Definition NGTCP2_TRANSPORT_PARAM_INITIAL_MAX_STREAM_DATA_UNI : Z := 0x07.
Definition NGTCP2_TRANSPORT_PARAM_INITIAL_MAX_STREAMS_BIDI : Z := 0x08.
Definition NGTCP2_TRANSPORT_PARAM_INITIAL_MAX_STREAMS_UNI : Z := 0x09.
Definition NGTCP2_TRANSPORT_PARAM_ACK_DELAY_EXPONENT : Z := 0x0A.
Definition NGTCP2_TRANSPORT_PARAM_MAX_ACK_DELAY : Z := 0x0B.
Definition NGTCP2_TRANSPORT_PARAM_DISABLE_ACTIVE_MIGRATION : Z := 0x0C.
Definition NGTCP2_TRANSPORT_PARAM_PREFERRED_ADDRESS : Z := 0x0D.
Definition NGTCP2_TRANSPORT_PARAM_ACTIVE_CONNECTION_ID_LIMIT : Z := 0x0E.
Definition NGTCP2_TRANSPORT_PARAM_INITIAL_SOURCE_CONNECTION_ID : Z := 0x0F.
Definition NGTCP2_TRANSPORT_PARAM_RETRY_SOURCE_CONNECTION_ID : Z := 0x10.
Definition NGTCP2_TRANSPORT_PARAM_VERSION_INFORMATION : Z := 0x11.
Definition NGTCP2_TRANSPORT_PARAM_MAX_DATAGRAM_FRAME_SIZE : Z := 0x20.
Definition NGTCP2_TRANSPORT_PARAM_GREASE_QUIC_BIT : Z := 0x2AB2.
Definition NGTCP2_MAX_STREAMS : Z := 2 ^ 60.
Definition NGTCP2_DEFAULT_MAX_RECV_UDP_PAYLOAD_SIZE : Z := 65527.
Definition NGTCP2_DEFAULT_ACK_DELAY_EXPONENT : Z := 3.
Definition NGTCP2_DEFAULT_MAX_ACK_DELAY : Z := 25 * NGTCP2_MILLISECONDS.
Definition NGTCP2_DEFAULT_ACTIVE_CONNECTION_ID_LIMIT : Z := 2.

(** ** Data *)
Record ngtcp2_preferred_addr := mk_preferred_addr {
  pa_cid : list Z;
  (** address and port *)
  pa_ipv4 : list Z * list Z;
  pa_ipv6 : list Z * list Z;
  pa_ipv4_present : bool;
  pa_ipv6_present : bool;
  pa_stateless_reset_token : list Z;
}.

Record ngtcp2_version_info := mk_version_info {
  vi_chosen_version : Z;
  (** the wire image of the versions *)
  vi_available_versions : list Z;
}.

Record ngtcp2_transport_params := mk_params {
  tp_initial_max_stream_data_bidi_local : Z;
  tp_initial_max_stream_data_bidi_remote : Z;
  tp_initial_max_stream_data_uni : Z;
  tp_initial_max_data : Z;
  tp_initial_max_streams_bidi : Z;
  tp_initial_max_streams_uni : Z;
  tp_max_idle_timeout : Z;
  tp_max_udp_payload_size : Z;
  tp_active_connection_id_limit : Z;
  tp_ack_delay_exponent : Z;
  tp_max_ack_delay : Z;
  tp_max_datagram_frame_size : Z;
  tp_original_dcid : option (list Z);
  tp_initial_scid : option (list Z);
  tp_retry_scid : option (list Z);
  tp_stateless_reset_token : option (list Z);
  tp_disable_active_migration : bool;
  tp_grease_quic_bit : bool;
  tp_preferred_addr : ngtcp2_preferred_addr;
  tp_preferred_addr_present : bool;
  tp_version_info : ngtcp2_version_info;
  tp_version_info_present : bool;
}.

(** Assignments to the fields. *)
Definition set_initial_max_stream_data_bidi_local (v : Z) (p : ngtcp2_transport_params)
    : ngtcp2_transport_params :=
  mk_params v (tp_initial_max_stream_data_bidi_remote p) (tp_initial_max_stream_data_uni p)
    (tp_initial_max_data p) (tp_initial_max_streams_bidi p) (tp_initial_max_streams_uni p)
    (tp_max_idle_timeout p) (tp_max_udp_payload_size p) (tp_active_connection_id_limit p)
    (tp_ack_delay_exponent p) (tp_max_ack_delay p) (tp_max_datagram_frame_size p)
    (tp_original_dcid p) (tp_initial_scid p) (tp_retry_scid p) (tp_stateless_reset_token p)
    (tp_disable_active_migration p) (tp_grease_quic_bit p) (tp_preferred_addr p)
    (tp_preferred_addr_present p) (tp_version_info p) (tp_version_info_present p).
Definition set_initial_max_stream_data_bidi_remote (v : Z) (p : ngtcp2_transport_params)
    : ngtcp2_transport_params :=
  mk_params (tp_initial_max_stream_data_bidi_local p) v (tp_initial_max_stream_data_uni p)
    (tp_initial_max_data p) (tp_initial_max_streams_bidi p) (tp_initial_max_streams_uni p)
    (tp_max_idle_timeout p) (tp_max_udp_payload_size p) (tp_active_connection_id_limit p)
    (tp_ack_delay_exponent p) (tp_max_ack_delay p) (tp_max_datagram_frame_size p)
    (tp_original_dcid p) (tp_initial_scid p) (tp_retry_scid p) (tp_stateless_reset_token p)
    (tp_disable_active_migration p) (tp_grease_quic_bit p) (tp_preferred_addr p)
    (tp_preferred_addr_present p) (tp_version_info p) (tp_version_info_present p).
Definition set_initial_max_stream_data_uni (v : Z) (p : ngtcp2_transport_params)
    : ngtcp2_transport_params :=
  mk_params (tp_initial_max_stream_data_bidi_local p)
    (tp_initial_max_stream_data_bidi_remote p) v (tp_initial_max_data p)
    (tp_initial_max_streams_bidi p) (tp_initial_max_streams_uni p) (tp_max_idle_timeout p)
    (tp_max_udp_payload_size p) (tp_active_connection_id_limit p) (tp_ack_delay_exponent p)
    (tp_max_ack_delay p) (tp_max_datagram_frame_size p) (tp_original_dcid p)
    (tp_initial_scid p) (tp_retry_scid p) (tp_stateless_reset_token p)
    (tp_disable_active_migration p) (tp_grease_quic_bit p) (tp_preferred_addr p)
    (tp_preferred_addr_present p) (tp_version_info p) (tp_version_info_present p).
Definition set_initial_max_data (v : Z) (p : ngtcp2_transport_params)
    : ngtcp2_transport_params :=
  mk_params (tp_initial_max_stream_data_bidi_local p)
    (tp_initial_max_stream_data_bidi_remote p) (tp_initial_max_stream_data_uni p) v
    (tp_initial_max_streams_bidi p) (tp_initial_max_streams_uni p) (tp_max_idle_timeout p)
    (tp_max_udp_payload_size p) (tp_active_connection_id_limit p) (tp_ack_delay_exponent p)
    (tp_max_ack_delay p) (tp_max_datagram_frame_size p) (tp_original_dcid p)
    (tp_initial_scid p) (tp_retry_scid p) (tp_stateless_reset_token p)
    (tp_disable_active_migration p) (tp_grease_quic_bit p) (tp_preferred_addr p)
    (tp_preferred_addr_present p) (tp_version_info p) (tp_version_info_present p).
Definition set_initial_max_streams_bidi (v : Z) (p : ngtcp2_transport_params)
    : ngtcp2_transport_params :=
  mk_params (tp_initial_max_stream_data_bidi_local p)
    (tp_initial_max_stream_data_bidi_remote p) (tp_initial_max_stream_data_uni p)
    (tp_initial_max_data p) v (tp_initial_max_streams_uni p) (tp_max_idle_timeout p)
    (tp_max_udp_payload_size p) (tp_active_connection_id_limit p) (tp_ack_delay_exponent p)
    (tp_max_ack_delay p) (tp_max_datagram_frame_size p) (tp_original_dcid p)
    (tp_initial_scid p) (tp_retry_scid p) (tp_stateless_reset_token p)
    (tp_disable_active_migration p) (tp_grease_quic_bit p) (tp_preferred_addr p)
    (tp_preferred_addr_present p) (tp_version_info p) (tp_version_info_present p).
Definition set_initial_max_streams_uni (v : Z) (p : ngtcp2_transport_params)
    : ngtcp2_transport_params :=
  mk_params (tp_initial_max_stream_data_bidi_local p)
    (tp_initial_max_stream_data_bidi_remote p) (tp_initial_max_stream_data_uni p)
    (tp_initial_max_data p) (tp_initial_max_streams_bidi p) v (tp_max_idle_timeout p)
    (tp_max_udp_payload_size p) (tp_active_connection_id_limit p) (tp_ack_delay_exponent p)
    (tp_max_ack_delay p) (tp_max_datagram_frame_size p) (tp_original_dcid p)
    (tp_initial_scid p) (tp_retry_scid p) (tp_stateless_reset_token p)
    (tp_disable_active_migration p) (tp_grease_quic_bit p) (tp_preferred_addr p)
    (tp_preferred_addr_present p) (tp_version_info p) (tp_version_info_present p).
Definition set_max_idle_timeout (v : Z) (p : ngtcp2_transport_params)
    : ngtcp2_transport_params :=
  mk_params (tp_initial_max_stream_data_bidi_local p)
    (tp_initial_max_stream_data_bidi_remote p) (tp_initial_max_stream_data_uni p)
    (tp_initial_max_data p) (tp_initial_max_streams_bidi p) (tp_initial_max_streams_uni p) v
    (tp_max_udp_payload_size p) (tp_active_connection_id_limit p) (tp_ack_delay_exponent p)
    (tp_max_ack_delay p) (tp_max_datagram_frame_size p) (tp_original_dcid p)
    (tp_initial_scid p) (tp_retry_scid p) (tp_stateless_reset_token p)
    (tp_disable_active_migration p) (tp_grease_quic_bit p) (tp_preferred_addr p)
    (tp_preferred_addr_present p) (tp_version_info p) (tp_version_info_present p).
Definition set_max_udp_payload_size (v : Z) (p : ngtcp2_transport_params)
    : ngtcp2_transport_params :=
  mk_params (tp_initial_max_stream_data_bidi_local p)
    (tp_initial_max_stream_data_bidi_remote p) (tp_initial_max_stream_data_uni p)
    (tp_initial_max_data p) (tp_initial_max_streams_bidi p) (tp_initial_max_streams_uni p)
    (tp_max_idle_timeout p) v (tp_active_connection_id_limit p) (tp_ack_delay_exponent p)
    (tp_max_ack_delay p) (tp_max_datagram_frame_size p) (tp_original_dcid p)
    (tp_initial_scid p) (tp_retry_scid p) (tp_stateless_reset_token p)
    (tp_disable_active_migration p) (tp_grease_quic_bit p) (tp_preferred_addr p)
    (tp_preferred_addr_present p) (tp_version_info p) (tp_version_info_present p).
Definition set_active_connection_id_limit (v : Z) (p : ngtcp2_transport_params)
    : ngtcp2_transport_params :=
  mk_params (tp_initial_max_stream_data_bidi_local p)
    (tp_initial_max_stream_data_bidi_remote p) (tp_initial_max_stream_data_uni p)
    (tp_initial_max_data p) (tp_initial_max_streams_bidi p) (tp_initial_max_streams_uni p)
    (tp_max_idle_timeout p) (tp_max_udp_payload_size p) v (tp_ack_delay_exponent p)
    (tp_max_ack_delay p) (tp_max_datagram_frame_size p) (tp_original_dcid p)
    (tp_initial_scid p) (tp_retry_scid p) (tp_stateless_reset_token p)
    (tp_disable_active_migration p) (tp_grease_quic_bit p) (tp_preferred_addr p)
    (tp_preferred_addr_present p) (tp_version_info p) (tp_version_info_present p).
Definition set_ack_delay_exponent (v : Z) (p : ngtcp2_transport_params)
    : ngtcp2_transport_params :=
  mk_params (tp_initial_max_stream_data_bidi_local p)
    (tp_initial_max_stream_data_bidi_remote p) (tp_initial_max_stream_data_uni p)
    (tp_initial_max_data p) (tp_initial_max_streams_bidi p) (tp_initial_max_streams_uni p)
    (tp_max_idle_timeout p) (tp_max_udp_payload_size p) (tp_active_connection_id_limit p) v
    (tp_max_ack_delay p) (tp_max_datagram_frame_size p) (tp_original_dcid p)
    (tp_initial_scid p) (tp_retry_scid p) (tp_stateless_reset_token p)
    (tp_disable_active_migration p) (tp_grease_quic_bit p) (tp_preferred_addr p)
    (tp_preferred_addr_present p) (tp_version_info p) (tp_version_info_present p).
Definition set_max_ack_delay (v : Z) (p : ngtcp2_transport_params)
    : ngtcp2_transport_params :=
  mk_params (tp_initial_max_stream_data_bidi_local p)
    (tp_initial_max_stream_data_bidi_remote p) (tp_initial_max_stream_data_uni p)
    (tp_initial_max_data p) (tp_initial_max_streams_bidi p) (tp_initial_max_streams_uni p)
    (tp_max_idle_timeout p) (tp_max_udp_payload_size p) (tp_active_connection_id_limit p)
    (tp_ack_delay_exponent p) v (tp_max_datagram_frame_size p) (tp_original_dcid p)
    (tp_initial_scid p) (tp_retry_scid p) (tp_stateless_reset_token p)
    (tp_disable_active_migration p) (tp_grease_quic_bit p) (tp_preferred_addr p)
    (tp_preferred_addr_present p) (tp_version_info p) (tp_version_info_present p).
Definition set_max_datagram_frame_size (v : Z) (p : ngtcp2_transport_params)
    : ngtcp2_transport_params :=
  mk_params (tp_initial_max_stream_data_bidi_local p)
    (tp_initial_max_stream_data_bidi_remote p) (tp_initial_max_stream_data_uni p)
    (tp_initial_max_data p) (tp_initial_max_streams_bidi p) (tp_initial_max_streams_uni p)
    (tp_max_idle_timeout p) (tp_max_udp_payload_size p) (tp_active_connection_id_limit p)
    (tp_ack_delay_exponent p) (tp_max_ack_delay p) v (tp_original_dcid p) (tp_initial_scid
    p) (tp_retry_scid p) (tp_stateless_reset_token p) (tp_disable_active_migration p)
    (tp_grease_quic_bit p) (tp_preferred_addr p) (tp_preferred_addr_present p)
    (tp_version_info p) (tp_version_info_present p).
Definition set_original_dcid (v : option (list Z)) (p : ngtcp2_transport_params)
    : ngtcp2_transport_params :=
  mk_params (tp_initial_max_stream_data_bidi_local p)
    (tp_initial_max_stream_data_bidi_remote p) (tp_initial_max_stream_data_uni p)
    (tp_initial_max_data p) (tp_initial_max_streams_bidi p) (tp_initial_max_streams_uni p)
    (tp_max_idle_timeout p) (tp_max_udp_payload_size p) (tp_active_connection_id_limit p)
    (tp_ack_delay_exponent p) (tp_max_ack_delay p) (tp_max_datagram_frame_size p) v
    (tp_initial_scid p) (tp_retry_scid p) (tp_stateless_reset_token p)
    (tp_disable_active_migration p) (tp_grease_quic_bit p) (tp_preferred_addr p)
    (tp_preferred_addr_present p) (tp_version_info p) (tp_version_info_present p).
Definition set_initial_scid (v : option (list Z)) (p : ngtcp2_transport_params)
    : ngtcp2_transport_params :=
  mk_params (tp_initial_max_stream_data_bidi_local p)
    (tp_initial_max_stream_data_bidi_remote p) (tp_initial_max_stream_data_uni p)
    (tp_initial_max_data p) (tp_initial_max_streams_bidi p) (tp_initial_max_streams_uni p)
    (tp_max_idle_timeout p) (tp_max_udp_payload_size p) (tp_active_connection_id_limit p)
    (tp_ack_delay_exponent p) (tp_max_ack_delay p) (tp_max_datagram_frame_size p)
    (tp_original_dcid p) v (tp_retry_scid p) (tp_stateless_reset_token p)
    (tp_disable_active_migration p) (tp_grease_quic_bit p) (tp_preferred_addr p)
    (tp_preferred_addr_present p) (tp_version_info p) (tp_version_info_present p).
Definition set_retry_scid (v : option (list Z)) (p : ngtcp2_transport_params)
    : ngtcp2_transport_params :=
  mk_params (tp_initial_max_stream_data_bidi_local p)
    (tp_initial_max_stream_data_bidi_remote p) (tp_initial_max_stream_data_uni p)
    (tp_initial_max_data p) (tp_initial_max_streams_bidi p) (tp_initial_max_streams_uni p)
    (tp_max_idle_timeout p) (tp_max_udp_payload_size p) (tp_active_connection_id_limit p)
    (tp_ack_delay_exponent p) (tp_max_ack_delay p) (tp_max_datagram_frame_size p)
    (tp_original_dcid p) (tp_initial_scid p) v (tp_stateless_reset_token p)
    (tp_disable_active_migration p) (tp_grease_quic_bit p) (tp_preferred_addr p)
    (tp_preferred_addr_present p) (tp_version_info p) (tp_version_info_present p).
Definition set_stateless_reset_token (v : option (list Z)) (p : ngtcp2_transport_params)
    : ngtcp2_transport_params :=
  mk_params (tp_initial_max_stream_data_bidi_local p)
    (tp_initial_max_stream_data_bidi_remote p) (tp_initial_max_stream_data_uni p)
    (tp_initial_max_data p) (tp_initial_max_streams_bidi p) (tp_initial_max_streams_uni p)
    (tp_max_idle_timeout p) (tp_max_udp_payload_size p) (tp_active_connection_id_limit p)
    (tp_ack_delay_exponent p) (tp_max_ack_delay p) (tp_max_datagram_frame_size p)
    (tp_original_dcid p) (tp_initial_scid p) (tp_retry_scid p) v
    (tp_disable_active_migration p) (tp_grease_quic_bit p) (tp_preferred_addr p)
    (tp_preferred_addr_present p) (tp_version_info p) (tp_version_info_present p).
Definition set_disable_active_migration (v : bool) (p : ngtcp2_transport_params)
    : ngtcp2_transport_params :=
  mk_params (tp_initial_max_stream_data_bidi_local p)
    (tp_initial_max_stream_data_bidi_remote p) (tp_initial_max_stream_data_uni p)
    (tp_initial_max_data p) (tp_initial_max_streams_bidi p) (tp_initial_max_streams_uni p)
    (tp_max_idle_timeout p) (tp_max_udp_payload_size p) (tp_active_connection_id_limit p)
    (tp_ack_delay_exponent p) (tp_max_ack_delay p) (tp_max_datagram_frame_size p)
    (tp_original_dcid p) (tp_initial_scid p) (tp_retry_scid p) (tp_stateless_reset_token p)
    v (tp_grease_quic_bit p) (tp_preferred_addr p) (tp_preferred_addr_present p)
    (tp_version_info p) (tp_version_info_present p).
Definition set_grease_quic_bit (v : bool) (p : ngtcp2_transport_params)
    : ngtcp2_transport_params :=
  mk_params (tp_initial_max_stream_data_bidi_local p)
    (tp_initial_max_stream_data_bidi_remote p) (tp_initial_max_stream_data_uni p)
    (tp_initial_max_data p) (tp_initial_max_streams_bidi p) (tp_initial_max_streams_uni p)
    (tp_max_idle_timeout p) (tp_max_udp_payload_size p) (tp_active_connection_id_limit p)
    (tp_ack_delay_exponent p) (tp_max_ack_delay p) (tp_max_datagram_frame_size p)
    (tp_original_dcid p) (tp_initial_scid p) (tp_retry_scid p) (tp_stateless_reset_token p)
    (tp_disable_active_migration p) v (tp_preferred_addr p) (tp_preferred_addr_present p)
    (tp_version_info p) (tp_version_info_present p).
Definition set_preferred_addr (v : ngtcp2_preferred_addr) (p : ngtcp2_transport_params)
    : ngtcp2_transport_params :=
  mk_params (tp_initial_max_stream_data_bidi_local p)
    (tp_initial_max_stream_data_bidi_remote p) (tp_initial_max_stream_data_uni p)
    (tp_initial_max_data p) (tp_initial_max_streams_bidi p) (tp_initial_max_streams_uni p)
    (tp_max_idle_timeout p) (tp_max_udp_payload_size p) (tp_active_connection_id_limit p)
    (tp_ack_delay_exponent p) (tp_max_ack_delay p) (tp_max_datagram_frame_size p)
    (tp_original_dcid p) (tp_initial_scid p) (tp_retry_scid p) (tp_stateless_reset_token p)
    (tp_disable_active_migration p) (tp_grease_quic_bit p) v true (tp_version_info p)
    (tp_version_info_present p).
Definition set_version_info (v : ngtcp2_version_info) (p : ngtcp2_transport_params)
    : ngtcp2_transport_params :=
  mk_params (tp_initial_max_stream_data_bidi_local p)
    (tp_initial_max_stream_data_bidi_remote p) (tp_initial_max_stream_data_uni p)
    (tp_initial_max_data p) (tp_initial_max_streams_bidi p) (tp_initial_max_streams_uni p)
    (tp_max_idle_timeout p) (tp_max_udp_payload_size p) (tp_active_connection_id_limit p)
    (tp_ack_delay_exponent p) (tp_max_ack_delay p) (tp_max_datagram_frame_size p)
    (tp_original_dcid p) (tp_initial_scid p) (tp_retry_scid p) (tp_stateless_reset_token p)
    (tp_disable_active_migration p) (tp_grease_quic_bit p) (tp_preferred_addr p)
    (tp_preferred_addr_present p) v true.

Definition preferred_addr_zero : ngtcp2_preferred_addr :=
  mk_preferred_addr [] (replicate 4 0, replicate 2 0) (replicate 16 0, replicate 2 0) false false
    (replicate 16 0).

(** [ngtcp2_transport_params_default] *)
Definition ngtcp2_transport_params_default : ngtcp2_transport_params :=
  {| tp_initial_max_stream_data_bidi_local := 0;
     tp_initial_max_stream_data_bidi_remote := 0;
     tp_initial_max_stream_data_uni := 0;
     tp_initial_max_data := 0;
     tp_initial_max_streams_bidi := 0;
     tp_initial_max_streams_uni := 0;
     tp_max_idle_timeout := 0;
     tp_max_udp_payload_size := NGTCP2_DEFAULT_MAX_RECV_UDP_PAYLOAD_SIZE;
     tp_active_connection_id_limit := NGTCP2_DEFAULT_ACTIVE_CONNECTION_ID_LIMIT;
     tp_ack_delay_exponent := NGTCP2_DEFAULT_ACK_DELAY_EXPONENT;
     tp_max_ack_delay := NGTCP2_DEFAULT_MAX_ACK_DELAY;
     tp_max_datagram_frame_size := 0;
     tp_original_dcid := None; tp_initial_scid := None; tp_retry_scid := None;
     tp_stateless_reset_token := None;
     tp_disable_active_migration := false; tp_grease_quic_bit := false;
     tp_preferred_addr := preferred_addr_zero; tp_preferred_addr_present := false;
     tp_version_info := mk_version_info 0 []; tp_version_info_present := false |}.

(** ** Encoder *)
Definition varint_paramlen (id param : Z) : res Z :=
  let* valuelen := ngtcp2_put_uvarintlen param in
  let* n1 := ngtcp2_put_uvarintlen id in
  let* n2 := ngtcp2_put_uvarintlen valuelen in
  Ok (n1 + n2 + valuelen).

Definition write_varint_param (p : list Z) (id value : Z) : res (list Z) :=
  let* p := ngtcp2_put_uvarint p id in
  let* n := ngtcp2_put_uvarintlen value in
  let* p := ngtcp2_put_uvarint p n in
  ngtcp2_put_uvarint p value.

Definition zero_paramlen (id : Z) : res Z :=
  let* n := ngtcp2_put_uvarintlen id in Ok (n + 1).

Definition write_zero_param (p : list Z) (id : Z) : res (list Z) :=
  let* p := ngtcp2_put_uvarint p id in Ok (p ++ [0]).

Definition cid_paramlen (id : Z) (cid : list Z) : res Z :=
  let* n1 := ngtcp2_put_uvarintlen id in
  let* n2 := ngtcp2_put_uvarintlen (zlen cid) in
  Ok (n1 + n2 + zlen cid).

Definition write_cid_param (p : list Z) (id : Z) (cid : list Z) : res (list Z) :=
  assert! (zlen cid =? 0) || (NGTCP2_MIN_CIDLEN <=? zlen cid);
  assert! zlen cid <=? NGTCP2_MAX_CIDLEN;
  let* p := ngtcp2_put_uvarint p id in
  let* p := ngtcp2_put_uvarint p (zlen cid) in
  Ok (if negb (zlen cid =? 0) then p ++ cid else p).

(** A parameter with an opaque value of [n] bytes. *)
Definition opaque_paramlen (id n : Z) : res Z :=
  let* n1 := ngtcp2_put_uvarintlen id in
  let* n2 := ngtcp2_put_uvarintlen n in
  Ok (n1 + n2 + n).

Definition preferred_addrlen (pa : ngtcp2_preferred_addr) : Z :=
  4 + 2 + 16 + 2 + 1 + zlen (pa_cid pa) + NGTCP2_STATELESS_RESET_TOKENLEN.

Definition version_infolen (vi : ngtcp2_version_info) : Z := 4 + zlen (vi_available_versions vi).

(** [if (cond) len += ...] and [if (cond) p = ...] *)
Definition add_if (c : bool) (n : res Z) (len : Z) : res Z :=
  if c then let* n := n in Ok (len + n) else Ok len.

Definition write_if (c : bool) (w : list Z -> res (list Z)) (p : list Z) : res (list Z) :=
  if c then w p else Ok p.

Definition is_some {A : Type} (o : option A) : bool :=
  match o with Some _ => true | None => false end.

Definition some_or {A : Type} (d : A) (o : option A) : A :=
  match o with Some a => a | None => d end.

(** The first pass of [ngtcp2_transport_params_encode]. *)
Definition transport_params_len (params : ngtcp2_transport_params) : res Z :=
  let len := 0 in
  let* len := add_if (is_some (tp_original_dcid params))
    (cid_paramlen NGTCP2_TRANSPORT_PARAM_ORIGINAL_DESTINATION_CONNECTION_ID
       (some_or [] (tp_original_dcid params))) len in
  let* len := add_if (is_some (tp_stateless_reset_token params))
    (opaque_paramlen NGTCP2_TRANSPORT_PARAM_STATELESS_RESET_TOKEN
       NGTCP2_STATELESS_RESET_TOKENLEN) len in
  let* len := add_if (tp_preferred_addr_present params)
    (assert! NGTCP2_MIN_CIDLEN <=? zlen (pa_cid (tp_preferred_addr params));
     assert! zlen (pa_cid (tp_preferred_addr params)) <=? NGTCP2_MAX_CIDLEN;
     opaque_paramlen NGTCP2_TRANSPORT_PARAM_PREFERRED_ADDRESS
       (preferred_addrlen (tp_preferred_addr params))) len in
  let* len := add_if (is_some (tp_retry_scid params))
    (cid_paramlen NGTCP2_TRANSPORT_PARAM_RETRY_SOURCE_CONNECTION_ID
       (some_or [] (tp_retry_scid params))) len in
  let* len := add_if (is_some (tp_initial_scid params))
    (cid_paramlen NGTCP2_TRANSPORT_PARAM_INITIAL_SOURCE_CONNECTION_ID
       (some_or [] (tp_initial_scid params))) len in
  let* len := add_if (negb (tp_initial_max_stream_data_bidi_local params =? 0))
    (varint_paramlen NGTCP2_TRANSPORT_PARAM_INITIAL_MAX_STREAM_DATA_BIDI_LOCAL
       (tp_initial_max_stream_data_bidi_local params)) len in
  let* len := add_if (negb (tp_initial_max_stream_data_bidi_remote params =? 0))
    (varint_paramlen NGTCP2_TRANSPORT_PARAM_INITIAL_MAX_STREAM_DATA_BIDI_REMOTE
       (tp_initial_max_stream_data_bidi_remote params)) len in
  let* len := add_if (negb (tp_initial_max_stream_data_uni params =? 0))
    (varint_paramlen NGTCP2_TRANSPORT_PARAM_INITIAL_MAX_STREAM_DATA_UNI
       (tp_initial_max_stream_data_uni params)) len in
  let* len := add_if (negb (tp_initial_max_data params =? 0))
    (varint_paramlen NGTCP2_TRANSPORT_PARAM_INITIAL_MAX_DATA (tp_initial_max_data params)) len in
  let* len := add_if (negb (tp_initial_max_streams_bidi params =? 0))
    (varint_paramlen NGTCP2_TRANSPORT_PARAM_INITIAL_MAX_STREAMS_BIDI
       (tp_initial_max_streams_bidi params)) len in
  let* len := add_if (negb (tp_initial_max_streams_uni params =? 0))
    (varint_paramlen NGTCP2_TRANSPORT_PARAM_INITIAL_MAX_STREAMS_UNI
       (tp_initial_max_streams_uni params)) len in
  let* len := add_if
    (negb (tp_max_udp_payload_size params =? NGTCP2_DEFAULT_MAX_RECV_UDP_PAYLOAD_SIZE))
    (varint_paramlen NGTCP2_TRANSPORT_PARAM_MAX_UDP_PAYLOAD_SIZE
       (tp_max_udp_payload_size params)) len in
  let* len := add_if (negb (tp_ack_delay_exponent params =? NGTCP2_DEFAULT_ACK_DELAY_EXPONENT))
    (varint_paramlen NGTCP2_TRANSPORT_PARAM_ACK_DELAY_EXPONENT
       (tp_ack_delay_exponent params)) len in
  let* len := add_if (tp_disable_active_migration params)
    (zero_paramlen NGTCP2_TRANSPORT_PARAM_DISABLE_ACTIVE_MIGRATION) len in
  let* len := add_if (negb (tp_max_ack_delay params =? NGTCP2_DEFAULT_MAX_ACK_DELAY))
    (varint_paramlen NGTCP2_TRANSPORT_PARAM_MAX_ACK_DELAY
       (tp_max_ack_delay params / NGTCP2_MILLISECONDS)) len in
  let* len := add_if (negb (tp_max_idle_timeout params =? 0))
    (varint_paramlen NGTCP2_TRANSPORT_PARAM_MAX_IDLE_TIMEOUT
       (tp_max_idle_timeout params / NGTCP2_MILLISECONDS)) len in
  let* len := add_if
    (negb (tp_active_connection_id_limit params =? 0)
     && negb (tp_active_connection_id_limit params =? NGTCP2_DEFAULT_ACTIVE_CONNECTION_ID_LIMIT))
    (varint_paramlen NGTCP2_TRANSPORT_PARAM_ACTIVE_CONNECTION_ID_LIMIT
       (tp_active_connection_id_limit params)) len in
  let* len := add_if (negb (tp_max_datagram_frame_size params =? 0))
    (varint_paramlen NGTCP2_TRANSPORT_PARAM_MAX_DATAGRAM_FRAME_SIZE
       (tp_max_datagram_frame_size params)) len in
  let* len := add_if (tp_grease_quic_bit params)
    (zero_paramlen NGTCP2_TRANSPORT_PARAM_GREASE_QUIC_BIT) len in
  add_if (tp_version_info_present params)
    (opaque_paramlen NGTCP2_TRANSPORT_PARAM_VERSION_INFORMATION
       (version_infolen (tp_version_info params))) len.

Definition write_stateless_reset_token (token p : list Z) : res (list Z) :=
  let* p := ngtcp2_put_uvarint p NGTCP2_TRANSPORT_PARAM_STATELESS_RESET_TOKEN in
  let* p := ngtcp2_put_uvarint p NGTCP2_STATELESS_RESET_TOKENLEN in
  Ok (p ++ token).

Definition write_preferred_addr (pa : ngtcp2_preferred_addr) (p : list Z) : res (list Z) :=
  let* p := ngtcp2_put_uvarint p NGTCP2_TRANSPORT_PARAM_PREFERRED_ADDRESS in
  let* p := ngtcp2_put_uvarint p (preferred_addrlen pa) in
  let p :=
    if pa_ipv4_present pa then ngtcp2_put_uint16 (p ++ (pa_ipv4 pa).1) (pa_ipv4 pa).2
    else ngtcp2_put_uint16 (p ++ replicate 4 0) [0; 0] in
  let p :=
    if pa_ipv6_present pa then ngtcp2_put_uint16 (p ++ (pa_ipv6 pa).1) (pa_ipv6 pa).2
    else ngtcp2_put_uint16 (p ++ replicate 16 0) [0; 0] in
  let p := p ++ [u8 (zlen (pa_cid pa))] in
  let p := if negb (zlen (pa_cid pa) =? 0) then p ++ pa_cid pa else p in
  Ok (p ++ pa_stateless_reset_token pa).

Definition write_version_info (vi : ngtcp2_version_info) (p : list Z) : res (list Z) :=
  let* p := ngtcp2_put_uvarint p NGTCP2_TRANSPORT_PARAM_VERSION_INFORMATION in
  let* p := ngtcp2_put_uvarint p (version_infolen vi) in
  let p := ngtcp2_put_uint32be p (vi_chosen_version vi) in
  Ok (if negb (zlen (vi_available_versions vi) =? 0) then p ++ vi_available_versions vi else p).

(** The second pass. *)
Definition transport_params_write (params : ngtcp2_transport_params) (p : list Z)
    : res (list Z) :=
  let varint id v p := write_varint_param p id v in
  let* p := write_if (is_some (tp_original_dcid params))
    (fun p => write_cid_param p NGTCP2_TRANSPORT_PARAM_ORIGINAL_DESTINATION_CONNECTION_ID
                (some_or [] (tp_original_dcid params))) p in
  let* p := write_if (is_some (tp_stateless_reset_token params))
    (write_stateless_reset_token (some_or [] (tp_stateless_reset_token params))) p in
  let* p := write_if (tp_preferred_addr_present params)
    (write_preferred_addr (tp_preferred_addr params)) p in
  let* p := write_if (is_some (tp_retry_scid params))
    (fun p => write_cid_param p NGTCP2_TRANSPORT_PARAM_RETRY_SOURCE_CONNECTION_ID
                (some_or [] (tp_retry_scid params))) p in
  let* p := write_if (is_some (tp_initial_scid params))
    (fun p => write_cid_param p NGTCP2_TRANSPORT_PARAM_INITIAL_SOURCE_CONNECTION_ID
                (some_or [] (tp_initial_scid params))) p in
  let* p := write_if (negb (tp_initial_max_stream_data_bidi_local params =? 0))
    (varint NGTCP2_TRANSPORT_PARAM_INITIAL_MAX_STREAM_DATA_BIDI_LOCAL
       (tp_initial_max_stream_data_bidi_local params)) p in
  let* p := write_if (negb (tp_initial_max_stream_data_bidi_remote params =? 0))
    (varint NGTCP2_TRANSPORT_PARAM_INITIAL_MAX_STREAM_DATA_BIDI_REMOTE
       (tp_initial_max_stream_data_bidi_remote params)) p in
  let* p := write_if (negb (tp_initial_max_stream_data_uni params =? 0))
    (varint NGTCP2_TRANSPORT_PARAM_INITIAL_MAX_STREAM_DATA_UNI
       (tp_initial_max_stream_data_uni params)) p in
  let* p := write_if (negb (tp_initial_max_data params =? 0))
    (varint NGTCP2_TRANSPORT_PARAM_INITIAL_MAX_DATA (tp_initial_max_data params)) p in
  let* p := write_if (negb (tp_initial_max_streams_bidi params =? 0))
    (varint NGTCP2_TRANSPORT_PARAM_INITIAL_MAX_STREAMS_BIDI
       (tp_initial_max_streams_bidi params)) p in
  let* p := write_if (negb (tp_initial_max_streams_uni params =? 0))
    (varint NGTCP2_TRANSPORT_PARAM_INITIAL_MAX_STREAMS_UNI
       (tp_initial_max_streams_uni params)) p in
  let* p := write_if
    (negb (tp_max_udp_payload_size params =? NGTCP2_DEFAULT_MAX_RECV_UDP_PAYLOAD_SIZE))
    (varint NGTCP2_TRANSPORT_PARAM_MAX_UDP_PAYLOAD_SIZE (tp_max_udp_payload_size params)) p in
  let* p := write_if (negb (tp_ack_delay_exponent params =? NGTCP2_DEFAULT_ACK_DELAY_EXPONENT))
    (varint NGTCP2_TRANSPORT_PARAM_ACK_DELAY_EXPONENT (tp_ack_delay_exponent params)) p in
  let* p := write_if (tp_disable_active_migration params)
    (fun p => write_zero_param p NGTCP2_TRANSPORT_PARAM_DISABLE_ACTIVE_MIGRATION) p in
  let* p := write_if (negb (tp_max_ack_delay params =? NGTCP2_DEFAULT_MAX_ACK_DELAY))
    (varint NGTCP2_TRANSPORT_PARAM_MAX_ACK_DELAY
       (tp_max_ack_delay params / NGTCP2_MILLISECONDS)) p in
  let* p := write_if (negb (tp_max_idle_timeout params =? 0))
    (varint NGTCP2_TRANSPORT_PARAM_MAX_IDLE_TIMEOUT
       (tp_max_idle_timeout params / NGTCP2_MILLISECONDS)) p in
  let* p := write_if
    (negb (tp_active_connection_id_limit params =? 0)
     && negb (tp_active_connection_id_limit params =? NGTCP2_DEFAULT_ACTIVE_CONNECTION_ID_LIMIT))
    (varint NGTCP2_TRANSPORT_PARAM_ACTIVE_CONNECTION_ID_LIMIT
       (tp_active_connection_id_limit params)) p in
  let* p := write_if (negb (tp_max_datagram_frame_size params =? 0))
    (varint NGTCP2_TRANSPORT_PARAM_MAX_DATAGRAM_FRAME_SIZE
       (tp_max_datagram_frame_size params)) p in
  let* p := write_if (tp_grease_quic_bit params)
    (fun p => write_zero_param p NGTCP2_TRANSPORT_PARAM_GREASE_QUIC_BIT) p in
  write_if (tp_version_info_present params)
    (write_version_info (tp_version_info params)) p.

(** [dest_null] for [dest == NULL]; the result is the return value and the
    bytes written. *)
Definition ngtcp2_transport_params_encode (dest_null : bool) (destlen : Z)
    (params : ngtcp2_transport_params) : res (Z * list Z) :=
  let* len := transport_params_len params in
  if dest_null && (destlen =? 0) then Ok (len, []) else
  if destlen <? len then Err NGTCP2_ERR_NOBUF else
  let* p := transport_params_write params [] in
  assert! zlen p =? len;
  Ok (len, p).

(** ** Decoder *)
Definition decode_varint (p : list Z) : res (Z * list Z) :=
  if zlen p =? 0 then Err NGTCP2_ERR_MALFORMED_TRANSPORT_PARAM else
  let* len := ngtcp2_get_uvarintlen p in
  if zlen p <? len then Err NGTCP2_ERR_MALFORMED_TRANSPORT_PARAM else
  ngtcp2_get_uvarint p.

Definition decode_varint_param (p : list Z) : res (Z * list Z) :=
  let* (valuelen, p) := decode_varint p in
  if zlen p =? 0 then Err NGTCP2_ERR_MALFORMED_TRANSPORT_PARAM else
  if zlen p <? valuelen then Err NGTCP2_ERR_MALFORMED_TRANSPORT_PARAM else
  let* n := ngtcp2_get_uvarintlen p in
  if negb (n =? valuelen) then Err NGTCP2_ERR_MALFORMED_TRANSPORT_PARAM else
  ngtcp2_get_uvarint p.

Definition decode_zero_param (p : list Z) : res (list Z) :=
  match p with
  | b :: p' => if negb (b =? 0) then Err NGTCP2_ERR_MALFORMED_TRANSPORT_PARAM else Ok p'
  | [] => Err NGTCP2_ERR_MALFORMED_TRANSPORT_PARAM
  end.

Definition decode_cid_param (p : list Z) : res (list Z * list Z) :=
  let* (valuelen, p) := decode_varint p in
  if (negb (valuelen =? 0) && (valuelen <? NGTCP2_MIN_CIDLEN))
     || (NGTCP2_MAX_CIDLEN <? valuelen) || (zlen p <? valuelen)
  then Err NGTCP2_ERR_MALFORMED_TRANSPORT_PARAM else
  let* cid := ngtcp2_cid_init p valuelen in
  let* p := advance p valuelen in
  Ok (cid, p).

(** [valuelen] of a parameter with an opaque value that must be there. *)
Definition decode_valuelen (p : list Z) : res (Z * list Z) :=
  let* (valuelen, p) := decode_varint p in
  if zlen p <? valuelen then Err NGTCP2_ERR_MALFORMED_TRANSPORT_PARAM else Ok (valuelen, p).

Definition any_nonzero (l : list Z) : bool := existsb (fun b => negb (b =? 0)) l.

(** [pa] is the preferred address decoded so far. *)
Definition decode_preferred_addr (pa : ngtcp2_preferred_addr) (p : list Z)
    : res (ngtcp2_preferred_addr * list Z) :=
  let* (valuelen, p) := decode_valuelen p in
  let len := 4 + 2 + 16 + 2 + 1 + NGTCP2_STATELESS_RESET_TOKENLEN in
  if valuelen <? len then Err NGTCP2_ERR_MALFORMED_TRANSPORT_PARAM else
  let* (addr4, p) := get_bytes p 4 in
  let* (port4, p) := ngtcp2_get_uint16 p in
  let present4 := pa_ipv4_present pa || (any_nonzero port4 || any_nonzero addr4) in
  let* (addr6, p) := get_bytes p 16 in
  let* (port6, p) := ngtcp2_get_uint16 p in
  let present6 := pa_ipv6_present pa || (any_nonzero port6 || any_nonzero addr6) in
  let* cidlen := read8 p in
  let* p := advance p 1 in
  let len := len + cidlen in
  if negb (valuelen =? len) || (NGTCP2_MAX_CIDLEN <? cidlen) || (cidlen <? NGTCP2_MIN_CIDLEN)
  then Err NGTCP2_ERR_MALFORMED_TRANSPORT_PARAM else
  let* (cid, p) := if negb (cidlen =? 0) then get_bytes p cidlen else Ok ([], p) in
  let* (token, p) := get_bytes p NGTCP2_STATELESS_RESET_TOKENLEN in
  Ok (mk_preferred_addr cid (addr4, port4) (addr6, port6) present4 present6 token, p).

(** [for (lend = ...; p != lend;)] *)
Fixpoint check_versions (cnt : nat) (p : list Z) : res (list Z) :=
  match cnt with
  | O => Ok p
  | S cnt =>
      let* (version, p) := ngtcp2_get_uint32be p in
      if version =? 0 then Err NGTCP2_ERR_MALFORMED_TRANSPORT_PARAM else check_versions cnt p
  end.

Definition decode_version_info (vi : ngtcp2_version_info) (p : list Z)
    : res (ngtcp2_version_info * list Z) :=
  let* (valuelen, p) := decode_valuelen p in
  if (valuelen <? 4) || negb (Z.land valuelen 0x3 =? 0)
  then Err NGTCP2_ERR_MALFORMED_TRANSPORT_PARAM else
  let* (chosen_version, p) := ngtcp2_get_uint32be p in
  if chosen_version =? 0 then Err NGTCP2_ERR_MALFORMED_TRANSPORT_PARAM else
  if 4 <? valuelen then
    let* (available_versions, _) := get_bytes p (valuelen - 4) in
    let* p := check_versions (Z.to_nat ((valuelen - 4) / 4)) p in
    Ok (mk_version_info chosen_version available_versions, p)
  else Ok (mk_version_info chosen_version (vi_available_versions vi), p).

Definition MALFORMED {A : Type} : res A := Err NGTCP2_ERR_MALFORMED_TRANSPORT_PARAM.

(** One round of the loop: a parameter and the pointer behind it. *)
Definition decode_param (params : ngtcp2_transport_params) (p : list Z)
    : res (ngtcp2_transport_params * list Z) :=
  let* (param_type, p) := decode_varint p in
  if param_type =? NGTCP2_TRANSPORT_PARAM_INITIAL_MAX_STREAM_DATA_BIDI_LOCAL then
    let* (v, p) := decode_varint_param p in
    Ok (set_initial_max_stream_data_bidi_local v params, p)
  else if param_type =? NGTCP2_TRANSPORT_PARAM_INITIAL_MAX_STREAM_DATA_BIDI_REMOTE then
    let* (v, p) := decode_varint_param p in
    Ok (set_initial_max_stream_data_bidi_remote v params, p)
  else if param_type =? NGTCP2_TRANSPORT_PARAM_INITIAL_MAX_STREAM_DATA_UNI then
    let* (v, p) := decode_varint_param p in
    Ok (set_initial_max_stream_data_uni v params, p)
  else if param_type =? NGTCP2_TRANSPORT_PARAM_INITIAL_MAX_DATA then
    let* (v, p) := decode_varint_param p in
    Ok (set_initial_max_data v params, p)
  else if param_type =? NGTCP2_TRANSPORT_PARAM_INITIAL_MAX_STREAMS_BIDI then
    let* (v, p) := decode_varint_param p in
    if NGTCP2_MAX_STREAMS <? v then MALFORMED else Ok (set_initial_max_streams_bidi v params, p)
  else if param_type =? NGTCP2_TRANSPORT_PARAM_INITIAL_MAX_STREAMS_UNI then
    let* (v, p) := decode_varint_param p in
    if NGTCP2_MAX_STREAMS <? v then MALFORMED else Ok (set_initial_max_streams_uni v params, p)
  else if param_type =? NGTCP2_TRANSPORT_PARAM_MAX_IDLE_TIMEOUT then
    let* (v, p) := decode_varint_param p in
    let v := if UINT64_MAX / NGTCP2_MILLISECONDS <? v then UINT64_MAX else v in
    Ok (set_max_idle_timeout (u64 (v * NGTCP2_MILLISECONDS)) params, p)
  else if param_type =? NGTCP2_TRANSPORT_PARAM_MAX_UDP_PAYLOAD_SIZE then
    let* (v, p) := decode_varint_param p in
    Ok (set_max_udp_payload_size v params, p)
  else if param_type =? NGTCP2_TRANSPORT_PARAM_STATELESS_RESET_TOKEN then
    let* (valuelen, p) := decode_varint p in
    if negb (valuelen =? NGTCP2_STATELESS_RESET_TOKENLEN) then MALFORMED else
    if zlen p <? NGTCP2_STATELESS_RESET_TOKENLEN then MALFORMED else
    let* (token, p) := get_bytes p NGTCP2_STATELESS_RESET_TOKENLEN in
    Ok (set_stateless_reset_token (Some token) params, p)
  else if param_type =? NGTCP2_TRANSPORT_PARAM_ACK_DELAY_EXPONENT then
    let* (v, p) := decode_varint_param p in
    if 20 <? v then MALFORMED else Ok (set_ack_delay_exponent v params, p)
  else if param_type =? NGTCP2_TRANSPORT_PARAM_PREFERRED_ADDRESS then
    let* (pa, p) := decode_preferred_addr (tp_preferred_addr params) p in
    Ok (set_preferred_addr pa params, p)
  else if param_type =? NGTCP2_TRANSPORT_PARAM_DISABLE_ACTIVE_MIGRATION then
    let* p := decode_zero_param p in
    Ok (set_disable_active_migration true params, p)
  else if param_type =? NGTCP2_TRANSPORT_PARAM_ORIGINAL_DESTINATION_CONNECTION_ID then
    let* (cid, p) := decode_cid_param p in
    Ok (set_original_dcid (Some cid) params, p)
  else if param_type =? NGTCP2_TRANSPORT_PARAM_RETRY_SOURCE_CONNECTION_ID then
    let* (cid, p) := decode_cid_param p in
    Ok (set_retry_scid (Some cid) params, p)
  else if param_type =? NGTCP2_TRANSPORT_PARAM_INITIAL_SOURCE_CONNECTION_ID then
    let* (cid, p) := decode_cid_param p in
    Ok (set_initial_scid (Some cid) params, p)
  else if param_type =? NGTCP2_TRANSPORT_PARAM_MAX_ACK_DELAY then
    let* (v, p) := decode_varint_param p in
    if 16384 <=? v then MALFORMED else
    Ok (set_max_ack_delay (u64 (v * NGTCP2_MILLISECONDS)) params, p)
  else if param_type =? NGTCP2_TRANSPORT_PARAM_ACTIVE_CONNECTION_ID_LIMIT then
    let* (v, p) := decode_varint_param p in
    Ok (set_active_connection_id_limit v params, p)
  else if param_type =? NGTCP2_TRANSPORT_PARAM_MAX_DATAGRAM_FRAME_SIZE then
    let* (v, p) := decode_varint_param p in
    Ok (set_max_datagram_frame_size v params, p)
  else if param_type =? NGTCP2_TRANSPORT_PARAM_GREASE_QUIC_BIT then
    let* p := decode_zero_param p in
    Ok (set_grease_quic_bit true params, p)
  else if param_type =? NGTCP2_TRANSPORT_PARAM_VERSION_INFORMATION then
    let* (vi, p) := decode_version_info (tp_version_info params) p in
    Ok (set_version_info vi params, p)
  else
    let* (valuelen, p) := decode_valuelen p in
    let* p := advance p valuelen in
    Ok (params, p).

(** [for (; end - p >= 2;)], with the final check; every round consumes at
    least one byte, so that [fuel] of the length of the data is enough. *)
Fixpoint decode_params (fuel : nat) (params : ngtcp2_transport_params) (p : list Z)
    : res ngtcp2_transport_params :=
  if 2 <=? zlen p then
    match fuel with
    | O => Fault
    | S fuel =>
        let* (params, p) := decode_param params p in
        decode_params fuel params p
    end
  else if negb (zlen p =? 0) then MALFORMED else Ok params.

Definition ngtcp2_transport_params_decode (data : list Z) : res ngtcp2_transport_params :=
  decode_params (length data) ngtcp2_transport_params_default data.

(** ** Safety of the decoder *)
Definition malformed (e : Z) : Prop := e = NGTCP2_ERR_MALFORMED_TRANSPORT_PARAM.

Definition cid_ok (o : option (list Z)) : Prop :=
  match o with Some c => bytes c /\ zlen c <= NGTCP2_MAX_CIDLEN | None => True end.

Definition preferred_addr_ok (pa : ngtcp2_preferred_addr) : Prop :=
  bytes (pa_cid pa) /\ NGTCP2_MIN_CIDLEN <= zlen (pa_cid pa) <= NGTCP2_MAX_CIDLEN /\
  zlen (pa_ipv4 pa).1 = 4 /\ zlen (pa_ipv4 pa).2 = 2 /\
  zlen (pa_ipv6 pa).1 = 16 /\ zlen (pa_ipv6 pa).2 = 2 /\
  zlen (pa_stateless_reset_token pa) = NGTCP2_STATELESS_RESET_TOKENLEN.

(** The limits of the protocol that the decoder enforces. *)
Record params_ok (p : ngtcp2_transport_params) : Prop := {
  ok_bidi_local : varint (tp_initial_max_stream_data_bidi_local p);
  ok_bidi_remote : varint (tp_initial_max_stream_data_bidi_remote p);
  ok_uni : varint (tp_initial_max_stream_data_uni p);
  ok_data : varint (tp_initial_max_data p);
  ok_streams_bidi : 0 <= tp_initial_max_streams_bidi p <= NGTCP2_MAX_STREAMS;
  ok_streams_uni : 0 <= tp_initial_max_streams_uni p <= NGTCP2_MAX_STREAMS;
  ok_idle : is_u64 (tp_max_idle_timeout p);
  ok_udp : varint (tp_max_udp_payload_size p);
  ok_cid_limit : varint (tp_active_connection_id_limit p);
  ok_exponent : 0 <= tp_ack_delay_exponent p <= 20;
  ok_ack_delay : 0 <= tp_max_ack_delay p < 16384 * NGTCP2_MILLISECONDS;
  ok_datagram : varint (tp_max_datagram_frame_size p);
  ok_odcid : cid_ok (tp_original_dcid p);
  ok_iscid : cid_ok (tp_initial_scid p);
  ok_rscid : cid_ok (tp_retry_scid p);
  ok_token : match tp_stateless_reset_token p with
             | Some t => zlen t = NGTCP2_STATELESS_RESET_TOKENLEN | None => True end;
  ok_preferred : tp_preferred_addr_present p = true -> preferred_addr_ok (tp_preferred_addr p);
  ok_version : tp_version_info_present p = true ->
    0 < vi_chosen_version (tp_version_info p) < 2 ^ 32 /\
    zlen (vi_available_versions (tp_version_info p)) mod 4 = 0;
  ok_versions : zlen (vi_available_versions (tp_version_info p)) mod 4 = 0;
}.

(** What a step over a part of the data leaves. *)
Definition shorter {A : Type} (P : A -> Prop) (p : list Z) (r : A * list Z) : Prop :=
  P r.1 /\ bytes r.2 /\ zlen r.2 < zlen p.

Lemma wp_decode_varint p :
  bytes p -> wp (decode_varint p) (shorter varint p) malformed.
Proof.
  intros Hb. unfold decode_varint. pose proof (zlen_nonneg p). wp_steps; try done.
  split_and!; [done|done|cbn; lia].
Qed.

Lemma wp_decode_varint_param p :
  bytes p -> wp (decode_varint_param p) (shorter varint p) malformed.
Proof.
  intros Hb. unfold decode_varint_param. wp_step.
  eapply wp_mono; [by apply wp_decode_varint| |done].
  intros [vl q] (Hv & Hbq & Hlq). cbn [fst snd] in *. unfold varint in Hv.
  pose proof (zlen_nonneg q). wp_steps; try done.
  subst. split_and!; [done|done|cbn; lia].
Qed.

Lemma wp_decode_zero_param p :
  bytes p -> wp (decode_zero_param p) (fun q => bytes q /\ zlen q < zlen p) malformed.
Proof.
  intros Hb. destruct p as [|b p]; [reflexivity|]. cbn [decode_zero_param].
  apply bytes_cons in Hb as [_ Hb]. destruct (negb (b =? 0)); [reflexivity|].
  cbn [wp]. split; [done|]. rewrite zlen_cons. lia.
Qed.

Lemma wp_decode_cid_param p :
  bytes p -> wp (decode_cid_param p) (shorter (fun c => cid_ok (Some c)) p) malformed.
Proof.
  intros Hb. unfold decode_cid_param. wp_step.
  eapply wp_mono; [by apply wp_decode_varint| |done].
  intros [vl q] (Hv & Hbq & Hlq). cbn [fst snd] in *. unfold varint in Hv.
  destruct (_ || _) eqn:E; [reflexivity|].
  rewrite !orb_false_iff, !Z.ltb_ge in E. destruct E as [[_ ?] ?].
  wp_step. apply wp_cid_init; [done|lia|done|]. intros c Hc Hbc. wp_steps.
  unfold shorter. cbn [fst snd cid_ok]. split_and!; done || lia.
Qed.

Lemma wp_decode_valuelen p :
  bytes p ->
  wp (decode_valuelen p)
     (fun r => shorter varint p r /\ r.1 <= zlen r.2) malformed.
Proof.
  intros Hb. unfold decode_valuelen. wp_step.
  eapply wp_mono; [by apply wp_decode_varint| |done].
  intros [vl q] H. cbn [fst snd] in *. wp_steps; try done.
Qed.

Lemma wp_decode_preferred_addr pa p :
  bytes p -> wp (decode_preferred_addr pa p) (shorter preferred_addr_ok p) malformed.
Proof.
  intros Hb. unfold decode_preferred_addr. cbv zeta. wp_step.
  eapply wp_mono; [by apply wp_decode_valuelen| |done].
  intros [vl q] ((Hv & Hbq & Hlq) & Hle). cbn [fst snd] in *. unfold varint in Hv.
  unfold NGTCP2_STATELESS_RESET_TOKENLEN, ngtcp2_get_uint16, NGTCP2_MAX_CIDLEN,
    NGTCP2_MIN_CIDLEN. wp_steps; try done.
  unfold shorter, preferred_addr_ok, NGTCP2_MAX_CIDLEN, NGTCP2_MIN_CIDLEN,
    NGTCP2_STATELESS_RESET_TOKENLEN.
  cbn [fst snd pa_cid pa_ipv4 pa_ipv6 pa_stateless_reset_token]. split_and!; done || lia.
Qed.

Lemma wp_check_versions k p :
  bytes p -> Z.of_nat k * 4 <= zlen p ->
  wp (check_versions k p) (fun q => bytes q /\ zlen q = zlen p - Z.of_nat k * 4) malformed.
Proof.
  revert p. induction k as [|k IH]; intros p Hb Hl; cbn [check_versions].
  - cbn [wp]. split; [done|lia].
  - wp_steps; try done. eapply wp_mono; [apply IH; [done|lia]| |done].
    intros r [? ?]. split; [done|lia].
Qed.

Definition version_info_ok (vi : ngtcp2_version_info) : Prop :=
  0 < vi_chosen_version vi < 2 ^ 32 /\ zlen (vi_available_versions vi) mod 4 = 0.

Lemma land_3_mod v : Z.land v 0x3 = v mod 4.
Proof. change 0x3 with (2 ^ 2 - 1). by rewrite land_ones_mod. Qed.

Lemma wp_decode_version_info vi p :
  bytes p -> zlen (vi_available_versions vi) mod 4 = 0 ->
  wp (decode_version_info vi p) (shorter version_info_ok p) malformed.
Proof.
  intros Hb Hvi. unfold decode_version_info. wp_step.
  eapply wp_mono; [by apply wp_decode_valuelen| |done].
  intros [vl q] ((Hv & Hbq & Hlq) & Hle). cbn [fst snd] in *. unfold varint in Hv.
  rewrite land_3_mod. destruct (_ || _) eqn:E; [reflexivity|].
  rewrite orb_false_iff, Z.ltb_ge, negb_false_iff, Z.eqb_eq in E. destruct E as [H4 Hm].
  wp_steps; try done.
  - assert (Hdiv : (vl - 4) mod 4 = 0).
    { rewrite Zminus_mod, Hm. done. }
    pose proof (Z.div_mod (vl - 4) 4 ltac:(lia)).
    eapply wp_mono; [apply wp_check_versions; [done|]| |done].
    { rewrite Z2Nat.id by (apply Z.div_pos; lia). lia. }
    intros r [Hbr Hr]. rewrite Z2Nat.id in Hr by (apply Z.div_pos; lia).
    unfold shorter, version_info_ok. cbn -[Z.pow Z.modulo].
    split_and!; try done; try lia; congruence.
  - unfold shorter, version_info_ok. cbn -[Z.pow Z.modulo].
    split_and!; done || lia.
Qed.

Lemma wp_fst {A : Type} (c : res (A * list Z)) (P : A -> Prop) p (Q : Z -> Prop)
    (f : A -> list Z -> res (ngtcp2_transport_params * list Z)) R :
  wp c (shorter P p) Q ->
  (forall a q, P a -> bytes q -> zlen q < zlen p -> wp (f a q) R Q) ->
  wp (bind c (fun '(a, q) => f a q)) R Q.
Proof.
  intros Hc Hf. apply wp_bind. eapply wp_mono; [exact Hc| |done].
  intros [a q] (Ha & Hb & Hl). auto.
Qed.

(** The fields an assignment does not touch keep their bounds. *)
#[local] Ltac set_ok Hok :=
  split;
  [ try exact (ok_bidi_local _ Hok)
  | try exact (ok_bidi_remote _ Hok)
  | try exact (ok_uni _ Hok)
  | try exact (ok_data _ Hok)
  | try exact (ok_streams_bidi _ Hok)
  | try exact (ok_streams_uni _ Hok)
  | try exact (ok_idle _ Hok)
  | try exact (ok_udp _ Hok)
  | try exact (ok_cid_limit _ Hok)
  | try exact (ok_exponent _ Hok)
  | try exact (ok_ack_delay _ Hok)
  | try exact (ok_datagram _ Hok)
  | try exact (ok_odcid _ Hok)
  | try exact (ok_iscid _ Hok)
  | try exact (ok_rscid _ Hok)
  | try exact (ok_token _ Hok)
  | try exact (ok_preferred _ Hok)
  | try exact (ok_version _ Hok)
  | try exact (ok_versions _ Hok) ].

Lemma decode_param_safe params p :
  params_ok params -> bytes p ->
  wp (decode_param params p) (shorter params_ok p) malformed.
Proof.
  intros Hok Hb. unfold decode_param. eapply wp_fst; [by apply wp_decode_varint|].
  intros t q Ht Hq Hlq.
  assert (Hsh : forall (P : ngtcp2_transport_params) r, params_ok P -> bytes r -> zlen r < zlen q ->
            shorter params_ok p (P, r)) by (intros; split_and!; cbn; [done|done|lia]).
  unfold MALFORMED.
  repeat match goal with
  | |- wp (if t =? ?c then _ else _) _ _ => case (t =? c)
  end.
  all: try (eapply wp_fst; [by apply wp_decode_cid_param|]; intros c r Hc Hbr Hlr;
            cbn [wp]; apply Hsh; [set_ok Hok; exact Hc|done|done]; fail).
  all: try (wp_step; eapply wp_mono; [by apply wp_decode_zero_param| |done]; intros r [Hbr Hlr];
            cbn [wp]; apply Hsh; [set_ok Hok; fail|done|done]; fail).
  all: try (eapply wp_fst; [by apply wp_decode_varint_param|]; intros v r Hv Hbr Hlr;
            unfold varint in Hv; wp_steps; try reflexivity; apply Hsh; [|done|done];
            set_ok Hok; cbn; unfold varint; lia).
  - eapply wp_fst; [by apply wp_decode_varint_param|]. intros v r Hv Hbr Hlr. cbn [wp].
    apply Hsh; [|done|done]. set_ok Hok. apply u64_range.
  - eapply wp_fst; [by apply wp_decode_varint|]. intros v r Hv Hbr Hlr.
    unfold NGTCP2_STATELESS_RESET_TOKENLEN. wp_steps; try reflexivity.
    apply Hsh; [|done|lia]. by set_ok Hok.
  - eapply wp_fst; [by apply wp_decode_preferred_addr|]. intros pa r Hpa Hbr Hlr. cbn [wp].
    apply Hsh; [|done|done]. by set_ok Hok.
  - eapply wp_fst; [by apply wp_decode_varint_param|]. intros v r Hv Hbr Hlr.
    unfold varint in Hv. wp_step; [reflexivity|]. cbn [wp]. apply Hsh; [|done|done].
    unfold NGTCP2_MILLISECONDS. rewrite u64_small by (unfold is_u64; lia).
    set_ok Hok. cbn [tp_max_ack_delay set_max_ack_delay]. unfold NGTCP2_MILLISECONDS. lia.
  - eapply wp_fst; [apply wp_decode_version_info; [done|exact (ok_versions _ Hok)]|]. intros vi r Hvi Hbr Hlr.
    cbn [wp]. apply Hsh; [|done|done]. set_ok Hok; first [exact (fun _ => Hvi) | exact (proj2 Hvi)].
  - wp_step. eapply wp_mono; [by apply wp_decode_valuelen| |done].
    intros [v r] ((Hv & Hbr & Hlr) & Hle). unfold varint in Hv. cbn [fst snd] in *. wp_steps.
    apply Hsh; [done|done|lia].
Qed.

Lemma decode_params_safe fuel params p :
  params_ok params -> bytes p -> (length p <= fuel)%nat ->
  wp (decode_params fuel params p) params_ok malformed.
Proof.
  revert params p. induction fuel as [|fuel IH]; intros params p Hok Hb Hf; cbn [decode_params].
  - destruct (Z.leb_spec 2 (zlen p)); [unfold zlen in *; lia|].
    by destruct (negb (zlen p =? 0)).
  - destruct (Z.leb_spec 2 (zlen p)); [|by destruct (negb (zlen p =? 0))].
    wp_step. eapply wp_mono; [by apply decode_param_safe| |done].
    intros [params' q] (Hok' & Hbq & Hlq). cbn [fst snd] in *. apply IH; [done..|].
    unfold zlen in Hlq. lia.
Qed.

Lemma default_params_ok : params_ok ngtcp2_transport_params_default.
Proof. split; first [exact I | (by vm_compute) | done]. Qed.

(** C19: decoding of transport parameters is memory safe and enforces the
    limits of the protocol.  For every byte string the decoder terminates
    and returns [NGTCP2_ERR_MALFORMED_TRANSPORT_PARAM] or parameters whose
    integers are in range (streams up to 2^60, exponent up to 20,
    max_ack_delay below 2^14 ms), whose connection ids have at most 20
    bytes, and whose version information, when present, has a chosen
    version other than 0 and whole versions. *)
Theorem transport_params_decode_safe (data : list Z) :
  bytes data -> wp (ngtcp2_transport_params_decode data) params_ok malformed.
Proof. intros. apply decode_params_safe; [apply default_params_ok|done|done]. Qed.

Lemma transport_params_decode_safe_witness :
  let data := [0x04; 0x01; 0x3f; 0x11; 0x08; 0; 0; 0; 1; 0x6b; 0x33; 0x43; 0xcf; 0x2a] in
  wp (ngtcp2_transport_params_decode data) params_ok malformed.
Proof. apply transport_params_decode_safe. repeat constructor; by vm_compute. Defined.
