(* ===== verification/TransportParamsCodec.v ===== *)
(** * Round trip of the transport parameters

    The wire format of the parameters as a specification
    ([params_bytes]), the proof that both passes of
    [ngtcp2_transport_params_encode] follow it, and that
    [ngtcp2_transport_params_decode] reads it back. *)

From S2P Require Import Prelude Conv Const Wp PktHd FrameSafe TransportParams.

(** ** Wire format *)
Definition opt (c : bool) (l : list Z) : list Z := if c then l else [].

Definition varint_param_bytes (id v : Z) : list Z :=
  uvarint_bytes id ++ uvarint_bytes (zlen (uvarint_bytes v)) ++ uvarint_bytes v.

(** A parameter with a value given by its bytes. *)
Definition opaque_param_bytes (id : Z) (l : list Z) : list Z :=
  uvarint_bytes id ++ uvarint_bytes (zlen l) ++ l.

Definition preferred_addr_bytes (pa : ngtcp2_preferred_addr) : list Z :=
  (pa_ipv4 pa).1 ++ (pa_ipv4 pa).2 ++ (pa_ipv6 pa).1 ++ (pa_ipv6 pa).2
  ++ zlen (pa_cid pa) :: pa_cid pa ++ pa_stateless_reset_token pa.

Definition version_info_bytes (vi : ngtcp2_version_info) : list Z :=
  be_encode 4 (vi_chosen_version vi) ++ vi_available_versions vi.

Definition params_bytes (params : ngtcp2_transport_params) : list Z :=
  opt (is_some (tp_original_dcid params))
    (opaque_param_bytes NGTCP2_TRANSPORT_PARAM_ORIGINAL_DESTINATION_CONNECTION_ID
       (some_or [] (tp_original_dcid params)))
  ++ opt (is_some (tp_stateless_reset_token params))
    (opaque_param_bytes NGTCP2_TRANSPORT_PARAM_STATELESS_RESET_TOKEN
       (some_or [] (tp_stateless_reset_token params)))
  ++ opt (tp_preferred_addr_present params)
    (opaque_param_bytes NGTCP2_TRANSPORT_PARAM_PREFERRED_ADDRESS
       (preferred_addr_bytes (tp_preferred_addr params)))
  ++ opt (is_some (tp_retry_scid params))
    (opaque_param_bytes NGTCP2_TRANSPORT_PARAM_RETRY_SOURCE_CONNECTION_ID
       (some_or [] (tp_retry_scid params)))
  ++ opt (is_some (tp_initial_scid params))
    (opaque_param_bytes NGTCP2_TRANSPORT_PARAM_INITIAL_SOURCE_CONNECTION_ID
       (some_or [] (tp_initial_scid params)))
  ++ opt (negb (tp_initial_max_stream_data_bidi_local params =? 0))
    (varint_param_bytes NGTCP2_TRANSPORT_PARAM_INITIAL_MAX_STREAM_DATA_BIDI_LOCAL
       (tp_initial_max_stream_data_bidi_local params))
  ++ opt (negb (tp_initial_max_stream_data_bidi_remote params =? 0))
    (varint_param_bytes NGTCP2_TRANSPORT_PARAM_INITIAL_MAX_STREAM_DATA_BIDI_REMOTE
       (tp_initial_max_stream_data_bidi_remote params))
  ++ opt (negb (tp_initial_max_stream_data_uni params =? 0))
    (varint_param_bytes NGTCP2_TRANSPORT_PARAM_INITIAL_MAX_STREAM_DATA_UNI
       (tp_initial_max_stream_data_uni params))
  ++ opt (negb (tp_initial_max_data params =? 0))
    (varint_param_bytes NGTCP2_TRANSPORT_PARAM_INITIAL_MAX_DATA (tp_initial_max_data params))
  ++ opt (negb (tp_initial_max_streams_bidi params =? 0))
    (varint_param_bytes NGTCP2_TRANSPORT_PARAM_INITIAL_MAX_STREAMS_BIDI
       (tp_initial_max_streams_bidi params))
  ++ opt (negb (tp_initial_max_streams_uni params =? 0))
    (varint_param_bytes NGTCP2_TRANSPORT_PARAM_INITIAL_MAX_STREAMS_UNI
       (tp_initial_max_streams_uni params))
  ++ opt (negb (tp_max_udp_payload_size params =? NGTCP2_DEFAULT_MAX_RECV_UDP_PAYLOAD_SIZE))
    (varint_param_bytes NGTCP2_TRANSPORT_PARAM_MAX_UDP_PAYLOAD_SIZE
       (tp_max_udp_payload_size params))
  ++ opt (negb (tp_ack_delay_exponent params =? NGTCP2_DEFAULT_ACK_DELAY_EXPONENT))
    (varint_param_bytes NGTCP2_TRANSPORT_PARAM_ACK_DELAY_EXPONENT
       (tp_ack_delay_exponent params))
  ++ opt (tp_disable_active_migration params)
    (opaque_param_bytes NGTCP2_TRANSPORT_PARAM_DISABLE_ACTIVE_MIGRATION [])
  ++ opt (negb (tp_max_ack_delay params =? NGTCP2_DEFAULT_MAX_ACK_DELAY))
    (varint_param_bytes NGTCP2_TRANSPORT_PARAM_MAX_ACK_DELAY
       (tp_max_ack_delay params / NGTCP2_MILLISECONDS))
  ++ opt (negb (tp_max_idle_timeout params =? 0))
    (varint_param_bytes NGTCP2_TRANSPORT_PARAM_MAX_IDLE_TIMEOUT
       (tp_max_idle_timeout params / NGTCP2_MILLISECONDS))
  ++ opt (negb (tp_active_connection_id_limit params =? 0)
          && negb (tp_active_connection_id_limit params
                   =? NGTCP2_DEFAULT_ACTIVE_CONNECTION_ID_LIMIT))
    (varint_param_bytes NGTCP2_TRANSPORT_PARAM_ACTIVE_CONNECTION_ID_LIMIT
       (tp_active_connection_id_limit params))
  ++ opt (negb (tp_max_datagram_frame_size params =? 0))
    (varint_param_bytes NGTCP2_TRANSPORT_PARAM_MAX_DATAGRAM_FRAME_SIZE
       (tp_max_datagram_frame_size params))
  ++ opt (tp_grease_quic_bit params)
    (opaque_param_bytes NGTCP2_TRANSPORT_PARAM_GREASE_QUIC_BIT [])
  ++ opt (tp_version_info_present params)
    (opaque_param_bytes NGTCP2_TRANSPORT_PARAM_VERSION_INFORMATION
       (version_info_bytes (tp_version_info params))).

(** An address and a port that are on the wire as they are in the record:
    an address that is not present is all zero, a present one is not. *)
Definition sockaddr_canonical (n : nat) (present : bool) (sa : list Z * list Z) : Prop :=
  length sa.1 = n /\ length sa.2 = 2%nat /\
  if present then any_nonzero sa.2 || any_nonzero sa.1 = true
  else sa = (replicate n 0, [0; 0]).

Definition preferred_addr_canonical (pa : ngtcp2_preferred_addr) : Prop :=
  preferred_addr_ok pa /\
  sockaddr_canonical 4 (pa_ipv4_present pa) (pa_ipv4 pa) /\
  sockaddr_canonical 16 (pa_ipv6_present pa) (pa_ipv6 pa).

Definition versions_wire (versions : list Z) : list Z := concat (map (be_encode 4) versions).

(** Parameters that the wire format can represent without loss: times in
    whole milliseconds, a limit of connection ids other than 0, and zero
    values behind flags that are not set. *)
Record params_wf (p : ngtcp2_transport_params) : Prop := {
  wf_ok : params_ok p;
  wf_idle : tp_max_idle_timeout p mod NGTCP2_MILLISECONDS = 0;
  wf_ack_delay : tp_max_ack_delay p mod NGTCP2_MILLISECONDS = 0;
  wf_limit : tp_active_connection_id_limit p <> 0;
  wf_preferred : if tp_preferred_addr_present p
                 then preferred_addr_canonical (tp_preferred_addr p)
                 else tp_preferred_addr p = preferred_addr_zero;
  wf_version : if tp_version_info_present p then
                 exists versions,
                   vi_available_versions (tp_version_info p) = versions_wire versions /\
                   Forall (fun v => 0 < v < 2 ^ 32) versions /\ zlen versions < 2 ^ 50
               else tp_version_info p = mk_version_info 0 [];
}.

(** *** The two passes of the encoder *)
Section Encoder.
Implicit Types (id v len : Z) (p l : list Z) (c : bool).

Lemma add_if_eq c n len l :
  (c = true -> n = Ok (zlen l)) -> add_if c n len = Ok (len + zlen (opt c l)).
Proof.
  intros H. unfold add_if, opt. destruct c.
  - by rewrite H.
  - change (zlen []) with 0. by rewrite Z.add_0_r.
Qed.

Lemma write_if_eq c w p l :
  (c = true -> w p = Ok (p ++ l)) -> write_if c w p = Ok (p ++ opt c l).
Proof. intros H. unfold write_if, opt. destruct c; [auto|]. by rewrite app_nil_r. Qed.

Lemma varint_uvarint_len v : varint (zlen (uvarint_bytes v)).
Proof.
  rewrite zlen_uvarint_bytes. unfold varint.
  destruct (uvarint_size_cases v) as [->|[->|[->| ->]]]; lia.
Qed.

Lemma varint_paramlen_eq id v :
  varint id -> varint v -> varint_paramlen id v = Ok (zlen (varint_param_bytes id v)).
Proof.
  intros. unfold varint_paramlen, varint_param_bytes. rewrite put_uvarintlen_eq by done. cbn [bind].
  rewrite put_uvarintlen_eq by done. cbn [bind].
  rewrite put_uvarintlen_eq by apply varint_uvarint_len. cbn [bind]. rewrite !zlen_app.
  f_equal. lia.
Qed.

Lemma write_varint_param_eq p id v :
  varint id -> varint v -> write_varint_param p id v = Ok (p ++ varint_param_bytes id v).
Proof.
  intros. unfold write_varint_param, varint_param_bytes.
  rewrite put_uvarint_eq by done. cbn [bind]. rewrite put_uvarintlen_eq by done. cbn [bind].
  rewrite put_uvarint_eq by apply varint_uvarint_len. cbn [bind].
  rewrite put_uvarint_eq by done. by rewrite <- !app_assoc.
Qed.

Lemma opaque_paramlen_eq id l n :
  varint id -> n = zlen l -> varint n ->
  opaque_paramlen id n = Ok (zlen (opaque_param_bytes id l)).
Proof.
  intros ? -> ?. unfold opaque_paramlen, opaque_param_bytes.
  rewrite !put_uvarintlen_eq by done. cbn [bind]. rewrite !zlen_app. f_equal. lia.
Qed.

Lemma put_opaque_eq p id l n :
  varint id -> n = zlen l -> varint n ->
  (let* p := ngtcp2_put_uvarint p id in
   let* p := ngtcp2_put_uvarint p n in Ok (p ++ l)) = Ok (p ++ opaque_param_bytes id l).
Proof.
  intros ? -> ?. unfold opaque_param_bytes. rewrite put_uvarint_eq by done. cbn [bind].
  rewrite put_uvarint_eq by done. cbn [bind]. by rewrite <- !app_assoc.
Qed.

Lemma app_if_nonempty p l : (if negb (zlen l =? 0) then p ++ l else p) = p ++ l.
Proof.
  destruct (Z.eqb_spec (zlen l) 0) as [E|]; [|done]. by rewrite (zlen_0_nil l E), app_nil_r.
Qed.

Lemma zero_paramlen_eq id : varint id -> zero_paramlen id = Ok (zlen (opaque_param_bytes id [])).
Proof.
  intros. unfold zero_paramlen, opaque_param_bytes. rewrite put_uvarintlen_eq by done.
  cbn [bind]. rewrite zlen_app. done.
Qed.

Lemma write_zero_param_eq p id :
  varint id -> write_zero_param p id = Ok (p ++ opaque_param_bytes id []).
Proof.
  intros. unfold write_zero_param, opaque_param_bytes. rewrite put_uvarint_eq by done.
  cbn [bind]. by rewrite <- app_assoc.
Qed.

Lemma write_cid_param_eq p id l :
  varint id -> zlen l <= NGTCP2_MAX_CIDLEN ->
  write_cid_param p id l = Ok (p ++ opaque_param_bytes id l).
Proof.
  intros Hid Hl. unfold write_cid_param.
  destruct (Z.leb_spec (zlen l) NGTCP2_MAX_CIDLEN); [|lia].
  replace ((zlen l =? 0) || (NGTCP2_MIN_CIDLEN <=? zlen l)) with true.
  2:{ unfold NGTCP2_MIN_CIDLEN. zlen_pos. bcase; simpl; lia. }
  rewrite <- (put_opaque_eq p id l (zlen l)); [|done|done|unfold varint, NGTCP2_MAX_CIDLEN in *; zlen_pos; lia].
  destruct (ngtcp2_put_uvarint p id); cbn [bind]; [|done..].
  destruct (ngtcp2_put_uvarint a (zlen l)); cbn [bind]; [|done..]. by rewrite app_if_nonempty.
Qed.

Lemma cid_paramlen_eq id l :
  varint id -> zlen l <= NGTCP2_MAX_CIDLEN ->
  cid_paramlen id l = Ok (zlen (opaque_param_bytes id l)).
Proof.
  intros. apply (opaque_paramlen_eq id l (zlen l)); [done..|].
  unfold varint, NGTCP2_MAX_CIDLEN in *. zlen_pos. lia.
Qed.

Lemma sockaddr_written n b sa p :
  sockaddr_canonical n b sa ->
  (if b then ngtcp2_put_uint16 (p ++ sa.1) sa.2 else ngtcp2_put_uint16 (p ++ replicate n 0) [0; 0])
  = p ++ sa.1 ++ sa.2.
Proof.
  destruct sa as [a [|x [|y [|]]]]; unfold ngtcp2_put_uint16; intros (_ & Hl & H);
    cbn [fst snd] in *; try discriminate Hl.
  change (ztake 2 [x; y]) with [x; y]. change (ztake 2 [0; 0]) with [0; 0].
  destruct b; [|injection H as -> -> ->]; by rewrite <- app_assoc.
Qed.

Lemma preferred_addrlen_eq pa :
  preferred_addr_ok pa -> preferred_addrlen pa = zlen (preferred_addr_bytes pa).
Proof.
  intros (_ & _ & H1 & H2 & H3 & H4 & H5). unfold preferred_addrlen, preferred_addr_bytes.
  zl. rewrite H1, H2, H3, H4, H5. lia.
Qed.

Lemma varint_preferred_addrlen pa : preferred_addr_ok pa -> varint (preferred_addrlen pa).
Proof.
  intros (_ & H & _). unfold preferred_addrlen, varint, NGTCP2_MAX_CIDLEN,
    NGTCP2_STATELESS_RESET_TOKENLEN, NGTCP2_MIN_CIDLEN in *. lia.
Qed.

Lemma write_preferred_addr_eq pa p :
  preferred_addr_canonical pa ->
  write_preferred_addr pa p
  = Ok (p ++ opaque_param_bytes NGTCP2_TRANSPORT_PARAM_PREFERRED_ADDRESS (preferred_addr_bytes pa)).
Proof.
  intros (Hok & H4 & H6). unfold write_preferred_addr.
  rewrite put_uvarint_eq by done. cbn [bind].
  rewrite put_uvarint_eq by (by apply varint_preferred_addrlen). cbn [bind]. cbv zeta.
  rewrite (sockaddr_written 4), (sockaddr_written 16) by done. rewrite app_if_nonempty.
  unfold opaque_param_bytes. rewrite <- preferred_addrlen_eq by done.
  destruct Hok as (_ & Hc & _). unfold NGTCP2_MAX_CIDLEN, NGTCP2_MIN_CIDLEN in Hc.
  rewrite u8_small by lia. unfold preferred_addr_bytes. by rewrite <- !app_assoc.
Qed.

Lemma write_version_info_eq vi p :
  0 <= vi_chosen_version vi < 2 ^ 32 -> varint (version_infolen vi) ->
  write_version_info vi p
  = Ok (p ++ opaque_param_bytes NGTCP2_TRANSPORT_PARAM_VERSION_INFORMATION (version_info_bytes vi)).
Proof.
  intros Hv Hl. unfold write_version_info.
  rewrite put_uvarint_eq by done. cbn [bind]. rewrite put_uvarint_eq by done. cbn [bind].
  rewrite app_if_nonempty. unfold opaque_param_bytes, version_info_bytes.
  replace (zlen (be_encode 4 (vi_chosen_version vi) ++ vi_available_versions vi))
    with (version_infolen vi) by (rewrite zlen_app, zlen_be_encode; done).
  unfold ngtcp2_put_uint32be. rewrite u32_small by done. by rewrite <- !app_assoc.
Qed.

Lemma write_stateless_reset_token_eq l p :
  zlen l = NGTCP2_STATELESS_RESET_TOKENLEN ->
  write_stateless_reset_token l p
  = Ok (p ++ opaque_param_bytes NGTCP2_TRANSPORT_PARAM_STATELESS_RESET_TOKEN l).
Proof. intros H. by apply put_opaque_eq. Qed.

Lemma zlen_versions_wire vs : zlen (versions_wire vs) = 4 * zlen vs.
Proof.
  unfold versions_wire. induction vs as [|v vs IH]; [done|]. cbn [map concat].
  rewrite zlen_app, IH, zlen_be_encode, zlen_cons. lia.
Qed.
End Encoder.

(** *** Well-formed parameters *)
Section WF.
Context (params : ngtcp2_transport_params) (Hwf : params_wf params).

Lemma wf_cid_len (f : ngtcp2_transport_params -> option (list Z)) :
  cid_ok (f params) -> zlen (some_or [] (f params)) <= NGTCP2_MAX_CIDLEN.
Proof. destruct (f params); cbn; [by intros []|]. intros _. done. Qed.

Lemma wf_token_len :
  is_some (tp_stateless_reset_token params) = true ->
  zlen (some_or [] (tp_stateless_reset_token params)) = NGTCP2_STATELESS_RESET_TOKENLEN.
Proof. pose proof (ok_token _ (wf_ok _ Hwf)). by destruct (tp_stateless_reset_token params). Qed.

Lemma wf_preferred_ok :
  tp_preferred_addr_present params = true ->
  preferred_addr_canonical (tp_preferred_addr params).
Proof. intros E. pose proof (wf_preferred _ Hwf) as H. by rewrite E in H. Qed.

Lemma wf_version_ok :
  tp_version_info_present params = true ->
  0 < vi_chosen_version (tp_version_info params) < 2 ^ 32 /\
  exists vs, vi_available_versions (tp_version_info params) = versions_wire vs /\
    Forall (fun v => 0 < v < 2 ^ 32) vs /\ varint (version_infolen (tp_version_info params)).
Proof.
  intros E. split; [exact (proj1 (ok_version _ (wf_ok _ Hwf) E))|].
  pose proof (wf_version _ Hwf) as H. rewrite E in H. destruct H as (vs & H1 & H2 & H3).
  exists vs. split_and!; [done..|]. unfold version_infolen. rewrite H1, zlen_versions_wire.
  unfold varint. zlen_pos. lia.
Qed.

Lemma wf_idle_ms : 0 <= tp_max_idle_timeout params / NGTCP2_MILLISECONDS <= UINT64_MAX / NGTCP2_MILLISECONDS.
Proof.
  pose proof (ok_idle _ (wf_ok _ Hwf)) as H. unfold is_u64 in H. split.
  - apply Z.div_pos; [lia|done].
  - apply Z.div_le_mono; [done|]. change UINT64_MAX with (2 ^ 64 - 1). lia.
Qed.

Lemma wf_ack_delay_ms : 0 <= tp_max_ack_delay params / NGTCP2_MILLISECONDS < 16384.
Proof.
  pose proof (ok_ack_delay _ (wf_ok _ Hwf)) as H. split.
  - apply Z.div_pos; [lia|done].
  - apply Z.div_lt_upper_bound; [done|lia].
Qed.

Lemma wf_varints :
  varint (tp_initial_max_streams_bidi params) /\ varint (tp_initial_max_streams_uni params) /\
  varint (tp_ack_delay_exponent params) /\
  varint (tp_max_ack_delay params / NGTCP2_MILLISECONDS) /\
  varint (tp_max_idle_timeout params / NGTCP2_MILLISECONDS).
Proof.
  pose proof (ok_streams_bidi _ (wf_ok _ Hwf)). pose proof (ok_streams_uni _ (wf_ok _ Hwf)).
  pose proof (ok_exponent _ (wf_ok _ Hwf)). pose proof wf_idle_ms as Hi. pose proof wf_ack_delay_ms.
  change (UINT64_MAX / NGTCP2_MILLISECONDS) with 18446744073709 in Hi.
  unfold varint, NGTCP2_MAX_STREAMS in *. split_and!; lia.
Qed.
End WF.

Create HintDb tparams.
#[export] Hint Resolve ok_bidi_local ok_bidi_remote ok_uni ok_data ok_udp ok_cid_limit ok_datagram
  ok_odcid ok_iscid ok_rscid wf_ok : tparams.

Section Passes.
Context (params : ngtcp2_transport_params) (Hwf : params_wf params).

Lemma preferred_paramlen_eq :
  tp_preferred_addr_present params = true ->
  (assert! NGTCP2_MIN_CIDLEN <=? zlen (pa_cid (tp_preferred_addr params));
   assert! zlen (pa_cid (tp_preferred_addr params)) <=? NGTCP2_MAX_CIDLEN;
   opaque_paramlen NGTCP2_TRANSPORT_PARAM_PREFERRED_ADDRESS
     (preferred_addrlen (tp_preferred_addr params)))
  = Ok (zlen (opaque_param_bytes NGTCP2_TRANSPORT_PARAM_PREFERRED_ADDRESS
                (preferred_addr_bytes (tp_preferred_addr params)))).
Proof.
  intros H. destruct (wf_preferred_ok _ Hwf H) as (Hok & _). pose proof Hok as (_ & [Hc1 Hc2] & _).
  apply Z.leb_le in Hc1 as ->. apply Z.leb_le in Hc2 as ->.
  apply opaque_paramlen_eq; [done|by apply preferred_addrlen_eq|by apply varint_preferred_addrlen].
Qed.

Lemma token_paramlen_eq :
  is_some (tp_stateless_reset_token params) = true ->
  opaque_paramlen NGTCP2_TRANSPORT_PARAM_STATELESS_RESET_TOKEN NGTCP2_STATELESS_RESET_TOKENLEN
  = Ok (zlen (opaque_param_bytes NGTCP2_TRANSPORT_PARAM_STATELESS_RESET_TOKEN
                (some_or [] (tp_stateless_reset_token params)))).
Proof.
  intros H. apply opaque_paramlen_eq; [done| |done]. by rewrite (wf_token_len _ Hwf H).
Qed.

#[local] Ltac item :=
  let H := fresh in intros H;
  destruct (wf_varints params Hwf) as (? & ? & ? & ? & ?);
  pose proof (wf_cid_len params tp_original_dcid (ok_odcid _ (wf_ok _ Hwf)));
  pose proof (wf_cid_len params tp_retry_scid (ok_rscid _ (wf_ok _ Hwf)));
  pose proof (wf_cid_len params tp_initial_scid (ok_iscid _ (wf_ok _ Hwf)));
  first
    [ apply varint_paramlen_eq; [done|eauto with tparams; fail]
    | apply write_varint_param_eq; [done|eauto with tparams; fail]
    | by apply cid_paramlen_eq | by apply write_cid_param_eq
    | by apply zero_paramlen_eq | by apply write_zero_param_eq
    | apply write_stateless_reset_token_eq; by apply wf_token_len
    | apply write_preferred_addr_eq; by apply wf_preferred_ok
    | by apply preferred_paramlen_eq | by apply token_paramlen_eq ].

Lemma transport_params_len_eq : transport_params_len params = Ok (zlen (params_bytes params)).
Proof.
  unfold transport_params_len, params_bytes. cbv zeta. rewrite !zlen_app, !Z.add_assoc.
  do 19 (erewrite add_if_eq; [cbn [bind]; try rewrite Z.add_0_l|item]).
  erewrite add_if_eq; [reflexivity|]. intros E.
  destruct (wf_version_ok _ Hwf E) as (_ & vs & _ & _ & Hl).
  apply opaque_paramlen_eq; [done| |done].
  unfold version_infolen, version_info_bytes. by rewrite zlen_app, zlen_be_encode.
Qed.

Lemma transport_params_write_eq p :
  transport_params_write params p = Ok (p ++ params_bytes params).
Proof.
  unfold transport_params_write, params_bytes. cbv zeta. rewrite !app_assoc.
  do 19 (erewrite write_if_eq; [cbn [bind]|item]).
  erewrite write_if_eq; [reflexivity|]. intros E.
  destruct (wf_version_ok _ Hwf E) as ([? ?] & vs & _ & _ & Hl).
  apply write_version_info_eq; [lia|done].
Qed.
End Passes.

(** *** The decoder on the bytes of the encoder *)
Section Decoder.
Implicit Types (v id : Z) (l r : list Z) (params : ngtcp2_transport_params).

Lemma decode_varint_bytes v r : varint v -> decode_varint (uvarint_bytes v ++ r) = Ok (v, r).
Proof.
  intros Hv. unfold decode_varint. pose proof (zlen_uvarint_bytes v) as Hs.
  rewrite get_uvarintlen_bytes by done. cbn [bind].
  destruct (uvarint_size_cases v) as [E|[E|[E|E]]]; rewrite E in Hs;
    (destruct (Z.eqb_spec (zlen (uvarint_bytes v ++ r)) 0); [zlia|]);
    (destruct (Z.ltb_spec (zlen (uvarint_bytes v ++ r)) (zlen (uvarint_bytes v))); [zlia|]);
    by apply get_uvarint_bytes.
Qed.

Lemma decode_varint_param_bytes v r :
  varint v ->
  decode_varint_param (uvarint_bytes (zlen (uvarint_bytes v)) ++ uvarint_bytes v ++ r) = Ok (v, r).
Proof.
  intros Hv. unfold decode_varint_param.
  rewrite decode_varint_bytes by apply varint_uvarint_len. cbn [bind].
  rewrite get_uvarintlen_bytes by done. cbn [bind]. rewrite Z.eqb_refl. cbn [negb].
  pose proof (zlen_uvarint_bytes v) as Hs.
  destruct (uvarint_size_cases v) as [E|[E|[E|E]]]; rewrite E in Hs;
    (destruct (Z.eqb_spec (zlen (uvarint_bytes v ++ r)) 0); [zlia|]);
    (destruct (Z.ltb_spec (zlen (uvarint_bytes v ++ r)) (zlen (uvarint_bytes v))); [zlia|]);
    by apply get_uvarint_bytes.
Qed.

Lemma decode_cid_param_bytes l r :
  zlen l <= NGTCP2_MAX_CIDLEN ->
  decode_cid_param (uvarint_bytes (zlen l) ++ l ++ r) = Ok (l, r).
Proof.
  unfold NGTCP2_MAX_CIDLEN. intros Hl. pose proof (zlen_nonneg l). unfold decode_cid_param.
  rewrite decode_varint_bytes by (unfold varint; lia). cbn [bind].
  unfold NGTCP2_MAX_CIDLEN, NGTCP2_MIN_CIDLEN.
  replace (_ || _) with false by (symmetry; zl; zlen_pos; bcase; cbn; lia).
  rewrite (cid_init_app l r) by done. cbn [bind]. by rewrite advance_app.
Qed.

Lemma decode_valuelen_bytes l r :
  varint (zlen l) -> decode_valuelen (uvarint_bytes (zlen l) ++ l ++ r) = Ok (zlen l, l ++ r).
Proof.
  intros Hl. unfold decode_valuelen. rewrite decode_varint_bytes by done. cbn [bind].
  destruct (Z.ltb_spec (zlen (l ++ r)) (zlen l)); [zlia|done].
Qed.

Lemma any_nonzero_replicate n : any_nonzero (replicate n 0) = false.
Proof. by induction n. Qed.

Lemma sockaddr_present n b sa :
  sockaddr_canonical n b sa -> any_nonzero sa.2 || any_nonzero sa.1 = b.
Proof.
  intros (_ & _ & H). destruct b; [done|]. subst sa. cbn [fst snd].
  by rewrite any_nonzero_replicate.
Qed.

Lemma decode_preferred_addr_bytes pa r :
  preferred_addr_canonical pa ->
  decode_preferred_addr preferred_addr_zero
    (uvarint_bytes (zlen (preferred_addr_bytes pa)) ++ preferred_addr_bytes pa ++ r) = Ok (pa, r).
Proof.
  intros (Hok & H4 & H6). pose proof (preferred_addrlen_eq pa Hok) as Hlen.
  pose proof (varint_preferred_addrlen pa Hok) as Hv. rewrite Hlen in Hv.
  unfold decode_preferred_addr. rewrite decode_valuelen_bytes by done. cbn [bind]. cbv zeta.
  rewrite <- Hlen. destruct Hok as (_ & Hc & L1 & L2 & L3 & L4 & L5).
  unfold preferred_addrlen, NGTCP2_MIN_CIDLEN, NGTCP2_MAX_CIDLEN in *.
  destruct (Z.ltb_spec (4 + 2 + 16 + 2 + 1 + zlen (pa_cid pa) + NGTCP2_STATELESS_RESET_TOKENLEN)
              (4 + 2 + 16 + 2 + 1 + NGTCP2_STATELESS_RESET_TOKENLEN)); [lia|].
  unfold preferred_addr_bytes, ngtcp2_get_uint16. cbn [app]. rewrite <- !app_assoc.
  rewrite get_bytes_app by done. cbn [bind]. rewrite get_bytes_app by done. cbn [bind].
  rewrite get_bytes_app by done. cbn [bind]. rewrite get_bytes_app by done. cbn [bind app].
  rewrite read8_cons. cbn [bind]. rewrite advance_cons1. cbn [bind].
  rewrite <- !app_assoc.
  replace (_ || _) with false by (symmetry; bcase; cbn; lia).
  destruct (Z.eqb_spec (zlen (pa_cid pa)) 0); [lia|]. cbn [negb].
  rewrite get_bytes_app by done. cbn [bind]. rewrite get_bytes_app by done. cbn [bind].
  rewrite (sockaddr_present 4 _ _ H4), (sockaddr_present 16 _ _ H6).
  by destruct pa as [? [] []].
Qed.

Lemma check_versions_wire vs r :
  Forall (fun v => 0 < v < 2 ^ 32) vs -> check_versions (length vs) (versions_wire vs ++ r) = Ok r.
Proof.
  induction 1 as [|v vs Hv _ IH]; [done|]. cbn [length check_versions versions_wire map concat].
  rewrite <- app_assoc. unfold ngtcp2_get_uint32be. rewrite (get_be_encode 4) by (cbn -[Z.pow]; lia). cbn [bind].
  destruct (Z.eqb_spec v 0); [lia|]. exact IH.
Qed.

Lemma decode_version_info_bytes vi vs r :
  0 < vi_chosen_version vi < 2 ^ 32 -> vi_available_versions vi = versions_wire vs ->
  Forall (fun v => 0 < v < 2 ^ 32) vs -> varint (version_infolen vi) ->
  decode_version_info (mk_version_info 0 [])
    (uvarint_bytes (zlen (version_info_bytes vi)) ++ version_info_bytes vi ++ r) = Ok (vi, r).
Proof.
  intros Hc Hvs Hf Hl. unfold version_infolen in Hl.
  assert (Hlen : zlen (version_info_bytes vi) = 4 + 4 * zlen vs).
  { unfold version_info_bytes. by rewrite zlen_app, zlen_be_encode, Hvs, zlen_versions_wire. }
  unfold decode_version_info. rewrite decode_valuelen_bytes.
  2:{ rewrite Hlen. rewrite Hvs, zlen_versions_wire in Hl. done. }
  cbn [bind]. rewrite Hlen. pose proof (zlen_nonneg vs). rewrite land_3_mod.
  replace ((4 + 4 * zlen vs) mod 4) with 0
    by (replace (4 + 4 * zlen vs) with ((1 + zlen vs) * 4) by lia; by rewrite Z.mod_mul).
  destruct (Z.ltb_spec (4 + 4 * zlen vs) 4); [lia|]. cbn [orb negb Z.eqb].
  unfold version_info_bytes, ngtcp2_get_uint32be. rewrite <- app_assoc.
  rewrite (get_be_encode 4) by (cbn -[Z.pow]; lia). cbn [bind].
  destruct (Z.eqb_spec (vi_chosen_version vi) 0); [lia|].
  destruct vi as [chosen avail]. cbn [vi_chosen_version vi_available_versions] in *. subst avail.
  destruct (Z.ltb_spec 4 (4 + 4 * zlen vs)).
  - rewrite get_bytes_app by (rewrite zlen_versions_wire; lia). cbn [bind].
    replace (Z.to_nat _) with (length vs).
    2:{ replace (4 + 4 * zlen vs - 4) with (zlen vs * 4) by lia. rewrite Z.div_mul by lia.
        unfold zlen. lia. }
    by rewrite check_versions_wire.
  - destruct vs; [done|]. rewrite zlen_cons in *. zlen_pos. lia.
Qed.
End Decoder.

(** [decodes_to params p out]: the loop that has decoded [params] and is at
    [p] returns [out]. *)
Definition decodes_to (params : ngtcp2_transport_params) (p : list Z)
    (out : ngtcp2_transport_params) : Prop :=
  forall fuel, (length p <= fuel)%nat -> decode_params fuel params p = Ok out.

Lemma decodes_to_nil params : decodes_to params [] params.
Proof. intros [|fuel] _; reflexivity. Qed.

Lemma decodes_to_opt c item r params params' out :
  (c = true -> 2 <= zlen item /\ decode_param params (item ++ r) = Ok (params', r)) ->
  (c = false -> params' = params) ->
  decodes_to params' r out -> decodes_to params (opt c item ++ r) out.
Proof.
  intros Ht Hf Hr fuel Hfuel. destruct c; cbn [opt] in *.
  - destruct (Ht eq_refl) as [Hl E].
    destruct fuel as [|fuel]; [unfold zlen in Hl; rewrite length_app in Hfuel; lia|].
    cbn [decode_params]. destruct (Z.leb_spec 2 (zlen (item ++ r))); [|zlia].
    rewrite E. cbn [bind]. apply Hr. rewrite length_app in Hfuel. unfold zlen in Hl. lia.
  - rewrite <- (Hf eq_refl). by apply Hr.
Qed.

Lemma zlen_uvarint_pos v : 1 <= zlen (uvarint_bytes v).
Proof.
  rewrite zlen_uvarint_bytes. destruct (uvarint_size_cases v) as [->|[->|[->| ->]]]; lia.
Qed.

Lemma zlen_opaque_param id l : 2 <= zlen (opaque_param_bytes id l).
Proof.
  unfold opaque_param_bytes. rewrite !zlen_app.
  pose proof (zlen_uvarint_pos id). pose proof (zlen_uvarint_pos (zlen l)). zlen_pos. lia.
Qed.

Lemma zlen_varint_param id v : 2 <= zlen (varint_param_bytes id v).
Proof. apply (zlen_opaque_param id (uvarint_bytes v)). Qed.

(** The two parts with a flag, taken from [q]. *)
Definition with_preferred_addr (q p : ngtcp2_transport_params) : ngtcp2_transport_params :=
  mk_params (tp_initial_max_stream_data_bidi_local p)
    (tp_initial_max_stream_data_bidi_remote p) (tp_initial_max_stream_data_uni p)
    (tp_initial_max_data p) (tp_initial_max_streams_bidi p) (tp_initial_max_streams_uni p)
    (tp_max_idle_timeout p) (tp_max_udp_payload_size p) (tp_active_connection_id_limit p)
    (tp_ack_delay_exponent p) (tp_max_ack_delay p) (tp_max_datagram_frame_size p)
    (tp_original_dcid p) (tp_initial_scid p) (tp_retry_scid p) (tp_stateless_reset_token p)
    (tp_disable_active_migration p) (tp_grease_quic_bit p) (tp_preferred_addr q)
    (tp_preferred_addr_present q) (tp_version_info p) (tp_version_info_present p).
Definition with_version_info (q p : ngtcp2_transport_params) : ngtcp2_transport_params :=
  mk_params (tp_initial_max_stream_data_bidi_local p)
    (tp_initial_max_stream_data_bidi_remote p) (tp_initial_max_stream_data_uni p)
    (tp_initial_max_data p) (tp_initial_max_streams_bidi p) (tp_initial_max_streams_uni p)
    (tp_max_idle_timeout p) (tp_max_udp_payload_size p) (tp_active_connection_id_limit p)
    (tp_ack_delay_exponent p) (tp_max_ack_delay p) (tp_max_datagram_frame_size p)
    (tp_original_dcid p) (tp_initial_scid p) (tp_retry_scid p) (tp_stateless_reset_token p)
    (tp_disable_active_migration p) (tp_grease_quic_bit p) (tp_preferred_addr p)
    (tp_preferred_addr_present p) (tp_version_info q) (tp_version_info_present q).

(** Assigning its own value to a field changes nothing. *)
Lemma assign_same {A : Type} (set : A -> ngtcp2_transport_params -> ngtcp2_transport_params)
    (get : ngtcp2_transport_params -> A) (v : A) (p : ngtcp2_transport_params) :
  (forall q, set (get q) q = q) -> get p = v -> set v p = p.
Proof. intros H <-. apply H. Qed.

Lemma with_preferred_addr_same q p :
  tp_preferred_addr q = tp_preferred_addr p ->
  tp_preferred_addr_present q = tp_preferred_addr_present p -> with_preferred_addr q p = p.
Proof. unfold with_preferred_addr. intros -> ->. by destruct p. Qed.

Lemma with_version_info_same q p :
  tp_version_info q = tp_version_info p ->
  tp_version_info_present q = tp_version_info_present p -> with_version_info q p = p.
Proof. unfold with_version_info. intros -> ->. by destruct p. Qed.

Section RoundTrip.
Context (params : ngtcp2_transport_params) (Hwf : params_wf params).

(** The type of the parameter selects the branch. *)
#[local] Ltac at_type :=
  unfold decode_param, varint_param_bytes, opaque_param_bytes; rewrite <- !app_assoc;
  rewrite decode_varint_bytes by done; cbn [bind]; ceqb.

(** The next parameter assigns [set]. *)
#[local] Ltac next set :=
  match goal with
  | |- decodes_to ?cur _ _ =>
      apply (decodes_to_opt _ _ _ _ (set cur));
      [ match goal with |- context [decode_param _ (_ ++ ?r)] => generalize r; intros ? end | | ]
  end.

#[local] Ltac varint_item set f :=
  next (set (f params));
  [ intros _; split; [apply zlen_varint_param|];
    destruct (wf_varints params Hwf) as (? & ? & ? & ? & ?);
    at_type; rewrite decode_varint_param_bytes by eauto with tparams; cbn [bind]
  | let E := fresh "E" in
    intros E; apply negb_false_iff, Z.eqb_eq in E; rewrite E; apply (assign_same set f); [by intros []|reflexivity]
  | ].

#[local] Ltac cid_item set f :=
  next (set (f params));
  [ let E := fresh "E" in
    intros E; split; [apply zlen_opaque_param|]; at_type;
    rewrite decode_cid_param_bytes by (apply wf_cid_len; eauto with tparams);
    by destruct (f params)
  | destruct (f params); [done|]; intros _; apply (assign_same set f); [by intros []|reflexivity]
  | ].

#[local] Ltac zero_item set f :=
  next (set (f params));
  [ let E := fresh "E" in
    intros E; split; [apply zlen_opaque_param|]; at_type; by rewrite E
  | intros ->; apply (assign_same set f); [by intros []|reflexivity]
  | ].

Lemma u64_ms v : 0 <= v < 2 ^ 64 -> v mod NGTCP2_MILLISECONDS = 0 ->
  u64 (v / NGTCP2_MILLISECONDS * NGTCP2_MILLISECONDS) = v.
Proof.
  intros Hv Hm. pose proof (Z.div_mod v NGTCP2_MILLISECONDS ltac:(done)).
  rewrite u64_small; unfold is_u64; lia.
Qed.

Lemma decode_token_item cur r :
  is_some (tp_stateless_reset_token params) = true ->
  decode_param cur
    (opaque_param_bytes NGTCP2_TRANSPORT_PARAM_STATELESS_RESET_TOKEN
       (some_or [] (tp_stateless_reset_token params)) ++ r)
  = Ok (set_stateless_reset_token (tp_stateless_reset_token params) cur, r).
Proof.
  intros E. pose proof (wf_token_len _ Hwf E) as Hl.
  at_type. rewrite Hl, decode_varint_bytes by done. cbn [bind]. ceqb. cbn [negb].
  destruct (Z.ltb_spec (zlen (some_or [] (tp_stateless_reset_token params) ++ r))
              NGTCP2_STATELESS_RESET_TOKENLEN); [zlia|].
  rewrite get_bytes_app by done. by destruct (tp_stateless_reset_token params).
Qed.

Lemma decode_preferred_item cur r :
  tp_preferred_addr cur = preferred_addr_zero -> tp_preferred_addr_present params = true ->
  decode_param cur
    (opaque_param_bytes NGTCP2_TRANSPORT_PARAM_PREFERRED_ADDRESS
       (preferred_addr_bytes (tp_preferred_addr params)) ++ r)
  = Ok (set_preferred_addr (tp_preferred_addr params) cur, r).
Proof.
  intros Hz E. at_type. rewrite Hz, decode_preferred_addr_bytes by (by apply wf_preferred_ok). done.
Qed.

Lemma decode_version_item cur r :
  tp_version_info cur = mk_version_info 0 [] -> tp_version_info_present params = true ->
  decode_param cur
    (opaque_param_bytes NGTCP2_TRANSPORT_PARAM_VERSION_INFORMATION
       (version_info_bytes (tp_version_info params)) ++ r)
  = Ok (set_version_info (tp_version_info params) cur, r).
Proof.
  intros Hz E. destruct (wf_version_ok _ Hwf E) as (Hc & vs & Hvs & Hf & Hl).
  at_type. by rewrite Hz, (decode_version_info_bytes _ vs).
Qed.

Lemma decodes_params_bytes :
  decodes_to ngtcp2_transport_params_default (params_bytes params) params.
Proof.
  pose proof (wf_ok _ Hwf) as Hok.
  unfold params_bytes. rewrite <- (app_nil_r (opt (tp_version_info_present params) _)).
  cid_item set_original_dcid tp_original_dcid.
  next (set_stateless_reset_token (tp_stateless_reset_token params)).
  { split; [apply zlen_opaque_param|by apply decode_token_item]. }
  { destruct (tp_stateless_reset_token params); [done|]. intros _.
    apply (assign_same set_stateless_reset_token tp_stateless_reset_token);
      [by intros []|reflexivity]. }
  next (with_preferred_addr params).
  { intros E. split; [apply zlen_opaque_param|]. rewrite decode_preferred_item by done.
    unfold with_preferred_addr. by rewrite E. }
  { intros E. pose proof (wf_preferred _ Hwf) as H. rewrite E in H.
    apply with_preferred_addr_same; [rewrite H|rewrite E]; reflexivity. }
  cid_item set_retry_scid tp_retry_scid.
  cid_item set_initial_scid tp_initial_scid.
  varint_item set_initial_max_stream_data_bidi_local tp_initial_max_stream_data_bidi_local.
  { done. }
  varint_item set_initial_max_stream_data_bidi_remote tp_initial_max_stream_data_bidi_remote.
  { done. }
  varint_item set_initial_max_stream_data_uni tp_initial_max_stream_data_uni.
  { done. }
  varint_item set_initial_max_data tp_initial_max_data.
  { done. }
  varint_item set_initial_max_streams_bidi tp_initial_max_streams_bidi.
  { pose proof (ok_streams_bidi _ Hok). rt_if. done. }
  varint_item set_initial_max_streams_uni tp_initial_max_streams_uni.
  { pose proof (ok_streams_uni _ Hok). rt_if. done. }
  varint_item set_max_udp_payload_size tp_max_udp_payload_size.
  { done. }
  varint_item set_ack_delay_exponent tp_ack_delay_exponent.
  { pose proof (ok_exponent _ Hok). rt_if. done. }
  zero_item set_disable_active_migration tp_disable_active_migration.
  varint_item set_max_ack_delay tp_max_ack_delay.
  { pose proof (wf_ack_delay_ms _ Hwf). destruct (Z.leb_spec 16384 (tp_max_ack_delay params / NGTCP2_MILLISECONDS)); [lia|].
    pose proof (ok_ack_delay _ Hok) as Ha.
    rewrite u64_ms; [done|unfold NGTCP2_MILLISECONDS in Ha; lia|apply Hwf]. }
  varint_item set_max_idle_timeout tp_max_idle_timeout.
  { pose proof (wf_idle_ms _ Hwf). rt_if. rewrite u64_ms; [done|apply Hok|apply Hwf]. }
  next (set_active_connection_id_limit (tp_active_connection_id_limit params)).
  { intros _. split; [apply zlen_varint_param|]. at_type.
    by rewrite decode_varint_param_bytes by eauto with tparams. }
  { pose proof (wf_limit _ Hwf). intros E. apply andb_false_iff in E as [E|E];
      apply negb_false_iff, Z.eqb_eq in E; [contradiction|]. rewrite E.
    apply (assign_same set_active_connection_id_limit tp_active_connection_id_limit);
      [by intros []|reflexivity]. }
  varint_item set_max_datagram_frame_size tp_max_datagram_frame_size.
  { done. }
  zero_item set_grease_quic_bit tp_grease_quic_bit.
  next (with_version_info params).
  { intros E. split; [apply zlen_opaque_param|]. rewrite decode_version_item by done.
    unfold with_version_info. by rewrite E. }
  { intros E. pose proof (wf_version _ Hwf) as H. rewrite E in H.
    apply with_version_info_same; [rewrite H|rewrite E]; reflexivity. }
  destruct params. apply decodes_to_nil.
Qed.
End RoundTrip.

(** C20: encoding and decoding of transport parameters.  For parameters the
    wire format represents without loss the encoder asks for exactly the
    length it then writes (a call with a null destination returns it), fails
    with [NGTCP2_ERR_NOBUF] exactly when the destination is smaller, never
    fails an assertion, and what it writes decodes to the same
    parameters. *)
Theorem transport_params_roundtrip (params : ngtcp2_transport_params) (destlen : Z) :
  params_wf params ->
  exists bs,
    ngtcp2_transport_params_encode true 0 params = Ok (zlen bs, []) /\
    ngtcp2_transport_params_encode false destlen params
      = (if destlen <? zlen bs then Err NGTCP2_ERR_NOBUF else Ok (zlen bs, bs)) /\
    ngtcp2_transport_params_decode bs = Ok params.
Proof.
  intros Hwf. exists (params_bytes params). unfold ngtcp2_transport_params_encode.
  rewrite transport_params_len_eq by done. cbn [bind andb Z.eqb]. split_and!; [done| |].
  - destruct (destlen <? _); [done|]. rewrite transport_params_write_eq by done.
    cbn [bind app]. by rewrite Z.eqb_refl.
  - by apply decodes_params_bytes.
Qed.

Definition example_params : ngtcp2_transport_params :=
  set_version_info (mk_version_info 1 (versions_wire [1; 0x6b3343cf]))
    (set_preferred_addr
       (mk_preferred_addr [1; 2; 3; 4] ([127; 0; 0; 1], [1; 187]) (replicate 16 0, [0; 0])
          true false (replicate 16 7))
       (set_original_dcid (Some [9; 8; 7])
          (set_max_idle_timeout (30 * 1000 * NGTCP2_MILLISECONDS)
             (set_initial_max_data 1048576 ngtcp2_transport_params_default)))).

Lemma transport_params_roundtrip_witness :
  exists bs,
    ngtcp2_transport_params_encode true 0 example_params = Ok (zlen bs, []) /\
    ngtcp2_transport_params_encode false 256 example_params
      = (if 256 <? zlen bs then Err NGTCP2_ERR_NOBUF else Ok (zlen bs, bs)) /\
    ngtcp2_transport_params_decode bs = Ok example_params.
Proof.
  apply transport_params_roundtrip. split.
  - split; cbn -[Z.pow Z.modulo]; try exact I; try (by vm_compute).
    + split; [|by vm_compute]. repeat constructor; by vm_compute.
    + intros _. split_and!; try (by vm_compute). repeat constructor; by vm_compute.
  - reflexivity.
  - reflexivity.
  - discriminate.
  - split; [|split; by vm_compute]. split_and!; try (by vm_compute).
    repeat constructor; by vm_compute.
  - exists [1; 0x6b3343cf]. split; [reflexivity|]. split; [|by vm_compute].
    repeat constructor; by vm_compute.
Defined.
