(* ===== verification/Ringbuf.v ===== *)
(** * Ring buffer: [lib/ngtcp2_ringbuf.c]

    The ring buffer of the acknowledgement tracker, of the connection id
    tracker and of the path challenge queue.  [rb_buf] holds the elements of
    the underlying array (the C code addresses them as [buf[i * size]]);
    [push_front] and [push_back] return the offset of the element whose
    address the C functions return, and the caller stores to it
    ([ringbuf_store]).  The abstract specification is a bounded deque that
    drops an element at the far end when it is full. *)

From S2P Require Import Prelude Conv Const.

(** ** The code *)
Record ngtcp2_ringbuf (A : Type) := mk_ringbuf {
  rb_buf : list A;
  rb_mask : Z;
  rb_first : Z;
  rb_len : Z;
}.
Arguments mk_ringbuf {A}.
Arguments rb_buf {A}.
Arguments rb_mask {A}.
Arguments rb_first {A}.
Arguments rb_len {A}.

Definition ispow2 (n : Z) : bool := negb (n =? 0) && (Z.land n (n - 1) =? 0).

Section Ringbuf.
Context {A : Type}.
Implicit Types (rb : ngtcp2_ringbuf A) (x : A).

Definition ngtcp2_ringbuf_buf_init (nmemb : Z) (buf : list A) : res (ngtcp2_ringbuf A) :=
  assert! ispow2 nmemb;
  Ok (mk_ringbuf buf (nmemb - 1) 0 0).

Definition ngtcp2_ringbuf_push_front rb : ngtcp2_ringbuf A * Z :=
  let first := Z.land (u64 (rb_first rb - 1)) (rb_mask rb) in
  let len := if rb_len rb <? rb_mask rb + 1 then rb_len rb + 1 else rb_len rb in
  (mk_ringbuf (rb_buf rb) (rb_mask rb) first len, first).

Definition ngtcp2_ringbuf_push_back rb : ngtcp2_ringbuf A * Z :=
  let offset := Z.land (rb_first rb + rb_len rb) (rb_mask rb) in
  if rb_len rb =? rb_mask rb + 1 then
    (mk_ringbuf (rb_buf rb) (rb_mask rb) (Z.land (rb_first rb + 1) (rb_mask rb)) (rb_len rb),
     offset)
  else (mk_ringbuf (rb_buf rb) (rb_mask rb) (rb_first rb) (rb_len rb + 1), offset).

Definition ngtcp2_ringbuf_pop_front rb : ngtcp2_ringbuf A :=
  mk_ringbuf (rb_buf rb) (rb_mask rb) (Z.land (rb_first rb + 1) (rb_mask rb))
             (u64 (rb_len rb - 1)).

Definition ngtcp2_ringbuf_pop_back rb : res (ngtcp2_ringbuf A) :=
  assert! negb (rb_len rb =? 0);
  Ok (mk_ringbuf (rb_buf rb) (rb_mask rb) (rb_first rb) (rb_len rb - 1)).

Definition ngtcp2_ringbuf_resize rb (len : Z) : res (ngtcp2_ringbuf A) :=
  assert! len <=? rb_mask rb + 1;
  Ok (mk_ringbuf (rb_buf rb) (rb_mask rb) (rb_first rb) len).

(** The offset of the element whose address is returned. *)
Definition ngtcp2_ringbuf_get rb (offset : Z) : res Z :=
  assert! offset <? rb_len rb;
  Ok (Z.land (rb_first rb + offset) (rb_mask rb)).

Definition ngtcp2_ringbuf_full rb : bool := rb_len rb =? rb_mask rb + 1.

(** A load and a store through a returned address. *)
Definition ringbuf_load rb (offset : Z) : res A :=
  match rb_buf rb !! Z.to_nat offset with Some x => Ok x | None => Fault end.

Definition ringbuf_store rb (offset : Z) (x : A) : res (ngtcp2_ringbuf A) :=
  assert! offset <? zlen (rb_buf rb);
  Ok (mk_ringbuf (<[Z.to_nat offset := x]> (rb_buf rb)) (rb_mask rb) (rb_first rb) (rb_len rb)).

(** ** The operations as the clients use them *)
Inductive ringbuf_op :=
| PushFront (x : A)
| PushBack (x : A)
| PopFront
| PopBack
| Resize (len : Z)
| Get (offset : Z)
| Put (offset : Z) (x : A)
| Len
| Full.

Inductive ringbuf_ret :=
| RNone
| RElem (x : A)
| RLen (n : Z)
| RFull (b : bool).

Definition ringbuf_exec (op : ringbuf_op) rb : res (ngtcp2_ringbuf A * ringbuf_ret) :=
  match op with
  | PushFront x =>
      let (rb, off) := ngtcp2_ringbuf_push_front rb in
      let* rb := ringbuf_store rb off x in Ok (rb, RNone)
  | PushBack x =>
      let (rb, off) := ngtcp2_ringbuf_push_back rb in
      let* rb := ringbuf_store rb off x in Ok (rb, RNone)
  | PopFront => Ok (ngtcp2_ringbuf_pop_front rb, RNone)
  | PopBack => let* rb := ngtcp2_ringbuf_pop_back rb in Ok (rb, RNone)
  | Resize len => let* rb := ngtcp2_ringbuf_resize rb len in Ok (rb, RNone)
  | Get offset =>
      let* off := ngtcp2_ringbuf_get rb offset in
      let* x := ringbuf_load rb off in Ok (rb, RElem x)
  | Put offset x =>
      let* off := ngtcp2_ringbuf_get rb offset in
      let* rb := ringbuf_store rb off x in Ok (rb, RNone)
  | Len => Ok (rb, RLen (rb_len rb))
  | Full => Ok (rb, RFull (ngtcp2_ringbuf_full rb))
  end.

(** ** The abstract deque of capacity [cap]

    [PopFront] and [PopBack] need an element, [Resize] may only shrink, and
    an offset must be below the length: other calls are outside the
    contract. *)
Definition deque_exec (cap : Z) (op : ringbuf_op) (l : list A) : option (list A * ringbuf_ret) :=
  match op with
  | PushFront x => Some (ztake cap (x :: l), RNone)
  | PushBack x => Some (zdrop (zlen l + 1 - cap) (l ++ [x]), RNone)
  | PopFront => match l with [] => None | _ :: l => Some (l, RNone) end
  | PopBack => if zlen l =? 0 then None else Some (ztake (zlen l - 1) l, RNone)
  | Resize n => if (0 <=? n) && (n <=? zlen l) then Some (ztake n l, RNone) else None
  | Get i =>
      if 0 <=? i then match l !! Z.to_nat i with Some x => Some (l, RElem x) | None => None end
      else None
  | Put i x =>
      if (0 <=? i) && (i <? zlen l) then Some (<[Z.to_nat i := x]> l, RNone) else None
  | Len => Some (l, RLen (zlen l))
  | Full => Some (l, RFull (zlen l =? cap))
  end.

Fixpoint ringbuf_run (ops : list ringbuf_op) rb : res (ngtcp2_ringbuf A * list ringbuf_ret) :=
  match ops with
  | [] => Ok (rb, [])
  | op :: ops =>
      let* (rb, r) := ringbuf_exec op rb in
      let* (rb, rs) := ringbuf_run ops rb in
      Ok (rb, r :: rs)
  end.

Fixpoint deque_run (cap : Z) (ops : list ringbuf_op) (l : list A)
    : option (list A * list ringbuf_ret) :=
  match ops with
  | [] => Some (l, [])
  | op :: ops =>
      match deque_exec cap op l with
      | None => None
      | Some (l, r) =>
          match deque_run cap ops l with
          | None => None
          | Some (l, rs) => Some (l, r :: rs)
          end
      end
  end.

(** ** Invariant and abstraction *)
Definition ringbuf_wf rb : Prop :=
  exists k, 0 <= k < 64 /\ rb_mask rb = 2 ^ k - 1 /\ zlen (rb_buf rb) = 2 ^ k /\
    0 <= rb_first rb < 2 ^ k /\ 0 <= rb_len rb <= 2 ^ k.

(** The elements from [first] on, wrapping around. *)
Definition contents rb : list A :=
  ztake (rb_len rb) (zdrop (rb_first rb) (rb_buf rb) ++ rb_buf rb).

(** The offset of the [i]-th element. *)
Definition ring (n first i : Z) : Z := if first + i <? n then first + i else first + i - n.

Lemma land_mask_ring k n first i :
  n = 2 ^ k -> 0 <= k -> 0 <= first < n -> 0 <= i <= n ->
  Z.land (first + i) (n - 1) = ring n first i.
Proof.
  intros -> Hk Hf Hi. rewrite land_ones_mod by done. unfold ring.
  destruct (Z.ltb_spec (first + i) (2 ^ k)); [by apply Z.mod_small; lia|].
  replace (first + i) with (first + i - 2 ^ k + 1 * 2 ^ k) at 1 by lia.
  rewrite Z.mod_add by lia. apply Z.mod_small. lia.
Qed.

Lemma land_mask_pred k first :
  0 <= k < 64 -> 0 <= first < 2 ^ k ->
  Z.land (u64 (first - 1)) (2 ^ k - 1) = ring (2 ^ k) first (2 ^ k - 1).
Proof.
  intros Hk Hf. rewrite land_ones_mod by lia. unfold ring, u64.
  assert (Hpow : 2 ^ 64 = 2 ^ (64 - k) * 2 ^ k) by (rewrite <- Z.pow_add_r by lia; f_equal; lia).
  rewrite Hpow, Z.mod_mod_divide by (by exists (2 ^ (64 - k))).
  destruct (Z.ltb_spec (first + (2 ^ k - 1)) (2 ^ k)).
  - replace (first - 1) with (2 ^ k - 1 + (-1) * 2 ^ k) by lia.
    rewrite Z.mod_add, Z.mod_small; lia.
  - rewrite Z.mod_small; lia.
Qed.

Lemma zlen_contents rb : ringbuf_wf rb -> zlen (contents rb) = rb_len rb.
Proof.
  intros (k & Hk & Hm & Hb & Hf & Hl). unfold contents.
  rewrite zlen_ztake; [done|]. rewrite zlen_app, zlen_zdrop; lia.
Qed.

Lemma contents_lookup rb i :
  ringbuf_wf rb -> 0 <= i < rb_len rb ->
  contents rb !! Z.to_nat i
  = rb_buf rb !! Z.to_nat (ring (zlen (rb_buf rb)) (rb_first rb) i).
Proof.
  intros (k & Hk & Hm & Hb & Hf & Hl) Hi. unfold contents, ztake, zdrop, ring.
  rewrite lookup_take_lt by lia. unfold zlen in Hb. unfold zlen.
  destruct (Z.ltb_spec (rb_first rb + i) (Z.of_nat (length (rb_buf rb)))).
  - rewrite lookup_app_l by (rewrite length_drop; lia). rewrite lookup_drop. f_equal. lia.
  - rewrite lookup_app_r by (rewrite length_drop; lia). rewrite length_drop. f_equal. lia.
Qed.

(** Two lists are equal when they have the same length and elements. *)
Lemma list_eq_Z (l k : list A) :
  zlen l = zlen k -> (forall i, 0 <= i < zlen l -> l !! Z.to_nat i = k !! Z.to_nat i) -> l = k.
Proof.
  unfold zlen. intros Hl H. apply list_eq. intros i.
  destruct (decide (i < length l)%nat).
  - specialize (H (Z.of_nat i)). rewrite Nat2Z.id in H. apply H. lia.
  - rewrite !lookup_ge_None_2; [done|lia|lia].
Qed.

(** What an operation owes: it returns, keeps the invariant and the
    capacity, and the elements are [l]. *)
Definition simulates rb (c : res (ngtcp2_ringbuf A * ringbuf_ret)) (l : list A)
    (r : ringbuf_ret) : Prop :=
  exists rb', c = Ok (rb', r) /\ ringbuf_wf rb' /\ rb_mask rb' = rb_mask rb /\ contents rb' = l.

Lemma store_ok rb off x :
  0 <= off < zlen (rb_buf rb) ->
  ringbuf_store rb off x
  = Ok (mk_ringbuf (<[Z.to_nat off := x]> (rb_buf rb)) (rb_mask rb) (rb_first rb) (rb_len rb)).
Proof. intros. unfold ringbuf_store. destruct (Z.ltb_spec off (zlen (rb_buf rb))); [done|lia]. Qed.

Lemma zlen_insert i x (l : list A) : zlen (<[i := x]> l) = zlen l.
Proof. unfold zlen. by rewrite length_insert. Qed.

Lemma lookup_insert_Z i j x (l : list A) :
  0 <= i < zlen l -> 0 <= j ->
  <[Z.to_nat i := x]> l !! Z.to_nat j = if j =? i then Some x else l !! Z.to_nat j.
Proof.
  unfold zlen. intros. destruct (Z.eqb_spec j i) as [->|].
  - apply list_lookup_insert_eq. lia.
  - apply list_lookup_insert_ne. lia.
Qed.

(** The elements after a change of the window and a store at [off]. *)
Lemma contents_eq rb' l :
  ringbuf_wf rb' -> zlen l = rb_len rb' ->
  (forall i, 0 <= i < rb_len rb' ->
     rb_buf rb' !! Z.to_nat (ring (zlen (rb_buf rb')) (rb_first rb') i) = l !! Z.to_nat i) ->
  contents rb' = l.
Proof.
  intros Hwf Hl H. apply list_eq_Z; [by rewrite zlen_contents|].
  rewrite zlen_contents by done. intros i Hi. rewrite contents_lookup by done. by apply H.
Qed.

(** Lookups in the lists of the specification. *)
Lemma lookup_cons_Z x (l : list A) i :
  0 <= i -> (x :: l) !! Z.to_nat i = if i =? 0 then Some x else l !! Z.to_nat (i - 1).
Proof.
  intros. destruct (Z.eqb_spec i 0) as [->|]; [done|].
  replace (Z.to_nat i) with (S (Z.to_nat (i - 1))) by lia. done.
Qed.

Lemma lookup_ztake n (l : list A) i :
  0 <= i < n -> ztake n l !! Z.to_nat i = l !! Z.to_nat i.
Proof. intros. unfold ztake. apply lookup_take_lt. lia. Qed.

Lemma lookup_zdrop n (l : list A) i :
  0 <= n -> 0 <= i -> zdrop n l !! Z.to_nat i = l !! Z.to_nat (n + i).
Proof. intros. unfold zdrop. rewrite lookup_drop. f_equal. lia. Qed.

Lemma lookup_snoc_Z (l : list A) x i :
  0 <= i <= zlen l -> (l ++ [x]) !! Z.to_nat i = if i =? zlen l then Some x else l !! Z.to_nat i.
Proof.
  unfold zlen. intros. destruct (Z.eqb_spec i (Z.of_nat (length l))) as [->|].
  - rewrite Nat2Z.id. by rewrite list_lookup_middle.
  - apply lookup_app_l. lia.
Qed.

Lemma sim_push_front rb x :
  ringbuf_wf rb -> simulates rb (ringbuf_exec (PushFront x) rb)
                     (ztake (rb_mask rb + 1) (x :: contents rb)) RNone.
Proof.
  intros Hwf. pose proof (zlen_contents rb Hwf) as Hlen. pose proof (contents_lookup rb) as Hlk.
  destruct Hwf as (k & Hk & Hm & Hb & Hf & Hl). cbn [ringbuf_exec ngtcp2_ringbuf_push_front].
  rewrite Hm, land_mask_pred by done. set (n := 2 ^ k) in *. replace (n - 1 + 1) with n by lia.
  assert (Hr : 0 <= ring n (rb_first rb) (n - 1) < n) by (unfold ring; bcase; lia).
  rewrite store_ok by (cbn; lia). cbn [bind rb_buf rb_mask rb_first rb_len].
  eexists. split; [done|].
  match goal with |- ringbuf_wf ?r /\ _ => assert (Hwf' : ringbuf_wf r) end.
  { exists k. cbn. rewrite zlen_insert. fold n. split_and!; try done; try lia; bcase; lia. }
  split; [done|]. split; [done|]. apply contents_eq; [done| |].
  - cbn. destruct (Z.ltb_spec (rb_len rb) n).
    + unfold ztake. rewrite take_ge by (cbn; unfold zlen in Hlen; lia). rewrite zlen_cons. lia.
    + rewrite zlen_ztake; rewrite ?zlen_cons; lia.
  - cbn [rb_buf rb_len rb_first]. rewrite zlen_insert, Hb. intros i Hi.
    assert (i < n) by (revert Hi; bcase; lia).
    rewrite lookup_ztake, lookup_cons_Z, lookup_insert_Z by (unfold ring; bcase; lia).
    unfold ring in *. revert Hi. bcase; intros; try lia; try done.
    all: rewrite Hlk by (done || lia || (exists k; done)); rewrite Hb; unfold ring; bcase; try lia; f_equal; lia.
Qed.

(** Opens an operation: the invariant, the offset as [ring] and the cell. *)
#[local] Ltac sim_start Hwf k n Hlen Hlk Hk Hm Hb Hf Hl :=
  match type of Hwf with ringbuf_wf ?rb =>
    pose proof (zlen_contents rb Hwf) as Hlen; pose proof (fun i => contents_lookup rb i Hwf) as Hlk;
    pose proof Hwf as (k & Hk & Hm & Hb & Hf & Hl)
  end;
  rewrite ?Hm in *; remember (2 ^ k) as n eqn:En in *; replace (n - 1 + 1) with n in * by lia.

#[local] Ltac sim_wf k :=
  eexists; split; [reflexivity|];
  match goal with |- ringbuf_wf ?r /\ _ => assert (Hwf' : ringbuf_wf r) end;
  [ exists k; cbn; rewrite ?zlen_insert; split_and!; try done; try lia; bcase; lia
  | split; [done|]; split; [done|] ].

Lemma ring_bound n first i : 0 <= first < n -> 0 <= i <= n -> 0 <= ring n first i < n.
Proof. unfold ring. intros. bcase; lia. Qed.

Lemma sim_push_back rb x :
  ringbuf_wf rb -> simulates rb (ringbuf_exec (PushBack x) rb)
    (zdrop (zlen (contents rb) + 1 - (rb_mask rb + 1)) (contents rb ++ [x])) RNone.
Proof.
  intros Hwf. cbn [ringbuf_exec]. unfold ngtcp2_ringbuf_push_back. sim_start Hwf k n Hlen Hlk Hk Hm Hb Hf Hl.
  rewrite !(land_mask_ring k n) by lia. rewrite Hlen.
  pose proof (ring_bound n (rb_first rb) (rb_len rb) Hf ltac:(lia)) as Hr.
  destruct (Z.eqb_spec (rb_len rb) n) as [E|E].
  - rewrite store_ok by (cbn; lia). cbn [bind rb_buf rb_mask rb_first rb_len].
    pose proof (ring_bound n (rb_first rb) 1 Hf ltac:(lia)). sim_wf k.
    replace (rb_len rb + 1 - n) with 1 by lia. apply contents_eq; [done| |].
    + cbn. rewrite zlen_zdrop; autorewrite with zlen; lia.
    + cbn [rb_buf rb_len rb_first]. rewrite zlen_insert, Hb. intros i Hi.
      rewrite lookup_zdrop, lookup_snoc_Z, Hlen by lia.
      rewrite lookup_insert_Z by (unfold ring in *; bcase; lia).
      unfold ring in *. bcase; try lia; try done.
      all: rewrite Hlk by lia; rewrite Hb; unfold ring; bcase; try lia; f_equal; lia.
  - rewrite store_ok by (cbn; lia). cbn [bind rb_buf rb_mask rb_first rb_len]. sim_wf k.
    unfold zdrop. replace (Z.to_nat (rb_len rb + 1 - n)) with 0%nat by lia. rewrite drop_0.
    apply contents_eq; [done|cbn [rb_len]; autorewrite with zlen; lia|].
    cbn [rb_buf rb_len rb_first]. rewrite zlen_insert, Hb. intros i Hi.
    rewrite lookup_snoc_Z, Hlen by lia. rewrite lookup_insert_Z by (unfold ring in *; bcase; lia).
    unfold ring in *. bcase; try lia; try done.
    all: rewrite Hlk by lia; rewrite Hb; unfold ring; bcase; try lia; f_equal; lia.
Qed.

Lemma sim_pop_front rb x l :
  ringbuf_wf rb -> contents rb = x :: l -> simulates rb (ringbuf_exec PopFront rb) l RNone.
Proof.
  intros Hwf E. cbn [ringbuf_exec]. unfold ngtcp2_ringbuf_pop_front. sim_start Hwf k n Hlen Hlk Hk Hm Hb Hf Hl.
  rewrite E, zlen_cons in Hlen. zlen_pos. rewrite (land_mask_ring k n) by lia.
  assert (n <= 2 ^ 63) by (subst n; apply Z.pow_le_mono_r; lia).
  rewrite u64_small by (unfold is_u64; lia).
  pose proof (ring_bound n (rb_first rb) 1 Hf ltac:(lia)). sim_wf k.
  apply contents_eq; [done|cbn; lia|]. cbn [rb_buf rb_len rb_first]. rewrite Hb. intros i Hi.
  replace (l !! Z.to_nat i) with (contents rb !! Z.to_nat (i + 1)).
  2:{ rewrite E, lookup_cons_Z by lia. bcase; [lia|]. f_equal. lia. }
  rewrite Hlk, Hb by lia. f_equal. unfold ring. bcase; lia.
Qed.

(** The window shrinks from the back. *)
Lemma contents_shrink rb m :
  ringbuf_wf rb -> 0 <= m <= rb_len rb ->
  ringbuf_wf (mk_ringbuf (rb_buf rb) (rb_mask rb) (rb_first rb) m) /\
  contents (mk_ringbuf (rb_buf rb) (rb_mask rb) (rb_first rb) m) = ztake m (contents rb).
Proof.
  intros (k & Hk & Hm & Hb & Hf & Hl) H. split.
  - exists k. cbn. split_and!; done || lia.
  - unfold contents, ztake. cbn [rb_buf rb_len rb_first]. rewrite take_take. f_equal. lia.
Qed.

Lemma sim_get rb i x :
  ringbuf_wf rb -> 0 <= i -> contents rb !! Z.to_nat i = Some x ->
  simulates rb (ringbuf_exec (Get i) rb) (contents rb) (RElem x).
Proof.
  intros Hwf Hi E. cbn [ringbuf_exec]. unfold ngtcp2_ringbuf_get.
  pose proof (lookup_lt_Some _ _ _ E) as Hlt. sim_start Hwf k n Hlen Hlk Hk Hm Hb Hf Hl. unfold zlen in Hlen.
  destruct (Z.ltb_spec i (rb_len rb)); [|lia]. cbn [bind].
  rewrite (land_mask_ring k n) by lia. unfold ringbuf_load.
  rewrite Hlk, Hb in E by lia. rewrite E. cbn [bind].
  exists rb. done.
Qed.

Lemma sim_put rb i x :
  ringbuf_wf rb -> 0 <= i < zlen (contents rb) ->
  simulates rb (ringbuf_exec (Put i x) rb) (<[Z.to_nat i := x]> (contents rb)) RNone.
Proof.
  intros Hwf Hi. cbn [ringbuf_exec]. unfold ngtcp2_ringbuf_get. sim_start Hwf k n Hlen Hlk Hk Hm Hb Hf Hl. rewrite Hlen in Hi.
  destruct (Z.ltb_spec i (rb_len rb)); [|lia]. cbn [bind].
  rewrite (land_mask_ring k n) by lia.
  pose proof (ring_bound n (rb_first rb) i Hf ltac:(lia)) as Hr.
  rewrite store_ok by lia. cbn [bind]. sim_wf k.
  apply contents_eq; [done|by rewrite zlen_insert|]. cbn [rb_buf rb_len rb_first].
  rewrite zlen_insert, Hb. intros j Hj. pose proof (ring_bound n (rb_first rb) j Hf ltac:(lia)).
  rewrite !lookup_insert_Z by lia. rewrite Hlk, Hb by lia.
  unfold ring in *. bcase; done || lia.
Qed.

Lemma ringbuf_exec_sim op rb l r :
  ringbuf_wf rb -> deque_exec (rb_mask rb + 1) op (contents rb) = Some (l, r) ->
  simulates rb (ringbuf_exec op rb) l r.
Proof.
  intros Hwf. pose proof (zlen_contents rb Hwf) as Hlen. destruct op; cbn [deque_exec].
  - intros [= <- <-]. by apply sim_push_front.
  - intros [= <- <-]. by apply sim_push_back.
  - destruct (contents rb) eqn:E; [done|]. intros [= <- <-]. by eapply sim_pop_front.
  - rewrite Hlen. destruct (Z.eqb_spec (rb_len rb) 0) as [|Hn]; [done|]. intros [= <- <-].
    cbn [ringbuf_exec]. unfold ngtcp2_ringbuf_pop_back. rewrite (proj2 (Z.eqb_neq _ _) Hn). cbn [negb bind].
    rewrite <- Hlen. destruct (contents_shrink rb (zlen (contents rb) - 1) Hwf) as [? ?];
      [rewrite Hlen; zlen_pos; lia|]. by eexists.
  - destruct (Z.leb_spec 0 len); [|done]. rewrite Hlen. destruct (Z.leb_spec len (rb_len rb)); [|done].
    intros [= <- <-]. destruct (contents_shrink rb len Hwf) as [? ?]; [lia|].
    cbn [ringbuf_exec]. unfold ngtcp2_ringbuf_resize.
    destruct (Z.leb_spec len (rb_mask rb + 1)); [by eexists|].
    destruct Hwf as (k & ? & ? & ? & ? & ?). lia.
  - destruct (Z.leb_spec 0 offset); [|done]. destruct (contents rb !! _) eqn:E; [|done].
    intros [= <- <-]. by apply sim_get.
  - destruct (Z.leb_spec 0 offset); [|done]. destruct (Z.ltb_spec offset (zlen (contents rb))); [|done].
    intros [= <- <-]. by apply sim_put.
  - intros [= <- <-]. rewrite Hlen. by exists rb.
  - intros [= <- <-]. rewrite Hlen. by exists rb.
Qed.

Lemma ringbuf_run_sim ops rb l rs :
  ringbuf_wf rb -> deque_run (rb_mask rb + 1) ops (contents rb) = Some (l, rs) ->
  exists rb', ringbuf_run ops rb = Ok (rb', rs) /\ ringbuf_wf rb' /\ contents rb' = l.
Proof.
  revert rb l rs. induction ops as [|op ops IH]; intros rb l rs Hwf; cbn [deque_run ringbuf_run].
  - intros [= <- <-]. by exists rb.
  - destruct (deque_exec _ op _) as [[l1 r]|] eqn:E; [|done].
    destruct (ringbuf_exec_sim op rb l1 r Hwf E) as (rb1 & -> & Hwf1 & Hm & <-). cbn [bind].
    destruct (deque_run _ ops _) as [[l2 rs2]|] eqn:E2; [|done]. intros [= <- <-].
    rewrite <- Hm in E2. destruct (IH rb1 l2 rs2 Hwf1 E2) as (rb2 & -> & ? & ?).
    by exists rb2.
Qed.
End Ringbuf.

Lemma ispow2_pow k : 0 <= k -> ispow2 (2 ^ k) = true.
Proof.
  intros Hk. unfold ispow2. rewrite land_ones_mod by done. rewrite Z.mod_same by lia.
  destruct (Z.eqb_spec (2 ^ k) 0); [lia|done].
Qed.

(** C21: the ring buffer refines a bounded deque.  From a freshly initialised
    buffer of [2^k] elements, every sequence of operations that the deque
    allows runs without a failed assertion or an access outside the array
    and returns what the deque returns; a push to a full buffer drops the
    element at the other end. *)
Theorem ringbuf_refines_deque {A : Type} (k : Z) (buf : list A) (ops : list ringbuf_op)
    (l : list A) (rs : list ringbuf_ret) :
  0 <= k < 64 -> zlen buf = 2 ^ k -> deque_run (2 ^ k) ops [] = Some (l, rs) ->
  exists rb rb', ngtcp2_ringbuf_buf_init (2 ^ k) buf = Ok rb /\
    ringbuf_run ops rb = Ok (rb', rs) /\ ringbuf_wf rb' /\ contents rb' = l.
Proof.
  intros Hk Hb Hrun. unfold ngtcp2_ringbuf_buf_init. rewrite ispow2_pow by lia.
  exists (mk_ringbuf buf (2 ^ k - 1) 0 0).
  destruct (ringbuf_run_sim ops (mk_ringbuf buf (2 ^ k - 1) 0 0) l rs) as (rb' & ? & ? & ?).
  - exists k. cbn. split_and!; done || lia.
  - cbn [rb_mask]. by replace (2 ^ k - 1 + 1) with (2 ^ k) by lia.
  - by exists rb'.
Qed.

Lemma ringbuf_refines_deque_witness :
  exists rb rb', ngtcp2_ringbuf_buf_init (2 ^ 2) [0; 0; 0; 0] = Ok rb /\
    ringbuf_run [PushBack 1; PushFront 2; PushBack 3; PushFront 4; PushBack 5; Get 0; PopFront;
                 PushFront 6; PushFront 7; Full; Resize 2; PopBack] rb
    = Ok (rb', [RNone; RNone; RNone; RNone; RNone; RElem 2; RNone; RNone; RNone; RFull true;
                RNone; RNone]) /\
    ringbuf_wf rb' /\ contents rb' = [7].
Proof. by apply ringbuf_refines_deque. Defined.
