(* ===== verification/Ratelim.v ===== *)
(** * Rate limiter: [lib/ngtcp2_ratelim.c]

    A token bucket with integer arithmetic.  The reference is the bucket over
    billionths of a token, in which nothing is rounded; the code keeps the
    whole tokens and the remainder ([carry]) apart. *)

From S2P Require Import Prelude Const.

Record ngtcp2_ratelim := mk_ratelim {
  rl_burst : Z;
  rl_rate : Z;
  rl_tokens : Z;
  rl_carry : Z;
  rl_ts : Z;
}.

Definition ngtcp2_ratelim_init (burst rate ts : Z) : ngtcp2_ratelim :=
  mk_ratelim burst rate burst 0 ts.

Definition ratelim_update (rlim : ngtcp2_ratelim) (ts : Z) : res ngtcp2_ratelim :=
  assert! rl_ts rlim <=? ts;
  if ts =? rl_ts rlim then Ok rlim else
  let d := ts - rl_ts rlim in
  let gain :=
    if (UINT64_MAX - rl_carry rlim) / d <? rl_rate rlim then UINT64_MAX
    else u64 (rl_rate rlim * d + rl_carry rlim) in
  let gps := gain / NGTCP2_SECONDS in
  if (gps <? rl_burst rlim) && (rl_tokens rlim <? rl_burst rlim - gps) then
    Ok (mk_ratelim (rl_burst rlim) (rl_rate rlim) (u64 (rl_tokens rlim + gps))
                   (gain mod NGTCP2_SECONDS) ts)
  else Ok (mk_ratelim (rl_burst rlim) (rl_rate rlim) (rl_burst rlim) 0 ts).

(** 0 or -1, and the new state. *)
Definition ngtcp2_ratelim_drain (rlim : ngtcp2_ratelim) (n ts : Z) : res (Z * ngtcp2_ratelim) :=
  let* rlim := ratelim_update rlim ts in
  if rl_tokens rlim <? n then Ok (-1, rlim)
  else Ok (0, mk_ratelim (rl_burst rlim) (rl_rate rlim) (rl_tokens rlim - n) (rl_carry rlim) ts).

(** ** The ideal bucket *)
Section Ideal.
Context (burst rate : Z).

(** [level] in billionths of a token: it fills by [rate] per nanosecond up
    to [burst] tokens, and a drain takes whole tokens that are there. *)
Definition bucket_fill (level d : Z) : Z := Z.min (burst * NGTCP2_SECONDS) (level + rate * d).

Definition bucket_drain (level n : Z) : bool * Z :=
  if level / NGTCP2_SECONDS <? n then (false, level) else (true, level - n * NGTCP2_SECONDS).
End Ideal.

Definition level (rlim : ngtcp2_ratelim) : Z := rl_tokens rlim * NGTCP2_SECONDS + rl_carry rlim.

Record ratelim_wf (rlim : ngtcp2_ratelim) : Prop := {
  wf_burst : 0 <= rl_burst rlim <= UINT64_MAX / NGTCP2_SECONDS;
  wf_rate : 0 <= rl_rate rlim <= UINT64_MAX;
  wf_tokens : 0 <= rl_tokens rlim;
  wf_carry : 0 <= rl_carry rlim < NGTCP2_SECONDS;
  wf_level : level rlim <= rl_burst rlim * NGTCP2_SECONDS;
  wf_ts : 0 <= rl_ts rlim;
}.

(** The saturated gain is never below the real one. *)
Lemma gain_spec rate d carry :
  0 < d -> 0 <= rate -> 0 <= carry <= UINT64_MAX ->
  (if (UINT64_MAX - carry) / d <? rate then UINT64_MAX else u64 (rate * d + carry))
  = Z.min UINT64_MAX (rate * d + carry).
Proof.
  intros Hd Hr Hc. destruct (Z.ltb_spec ((UINT64_MAX - carry) / d) rate) as [H|H].
  - pose proof (Z.mul_succ_div_gt (UINT64_MAX - carry) d Hd). nia.
  - assert (rate * d <= UINT64_MAX - carry).
    { pose proof (Z.mul_div_le (UINT64_MAX - carry) d Hd). nia. }
    rewrite u64_small by (unfold is_u64, UINT64_MAX in *; nia). lia.
Qed.

Lemma ratelim_update_spec rlim ts :
  ratelim_wf rlim -> rl_ts rlim <= ts ->
  exists rlim', ratelim_update rlim ts = Ok rlim' /\ ratelim_wf rlim' /\
    rl_burst rlim' = rl_burst rlim /\ rl_rate rlim' = rl_rate rlim /\ rl_ts rlim' = ts /\
    level rlim' = bucket_fill (rl_burst rlim) (rl_rate rlim) (level rlim) (ts - rl_ts rlim).
Proof.
  intros Hwf Hts. unfold ratelim_update.
  destruct (Z.leb_spec (rl_ts rlim) ts) as [_|]; [|lia].
  destruct Hwf as [Hb Hr Ht Hc Hl Hts0]. unfold level, bucket_fill in *.
  destruct (Z.eqb_spec ts (rl_ts rlim)) as [->|Hne].
  { exists rlim. split_and!; try done; lia. }
  assert (Hmax : UINT64_MAX / NGTCP2_SECONDS = 18446744073) by reflexivity.
  assert (HM : UINT64_MAX = 18446744073709551615) by reflexivity.
  change NGTCP2_SECONDS with 1000000000 in *. cbv zeta. rewrite gain_spec by lia.
  remember (ts - rl_ts rlim) as d eqn:Ed. remember (rl_rate rlim * d) as g eqn:Eg.
  assert (0 <= g) by (subst; nia).
  remember (Z.min UINT64_MAX (g + rl_carry rlim)) as gain eqn:Egain.
  pose proof (Z.div_mod gain 1000000000 ltac:(lia)).
  pose proof (Z.mod_pos_bound gain 1000000000 ltac:(lia)).
  destruct (Z.ltb_spec (gain / 1000000000) (rl_burst rlim)), (Z.ltb_spec (rl_tokens rlim) (rl_burst rlim - gain / 1000000000));
    cbn [andb]; eexists; (split; [reflexivity|]).
  1: rewrite u64_small by (unfold is_u64; lia).
  all: split; [split; unfold level; cbn; change NGTCP2_SECONDS with 1000000000; lia|].
  all: cbn; split_and!; try done; lia.
Qed.

Lemma ratelim_drain_spec rlim n ts :
  ratelim_wf rlim -> rl_ts rlim <= ts -> 0 <= n ->
  let filled := bucket_fill (rl_burst rlim) (rl_rate rlim) (level rlim) (ts - rl_ts rlim) in
  let (ok, level') := bucket_drain filled n in
  exists rlim', ngtcp2_ratelim_drain rlim n ts = Ok (if ok then 0 else -1, rlim') /\
    ratelim_wf rlim' /\ rl_burst rlim' = rl_burst rlim /\ rl_rate rlim' = rl_rate rlim /\
    rl_ts rlim' = ts /\ level rlim' = level'.
Proof.
  intros Hwf Hts Hn. cbv zeta. unfold ngtcp2_ratelim_drain.
  destruct (ratelim_update_spec rlim ts Hwf Hts) as (r & -> & Hr & Hb & Hra & Ht & <-). cbn [bind].
  unfold bucket_drain. replace (level r / NGTCP2_SECONDS) with (rl_tokens r).
  2:{ unfold level. rewrite Z.div_add_l by done. pose proof (wf_carry _ Hr).
      rewrite Z.div_small by done. lia. }
  destruct (Z.ltb_spec (rl_tokens r) n) as [H|H]; eexists; (split; [reflexivity|]); [done|].
  destruct Hr as [H1 H2 H3 H4 H5 H6]. unfold level in *. change NGTCP2_SECONDS with 1000000000 in *.
  split; [split; unfold level; cbn; change NGTCP2_SECONDS with 1000000000; lia|].
  cbn. change NGTCP2_SECONDS with 1000000000. split_and!; done || lia.
Qed.

(** ** Sequences of drains *)
Fixpoint ratelim_run (rlim : ngtcp2_ratelim) (reqs : list (Z * Z)) : res (list Z * ngtcp2_ratelim) :=
  match reqs with
  | [] => Ok ([], rlim)
  | (n, ts) :: reqs =>
      let* (rv, rlim) := ngtcp2_ratelim_drain rlim n ts in
      let* (rvs, rlim) := ratelim_run rlim reqs in
      Ok (rv :: rvs, rlim)
  end.

(** The answers of the ideal bucket, which is at [level] at time [t]. *)
Fixpoint bucket_run (burst rate level t : Z) (reqs : list (Z * Z)) : list Z :=
  match reqs with
  | [] => []
  | (n, ts) :: reqs =>
      let (ok, level) := bucket_drain (bucket_fill burst rate level (ts - t)) n in
      (if ok then 0 else -1) :: bucket_run burst rate level ts reqs
  end.

(** What the answers let through. *)
Fixpoint drained (reqs : list (Z * Z)) (rvs : list Z) : Z :=
  match reqs, rvs with
  | (n, _) :: reqs, rv :: rvs => (if rv =? 0 then n else 0) + drained reqs rvs
  | _, _ => 0
  end.

Fixpoint times_from (t : Z) (reqs : list (Z * Z)) : Prop :=
  match reqs with
  | [] => True
  | (n, ts) :: reqs => 0 <= n /\ t <= ts /\ times_from ts reqs
  end.

Definition last_time (t : Z) (reqs : list (Z * Z)) : Z := fold_left (fun _ r => r.2) reqs t.

Lemma last_time_ge t reqs : times_from t reqs -> t <= last_time t reqs.
Proof.
  revert t. induction reqs as [|[n ts] reqs IH]; intros t; cbn; [lia|].
  intros (_ & ? & H). apply IH in H. unfold last_time in H. lia.
Qed.

Lemma ratelim_run_spec rlim reqs :
  ratelim_wf rlim -> times_from (rl_ts rlim) reqs ->
  exists rvs rlim', ratelim_run rlim reqs = Ok (rvs, rlim') /\
    rvs = bucket_run (rl_burst rlim) (rl_rate rlim) (level rlim) (rl_ts rlim) reqs /\
    drained reqs rvs * NGTCP2_SECONDS
    <= level rlim + rl_rate rlim * (last_time (rl_ts rlim) reqs - rl_ts rlim).
Proof.
  revert rlim. induction reqs as [|[n ts] reqs IH]; intros rlim Hwf Htimes.
  - exists [], rlim. split_and!; [done..|]. cbn. destruct Hwf. unfold level.
    change NGTCP2_SECONDS with 1000000000. lia.
  - destruct Htimes as (Hn & Hts & Htimes). cbn [ratelim_run bucket_run].
    pose proof (ratelim_drain_spec rlim n ts Hwf Hts Hn) as H. cbv zeta in H.
    assert (Hfill : bucket_fill (rl_burst rlim) (rl_rate rlim) (level rlim) (ts - rl_ts rlim)
                    <= level rlim + rl_rate rlim * (ts - rl_ts rlim)) by (unfold bucket_fill; lia).
    remember (bucket_fill _ _ _ _) as filled eqn:Ef.
    destruct (bucket_drain filled n) as [ok level'] eqn:Ed.
    destruct H as (r & -> & Hr & Hb & Hra & Ht & Hl). cbn [bind].
    subst ts. destruct (IH r Hr Htimes) as (rvs & r' & -> & -> & Hbound). cbn [bind].
    rewrite Hb, Hra, Hl. exists ((if ok then 0 else -1) :: bucket_run (rl_burst rlim) (rl_rate rlim) level' (rl_ts r) reqs), r'.
    split_and!; [done..|]. cbn [drained]. rewrite Hb, Hra, Hl in Hbound.
    unfold bucket_drain in Ed. change (last_time (rl_ts rlim) ((n, rl_ts r) :: reqs)) with (last_time (rl_ts r) reqs).
    destruct (filled / NGTCP2_SECONDS <? n); injection Ed as <- <-; cbn; lia.
Qed.

(** C22: the rate limiter is an exact token bucket.  From a limiter with a
    burst of at most 18446744073 tokens, every sequence of drains at times
    that do not go back answers what the ideal bucket without rounding
    answers, no assertion fails, and the tokens let through are at most the
    burst and what the rate generates in between. *)
Theorem ratelim_token_bucket (burst rate t : Z) (reqs : list (Z * Z)) :
  0 <= burst <= UINT64_MAX / NGTCP2_SECONDS -> 0 <= rate <= UINT64_MAX -> 0 <= t ->
  times_from t reqs ->
  exists rvs rlim,
    ratelim_run (ngtcp2_ratelim_init burst rate t) reqs = Ok (rvs, rlim) /\
    rvs = bucket_run burst rate (burst * NGTCP2_SECONDS) t reqs /\
    drained reqs rvs * NGTCP2_SECONDS
    <= burst * NGTCP2_SECONDS + rate * (last_time t reqs - t).
Proof.
  intros Hb Hr Ht Htimes.
  destruct (ratelim_run_spec (ngtcp2_ratelim_init burst rate t) reqs) as (rvs & r & H1 & H2 & H3).
  - split; cbn; unfold level; cbn; change NGTCP2_SECONDS with 1000000000 in *; lia.
  - done.
  - exists rvs, r. unfold level in *. cbn [ngtcp2_ratelim_init rl_burst rl_rate rl_tokens rl_carry rl_ts] in *.
    rewrite Z.add_0_r in *. done.
Qed.

Lemma ratelim_token_bucket_witness :
  let reqs := [(7, 10); (6, 20); (1, 500000020); (3, 1500000020); (2, 2000000000)] in
  exists rvs rlim,
    ratelim_run (ngtcp2_ratelim_init 10 2 5) reqs = Ok (rvs, rlim) /\
    rvs = bucket_run 10 2 (10 * NGTCP2_SECONDS) 5 reqs /\
    drained reqs rvs * NGTCP2_SECONDS
    <= 10 * NGTCP2_SECONDS + 2 * (last_time 5 reqs - 5).
Proof. apply ratelim_token_bucket; [by vm_compute..|]. repeat split; by vm_compute. Defined.
