(* ===== verification/WindowFilter.v ===== *)
(** * Windowed maximum filter: [lib/ngtcp2_window_filter.c]

    The filter BBR keeps of its bandwidth samples: the best sample of a
    window, with two more recent runners-up that take over when the best one
    leaves the window. *)

From S2P Require Import Prelude Const.

Record ngtcp2_window_filter_sample := mk_sample { ws_sample : Z; ws_time : Z }.

Record ngtcp2_window_filter := mk_window_filter {
  wf_window_length : Z;
  wf_est0 : ngtcp2_window_filter_sample;
  wf_est1 : ngtcp2_window_filter_sample;
  wf_est2 : ngtcp2_window_filter_sample;
}.

(** [memset(wf->estimates, 0xFF, ...)] *)
Definition ngtcp2_window_filter_init (window_length : Z) : ngtcp2_window_filter :=
  let e := mk_sample UINT64_MAX UINT64_MAX in mk_window_filter window_length e e e.

Definition ngtcp2_window_filter_reset (wf : ngtcp2_window_filter) (new_sample new_time : Z)
    : ngtcp2_window_filter :=
  let e := mk_sample new_sample new_time in mk_window_filter (wf_window_length wf) e e e.

Definition ngtcp2_window_filter_update (wf : ngtcp2_window_filter) (new_sample new_time : Z)
    : ngtcp2_window_filter :=
  let w := wf_window_length wf in
  let new := mk_sample new_sample new_time in
  if (ws_sample (wf_est0 wf) =? UINT64_MAX) || (ws_sample (wf_est0 wf) <? new_sample)
     || (w <? u64 (new_time - ws_time (wf_est2 wf)))
  then ngtcp2_window_filter_reset wf new_sample new_time
  else
    let (e1, e2) :=
      if ws_sample (wf_est1 wf) <? new_sample then (new, new)
      else if ws_sample (wf_est2 wf) <? new_sample then (wf_est1 wf, new)
      else (wf_est1 wf, wf_est2 wf) in
    let e0 := wf_est0 wf in
    (* Expire and update estimates as necessary. *)
    if w <? u64 (new_time - ws_time e0) then
      let '(e0, e1, e2) := (e1, e2, new) in
      if w <? u64 (new_time - ws_time e0) then mk_window_filter w e1 e2 e2
      else mk_window_filter w e0 e1 e2
    else if (ws_sample e1 =? ws_sample e0) && (Z.shiftr w 2 <? u64 (new_time - ws_time e1)) then
      mk_window_filter w e0 new new
    else if (ws_sample e2 =? ws_sample e1) && (Z.shiftr w 1 <? u64 (new_time - ws_time e2)) then
      mk_window_filter w e0 e1 new
    else mk_window_filter w e0 e1 e2.

Definition ngtcp2_window_filter_get_best (wf : ngtcp2_window_filter) : Z := ws_sample (wf_est0 wf).

(** ** Histories

    The samples given to the filter, the most recent first. *)
Definition history := list ngtcp2_window_filter_sample.

Fixpoint filter_of (window_length : Z) (h : history) : ngtcp2_window_filter :=
  match h with
  | [] => ngtcp2_window_filter_init window_length
  | s :: h => ngtcp2_window_filter_update (filter_of window_length h) (ws_sample s) (ws_time s)
  end.

(** Samples are below [UINT64_MAX] and times do not go back. *)
Fixpoint history_ok (h : history) : Prop :=
  match h with
  | [] => True
  | s :: h =>
      0 <= ws_sample s < UINT64_MAX /\ 0 <= ws_time s < 2 ^ 64 /\
      match h with [] => True | s' :: _ => ws_time s' <= ws_time s end /\ history_ok h
  end.

(** [record h s]: [s] beats every sample before it and no later one beats
    it. *)
Fixpoint record (h : history) (s : ngtcp2_window_filter_sample) : Prop :=
  match h with
  | [] => False
  | s' :: h =>
      (s' = s /\ Forall (fun x => ws_sample x < ws_sample s) h) \/
      (ws_sample s' <= ws_sample s /\ record h s)
  end.

(** ** The invariant *)
Record filter_inv (w : Z) (s : ngtcp2_window_filter_sample) (h : history)
    (f : ngtcp2_window_filter) : Prop := {
  inv_length : wf_window_length f = w;
  inv_in0 : wf_est0 f ∈ s :: h;
  inv_in1 : wf_est1 f ∈ s :: h;
  inv_in2 : wf_est2 f ∈ s :: h;
  inv_samples : ws_sample (wf_est1 f) <= ws_sample (wf_est0 f) /\
                ws_sample (wf_est2 f) <= ws_sample (wf_est1 f) /\
                ws_sample s <= ws_sample (wf_est2 f);
  inv_times : ws_time (wf_est0 f) <= ws_time (wf_est1 f) /\
              ws_time (wf_est1 f) <= ws_time (wf_est2 f) /\
              ws_time (wf_est2 f) <= ws_time s;
  inv_window : ws_time s - ws_time (wf_est0 f) <= w;
}.

Lemma history_times s h x : history_ok (s :: h) -> x ∈ s :: h -> 0 <= ws_time x <= ws_time s.
Proof.
  revert s. induction h as [|s' h IH]; intros s (Hs & Ht & Hmon & Hok) Hx.
  - apply list_elem_of_singleton in Hx as ->. lia.
  - apply elem_of_cons in Hx as [->|Hx]; [lia|]. apply IH in Hx; [lia|done].
Qed.

Lemma history_samples s h x : history_ok (s :: h) -> x ∈ s :: h -> 0 <= ws_sample x < UINT64_MAX.
Proof.
  revert s. induction h as [|s' h IH]; intros s (Hs & Ht & Hmon & Hok) Hx.
  - apply list_elem_of_singleton in Hx as ->. lia.
  - apply elem_of_cons in Hx as [->|Hx]; [lia|]. apply (IH s'); done.
Qed.

Section Step.
Context (w : Z) (s s' : ngtcp2_window_filter_sample) (h : history) (f : ngtcp2_window_filter).
Context (Hw : 0 <= w) (Hok : history_ok (s :: s' :: h)) (Hinv : filter_inv w s' h f).

Lemma diff_time x : x ∈ s :: s' :: h -> u64 (ws_time s - ws_time x) = ws_time s - ws_time x.
Proof.
  intros Hx. pose proof (history_times _ _ _ Hok Hx). destruct Hok as (_ & Ht & _).
  apply u64_small. unfold is_u64. lia.
Qed.

Lemma update_inv : filter_inv w s (s' :: h) (ngtcp2_window_filter_update f (ws_sample s) (ws_time s)).
Proof.
  destruct Hinv as [Hl H0 H1 H2 [Hs1 [Hs2 Hs3]] [Ht1 [Ht2 Ht3]] Hwin].
  pose proof (proj1 (proj2 (proj2 Hok))) as Hmon. cbn in Hmon.
  apply (list_elem_of_further _ s) in H0, H1, H2.
  assert (Hs : s ∈ s :: s' :: h) by apply elem_of_cons, or_introl, eq_refl.
  assert (En : mk_sample (ws_sample s) (ws_time s) = s) by by destruct s.
  unfold ngtcp2_window_filter_update, ngtcp2_window_filter_reset. rewrite En, Hl.
  rewrite diff_time by done.
  destruct (_ || _) eqn:E; [split; cbn; try done; lia|].
  rewrite !orb_false_iff, !Z.ltb_ge, Z.eqb_neq in E. destruct E as [[_ Es] Ew].
  destruct (Z.ltb_spec (ws_sample (wf_est1 f)) (ws_sample s)) as [G1|G1];
    [|destruct (Z.ltb_spec (ws_sample (wf_est2 f)) (ws_sample s)) as [G2|G2]];
    rewrite !diff_time by done;
    repeat match goal with
    | |- context [if ?a <? ?b then _ else _] => destruct (Z.ltb_spec a b)
    | |- context [if ?a && ?b then _ else _] => destruct (a && b)
    end; split; cbn; try done; lia.
Qed.

(** A best sample that no new one beats stays while it is in the window. *)
Lemma update_keeps :
  ws_sample s <= ws_sample (wf_est0 f) -> ws_time s - ws_time (wf_est0 f) <= w ->
  wf_est0 (ngtcp2_window_filter_update f (ws_sample s) (ws_time s)) = wf_est0 f.
Proof.
  intros Hle Hwin. destruct Hinv as [Hl H0 H1 H2 _ [Ht1 [Ht2 Ht3]] _].
  pose proof (history_samples _ _ _ (proj2 (proj2 (proj2 Hok))) H0) as Hmax.
  apply (list_elem_of_further _ s) in H0, H1, H2.
  unfold ngtcp2_window_filter_update. rewrite Hl, !diff_time by done.
  destruct (Z.eqb_spec (ws_sample (wf_est0 f)) UINT64_MAX); [lia|].
  destruct (Z.ltb_spec (ws_sample (wf_est0 f)) (ws_sample s)); [lia|].
  destruct (Z.ltb_spec w (ws_time s - ws_time (wf_est2 f))); [lia|]. cbn [orb].
  destruct (if ws_sample (wf_est1 f) <? ws_sample s then _ else _) as [e1 e2].
  destruct (Z.ltb_spec w (ws_time s - ws_time (wf_est0 f))); [lia|].
  repeat match goal with |- context [if ?b then _ else _] => destruct b end; done.
Qed.
End Step.

Lemma filter_of_inv w s h :
  0 <= w -> history_ok (s :: h) -> filter_inv w s h (filter_of w (s :: h)).
Proof.
  intros Hw. revert s. induction h as [|s' h IH]; intros s Hok.
  - destruct s as [a t]. set (e := mk_sample a t).
    change (filter_of w [e]) with (mk_window_filter w e e e). split; cbn; try (by apply list_elem_of_singleton); lia.
  - change (filter_of w (s :: s' :: h))
      with (ngtcp2_window_filter_update (filter_of w (s' :: h)) (ws_sample s) (ws_time s)).
    apply update_inv; [done..|]. apply IH. apply Hok.
Qed.

Lemma record_in h r : record h r -> r ∈ h.
Proof.
  induction h as [|s h IH]; cbn; [done|].
  intros [[-> _]|[_ H]]; apply elem_of_cons; [by left|]. right. by apply IH.
Qed.

Lemma filter_of_record w s h r :
  0 <= w -> history_ok (s :: h) -> record (s :: h) r -> ws_time s - ws_time r <= w ->
  wf_est0 (filter_of w (s :: h)) = r.
Proof.
  intros Hw. revert s. induction h as [|s' h IH]; intros s Hok Hrec Hwin.
  - destruct Hrec as [[-> _]|[_ []]]. cbn. by destruct r.
  - change (filter_of w (s :: s' :: h))
      with (ngtcp2_window_filter_update (filter_of w (s' :: h)) (ws_sample s) (ws_time s)).
    pose proof (proj2 (proj2 (proj2 Hok))) as Hok'.
    pose proof (filter_of_inv w s' h Hw Hok') as Hinv.
    destruct Hrec as [[-> Hall]|[Hle Hrec]].
    + unfold ngtcp2_window_filter_update, ngtcp2_window_filter_reset.
      rewrite list.Forall_forall in Hall. pose proof (Hall _ (inv_in0 _ _ _ _ Hinv)) as Hlt.
      destruct (Z.ltb_spec (ws_sample (wf_est0 (filter_of w (s' :: h)))) (ws_sample r)); [|lia].
      rewrite orb_true_r. by destruct r.
    + pose proof (proj1 (proj2 (proj2 Hok))) as Hmon. cbn in Hmon.
      assert (E : wf_est0 (filter_of w (s' :: h)) = r) by (apply IH; [done|done|lia]).
      rewrite (update_keeps w s s' h) by (done || rewrite E; done). done.
Qed.

(** C23: the windowed maximum.  After any sequence of samples at times that
    do not go back, the best estimate is one of the samples, was taken
    within the window, and is not below the most recent sample; and a sample
    that was the largest when it came and that no later one beats is the
    best estimate for as long as it is in the window. *)
Theorem window_filter_best (w : Z) (s : ngtcp2_window_filter_sample) (h : history) :
  0 <= w -> history_ok (s :: h) ->
  let f := filter_of w (s :: h) in
  (exists x, x ∈ s :: h /\ ngtcp2_window_filter_get_best f = ws_sample x /\
             0 <= ws_time s - ws_time x <= w) /\
  ws_sample s <= ngtcp2_window_filter_get_best f /\
  (forall r, record (s :: h) r -> ws_time s - ws_time r <= w ->
             ngtcp2_window_filter_get_best f = ws_sample r).
Proof.
  intros Hw Hok. cbv zeta. unfold ngtcp2_window_filter_get_best.
  destruct (filter_of_inv w s h Hw Hok) as [_ H0 _ _ Hs Ht Hwin]. split_and!.
  - exists (wf_est0 (filter_of w (s :: h))). split_and!; done || lia.
  - lia.
  - intros r Hr Hin. by rewrite (filter_of_record w s h r).
Qed.

Lemma window_filter_best_witness :
  let h := [mk_sample 5 7; mk_sample 9 2; mk_sample 8 1] in
  let f := filter_of 10 (mk_sample 4 11 :: h) in
  (exists x, x ∈ mk_sample 4 11 :: h /\ ngtcp2_window_filter_get_best f = ws_sample x /\
             0 <= 11 - ws_time x <= 10) /\
  4 <= ngtcp2_window_filter_get_best f /\
  (forall r, record (mk_sample 4 11 :: h) r -> 11 - ws_time r <= 10 ->
             ngtcp2_window_filter_get_best f = ws_sample r).
Proof.
  apply (window_filter_best 10 (mk_sample 4 11) [mk_sample 5 7; mk_sample 9 2; mk_sample 8 1]);
    [lia|]. repeat split; by vm_compute.
Defined.
