(* ===== verification/Pq.v ===== *)
(** * Priority queue: [lib/ngtcp2_pq.c]

    A binary heap of pointers to entries that carry their own position.  An
    entry is identified by its address; [pq_index] is the [index] field of
    every entry, which the queue updates when it moves an entry.  [pq_q]
    holds the first [length] cells of the array.  Indices are [nat], as no
    array of pointers is longer than the address space. *)

From S2P Require Import Prelude Const.
From stdpp Require Import gmap.
#[local] Open Scope Z_scope.

Record ngtcp2_pq := mk_pq {
  pq_q : list Z;
  pq_capacity : Z;
  pq_index : gmap Z nat;
}.

Definition ngtcp2_pq_init : ngtcp2_pq := mk_pq [] 0 ∅.

Definition parent (i : nat) : nat := ((i - 1) / 2)%nat.

Definition swap (pq : ngtcp2_pq) (i j : nat) : res ngtcp2_pq :=
  match pq_q pq !! i, pq_q pq !! j with
  | Some a, Some b =>
      Ok (mk_pq (<[j := a]> (<[i := b]> (pq_q pq))) (pq_capacity pq)
                (<[a := j]> (<[b := i]> (pq_index pq))))
  | _, _ => Fault
  end.

Section Code.
(** [pq->less], the comparison of the entries. *)
Context (less : Z -> Z -> bool).

(** [while (index)]: [index] decreases, so that [fuel] above it is enough. *)
Fixpoint bubble_up (fuel : nat) (pq : ngtcp2_pq) (index : nat) : res ngtcp2_pq :=
  match fuel with
  | O => Fault
  | S fuel =>
      if (index =? 0)%nat then Ok pq else
      match pq_q pq !! index, pq_q pq !! parent index with
      | Some x, Some p =>
          if negb (less x p) then Ok pq else
          let* pq := swap pq (parent index) index in
          bubble_up fuel pq (parent index)
      | _, _ => Fault
      end
  end.

(** [mem_ok] tells whether [ngtcp2_mem_realloc] succeeds. *)
Definition ngtcp2_pq_push (mem_ok : bool) (pq : ngtcp2_pq) (item : Z) : Z * res ngtcp2_pq :=
  let length := zlen (pq_q pq) in
  let grow := pq_capacity pq <=? length in
  if grow && negb mem_ok then (NGTCP2_ERR_NOMEM, Ok pq) else
  let capacity := if grow then Z.max 4 (pq_capacity pq * 2) else pq_capacity pq in
  let index := List.length (pq_q pq) in
  (0, bubble_up (S index)
        (mk_pq (pq_q pq ++ [item]) capacity (<[item := index]> (pq_index pq))) index).

Definition ngtcp2_pq_top (pq : ngtcp2_pq) : res Z :=
  match pq_q pq with [] => Fault | x :: _ => Ok x end.

(** The inner loop of [bubble_down]: the smallest of [index] and its
    children. *)
Definition min_child (q : list Z) (index : nat) : res nat :=
  let j := (index * 2 + 1)%nat in
  let step (j minindex : nat) : res nat :=
    match q !! j, q !! minindex with
    | Some c, Some m => Ok (if less c m then j else minindex)
    | _, _ => Fault
    end in
  if (length q <=? j)%nat then Ok index else
  let* minindex := step j index in
  if (length q <=? j + 1)%nat then Ok minindex else step (j + 1)%nat minindex.

(** [for (;;)]: [index] at least doubles. *)
Fixpoint bubble_down (fuel : nat) (pq : ngtcp2_pq) (index : nat) : res ngtcp2_pq :=
  match fuel with
  | O => Fault
  | S fuel =>
      let* minindex := min_child (pq_q pq) index in
      if (minindex =? index)%nat then Ok pq else
      let* pq := swap pq index minindex in
      bubble_down fuel pq minindex
  end.

(** [q[i] = q[length - 1]; q[i]->index = i; --length] *)
Definition replace_last (pq : ngtcp2_pq) (i : nat) : res ngtcp2_pq :=
  match last (pq_q pq) with
  | None => Fault
  | Some x =>
      Ok (mk_pq (take (length (pq_q pq) - 1) (<[i := x]> (pq_q pq))) (pq_capacity pq)
                (<[x := i]> (pq_index pq)))
  end.

Definition ngtcp2_pq_pop (pq : ngtcp2_pq) : res ngtcp2_pq :=
  assert! negb (length (pq_q pq) =? 0)%nat;
  let* pq := replace_last pq 0 in
  bubble_down (S (length (pq_q pq))) pq 0.

Definition ngtcp2_pq_remove (pq : ngtcp2_pq) (item : Z) : res ngtcp2_pq :=
  match pq_index pq !! item with
  | None => Fault
  | Some index =>
      assert! match pq_q pq !! index with Some x => x =? item | None => false end;
      if (index =? 0)%nat then ngtcp2_pq_pop pq else
      if (index =? length (pq_q pq) - 1)%nat then
        Ok (mk_pq (take (length (pq_q pq) - 1) (pq_q pq)) (pq_capacity pq) (pq_index pq))
      else
        let* pq := replace_last pq index in
        match pq_q pq !! index with
        | None => Fault
        | Some x =>
            if less item x then bubble_down (S (length (pq_q pq))) pq index
            else bubble_up (S index) pq index
        end
  end.

Definition ngtcp2_pq_empty (pq : ngtcp2_pq) : bool := (length (pq_q pq) =? 0)%nat.
Definition ngtcp2_pq_size (pq : ngtcp2_pq) : Z := zlen (pq_q pq).

(** ** Invariant *)

(** The entry at position [i] is not before its parent. *)
Definition ordered (q : list Z) (i : nat) : Prop := less (q !!! i) (q !!! parent i) = false.

Definition heap (q : list Z) : Prop := forall i, (0 < i < length q)%nat -> ordered q i.

(** Every entry of the queue knows its position. *)
Definition indexed (pq : ngtcp2_pq) : Prop :=
  forall i x, pq_q pq !! i = Some x -> pq_index pq !! x = Some i.

Record pq_wf (pq : ngtcp2_pq) : Prop := {
  pq_heap : heap (pq_q pq);
  pq_indexed : indexed pq;
  pq_cap : zlen (pq_q pq) <= pq_capacity pq;
}.

(** [swap] exchanges two positions. *)
Definition swapped (q : list Z) (i j : nat) : list Z := <[j := q !!! i]> (<[i := q !!! j]> q).

Lemma swap_ok pq i j :
  (i < length (pq_q pq))%nat -> (j < length (pq_q pq))%nat -> i <> j -> indexed pq ->
  exists pq', swap pq i j = Ok pq' /\ pq_q pq' = swapped (pq_q pq) i j /\
    pq_capacity pq' = pq_capacity pq /\ indexed pq'.
Proof.
  intros Hi Hj Hne Hix. unfold swap.
  destruct (lookup_lt_is_Some_2 _ _ Hi) as [a Ea]. destruct (lookup_lt_is_Some_2 _ _ Hj) as [b Eb].
  rewrite Ea, Eb. eexists. split; [done|]. cbn. split_and!; [|done|].
  - unfold swapped. by rewrite (list_lookup_total_correct _ _ _ Ea), (list_lookup_total_correct _ _ _ Eb).
  - intros k x Hk. cbn in *.
    pose proof (Hix i a Ea) as Ia. pose proof (Hix j b Eb) as Ib.
    assert (a <> b) by congruence.
    apply list_lookup_insert_Some in Hk as [(<- & <- & _)|[Hjk Hk]]; [by rewrite lookup_insert_eq|].
    apply list_lookup_insert_Some in Hk as [(<- & <- & _)|[Hik Hk]].
    + rewrite lookup_insert_ne by congruence. by rewrite lookup_insert_eq.
    + pose proof (Hix k x Hk). rewrite !lookup_insert_ne by congruence. done.
Qed.

Lemma length_swapped q i j : length (swapped q i j) = length q.
Proof. unfold swapped. by rewrite !length_insert. Qed.

Lemma lookup_swapped q i j k :
  (i < length q)%nat -> (j < length q)%nat ->
  swapped q i j !!! k = if decide (k = j) then q !!! i else if decide (k = i) then q !!! j else q !!! k.
Proof.
  intros Hi Hj. unfold swapped. destruct (decide (k = j)) as [->|].
  - apply list_lookup_total_insert_eq. by rewrite length_insert.
  - rewrite list_lookup_total_insert_ne by done. destruct (decide (k = i)) as [->|].
    + by apply list_lookup_total_insert_eq.
    + by apply list_lookup_total_insert_ne.
Qed.

Lemma swapped_perm q i j :
  (i < length q)%nat -> (j < length q)%nat -> i <> j -> swapped q i j ≡ₚ q.
Proof.
  intros Hi Hj Hne. unfold swapped.
  destruct (lookup_lt_is_Some_2 _ _ Hi) as [a Ea]. destruct (lookup_lt_is_Some_2 _ _ Hj) as [b Eb].
  rewrite (list_lookup_total_correct _ _ _ Ea), (list_lookup_total_correct _ _ _ Eb).
  by apply Permutation_insert_swap.
Qed.

(** ** Restoring the heap *)
Lemma parent_lt i : (0 < i)%nat -> (parent i < i)%nat.
Proof. intros. unfold parent. apply Nat.Div0.div_lt_upper_bound; lia. Qed.

Lemma parent_child k c : (0 < c)%nat -> parent c = k <-> c = (2 * k + 1)%nat \/ c = (2 * k + 2)%nat.
Proof.
  intros. unfold parent. pose proof (Nat.div_mod_eq (c - 1) 2).
  pose proof (Nat.mod_upper_bound (c - 1) 2 ltac:(lia)). lia.
Qed.

End Code.

(** ** Any order

    Without the laws of an order the queue is no heap, but the operations
    still succeed, and its entries and their positions are as expected. *)
Section Total.
Context (less : Z -> Z -> bool).
Implicit Types (i j k m : nat) (x item : Z).

Record same_items (pq pq' : ngtcp2_pq) : Prop := {
  sm_indexed : indexed pq';
  sm_perm : pq_q pq' ≡ₚ pq_q pq;
  sm_known : forall x, is_Some (pq_index pq' !! x) <-> is_Some (pq_index pq !! x);
}.

Lemma same_items_trans pq1 pq2 pq3 : same_items pq1 pq2 -> same_items pq2 pq3 -> same_items pq1 pq3.
Proof. intros [H1 H2 H3] [G1 G2 G3]. split; [done|by rewrite G2|]. intros x. by rewrite G3. Qed.

Lemma known_insert (index : gmap Z nat) x i :
  is_Some (index !! x) -> forall y, is_Some (<[x := i]> index !! y) <-> is_Some (index !! y).
Proof. intros Hx y. rewrite lookup_insert_is_Some. destruct (decide (x = y)) as [->|]; naive_solver. Qed.

Lemma swap_items pq i j :
  (i < length (pq_q pq))%nat -> (j < length (pq_q pq))%nat -> i <> j -> indexed pq ->
  exists pq', swap pq i j = Ok pq' /\ length (pq_q pq') = length (pq_q pq) /\ same_items pq pq'.
Proof.
  intros Hi Hj Hne Hix. destruct (swap_ok pq i j Hi Hj Hne Hix) as (pq' & E & Hq & _ & Hix').
  exists pq'. split_and!; [done|by rewrite Hq, length_swapped|]. split; [done|by rewrite Hq; apply swapped_perm|].
  unfold swap in E. destruct (pq_q pq !! i) as [a|] eqn:Ea; [|done]. destruct (pq_q pq !! j) as [b|] eqn:Eb; [|done].
  injection E as <-. intros x. cbn. apply Hix in Ea, Eb. rewrite known_insert; [by apply known_insert|].
  apply known_insert; [by rewrite Eb|by rewrite Ea].
Qed.

Lemma bubble_up_items fuel pq k :
  (k < fuel)%nat -> (k < length (pq_q pq))%nat -> indexed pq ->
  exists pq', bubble_up less fuel pq k = Ok pq' /\ same_items pq pq'.
Proof.
  revert pq k. induction fuel as [|fuel IH]; intros pq k Hf Hk Hix; [lia|]. cbn [bubble_up].
  destruct (Nat.eqb_spec k 0) as [->|Hk0]; [by exists pq|]. pose proof (parent_lt k ltac:(lia)) as Hp.
  rewrite (list_lookup_lookup_total_lt (pq_q pq) k Hk), (list_lookup_lookup_total_lt (pq_q pq) (parent k)) by lia.
  destruct (less _ _); cbn [negb]; [|by exists pq].
  destruct (swap_items pq (parent k) k) as (pq1 & -> & Hl & Hs); [lia|lia|lia|done|]. cbn [bind].
  destruct (IH pq1 (parent k)) as (pq2 & -> & Hs2); [lia|lia|apply Hs|].
  exists pq2. split; [done|]. by eapply same_items_trans.
Qed.

Lemma min_child_range q k :
  (k < length q)%nat -> exists m, min_child less q k = Ok m /\ (m < length q)%nat /\ (m = k \/ k < m)%nat.
Proof.
  intros Hk. unfold min_child. destruct (Nat.leb_spec (length q) (k * 2 + 1)); [eauto|].
  rewrite (list_lookup_lookup_total_lt q (k * 2 + 1)), (list_lookup_lookup_total_lt q k) by lia. cbn [bind].
  set (m := if less _ _ then (k * 2 + 1)%nat else k).
  assert (Hm : (m < length q)%nat /\ (m = k \/ k < m)%nat) by (unfold m; destruct (less _ _); lia).
  destruct (Nat.leb_spec (length q) (k * 2 + 1 + 1)); [eauto|].
  rewrite (list_lookup_lookup_total_lt q (k * 2 + 1 + 1)), (list_lookup_lookup_total_lt q m) by lia.
  clearbody m. destruct (less _ _); eexists; (split; [reflexivity|lia]).
Qed.

Lemma bubble_down_items fuel pq k :
  (length (pq_q pq) - k < fuel)%nat -> (k < length (pq_q pq))%nat -> indexed pq ->
  exists pq', bubble_down less fuel pq k = Ok pq' /\ same_items pq pq'.
Proof.
  revert pq k. induction fuel as [|fuel IH]; intros pq k Hf Hk Hix; [lia|]. cbn [bubble_down].
  destruct (min_child_range (pq_q pq) k Hk) as (m & -> & Hm & Hkm). cbn [bind].
  destruct (Nat.eqb_spec m k) as [->|Hne]; [by exists pq|].
  destruct (swap_items pq k m) as (pq1 & -> & Hl & Hs); [lia|lia|lia|done|]. cbn [bind].
  destruct (IH pq1 m) as (pq2 & -> & Hs2); [lia|lia|apply Hs|].
  exists pq2. split; [done|]. by eapply same_items_trans.
Qed.

Lemma pq_push_items mem_ok pq item :
  indexed pq -> pq_index pq !! item = None ->
  ngtcp2_pq_push less mem_ok pq item = (NGTCP2_ERR_NOMEM, Ok pq) \/
  exists pq', ngtcp2_pq_push less mem_ok pq item = (0, Ok pq') /\ indexed pq' /\ pq_q pq' ≡ₚ item :: pq_q pq /\
    forall x, is_Some (pq_index pq' !! x) <-> x = item \/ is_Some (pq_index pq !! x).
Proof.
  intros Hix Hnew. unfold ngtcp2_pq_push. destruct (_ && _); [by left|right].
  set (pq1 := mk_pq (pq_q pq ++ [item]) _ _).
  assert (Hix1 : indexed pq1).
  { intros i x. cbn. rewrite lookup_app_Some. intros [Hx|[Hi Hx]].
    - rewrite lookup_insert_ne; [by apply Hix|]. intros <-. apply Hix in Hx. congruence.
    - apply list_lookup_singleton_Some in Hx as [Hi0 <-]. rewrite lookup_insert_eq. f_equal. lia. }
  destruct (bubble_up_items (S (length (pq_q pq))) pq1 (length (pq_q pq))) as (pq2 & E & [H1 H2 H3]);
    [lia|cbn; rewrite length_app; cbn; lia|done|].
  exists pq2. rewrite E. split_and!; [done|done|rewrite H2; cbn; by rewrite Permutation_app_comm|].
  intros x. rewrite H3. cbn. rewrite lookup_insert_is_Some. destruct (decide (item = x)); naive_solver.
Qed.

(** The entries but [item] remain; its position is stale. *)
Record without_item pq item pq' : Prop := {
  wi_indexed : indexed pq';
  wi_perm : pq_q pq ≡ₚ item :: pq_q pq';
  wi_known : forall x, is_Some (pq_index pq' !! x) <-> is_Some (pq_index pq !! x);
}.

Lemma without_same pq item pq1 pq2 : without_item pq item pq1 -> same_items pq1 pq2 -> without_item pq item pq2.
Proof. intros [H1 H2 H3] [G1 G2 G3]. split; [done|by rewrite G2|]. intros x. by rewrite G3. Qed.

(** The last entry takes the place of another one, or is removed. *)
Lemma replace_last_items pq i item :
  indexed pq -> pq_q pq !! i = Some item -> (i < length (pq_q pq) - 1)%nat ->
  exists pq', replace_last pq i = Ok pq' /\ without_item pq item pq' /\ length (pq_q pq') = (length (pq_q pq) - 1)%nat.
Proof.
  intros Hix Hi Hlt. destruct (exists_last (l := pq_q pq)) as (l & x & E); [by intros E; rewrite E in Hi|].
  unfold replace_last. rewrite E, last_snoc, length_app in *. cbn [length] in *.
  rewrite lookup_app_l in Hi by lia. rewrite insert_app_l by lia.
  replace (length l + 1 - 1)%nat with (length (<[i := x]> l)) by (rewrite length_insert; lia).
  rewrite take_app_length. eexists. split; [done|]. cbn. split; [|done].
  assert (Hx : pq_index pq !! x = Some (length l)) by (apply Hix; rewrite E; by apply list_lookup_middle).
  split; cbn.
  - intros k y. cbn. intros [(<- & <- & _)|[Hne Hk]]%list_lookup_insert_Some; [by rewrite lookup_insert_eq|].
    assert (Hy : pq_index pq !! y = Some k) by (apply Hix; rewrite E; by apply lookup_app_l_Some).
    apply lookup_lt_Some in Hk. rewrite lookup_insert_ne; [done|]. intros <-. rewrite Hx in Hy. injection Hy. lia.
  - rewrite E. rewrite <- (take_drop_middle l i _ Hi) at 1. rewrite insert_take_drop by lia.
    rewrite Permutation_app_comm. cbn [app]. rewrite <- !Permutation_middle. apply Permutation_swap.
  - apply known_insert. by rewrite Hx.
Qed.

Lemma drop_last_items pq item :
  indexed pq -> pq_q pq !! (length (pq_q pq) - 1)%nat = Some item ->
  without_item pq item (mk_pq (take (length (pq_q pq) - 1) (pq_q pq)) (pq_capacity pq) (pq_index pq)).
Proof.
  intros Hix Hi. destruct (exists_last (l := pq_q pq)) as (l & x & E); [by intros E; rewrite E in Hi|].
  rewrite E, length_app in *. cbn [length] in *. replace (length l + 1 - 1)%nat with (length l) in * by lia.
  rewrite take_app_length. rewrite list_lookup_middle in Hi by done. injection Hi as ->.
  split; cbn; [|by rewrite E, Permutation_app_comm|done].
  intros k y Hk. cbn in *. apply Hix. rewrite E. by apply lookup_app_l_Some.
Qed.

Lemma pq_pop_items pq item :
  indexed pq -> head (pq_q pq) = Some item ->
  exists pq', ngtcp2_pq_pop less pq = Ok pq' /\ without_item pq item pq'.
Proof.
  intros Hix Hhd. rewrite head_lookup in Hhd. pose proof (lookup_lt_Some _ _ _ Hhd) as Hlt. unfold ngtcp2_pq_pop.
  destruct (Nat.eqb_spec (length (pq_q pq)) 0); [lia|]. cbn [negb].
  destruct (decide (length (pq_q pq) = 1)%nat) as [E1|].
  - destruct (pq_q pq) as [|y [|z q]] eqn:Eq; try (cbn in *; lia). injection Hhd as ->.
    unfold replace_last. rewrite Eq. cbn. eexists. split; [done|]. split; cbn; [|by rewrite Eq|].
    + intros i y Hy. cbn in Hy. done.
    + apply known_insert. rewrite (Hix 0%nat item); [by eexists|by rewrite Eq].
  - destruct (replace_last_items pq 0 item Hix Hhd) as (pq1 & -> & Hw & Hl); [lia|]. cbn [bind].
    destruct (bubble_down_items (S (length (pq_q pq1))) pq1 0) as (pq2 & -> & Hs); [lia|lia|apply Hw|].
    exists pq2. split; [done|]. by eapply without_same.
Qed.

Lemma pq_remove_items pq item :
  indexed pq -> item ∈ pq_q pq -> exists pq', ngtcp2_pq_remove less pq item = Ok pq' /\ without_item pq item pq'.
Proof.
  intros Hix [i Hi]%list_elem_of_lookup. unfold ngtcp2_pq_remove. rewrite (Hix i item Hi), Hi, Z.eqb_refl.
  pose proof (lookup_lt_Some _ _ _ Hi) as Hlt.
  destruct (Nat.eqb_spec i 0) as [->|Hi0]; [apply pq_pop_items; [done|by rewrite head_lookup]|].
  destruct (Nat.eqb_spec i (length (pq_q pq) - 1)) as [->|Hne].
  { eexists. split; [done|]. by apply drop_last_items. }
  destruct (replace_last_items pq i item Hix Hi) as (pq1 & -> & Hw & Hl); [lia|]. cbn [bind].
  destruct (lookup_lt_is_Some_2 (pq_q pq1) i) as [x ->]; [lia|].
  destruct (less item x).
  - destruct (bubble_down_items (S (length (pq_q pq1))) pq1 i) as (pq2 & -> & Hs); [lia|lia|apply Hw|].
    exists pq2. split; [done|]. by eapply without_same.
  - destruct (bubble_up_items (S i) pq1 i) as (pq2 & -> & Hs); [lia|lia|apply Hw|].
    exists pq2. split; [done|]. by eapply without_same.
Qed.
End Total.

Section Heap.
Context (less : Z -> Z -> bool) `{!StrictWeakOrder less}.
Implicit Types (q : list Z) (i j k c : nat).

(** A heap but for the position [k], which may be before its parent. *)
Definition up_heap q k : Prop :=
  (forall i, (0 < i < length q)%nat -> i <> k -> ordered less q i) /\
  ((0 < k)%nat -> forall c, (0 < c < length q)%nat -> parent c = k ->
     less (q !!! c) (q !!! parent k) = false).

(** A heap but for the position [k], which may be behind its children. *)
Definition down_heap q k : Prop :=
  (forall i, (0 < i < length q)%nat -> parent i <> k -> ordered less q i) /\
  ((0 < k)%nat -> forall c, (0 < c < length q)%nat -> parent c = k ->
     less (q !!! c) (q !!! parent k) = false).

Lemma up_heap_swap q k :
  (0 < k < length q)%nat -> up_heap q k -> less (q !!! k) (q !!! parent k) = true ->
  up_heap (swapped q (parent k) k) (parent k).
Proof.
  intros Hk [Hord Hch] Hless. pose proof (parent_lt k ltac:(lia)) as Hp.
  assert (Hlk := lookup_swapped q (parent k) k). unfold up_heap. rewrite length_swapped.
  split; [intros i Hi Hip | intros Hp0 c Hc Ec]; unfold ordered; rewrite !Hlk by lia.
  - destruct (decide (i = k)) as [->|].
    { rewrite decide_False, decide_True by lia. by apply less_asym. }
    rewrite (decide_False (P := i = parent k)) by done. pose proof (parent_lt i ltac:(lia)).
    destruct (decide (parent i = k)) as [E|]; [by apply Hch; [lia|lia|]|].
    destruct (decide (parent i = parent k)) as [E|]; [|by apply Hord].
    destruct (less (q !!! i) (q !!! k)) eqn:El; [|done].
    pose proof (Hord i Hi ltac:(done)) as Ho. unfold ordered in Ho. rewrite E in Ho.
    by rewrite (less_trans _ _ _ El Hless) in Ho.
  - pose proof (parent_lt c ltac:(lia)). pose proof (parent_lt (parent k) Hp0).
    rewrite (decide_False (P := parent (parent k) = k)) by lia.
    rewrite (decide_False (P := parent (parent k) = parent k)) by lia.
    pose proof (Hord (parent k) ltac:(lia) ltac:(lia)) as Ho. unfold ordered in Ho.
    destruct (decide (c = k)) as [->|]; [done|].
    rewrite (decide_False (P := c = parent k)) by lia.
    eapply less_negtrans; [|exact Ho]. rewrite <- Ec. by apply Hord.
Qed.

Lemma up_heap_done q k :
  up_heap q k -> (0 < k -> less (q !!! k) (q !!! parent k) = false)%nat -> heap less q.
Proof.
  intros [Hord _] Hk i Hi. destruct (decide (i = k)) as [->|]; [apply Hk; lia|by apply Hord].
Qed.

Lemma bubble_up_spec fuel pq k :
  (k < fuel)%nat -> (k < length (pq_q pq))%nat -> up_heap (pq_q pq) k -> indexed pq ->
  exists pq', bubble_up less fuel pq k = Ok pq' /\ heap less (pq_q pq') /\ indexed pq' /\
    pq_q pq' ≡ₚ pq_q pq /\ pq_capacity pq' = pq_capacity pq.
Proof.
  revert pq k. induction fuel as [|fuel IH]; intros pq k Hf Hk Hup Hix; [lia|].
  cbn [bubble_up]. destruct (Nat.eqb_spec k 0) as [->|Hk0].
  { exists pq. split_and!; try done. apply (up_heap_done _ 0); [done|lia]. }
  pose proof (parent_lt k ltac:(lia)) as Hp.
  rewrite (list_lookup_lookup_total_lt (pq_q pq) k Hk).
  rewrite (list_lookup_lookup_total_lt (pq_q pq) (parent k)) by lia.
  destruct (less (pq_q pq !!! k) (pq_q pq !!! parent k)) eqn:El; cbn [negb].
  - destruct (swap_ok pq (parent k) k) as (pq1 & -> & Hq & Hc & Hix1); [lia|lia|lia|done|].
    cbn [bind]. destruct (IH pq1 (parent k)) as (pq2 & -> & H1 & H2 & H3 & H4); [lia| | |done|].
    + rewrite Hq, length_swapped. lia.
    + rewrite Hq. by apply up_heap_swap; [lia| |].
    + exists pq2. split_and!; [done..| |congruence]. rewrite H3, Hq. by apply swapped_perm; lia.
  - exists pq. split_and!; try done. by apply (up_heap_done _ k).
Qed.

(** The smaller of [index] and its children. *)
Lemma min_child_spec q k :
  (k < length q)%nat ->
  exists m, min_child less q k = Ok m /\ (m < length q)%nat /\
    (m = k \/ ((0 < m)%nat /\ parent m = k)) /\
    (forall c, (0 < c < length q)%nat -> parent c = k -> less (q !!! c) (q !!! m) = false) /\
    (m <> k -> less (q !!! m) (q !!! k) = true).
Proof.
  intros Hk. unfold min_child.
  assert (Hch : forall c, (0 < c)%nat -> parent c = k -> c = (k * 2 + 1)%nat \/ c = (k * 2 + 1 + 1)%nat).
  { intros c Hc E. apply parent_child in E; lia. }
  destruct (Nat.leb_spec (length q) (k * 2 + 1)).
  { exists k. split_and!; [done..|by left| |done].
    intros c Hc E. apply Hch in E; lia. }
  assert (P1 : parent (k * 2 + 1) = k) by (apply parent_child; lia).
  rewrite (list_lookup_lookup_total_lt q (k * 2 + 1)) by lia.
  rewrite (list_lookup_lookup_total_lt q k) by lia. cbn [bind].
  set (m1 := if less (q !!! (k * 2 + 1)%nat) (q !!! k) then (k * 2 + 1)%nat else k).
  assert (Hm1 : (m1 < length q)%nat) by (unfold m1; destruct (less _ _); lia).
  assert (Hm1p : m1 = k \/ ((0 < m1)%nat /\ parent m1 = k))
    by (unfold m1; destruct (less _ _); [right; split; [lia|done]|by left]).
  assert (Hm1l : m1 <> k -> less (q !!! m1) (q !!! k) = true)
    by (unfold m1; destruct (less (q !!! _) (q !!! _)) eqn:E; done).
  assert (Hm1c : less (q !!! (k * 2 + 1)%nat) (q !!! m1) = false)
    by (unfold m1; destruct (less (q !!! _) (q !!! _)) eqn:E; [apply less_irrefl|done]).
  destruct (Nat.leb_spec (length q) (k * 2 + 1 + 1)).
  { exists m1. split_and!; try done. intros c Hc E. apply Hch in E as [->| ->]; [done|lia|lia]. }
  rewrite (list_lookup_lookup_total_lt q (k * 2 + 1 + 1)) by lia.
  rewrite (list_lookup_lookup_total_lt q m1) by lia.
  assert (P2 : parent (k * 2 + 1 + 1) = k) by (apply parent_child; lia).
  destruct (less (q !!! (k * 2 + 1 + 1)%nat) (q !!! m1)) eqn:E2.
  - exists (k * 2 + 1 + 1)%nat. split_and!; [done|lia|right; split; [lia|done]| |].
    + intros c Hc E. apply Hch in E as [->| ->]; [|by apply less_irrefl|lia].
      eapply less_negtrans; [exact Hm1c|]. by apply less_asym.
    + intros _. destruct (decide (m1 = k)) as [Em|]; [by rewrite Em in E2|].
      eapply less_trans; [exact E2|]. by apply Hm1l.
  - exists m1. split_and!; try done. intros c Hc E. by apply Hch in E as [->| ->]; [| |lia].
Qed.

Lemma down_heap_swap q k m :
  (k < length q)%nat -> (0 < m < length q)%nat -> parent m = k -> down_heap q k ->
  (forall c, (0 < c < length q)%nat -> parent c = k -> less (q !!! c) (q !!! m) = false) ->
  less (q !!! m) (q !!! k) = true ->
  down_heap (swapped q k m) m.
Proof.
  intros Hk Hm Ep [Hord Hch] Hmin Hless. pose proof (parent_lt m ltac:(lia)) as Hp.
  assert (Hlk := lookup_swapped q k m). unfold down_heap. rewrite length_swapped.
  split; [intros i Hi Hip | intros _ c Hc Ec]; unfold ordered; rewrite !Hlk by lia.
  - rewrite (decide_False (P := parent i = m)) by done. pose proof (parent_lt i ltac:(lia)).
    destruct (decide (i = m)) as [->|].
    { rewrite decide_True by done. by apply less_asym. }
    destruct (decide (i = k)) as [->|].
    { rewrite decide_False by lia. by apply Hch; [lia|lia|]. }
    destruct (decide (parent i = k)) as [E|]; [by apply Hmin|by apply Hord].
  - rewrite Ep, (decide_False (P := k = m)), (decide_True (P := k = k)) by lia.
    pose proof (parent_lt c ltac:(lia)).
    rewrite (decide_False (P := c = m)), (decide_False (P := c = k)) by lia.
    rewrite <- Ec. apply Hord; [done|lia].
Qed.

Lemma bubble_down_spec fuel pq k :
  (length (pq_q pq) - k < fuel)%nat -> (k < length (pq_q pq))%nat ->
  down_heap (pq_q pq) k -> indexed pq ->
  exists pq', bubble_down less fuel pq k = Ok pq' /\ heap less (pq_q pq') /\ indexed pq' /\
    pq_q pq' ≡ₚ pq_q pq /\ pq_capacity pq' = pq_capacity pq.
Proof.
  revert pq k. induction fuel as [|fuel IH]; intros pq k Hf Hk Hdown Hix; [lia|].
  cbn [bubble_down]. destruct (min_child_spec (pq_q pq) k Hk) as (m & -> & Hm & Hmp & Hmin & Hml).
  cbn [bind]. destruct (Nat.eqb_spec m k) as [->|Hne].
  { exists pq. split_and!; try done. intros i Hi.
    destruct (decide (parent i = k)) as [E|]; [|by apply Hdown].
    unfold ordered. rewrite E. by apply Hmin. }
  destruct Hmp as [->|[Hm0 Hmp]]; [done|]. pose proof (parent_lt m Hm0).
  destruct (swap_ok pq k m) as (pq1 & -> & Hq & Hc & Hix1); [lia|lia|lia|done|].
  cbn [bind]. destruct (IH pq1 m) as (pq2 & -> & H1 & H2 & H3 & H4).
  - rewrite Hq, length_swapped. lia.
  - by rewrite Hq, length_swapped.
  - rewrite Hq. apply down_heap_swap; auto with lia.
  - done.
  - exists pq2. split_and!; [done..| |congruence]. rewrite H3, Hq. apply swapped_perm; lia.
Qed.

(** In a heap nothing is before the root. *)
Lemma heap_root q i : heap less q -> (i < length q)%nat -> less (q !!! i) (q !!! 0%nat) = false.
Proof.
  intros Hh. induction i as [i IH] using lt_wf_ind. intros Hi.
  destruct (decide (i = 0)%nat) as [->|]; [apply less_irrefl|].
  pose proof (parent_lt i ltac:(lia)). eapply less_negtrans; [apply Hh; lia|]. apply IH; lia.
Qed.

(** ** Removal of an entry by the last one *)
Section Replace.
Context (pq : ngtcp2_pq) (l : list Z) (x : Z) (i : nat).
Context (Eq : pq_q pq = l ++ [x]) (Hwf : pq_wf less pq) (Hi : (i < length l)%nat).

Lemma old_lookup k : (k < length l)%nat -> pq_q pq !!! k = l !!! k.
Proof. intros. rewrite Eq. by apply lookup_total_app_l. Qed.

Lemma new_lookup k : <[i := x]> l !!! k = if decide (k = i) then x else l !!! k.
Proof.
  destruct (decide (k = i)) as [->|]; [by apply list_lookup_total_insert_eq|].
  by apply list_lookup_total_insert_ne.
Qed.

Lemma old_ordered k : (0 < k < length l)%nat -> less (l !!! k) (l !!! parent k) = false.
Proof.
  intros Hk. pose proof (parent_lt k ltac:(lia)).
  rewrite <- !old_lookup by lia. apply (pq_heap _ _ Hwf). rewrite Eq, length_app. cbn. lia.
Qed.

Lemma replace_last_ok :
  exists pq', replace_last pq i = Ok pq' /\ pq_q pq' = <[i := x]> l /\ indexed pq' /\
    pq_capacity pq' = pq_capacity pq /\ pq_q pq ≡ₚ l !!! i :: pq_q pq'.
Proof.
  unfold replace_last. rewrite Eq, last_snoc. eexists. split; [done|]. cbn [pq_q pq_capacity].
  rewrite length_app, insert_app_l by done. cbn [length].
  replace (length l + 1 - 1)%nat with (length (<[i := x]> l)) by (rewrite length_insert; lia).
  rewrite take_app_length. split_and!; [done| |done|].
  - intros k y Hk. cbn [pq_q pq_index] in *. pose proof (pq_indexed _ _ Hwf) as Hix.
    assert (Hx : pq_index pq !! x = Some (length l)) by (apply Hix; by rewrite Eq, list_lookup_middle).
    apply list_lookup_insert_Some in Hk as [(<- & <- & _)|[Hne Hk]]; [by rewrite lookup_insert_eq|].
    assert (Hy : pq_index pq !! y = Some k) by (apply Hix; rewrite Eq; by apply lookup_app_l_Some).
    apply lookup_lt_Some in Hk. rewrite lookup_insert_ne; [done|]. intros ->. rewrite Hx in Hy.
    injection Hy. lia.
  - assert (E : l !! i = Some (l !!! i)) by (by apply list_lookup_lookup_total_lt).
    rewrite <- (take_drop_middle l i _ E) at 1. rewrite insert_take_drop by done.
    rewrite Permutation_app_comm. cbn [app]. rewrite <- !Permutation_middle.
    apply Permutation_swap.
Qed.

Lemma children_above_parent c :
  (0 < i)%nat -> (0 < c < length l)%nat -> parent c = i ->
  less (<[i := x]> l !!! c) (<[i := x]> l !!! parent i) = false.
Proof.
  intros Hi0 Hc Ec. pose proof (parent_lt c ltac:(lia)). pose proof (parent_lt i Hi0).
  rewrite !new_lookup, !decide_False by lia.
  eapply less_negtrans; [by apply old_ordered|]. rewrite Ec. apply old_ordered. lia.
Qed.

Lemma replace_down :
  (i = 0%nat \/ less (l !!! i) x = true) -> down_heap (<[i := x]> l) i.
Proof.
  intros Hless. split; rewrite length_insert; [|intros; by apply children_above_parent].
  intros k Hk Hp. unfold ordered. rewrite !new_lookup, (decide_False (P := parent k = i)) by done.
  destruct (decide (k = i)) as [->|]; [|by apply old_ordered].
  destruct Hless as [->|Hless]; [lia|]. pose proof (old_ordered i ltac:(lia)) as Ho.
  destruct (less x (l !!! parent i)) eqn:E; [|done]. by rewrite (less_trans _ _ _ Hless E) in Ho.
Qed.

Lemma replace_up : less (l !!! i) x = false -> up_heap (<[i := x]> l) i.
Proof.
  intros Hless. split; rewrite length_insert; [|intros; by apply children_above_parent].
  intros k Hk Hne. unfold ordered. rewrite !new_lookup, (decide_False (P := k = i)) by done.
  pose proof (old_ordered k ltac:(lia)) as Ho.
  destruct (decide (parent k = i)) as [E|]; [|done].
  eapply less_negtrans; [exact Ho|]. by rewrite E.
Qed.
End Replace.

(** ** The operations *)
Lemma pq_push_spec mem_ok pq item :
  pq_wf less pq -> item ∉ pq_q pq -> 
  (mem_ok = false /\ pq_capacity pq <= zlen (pq_q pq) /\
   ngtcp2_pq_push less mem_ok pq item = (NGTCP2_ERR_NOMEM, Ok pq)) \/
  exists pq', ngtcp2_pq_push less mem_ok pq item = (0, Ok pq') /\ pq_wf less pq' /\
    pq_q pq' ≡ₚ item :: pq_q pq.
Proof.
  intros Hwf Hnew. unfold ngtcp2_pq_push. set (q := pq_q pq) in *.
  destruct ((pq_capacity pq <=? zlen q) && negb mem_ok) eqn:E.
  { left. apply andb_true_iff in E as [E1 E2]. apply Z.leb_le in E1. by destruct mem_ok. }
  right. set (cap := if pq_capacity pq <=? zlen q then _ else _).
  assert (Hcap : zlen q + 1 <= cap).
  { pose proof (pq_cap _ _ Hwf) as H. fold q in H. unfold cap.
    destruct (Z.leb_spec (pq_capacity pq) (zlen q)); zlen_pos; lia. }
  set (pq1 := mk_pq (q ++ [item]) cap (<[item := length q]> (pq_index pq))).
  destruct (bubble_up_spec (S (length q)) pq1 (length q)) as (pq2 & E2 & H1 & H2 & H3 & H4).
  - lia.
  - cbn. rewrite length_app. cbn. lia.
  - split; cbn [pq_q pq1]; rewrite length_app; cbn [length].
    + intros i Hi Hne. pose proof (parent_lt i ltac:(lia)). unfold ordered.
      rewrite !lookup_total_app_l by lia. apply (pq_heap _ _ Hwf). fold q. lia.
    + intros H0 c Hc Ec. pose proof (parent_lt c ltac:(lia)). lia.
  - intros i y Hy. cbn in *. apply lookup_app_Some in Hy as [Hy|[Hl Hy]].
    + rewrite lookup_insert_ne; [by apply (pq_indexed _ _ Hwf)|]. intros ->.
      apply Hnew. by eapply list_elem_of_lookup_2.
    + destruct (i - length q)%nat eqn:Ei; [|done]. injection Hy as <-.
      rewrite lookup_insert_eq. f_equal. lia.
  - exists pq2. split; [by rewrite E2|]. assert (Hperm : pq_q pq2 ≡ₚ item :: q).
    { rewrite H3. cbn. by rewrite Permutation_app_comm. }
    split; [|done]. split; [done..|]. unfold zlen. rewrite Hperm, H4. cbn.
    unfold zlen in Hcap. lia.
Qed.

(** The entries but the one at position [i] remain. *)
Definition removed (pq pq' : ngtcp2_pq) (item : Z) : Prop :=
  pq_wf less pq' /\ pq_q pq ≡ₚ item :: pq_q pq'.

Lemma removed_intro pq pq1 pq2 item :
  pq_wf less pq -> pq_q pq ≡ₚ item :: pq_q pq1 -> pq_capacity pq1 = pq_capacity pq ->
  heap less (pq_q pq2) -> indexed pq2 -> pq_q pq2 ≡ₚ pq_q pq1 ->
  pq_capacity pq2 = pq_capacity pq1 -> removed pq pq2 item.
Proof.
  intros Hwf Hp Hc Hh Hix Hp2 Hc2. split; [|by rewrite Hp2]. split; [done..|].
  pose proof (pq_cap _ _ Hwf) as H. unfold zlen in *. rewrite Hp in H. rewrite Hp2, Hc2, Hc.
  cbn in H. lia.
Qed.

Lemma pq_pop_spec pq item :
  pq_wf less pq -> head (pq_q pq) = Some item ->
  exists pq', ngtcp2_pq_pop less pq = Ok pq' /\ removed pq pq' item.
Proof.
  intros Hwf Hhd. unfold ngtcp2_pq_pop.
  destruct (pq_q pq) as [|y q] eqn:E; [done|]. injection Hhd as ->. cbn [length Nat.eqb negb].
  destruct (exists_last (l := item :: q) ltac:(done)) as (l & x & El).
  rewrite El in E. destruct l as [|z l].
  - injection El as -> ->. unfold replace_last. rewrite E. cbn. eexists. split; [done|].
    split; [split|]; cbn; [by intros i Hi; cbn in Hi; lia|by intros i y Hy| |by rewrite E].
    pose proof (pq_cap _ _ Hwf) as H. rewrite E in H. unfold zlen in *. cbn in *. lia.
  - injection El as <- ->.
    destruct (replace_last_ok pq (item :: l) x 0 E Hwf) as (pq1 & -> & Hq & Hix & Hc & Hp); [cbn; lia|].
    cbn [bind]. destruct (bubble_down_spec (S (length (pq_q pq1))) pq1 0) as (pq2 & -> & H1 & H2 & H3 & H4).
    + lia.
    + rewrite Hq. cbn. lia.
    + rewrite Hq. eapply replace_down; [done|done|cbn; lia|by left].
    + done.
    + exists pq2. split; [done|]. by eapply removed_intro.
Qed.

Lemma pq_remove_spec pq item :
  pq_wf less pq -> item ∈ pq_q pq ->
  exists pq', ngtcp2_pq_remove less pq item = Ok pq' /\ removed pq pq' item.
Proof.
  intros Hwf Hin. apply list_elem_of_lookup in Hin as [i Hi]. unfold ngtcp2_pq_remove.
  rewrite (pq_indexed _ _ Hwf i item Hi), Hi, Z.eqb_refl.
  destruct (Nat.eqb_spec i 0) as [->|Hi0].
  { apply pq_pop_spec; [done|]. by rewrite head_lookup. }
  pose proof (lookup_lt_Some _ _ _ Hi) as Hlt.
  destruct (exists_last (l := pq_q pq)) as (l & x & El); [by intros E; rewrite E in Hi|].
  rewrite El, length_app in *. cbn [length] in *.
  replace (length l + 1 - 1)%nat with (length l) by lia.
  destruct (Nat.eqb_spec i (length l)) as [->|Hne].
  - rewrite list_lookup_middle in Hi by done. injection Hi as ->. eexists. split; [done|].
    rewrite take_app_length. eapply (removed_intro _ (mk_pq l (pq_capacity pq) (pq_index pq))); try done.
    + by rewrite El, Permutation_app_comm.
    + cbn. intros i Hil. pose proof (parent_lt i ltac:(lia)).
      apply (old_ordered pq l item i El Hwf); lia.
    + intros k y Hk. cbn in *. apply (pq_indexed _ _ Hwf). rewrite El. by apply lookup_app_l_Some.
  - assert (Hil : (i < length l)%nat) by lia. rewrite lookup_app_l in Hi by done.
    destruct (replace_last_ok pq l x i El Hwf Hil) as (pq1 & -> & Hq & Hix & Hc & Hp).
    rewrite (list_lookup_total_correct _ _ _ Hi) in Hp.
    cbn [bind]. rewrite Hq, list_lookup_insert_eq by done. rewrite length_insert.
    destruct (less item x) eqn:Eless.
    + destruct (bubble_down_spec (S (length l)) pq1 i) as (pq2 & -> & H1 & H2 & H3 & H4).
      * rewrite Hq, length_insert. lia.
      * by rewrite Hq, length_insert.
      * rewrite Hq. eapply replace_down; [done|done|done|]. right.
        by rewrite (list_lookup_total_correct _ _ _ Hi).
      * done.
      * exists pq2. split; [done|]. by eapply removed_intro.
    + destruct (bubble_up_spec (S i) pq1 i) as (pq2 & -> & H1 & H2 & H3 & H4).
      * lia.
      * by rewrite Hq, length_insert.
      * rewrite Hq. eapply replace_up; [done|done|done|].
        by rewrite (list_lookup_total_correct _ _ _ Hi).
      * done.
      * exists pq2. split; [done|]. by eapply removed_intro.
Qed.
End Heap.

(** ** Refinement: a multiset with a least element *)
Inductive pq_op :=
| PqPush (mem_ok : bool) (item : Z)
| PqTop
| PqPop
| PqRemove (item : Z)
| PqSize.

Definition pq_exec (less : Z -> Z -> bool) (op : pq_op) (pq : ngtcp2_pq) : res (ngtcp2_pq * Z) :=
  match op with
  | PqPush mem_ok item =>
      let (rv, pq) := ngtcp2_pq_push less mem_ok pq item in
      let* pq := pq in Ok (pq, rv)
  | PqTop => let* x := ngtcp2_pq_top pq in Ok (pq, x)
  | PqPop => let* pq := ngtcp2_pq_pop less pq in Ok (pq, 0)
  | PqRemove item => let* pq := ngtcp2_pq_remove less pq item in Ok (pq, 0)
  | PqSize => Ok (pq, ngtcp2_pq_size pq)
  end.

Definition least (less : Z -> Z -> bool) (l : list Z) (x : Z) : Prop :=
  x ∈ l /\ forall y, y ∈ l -> less y x = false.

(** The steps of the specification on the multiset of the entries. *)
Inductive pq_step (less : Z -> Z -> bool) (l : list Z) : pq_op -> Z -> list Z -> Prop :=
| step_push mem_ok item l' : l' ≡ₚ item :: l -> pq_step less l (PqPush mem_ok item) 0 l'
| step_push_nomem item : pq_step less l (PqPush false item) NGTCP2_ERR_NOMEM l
| step_top x l' : least less l x -> l' ≡ₚ l -> pq_step less l PqTop x l'
| step_pop x l' : least less l x -> l ≡ₚ x :: l' -> pq_step less l PqPop 0 l'
| step_remove item l' : l ≡ₚ item :: l' -> pq_step less l (PqRemove item) 0 l'
| step_size l' : l' ≡ₚ l -> pq_step less l PqSize (zlen l) l'.

(** What the caller has to respect. *)
Definition pq_pre (l : list Z) (op : pq_op) : Prop :=
  match op with
  | PqPush _ item => item ∉ l
  | PqTop | PqPop => l <> []
  | PqRemove item => item ∈ l
  | PqSize => True
  end.

Lemma head_least less `{!StrictWeakOrder less} q x l : heap less q -> q = x :: l -> least less q x.
Proof.
  intros Hh ->. split; [apply elem_of_cons; by left|]. intros y Hy.
  apply list_elem_of_lookup in Hy as [i Hi]. pose proof (lookup_lt_Some _ _ _ Hi) as Hlt.
  pose proof (heap_root less (x :: l) i Hh Hlt) as H.
  rewrite (list_lookup_total_correct _ _ _ Hi) in H. exact H.
Qed.

(** C24: the priority queue.  For every strict weak order, each operation the
    caller may perform on a well-formed queue succeeds without a failed
    assertion (a push may fail with NGTCP2_ERR_NOMEM and then changes
    nothing), keeps the heap order and the positions stored in the entries,
    and is a step of the multiset specification: [top] is an entry no other
    is before, [pop] removes such an entry, [remove] takes out any entry by
    its stored position. *)
Theorem pq_refines_multiset (less : Z -> Z -> bool) (pq : ngtcp2_pq) (op : pq_op) :
  StrictWeakOrder less -> pq_wf less pq -> pq_pre (pq_q pq) op ->
  exists pq' r, pq_exec less op pq = Ok (pq', r) /\ pq_wf less pq' /\
    pq_step less (pq_q pq) op r (pq_q pq').
Proof.
  intros Hless Hwf Hpre. destruct op as [mem_ok item| | |item|]; cbn [pq_exec pq_pre] in *.
  - destruct (pq_push_spec less mem_ok pq item Hwf Hpre) as [(-> & _ & ->)|(pq' & -> & Hwf' & Hp)].
    { exists pq, NGTCP2_ERR_NOMEM. split_and!; [done..|by constructor]. }
    exists pq', 0. split_and!; [done..|by constructor].
  - unfold ngtcp2_pq_top. destruct (pq_q pq) as [|x q] eqn:E; [done|]. exists pq, x.
    split_and!; [done..|]. rewrite E. constructor; [|done]. rewrite <- E.
    eapply (head_least less); [exact (pq_heap _ _ Hwf)|done].
  - destruct (pq_q pq) as [|x q] eqn:E; [done|].
    destruct (pq_pop_spec less pq x Hwf) as (pq' & -> & Hwf' & Hp); [by rewrite E|].
    exists pq', 0. split_and!; [done..|]. rewrite <- E. econstructor; [|done].
    eapply (head_least less); [exact (pq_heap _ _ Hwf)|done].
  - destruct (pq_remove_spec less pq item Hwf Hpre) as (pq' & -> & Hwf' & Hp).
    exists pq', 0. split_and!; [done..|by constructor].
  - exists pq, (ngtcp2_pq_size pq). split_and!; [done..|by constructor].
Qed.

Lemma pq_refines_multiset_witness :
  exists pq' r, pq_exec Z.ltb (PqRemove 5)
    (mk_pq [2; 5; 3; 9] 4 (list_to_map [(2, 0%nat); (5, 1%nat); (3, 2%nat); (9, 3%nat)]))
    = Ok (pq', r) /\ pq_wf Z.ltb pq' /\ pq_step Z.ltb [2; 5; 3; 9] (PqRemove 5) r (pq_q pq').
Proof.
  apply (pq_refines_multiset Z.ltb
    (mk_pq [2; 5; 3; 9] 4 (list_to_map [(2, 0%nat); (5, 1%nat); (3, 2%nat); (9, 3%nat)])) (PqRemove 5)).
  - split; intros *; rewrite ?Z.ltb_lt, ?Z.ltb_ge; lia.
  - split.
    + intros [|[|[|[|i]]]] Hi; try reflexivity; cbn in Hi; lia.
    + intros [|[|[|[|i]]]] x Hx; cbn in Hx; try (injection Hx as <-; by vm_compute). done.
    + by vm_compute.
  - cbn. apply elem_of_cons. right. apply elem_of_cons. by left.
Defined.
