(* ===== verification/Ksl.v ===== *)
(** * Ordered map: [lib/ngtcp2_ksl.c], the model

    The deterministic paged skip list behind the gap tracker, the
    retransmission buffer, the acknowledgement tracker and the reorder
    buffer: a tree of blocks of at most [NGTCP2_KSL_MAX_NBLK] nodes, and the
    blocks of each level are chained.  A block owns its children, so that
    [nodes] is modelled by the tree itself.  The links [next] and [prev] are
    pointers to blocks that others own: a block has an address, and its links
    are in a store, with [front] and [back] of the list.  An iterator is the
    address of a leaf and an index in it.  Setting a link of a block that was
    released is a fault, and so is reading a node of one; an address is not
    used a second time.  The allocator is the number of blocks that it
    can still provide; every operation that allocates has the failure path of
    the code. *)

From S2P Require Import Prelude Const.
From stdpp Require Import list gmap.
#[local] Open Scope Z_scope.
#[local] Set Warnings "-register-all".

Definition NGTCP2_KSL_DEGR : nat := 16.
Definition NGTCP2_KSL_MAX_NBLK : nat := 2 * NGTCP2_KSL_DEGR.
Definition NGTCP2_KSL_MIN_NBLK : nat := NGTCP2_KSL_DEGR.

(** ** Links and allocation *)

(** [blk->next] and [blk->prev]; [None] is [NULL]. *)
Record blk_links := mk_links { lk_next : option Z; lk_prev : option Z }.

(** [km_avail]: the blocks that [blkalloc] can still provide; [km_fresh]: the
    address of the next one; [km_links]: the links of the blocks in use;
    [ksl->front] and [ksl->back]. *)
Record ksl_mem := mk_mem {
  km_avail : nat;
  km_fresh : Z;
  km_links : gmap Z blk_links;
  km_front : option Z;
  km_back : option Z;
}.

Implicit Types m : ksl_mem.

Definition set_links (links : gmap Z blk_links) m : ksl_mem :=
  mk_mem (km_avail m) (km_fresh m) links (km_front m) (km_back m).
Definition set_ends (front back : option Z) m : ksl_mem :=
  mk_mem (km_avail m) (km_fresh m) (km_links m) front back.

Definition get_links (a : Z) m : res blk_links :=
  match km_links m !! a with Some l => Ok l | None => Fault end.

(** [blk->next = next] and [blk->prev = prev] *)
Definition set_next (a : Z) (next : option Z) m : res ksl_mem :=
  let* l := get_links a m in Ok (set_links (<[a := mk_links next (lk_prev l)]> (km_links m)) m).
Definition set_prev (a : Z) (prev : option Z) m : res ksl_mem :=
  let* l := get_links a m in Ok (set_links (<[a := mk_links (lk_next l) prev]> (km_links m)) m).

(** The links of a block from the allocator are not set: they point to no
    block. *)
Definition unset_links : blk_links := mk_links (Some (-1)) (Some (-1)).

Definition ksl_blk_objalloc_new m : option (Z * ksl_mem) :=
  match km_avail m with
  | O => None
  | S avail =>
      Some (km_fresh m, mk_mem avail (km_fresh m + 1) (<[km_fresh m := unset_links]> (km_links m)) (km_front m) (km_back m))
  end.

Definition ksl_blk_objalloc_del (a : Z) m : ksl_mem :=
  mk_mem (S (km_avail m)) (km_fresh m) (delete a (km_links m)) (km_front m) (km_back m).

(** Puts the new block [rblk] into the chain behind [blk] ([ksl_split_blk]). *)
Definition link_blk (blk rblk : Z) m : res ksl_mem :=
  let* l := get_links blk m in
  let* m := set_next rblk (lk_next l) m in
  let* m := set_next blk (Some rblk) m in
  let* m :=
    match lk_next l with
    | Some next => set_prev next (Some rblk) m
    | None => Ok (if decide (km_back m = Some blk) then set_ends (km_front m) (Some rblk) m else m)
    end in
  set_prev rblk (Some blk) m.

(** Takes the block [rblk], behind [lblk], out of the chain, and gives it
    back ([ksl_merge_node]). *)
Definition unlink_blk (lblk rblk : Z) m : res ksl_mem :=
  let* r := get_links rblk m in
  let* m := set_next lblk (lk_next r) m in
  let* m :=
    match lk_next r with
    | Some next => set_prev next (Some lblk) m
    | None => Ok (if decide (km_back m = Some rblk) then set_ends (km_front m) (Some lblk) m else m)
    end in
  Ok (ksl_blk_objalloc_del rblk m).

Section Ksl.
Context {K V : Type}.

(** ** Data *)
Inductive ngtcp2_ksl_blk :=
| Leaf (a : Z) (nodes : list (K * V))
| Node (a : Z) (nodes : list (K * ngtcp2_ksl_blk)).

(** The pointer to a block. *)
Definition blk_id (b : ngtcp2_ksl_blk) : Z := match b with Leaf a _ | Node a _ => a end.

(** [blk->n] *)
Definition blk_n (b : ngtcp2_ksl_blk) : nat :=
  match b with Leaf _ l => length l | Node _ l => length l end.

(** The keys of a block. *)
Definition blk_keys (b : ngtcp2_ksl_blk) : list K :=
  match b with Leaf _ l => l.*1 | Node _ l => l.*1 end.

(** The leaves below a block, from left to right, with their addresses. *)
Fixpoint blk_leaves (b : ngtcp2_ksl_blk) : list (Z * list (K * V)) :=
  match b with
  | Leaf a l => [(a, l)]
  | Node _ l => concat (map (fun p => blk_leaves p.2) l)
  end.

Record ngtcp2_ksl := mk_ksl {
  ksl_root : option ngtcp2_ksl_blk;
  ksl_n : nat;
  ksl_mem_of : ksl_mem;
}.

Definition ksl_avail (ksl : ngtcp2_ksl) : nat := km_avail (ksl_mem_of ksl).

(** [it->blk], [None] for [null_blk], and [it->i]. *)
Record ngtcp2_ksl_it := mk_it { it_blk : option Z; it_i : nat }.

Definition ksl_leaves (ksl : ngtcp2_ksl) : list (Z * list (K * V)) :=
  match ksl_root ksl with Some b => blk_leaves b | None => [] end.

Definition ksl_elems (ksl : ngtcp2_ksl) : list (K * V) := concat (ksl_leaves ksl).*2.

(** ** Iterators

    [null_blk], a leaf without nodes and neighbours, stands in when there is
    no root.  (The block of an iterator that was released reads like it;
    [ksl_it_node] is a fault then.) *)

(** The nodes and the links of the leaf of an iterator. *)
Definition it_nodes (ksl : ngtcp2_ksl) (blk : option Z) : list (K * V) :=
  match blk with
  | Some a => match list_find (fun p => p.1 = a) (ksl_leaves ksl) with Some (_, p) => p.2 | None => [] end
  | None => []
  end.

Definition it_links (ksl : ngtcp2_ksl) (blk : option Z) : blk_links :=
  match blk with
  | Some a => default (mk_links None None) (km_links (ksl_mem_of ksl) !! a)
  | None => mk_links None None
  end.

Definition is_null (p : option Z) : bool := match p with None => true | Some _ => false end.

Definition ngtcp2_ksl_begin (ksl : ngtcp2_ksl) : ngtcp2_ksl_it :=
  match ksl_root ksl with
  | Some _ => mk_it (km_front (ksl_mem_of ksl)) 0
  | None => mk_it None 0
  end.

Definition ngtcp2_ksl_end (ksl : ngtcp2_ksl) : ngtcp2_ksl_it :=
  match ksl_root ksl with
  | Some _ => let back := km_back (ksl_mem_of ksl) in mk_it back (length (it_nodes ksl back))
  | None => mk_it None 0
  end.

Definition ngtcp2_ksl_it_end (ksl : ngtcp2_ksl) (it : ngtcp2_ksl_it) : bool :=
  (length (it_nodes ksl (it_blk it)) =? it_i it)%nat && is_null (lk_next (it_links ksl (it_blk it))).

Definition ngtcp2_ksl_it_begin (ksl : ngtcp2_ksl) (it : ngtcp2_ksl_it) : bool :=
  (it_i it =? 0)%nat && is_null (lk_prev (it_links ksl (it_blk it))).

(** [if (it->i == it->blk->n && it->blk->next)]: to the next leaf. *)
Definition it_forward (ksl : ngtcp2_ksl) (it : ngtcp2_ksl_it) : ngtcp2_ksl_it :=
  match lk_next (it_links ksl (it_blk it)) with
  | Some next =>
      if (it_i it =? length (it_nodes ksl (it_blk it)))%nat then mk_it (Some next) 0 else it
  | None => it
  end.

Definition ngtcp2_ksl_it_next (ksl : ngtcp2_ksl) (it : ngtcp2_ksl_it) : ngtcp2_ksl_it :=
  it_forward ksl (mk_it (it_blk it) (S (it_i it))).

Definition ngtcp2_ksl_it_prev (ksl : ngtcp2_ksl) (it : ngtcp2_ksl_it) : res ngtcp2_ksl_it :=
  assert! negb (ngtcp2_ksl_it_begin ksl it);
  if (it_i it =? 0)%nat then
    let prev := lk_prev (it_links ksl (it_blk it)) in
    Ok (mk_it prev (length (it_nodes ksl prev) - 1))
  else Ok (mk_it (it_blk it) (it_i it - 1)).

(** The node an iterator points to: its key and its data. *)
Definition ksl_it_node (ksl : ngtcp2_ksl) (it : ngtcp2_ksl_it) : res (K * V) :=
  match it_nodes ksl (it_blk it) !! it_i it with Some p => Ok p | None => Fault end.

Definition ngtcp2_ksl_it_key (ksl : ngtcp2_ksl) (it : ngtcp2_ksl_it) : res K :=
  let* p := ksl_it_node ksl it in Ok p.1.

Definition ngtcp2_ksl_it_get (ksl : ngtcp2_ksl) (it : ngtcp2_ksl_it) : res V :=
  let* p := ksl_it_node ksl it in Ok p.2.

Definition ngtcp2_ksl_len (ksl : ngtcp2_ksl) : nat := ksl_n ksl.

Definition ngtcp2_ksl_init (avail : nat) : ngtcp2_ksl := mk_ksl None 0 (mk_mem avail 0 ∅ None None).

(** The new root, and the memory with it as [front] and [back]. *)
Definition ksl_root_init m : option (ngtcp2_ksl_blk * ksl_mem) :=
  match ksl_blk_objalloc_new m with
  | None => None
  | Some (root, m) =>
      Some (Leaf root [], set_ends (Some root) (Some root)
              (set_links (<[root := mk_links None None]> (km_links m)) m))
  end.

(** ** Blocks *)

(** [ngtcp2_ksl_search_def]: the first key that [compar] does not put
    before [key]. *)
Fixpoint search (compar : K -> K -> bool) (keys : list K) (key : K) : nat :=
  match keys with
  | [] => 0
  | k :: keys => if compar k key then S (search compar keys key) else 0
  end.

Definition last_key (b : ngtcp2_ksl_blk) : res K :=
  match last (blk_keys b) with Some k => Ok k | None => Fault end.

Definition set_nth_key (l : list (K * ngtcp2_ksl_blk)) (i : nat) (key : K)
    : res (list (K * ngtcp2_ksl_blk)) :=
  match l !! i with Some (_, b) => Ok (<[i := (key, b)]> l) | None => Fault end.

(** The first [n] nodes of a block, and the others; [a]: its address. *)
Definition blk_take (a : Z) (n : nat) (b : ngtcp2_ksl_blk) : ngtcp2_ksl_blk :=
  match b with Leaf _ l => Leaf a (take n l) | Node _ l => Node a (take n l) end.

Definition blk_drop (a : Z) (n : nat) (b : ngtcp2_ksl_blk) : ngtcp2_ksl_blk :=
  match b with Leaf _ l => Leaf a (drop n l) | Node _ l => Node a (drop n l) end.

(** The block and the new one at its right, which is linked behind it; [None]
    when there is no memory. *)
Definition ksl_split_blk m (b : ngtcp2_ksl_blk) : res (option (ngtcp2_ksl_blk * ngtcp2_ksl_blk * ksl_mem)) :=
  match ksl_blk_objalloc_new m with
  | None => Ok None
  | Some (rblk, m) =>
      let* m := link_blk (blk_id b) rblk m in
      let rn := (blk_n b / 2)%nat in
      let n := (blk_n b - rn)%nat in
      assert! (NGTCP2_KSL_MIN_NBLK <=? n)%nat && (NGTCP2_KSL_MIN_NBLK <=? rn)%nat;
      Ok (Some (blk_take (blk_id b) n b, blk_drop rblk n b, m))
  end.

Definition ksl_split_node m (l : list (K * ngtcp2_ksl_blk)) (i : nat)
    : res (option (list (K * ngtcp2_ksl_blk) * ksl_mem)) :=
  match l !! i with
  | None => Fault
  | Some (k, b) =>
      let* r := ksl_split_blk m b in
      match r with
      | None => Ok None
      | Some (lblk, rblk, m) =>
          let* lk := last_key lblk in
          Ok (Some (take i l ++ (lk, lblk) :: (k, rblk) :: drop (S i) l, m))
      end
  end.

(** When there is no memory for the new root, the right block is given back
    although the root has been cut and linked to it. *)
Definition ksl_split_root m (root : ngtcp2_ksl_blk) : res (Z * ngtcp2_ksl_blk * ksl_mem) :=
  let* r := ksl_split_blk m root in
  match r with
  | None => Ok (NGTCP2_ERR_NOMEM, root, m)
  | Some (lblk, rblk, m) =>
      match ksl_blk_objalloc_new m with
      | None => Ok (NGTCP2_ERR_NOMEM, lblk, ksl_blk_objalloc_del (blk_id rblk) m)
      | Some (nroot, m) =>
          let m := set_links (<[nroot := mk_links None None]> (km_links m)) m in
          let* lk := last_key lblk in
          let* rk := last_key rblk in
          Ok (0, Node nroot [(lk, lblk); (rk, rblk)], m)
      end
  end.

Definition ksl_insert_node (l : list (K * V)) (i : nat) (key : K) (data : V)
    : res (list (K * V)) :=
  assert! (length l <? NGTCP2_KSL_MAX_NBLK)%nat;
  Ok (take i l ++ (key, data) :: drop i l).

(** The outcome of an insertion or a removal below a block: the return value,
    the block, the memory and the iterator. *)
Definition insertion : Type := Z * ngtcp2_ksl_blk * ksl_mem * option ngtcp2_ksl_it.

(** Puts a child back at position [i] of the block [a]. *)
Definition in_child (a : Z) (l : list (K * ngtcp2_ksl_blk)) (i : nat)
    (c : ngtcp2_ksl_blk -> res insertion) : res insertion :=
  match l !! i with
  | None => Fault
  | Some (k, b) =>
      let* (rv, b, m, it) := c b in
      Ok (rv, Node a (<[i := (k, b)]> l), m, it)
  end.

(** [if (node->blk->n == NGTCP2_KSL_MAX_NBLK) ksl_split_node(...)]: [None]
    when there is no memory. *)
Definition split_full m (l : list (K * ngtcp2_ksl_blk)) (i : nat)
    : res (option (list (K * ngtcp2_ksl_blk) * ksl_mem)) :=
  match l !! i with
  | None => Fault
  | Some (_, b) => if (blk_n b =? NGTCP2_KSL_MAX_NBLK)%nat then ksl_split_node m l i else Ok (Some (l, m))
  end.

Section Compar.
Context (compar : K -> K -> bool).

(** [for (; !blk->leaf;)]: the key is larger than all keys of the block. *)
Fixpoint insert_last (fuel : nat) m (b : ngtcp2_ksl_blk) (key : K) (data : V) : res insertion :=
  match b with
  | Leaf a l =>
      let* l' := ksl_insert_node l (length l) key data in
      Ok (0, Leaf a l', m, Some (mk_it (Some a) (length l)))
  | Node a l =>
      match fuel with
      | O => Fault
      | S fuel =>
          let* r := split_full m l (length l - 1) in
          match r with
          | None => Ok (NGTCP2_ERR_NOMEM, b, m, None)
          | Some (l, m) =>
              let* l := set_nth_key l (length l - 1) key in
              in_child a l (length l - 1) (fun b => insert_last fuel m b key data)
          end
      end
  end.

(** [for (;;)] of [ngtcp2_ksl_insert]; every round goes down one level. *)
Fixpoint insert_blk (fuel : nat) m (b : ngtcp2_ksl_blk) (key : K) (data : V) : res insertion :=
  let i := search compar (blk_keys b) key in
  match b with
  | Leaf a l =>
      if match l.*1 !! i with Some k => negb (compar key k) | None => false end
      then Ok (NGTCP2_ERR_INVALID_ARGUMENT, b, m, None)
      else
        let* l' := ksl_insert_node l i key data in
        Ok (0, Leaf a l', m, Some (mk_it (Some a) i))
  | Node a l =>
      match fuel with
      | O => Fault
      | S fuel =>
          if (i =? length l)%nat then insert_last (S fuel) m b key data else
          let* r := split_full m l i in
          match r with
          | None => Ok (NGTCP2_ERR_NOMEM, b, m, None)
          | Some (l', m) =>
              let full := match l !! i with
                          | Some (_, c) => (blk_n c =? NGTCP2_KSL_MAX_NBLK)%nat
                          | None => false
                          end in
              let i :=
                if full && match l'.*1 !! i with Some k => compar k key | None => false end
                then S i else i in
              in_child a l' i (fun b => insert_blk fuel m b key data)
          end
      end
  end.

(** Levels of a tree: what the loops go through. *)
Fixpoint height (b : ngtcp2_ksl_blk) : nat :=
  match b with
  | Leaf _ _ => 0
  | Node _ l => S (list_max (map (fun p => height p.2) l))
  end.

(** The return value, the list and [*it] (which the code leaves alone when
    there is no memory: the model returns the end). *)
Definition ngtcp2_ksl_insert (ksl : ngtcp2_ksl) (key : K) (data : V)
    : res (Z * ngtcp2_ksl * ngtcp2_ksl_it) :=
  match
    match ksl_root ksl with
    | Some b => Some (b, ksl_mem_of ksl)
    | None => ksl_root_init (ksl_mem_of ksl)
    end
  with
  | None => Ok (NGTCP2_ERR_NOMEM, ksl, ngtcp2_ksl_end ksl)
  | Some (root, m) =>
      let* (rv, root, m) :=
        if (blk_n root =? NGTCP2_KSL_MAX_NBLK)%nat then ksl_split_root m root
        else Ok (0, root, m) in
      if negb (rv =? 0) then
        let ksl := mk_ksl (Some root) (ksl_n ksl) m in Ok (rv, ksl, ngtcp2_ksl_end ksl)
      else
        let* (rv, root, m, it) := insert_blk (height root) m root key data in
        let n := if rv =? 0 then S (ksl_n ksl) else ksl_n ksl in
        let ksl := mk_ksl (Some root) n m in
        Ok (rv, ksl, match it with Some it => it | None => ngtcp2_ksl_end ksl end)
  end.

End Compar.

(** ** Removal *)

(** [memcpy] of the nodes and keys of one block behind those of another. *)
Definition blk_app (a : Z) (b c : ngtcp2_ksl_blk) : res ngtcp2_ksl_blk :=
  match b, c with
  | Leaf _ l, Leaf _ k => Ok (Leaf a (l ++ k))
  | Node _ l, Node _ k => Ok (Node a (l ++ k))
  | _, _ => Fault
  end.

Definition child (l : list (K * ngtcp2_ksl_blk)) (i : nat) : res ngtcp2_ksl_blk :=
  match l !! i with Some (_, b) => Ok b | None => Fault end.

(** Nodes [i] and [i + 1] with new blocks, and the key of the first one. *)
Definition set_pair (l : list (K * ngtcp2_ksl_blk)) (i : nat) (lblk rblk : ngtcp2_ksl_blk)
    : res (list (K * ngtcp2_ksl_blk)) :=
  match l !! S i with
  | None => Fault
  | Some (rk, _) =>
      let* lk := last_key lblk in
      Ok (take i l ++ (lk, lblk) :: (rk, rblk) :: drop (S (S i)) l)
  end.

(** The merged block, and the nodes of [blk]; [None] when [blk] was the root
    and the merged block takes its place.  [root]: the root, when [blk] is. *)
Definition ksl_merge_node m (root : option Z) (l : list (K * ngtcp2_ksl_blk)) (i : nat)
    : res (ngtcp2_ksl_blk * option (list (K * ngtcp2_ksl_blk)) * ksl_mem) :=
  assert! (i + 1 <? length l)%nat;
  let* lblk := child l i in
  let* rblk := child l (S i) in
  assert! (blk_n lblk + blk_n rblk <=? NGTCP2_KSL_MAX_NBLK)%nat;
  let* b := blk_app (blk_id lblk) lblk rblk in
  let* m := unlink_blk (blk_id lblk) (blk_id rblk) m in
  match if (length l =? 2)%nat then root else None with
  | Some root => Ok (b, None, ksl_blk_objalloc_del root m)
  | None =>
      let* mk := last_key b in
      Ok (b, Some (take i l ++ (mk, b) :: drop (S (S i)) l), m)
  end.

Definition ksl_shift_left (l : list (K * ngtcp2_ksl_blk)) (i : nat)
    : res (list (K * ngtcp2_ksl_blk)) :=
  assert! (0 <? i)%nat;
  let* lblk := child l (i - 1) in
  let* rblk := child l i in
  assert! (blk_n lblk <? NGTCP2_KSL_MAX_NBLK)%nat && (NGTCP2_KSL_MIN_NBLK <? blk_n rblk)%nat;
  let n := ((blk_n lblk + blk_n rblk + 1) / 2 - blk_n lblk)%nat in
  assert! (0 <? n)%nat && (blk_n lblk <=? NGTCP2_KSL_MAX_NBLK - n)%nat
          && (NGTCP2_KSL_MIN_NBLK + n <=? blk_n rblk)%nat;
  let* lblk := blk_app (blk_id lblk) lblk (blk_take (blk_id rblk) n rblk) in
  set_pair l (i - 1) lblk (blk_drop (blk_id rblk) n rblk).

Definition ksl_shift_right (l : list (K * ngtcp2_ksl_blk)) (i : nat)
    : res (list (K * ngtcp2_ksl_blk)) :=
  assert! (i <? length l - 1)%nat;
  let* lblk := child l i in
  let* rblk := child l (S i) in
  assert! (NGTCP2_KSL_MIN_NBLK <? blk_n lblk)%nat && (blk_n rblk <? NGTCP2_KSL_MAX_NBLK)%nat;
  let n := ((blk_n lblk + blk_n rblk + 1) / 2 - blk_n rblk)%nat in
  assert! (0 <? n)%nat && (NGTCP2_KSL_MIN_NBLK + n <=? blk_n lblk)%nat
          && (blk_n rblk <=? NGTCP2_KSL_MAX_NBLK - n)%nat;
  let m := (blk_n lblk - n)%nat in
  let* rblk := blk_app (blk_id rblk) (blk_drop (blk_id lblk) m lblk) rblk in
  set_pair l i (blk_take (blk_id lblk) m lblk) rblk.

(** Makes sure that the block to go down to has a node to spare: the nodes and
    the index of that block, or the block that replaces the root. *)
Definition prepare_child m (root : option Z) (l : list (K * ngtcp2_ksl_blk)) (i : nat)
    : res ((list (K * ngtcp2_ksl_blk) * nat + ngtcp2_ksl_blk) * ksl_mem) :=
  let merge j :=
    let* (b, r, m) := ksl_merge_node m root l j in
    Ok (match r with Some l => inl (l, j) | None => inr b end, m) in
  let big j := match l !! j with
               | Some (_, b) => (NGTCP2_KSL_MIN_NBLK <? blk_n b)%nat
               | None => false
               end in
  let* b := child l i in
  if (NGTCP2_KSL_MIN_NBLK <? blk_n b)%nat then Ok (inl (l, i), m) else
  assert! (blk_n b =? NGTCP2_KSL_MIN_NBLK)%nat;
  if (i + 1 <? length l)%nat && big (i + 1)%nat then
    let* l := ksl_shift_left l (i + 1) in Ok (inl (l, i), m)
  else if (0 <? i)%nat && big (i - 1)%nat then
    let* l := ksl_shift_right l (i - 1) in Ok (inl (l, i), m)
  else if (i + 1 <? length l)%nat then merge i
  else assert! (0 <? i)%nat; merge (i - 1)%nat.

Section Remove.
Context (compar : K -> K -> bool).

(** [for (;;)] of [ngtcp2_ksl_remove]; the iterator is not yet moved to the
    next leaf. *)
Fixpoint remove_blk (fuel : nat) (is_root : bool) m (b : ngtcp2_ksl_blk) (key : K) : res insertion :=
  let i := search compar (blk_keys b) key in
  if (i =? blk_n b)%nat then Ok (NGTCP2_ERR_INVALID_ARGUMENT, b, m, None) else
  match b with
  | Leaf a l =>
      match l.*1 !! i with
      | None => Fault
      | Some k =>
          if compar key k then Ok (NGTCP2_ERR_INVALID_ARGUMENT, b, m, None)
          else Ok (0, Leaf a (delete i l), m, Some (mk_it (Some a) i))
      end
  | Node a l =>
      match fuel with
      | O => Fault
      | S fuel =>
          let* (r, m) := prepare_child m (if is_root then Some a else None) l i in
          match r with
          | inl (l, i) => in_child a l i (fun b => remove_blk fuel false m b key)
          | inr b => remove_blk fuel is_root m b key
          end
      end
  end.

Definition ngtcp2_ksl_remove (ksl : ngtcp2_ksl) (key : K)
    : res (Z * ngtcp2_ksl * ngtcp2_ksl_it) :=
  match ksl_root ksl with
  | None => Ok (NGTCP2_ERR_INVALID_ARGUMENT, ksl, ngtcp2_ksl_end ksl)
  | Some root =>
      let* (root, m) :=
        match root with
        | Node a ([(_, l); (_, r)] as nodes) =>
            if (blk_n l =? NGTCP2_KSL_MIN_NBLK)%nat && (blk_n r =? NGTCP2_KSL_MIN_NBLK)%nat then
              let* (b, _, m) := ksl_merge_node (ksl_mem_of ksl) (Some a) nodes 0 in
              Ok (b, m)
            else Ok (root, ksl_mem_of ksl)
        | _ => Ok (root, ksl_mem_of ksl)
        end in
      let* (rv, root, m, it) := remove_blk (height root) true m root key in
      let n := if rv =? 0 then (ksl_n ksl - 1)%nat else ksl_n ksl in
      let ksl := mk_ksl (Some root) n m in
      Ok (rv, ksl, match it with Some it => it_forward ksl it | None => ngtcp2_ksl_end ksl end)
  end.

(** The tree with the nodes of the leaf [a] changed. *)
Fixpoint update_leaf (f : list (K * V) -> list (K * V)) (a : Z) (b : ngtcp2_ksl_blk) : ngtcp2_ksl_blk :=
  match b with
  | Leaf a' l => if a' =? a then Leaf a' (f l) else Leaf a' l
  | Node a' l => Node a' (map (fun p => (p.1, update_leaf f a p.2)) l)
  end.

Definition ngtcp2_ksl_remove_hint (ksl : ngtcp2_ksl) (hint : ngtcp2_ksl_it) (key : K)
    : res (Z * ngtcp2_ksl * ngtcp2_ksl_it) :=
  match ksl_root ksl, it_blk hint with
  | Some root, Some a =>
      let nodes := it_nodes ksl (Some a) in
      if negb (a =? blk_id root) && (length nodes =? NGTCP2_KSL_MIN_NBLK)%nat
      then ngtcp2_ksl_remove ksl key
      else
        assert! (it_i hint <? length nodes)%nat;
        let root := update_leaf (delete (it_i hint)) a root in
        let ksl := mk_ksl (Some root) (ksl_n ksl - 1) (ksl_mem_of ksl) in
        Ok (0, ksl, it_forward ksl hint)
  | _, _ => Fault
  end.

(** ** Search and change of keys *)

(** [for (; !blk->leaf; blk = blk->nodes[blk->n - 1].blk)] *)
Fixpoint last_leaf (fuel : nat) (b : ngtcp2_ksl_blk) : res ngtcp2_ksl_it :=
  match b with
  | Leaf a l => Ok (mk_it (Some a) (length l))
  | Node _ l =>
      match fuel with
      | O => Fault
      | S fuel => let* b := child l (length l - 1) in last_leaf fuel b
      end
  end.

Fixpoint lower_bound_blk (fuel : nat) (b : ngtcp2_ksl_blk) (key : K) : res ngtcp2_ksl_it :=
  let i := search compar (blk_keys b) key in
  match b with
  | Leaf a l => Ok (mk_it (Some a) i)
  | Node _ l =>
      match fuel with
      | O => Fault
      | S fuel =>
          if (i =? length l)%nat then last_leaf (S fuel) b
          else let* b := child l i in lower_bound_blk fuel b key
      end
  end.

(** [compar] is the comparison behind the [search] argument. *)
Definition ngtcp2_ksl_lower_bound_search (ksl : ngtcp2_ksl) (key : K) : res ngtcp2_ksl_it :=
  match ksl_root ksl with
  | None => Ok (mk_it None 0)
  | Some root =>
      let* it := lower_bound_blk (height root) root key in
      Ok (it_forward ksl it)
  end.

Definition key_equal (lhs rhs : K) : bool := negb (compar lhs rhs) && negb (compar rhs lhs).

Fixpoint update_key_blk (fuel : nat) (b : ngtcp2_ksl_blk) (old_key new_key : K) : res ngtcp2_ksl_blk :=
  let i := search compar (blk_keys b) old_key in
  match b with
  | Leaf a l =>
      match l !! i with
      | None => Fault
      | Some (k, v) =>
          assert! key_equal k old_key;
          Ok (Leaf a (<[i := (new_key, v)]> l))
      end
  | Node a l =>
      match l !! i, fuel with
      | Some (k, b), S fuel =>
          let* b := update_key_blk fuel b old_key new_key in
          let k := if key_equal k old_key || compar k new_key then new_key else k in
          Ok (Node a (<[i := (k, b)]> l))
      | _, _ => Fault
      end
  end.

Definition ngtcp2_ksl_update_key (ksl : ngtcp2_ksl) (old_key new_key : K) : res ngtcp2_ksl :=
  match ksl_root ksl with
  | None => Fault
  | Some root =>
      let* root := update_key_blk (height root) root old_key new_key in
      Ok (mk_ksl (Some root) (ksl_n ksl) (ksl_mem_of ksl))
  end.
End Remove.

Fixpoint blk_count (b : ngtcp2_ksl_blk) : nat :=
  match b with
  | Leaf _ _ => 1
  | Node _ l => S (list_sum (map (fun p => blk_count p.2) l))
  end.

Definition ngtcp2_ksl_clear (ksl : ngtcp2_ksl) : ngtcp2_ksl :=
  match ksl_root ksl with
  | None => ksl
  | Some root =>
      let m := ksl_mem_of ksl in
      mk_ksl None 0 (mk_mem (km_avail m + blk_count root) (km_fresh m) ∅ None None)
  end.
End Ksl.
Arguments ngtcp2_ksl_blk : clear implicits.
Arguments ngtcp2_ksl : clear implicits.
