(* ===== verification/KslTree.v ===== *)
(** * Ordered map: the tree without its pointers

    The blocks of [Ksl] as a plain tree: no addresses, no links between
    blocks, the allocator is a number, and a position is the ordinal of a leaf
    and an index in it.  The order and the shape of the tree are proved for
    these functions ([KslInv], [KslInsert], [KslRemove], [KslSearch]);
    [KslChain] and [KslSim] show that the functions of [Ksl] do the same to the
    tree, and keep the blocks of each level linked in the order of the tree. *)

From S2P Require Import Prelude Const Ksl.
From stdpp Require Import list.
#[local] Open Scope Z_scope.
#[local] Set Warnings "-register-all".

Section Tree.
Context {K V : Type}.

(** ** Data *)
Inductive ktree :=
| TLeaf (nodes : list (K * V))
| TNode (nodes : list (K * ktree)).

(** [blk->n] and [blk->leaf] *)
Definition tree_n (b : ktree) : nat :=
  match b with TLeaf l => length l | TNode l => length l end.

(** The keys of a block. *)
Definition tree_keys (b : ktree) : list K :=
  match b with TLeaf l => l.*1 | TNode l => l.*1 end.

(** The leaves below a block, from left to right. *)
Fixpoint tree_leaves (b : ktree) : list (list (K * V)) :=
  match b with
  | TLeaf l => [l]
  | TNode l => concat (map (fun p => tree_leaves p.2) l)
  end.

Definition tree_elems (b : ktree) : list (K * V) := concat (tree_leaves b).

(** [it->blk], the ordinal of a leaf, and [it->i]. *)
Record tree_it := mk_tit { tit_leaf : nat; tit_i : nat }.

(** ** Blocks *)

Definition tree_last_key (b : ktree) : res K :=
  match last (tree_keys b) with Some k => Ok k | None => Fault end.

Definition tree_set_nth_key (l : list (K * ktree)) (i : nat) (key : K)
    : res (list (K * ktree)) :=
  match l !! i with Some (_, b) => Ok (<[i := (key, b)]> l) | None => Fault end.

(** The block and the new one at its right. *)
Definition tree_split_blk (b : ktree) : res (ktree * ktree) :=
  let rn := (tree_n b / 2)%nat in
  let n := (tree_n b - rn)%nat in
  assert! (NGTCP2_KSL_MIN_NBLK <=? n)%nat && (NGTCP2_KSL_MIN_NBLK <=? rn)%nat;
  Ok (match b with
      | TLeaf l => (TLeaf (take n l), TLeaf (drop n l))
      | TNode l => (TNode (take n l), TNode (drop n l))
      end).

Definition tree_split_node (l : list (K * ktree)) (i : nat)
    : res (list (K * ktree)) :=
  match l !! i with
  | None => Fault
  | Some (k, b) =>
      let* (lblk, rblk) := tree_split_blk b in
      let* lk := tree_last_key lblk in
      Ok (take i l ++ (lk, lblk) :: (k, rblk) :: drop (S i) l)
  end.

(** The new state of [tree_split_root]: when there is no memory for the new
    root, the right block is given back although the root has been cut. *)
Definition tree_split_root (root : ktree) (avail : nat)
    : res (Z * ktree * nat) :=
  match avail with
  | O => Ok (NGTCP2_ERR_NOMEM, root, O)
  | S avail =>
      let* (lblk, rblk) := tree_split_blk root in
      match avail with
      | O => Ok (NGTCP2_ERR_NOMEM, lblk, 1%nat)
      | S avail =>
          let* lk := tree_last_key lblk in
          let* rk := tree_last_key rblk in
          Ok (0, TNode [(lk, lblk); (rk, rblk)], avail)
      end
  end.

(** The outcome of an insertion below a block: the return value, the block,
    the allocator and the iterator. *)
Definition tree_insertion : Type := Z * ktree * nat * option tree_it.

(** The leaves to the left of node [i]. *)
Definition tree_leaves_before (l : list (K * ktree)) (i : nat) : nat :=
  length (concat (map (fun p => tree_leaves p.2) (take i l))).

(** Puts a child back at position [i] of a block. *)
Definition tree_in_child (l : list (K * ktree)) (i : nat)
    (c : ktree -> res tree_insertion) : res tree_insertion :=
  match l !! i with
  | None => Fault
  | Some (k, b) =>
      let* (rv, b, avail, it) := c b in
      Ok (rv, TNode (<[i := (k, b)]> l), avail,
          match it with
          | Some it => Some (mk_tit (tree_leaves_before l i + tit_leaf it) (tit_i it))
          | None => None
          end)
  end.

(** [if (node->blk->n == NGTCP2_KSL_MAX_NBLK) tree_split_node(...)]: [None]
    when there is no memory. *)
Definition tree_split_full (l : list (K * ktree)) (i avail : nat)
    : res (option (list (K * ktree) * nat)) :=
  match l !! i with
  | None => Fault
  | Some (_, b) =>
      if (tree_n b =? NGTCP2_KSL_MAX_NBLK)%nat then
        match avail with
        | O => Ok None
        | S avail => let* l := tree_split_node l i in Ok (Some (l, avail))
        end
      else Ok (Some (l, avail))
  end.

Section Compar.
Context (compar : K -> K -> bool).

(** [for (; !blk->leaf;)]: the key is larger than all keys of the block. *)
Fixpoint tree_insert_last (fuel : nat) (avail : nat) (b : ktree) (key : K) (data : V)
    : res tree_insertion :=
  match b with
  | TLeaf l =>
      let* l' := ksl_insert_node l (length l) key data in
      Ok (0, TLeaf l', avail, Some (mk_tit 0 (length l)))
  | TNode l =>
      match fuel with
      | O => Fault
      | S fuel =>
          let* r := tree_split_full l (length l - 1) avail in
          match r with
          | None => Ok (NGTCP2_ERR_NOMEM, TNode l, avail, None)
          | Some (l, avail) =>
              let* l := tree_set_nth_key l (length l - 1) key in
              tree_in_child l (length l - 1) (fun b => tree_insert_last fuel avail b key data)
          end
      end
  end.

(** [for (;;)] of [ngtcp2_ksl_insert]; every round goes down one level. *)
Fixpoint tree_insert_blk (fuel : nat) (avail : nat) (b : ktree) (key : K) (data : V)
    : res tree_insertion :=
  let i := search compar (tree_keys b) key in
  match b with
  | TLeaf l =>
      match l.*1 !! i with
      | Some k =>
          if negb (compar key k) then Ok (NGTCP2_ERR_INVALID_ARGUMENT, b, avail, None) else
          let* l' := ksl_insert_node l i key data in
          Ok (0, TLeaf l', avail, Some (mk_tit 0 i))
      | None =>
          let* l' := ksl_insert_node l i key data in
          Ok (0, TLeaf l', avail, Some (mk_tit 0 i))
      end
  | TNode l =>
      match fuel with
      | O => Fault
      | S fuel =>
          if (i =? length l)%nat then tree_insert_last (S fuel) avail b key data else
          let* r := tree_split_full l i avail in
          match r with
          | None => Ok (NGTCP2_ERR_NOMEM, b, avail, None)
          | Some (l', avail) =>
              let full := match l !! i with
                          | Some (_, c) => (tree_n c =? NGTCP2_KSL_MAX_NBLK)%nat
                          | None => false
                          end in
              let i :=
                if full && match l'.*1 !! i with Some k => compar k key | None => false end
                then S i else i in
              tree_in_child l' i (fun b => tree_insert_blk fuel avail b key data)
          end
      end
  end.

(** Levels of a tree: what the loops go through. *)
Fixpoint tree_height (b : ktree) : nat :=
  match b with
  | TLeaf _ => 0
  | TNode l => S (list_max (map (fun p => tree_height p.2) l))
  end.

End Compar.

(** ** Removal *)
Definition tree_take (n : nat) (b : ktree) : ktree :=
  match b with TLeaf l => TLeaf (take n l) | TNode l => TNode (take n l) end.

Definition tree_drop (n : nat) (b : ktree) : ktree :=
  match b with TLeaf l => TLeaf (drop n l) | TNode l => TNode (drop n l) end.

(** [memcpy] of the nodes and keys of one block behind those of another. *)
Definition tree_app (b c : ktree) : res ktree :=
  match b, c with
  | TLeaf l, TLeaf k => Ok (TLeaf (l ++ k))
  | TNode l, TNode k => Ok (TNode (l ++ k))
  | _, _ => Fault
  end.

Definition tree_child (l : list (K * ktree)) (i : nat) : res ktree :=
  match l !! i with Some (_, b) => Ok b | None => Fault end.

(** Nodes [i] and [i + 1] with new blocks, and the key of the first one. *)
Definition tree_set_pair (l : list (K * ktree)) (i : nat) (lblk rblk : ktree)
    : res (list (K * ktree)) :=
  match l !! S i with
  | None => Fault
  | Some (rk, _) =>
      let* lk := tree_last_key lblk in
      Ok (take i l ++ (lk, lblk) :: (rk, rblk) :: drop (S (S i)) l)
  end.

(** The merged block, and the nodes of [blk]; [None] when [blk] was the root
    and the merged block takes its place. *)
Definition tree_merge_node (is_root : bool) (l : list (K * ktree)) (i : nat)
    : res (ktree * option (list (K * ktree))) :=
  assert! (i + 1 <? length l)%nat;
  let* lblk := tree_child l i in
  let* rblk := tree_child l (S i) in
  assert! (tree_n lblk + tree_n rblk <=? NGTCP2_KSL_MAX_NBLK)%nat;
  let* m := tree_app lblk rblk in
  if is_root && (length l =? 2)%nat then Ok (m, None) else
  let* mk := tree_last_key m in
  Ok (m, Some (take i l ++ (mk, m) :: drop (S (S i)) l)).

Definition tree_shift_left (l : list (K * ktree)) (i : nat)
    : res (list (K * ktree)) :=
  assert! (0 <? i)%nat;
  let* lblk := tree_child l (i - 1) in
  let* rblk := tree_child l i in
  assert! (tree_n lblk <? NGTCP2_KSL_MAX_NBLK)%nat && (NGTCP2_KSL_MIN_NBLK <? tree_n rblk)%nat;
  let n := ((tree_n lblk + tree_n rblk + 1) / 2 - tree_n lblk)%nat in
  assert! (0 <? n)%nat && (tree_n lblk <=? NGTCP2_KSL_MAX_NBLK - n)%nat
          && (NGTCP2_KSL_MIN_NBLK + n <=? tree_n rblk)%nat;
  let* lblk := tree_app lblk (tree_take n rblk) in
  tree_set_pair l (i - 1) lblk (tree_drop n rblk).

Definition tree_shift_right (l : list (K * ktree)) (i : nat)
    : res (list (K * ktree)) :=
  assert! (i <? length l - 1)%nat;
  let* lblk := tree_child l i in
  let* rblk := tree_child l (S i) in
  assert! (NGTCP2_KSL_MIN_NBLK <? tree_n lblk)%nat && (tree_n rblk <? NGTCP2_KSL_MAX_NBLK)%nat;
  let n := ((tree_n lblk + tree_n rblk + 1) / 2 - tree_n rblk)%nat in
  assert! (0 <? n)%nat && (NGTCP2_KSL_MIN_NBLK + n <=? tree_n lblk)%nat
          && (tree_n rblk <=? NGTCP2_KSL_MAX_NBLK - n)%nat;
  let m := (tree_n lblk - n)%nat in
  let* rblk := tree_app (tree_drop m lblk) rblk in
  tree_set_pair l i (tree_take m lblk) rblk.

(** Makes sure that the block to go down to has a node to spare: the nodes,
    the index of that block and the blocks given back, or the block that
    replaces the root. *)
Definition tree_prepare_child (is_root : bool) (l : list (K * ktree)) (i : nat)
    : res (list (K * ktree) * nat * nat + ktree) :=
  let merge j :=
    let* (m, r) := tree_merge_node is_root l j in
    match r with
    | Some l => Ok (inl (l, j, 1%nat))
    | None => Ok (inr m)
    end in
  let big j := match l !! j with
               | Some (_, b) => (NGTCP2_KSL_MIN_NBLK <? tree_n b)%nat
               | None => false
               end in
  let* b := tree_child l i in
  if (NGTCP2_KSL_MIN_NBLK <? tree_n b)%nat then Ok (inl (l, i, 0%nat)) else
  assert! (tree_n b =? NGTCP2_KSL_MIN_NBLK)%nat;
  if (i + 1 <? length l)%nat && big (i + 1)%nat then
    let* l := tree_shift_left l (i + 1) in Ok (inl (l, i, 0%nat))
  else if (0 <? i)%nat && big (i - 1)%nat then
    let* l := tree_shift_right l (i - 1) in Ok (inl (l, i, 0%nat))
  else if (i + 1 <? length l)%nat then merge i
  else assert! (0 <? i)%nat; merge (i - 1)%nat.

Section Remove.
Context (compar : K -> K -> bool).

(** [for (;;)] of [ngtcp2_ksl_remove]; the iterator is not yet moved to the
    next leaf. *)
Fixpoint tree_remove_blk (fuel : nat) (is_root : bool) (avail : nat) (b : ktree) (key : K)
    : res tree_insertion :=
  let i := search compar (tree_keys b) key in
  if (i =? tree_n b)%nat then Ok (NGTCP2_ERR_INVALID_ARGUMENT, b, avail, None) else
  match b with
  | TLeaf l =>
      match l.*1 !! i with
      | None => Fault
      | Some k =>
          if compar key k then Ok (NGTCP2_ERR_INVALID_ARGUMENT, b, avail, None)
          else Ok (0, TLeaf (delete i l), avail, Some (mk_tit 0 i))
      end
  | TNode l =>
      match fuel with
      | O => Fault
      | S fuel =>
          let* r := tree_prepare_child is_root l i in
          match r with
          | inl (l, i, freed) =>
              tree_in_child l i (fun b => tree_remove_blk fuel false (avail + freed) b key)
          | inr m => tree_remove_blk fuel is_root (avail + 2) m key
          end
      end
  end.

(** The block with its [j]-th leaf changed. *)
Fixpoint tree_update_leaf (f : list (K * V) -> list (K * V)) (j : nat) (b : ktree)
    : ktree :=
  match b with
  | TLeaf l => if (j =? 0)%nat then TLeaf (f l) else TLeaf l
  | TNode l =>
      TNode ((fix go j (l : list (K * ktree)) :=
               match l with
               | [] => []
               | (k, b) :: l =>
                   let n := length (tree_leaves b) in
                   if (j <? n)%nat then (k, tree_update_leaf f j b) :: l else (k, b) :: go (j - n)%nat l
               end) j l)
  end.

(** ** Search and change of keys *)
Fixpoint tree_lower_bound (fuel : nat) (b : ktree) (key : K) : res tree_it :=
  let i := search compar (tree_keys b) key in
  match b with
  | TLeaf l => Ok (mk_tit 0 i)
  | TNode l =>
      match fuel with
      | O => Fault
      | S fuel =>
          if (i =? length l)%nat then
            let ls := tree_leaves b in
            match last ls with
            | Some lf => Ok (mk_tit (length ls - 1) (length lf))
            | None => Fault
            end
          else
            let* b := tree_child l i in
            let* it := tree_lower_bound fuel b key in
            Ok (mk_tit (tree_leaves_before l i + tit_leaf it) (tit_i it))
      end
  end.

Fixpoint tree_update_key (fuel : nat) (b : ktree) (old_key new_key : K)
    : res ktree :=
  let i := search compar (tree_keys b) old_key in
  match b with
  | TLeaf l =>
      match l !! i with
      | None => Fault
      | Some (k, v) =>
          assert! key_equal compar k old_key;
          Ok (TLeaf (<[i := (new_key, v)]> l))
      end
  | TNode l =>
      match l !! i, fuel with
      | Some (k, b), S fuel =>
          let* b := tree_update_key fuel b old_key new_key in
          let k := if key_equal compar k old_key || compar k new_key then new_key else k in
          Ok (TNode (<[i := (k, b)]> l))
      | _, _ => Fault
      end
  end.

End Remove.

Fixpoint tree_count (b : ktree) : nat :=
  match b with
  | TLeaf _ => 1
  | TNode l => S (list_sum (map (fun p => tree_count p.2) l))
  end.

End Tree.
Arguments ktree : clear implicits.

