(* ===== verification/KslInv.v ===== *)
(** * Ordered map: order and shape of the tree

    The invariant of [ngtcp2_ksl] is stated on the sequence of the marks of a
    tree: the keys of the elements and, behind the block they belong to, the
    keys of the inner nodes.  An inner key is an upper bound of its block that
    may be stale (a removal does not touch it), and it is before every element
    of the blocks to its right.  Splitting, merging and shifting blocks only
    drops or repeats inner keys in that sequence. *)

From S2P Require Import Prelude Const Ksl KslTree.
From stdpp Require Import list sorting.
#[local] Open Scope Z_scope.
#[local] Set Warnings "-clear-no-such-hyp".

(** Arithmetic with the bounds of a block. *)
Ltac nblk := unfold NGTCP2_KSL_MAX_NBLK, NGTCP2_KSL_MIN_NBLK, NGTCP2_KSL_DEGR in *; lia.

(** Decides the comparisons of the code that the context determines. *)
Ltac nbool :=
  repeat match goal with
  | |- context [(?a <? ?b)%nat] =>
      first [rewrite (proj2 (Nat.ltb_lt a b)) by nblk | rewrite (proj2 (Nat.ltb_ge a b)) by nblk]
  | |- context [(?a <=? ?b)%nat] =>
      first [rewrite (proj2 (Nat.leb_le a b)) by nblk | rewrite (proj2 (Nat.leb_gt a b)) by nblk]
  | |- context [(?a =? ?b)%nat] =>
      first [rewrite (proj2 (Nat.eqb_eq a b)) by nblk | rewrite (proj2 (Nat.eqb_neq a b)) by nblk]
  end; cbn [andb orb negb].

Section Inv.
Context {K V : Type} (compar : K -> K -> bool) `{!StrictWeakOrder compar}.
Abbreviation blk := (ktree K V).
Implicit Types (b : blk) (l : list (K * blk)) (k key : K) (i : nat).

(** ** Marks *)
Inductive mark := ME (k : K) | MS (k : K).

Definition mkey (m : mark) : K := match m with ME k | MS k => k end.

(** An element is strictly behind what is to its left, an inner key is not
    before it. *)
Definition R (m1 m2 : mark) : Prop :=
  match m2 with
  | ME k => compar (mkey m1) k = true
  | MS k => compar k (mkey m1) = false
  end.

#[global] Instance R_trans : Transitive R.
Proof.
  intros [a|a] [b|b] [c|c]; unfold R; cbn; intros H1 H2;
    try (by eapply less_trans); try (by eapply less_le_trans); try (by eapply less_negtrans).
  all: destruct (compar c a) eqn:E; [|done]; by rewrite (less_trans _ _ _ E H1) in H2.
Qed.

Fixpoint marks (b : blk) : list mark :=
  match b with
  | TLeaf l => map (fun p => ME p.1) l
  | TNode l => concat (map (fun p => marks p.2 ++ [MS p.1]) l)
  end.

Definition nmarks (l : list (K * blk)) : list mark :=
  concat (map (fun p => marks p.2 ++ [MS p.1]) l).

Definition nelems (l : list (K * blk)) : list (K * V) := concat (map (fun p => tree_elems p.2) l).

Definition nleaves (l : list (K * blk)) : list (list (K * V)) :=
  concat (map (fun p => tree_leaves p.2) l).

Abbreviation ordered := (StronglySorted R).

Lemma elems_node l : tree_elems (TNode l) = nelems l.
Proof.
  unfold tree_elems, nelems. cbn [tree_leaves]. induction l as [|[k b] l IH]; [done|]. cbn.
  by rewrite concat_app, IH.
Qed.

Lemma nmarks_app l1 l2 : nmarks (l1 ++ l2) = nmarks l1 ++ nmarks l2.
Proof. unfold nmarks. by rewrite map_app, concat_app. Qed.
Lemma nelems_app l1 l2 : nelems (l1 ++ l2) = nelems l1 ++ nelems l2.
Proof. unfold nelems. by rewrite map_app, concat_app. Qed.
Lemma nleaves_app l1 l2 : nleaves (l1 ++ l2) = nleaves l1 ++ nleaves l2.
Proof. unfold nleaves. by rewrite map_app, concat_app. Qed.
Lemma nmarks_cons k b l : nmarks ((k, b) :: l) = marks b ++ MS k :: nmarks l.
Proof. unfold nmarks. cbn. by rewrite <- app_assoc. Qed.
Lemma nelems_cons k b l : nelems ((k, b) :: l) = tree_elems b ++ nelems l.
Proof. done. Qed.
Lemma nleaves_cons k b l : nleaves ((k, b) :: l) = tree_leaves b ++ nleaves l.
Proof. done. Qed.

Lemma concat_nleaves l : concat (nleaves l) = nelems l.
Proof. rewrite <- elems_node. done. Qed.

(** ** Shape: uniform height and occupancy *)
Fixpoint shape (h : nat) (b : blk) : Prop :=
  match h, b with
  | O, TLeaf l => (length l <= NGTCP2_KSL_MAX_NBLK)%nat
  | S h, TNode l =>
      (2 <= length l <= NGTCP2_KSL_MAX_NBLK)%nat /\
      Forall (fun p => shape h p.2 /\ (NGTCP2_KSL_MIN_NBLK <= tree_n p.2)%nat) l
  | _, _ => False
  end.

(** The nodes of an inner block of height [S h]. *)
Definition nodes_ok (h : nat) l : Prop :=
  Forall (fun p => shape h p.2 /\ (NGTCP2_KSL_MIN_NBLK <= tree_n p.2)%nat) l.

Lemma shape_height h b : shape h b -> tree_height b = h.
Proof.
  revert b. induction h as [|h IH]; intros [l|l]; cbn; try done. intros [Hl Hf]. f_equal.
  assert (Hall : Forall (fun p : K * blk => tree_height p.2 = h) l).
  { eapply List.Forall_impl; [|exact Hf]. intros p [Hp _]. by apply IH. }
  clear Hf. destruct l as [|p l]; [cbn in Hl; lia|]. clear Hl. revert p Hall.
  induction l as [|q l IHl]; intros p Hall; inversion Hall as [|? ? Hp Hq]; subst; cbn; [lia|].
  specialize (IHl q Hq). cbn in IHl. lia.
Qed.

Lemma shape_leaves_nonempty h b : shape h b -> tree_leaves b <> [].
Proof.
  revert b. induction h as [|h IH]; intros [l|l]; cbn; try done. intros [Hl Hf].
  destruct l as [|[k b] l]; [cbn in Hl; lia|]. cbn. apply Forall_cons_iff in Hf as [[Hb _] _].
  specialize (IH b Hb). by destruct (tree_leaves b).
Qed.

(** Every leaf of a block below the root is occupied. *)
Lemma shape_leaves_big h b :
  shape h b -> (h = 0%nat -> (NGTCP2_KSL_MIN_NBLK <= tree_n b)%nat) ->
  Forall (fun lf => (NGTCP2_KSL_MIN_NBLK <= length lf <= NGTCP2_KSL_MAX_NBLK)%nat) (tree_leaves b).
Proof.
  revert b. induction h as [|h IH]; intros [l|l]; cbn [shape tree_leaves]; try done.
  - intros H H0. specialize (H0 eq_refl). cbn in H0. constructor; [done|constructor].
  - intros [_ Hf] _. induction Hf as [|p l [Hp Hn] _ IHl]; cbn; [constructor|].
    apply Forall_app. split; [|done]. by apply IH.
Qed.

Lemma shape_elems_nonempty h b : shape h b -> (1 <= tree_n b)%nat -> tree_elems b <> [].
Proof.
  revert b. induction h as [|h IH]; intros [l|l]; cbn [shape tree_n]; try done.
  - intros _. unfold tree_elems. cbn. rewrite app_nil_r. by destruct l; cbn; [lia|].
  - intros [_ Hf] Hn. rewrite elems_node. destruct l as [|[k b] l]; [cbn in Hn; lia|].
    apply Forall_cons_iff in Hf as [[Hb Hm] _]. cbn in Hb, Hm. rewrite nelems_cons.
    assert (tree_elems b <> []) by (apply IH; [done|unfold NGTCP2_KSL_MIN_NBLK, NGTCP2_KSL_DEGR in Hm; lia]).
    by destruct (tree_elems b).
Qed.

(** The elements are the [ME] marks. *)
Lemma elem_mark h b k : shape h b -> ME k ∈ marks b <-> k ∈ (tree_elems b).*1.
Proof.
  revert b. induction h as [|h IH]; intros [l|l]; cbn [shape]; try done.
  - intros _. unfold tree_elems. cbn. rewrite app_nil_r. rewrite !list_elem_of_fmap. split.
    + intros (p & [= ->] & Hp). by exists p.
    + intros (p & -> & Hp). by exists p.
  - intros [_ Hf]. rewrite elems_node. change (marks (TNode l)) with (nmarks l).
    induction Hf as [|[k' b] l [Hb _] _ IHl]; [by cbn; rewrite !elem_of_nil|].
    rewrite nmarks_cons, nelems_cons, fmap_app, !elem_of_app, elem_of_cons.
    cbn in Hb. rewrite IH by done. rewrite IHl. split; [intros [?|[?|?]]; [auto|discriminate|auto]|intros [?|?]; auto].
Qed.

(** ** Changes of the sequence of marks *)

(** [M'] only has marks of [M] and inner keys that repeat a key of [M]. *)
Definition kin (M M' : list mark) : Prop :=
  forall m, m ∈ M' -> m ∈ M \/ exists m0, m0 ∈ M /\ m = MS (mkey m0).

(** ... and marks with the key [key]. *)
Definition kin_key (key : K) (M M' : list mark) : Prop :=
  forall m, m ∈ M' -> m ∈ M \/ (exists m0, m0 ∈ M /\ m = MS (mkey m0)) \/ mkey m = key.

Lemma kin_refl M : kin M M.
Proof. intros m Hm. by left. Qed.

Lemma kin_trans M1 M2 M3 : kin M1 M2 -> kin M2 M3 -> kin M1 M3.
Proof.
  intros H12 H23 m Hm. destruct (H23 m Hm) as [H|(m0 & H & ->)]; [by apply H12|].
  destruct (H12 m0 H) as [H0|(m1 & H1 & ->)]; right; eauto.
Qed.

Lemma kin_kin_key key M M' : kin M M' -> kin_key key M M'.
Proof. intros H m Hm. destruct (H m Hm); auto. Qed.

Lemma kin_key_trans key M1 M2 M3 : kin_key key M1 M2 -> kin_key key M2 M3 -> kin_key key M1 M3.
Proof.
  intros H12 H23 m Hm. destruct (H23 m Hm) as [H|[(m0 & H & ->)|H]]; [| |by right; right].
  - by apply H12.
  - destruct (H12 m0 H) as [H0|[(m1 & H1 & ->)|H0]]; right; eauto.
Qed.

Lemma kin_app M1 M M' M2 : kin M M' -> kin (M1 ++ M ++ M2) (M1 ++ M' ++ M2).
Proof.
  intros H m. rewrite !elem_of_app. intros [?|[Hm|?]]; [auto| |auto].
  destruct (H m Hm) as [?|(m0 & ? & ->)]; [auto|]. right. exists m0.
  rewrite !elem_of_app. auto.
Qed.

Lemma kin_key_app key M1 M M' M2 :
  kin_key key M M' -> kin_key key (M1 ++ M ++ M2) (M1 ++ M' ++ M2).
Proof.
  intros H m. rewrite !elem_of_app. intros [?|[Hm|?]]; [auto| |auto].
  destruct (H m Hm) as [?|[(m0 & ? & ->)|?]]; [auto| |auto]. right; left. exists m0.
  rewrite !elem_of_app. auto.
Qed.

Lemma R_sep m m0 : R m m0 -> R m (MS (mkey m0)).
Proof. destruct m0; cbn; [apply less_asym|done]. Qed.

Lemma R_same_key m1 m1' m2 : mkey m1 = mkey m1' -> R m1 m2 -> R m1' m2.
Proof. unfold R. by intros ->. Qed.

Lemma ordered_replace_key key M1 M M' M2 :
  ordered (M1 ++ M ++ M2) -> ordered M' -> kin_key key M M' ->
  (forall m, m ∈ M1 -> R m (ME key)) -> (forall m, m ∈ M2 -> R (ME key) m) ->
  ordered (M1 ++ M' ++ M2).
Proof.
  rewrite !StronglySorted_app. intros (H1 & HM1 & H2 & HM & HM2) HM' Hkin Hk1 Hk2.
  split_and!; try done.
  - intros m1 m Hm1. rewrite elem_of_app. intros [Hm|Hm]; [|apply H1; [done|rewrite elem_of_app; by right]].
    destruct (Hkin m Hm) as [H|[(m0 & H & ->)|H]].
    + apply H1; [done|]. rewrite elem_of_app. by left.
    + apply R_sep, H1; [done|]. rewrite elem_of_app. by left.
    + destruct m as [k|k]; cbn in H; subst k; [by apply Hk1|]. apply (R_sep m1 (ME key)). by apply Hk1.
  - intros m m2 Hm Hm2. destruct (Hkin m Hm) as [H|[(m0 & H & ->)|H]].
    + by apply H2.
    + apply (R_same_key m0); [done|]. by apply H2.
    + apply (R_same_key (ME key)); [done|]. by apply Hk2.
Qed.

Lemma ordered_replace M1 M M' M2 :
  ordered (M1 ++ M ++ M2) -> ordered M' -> kin M M' -> ordered (M1 ++ M' ++ M2).
Proof.
  rewrite !StronglySorted_app. intros (H1 & HM1 & H2 & HM & HM2) HM' Hkin.
  split_and!; try done.
  - intros m1 m Hm1. rewrite elem_of_app. intros [Hm|Hm]; [|apply H1; [done|rewrite elem_of_app; by right]].
    destruct (Hkin m Hm) as [H|(m0 & H & ->)]; [|apply R_sep]; (apply H1; [done|]; rewrite elem_of_app; by left).
  - intros m m2 Hm Hm2. destruct (Hkin m Hm) as [H|(m0 & H & ->)]; [by apply H2|].
    apply (R_same_key m0); [done|]. by apply H2.
Qed.

(** Repeating the key of the last mark as an inner key. *)
Lemma ordered_dup A m B :
  ordered (A ++ B) -> last A = Some m -> ordered (A ++ MS (mkey m) :: B).
Proof.
  intros HAB [A' ->]%last_Some. rewrite <- app_assoc in HAB. cbn in HAB.
  rewrite <- app_assoc. cbn.
  change (A' ++ m :: MS (mkey m) :: B) with (A' ++ [m; MS (mkey m)] ++ B).
  apply (ordered_replace A' [m]); [done| |].
  - repeat constructor. cbn. apply less_irrefl.
  - intros x. rewrite elem_of_cons, list_elem_of_singleton. intros [->|Hx].
    + left. by apply list_elem_of_singleton.
    + right. exists m. split; [by apply list_elem_of_singleton|]. done.
Qed.

Lemma ordered_drop A m B : ordered (A ++ m :: B) -> ordered (A ++ B).
Proof.
  rewrite !StronglySorted_app. intros (H & HA & HB). apply StronglySorted_cons in HB as [_ HB].
  split_and!; try done. intros x y Hx Hy. apply H; [done|]. apply elem_of_cons. by right.
Qed.

Lemma last_key_mark b k :
  tree_last_key b = Ok k -> exists m, last (marks b) = Some m /\ mkey m = k.
Proof.
  unfold tree_last_key. destruct (last (tree_keys b)) as [k'|] eqn:E; [|done]. intros [= ->].
  apply last_Some in E as [ks E]. destruct b as [l|l]; cbn in *.
  - apply fmap_app_inv in E as (l1 & l2 & -> & E2 & ->).
    destruct l2 as [|p [|]]; try done. injection E2 as ->. exists (ME p.1).
    rewrite map_app. cbn. by rewrite last_snoc.
  - apply fmap_app_inv in E as (l1 & l2 & -> & E2 & ->).
    destruct l2 as [|p [|]]; try done. injection E2 as ->. exists (MS p.1).
    rewrite map_app, concat_app. cbn. rewrite app_nil_r, app_assoc, last_snoc. done.
Qed.

Lemma last_key_ok b : (1 <= tree_n b)%nat -> exists k, tree_last_key b = Ok k.
Proof.
  intros H. unfold tree_last_key. destruct (last (tree_keys b)) as [k|] eqn:E; [by exists k|].
  apply last_None in E. destruct b as [[|]|[|]]; cbn in *; done || lia.
Qed.

(** ** Parts of blocks *)
Lemma marks_take_drop n b : marks (tree_take n b) ++ marks (tree_drop n b) = marks b.
Proof.
  destruct b as [l|l]; cbn [tree_take tree_drop marks].
  - by rewrite <- map_app, take_drop.
  - by rewrite <- concat_app, <- map_app, take_drop.
Qed.

Lemma elems_take_drop n b : tree_elems (tree_take n b) ++ tree_elems (tree_drop n b) = tree_elems b.
Proof.
  destruct b as [l|l]; cbn [tree_take tree_drop].
  - unfold tree_elems. cbn. rewrite !app_nil_r. apply take_drop.
  - rewrite !elems_node, <- nelems_app. by rewrite take_drop.
Qed.

Lemma blk_n_take n b : (n <= tree_n b)%nat -> tree_n (tree_take n b) = n.
Proof. destruct b; cbn; rewrite length_take; lia. Qed.

Lemma blk_n_drop n b : tree_n (tree_drop n b) = (tree_n b - n)%nat.
Proof. destruct b; cbn; by rewrite length_drop. Qed.

Lemma shape_take h b n : shape h b -> (2 <= n <= tree_n b)%nat -> shape h (tree_take n b).
Proof.
  destruct h, b as [l|l]; cbn; try done; rewrite length_take; [lia|].
  intros [H1 H2] Hn. split; [lia|]. by apply Forall_take.
Qed.

Lemma shape_drop h b n : shape h b -> (2 <= tree_n b - n)%nat -> shape h (tree_drop n b).
Proof.
  destruct h, b as [l|l]; cbn; try done; rewrite length_drop; [lia|].
  intros [H1 H2] Hn. split; [lia|]. by apply Forall_drop.
Qed.

(** ** Blocks in use *)
Definition ncount l : nat := list_sum (map (fun p => tree_count p.2) l).

Lemma ncount_app l1 l2 : ncount (l1 ++ l2) = (ncount l1 + ncount l2)%nat.
Proof. unfold ncount. by rewrite map_app, list_sum_app. Qed.

Lemma ncount_cons k b l : ncount ((k, b) :: l) = (tree_count b + ncount l)%nat.
Proof. done. Qed.

Lemma count_node l : tree_count (TNode l) = S (ncount l).
Proof. done. Qed.

Lemma count_take_drop n b :
  (tree_count (tree_take n b) + tree_count (tree_drop n b) = S (tree_count b))%nat.
Proof.
  destruct b as [l|l]; [done|]. cbn [tree_take tree_drop]. rewrite !count_node.
  rewrite <- (take_drop n l) at 3. rewrite ncount_app. lia.
Qed.

(** A run of nodes of a block: a shape without the lower bound. *)
Definition part (h : nat) (b : blk) : Prop :=
  match h, b with
  | O, TLeaf l => (length l <= NGTCP2_KSL_MAX_NBLK)%nat
  | S h, TNode l => (length l <= NGTCP2_KSL_MAX_NBLK)%nat /\ nodes_ok h l
  | _, _ => False
  end.

Lemma shape_part h b : shape h b -> part h b.
Proof. destruct h, b; cbn; try done. intros [[??]?]. done. Qed.

Lemma part_shape h b : part h b -> (2 <= tree_n b)%nat -> shape h b.
Proof. destruct h, b; cbn; try done. by intros [??] ?. Qed.

Lemma part_take h b n : part h b -> part h (tree_take n b).
Proof.
  destruct h, b as [l|l]; cbn; try done; rewrite length_take; [lia|].
  intros [H1 H2]. split; [lia|]. by apply Forall_take.
Qed.

Lemma part_drop h b n : part h b -> part h (tree_drop n b).
Proof.
  destruct h, b as [l|l]; cbn; try done; rewrite length_drop; [lia|].
  intros [H1 H2]. split; [lia|]. by apply Forall_drop.
Qed.

Lemma blk_app_ok h b c :
  part h b -> part h c -> (2 <= tree_n b + tree_n c <= NGTCP2_KSL_MAX_NBLK)%nat ->
  exists m, tree_app b c = Ok m /\ shape h m /\ marks m = marks b ++ marks c /\
    tree_elems m = tree_elems b ++ tree_elems c /\ tree_n m = (tree_n b + tree_n c)%nat /\
    S (tree_count m) = (tree_count b + tree_count c)%nat.
Proof.
  destruct h, b as [l|l], c as [k|k]; cbn [part]; try done; intros Hb Hc Hn; cbn [tree_n] in Hn;
    eexists; (split; [reflexivity|]).
  - cbn. rewrite length_app, map_app. split_and!; try done; [nblk|]. unfold tree_elems. cbn.
    by rewrite !app_nil_r.
  - destruct Hb as [Hb1 Hb], Hc as [Hc1 Hc].
    split; [split; [rewrite length_app; lia|by apply Forall_app]|].
    rewrite !elems_node, nelems_app. cbn [tree_n]. rewrite length_app. split_and!; try done.
    + change (nmarks (l ++ k) = nmarks l ++ nmarks k). apply nmarks_app.
    + rewrite !count_node, ncount_app. lia.
Qed.

Lemma shape_max h b : shape h b -> (tree_n b <= NGTCP2_KSL_MAX_NBLK)%nat.
Proof. destruct h, b; cbn; tauto || lia. Qed.

Lemma nodes_ok_lookup h l i k b :
  nodes_ok h l -> l !! i = Some (k, b) -> shape h b /\ (NGTCP2_KSL_MIN_NBLK <= tree_n b)%nat.
Proof. intros H E. by eapply (Forall_lookup_1 _ _ _ _ H E). Qed.

Lemma nodes_ok_insert h l i k b :
  nodes_ok h l -> shape h b -> (NGTCP2_KSL_MIN_NBLK <= tree_n b)%nat -> nodes_ok h (<[i := (k, b)]> l).
Proof. intros H Hb Hn. by apply Forall_insert. Qed.

Lemma nelems_mark h l k : nodes_ok h l -> k ∈ (nelems l).*1 -> ME k ∈ nmarks l.
Proof.
  intros Hf. induction Hf as [|[k' b] l [Hb _] _ IHl]; [by cbn; rewrite elem_of_nil|].
  rewrite nmarks_cons, nelems_cons, fmap_app, !elem_of_app, elem_of_cons.
  cbn in Hb. rewrite (elem_mark h b k Hb). naive_solver.
Qed.

Lemma shape_node h l :
  shape (S h) (TNode l) <-> (2 <= length l <= NGTCP2_KSL_MAX_NBLK)%nat /\ nodes_ok h l.
Proof. done. Qed.

Lemma marks_node l : marks (TNode l) = nmarks l.
Proof. done. Qed.

(** ** Where a key belongs

    The nodes around the one that [search] finds: what is to the left is
    before the key, what is to the right is not. *)
Lemma search_le (cmp : K -> K -> bool) keys key : (search cmp keys key <= length keys)%nat.
Proof. induction keys as [|k keys IH]; cbn; [done|]. destruct (cmp k key); lia. Qed.

Lemma search_take (cmp : K -> K -> bool) keys key k :
  k ∈ take (search cmp keys key) keys -> cmp k key = true.
Proof.
  induction keys as [|k0 keys IH]; cbn; [by rewrite elem_of_nil|].
  destruct (cmp k0 key) eqn:E; cbn; [|by rewrite elem_of_nil].
  rewrite elem_of_cons. intros [->|?]; auto.
Qed.

Lemma search_at (cmp : K -> K -> bool) keys key k :
  keys !! search cmp keys key = Some k -> cmp k key = false.
Proof.
  induction keys as [|k0 keys IH]; cbn; [done|].
  destruct (cmp k0 key) eqn:E; cbn; [done|]. by intros [= ->].
Qed.

(** All marks of [M] are before [key]; after it. *)
Definition before (key : K) (M : list mark) : Prop := forall m, m ∈ M -> R m (ME key).
Definition after (key : K) (M : list mark) : Prop := forall m, m ∈ M -> R (ME key) m.

Lemma before_app key M1 M2 : before key (M1 ++ M2) <-> before key M1 /\ before key M2.
Proof. unfold before. setoid_rewrite elem_of_app. naive_solver. Qed.

Lemma after_app key M1 M2 : after key (M1 ++ M2) <-> after key M1 /\ after key M2.
Proof. unfold after. setoid_rewrite elem_of_app. naive_solver. Qed.

Lemma before_kin key M M' : before key M -> kin M M' -> before key M'.
Proof.
  intros H Hk m Hm. destruct (Hk m Hm) as [?|(m0 & ? & ->)]; [auto|].
  apply (R_same_key m0); auto.
Qed.

(** A last inner key before [key] puts the whole sequence before it. *)
Lemma before_sep key M k : ordered (M ++ [MS k]) -> compar k key = true -> before key (M ++ [MS k]).
Proof.
  rewrite StronglySorted_app. intros (H & _ & _) Hk m. rewrite elem_of_app, list_elem_of_singleton.
  intros [Hm| ->]; [|done]. apply (R_trans m (MS k) (ME key)); [|done]. apply H; [done|].
  by apply list_elem_of_singleton.
Qed.

Lemma after_sep key k M : ordered (MS k :: M) -> compar k key = false -> after key (MS k :: M).
Proof.
  intros H Hk m. apply StronglySorted_inv in H as [_ H]. rewrite elem_of_cons.
  intros [->|Hm]; [done|]. apply (R_trans _ (MS k)); [done|].
  rewrite list.Forall_forall in H. by apply H.
Qed.

Lemma search_before l key :
  ordered (nmarks l) -> before key (nmarks (take (search compar l.*1 key) l)).
Proof.
  intros H. set (i := search compar l.*1 key).
  destruct (last (take i l)) as [[k b]|] eqn:E.
  - apply last_Some in E as [l0 E]. rewrite E, nmarks_app, nmarks_cons. cbn.
    rewrite app_assoc. apply before_sep.
    + rewrite <- (take_drop i l), nmarks_app, E, nmarks_app, nmarks_cons in H.
      apply StronglySorted_app in H as (_ & H & _). cbn in H. by rewrite app_assoc in H.
    + apply (search_take compar l.*1). fold i. rewrite <- fmap_take, E, fmap_app. apply elem_of_app.
      right. by apply list_elem_of_singleton.
  - apply last_None in E. rewrite E. intros m. by rewrite elem_of_nil.
Qed.

Lemma search_after l key k b Q :
  ordered (nmarks l) -> drop (search compar l.*1 key) l = (k, b) :: Q ->
  after key (MS k :: nmarks Q).
Proof.
  intros H E. apply after_sep.
  - rewrite <- (take_drop (search compar l.*1 key) l), E, nmarks_app, nmarks_cons in H.
    apply StronglySorted_app in H as (_ & _ & H). by apply StronglySorted_app in H as (_ & _ & H).
  - apply (search_at compar l.*1). set (i := search compar l.*1 key) in *.
    assert (Hl : l !! (i + 0)%nat = Some (k, b)) by (by rewrite <- lookup_drop, E).
    rewrite Nat.add_0_r in Hl. by rewrite list_lookup_fmap, Hl.
Qed.

(** The nodes around the one [search] finds. *)
Lemma search_split l key :
  search compar l.*1 key = length l \/
  exists P k c Q, l = P ++ (k, c) :: Q /\ search compar l.*1 key = length P /\
    compar k key = false.
Proof.
  set (i := search compar l.*1 key). pose proof (search_le compar l.*1 key) as Hi. fold i in Hi.
  rewrite length_fmap in Hi. destruct (decide (i = length l)) as [|Hne]; [by left|right].
  destruct (lookup_lt_is_Some_2 l i) as [[k c] Hl]; [lia|].
  exists (take i l), k, c, (drop (S i) l). split_and!.
  - by rewrite take_drop_middle.
  - rewrite length_take. lia.
  - apply (search_at compar l.*1). fold i. by rewrite list_lookup_fmap, Hl.
Qed.

Lemma search_prefix P k c Q key :
  ordered (nmarks (P ++ (k, c) :: Q)) -> search compar (P ++ (k, c) :: Q).*1 key = length P ->
  before key (nmarks P).
Proof.
  intros Ho Hi. pose proof (search_before _ key Ho) as H.
  by rewrite Hi, take_app_length in H.
Qed.

(** The two sides of a position of a leaf. *)
Lemma leaf_before (l : list (K * V)) key :
  before key (marks (TLeaf (take (search compar l.*1 key) l))).
Proof.
  intros m. cbn. rewrite list_elem_of_fmap. intros (x & -> & Hx). cbn.
  apply (search_take compar l.*1). rewrite <- fmap_take. by apply list_elem_of_fmap_2.
Qed.

Lemma leaf_after (l : list (K * V)) key k :
  ordered (marks (TLeaf l)) -> l.*1 !! search compar l.*1 key = Some k -> compar key k = true ->
  after key (marks (TLeaf (drop (search compar l.*1 key) l))).
Proof.
  set (i := search compar l.*1 key). intros Ho Hi Hk. rewrite list_lookup_fmap in Hi.
  destruct (l !! i) as [x|] eqn:Hl; [|done]. injection Hi as <-.
  rewrite <- (take_drop i l) in Ho. cbn in Ho. rewrite map_app in Ho.
  apply StronglySorted_app in Ho as (_ & _ & Ho). rewrite (drop_S l x i Hl) in *. cbn in *.
  apply StronglySorted_inv in Ho as [_ Ho]. rewrite list.Forall_forall in Ho.
  intros m. rewrite elem_of_cons. intros [->|Hm]; [done|].
  apply (R_trans _ (ME x.1)); [done|]. by apply Ho.
Qed.

(** A child of a block. *)
Lemma nodes_child h P k c Q : nodes_ok h (P ++ (k, c) :: Q) -> shape h c.
Proof. intros [_ [[? _] _]%Forall_cons_iff]%Forall_app. done. Qed.

Lemma ordered_child P k c Q : ordered (nmarks (P ++ (k, c) :: Q)) -> ordered (marks c).
Proof.
  rewrite nmarks_app, nmarks_cons. intros (_ & _ & (_ & ? & _)%StronglySorted_app)%StronglySorted_app.
  done.
Qed.

Lemma elems_leaf (l : list (K * V)) : tree_elems (TLeaf l) = l.
Proof. unfold tree_elems. cbn. apply app_nil_r. Qed.

(** ** Iterators as splits of the sequence of elements *)
Definition points (ls : list (list (K * V))) (it : tree_it) (A B : list (K * V)) : Prop :=
  exists ls1 lf1 lf2 ls2, ls = ls1 ++ (lf1 ++ lf2) :: ls2 /\
    it = mk_tit (length ls1) (length lf1) /\ A = concat ls1 ++ lf1 /\ B = lf2 ++ concat ls2.

Lemma points_elems ls it A B : points ls it A B -> concat ls = A ++ B.
Proof.
  intros (ls1 & lf1 & lf2 & ls2 & -> & _ & -> & ->). rewrite concat_app. cbn.
  by rewrite <- !app_assoc.
Qed.

Lemma points_leaf (l1 l2 : list (K * V)) : points [l1 ++ l2] (mk_tit 0 (length l1)) l1 l2.
Proof. exists [], l1, l2, []. by rewrite app_nil_r. Qed.

Lemma points_nest ls0 ls ls' it A B :
  points ls it A B ->
  points (ls0 ++ ls ++ ls') (mk_tit (length ls0 + tit_leaf it) (tit_i it)) (concat ls0 ++ A) (B ++ concat ls').
Proof.
  intros (ls1 & lf1 & lf2 & ls2 & -> & -> & -> & ->).
  exists (ls0 ++ ls1), lf1, lf2, (ls2 ++ ls').
  rewrite <- !app_assoc, length_app, !concat_app, <- !app_assoc. done.
Qed.

Lemma points_node l1 k b l2 it A B :
  points (tree_leaves b) it A B ->
  points (tree_leaves (TNode (l1 ++ (k, b) :: l2))) (mk_tit (length (nleaves l1) + tit_leaf it) (tit_i it))
    (nelems l1 ++ A) (B ++ nelems l2).
Proof.
  intros H. change (tree_leaves (TNode ?l)) with (nleaves l).
  rewrite nleaves_app, nleaves_cons, <- !concat_nleaves. by apply points_nest.
Qed.

(** An iterator that points to an element. *)
Definition points_at (ls : list (list (K * V))) (it : tree_it) (A : list (K * V)) (x : K * V) (B : list (K * V)) : Prop :=
  exists ls1 lf1 lf2 ls2, ls = ls1 ++ (lf1 ++ x :: lf2) :: ls2 /\
    it = mk_tit (length ls1) (length lf1) /\ A = concat ls1 ++ lf1 /\ B = lf2 ++ concat ls2.

Lemma points_at_points ls it A x B : points_at ls it A x B -> points ls it A (x :: B).
Proof. intros (ls1 & lf1 & lf2 & ls2 & H & -> & -> & ->). by exists ls1, lf1, (x :: lf2), ls2. Qed.

Lemma points_at_leaf (l1 l2 : list (K * V)) x : points_at [l1 ++ x :: l2] (mk_tit 0 (length l1)) l1 x l2.
Proof. exists [], l1, l2, []. by rewrite app_nil_r. Qed.

Lemma points_at_node l1 k b l2 it A x B :
  points_at (tree_leaves b) it A x B ->
  points_at (tree_leaves (TNode (l1 ++ (k, b) :: l2))) (mk_tit (length (nleaves l1) + tit_leaf it) (tit_i it))
    (nelems l1 ++ A) x (B ++ nelems l2).
Proof.
  intros (ls1 & lf1 & lf2 & ls2 & E & -> & -> & ->). change (tree_leaves (TNode ?l)) with (nleaves l).
  rewrite nleaves_app, nleaves_cons, E, <- !concat_nleaves.
  exists (nleaves l1 ++ ls1), lf1, lf2, (ls2 ++ nleaves l2).
  cbn [tit_leaf tit_i]. rewrite <- !app_assoc, length_app, !concat_app, <- !app_assoc. done.
Qed.

Lemma in_child_eq P k b Q (c : blk -> res tree_insertion) :
  tree_in_child (P ++ (k, b) :: Q) (length P) c =
    (let* (rv, b', avail, it) := c b in
     Ok (rv, TNode (P ++ (k, b') :: Q), avail,
         match it with
         | Some it => Some (mk_tit (length (nleaves P) + tit_leaf it) (tit_i it))
         | None => None
         end)).
Proof.
  unfold tree_in_child. rewrite list_lookup_middle by done. unfold bind.
  destruct (c b) as [[[[rv b'] a] it]| |]; [|done|done].
  unfold tree_leaves_before. rewrite take_app_length.
  rewrite insert_app_r_alt, Nat.sub_diag by done. done.
Qed.
End Inv.
