(* ===== verification/KslInsert.v ===== *)
(** * Ordered map: insertion

    [tree_insert_blk] and [tree_insert_last] keep the shape and the order of a tree,
    put the new element where it belongs, move blocks from the allocator to
    the tree without losing any, and report a key that is already present or
    a lack of memory without changing the elements. *)

From S2P Require Import Prelude Const Ksl KslTree KslInv.
From stdpp Require Import list sorting.
#[local] Open Scope Z_scope.
#[local] Set Warnings "-clear-no-such-hyp".

Section Insert.
Context {K V : Type} (compar : K -> K -> bool) `{!StrictWeakOrder compar}.
Abbreviation blk := (ktree K V).
Implicit Types (b c : blk) (l P Q : list (K * blk)) (k key : K) (data : V) (i avail : nat).
Abbreviation ordered := (StronglySorted (R compar)).

(** ** Splits *)
Lemma split_blk_ok h b :
  shape h b -> tree_n b = NGTCP2_KSL_MAX_NBLK ->
  tree_split_blk b = Ok (tree_take NGTCP2_KSL_DEGR b, tree_drop NGTCP2_KSL_DEGR b).
Proof. intros _ Hn. unfold tree_split_blk. rewrite Hn. cbn. by destruct b. Qed.

(** The two halves of a full block. *)
Lemma halves_ok h b :
  shape h b -> tree_n b = NGTCP2_KSL_MAX_NBLK ->
  let bl := tree_take NGTCP2_KSL_DEGR b in
  let br := tree_drop NGTCP2_KSL_DEGR b in
  shape h bl /\ shape h br /\ tree_n bl = NGTCP2_KSL_MIN_NBLK /\ tree_n br = NGTCP2_KSL_MIN_NBLK.
Proof.
  intros Hs Hn bl br. subst bl br. rewrite blk_n_take, blk_n_drop, Hn by (rewrite Hn; nblk).
  split_and!; try done; [apply shape_take|apply shape_drop]; try done; rewrite Hn; nblk.
Qed.

(** The nodes [l0] of a block after the way down has been prepared: the same
    elements, at most one more node, taken from the allocator. *)
Record prepared (h : nat) (key : K) l0 (avail0 : nat) l (avail : nat) : Prop := {
  pre_ok : nodes_ok h l;
  pre_ordered : ordered (nmarks l);
  pre_kin : kin_key key (nmarks l0) (nmarks l);
  pre_elems : nelems l0 = nelems l;
  pre_avail : (avail <= avail0 <= S avail)%nat;
  pre_count : (avail + ncount l = avail0 + ncount l0)%nat;
  pre_length : (length l0 <= length l <= S (length l0))%nat;
}.

Lemma prepared_refl h key l avail :
  nodes_ok h l -> ordered (nmarks l) -> prepared h key l avail l avail.
Proof. intros. split; try done; try lia. apply kin_kin_key, kin_refl. Qed.

(** Where [tree_split_full] leads: the nodes as they are, or with node [i] cut in
    two. *)
Inductive split_result (h : nat) (key : K) P (k : K) (c : blk) Q (avail : nat)
    : res (option (list (K * blk) * nat)) -> Prop :=
| split_no_memory :
    avail = 0%nat -> split_result h key P k c Q avail (Ok None)
| split_not_full :
    (tree_n c < NGTCP2_KSL_MAX_NBLK)%nat ->
    split_result h key P k c Q avail (Ok (Some (P ++ (k, c) :: Q, avail)))
| split_done lk bl br avail' :
    tree_n c = NGTCP2_KSL_MAX_NBLK ->
    (tree_n bl < NGTCP2_KSL_MAX_NBLK)%nat -> (tree_n br < NGTCP2_KSL_MAX_NBLK)%nat ->
    kin (nmarks (P ++ (k, c) :: Q)) (nmarks (P ++ (lk, bl) :: (k, br) :: Q)) ->
    prepared h key (P ++ (k, c) :: Q) avail (P ++ (lk, bl) :: (k, br) :: Q) avail' ->
    split_result h key P k c Q avail (Ok (Some (P ++ (lk, bl) :: (k, br) :: Q, avail'))).

(** Repeating the key of the last mark of [M1] behind it. *)
Lemma kin_dup (M0 M1 M2 M3 : list (@mark K)) m :
  last M1 = Some m -> kin (M0 ++ (M1 ++ M2) ++ M3) (M0 ++ M1 ++ MS (mkey m) :: M2 ++ M3).
Proof.
  intros Hl x. rewrite !elem_of_app, elem_of_cons, !elem_of_app.
  intros [?|[?|[->|[?|?]]]]; auto. right. exists m. split; [|done].
  apply last_Some_elem_of in Hl. rewrite !elem_of_app. auto.
Qed.

Lemma split_full_ok h key P k c Q avail :
  nodes_ok h (P ++ (k, c) :: Q) -> ordered (nmarks (P ++ (k, c) :: Q)) ->
  split_result h key P k c Q avail (tree_split_full (P ++ (k, c) :: Q) (length P) avail).
Proof.
  intros Hok Ho. unfold tree_split_full. rewrite list_lookup_middle by done.
  pose proof Hok as [HP [[Hs Hmin] HQ]%Forall_cons_iff]%Forall_app. cbn in Hs, Hmin.
  pose proof (shape_max h c Hs) as Hmax.
  destruct (Nat.eqb_spec (tree_n c) NGTCP2_KSL_MAX_NBLK) as [Hn|Hn]; [|apply split_not_full; lia].
  destruct avail as [|avail]; [by apply split_no_memory|].
  unfold tree_split_node. rewrite list_lookup_middle by done.
  rewrite (split_blk_ok h c Hs Hn). destruct (halves_ok h c Hs Hn) as (Hl & Hr & Hnl & Hnr).
  pose proof (marks_take_drop NGTCP2_KSL_DEGR c) as Hmarks.
  pose proof (elems_take_drop NGTCP2_KSL_DEGR c) as Helems.
  pose proof (count_take_drop NGTCP2_KSL_DEGR c) as Hcount.
  set (bl := tree_take _ _) in *. set (br := tree_drop _ _) in *.
  destruct (last_key_ok bl) as [lk Hlk]; [rewrite Hnl; nblk|].
  unfold bind. rewrite Hlk. rewrite take_app_length.
  replace (drop (S (length P)) (P ++ (k, c) :: Q)) with Q
    by (rewrite <- Nat.add_1_r, drop_app_add; done).
  destruct (last_key_mark bl lk Hlk) as (m & Hm & <-).
  assert (Hkin : kin (nmarks (P ++ (k, c) :: Q)) (nmarks (P ++ (mkey m, bl) :: (k, br) :: Q)))
    by (rewrite !nmarks_app, !nmarks_cons, <- Hmarks; by apply kin_dup).
  apply split_done; [done|nblk|nblk|done|]. split.
  - apply Forall_app. split; [done|]. repeat constructor; cbn [snd]; try done; by rewrite ?Hnl, ?Hnr.
  - rewrite !nmarks_app, !nmarks_cons in *. rewrite <- Hmarks in Ho.
    rewrite <- app_assoc, app_assoc in Ho. rewrite app_assoc.
    apply ordered_dup; [done|done|]. rewrite last_app. by rewrite Hm.
  - by apply kin_kin_key.
  - rewrite !nelems_app, !nelems_cons, <- Helems. by rewrite <- app_assoc.
  - lia.
  - rewrite !ncount_app, !ncount_cons. lia.
  - rewrite !length_app. cbn. lia.
Qed.

(** ** What an insertion below a block gives *)
Definition insert_ok (key : K) (data : V) (E : list (K * V)) b (it : option tree_it) : Prop :=
  exists j A B, it = Some j /\ E = A ++ B /\ points_at (tree_leaves b) j A (key, data) B /\
    (forall x, x ∈ A -> compar x.1 key = true) /\ (forall x, x ∈ B -> compar key x.1 = true).

Definition insert_dup (key : K) (E : list (K * V)) b (it : option tree_it) : Prop :=
  it = None /\ tree_elems b = E /\ exists x, x ∈ E /\ key_equal compar x.1 key = true.

Definition insert_outcome (key : K) (data : V) (E : list (K * V)) (rv : Z) b it (nomem : Prop) : Prop :=
  (rv = 0 /\ insert_ok key data E b it) \/
  (rv = NGTCP2_ERR_INVALID_ARGUMENT /\ insert_dup key E b it) \/
  (rv = NGTCP2_ERR_NOMEM /\ it = None /\ tree_elems b = E /\ nomem).

Record inserted (h : nat) (key : K) (data : V) (avail : nat) b (r : tree_insertion (K := K) (V := V)) : Prop := {
  ins_shape : shape h r.1.1.2;
  ins_ordered : ordered (marks r.1.1.2);
  ins_kin : kin_key key (marks b) (marks r.1.1.2);
  ins_n : (tree_n b <= tree_n r.1.1.2)%nat;
  ins_avail : (avail <= r.1.2 + h)%nat;
  ins_count : (r.1.2 + tree_count r.1.1.2 = avail + tree_count b)%nat;
  ins_outcome : insert_outcome key data (tree_elems b) r.1.1.1 r.1.1.2 r.2 (avail < h)%nat;
}.

(** From a child to its block. *)
Lemma insert_outcome_node h P k c c' Q key data rv it (nomem : Prop) :
  nodes_ok h P -> nodes_ok h Q ->
  before compar key (nmarks P) -> after compar key (nmarks Q) ->
  insert_outcome key data (tree_elems c) rv c' it nomem ->
  insert_outcome key data (nelems (P ++ (k, c) :: Q)) rv (TNode (P ++ (k, c') :: Q))
    (match it with
     | Some it => Some (mk_tit (length (nleaves P) + tit_leaf it) (tit_i it))
     | None => None
     end) nomem.
Proof.
  intros HP HQ HbP HaQ. rewrite nelems_app, nelems_cons.
  intros [[-> (j & A & B & -> & HE & Hp & HA & HB)]|[(-> & -> & He & Hd)|(-> & -> & He & Hm)]].
  - left. split; [done|]. exists (mk_tit (length (nleaves P) + tit_leaf j) (tit_i j)), (nelems P ++ A), (B ++ nelems Q).
    split_and!; [done|by rewrite HE, <- !app_assoc|by apply points_at_node| |].
    + intros x. rewrite elem_of_app. intros [Hx|?]; [|auto].
      apply (HbP (ME x.1)), (nelems_mark h); [done|]. by apply list_elem_of_fmap_2.
    + intros x. rewrite elem_of_app. intros [?|Hx]; [auto|].
      apply (HaQ (ME x.1)), (nelems_mark h); [done|]. by apply list_elem_of_fmap_2.
  - right; left. unfold insert_dup. rewrite elems_node, nelems_app, nelems_cons, He.
    split_and!; try done. destruct Hd as (x & Hx & Heq). exists x. rewrite !elem_of_app. auto.
  - right; right. by rewrite elems_node, nelems_app, nelems_cons, He.
Qed.

Lemma inserted_node h P k c Q key data avail0 avail l0 f :
  shape (S h) (TNode l0) -> (length l0 < NGTCP2_KSL_MAX_NBLK)%nat ->
  prepared h key l0 avail0 (P ++ (k, c) :: Q) avail ->
  before compar key (nmarks P) -> compar k key = false ->
  (exists r, f c = Ok r /\ inserted h key data avail c r) ->
  exists r', tree_in_child (P ++ (k, c) :: Q) (length P) f = Ok r' /\
    inserted (S h) key data avail0 (TNode l0) r'.
Proof.
  intros [[H2 _] _]%shape_node Hmax [Hok Hord Hkin Hel Hav Hcount Hlen] HbP Hk (r & Hf & Hr).
  destruct r as [[[rv c'] avail'] it]. rewrite in_child_eq, Hf. cbn. eexists. split; [reflexivity|].
  destruct Hr as [Hs Ho Hkc Hn Ha Hc Hout]. cbn in *.
  rewrite nmarks_app, nmarks_cons in Hord.
  assert (HaQ : after compar key (MS k :: nmarks Q)).
  { apply StronglySorted_app in Hord as (_ & _ & H). apply StronglySorted_app in H as (_ & _ & H).
    by apply after_sep. }
  apply Forall_app in Hok as [HokP Hok]. apply Forall_cons_iff in Hok as [[Hsc Hnc] HokQ].
  cbn in Hsc, Hnc.
  split; cbn [fst snd tree_n].
  - apply shape_node. rewrite length_app in *. cbn [length] in *. split; [nblk|].
    apply Forall_app. split; [done|]. constructor; [|done]. cbn. split; [done|lia].
  - rewrite marks_node, nmarks_app, nmarks_cons.
    apply (ordered_replace_key compar key _ (marks c)); try done.
  - rewrite !marks_node. eapply kin_key_trans; [exact Hkin|].
    rewrite !nmarks_app, !nmarks_cons. by apply kin_key_app.
  - rewrite length_app in *. cbn [length] in *. lia.
  - lia.
  - rewrite !count_node. rewrite ncount_app, ncount_cons in *. lia.
  - rewrite elems_node, Hel.
    assert (HaQ' : after compar key (nmarks Q)) by (intros m Hm; apply HaQ, elem_of_cons; by right).
    destruct (insert_outcome_node h P k c c' Q key data rv it _ HokP HokQ HbP HaQ' Hout)
      as [?|[?|(? & ? & ? & ?)]]; [by left|by right; left|right; right].
    split_and!; [done..|lia].
Qed.

Lemma inserted_leaf (l1 l2 : list (K * V)) key data avail :
  ordered (marks (TLeaf (l1 ++ l2))) -> (length (l1 ++ l2) < NGTCP2_KSL_MAX_NBLK)%nat ->
  before compar key (marks (TLeaf l1)) -> after compar key (marks (TLeaf l2)) ->
  inserted 0 key data avail (TLeaf (l1 ++ l2))
    (0, TLeaf (l1 ++ (key, data) :: l2), avail, Some (mk_tit 0 (length l1))).
Proof.
  cbn [marks]. rewrite map_app. intros Ho Hl Hb Ha. rewrite length_app in Hl.
  split; cbn [fst snd shape tree_n marks tree_count].
  - rewrite length_app. cbn [length]. nblk.
  - rewrite map_app. cbn. apply (ordered_replace_key compar key _ [] [ME key]); try done.
    + repeat constructor.
    + intros m. rewrite list_elem_of_singleton. intros ->. by right; right.
  - rewrite !map_app. cbn. apply (kin_key_app key _ [] [ME key]).
    intros m. rewrite list_elem_of_singleton. intros ->. by right; right.
  - rewrite !length_app. cbn. lia.
  - lia.
  - lia.
  - left. split; [done|]. rewrite elems_leaf. exists (mk_tit 0 (length l1)), l1, l2.
    split_and!; [done|done|apply points_at_leaf| |].
    + intros x Hx. apply (Hb (ME x.1)). apply list_elem_of_fmap. eauto.
    + intros x Hx. apply (Ha (ME x.1)). apply list_elem_of_fmap. eauto.
Qed.

Lemma not_inserted h key data avail b rv :
  shape h b -> ordered (marks b) ->
  (rv = NGTCP2_ERR_NOMEM /\ avail < h)%nat \/
  (rv = NGTCP2_ERR_INVALID_ARGUMENT /\ exists x, x ∈ tree_elems b /\ key_equal compar x.1 key = true) ->
  inserted h key data avail b (rv, b, avail, None).
Proof.
  intros Hs Ho Hrv. split; cbn [fst snd]; try done; try lia.
  - apply kin_kin_key, kin_refl.
  - destruct Hrv as [[-> ?]|[-> ?]]; [right; right|right; left]; done.
Qed.

Lemma set_nth_key_last P k c key : tree_set_nth_key (P ++ [(k, c)]) (length P) key = Ok (P ++ [(key, c)]).
Proof.
  unfold tree_set_nth_key. rewrite list_lookup_middle by done.
  by rewrite insert_app_r_alt, Nat.sub_diag by done.
Qed.

(** A larger inner key at the end. *)
Lemma prepared_last_key h key l0 avail0 P k c avail :
  prepared h key l0 avail0 (P ++ [(k, c)]) avail -> before compar key (nmarks (P ++ [(k, c)])) ->
  prepared h key l0 avail0 (P ++ [(key, c)]) avail.
Proof.
  intros [Hok Ho Hkin Hel Hav Hcount Hlen] Hb.
  assert (Hkey : kin_key key [MS k] [MS key])
    by (intros m; rewrite list_elem_of_singleton; intros ->; by right; right).
  rewrite !nmarks_app, !nmarks_cons, !app_assoc in *. split.
  - apply Forall_app in Hok as [? [? _]%Forall_cons_iff]. apply Forall_app. split; [done|].
    by constructor.
  - rewrite nmarks_app, nmarks_cons, app_assoc.
    apply (ordered_replace_key compar key _ [MS k] [MS key] []); try done.
    + repeat constructor.
    + intros m Hm. apply Hb. rewrite elem_of_app. by left.
    + intros m. by rewrite elem_of_nil.
  - eapply kin_key_trans; [exact Hkin|]. rewrite nmarks_app, nmarks_cons, app_assoc.
    apply (kin_key_app key _ [MS k] [MS key] []), Hkey.
  - by rewrite Hel, !nelems_app.
  - done.
  - rewrite !ncount_app in *. done.
  - rewrite !length_app in *. done.
Qed.

(** The last node of an inner block. *)
Lemma shape_last h l : shape (S h) (TNode l) -> exists P k c, l = P ++ [(k, c)].
Proof.
  rewrite shape_node. intros [Hl Hok]. destruct l as [|x l] using rev_ind; [cbn in Hl; lia|].
  destruct x as [k c]. by exists l, k, c.
Qed.

Definition insert_last_spec (h : nat) : Prop :=
  forall avail b key data,
  shape h b -> (tree_n b < NGTCP2_KSL_MAX_NBLK)%nat -> ordered (marks b) ->
  before compar key (marks b) ->
  exists r, tree_insert_last h avail b key data = Ok r /\ inserted h key data avail b r.

Lemma insert_last_child h key data avail0 l0 P k c avail :
  insert_last_spec h ->
  shape (S h) (TNode l0) -> (length l0 < NGTCP2_KSL_MAX_NBLK)%nat ->
  prepared h key l0 avail0 (P ++ [(k, c)]) avail ->
  before compar key (nmarks (P ++ [(k, c)])) -> (tree_n c < NGTCP2_KSL_MAX_NBLK)%nat ->
  exists r, (let* l := tree_set_nth_key (P ++ [(k, c)]) (length (P ++ [(k, c)]) - 1) key in
             tree_in_child l (length l - 1) (fun b => tree_insert_last h avail b key data)) = Ok r /\
    inserted (S h) key data avail0 (TNode l0) r.
Proof.
  intros IH Hs Hl Hpre Hb Hn.
  rewrite length_app, Nat.add_sub, set_nth_key_last. cbn [bind]. rewrite length_app, Nat.add_sub.
  apply (inserted_node h P key c [] key data avail0 avail); try done.
  - by eapply prepared_last_key.
  - rewrite nmarks_app in Hb. by apply before_app in Hb as [? _].
  - apply less_irrefl.
  - destruct Hpre as [Hok Ho _ _ _ _ _]. apply IH; [by eapply nodes_child|done|by eapply ordered_child|].
    rewrite nmarks_app, nmarks_cons, !before_app in Hb. by destruct Hb as (_ & ? & _).
Qed.

Lemma insert_last_ok h : insert_last_spec h.
Proof.
  induction h as [|h IH]; intros avail [l|l] key data Hs Hn Ho Hb; try done.
  - cbn [tree_insert_last]. unfold ksl_insert_node. cbn [tree_n] in Hn.
    rewrite (proj2 (Nat.ltb_lt _ _) Hn). cbn [bind]. rewrite firstn_all, skipn_all.
    eexists. split; [reflexivity|].
    pose proof (inserted_leaf l [] key data avail) as H. rewrite app_nil_r in H.
    apply H; try done. intros m. by rewrite elem_of_nil.
  - destruct (shape_last h l Hs) as (P & k & c & ->). cbn [tree_n] in Hn.
    pose proof Hs as [_ Hok]%shape_node. rewrite marks_node in Ho, Hb.
    cbn [tree_insert_last]. rewrite length_app, Nat.add_sub.
    destruct (split_full_ok h key P k c [] avail Hok Ho)
      as [Ha|Hnf|lk bl br avail' Hfull Hnl Hnr Hkin Hpre]; cbn [bind].
    + eexists. split; [reflexivity|]. apply not_inserted; [done|done|left; split; [done|lia]].
    + apply insert_last_child; try done. by apply prepared_refl.
    + replace (P ++ [(lk, bl); (k, br)]) with ((P ++ [(lk, bl)]) ++ [(k, br)]) in *
        by (by rewrite <- app_assoc).
      apply insert_last_child; try done. by eapply before_kin.
Qed.

(** ** The general way down *)
Definition insert_blk_spec (h : nat) : Prop :=
  forall avail b key data,
  shape h b -> (tree_n b < NGTCP2_KSL_MAX_NBLK)%nat -> ordered (marks b) ->
  exists r, tree_insert_blk compar h avail b key data = Ok r /\ inserted h key data avail b r.

(** [before] up to an inner key that is before [key]. *)
Lemma before_snoc P k c Q key :
  ordered (nmarks (P ++ (k, c) :: Q)) -> compar k key = true -> before compar key (nmarks (P ++ [(k, c)])).
Proof.
  intros Ho Hk. rewrite nmarks_app, nmarks_cons, app_assoc. apply before_sep; [done| |done].
  rewrite nmarks_app, nmarks_cons in Ho.
  change (MS k :: nmarks Q) with ([MS k] ++ nmarks Q) in Ho. rewrite !app_assoc in Ho.
  by apply StronglySorted_app in Ho as (_ & ? & _).
Qed.

Lemma insert_blk_leaf avail (l : list (K * V)) key data :
  shape 0 (TLeaf l) -> (length l < NGTCP2_KSL_MAX_NBLK)%nat -> ordered (marks (TLeaf l)) ->
  exists r, tree_insert_blk compar 0 avail (TLeaf l) key data = Ok r /\ inserted 0 key data avail (TLeaf l) r.
Proof.
  intros Hs Hn Ho. cbn [tree_insert_blk tree_keys]. set (i := search compar l.*1 key).
  pose proof (leaf_before compar l key) as Hb. fold i in Hb.
  assert (Hins : after compar key (marks (TLeaf (drop i l))) ->
    exists r, (let* nodes := ksl_insert_node l i key data in Ok (0, TLeaf nodes, avail, Some (mk_tit 0 i))) = Ok r
      /\ inserted 0 key data avail (TLeaf l) r).
  { intros Ha. unfold ksl_insert_node. rewrite (proj2 (Nat.ltb_lt _ _) Hn). cbn [bind].
    eexists. split; [reflexivity|].
    pose proof (inserted_leaf (take i l) (drop i l) key data avail) as H.
    rewrite take_drop, length_take_le in H by (subst i; pose proof (search_le compar l.*1 key); rewrite length_fmap in *; lia).
    by apply H. }
  destruct (l.*1 !! i) as [k|] eqn:Hk; [destruct (compar key k) eqn:Hck; cbn [negb]|].
  - apply Hins. by apply (leaf_after compar l key k).
  - eexists. split; [reflexivity|]. apply not_inserted; [done|done|]. right. split; [done|].
    rewrite elems_leaf. rewrite list_lookup_fmap in Hk.
    destruct (l !! i) as [x|] eqn:Hl; [|done]. injection Hk as <-. exists x.
    split; [by eapply list_elem_of_lookup_2|]. unfold key_equal. rewrite Hck.
    rewrite (search_at compar l.*1 key x.1); [done|]. fold i. by rewrite list_lookup_fmap, Hl.
  - apply Hins. apply lookup_ge_None in Hk. rewrite length_fmap in Hk. rewrite drop_ge by done.
    intros m. cbn. by rewrite elem_of_nil.
Qed.

Lemma insert_blk_ok h : insert_blk_spec h.
Proof.
  induction h as [|h IH]; intros avail [l|l] key data Hs Hn Ho; try done; [by apply insert_blk_leaf|].
  cbn [tree_n] in Hn. pose proof Hs as [_ Hok]%shape_node. rewrite marks_node in Ho.
  cbn [tree_insert_blk tree_keys]. destruct (search_split compar l key) as [Hi|(P & k & c & Q & -> & Hi & Hk)].
  { rewrite Hi, Nat.eqb_refl. apply insert_last_ok; [done..|]. rewrite marks_node.
    pose proof (search_before compar l key Ho) as H. by rewrite Hi, firstn_all in H. }
  pose proof (search_prefix compar P k c Q key Ho Hi) as Hb.
  rewrite Hi, list_lookup_middle by done.
  rewrite (proj2 (Nat.eqb_neq _ _)) by (rewrite length_app; cbn; lia).
  destruct (split_full_ok h key P k c Q avail Hok Ho)
    as [Ha|Hnf|lk bl br avail' Hfull Hnl Hnr Hkin Hpre]; cbn [bind].
  - eexists. split; [reflexivity|]. apply not_inserted; [done|done|left; split; [done|lia]].
  - rewrite (proj2 (Nat.eqb_neq _ _)) by lia. cbn [andb].
    eapply inserted_node; try done; [by apply prepared_refl|].
    apply IH; [by eapply nodes_child|done|by eapply ordered_child].
  - rewrite Hfull, Nat.eqb_refl, list_lookup_fmap, list_lookup_middle by done. cbn [fmap option_fmap option_map andb fst].
    pose proof Hpre as [Hok' Ho' _ _ _ _ _].
    destruct (compar lk key) eqn:Hlk.
    + assert (E : P ++ (lk, bl) :: (k, br) :: Q = (P ++ [(lk, bl)]) ++ (k, br) :: Q)
        by (by rewrite <- app_assoc).
      assert (EP : S (length P) = length (P ++ [(lk, bl)])) by (rewrite length_app; cbn; lia).
      rewrite EP. pose proof (before_snoc P lk bl _ key Ho' Hlk) as Hb'. rewrite E in *.
      eapply inserted_node; try done.
      apply IH; [by eapply nodes_child|done|by eapply ordered_child].
    + eapply inserted_node; try done.
      apply IH; [by eapply nodes_child|done|by eapply ordered_child].
Qed.
End Insert.
