(* ===== verification/KslRemove.v ===== *)
(** * Ordered map: removal

    Before a removal goes down to a child it makes sure that the child has a
    node to spare, by shifting nodes from a sibling or by merging with one.
    [prepare_child_ok] shows that this keeps the elements, the order and the
    shape, [remove_blk_ok] that a removal takes out the element with the key
    and leaves the iterator behind it. *)

From S2P Require Import Prelude Const Ksl KslTree KslInv.
From stdpp Require Import list sorting.
#[local] Open Scope Z_scope.
#[local] Set Warnings "-clear-no-such-hyp".

(** Membership in a sequence of marks, part by part. *)
Ltac mark_in := repeat (rewrite elem_of_app || rewrite elem_of_cons || rewrite elem_of_nil).

Section Remove.
Context {K V : Type} (compar : K -> K -> bool) `{!StrictWeakOrder compar}.
Abbreviation blk := (ktree K V).
Implicit Types (b c : blk) (l P Q : list (K * blk)) (k key : K) (i avail : nat).
Abbreviation ordered := (StronglySorted (R compar)).

Lemma child_middle P k c Q : tree_child (P ++ (k, c) :: Q) (length P) = Ok c.
Proof. unfold tree_child. by rewrite list_lookup_middle. Qed.

Lemma child_next P k c k' c' Q : tree_child (P ++ (k, c) :: (k', c') :: Q) (S (length P)) = Ok c'.
Proof.
  pose proof (child_middle (P ++ [(k, c)]) k' c' Q) as H. rewrite length_app, <- app_assoc in H.
  cbn in H. by rewrite Nat.add_1_r in H.
Qed.

Lemma drop_next P k c k' c' Q :
  drop (S (S (length P))) (P ++ (k, c) :: (k', c') :: Q) = Q.
Proof.
  replace (S (S (length P))) with (length P + 2)%nat by lia. by rewrite drop_app_add.
Qed.

Lemma set_pair_eq P lk bl rk br Q bl' br' k :
  tree_last_key bl' = Ok k ->
  tree_set_pair (P ++ (lk, bl) :: (rk, br) :: Q) (length P) bl' br' = Ok (P ++ (k, bl') :: (rk, br') :: Q).
Proof.
  intros Hk. unfold tree_set_pair.
  replace ((P ++ (lk, bl) :: (rk, br) :: Q) !! S (length P)) with (Some (rk, br)).
  - rewrite Hk. cbn [bind]. by rewrite take_app_length, drop_next.
  - rewrite lookup_app_r by lia. by replace (S (length P) - length P)%nat with 1%nat by lia.
Qed.

(** Two neighbours whose contents have been redistributed. *)
Record shifted (h : nat) P (lk : K) bl (rk : K) br Q (k : K) bl' br' : Prop := {
  sh_ok : nodes_ok h (P ++ (k, bl') :: (rk, br') :: Q);
  sh_ordered : ordered (nmarks (P ++ (k, bl') :: (rk, br') :: Q));
  sh_kin : kin (nmarks (P ++ (lk, bl) :: (rk, br) :: Q)) (nmarks (P ++ (k, bl') :: (rk, br') :: Q));
  sh_elems : nelems (P ++ (lk, bl) :: (rk, br) :: Q) = nelems (P ++ (k, bl') :: (rk, br') :: Q);
  sh_count : ncount (P ++ (lk, bl) :: (rk, br) :: Q) = ncount (P ++ (k, bl') :: (rk, br') :: Q);
}.

(** The marks of a pair of neighbours, with and without the inner key between
    them. *)
Lemma nmarks_pair P lk bl rk br Q :
  nmarks (P ++ (lk, bl) :: (rk, br) :: Q) =
    nmarks P ++ (marks bl ++ MS lk :: marks br) ++ MS rk :: nmarks Q.
Proof. rewrite nmarks_app, !nmarks_cons, <- app_assoc. done. Qed.

Lemma kin_drop (M1 : list (@mark K)) m M2 : kin (M1 ++ m :: M2) (M1 ++ M2).
Proof. intros x. rewrite !elem_of_app, elem_of_cons. tauto. Qed.

Lemma shifted_intro h P lk bl rk br Q k bl' br' :
  nodes_ok h (P ++ (lk, bl) :: (rk, br) :: Q) -> ordered (nmarks (P ++ (lk, bl) :: (rk, br) :: Q)) ->
  nodes_ok h [(k, bl'); (rk, br')] ->
  marks bl ++ marks br = marks bl' ++ marks br' -> tree_elems bl ++ tree_elems br = tree_elems bl' ++ tree_elems br' ->
  (tree_count bl + tree_count br = tree_count bl' + tree_count br')%nat ->
  tree_last_key bl' = Ok k -> shifted h P lk bl rk br Q k bl' br'.
Proof.
  intros Hok Ho Hok' Hm He Hc Hk. destruct (last_key_mark bl' k Hk) as (m & Hl & <-).
  assert (Hkin : kin (marks bl ++ MS lk :: marks br) (marks bl' ++ MS (mkey m) :: marks br')).
  { eapply kin_trans; [apply kin_drop|]. rewrite Hm. intros x.
    rewrite !elem_of_app, elem_of_cons. intros [?|[->|?]]; [auto| |auto]. right. exists m.
    apply last_Some_elem_of in Hl. rewrite elem_of_app. auto. }
  split.
  - apply Forall_app in Hok as [HP Hok]. do 2 apply Forall_cons_iff in Hok as [_ Hok].
    apply Forall_app. split; [done|]. apply Forall_cons_iff in Hok' as [? Hok'].
    apply Forall_cons_iff in Hok' as [? _]. constructor; [done|]. by constructor.
  - rewrite nmarks_pair in *. eapply ordered_replace; [done|exact Ho| |exact Hkin].
    apply StronglySorted_app in Ho as (_ & _ & (_ & Ho & _)%StronglySorted_app).
    apply ordered_drop in Ho. rewrite Hm in Ho. by apply ordered_dup.
  - rewrite !nmarks_pair. by apply kin_app.
  - rewrite !nelems_app, !nelems_cons. f_equal. by rewrite !app_assoc, He.
  - rewrite !ncount_app, !ncount_cons. lia.
Qed.

(** How many nodes a shift moves. *)
Lemma shift_count (m n : nat) :
  m = NGTCP2_KSL_MIN_NBLK -> (NGTCP2_KSL_MIN_NBLK < n <= NGTCP2_KSL_MAX_NBLK)%nat ->
  let d := ((m + n + 1) / 2 - m)%nat in
  (0 < d /\ m + d <= NGTCP2_KSL_MAX_NBLK /\ NGTCP2_KSL_MIN_NBLK + d <= n)%nat.
Proof.
  intros -> Hn d. subst d.
  pose proof (Nat.div_mod_eq (NGTCP2_KSL_MIN_NBLK + n + 1) 2).
  pose proof (Nat.mod_upper_bound (NGTCP2_KSL_MIN_NBLK + n + 1) 2). nblk.
Qed.

Lemma pair_ok h P lk bl rk br Q :
  nodes_ok h (P ++ (lk, bl) :: (rk, br) :: Q) ->
  shape h bl /\ shape h br /\ (NGTCP2_KSL_MIN_NBLK <= tree_n bl <= NGTCP2_KSL_MAX_NBLK)%nat /\
    (NGTCP2_KSL_MIN_NBLK <= tree_n br <= NGTCP2_KSL_MAX_NBLK)%nat.
Proof.
  intros [_ [[Hl ?] [[Hr ?] _]%Forall_cons_iff]%Forall_cons_iff]%Forall_app. cbn in Hl, Hr.
  pose proof (shape_max h bl Hl). pose proof (shape_max h br Hr). done.
Qed.

Lemma pair_nodes_ok h k rk (bl br : blk) :
  shape h bl -> shape h br -> (NGTCP2_KSL_MIN_NBLK <= tree_n bl)%nat -> (NGTCP2_KSL_MIN_NBLK <= tree_n br)%nat ->
  nodes_ok h [(k, bl); (rk, br)].
Proof. intros. constructor; [done|]. constructor; [done|constructor]. Qed.

Lemma shift_left_ok h P lk bl rk br Q :
  nodes_ok h (P ++ (lk, bl) :: (rk, br) :: Q) -> ordered (nmarks (P ++ (lk, bl) :: (rk, br) :: Q)) ->
  tree_n bl = NGTCP2_KSL_MIN_NBLK -> (NGTCP2_KSL_MIN_NBLK < tree_n br)%nat ->
  exists k bl' br', tree_shift_left (P ++ (lk, bl) :: (rk, br) :: Q) (S (length P)) =
      Ok (P ++ (k, bl') :: (rk, br') :: Q) /\
    shifted h P lk bl rk br Q k bl' br' /\ (NGTCP2_KSL_MIN_NBLK < tree_n bl')%nat /\
    exists mv, marks br = mv ++ marks br'.
Proof.
  intros Hok Ho Hnl Hnr. destruct (pair_ok _ _ _ _ _ _ _ Hok) as (Hsl & Hsr & ? & ?).
  pose proof (shift_count (tree_n bl) (tree_n br) Hnl) as Hn. cbn zeta in Hn.
  set (n := ((tree_n bl + tree_n br + 1) / 2 - tree_n bl)%nat) in *.
  destruct Hn as (Hn0 & Hnmax & Hnmin); [lia|].
  assert (Htake : tree_n (tree_take n br) = n) by (apply blk_n_take; lia).
  pose proof (blk_n_drop n br) as Hdrop.
  destruct (blk_app_ok h bl (tree_take n br)) as (bl' & Happ & Hsl' & Hml & Hel & Hnl' & Hcl);
    [by apply shape_part|by apply part_take, shape_part|nblk|].
  assert (Hsr' : shape h (tree_drop n br)) by (apply part_shape; [by apply part_drop, shape_part|nblk]).
  destruct (last_key_ok bl') as [k Hk]; [nblk|].
  exists k, bl', (tree_drop n br). split_and!; [| |nblk|].
  - unfold tree_shift_left. replace (S (length P) - 1)%nat with (length P) by lia.
    rewrite child_middle, child_next. cbn [bind]. fold n. nbool. rewrite Happ. cbn [bind].
    by apply set_pair_eq.
  - apply shifted_intro; try done.
    + apply pair_nodes_ok; try done; nblk.
    + rewrite Hml, <- app_assoc. by rewrite marks_take_drop.
    + rewrite Hel, <- app_assoc. by rewrite elems_take_drop.
    + pose proof (count_take_drop n br). lia.
  - exists (marks (tree_take n br)). by rewrite marks_take_drop.
Qed.

Lemma shift_right_ok h P lk bl rk br Q :
  nodes_ok h (P ++ (lk, bl) :: (rk, br) :: Q) -> ordered (nmarks (P ++ (lk, bl) :: (rk, br) :: Q)) ->
  tree_n br = NGTCP2_KSL_MIN_NBLK -> (NGTCP2_KSL_MIN_NBLK < tree_n bl)%nat ->
  exists k bl' br', tree_shift_right (P ++ (lk, bl) :: (rk, br) :: Q) (length P) =
      Ok (P ++ (k, bl') :: (rk, br') :: Q) /\
    shifted h P lk bl rk br Q k bl' br' /\ (NGTCP2_KSL_MIN_NBLK < tree_n br')%nat /\
    tree_last_key bl' = Ok k /\ exists mv, marks bl = marks bl' ++ mv.
Proof.
  intros Hok Ho Hnr Hnl. destruct (pair_ok _ _ _ _ _ _ _ Hok) as (Hsl & Hsr & ? & ?).
  pose proof (shift_count (tree_n br) (tree_n bl) Hnr) as Hn. cbn zeta in Hn.
  rewrite (Nat.add_comm (tree_n br)) in Hn.
  set (n := ((tree_n bl + tree_n br + 1) / 2 - tree_n br)%nat) in *.
  destruct Hn as (Hn0 & Hnmax & Hnmin); [lia|]. set (m := (tree_n bl - n)%nat).
  assert (Htake : tree_n (tree_take m bl) = m) by (apply blk_n_take; lia).
  pose proof (blk_n_drop m bl) as Hdrop.
  destruct (blk_app_ok h (tree_drop m bl) br) as (br' & Happ & Hsr' & Hmr & Her & Hnr' & Hcr);
    [by apply part_drop, shape_part|by apply shape_part|nblk|].
  assert (Hsl' : shape h (tree_take m bl)) by (apply part_shape; [by apply part_take, shape_part|nblk]).
  destruct (last_key_ok (tree_take m bl)) as [k Hk]; [nblk|].
  exists k, (tree_take m bl), br'. split_and!; [| |nblk|done|].
  - unfold tree_shift_right. rewrite child_middle, child_next. cbn [bind]. fold n.
    rewrite length_app. cbn [length]. nbool. fold m. rewrite Happ. cbn [bind]. by apply set_pair_eq.
  - apply shifted_intro; try done.
    + apply pair_nodes_ok; try done; nblk.
    + rewrite Hmr, app_assoc. by rewrite marks_take_drop.
    + rewrite Her, app_assoc. by rewrite elems_take_drop.
    + pose proof (count_take_drop m bl). lia.
  - exists (marks (tree_drop m bl)). by rewrite marks_take_drop.
Qed.

(** Two neighbours made one. *)
Record merged (h : nat) P (lk : K) bl (rk : K) br Q (k : K) c : Prop := {
  mg_ok : nodes_ok h (P ++ (k, c) :: Q);
  mg_ordered : ordered (nmarks (P ++ (k, c) :: Q));
  mg_kin : kin (nmarks (P ++ (lk, bl) :: (rk, br) :: Q)) (nmarks (P ++ (k, c) :: Q));
  mg_elems : nelems (P ++ (lk, bl) :: (rk, br) :: Q) = nelems (P ++ (k, c) :: Q);
  mg_count : ncount (P ++ (lk, bl) :: (rk, br) :: Q) = S (ncount (P ++ (k, c) :: Q));
}.

Lemma merge_ok is_root h P lk bl rk br Q :
  nodes_ok h (P ++ (lk, bl) :: (rk, br) :: Q) -> ordered (nmarks (P ++ (lk, bl) :: (rk, br) :: Q)) ->
  tree_n bl = NGTCP2_KSL_MIN_NBLK -> tree_n br = NGTCP2_KSL_MIN_NBLK ->
  exists k c, tree_merge_node is_root (P ++ (lk, bl) :: (rk, br) :: Q) (length P) =
      Ok (c, if is_root && (length (P ++ (lk, bl) :: (rk, br) :: Q) =? 2)%nat then None
             else Some (P ++ (k, c) :: Q)) /\
    merged h P lk bl rk br Q k c /\ tree_n c = NGTCP2_KSL_MAX_NBLK.
Proof.
  intros Hok Ho Hnl Hnr. destruct (pair_ok _ _ _ _ _ _ _ Hok) as (Hsl & Hsr & ? & ?).
  destruct (blk_app_ok h bl br) as (c & Happ & Hs & Hm & He & Hn & Hc);
    [by apply shape_part|by apply shape_part|nblk|].
  destruct (last_key_ok c) as [k Hk]; [nblk|].
  destruct (last_key_mark c k Hk) as (m & Hl & Hmk).
  exists k, c. split_and!; [| |nblk].
  - unfold tree_merge_node. rewrite child_middle, child_next. cbn [bind].
    rewrite (proj2 (Nat.ltb_lt _ _)) by (rewrite length_app; cbn; lia). nbool. rewrite Happ. cbn [bind].
    destruct (is_root && _); [done|]. rewrite Hk. cbn [bind]. by rewrite take_app_length, drop_next.
  - assert (Hkin : kin (marks bl ++ MS lk :: marks br ++ [MS rk]) (marks c ++ [MS k])).
    { rewrite Hm. intros x. mark_in. intros [[?|?]|[->|[]]]; [auto..|]. right. exists m.
      rewrite Hmk. split; [|done]. apply last_Some_elem_of in Hl. rewrite Hm in Hl. apply elem_of_app in Hl.
      mark_in. tauto. }
    assert (Hnm : nmarks (P ++ (lk, bl) :: (rk, br) :: Q) =
      nmarks P ++ (marks bl ++ MS lk :: marks br ++ [MS rk]) ++ nmarks Q)
      by (rewrite nmarks_pair, <- !app_assoc; cbn; by rewrite <- app_assoc).
    assert (Hnm' : nmarks (P ++ (k, c) :: Q) = nmarks P ++ (marks c ++ [MS k]) ++ nmarks Q)
      by (rewrite nmarks_app, nmarks_cons, <- app_assoc; done).
    split.
    + apply Forall_app in Hok as [HP [_ [_ HQ]%Forall_cons_iff]%Forall_cons_iff].
      apply Forall_app. split; [done|]. constructor; [|done]. cbn. split; [done|nblk].
    + rewrite Hnm'. rewrite Hnm in Ho. eapply ordered_replace; [done|exact Ho| |exact Hkin].
      apply StronglySorted_app in Ho as (_ & _ & (_ & Ho & _)%StronglySorted_app).
      apply ordered_drop in Ho. rewrite app_assoc, <- Hm in Ho.
      apply StronglySorted_app in Ho as (_ & Ho & _).
      rewrite <- Hmk. apply ordered_dup; rewrite ?app_nil_r; done.
    + rewrite Hnm, Hnm'. by apply kin_app.
    + rewrite !nelems_app, !nelems_cons. by rewrite He, <- app_assoc.
    + rewrite !ncount_app, !ncount_cons. lia.
Qed.

(** ** The way down *)

(** Child [c] of the nodes [P ++ (k, c) :: Q] has a node to spare, [key] is
    behind [P] and before [Q]. *)
Record ready (h : nat) (key : K) l0 P k c Q freed : Prop := {
  rd_ok : nodes_ok h (P ++ (k, c) :: Q);
  rd_ordered : ordered (nmarks (P ++ (k, c) :: Q));
  rd_kin : kin (nmarks l0) (nmarks (P ++ (k, c) :: Q));
  rd_elems : nelems l0 = nelems (P ++ (k, c) :: Q);
  rd_count : (freed + ncount (P ++ (k, c) :: Q) = ncount l0)%nat;
  rd_length : (length (P ++ (k, c) :: Q) <= length l0 <= S (length (P ++ (k, c) :: Q)))%nat;
  rd_before : before compar key (nmarks P);
  rd_after : after compar key (nmarks Q);
  rd_spare : (NGTCP2_KSL_MIN_NBLK < tree_n c)%nat;
}.

Inductive prepare_result (is_root : bool) (h : nat) (key : K) l0
    : res (list (K * blk) * nat * nat + blk) -> Prop :=
| prepare_ready P k c Q freed :
    (is_root && (length l0 =? 2)%nat = true -> freed = 0%nat) -> (freed <= 1)%nat ->
    (length l0 = (freed + length (P ++ (k, c) :: Q))%nat) ->
    ready h key l0 P k c Q freed ->
    prepare_result is_root h key l0 (Ok (inl (P ++ (k, c) :: Q, length P, freed)))
| prepare_root m :
    is_root = true -> shape h m -> ordered (marks m) -> kin (nmarks l0) (marks m) ->
    nelems l0 = tree_elems m -> (1 + ncount l0 = 2 + tree_count m)%nat ->
    prepare_result is_root h key l0 (Ok (inr m)).

(** The part of a sequence behind an inner key that is not before [key]. *)
Lemma after_node P k c Q key :
  ordered (nmarks (P ++ (k, c) :: Q)) -> compar k key = false -> after compar key (MS k :: nmarks Q).
Proof.
  rewrite nmarks_app, nmarks_cons. intros Ho Hk. apply after_sep; [done| |done].
  by apply StronglySorted_app in Ho as (_ & _ & (_ & _ & Ho)%StronglySorted_app).
Qed.

Lemma after_cons key m M : after compar key (m :: M) -> after compar key M.
Proof. intros H x Hx. apply H, elem_of_cons. by right. Qed.

(** Merging nodes [length P] and the next one, one of which [key] belongs
    to. *)
Lemma prepare_merge is_root h key P lk bl rk br Q :
  let l0 := P ++ (lk, bl) :: (rk, br) :: Q in
  nodes_ok h l0 -> ordered (nmarks l0) ->
  tree_n bl = NGTCP2_KSL_MIN_NBLK -> tree_n br = NGTCP2_KSL_MIN_NBLK ->
  before compar key (nmarks P) -> after compar key (nmarks Q) ->
  prepare_result is_root h key l0
    (let* (m, r) := tree_merge_node is_root l0 (length P) in
     match r with Some l => Ok (inl (l, length P, 1%nat)) | None => Ok (inr m) end).
Proof.
  intros l0 Hok Ho Hnl Hnr Hb Ha. subst l0.
  destruct (merge_ok is_root h P lk bl rk br Q Hok Ho Hnl Hnr) as (k & c & -> & [Hok' Ho' Hkin He Hc] & Hn).
  set (l0 := P ++ (lk, bl) :: (rk, br) :: Q) in *. cbn [bind]. destruct (is_root && (length l0 =? 2)%nat) eqn:Hroot.
  - apply andb_true_iff in Hroot as [Hroot Hlen%Nat.eqb_eq]. subst l0. rewrite length_app in Hlen.
    cbn in Hlen. destruct P; [|cbn in Hlen; lia]. destruct Q; [|cbn in Hlen; lia].
    rewrite !app_nil_l in *. rewrite (nmarks_cons k c []) in Ho', Hkin.
    apply prepare_root; try done.
    + by apply Forall_cons_iff in Hok' as [[? _] _].
    + by apply StronglySorted_app in Ho' as (_ & Ho' & _).
    + intros x Hx. apply Hkin, elem_of_app. by left.
    + rewrite He. unfold nelems. cbn. apply app_nil_r.
    + rewrite Hc. unfold ncount. cbn. lia.
  - apply prepare_ready; [by rewrite Hroot|lia|subst l0; rewrite !length_app; cbn; lia|]. split; try done.
    + subst l0. rewrite !length_app. cbn. lia.
    + nblk.
Qed.

Lemma length_mid P (x : K * blk) Q : length (P ++ x :: Q) = S (length P + length Q).
Proof. rewrite length_app. cbn. lia. Qed.

Lemma length_snoc P (x : K * blk) : length (P ++ [x]) = S (length P).
Proof. rewrite length_mid. cbn. lia. Qed.

Lemma lookup_next P (x y : K * blk) Q : (P ++ x :: y :: Q) !! (length P + 1)%nat = Some y.
Proof. rewrite lookup_app_r by lia. by replace (length P + 1 - length P)%nat with 1%nat by lia. Qed.

Lemma prepare_shift_left is_root h key P k c k' c' Q :
  let l0 := P ++ (k, c) :: (k', c') :: Q in
  nodes_ok h l0 -> ordered (nmarks l0) -> before compar key (nmarks P) -> compar k key = false ->
  tree_n c = NGTCP2_KSL_MIN_NBLK -> (NGTCP2_KSL_MIN_NBLK < tree_n c')%nat ->
  prepare_result is_root h key l0
    (let* l := tree_shift_left l0 (length P + 1) in Ok (inl (l, length P, 0%nat))).
Proof.
  intros l0 Hok Ho Hb Hk Hn Hn'. subst l0. rewrite Nat.add_1_r.
  destruct (shift_left_ok h P k c k' c' Q Hok Ho Hn Hn')
    as (k1 & bl & br & -> & [Hok' Ho' Hkin He Hc] & Hspare & mv & Hmv).
  cbn [bind]. apply prepare_ready; [done|lia|rewrite !length_mid; done|]. split; try done.
  - rewrite !length_mid. cbn. lia.
  - pose proof (after_node P k c ((k', c') :: Q) key Ho Hk) as Ha. rewrite nmarks_cons, Hmv in Ha.
    intros m. rewrite nmarks_cons. intros Hm. apply Ha. revert Hm. mark_in. tauto.
Qed.

Lemma prepare_shift_right is_root h key P k c k' c' Q :
  let l0 := P ++ (k, c) :: (k', c') :: Q in
  nodes_ok h l0 -> ordered (nmarks l0) -> before compar key (nmarks (P ++ [(k, c)])) ->
  compar k' key = false ->
  tree_n c' = NGTCP2_KSL_MIN_NBLK -> (NGTCP2_KSL_MIN_NBLK < tree_n c)%nat ->
  prepare_result is_root h key l0
    (let* l := tree_shift_right l0 (length P) in Ok (inl (l, S (length P), 0%nat))).
Proof.
  intros l0 Hok Ho Hb Hk Hn Hn'. subst l0.
  destruct (shift_right_ok h P k c k' c' Q Hok Ho Hn Hn')
    as (k1 & bl & br & -> & [Hok' Ho' Hkin He Hc] & Hspare & Hk1 & mv & Hmv).
  destruct (last_key_mark bl k1 Hk1) as (m & Hl & <-). cbn [bind].
  assert (E : P ++ (mkey m, bl) :: (k', br) :: Q = (P ++ [(mkey m, bl)]) ++ (k', br) :: Q)
    by (by rewrite <- app_assoc).
  assert (Hlen : S (length P) = length (P ++ [(mkey m, bl)])) by (rewrite length_app; cbn; lia).
  rewrite Hlen, E in *. rewrite <- E in Hc at 1.
  assert (E0 : P ++ (k, c) :: (k', c') :: Q = (P ++ [(k, c)]) ++ (k', c') :: Q)
    by (by rewrite <- app_assoc).
  apply prepare_ready; [done|lia|rewrite E0, !length_mid; cbn; lia|]. split; try done.
  - by rewrite Hc, E.
  - rewrite E0, !length_mid. cbn. lia.
  - rewrite nmarks_app, nmarks_cons in *. intros x. rewrite Hmv in Hb. mark_in.
    intros [?|[?|[->|[]]]]; [apply Hb; mark_in; auto..|].
    apply (R_same_key compar m); [done|]. apply Hb. mark_in. right; left; left.
    by apply last_Some_elem_of.
  - intros x Hx. rewrite E0 in Ho. apply (after_node _ _ _ _ key Ho Hk). apply elem_of_cons. by right.
Qed.

(** The block of a child. *)
Lemma child_ok h P k c Q :
  nodes_ok h (P ++ (k, c) :: Q) -> shape h c /\ (NGTCP2_KSL_MIN_NBLK <= tree_n c)%nat.
Proof. intros [_ [? _]%Forall_cons_iff]%Forall_app. done. Qed.

Lemma prepare_child_ok is_root h key P k c Q :
  let l0 := P ++ (k, c) :: Q in
  nodes_ok h l0 -> ordered (nmarks l0) -> (2 <= length l0)%nat ->
  before compar key (nmarks P) -> compar k key = false ->
  prepare_result is_root h key l0 (tree_prepare_child is_root l0 (length P)).
Proof.
  intros l0 Hok Ho Hlen Hb Hk. subst l0. destruct (child_ok _ _ _ _ _ Hok) as [Hs Hmin].
  pose proof (after_cons _ _ _ (after_node _ _ _ _ key Ho Hk)) as Ha.
  unfold tree_prepare_child. rewrite child_middle. cbn [bind].
  destruct (Nat.ltb_spec NGTCP2_KSL_MIN_NBLK (tree_n c)) as [Hc|Hc].
  { apply prepare_ready; [done|lia|done|]. split; try done; [apply kin_refl|lia]. }
  assert (Hn : tree_n c = NGTCP2_KSL_MIN_NBLK) by lia. rewrite Hn, Nat.eqb_refl.
  destruct Q as [|[k' c'] Q].
  - destruct P as [|[kp cp] P _] using rev_ind; [cbn in Hlen; lia|].
    rewrite !length_snoc.
    replace (S (length P) - 1)%nat with (length P) by lia. nbool.
    rewrite <- app_assoc in *. cbn [app] in *. rewrite list_lookup_middle by done.
    destruct (child_ok _ _ _ _ _ Hok) as [_ Hminp].
    destruct (Nat.ltb_spec NGTCP2_KSL_MIN_NBLK (tree_n cp)) as [Hp|Hp].
    + by apply prepare_shift_right.
    + apply prepare_merge; try done; [lia|]. rewrite nmarks_app in Hb. by apply before_app in Hb as [? _].
  - assert (E : P ++ (k, c) :: (k', c') :: Q = (P ++ [(k, c)]) ++ (k', c') :: Q)
      by (by rewrite <- app_assoc).
    assert (Hminq : (NGTCP2_KSL_MIN_NBLK <= tree_n c')%nat)
      by (pose proof Hok as Hok'; rewrite E in Hok'; by destruct (child_ok _ _ _ _ _ Hok')).
    rewrite length_mid, lookup_next. cbn [length]. rewrite (proj2 (Nat.ltb_lt _ _)) by lia. cbn [andb].
    destruct (Nat.ltb_spec NGTCP2_KSL_MIN_NBLK (tree_n c')) as [Hq|Hq];
      [by apply prepare_shift_left|].
    assert (Hmerge : prepare_result is_root h key (P ++ (k, c) :: (k', c') :: Q)
      (let* (m, r) := tree_merge_node is_root (P ++ (k, c) :: (k', c') :: Q) (length P) in
       match r with Some l => Ok (inl (l, length P, 1%nat)) | None => Ok (inr m) end)).
    { apply prepare_merge; try done; [lia|]. rewrite nmarks_cons in Ha.
      intros x Hx. apply Ha. mark_in. auto. }
    destruct P as [|[kp cp] P _] using rev_ind; [exact Hmerge|].
    rewrite !length_snoc in *. replace (S (length P) - 1)%nat with (length P) in * by lia. nbool.
    rewrite <- !app_assoc in *. cbn [app] in *. rewrite list_lookup_middle by done.
    destruct (Nat.ltb_spec NGTCP2_KSL_MIN_NBLK (tree_n cp)) as [Hp|Hp]; [|exact Hmerge].
    by apply prepare_shift_right.
Qed.

(** ** What a removal below a block gives *)
Definition remove_outcome (key : K) (E : list (K * V)) (rv : Z) b (it : option tree_it) : Prop :=
  (rv = 0 /\ exists j A x B, it = Some j /\ E = A ++ x :: B /\ key_equal compar x.1 key = true /\
     points (tree_leaves b) j A B) \/
  (rv = NGTCP2_ERR_INVALID_ARGUMENT /\ it = None /\ tree_elems b = E /\
     forall x, x ∈ E -> key_equal compar x.1 key = false).

Record removed (h : nat) (is_root : bool) (key : K) (avail : nat) b (r : tree_insertion (K := K) (V := V)) : Prop := {
  rm_shape : exists h', (h' <= h)%nat /\ (is_root = false -> h' = h) /\ shape h' r.1.1.2;
  rm_ordered : ordered (marks r.1.1.2);
  rm_kin : kin (marks b) (marks r.1.1.2);
  rm_n : is_root = false -> (tree_n b <= S (tree_n r.1.1.2))%nat;
  rm_count : (r.1.2 + tree_count r.1.1.2 = avail + tree_count b)%nat;
  rm_avail : (avail <= r.1.2)%nat;
  rm_outcome : remove_outcome key (tree_elems b) r.1.1.1 r.1.1.2 r.2;
}.

Lemma not_equal_before h b key : shape h b -> before compar key (marks b) ->
  forall x, x ∈ tree_elems b -> key_equal compar x.1 key = false.
Proof.
  intros Hs Hb x Hx. unfold key_equal.
  assert (H : compar x.1 key = true) by (apply (Hb (ME x.1)), (elem_mark h); [done|by apply list_elem_of_fmap_2]).
  by rewrite H.
Qed.

Lemma not_equal_after h b key : shape h b -> after compar key (marks b) ->
  forall x, x ∈ tree_elems b -> key_equal compar x.1 key = false.
Proof.
  intros Hs Ha x Hx. unfold key_equal.
  assert (H : compar key x.1 = true) by (apply (Ha (ME x.1)), (elem_mark h); [done|by apply list_elem_of_fmap_2]).
  rewrite H. apply andb_false_r.
Qed.

Lemma not_removed h is_root key avail b :
  shape h b -> ordered (marks b) -> (forall x, x ∈ tree_elems b -> key_equal compar x.1 key = false) ->
  removed h is_root key avail b (NGTCP2_ERR_INVALID_ARGUMENT, b, avail, None).
Proof.
  intros Hs Ho Hne. split; cbn [fst snd]; try done; [by exists h|apply kin_refl|lia|by right].
Qed.

(** From a child to its block. *)
Lemma remove_outcome_node h P k c c' Q key rv it :
  nodes_ok h P -> nodes_ok h Q ->
  before compar key (nmarks P) -> after compar key (nmarks Q) ->
  remove_outcome key (tree_elems c) rv c' it ->
  remove_outcome key (nelems (P ++ (k, c) :: Q)) rv (TNode (P ++ (k, c') :: Q))
    (match it with
     | Some it => Some (mk_tit (length (nleaves P) + tit_leaf it) (tit_i it))
     | None => None
     end).
Proof.
  intros HP HQ HbP HaQ. rewrite nelems_app, nelems_cons.
  intros [(-> & j & A & x & B & -> & HE & Hx & Hp)|(-> & -> & He & Hne)].
  - left. split; [done|]. eexists _, (nelems P ++ A), x, (B ++ nelems Q).
    split_and!; [done| |done|by apply points_node].
    by rewrite HE, <- !app_assoc.
  - right. rewrite elems_node, nelems_app, nelems_cons, He. split_and!; try done.
    intros x. rewrite !elem_of_app. intros [Hx|[Hx|Hx]]; [|by apply Hne|]; unfold key_equal.
    + assert (H : compar x.1 key = true)
        by (apply (HbP (ME x.1)), (nelems_mark h); [done|by apply list_elem_of_fmap_2]).
      by rewrite H.
    + assert (H : compar key x.1 = true)
        by (apply (HaQ (ME x.1)), (nelems_mark h); [done|by apply list_elem_of_fmap_2]).
      rewrite H. apply andb_false_r.
Qed.

Lemma removed_node h is_root P k c Q key freed avail l0 f :
  shape (S h) (TNode l0) -> (2 <= length (P ++ (k, c) :: Q))%nat ->
  ready h key l0 P k c Q freed ->
  (exists r, f c = Ok r /\ removed h false key (avail + freed) c r) ->
  exists r', tree_in_child (P ++ (k, c) :: Q) (length P) f = Ok r' /\
    removed (S h) is_root key avail (TNode l0) r'.
Proof.
  intros [[_ Hmax] _]%shape_node H2 [Hok Ho Hkin He Hcnt Hlen Hb Ha Hspare] (r & Hf & Hr).
  destruct r as [[[rv c'] avail'] it]. rewrite in_child_eq, Hf. cbn. eexists. split; [reflexivity|].
  destruct Hr as [(h' & _ & Hh & Hs) Ho' Hkc Hn Hc Hav Hout]. cbn in *. rewrite (Hh eq_refl) in Hs.
  specialize (Hn eq_refl). rewrite nmarks_app, nmarks_cons in Ho.
  pose proof Hok as [HP [_ HQ]%Forall_cons_iff]%Forall_app.
  split; cbn [fst snd tree_n].
  - exists (S h). split_and!; [done|done|]. apply shape_node. rewrite length_mid in *.
    split; [nblk|]. apply Forall_app. split; [done|]. constructor; [|done]. cbn. split; [done|nblk].
  - rewrite marks_node, nmarks_app, nmarks_cons. by apply (ordered_replace compar _ (marks c)).
  - rewrite !marks_node. eapply kin_trans; [exact Hkin|].
    rewrite !nmarks_app, !nmarks_cons. by apply kin_app.
  - intros _. rewrite !length_mid in *. lia.
  - rewrite !count_node. rewrite ncount_app, ncount_cons in *. lia.
  - lia.
  - rewrite elems_node, He. by apply (remove_outcome_node h P k c c' Q key rv it).
Qed.

Lemma remove_leaf (l : list (K * V)) is_root avail key :
  shape 0 (TLeaf l) -> ordered (marks (TLeaf l)) ->
  exists r, tree_remove_blk compar 0 is_root avail (TLeaf l) key = Ok r /\
    removed 0 is_root key avail (TLeaf l) r.
Proof.
  intros Hs Ho. cbn [tree_remove_blk tree_keys tree_n]. set (i := search compar l.*1 key).
  pose proof (leaf_before compar l key) as Hb. fold i in Hb.
  assert (Hi : (i <= length l)%nat) by (subst i; pose proof (search_le compar l.*1 key); by rewrite length_fmap in *).
  destruct (Nat.eqb_spec i (length l)) as [E|E].
  { eexists. split; [reflexivity|]. apply not_removed; [done..|].
    rewrite E, firstn_all in Hb. by apply (not_equal_before 0). }
  destruct (lookup_lt_is_Some_2 l i) as [x Hx]; [lia|].
  rewrite list_lookup_fmap, Hx. cbn [fmap option_fmap option_map].
  assert (Hlt : compar x.1 key = false)
    by (apply (search_at compar l.*1); fold i; by rewrite list_lookup_fmap, Hx).
  destruct (compar key x.1) eqn:Hgt.
  - eexists. split; [reflexivity|]. apply not_removed; [done..|].
    assert (Ha : after compar key (marks (TLeaf (drop i l)))).
    { apply (leaf_after compar l key x.1); try done. fold i. by rewrite list_lookup_fmap, Hx. }
    intros y. rewrite elems_leaf. rewrite <- (take_drop i l), elem_of_app. intros [Hy|Hy].
    + apply (not_equal_before 0 (TLeaf (take i l)) key); [|done|by rewrite elems_leaf].
      cbn in *. rewrite length_take. lia.
    + apply (not_equal_after 0 (TLeaf (drop i l)) key); [|done|by rewrite elems_leaf].
      cbn in *. rewrite length_drop. lia.
  - eexists. split; [reflexivity|]. rewrite delete_take_drop.
    split; cbn [fst snd tree_n tree_count].
    + exists 0%nat. split_and!; [done..|]. cbn in *. rewrite length_app, length_take, length_drop. lia.
    + rewrite <- (take_drop_middle l i x Hx) in Ho. cbn in *. rewrite map_app in *.
      by apply ordered_drop in Ho.
    + rewrite <- (take_drop_middle l i x Hx) at 1. cbn. rewrite !map_app. apply kin_drop.
    + intros _. rewrite length_app, length_take, length_drop. lia.
    + done.
    + done.
    + left. split; [done|]. rewrite elems_leaf. exists (mk_tit 0 i), (take i l), x, (drop (S i) l).
      split_and!; [done|by rewrite take_drop_middle| |].
      * unfold key_equal. by rewrite Hlt, Hgt.
      * replace (mk_tit 0 i) with (mk_tit 0 (length (take i l))) by (rewrite length_take; f_equal; lia).
        apply points_leaf.
Qed.

Lemma remove_blk_ok h : forall is_root avail b key,
  shape h b -> (is_root = false -> (NGTCP2_KSL_MIN_NBLK < tree_n b)%nat) -> ordered (marks b) ->
  exists r, tree_remove_blk compar h is_root avail b key = Ok r /\ removed h is_root key avail b r.
Proof.
  induction h as [|h IH]; intros is_root avail [l|l] key Hs Hn Ho; try done; [by apply remove_leaf|].
  cbn [tree_remove_blk tree_keys tree_n] in *. pose proof Hs as [Hlen Hok]%shape_node. rewrite marks_node in Ho.
  destruct (search_split compar l key) as [Hi|(P & k & c & Q & -> & Hi & Hk)].
  { rewrite Hi, Nat.eqb_refl. eexists. split; [reflexivity|]. apply not_removed; [done..|].
    apply (not_equal_before (S h)); [done|]. rewrite marks_node.
    pose proof (search_before compar l key Ho) as H. by rewrite Hi, firstn_all in H. }
  rewrite Hi, (proj2 (Nat.eqb_neq _ _)) by (rewrite length_mid; lia).
  pose proof (search_prefix compar P k c Q key Ho Hi) as Hb.
  destruct (prepare_child_ok is_root h key P k c Q Hok Ho)
    as [P' k' c' Q' freed Hf1 Hf2 Hf3 Hr|m -> Hsm Hom Hkin He Hc]; [lia|done|done| |]; cbn [bind].
  - apply (removed_node h is_root P' k' c' Q' key freed); [done| |done|].
    + destruct is_root; cbn [andb] in Hf1; [|nblk].
      destruct (Nat.eqb_spec (length (P ++ (k, c) :: Q)) 2); [rewrite Hf1 in Hf3 by done; lia|lia].
    + destruct Hr as [Hok' Ho' _ _ _ _ _ _ Hspare].
      apply IH; [by eapply nodes_child|done|by eapply (ordered_child compar)].
  - destruct (IH true (avail + 2)%nat m key Hsm) as (r & -> & [(h' & Hh & _ & Hs') Ho' Hk' _ Hc' Hav Hout]); [done|done|].
    exists r. split; [done|]. split; try done.
    + exists h'. split_and!; [lia|done|done].
    + rewrite marks_node. by eapply kin_trans.
    + rewrite count_node. lia.
    + lia.
    + by rewrite elems_node, He.
Qed.
End Remove.
