(* ===== verification/KslSearch.v ===== *)
(** * Ordered map: search and change of keys

    [tree_lower_bound] with any comparison that agrees with the order of the
    list, and [tree_update_key]: the conditions under which a key may be
    changed, which involve the keys of the inner nodes. *)

From S2P Require Import Prelude Const Ksl KslTree KslInv KslRemove.
From stdpp Require Import list sorting.
#[local] Open Scope Z_scope.
#[local] Set Warnings "-clear-no-such-hyp".

Section Search.
Context {K V : Type} (compar : K -> K -> bool) `{!StrictWeakOrder compar}.
Abbreviation blk := (ktree K V).
Implicit Types (b c : blk) (l P Q : list (K * blk)) (k key : K) (A B : list (K * V)).
Abbreviation ordered := (StronglySorted (R compar)).

(** ** Lower bounds *)

Definition is_elem (m : @mark K) : Prop := match m with ME _ => True | MS _ => False end.

(** A comparison that agrees with the order between an element and any other
    key of the list. *)
Definition monotone (cmp : K -> K -> bool) (key : K) (M : list mark) : Prop :=
  forall m1 m2, m1 ∈ M -> m2 ∈ M -> R compar m1 m2 -> is_elem m1 \/ is_elem m2 ->
  cmp (mkey m2) key = true -> cmp (mkey m1) key = true.

Lemma monotone_sub cmp key M M' : monotone cmp key M -> (forall m, m ∈ M' -> m ∈ M) -> monotone cmp key M'.
Proof. intros H Hs m1 m2 H1 H2. apply H; auto. Qed.

Lemma monotone_self key M : monotone compar key M.
Proof.
  intros m1 m2 _ _ H _ H2. by apply (R_trans compar m1 m2 (ME key)).
Qed.

Section Lower.
Context (cmp : K -> K -> bool) (key : K).

Definition bound (b : blk) (it : tree_it) : Prop :=
  exists A B, points (tree_leaves b) it A B /\ (forall x, x ∈ A -> cmp x.1 key = true) /\
    (forall x, x ∈ B -> cmp x.1 key = false).

Lemma lower_bound_leaf (l : list (K * V)) :
  ordered (marks (TLeaf l)) -> monotone cmp key (marks (TLeaf l)) ->
  bound (TLeaf l) (mk_tit 0 (search cmp l.*1 key)).
Proof.
  set (i := search cmp l.*1 key). intros Ho Hm.
  assert (Hi : length (take i l) = i)
    by (apply length_take_le; subst i; pose proof (search_le cmp l.*1 key); by rewrite length_fmap in *).
  exists (take i l), (drop i l). split_and!.
  - rewrite <- Hi at 1. rewrite <- (take_drop i l) at 1. apply points_leaf.
  - intros x Hx. apply (search_take cmp l.*1). fold i. rewrite <- fmap_take. by apply list_elem_of_fmap_2.
  - intros x Hx. destruct (drop i l) as [|y l'] eqn:E; [by apply elem_of_nil in Hx|].
    assert (Hy : cmp y.1 key = false).
    { apply (search_at cmp l.*1). fold i. rewrite list_lookup_fmap.
      rewrite <- (Nat.add_0_r i), <- lookup_drop, E. done. }
    apply elem_of_cons in Hx as [->|Hx]; [done|].
    destruct (cmp x.1 key) eqn:Hc; [|done]. rewrite <- Hy. symmetry.
    rewrite <- (take_drop i l), E in Ho, Hm. cbn in Ho, Hm. rewrite map_app in Ho, Hm. cbn in Ho, Hm.
    apply StronglySorted_app in Ho as (_ & _ & Ho). apply StronglySorted_inv in Ho as [_ Ho].
    rewrite list.Forall_forall in Ho.
    assert (Hxin : ME x.1 ∈ map (fun p => ME p.1) l') by (by apply list_elem_of_fmap; exists x).
    apply (Hm (ME y.1) (ME x.1)); [..|by left|done]; rewrite ?elem_of_app, ?elem_of_cons; auto.
Qed.

(** Elements on the left of an inner key that [cmp] puts before [key]. *)
Lemma left_of_sep h P k c :
  nodes_ok h (P ++ [(k, c)]) -> ordered (nmarks (P ++ [(k, c)])) ->
  monotone cmp key (nmarks (P ++ [(k, c)])) -> cmp k key = true ->
  forall x, x ∈ nelems (P ++ [(k, c)]) -> cmp x.1 key = true.
Proof.
  intros Hok Ho Hm Hk x Hx.
  assert (Hin : ME x.1 ∈ nmarks (P ++ [(k, c)])) by (by apply (nelems_mark h), list_elem_of_fmap_2).
  rewrite nmarks_app, nmarks_cons, app_assoc in *. cbn [nmarks map concat] in *.
  apply (Hm (ME x.1) (MS k)); [done| | |by left|done].
  - rewrite elem_of_app, elem_of_cons. auto.
  - apply StronglySorted_app in Ho as (Ho & _ & _). apply Ho; [|by apply elem_of_cons; left].
    apply elem_of_app in Hin as [?|Hin]; [done|]. apply elem_of_cons in Hin as [?|Hin]; [done|].
    by apply elem_of_nil in Hin.
Qed.

Lemma right_of_sep h k Q :
  nodes_ok h Q -> ordered (MS k :: nmarks Q) -> monotone cmp key (MS k :: nmarks Q) -> cmp k key = false ->
  forall x, x ∈ nelems Q -> cmp x.1 key = false.
Proof.
  intros Hok Ho Hm Hk x Hx.
  assert (Hin : ME x.1 ∈ nmarks Q) by (by apply (nelems_mark h), list_elem_of_fmap_2).
  destruct (cmp x.1 key) eqn:E; [|done]. rewrite <- Hk. symmetry.
  apply (Hm (MS k) (ME x.1)); [..|by right|done]; rewrite ?elem_of_cons; auto.
  apply StronglySorted_inv in Ho as [_ Ho]. rewrite list.Forall_forall in Ho. by apply Ho.
Qed.

Lemma search_nodes l :
  (search cmp l.*1 key = length l /\ forall P k c, l = P ++ [(k, c)] -> cmp k key = true) \/
  exists P k c Q, l = P ++ (k, c) :: Q /\ search cmp l.*1 key = length P /\ cmp k key = false /\
    forall P' k' c', P = P' ++ [(k', c')] -> cmp k' key = true.
Proof.
  set (i := search cmp l.*1 key). pose proof (search_le cmp l.*1 key) as Hi. fold i in Hi.
  rewrite length_fmap in Hi.
  assert (Hlt : forall P' k' c' l', take i l = P' ++ (k', c') :: l' -> cmp k' key = true).
  { intros P' k' c' l' E. apply (search_take cmp l.*1). fold i. rewrite <- fmap_take, E, fmap_app.
    apply elem_of_app. right. apply elem_of_cons. by left. }
  destruct (decide (i = length l)) as [E|Hne].
  - left. split; [done|]. intros P k c ->. apply (Hlt P k c []). by rewrite E, firstn_all.
  - right. destruct (lookup_lt_is_Some_2 l i) as [[k c] Hl]; [lia|].
    exists (take i l), k, c, (drop (S i) l). split_and!.
    + by rewrite take_drop_middle.
    + rewrite length_take. lia.
    + apply (search_at cmp l.*1). fold i. by rewrite list_lookup_fmap, Hl.
    + intros P' k' c' E. by eapply Hlt.
Qed.

Lemma lower_bound_end h b :
  shape h b -> exists it, points (tree_leaves b) it (tree_elems b) [] /\
    match last (tree_leaves b) with
    | Some lf => Ok (mk_tit (length (tree_leaves b) - 1) (length lf))
    | None => Fault
    end = Ok it.
Proof.
  intros Hs%shape_leaves_nonempty. unfold tree_elems.
  destruct (tree_leaves b) as [|lf ls _] using rev_ind; [done|].
  rewrite last_snoc, length_app. cbn [length]. rewrite Nat.add_sub. eexists. split; [|reflexivity].
  exists ls, lf, [], []. rewrite app_nil_r, concat_app. cbn. by rewrite app_nil_r.
Qed.

Lemma lower_bound_blk_ok h b :
  shape h b -> ordered (marks b) -> monotone cmp key (marks b) ->
  exists it, tree_lower_bound cmp h b key = Ok it /\ bound b it.
Proof.
  revert b. induction h as [|h IH]; intros [l|l] Hs Ho Hm; try done.
  { eexists. split; [reflexivity|]. by apply lower_bound_leaf. }
  pose proof Hs as [Hlen Hok]%shape_node. rewrite marks_node in Ho, Hm.
  cbn [tree_lower_bound tree_keys].
  destruct (search_nodes l) as [[-> Hlast]|(P & k & c & Q & -> & -> & Hk & Hprev)].
  - rewrite Nat.eqb_refl. destruct (lower_bound_end (S h) (TNode l) Hs) as (it & Hp & ->).
    exists it. split; [done|]. exists (tree_elems (TNode l)), []. split_and!; [done| |by intros x ?%elem_of_nil].
    rewrite elems_node. destruct l as [|[k c] P _] using rev_ind; [cbn in Hlen; lia|].
    eapply left_of_sep; try done. by eapply Hlast.
  - rewrite (proj2 (Nat.eqb_neq _ _)) by (rewrite length_app; cbn; lia).
    unfold tree_child. rewrite list_lookup_middle by done. cbn [bind].
    destruct (IH c) as (it & -> & A & B & Hp & HA & HB).
    + by eapply nodes_child.
    + by eapply (ordered_child compar).
    + eapply monotone_sub; [exact Hm|]. intros m Hin. rewrite nmarks_app, nmarks_cons, !elem_of_app. auto.
    + cbn [bind]. eexists. split; [reflexivity|]. unfold tree_leaves_before. rewrite take_app_length.
      exists (nelems P ++ A), (B ++ nelems Q). split_and!; [by apply (points_node P k c Q)| |].
      * intros x. rewrite elem_of_app. intros [Hx|?]; [|auto].
        destruct P as [|[k' c'] P _] using rev_ind; [by apply elem_of_nil in Hx|].
        rewrite nmarks_app in Ho, Hm. apply Forall_app in Hok as [Hok _].
        apply StronglySorted_app in Ho as (_ & Ho & _).
        apply (left_of_sep h P k' c'); try done; [|by eapply Hprev].
        eapply monotone_sub; [exact Hm|]. intros m ?. rewrite elem_of_app. auto.
      * intros x. rewrite elem_of_app. intros [?|Hx]; [auto|].
        apply Forall_app in Hok as [_ Hok]. apply Forall_cons_iff in Hok as [_ Hok].
        rewrite nmarks_app, nmarks_cons in Ho, Hm.
        apply StronglySorted_app in Ho as (_ & _ & (_ & _ & Ho)%StronglySorted_app).
        apply (right_of_sep h k Q); try done.
        eapply monotone_sub; [exact Hm|]. intros m ?. rewrite !elem_of_app. auto.
Qed.
End Lower.

(** ** Change of a key *)
Section Update.
Context (old_key new_key : K).

(** A mark after the change: behind [old_key] nothing is before [new_key]. *)
Definition updated (M : list mark) (m : mark) : Prop :=
  (m ∈ M /\ compar (mkey m) old_key = true) \/
  (m ∈ M /\ compar old_key (mkey m) = true /\ compar (mkey m) new_key = false) \/
  mkey m = new_key.

(** The new key keeps its place between the keys: all keys in front, those of
    inner nodes too, and the elements behind. *)
Definition fits (M : list mark) : Prop :=
  forall m, m ∈ M -> (compar (mkey m) old_key = true -> compar (mkey m) new_key = true) /\
    (is_elem m -> compar old_key (mkey m) = true -> compar new_key (mkey m) = true).

Lemma fits_sub M M' : fits M -> (forall m, m ∈ M' -> m ∈ M) -> fits M'.
Proof. intros H Hs m Hm. apply H; auto. Qed.

Lemma updated_kin M M' : (forall m, m ∈ M' -> updated M m) -> kin_key new_key M M'.
Proof. intros H m Hm. destruct (H m Hm) as [[? _]|[[? _]|?]]; auto. Qed.

Lemma before_new M : fits M -> before compar old_key M -> before compar new_key M.
Proof. intros Hf Hb m Hm. apply (Hf m Hm). by apply (Hb m). Qed.

(** The marks of a block begin with an element. *)
Lemma first_mark h b : shape h b -> (1 <= tree_n b)%nat -> exists x M, marks b = ME x :: M.
Proof.
  revert b. induction h as [|h IH]; intros [l|l] Hs Hn; try done.
  - destruct l as [|p l]; [cbn in Hn; lia|]. by exists p.1, (map (fun p => ME p.1) l).
  - apply shape_node in Hs as [_ Hok]. destruct l as [|[k c] l]; [cbn in Hn; lia|].
    apply Forall_cons_iff in Hok as [[Hc Hm] _]. cbn in Hc, Hm.
    destruct (IH c Hc) as (x & M & E); [nblk|]. rewrite marks_node, nmarks_cons, E. by exists x, (M ++ MS k :: nmarks l).
Qed.

(** Behind an element with the old key everything is behind the new key. *)
Lemma after_new h Q :
  nodes_ok h Q -> ordered (nmarks Q) -> fits (nmarks Q) -> after compar old_key (nmarks Q) ->
  after compar new_key (nmarks Q) /\ forall m, m ∈ nmarks Q -> compar old_key (mkey m) = true.
Proof.
  intros Hok Ho Hf Ha. destruct Q as [|[k c] Q]; [split; intros m Hm; by apply elem_of_nil in Hm|].
  apply Forall_cons_iff in Hok as [[Hs Hn] _]. cbn in Hs, Hn.
  destruct (first_mark h c Hs) as (x & M & E); [nblk|]. rewrite nmarks_cons, E in *. cbn [app] in *.
  set (M' := M ++ MS k :: nmarks Q) in *.
  assert (Hx : ME x ∈ ME x :: M') by (apply elem_of_cons; by left).
  pose proof (Ha _ Hx) as Hox. cbn in Hox.
  assert (Hnx : compar new_key x = true) by (by apply (Hf _ Hx)).
  apply StronglySorted_inv in Ho as [_ Ho]. rewrite list.Forall_forall in Ho.
  split; intros m [->|Hm]%elem_of_cons; try done.
  - apply (R_trans compar _ (ME x)); [done|by apply Ho].
  - apply Ho in Hm. destruct m as [y|y]; cbn in *; [by eapply less_trans|by eapply less_trans_le].
Qed.

Lemma after_updated M m :
  m ∈ M -> R compar (ME new_key) m -> compar old_key (mkey m) = true -> updated M m.
Proof.
  intros Hm Hn Ho. right; left. split_and!; [done|done|]. destruct m as [x|x]; cbn in *; [|done].
  by apply less_asym.
Qed.

(** A comparison with the inner key on the way to the element. *)
Lemma updated_sep M m k :
  fits M -> updated M m -> (m ∈ M -> R compar m (MS k)) -> compar k old_key = false ->
  R compar m (MS (if key_equal compar k old_key || compar k new_key then new_key else k)).
Proof.
  unfold key_equal. intros Hf Hu Hmk Hk. rewrite Hk. cbn [negb andb R] in *.
  destruct Hu as [[Hm Hlt]|[(Hm & Hgt & Hge)|<-]].
  - destruct (Hf m Hm) as [Hnew _]. destruct (negb _ || _); [|by apply Hmk].
    by apply less_asym, Hnew.
  - specialize (Hmk Hm). destruct (compar old_key k) eqn:Hok; cbn [negb orb].
    + destruct (compar k new_key) eqn:Hkn; [|done].
      destruct (compar new_key (mkey m)) eqn:E; [|done]. by rewrite (less_trans _ _ _ Hkn E) in Hmk.
    + by rewrite (less_trans_le _ _ _ Hgt Hmk) in Hok.
  - destruct (negb _ || _) eqn:E; [apply less_irrefl|]. by apply orb_false_iff in E as [_ ?].
Qed.

(** The inner key itself. *)
Lemma updated_sep_self M k :
  MS k ∈ M -> compar k old_key = false ->
  updated M (MS (if key_equal compar k old_key || compar k new_key then new_key else k)).
Proof.
  unfold key_equal. intros HM Hk. rewrite Hk. cbn [negb andb].
  destruct (compar old_key k) eqn:Hok; cbn [negb orb]; [|by right; right].
  destruct (compar k new_key) eqn:Hkn; [by right; right|]. by right; left.
Qed.

Record key_changed (h : nat) b b' : Prop := {
  kc_shape : shape h b';
  kc_n : tree_n b' = tree_n b;
  kc_count : tree_count b' = tree_count b;
  kc_ordered : ordered (marks b');
  kc_marks : forall m, m ∈ marks b' -> updated (marks b) m;
  kc_points : exists it A x B, key_equal compar x.1 old_key = true /\
    points_at (tree_leaves b) it A x B /\ points_at (tree_leaves b') it A (new_key, x.2) B;
}.

Lemma key_equal_sides x : key_equal compar x old_key = true ->
  compar x old_key = false /\ compar old_key x = false.
Proof. unfold key_equal. intros [H1 H2]%andb_true_iff. by apply negb_true_iff in H1, H2. Qed.

(** The element with the old key is where [search] stops. *)
Lemma leaf_found (l : list (K * V)) x :
  ordered (marks (TLeaf l)) -> x ∈ l -> key_equal compar x.1 old_key = true ->
  exists y, l !! search compar l.*1 old_key = Some y /\ key_equal compar y.1 old_key = true.
Proof.
  set (i := search compar l.*1 old_key). intros Ho Hx Hxe. destruct (key_equal_sides _ Hxe) as [Hlt Hgt].
  destruct (l !! i) as [y|] eqn:Hy.
  - exists y. split; [done|]. unfold key_equal.
    assert (Hylt : compar y.1 old_key = false)
      by (apply (search_at compar l.*1); fold i; by rewrite list_lookup_fmap, Hy).
    rewrite Hylt. destruct (compar old_key y.1) eqn:E; [|done].
    pose proof (leaf_after compar l old_key y.1 Ho) as Ha. fold i in Ha.
    rewrite list_lookup_fmap, Hy in Ha. specialize (Ha eq_refl E).
    rewrite <- (take_drop i l), elem_of_app in Hx. destruct Hx as [Hx|Hx].
    + pose proof (leaf_before compar l old_key (ME x.1)) as Hb. fold i in Hb. cbn in Hb.
      rewrite Hb in Hlt; [done|]. apply list_elem_of_fmap. by exists x.
    + pose proof (Ha (ME x.1)) as Hb. cbn in Hb. rewrite Hb in Hgt; [done|].
      apply list_elem_of_fmap. by exists x.
  - apply lookup_ge_None in Hy. pose proof (leaf_before compar l old_key (ME x.1)) as Hb. fold i in Hb.
    cbn in Hb. rewrite take_ge in Hb by done. rewrite Hb in Hlt; [done|]. apply list_elem_of_fmap. by exists x.
Qed.

Lemma update_key_leaf (l : list (K * V)) x :
  shape 0 (TLeaf l) -> ordered (marks (TLeaf l)) -> fits (marks (TLeaf l)) ->
  x ∈ l -> key_equal compar x.1 old_key = true ->
  exists b', tree_update_key compar 0 (TLeaf l) old_key new_key = Ok b' /\ key_changed 0 (TLeaf l) b'.
Proof.
  intros Hs Ho Hf Hx Hxe. destruct (leaf_found l x Ho Hx Hxe) as ([k v] & Hl & Hke). clear x Hx Hxe.
  cbn [tree_update_key tree_keys]. pose proof (leaf_before compar l old_key) as Hb.
  set (i := search compar l.*1 old_key) in *. rewrite Hl. cbn [fst] in Hke. rewrite Hke. eexists. split; [reflexivity|].
  pose proof (lookup_lt_Some _ _ _ Hl) as Hi. destruct (key_equal_sides _ Hke) as [Hlt Hgt].
  rewrite <- (take_drop_middle l i (k, v) Hl) in Ho, Hf. rewrite insert_take_drop by done.
  set (l1 := take i l) in *. set (l2 := drop (S i) l) in *.
  assert (El : l = l1 ++ (k, v) :: l2) by (symmetry; by apply take_drop_middle).
  assert (Hlen : length l1 = i) by (by apply length_take_le; lia).
  cbn [marks] in Ho, Hf, Hb. rewrite map_app in Ho, Hf. cbn [map fst] in Ho, Hf.
  set (M1 := map (fun p => ME p.1) l1) in *. set (M2 := map (fun p => ME p.1) l2) in *.
  assert (Ha2 : forall m, m ∈ M2 -> compar old_key (mkey m) = true /\ compar new_key (mkey m) = true).
  { intros m Hm. assert (Hin : m ∈ M1 ++ ME k :: M2) by (rewrite elem_of_app, elem_of_cons; auto).
    pose proof Ho as (_ & _ & Ho2)%StronglySorted_app. apply StronglySorted_inv in Ho2 as [_ Ho2].
    rewrite list.Forall_forall in Ho2. specialize (Ho2 m Hm).
    destruct (proj1 (list_elem_of_fmap _ _ _) Hm) as (y & -> & Hy). cbn in Ho2.
    assert (Hoy : compar old_key y.1 = true) by (by eapply less_le_trans).
    split; [done|]. by apply (Hf _ Hin). }
  assert (Hb2 : forall m, m ∈ M1 -> compar (mkey m) old_key = true) by (intros m Hm; by apply (Hb m)).
  assert (HbM : before compar new_key M1).
  { intros m Hm. apply (Hf m); [rewrite elem_of_app; auto|]. by apply Hb2. }
  split.
  - rewrite El in Hs. cbn in *. rewrite length_app in *. done.
  - rewrite El. cbn. by rewrite !length_app.
  - done.
  - cbn [marks]. rewrite map_app. cbn [map fst]. fold M1 M2.
    apply (ordered_replace_key compar new_key M1 [ME k] [ME new_key] M2); try done.
    + repeat constructor.
    + intros m ->%list_elem_of_singleton. by right; right.
    + intros m Hm. destruct (Ha2 m Hm) as [_ H].
      destruct (proj1 (list_elem_of_fmap _ _ _) Hm) as (y & -> & _). done.
  - rewrite El. cbn [marks]. rewrite !map_app. cbn [map fst]. fold M1 M2.
    intros m [Hm|[->|Hm]%elem_of_cons]%elem_of_app.
    + left. split; [rewrite elem_of_app; auto|by apply Hb2].
    + by right; right.
    + right; left. destruct (Ha2 m Hm). split_and!; [rewrite elem_of_app, elem_of_cons; auto|done|].
      by apply less_asym.
  - exists (mk_tit 0 (length l1)), l1, (k, v), l2. split_and!; [done| |apply points_at_leaf].
    rewrite El. apply points_at_leaf.
Qed.

(** The child that holds the element with the old key. *)
Lemma child_found h P k c Q x :
  nodes_ok h (P ++ (k, c) :: Q) -> before compar old_key (nmarks P) -> after compar old_key (nmarks Q) ->
  x ∈ nelems (P ++ (k, c) :: Q) -> key_equal compar x.1 old_key = true -> x ∈ tree_elems c.
Proof.
  intros [HP [_ HQ]%Forall_cons_iff]%Forall_app Hb Ha Hx Hxe.
  destruct (key_equal_sides _ Hxe) as [Hlt Hgt].
  rewrite nelems_app, nelems_cons, !elem_of_app in Hx. destruct Hx as [Hx|[?|Hx]]; [|done|].
  - assert (H : compar x.1 old_key = true); [|by rewrite H in Hlt].
    apply (Hb (ME x.1)), (nelems_mark h); [done|by apply list_elem_of_fmap_2].
  - assert (H : compar old_key x.1 = true); [|by rewrite H in Hgt].
    apply (Ha (ME x.1)), (nelems_mark h); [done|by apply list_elem_of_fmap_2].
Qed.

(** The marks of a block after the change below one of its nodes. *)
Lemma updated_node h P k c c' Q :
  nodes_ok h (P ++ (k, c) :: Q) -> ordered (nmarks (P ++ (k, c) :: Q)) ->
  fits (nmarks (P ++ (k, c) :: Q)) ->
  before compar old_key (nmarks P) -> compar k old_key = false ->
  ordered (marks c') -> (forall m, m ∈ marks c' -> updated (marks c) m) ->
  let k' := if key_equal compar k old_key || compar k new_key then new_key else k in
  ordered (nmarks (P ++ (k', c') :: Q)) /\
  forall m, m ∈ nmarks (P ++ (k', c') :: Q) -> updated (nmarks (P ++ (k, c) :: Q)) m.
Proof.
  intros Hok Ho Hf Hb Hk Ho' Hu k'.
  pose proof (after_sep compar old_key k (nmarks Q)) as Ha.
  rewrite nmarks_app, nmarks_cons in Ho, Hf. rewrite !nmarks_app, !nmarks_cons.
  set (M := nmarks P ++ marks c ++ MS k :: nmarks Q) in *.
  pose proof Ho as (_ & _ & (HcS & _ & HoQ)%StronglySorted_app)%StronglySorted_app.
  apply Forall_app in Hok as [_ [_ HokQ]%Forall_cons_iff].
  assert (HinP : forall m, m ∈ nmarks P -> m ∈ M) by (intros; subst M; rewrite elem_of_app; auto).
  assert (Hinc : forall m, m ∈ marks c -> m ∈ M) by (intros; subst M; rewrite !elem_of_app; auto).
  assert (HinQ : forall m, m ∈ MS k :: nmarks Q -> m ∈ M) by (intros; subst M; rewrite !elem_of_app; auto).
  assert (HinQ' : forall m, m ∈ nmarks Q -> m ∈ M) by (intros; apply HinQ, elem_of_cons; auto).
  destruct (after_new h Q HokQ) as [HaQ HoldQ];
    [by apply StronglySorted_inv in HoQ as [? _]|by eapply fits_sub| |].
  { intros m Hm. apply Ha; [done|done|]. apply elem_of_cons. by right. }
  assert (HuM : forall m, m ∈ marks c' ++ [MS k'] -> updated M m).
  { intros m [Hm| ->%list_elem_of_singleton]%elem_of_app.
    - destruct (Hu m Hm) as [[? ?]|[(? & ? & ?)|?]]; [left|right; left|right; right]; auto.
    - apply updated_sep_self; [|done]. apply HinQ, elem_of_cons. by left. }
  assert (HoS : ordered (marks c' ++ [MS k'])).
  { apply StronglySorted_app. split_and!; [|done|repeat constructor].
    intros m x Hm ->%list_elem_of_singleton. apply (updated_sep (marks c)).
    - by eapply fits_sub.
    - by apply Hu.
    - intros Hc. apply HcS; [done|]. apply elem_of_cons. by left.
    - done. }
  split.
  - change (MS k' :: nmarks Q) with ([MS k'] ++ nmarks Q). rewrite (app_assoc (marks c')).
    assert (E : M = nmarks P ++ (marks c ++ [MS k]) ++ nmarks Q) by (subst M; by rewrite <- app_assoc).
    apply (ordered_replace_key compar new_key _ (marks c ++ [MS k])); [by rewrite <- E|done| |..|done].
    + intros m [Hm| ->%list_elem_of_singleton]%elem_of_app.
      * destruct (updated_kin _ _ Hu m Hm) as [?|[(m0 & ? & ->)|?]]; [|right; left; exists m0|by right; right];
          rewrite ?elem_of_app; auto.
      * subst k'. destruct (_ || _); [by right; right|left]. rewrite elem_of_app. right.
        by apply list_elem_of_singleton.
    + apply before_new; [by eapply fits_sub|done].
  - intros m [Hm|Hm]%elem_of_app.
    + left. split; [auto|by apply (Hb m)].
    + change (MS k' :: nmarks Q) with ([MS k'] ++ nmarks Q) in Hm. rewrite app_assoc in Hm.
      apply elem_of_app in Hm as [Hm|Hm]; [by apply HuM|].
      apply after_updated; [auto|by apply HaQ|by apply HoldQ].
Qed.

Lemma update_key_blk_ok h b x :
  shape h b -> ordered (marks b) -> fits (marks b) ->
  x ∈ tree_elems b -> key_equal compar x.1 old_key = true ->
  exists b', tree_update_key compar h b old_key new_key = Ok b' /\ key_changed h b b'.
Proof.
  revert b. induction h as [|h IH]; intros [l|l] Hs Ho Hf Hx Hxe; try done.
  { rewrite elems_leaf in Hx. by eapply update_key_leaf. }
  pose proof Hs as [Hlen Hok]%shape_node. rewrite marks_node in Ho, Hf.
  cbn [tree_update_key tree_keys]. destruct (search_split compar l old_key) as [Hi|(P & k & c & Q & -> & Hi & Hk)].
  { pose proof (search_before compar l old_key Ho) as Hb. rewrite Hi, firstn_all in Hb.
    pose proof (not_equal_before compar (S h) (TNode l) old_key Hs Hb x Hx) as H. by rewrite H in Hxe. }
  rewrite elems_node in Hx. rewrite Hi, list_lookup_middle by done.
  pose proof (search_prefix compar P k c Q old_key Ho Hi) as Hb.
  pose proof (after_cons compar _ _ _ (after_node compar P k c Q old_key Ho Hk)) as Ha.
  pose proof (child_found h P k c Q x Hok Hb Ha Hx Hxe) as Hxc.
  destruct (IH c) as (c' & -> & [Hs' Hn Hcnt Ho' Hu (it & A & y & B & Hye & Hp & Hp')]); try done.
  { by eapply nodes_child. }
  { by eapply (ordered_child compar). }
  { eapply fits_sub; [exact Hf|]. intros m Hin. rewrite nmarks_app, nmarks_cons, !elem_of_app. auto. }
  cbn [bind]. rewrite insert_app_r_alt, Nat.sub_diag by done. cbn [insert list_insert].
  eexists. split; [reflexivity|].
  destruct (updated_node h P k c c' Q Hok Ho Hf Hb Hk Ho' Hu) as [HoN HuN].
  set (k' := if key_equal compar k old_key || compar k new_key then new_key else k) in *.
  split; try done.
  - apply shape_node. rewrite !length_app in *. split; [done|].
    apply Forall_app in Hok as [? [[_ Hmin] ?]%Forall_cons_iff]. apply Forall_app. split; [done|].
    constructor; [|done]. cbn in *. by rewrite Hn.
  - cbn. by rewrite !length_app.
  - rewrite !count_node, !ncount_app, !ncount_cons. by rewrite Hcnt.
  - exists (mk_tit (length (nleaves P) + tit_leaf it) (tit_i it)), (nelems P ++ A), y, (B ++ nelems Q).
    split_and!; [done| |].
    + by apply points_at_node.
    + by apply points_at_node.
Qed.
End Update.
End Search.
