(* ===== verification/KslChain.v ===== *)
(** * Ordered map: the chains

    The blocks of each level of a skip list are linked in both directions, in
    the order of the tree, and [front] and [back] are the ends of the chain of
    leaves.  The functions of [Ksl] do to the tree what those of [KslTree] do,
    and keep the chains. *)

From S2P Require Import Prelude Const Ksl KslTree.
From stdpp Require Import list gmap.
#[local] Open Scope Z_scope.
#[local] Set Warnings "-clear-no-such-hyp".

Implicit Types (m : ksl_mem) (lk : gmap Z blk_links) (A B L : list Z) (F G : nat -> list Z).

(** ** Links *)
Definition hd_or B (q : option Z) : option Z := match B with [] => q | b :: _ => Some b end.
Definition last_or (p : option Z) A : option Z := match last A with Some a => Some a | None => p end.

(** A run of blocks between the blocks [p] and [q]. *)
Fixpoint dlseg lk (p : option Z) L (q : option Z) : Prop :=
  match L with
  | [] => True
  | a :: L => lk !! a = Some (mk_links (hd_or L q) p) /\ dlseg lk (Some a) L q
  end.

Lemma dlseg_app lk p A B q :
  dlseg lk p (A ++ B) q <-> dlseg lk p A (hd_or B q) /\ dlseg lk (last_or p A) B q.
Proof.
  revert p. induction A as [|a A IH]; intros p; cbn [app dlseg]; [unfold last_or; cbn; tauto|].
  rewrite IH. replace (hd_or (A ++ B) q) with (hd_or A (hd_or B q)) by (by destruct A).
  replace (last_or p (a :: A)) with (last_or (Some a) A); [tauto|].
  unfold last_or. rewrite last_cons. by destruct (last A).
Qed.

Lemma dlseg_ext lk lk' p L q : (forall x, x ∈ L -> lk' !! x = lk !! x) -> dlseg lk p L q -> dlseg lk' p L q.
Proof.
  revert p. induction L as [|a L IH]; intros p He; cbn; [done|]. intros [Ha Hl].
  rewrite He by (rewrite elem_of_cons; auto). split; [done|]. apply IH; [|done]. intros x Hx. apply He, elem_of_cons. auto.
Qed.

(** The run [B] gets another block before it. *)
Lemma dlseg_behind lk lk' p p' B q :
  dlseg lk p B q -> (forall b, head B = Some b -> lk' !! b = Some (mk_links (hd_or (tail B) q) p')) ->
  (forall x, x ∈ tail B -> lk' !! x = lk !! x) -> dlseg lk' p' B q.
Proof. destruct B as [|b B]; cbn; [done|]. intros [_ Hl] Hb Ht. split; [by apply Hb|]. by eapply dlseg_ext. Qed.

(** [F n]: the blocks of level [n], from left to right; 0 is that of the
    leaves. *)
Record chained m F : Prop := {
  ch_links : forall n, dlseg (km_links m) None (F n) None;
  ch_nodup : forall n, NoDup (F n);
  ch_disj : forall n n' x, x ∈ F n -> x ∈ F n' -> n = n';
  ch_fresh : forall n x, x ∈ F n -> x < km_fresh m;
  ch_front : km_front m = head (F 0%nat);
  ch_back : km_back m = last (F 0%nat);
}.

Lemma chained_ext m F G : (forall n, F n = G n) -> chained m F -> chained m G.
Proof.
  intros He [H1 H2 H3 H4 H5 H6]. split; rewrite <- ?He; try done; intros *; rewrite <- ?He; [apply H1|apply H2|apply H3|apply H4].
Qed.

(** Level [h] becomes [L]. *)
Definition upd F (h : nat) L : nat -> list Z := fun n => if (n =? h)%nat then L else F n.

Lemma upd_eq F h L : upd F h L h = L.
Proof. unfold upd. by rewrite Nat.eqb_refl. Qed.

Lemma upd_ne F h L n : n <> h -> upd F h L n = F n.
Proof. unfold upd. by intros ->%Nat.eqb_neq. Qed.

(** A level changes; the links of the blocks of the others do not. *)
Lemma chained_upd m m' F h L :
  chained m F -> dlseg (km_links m') None L None -> NoDup L ->
  (forall x, x ∈ L -> x ∈ F h \/ (x = km_fresh m /\ x < km_fresh m')) -> km_fresh m <= km_fresh m' ->
  (forall n x, n <> h -> x ∈ F n -> km_links m' !! x = km_links m !! x) ->
  km_front m' = head (upd F h L 0%nat) -> km_back m' = last (upd F h L 0%nat) ->
  chained m' (upd F h L).
Proof.
  intros [H1 H2 H3 H4 H5 H6] Hl Hnd Hin Hle Ho Hf Hb.
  assert (Hlev : forall n x, x ∈ upd F h L n -> n = h /\ x ∈ L \/ n <> h /\ x ∈ F n).
  { intros n x. unfold upd. destruct (Nat.eqb_spec n h); auto. }
  split; try done.
  - intros n. destruct (decide (n = h)) as [->|Hne]; [by rewrite upd_eq|]. rewrite upd_ne by done.
    eapply dlseg_ext; [|apply H1]. intros x. by apply Ho.
  - intros n. destruct (decide (n = h)) as [->|Hne]; [by rewrite upd_eq|]. by rewrite upd_ne.
  - intros n n' x Hx Hx'. apply Hlev in Hx as [[-> Hx]|[Hn Hx]], Hx' as [[-> Hx']|[Hn' Hx']]; try done.
    + apply Hin in Hx as [Hx|[-> _]]; [by eapply H3|]. apply H4 in Hx'. lia.
    + apply Hin in Hx' as [Hx'|[-> _]]; [by eapply H3|]. apply H4 in Hx. lia.
    + by eapply H3.
  - intros n x [[-> Hx]|[Hn Hx]]%Hlev; [apply Hin in Hx as [Hx|[_ ?]]; [|done]|]; apply H4 in Hx; lia.
Qed.

(** The ends of the chain of leaves after a change behind the first block. *)
Lemma upd_head F h A a B B' : F h = A ++ a :: B -> head (upd F h (A ++ a :: B') 0%nat) = head (F 0%nat).
Proof.
  intros E. destruct (decide (0%nat = h)) as [<-|Hne]; [|by rewrite upd_ne]. rewrite upd_eq, E. by destruct A.
Qed.

Lemma last_middle A a B : last (A ++ a :: B) = Some (default a (last B)).
Proof. rewrite last_app, last_cons. by destruct (last B). Qed.

(** The new end of the leaves. *)
Lemma upd_last m F h A a B B' (back : option Z) :
  chained m F -> F h = A ++ a :: B ->
  (B = [] -> back = if decide (km_back m = Some a) then last (a :: B') else km_back m) ->
  (B <> [] -> back = km_back m /\ last B' = last B) ->
  back = last (upd F h (A ++ a :: B') 0%nat).
Proof.
  intros [_ H2 H3 _ _ H6] E Hnil Hcons. destruct (decide (0%nat = h)) as [<-|Hne].
  - rewrite upd_eq, last_middle, H6, E, last_middle in *. destruct B as [|b B].
    + rewrite (Hnil eq_refl), decide_True by done. rewrite last_cons. by destruct (last B').
    + destruct (Hcons ltac:(done)) as [-> ->]. done.
  - rewrite upd_ne by done. destruct B as [|b B].
    + rewrite (Hnil eq_refl), decide_False; [done|]. rewrite H6. intros Hl. destruct Hne.
      apply last_Some_elem_of in Hl. apply (H3 _ _ a); [done|]. rewrite E, elem_of_app, elem_of_cons. auto.
    + destruct (Hcons ltac:(done)) as [-> _]. done.
Qed.

(** ** Changes of a chain *)

Section Change.
Context (m : ksl_mem) (F : nat -> list Z) (Hc : chained m F).

Lemma links_split h A B :
  F h = A ++ B -> dlseg (km_links m) None A (hd_or B None) /\ dlseg (km_links m) (last_or None A) B None.
Proof. intros E. rewrite <- dlseg_app, <- E. apply Hc. Qed.

Lemma chain_at h A a B :
  F h = A ++ a :: B -> km_links m !! a = Some (mk_links (hd_or B None) (last_or None A)).
Proof. intros [_ [? _]]%links_split. done. Qed.

Lemma chain_get h A a B : F h = A ++ a :: B -> get_links a m = Ok (mk_links (hd_or B None) (last_or None A)).
Proof. intros E. unfold get_links. by rewrite (chain_at h A a B E). Qed.

(** The blocks of a level are different blocks. *)
Lemma chain_ne h A a B x :
  F h = A ++ a :: B -> x ∈ A \/ x ∈ B -> x <> a.
Proof.
  intros E Hx ->. pose proof (ch_nodup _ _ Hc h) as Hnd. rewrite E in Hnd.
  apply NoDup_app in Hnd as (_ & Hd & [Hn _]%NoDup_cons). destruct Hx as [Hx|Hx]; [|done].
  apply (Hd a Hx), elem_of_cons. by left.
Qed.

Lemma chain_fresh h x : x ∈ F h -> x <> km_fresh m.
Proof. intros Hx ->. apply (ch_fresh _ _ Hc) in Hx. lia. Qed.

(** The first block of [B] and the others. *)
Lemma chain_tail h A a B b x :
  F h = A ++ a :: B -> head B = Some b -> x ∈ A \/ x = a \/ x ∈ tail B -> x <> b.
Proof.
  destruct B as [|b' B]; [done|]. intros E [= ->] Hx. change (a :: b :: B) with ([a] ++ b :: B) in E.
  rewrite app_assoc in E. eapply chain_ne; [exact E|]. cbn in Hx. rewrite elem_of_app, list_elem_of_singleton. tauto.
Qed.

(** The level with the links [lk'] of the block [a], of the new block [L]
    between [a] and [B], if any, and of the first block of [B]. *)
Lemma relinked h A a L B lk' :
  F h = A ++ a :: B -> (length L <= 1)%nat ->
  lk' !! a = Some (mk_links (hd_or L (hd_or B None)) (last_or None A)) ->
  (forall r, r ∈ L -> lk' !! r = Some (mk_links (hd_or B None) (Some a))) ->
  (forall b, head B = Some b -> lk' !! b = Some (mk_links (hd_or (tail B) None) (last_or (Some a) L))) ->
  (forall x, x ∈ A \/ x ∈ tail B -> lk' !! x = km_links m !! x) ->
  dlseg lk' None (A ++ a :: L ++ B) None.
Proof.
  intros E Hl Ha Hr Hb Ho. pose proof (links_split h A (a :: B) E) as [HlA [_ HlB]].
  apply dlseg_app. split; [eapply dlseg_ext; [|exact HlA]; auto|].
  destruct L as [|r [|r' L]]; [| |cbn in Hl; lia]; cbn [app dlseg hd_or] in *.
  - split; [done|]. eapply dlseg_behind; [exact HlB|exact Hb|auto].
  - split_and!; [done|apply Hr; by apply list_elem_of_singleton|]. eapply dlseg_behind; [exact HlB|exact Hb|auto].
Qed.

(** The other blocks. *)
Lemma chain_others h n x y : n <> h -> x ∈ F n -> y ∈ F h -> x <> y.
Proof. intros Hn Hx Hy ->. apply Hn. by apply (ch_disj _ _ Hc _ _ y). Qed.

Lemma in_tail (B : list Z) x : x ∈ tail B -> x ∈ B.
Proof. destruct B; [done|]. rewrite elem_of_cons. auto. Qed.

Lemma in_head (B : list Z) b : head B = Some b -> b ∈ B.
Proof. destruct B; [done|]. intros [= ->]. apply elem_of_cons. by left. Qed.

(** The new links of [a], and of the first block of [B]. *)
Definition joined A a nx B pv lk : gmap Z blk_links :=
  match head B with
  | Some b => <[b := mk_links (hd_or (tail B) None) pv]> (<[a := mk_links nx (last_or None A)]> lk)
  | None => <[a := mk_links nx (last_or None A)]> lk
  end.

Lemma joined_left A a nx B pv lk : a ∉ B -> joined A a nx B pv lk !! a = Some (mk_links nx (last_or None A)).
Proof.
  intros Ha. unfold joined. destruct (head B) as [b|] eqn:Hb; [|apply lookup_insert_eq].
  rewrite lookup_insert_ne; [apply lookup_insert_eq|]. intros <-. by apply Ha, in_head.
Qed.

Lemma joined_right A a nx B pv lk b :
  head B = Some b -> joined A a nx B pv lk !! b = Some (mk_links (hd_or (tail B) None) pv).
Proof. unfold joined. intros ->. apply lookup_insert_eq. Qed.

Lemma joined_others A a nx B pv lk x :
  x <> a -> (forall b, head B = Some b -> x <> b) -> joined A a nx B pv lk !! x = lk !! x.
Proof.
  intros Ha Hb. unfold joined. destruct (head B) as [b|]; [|by apply lookup_insert_ne].
  specialize (Hb b eq_refl). by rewrite !lookup_insert_ne.
Qed.

(** What is before [B] and behind its first block. *)
Lemma links_apart h A a B x :
  F h = A ++ a :: B -> x ∈ A \/ x ∈ tail B -> x <> a /\ forall b, head B = Some b -> x <> b.
Proof.
  intros E Hx. split.
  - eapply chain_ne; [exact E|]. destruct Hx; [auto|]. right. by apply in_tail.
  - intros b Hb. eapply chain_tail; [exact E|exact Hb|tauto].
Qed.

Lemma chain_nodup h A a B : F h = A ++ a :: B -> a ∉ B.
Proof. intros E Ha. by apply (chain_ne h A a B a E); [auto|]. Qed.

Lemma chain_second h A a b B : F h = A ++ a :: b :: B -> km_links m !! b = Some (mk_links (hd_or B None) (Some a)).
Proof.
  intros E. change (a :: b :: B) with ([a] ++ b :: B) in E. rewrite app_assoc in E.
  rewrite (chain_at h _ b B E). unfold last_or. by rewrite last_snoc.
Qed.

(** *** A new block behind [a] *)
Section Link.
Context (h : nat) (A : list Z) (a : Z) (B : list Z) (E : F h = A ++ a :: B).
#[local] Abbreviation r := (km_fresh m).

Definition linked (avail : nat) : ksl_mem :=
  mk_mem avail (r + 1) (<[r := mk_links (hd_or B None) (Some a)]> (joined A a (Some r) B (Some r) (km_links m))) (km_front m)
    (if decide (B = [] /\ km_back m = Some a) then Some r else km_back m).

Lemma level_in x : x ∈ A ++ a :: B -> x ∈ F h /\ x <> r.
Proof. intros Hx. rewrite <- E in Hx. split; [done|by eapply chain_fresh]. Qed.

Lemma link_blk_linked avail :
  link_blk a r (mk_mem avail (r + 1) (<[r := unset_links]> (km_links m)) (km_front m) (km_back m)) = Ok (linked avail).
Proof.
  pose proof level_in as Hin. pose proof E as Heq. destruct (Hin a) as [_ Har]; [rewrite elem_of_app, elem_of_cons; auto|].
  unfold link_blk, set_next, set_prev, get_links, set_links, set_ends, linked, joined. cbn [km_links km_avail km_fresh km_front km_back].
  rewrite lookup_insert_ne, (chain_at h A a B E), lookup_insert_eq by done. cbn [bind lk_next lk_prev km_links km_avail km_fresh km_front km_back].
  rewrite insert_insert_eq, lookup_insert_ne, (chain_at h A a B E) by done.
  cbn [bind lk_next lk_prev km_links km_avail km_fresh km_front km_back]. destruct B as [|b B']; cbn [hd_or head tail].
  - set (m1 := if decide _ then _ else _).
    assert (Em : m1 = mk_mem avail (r + 1) (<[a:=mk_links (Some r) (last_or None A)]> (<[r:=mk_links None (lk_prev unset_links)]> (km_links m)))
      (km_front m) (if decide (km_back m = Some a) then Some r else km_back m)) by (unfold m1; by case_decide).
    rewrite Em. cbn [bind km_links km_avail km_fresh km_front km_back].
    rewrite lookup_insert_ne, lookup_insert_eq by done. cbn [bind lk_next]. do 2 f_equal.
    + by rewrite (insert_insert_ne _ a r), insert_insert_eq by done.
    + destruct (decide (km_back m = Some a)); [by rewrite decide_True|]. rewrite decide_False; [done|tauto].
  - pose proof (chain_second h A a b B' Heq) as Hlb.
    destruct (Hin b) as [_ Hbr]; [rewrite elem_of_app, !elem_of_cons; auto|].
    assert (b <> a) by (eapply chain_ne; [exact Heq|rewrite elem_of_cons; auto]).
    rewrite !lookup_insert_ne, Hlb by done. cbn [bind lk_next km_links km_avail km_fresh km_front km_back].
    rewrite lookup_insert_ne, lookup_insert_ne, lookup_insert_eq by done. cbn [bind lk_next]. do 2 f_equal.
    by rewrite (insert_insert_ne _ a r), (insert_insert_ne _ b r), insert_insert_eq by done.
Qed.

Lemma linked_chained avail : chained (linked avail) (upd F h (A ++ a :: r :: B)).
Proof.
  apply (chained_upd m); cbn [linked km_links km_fresh km_front km_back].
  - done.
  - apply (relinked h A a [r] B); [done|cbn; lia| | | |].
    + rewrite lookup_insert_ne; [apply joined_left; by eapply chain_nodup|]. apply not_eq_sym, level_in.
      rewrite elem_of_app, elem_of_cons. auto.
    + intros x ->%list_elem_of_singleton. apply lookup_insert_eq.
    + intros b Hb. rewrite lookup_insert_ne; [by apply joined_right|]. apply not_eq_sym, level_in.
      rewrite elem_of_app, elem_of_cons. apply in_head in Hb. auto.
    + intros x Hx. destruct (links_apart _ _ _ _ _ E Hx). rewrite lookup_insert_ne; [by apply joined_others|].
      apply not_eq_sym, level_in. rewrite elem_of_app, elem_of_cons. destruct Hx as [|?%in_tail]; auto.
  - pose proof (ch_nodup _ _ Hc h) as Hnd. rewrite E in Hnd.
    change (a :: r :: B) with ([a] ++ r :: B). rewrite app_assoc, <- Permutation_middle, <- app_assoc.
    constructor; [|exact Hnd]. intros [_ Hr]%level_in. done.
  - intros x. rewrite E, !elem_of_app, !elem_of_cons. intros [?|[?|[->|?]]]; auto. right. lia.
  - lia.
  - intros n x Hn Hx. rewrite lookup_insert_ne by (by apply not_eq_sym, (chain_fresh n)). apply joined_others.
    + eapply chain_others; [exact Hn|done|]. rewrite E, elem_of_app, elem_of_cons. auto.
    + intros b Hb%in_head. eapply chain_others; [exact Hn|done|]. rewrite E, elem_of_app, elem_of_cons. auto.
  - by rewrite (upd_head _ _ _ _ _ _ E), (ch_front _ _ Hc).
  - apply (upd_last m F h A a B); [done|done| |].
    + intros ->. destruct (decide (km_back m = Some a)); [by rewrite decide_True|]. rewrite decide_False; [done|tauto].
    + intros Hne. rewrite decide_False by tauto. split; [done|]. by destruct B.
Qed.

Lemma link_run avail :
  km_avail m = S avail ->
  exists m1 m2, ksl_blk_objalloc_new m = Some (r, m1) /\ link_blk a r m1 = Ok m2 /\
    km_avail m2 = avail /\ chained m2 (upd F h (A ++ a :: r :: B)).
Proof.
  intros Hav. unfold ksl_blk_objalloc_new. rewrite Hav. eexists _, (linked avail).
  split_and!; [done|apply link_blk_linked|done|apply linked_chained].
Qed.
End Link.

(** *** The block behind [a] goes *)
Section Unlink.
Context (h : nat) (A : list Z) (a r : Z) (B : list Z) (E : F h = A ++ a :: r :: B).

Definition unlinked : ksl_mem :=
  mk_mem (S (km_avail m)) (km_fresh m) (delete r (joined A a (hd_or B None) B (Some a) (km_links m))) (km_front m)
    (if decide (B = [] /\ km_back m = Some r) then Some a else km_back m).

Lemma unlink_apart : r <> a /\ r ∉ B /\ a ∉ B.
Proof.
  split; [eapply chain_ne; [exact E|rewrite elem_of_cons; auto]|]. split.
  - pose proof E as E'. change (a :: r :: B) with ([a] ++ r :: B) in E'. rewrite app_assoc in E'. by eapply chain_nodup.
  - intros Ha. apply (chain_nodup _ _ _ _ E), elem_of_cons. auto.
Qed.

Lemma unlink_blk_unlinked : unlink_blk a r m = Ok unlinked.
Proof.
  destruct unlink_apart as (Hra & HrB & HaB). pose proof (chain_at h A a (r :: B) E) as Hla. pose proof (chain_second h A a r B E) as Hlr.
  unfold unlink_blk, set_next, set_prev, get_links, set_links, set_ends, ksl_blk_objalloc_del, unlinked, joined.
  rewrite Hlr. cbn [bind lk_next lk_prev km_links km_avail km_fresh km_front km_back].
  rewrite Hla. cbn [bind lk_next lk_prev km_links km_avail km_fresh km_front km_back].
  destruct B as [|b B']; cbn [hd_or head tail bind].
  - case_decide as Hb; cbn [km_links km_avail km_fresh km_front km_back]; do 2 f_equal.
    + by rewrite decide_True.
    + rewrite decide_False; [done|tauto].
  - assert (b <> a) by (intros ->; apply HaB, elem_of_cons; auto).
    assert (Hlb : km_links m !! b = Some (mk_links (hd_or B' None) (Some r))).
    { pose proof E as E'. change (a :: r :: b :: B') with ([a] ++ r :: b :: B') in E'. rewrite app_assoc in E'. by eapply chain_second. }
    rewrite lookup_insert_ne, Hlb by done. cbn [bind lk_next km_links km_avail km_fresh km_front km_back].
    by do 2 f_equal.
Qed.

Lemma unlinked_chained : chained unlinked (upd F h (A ++ a :: B)).
Proof.
  destruct unlink_apart as (Hra & HrB & HaB). pose proof (links_split h A (a :: r :: B) E) as [HlA (_ & _ & HlB)].
  assert (Hr : forall x, x ∈ A \/ x ∈ B -> x <> r).
  { intros x Hx. pose proof E as E'. change (a :: r :: B) with ([a] ++ r :: B) in E'. rewrite app_assoc in E'.
    eapply chain_ne; [exact E'|]. rewrite elem_of_app. tauto. }
  apply (chained_upd m); cbn [unlinked km_links km_fresh km_front km_back].
  - done.
  - apply dlseg_app. split; [|cbn [dlseg]; split].
    + eapply dlseg_ext; [|exact HlA]. intros x Hx. rewrite lookup_delete_ne by (apply not_eq_sym; auto). apply joined_others.
      * eapply chain_ne; [exact E|auto].
      * intros b Hb%in_head. pose proof (ch_nodup _ _ Hc h) as Hnd. rewrite E in Hnd. apply NoDup_app in Hnd as (_ & Hd & _).
        intros ->. apply (Hd b Hx). rewrite !elem_of_cons. auto.
    + rewrite lookup_delete_ne by done. by apply joined_left.
    + eapply dlseg_behind; [exact HlB| |].
      * intros b Hb. rewrite lookup_delete_ne; [by apply joined_right|]. intros <-. by apply HrB, in_head.
      * intros x Hx. rewrite lookup_delete_ne by (apply not_eq_sym, Hr; right; by apply in_tail). apply joined_others.
        -- intros ->. by apply HaB, in_tail.
        -- intros b Hb. destruct B as [|b' B']; [done|]. injection Hb as ->. intros ->.
           pose proof (ch_nodup _ _ Hc h) as Hnd. rewrite E in Hnd. apply NoDup_app in Hnd as (_ & _ & Hnd).
           rewrite !NoDup_cons in Hnd. tauto.
  - pose proof (ch_nodup _ _ Hc h) as Hnd. rewrite E in Hnd. change (a :: r :: B) with ([a] ++ r :: B) in Hnd.
    rewrite app_assoc, <- Permutation_middle, <- app_assoc in Hnd. by apply NoDup_cons in Hnd as [_ Hnd].
  - intros x. rewrite E, !elem_of_app, !elem_of_cons. tauto.
  - lia.
  - assert (Hin : forall y, y ∈ A \/ y = a \/ y = r \/ y ∈ B -> y ∈ F h) by (intros y; rewrite E, !elem_of_app, !elem_of_cons; tauto).
    intros n x Hn Hx. rewrite lookup_delete_ne by (apply not_eq_sym; eapply chain_others; [exact Hn|done|apply Hin; tauto]).
    apply joined_others; [|intros b Hb%in_head]; (eapply chain_others; [exact Hn|done|apply Hin; tauto]).
  - by rewrite (upd_head _ _ _ _ _ _ E), (ch_front _ _ Hc).
  - destruct B as [|b B'].
    + destruct (decide (h = 0%nat)) as [->|Hne].
      * rewrite upd_eq, last_middle, (ch_back _ _ Hc), E, last_middle. cbn. by rewrite decide_True.
      * rewrite upd_ne by auto. rewrite decide_False; [by rewrite (ch_back _ _ Hc)|]. intros [_ Hl]. rewrite (ch_back _ _ Hc) in Hl. apply last_Some_elem_of in Hl.
        apply Hne. apply (ch_disj _ _ Hc _ _ r); [|done]. rewrite E, elem_of_app, !elem_of_cons. auto.
    + rewrite decide_False by (by intros []). rewrite (ch_back _ _ Hc). unfold upd.
      destruct (Nat.eqb_spec 0 h) as [<-|]; [|done]. rewrite E, !last_middle, !last_cons. by destruct (last B').
Qed.
End Unlink.
End Change.

(** *** Roots *)

(** The memory with the block [root], which is alone in its level. *)
Definition with_root root m : ksl_mem := set_links (<[root := mk_links None None]> (km_links m)) m.

Lemma objalloc_new m avail :
  km_avail m = S avail ->
  ksl_blk_objalloc_new m = Some (km_fresh m, mk_mem avail (km_fresh m + 1) (<[km_fresh m := unset_links]> (km_links m)) (km_front m) (km_back m)).
Proof. unfold ksl_blk_objalloc_new. by intros ->. Qed.

Lemma new_level m m' F h :
  chained m F -> F h = [] -> km_fresh m' = km_fresh m + 1 ->
  km_links m' = <[km_fresh m := mk_links None None]> (<[km_fresh m := unset_links]> (km_links m)) ->
  km_front m' = head (upd F h [km_fresh m] 0%nat) -> km_back m' = last (upd F h [km_fresh m] 0%nat) ->
  chained m' (upd F h [km_fresh m]).
Proof.
  intros Hc E Hf Hl Hfr Hb. apply (chained_upd m); try done; rewrite ?Hl, ?Hf.
  - cbn. by rewrite lookup_insert_eq.
  - apply NoDup_singleton.
  - intros x ->%list_elem_of_singleton. right. lia.
  - lia.
  - intros n x _ Hx%(chain_fresh _ _ Hc). by rewrite !lookup_insert_ne.
Qed.

Lemma root_added m F h avail :
  chained m F -> F h = [] -> h <> 0%nat -> km_avail m = S avail ->
  exists m1, ksl_blk_objalloc_new m = Some (km_fresh m, m1) /\ km_avail m1 = avail /\
    chained (with_root (km_fresh m) m1) (upd F h [km_fresh m]).
Proof.
  intros Hc E Hh Hav. eexists. split; [by apply objalloc_new|]. split; [done|].
  apply (new_level m); try done; rewrite upd_ne by auto; apply Hc.
Qed.

Lemma root_init_run {K V : Type} m avail :
  chained m (fun _ => []) -> km_avail m = S avail ->
  exists m', ksl_root_init (K := K) (V := V) m = Some (Leaf (km_fresh m) [], m') /\ km_avail m' = avail /\
    chained m' (upd (fun _ => []) 0 [km_fresh m]).
Proof.
  intros Hc Hav. unfold ksl_root_init. rewrite (objalloc_new _ _ Hav). eexists. split; [done|]. split; [done|].
  by apply (new_level m).
Qed.

Lemma root_removed m F h a :
  chained m F -> F h = [a] -> h <> 0%nat -> chained (ksl_blk_objalloc_del a m) (upd F h []).
Proof.
  intros Hc E Hh. apply (chained_upd m); cbn; try done; try (rewrite upd_ne by auto; apply Hc); [constructor|by intros x ?%elem_of_nil|].
  intros n x Hn Hx. apply lookup_delete_ne. eapply not_eq_sym, (chain_others _ _ Hc h); [exact Hn|done|].
  rewrite E. by apply list_elem_of_singleton.
Qed.

(** ** The tree *)
Section Tree.
Context {K V : Type}.
Abbreviation blk := (ngtcp2_ksl_blk K V).
Implicit Types (b c : blk) (l P Q : list (K * blk)) (n h i : nat).

(** A block without its pointers. *)
Fixpoint erase b : ktree K V :=
  match b with
  | Leaf _ l => TLeaf l
  | Node _ l => TNode (map (fun p => (p.1, erase p.2)) l)
  end.

Definition erases l : list (K * ktree K V) := map (fun p => (p.1, erase p.2)) l.

(** The blocks of level [n] of a block of level [h]. *)
Fixpoint level n h b : list Z :=
  if (n =? h)%nat then [blk_id b] else
  match h, b with
  | S h, Node _ l => concat (map (fun p => level n h p.2) l)
  | _, _ => []
  end.

Definition levels n h l : list Z := concat (map (fun p => level n h p.2) l).

Lemma levels_app n h P Q : levels n h (P ++ Q) = levels n h P ++ levels n h Q.
Proof. unfold levels. by rewrite map_app, concat_app. Qed.

Lemma levels_cons n h k c Q : levels n h ((k, c) :: Q) = level n h c ++ levels n h Q.
Proof. done. Qed.

Lemma level_self h b : level h h b = [blk_id b].
Proof. destruct h; cbn [level]; by rewrite Nat.eqb_refl. Qed.

Lemma level_node n h a l : n <> S h -> level n (S h) (Node a l) = levels n h l.
Proof. intros Hn. cbn [level]. by rewrite (proj2 (Nat.eqb_neq _ _) Hn). Qed.

Lemma level_above n h b : (h < n)%nat -> level n h b = [].
Proof.
  revert b. induction h as [|h IH]; intros b Hn; cbn [level]; rewrite (proj2 (Nat.eqb_neq _ _)) by lia; [done|].
  destruct b as [|a l]; [done|]. induction l as [|p l IHl]; [done|]. cbn [map concat]. rewrite IH by lia. exact IHl.
Qed.

Lemma levels_above n h l : (h < n)%nat -> levels n h l = [].
Proof. intros Hn. induction l as [|[k c] l IH]; [done|]. by rewrite levels_cons, level_above, IH. Qed.

(** A block with another key or other elements. *)
Lemma level_leaf n h a (l l' : list (K * V)) : level n h (Leaf a l) = level n h (Leaf a l').
Proof. by destruct h. Qed.

Lemma erases_app P Q : erases (P ++ Q) = erases P ++ erases Q.
Proof. apply map_app. Qed.

Lemma erases_take i l : erases (take i l) = take i (erases l).
Proof. symmetry. apply firstn_map. Qed.

Lemma erases_drop i l : erases (drop i l) = drop i (erases l).
Proof. symmetry. apply skipn_map. Qed.

Lemma erases_length l : length (erases l) = length l.
Proof. apply length_map. Qed.

Lemma erases_lookup l i : erases l !! i = (fun p => (p.1, erase p.2)) <$> (l !! i).
Proof. apply list_lookup_fmap. Qed.

Lemma erases_insert l i k c : <[i := (k, erase c)]> (erases l) = erases (<[i := (k, c)]> l).
Proof. symmetry. apply (list_fmap_insert (fun p : K * blk => (p.1, erase p.2)) l i (k, c)). Qed.

Lemma erases_keys l : (erases l).*1 = l.*1.
Proof. unfold erases. rewrite <- list_fmap_compose. by apply list_fmap_ext. Qed.

Lemma erase_n b : tree_n (erase b) = blk_n b.
Proof. destruct b; [done|]. apply length_map. Qed.

Lemma erase_keys b : tree_keys (erase b) = blk_keys b.
Proof. destruct b as [|a l]; [done|]. apply erases_keys. Qed.

Lemma erase_take a i b : erase (blk_take a i b) = tree_take i (erase b).
Proof. destruct b; cbn; [done|]. f_equal. apply erases_take. Qed.

Lemma erase_drop a i b : erase (blk_drop a i b) = tree_drop i (erase b).
Proof. destruct b; cbn; [done|]. f_equal. apply erases_drop. Qed.

Lemma erase_last_key b : tree_last_key (erase b) = last_key b.
Proof. unfold tree_last_key, last_key. by rewrite erase_keys. Qed.

Lemma erase_height b : tree_height (erase b) = height b.
Proof.
  revert b. fix IH 1. intros [a l|a l]; [done|]. cbn. do 2 f_equal. induction l as [|p l IHl]; [done|]. cbn. by rewrite IH, IHl.
Qed.

Lemma erase_count b : tree_count (erase b) = blk_count b.
Proof.
  revert b. fix IH 1. intros [a l|a l]; [done|]. cbn. do 2 f_equal. induction l as [|p l IHl]; [done|]. cbn. by rewrite IH, IHl.
Qed.

Lemma erase_leaves b : tree_leaves (erase b) = (blk_leaves b).*2.
Proof.
  revert b. fix IH 1. intros [a l|a l]; [done|]. cbn. induction l as [|p l IHl]; [done|]. cbn. by rewrite fmap_app, IH, IHl.
Qed.

(** *** Parts of blocks *)
Lemma level_parts n h a a' i b : n <> h -> level n h (blk_take a i b) ++ level n h (blk_drop a' i b) = level n h b.
Proof.
  intros Hn. destruct h as [|h]; cbn [level]; [by rewrite (proj2 (Nat.eqb_neq _ _) Hn)|].
  rewrite (proj2 (Nat.eqb_neq _ _) Hn). destruct b as [x l|x l]; cbn [blk_take blk_drop]; [done|].
  change (levels n h (take i l) ++ levels n h (drop i l) = levels n h l). by rewrite <- levels_app, take_drop.
Qed.

Lemma level_joined n h a b c d : blk_app a b c = Ok d -> n <> h -> level n h d = level n h b ++ level n h c.
Proof.
  intros E Hn. destruct h as [|h]; cbn [level]; [by rewrite (proj2 (Nat.eqb_neq _ _) Hn)|].
  rewrite (proj2 (Nat.eqb_neq _ _) Hn). destruct b as [x l|x l], c as [y k|y k]; cbn in E; try done; injection E as <-; [done|].
  apply (levels_app n h l k).
Qed.

Lemma erase_app a b c t :
  tree_app (erase b) (erase c) = Ok t -> exists d, blk_app a b c = Ok d /\ erase d = t /\ blk_id d = a.
Proof.
  destruct b as [x l|x l], c as [y k|y k]; cbn; try done; intros [= <-]; eexists; (split; [reflexivity|]); [done|].
  cbn. split; [|done]. by rewrite erases_app.
Qed.

Lemma blk_take_id a i b : blk_id (blk_take a i b) = a.
Proof. by destruct b. Qed.

Lemma blk_drop_id a i b : blk_id (blk_drop a i b) = a.
Proof. by destruct b. Qed.

(** All leaves are [h] levels down. *)
Fixpoint uni h b : Prop :=
  match h, b with
  | O, Leaf _ _ => True
  | S h, Node _ l => Forall (fun p => uni h p.2) l
  | _, _ => False
  end.

Definition unis h l : Prop := Forall (fun p => uni h p.2) l.

Lemma uni_take h a i b : uni h b -> uni h (blk_take a i b).
Proof. destruct h, b; cbn; try done. apply Forall_take. Qed.

Lemma uni_drop h a i b : uni h b -> uni h (blk_drop a i b).
Proof. destruct h, b; cbn; try done. apply Forall_drop. Qed.

Lemma uni_joined h a b c d : blk_app a b c = Ok d -> uni h b -> uni h c -> uni h d.
Proof. destruct h, b as [x l|x l], c as [y k|y k]; cbn; try done; intros [= <-]; [done|]. intros Hl Hk. by apply Forall_app. Qed.

(** *** Levels around a part of the tree *)
Definition around F1 F2 F : nat -> list Z := fun n => F1 n ++ F n ++ F2 n.

(** The block of the nodes of level [h]. *)
Definition own h (a : Z) : nat -> list Z := fun n => if (n =? S h)%nat then [a] else [].

Definition nil_frame : nat -> list Z := fun _ => [].

Lemma level_own n h a l : level n (S h) (Node a l) = own h a n ++ levels n h l.
Proof.
  unfold own. cbn [level]. destruct (Nat.eqb_spec n (S h)) as [->|]; [|done]. by rewrite levels_above by lia.
Qed.

Lemma chained_node m F1 F2 h a l :
  chained m (around F1 F2 (fun n => level n (S h) (Node a l))) <->
  chained m (around (fun n => F1 n ++ own h a n) F2 (fun n => levels n h l)).
Proof. split; apply chained_ext; intros n; unfold around; by rewrite level_own, <- !app_assoc. Qed.

Lemma chained_child m F1 F2 h P k c Q :
  chained m (around F1 F2 (fun n => levels n h (P ++ (k, c) :: Q))) <->
  chained m (around (fun n => F1 n ++ levels n h P) (fun n => levels n h Q ++ F2 n) (fun n => level n h c)).
Proof. split; apply chained_ext; intros n; unfold around; by rewrite levels_app, levels_cons, <- !app_assoc. Qed.

Lemma chained_around m F1 F2 F G : (forall n, F n = G n) -> chained m (around F1 F2 F) -> chained m (around F1 F2 G).
Proof. intros He. apply chained_ext. intros n. unfold around. by rewrite He. Qed.

Lemma nodes_at l i k c : l !! i = Some (k, c) -> l = take i l ++ (k, c) :: drop (S i) l.
Proof. intros H. by rewrite take_drop_middle. Qed.

(** *** Insertion *)
Lemma split_blk_sim m F1 F2 h c tl tr avail :
  chained m (around F1 F2 (fun n => level n h c)) -> km_avail m = S avail -> tree_split_blk (erase c) = Ok (tl, tr) ->
  exists bl br m', ksl_split_blk m c = Ok (Some (bl, br, m')) /\ erase bl = tl /\ erase br = tr /\
    km_avail m' = avail /\ chained m' (around F1 F2 (fun n => level n h bl ++ level n h br)).
Proof.
  intros Hc Hav. unfold tree_split_blk, ksl_split_blk. rewrite erase_n. destruct (_ && _) eqn:Ea; [|done].
  set (i := (blk_n c - blk_n c / 2)%nat) in *. intros [= Ht].
  assert (tl = tree_take i (erase c) /\ tr = tree_drop i (erase c)) as [-> ->] by (destruct c; cbn in *; by injection Ht as <- <-). clear Ht.
  destruct (link_run m _ Hc h (F1 h) (blk_id c) (F2 h)) with (avail := avail) as (m1 & m2 & -> & Hlk & Hav2 & Hc2); [|done|].
  { unfold around. by rewrite level_self. }
  rewrite Hlk.
  cbn [bind]. do 3 eexists. split; [reflexivity|]. rewrite erase_take, erase_drop.
  split_and!; [done..|].
  eapply chained_ext; [|exact Hc2]. intros n. unfold upd, around. destruct (Nat.eqb_spec n h) as [->|Hn].
  - by rewrite !level_self, blk_take_id, blk_drop_id.
  - by rewrite level_parts.
Qed.

Lemma split_full_sim m F1 F2 h l i t :
  chained m (around F1 F2 (fun n => levels n h l)) -> tree_split_full (erases l) i (km_avail m) = Ok t ->
  exists r, split_full m l i = Ok r /\
    match t, r with
    | None, None => True
    | Some (tl, avail), Some (l', m') =>
        erases l' = tl /\ km_avail m' = avail /\ chained m' (around F1 F2 (fun n => levels n h l'))
    | _, _ => False
    end.
Proof.
  intros Hc. unfold tree_split_full, split_full. rewrite erases_lookup.
  destruct (l !! i) as [[k c]|] eqn:El; cbn [fmap option_fmap option_map fst snd]; [|done]. rewrite erase_n.
  destruct (_ =? _)%nat; [|intros [= <-]; eexists; split; [reflexivity|]; by split_and!].
  unfold tree_split_node, ksl_split_node. rewrite erases_lookup, El. cbn [fmap option_fmap option_map fst snd].
  destruct (km_avail m) as [|avail] eqn:Hav.
  { intros [= <-]. exists None. split; [|done]. unfold ksl_split_blk, ksl_blk_objalloc_new. by rewrite Hav. }
  destruct (tree_split_blk (erase c)) as [[tl tr]| |] eqn:Es; cbn [bind]; try done.
  rewrite (nodes_at _ _ _ _ El) in Hc. apply chained_child in Hc.
  destruct (split_blk_sim m _ _ h c tl tr avail Hc Hav Es) as (bl & br & m' & -> & <- & <- & Hav' & Hc'). cbn [bind].
  rewrite erase_last_key. destruct (last_key bl) as [lk| |]; cbn [bind]; try done. intros [= <-].
  eexists. split; [reflexivity|]. split_and!; [|done|].
  - rewrite erases_app, erases_take. cbn. by rewrite <- erases_drop.
  - eapply chained_ext; [|exact Hc']. intros n. unfold around. by rewrite levels_app, !levels_cons, <- !app_assoc.
Qed.

(** What an iterator of the tree is in the list. *)
Definition it_sim b (it : option ngtcp2_ksl_it) (t : option tree_it) : Prop :=
  match it, t with
  | Some it, Some t => exists a, (blk_leaves b).*1 !! tit_leaf t = Some a /\ it = mk_it (Some a) (tit_i t)
  | None, None => True
  | _, _ => False
  end.

Record sim F1 F2 h (r : insertion (K := K) (V := V)) (t : tree_insertion (K := K) (V := V)) : Prop := {
  sim_rv : r.1.1.1 = t.1.1.1;
  sim_blk : erase r.1.1.2 = t.1.1.2;
  sim_avail : km_avail r.1.2 = t.1.2;
  sim_it : it_sim r.1.1.2 r.2 t.2;
  sim_chain : chained r.1.2 (around F1 F2 (fun n => level n h r.1.1.2));
}.

Lemma sim_leaf m F1 F2 h rv a (l l' : list (K * V)) i :
  chained m (around F1 F2 (fun n => level n h (Leaf a l))) ->
  sim F1 F2 h (rv, Leaf a l', m, Some (mk_it (Some a) i)) (rv, TLeaf l', km_avail m, Some (mk_tit 0 i)).
Proof.
  intros Hc. split; try done; [by exists a|]. eapply chained_around; [|exact Hc]. intros n. apply level_leaf.
Qed.

Lemma sim_none m F1 F2 h rv b :
  chained m (around F1 F2 (fun n => level n h b)) -> sim F1 F2 h (rv, b, m, None) (rv, erase b, km_avail m, None).
Proof. by split. Qed.

Lemma leaves_before_ids l i : tree_leaves_before (erases l) i = length (concat (map (fun p => (blk_leaves p.2).*1) (take i l))).
Proof.
  unfold tree_leaves_before. rewrite <- erases_take. induction (take i l) as [|p P IH]; [done|].
  change (erases (p :: P)) with ((p.1, erase p.2) :: erases P). cbn [map concat snd].
  rewrite !length_app, IH, erase_leaves, !length_fmap. done.
Qed.

Lemma leaves_ids l : (concat (map (fun p => blk_leaves p.2) l)).*1 = concat (map (fun p => (blk_leaves p.2).*1) l).
Proof. induction l as [|p l IH]; [done|]. cbn. by rewrite fmap_app, IH. Qed.

Lemma in_child_sim (Pr : blk -> Prop) m F1 F2 h h' a l i f f' t :
  chained m (around F1 F2 (fun n => level n (S h) (Node a l))) ->
  (forall G1 G2 k c t, l !! i = Some (k, c) -> chained m (around G1 G2 (fun n => level n h c)) -> f' (erase c) = Ok t ->
    exists r, f c = Ok r /\ sim G1 G2 h r t /\ Pr r.1.1.2) ->
  h' = S h -> tree_in_child (erases l) i f' = Ok t ->
  exists r, in_child a l i f = Ok r /\ sim F1 F2 h' r t /\
    exists k c d, l !! i = Some (k, c) /\ Pr d /\ r.1.1.2 = Node a (<[i := (k, d)]> l).
Proof.
  intros Hc Hf ->. unfold tree_in_child, in_child. rewrite erases_lookup.
  destruct (l !! i) as [[k c]|] eqn:El; cbn [fmap option_fmap option_map fst snd]; [|done].
  destruct (f' (erase c)) as [[[[rv c'] av] it]| |] eqn:Ef; cbn [bind]; try done. intros [= <-].
  pose proof (nodes_at _ _ _ _ El) as Hl. apply chained_node in Hc. rewrite Hl in Hc. apply chained_child in Hc.
  destruct (Hf _ _ _ _ _ eq_refl Hc Ef) as ([[[rv' d] m'] it'] & -> & [S1 S2 S3 S4 S5] & Hpr). cbn in S1, S2, S3, S4, S5 |- *.
  eexists. split; [reflexivity|]. split; [|by exists k, c, d]. subst. pose proof (lookup_lt_Some _ _ _ El) as Hlt.
  assert (Hins : <[i := (k, d)]> l = take i l ++ (k, d) :: drop (S i) l) by (by apply insert_take_drop).
  split; cbn [fst snd erase]; try done.
  - f_equal. symmetry. apply erases_insert.
  - destruct it' as [it'|], it as [t|]; cbn in S4 |- *; try done. destruct S4 as (x & Hx & ->). exists x. split; [|done].
    rewrite Hins, leaves_before_ids, leaves_ids, map_app, concat_app. cbn. rewrite lookup_app_r by lia.
    rewrite Nat.add_comm, Nat.add_sub. rewrite lookup_app_l; [done|]. by eapply lookup_lt_Some.
  - apply chained_node. rewrite Hins. by apply chained_child.
Qed.

Lemma set_nth_key_sim h l i key tl :
  tree_set_nth_key (erases l) i key = Ok tl ->
  exists l', set_nth_key l i key = Ok l' /\ erases l' = tl /\ forall n, levels n h l' = levels n h l.
Proof.
  unfold tree_set_nth_key, set_nth_key. rewrite erases_lookup.
  destruct (l !! i) as [[k c]|] eqn:El; cbn [fmap option_fmap option_map fst snd]; [|done]. intros [= <-].
  eexists. split; [reflexivity|]. split; [symmetry; apply erases_insert|]. intros n.
  rewrite insert_take_drop by (by eapply lookup_lt_Some). rewrite (nodes_at _ _ _ _ El) at 3. by rewrite !levels_app, !levels_cons.
Qed.

Lemma insert_last_sim h : forall F1 F2 m b key data t,
  chained m (around F1 F2 (fun n => level n h b)) -> tree_insert_last h (km_avail m) (erase b) key data = Ok t ->
  exists r, insert_last h m b key data = Ok r /\ sim F1 F2 h r t.
Proof.
  assert (Hleaf : forall h F1 F2 m a (l : list (K * V)) key data t,
    chained m (around F1 F2 (fun n => level n h (Leaf a l))) ->
    (let* nodes := ksl_insert_node l (length l) key data in Ok (0, TLeaf nodes, km_avail m, Some (mk_tit 0 (length l)))) = Ok t ->
    exists r, (let* nodes := ksl_insert_node l (length l) key data in Ok (0, Leaf a nodes, m, Some (mk_it (Some a) (length l)))) = Ok r /\
      sim F1 F2 h r t).
  { intros h0 F1 F2 m a l key data t Hc. destruct (ksl_insert_node l _ key data); cbn [bind]; try done. intros [= <-].
    eexists. split; [reflexivity|]. by eapply sim_leaf. }
  induction h as [|h IH]; intros F1 F2 m [a l|a l] key data t Hc; cbn [tree_insert_last insert_last erase]; [by apply Hleaf|done|by apply Hleaf|].
  fold (erases l). rewrite erases_length. destruct (tree_split_full _ _ _) as [o| |] eqn:Es; cbn [bind]; try done.
  pose proof Hc as Hc0. apply chained_node in Hc. destruct (split_full_sim _ _ _ _ _ _ _ Hc Es) as (r & -> & Hr). cbn [bind].
  destruct o as [[tl av]|], r as [[l' m']|]; try done.
  2:{ intros [= <-]. eexists. split; [reflexivity|]. by apply sim_none. }
  destruct Hr as (<- & <- & Hc'). rewrite erases_length. destruct (tree_set_nth_key _ _ _) as [tl| |] eqn:Ek; cbn [bind]; try done.
  destruct (set_nth_key_sim h _ _ _ _ Ek) as (l2 & El2 & <- & Hl2). rewrite El2. cbn [bind]. rewrite erases_length.
  intros Ht. destruct (in_child_sim (fun _ => True) m' F1 F2 h (S h) a l2 (length l2 - 1) (fun b => insert_last h m' b key data)
    (fun tc => tree_insert_last h (km_avail m') tc key data) t) as (r & -> & Hs & _); [| |done|done|by exists r].
  - apply chained_node. eapply chained_around; [|exact Hc']. intros n. by rewrite Hl2.
  - intros G1 G2 k c t0 _ Hg Ht0. destruct (IH G1 G2 m' c key data t0 Hg Ht0) as (r & ? & ?). by exists r.
Qed.
End Tree.
