(* ===== verification/KslSim.v ===== *)
(** * Ordered map: the functions and the tree

    Insertion, removal, search and the change of a key do to the tree of a
    list what the functions of [KslTree] do, with the chains of [KslChain]
    around the part of the tree where they work. *)

From S2P Require Import Prelude Const Ksl KslTree KslChain KslInv.
From stdpp Require Import list gmap.
#[local] Open Scope Z_scope.
#[local] Set Warnings "-clear-no-such-hyp".

Section Sim.
Context {K V : Type}.
Abbreviation blk := (ngtcp2_ksl_blk K V).
Implicit Types (m : ksl_mem) (F : nat -> list Z) (b c : blk) (l P Q : list (K * blk)) (n h i : nat).

Section Compar.
Context (compar : K -> K -> bool).

(** ** Insertion *)
Lemma insert_leaf_sim h F1 F2 m a (nodes : list (K * V)) key data t :
  chained m (around F1 F2 (fun n => level n h (Leaf a nodes))) ->
  tree_insert_blk compar h (km_avail m) (TLeaf nodes) key data = Ok t ->
  exists r, insert_blk compar h m (Leaf a nodes) key data = Ok r /\ sim F1 F2 h r t.
Proof.
  intros Hc Ht.
  assert (Hins : forall i, (let* nodes' := ksl_insert_node nodes i key data in
      Ok (0, TLeaf nodes', km_avail m, Some (mk_tit 0 i))) = Ok t ->
    exists r, (let* nodes' := ksl_insert_node nodes i key data in
      Ok (0, Leaf a nodes', m, Some (mk_it (Some a) i))) = Ok r /\ sim F1 F2 h r t).
  { intros i. destruct (ksl_insert_node nodes i key data); cbn [bind]; try done. intros [= <-].
    eexists. split; [reflexivity|]. by eapply sim_leaf. }
  destruct h; cbn [tree_insert_blk insert_blk tree_keys blk_keys] in *;
    (destruct (nodes.*1 !! _) as [k|]; [|by apply Hins]);
    (destruct (compar key k); cbn [negb] in *; [by apply Hins|]); injection Ht as <-;
    (eexists; split; [reflexivity|]); by apply (sim_none m F1 F2 _ _ (Leaf a nodes)).
Qed.

Lemma insert_blk_sim h : forall F1 F2 m b key data t,
  chained m (around F1 F2 (fun n => level n h b)) -> tree_insert_blk compar h (km_avail m) (erase b) key data = Ok t ->
  exists r, insert_blk compar h m b key data = Ok r /\ sim F1 F2 h r t.
Proof.
  induction h as [|h IH]; intros F1 F2 m [a l|a l] key data t Hc Ht;
    try (by apply (insert_leaf_sim _ F1 F2 m a l)); [done|].
  cbn [tree_insert_blk insert_blk erase tree_keys blk_keys] in *. fold (erases l) in Ht. rewrite erases_keys, erases_length in Ht.
  set (i := search compar l.*1 key) in *. destruct (i =? length l)%nat.
  { by apply insert_last_sim. }
  destruct (tree_split_full _ _ _) as [o| |] eqn:Es; cbn [bind] in Ht; try done.
  pose proof Hc as Hc0. apply chained_node in Hc. destruct (split_full_sim _ _ _ _ _ _ _ Hc Es) as (r & -> & Hr). cbn [bind].
  destruct o as [[tl av]|], r as [[l' m']|]; try done.
  2:{ injection Ht as <-. eexists. split; [reflexivity|]. by apply (sim_none m F1 F2 _ _ (Node a l)). }
  destruct Hr as (<- & <- & Hc'). rewrite erases_keys, erases_lookup in Ht.
  assert (Ef : match (fun p => (p.1, erase p.2)) <$> (l !! i) with Some (_, c) => (tree_n c =? NGTCP2_KSL_MAX_NBLK)%nat | None => false end =
    match l !! i with Some (_, c) => (blk_n c =? NGTCP2_KSL_MAX_NBLK)%nat | None => false end).
  { destruct (l !! i) as [[k c]|]; [|done]. cbn. by rewrite erase_n. }
  rewrite Ef in Ht. set (j := if _ && _ then S i else i) in *.
  destruct (in_child_sim (fun _ => True) m' F1 F2 h (S h) a l' j (fun b => insert_blk compar h m' b key data)
    (fun tc => tree_insert_blk compar h (km_avail m') tc key data) t) as (r & -> & Hs & _); [| |done|done|by exists r].
  - by apply chained_node.
  - intros G1 G2 k c t0 _ Hg Ht0. destruct (IH G1 G2 m' c key data t0 Hg Ht0) as (r & ? & ?). by exists r.
Qed.

End Compar.

(** ** Merging and shifting *)
Lemma child_sim l i t :
  tree_child (erases l) i = Ok t -> exists k c, l !! i = Some (k, c) /\ child l i = Ok c /\ t = erase c.
Proof.
  unfold tree_child, child. rewrite erases_lookup. destruct (l !! i) as [[k c]|]; [|done]. intros [= <-]. by exists k, c.
Qed.

Lemma nodes_pair l i k c k' c' :
  l !! i = Some (k, c) -> l !! S i = Some (k', c') -> l = take i l ++ (k, c) :: (k', c') :: drop (S (S i)) l.
Proof. intros H H'. rewrite (nodes_at _ _ _ _ H) at 1. by rewrite (drop_S l (k', c') (S i)). Qed.

(** Nodes [i] and [i + 1] with other blocks of the same kind. *)
Record same_pair h (c1 c2 d1 d2 : blk) : Prop := {
  sp_id1 : blk_id d1 = blk_id c1;
  sp_id2 : blk_id d2 = blk_id c2;
  sp_level : forall n, n <> h -> level n h d1 ++ level n h d2 = level n h c1 ++ level n h c2;
  sp_uni : uni h c1 -> uni h c2 -> uni h d1 /\ uni h d2;
}.

(** Nodes that are moved between two blocks. *)
Definition moved h l l' : Prop := (forall n, levels n h l' = levels n h l) /\ (unis h l -> unis h l').

Lemma set_pair_sim h l i k1 c1 k2 c2 d1 d2 tl :
  l !! i = Some (k1, c1) -> l !! S i = Some (k2, c2) -> same_pair h c1 c2 d1 d2 ->
  tree_set_pair (erases l) i (erase d1) (erase d2) = Ok tl ->
  exists l', set_pair l i d1 d2 = Ok l' /\ erases l' = tl /\ moved h l l'.
Proof.
  intros H1 H2 [S1 S2 S3 S4]. unfold tree_set_pair, set_pair. rewrite erases_lookup, H2, erase_last_key. cbn [fmap option_fmap option_map fst snd].
  destruct (last_key d1) as [lk| |]; cbn [bind]; try done. intros [= <-]. eexists. split; [reflexivity|]. split; [|split].
  - rewrite erases_app, erases_take. cbn. by rewrite <- erases_drop.
  - intros n. rewrite (nodes_pair _ _ _ _ _ _ H1 H2) at 3. rewrite !levels_app, !levels_cons. f_equal.
    rewrite !app_assoc. f_equal. destruct (decide (n = h)) as [->|Hn]; [|auto]. by rewrite !level_self, S1, S2.
  - unfold unis. intros Hu. rewrite (nodes_pair _ _ _ _ _ _ H1 H2) in Hu.
    apply Forall_app in Hu as [HP [Hu1 [Hu2 HQ]%Forall_cons_iff]%Forall_cons_iff]. cbn in Hu1, Hu2.
    destruct (S4 Hu1 Hu2). apply Forall_app. split; [done|]. by repeat constructor.
Qed.

Lemma same_pair_split h a1 a2 c1 c2 d1 d2 i :
  blk_app a1 c1 (blk_take a2 i c2) = Ok d1 -> a1 = blk_id c1 -> a2 = blk_id c2 -> d2 = blk_drop a2 i c2 -> same_pair h c1 c2 d1 d2.
Proof.
  intros E -> -> ->. split.
  - by destruct c1, c2; cbn in E; try done; injection E as <-.
  - apply blk_drop_id.
  - intros n Hn. rewrite (level_joined _ _ _ _ _ _ E Hn), <- app_assoc. by rewrite level_parts.
  - intros Hu1 Hu2. split; [|by apply uni_drop]. by apply (uni_joined _ _ _ _ _ E), uni_take.
Qed.

Lemma same_pair_split_right h a1 a2 c1 c2 d1 d2 i :
  blk_app a2 (blk_drop a1 i c1) c2 = Ok d2 -> a1 = blk_id c1 -> a2 = blk_id c2 -> d1 = blk_take a1 i c1 -> same_pair h c1 c2 d1 d2.
Proof.
  intros E -> -> ->. split.
  - apply blk_take_id.
  - by destruct c1, c2; cbn in E; try done; injection E as <-.
  - intros n Hn. rewrite (level_joined _ _ _ _ _ _ E Hn), app_assoc. by rewrite level_parts.
  - intros Hu1 Hu2. split; [by apply uni_take|]. apply (uni_joined _ _ _ _ _ E); [by apply uni_drop|done].
Qed.

Lemma shift_left_sim h l i tl :
  tree_shift_left (erases l) i = Ok tl -> exists l', ksl_shift_left l i = Ok l' /\ erases l' = tl /\ moved h l l'.
Proof.
  unfold tree_shift_left, ksl_shift_left. destruct (Nat.ltb_spec 0 i) as [Hi|]; [|done].
  destruct (tree_child (erases l) (i - 1)) as [t1| |] eqn:E1; cbn [bind]; try done.
  destruct (tree_child (erases l) i) as [t2| |] eqn:E2; cbn [bind]; try done.
  destruct (child_sim _ _ _ E1) as (k1 & c1 & H1 & -> & ->), (child_sim _ _ _ E2) as (k2 & c2 & H2 & -> & ->).
  cbn [bind]. rewrite !erase_n. destruct (_ && _); [|done]. cbv zeta. set (n := (_ - blk_n c1)%nat). destruct (_ && _); [|done].
  rewrite <- (erase_take (blk_id c2)), <- (erase_drop (blk_id c2)).
  destruct (tree_app _ _) as [t| |] eqn:Ea; cbn [bind]; try done.
  destruct (erase_app (blk_id c1) _ _ _ Ea) as (d & Ed & <- & _). rewrite Ed. cbn [bind].
  apply (set_pair_sim h l (i - 1) k1 c1 k2 c2); [done|by replace (S (i - 1)) with i by lia|]. by eapply same_pair_split.
Qed.

Lemma shift_right_sim h l i tl :
  tree_shift_right (erases l) i = Ok tl -> exists l', ksl_shift_right l i = Ok l' /\ erases l' = tl /\ moved h l l'.
Proof.
  unfold tree_shift_right, ksl_shift_right. rewrite erases_length. destruct (i <? length l - 1)%nat; [|done].
  destruct (tree_child (erases l) i) as [t1| |] eqn:E1; cbn [bind]; try done.
  destruct (tree_child (erases l) (S i)) as [t2| |] eqn:E2; cbn [bind]; try done.
  destruct (child_sim _ _ _ E1) as (k1 & c1 & H1 & -> & ->), (child_sim _ _ _ E2) as (k2 & c2 & H2 & -> & ->).
  cbn [bind]. rewrite !erase_n. destruct (_ && _); [|done]. cbv zeta. set (n := (_ - blk_n c2)%nat). destruct (_ && _); [|done].
  rewrite <- (erase_take (blk_id c1)), <- (erase_drop (blk_id c1)).
  destruct (tree_app _ _) as [t| |] eqn:Ea; cbn [bind]; try done.
  destruct (erase_app (blk_id c2) _ _ _ Ea) as (d & Ed & <- & _). rewrite Ed. cbn [bind].
  apply (set_pair_sim h l i k1 c1 k2 c2); [done|done|]. by eapply same_pair_split_right.
Qed.

(** When [blk] is the root there is nothing around it. *)
Definition root_frames (root : option Z) h F1 F2 : Prop :=
  match root with Some a => (forall n, F1 n = own h a n) /\ forall n, F2 n = [] | None => True end.

Definition is_root (root : option Z) : bool := match root with Some _ => true | None => false end.

(** The merged block: the nodes with it, or the new root. *)
Definition merged_sim F1 F2 root h l m b (r : option (list (K * blk))) m' (t : option (list (K * ktree K V))) : Prop :=
  match r, t with
  | Some l', Some tl => erases l' = tl /\ km_avail m' = S (km_avail m) /\ (unis h l -> unis h l') /\
      chained m' (around F1 F2 (fun n => levels n h l'))
  | None, None => is_root root = true /\ km_avail m' = S (S (km_avail m)) /\ (unis h l -> uni h b) /\ chained m' (fun n => level n h b)
  | _, _ => False
  end.

Lemma merge_sim m F1 F2 root h l i tb t :
  chained m (around F1 F2 (fun n => levels n h l)) -> root_frames root h F1 F2 ->
  tree_merge_node (is_root root) (erases l) i = Ok (tb, t) ->
  exists b r m', ksl_merge_node m root l i = Ok (b, r, m') /\ erase b = tb /\ merged_sim F1 F2 root h l m b r m' t.
Proof.
  intros Hc Hroot. unfold tree_merge_node, ksl_merge_node. rewrite erases_length. destruct (_ <? _)%nat; [|done].
  destruct (tree_child (erases l) i) as [t1| |] eqn:E1; cbn [bind]; try done.
  destruct (tree_child (erases l) (S i)) as [t2| |] eqn:E2; cbn [bind]; try done.
  destruct (child_sim _ _ _ E1) as (k1 & c1 & H1 & -> & ->), (child_sim _ _ _ E2) as (k2 & c2 & H2 & -> & ->).
  cbn [bind]. rewrite !erase_n. destruct (_ <=? _)%nat; [|done].
  destruct (tree_app _ _) as [t0| |] eqn:Ea; cbn [bind]; try done.
  destruct (erase_app (blk_id c1) _ _ _ Ea) as (d & Ed & <- & Hid). rewrite Ed. cbn [bind].
  pose proof (nodes_pair _ _ _ _ _ _ H1 H2) as Hl. set (P := take i l) in *. set (Q := drop (S (S i)) l) in *.
  assert (E : around F1 F2 (fun n => levels n h l) h =
    (F1 h ++ levels h h P) ++ blk_id c1 :: blk_id c2 :: levels h h Q ++ F2 h).
  { unfold around. rewrite Hl, levels_app, !levels_cons, !level_self, <- !app_assoc. done. }
  rewrite (unlink_blk_unlinked m _ Hc h _ _ _ _ E). cbn [bind].
  pose proof (unlinked_chained m _ Hc h _ _ _ _ E) as Hc'. set (m' := unlinked _ _ _ _ _) in *.
  assert (Hlev : forall n, upd (around F1 F2 (fun n => levels n h l)) h ((F1 h ++ levels h h P) ++ blk_id c1 :: levels h h Q ++ F2 h) n =
    around F1 F2 (fun n => levels n h (P ++ (k1, d) :: Q)) n).
  { intros n. unfold upd, around. destruct (Nat.eqb_spec n h) as [->|Hn].
    - by rewrite levels_app, levels_cons, level_self, Hid, <- !app_assoc.
    - rewrite Hl, !levels_app, !levels_cons, (level_joined _ _ _ _ _ _ Ed Hn), <- !app_assoc. done. }
  assert (Hu : unis h l -> unis h P /\ uni h d /\ unis h Q).
  { unfold unis. rewrite Hl. intros [HP [Hu1 [Hu2 HQ]%Forall_cons_iff]%Forall_cons_iff]%Forall_app.
    split_and!; [done| |done]. by eapply uni_joined. }
  assert (Hav : km_avail m' = S (km_avail m)) by done. clearbody m'.
  destruct (is_root root && (length l =? 2)%nat) eqn:Er.
  - apply andb_true_iff in Er as [Er Hlen]. rewrite Hlen. apply Nat.eqb_eq in Hlen. destruct root as [a|]; [|done]. intros [= <- <-].
    do 3 eexists. split; [reflexivity|]. split; [done|]. destruct Hroot as [HF1 HF2].
    assert (HPQ : P = [] /\ Q = []).
    { rewrite Hl, length_app in Hlen. cbn in Hlen. split; apply length_zero_iff_nil; lia. }
    destruct HPQ as [HP HQ]. rewrite HP, HQ in *. split_and!; [done|cbn; lia|intros ?%Hu; tauto|].
    assert (Ha : around F1 F2 (fun n => levels n h ([] ++ (k1, d) :: [])) (S h) = [a]).
    { unfold around. rewrite HF1, HF2, levels_above by lia. unfold own. by rewrite Nat.eqb_refl. }
    rewrite <- Hlev in Ha. pose proof (root_removed _ _ _ _ Hc' Ha ltac:(done)) as Hd.
    eapply chained_ext; [|exact Hd]. intros n. unfold upd at 1. destruct (Nat.eqb_spec n (S h)) as [->|Hn]; [by rewrite level_above by lia|].
    rewrite Hlev. unfold around, own in *. rewrite HF1, HF2, (proj2 (Nat.eqb_neq _ _) Hn). cbn. unfold levels. cbn. by rewrite !app_nil_r.
  - destruct (tree_last_key (erase d)) as [mk| |] eqn:Ek; cbn [bind]; try done. rewrite erase_last_key in Ek. intros [= <- <-].
    assert (Hm : (if (length l =? 2)%nat then root else None) = None) by (by destruct root, (length l =? 2)%nat).
    rewrite Hm, Ek. cbn [bind]. do 3 eexists. split; [reflexivity|]. split; [done|]. split_and!; [|done| |].
    + rewrite erases_app. unfold P, Q. by rewrite <- erases_take, <- erases_drop.
    + intros ?%Hu. apply Forall_app. split; [tauto|]. apply Forall_cons. cbn. tauto.
    + eapply chained_ext; [|exact Hc']. intros n. rewrite Hlev. unfold around. by rewrite !levels_app, !levels_cons.
Qed.

(** *** Making room below a block *)
Definition prepared_sim F1 F2 root h l m (r : list (K * blk) * nat + blk) m' (t : list (K * ktree K V) * nat * nat + ktree K V) : Prop :=
  match r, t with
  | inl (l', i), inl (tl, j, freed) => erases l' = tl /\ i = j /\ km_avail m' = (km_avail m + freed)%nat /\
      (unis h l -> unis h l') /\ chained m' (around F1 F2 (fun n => levels n h l'))
  | inr b, inr tb => is_root root = true /\ erase b = tb /\ km_avail m' = (km_avail m + 2)%nat /\ (unis h l -> uni h b) /\
      chained m' (fun n => level n h b)
  | _, _ => False
  end.

Lemma prepare_merge_sim m F1 F2 root h l i t :
  chained m (around F1 F2 (fun n => levels n h l)) -> root_frames root h F1 F2 ->
  (let* (tb, r) := tree_merge_node (is_root root) (erases l) i in
   match r with Some tl => Ok (inl (tl, i, 1%nat)) | None => Ok (inr tb) end) = Ok t ->
  exists r m', (let* (b, r, m) := ksl_merge_node m root l i in
     Ok (match r with Some l => inl (l, i) | None => inr b end, m)) = Ok (r, m') /\ prepared_sim F1 F2 root h l m r m' t.
Proof.
  intros Hc Hroot. destruct (tree_merge_node _ _ _) as [[tb o]| |] eqn:E; cbn [bind]; try done.
  destruct (merge_sim _ _ _ _ _ _ _ _ _ Hc Hroot E) as (b & r & m' & -> & Hb & Hm). cbn [bind].
  destruct o as [tl|], r as [l'|]; try done; intros [= <-]; do 2 eexists; (split; [reflexivity|]); cbn in *.
  - destruct Hm as (? & ? & ? & ?). split_and!; try done. lia.
  - destruct Hm as (? & ? & ? & ?). split_and!; try done. lia.
Qed.

Lemma prepare_moved_sim m F1 F2 root h l i (c : res (list (K * blk))) (tc : res (list (K * ktree K V))) t :
  chained m (around F1 F2 (fun n => levels n h l)) ->
  (forall tl, tc = Ok tl -> exists l', c = Ok l' /\ erases l' = tl /\ moved h l l') ->
  (let* tl := tc in Ok (inl (tl, i, 0%nat))) = Ok t ->
  exists r m', (let* l := c in Ok (inl (l, i), m)) = Ok (r, m') /\ prepared_sim F1 F2 root h l m r m' t.
Proof.
  intros Hc Hm. destruct tc as [tl0| |]; cbn [bind]; try done. destruct (Hm tl0 eq_refl) as (l0 & -> & He & Hl & Hu). cbn [bind].
  intros [= <-]. do 2 eexists. split; [reflexivity|]. cbn. split_and!; [done|done|lia|done|].
  eapply chained_around; [|exact Hc]. intros n. by rewrite Hl.
Qed.

Lemma prepare_child_sim m F1 F2 root h l i t :
  chained m (around F1 F2 (fun n => levels n h l)) -> root_frames root h F1 F2 ->
  tree_prepare_child (is_root root) (erases l) i = Ok t ->
  exists r m', prepare_child m root l i = Ok (r, m') /\ prepared_sim F1 F2 root h l m r m' t.
Proof.
  intros Hc Hroot. unfold tree_prepare_child, prepare_child. rewrite erases_length.
  destruct (tree_child (erases l) i) as [t1| |] eqn:E1; cbn [bind]; try done.
  destruct (child_sim _ _ _ E1) as (k & c & H1 & -> & ->). cbn [bind]. rewrite erase_n.
  assert (Hbig : forall j, match erases l !! j with Some (_, b) => (NGTCP2_KSL_MIN_NBLK <? tree_n b)%nat | None => false end =
    match l !! j with Some (_, b) => (NGTCP2_KSL_MIN_NBLK <? blk_n b)%nat | None => false end).
  { intros j. rewrite erases_lookup. destruct (l !! j) as [[k' c']|]; [|done]. cbn. by rewrite erase_n. }
  rewrite !Hbig. destruct (_ <? blk_n c)%nat.
  { intros [= <-]. do 2 eexists. split; [reflexivity|]. cbn. split_and!; try (done || lia). }
  destruct (blk_n c =? _)%nat; [|done].
  destruct (_ && _); [apply prepare_moved_sim; [done|intros; by apply shift_left_sim]|].
  destruct (_ && _); [apply prepare_moved_sim; [done|intros; by apply shift_right_sim]|].
  destruct (_ <? _)%nat; [by apply prepare_merge_sim|]. destruct (0 <? i)%nat; [by apply prepare_merge_sim|done].
Qed.

(** ** Removal *)
Section Remove.
Context (compar : K -> K -> bool).

(** The outcome of a removal below a block: its level may be less when it was
    the root. *)
Definition remove_sim F1 F2 (root : bool) h (r : insertion (K := K) (V := V)) (t : tree_insertion (K := K) (V := V)) : Prop :=
  exists h', (root = false -> h' = h) /\ uni h' r.1.1.2 /\ sim F1 F2 h' r t.

Lemma remove_leaf_sim h F1 F2 root m a (nodes : list (K * V)) key t :
  chained m (around F1 F2 (fun n => level n h (Leaf a nodes))) -> uni h (Leaf a nodes) ->
  tree_remove_blk compar h root (km_avail m) (TLeaf nodes) key = Ok t ->
  exists r, remove_blk compar h root m (Leaf a nodes) key = Ok r /\ remove_sim F1 F2 root h r t.
Proof.
  intros Hc Hu Ht.
  destruct h; [|done]. cbn [tree_remove_blk remove_blk tree_keys blk_keys tree_n blk_n] in *.
  assert (Hnone : exists r, Ok (NGTCP2_ERR_INVALID_ARGUMENT, Leaf a nodes, m, None) = Ok r /\
    remove_sim F1 F2 root 0 r (NGTCP2_ERR_INVALID_ARGUMENT, TLeaf nodes, km_avail m, None)).
  { eexists. split; [reflexivity|]. exists 0%nat. split_and!; [done|done|]. by apply (sim_none m F1 F2 _ _ (Leaf a nodes)). }
  destruct (_ =? _)%nat; [by injection Ht as <-|]. destruct (nodes.*1 !! _) as [k|]; [|done].
  destruct (compar key k); injection Ht as <-; [done|]. eexists. split; [reflexivity|]. exists 0%nat. split_and!; [done|done|].
  by eapply sim_leaf.
Qed.

Lemma remove_blk_sim h : forall F1 F2 root m b key t,
  chained m (around F1 F2 (fun n => level n h b)) -> (root = true -> F1 = nil_frame /\ F2 = nil_frame) -> uni h b ->
  tree_remove_blk compar h root (km_avail m) (erase b) key = Ok t ->
  exists r, remove_blk compar h root m b key = Ok r /\ remove_sim F1 F2 root h r t.
Proof.
  induction h as [|h IH]; intros F1 F2 root m [a l|a l] key t Hc Hf Hu Ht;
    try (by apply (remove_leaf_sim _ F1 F2 root m a l)); [done|].
  cbn [tree_remove_blk remove_blk erase tree_keys blk_keys tree_n blk_n] in *. fold (erases l) in Ht. rewrite erases_keys, erases_length in Ht.
  set (i := search compar l.*1 key) in *. destruct (i =? length l)%nat.
  { injection Ht as <-. eexists. split; [reflexivity|]. exists (S h). split_and!; [done|done|]. by apply (sim_none m F1 F2 _ _ (Node a l)). }
  destruct (tree_prepare_child root (erases l) i) as [pt| |] eqn:Ep; cbn [bind] in Ht; try done.
  assert (Hroot : root_frames (if root then Some a else None) h (fun n => F1 n ++ own h a n) F2).
  { destruct root; [|done]. destruct (Hf eq_refl) as [-> ->]. done. }
  assert (Ep' : tree_prepare_child (is_root (if root then Some a else None)) (erases l) i = Ok pt) by (by destruct root).
  pose proof Hc as Hc0. apply chained_node in Hc0.
  destruct (prepare_child_sim _ _ _ _ _ _ _ _ Hc0 Hroot Ep') as (pr & m' & -> & Hp). cbn [bind].
  destruct pt as [[[tl j] freed]|tb], pr as [[l' i']|b']; try done.
  - destruct Hp as (<- & -> & Hav & Hu' & Hc'). rewrite <- Hav in Ht. specialize (Hu' Hu).
    destruct (in_child_sim (uni h) m' F1 F2 h (S h) a l' j (fun b => remove_blk compar h false m' b key)
      (fun tc => tree_remove_blk compar h false (km_avail m') tc key) t) as (r & -> & Hs & k & c & d & Hl & Hd & E); [| |done|done|].
    + by apply chained_node.
    + intros G1 G2 k c t0 Hl Hg Ht0. destruct (IH G1 G2 false m' c key t0 Hg) as (r & ? & h' & Hh & ? & ?); [done| |done|].
      { by apply (proj1 (Forall_lookup _ _) Hu' _ _ Hl). }
      rewrite (Hh eq_refl) in *. by exists r.
    + exists r. split; [done|]. exists (S h). split_and!; [done| |done]. rewrite E. by apply Forall_insert.
  - destruct Hp as (Hr & <- & Hav & Hu' & Hc'). rewrite <- Hav in Ht. destruct root; [|done].
    destruct (Hf eq_refl) as [-> ->]. assert (Hc2 : chained m' (around nil_frame nil_frame (fun n => level n h b'))).
    { eapply chained_ext; [|exact Hc']. intros n. unfold around, nil_frame. cbn. by rewrite app_nil_r. }
    destruct (IH _ _ true m' b' key t Hc2) as (r & -> & h' & _ & Hur & Hs); [done|by apply Hu'|done|].
    exists r. split; [done|]. exists h'. by split_and!.
Qed.
End Remove.

(** ** The shape *)
Lemma shape_uni h b : shape h (erase b) -> uni h b.
Proof.
  revert b. induction h as [|h IH]; intros [a l|a l]; cbn; try done. intros [_ Hf].
  rewrite Forall_map in Hf. eapply List.Forall_impl; [|exact Hf]. intros [k c] [Hc _]. by apply IH.
Qed.

Lemma shape_uni_eq h h' b : shape h (erase b) -> uni h' b -> h = h'.
Proof.
  revert h' b. induction h as [|h IH]; intros [|h'] [a l|a l]; cbn; try done. intros [Hl Hf] Hu. f_equal.
  destruct l as [|[k c] l]; [cbn in Hl; lia|]. apply Forall_cons_iff in Hf as [[Hc _] _], Hu as [Hu _]. by eapply IH.
Qed.

(** The blocks of level 0 are the leaves. *)
Lemma level_leaves h b : uni h b -> level 0 h b = (blk_leaves b).*1.
Proof.
  revert b. induction h as [|h IH]; intros [a l|a l]; cbn; try done.
  induction l as [|[k c] l IHl]; [done|]. intros [Hc Hl]%Forall_cons_iff. cbn in Hc |- *. by rewrite fmap_app, IH, IHl.
Qed.

(** ** Search *)
Lemma last_leaf_run h b :
  shape h (erase b) -> exists ls a lf, blk_leaves b = ls ++ [(a, lf)] /\ last_leaf h b = Ok (mk_it (Some a) (length lf)).
Proof.
  revert b. induction h as [|h IH]; intros [a l|a l]; cbn [shape erase]; try done; [by exists [], a, l|].
  fold (erases l). rewrite erases_length. intros [Hlen Hf]. destruct l as [|[k c] l _] using rev_ind; [cbn in Hlen; lia|].
  rewrite erases_app in Hf. apply Forall_app in Hf as [_ [[Hc _] _]%Forall_cons_iff]. cbn in Hc.
  destruct (IH c Hc) as (ls & a' & lf & E & Hl). cbn [last_leaf blk_leaves]. unfold child.
  rewrite length_app. cbn [length]. rewrite Nat.add_sub, list_lookup_middle by done. cbn [bind].
  exists (concat (map (fun p => blk_leaves p.2) l) ++ ls), a', lf. split; [|done].
  rewrite map_app, concat_app. cbn. by rewrite E, app_nil_r, app_assoc.
Qed.

Lemma lower_bound_sim (cmp : K -> K -> bool) key h b t :
  shape h (erase b) -> tree_lower_bound cmp h (erase b) key = Ok t ->
  exists it, lower_bound_blk cmp h b key = Ok it /\ it_sim b (Some it) (Some t).
Proof.
  revert b t. induction h as [|h IH]; intros [a l|a l] t Hs; try done.
  { intros [= <-]. eexists. split; [reflexivity|]. by exists a. }
  cbn [erase tree_lower_bound lower_bound_blk tree_keys blk_keys]. fold (erases l). rewrite erases_keys, erases_length.
  set (i := search cmp l.*1 key). destruct (i =? length l)%nat.
  - destruct (last_leaf_run (S h) (Node a l) Hs) as (ls & x & lf & E & ->).
    change (tree_leaves (TNode (erases l))) with (tree_leaves (erase (Node a l))).
    rewrite erase_leaves, E, fmap_app, last_app. cbn [fmap list_fmap last]. intros [= <-]. eexists. split; [reflexivity|].
    exists x. rewrite E. split; [|done]. cbn [tit_leaf]. rewrite length_app. cbn [length]. rewrite Nat.add_sub, fmap_app, length_fmap.
    cbn. by rewrite list_lookup_middle by (by rewrite length_fmap).
  - destruct (tree_child (erases l) i) as [tc| |] eqn:Ec; cbn [bind]; try done.
    destruct (child_sim _ _ _ Ec) as (k & c & Hl & -> & ->). cbn [bind].
    destruct (tree_lower_bound cmp h (erase c) key) as [t'| |] eqn:Et; cbn [bind]; try done. intros [= <-].
    assert (Hc : shape h (erase c)).
    { destruct Hs as [_ Hf]. rewrite Forall_map in Hf. by apply (proj1 (Forall_lookup _ _) Hf _ _ Hl). }
    destruct (IH c t' Hc Et) as (it & -> & x & Hx & ->). eexists. split; [reflexivity|]. exists x. split; [|done].
    cbn [tit_leaf tit_i blk_leaves]. rewrite leaves_before_ids, leaves_ids. rewrite (nodes_at _ _ _ _ Hl) at 2.
    rewrite map_app, concat_app. cbn. rewrite lookup_app_r by lia. rewrite Nat.add_comm, Nat.add_sub.
    rewrite lookup_app_l; [done|]. by eapply lookup_lt_Some.
Qed.

(** ** The change of a key *)
Lemma update_key_sim (compar : K -> K -> bool) old_key new_key h b t :
  tree_update_key compar h (erase b) old_key new_key = Ok t ->
  exists b', update_key_blk compar h b old_key new_key = Ok b' /\ erase b' = t /\
    (forall n h', level n h' b' = level n h' b) /\ (blk_leaves b').*1 = (blk_leaves b).*1.
Proof.
  revert b t. induction h as [|h IH]; intros [a l|a l] t; cbn [erase tree_update_key update_key_blk tree_keys blk_keys];
    try (destruct (l !! _) as [[k v]|]; [|done]; destruct (key_equal _ _ _); [|done]; intros [= <-];
         eexists; split; [reflexivity|]; split_and!; [done| |done]; intros; apply level_leaf);
    fold (erases l); rewrite erases_keys, erases_lookup; set (i := search compar l.*1 old_key);
    destruct (l !! i) as [[k c]|] eqn:Hl; cbn [fmap option_fmap option_map fst snd]; try done.
  destruct (tree_update_key compar h (erase c) old_key new_key) as [tc| |] eqn:Et; cbn [bind]; try done. intros [= <-].
  destruct (IH c tc Et) as (d & -> & <- & Hlev & Hids). cbn [bind]. eexists. split; [reflexivity|].
  assert (Hd : forall k, <[i := (k, d)]> l = take i l ++ (k, d) :: drop (S i) l)
    by (intros; apply insert_take_drop; by eapply lookup_lt_Some).
  split_and!.
  - cbn [erase]. by rewrite erases_insert.
  - intros n [|h']; cbn [level]; (destruct (n =? _)%nat; [done|]); [done|].
    change (levels n h' (<[i := (if key_equal compar k old_key || compar k new_key then new_key else k, d)]> l) = levels n h' l).
    rewrite Hd. rewrite (nodes_at _ _ _ _ Hl) at 3. by rewrite !levels_app, !levels_cons, Hlev.
  - cbn [blk_leaves]. rewrite Hd, !leaves_ids. rewrite (nodes_at _ _ _ _ Hl) at 3.
    rewrite !map_app, !concat_app. cbn. by rewrite Hids.
Qed.

(** ** The change of a leaf *)
Section Leaf.
Context (f : list (K * V) -> list (K * V)) (a : Z).

Lemma update_leaf_absent b : a ∉ (blk_leaves b).*1 -> update_leaf f a b = b.
Proof.
  revert b. fix IH 1. intros [x l|x l]; cbn.
  - intros Hx. destruct (Z.eqb_spec x a) as [->|]; [|done]. by destruct Hx; apply elem_of_cons; left.
  - intros Hx. f_equal. induction l as [|[k c] l IHl]; [done|]. cbn in Hx |- *.
    rewrite fmap_app, elem_of_app in Hx. rewrite IH, IHl by tauto. done.
Qed.

Lemma update_leaf_ids b : (blk_leaves (update_leaf f a b)).*1 = (blk_leaves b).*1.
Proof.
  revert b. fix IH 1. intros [x l|x l]; cbn; [by destruct (x =? a)|].
  induction l as [|[k c] l IHl]; [done|]. cbn. by rewrite !fmap_app, IH, IHl.
Qed.

Lemma update_leaf_id b : blk_id (update_leaf f a b) = blk_id b.
Proof. destruct b as [x l|x l]; cbn; [by destruct (x =? a)|done]. Qed.

Lemma update_leaf_level n h b : level n h (update_leaf f a b) = level n h b.
Proof.
  revert b. induction h as [|h IH]; intros b; cbn [level]; rewrite update_leaf_id; (destruct (n =? _)%nat; [done|]).
  - done.
  - destruct b as [x l|x l]; cbn; [by destruct (x =? a)|]. induction l as [|[k c] l IHl]; [done|]. cbn. by rewrite IH, IHl.
Qed.

Lemma update_leaf_erase b j :
  NoDup (blk_leaves b).*1 -> (blk_leaves b).*1 !! j = Some a -> erase (update_leaf f a b) = tree_update_leaf f j (erase b).
Proof.
  revert b j. fix IH 1. intros [x l|x l] j; cbn -[Nat.ltb].
  - intros _. destruct j as [|j]; [|done]. intros [= ->]. by rewrite Z.eqb_refl.
  - intros Hnd Hj. f_equal. revert j Hnd Hj. induction l as [|[k c] l IHl]; intros j Hnd Hj; [done|]. cbn -[Nat.ltb] in Hnd, Hj |- *.
    rewrite fmap_app in Hnd, Hj. rewrite erase_leaves, length_fmap. apply NoDup_app in Hnd as (Hc & Hd & Hl).
    assert (Hlen : length (blk_leaves c).*1 = length (blk_leaves c)) by apply length_fmap.
    destruct (Nat.ltb_spec j (length (blk_leaves c))) as [Hlt|Hge].
    + rewrite lookup_app_l in Hj by lia. rewrite (IH c j) by done. f_equal.
      apply list_elem_of_lookup_2 in Hj. specialize (Hd a Hj). clear - Hd. induction l as [|[k' d] l IHl]; [done|]. cbn in Hd |- *.
      rewrite fmap_app, elem_of_app in Hd. rewrite update_leaf_absent, IHl by tauto. done.
    + rewrite lookup_app_r, Hlen in Hj by lia. rewrite (IHl (j - length (blk_leaves c))%nat) by done. do 2 f_equal.
      rewrite update_leaf_absent; [done|]. intros Hin. apply (Hd a Hin). by apply list_elem_of_lookup_2 in Hj.
Qed.
End Leaf.
End Sim.
