(* ===== verification/KslIter.v ===== *)
(** * Ordered map: iterators

    The invariant of a list: the order and the shape of its tree, and the
    chains of its blocks.  A cursor is an iterator seen as a split of the
    elements of a list into what is before it and what it points to or is
    behind it.  [begin], [end], [next], [prev] and the search functions are
    specified with cursors. *)

From S2P Require Import Prelude Const Ksl KslTree KslInv KslChain KslSim.
From stdpp Require Import list gmap sorting.
#[local] Open Scope Z_scope.
#[local] Set Warnings "-clear-no-such-hyp".

Section Iter.
Context {K V : Type} (compar : K -> K -> bool) `{!StrictWeakOrder compar}.
Abbreviation blk := (ngtcp2_ksl_blk K V).
Abbreviation ksl_t := (ngtcp2_ksl K V).
Implicit Types (b : blk) (ksl : ksl_t) (k key : K) (it : ngtcp2_ksl_it) (A B : list (K * V)).
Abbreviation ordered := (StronglySorted (R compar)).

(** ** Invariant *)

(** The marks of a list: the keys in it, those of inner nodes too. *)
Definition ksl_marks ksl : list (@mark K) := match ksl_root ksl with Some b => marks (erase b) | None => [] end.

Definition ksl_height ksl : nat := match ksl_root ksl with Some b => height b | None => 0 end.

(** The blocks of each level, from left to right. *)
Definition ksl_levels ksl : nat -> list Z :=
  fun n => match ksl_root ksl with Some b => level n (height b) b | None => [] end.

Record ksl_wf ksl : Prop := {
  wf_shape : forall b, ksl_root ksl = Some b -> exists h, shape h (erase b);
  wf_ordered : ordered (ksl_marks ksl);
  wf_n : ksl_n ksl = length (ksl_elems ksl);
  wf_chain : chained (ksl_mem_of ksl) (ksl_levels ksl);
}.

(** Blocks of the list and of its allocator. *)
Definition ksl_blocks ksl : nat :=
  (ksl_avail ksl + match ksl_root ksl with Some b => blk_count b | None => 0 end)%nat.

Lemma empty_chained avail fresh : chained (mk_mem avail fresh ∅ None None) (fun _ => []).
Proof. split; try done; [constructor|by intros n n' x ?%elem_of_nil|by intros n x ?%elem_of_nil]. Qed.

Lemma init_wf avail : ksl_wf (ngtcp2_ksl_init avail).
Proof. split; cbn; [done|constructor|done|apply empty_chained]. Qed.

Lemma blk_height h b : shape h (erase b) -> height b = h.
Proof. rewrite <- erase_height. apply shape_height. Qed.

(** The chain of the leaves. *)
Record leaf_chain ksl : Prop := {
  lc_links : dlseg (km_links (ksl_mem_of ksl)) None (ksl_leaves ksl).*1 None;
  lc_nodup : NoDup (ksl_leaves ksl).*1;
  lc_front : km_front (ksl_mem_of ksl) = head (ksl_leaves ksl).*1;
  lc_back : km_back (ksl_mem_of ksl) = last (ksl_leaves ksl).*1;
}.

Lemma wf_leaf_chain ksl : ksl_wf ksl -> leaf_chain ksl.
Proof.
  intros [Hs _ _ [H1 H2 _ _ H5 H6]]. assert (E : ksl_levels ksl 0 = (ksl_leaves ksl).*1).
  { unfold ksl_levels, ksl_leaves. destruct (ksl_root ksl) as [b|]; [|done]. destruct (Hs b eq_refl) as [h Hb].
    rewrite (blk_height h b Hb). by apply level_leaves, shape_uni. }
  split; rewrite <- E; [apply H1|apply H2|done..].
Qed.

(** The leaves an iterator walks through; [null_blk] when there is no root. *)
Definition walk ksl : list (option Z * list (K * V)) :=
  match ksl_root ksl with Some b => map (fun p => (Some p.1, p.2)) (blk_leaves b) | None => [(None, [])] end.

Lemma walk_root ksl b : ksl_root ksl = Some b -> (walk ksl).*2 = tree_leaves (erase b).
Proof. unfold walk. intros ->. rewrite erase_leaves. symmetry. apply (list_fmap_compose (fun p => (Some p.1, p.2)) snd). Qed.

Lemma concat_walk ksl : concat (walk ksl).*2 = ksl_elems ksl.
Proof.
  destruct (ksl_root ksl) as [b|] eqn:E; [rewrite (walk_root ksl b E)|]; unfold ksl_elems, ksl_leaves, walk; rewrite E; [|done].
  by rewrite erase_leaves.
Qed.

(** Only a sole leaf can be empty. *)
Lemma walk_occupied ksl :
  ksl_wf ksl -> (exists p, walk ksl = [p]) \/ Forall (fun p => p.2 <> []) (walk ksl).
Proof.
  intros [Hs _ _ _]. destruct (ksl_root ksl) as [b|] eqn:E; [|left; exists (None, []); unfold walk; by rewrite E].
  destruct (Hs b eq_refl) as [h Hb]. destruct h as [|h], b as [a l|a l]; try done.
  { left. unfold walk. rewrite E. by eexists. }
  right. pose proof (shape_leaves_big (S h) _ Hb) as Hf. rewrite <- (walk_root ksl _ E), Forall_map in Hf.
  eapply List.Forall_impl; [|apply Hf; discriminate]. intros lf Hlf Hn. cbn in Hlf. rewrite Hn in Hlf. cbn in Hlf. nblk.
Qed.

Lemma walk_snoc ksl : ksl_wf ksl -> exists ls p, walk ksl = ls ++ [p].
Proof.
  intros [Hs _ _ _]. destruct (ksl_root ksl) as [b|] eqn:E; [|exists [], (None, []); unfold walk; by rewrite E].
  destruct (Hs b eq_refl) as [h Hb]. apply shape_leaves_nonempty in Hb. rewrite <- (walk_root ksl _ E) in Hb.
  destruct (walk ksl) as [|p ls _] using rev_ind; [done|by exists ls, p].
Qed.

(** ** The leaf of an iterator *)

(** The neighbours of a leaf. *)
Definition next_of (ls2 : list (option Z * list (K * V))) : option Z := match ls2 with p :: _ => p.1 | [] => None end.
Definition prev_of (ls1 : list (option Z * list (K * V))) : option Z := match last ls1 with Some p => p.1 | None => None end.

(** A place in the walk is a place in the leaves, or [null_blk]. *)
Lemma walk_split ksl ls1 a lf ls2 :
  walk ksl = ls1 ++ (a, lf) :: ls2 ->
  (ksl_root ksl = None /\ ls1 = [] /\ a = None /\ lf = [] /\ ls2 = []) \/
  exists L1 x L2, ksl_leaves ksl = L1 ++ (x, lf) :: L2 /\ a = Some x /\
    ls1 = map (fun p => (Some p.1, p.2)) L1 /\ ls2 = map (fun p => (Some p.1, p.2)) L2.
Proof.
  unfold walk, ksl_leaves. destruct (ksl_root ksl) as [b|].
  - intros (L1 & L2 & -> & <- & E)%map_eq_app. destruct L2 as [|[x lf'] L2]; [done|]. injection E as <- <- <-. right. by exists L1, x, L2.
  - destruct ls1 as [|? [|]]; [|done..]. intros [= <- <- <-]. by left.
Qed.

Lemma it_nodes_walk ksl ls1 a lf ls2 : leaf_chain ksl -> walk ksl = ls1 ++ (a, lf) :: ls2 -> it_nodes ksl a = lf.
Proof.
  intros [_ Hnd _ _] [(_ & _ & -> & -> & _)|(L1 & x & L2 & E & -> & _)]%walk_split; [done|]. unfold it_nodes. rewrite E in *.
  rewrite fmap_app in Hnd. cbn in Hnd. apply NoDup_app in Hnd as (_ & Hd & _).
  assert (Hn : list_find (fun p : Z * list (K * V) => p.1 = x) L1 = None).
  { apply list_find_None, list.Forall_forall. intros p Hp Hx. apply (Hd x); [|by apply elem_of_cons; left].
    rewrite <- Hx. by apply list_elem_of_fmap_2. }
  rewrite list_find_app_r by done. cbn. by rewrite decide_True.
Qed.

Lemma it_links_walk ksl ls1 a lf ls2 :
  leaf_chain ksl -> walk ksl = ls1 ++ (a, lf) :: ls2 -> it_links ksl a = mk_links (next_of ls2) (prev_of ls1).
Proof.
  intros [Hl _ _ _] [(_ & -> & -> & _ & ->)|(L1 & x & L2 & E & -> & -> & ->)]%walk_split; [done|]. unfold it_links.
  rewrite E, fmap_app in Hl. apply dlseg_app in Hl as [_ Hl]. cbn in Hl. destruct Hl as [-> _]. cbn.
  unfold next_of, prev_of, last_or, hd_or.
  destruct L1 as [|q L1 _] using rev_ind; [by destruct L2|]. rewrite fmap_app, map_app; cbn [fmap list_fmap map]; rewrite !last_snoc. by destruct L2.
Qed.

Lemma next_of_end ls2 ksl ls1 p : walk ksl = ls1 ++ p :: ls2 -> is_null (next_of ls2) = bool_decide (ls2 = []).
Proof.
  destruct p as [a lf]. intros [(_ & _ & _ & _ & ->)|(L1 & x & L2 & _ & _ & _ & ->)]%walk_split; [done|]. by destruct L2.
Qed.

Lemma prev_of_begin ls1 ksl ls2 p : walk ksl = ls1 ++ p :: ls2 -> is_null (prev_of ls1) = bool_decide (ls1 = []).
Proof.
  destruct p as [a lf]. intros [(_ & -> & _)|(L1 & x & L2 & _ & _ & -> & _)]%walk_split; [done|].
  unfold prev_of. destruct L1 as [|q L1 _] using rev_ind; [done|]. rewrite map_app; cbn [map]; rewrite last_snoc, bool_decide_eq_false_2; [done|]. by intros [_ ?]%app_eq_nil.
Qed.

(** ** Cursors *)

(** An iterator that may be at the end of a leaf. *)
Definition pointer ksl it A B : Prop :=
  leaf_chain ksl /\ exists ls1 a lf1 lf2 ls2, walk ksl = ls1 ++ (a, lf1 ++ lf2) :: ls2 /\
    it = mk_it a (length lf1) /\ A = concat ls1.*2 ++ lf1 /\ B = lf2 ++ concat ls2.*2.

Definition cursor ksl it A B : Prop :=
  leaf_chain ksl /\ exists ls1 a lf1 lf2 ls2, walk ksl = ls1 ++ (a, lf1 ++ lf2) :: ls2 /\
    it = mk_it a (length lf1) /\ A = concat ls1.*2 ++ lf1 /\ B = lf2 ++ concat ls2.*2 /\
    (lf2 = [] -> ls2 = []).

Lemma cursor_elems ksl it A B : cursor ksl it A B -> ksl_elems ksl = A ++ B.
Proof.
  intros (_ & ls1 & a & lf1 & lf2 & ls2 & H & _ & -> & -> & _). rewrite <- concat_walk, H, fmap_app, concat_app. cbn.
  by rewrite <- !app_assoc.
Qed.

(** A leaf of the tree in the walk. *)
Lemma walk_place ksl b x ls1 lf ls2 :
  ksl_root ksl = Some b -> (blk_leaves b).*1 !! length ls1 = Some x -> tree_leaves (erase b) = ls1 ++ lf :: ls2 ->
  exists LS1 LS2, walk ksl = LS1 ++ (Some x, lf) :: LS2 /\ LS1.*2 = ls1 /\ LS2.*2 = ls2.
Proof.
  intros Hr Hx E. rewrite erase_leaves in E.
  apply fmap_app_inv in E as (L1 & L2 & -> & E & EL). destruct L2 as [|[y lf'] L2]; [done|]. injection E as Elf ->.
  assert (Hs : forall L : list (Z * list (K * V)), (map (fun p => (Some p.1, p.2)) L).*2 = L.*2)
    by (intros; symmetry; apply (list_fmap_compose (fun p => (Some p.1, p.2)) snd)).
  rewrite EL, fmap_app in Hx. cbn in Hx. rewrite list_lookup_middle in Hx by (by rewrite !length_fmap). injection Hx as ->.
  exists (map (fun p => (Some p.1, p.2)) L1), (map (fun p => (Some p.1, p.2)) L2). rewrite !Hs.
  split_and!; try done. unfold walk. rewrite Hr, EL, map_app. cbn. by rewrite Elf.
Qed.

(** The address of the leaf of a position. *)
Lemma place_id b t A (x : K * V) B : points_at (tree_leaves (erase b)) t A x B -> exists a, (blk_leaves b).*1 !! tit_leaf t = Some a.
Proof.
  intros (ls1 & lf1 & lf2 & ls2 & E & -> & _). cbn. apply lookup_lt_is_Some_2. rewrite length_fmap.
  rewrite erase_leaves in E. apply (f_equal length) in E. rewrite length_fmap, length_app in E. cbn in E. lia.
Qed.

(** A position in the tree is a pointer, and a cursor when it is that of an
    element. *)
Lemma points_pointer ksl b it t A B :
  leaf_chain ksl -> ksl_root ksl = Some b -> it_sim b (Some it) (Some t) -> points (tree_leaves (erase b)) t A B -> pointer ksl it A B.
Proof.
  intros Hc Hr (x & Hx & ->) (ls1 & lf1 & lf2 & ls2 & E & -> & -> & ->). split; [done|].
  destruct (walk_place ksl b x _ _ _ Hr Hx E) as (LS1 & LS2 & Hw & <- & <-). by exists LS1, (Some x), lf1, lf2, LS2.
Qed.

Lemma points_cursor ksl b it t A y B :
  leaf_chain ksl -> ksl_root ksl = Some b -> it_sim b (Some it) (Some t) -> points_at (tree_leaves (erase b)) t A y B ->
  cursor ksl it A (y :: B).
Proof.
  intros Hc Hr (x & Hx & ->) (ls1 & lf1 & lf2 & ls2 & E & -> & -> & ->). split; [done|].
  destruct (walk_place ksl b x _ _ _ Hr Hx E) as (LS1 & LS2 & Hw & <- & <-). by exists LS1, (Some x), lf1, (y :: lf2), LS2.
Qed.

(** An iterator at the end of a leaf, moved to the next one. *)
Lemma it_forward_cursor ksl it A B : ksl_wf ksl -> pointer ksl it A B -> cursor ksl (it_forward ksl it) A B.
Proof.
  intros Hwf (Hc & ls1 & a & lf1 & lf2 & ls2 & Hw & -> & -> & ->). split; [done|]. unfold it_forward. cbn [it_i it_blk].
  rewrite (it_links_walk ksl ls1 a _ ls2 Hc Hw), (it_nodes_walk ksl ls1 a _ ls2 Hc Hw), length_app. cbn [lk_next].
  pose proof (next_of_end ls2 ksl ls1 _ Hw) as Hn. destruct lf2 as [|x lf2]; cbn [length].
  - rewrite Nat.add_0_r, Nat.eqb_refl, app_nil_r in *. destruct ls2 as [|[a' lf] ls2]; cbn [next_of fst] in *.
    + exists ls1, a, lf1, [], []. by rewrite app_nil_r.
    + destruct a' as [x|]; [|done]. exists (ls1 ++ [(a, lf1)]), (Some x), [], lf, ls2. rewrite fmap_app, concat_app, <- app_assoc. cbn.
      rewrite !app_nil_r. split_and!; try done. intros ->. exfalso. destruct (walk_occupied ksl Hwf) as [[p E]|Hf].
      * rewrite E in Hw. destruct ls1 as [|? [|]]; done.
      * rewrite Hw in Hf. apply Forall_app in Hf as [_ [_ [? _]%Forall_cons_iff]%Forall_cons_iff]. done.
  - rewrite (proj2 (Nat.eqb_neq _ _)) by lia. exists ls1, a, lf1, (x :: lf2), ls2. by destruct (next_of ls2).
Qed.

Lemma cursor_begin ksl : ksl_wf ksl -> cursor ksl (ngtcp2_ksl_begin ksl) [] (ksl_elems ksl).
Proof.
  intros Hwf. pose proof (wf_leaf_chain ksl Hwf) as Hc. split; [done|]. rewrite <- concat_walk.
  destruct (walk_snoc ksl Hwf) as (ls & p & E). destruct (walk ksl) as [|[a lf] ls2] eqn:Hw; [by destruct ls|].
  exists [], a, [], lf, ls2. split_and!; try done.
  - unfold ngtcp2_ksl_begin. destruct (walk_split ksl [] a lf ls2 Hw) as [(-> & _ & -> & _)|(L1 & x & L2 & El & -> & HL1 & _)]; [done|].
    destruct L1; [|done]. rewrite (lc_front _ Hc), El. by destruct (ksl_root ksl) eqn:Er; [|unfold ksl_leaves in El; rewrite Er in El].
  - intros ->. destruct (walk_occupied ksl Hwf) as [[q Eq]|Hf]; [rewrite Hw in Eq; by injection Eq as _ ->|].
    rewrite Hw in Hf. by apply Forall_cons_iff in Hf as [? _].
Qed.

Lemma cursor_end ksl : ksl_wf ksl -> cursor ksl (ngtcp2_ksl_end ksl) (ksl_elems ksl) [].
Proof.
  intros Hwf. pose proof (wf_leaf_chain ksl Hwf) as Hc. split; [done|]. rewrite <- concat_walk.
  destruct (walk_snoc ksl Hwf) as (ls & [a lf] & Hw). exists ls, a, lf, [], []. rewrite app_nil_r, Hw, fmap_app, concat_app. cbn.
  rewrite app_nil_r. split_and!; try done. unfold ngtcp2_ksl_end.
  destruct (walk_split ksl ls a lf [] Hw) as [(-> & _ & -> & -> & _)|(L1 & x & L2 & El & -> & _ & HL2)]; [done|].
  destruct L2; [|done]. rewrite (lc_back _ Hc), El, fmap_app. cbn [fmap list_fmap]. rewrite last_snoc. cbn [fst].
  rewrite (it_nodes_walk ksl ls (Some x) lf [] Hc Hw). by destruct (ksl_root ksl) eqn:Er; [|unfold ksl_leaves in El; rewrite Er in El; destruct L1].
Qed.

(** A position is that of one iterator. *)
Lemma cursor_unique ksl it it' A x B : cursor ksl it A (x :: B) -> cursor ksl it' A (x :: B) -> it = it'.
Proof.
  intros (_ & ls1 & a & lf1 & lf2 & ls2 & Hw & -> & -> & HB & Hc) (_ & ls1' & a' & lf1' & lf2' & ls2' & Hw' & -> & HA & HB' & Hc').
  assert (Hne : lf2 <> [] /\ lf2' <> []).
  { split; intros ->; [rewrite (Hc eq_refl) in HB|rewrite (Hc' eq_refl) in HB']; discriminate. }
  destruct Hne as [Hne Hne']. rewrite Hw in Hw'. clear Hw Hc Hc' HB HB'.
  apply app_eq_app in Hw' as ([|y l] & [[E1 E2]|[E1 E2]]); cbn in E2.
  - rewrite app_nil_r in E1. subst. apply app_inv_head in HA. injection E2 as <- _ _. by subst.
  - rewrite app_nil_r in E1. subst. apply app_inv_head in HA. injection E2 as <- _ _. by subst.
  - injection E2 as <- _. subst. rewrite fmap_app, concat_app in HA. cbn in HA. rewrite <- !app_assoc in HA.
    apply app_inv_head, (f_equal length) in HA. rewrite !length_app in HA. destruct lf2'; [done|cbn in HA; lia].
  - injection E2 as <- _. subst. rewrite fmap_app, concat_app in HA. cbn in HA. rewrite <- !app_assoc in HA.
    apply app_inv_head, (f_equal length) in HA. rewrite !length_app in HA. destruct lf2; [done|cbn in HA; lia].
Qed.

Lemma cursor_it_end ksl it A B : cursor ksl it A B -> ngtcp2_ksl_it_end ksl it = bool_decide (B = []).
Proof.
  intros (Hch & ls1 & a & lf1 & lf2 & ls2 & Hw & -> & -> & -> & Hc). unfold ngtcp2_ksl_it_end. cbn [it_i it_blk].
  rewrite (it_nodes_walk ksl ls1 a _ ls2 Hch Hw), (it_links_walk ksl ls1 a _ ls2 Hch Hw), length_app. cbn [lk_next].
  rewrite (next_of_end _ _ _ _ Hw). destruct lf2 as [|x lf2]; cbn [length].
  - rewrite Nat.add_0_r, Nat.eqb_refl, (Hc eq_refl). done.
  - rewrite (proj2 (Nat.eqb_neq _ _)) by lia. done.
Qed.

Lemma cursor_node ksl it A x B : cursor ksl it A (x :: B) -> ksl_it_node ksl it = Ok x.
Proof.
  intros (Hch & ls1 & a & lf1 & lf2 & ls2 & Hw & -> & -> & HB & Hc). unfold ksl_it_node. cbn [it_i it_blk].
  rewrite (it_nodes_walk ksl ls1 a _ ls2 Hch Hw).
  destruct lf2 as [|y lf2]; [by rewrite (Hc eq_refl) in HB|]. injection HB as <- _.
  by rewrite list_lookup_middle.
Qed.

Lemma cursor_it_key ksl it A x B : cursor ksl it A (x :: B) -> ngtcp2_ksl_it_key ksl it = Ok x.1.
Proof. unfold ngtcp2_ksl_it_key. by intros ->%cursor_node. Qed.

Lemma cursor_it_get ksl it A x B : cursor ksl it A (x :: B) -> ngtcp2_ksl_it_get ksl it = Ok x.2.
Proof. unfold ngtcp2_ksl_it_get. by intros ->%cursor_node. Qed.

Lemma cursor_next ksl it A x B :
  ksl_wf ksl -> cursor ksl it A (x :: B) -> cursor ksl (ngtcp2_ksl_it_next ksl it) (A ++ [x]) B.
Proof.
  intros Hwf (Hch & ls1 & a & lf1 & lf2 & ls2 & Hw & -> & -> & HB & Hc).
  destruct lf2 as [|y lf2]; [by rewrite (Hc eq_refl) in HB|]. injection HB as <- ->.
  apply it_forward_cursor; [done|]. split; [done|]. exists ls1, a, (lf1 ++ [x]), lf2, ls2.
  rewrite length_app, <- app_assoc. cbn. rewrite Nat.add_1_r. split_and!; try done. by rewrite app_assoc.
Qed.

Lemma walk_before_occupied ksl ls1 p p' ls2 :
  ksl_wf ksl -> walk ksl = (ls1 ++ [p]) ++ p' :: ls2 -> p.2 <> [].
Proof.
  intros Hwf Hw. destruct (walk_occupied ksl Hwf) as [[l E]|Hf].
  - rewrite E in Hw. destruct ls1 as [|? [|]]; done.
  - rewrite Hw in Hf. apply Forall_app in Hf as [Hf _]. apply Forall_app in Hf as [_ Hf].
    by apply Forall_cons_iff in Hf as [? _].
Qed.

Lemma cursor_it_begin ksl it A B :
  ksl_wf ksl -> cursor ksl it A B -> ngtcp2_ksl_it_begin ksl it = bool_decide (A = []).
Proof.
  intros Hwf (Hch & ls1 & a & lf1 & lf2 & ls2 & Hw & -> & -> & -> & _). unfold ngtcp2_ksl_it_begin.
  cbn [it_i it_blk]. rewrite (it_links_walk ksl ls1 a _ ls2 Hch Hw). cbn [lk_prev]. rewrite (prev_of_begin _ _ _ _ Hw).
  destruct lf1 as [|x lf1]; cbn [length Nat.eqb andb].
  - destruct ls1 as [|p ls1 _] using rev_ind; [done|].
    pose proof (walk_before_occupied ksl ls1 p _ _ Hwf Hw) as Hlf.
    rewrite fmap_app, concat_app. cbn. rewrite !app_nil_r, !bool_decide_eq_false_2; [done| |]; by intros [_ ?]%app_eq_nil.
  - rewrite bool_decide_eq_false_2; [done|]. by intros [_ ?]%app_eq_nil.
Qed.

Lemma cursor_prev ksl it A x B :
  ksl_wf ksl -> cursor ksl it (A ++ [x]) B ->
  exists it', ngtcp2_ksl_it_prev ksl it = Ok it' /\ cursor ksl it' A (x :: B).
Proof.
  intros Hwf Hcur. pose proof (cursor_it_begin ksl it _ _ Hwf Hcur) as Hbeg.
  rewrite bool_decide_eq_false_2 in Hbeg by (by intros [_ ?]%app_eq_nil).
  destruct Hcur as (Hch & ls1 & a & lf1 & lf2 & ls2 & Hw & -> & HA & -> & Hc).
  unfold ngtcp2_ksl_it_prev. rewrite Hbeg. cbn [negb it_i it_blk].
  destruct lf1 as [|y lf1 _] using rev_ind.
  - cbn [length Nat.eqb]. destruct ls1 as [|[a' lf] ls1 _] using rev_ind; [by destruct A|].
    pose proof (walk_before_occupied ksl ls1 _ _ _ Hwf Hw) as Hlf. cbn in Hlf.
    rewrite (it_links_walk ksl _ a _ ls2 Hch Hw). cbn [lk_prev]. unfold prev_of. rewrite last_snoc. cbn [fst].
    rewrite <- app_assoc in Hw. cbn in Hw. rewrite (it_nodes_walk ksl ls1 a' lf _ Hch Hw).
    destruct lf as [|z lf _] using rev_ind; [done|].
    rewrite fmap_app, concat_app in HA. cbn in HA. rewrite !app_nil_r, app_assoc in HA.
    apply app_inj_tail in HA as [-> ->]. rewrite length_app. cbn [length]. rewrite Nat.add_sub.
    eexists. split; [reflexivity|]. split; [done|]. exists ls1, a', lf, [z], ((a, lf2) :: ls2). split_and!; done.
  - rewrite app_assoc in HA. apply app_inj_tail in HA as [-> ->].
    rewrite length_app. cbn [length]. rewrite Nat.add_1_r. cbn [Nat.eqb].
    eexists. split; [reflexivity|]. split; [done|]. exists ls1, a, lf1, (y :: lf2), ls2.
    rewrite <- app_assoc in Hw. cbn. rewrite Nat.sub_0_r. split_and!; done.
Qed.
End Iter.
