(* ===== verification/KslSpec.v ===== *)
(** * Ordered map: what the operations do

    The contract of [ngtcp2_ksl.h] for the operations on a whole list: an
    insertion puts an element where the order wants it, a removal takes out
    the element with the key, the blocks of each level stay chained in the
    order of the tree, and no block is lost. *)

From S2P Require Import Prelude Const Ksl KslTree KslInv KslInsert KslRemove KslSearch KslChain KslSim KslIter.
From stdpp Require Import list sorting.
#[local] Open Scope Z_scope.
#[local] Set Warnings "-clear-no-such-hyp".

Section Tree.
Context {K V : Type} (compar : K -> K -> bool) `{!StrictWeakOrder compar}.
Abbreviation blk := (ktree K V).
Implicit Types (b : blk) (k key : K) (A B : list (K * V)).
Abbreviation ordered := (StronglySorted (R compar)).

(** The root before the way down: not full. *)
Lemma split_root_ok h b avail :
  shape h b -> ordered (marks b) -> tree_n b = NGTCP2_KSL_MAX_NBLK -> (2 <= avail)%nat ->
  exists b', tree_split_root b avail = Ok (0, b', (avail - 2)%nat) /\ shape (S h) b' /\
    ordered (marks b') /\ kin (marks b) (marks b') /\ tree_elems b' = tree_elems b /\ tree_n b' = 2%nat /\
    tree_count b' = (tree_count b + 2)%nat.
Proof.
  intros Hs Ho Hn Ha. destruct avail as [|[|avail]]; [lia..|]. unfold tree_split_root.
  rewrite (split_blk_ok h b Hs Hn). destruct (halves_ok h b Hs Hn) as (Hl & Hr & Hnl & Hnr).
  pose proof (marks_take_drop NGTCP2_KSL_DEGR b) as Hm.
  pose proof (elems_take_drop NGTCP2_KSL_DEGR b) as He.
  pose proof (count_take_drop NGTCP2_KSL_DEGR b) as Hc.
  set (bl := tree_take _ _) in *. set (br := tree_drop _ _) in *. cbn [bind].
  destruct (last_key_ok bl) as [lk Hlk]; [nblk|]. destruct (last_key_ok br) as [rk Hrk]; [nblk|].
  rewrite Hlk, Hrk. cbn [bind]. replace (S (S avail) - 2)%nat with avail by lia. eexists. split; [reflexivity|].
  destruct (last_key_mark bl lk Hlk) as (ml & Hml & <-).
  destruct (last_key_mark br rk Hrk) as (mr & Hmr & <-).
  split_and!.
  - apply shape_node. split; [cbn [length]; nblk|]. apply pair_nodes_ok; try done; nblk.
  - rewrite marks_node, nmarks_cons, nmarks_cons. rewrite <- Hm in Ho.
    apply ordered_dup; [done| |done]. rewrite app_assoc. apply ordered_dup; [done|by rewrite app_nil_r|].
    rewrite last_app. by rewrite Hmr.
  - rewrite marks_node, !nmarks_cons, <- Hm. intros x. mark_in.
    intros [?|[->|[?|[->|[]]]]]; [auto| |auto|]; right; [exists ml|exists mr]; mark_in;
      split; try done; [left|right]; by apply last_Some_elem_of.
  - rewrite elems_node, !nelems_cons, <- He. unfold nelems. cbn. by rewrite app_nil_r.
  - done.
  - cbn. lia.
Qed.

(** The elements are strictly ordered. *)
Lemma elems_sorted h b A x B :
  shape h b -> ordered (marks b) -> tree_elems b = A ++ x :: B ->
  (forall y, y ∈ A -> compar y.1 x.1 = true) /\ (forall y, y ∈ B -> compar x.1 y.1 = true).
Proof.
  intros Hs Ho E. assert (Hel : StronglySorted (fun y z : K * V => compar y.1 z.1 = true) (tree_elems b)).
  { clear E. revert b Hs Ho. induction h as [|h IH]; intros [l|l] Hs Ho; try done.
    - rewrite elems_leaf. cbn in Ho. clear Hs. induction l as [|p l IHl]; [constructor|].
      cbn in Ho. apply StronglySorted_inv in Ho as [Ho Hp]. constructor; [by apply IHl|].
      rewrite Forall_map in Hp. done.
    - apply shape_node in Hs as [_ Hok]. rewrite elems_node, marks_node in *.
      induction Hok as [|[k c] l [Hc _] Hok IHl]; [constructor|]. rewrite nmarks_cons, nelems_cons in *.
      apply StronglySorted_app in Ho as (Hx & Hoc & Ho). apply StronglySorted_inv in Ho as [Ho _].
      cbn in Hc. apply StronglySorted_app. split_and!; [|by apply IH|by apply IHl].
      intros y z Hy Hz. apply (Hx (ME y.1) (ME z.1)).
      + apply (elem_mark h); [done|]. by apply list_elem_of_fmap_2.
      + apply elem_of_cons. right. apply (nelems_mark h); [done|]. by apply list_elem_of_fmap_2. }
  rewrite E in Hel. apply StronglySorted_app in Hel as (HA & _ & HB).
  apply StronglySorted_inv in HB as [_ HB]. rewrite list.Forall_forall in HB.
  split; [|done]. intros y Hy. apply HA; [done|]. apply elem_of_cons. by left.
Qed.

(** ** A leaf with an element less *)
Section Hint.
Context (f : list (K * V) -> list (K * V)).

Lemma update_leaf_node P k c Q j :
  (j < length (tree_leaves c))%nat ->
  tree_update_leaf f (length (nleaves P) + j) (TNode (P ++ (k, c) :: Q)) =
    TNode (P ++ (k, tree_update_leaf f j c) :: Q).
Proof.
  intros Hj. cbn [tree_update_leaf]. f_equal. induction P as [|[k' c'] P IH]; cbn [app length nleaves map concat].
  - rewrite Nat.add_0_l. by rewrite (proj2 (Nat.ltb_lt _ _)).
  - cbn [snd]. rewrite length_app. rewrite (proj2 (Nat.ltb_ge _ _)) by lia. f_equal.
    replace (length (tree_leaves c') + length (concat (map (fun p => tree_leaves p.2) P)) + j - length (tree_leaves c'))%nat
      with (length (nleaves P) + j)%nat by (unfold nleaves; lia).
    exact IH.
Qed.
End Hint.

(** The node that holds a leaf. *)
Lemma leaf_node (l : list (K * blk)) ls1 lf ls2 :
  nleaves l = ls1 ++ lf :: ls2 ->
  exists P k c Q ls1' ls2', l = P ++ (k, c) :: Q /\ tree_leaves c = ls1' ++ lf :: ls2' /\
    ls1 = nleaves P ++ ls1' /\ ls2 = ls2' ++ nleaves Q.
Proof.
  revert ls1. induction l as [|[k c] l IH]; intros ls1 E; [by destruct ls1|].
  rewrite nleaves_cons in E. apply app_eq_app in E as (ls & [[Hc E]|[-> E]]).
  - destruct ls as [|lf' ls]; cbn in E.
    + rewrite app_nil_r in Hc. destruct (IH []) as (P & k' & c' & Q & ls1' & ls2' & -> & Hc' & E1 & ->); [done|].
      symmetry in E1. apply app_eq_nil in E1 as [HP ->].
      exists ((k, c) :: P), k', c', Q, [], ls2'. rewrite nleaves_cons, HP, !app_nil_r. done.
    + injection E as <- ->. by exists [], k, c, l, ls1, ls.
  - destruct (IH ls E) as (P & k' & c' & Q & ls1' & ls2' & -> & Hc & -> & ->).
    exists ((k, c) :: P), k', c', Q, ls1', ls2'. split_and!; [done|done| |done].
    by rewrite nleaves_cons, <- app_assoc.
Qed.

Record element_deleted (h : nat) b b' ls1 lf1 (x : K * V) lf2 ls2 : Prop := {
  ed_shape : shape h b';
  ed_n : (tree_n b <= tree_n b' + (if h =? 0 then 1 else 0))%nat;
  ed_count : tree_count b' = tree_count b;
  ed_leaves : tree_leaves b' = ls1 ++ (lf1 ++ lf2) :: ls2;
  ed_marks : exists M1 M2, marks b = M1 ++ ME x.1 :: M2 /\ marks b' = M1 ++ M2;
}.

Lemma update_leaf_ok h b ls1 lf1 x lf2 ls2 :
  shape h b -> tree_leaves b = ls1 ++ (lf1 ++ x :: lf2) :: ls2 ->
  (h <> 0%nat -> (NGTCP2_KSL_MIN_NBLK < length (lf1 ++ x :: lf2))%nat) ->
  element_deleted h b (tree_update_leaf (delete (length lf1)) (length ls1) b) ls1 lf1 x lf2 ls2.
Proof.
  revert b ls1 ls2. induction h as [|h IH]; intros [l|l] ls1 ls2 Hs E Hbig; try done.
  - cbn in E. destruct ls1 as [|? [|]]; try done. injection E as -> <-.
    cbn [tree_update_leaf length Nat.eqb]. rewrite delete_middle.
    assert (Hlen : length (lf1 ++ x :: lf2) = S (length (lf1 ++ lf2))) by (rewrite !length_app; cbn; lia).
    split; cbn [tree_n Nat.eqb]; [cbn in *; lia|lia|done|done|].
    exists (marks (TLeaf lf1)), (marks (TLeaf lf2)). cbn. by rewrite !map_app.
  - pose proof Hs as [Hlen Hok]%shape_node. change (tree_leaves (TNode l)) with (nleaves l) in E.
    destruct (leaf_node l ls1 _ ls2 E) as (P & k & c & Q & ls1' & ls2' & -> & Hc & -> & ->).
    specialize (Hbig (Nat.neq_succ_0 h)).
    destruct (IH c ls1' ls2') as [Hs' Hn Hcnt Hl (M1 & M2 & Hm & Hm')]; [by eapply nodes_child|done|done|].
    rewrite length_app, update_leaf_node by (rewrite Hc, length_app; cbn; lia).
    set (c' := tree_update_leaf _ _ c) in *. clearbody c'. split.
    + apply shape_node. rewrite !length_app in *. split; [done|].
      apply Forall_app in Hok as [? [[Hsc Hmin] ?]%Forall_cons_iff]. apply Forall_app. split; [done|].
      constructor; [|done]. cbn in *. split; [done|]. destruct (Nat.eqb_spec h 0) as [->|]; [|lia].
      destruct c as [lc|]; [|done]. cbn in Hc, Hn |- *. destruct ls1' as [|? [|]]; try done.
      injection Hc as -> _. rewrite length_app in Hn. cbn [length] in Hn. nblk.
    + cbn [tree_n Nat.eqb]. rewrite !length_app. cbn. lia.
    + rewrite !count_node, !ncount_app, !ncount_cons. by rewrite Hcnt.
    + change (tree_leaves (TNode ?l)) with (nleaves l). rewrite nleaves_app, nleaves_cons, Hl.
      by rewrite <- !app_assoc.
    + exists (nmarks P ++ M1), (M2 ++ MS k :: nmarks Q).
      rewrite !marks_node, !nmarks_app, !nmarks_cons, Hm, Hm'. by rewrite <- !app_assoc.
Qed.

End Tree.

Section Spec.
Context {K V : Type} (compar : K -> K -> bool) `{!StrictWeakOrder compar}.
Abbreviation blk := (ngtcp2_ksl_blk K V).
Abbreviation ksl_t := (ngtcp2_ksl K V).
Implicit Types (b : blk) (m : ksl_mem) (ksl : ksl_t) (k key : K) (data : V) (A B : list (K * V)).
Abbreviation ordered := (StronglySorted (R compar)).
Abbreviation wf := (ksl_wf compar).

(** An insertion takes at most a block per level and three when the root is
    split. *)
Definition ksl_room (n : nat) ksl : Prop := (n * (ksl_height ksl + n + 3) <= ksl_avail ksl)%nat.

(** ** Lists with a root *)

(** The blocks below the root [b] are chained. *)
Definition root_chained m (h : nat) b : Prop := chained m (around nil_frame nil_frame (fun n => level n h b)).

Lemma root_chained_levels m h b : root_chained m h b <-> chained m (fun n => level n h b).
Proof. split; apply chained_ext; intros n; unfold around, nil_frame; cbn; by rewrite app_nil_r. Qed.

(** Blocks of a list with the same addresses. *)
Lemma root_chained_same m h b b' :
  (forall n, level n h b' = level n h b) -> root_chained m h b -> root_chained m h b'.
Proof. intros He. by apply chained_around. Qed.

Lemma wf_intro b n m h :
  shape h (erase b) -> ordered (marks (erase b)) -> n = length (tree_elems (erase b)) -> root_chained m h b ->
  wf (mk_ksl (Some b) n m).
Proof.
  intros Hs Ho Hn Hc%root_chained_levels. split; [intros ? [= <-]; by exists h|done| |].
  - cbn. rewrite Hn. unfold tree_elems. by rewrite erase_leaves.
  - unfold ksl_levels. cbn. by rewrite (blk_height h b Hs).
Qed.

Lemma wf_root ksl b :
  wf ksl -> ksl_root ksl = Some b -> exists h, shape h (erase b) /\ root_chained (ksl_mem_of ksl) h b.
Proof.
  intros [Hs _ _ Hc] Hr. destruct (Hs b Hr) as [h Hb]. exists h. split; [done|]. apply root_chained_levels.
  unfold ksl_levels in Hc. by rewrite Hr, (blk_height h b Hb) in Hc.
Qed.

Lemma elems_root ksl b : ksl_root ksl = Some b -> ksl_elems ksl = tree_elems (erase b).
Proof. unfold ksl_elems, ksl_leaves, tree_elems. intros ->. by rewrite erase_leaves. Qed.

Lemma marks_root ksl b : ksl_root ksl = Some b -> ksl_marks ksl = marks (erase b).
Proof. unfold ksl_marks. by intros ->. Qed.

Lemma height_root ksl h b : ksl_root ksl = Some b -> shape h (erase b) -> ksl_height ksl = h.
Proof. unfold ksl_height. intros ->. apply blk_height. Qed.

Lemma blocks_root ksl b : ksl_root ksl = Some b -> ksl_blocks ksl = (ksl_avail ksl + tree_count (erase b))%nat.
Proof. unfold ksl_blocks. intros ->. by rewrite erase_count. Qed.

(** The elements are the [ME] marks. *)
Lemma ksl_elem_mark ksl k : wf ksl -> ME k ∈ ksl_marks ksl <-> k ∈ (ksl_elems ksl).*1.
Proof.
  intros Hwf. destruct (ksl_root ksl) as [b|] eqn:Hr.
  - destruct (wf_root ksl b Hwf Hr) as (h & Hb & _). rewrite (marks_root ksl b Hr), (elems_root ksl b Hr). by apply (elem_mark h).
  - unfold ksl_marks, ksl_elems, ksl_leaves. rewrite Hr. cbn. by rewrite !elem_of_nil.
Qed.

Lemma cursor_at ksl b it t A x B :
  wf ksl -> ksl_root ksl = Some b -> it_sim b (Some it) (Some t) -> points_at (tree_leaves (erase b)) t A x B ->
  cursor ksl it A (x :: B).
Proof. intros Hwf%wf_leaf_chain. by apply points_cursor. Qed.

(** ** Insertion *)

(** The root before the way down: not full. *)
Lemma split_root_run m h b :
  shape h (erase b) -> ordered (marks (erase b)) -> root_chained m h b -> blk_n b = NGTCP2_KSL_MAX_NBLK -> (2 <= km_avail m)%nat ->
  exists b' m', ksl_split_root m b = Ok (0, b', m') /\ km_avail m' = (km_avail m - 2)%nat /\ root_chained m' (S h) b' /\
    shape (S h) (erase b') /\ ordered (marks (erase b')) /\ kin (marks (erase b)) (marks (erase b')) /\
    tree_elems (erase b') = tree_elems (erase b) /\ blk_n b' = 2%nat /\ tree_count (erase b') = (tree_count (erase b) + 2)%nat.
Proof.
  intros Hs Ho Hc Hn Ha. rewrite <- erase_n in Hn.
  destruct (split_root_ok compar h (erase b) (km_avail m) Hs Ho Hn Ha) as (t & Et & Hs' & Ho' & Hk & He & Hn' & Hcnt).
  unfold tree_split_root in Et. unfold ksl_split_root. destruct (km_avail m) as [|[|avail]] eqn:Hav; [lia..|].
  destruct (tree_split_blk (erase b)) as [[tl tr]| |] eqn:Es; cbn [bind] in Et; try done.
  destruct (split_blk_sim m _ _ h b tl tr _ Hc Hav Es) as (bl & br & m1 & -> & <- & <- & Hav1 & Hc1). cbn [bind].
  rewrite !erase_last_key in Et.
  destruct (last_key bl) as [lk| |]; cbn [bind] in Et; try done. destruct (last_key br) as [rk| |]; cbn [bind] in Et; try done.
  injection Et as <-.
  destruct (root_added m1 _ (S h) avail Hc1) as (m2 & -> & Hav2 & Hc2); [|done|done|].
  { unfold around, nil_frame. by rewrite !level_above by lia. }
  cbn [bind]. do 2 eexists. split; [reflexivity|]. split_and!; try done.
  - change (km_avail m2 = avail - 0)%nat. lia.
  - apply root_chained_levels. eapply chained_ext; [|exact Hc2]. intros n. unfold upd, around, nil_frame.
    rewrite level_own. unfold own, levels. cbn. rewrite !app_nil_r. destruct (Nat.eqb_spec n (S h)) as [->|]; [|done].
    by rewrite !level_above by lia.
Qed.

(** What a successful insertion and a duplicate key give. *)
Definition inserted_at ksl key data ksl' it : Prop :=
  exists A B, ksl_elems ksl = A ++ B /\ cursor ksl' it A ((key, data) :: B) /\
    (forall x, x ∈ A -> compar x.1 key = true) /\ (forall x, x ∈ B -> compar key x.1 = true).

Definition has_key ksl key : Prop := exists x, x ∈ ksl_elems ksl /\ key_equal compar x.1 key = true.

Record insert_ok ksl key data (rv : Z) ksl' it : Prop := {
  io_wf : wf ksl';
  io_marks : kin_key key (ksl_marks ksl) (ksl_marks ksl');
  io_blocks : ksl_blocks ksl' = ksl_blocks ksl;
  io_avail : (ksl_avail ksl <= ksl_avail ksl' + ksl_height ksl + 3)%nat;
  io_height : (ksl_height ksl' <= S (ksl_height ksl))%nat;
  io_outcome : (rv = 0 /\ inserted_at ksl key data ksl' it /\ ksl_n ksl' = S (ksl_n ksl)) \/
    (rv = NGTCP2_ERR_INVALID_ARGUMENT /\ ksl_elems ksl' = ksl_elems ksl /\ has_key ksl key);
}.

(** The way down from a root that is not full. *)
Lemma insert_root_ok ksl h b m key data :
  shape h (erase b) -> ordered (marks (erase b)) -> root_chained m h b -> (blk_n b < NGTCP2_KSL_MAX_NBLK)%nat -> (h <= km_avail m)%nat ->
  ksl_elems ksl = tree_elems (erase b) -> ksl_n ksl = length (tree_elems (erase b)) -> kin (ksl_marks ksl) (marks (erase b)) ->
  (km_avail m + tree_count (erase b) = ksl_blocks ksl)%nat -> (ksl_avail ksl + h <= km_avail m + ksl_height ksl + 3)%nat ->
  (h <= S (ksl_height ksl))%nat ->
  exists rv ksl' it,
    (let* (rv, root, m, it) := insert_blk compar (height b) m b key data in
     let n := if rv =? 0 then S (ksl_n ksl) else ksl_n ksl in
     let ksl := mk_ksl (Some root) n m in
     Ok (rv, ksl, match it with Some it => it | None => ngtcp2_ksl_end ksl end)) = Ok (rv, ksl', it) /\
    insert_ok ksl key data rv ksl' it.
Proof.
  intros Hs Ho Hch Hn Ha He Hnn Hkin Hc Hav Hh. rewrite (blk_height h b Hs). rewrite <- erase_n in Hn.
  destruct (insert_blk_ok compar h (km_avail m) (erase b) key data Hs Hn Ho) as (t & Et & [Hs' Ho' Hk _ Hav' Hc' Hout]).
  destruct (insert_blk_sim compar h _ _ m b key data t Hch Et) as ([[[rv b'] m'] it] & -> & [S1 S2 S3 S4 S5]).
  destruct t as [[[rv' t] avail'] it']. cbn [fst snd bind] in *. subst rv' t avail'. do 3 eexists. split; [reflexivity|].
  assert (Hlen : forall A x B (j : tree_it), points_at (tree_leaves (erase b')) j A x B -> length (tree_elems (erase b')) = S (length (A ++ B))).
  { intros A x B j Hp%points_at_points%points_elems. unfold tree_elems. rewrite Hp, !length_app. cbn. lia. }
  assert (Hwf : forall n, n = length (tree_elems (erase b')) -> wf (mk_ksl (Some b') n m')) by (intros; by apply (wf_intro b' _ _ h)).
  assert (Hout' : wf (mk_ksl (Some b') (if rv =? 0 then S (ksl_n ksl) else ksl_n ksl) m') /\
    ((rv = 0 /\ inserted_at ksl key data (mk_ksl (Some b') (S (ksl_n ksl)) m') (match it with Some it => it | None => ngtcp2_ksl_end (mk_ksl (Some b') (S (ksl_n ksl)) m') end)) \/
     (rv = NGTCP2_ERR_INVALID_ARGUMENT /\ tree_elems (erase b') = ksl_elems ksl /\ has_key ksl key))).
  { destruct Hout as [(-> & j & A & B & -> & HE & Hp & HA & HB)|[(-> & -> & HE & Hd)|(-> & _ & _ & ?)]]; [| |lia]; cbn [Z.eqb].
    - destruct it as [it|]; [|done].
      assert (Hwf' : wf (mk_ksl (Some b') (S (ksl_n ksl)) m')) by (apply Hwf; by rewrite (Hlen _ _ _ _ Hp), Hnn, HE).
      split; [done|]. left. split; [done|]. exists A, B. split_and!; [by rewrite He|by apply (cursor_at _ b' it j)|done|done].
    - split; [apply Hwf; by rewrite Hnn, HE|]. right. split_and!; [done|by rewrite He|]. unfold has_key. by rewrite He. }
  destruct Hout' as [Hwf' Hout']. split.
  - done.
  - eapply kin_key_trans; [apply kin_kin_key; exact Hkin|]. exact Hk.
  - rewrite (blocks_root _ b') by done. unfold ksl_avail at 1. cbn. lia.
  - unfold ksl_avail in *. cbn. lia.
  - by rewrite (height_root _ h b').
  - destruct Hout' as [[-> Hi]|(-> & HE & Hd)]; cbn [Z.eqb]; [left; by split_and!|right]. split_and!; [done| |done].
    by rewrite (elems_root _ b').
Qed.

Lemma insert_ok_run ksl key data :
  wf ksl -> (ksl_height ksl + 3 <= ksl_avail ksl)%nat ->
  exists rv ksl' it, ngtcp2_ksl_insert compar ksl key data = Ok (rv, ksl', it) /\
    insert_ok ksl key data rv ksl' it.
Proof.
  intros Hwf Ha. pose proof Hwf as [_ Ho Hn Hc0]. unfold ngtcp2_ksl_insert. destruct (ksl_root ksl) as [b|] eqn:Hr.
  - destruct (wf_root ksl b Hwf Hr) as (h & Hb & Hch). rewrite (elems_root ksl b Hr) in Hn. rewrite (marks_root ksl b Hr) in Ho.
    pose proof (height_root ksl h b Hr Hb) as Hh. pose proof (blocks_root ksl b Hr) as Hbl. unfold ksl_avail in *. rewrite Hh in Ha.
    destruct (Nat.eqb_spec (blk_n b) NGTCP2_KSL_MAX_NBLK) as [E|E].
    + destruct (split_root_run _ h b Hb Ho Hch E) as (b' & m' & -> & Hav & Hch' & Hs' & Ho' & Hk & He & Hn' & Hcnt); [lia|].
      cbn [bind Z.eqb negb]. apply (insert_root_ok ksl (S h) b'); unfold ksl_avail; rewrite ?Hh, ?He, ?(marks_root ksl b Hr), ?(elems_root ksl b Hr); try done; nblk.
    + cbn [bind Z.eqb negb]. pose proof (shape_max h (erase b) Hb) as Hmax. rewrite erase_n in Hmax.
      apply (insert_root_ok ksl h b); unfold ksl_avail; rewrite ?Hh, ?(marks_root ksl b Hr), ?(elems_root ksl b Hr); try done; first [nblk | apply kin_refl].
  - assert (Hch : chained (ksl_mem_of ksl) (fun _ => [])) by (unfold ksl_levels in Hc0; by rewrite Hr in Hc0).
    unfold ksl_height in *. rewrite Hr in Ha. destruct (ksl_avail ksl) as [|avail] eqn:Hav; [lia|].
    destruct (root_init_run (K := K) (V := V) (ksl_mem_of ksl) avail Hch Hav) as (m' & -> & Hav' & Hch').
    assert (Hroot : root_chained m' 0 (Leaf (K := K) (V := V) (km_fresh (ksl_mem_of ksl)) []))
      by (apply root_chained_levels; eapply chained_ext; [|exact Hch']; by intros [|n]).
    cbn [bind Z.eqb negb]. unfold ksl_elems, ksl_leaves in Hn. rewrite Hr in Hn.
    apply (insert_root_ok ksl 0 (Leaf (km_fresh (ksl_mem_of ksl)) [])); unfold ksl_elems, ksl_leaves, ksl_blocks, ksl_height, ksl_marks; rewrite ?Hr, ?Hav, ?Hav'; cbn;
      first [exact Hroot | done | nblk | apply kin_refl | constructor].
Qed.
(** ** Removal *)

(** What a successful removal gives. *)
Definition removed_at ksl key ksl' it : Prop :=
  exists A x B, ksl_elems ksl = A ++ x :: B /\ key_equal compar x.1 key = true /\ cursor ksl' it A B.

Record remove_ok ksl key (rv : Z) ksl' it : Prop := {
  ro_wf : wf ksl';
  ro_marks : kin (ksl_marks ksl) (ksl_marks ksl');
  ro_blocks : ksl_blocks ksl' = ksl_blocks ksl;
  ro_avail : (ksl_avail ksl <= ksl_avail ksl')%nat;
  ro_height : (ksl_height ksl' <= ksl_height ksl)%nat;
  ro_outcome : (rv = 0 /\ removed_at ksl key ksl' it /\ ksl_n ksl = S (ksl_n ksl')) \/
    (rv = NGTCP2_ERR_INVALID_ARGUMENT /\ ksl_elems ksl' = ksl_elems ksl /\ ~ has_key ksl key);
}.

Lemma remove_root_ok ksl h b m key :
  shape h (erase b) -> ordered (marks (erase b)) -> root_chained m h b ->
  ksl_elems ksl = tree_elems (erase b) -> ksl_n ksl = length (tree_elems (erase b)) -> kin (ksl_marks ksl) (marks (erase b)) ->
  (km_avail m + tree_count (erase b) = ksl_blocks ksl)%nat -> (h <= ksl_height ksl)%nat ->
  (ksl_avail ksl <= km_avail m)%nat ->
  exists rv ksl' it,
    (let* (rv, root, m, it) := remove_blk compar (height b) true m b key in
     let n := if rv =? 0 then (ksl_n ksl - 1)%nat else ksl_n ksl in
     let ksl := mk_ksl (Some root) n m in
     Ok (rv, ksl, match it with Some it => it_forward ksl it | None => ngtcp2_ksl_end ksl end)) = Ok (rv, ksl', it) /\
    remove_ok ksl key rv ksl' it.
Proof.
  intros Hs Ho Hch He Hnn Hkin Hc Hh Hav. rewrite (blk_height h b Hs).
  destruct (remove_blk_ok compar h true (km_avail m) (erase b) key Hs) as (t & Et & [(h' & Hh' & _ & Hs') Ho' Hk _ Hc' Hav' Hout]);
    [done|done|].
  destruct (remove_blk_sim compar h nil_frame nil_frame true m b key t Hch) as ([[[rv b'] m'] it] & -> & h2 & _ & Hu & [S1 S2 S3 S4 S5]);
    [done|by apply shape_uni|done|].
  destruct t as [[[rv' t] avail'] it']. cbn [fst snd bind] in *. subst rv' t avail'. assert (h' = h2) as -> by (by eapply shape_uni_eq).
  do 3 eexists. split; [reflexivity|].
  assert (Hout' : wf (mk_ksl (Some b') (if rv =? 0 then (ksl_n ksl - 1)%nat else ksl_n ksl) m') /\
    ((rv = 0 /\ ksl_n ksl = S (length (tree_elems (erase b'))) /\ exists j i A x B, it = Some j /\ it' = Some i /\
       tree_elems (erase b) = A ++ x :: B /\ key_equal compar x.1 key = true /\ points (tree_leaves (erase b')) i A B) \/
     (rv = NGTCP2_ERR_INVALID_ARGUMENT /\ ksl_elems (mk_ksl (Some b') (ksl_n ksl) m') = ksl_elems ksl /\ ~ has_key ksl key))).
  { destruct Hout as [(-> & i & A & x & B & -> & HE & Hx & Hp)|(-> & -> & HE & Hd)]; cbn [Z.eqb].
    - assert (Hlen : length (tree_elems (erase b)) = S (length (tree_elems (erase b')))).
      { rewrite HE. pose proof (points_elems _ _ _ _ Hp) as E. unfold tree_elems. rewrite E, !length_app. cbn. lia. }
      destruct it as [j|]; [|done]. split; [apply (wf_intro b' _ _ h2); [done|done|lia|done]|].
      left. split_and!; [done|lia|]. by exists j, i, A, x, B.
    - split; [apply (wf_intro b' _ _ h2); try done; by rewrite Hnn, HE|].
      right. split_and!; [done|by rewrite (elems_root _ b'), He|]. unfold has_key. rewrite He.
      intros (x & Hx & E). by rewrite Hd in E. }
  destruct Hout' as [Hwf Hout']. split.
  - done.
  - by eapply kin_trans.
  - rewrite (blocks_root _ b') by done. unfold ksl_avail at 1. cbn. lia.
  - unfold ksl_avail in *. cbn. lia.
  - rewrite (height_root _ h2 b') by done. lia.
  - destruct Hout' as [(-> & Hn & j & i & A & x & B & -> & -> & HE & Hx & Hp)|(-> & HE & Hd)]; cbn [Z.eqb ksl_n] in *; [left|by right].
    split_and!; [done| |lia]. exists A, x, B. rewrite He. split_and!; [done|done|].
    apply (it_forward_cursor compar); [done|]. apply (points_pointer _ b' j i); try done. by eapply wf_leaf_chain.
Qed.

(** The two blocks below the root become the root. *)
Lemma merge_root_run m h a k1 b1 k2 b2 :
  shape (S h) (erase (Node a [(k1, b1); (k2, b2)])) -> ordered (marks (erase (Node a [(k1, b1); (k2, b2)]))) ->
  root_chained m (S h) (Node a [(k1, b1); (k2, b2)]) -> blk_n b1 = NGTCP2_KSL_MIN_NBLK -> blk_n b2 = NGTCP2_KSL_MIN_NBLK ->
  exists b r m', ksl_merge_node m (Some a) [(k1, b1); (k2, b2)] 0 = Ok (b, r, m') /\ shape h (erase b) /\ ordered (marks (erase b)) /\
    root_chained m' h b /\ kin (marks (erase (Node a [(k1, b1); (k2, b2)]))) (marks (erase b)) /\
    tree_elems (erase (Node a [(k1, b1); (k2, b2)])) = tree_elems (erase b) /\ km_avail m' = (km_avail m + 2)%nat /\
    tree_count (erase (Node a [(k1, b1); (k2, b2)])) = (tree_count (erase b) + 2)%nat.
Proof.
  set (l := [(k1, b1); (k2, b2)]). change (erase (Node a l)) with (TNode (erases l)). intros [_ Hok]%shape_node Ho Hch Hn1 Hn2.
  rewrite <- erase_n in Hn1, Hn2. rewrite marks_node in Ho.
  destruct (merge_ok compar true h [] k1 (erase b1) k2 (erase b2) [] Hok Ho Hn1 Hn2) as (k & t & Hm & [Hok' Ho' Hk He Hc] & _).
  cbn [app length andb Nat.eqb] in Hm. apply chained_node in Hch.
  destruct (merge_sim m _ _ (Some a) h l 0 t None Hch) as (b & r & m' & E & <- & Hs); [done|exact Hm|].
  destruct r as [?|]; [done|]. destruct Hs as (_ & Hav & _ & Hch').
  exists b, None, m'. split; [done|]. split_and!.
  - by apply (nodes_child h [] k (erase b) []).
  - by apply (ordered_child compar [] k (erase b) []).
  - by apply root_chained_levels.
  - intros x Hx. apply Hk. change ([] ++ ?x) with x. rewrite nmarks_cons. apply elem_of_app. by left.
  - rewrite elems_node. cbn [app] in He. unfold erases, l. cbn [map fst snd]. rewrite He. unfold nelems. cbn. apply app_nil_r.
  - lia.
  - unfold ncount in *. cbn in *. lia.
Qed.

Lemma remove_ok_run ksl key :
  wf ksl -> exists rv ksl' it, ngtcp2_ksl_remove compar ksl key = Ok (rv, ksl', it) /\ remove_ok ksl key rv ksl' it.
Proof.
  intros Hwf. pose proof Hwf as [_ Ho Hn _]. unfold ngtcp2_ksl_remove. destruct (ksl_root ksl) as [b|] eqn:Hr.
  2:{ do 3 eexists. split; [reflexivity|]. split; try done; [apply kin_refl|]. right. split_and!; [done..|].
      intros (x & Hx & _). unfold ksl_elems, ksl_leaves in Hx. rewrite Hr in Hx. by apply elem_of_nil in Hx. }
  destruct (wf_root ksl b Hwf Hr) as (h & Hb & Hch). rewrite (elems_root ksl b Hr) in Hn. rewrite (marks_root ksl b Hr) in Ho.
  pose proof (height_root ksl h b Hr Hb) as Hh. pose proof (blocks_root ksl b Hr) as Hbl. unfold ksl_avail in Hbl.
  assert (Hsame : exists rv ksl' it,
    (let* (root, m) := Ok (b, ksl_mem_of ksl) in
     let* (rv, root, m, it) := remove_blk compar (height root) true m root key in
     let n := if rv =? 0 then (ksl_n ksl - 1)%nat else ksl_n ksl in
     let ksl := mk_ksl (Some root) n m in
     Ok (rv, ksl, match it with Some it => it_forward ksl it | None => ngtcp2_ksl_end ksl end)) = Ok (rv, ksl', it) /\
    remove_ok ksl key rv ksl' it).
  { cbn [bind]. apply (remove_root_ok ksl h b); rewrite ?Hh, ?(marks_root ksl b Hr), ?(elems_root ksl b Hr); try done; apply kin_refl. }
  destruct b as [a l|a [|[k1 b1] [|[k2 b2] [|? ?]]]]; try exact Hsame.
  destruct ((blk_n b1 =? NGTCP2_KSL_MIN_NBLK)%nat && (blk_n b2 =? NGTCP2_KSL_MIN_NBLK)%nat) eqn:Hmin; [|exact Hsame].
  apply andb_true_iff in Hmin as [Hm1%Nat.eqb_eq Hm2%Nat.eqb_eq]. clear Hsame. destruct h as [|h]; [done|].
  destruct (merge_root_run _ h a k1 b1 k2 b2 Hb Ho Hch Hm1 Hm2) as (b & r & m' & -> & Hb' & Ho' & Hch' & Hk & He & Hav & Hc).
  cbn [bind]. apply (remove_root_ok ksl h b); rewrite ?(marks_root ksl _ Hr), ?(elems_root ksl _ Hr), <- ?He; try done; rewrite ?Hh;
    unfold ksl_avail; lia.
Qed.

(** ** Removal at an iterator *)

(** The elements are strictly ordered. *)
Lemma elems_order ksl A x B :
  wf ksl -> ksl_elems ksl = A ++ x :: B ->
  (forall y, y ∈ A -> compar y.1 x.1 = true) /\ (forall y, y ∈ B -> compar x.1 y.1 = true).
Proof.
  intros Hwf E. destruct (ksl_root ksl) as [b|] eqn:Hr.
  - destruct (wf_root ksl b Hwf Hr) as (h & Hb & _). pose proof (wf_ordered _ _ Hwf) as Ho. rewrite (marks_root ksl b Hr) in Ho.
    rewrite (elems_root ksl b Hr) in E. by apply (elems_sorted compar h (erase b)).
  - unfold ksl_elems, ksl_leaves in E. rewrite Hr in E. by destruct A.
Qed.

Lemma key_equal_between k1 k2 key :
  key_equal compar k1 key = true -> key_equal compar k2 key = true -> compar k1 k2 = false.
Proof.
  intros [Ha _]%key_equal_sides [_ Hb]%key_equal_sides. by eapply less_negtrans.
Qed.

(** The place of a key is unique. *)
Lemma same_place ksl key A x B A' x' B' :
  wf ksl -> ksl_elems ksl = A ++ x :: B -> ksl_elems ksl = A' ++ x' :: B' ->
  key_equal compar x.1 key = true -> key_equal compar x'.1 key = true -> A = A' /\ x = x' /\ B = B'.
Proof.
  intros Hwf E E' Hx Hx'. destruct (elems_order ksl A x B Hwf E) as [HA _]. destruct (elems_order ksl A' x' B' Hwf E') as [HA' _].
  rewrite E in E'. apply app_eq_app in E' as ([|y l] & [[H1 H2]|[H1 H2]]); cbn in H2.
  - rewrite app_nil_r in H1. injection H2 as -> ->. done.
  - rewrite app_nil_r in H1. injection H2 as -> ->. done.
  - injection H2 as <- ->. assert (H : compar x'.1 x.1 = true); [|by rewrite (key_equal_between _ _ _ Hx' Hx) in H].
    apply HA. rewrite H1, elem_of_app, elem_of_cons. auto.
  - injection H2 as <- ->. assert (H : compar x.1 x'.1 = true); [|by rewrite (key_equal_between _ _ _ Hx Hx') in H].
    apply HA'. rewrite H1, elem_of_app, elem_of_cons. auto.
Qed.

Record hint_ok ksl A B ksl' it : Prop := {
  ho_wf : wf ksl';
  ho_marks : kin (ksl_marks ksl) (ksl_marks ksl');
  ho_blocks : ksl_blocks ksl' = ksl_blocks ksl;
  ho_avail : (ksl_avail ksl <= ksl_avail ksl')%nat;
  ho_height : (ksl_height ksl' <= ksl_height ksl)%nat;
  ho_cursor : cursor ksl' it A B;
}.

(** A leaf that is the root is the only one. *)
Lemma leaf_root m h b a : shape h (erase b) -> root_chained m h b -> a ∈ (blk_leaves b).*1 -> (a =? blk_id b) = (h =? 0)%nat.
Proof.
  intros Hs [_ _ Hd _ _ _]%root_chained_levels Ha. rewrite <- (level_leaves h b) in Ha by (by apply shape_uni).
  destruct (Nat.eqb_spec h 0) as [->|Hh].
  - rewrite level_self in Ha. apply list_elem_of_singleton in Ha as ->. apply Z.eqb_refl.
  - apply Z.eqb_neq. intros ->. apply Hh, (Hd _ _ (blk_id b)); [|done]. rewrite level_self. by apply list_elem_of_singleton.
Qed.

Lemma remove_hint_leaf ksl b h ls1 a lf1 x lf2 ls2 :
  wf ksl -> ksl_root ksl = Some b -> shape h (erase b) -> root_chained (ksl_mem_of ksl) h b ->
  walk ksl = ls1 ++ (Some a, lf1 ++ x :: lf2) :: ls2 ->
  (h <> 0%nat -> (NGTCP2_KSL_MIN_NBLK < length (lf1 ++ x :: lf2))%nat) ->
  let ksl' := mk_ksl (Some (update_leaf (delete (length lf1)) a b)) (ksl_n ksl - 1) (ksl_mem_of ksl) in
  hint_ok ksl (concat ls1.*2 ++ lf1) (lf2 ++ concat ls2.*2) ksl' (it_forward ksl' (mk_it (Some a) (length lf1))).
Proof.
  intros Hwf Hr Hb Hch Hw Hbig ksl'. set (b' := update_leaf _ _ b) in *.
  pose proof (wf_leaf_chain _ _ Hwf) as Hlc. pose proof (walk_root ksl b Hr) as Hwr. rewrite Hw, fmap_app in Hwr. cbn in Hwr.
  destruct (walk_split ksl ls1 (Some a) _ ls2 Hw) as [(Hn & _)|(L1 & y & L2 & El & [= <-] & HL1 & HL2)]; [by rewrite Hr in Hn|].
  assert (Hbl : blk_leaves b = L1 ++ (a, lf1 ++ x :: lf2) :: L2) by (unfold ksl_leaves in El; by rewrite Hr in El).
  assert (Hid : (blk_leaves b).*1 !! length ls1.*2 = Some a).
  { rewrite Hbl, fmap_app. cbn. by rewrite list_lookup_middle by (rewrite HL1; by rewrite !length_fmap). }
  assert (Hnd : NoDup (blk_leaves b).*1) by (pose proof (lc_nodup _ Hlc) as Hnd; unfold ksl_leaves in Hnd; by rewrite Hr in Hnd).
  pose proof (update_leaf_erase (delete (length lf1)) a b _ Hnd Hid) as Her. fold b' in Her.
  destruct (update_leaf_ok h (erase b) ls1.*2 lf1 x lf2 ls2.*2 Hb (eq_sym Hwr) Hbig) as [Hs' _ Hcnt Hl (M1 & M2 & Hm & Hm')].
  rewrite <- Her in Hs', Hcnt, Hl, Hm'.
  assert (Hch' : root_chained (ksl_mem_of ksl) h b') by (eapply root_chained_same; [|exact Hch]; intros; apply update_leaf_level).
  assert (Hr' : ksl_root ksl' = Some b') by done.
  assert (Hwf' : wf ksl').
  { pose proof (wf_ordered _ _ Hwf) as Ho. rewrite (marks_root ksl b Hr), Hm in Ho. apply (wf_intro b' _ _ h); [done| | |done].
    - rewrite Hm'. by eapply ordered_drop.
    - rewrite (wf_n _ _ Hwf), <- concat_walk, Hw. unfold tree_elems. rewrite Hl, fmap_app, !concat_app. cbn. rewrite !length_app. cbn. lia. }
  split.
  - done.
  - rewrite (marks_root ksl b Hr), (marks_root ksl' b' Hr'), Hm, Hm'. apply kin_drop.
  - rewrite (blocks_root ksl b Hr), (blocks_root ksl' b' Hr'), Hcnt. done.
  - done.
  - by rewrite (height_root ksl h b Hr Hb), (height_root ksl' h b' Hr' Hs').
  - apply (it_forward_cursor compar); [done|]. apply (points_pointer ksl' b' _ (mk_tit (length ls1.*2) (length lf1))); try done.
    + by eapply wf_leaf_chain.
    + exists a. cbn [tit_leaf]. unfold b'. by rewrite update_leaf_ids.
    + rewrite Hl. by exists ls1.*2, lf1, lf2, ls2.*2.
Qed.

Lemma remove_hint_run ksl hint A x B key :
  wf ksl -> cursor ksl hint A (x :: B) -> key_equal compar x.1 key = true ->
  exists ksl' it, ngtcp2_ksl_remove_hint compar ksl hint key = Ok (0, ksl', it) /\ hint_ok ksl A B ksl' it.
Proof.
  intros Hwf Hcur Hx. pose proof (cursor_elems ksl hint _ _ Hcur) as HE.
  assert (Hrem : exists ksl' it, ngtcp2_ksl_remove compar ksl key = Ok (0, ksl', it) /\ hint_ok ksl A B ksl' it).
  { destruct (remove_ok_run ksl key Hwf) as (rv & ksl' & it & E & [? ? ? ? ? Hout]).
    destruct Hout as [(-> & (A' & x' & B' & HE' & Hx' & Hc) & _)|(_ & _ & [])];
      [|exists x; split; [rewrite HE, elem_of_app, elem_of_cons; auto|done]].
    destruct (same_place ksl key A x B A' x' B' Hwf HE HE' Hx Hx') as (-> & -> & ->).
    by exists ksl', it. }
  destruct Hcur as (Hlc & ls1 & a & lf1 & lf2 & ls2 & Hw & -> & -> & HB & Hc).
  destruct lf2 as [|y lf2]; [by rewrite (Hc eq_refl) in HB|]. injection HB as <- ->.
  destruct (walk_split ksl ls1 a _ ls2 Hw) as [(_ & _ & _ & E & _)|(L1 & a' & L2 & El & -> & _ & _)]; [by destruct lf1|].
  unfold ngtcp2_ksl_remove_hint. cbn [it_blk it_i]. rewrite (it_nodes_walk ksl ls1 _ _ ls2 Hlc Hw).
  destruct (ksl_root ksl) as [b|] eqn:Hr; [|unfold ksl_leaves in El; rewrite Hr in El; by destruct L1].
  destruct (wf_root ksl b Hwf Hr) as (h & Hb & Hch). rewrite (leaf_root _ h b a' Hb Hch).
  2:{ unfold ksl_leaves in El. rewrite Hr in El. rewrite El, fmap_app, elem_of_app. right. apply elem_of_cons. by left. }
  destruct (negb _ && _) eqn:Hmin; [exact Hrem|]. clear Hrem.
  rewrite (proj2 (Nat.ltb_lt _ _)) by (rewrite length_app; cbn; lia).
  do 2 eexists. split; [reflexivity|]. apply (remove_hint_leaf ksl b h ls1 a' lf1 x lf2 ls2); try done.
  intros Hh. apply Nat.eqb_neq in Hh as Hh'. rewrite Hh' in Hmin. cbn [negb andb] in Hmin.
  apply Nat.eqb_neq in Hmin. pose proof (shape_leaves_big h (erase b) Hb) as Hf. rewrite <- (walk_root ksl b Hr), Hw, fmap_app in Hf.
  apply Forall_app in Hf as [_ Hf]; [|done]. apply Forall_cons_iff in Hf as [Hf _]. cbn in Hf. lia.
Qed.

(** ** Search, change of keys, clear *)
Lemma lower_bound_run (cmp : K -> K -> bool) ksl key :
  wf ksl -> monotone compar cmp key (ksl_marks ksl) ->
  exists it A B, ngtcp2_ksl_lower_bound_search cmp ksl key = Ok it /\ cursor ksl it A B /\
    (forall x, x ∈ A -> cmp x.1 key = true) /\ (forall x, x ∈ B -> cmp x.1 key = false).
Proof.
  intros Hwf Hm. pose proof (wf_leaf_chain _ _ Hwf) as Hlc. unfold ngtcp2_ksl_lower_bound_search. destruct (ksl_root ksl) as [b|] eqn:Hr.
  - destruct (wf_root ksl b Hwf Hr) as (h & Hb & _). pose proof (wf_ordered _ _ Hwf) as Ho. rewrite (marks_root ksl b Hr) in Ho, Hm.
    rewrite (blk_height h b Hb).
    destruct (lower_bound_blk_ok compar cmp key h (erase b) Hb Ho Hm) as (t & Et & A & B & Hp & HA & HB).
    destruct (lower_bound_sim cmp key h b t Hb Et) as (it & -> & Hit).
    cbn [bind]. do 3 eexists. split; [reflexivity|]. split_and!; [|exact HA|exact HB].
    apply (it_forward_cursor compar); [done|]. by apply (points_pointer ksl b it t).
  - exists (mk_it None 0), [], []. split_and!; [done| |by intros x ?%elem_of_nil..].
    split; [done|]. exists [], None, [], [], []. unfold walk. by rewrite Hr.
Qed.

Record update_ok ksl (old_key new_key : K) ksl' : Prop := {
  uo_wf : wf ksl';
  uo_marks : forall x, x ∈ ksl_marks ksl' -> updated compar old_key new_key (ksl_marks ksl) x;
  uo_blocks : ksl_blocks ksl' = ksl_blocks ksl;
  uo_avail : ksl_avail ksl' = ksl_avail ksl;
  uo_height : ksl_height ksl' = ksl_height ksl;
  uo_cursor : exists it A x B, key_equal compar x.1 old_key = true /\ cursor ksl it A (x :: B) /\
    cursor ksl' it A ((new_key, x.2) :: B);
}.

Lemma update_key_run ksl old_key new_key :
  wf ksl -> fits compar old_key new_key (ksl_marks ksl) -> has_key ksl old_key ->
  exists ksl', ngtcp2_ksl_update_key compar ksl old_key new_key = Ok ksl' /\ update_ok ksl old_key new_key ksl'.
Proof.
  intros Hwf Hf (x & Hx & Hxe). unfold ngtcp2_ksl_update_key.
  destruct (ksl_root ksl) as [b|] eqn:Hr; [|unfold ksl_elems, ksl_leaves in Hx; rewrite Hr in Hx; by apply elem_of_nil in Hx].
  destruct (wf_root ksl b Hwf Hr) as (h & Hb & Hch). pose proof Hwf as [_ Ho Hn _].
  rewrite (marks_root ksl b Hr) in Ho, Hf. rewrite (elems_root ksl b Hr) in Hx, Hn. rewrite (blk_height h b Hb).
  destruct (update_key_blk_ok compar old_key new_key h (erase b) x Hb Ho Hf Hx Hxe)
    as (t & Et & [Hs' _ Hcnt Ho' Hu (j & A & y & B & Hye & Hp & Hp')]).
  destruct (update_key_sim compar old_key new_key h b t Et) as (b' & -> & <- & Hlev & Hids). cbn [bind].
  eexists. split; [reflexivity|]. set (ksl' := mk_ksl _ _ _). assert (Hr' : ksl_root ksl' = Some b') by done.
  assert (Hwf' : wf ksl').
  { apply (wf_intro b' _ _ h); [done..| |by apply (root_chained_same _ h b)]. rewrite Hn. unfold tree_elems.
    rewrite (points_elems _ _ _ _ (points_at_points _ _ _ _ _ Hp)), (points_elems _ _ _ _ (points_at_points _ _ _ _ _ Hp')).
    by rewrite !length_app. }
  destruct (place_id b j A y B Hp) as (a & Ha). split.
  - done.
  - by rewrite (marks_root ksl b Hr), (marks_root ksl' b' Hr').
  - by rewrite (blocks_root ksl b Hr), (blocks_root ksl' b' Hr'), Hcnt.
  - done.
  - by rewrite (height_root ksl h b Hr Hb), (height_root ksl' h b' Hr' Hs').
  - exists (mk_it (Some a) (tit_i j)), A, y, B. split_and!; [done|apply (cursor_at _ b _ j)|apply (cursor_at _ b' _ j)]; try done; exists a.
    + done.
    + by rewrite Hids.
Qed.

Lemma clear_run ksl :
  wf ksl -> wf (ngtcp2_ksl_clear ksl) /\ ksl_elems (ngtcp2_ksl_clear ksl) = [] /\
    ksl_blocks (ngtcp2_ksl_clear ksl) = ksl_blocks ksl.
Proof.
  intros Hwf. unfold ngtcp2_ksl_clear. destruct (ksl_root ksl) as [b|] eqn:Hr.
  - split_and!; [|done|].
    + split; [done|constructor|done|apply empty_chained].
    + unfold ksl_blocks, ksl_avail. rewrite Hr. cbn. lia.
  - split_and!; [done| |done]. unfold ksl_elems, ksl_leaves. by rewrite Hr.
Qed.
End Spec.
