(* ===== verification/KslMap.v ===== *)
(** * Ordered map: refinement

    The list of [ngtcp2_ksl.c] against a sorted association list: every
    sequence of operations returns the same values and leaves the same
    elements, provided the allocator has enough blocks for it.  Then the
    traversal with iterators, the change of a key, and what happens when the
    allocator runs out of blocks while the root is split. *)

From S2P Require Import Prelude Const Ksl KslTree KslInv KslInsert KslRemove KslSearch KslChain KslSim KslIter KslSpec.
From stdpp Require Import list gmap sorting.
#[local] Open Scope Z_scope.
#[local] Set Warnings "-clear-no-such-hyp".

Section Map.
Context {K V : Type} (compar : K -> K -> bool).
Implicit Types (key : K) (data : V) (l A B : list (K * V)) (ksl : ngtcp2_ksl K V).

(** ** Operations *)
Inductive ksl_op :=
| Insert (key : K) (data : V)
| Remove (key : K)
| Find (key : K)
| Len
| Clear.

(** What a caller sees of an operation: a number and the node that the
    iterator points to, [None] at the end of the list. *)
Definition ksl_view ksl (it : ngtcp2_ksl_it) : res (option (K * V)) :=
  if ngtcp2_ksl_it_end ksl it then Ok None else let* p := ksl_it_node ksl it in Ok (Some p).

Definition ksl_exec (op : ksl_op) ksl : res (ngtcp2_ksl K V * (Z * option (K * V))) :=
  match op with
  | Insert key data =>
      let* (rv, ksl', it) := ngtcp2_ksl_insert compar ksl key data in
      if rv =? 0 then let* v := ksl_view ksl' it in Ok (ksl', (rv, v)) else Ok (ksl', (rv, None))
  | Remove key =>
      let* (rv, ksl', it) := ngtcp2_ksl_remove compar ksl key in
      if rv =? 0 then let* v := ksl_view ksl' it in Ok (ksl', (rv, v)) else Ok (ksl', (rv, None))
  | Find key =>
      let* it := ngtcp2_ksl_lower_bound_search compar ksl key in
      let* v := ksl_view ksl it in Ok (ksl, (0, v))
  | Len => Ok (ksl, (Z.of_nat (ngtcp2_ksl_len ksl), None))
  | Clear => Ok (ngtcp2_ksl_clear ksl, (0, None))
  end.

Fixpoint ksl_run (ops : list ksl_op) ksl : res (ngtcp2_ksl K V * list (Z * option (K * V))) :=
  match ops with
  | [] => Ok (ksl, [])
  | op :: ops =>
      let* (ksl, r) := ksl_exec op ksl in
      let* (ksl, rs) := ksl_run ops ksl in
      Ok (ksl, r :: rs)
  end.

(** ** The sorted association list *)
Fixpoint lower key l : list (K * V) :=
  match l with x :: l => if compar x.1 key then x :: lower key l else [] | [] => [] end.

Fixpoint upper key l : list (K * V) :=
  match l with x :: l' => if compar x.1 key then upper key l' else l | [] => [] end.

Definition map_exec (op : ksl_op) l : list (K * V) * (Z * option (K * V)) :=
  match op with
  | Insert key data =>
      match upper key l with
      | x :: _ => if negb (compar key x.1) then (l, (NGTCP2_ERR_INVALID_ARGUMENT, None))
                  else (lower key l ++ (key, data) :: upper key l, (0, Some (key, data)))
      | [] => (l ++ [(key, data)], (0, Some (key, data)))
      end
  | Remove key =>
      match upper key l with
      | x :: B => if negb (compar key x.1) then (lower key l ++ B, (0, head B))
                  else (l, (NGTCP2_ERR_INVALID_ARGUMENT, None))
      | [] => (l, (NGTCP2_ERR_INVALID_ARGUMENT, None))
      end
  | Find key => (l, (0, head (upper key l)))
  | Len => (l, (zlen l, None))
  | Clear => ([], (0, None))
  end.

Fixpoint map_run (ops : list ksl_op) l : list (K * V) * list (Z * option (K * V)) :=
  match ops with
  | [] => (l, [])
  | op :: ops =>
      let (l, r) := map_exec op l in
      let (l, rs) := map_run ops l in
      (l, r :: rs)
  end.

Section Refine.
Context `{!StrictWeakOrder compar}.

Lemma lower_upper key A B :
  (forall x, x ∈ A -> compar x.1 key = true) -> (forall x, head B = Some x -> compar x.1 key = false) ->
  lower key (A ++ B) = A /\ upper key (A ++ B) = B.
Proof.
  intros HA HB. induction A as [|x A IH]; cbn.
  - destruct B as [|x B]; cbn; [done|]. by rewrite (HB x eq_refl).
  - rewrite (HA x) by (apply elem_of_cons; by left).
    destruct IH as [-> ->]; [|done]. intros y Hy. apply HA, elem_of_cons. by right.
Qed.

Lemma ksl_view_cursor ksl it A B : cursor ksl it A B -> ksl_view ksl it = Ok (head B).
Proof.
  intros Hc. unfold ksl_view. rewrite (cursor_it_end ksl it A B Hc). destruct B as [|x B]; [done|].
  rewrite bool_decide_eq_false_2 by done. by rewrite (cursor_node ksl it A x B Hc).
Qed.

(** The state after an operation refines the new association list. *)
Definition refines (n : nat) l ksl : Prop := ksl_wf compar ksl /\ ksl_room n ksl /\ ksl_elems ksl = l.

Lemma room_step n ksl ksl' :
  ksl_room (S n) ksl -> (ksl_height ksl' <= S (ksl_height ksl))%nat ->
  (ksl_avail ksl <= ksl_avail ksl' + ksl_height ksl + 3)%nat -> ksl_room n ksl'.
Proof. unfold ksl_room. intros. nia. Qed.

Lemma room_le n ksl : ksl_room (S n) ksl -> ksl_room n ksl.
Proof. unfold ksl_room. nia. Qed.

Lemma room_weaken n ksl : ksl_room (S n) ksl -> (ksl_height ksl + 3 <= ksl_avail ksl)%nat.
Proof. unfold ksl_room. nia. Qed.

Lemma equal_split ksl key A x B :
  ksl_wf compar ksl -> ksl_elems ksl = A ++ x :: B -> key_equal compar x.1 key = true ->
  lower key (A ++ x :: B) = A /\ upper key (A ++ x :: B) = x :: B /\ compar key x.1 = false.
Proof.
  intros Hwf Hx Hxe. destruct (elems_order compar ksl A x B Hwf Hx) as [HA _].
  destruct (key_equal_sides compar key x.1 Hxe) as [Hlt Hgt].
  destruct (lower_upper key A (x :: B)) as [Hl Hu]; [|by intros y [= <-]|done].
  intros y Hy. specialize (HA y Hy). destruct (compar y.1 key) eqn:E; [done|].
  by rewrite (less_negtrans _ _ _ E Hgt) in HA.
Qed.

Lemma upper_head key l x B : upper key l = x :: B -> x ∈ l /\ compar x.1 key = false.
Proof.
  induction l as [|y l IH]; cbn; [done|]. rewrite elem_of_cons. destruct (compar y.1 key) eqn:E.
  - intros H. destruct (IH H). auto.
  - intros [= -> _]. auto.
Qed.

Lemma refine_insert n l ksl key data :
  refines (S n) l ksl ->
  exists ksl', ksl_exec (Insert key data) ksl = Ok (ksl', (map_exec (Insert key data) l).2) /\
    refines n (map_exec (Insert key data) l).1 ksl'.
Proof.
  intros (Hwf & Hroom & HE). pose proof (room_weaken _ _ Hroom) as Ha. cbn [ksl_exec].
  destruct (insert_ok_run compar ksl key data Hwf Ha) as (rv & ksl' & it & -> & [Hwf' _ _ Hav Hh Hout]).
  pose proof (room_step n ksl ksl' Hroom Hh Hav) as Hroom'. cbn [bind map_exec].
  destruct Hout as [(-> & (A & B & HE' & Hc & HA & HB) & _)|(-> & HE' & x & Hx & Hxe)]; cbn [Z.eqb].
  - rewrite (ksl_view_cursor _ _ _ _ Hc). cbn [bind head]. exists ksl'.
    destruct (lower_upper key A B HA) as [Hl Hu].
    { intros x Hx. apply less_asym, HB. destruct B; [done|]. injection Hx as <-. apply elem_of_cons. by left. }
    rewrite <- HE, HE', Hl, Hu. destruct B as [|x B].
    + split; [done|]. split_and!; [done|done|]. rewrite app_nil_r. by rewrite (cursor_elems _ _ _ _ Hc).
    + rewrite (HB x) by (apply elem_of_cons; by left). cbn [negb].
      split; [done|]. split_and!; [done|done|]. by rewrite (cursor_elems _ _ _ _ Hc).
  - exists ksl'. apply list_elem_of_split in Hx as (A & B & Hx). rewrite <- HE, Hx.
    destruct (equal_split ksl key A x B Hwf Hx Hxe) as (Hl & Hu & Hgt).
    rewrite Hu, Hgt. cbn [negb]. split; [done|]. split_and!; [done|done|]. by rewrite HE', Hx.
Qed.

Lemma refine_remove n l ksl key :
  refines (S n) l ksl ->
  exists ksl', ksl_exec (Remove key) ksl = Ok (ksl', (map_exec (Remove key) l).2) /\
    refines n (map_exec (Remove key) l).1 ksl'.
Proof.
  intros (Hwf & Hroom & HE). cbn [ksl_exec].
  destruct (remove_ok_run compar ksl key Hwf) as (rv & ksl' & it & -> & [Hwf' _ _ Hav Hh Hout]).
  assert (Hroom' : ksl_room n ksl') by (apply (room_step n ksl ksl'); [done|lia|lia]). cbn [bind map_exec].
  destruct Hout as [(-> & (A & x & B & HE' & Hxe & Hc) & _)|(-> & HE' & Hno)]; cbn [Z.eqb].
  - rewrite (ksl_view_cursor _ _ _ _ Hc). cbn [bind]. exists ksl'.
    destruct (equal_split ksl key A x B Hwf HE' Hxe) as (Hl & Hu & Hgt).
    rewrite <- HE, HE', Hl, Hu, Hgt. cbn [negb]. split; [done|]. split_and!; [done|done|].
    by rewrite (cursor_elems _ _ _ _ Hc).
  - exists ksl'. rewrite <- HE. destruct (upper key (ksl_elems ksl)) as [|x B] eqn:Hu.
    + split; [done|]. by split_and!.
    + destruct (upper_head key (ksl_elems ksl) x B Hu) as [Hx Hlt].
      destruct (compar key x.1) eqn:Hgt; cbn [negb].
      * split; [done|]. by split_and!.
      * destruct Hno. exists x. split; [done|]. unfold key_equal. by rewrite Hlt, Hgt.
Qed.

Lemma refine_find n l ksl key :
  refines (S n) l ksl ->
  exists ksl', ksl_exec (Find key) ksl = Ok (ksl', (map_exec (Find key) l).2) /\
    refines n (map_exec (Find key) l).1 ksl'.
Proof.
  intros (Hwf & Hroom & HE). cbn [ksl_exec map_exec fst snd].
  destruct (lower_bound_run compar compar ksl key Hwf) as (it & A & B & -> & Hc & HA & HB); [by apply monotone_self|].
  cbn [bind]. rewrite (ksl_view_cursor _ _ _ _ Hc). cbn [bind]. exists ksl.
  destruct (lower_upper key A B HA) as [_ Hu].
  { intros x Hx. apply HB. destruct B; [done|]. injection Hx as <-. apply elem_of_cons. by left. }
  rewrite <- HE, (cursor_elems _ _ _ _ Hc), Hu. split; [done|]. split_and!; [done| |by apply (cursor_elems _ _ _ _ Hc)].
  apply (room_step n ksl ksl); [done|lia|lia].
Qed.

Lemma ksl_exec_refines n l ksl op :
  refines (S n) l ksl ->
  exists ksl', ksl_exec op ksl = Ok (ksl', (map_exec op l).2) /\ refines n (map_exec op l).1 ksl'.
Proof.
  intros H. destruct op as [key data|key|key| |].
  - by apply refine_insert.
  - by apply refine_remove.
  - by apply refine_find.
  - destruct H as (Hwf & Hroom & HE). exists ksl. cbn. split.
    + unfold ngtcp2_ksl_len. by rewrite (wf_n _ _ Hwf), HE.
    + split_and!; [done| |done]. apply (room_step n ksl ksl); [done|lia|lia].
  - destruct H as (Hwf & Hroom & HE). exists (ngtcp2_ksl_clear ksl). cbn. split; [done|].
    destruct (clear_run compar ksl Hwf) as (Hwf' & HE' & _). split_and!; [done| |done].
    apply (room_step n ksl); [done| |]; unfold ngtcp2_ksl_clear, ksl_avail, ksl_height; destruct (ksl_root ksl) as [b|] eqn:Hr; cbn; rewrite ?Hr; lia.
Qed.

Lemma ksl_run_refines ops l ksl :
  refines (length ops) l ksl ->
  exists ksl', ksl_run ops ksl = Ok (ksl', (map_run ops l).2) /\ ksl_wf compar ksl' /\
    ksl_elems ksl' = (map_run ops l).1.
Proof.
  revert l ksl. induction ops as [|op ops IH]; intros l ksl H.
  - exists ksl. split; [done|]. destruct H as (? & _ & ?). done.
  - destruct (ksl_exec_refines _ _ _ op H) as (ksl' & E & H'). cbn [ksl_run map_run]. rewrite E. cbn [bind].
    destruct (map_exec op l) as [l' r]. cbn [fst snd] in *.
    destruct (IH l' ksl' H') as (ksl'' & E' & Hwf & HE). rewrite E'. cbn [bind].
    destruct (map_run ops l') as [l'' rs]. cbn [fst snd] in *. by exists ksl''.
Qed.
End Refine.
End Map.

(** ** Iteration

    The loops [for (it = begin; !it_end; it_next)] and
    [for (it = end; !it_begin;) it_prev], collecting the nodes. *)
Section Iteration.
Context {K V : Type}.
Implicit Types (ksl : ngtcp2_ksl K V) (it : ngtcp2_ksl_it).

Fixpoint ksl_forward (fuel : nat) ksl it : res (list (K * V)) :=
  if ngtcp2_ksl_it_end ksl it then Ok [] else
  match fuel with
  | O => Fault
  | S fuel =>
      let* p := ksl_it_node ksl it in
      let* l := ksl_forward fuel ksl (ngtcp2_ksl_it_next ksl it) in
      Ok (p :: l)
  end.

Fixpoint ksl_backward (fuel : nat) ksl it : res (list (K * V)) :=
  if ngtcp2_ksl_it_begin ksl it then Ok [] else
  match fuel with
  | O => Fault
  | S fuel =>
      let* it := ngtcp2_ksl_it_prev ksl it in
      let* p := ksl_it_node ksl it in
      let* l := ksl_backward fuel ksl it in
      Ok (p :: l)
  end.

Lemma ksl_forward_cursor (compar : K -> K -> bool) ksl it A B :
  ksl_wf compar ksl -> cursor ksl it A B -> ksl_forward (length B) ksl it = Ok B.
Proof.
  intros Hwf. revert it A. induction B as [|x B IH]; intros it A Hc; cbn [length ksl_forward];
    rewrite (cursor_it_end ksl it A _ Hc); [done|].
  rewrite bool_decide_eq_false_2 by done. rewrite (cursor_node _ _ _ _ _ Hc). cbn [bind].
  by rewrite (IH _ _ (cursor_next compar ksl it A x B Hwf Hc)).
Qed.

Lemma ksl_backward_cursor (compar : K -> K -> bool) ksl it A B :
  ksl_wf compar ksl -> cursor ksl it A B -> ksl_backward (length A) ksl it = Ok (rev A).
Proof.
  intros Hwf. revert it B. induction A as [|x A IH] using rev_ind; intros it B Hc.
  - cbn. by rewrite (cursor_it_begin compar ksl it _ _ Hwf Hc).
  - rewrite length_app, Nat.add_1_r. cbn [ksl_backward].
    rewrite (cursor_it_begin compar ksl it _ _ Hwf Hc).
    rewrite bool_decide_eq_false_2 by (by intros [_ ?]%app_eq_nil).
    destruct (cursor_prev compar ksl it A x B Hwf Hc) as (it' & -> & Hc'). cbn [bind].
    rewrite (cursor_node _ _ _ _ _ Hc'). cbn [bind]. rewrite (IH it' _ Hc'). cbn [bind].
    by rewrite rev_app_distr.
Qed.
End Iteration.

(** ** Properties *)

#[export] Instance ltb_order : StrictWeakOrder Z.ltb.
Proof. split; intros *; rewrite ?Z.ltb_lt, ?Z.ltb_ge; lia. Qed.

(** C25: every sequence of insertions, removals, searches, length queries and
    clears on a fresh skip list returns what a sorted association list
    returns (error codes and the node the iterator points to included) and
    leaves the same elements, when the allocator has [n * (n + 3)] blocks for
    [n] operations; no operation fails an assertion. *)
Theorem ksl_refines_map {K V : Type} (compar : K -> K -> bool) `{!StrictWeakOrder compar}
    (avail : nat) (ops : list (@ksl_op K V)) :
  (length ops * (length ops + 3) <= avail)%nat ->
  exists ksl, ksl_run compar ops (ngtcp2_ksl_init avail) = Ok (ksl, (map_run compar ops []).2) /\
    ksl_wf compar ksl /\ ksl_elems ksl = (map_run compar ops []).1.
Proof.
  intros Ha. apply (ksl_run_refines compar ops [] (ngtcp2_ksl_init avail)).
  split; [by apply init_wf|split; [|done]]. unfold ksl_room. cbn. lia.
Qed.

Lemma ksl_refines_map_witness :
  exists ksl, ksl_run Z.ltb [Insert 3 30; Insert 1 10; Insert 3 31; Remove 1; Remove 2; Find 2; Len]
      (ngtcp2_ksl_init 70) =
      Ok (ksl, [(0, Some (3, 30)); (0, Some (1, 10)); (NGTCP2_ERR_INVALID_ARGUMENT, None);
                (0, Some (3, 30)); (NGTCP2_ERR_INVALID_ARGUMENT, None); (0, Some (3, 30)); (1, None)]) /\
    ksl_elems ksl = [(3, 30)].
Proof.
  destruct (ksl_refines_map Z.ltb 70 [Insert 3 30; Insert 1 10; Insert 3 31; Remove 1; Remove 2; Find 2; Len])
    as (ksl & H1 & _ & H2); [vm_compute; lia|].
  exists ksl. split; [exact H1|exact H2].
Defined.

(** What a sequence of operations makes of a fresh list. *)
Definition ksl_built (ops : list (@ksl_op Z Z)) (avail : nat) : ngtcp2_ksl Z Z :=
  match ksl_run Z.ltb ops (ngtcp2_ksl_init avail) with
  | Ok (ksl, _) => ksl
  | _ => ngtcp2_ksl_init 0
  end.

Lemma ksl_built_wf ops avail : (length ops * (length ops + 3) <= avail)%nat -> ksl_wf Z.ltb (ksl_built ops avail).
Proof.
  intros Ha. unfold ksl_built. destruct (ksl_run_refines Z.ltb ops [] (ngtcp2_ksl_init avail)) as (ksl & -> & Hwf & _); [|done].
  split; [by apply init_wf|split; [|done]]. unfold ksl_room. cbn. lia.
Qed.

(** The keys 0 to [n] - 1 inserted, then the keys [gone] removed. *)
Definition ksl_upto (n : nat) (gone : list Z) : list (@ksl_op Z Z) :=
  map (fun i => Insert (Z.of_nat i) 0) (seq 0 n) ++ map Remove gone.

(** C26: after any sequence of operations on a fresh skip list with enough
    memory, walking from [begin] to [end] along the [next] pointers of the
    leaves visits exactly the elements of the tree in order and stops, and
    walking back from [end] to [begin] along the [prev] pointers visits them in
    reverse; no released leaf is visited.  The pointers are those that the
    splits, merges and removals of the sequence have set. *)
Theorem ksl_traversal {K V : Type} (compar : K -> K -> bool) `{!StrictWeakOrder compar}
    (avail : nat) (ops : list (@ksl_op K V)) :
  (length ops * (length ops + 3) <= avail)%nat ->
  exists ksl rs, ksl_run compar ops (ngtcp2_ksl_init avail) = Ok (ksl, rs) /\
    ksl_forward (ngtcp2_ksl_len ksl) ksl (ngtcp2_ksl_begin ksl) = Ok (ksl_elems ksl) /\
    ksl_backward (ngtcp2_ksl_len ksl) ksl (ngtcp2_ksl_end ksl) = Ok (rev (ksl_elems ksl)) /\
    ksl_elems ksl = (map_run compar ops []).1.
Proof.
  intros Ha. destruct (ksl_run_refines compar ops [] (ngtcp2_ksl_init avail)) as (ksl & E & Hwf & HE).
  { split; [by apply init_wf|split; [|done]]. unfold ksl_room. cbn. lia. }
  exists ksl, (map_run compar ops []).2. split; [done|]. unfold ngtcp2_ksl_len. rewrite (wf_n _ _ Hwf). split_and!; [| |done].
  - by eapply ksl_forward_cursor, cursor_begin.
  - by eapply ksl_backward_cursor, cursor_end.
Qed.

Lemma ksl_traversal_witness :
  exists ksl rs, ksl_run Z.ltb (ksl_upto 70 [40; 41; 42]) (ngtcp2_ksl_init 5548) = Ok (ksl, rs) /\
    ksl_forward 67 ksl (ngtcp2_ksl_begin ksl) = Ok (map (fun i => (Z.of_nat i, 0)) (seq 0 40 ++ seq 43 27)).
Proof.
  destruct (ksl_traversal Z.ltb 5548 (ksl_upto 70 [40; 41; 42])) as (ksl & rs & E & Hf & _ & HE);
    [vm_compute; lia|].
  exists ksl, rs. split; [exact E|]. vm_compute in E. injection E as <- <-. exact Hf.
Defined.

(** C27: when the new key is behind every key in front of the old one (keys of
    inner nodes included) and in front of every element behind it,
    [ngtcp2_ksl_update_key] changes the key of exactly the element with the
    old key, which keeps its place and its data, and the list stays well
    formed. *)
Theorem ksl_update_key_spec {K V : Type} (compar : K -> K -> bool) `{!StrictWeakOrder compar}
    (ksl : ngtcp2_ksl K V) (old_key new_key : K) :
  ksl_wf compar ksl -> fits compar old_key new_key (ksl_marks ksl) -> has_key compar ksl old_key ->
  exists ksl' A x B, ngtcp2_ksl_update_key compar ksl old_key new_key = Ok ksl' /\
    ksl_wf compar ksl' /\ key_equal compar x.1 old_key = true /\
    ksl_elems ksl = A ++ x :: B /\ ksl_elems ksl' = A ++ (new_key, x.2) :: B.
Proof.
  intros Hwf Hf Hk. destruct (update_key_run compar ksl old_key new_key Hwf Hf Hk)
    as (ksl' & E & [Hwf' _ _ _ _ (it & A & x & B & Hx & Hc & Hc')]).
  exists ksl', A, x, B. split_and!; [done|done|done|by apply (cursor_elems _ _ _ _ Hc)|by apply (cursor_elems _ _ _ _ Hc')].
Qed.

Lemma ksl_update_key_spec_witness :
  let ksl := ksl_built [Insert 1 10; Insert 3 30; Insert 9 90] 18 in
  exists ksl' A x B, ngtcp2_ksl_update_key Z.ltb ksl 3 7 = Ok ksl' /\
    ksl_wf Z.ltb ksl' /\ key_equal Z.ltb x.1 3 = true /\
    [(1, 10); (3, 30); (9, 90)] = A ++ x :: B /\ ksl_elems ksl' = A ++ (7, x.2) :: B.
Proof.
  intros ksl. destruct (ksl_update_key_spec Z.ltb ksl 3 7) as (ksl' & A & x & B & H1 & H2 & H3 & H4 & H5).
  - apply ksl_built_wf. vm_compute. lia.
  - assert (E : ksl_marks ksl = [ME 1; ME 3; ME 9]) by (vm_compute; reflexivity). rewrite E.
    intros m. rewrite !elem_of_cons, elem_of_nil. intros [->|[->|[->|[]]]]; vm_compute; split; done.
  - assert (E : ksl_elems ksl = [(1, 10); (3, 30); (9, 90)]) by (vm_compute; reflexivity).
    exists (3, 30). split; [rewrite E, !elem_of_cons; auto|done].
  - exists ksl', A, x, B. split; [exact H1|]. split; [exact H2|]. split; [exact H3|]. split; [exact H4|exact H5].
Defined.

(** An insertion into a list whose root is a full leaf, when exactly one
    more block can be allocated, returns [NGTCP2_ERR_NOMEM] after the root has
    been cut in two and the right half given back: half of the elements are
    gone while [n] still counts them, and [back] points to the released
    block. *)
Theorem ksl_insert_oom_loses {K V : Type} (compar : K -> K -> bool) (ksl : ngtcp2_ksl K V) (a : Z) (l : list (K * V))
    (key : K) (data : V) :
  ksl_wf compar ksl -> ksl_root ksl = Some (Leaf a l) -> length l = NGTCP2_KSL_MAX_NBLK -> ksl_avail ksl = 1%nat ->
  exists ksl' it r, ngtcp2_ksl_insert compar ksl key data = Ok (NGTCP2_ERR_NOMEM, ksl', it) /\
    ksl_elems ksl' = take 16 l /\ ngtcp2_ksl_len ksl' = 32%nat /\ ksl_avail ksl' = 1%nat /\
    km_back (ksl_mem_of ksl') = Some r /\ km_links (ksl_mem_of ksl') !! r = None.
Proof.
  intros Hwf Hr Hl Ha. unfold ngtcp2_ksl_insert. rewrite Hr. cbn [bind Z.eqb negb blk_n].
  rewrite Hl, Nat.eqb_refl. unfold ksl_split_root, ksl_split_blk.
  pose proof (wf_chain _ _ Hwf) as Hc. assert (E : ksl_levels ksl 0 = [] ++ a :: []) by (unfold ksl_levels; by rewrite Hr).
  destruct (link_run (ksl_mem_of ksl) _ Hc 0 [] a [] E 0 Ha) as (m1 & m2 & -> & Hlk & Hav & Hc2).
  cbn [bind blk_id]. rewrite Hlk. cbn [bind blk_n]. rewrite Hl. change (_ && _) with true. cbv iota.
  cbn [bind]. unfold ksl_blk_objalloc_new at 1. rewrite Hav.
  do 3 eexists. split; [reflexivity|]. split_and!.
  - unfold ksl_elems, ksl_leaves. cbn [ksl_root blk_take blk_leaves fmap list_fmap snd concat]. by rewrite app_nil_r.
  - cbn. rewrite (wf_n _ _ Hwf). unfold ksl_elems, ksl_leaves. rewrite Hr. cbn. by rewrite app_nil_r.
  - unfold ksl_avail. cbn. by rewrite Hav.
  - cbn. rewrite (ch_back _ _ Hc2). by rewrite upd_eq.
  - cbn. apply lookup_delete_eq.
Qed.

Lemma ksl_insert_oom_loses_witness :
  let ksl := ksl_built (ksl_upto 32 []) 1120 in
  let ksl1 := mk_ksl (ksl_root ksl) (ksl_n ksl) (mk_mem 1 (km_fresh (ksl_mem_of ksl)) (km_links (ksl_mem_of ksl))
                (km_front (ksl_mem_of ksl)) (km_back (ksl_mem_of ksl))) in
  exists ksl' it r, ngtcp2_ksl_insert Z.ltb ksl1 32 0 = Ok (NGTCP2_ERR_NOMEM, ksl', it) /\
    length (ksl_elems ksl') = 16%nat /\ ngtcp2_ksl_len ksl' = 32%nat /\ km_back (ksl_mem_of ksl') = Some r.
Proof.
  intros ksl ksl1. assert (Hwf : ksl_wf Z.ltb ksl) by (apply ksl_built_wf; vm_compute; lia).
  destruct (ksl_insert_oom_loses Z.ltb ksl1 0 (map (fun i => (Z.of_nat i, 0)) (seq 0 32)) 32 0)
    as (ksl' & it & r & H1 & H2 & H3 & _ & H5 & _); [|vm_compute; reflexivity|vm_compute; reflexivity|vm_compute; reflexivity|].
  - destruct Hwf as [H1 H2 H3 [H4 H5 H6 H7 H8 H9]]. split; [exact H1|exact H2|exact H3|]. split; [exact H4|exact H5|exact H6|exact H7|exact H8|exact H9].
  - exists ksl', it, r. split; [exact H1|]. split; [rewrite H2; vm_compute; reflexivity|]. split; [exact H3|exact H5].
Defined.
