(* ===== verification/Gaptr.v ===== *)
(** * Ranges and the gap tracker: [lib/ngtcp2_range.c], [lib/ngtcp2_gaptr.c]

    A gap tracker keeps which offsets were pushed as the ordered map of the
    gaps between them.  It is a client of the skip list: its keys are ranges
    ordered by their beginning, and it searches with another comparison
    ([ngtcp2_ksl_range_exclusive_compar]) than the one the list is ordered
    by, which is only sound because ranges in the list do not overlap, the
    stale keys of inner nodes included. *)

From S2P Require Import Prelude Const Ksl KslTree KslInv KslIter KslSearch KslSpec KslMap.
From stdpp Require Import list sorting.
#[local] Open Scope Z_scope.
#[local] Set Warnings "-clear-no-such-hyp".

(** ** Ranges *)
Record ngtcp2_range := mk_range { r_begin : Z; r_end : Z }.

Implicit Types (a b k l m q r : ngtcp2_range).

Definition ngtcp2_range_init (begin_ end_ : Z) : ngtcp2_range := mk_range begin_ end_.

Definition ngtcp2_range_intersect a b : ngtcp2_range :=
  let begin_ := Z.max (r_begin a) (r_begin b) in
  let end_ := Z.min (r_end a) (r_end b) in
  if begin_ <? end_ then ngtcp2_range_init begin_ end_ else mk_range 0 0.

Definition ngtcp2_range_len r : Z := u64 (r_end r - r_begin r).

Definition ngtcp2_range_eq a b : bool := (r_begin a =? r_begin b) && (r_end a =? r_end b).

(** The left and the right part. *)
Definition ngtcp2_range_cut a b : ngtcp2_range * ngtcp2_range :=
  (mk_range (r_begin a) (r_begin b), mk_range (r_end b) (r_end a)).

Definition ngtcp2_range_not_after a b : bool := r_end a <=? r_end b.

(** ** The comparisons of [ngtcp2_ksl.h] *)
Definition ngtcp2_ksl_range_compar a b : bool := r_begin a <? r_begin b.

Definition ngtcp2_ksl_range_exclusive_compar a b : bool :=
  (r_begin a <? r_begin b) && negb (Z.max (r_begin a) (r_begin b) <? Z.min (r_end a) (r_end b)).

#[export] Instance range_compar_order : StrictWeakOrder ngtcp2_ksl_range_compar.
Proof.
  split; unfold ngtcp2_ksl_range_compar; intros *; rewrite ?Z.ltb_lt, ?Z.ltb_ge; lia.
Qed.

(** ** The gap tracker *)
Definition ngtcp2_gaptr : Type := ngtcp2_ksl ngtcp2_range unit.
Implicit Types (gaptr : ngtcp2_gaptr).

(** [avail] blocks can be allocated. *)
Definition ngtcp2_gaptr_init (avail : nat) : ngtcp2_gaptr := ngtcp2_ksl_init avail.

Definition gaptr_gap_init gaptr : res (Z * ngtcp2_gaptr) :=
  let* (rv, gaptr, _) := ngtcp2_ksl_insert ngtcp2_ksl_range_compar gaptr (mk_range 0 UINT64_MAX) tt in
  Ok (rv, gaptr).

(** One round of the loop of [ngtcp2_gaptr_push] for a gap [k] that overlaps
    [q] in [m]: the rest of the gap is kept. *)
Definition cut_gap gaptr (it : ngtcp2_ksl_it) k m : res (Z * ngtcp2_gaptr * ngtcp2_ksl_it) :=
  let (l, r) := ngtcp2_range_cut k m in
  if negb (ngtcp2_range_len l =? 0) then
    let* gaptr := ngtcp2_ksl_update_key ngtcp2_ksl_range_compar gaptr k l in
    if negb (ngtcp2_range_len r =? 0) then ngtcp2_ksl_insert ngtcp2_ksl_range_compar gaptr r tt
    else Ok (0, gaptr, it)
  else if negb (ngtcp2_range_len r =? 0) then
    let* gaptr := ngtcp2_ksl_update_key ngtcp2_ksl_range_compar gaptr k r in Ok (0, gaptr, it)
  else Ok (0, gaptr, it).

Fixpoint push_loop (fuel : nat) gaptr (it : ngtcp2_ksl_it) q : res (Z * ngtcp2_gaptr) :=
  match fuel with
  | O => Fault
  | S fuel =>
      if ngtcp2_ksl_it_end gaptr it then Ok (0, gaptr) else
      let* k := ngtcp2_ksl_it_key gaptr it in
      let m := ngtcp2_range_intersect q k in
      if ngtcp2_range_len m =? 0 then Ok (0, gaptr) else
      if ngtcp2_range_eq k m then
        let* (_, gaptr, it) := ngtcp2_ksl_remove_hint ngtcp2_ksl_range_compar gaptr it k in
        push_loop fuel gaptr it q
      else
        let* (rv, gaptr, it) := cut_gap gaptr it k m in
        if negb (rv =? 0) then Ok (rv, gaptr)
        else push_loop fuel gaptr (ngtcp2_ksl_it_next gaptr it) q
  end.

Definition ngtcp2_gaptr_push gaptr (offset datalen : Z) : res (Z * ngtcp2_gaptr) :=
  let q := mk_range offset (u64 (offset + datalen)) in
  let* (rv, gaptr) := if (ngtcp2_ksl_len gaptr =? 0)%nat then gaptr_gap_init gaptr else Ok (0, gaptr) in
  if negb (rv =? 0) then Ok (rv, gaptr) else
  let* it := ngtcp2_ksl_lower_bound_search ngtcp2_ksl_range_exclusive_compar gaptr q in
  push_loop (S (ngtcp2_ksl_len gaptr)) gaptr it q.

Definition ngtcp2_gaptr_first_gap_offset gaptr : res Z :=
  if (ngtcp2_ksl_len gaptr =? 0)%nat then Ok 0 else
  let* k := ngtcp2_ksl_it_key gaptr (ngtcp2_ksl_begin gaptr) in Ok (r_begin k).

Definition ngtcp2_gaptr_get_first_gap_after gaptr (offset : Z) : res ngtcp2_range :=
  if (ngtcp2_ksl_len gaptr =? 0)%nat then Ok (mk_range 0 UINT64_MAX) else
  let* it := ngtcp2_ksl_lower_bound_search ngtcp2_ksl_range_exclusive_compar gaptr
               (mk_range offset (u64 (offset + 1))) in
  assert! negb (ngtcp2_ksl_it_end gaptr it);
  ngtcp2_ksl_it_key gaptr it.

Definition ngtcp2_gaptr_is_pushed gaptr (offset datalen : Z) : res bool :=
  let q := mk_range offset (u64 (offset + datalen)) in
  if (ngtcp2_ksl_len gaptr =? 0)%nat then Ok false else
  let* it := ngtcp2_ksl_lower_bound_search ngtcp2_ksl_range_exclusive_compar gaptr q in
  assert! negb (ngtcp2_ksl_it_end gaptr it);
  let* k := ngtcp2_ksl_it_key gaptr it in
  Ok (ngtcp2_range_len (ngtcp2_range_intersect q k) =? 0).

Definition ngtcp2_gaptr_drop_first_gap gaptr : res ngtcp2_gaptr :=
  if (ngtcp2_ksl_len gaptr =? 0)%nat then Ok gaptr else
  let it := ngtcp2_ksl_begin gaptr in
  assert! negb (ngtcp2_ksl_it_end gaptr it);
  let* r := ngtcp2_ksl_it_key gaptr it in
  let* (_, gaptr, _) := ngtcp2_ksl_remove_hint ngtcp2_ksl_range_compar gaptr it r in
  Ok gaptr.

(** ** Invariant *)
Definition range_ok r : Prop := 0 <= r_begin r < r_end r /\ r_end r <= UINT64_MAX.

Definition apart a b : Prop := r_end a <= r_begin b \/ r_end b <= r_begin a.

(** No key of the list overlaps a gap, also no stale one. *)
Record gaps_ok gaptr : Prop := {
  go_wf : ksl_wf ngtcp2_ksl_range_compar gaptr;
  go_range : forall w, w ∈ ksl_marks gaptr -> range_ok (mkey w);
  go_apart : forall w x, w ∈ ksl_marks gaptr -> x ∈ ksl_elems gaptr -> mkey w = x.1 \/ apart (mkey w) x.1;
}.

(** Offset [x] is in a gap. *)
Definition missing gaptr (x : Z) : Prop := exists e, e ∈ ksl_elems gaptr /\ r_begin e.1 <= x < r_end e.1.

Definition inside r (x : Z) : Prop := r_begin r <= x < r_end r.

Lemma range_len_ok r : range_ok r -> ngtcp2_range_len r = r_end r - r_begin r.
Proof. intros [? ?]. unfold ngtcp2_range_len. apply u64_small. unfold is_u64, UINT64_MAX in *. lia. Qed.

Lemma intersect_spec q k :
  range_ok q -> range_ok k ->
  if ngtcp2_range_len (ngtcp2_range_intersect q k) =? 0 then apart q k
  else ngtcp2_range_intersect q k = mk_range (Z.max (r_begin q) (r_begin k)) (Z.min (r_end q) (r_end k)) /\
    range_ok (ngtcp2_range_intersect q k).
Proof.
  intros [Hq Hq'] [Hk Hk']. unfold ngtcp2_range_intersect, ngtcp2_range_init.
  destruct (Z.ltb_spec (Z.max (r_begin q) (r_begin k)) (Z.min (r_end q) (r_end k))) as [H|H].
  - assert (Hm : range_ok (mk_range (Z.max (r_begin q) (r_begin k)) (Z.min (r_end q) (r_end k)))) by (split; cbn; lia).
    rewrite range_len_ok by done. cbn. rewrite (proj2 (Z.eqb_neq _ _)) by lia. done.
  - change (ngtcp2_range_len (mk_range 0 0) =? 0) with true. cbv iota. unfold apart. lia.
Qed.

Lemma apart_inside a b x : apart a b -> inside a x -> ~ inside b x.
Proof. unfold apart, inside. lia. Qed.

(** Marks of an element of the list. *)
Lemma gaptr_elem_mark gaptr x : gaps_ok gaptr -> x ∈ ksl_elems gaptr -> ME x.1 ∈ ksl_marks gaptr.
Proof.
  intros [Hwf _ _] Hx. apply (ksl_elem_mark _ _ _ Hwf). by apply list_elem_of_fmap_2.
Qed.

Lemma gaptr_elem_range gaptr x : gaps_ok gaptr -> x ∈ ksl_elems gaptr -> range_ok x.1.
Proof. intros Hok Hx%gaptr_elem_mark; [|done]. by apply (go_range _ Hok) in Hx. Qed.

Lemma range_less a b : ngtcp2_ksl_range_compar a b = true <-> r_begin a < r_begin b.
Proof. apply Z.ltb_lt. Qed.

Lemma range_not_less a b : ngtcp2_ksl_range_compar a b = false <-> r_begin b <= r_begin a.
Proof. apply Z.ltb_ge. Qed.

Lemma exclusive_spec a q :
  range_ok a -> range_ok q ->
  ngtcp2_ksl_range_exclusive_compar a q = true <-> r_end a <= r_begin q.
Proof.
  intros [? _] [? _]. unfold ngtcp2_ksl_range_exclusive_compar.
  rewrite andb_true_iff, negb_true_iff, Z.ltb_lt, Z.ltb_ge. lia.
Qed.

(** The search of the code is sound on ranges that do not overlap. *)
Lemma exclusive_monotone gaptr q :
  gaps_ok gaptr -> range_ok q ->
  monotone ngtcp2_ksl_range_compar ngtcp2_ksl_range_exclusive_compar q (ksl_marks gaptr).
Proof.
  intros Hok Hq m1 m2 H1 H2 HR He.
  pose proof (go_range _ Hok _ H1) as [R1 R1']. pose proof (go_range _ Hok _ H2) as [R2 R2'].
  rewrite !exclusive_spec by done.
  assert (Hle : r_begin (mkey m1) <= r_begin (mkey m2)).
  { destruct m2 as [k|k]; cbn in *; [apply range_less in HR; lia|by apply range_not_less in HR]. }
  assert (Hd : mkey m1 = mkey m2 \/ apart (mkey m1) (mkey m2)).
  { assert (Hin : forall w, w ∈ ksl_marks gaptr -> is_elem w -> exists x, x ∈ ksl_elems gaptr /\ x.1 = mkey w).
    { intros [k|k] Hw []. pose proof Hok as [Hwf _ _]. apply (ksl_elem_mark _ _ _ Hwf) in Hw.
      apply list_elem_of_fmap in Hw as (x & -> & Hx). by exists x. }
    destruct He as [He|He]; [destruct (Hin m1 H1 He) as (x & Hx & <-)|destruct (Hin m2 H2 He) as (x & Hx & <-)].
    - destruct (go_apart _ Hok m2 x H2 Hx) as [->|[?|?]]; [by left|right; by right|right; by left].
    - by apply (go_apart _ Hok m1 x H1 Hx). }
  destruct Hd as [->|[?|?]]; [done|lia|lia].
Qed.

Lemma gaps_sorted gaptr A x B :
  gaps_ok gaptr -> ksl_elems gaptr = A ++ x :: B ->
  (forall y, y ∈ A -> r_end y.1 <= r_begin x.1) /\ (forall y, y ∈ B -> r_end x.1 <= r_begin y.1).
Proof.
  intros Hok E. destruct (elems_order _ gaptr A x B (go_wf _ Hok) E) as [HA HB].
  assert (Hx : x ∈ ksl_elems gaptr) by (rewrite E, elem_of_app, elem_of_cons; auto).
  split; intros y Hy; [specialize (HA y Hy); apply range_less in HA|specialize (HB y Hy); apply range_less in HB].
  all: assert (Hyi : y ∈ ksl_elems gaptr) by (rewrite E, elem_of_app, elem_of_cons; auto).
  all: pose proof (gaptr_elem_range _ _ Hok Hx) as [? _]; pose proof (gaptr_elem_range _ _ Hok Hyi) as [? _].
  all: destruct (go_apart _ Hok (ME y.1) x (gaptr_elem_mark _ _ Hok Hyi) Hx) as [Heq|[?|?]]; cbn in *; try rewrite Heq in *; lia.
Qed.

(** What the search finds: in front of the cursor gaps that end before [q]. *)
Lemma gap_search gaptr q :
  gaps_ok gaptr -> range_ok q ->
  exists it A B, ngtcp2_ksl_lower_bound_search ngtcp2_ksl_range_exclusive_compar gaptr q = Ok it /\
    cursor gaptr it A B /\ (forall x, x ∈ A -> r_end x.1 <= r_begin q) /\
    (forall x, x ∈ B -> r_begin q < r_end x.1).
Proof.
  intros Hok Hq.
  destruct (lower_bound_run _ ngtcp2_ksl_range_exclusive_compar gaptr q (go_wf _ Hok) (exclusive_monotone _ _ Hok Hq))
    as (it & A & B & Hit & Hc & HA & HB).
  exists it, A, B. pose proof (cursor_elems _ _ _ _ Hc) as E. split_and!; [done|done| |].
  - intros x Hx. assert (Hr : range_ok x.1) by (apply (gaptr_elem_range gaptr); [done|rewrite E, elem_of_app; auto]).
    specialize (HA x Hx). by apply exclusive_spec in HA.
  - intros x Hx. assert (Hr : range_ok x.1) by (apply (gaptr_elem_range gaptr); [done|rewrite E, elem_of_app; auto]).
    specialize (HB x Hx). destruct (Z.lt_ge_cases (r_begin q) (r_end x.1)); [done|].
    exfalso. assert (Hn : ngtcp2_ksl_range_exclusive_compar x.1 q = true) by (by apply exclusive_spec). congruence.
Qed.

(** ** Changes of the list *)
Abbreviation key_eq := (key_equal ngtcp2_ksl_range_compar).

Lemma key_eq_refl k : key_eq k k = true.
Proof. unfold key_equal. by rewrite (less_irrefl (less := ngtcp2_ksl_range_compar)). Qed.

Lemma key_eq_begin a b : key_eq a b = true <-> r_begin a = r_begin b.
Proof. unfold key_equal, ngtcp2_ksl_range_compar. rewrite andb_true_iff, !negb_true_iff, !Z.ltb_ge. lia. Qed.

Lemma cursor_elem gaptr it A (x : ngtcp2_range * unit) B : cursor gaptr it A (x :: B) -> x ∈ ksl_elems gaptr.
Proof. intros ->%cursor_elems. rewrite elem_of_app, elem_of_cons. auto. Qed.

Lemma begin_unique gaptr A x B y :
  gaps_ok gaptr -> ksl_elems gaptr = A ++ x :: B -> y ∈ ksl_elems gaptr -> r_begin y.1 = r_begin x.1 -> y = x.
Proof.
  intros Hok E Hy Hb. destruct (gaps_sorted _ _ _ _ Hok E) as [HA HB].
  pose proof (gaptr_elem_range _ _ Hok Hy) as [? _]. rewrite E in Hy.
  assert (Hx : range_ok x.1) by (apply (gaptr_elem_range gaptr); [done|rewrite E, elem_of_app, elem_of_cons; auto]).
  destruct Hx as [? _]. apply elem_of_app in Hy as [Hy|[->|Hy]%elem_of_cons]; [|done|].
  - specialize (HA y Hy). lia.
  - specialize (HB y Hy). lia.
Qed.

(** A gap that was filled. *)
Lemma gap_remove gaptr it A x B :
  gaps_ok gaptr -> cursor gaptr it A (x :: B) ->
  exists gaptr' it', ngtcp2_ksl_remove_hint ngtcp2_ksl_range_compar gaptr it x.1 = Ok (0, gaptr', it') /\
    cursor gaptr' it' A B /\ gaps_ok gaptr' /\ forall n, ksl_room n gaptr -> ksl_room n gaptr'.
Proof.
  intros Hok Hc.
  destruct (remove_hint_run _ gaptr it A x B x.1 (go_wf _ Hok) Hc (key_eq_refl _)) as (g' & it' & Hrun & [Hwf Hk _ Ha Hh Hc']).
  exists g', it'. split_and!; [done|done| |].
  - pose proof (cursor_elems _ _ _ _ Hc) as E. pose proof (cursor_elems _ _ _ _ Hc') as E'.
    assert (Hsub : forall y, y ∈ ksl_elems g' -> y ∈ ksl_elems gaptr).
    { intros y. rewrite E, E', !elem_of_app, elem_of_cons. tauto. }
    split; [done| |].
    + intros w [Hw|(w0 & Hw & ->)]%Hk; apply (go_range _ Hok _ Hw).
    + intros w y [Hw|(w0 & Hw & ->)]%Hk Hy%Hsub; apply (go_apart _ Hok _ _ Hw Hy).
  - intros n. unfold ksl_room. nia.
Qed.

(** A gap that became smaller. *)
Lemma gap_update gaptr it A x B nw :
  gaps_ok gaptr -> cursor gaptr it A (x :: B) -> range_ok nw ->
  r_begin x.1 <= r_begin nw -> r_end nw <= r_end x.1 ->
  exists gaptr', ngtcp2_ksl_update_key ngtcp2_ksl_range_compar gaptr x.1 nw = Ok gaptr' /\
    cursor gaptr' it A ((nw, x.2) :: B) /\ gaps_ok gaptr' /\
    (forall w, w ∈ ksl_marks gaptr' -> mkey w = nw \/ apart (mkey w) x.1) /\
    forall n, ksl_room n gaptr -> ksl_room n gaptr'.
Proof.
  intros Hok Hc Hnw Hb He. pose proof (cursor_elem _ _ _ _ _ Hc) as Hx. pose proof (cursor_elems _ _ _ _ Hc) as E.
  pose proof (gaptr_elem_range _ _ Hok Hx) as [? _]. pose proof Hnw as [? _].
  assert (Hap : forall w, w ∈ ksl_marks gaptr -> r_begin (mkey w) <> r_begin x.1 -> apart (mkey w) x.1).
  { intros w Hw Hne. destruct (go_apart _ Hok _ _ Hw Hx) as [Heq|?]; [by rewrite Heq in Hne|done]. }
  destruct (update_key_run ngtcp2_ksl_range_compar gaptr x.1 nw (go_wf _ Hok))
    as (g' & Hrun & [Hwf Hu _ Hav Hh (it0 & A0 & x0 & B0 & Hx0 & Hc0 & Hc')]).
  { intros w Hw. pose proof (go_range _ Hok _ Hw) as [? _]. rewrite !range_less. split; [lia|]. intros _ Hlt.
    destruct (Hap w Hw); lia. }
  { exists x. split; [done|apply key_eq_refl]. }
  assert (Heq : A0 = A /\ x0 = x /\ B0 = B).
  { eapply (same_place _ gaptr x.1); [apply Hok|by apply cursor_elems in Hc0|exact E|done|apply key_eq_refl]. }
  destruct Heq as (-> & -> & ->). rewrite (cursor_unique _ _ _ _ _ _ Hc0 Hc) in Hc'.
  pose proof (cursor_elems _ _ _ _ Hc') as E'.
  assert (Hw' : forall w, w ∈ ksl_marks g' -> mkey w = nw \/ apart (mkey w) x.1 /\ w ∈ ksl_marks gaptr).
  { intros w Hw. destruct (Hu w Hw) as [[Hm Hlt]|[(Hm & Hlt & _)|?]]; [right|right|by left]; (split; [|done]);
      apply range_less in Hlt; apply Hap; [done|lia|done|lia]. }
  exists g'. split_and!; [done|done| | |].
  - split; [done| |].
    + intros w [->|[_ ?]]%Hw'; [done|by apply (go_range _ Hok)].
    + intros w y Hw Hy. rewrite E' in Hy. apply elem_of_app in Hy.
      assert (Hold : y ∈ A \/ y ∈ B -> y ∈ ksl_elems gaptr /\ apart x.1 y.1).
      { destruct (gaps_sorted _ _ _ _ Hok E) as [HA HB]. rewrite E, elem_of_app, elem_of_cons.
        intros [Hy'|Hy']; (split; [tauto|]); [specialize (HA _ Hy')|specialize (HB _ Hy')]; unfold apart; lia. }
      destruct (Hw' w Hw) as [->|[Ha Hm]].
      * destruct Hy as [Hy|[->|Hy]%elem_of_cons]; [right|by left|right];
          destruct Hold as [_ [?|?]]; try tauto; unfold apart; lia.
      * destruct Hy as [Hy|[->|Hy]%elem_of_cons]; [|right; cbn; destruct Ha; unfold apart; lia|];
          apply (go_apart _ Hok); tauto.
  - intros w [?|[? _]]%Hw'; auto.
  - intros n. unfold ksl_room. rewrite Hav, Hh. done.
Qed.

(** A gap between the others. *)
Lemma gap_insert n gaptr r :
  gaps_ok gaptr -> range_ok r -> (forall w, w ∈ ksl_marks gaptr -> apart (mkey w) r) -> ksl_room (S n) gaptr ->
  exists gaptr' it A B, ngtcp2_ksl_insert ngtcp2_ksl_range_compar gaptr r tt = Ok (0, gaptr', it) /\
    ksl_elems gaptr = A ++ B /\ cursor gaptr' it A ((r, tt) :: B) /\ gaps_ok gaptr' /\ ksl_room n gaptr' /\
    (forall y, y ∈ A -> r_end y.1 <= r_begin r) /\ (forall y, y ∈ B -> r_end r <= r_begin y.1).
Proof.
  intros Hok Hr Hap Hroom. pose proof (room_weaken n gaptr Hroom) as Hav.
  destruct (insert_ok_run _ gaptr r tt (go_wf _ Hok) Hav) as (rv & g' & it & Hrun & [Hwf Hk _ Ha Hh Hout]).
  assert (Hel : forall y, y ∈ ksl_elems gaptr -> range_ok y.1 /\ apart y.1 r).
  { intros y Hy. split; [by apply (gaptr_elem_range gaptr)|]. apply (Hap (ME y.1)). by apply gaptr_elem_mark. }
  destruct Hout as [(-> & (A & B & E & Hc & HA & HB) & _)|(-> & _ & (y & Hy & He))].
  2:{ apply key_eq_begin in He. destruct (Hel y Hy) as [[? _] [?|?]]; destruct Hr; lia. }
  exists g', it, A, B. pose proof (cursor_elems _ _ _ _ Hc) as E'. split_and!; [done|done|done| | | |].
  - split; [done| |].
    + intros w [Hw|[(w0 & Hw & ->)| ->]]%Hk; [by apply (go_range _ Hok)| |done]. apply (go_range _ Hok _ Hw).
    + intros w y Hw Hy. rewrite E' in Hy.
      assert (Hy' : y.1 = r \/ y ∈ ksl_elems gaptr).
      { rewrite E. apply elem_of_app in Hy as [?|[->|?]%elem_of_cons]; rewrite ?elem_of_app; auto. }
      assert (Hw' : mkey w = r \/ exists w0, w0 ∈ ksl_marks gaptr /\ mkey w = mkey w0).
      { destruct (Hk w Hw) as [?|[(w0 & ? & ->)|?]]; [right; by exists w|right; by exists w0|by left]. }
      destruct Hy' as [->|Hy'], Hw' as [->|(w0 & Hw0 & ->)].
      * by left.
      * right. by apply Hap.
      * right. destruct (Hel y Hy') as [_ [?|?]]; unfold apart; lia.
      * by apply (go_apart _ Hok).
  - by apply (room_step n gaptr g').
  - intros y Hy. specialize (HA y Hy). apply range_less in HA.
    destruct (Hel y) as [[? _] [?|?]]; [rewrite E, elem_of_app; auto|done|]. destruct Hr. lia.
  - intros y Hy. specialize (HB y Hy). apply range_less in HB.
    destruct (Hel y) as [[? _] [?|?]]; [rewrite E, elem_of_app; auto| |done]. destruct Hr. lia.
Qed.

(** ** Push *)

(** What is missing after [q] was pushed. *)
Definition pushed q gaptr gaptr' : Prop :=
  forall x, missing gaptr' x <-> missing gaptr x /\ ~ inside q x.

Lemma missing_split gaptr A x B y :
  ksl_elems gaptr = A ++ x :: B ->
  missing gaptr y <-> inside x.1 y \/ exists e, (e ∈ A \/ e ∈ B) /\ inside e.1 y.
Proof.
  intros E. unfold missing, inside. rewrite E. setoid_rewrite elem_of_app. setoid_rewrite elem_of_cons.
  split; [intros (e & [?|[->|?]] & ?); eauto 10|intros [?|(e & [?|?] & ?)]; eauto 10].
Qed.

Lemma missing_app gaptr A B y :
  ksl_elems gaptr = A ++ B -> missing gaptr y <-> exists e, (e ∈ A \/ e ∈ B) /\ inside e.1 y.
Proof.
  intros E. unfold missing, inside. rewrite E. setoid_rewrite elem_of_app. done.
Qed.

(** Nothing left to cut. *)
Lemma push_stop fuel gaptr it A B q :
  gaps_ok gaptr -> range_ok q -> cursor gaptr it A B ->
  (forall x, x ∈ A -> apart q x.1) -> (forall x B', B = x :: B' -> apart q x.1 /\ r_begin q < r_end x.1) ->
  push_loop (S fuel) gaptr it q = Ok (0, gaptr) /\ forall x, x ∈ ksl_elems gaptr -> apart q x.1.
Proof.
  intros Hok Hq Hc HA HB. pose proof (cursor_elems _ _ _ _ Hc) as E. cbn [push_loop].
  rewrite (cursor_it_end _ _ _ _ Hc). destruct B as [|x B].
  { split; [done|]. intros x. rewrite E, app_nil_r. apply HA. }
  destruct (HB x B eq_refl) as [Hx Hlt]. rewrite (cursor_it_key _ _ _ _ _ Hc). cbn [bool_decide bind].
  pose proof (gaptr_elem_range _ _ Hok (cursor_elem _ _ _ _ _ Hc)) as Hr.
  pose proof (intersect_spec q x.1 Hq Hr) as Hi.
  destruct (ngtcp2_range_len (ngtcp2_range_intersect q x.1) =? 0) eqn:Hl.
  - split; [done|]. intros y. rewrite E, elem_of_app, elem_of_cons. intros [?|[->|Hy]]; [by apply HA|done|].
    destruct (gaps_sorted _ _ _ _ Hok E) as [_ HB']. specialize (HB' y Hy). destruct Hq, Hr, Hx; unfold apart; lia.
  - destruct Hi as [-> [Hm _]]. cbn in Hm. destruct Hx; lia.
Qed.

Lemma pushed_none q gaptr : (forall x, x ∈ ksl_elems gaptr -> apart q x.1) -> pushed q gaptr gaptr.
Proof.
  intros H y. split; [|tauto]. intros (e & He & Hy). split; [by exists e|]. specialize (H e He).
  unfold apart, inside in *. lia.
Qed.

Lemma part_len (b e : Z) : 0 <= b <= e -> e <= UINT64_MAX -> (ngtcp2_range_len (mk_range b e) =? 0) = (b =? e).
Proof.
  intros Hb He. unfold ngtcp2_range_len. cbn. rewrite u64_small by (unfold is_u64, UINT64_MAX in *; lia).
  destruct (Z.eqb_spec (e - b) 0), (Z.eqb_spec b e); lia || done.
Qed.

(** A gap that became smaller by [q]. *)
Lemma resize_pushed gaptr gaptr' it it' A x B nw q :
  gaps_ok gaptr -> range_ok q -> cursor gaptr it A (x :: B) -> cursor gaptr' it' A ((nw, x.2) :: B) ->
  r_begin nw = r_begin x.1 /\ r_end nw = r_begin q /\ r_begin q < r_end x.1 <= r_end q \/
  r_end nw = r_end x.1 /\ r_begin nw = r_end q /\ r_begin q <= r_begin x.1 < r_end q ->
  forall z, missing gaptr' z <-> missing gaptr z /\ ~ (inside x.1 z /\ inside q z).
Proof.
  intros Hok [Hq _] Hc Hc' Hcase z. pose proof (cursor_elems _ _ _ _ Hc) as E.
  destruct (gaps_sorted _ _ _ _ Hok E) as [HA HB].
  rewrite (missing_split _ _ _ _ _ (cursor_elems _ _ _ _ Hc')), (missing_split _ _ _ _ _ E).
  cbn [fst]. unfold inside in *. split.
  - intros [?|(e & He & ?)]; [split; [left; lia|lia]|]. split; [right; by exists e|].
    intros [? ?]. destruct He as [He|He]; [specialize (HA e He); lia|specialize (HB e He); lia].
  - intros [[?|?] ?]; [left; lia|by right].
Qed.

(** A gap that [q] splits in two. *)
Lemma split_pushed n gaptr it A x B q :
  gaps_ok gaptr -> range_ok q -> cursor gaptr it A (x :: B) -> (forall y, y ∈ A -> apart q y.1) ->
  r_begin x.1 < r_begin q -> r_end q < r_end x.1 -> ksl_room (S n) gaptr ->
  exists g1 gaptr' it' A' B',
    ngtcp2_ksl_update_key ngtcp2_ksl_range_compar gaptr x.1 (mk_range (r_begin x.1) (r_begin q)) = Ok g1 /\
    ngtcp2_ksl_insert ngtcp2_ksl_range_compar g1 (mk_range (r_end q) (r_end x.1)) tt = Ok (0, gaptr', it') /\
    gaps_ok gaptr' /\ ksl_room n gaptr' /\ cursor gaptr' it' A' ((mk_range (r_end q) (r_end x.1), tt) :: B') /\
    (forall e, e ∈ ksl_elems gaptr' -> apart q e.1) /\ (forall e, e ∈ B' -> r_begin q < r_end e.1) /\
    pushed q gaptr gaptr'.
Proof.
  intros Hok Hq Hc HA Hl Hr Hroom. pose proof Hq as [Hq1 Hq2].
  pose proof (cursor_elem _ _ _ _ _ Hc) as Hx. pose proof (cursor_elems _ _ _ _ Hc) as E.
  pose proof (gaptr_elem_range _ _ Hok Hx) as [Hr1 Hr2]. destruct (gaps_sorted _ _ _ _ Hok E) as [HA' HB'].
  destruct (gap_update gaptr it A x B (mk_range (r_begin x.1) (r_begin q))) as (g1 & Hu & Hc1 & Hok1 & Hw1 & Hroom1);
    [done|done|split; cbn; lia|cbn; lia..|].
  destruct (gap_insert n g1 (mk_range (r_end q) (r_end x.1)) Hok1)
    as (g' & it' & A' & B' & Hins & E1 & Hc' & Hok' & Hroom' & HA1 & HB1).
  { split; cbn; lia. }
  { intros w [->|?]%Hw1; unfold apart in *; cbn; lia. }
  { auto. }
  exists g1, g', it', A', B'. pose proof (cursor_elems _ _ _ _ Hc1) as E1'. pose proof (cursor_elems _ _ _ _ Hc') as E'.
  set (l := mk_range (r_begin x.1) (r_begin q)) in *. set (r := mk_range (r_end q) (r_end x.1)) in *.
  assert (Hin : forall e, e ∈ ksl_elems g' <-> e ∈ A \/ e ∈ B \/ e = (l, x.2) \/ e = (r, tt)).
  { intros e. transitivity (e ∈ ksl_elems g1 \/ e = (r, tt)).
    - rewrite E', E1, !elem_of_app, elem_of_cons. tauto.
    - rewrite E1', elem_of_app, elem_of_cons. tauto. }
  assert (Hall : forall e, e ∈ ksl_elems g' -> apart q e.1).
  { intros e [He|[He|[->| ->]]]%Hin; [by apply HA| |unfold apart; cbn; lia..]. specialize (HB' e He). unfold apart. lia. }
  split_and!; try done.
  - intros e He. specialize (HB1 e He). cbn in HB1.
    assert (range_ok e.1) as [? _]; [|lia]. apply (gaptr_elem_range g1); [done|]. rewrite E1, elem_of_app. auto.
  - intros z. unfold missing. setoid_rewrite Hin. setoid_rewrite E. setoid_rewrite elem_of_app.
    setoid_rewrite elem_of_cons. split.
    + intros (e & He & Hz). split; [|specialize (Hall e (proj2 (Hin e) He)); unfold apart, inside in *; lia].
      destruct He as [?|[?|[->| ->]]]; [exists e; auto|exists e; auto|exists x; cbn in Hz; split; [auto|lia]..].
    + intros ((e & [?|[->|?]] & Hz) & Hn); [exists e; auto| |exists e; auto]. unfold inside in Hn.
      destruct (Z.lt_ge_cases z (r_begin q)); [exists (l, x.2)|exists (r, tt)]; cbn; (split; [auto|lia]).
Qed.

Abbreviation overlap q k := (mk_range (Z.max (r_begin q) (r_begin k)) (Z.min (r_end q) (r_end k))).

(** A gap that reaches past the end of [q] is the last one to cut. *)
Lemma cut_last n gaptr it A x B q :
  gaps_ok gaptr -> range_ok q -> cursor gaptr it A (x :: B) -> (forall y, y ∈ A -> apart q y.1) ->
  (forall y, y ∈ B -> r_begin q < r_end y.1) -> r_begin q < r_end x.1 -> r_begin x.1 < r_end q < r_end x.1 ->
  ksl_room (S n) gaptr ->
  exists gaptr' it' A' y B', cut_gap gaptr it x.1 (overlap q x.1) = Ok (0, gaptr', it') /\
    gaps_ok gaptr' /\ ksl_room n gaptr' /\ cursor gaptr' it' A' (y :: B') /\
    (forall e, e ∈ ksl_elems gaptr' -> apart q e.1) /\ (forall e, e ∈ B' -> r_begin q < r_end e.1) /\
    pushed q gaptr gaptr'.
Proof.
  intros Hok Hq Hc HA HB Hqx Hend Hroom. pose proof Hq as [Hq1 Hq2]. pose proof (cursor_elems _ _ _ _ Hc) as E.
  pose proof (gaptr_elem_range _ _ Hok (cursor_elem _ _ _ _ _ Hc)) as [Hr1 Hr2].
  destruct (gaps_sorted _ _ _ _ Hok E) as [HA' HB'].
  unfold cut_gap, ngtcp2_range_cut. cbn [r_begin r_end]. rewrite !part_len by lia.
  replace (Z.min (r_end q) (r_end x.1)) with (r_end q) by lia.
  rewrite (proj2 (Z.eqb_neq (r_end q) _)) by lia. cbn [negb].
  destruct (Z.eqb_spec (r_begin x.1) (Z.max (r_begin q) (r_begin x.1))) as [Hb|Hb]; cbn [negb].
  - destruct (gap_update gaptr it A x B (mk_range (r_end q) (r_end x.1))) as (g1 & -> & Hc1 & Hok1 & _ & Hroom1);
      [done|done|split; cbn; lia|cbn; lia..|]. cbn [bind].
    assert (Hall : forall e, e ∈ ksl_elems g1 -> apart q e.1).
    { intros e. rewrite (cursor_elems _ _ _ _ Hc1), elem_of_app, elem_of_cons.
      intros [He|[->|He]]; [by apply HA|unfold apart; cbn; lia|]. specialize (HB' e He). unfold apart. lia. }
    exists g1, it, A, (mk_range (r_end q) (r_end x.1), x.2), B. split_and!; try done; [by apply room_le, Hroom1|].
    intros z. rewrite (resize_pushed gaptr g1 it it A x B _ q Hok Hq Hc Hc1) by (right; cbn; lia).
    split; [|tauto]. intros [Hm Hn]. split; [done|]. intros Hz. apply Hn. split; [|done].
    destruct Hm as (e & He & Hz'). rewrite E, elem_of_app, elem_of_cons in He. unfold inside, apart in *.
    destruct He as [He|[->|He]]; [specialize (HA e He); lia|done|specialize (HB' e He); lia].
  - replace (Z.max (r_begin q) (r_begin x.1)) with (r_begin q) by lia.
    destruct (split_pushed n gaptr it A x B q) as (g1 & g' & it' & A' & B' & -> & Hins & ?); [done..|lia|lia|done|].
    cbn [bind]. exists g', it', A', (mk_range (r_end q) (r_end x.1), tt), B'. tauto.
Qed.

(** A gap that begins before [q] and ends inside of it. *)
Lemma cut_end n gaptr it A x B q :
  gaps_ok gaptr -> range_ok q -> cursor gaptr it A (x :: B) ->
  r_begin x.1 < r_begin q -> r_begin q < r_end x.1 <= r_end q -> ksl_room n gaptr ->
  exists gaptr', cut_gap gaptr it x.1 (overlap q x.1) = Ok (0, gaptr', it) /\
    gaps_ok gaptr' /\ ksl_room n gaptr' /\ cursor gaptr' it A ((mk_range (r_begin x.1) (r_begin q), x.2) :: B) /\
    forall z, missing gaptr' z <-> missing gaptr z /\ ~ (inside x.1 z /\ inside q z).
Proof.
  intros Hok Hq Hc Hb He Hroom. pose proof Hq as [Hq1 Hq2].
  pose proof (gaptr_elem_range _ _ Hok (cursor_elem _ _ _ _ _ Hc)) as [Hr1 Hr2].
  unfold cut_gap, ngtcp2_range_cut. cbn [r_begin r_end]. rewrite !part_len by lia.
  replace (Z.max (r_begin q) (r_begin x.1)) with (r_begin q) by lia.
  replace (Z.min (r_end q) (r_end x.1)) with (r_end x.1) by lia.
  rewrite (proj2 (Z.eqb_neq _ (r_begin q))) by lia. rewrite Z.eqb_refl. cbn [negb].
  destruct (gap_update gaptr it A x B (mk_range (r_begin x.1) (r_begin q))) as (g1 & -> & Hc1 & Hok1 & _ & Hroom1);
    [done|done|split; cbn; lia|cbn; lia..|]. cbn [bind].
  exists g1. split_and!; [done|done|by apply Hroom1|done|].
  apply (resize_pushed gaptr g1 it it A x B _ q Hok Hq Hc Hc1). left. cbn. lia.
Qed.

(** The loop, from any place in front of the gaps that overlap [q]. *)
Lemma push_loop_ok n fuel gaptr it A B q :
  gaps_ok gaptr -> range_ok q -> cursor gaptr it A B -> (length B < fuel)%nat ->
  (forall x, x ∈ A -> apart q x.1) -> (forall x, x ∈ B -> r_begin q < r_end x.1) -> ksl_room (S n) gaptr ->
  exists gaptr', push_loop fuel gaptr it q = Ok (0, gaptr') /\ gaps_ok gaptr' /\ ksl_room n gaptr' /\
    pushed q gaptr gaptr'.
Proof.
  revert gaptr it A B. induction fuel as [|fuel IH]; intros gaptr it A B Hok Hq Hc Hf HA HB Hroom; [lia|].
  pose proof (cursor_elems _ _ _ _ Hc) as E.
  assert (Hstop : (forall x B', B = x :: B' -> apart q x.1) ->
    exists gaptr', push_loop (S fuel) gaptr it q = Ok (0, gaptr') /\ gaps_ok gaptr' /\ ksl_room n gaptr' /\
      pushed q gaptr gaptr').
  { intros Hs. destruct (push_stop fuel gaptr it A B q Hok Hq Hc HA) as [Hrun Hall].
    - intros x B' ->. split; [by eapply Hs|]. apply HB, elem_of_cons. by left.
    - exists gaptr. split_and!; [done|done|by apply room_le|by apply pushed_none]. }
  destruct B as [|x B]; [by apply Hstop|]. cbn [length] in Hf.
  pose proof (gaptr_elem_range _ _ Hok (cursor_elem _ _ _ _ _ Hc)) as Hr. pose proof Hr as [Hr1 Hr2].
  pose proof Hq as [Hq1 Hq2].
  assert (HBx : r_begin q < r_end x.1) by (apply HB, elem_of_cons; by left).
  assert (HBq : forall y, y ∈ B -> r_begin q < r_end y.1) by (intros y Hy; apply HB, elem_of_cons; by right).
  pose proof (intersect_spec q x.1 Hq Hr) as Hi.
  destruct (ngtcp2_range_len (ngtcp2_range_intersect q x.1) =? 0) eqn:Hl; [apply Hstop; by intros ? ? [= <- _]|].
  clear Hstop. cbn [push_loop]. rewrite (cursor_it_end _ _ _ _ Hc), (cursor_it_key _ _ _ _ _ Hc).
  cbn [bool_decide bind]. cbv zeta. rewrite Hl. destruct Hi as [Hi [Him _]]. rewrite Hi in *. cbn in Him.
  unfold ngtcp2_range_eq. cbn [r_begin r_end].
  destruct (Z.lt_ge_cases (r_end q) (r_end x.1)) as [Hlast|Hend].
  { rewrite (proj2 (Z.eqb_neq (r_end x.1) _)), andb_false_r by lia.
    destruct (cut_last n gaptr it A x B q) as (g' & it' & A' & y & B' & -> & Hok' & Hroom' & Hc' & Hall & HB' & Hp);
      [done..|lia|done|]. cbn [bind Z.eqb negb]. destruct fuel as [|fuel]; [lia|].
    pose proof (cursor_next _ _ _ _ _ _ (go_wf _ Hok') Hc') as Hc2. pose proof (cursor_elems _ _ _ _ Hc2) as E2.
    destruct (push_stop fuel g' _ _ B' q Hok' Hq Hc2) as [Hrun _].
    - intros e He. apply Hall. rewrite E2, elem_of_app. by left.
    - intros e B'' ->. assert (e ∈ e :: B'') by (apply elem_of_cons; by left). split; [|by apply HB'].
      apply Hall. rewrite E2, elem_of_app. by right.
    - by exists g'. }
  replace (Z.min (r_end q) (r_end x.1)) with (r_end x.1) by lia. rewrite Z.eqb_refl, andb_true_r.
  destruct (Z.eqb_spec (r_begin x.1) (Z.max (r_begin q) (r_begin x.1))) as [Hb|Hb].
  - destruct (gap_remove gaptr it A x B Hok Hc) as (g1 & it1 & -> & Hc1 & Hok1 & Hroom1). cbn [bind].
    destruct (IH g1 it1 A B) as (g' & Hrun & Hok' & Hroom' & Hp); [done..|lia|done|done|auto|].
    exists g'. split_and!; [done|done|done|]. intros z. rewrite (Hp z).
    rewrite (missing_app _ _ _ z (cursor_elems _ _ _ _ Hc1)), (missing_split _ _ _ _ z E). unfold inside. split.
    + intros [(e & ? & ?) ?]. split; [right; by exists e|done].
    + intros [[?|(e & ? & ?)] ?]; [lia|]. split; [by exists e|done].
  - destruct (cut_end (S n) gaptr it A x B q) as (g1 & Hcut & Hok1 & Hroom1 & Hc1 & Hp1); [done..|lia|lia|done|].
    replace (Z.min (r_end q) (r_end x.1)) with (r_end x.1) in Hcut by lia. rewrite Hcut. cbn [bind Z.eqb negb].
    destruct (IH g1 (ngtcp2_ksl_it_next g1 it) (A ++ [(mk_range (r_begin x.1) (r_begin q), x.2)]) B)
      as (g' & Hrun & Hok' & Hroom' & Hp); [done|done|by apply (cursor_next _ _ _ _ _ _ (go_wf _ Hok1) Hc1)|lia| |done|done|].
    { intros y [Hy|[->|Hy%elem_of_nil]%elem_of_cons]%elem_of_app; [by apply HA|unfold apart; cbn; lia|done]. }
    exists g'. split_and!; [done|done|done|]. intros z. rewrite (Hp z), (Hp1 z). tauto.
Qed.

(** ** The set of pushed offsets *)
Record gaptr_rep (n : nat) (P : Z -> Prop) gaptr : Prop := {
  gr_ok : gaps_ok gaptr;
  gr_room : ksl_room n gaptr;
  gr_fresh : ngtcp2_ksl_len gaptr = 0%nat -> ksl_marks gaptr = [] /\ forall x, ~ P x;
  gr_missing : ngtcp2_ksl_len gaptr <> 0%nat -> forall x, 0 <= x < UINT64_MAX -> missing gaptr x <-> ~ P x;
  gr_last : ~ P (UINT64_MAX - 1);
}.

Lemma len_elems gaptr : gaps_ok gaptr -> ngtcp2_ksl_len gaptr = length (ksl_elems gaptr).
Proof. intros [[_ _ Hn] _ _]. exact Hn. Qed.

Lemma gaptr_init_rep n avail :
  (n * (n + 3) <= avail)%nat -> gaptr_rep n (fun _ => False) (ngtcp2_gaptr_init avail).
Proof.
  intros Hn. split; [split| | | |cbn; tauto]; try done.
  - apply init_wf.
  - intros w Hw. by apply elem_of_nil in Hw.
  - intros w x Hw. by apply elem_of_nil in Hw.
  - split; [done|tauto].
Qed.

(** The list after the first use. *)
Lemma gap_init_ok n P gaptr :
  gaptr_rep (S n) P gaptr ->
  exists gaptr', (if (ngtcp2_ksl_len gaptr =? 0)%nat then gaptr_gap_init gaptr else Ok (0, gaptr)) = Ok (0, gaptr') /\
    gaps_ok gaptr' /\ ksl_room n gaptr' /\ forall x, 0 <= x < UINT64_MAX -> missing gaptr' x <-> ~ P x.
Proof.
  intros [Hok Hroom Hf Hm _]. destruct (Nat.eqb_spec (ngtcp2_ksl_len gaptr) 0) as [E|E].
  2:{ exists gaptr. split_and!; [done|done|by apply room_le|by apply Hm]. }
  destruct (Hf E) as [Hmarks HP]. unfold gaptr_gap_init.
  destruct (gap_insert n gaptr (mk_range 0 UINT64_MAX) Hok) as (g' & it & A & B & -> & HE & Hc & Hok' & Hroom' & _);
    [split; cbn; [split; [done|reflexivity]|done]|intros w; rewrite Hmarks; by intros ?%elem_of_nil|done|].
  cbn [bind]. exists g'. split_and!; [done|done|done|]. intros x Hx. split; [auto|intros _].
  exists (mk_range 0 UINT64_MAX, tt). rewrite (cursor_elems _ _ _ _ Hc), elem_of_app, elem_of_cons. auto.
Qed.

Lemma gaptr_push_ok n P gaptr offset datalen :
  gaptr_rep (S (S n)) P gaptr -> 0 <= offset -> 0 < datalen -> offset + datalen < UINT64_MAX ->
  exists gaptr', ngtcp2_gaptr_push gaptr offset datalen = Ok (0, gaptr') /\
    gaptr_rep n (fun x => P x \/ offset <= x < offset + datalen) gaptr'.
Proof.
  intros Hrep Ho Hd He. unfold ngtcp2_gaptr_push. rewrite u64_small by (unfold is_u64, UINT64_MAX in *; lia).
  destruct (gap_init_ok (S n) P gaptr Hrep) as (g1 & -> & Hok1 & Hroom1 & Hm1). cbn [bind Z.eqb negb].
  set (q := mk_range offset (offset + datalen)).
  assert (Hq : range_ok q) by (split; cbn; lia).
  destruct (gap_search g1 q Hok1 Hq) as (it & A & B & -> & Hc & HA & HB). cbn [bind].
  pose proof (cursor_elems _ _ _ _ Hc) as E.
  destruct (push_loop_ok n (S (ngtcp2_ksl_len g1)) g1 it A B q) as (g' & Hrun & Hok' & Hroom' & Hp); try done.
  - rewrite len_elems by done. rewrite E, length_app. lia.
  - intros x Hx. right. by apply HA.
  - exists g'. split; [done|].
    assert (Hlast : ~ P (UINT64_MAX - 1)) by exact (gr_last _ _ _ Hrep).
    assert (Hmiss : missing g' (UINT64_MAX - 1)).
    { apply Hp. split; [apply Hm1; [unfold UINT64_MAX; lia|done]|]. unfold inside. cbn. lia. }
    split; [done|done| | |].
    + intros H0. rewrite len_elems in H0 by done. destruct Hmiss as (e & Hel & _).
      apply length_zero_iff_nil in H0. rewrite H0 in Hel. by apply elem_of_nil in Hel.
    + intros _ x Hx. rewrite (Hp x), (Hm1 x Hx). unfold inside. cbn. tauto.
    + intros [?|?]; [done|lia].
Qed.

(** The first gap that does not end before [q]; there always is one. *)
Lemma gap_after_ok n P gaptr q :
  gaptr_rep n P gaptr -> ngtcp2_ksl_len gaptr <> 0%nat -> range_ok q -> r_begin q < UINT64_MAX - 1 ->
  exists it k, ngtcp2_ksl_lower_bound_search ngtcp2_ksl_range_exclusive_compar gaptr q = Ok it /\
    ngtcp2_ksl_it_end gaptr it = false /\ ngtcp2_ksl_it_key gaptr it = Ok k /\ range_ok k /\
    r_begin q < r_end k /\ (forall x, inside k x -> ~ P x) /\ (forall x, r_begin q <= x < r_begin k -> ~ ~ P x).
Proof.
  intros [Hok _ _ Hm Hlast] Hne Hq Hb. destruct (gap_search gaptr q Hok Hq) as (it & A & B & -> & Hc & HA & HB).
  pose proof (cursor_elems _ _ _ _ Hc) as E. destruct Hq as [Hq1 Hq2].
  assert (Hl : missing gaptr (UINT64_MAX - 1)) by (apply Hm; [done|unfold UINT64_MAX; lia|done]).
  destruct B as [|x B].
  { destruct Hl as (e & He & Hin). rewrite E, app_nil_r in He. specialize (HA e He). lia. }
  pose proof (gaptr_elem_range _ _ Hok (cursor_elem _ _ _ _ _ Hc)) as Hr.
  destruct (gaps_sorted _ _ _ _ Hok E) as [_ HB'].
  exists it, x.1. rewrite (cursor_it_end _ _ _ _ Hc), (cursor_it_key _ _ _ _ _ Hc).
  split_and!; try done.
  - apply HB, elem_of_cons. by left.
  - intros y Hy. apply Hm; [done|unfold inside in Hy; destruct Hr; lia|]. exists x. split; [|done].
    by apply (cursor_elem _ _ _ _ _ Hc).
  - intros y Hy HP. apply Hm in HP; [|done|destruct Hr; lia].
    destruct HP as (e & He & Hin). rewrite E, elem_of_app, elem_of_cons in He.
    destruct He as [He|[->|He]]; [specialize (HA e He); lia|lia|specialize (HB' e He); destruct Hr; lia].
Qed.

Lemma is_pushed_ok n P gaptr offset datalen :
  gaptr_rep n P gaptr -> 0 <= offset -> 0 < datalen -> offset + datalen < UINT64_MAX ->
  exists ret, ngtcp2_gaptr_is_pushed gaptr offset datalen = Ok ret /\
    (ret = true -> forall x, offset <= x < offset + datalen -> ~ ~ P x) /\
    (ret = false -> exists x, offset <= x < offset + datalen /\ ~ P x).
Proof.
  intros Hrep Ho Hd He. unfold ngtcp2_gaptr_is_pushed. rewrite u64_small by (unfold is_u64, UINT64_MAX in *; lia).
  destruct (Nat.eqb_spec (ngtcp2_ksl_len gaptr) 0) as [E|E].
  { exists false. split_and!; [done|done|]. intros _. exists offset. split; [lia|]. by apply (gr_fresh _ _ _ Hrep E). }
  set (q := mk_range offset (offset + datalen)). assert (Hq : range_ok q) by (split; cbn; lia).
  destruct (gap_after_ok n P gaptr q Hrep E Hq) as (it & k & -> & Hend & Hkey & Hk & Hlt & Hin & Hbefore); [cbn; lia|].
  cbn [bind]. rewrite Hend, Hkey. cbn [negb bind]. eexists. split; [reflexivity|].
  pose proof (intersect_spec q k Hq Hk) as Hi. destruct (_ =? 0).
  - split; [|done]. intros _ x Hx. apply Hbefore. unfold apart in Hi. cbn in *. lia.
  - split; [done|]. intros _. destruct Hi as [Hi [Hi1 _]]. rewrite Hi in Hi1. cbn in Hi1.
    exists (Z.max offset (r_begin k)). split; [lia|]. apply Hin. unfold inside. lia.
Qed.

Lemma first_gap_ok n P gaptr :
  gaptr_rep n P gaptr ->
  exists x, ngtcp2_gaptr_first_gap_offset gaptr = Ok x /\ 0 <= x < UINT64_MAX /\ ~ P x /\ forall y, 0 <= y < x -> ~ ~ P y.
Proof.
  intros Hrep. pose proof Hrep as [Hok _ Hf Hm Hlast]. unfold ngtcp2_gaptr_first_gap_offset.
  destruct (Nat.eqb_spec (ngtcp2_ksl_len gaptr) 0) as [E|E].
  { exists 0. split_and!; [done|done|reflexivity|by apply Hf|lia]. }
  pose proof (cursor_begin _ gaptr (go_wf _ Hok)) as Hc. rewrite len_elems in E by done.
  destruct (ksl_elems gaptr) as [|x B] eqn:HE; [done|]. rewrite (cursor_it_key _ _ _ _ _ Hc). cbn [bind].
  pose proof (gaptr_elem_range _ _ Hok (cursor_elem _ _ _ _ _ Hc)) as [Hr1 Hr2].
  destruct (gaps_sorted gaptr [] x B Hok HE) as [_ HB].
  assert (Hne : ngtcp2_ksl_len gaptr <> 0%nat) by (rewrite len_elems, HE by done; done).
  exists (r_begin x.1). split_and!; [done|lia|lia| |].
  - apply (Hm Hne); [lia|]. exists x. rewrite HE, elem_of_cons. split; [auto|lia].
  - intros y Hy HP. apply (Hm Hne) in HP; [|lia]. destruct HP as (e & He & Hin). rewrite HE, elem_of_cons in He.
    destruct He as [->|He]; [lia|]. specialize (HB e He). lia.
Qed.

(** ** Properties *)

Inductive gaptr_op :=
| Push (offset datalen : Z)
| IsPushed (offset datalen : Z)
| FirstGap
| FirstGapAfter (offset : Z).

(** The numbers an operation returns. *)
Definition gaptr_exec (op : gaptr_op) gaptr : res (ngtcp2_gaptr * list Z) :=
  match op with
  | Push offset datalen => let* (rv, gaptr) := ngtcp2_gaptr_push gaptr offset datalen in Ok (gaptr, [rv])
  | IsPushed offset datalen => let* ret := ngtcp2_gaptr_is_pushed gaptr offset datalen in Ok (gaptr, [Z.b2z ret])
  | FirstGap => let* x := ngtcp2_gaptr_first_gap_offset gaptr in Ok (gaptr, [x])
  | FirstGapAfter offset =>
      let* r := ngtcp2_gaptr_get_first_gap_after gaptr offset in Ok (gaptr, [r_begin r; r_end r])
  end.

Fixpoint gaptr_run (ops : list gaptr_op) gaptr : res (ngtcp2_gaptr * list (list Z)) :=
  match ops with
  | [] => Ok (gaptr, [])
  | op :: ops =>
      let* (gaptr, ans) := gaptr_exec op gaptr in
      let* (gaptr, anss) := gaptr_run ops gaptr in
      Ok (gaptr, ans :: anss)
  end.

(** The reference: the list of the ranges pushed so far. *)
Definition in_ranges (ps : list (Z * Z)) (x : Z) : Prop := exists p, p ∈ ps /\ p.1 <= x < p.1 + p.2.

Definition op_ok (op : gaptr_op) : Prop :=
  match op with
  | Push offset datalen | IsPushed offset datalen => 0 <= offset /\ 0 < datalen /\ offset + datalen < UINT64_MAX
  | FirstGap => True
  | FirstGapAfter offset => 0 <= offset < UINT64_MAX - 1
  end.

Definition op_ranges (op : gaptr_op) (ps : list (Z * Z)) : list (Z * Z) :=
  match op with Push offset datalen => (offset, datalen) :: ps | _ => ps end.

Definition answer_ok (ps : list (Z * Z)) (op : gaptr_op) (ans : list Z) : Prop :=
  match op with
  | Push _ _ => ans = [0]
  | IsPushed offset datalen =>
      exists ret, ans = [Z.b2z ret] /\ (ret = true <-> forall x, offset <= x < offset + datalen -> in_ranges ps x)
  | FirstGap => exists x, ans = [x] /\ 0 <= x /\ ~ in_ranges ps x /\ forall y, 0 <= y < x -> in_ranges ps y
  | FirstGapAfter offset =>
      exists (b e : Z), ans = [b; e] /\ b < e /\ offset < e /\ (forall x, b <= x < e -> ~ in_ranges ps x) /\
        forall x, offset <= x < b -> in_ranges ps x
  end.

Fixpoint answers_ok (ps : list (Z * Z)) (ops : list gaptr_op) (anss : list (list Z)) : Prop :=
  match ops, anss with
  | [], [] => True
  | op :: ops, ans :: anss => answer_ok ps op ans /\ answers_ok (op_ranges op ps) ops anss
  | _, _ => False
  end.

Lemma in_ranges_stable ps x : ~ ~ in_ranges ps x -> in_ranges ps x.
Proof.
  intros H. destruct (decide (Exists (fun p : Z * Z => p.1 <= x < p.1 + p.2) ps)) as [He|Hn].
  - apply Exists_exists in He as (p & Hp & Hx). by exists p.
  - destruct H. intros (p & Hp & Hx). apply Hn, Exists_exists. by exists p.
Qed.

Lemma gaptr_rep_ext n P Q gaptr : (forall x, P x <-> Q x) -> gaptr_rep n P gaptr -> gaptr_rep n Q gaptr.
Proof.
  intros HPQ [Hok Hr Hf Hm Hl]. split; [done|done| | |by rewrite <- HPQ].
  - intros E. destruct (Hf E) as [? H]. split; [done|]. intros x. rewrite <- HPQ. apply H.
  - intros E x Hx. rewrite <- HPQ. by apply Hm.
Qed.

Lemma gaptr_rep_room n P gaptr : gaptr_rep (S n) P gaptr -> gaptr_rep n P gaptr.
Proof. intros [? ?%room_le ? ? ?]. by split. Qed.

Lemma gaptr_exec_ok n ps op gaptr :
  gaptr_rep (S (S n)) (in_ranges ps) gaptr -> op_ok op ->
  exists gaptr' ans, gaptr_exec op gaptr = Ok (gaptr', ans) /\ answer_ok ps op ans /\
    gaptr_rep n (in_ranges (op_ranges op ps)) gaptr'.
Proof.
  intros Hrep Hop. pose proof (gaptr_rep_room _ _ _ (gaptr_rep_room _ _ _ Hrep)) as Hrep0.
  destruct op as [o l|o l| |o]; cbn [gaptr_exec op_ranges].
  - destruct Hop as (Ho & Hl & He). destruct (gaptr_push_ok n _ gaptr o l Hrep Ho Hl He) as (g' & -> & Hr).
    do 2 eexists. split_and!; [reflexivity|done|]. eapply gaptr_rep_ext; [|exact Hr]. intros x. unfold in_ranges.
    setoid_rewrite elem_of_cons. split.
    + intros [(p & ? & ?)|?]; [exists p; auto|exists (o, l); auto].
    + intros (p & [->|?] & ?); [by right|left; by exists p].
  - destruct Hop as (Ho & Hl & He). destruct (is_pushed_ok _ _ gaptr o l Hrep Ho Hl He) as (ret & -> & Ht & Hf).
    do 2 eexists. split_and!; [reflexivity| |done]. exists ret. split; [done|]. split.
    + intros Hr x Hx. by apply in_ranges_stable, (Ht Hr).
    + intros H. destruct ret; [done|]. destruct (Hf eq_refl) as (x & Hx & Hn). by destruct Hn; apply H.
  - destruct (first_gap_ok _ _ gaptr Hrep) as (x & -> & Hx & Hn & Hall).
    do 2 eexists. split_and!; [reflexivity| |done]. exists x. split_and!; [done|lia|done|].
    intros y Hy. by apply in_ranges_stable, Hall.
  - cbn in Hop. unfold ngtcp2_gaptr_get_first_gap_after. rewrite u64_small by (unfold is_u64, UINT64_MAX in *; lia).
    destruct (Nat.eqb_spec (ngtcp2_ksl_len gaptr) 0) as [E|E].
    { cbn [bind]. do 2 eexists. split_and!; [reflexivity| |done]. exists 0, UINT64_MAX.
      destruct (gr_fresh _ _ _ Hrep E) as [_ HP]. split_and!; [done|reflexivity|lia|intros x _; apply HP|lia]. }
    destruct (gap_after_ok _ _ gaptr (mk_range o (o + 1)) Hrep E) as (it & k & -> & Hend & Hkey & Hk & Hlt & Hin & Hbef);
      [split; cbn; lia|cbn; lia|].
    cbn [bind]. rewrite Hend, Hkey. cbn [negb bind]. do 2 eexists. split_and!; [reflexivity| |done].
    exists (r_begin k), (r_end k). destruct Hk as [[? ?] ?]. split_and!; [done|done|done|exact Hin|].
    intros x Hx. by apply in_ranges_stable, Hbef.
Qed.

Lemma gaptr_run_ok ps ops gaptr :
  gaptr_rep (2 * length ops) (in_ranges ps) gaptr -> Forall op_ok ops ->
  exists gaptr' anss, gaptr_run ops gaptr = Ok (gaptr', anss) /\ answers_ok ps ops anss.
Proof.
  revert ps gaptr. induction ops as [|op ops IH]; intros ps gaptr Hrep Hops; [by exists gaptr, []|].
  apply Forall_cons_iff in Hops as [Hop Hops]. cbn [length gaptr_run] in *.
  destruct (gaptr_exec_ok (2 * length ops) ps op gaptr) as (g1 & ans & -> & Ha & Hr1); [|done|].
  { by replace (S (S (2 * length ops))) with (2 * S (length ops))%nat by lia. }
  destruct (IH _ g1 Hr1 Hops) as (g' & anss & Hrun & Has). cbn [bind]. rewrite Hrun. cbn [bind].
  by exists g', (ans :: anss).
Qed.

(** C33: a gap tracker over a skip list with enough memory answers every
    sequence of operations as the set of the pushed ranges does: a range
    counts as pushed exactly when all its offsets were pushed, the first gap
    is the least offset that was not, the gap after an offset has no pushed
    offset and nothing unpushed in front of it.  No assertion fails, and
    every loop ends. *)
Theorem gaptr_refines_set (ops : list gaptr_op) (avail : nat) :
  Forall op_ok ops -> (2 * length ops * (2 * length ops + 3) <= avail)%nat ->
  exists gaptr anss, gaptr_run ops (ngtcp2_gaptr_init avail) = Ok (gaptr, anss) /\ answers_ok [] ops anss.
Proof.
  intros Hops Ha. apply gaptr_run_ok; [|done]. eapply gaptr_rep_ext; [|by apply gaptr_init_rep].
  intros x. cbn. split; [done|]. by intros (p & Hp%elem_of_nil & _).
Qed.

Lemma gaptr_refines_set_witness :
  let ops := [Push 10 5; Push 0 3; IsPushed 11 3; IsPushed 2 2; Push 2 9; FirstGap; FirstGapAfter 12] in
  exists gaptr anss, gaptr_run ops (ngtcp2_gaptr_init 300) = Ok (gaptr, anss) /\ answers_ok [] ops anss /\
    anss = [[0]; [0]; [1]; [0]; [0]; [15]; [15; UINT64_MAX]].
Proof.
  cbv zeta.
  destruct (gaptr_refines_set [Push 10 5; Push 0 3; IsPushed 11 3; IsPushed 2 2; Push 2 9; FirstGap; FirstGapAfter 12] 300)
    as (g & anss & Hrun & Ha).
  - repeat constructor; vm_compute; congruence.
  - cbn. lia.
  - exists g, anss. split; [exact Hrun|]. split; [exact Ha|]. vm_compute in Hrun. by injection Hrun as _ <-.
Defined.
