(* ===== verification/Idtr.v ===== *)
(** * Stream ids that were opened: [lib/ngtcp2_idtr.c]

    The tracker of the stream ids a peer opened, on top of the gap tracker:
    ids of one kind of stream differ in steps of four. *)

From S2P Require Import Prelude Const Ksl KslSpec Gaptr.
From stdpp Require Import list.
#[local] Open Scope Z_scope.

Definition ngtcp2_idtr : Type := ngtcp2_gaptr.
Implicit Types (idtr : ngtcp2_idtr) (opened ids : list Z).

Definition ngtcp2_idtr_init (avail : nat) : ngtcp2_idtr := ngtcp2_gaptr_init avail.

Definition id_from_stream_id (stream_id : Z) : Z := u64 (Z.shiftr stream_id 2).

Definition ngtcp2_idtr_open idtr (stream_id : Z) : res (Z * ngtcp2_idtr) :=
  let q := id_from_stream_id stream_id in
  let* pushed := ngtcp2_gaptr_is_pushed idtr q 1 in
  if pushed then Ok (NGTCP2_ERR_STREAM_IN_USE, idtr) else ngtcp2_gaptr_push idtr q 1.

Definition ngtcp2_idtr_is_open idtr (stream_id : Z) : res bool :=
  ngtcp2_gaptr_is_pushed idtr (id_from_stream_id stream_id) 1.

(** ** The set of open ids *)

(** [opened] are the ids that were opened; there is memory for [n] more. *)
Definition idtr_rep (n : nat) (opened : list Z) idtr : Prop :=
  gaptr_rep (2 * n) (fun x => x ∈ opened) idtr.

Lemma id_range stream_id : 0 <= stream_id < 2 ^ 62 ->
  id_from_stream_id stream_id = stream_id / 4 /\ 0 <= stream_id / 4 /\ stream_id / 4 + 1 < UINT64_MAX.
Proof.
  intros H. unfold id_from_stream_id. rewrite Z.shiftr_div_pow2 by lia. change (2 ^ 2) with 4.
  pose proof (Z.div_pos stream_id 4 ltac:(lia) ltac:(lia)). pose proof (Z.div_le_upper_bound stream_id 4 (2 ^ 62)).
  rewrite u64_small by (unfold is_u64; lia). unfold UINT64_MAX. lia.
Qed.

Lemma idtr_pushed_ok n opened idtr stream_id :
  gaptr_rep n (fun x => x ∈ opened) idtr -> 0 <= stream_id < 2 ^ 62 ->
  ngtcp2_gaptr_is_pushed idtr (id_from_stream_id stream_id) 1 = Ok (bool_decide (stream_id / 4 ∈ opened)).
Proof.
  intros Hrep Hid. destruct (id_range stream_id Hid) as (-> & H1 & H2).
  destruct (is_pushed_ok n _ idtr (stream_id / 4) 1 Hrep) as (ret & -> & Ht & Hf); [lia..|]. f_equal.
  destruct ret; symmetry.
  - apply bool_decide_eq_true. specialize (Ht eq_refl (stream_id / 4) ltac:(lia)).
    destruct (decide (stream_id / 4 ∈ opened)); tauto.
  - apply bool_decide_eq_false. destruct (Hf eq_refl) as (x & Hx & Hn).
    by replace (stream_id / 4) with x by lia.
Qed.

Lemma idtr_open_ok n opened idtr stream_id :
  idtr_rep (S n) opened idtr -> 0 <= stream_id < 2 ^ 62 ->
  if bool_decide (stream_id / 4 ∈ opened)
  then ngtcp2_idtr_open idtr stream_id = Ok (NGTCP2_ERR_STREAM_IN_USE, idtr)
  else exists idtr', ngtcp2_idtr_open idtr stream_id = Ok (0, idtr') /\ idtr_rep n (stream_id / 4 :: opened) idtr'.
Proof.
  intros Hrep Hid. unfold ngtcp2_idtr_open. rewrite (idtr_pushed_ok _ opened _ _ Hrep Hid). cbn [bind].
  case_bool_decide; [done|]. destruct (id_range stream_id Hid) as (-> & H1 & H2).
  destruct (gaptr_push_ok (2 * n) (fun x => x ∈ opened) idtr (stream_id / 4) 1) as (g & -> & Hr); [|lia..|].
  { unfold idtr_rep in Hrep. by replace (S (S (2 * n))) with (2 * S n)%nat by lia. }
  exists g. split; [done|]. eapply gaptr_rep_ext; [|exact Hr]. intros x. cbn. rewrite elem_of_cons. split; [|auto].
  - intros [?|?]; [auto|left; lia].
  - intros [->|?]; [right; lia|auto].
Qed.

Lemma idtr_rep_less n opened idtr : idtr_rep (S n) opened idtr -> idtr_rep n opened idtr.
Proof.
  unfold idtr_rep. replace (2 * S n)%nat with (S (S (2 * n))) by lia. intros H. by apply gaptr_rep_room, gaptr_rep_room.
Qed.

(** ** Property *)
Fixpoint idtr_run (ids : list Z) idtr : res (list Z) :=
  match ids with
  | [] => Ok []
  | id :: ids =>
      let* (rv, idtr) := ngtcp2_idtr_open idtr id in
      let* rvs := idtr_run ids idtr in
      Ok (rv :: rvs)
  end.

(** The answers of a set of ids. *)
Fixpoint set_run (ids opened : list Z) : list Z :=
  match ids with
  | [] => []
  | id :: ids =>
      if bool_decide (id / 4 ∈ opened) then NGTCP2_ERR_STREAM_IN_USE :: set_run ids opened
      else 0 :: set_run ids (id / 4 :: opened)
  end.

Lemma idtr_run_ok ids opened idtr :
  idtr_rep (length ids) opened idtr -> Forall (fun id => 0 <= id < 2 ^ 62) ids ->
  idtr_run ids idtr = Ok (set_run ids opened).
Proof.
  revert opened idtr. induction ids as [|id ids IH]; intros opened idtr Hrep Hids; [done|].
  apply Forall_cons_iff in Hids as [Hid Hids]. cbn [idtr_run set_run length] in *.
  pose proof (idtr_open_ok _ opened idtr id Hrep Hid) as Hop. case_bool_decide.
  - rewrite Hop. cbn [bind]. rewrite (IH opened idtr); [done|by apply idtr_rep_less|done].
  - destruct Hop as (idtr' & -> & Hrep'). cbn [bind]. by rewrite (IH _ idtr' Hrep' Hids).
Qed.

(** C34: of every sequence of stream ids of one kind, exactly the first
    occurrence of each is opened; the others are reported as in use. *)
Theorem idtr_opens_once (ids : list Z) (avail : nat) :
  Forall (fun id => 0 <= id < 2 ^ 62) ids -> (2 * length ids * (2 * length ids + 3) <= avail)%nat ->
  idtr_run ids (ngtcp2_idtr_init avail) = Ok (set_run ids []).
Proof.
  intros Hids Ha. apply idtr_run_ok; [|done]. eapply gaptr_rep_ext; [|by apply gaptr_init_rep].
  intros x. cbn. by rewrite elem_of_nil.
Qed.

Lemma idtr_opens_once_witness :
  idtr_run [0; 8; 4; 8; 0; 12] (ngtcp2_idtr_init 300) = Ok (set_run [0; 8; 4; 8; 0; 12] []) /\
  set_run [0; 8; 4; 8; 0; 12] [] = [0; 0; 0; NGTCP2_ERR_STREAM_IN_USE; NGTCP2_ERR_STREAM_IN_USE; 0].
Proof.
  split; [|reflexivity]. apply (idtr_opens_once [0; 8; 4; 8; 0; 12] 300).
  - repeat constructor; vm_compute; congruence.
  - cbn. lia.
Defined.
