(* ===== verification/Reorder.v ===== *)
(** * Reorder buffer: [lib/ngtcp2_reorder.c]

    The out-of-order data of a stream: a linked list of buffers, each with
    the range of offsets of its bytes.  A buffer is its identity (its owner
    or its allocation) and the bytes between [pos] and [last]; the model also
    keeps the calls of the release callback, so that ownership can be
    followed. *)

From S2P Require Import Prelude Const.
From stdpp Require Import list.
#[local] Open Scope Z_scope.

(** [ngtcp2_buf]: who owns it and the bytes from [pos] to [last]. *)
Record reorder_buf := mk_rbuf { rb_id : Z; rb_data : list Z }.

(** [ngtcp2_reorder_entry], without [next]. *)
Record ngtcp2_reorder_entry := mk_entry {
  re_begin : Z;
  re_end : Z;
  re_buf : reorder_buf;
  re_allocator_owned : bool;
}.

(** [reorder_released]: the arguments of the calls of [release], the last one
    first. *)
Record ngtcp2_reorder := mk_reorder {
  reorder_head : list ngtcp2_reorder_entry;
  reorder_released : list (reorder_buf * bool);
}.

Implicit Types (r : ngtcp2_reorder) (ent : ngtcp2_reorder_entry) (buf : reorder_buf).

Definition ngtcp2_reorder_init : ngtcp2_reorder := mk_reorder [] [].

(** ** Operations *)
Definition reorder_release_buf r buf (allocator_owned : bool) : ngtcp2_reorder :=
  mk_reorder (reorder_head r) ((buf, allocator_owned) :: reorder_released r).

Definition reorder_release_entry r ent : ngtcp2_reorder :=
  reorder_release_buf r (re_buf ent) (re_allocator_owned ent).

(** [buf->pos += n] *)
Definition buf_advance buf (n : Z) : reorder_buf := mk_rbuf (rb_id buf) (zdrop n (rb_data buf)).

Definition ngtcp2_reorder_free r : ngtcp2_reorder :=
  let r' := fold_left reorder_release_entry (reorder_head r) r in
  mk_reorder [] (reorder_released r').

(** What the loop of [ngtcp2_reorder_push] finds: the data is there already,
    or the entries before and after the place of the new one with the range
    and the buffer that are left. *)
Inductive push_place :=
| Duplicate (buf : reorder_buf)
| Place (before after : list ngtcp2_reorder_entry) (begin_ end_ : Z) (buf : reorder_buf).

Fixpoint push_scan (ents : list ngtcp2_reorder_entry) (begin_ end_ : Z) buf : push_place :=
  match ents with
  | [] => Place [] [] begin_ end_ buf
  | ent :: ents' =>
      let keep p :=
        match p with
        | Duplicate buf => Duplicate buf
        | Place l l' b e buf => Place (ent :: l) l' b e buf
        end in
      if re_end ent <=? begin_ then keep (push_scan ents' begin_ end_ buf)
      else if end_ <=? re_begin ent then Place [] ents begin_ end_ buf
      else if re_begin ent <=? begin_ then
        if end_ <=? re_end ent then Duplicate buf
        else keep (push_scan ents' (re_end ent) end_ (buf_advance buf (re_end ent - begin_)))
      else Place [] ents begin_ (re_begin ent) buf
  end.

(** The return value, the reorder buffer and [*pnwrite]; [mem_ok] is the
    outcome of the allocation of the entry.  The caller still owns [buf] when
    the return value is negative, and only releases it then. *)
Definition ngtcp2_reorder_push (mem_ok : bool) r buf (offset cont_offset : Z) (allocator_owned : bool)
    : Z * ngtcp2_reorder * Z :=
  let end_ := u64 (offset + zlen (rb_data buf)) in
  if end_ <? offset then (NGTCP2_ERR_FRAME_ENCODING, r, 0) else
  if end_ <=? cont_offset then (0, reorder_release_buf r buf allocator_owned, 0) else
  let (begin_, buf) :=
    if offset <? cont_offset then (cont_offset, buf_advance buf (cont_offset - offset))
    else (offset, buf) in
  match push_scan (reorder_head r) begin_ end_ buf with
  | Duplicate buf => (0, reorder_release_buf r buf allocator_owned, 0)
  | Place l l' begin_ end_ buf =>
      if begin_ =? end_ then (0, reorder_release_buf r buf allocator_owned, 0) else
      let buf := mk_rbuf (rb_id buf) (ztake (end_ - begin_) (rb_data buf)) in
      if negb mem_ok then (NGTCP2_ERR_NOMEM, r, 0) else
      (0, mk_reorder (l ++ mk_entry begin_ end_ buf allocator_owned :: l') (reorder_released r),
       end_ - begin_)
  end.

Fixpoint first_gap (ents : list ngtcp2_reorder_entry) (offset : Z) : Z :=
  match ents with
  | [] => offset
  | ent :: ents =>
      if re_end ent <=? offset then first_gap ents offset
      else if offset <? re_begin ent then offset
      else first_gap ents (re_end ent)
  end.

Definition ngtcp2_reorder_first_gap_offset r (cont_offset : Z) : Z :=
  first_gap (reorder_head r) cont_offset.

(** The buffer at [offset] and the number of bytes from there, [None] and 0
    when there is none. *)
Fixpoint data_at (ents : list ngtcp2_reorder_entry) (offset : Z) : res (Z * option reorder_buf) :=
  match ents with
  | [] => Ok (0, None)
  | ent :: ents =>
      if re_end ent <=? offset then data_at ents offset
      else if offset <? re_begin ent then Ok (0, None)
      else assert! offset =? re_begin ent; Ok (re_end ent - offset, Some (re_buf ent))
  end.

Definition ngtcp2_reorder_data_at r (offset : Z) : res (Z * option reorder_buf) :=
  data_at (reorder_head r) offset.

(** The entries after the removal, and the entry to release if one became
    empty. *)
Fixpoint pop_entry (ents : list ngtcp2_reorder_entry) (offset len : Z)
    : res (list ngtcp2_reorder_entry * option ngtcp2_reorder_entry) :=
  match ents with
  | [] => Fault
  | ent :: ents =>
      if re_end ent <=? offset then
        let* (l, x) := pop_entry ents offset len in Ok (ent :: l, x)
      else
        assert! offset =? re_begin ent;
        assert! offset + len <=? re_end ent;
        if offset + len <? re_end ent then
          Ok (mk_entry (re_begin ent + len) (re_end ent) (buf_advance (re_buf ent) len)
                       (re_allocator_owned ent) :: ents, None)
        else Ok (ents, Some ent)
  end.

Definition ngtcp2_reorder_pop r (offset len : Z) : res ngtcp2_reorder :=
  let* (l, x) := pop_entry (reorder_head r) offset len in
  let r := mk_reorder l (reorder_released r) in
  Ok (match x with Some ent => reorder_release_entry r ent | None => r end).

(** [while (reorder->head)] *)
Fixpoint remove_prefix (ents : list ngtcp2_reorder_entry) (released : list (reorder_buf * bool)) (offset : Z)
    : ngtcp2_reorder :=
  match ents with
  | [] => mk_reorder [] released
  | ent :: ents' =>
      if offset <=? re_begin ent then mk_reorder ents released
      else if offset <? re_end ent then
        mk_reorder (mk_entry offset (re_end ent) (buf_advance (re_buf ent) (offset - re_begin ent))
                             (re_allocator_owned ent) :: ents') released
      else remove_prefix ents' ((re_buf ent, re_allocator_owned ent) :: released) offset
  end.

Definition ngtcp2_reorder_remove_prefix r (offset : Z) : ngtcp2_reorder :=
  remove_prefix (reorder_head r) (reorder_released r) offset.

Definition ngtcp2_reorder_data_buffered r : bool := negb (length (reorder_head r) =? 0)%nat.

(** ** Invariant *)

Record entry_ok ent : Prop := {
  eo_range : 0 <= re_begin ent < re_end ent;
  eo_end : re_end ent < 2 ^ 64;
  eo_len : zlen (rb_data (re_buf ent)) = re_end ent - re_begin ent;
}.

(** Entries from [lo] on, in order and disjoint. *)
Fixpoint sorted_from (lo : Z) (ents : list ngtcp2_reorder_entry) : Prop :=
  match ents with
  | [] => True
  | ent :: ents => lo <= re_begin ent /\ entry_ok ent /\ sorted_from (re_end ent) ents
  end.

(** Offset [x] is stored. *)
Definition covered (ents : list ngtcp2_reorder_entry) (x : Z) : Prop :=
  exists ent, ent ∈ ents /\ re_begin ent <= x < re_end ent.

(** The bytes of an entry are those of the stream [stream]. *)
Definition carries (stream : Z -> Z) (offset : Z) (data : list Z) : Prop :=
  forall i b, data !! i = Some b -> b = stream (offset + Z.of_nat i).

Definition entry_carries (stream : Z -> Z) ent : Prop :=
  carries stream (re_begin ent) (rb_data (re_buf ent)).

(** The buffers of a list of entries, and their owners. *)
Definition owners (ents : list ngtcp2_reorder_entry) : list Z := map (fun ent => rb_id (re_buf ent)) ents.
Definition released_owners r : list Z := map (fun p => rb_id p.1) (reorder_released r).

Lemma covered_cons ent ents x : covered (ent :: ents) x <-> re_begin ent <= x < re_end ent \/ covered ents x.
Proof.
  unfold covered. split.
  - intros (e & [->|He]%elem_of_cons & Hx); [by left|right; by exists e].
  - intros [Hx|(e & He & Hx)]; [exists ent|exists e]; (split; [apply elem_of_cons|done]); auto.
Qed.

Lemma covered_nil x : covered [] x <-> False.
Proof. split; [|done]. by intros (e & He%elem_of_nil & _). Qed.

Lemma covered_app l1 l2 x : covered (l1 ++ l2) x <-> covered l1 x \/ covered l2 x.
Proof. unfold covered. setoid_rewrite elem_of_app. naive_solver. Qed.

Lemma sorted_from_le lo lo' ents : lo' <= lo -> sorted_from lo ents -> sorted_from lo' ents.
Proof. destruct ents; cbn; [done|]. intros ? (? & ? & ?). split_and!; [lia|done|done]. Qed.

Lemma sorted_covered lo ents x : sorted_from lo ents -> covered ents x -> lo <= x.
Proof.
  revert lo. induction ents as [|ent ents IH]; intros lo Hs; [by rewrite covered_nil|].
  destruct Hs as (Hlo & [Hr _ _] & Hs). rewrite covered_cons. intros [Hx|Hx]; [lia|].
  specialize (IH _ Hs Hx). lia.
Qed.

Lemma carries_drop stream offset data n :
  0 <= n -> carries stream offset data -> carries stream (offset + n) (zdrop n data).
Proof.
  intros Hn H i b Hb. unfold zdrop in Hb. rewrite lookup_drop in Hb. apply H in Hb. rewrite Hb. f_equal. lia.
Qed.

Lemma carries_take stream offset data n : carries stream offset data -> carries stream offset (ztake n data).
Proof.
  intros H i b Hb. unfold ztake in Hb. apply lookup_take_Some in Hb as [Hb _]. by apply H.
Qed.

Lemma carries_advance stream offset buf n :
  0 <= n -> carries stream offset (rb_data buf) -> carries stream (offset + n) (rb_data (buf_advance buf n)).
Proof. apply carries_drop. Qed.

Lemma sorted_app lo l ent l' :
  sorted_from lo (l ++ ent :: l') -> sorted_from lo l /\ entry_ok ent /\ sorted_from (re_end ent) l' /\
    lo <= re_begin ent.
Proof.
  revert lo. induction l as [|e l IH]; intros lo; cbn; [tauto|].
  intros (Hlo & Hok & Hs). destruct (IH _ Hs) as (? & ? & ? & ?). destruct Hok as [? ? ?].
  split_and!; try done. lia.
Qed.

(** ** Push *)

Record placed (ents l l' : list ngtcp2_reorder_entry) (begin_ end_ b e : Z) buf buf' : Prop := {
  pl_split : ents = l ++ l';
  pl_range : begin_ <= b <= e /\ e <= end_;
  pl_buf : buf' = buf_advance buf (b - begin_);
  pl_left : forall x, begin_ <= x < b -> covered l x;
  pl_ends : Forall (fun ent => re_end ent <= b) l;
  pl_right : forall ent l'', l' = ent :: l'' -> e <= re_begin ent;
  pl_stop : e = end_ \/ b < e /\ exists ent l'', l' = ent :: l'' /\ e = re_begin ent;
}.

Lemma buf_advance_0 buf : buf_advance buf 0 = buf.
Proof. destruct buf. done. Qed.

Lemma buf_advance_advance buf n m :
  0 <= n -> 0 <= m -> buf_advance (buf_advance buf n) m = buf_advance buf (n + m).
Proof. intros. unfold buf_advance. cbn. rewrite zdrop_zdrop by lia. done. Qed.

(** The place is in front of the entries that are left. *)
Lemma placed_here ents begin_ end_ e buf :
  begin_ <= e <= end_ -> (forall ent l'', ents = ent :: l'' -> e <= re_begin ent) ->
  (e = end_ \/ begin_ < e /\ exists ent l'', ents = ent :: l'' /\ e = re_begin ent) ->
  placed ents [] ents begin_ end_ begin_ e buf buf.
Proof.
  intros He Hr Hstop. split; [done|lia|by rewrite Z.sub_diag, buf_advance_0|lia|constructor|done|done].
Qed.

Lemma push_scan_spec lo ents begin_ end_ buf :
  sorted_from lo ents -> begin_ <= end_ ->
  match push_scan ents begin_ end_ buf with
  | Duplicate buf' => rb_id buf' = rb_id buf /\ forall x, begin_ <= x < end_ -> covered ents x
  | Place l l' b e buf' => placed ents l l' begin_ end_ b e buf buf'
  end.
Proof.
  revert lo begin_ buf. induction ents as [|ent ents IH]; intros lo begin_ buf Hs Hb; cbn [push_scan].
  { apply placed_here; [lia|done|by left]. }
  destruct Hs as (Hlo & [Hr Hend Hlen] & Hs).
  destruct (Z.leb_spec (re_end ent) begin_) as [H1|H1].
  - specialize (IH _ begin_ buf Hs Hb). destruct (push_scan ents begin_ end_ buf) as [buf'|l l' b e buf'].
    + destruct IH as [? Hc]. split; [done|]. intros x Hx. apply covered_cons. right. by apply Hc.
    + destruct IH as [-> Hrange Hbuf Hl He Hright Hstop]. split; try done.
      * intros x Hx. apply covered_cons. right. by apply Hl.
      * constructor; [lia|done].
  - destruct (Z.leb_spec end_ (re_begin ent)) as [H2|H2].
    { apply placed_here; [lia|by intros ? ? [= <- _]|by left]. }
    destruct (Z.leb_spec (re_begin ent) begin_) as [H3|H3].
    + destruct (Z.leb_spec end_ (re_end ent)) as [H4|H4].
      { split; [done|]. intros x Hx. apply covered_cons. left. lia. }
      specialize (IH _ (re_end ent) (buf_advance buf (re_end ent - begin_)) Hs ltac:(lia)).
      destruct (push_scan ents (re_end ent) end_ _) as [buf'|l l' b e buf'].
      * destruct IH as [? Hc]. split; [done|]. intros x Hx. apply covered_cons.
        destruct (Z.lt_ge_cases x (re_end ent)); [left; lia|right; apply Hc; lia].
      * destruct IH as [-> Hrange Hbuf Hl He Hright Hstop]. split; try done.
        -- lia.
        -- rewrite Hbuf, buf_advance_advance by lia. f_equal. lia.
        -- intros x Hx. apply covered_cons.
           destruct (Z.lt_ge_cases x (re_end ent)); [left; lia|right; apply Hl; lia].
        -- constructor; [lia|done].
    + apply placed_here; [lia|by intros ? ? [= <- _]|]. right. split; [lia|]. by exists ent, ents.
Qed.

(** The list with the new entry. *)
Lemma sorted_insert lo l l' ent :
  sorted_from lo (l ++ l') -> lo <= re_begin ent -> entry_ok ent ->
  Forall (fun e => re_end e <= re_begin ent) l ->
  (forall e l'', l' = e :: l'' -> re_end ent <= re_begin e) -> sorted_from lo (l ++ ent :: l').
Proof.
  revert lo. induction l as [|e l IH]; intros lo; cbn [app sorted_from].
  - intros Hs Hlo Hok _ Hr. split_and!; [done|done|]. destruct l' as [|e l']; [done|].
    destruct Hs as (_ & ? & ?). cbn. split_and!; [by eapply Hr|done|done].
  - intros (? & ? & Hs) Hlo Hok Hl Hr. apply Forall_cons_iff in Hl as [He Hl]. split_and!; [done|done|].
    by apply IH.
Qed.

(** What a push leaves.  [stop]: up to where the bytes that were pushed are
    in the buffer afterwards; [b]: where the bytes that were not there yet
    begin. *)
Record pushed r buf (offset cont_offset : Z) r' (nwrite stop : Z) : Prop := {
  pu_sorted : sorted_from cont_offset (reorder_head r');
  pu_stop : stop <= offset + zlen (rb_data buf);
  pu_covered : forall x, covered (reorder_head r') x <->
    covered (reorder_head r) x \/ Z.max offset cont_offset <= x < stop;
  pu_new : exists b, b <= stop /\ nwrite = stop - b /\
    (forall x, Z.max offset cont_offset <= x < b -> covered (reorder_head r) x) /\
    (forall x, b <= x < stop -> ~ covered (reorder_head r) x);
  pu_lost : stop = offset + zlen (rb_data buf) \/
    exists ent, ent ∈ reorder_head r /\ re_begin ent = stop;
  pu_owners : Permutation (rb_id buf :: owners (reorder_head r) ++ released_owners r)
    (owners (reorder_head r') ++ released_owners r');
  pu_carries : forall stream, Forall (entry_carries stream) (reorder_head r) ->
    carries stream offset (rb_data buf) -> Forall (entry_carries stream) (reorder_head r');
}.

Lemma owners_app l1 l2 : owners (l1 ++ l2) = owners l1 ++ owners l2.
Proof. apply map_app. Qed.

(** The buffer was released: all its bytes were there. *)
Lemma pushed_release r buf buf' offset cont_offset own :
  sorted_from cont_offset (reorder_head r) -> rb_id buf' = rb_id buf ->
  (forall x, Z.max offset cont_offset <= x < offset + zlen (rb_data buf) -> covered (reorder_head r) x) ->
  pushed r buf offset cont_offset (reorder_release_buf r buf' own) 0 (offset + zlen (rb_data buf)).
Proof.
  intros Hs Hid Hc. split; cbn [reorder_head reorder_release_buf]; try done.
  - intros x. split; [by left|]. intros [?|Hx]; [done|]. by apply Hc.
  - exists (offset + zlen (rb_data buf)). split_and!; [done|lia|done|lia].
  - by left.
  - unfold released_owners. cbn. rewrite Hid. apply Permutation_middle.
Qed.

Lemma covered_right lo l x : sorted_from lo l -> covered l x -> exists ent l', l = ent :: l' /\ re_begin ent <= x.
Proof.
  destruct l as [|ent l]; [by rewrite covered_nil|]. intros (_ & [Hr _ _] & Hs) [Hx|Hx]%covered_cons.
  - exists ent, l. split; [done|lia].
  - exists ent, l. split; [done|]. pose proof (sorted_covered _ _ _ Hs Hx). lia.
Qed.

Lemma covered_ends l b x : Forall (fun ent => re_end ent <= b) l -> covered l x -> x < b.
Proof. intros Hf (ent & He & Hx). rewrite list.Forall_forall in Hf. specialize (Hf ent He). lia. Qed.

Lemma sorted_suffix lo l l' : sorted_from lo (l ++ l') -> exists lo', sorted_from lo' l'.
Proof.
  revert lo. induction l as [|e l IH]; intros lo; cbn; [by exists lo|]. intros (_ & _ & H). by eapply IH.
Qed.

Lemma pushed_insert r buf offset cont_offset own ents' l l' begin_ b e :
  let end_ := offset + zlen (rb_data buf) in
  sorted_from cont_offset (reorder_head r) -> reorder_head r = ents' ->
  begin_ = Z.max offset cont_offset -> 0 <= begin_ -> end_ < 2 ^ 64 ->
  placed ents' l l' begin_ end_ b e (buf_advance buf (begin_ - offset)) (buf_advance buf (b - offset)) ->
  b < e ->
  pushed r buf offset cont_offset
    (mk_reorder (l ++ mk_entry b e (mk_rbuf (rb_id buf) (ztake (e - b) (zdrop (b - offset) (rb_data buf)))) own :: l')
       (reorder_released r)) (e - b) e.
Proof.
  intros end_ Hs Hh Hb0 Hpos H64 [Hsplit Hrange _ Hleft Hends Hright Hstop] Hbe. rewrite Hsplit in Hh.
  assert (Hnew : forall x, b <= x < e -> ~ covered (l ++ l') x).
  { intros x Hx [Hc|Hc]%covered_app; [pose proof (covered_ends _ _ _ Hends Hc); lia|].
    rewrite Hh in Hs. destruct (sorted_suffix _ _ _ Hs) as [lo' Hs'].
    destruct (covered_right _ _ _ Hs' Hc) as (ent & l'' & -> & ?). specialize (Hright ent l'' eq_refl). lia. }
  split; cbn [reorder_head].
  - apply sorted_insert; [by rewrite <- Hh|cbn; lia| |done|done]. split; cbn; [lia|lia|].
    rewrite zlen_ztake; [done|]. rewrite zlen_zdrop by lia. lia.
  - lia.
  - intros x. rewrite Hh, !covered_app, covered_cons. cbn [re_begin re_end]. split.
    + intros [?|[?|?]]; [auto|right; lia|auto].
    + intros [[?|?]|?]; [auto..|]. destruct (Z.lt_ge_cases x b); [left; apply Hleft; lia|right; left; lia].
  - exists b. rewrite Hh. split_and!; [lia|done| |done]. intros x Hx. apply covered_app. left. apply Hleft. lia.
  - destruct Hstop as [->|(_ & ent & l'' & -> & ->)]; [by left|right]. exists ent. split; [|done].
    rewrite Hh. apply elem_of_app. right. apply elem_of_cons. by left.
  - rewrite Hh, !owners_app. cbn. rewrite <- !app_assoc. cbn. apply Permutation_middle.
  - intros stream Hf Hc. rewrite Hh in Hf. apply Forall_app in Hf as [? ?]. apply Forall_app. split; [done|].
    constructor; [|done]. cbn. apply carries_take. replace b with (offset + (b - offset)) at 1 by lia.
    apply carries_drop; [lia|done].
Qed.

Lemma reorder_push_run mem_ok r buf offset cont_offset own :
  sorted_from cont_offset (reorder_head r) -> 0 <= offset -> 0 <= cont_offset ->
  offset + zlen (rb_data buf) < 2 ^ 64 ->
  ngtcp2_reorder_push mem_ok r buf offset cont_offset own = (NGTCP2_ERR_NOMEM, r, 0) /\ mem_ok = false \/
  exists r' nwrite stop, ngtcp2_reorder_push mem_ok r buf offset cont_offset own = (0, r', nwrite) /\
    pushed r buf offset cont_offset r' nwrite stop.
Proof.
  intros Hs Hoff Hcont H64. unfold ngtcp2_reorder_push. pose proof (zlen_nonneg (rb_data buf)).
  rewrite u64_small by (unfold is_u64; lia).
  rewrite (proj2 (Z.ltb_ge _ _)) by lia. destruct (Z.leb_spec (offset + zlen (rb_data buf)) cont_offset) as [H1|H1].
  { right. do 3 eexists. split; [reflexivity|]. apply pushed_release; [done|done|lia]. }
  set (begin_ := Z.max offset cont_offset).
  assert (E : (if offset <? cont_offset then (cont_offset, buf_advance buf (cont_offset - offset)) else (offset, buf))
    = (begin_, buf_advance buf (begin_ - offset))).
  { subst begin_. destruct (Z.ltb_spec offset cont_offset).
    - by rewrite Z.max_r by lia.
    - rewrite Z.max_l, Z.sub_diag, buf_advance_0 by lia. done. }
  rewrite E. pose proof (push_scan_spec cont_offset (reorder_head r) begin_ (offset + zlen (rb_data buf))
    (buf_advance buf (begin_ - offset)) Hs ltac:(subst begin_; lia)) as Hscan.
  destruct (push_scan _ begin_ _ _) as [buf'|l l' b e buf'].
  { destruct Hscan as [Hid Hc]. right. do 3 eexists. split; [reflexivity|]. apply pushed_release; done. }
  assert (Hbuf : buf' = buf_advance buf (b - offset)).
  { rewrite (pl_buf _ _ _ _ _ _ _ _ _ Hscan), buf_advance_advance; [f_equal; lia|lia|].
    destruct (pl_range _ _ _ _ _ _ _ _ _ Hscan). lia. }
  destruct (pl_range _ _ _ _ _ _ _ _ _ Hscan) as [Hbe Hee].
  destruct (Z.eqb_spec b e) as [Heq|Hne].
  - right. do 3 eexists. split; [reflexivity|].
    destruct Hscan as [Hsplit _ _ Hleft _ _ Hstop]. destruct Hstop as [->|[? _]]; [|lia].
    apply pushed_release; [done|by rewrite Hbuf|]. intros x Hx. rewrite Hsplit. apply covered_app. left.
    apply Hleft. lia.
  - destruct mem_ok; [right|by left]. cbn [negb]. do 3 eexists. split; [reflexivity|].
    rewrite Hbuf in *. cbn [rb_id rb_data buf_advance].
    eapply (pushed_insert r buf offset cont_offset own _ l l' begin_); try done; lia.
Qed.

(** ** Reading and removal *)

Lemma first_gap_spec lo ents offset :
  sorted_from lo ents ->
  offset <= first_gap ents offset /\
  (forall x, offset <= x < first_gap ents offset -> covered ents x) /\
  ~ covered ents (first_gap ents offset).
Proof.
  revert lo offset. induction ents as [|ent ents IH]; intros lo offset Hs; cbn [first_gap].
  { split_and!; [lia|lia|rewrite covered_nil; tauto]. }
  destruct Hs as (Hlo & [Hr _ _] & Hs).
  destruct (Z.leb_spec (re_end ent) offset) as [H1|H1]; [|destruct (Z.ltb_spec offset (re_begin ent)) as [H2|H2]].
  - destruct (IH _ offset Hs) as (Hle & Hc & Hn). split_and!; [done| |].
    + intros x Hx. apply covered_cons. right. by apply Hc.
    + rewrite covered_cons. intros [?|?]; [lia|done].
  - split_and!; [lia|lia|]. rewrite covered_cons. intros [?|Hx]; [lia|].
    pose proof (sorted_covered _ _ _ Hs Hx). lia.
  - destruct (IH _ (re_end ent) Hs) as (Hle & Hc & Hn). split_and!; [lia| |].
    + intros x Hx. apply covered_cons. destruct (Z.lt_ge_cases x (re_end ent)); [left; lia|right; apply Hc; lia].
    + rewrite covered_cons. intros [?|?]; [lia|done].
Qed.

(** With everything before [offset] removed, the first entry decides. *)
Lemma data_at_spec ents offset :
  sorted_from offset ents ->
  match ents with
  | ent :: _ => data_at ents offset =
      Ok (if re_begin ent =? offset then (re_end ent - offset, Some (re_buf ent)) else (0, None))
  | [] => data_at ents offset = Ok (0, None)
  end.
Proof.
  destruct ents as [|ent ents]; [done|]. intros (Hlo & [Hr _ _] & _). cbn [data_at].
  rewrite (proj2 (Z.leb_gt _ _)) by lia.
  destruct (Z.eqb_spec (re_begin ent) offset) as [E|E].
  - rewrite (proj2 (Z.ltb_ge _ _)) by lia. by rewrite (proj2 (Z.eqb_eq _ _)).
  - by rewrite (proj2 (Z.ltb_lt _ _)) by lia.
Qed.

Lemma pop_head ent ents rel len :
  entry_ok ent -> len = re_end ent - re_begin ent ->
  ngtcp2_reorder_pop (mk_reorder (ent :: ents) rel) (re_begin ent) len =
    Ok (mk_reorder ents ((re_buf ent, re_allocator_owned ent) :: rel)).
Proof.
  intros [Hr _ _] ->. unfold ngtcp2_reorder_pop. cbn [reorder_head pop_entry].
  rewrite (proj2 (Z.leb_gt _ _)) by lia. rewrite Z.eqb_refl.
  rewrite (proj2 (Z.leb_le _ _)) by lia. rewrite (proj2 (Z.ltb_ge _ _)) by lia. done.
Qed.

Record prefix_removed (ents : list ngtcp2_reorder_entry) (rel : list (reorder_buf * bool)) (offset : Z) r' : Prop := {
  pr_sorted : sorted_from offset (reorder_head r');
  pr_covered : forall x, covered (reorder_head r') x <-> covered ents x /\ offset <= x;
  pr_owners : Permutation (owners ents ++ map (fun p => rb_id p.1) rel)
    (owners (reorder_head r') ++ released_owners r');
  pr_carries : forall stream, Forall (entry_carries stream) ents -> Forall (entry_carries stream) (reorder_head r');
}.

Lemma remove_prefix_spec lo ents rel offset :
  sorted_from lo ents -> prefix_removed ents rel offset (remove_prefix ents rel offset).
Proof.
  revert lo rel. induction ents as [|ent ents IH]; intros lo rel Hs; cbn [remove_prefix].
  { split; try done. intros x. cbn. rewrite covered_nil. tauto. }
  pose proof Hs as (Hlo & [Hr He Hlen] & Hs').
  destruct (Z.leb_spec offset (re_begin ent)) as [H1|H1]; [|destruct (Z.ltb_spec offset (re_end ent)) as [H2|H2]].
  - split; cbn [reorder_head]; try done.
    + intros x. split; [|tauto]. intros Hx. split; [done|]. apply covered_cons in Hx as [?|Hx]; [lia|].
      pose proof (sorted_covered _ _ _ Hs' Hx). lia.
  - split; cbn [reorder_head]; try done.
    + cbn. split_and!; [lia| |done]. split; cbn; [lia|lia|]. rewrite zlen_zdrop by lia. lia.
    + intros x. rewrite !covered_cons. cbn. split.
      * intros [?|Hx]; [split; [left; lia|lia]|]. pose proof (sorted_covered _ _ _ Hs' Hx). split; [auto|lia].
      * intros [[?|?] ?]; [left; lia|auto].
    + intros stream [Hc Hf]%Forall_cons_iff. constructor; [|done]. unfold entry_carries in *. cbn.
      replace offset with (re_begin ent + (offset - re_begin ent)) at 1 by lia. apply carries_drop; [lia|done].
  - destruct (IH _ ((re_buf ent, re_allocator_owned ent) :: rel) Hs') as [Hs1 Hc Ho Hf]. split; [done| | |].
    + intros x. rewrite Hc, covered_cons. split; [tauto|]. intros [[?|?] ?]; [lia|done].
    + rewrite <- Ho. cbn. apply Permutation_middle.
    + intros stream [_ H]%Forall_cons_iff. by apply Hf.
Qed.

(** ** Properties *)

(** C29: pushing data into a well-formed reorder buffer either fails with
    [NGTCP2_ERR_NOMEM] and changes nothing, or keeps the entries sorted and
    disjoint, stores exactly the missing bytes up to some offset [stop] (the
    end of the data or the beginning of an entry), reports their number,
    never alters a stored byte, and takes the buffer over: its owner is then
    either stored once or released once. *)
Theorem reorder_push_spec (mem_ok : bool) (r : ngtcp2_reorder) (buf : reorder_buf) (offset cont_offset : Z) (own : bool) :
  sorted_from cont_offset (reorder_head r) -> 0 <= offset -> 0 <= cont_offset ->
  offset + zlen (rb_data buf) < 2 ^ 64 ->
  ngtcp2_reorder_push mem_ok r buf offset cont_offset own = (NGTCP2_ERR_NOMEM, r, 0) /\ mem_ok = false \/
  exists r' nwrite stop, ngtcp2_reorder_push mem_ok r buf offset cont_offset own = (0, r', nwrite) /\
    pushed r buf offset cont_offset r' nwrite stop.
Proof. apply reorder_push_run. Qed.

Lemma reorder_push_spec_witness :
  let r := mk_reorder [mk_entry 4 6 (mk_rbuf 1 [40; 50]) true] [] in
  let buf := mk_rbuf 2 [20; 30; 40; 50; 60] in
  ngtcp2_reorder_push true r buf 2 0 false = (NGTCP2_ERR_NOMEM, r, 0) /\ true = false \/
  exists r' nwrite stop, ngtcp2_reorder_push true r buf 2 0 false = (0, r', nwrite) /\
    pushed r buf 2 0 r' nwrite stop.
Proof.
  apply (reorder_push_spec true (mk_reorder [mk_entry 4 6 (mk_rbuf 1 [40; 50]) true] [])
    (mk_rbuf 2 [20; 30; 40; 50; 60]) 2 0 false); [|lia|lia|vm_compute; done].
  cbn. split; [lia|]. split; [split; [cbn; lia|reflexivity|reflexivity]|done].
Defined.

(** Data that reaches over a stored entry is accepted, but only its
    part in front of the entry is stored: the bytes behind the entry are
    dropped and the push still returns success. *)
Theorem reorder_push_drops_tail (ent : ngtcp2_reorder_entry) (rel : list (reorder_buf * bool)) (buf : reorder_buf)
    (offset cont_offset : Z) (own : bool) :
  entry_ok ent -> 0 <= cont_offset <= offset -> offset < re_begin ent ->
  re_end ent < offset + zlen (rb_data buf) < 2 ^ 64 ->
  exists r', ngtcp2_reorder_push true (mk_reorder [ent] rel) buf offset cont_offset own =
      (0, r', re_begin ent - offset) /\
    forall x, re_end ent <= x -> ~ covered (reorder_head r') x.
Proof.
  intros [Hr _ _] Hc Hb Hlen. unfold ngtcp2_reorder_push. pose proof (zlen_nonneg (rb_data buf)).
  rewrite u64_small by (unfold is_u64; lia). cbn [reorder_head push_scan].
  rewrite (proj2 (Z.ltb_ge _ _)) by lia. rewrite (proj2 (Z.leb_gt _ _)) by lia.
  rewrite (proj2 (Z.ltb_ge offset cont_offset)) by lia.
  rewrite (proj2 (Z.leb_gt (re_end ent) offset)) by lia.
  rewrite (proj2 (Z.leb_gt _ (re_begin ent))) by lia. rewrite (proj2 (Z.leb_gt (re_begin ent) _)) by lia.
  rewrite (proj2 (Z.eqb_neq _ _)) by lia. cbn [negb]. eexists. split; [reflexivity|].
  intros x Hx. cbn [reorder_head app]. rewrite !covered_cons, covered_nil. cbn. lia.
Qed.

Lemma reorder_push_drops_tail_witness :
  exists r', ngtcp2_reorder_push true (mk_reorder [mk_entry 4 6 (mk_rbuf 1 [40; 50]) true] [])
      (mk_rbuf 2 [20; 30; 40; 50; 60]) 2 0 false = (0, r', 2) /\ ~ covered (reorder_head r') 6.
Proof.
  destruct (reorder_push_drops_tail (mk_entry 4 6 (mk_rbuf 1 [40; 50]) true) [] (mk_rbuf 2 [20; 30; 40; 50; 60]) 2 0 false)
    as (r' & H1 & H2); [split; [cbn; lia|reflexivity|reflexivity]|lia|cbn; lia|vm_compute; done|].
  exists r'. split; [exact H1|]. apply H2. cbn. lia.
Defined.
