(* ===== verification/Vec.v ===== *)
(** * Vectors of bytes: [lib/ngtcp2_vec.c]

    A vector points to bytes that the application owns and keeps unchanged.
    Splitting and merging arrays of vectors, with the bytes they denote. *)

From S2P Require Import Prelude Const.
From stdpp Require Import list.
#[local] Open Scope Z_scope.

Record ngtcp2_vec := mk_vec { v_base : Z; v_len : Z }.
Implicit Types (v a b d l : ngtcp2_vec) (dst src vecs : list ngtcp2_vec).

Definition ngtcp2_vec_init (base len : Z) : ngtcp2_vec := mk_vec base len.

Definition ngtcp2_vec_len vecs : Z := u64 (fold_right (fun v n => v_len v + n) 0 vecs).

Fixpoint vec_len_varint_from vecs (res : Z) : Z :=
  match vecs with
  | [] => res
  | v :: vecs => if u64 (NGTCP2_MAX_VARINT - res) <? v_len v then -1 else vec_len_varint_from vecs (res + v_len v)
  end.

Definition ngtcp2_vec_len_varint vecs : Z := vec_len_varint_from vecs 0.

Definition ngtcp2_vec_drop v (n : Z) : ngtcp2_vec := mk_vec (v_base v + n) (v_len v - n).

(** [a->base + a->len == b->base] *)
Definition vec_adjacent a b : bool := v_base a + v_len a =? v_base b.

(** The first vector that does not fit in [left] bytes, and what is left for
    it. *)
Fixpoint split_point src (i : nat) (left : Z) : option (nat * Z) :=
  match src with
  | [] => None
  | v :: src => if v_len v <=? left then split_point src (S i) (left - v_len v) else Some (i, left)
  end.

(** The part of [ngtcp2_vec_split] from [nmove = srccnt - i] on. *)
Definition split_move dst src (srccnt i : nat) (left extra : Z) : res (Z * list ngtcp2_vec * list ngtcp2_vec) :=
  let nmove := (srccnt - i)%nat in
  match take nmove (drop i src) ++ dst, src !! i with
  | d :: dst, Some v =>
      let dst := ngtcp2_vec_drop d left :: dst in
      let src := take i src ++ (if left =? 0 then [] else [mk_vec (v_base v) left]) in
      let extra := if (nmove =? 0)%nat then extra - left else extra in
      Ok (ngtcp2_vec_len (take nmove dst) + extra, dst, src)
  | _, _ => Fault
  end.

(** The return value, [dst] and [src]. *)
Definition ngtcp2_vec_split dst src (left maxcnt : Z) : res (Z * list ngtcp2_vec * list ngtcp2_vec) :=
  match split_point src 0 left with
  | None => Ok (0, dst, src)
  | Some (i, rest) =>
      let srccnt := length src in
      match dst, last src with
      | d :: dst', Some l =>
          if vec_adjacent l d then
            if maxcnt <? zlen dst + Z.of_nat srccnt - Z.of_nat i - 1 then Ok (-1, dst, src)
            else split_move (mk_vec (v_base l) (v_len d + v_len l) :: dst') src (srccnt - 1) i rest (v_len l)
          else if maxcnt <? zlen dst + Z.of_nat srccnt - Z.of_nat i then Ok (-1, dst, src)
          else split_move dst src srccnt i rest 0
      | _, _ =>
          if maxcnt <? zlen dst + Z.of_nat srccnt - Z.of_nat i then Ok (-1, dst, src)
          else split_move dst src srccnt i rest 0
      end
  end.

(** The last vector of [dst] grows, or a new one is added. *)
Definition vec_extend dst b (n : Z) : list ngtcp2_vec :=
  match last dst with
  | Some a => if vec_adjacent a b then take (length dst - 1) dst ++ [mk_vec (v_base a) (v_len a + n)]
              else dst ++ [mk_vec (v_base b) n]
  | None => dst ++ [mk_vec (v_base b) n]
  end.

(** The loop of [ngtcp2_vec_merge]: [dst], the rest of [src], and [left]. *)
Fixpoint vec_merge_loop dst src (left maxcnt : Z) : res (list ngtcp2_vec * list ngtcp2_vec * Z) :=
  match src with
  | [] => Ok (dst, [], left)
  | b :: rest =>
      if left =? 0 then Ok (dst, src, left) else
      match last dst with
      | None => Fault
      | Some a =>
          if left <? v_len b then
            if negb (vec_adjacent a b) && (zlen dst =? maxcnt) then Ok (dst, src, left)
            else Ok (vec_extend dst b left, ngtcp2_vec_drop b left :: rest, 0)
          else if negb (vec_adjacent a b) && (zlen dst =? maxcnt) then Ok (dst, src, left)
          else vec_merge_loop (vec_extend dst b (v_len b)) rest (left - v_len b) maxcnt
      end
  end.

(** The number of merged bytes, [dst] and [src]. *)
Definition ngtcp2_vec_merge dst src (left maxcnt : Z) : res (Z * list ngtcp2_vec * list ngtcp2_vec) :=
  assert! negb (maxcnt =? 0);
  let run dst src n :=
    let* (dst, src, rest) := vec_merge_loop dst src n maxcnt in Ok (left - rest, dst, src) in
  match dst, src with
  | [], [] => Ok (0, [], [])
  | [], b :: rest =>
      if left <? v_len b then Ok (left, [], ngtcp2_vec_drop b left :: rest)
      else run [b] rest (left - v_len b)
  | _, _ => run dst src left
  end.

Fixpoint ngtcp2_vec_copy_at_most (dstcnt : nat) src (left : Z) : list ngtcp2_vec :=
  match src with
  | [] => []
  | v :: src =>
      if (left <=? 0) || (dstcnt =? 0)%nat then [] else
      if v_len v =? 0 then ngtcp2_vec_copy_at_most dstcnt src left else
      if left <? v_len v then [mk_vec (v_base v) left]
      else v :: ngtcp2_vec_copy_at_most (dstcnt - 1) src (left - v_len v)
  end.

Definition ngtcp2_vec_split_at src_vec (offset : Z) : res (ngtcp2_vec * ngtcp2_vec) :=
  assert! offset <? v_len src_vec;
  Ok (mk_vec (v_base src_vec + offset) (v_len src_vec - offset), mk_vec (v_base src_vec) offset).

(** ** The bytes *)

(** The sum without wrapping. *)
Definition vec_total vecs : Z := fold_right (fun v n => v_len v + n) 0 vecs.

Definition vecs_pos vecs : Prop := Forall (fun v => 0 < v_len v) vecs.

Lemma vec_total_app vecs vecs' : vec_total (vecs ++ vecs') = vec_total vecs + vec_total vecs'.
Proof. induction vecs as [|v vecs IH]; cbn; [done|]. unfold vec_total in *. rewrite IH. lia. Qed.

Lemma vec_total_nonneg vecs : vecs_pos vecs -> 0 <= vec_total vecs.
Proof. induction 1; cbn; [done|]. unfold vec_total in *. lia. Qed.

Lemma vec_total_pos vecs : vecs_pos vecs -> vecs <> [] -> 0 < vec_total vecs.
Proof. intros [|v vecs' Hv Hp]; [done|]. intros _. pose proof (vec_total_nonneg vecs' Hp). cbn. unfold vec_total in *. lia. Qed.

Lemma vec_len_total vecs : vecs_pos vecs -> vec_total vecs < 2 ^ 64 -> ngtcp2_vec_len vecs = vec_total vecs.
Proof. intros Hp Ht. apply u64_small. pose proof (vec_total_nonneg _ Hp). unfold is_u64. split; assumption. Qed.

Section Content.
Context (mem : Z -> Z).

Definition vec_bytes v : list Z := map (fun i => mem (v_base v + Z.of_nat i)) (seq 0 (Z.to_nat (v_len v))).
Definition content vecs : list Z := concat (map vec_bytes vecs).

Lemma content_app vecs vecs' : content (vecs ++ vecs') = content vecs ++ content vecs'.
Proof. unfold content. by rewrite map_app, concat_app. Qed.

Lemma content_one v : content [v] = vec_bytes v.
Proof. unfold content. cbn. apply app_nil_r. Qed.

Lemma content_cons v vecs : content (v :: vecs) = vec_bytes v ++ content vecs.
Proof. done. Qed.

Lemma vec_bytes_len v : 0 <= v_len v -> zlen (vec_bytes v) = v_len v.
Proof. intros H. unfold zlen, vec_bytes. rewrite length_map, length_seq. lia. Qed.

Lemma content_len vecs : vecs_pos vecs -> zlen (content vecs) = vec_total vecs.
Proof.
  induction 1 as [|v vecs Hv Hp IH]; [done|]. rewrite content_cons, zlen_app, IH, vec_bytes_len by lia. done.
Qed.

Lemma vec_bytes_cut base n m :
  0 <= n -> 0 <= m -> vec_bytes (mk_vec base (n + m)) = vec_bytes (mk_vec base n) ++ vec_bytes (mk_vec (base + n) m).
Proof.
  intros Hn Hm. unfold vec_bytes. cbn [v_base v_len]. rewrite Z2Nat.inj_add by lia. rewrite seq_app, map_app. f_equal.
  cbn [Nat.add]. rewrite <- (Nat.add_0_r (Z.to_nat n)) at 1. rewrite <- fmap_add_seq, map_map. apply map_ext. intros i. f_equal. lia.
Qed.

Lemma vec_bytes_drop v n :
  0 <= n <= v_len v -> vec_bytes v = vec_bytes (mk_vec (v_base v) n) ++ vec_bytes (ngtcp2_vec_drop v n).
Proof.
  intros Hn. destruct v as [base len]. cbn in *. unfold ngtcp2_vec_drop. cbn.
  rewrite <- vec_bytes_cut by lia. by replace (n + (len - n)) with len by lia.
Qed.

(** ** Merging *)
Lemma extend_bytes A a b n :
  0 <= n -> 0 <= v_len a ->
  exists a' B, vec_extend (A ++ [a]) b n = A ++ a' :: B /\ (length B <= 1)%nat /\ (vec_adjacent a b = true -> B = []) /\
    content (a' :: B) = vec_bytes a ++ vec_bytes (mk_vec (v_base b) n) /\ vec_total (a' :: B) = v_len a + n /\
    (0 < v_len a -> 0 < n -> vecs_pos (a' :: B)).
Proof.
  intros Hn Ha. unfold vec_extend. rewrite last_snoc. destruct (vec_adjacent a b) eqn:E.
  - exists (mk_vec (v_base a) (v_len a + n)), []. rewrite length_app. cbn [length]. replace (length A + 1 - 1)%nat with (length A) by lia.
    rewrite take_app_length. split_and!; try done; [lia| | |].
    + rewrite content_one, vec_bytes_cut by lia. unfold vec_adjacent in E. apply Z.eqb_eq in E. by rewrite E.
    + cbn. lia.
    + intros ? ?. constructor; [cbn; lia|constructor].
  - exists a, [mk_vec (v_base b) n]. rewrite <- app_assoc. split_and!; try done; [by rewrite content_cons, content_one|cbn; lia|].
    intros ? ?. constructor; [done|constructor; [cbn; lia|constructor]].
Qed.

(** What a merge into a nonempty array does. *)
Record merged A a src (left maxcnt : Z) dst' src' (n : Z) : Prop := {
  mg_prefix : exists a' B, dst' = A ++ a' :: B /\ content (a' :: B) ++ content src' = vec_bytes a ++ content src /\
    vec_total (a' :: B) = v_len a + n /\ vecs_pos (a' :: B);
  mg_total : vec_total src = n + vec_total src';
  mg_range : 0 <= n <= left;
  mg_pos : vecs_pos src';
  mg_count : zlen dst' <= maxcnt;
  mg_rest : zlen src' <= zlen src;
}.

Lemma merge_loop_ok src A a left maxcnt :
  0 < v_len a -> vecs_pos src -> 0 <= left -> zlen (A ++ [a]) <= maxcnt ->
  exists dst' src' rest, vec_merge_loop (A ++ [a]) src left maxcnt = Ok (dst', src', rest) /\
    merged A a src left maxcnt dst' src' (left - rest).
Proof.
  revert A a left. induction src as [|b src IH]; intros A a left Ha Hp Hl Hc; cbn [vec_merge_loop].
  { exists (A ++ [a]), [], left. split; [done|]. split; [|cbn; lia|lia|constructor|done|done].
    exists a, []. split_and!; [done|by rewrite content_one|cbn; lia|]. by repeat constructor. }
  pose proof Hp as [Hb Hp']%Forall_cons_iff.
  assert (Hstay : exists dst' src' rest, Ok (A ++ [a], b :: src, left) = Ok (dst', src', rest) /\
    merged A a (b :: src) left maxcnt dst' src' (left - rest)).
  { exists (A ++ [a]), (b :: src), left. split; [done|]. split; [|lia|lia|done|done|done].
    exists a, []. split_and!; [done|by rewrite content_one|cbn; lia|]. by repeat constructor. }
  destruct (Z.eqb_spec left 0); [exact Hstay|]. rewrite last_snoc.
  destruct (negb (vec_adjacent a b) && (zlen (A ++ [a]) =? maxcnt)) eqn:Hfull; [by destruct (left <? v_len b)|].
  assert (Hcount : forall a' B, (length B <= 1)%nat -> (vec_adjacent a b = true -> B = []) -> zlen (A ++ a' :: B) <= maxcnt).
  { intros a' B HB1 HB2. unfold zlen in *. rewrite length_app in *. cbn [length] in *.
    destruct (vec_adjacent a b); [rewrite HB2 by done; cbn; lia|]. cbn in Hfull. apply Z.eqb_neq in Hfull. lia. }
  destruct (Z.ltb_spec left (v_len b)) as [Hlt|Hge].
  - destruct (extend_bytes A a b left) as (a' & B & E & HB1 & HB2 & HB3 & HB4 & HB5); [lia|lia|]. rewrite E.
    exists (A ++ a' :: B), (ngtcp2_vec_drop b left :: src), 0. split; [done|]. split; [| | |constructor; [cbn; lia|done]|by apply Hcount|done].
    + exists a', B. split_and!; [done| |lia|apply HB5; lia].
      rewrite HB3, !content_cons, (vec_bytes_drop b left), <- !app_assoc by lia. done.
    + cbn. unfold vec_total. lia.
    + lia.
  - destruct (extend_bytes A a b (v_len b)) as (a' & B & E & HB1 & HB2 & HB3 & HB4 & HB5); [lia|lia|].
    specialize (HB5 Ha Hb). pose proof (Hcount a' B HB1 HB2) as Hc'. rewrite E.
    assert (Hbv : mk_vec (v_base b) (v_len b) = b) by by destruct b. rewrite Hbv in HB3.
    destruct (exists_last (l := a' :: B)) as (A2 & a2 & EA); [done|]. rewrite EA in *.
    apply Forall_app in HB5 as [HpA Hpa]. apply Forall_cons_iff in Hpa as [Hpa _]. rewrite app_assoc.
    destruct (IH (A ++ A2) a2 (left - v_len b)) as (dst' & src' & rest & -> & [(a3 & B3 & -> & Hb1 & Hb2 & Hb3) Ht Hr Hps Hcc Hrs]);
      [done|done|lia|by rewrite <- app_assoc|].
    exists ((A ++ A2) ++ a3 :: B3), src', rest. split; [done|]. split; [|cbn; unfold vec_total in *; lia|lia|done|done|unfold zlen in *; cbn [length]; lia].
    destruct A2 as [|a4 A2]; cbn [app] in *.
    + rewrite app_nil_r. exists a3, B3. split_and!; [done| |cbn in HB4; lia|done].
      rewrite Hb1, content_cons. rewrite content_one in HB3. by rewrite HB3, <- app_assoc.
    + exists a4, (A2 ++ a3 :: B3). rewrite <- app_assoc. split_and!; [done| | |].
      * change (a4 :: A2 ++ a3 :: B3) with ((a4 :: A2) ++ a3 :: B3). rewrite content_app, <- app_assoc, Hb1, app_assoc.
        rewrite <- (content_one a2), <- content_app. cbn [app]. by rewrite HB3, content_cons, <- app_assoc.
      * change (a4 :: A2 ++ a3 :: B3) with ((a4 :: A2) ++ a3 :: B3). rewrite vec_total_app, Hb2. 
        change (a4 :: A2 ++ [a2]) with ((a4 :: A2) ++ [a2]) in HB4. rewrite vec_total_app in HB4. cbn [vec_total fold_right] in HB4 |- *. unfold vec_total in *. cbn in HB4 |- *. lia.
      * change (a4 :: A2 ++ a3 :: B3) with ((a4 :: A2) ++ a3 :: B3). by apply Forall_app.
Qed.

(** The bytes move from [src] to [dst], if [dst] has a vector already. *)
Lemma vec_merge_ok A a src left maxcnt :
  0 < v_len a -> vecs_pos src -> 0 <= left -> zlen (A ++ [a]) <= maxcnt ->
  exists dst' src' n, ngtcp2_vec_merge (A ++ [a]) src left maxcnt = Ok (n, dst', src') /\ merged A a src left maxcnt dst' src' n.
Proof.
  intros Ha Hp Hl Hc. unfold ngtcp2_vec_merge.
  assert (maxcnt <> 0) by (unfold zlen in Hc; rewrite length_app in Hc; cbn in Hc; lia).
  rewrite (proj2 (Z.eqb_neq _ _)) by done. cbn [negb].
  destruct (merge_loop_ok src A a left maxcnt Ha Hp Hl Hc) as (dst' & src' & rest & E & Hm).
  exists dst', src', (left - rest). split; [|done].
  destruct (A ++ [a]) eqn:EA; [by destruct A|]. by rewrite E.
Qed.

(** Into an empty array the first bytes get lost when the first vector does
    not fit: the number of elements of [dst] stays 0. *)
Lemma vec_merge_loses b src left maxcnt :
  maxcnt <> 0 -> 0 < left < v_len b ->
  ngtcp2_vec_merge [] (b :: src) left maxcnt = Ok (left, [], ngtcp2_vec_drop b left :: src).
Proof.
  intros Hm Hl. unfold ngtcp2_vec_merge. rewrite (proj2 (Z.eqb_neq _ _)) by done. cbn [negb].
  by rewrite (proj2 (Z.ltb_lt _ _)) by lia.
Qed.

(** ** Splitting *)
Lemma split_point_spec src i left :
  vecs_pos src -> 0 <= left ->
  match split_point src i left with
  | None => vec_total src <= left
  | Some (j, rest) => (i <= j)%nat /\ exists v, src !! (j - i)%nat = Some v /\ 0 <= rest < v_len v /\
      left = vec_total (take (j - i) src) + rest
  end.
Proof.
  revert i left. induction src as [|v src IH]; intros i left Hp Hl; cbn [split_point]; [cbn; lia|].
  apply Forall_cons_iff in Hp as [Hv Hp]. destruct (Z.leb_spec (v_len v) left).
  - specialize (IH (S i) (left - v_len v) Hp ltac:(lia)). destruct (split_point src (S i) (left - v_len v)) as [[j rest]|].
    + destruct IH as (Hj & w & Hw & Hr & E). split; [lia|]. exists w. replace (j - i)%nat with (S (j - S i)) by lia.
      cbn. unfold vec_total in *. split_and!; [done|lia|lia|lia].
    + cbn. unfold vec_total in *. lia.
  - split; [lia|]. exists v. rewrite Nat.sub_diag. cbn. split_and!; [done|lia|lia|lia].
Qed.

(** Into an empty array: [src] keeps [left] bytes. *)
Lemma vec_split_ok src left maxcnt :
  vecs_pos src -> 0 <= left < vec_total src -> zlen src <= maxcnt -> vec_total src < 2 ^ 64 ->
  exists dst' src', ngtcp2_vec_split [] src left maxcnt = Ok (vec_total src - left, dst', src') /\
    content src' ++ content dst' = content src /\ vec_total src' = left /\ vec_total dst' = vec_total src - left /\
    vecs_pos dst' /\ vecs_pos src' /\ zlen dst' <= zlen src /\ zlen src' <= zlen src.
Proof.
  intros Hp Hl Hc H64. unfold ngtcp2_vec_split. pose proof (split_point_spec src 0 left Hp ltac:(lia)) as Hs.
  destruct (split_point src 0 left) as [[i rest]|]; [|lia]. destruct Hs as (_ & v & Hv & Hr & E). rewrite Nat.sub_0_r in *.
  pose proof (lookup_lt_Some _ _ _ Hv) as Hi. unfold zlen in Hc |- *.
  rewrite (proj2 (Z.ltb_ge _ _)) by (cbn [length]; lia). unfold split_move. rewrite Hv, app_nil_r.
  rewrite (firstn_all2 (n := (length src - i)%nat)) by (rewrite length_drop; lia).
  rewrite (drop_S _ _ _ Hv). rewrite (proj2 (Nat.eqb_neq (length src - i) 0)) by lia.
  rewrite (firstn_all2 (n := (length src - i)%nat)) by (cbn [length]; rewrite length_drop; lia).
  pose proof (take_drop_middle src i v Hv) as Emid.
  assert (Hpp : vecs_pos (take i src) /\ vecs_pos (drop (S i) src)).
  { rewrite <- Emid in Hp. apply Forall_app in Hp as [H1 H2]. apply Forall_cons_iff in H2 as [_ H2]. done. }
  destruct Hpp as [Hp1 Hp2].
  set (dst' := ngtcp2_vec_drop v rest :: drop (S i) src). set (src' := take i src ++ _).
  assert (Hd : vecs_pos dst') by (constructor; [cbn; lia|done]).
  assert (Hts : vec_total src = vec_total (take i src) + (v_len v + vec_total (drop (S i) src))).
  { rewrite <- Emid at 1. by rewrite vec_total_app. }
  assert (Htd : vec_total dst' = vec_total src - left) by (rewrite Hts, E; cbn; unfold vec_total; lia).
  assert (Hss : vec_total src' = left /\ vecs_pos src' /\ content src' = content (take i src) ++ vec_bytes (mk_vec (v_base v) rest)).
  { unfold src'. destruct (Z.eqb_spec rest 0) as [->|].
    - rewrite !app_nil_r. split_and!; [lia|done|]. done.
    - rewrite vec_total_app, content_app, content_one. cbn. split_and!; [lia| |done]. apply Forall_app. split; [done|]. constructor; [cbn; lia|constructor]. }
  destruct Hss as (Hs1 & Hs2 & Hs3). exists dst', src'. rewrite vec_len_total, Z.add_0_r, Htd by (try done; lia).
  split_and!; try done.
  - rewrite Hs3. unfold dst'. rewrite content_cons, <- app_assoc, (app_assoc _ _ (content (drop (S i) src))), <- vec_bytes_drop by lia.
    rewrite <- content_cons, <- content_app. by rewrite Emid.
  - unfold dst'. cbn [length]. rewrite length_drop. lia.
  - unfold src'. rewrite length_app, length_take. destruct (rest =? 0); cbn [length]; lia.
Qed.
End Content.
