(* ===== verification/FrameChain.v ===== *)
(** * Frames that are sent: [lib/ngtcp2_frame_chain.c]

    A STREAM or CRYPTO frame as the sending side keeps it: the data are
    vectors, or a part of a buffer that the library retained ([txbuf]).  The
    reference counts of the buffers are not modelled. *)

From S2P Require Import Prelude Const Vec.
From stdpp Require Import list.
#[local] Open Scope Z_scope.

(** [txbuf.pos] and [txbuf.last] *)
Record tx_buf := mk_txbuf { tb_pos : Z; tb_last : Z }.

Record tx_frame := mk_txfr {
  tf_type : Z;
  tf_flags : Z;
  tf_fin : bool;
  tf_stream_id : Z;
  tf_offset : Z;
  tf_data : list ngtcp2_vec;
  tf_txbuf : option tx_buf;
}.

Implicit Types (fr nfr dest : tx_frame).

Definition set_tf_fin (fin : bool) fr : tx_frame :=
  mk_txfr (tf_type fr) (tf_flags fr) fin (tf_stream_id fr) (tf_offset fr) (tf_data fr) (tf_txbuf fr).
Definition set_tf_offset (offset : Z) fr : tx_frame :=
  mk_txfr (tf_type fr) (tf_flags fr) (tf_fin fr) (tf_stream_id fr) offset (tf_data fr) (tf_txbuf fr).
Definition set_tf_data (data : list ngtcp2_vec) fr : tx_frame :=
  mk_txfr (tf_type fr) (tf_flags fr) (tf_fin fr) (tf_stream_id fr) (tf_offset fr) data (tf_txbuf fr).
Definition set_tf_txbuf (buf : option tx_buf) fr : tx_frame :=
  mk_txfr (tf_type fr) (tf_flags fr) (tf_fin fr) (tf_stream_id fr) (tf_offset fr) (tf_data fr) buf.

(** [ngtcp2_buf_len(&fr->txbuf)] *)
Definition txbuf_len (buf : tx_buf) : Z := tb_last buf - tb_pos buf.

(** [rv]: what [ngtcp2_buf_retain_owner] returns. *)
Definition ngtcp2_stream_set_txbuf (rv : Z) fr (buf : tx_buf) : res (Z * tx_frame) :=
  match tf_txbuf fr with
  | Some _ => Fault
  | None => if negb (rv =? 0) then Ok (rv, fr) else Ok (0, set_tf_txbuf (Some buf) fr)
  end.

Definition ngtcp2_stream_copy_txbuf (rv : Z) dest fr : res (Z * tx_frame) :=
  match tf_txbuf fr with
  | None => Ok (0, dest)
  | Some buf => ngtcp2_stream_set_txbuf rv dest buf
  end.

Definition ngtcp2_stream_release_txbuf fr : tx_frame := set_tf_txbuf None fr.

Definition ngtcp2_stream_sync_txbuf fr : tx_frame :=
  match tf_txbuf fr with
  | None => fr
  | Some _ =>
      let datalen := ngtcp2_vec_len (tf_data fr) in
      match tf_data fr with
      | v :: _ =>
          if datalen =? 0 then ngtcp2_stream_release_txbuf fr
          else set_tf_txbuf (Some (mk_txbuf (v_base v) (v_base v + datalen))) fr
      | [] => ngtcp2_stream_release_txbuf fr
      end
  end.

(** [stream_datalen], [strm_frame_datalen] *)
Definition strm_frame_datalen fr : Z :=
  match tf_txbuf fr with
  | Some buf => txbuf_len buf
  | None => ngtcp2_vec_len (tf_data fr)
  end.

(** The outcomes of the allocations and of the callbacks to come: 0, or an
    error code.  An outcome that is not listed is 0. *)
Definition next_outcome (outs : list Z) : Z * list Z :=
  match outs with [] => (0, []) | rv :: outs => (rv, outs) end.

(** [None]: no memory. *)
Definition ngtcp2_frame_chain_stream_datacnt_objalloc_new (outs : list Z) fr : option tx_frame * list Z :=
  let (rv, outs) := next_outcome outs in
  if negb (rv =? 0) then (None, outs) else (Some fr, outs).
