(* ===== verification/Strm.v ===== *)
(** * Streams: [lib/ngtcp2_strm.c]

    What a stream (or the CRYPTO stream of an encryption level) keeps about
    the data it receives: the offset up to which everything was handed over,
    the reorder buffer, which exists only once data came out of order, the
    largest offset seen and the flow control limit; and about the data it
    sends: the offsets, what was acknowledged, and the queue of frames to be
    sent again, whose operations are in [StrmTx]. *)

From S2P Require Import Prelude Const Frame Reorder Ksl Gaptr Vec FrameChain.
From stdpp Require Import list.
#[local] Open Scope Z_scope.

Definition NGTCP2_STRM_FLAG_NONE : Z := 0x00.
Definition NGTCP2_STRM_FLAG_SHUT_RD : Z := 0x01.
Definition NGTCP2_STRM_FLAG_SHUT_WR : Z := 0x02.
Definition NGTCP2_STRM_FLAG_SHUT_RDWR : Z := Z.lor NGTCP2_STRM_FLAG_SHUT_RD NGTCP2_STRM_FLAG_SHUT_WR.
Definition NGTCP2_STRM_FLAG_RESET_STREAM : Z := 0x04.
Definition NGTCP2_STRM_FLAG_RESET_STREAM_RECVED : Z := 0x08.
Definition NGTCP2_STRM_FLAG_STOP_SENDING : Z := 0x10.
Definition NGTCP2_STRM_FLAG_RESET_STREAM_ACKED : Z := 0x20.
Definition NGTCP2_STRM_FLAG_FIN_ACKED : Z := 0x40.
Definition NGTCP2_STRM_FLAG_ANY_ACKED : Z := 0x80.
Definition NGTCP2_STRM_FLAG_APP_ERROR_CODE_SET : Z := 0x100.
Definition NGTCP2_STRM_FLAG_SEND_STOP_SENDING : Z := 0x200.
Definition NGTCP2_STRM_FLAG_SEND_RESET_STREAM : Z := 0x400.
Definition NGTCP2_STRM_FLAG_STOP_SENDING_RECVED : Z := 0x800.
Definition NGTCP2_STRM_FLAG_ANY_SENT : Z := 0x1000.

(** The queue of frames to be sent again, ordered by their offset. *)
Definition ngtcp2_streamfrq : Type := ngtcp2_ksl Z tx_frame.

(** The sending half. *)
Record strm_tx := mk_tx {
  tx_acked_offset : option ngtcp2_gaptr;
  tx_cont_acked_offset : Z;
  tx_offset : Z;
  tx_max_offset : Z;
  tx_last_blocked_offset : Z;
  tx_last_max_stream_data_ts : Z;
  tx_loss_count : Z;
  tx_last_lost_pkt_num : Z;
  tx_stop_sending_app_error_code : Z;
  tx_reset_stream_app_error_code : Z;
  tx_cycle : Z;
  tx_streamfrq : option ngtcp2_streamfrq;
}.

(** [strm_released]: the releases of reorder buffers that were freed. *)
Record ngtcp2_strm := mk_strm {
  strm_stream_id : Z;
  strm_flags : Z;
  rx_reorder : option ngtcp2_reorder;
  rx_cont_offset : Z;
  rx_last_offset : Z;
  rx_max_offset : Z;
  rx_unsent_max_offset : Z;
  rx_window : Z;
  strm_released : list (reorder_buf * bool);
  strm_app_error_code : Z;
  strm_tx_half : strm_tx;
}.

Implicit Types (strm : ngtcp2_strm) (r : ngtcp2_reorder).

Definition set_reorder (o : option ngtcp2_reorder) strm : ngtcp2_strm :=
  mk_strm (strm_stream_id strm) (strm_flags strm) o (rx_cont_offset strm) (rx_last_offset strm)
    (rx_max_offset strm) (rx_unsent_max_offset strm) (rx_window strm) (strm_released strm)
    (strm_app_error_code strm) (strm_tx_half strm).
Definition set_cont_offset (x : Z) strm : ngtcp2_strm :=
  mk_strm (strm_stream_id strm) (strm_flags strm) (rx_reorder strm) x (rx_last_offset strm)
    (rx_max_offset strm) (rx_unsent_max_offset strm) (rx_window strm) (strm_released strm)
    (strm_app_error_code strm) (strm_tx_half strm).
Definition set_last_offset (x : Z) strm : ngtcp2_strm :=
  mk_strm (strm_stream_id strm) (strm_flags strm) (rx_reorder strm) (rx_cont_offset strm) x
    (rx_max_offset strm) (rx_unsent_max_offset strm) (rx_window strm) (strm_released strm)
    (strm_app_error_code strm) (strm_tx_half strm).
Definition set_unsent_max_offset (x : Z) strm : ngtcp2_strm :=
  mk_strm (strm_stream_id strm) (strm_flags strm) (rx_reorder strm) (rx_cont_offset strm)
    (rx_last_offset strm) (rx_max_offset strm) x (rx_window strm) (strm_released strm)
    (strm_app_error_code strm) (strm_tx_half strm).
Definition set_flags (x : Z) strm : ngtcp2_strm :=
  mk_strm (strm_stream_id strm) x (rx_reorder strm) (rx_cont_offset strm) (rx_last_offset strm)
    (rx_max_offset strm) (rx_unsent_max_offset strm) (rx_window strm) (strm_released strm)
    (strm_app_error_code strm) (strm_tx_half strm).

Definition set_max_offset (x : Z) strm : ngtcp2_strm :=
  mk_strm (strm_stream_id strm) (strm_flags strm) (rx_reorder strm) (rx_cont_offset strm)
    (rx_last_offset strm) x (rx_unsent_max_offset strm) (rx_window strm) (strm_released strm)
    (strm_app_error_code strm) (strm_tx_half strm).
Definition set_window (x : Z) strm : ngtcp2_strm :=
  mk_strm (strm_stream_id strm) (strm_flags strm) (rx_reorder strm) (rx_cont_offset strm)
    (rx_last_offset strm) (rx_max_offset strm) (rx_unsent_max_offset strm) x (strm_released strm)
    (strm_app_error_code strm) (strm_tx_half strm).
Definition set_app_error (x : Z) strm : ngtcp2_strm :=
  mk_strm (strm_stream_id strm) (strm_flags strm) (rx_reorder strm) (rx_cont_offset strm)
    (rx_last_offset strm) (rx_max_offset strm) (rx_unsent_max_offset strm) (rx_window strm) (strm_released strm)
    x (strm_tx_half strm).
Definition set_tx (tx : strm_tx) strm : ngtcp2_strm :=
  mk_strm (strm_stream_id strm) (strm_flags strm) (rx_reorder strm) (rx_cont_offset strm)
    (rx_last_offset strm) (rx_max_offset strm) (rx_unsent_max_offset strm) (rx_window strm) (strm_released strm)
    (strm_app_error_code strm) tx.

Definition set_acked (acked : option ngtcp2_gaptr) (cont : Z) (tx : strm_tx) : strm_tx :=
  mk_tx acked cont (tx_offset tx) (tx_max_offset tx) (tx_last_blocked_offset tx) (tx_last_max_stream_data_ts tx)
    (tx_loss_count tx) (tx_last_lost_pkt_num tx) (tx_stop_sending_app_error_code tx)
    (tx_reset_stream_app_error_code tx) (tx_cycle tx) (tx_streamfrq tx).
Definition set_cycle (cycle : Z) (tx : strm_tx) : strm_tx :=
  mk_tx (tx_acked_offset tx) (tx_cont_acked_offset tx) (tx_offset tx) (tx_max_offset tx) (tx_last_blocked_offset tx)
    (tx_last_max_stream_data_ts tx) (tx_loss_count tx) (tx_last_lost_pkt_num tx) (tx_stop_sending_app_error_code tx)
    (tx_reset_stream_app_error_code tx) cycle (tx_streamfrq tx).
Definition set_stop_sending_code (code : Z) (tx : strm_tx) : strm_tx :=
  mk_tx (tx_acked_offset tx) (tx_cont_acked_offset tx) (tx_offset tx) (tx_max_offset tx) (tx_last_blocked_offset tx)
    (tx_last_max_stream_data_ts tx) (tx_loss_count tx) (tx_last_lost_pkt_num tx) code
    (tx_reset_stream_app_error_code tx) (tx_cycle tx) (tx_streamfrq tx).
Definition set_reset_code (code : Z) (tx : strm_tx) : strm_tx :=
  mk_tx (tx_acked_offset tx) (tx_cont_acked_offset tx) (tx_offset tx) (tx_max_offset tx) (tx_last_blocked_offset tx)
    (tx_last_max_stream_data_ts tx) (tx_loss_count tx) (tx_last_lost_pkt_num tx) (tx_stop_sending_app_error_code tx)
    code (tx_cycle tx) (tx_streamfrq tx).
Definition set_tx_max_offset (x : Z) (tx : strm_tx) : strm_tx :=
  mk_tx (tx_acked_offset tx) (tx_cont_acked_offset tx) (tx_offset tx) x (tx_last_blocked_offset tx)
    (tx_last_max_stream_data_ts tx) (tx_loss_count tx) (tx_last_lost_pkt_num tx) (tx_stop_sending_app_error_code tx)
    (tx_reset_stream_app_error_code tx) (tx_cycle tx) (tx_streamfrq tx).
Definition set_max_stream_data_ts (ts : Z) (tx : strm_tx) : strm_tx :=
  mk_tx (tx_acked_offset tx) (tx_cont_acked_offset tx) (tx_offset tx) (tx_max_offset tx) (tx_last_blocked_offset tx)
    ts (tx_loss_count tx) (tx_last_lost_pkt_num tx) (tx_stop_sending_app_error_code tx)
    (tx_reset_stream_app_error_code tx) (tx_cycle tx) (tx_streamfrq tx).

Definition set_tx_streamfrq (q : option ngtcp2_streamfrq) (tx : strm_tx) : strm_tx :=
  mk_tx (tx_acked_offset tx) (tx_cont_acked_offset tx) (tx_offset tx) (tx_max_offset tx) (tx_last_blocked_offset tx)
    (tx_last_max_stream_data_ts tx) (tx_loss_count tx) (tx_last_lost_pkt_num tx) (tx_stop_sending_app_error_code tx)
    (tx_reset_stream_app_error_code tx) (tx_cycle tx) q.

Definition has_flag strm (f : Z) : bool := negb (Z.land (strm_flags strm) f =? 0).

Definition ngtcp2_strm_init (stream_id flags max_rx_offset max_tx_offset : Z) : ngtcp2_strm :=
  mk_strm stream_id flags None 0 0 max_rx_offset max_rx_offset max_rx_offset [] 0
    (mk_tx None 0 0 max_tx_offset UINT64_MAX UINT64_MAX 0 (-1) 0 0 0 None).

(** The receiving half of [ngtcp2_strm_free]: the releases it makes. *)
Definition ngtcp2_strm_free strm : list (reorder_buf * bool) :=
  match rx_reorder strm with
  | Some r => reorder_released (ngtcp2_reorder_free r) ++ strm_released strm
  | None => strm_released strm
  end.

Definition ngtcp2_strm_rx_offset strm : Z :=
  match rx_reorder strm with
  | Some r => ngtcp2_reorder_first_gap_offset r (rx_cont_offset strm)
  | None => rx_cont_offset strm
  end.

(** [for (ent = reorder->head; ent; ent = ent->next)] *)
Fixpoint count_entries (ents : list ngtcp2_reorder_entry) (n : Z) : bool :=
  match ents with
  | [] => false
  | _ :: ents => if 4000 <=? n + 1 then true else count_entries ents (n + 1)
  end.

Definition strm_reorder_heavily_fragmented r : bool := count_entries (reorder_head r) 0.

(** [None] is a failed allocation. *)
Definition strm_reorder_init (mem_ok : bool) strm : option ngtcp2_strm :=
  if mem_ok then Some (set_reorder (Some ngtcp2_reorder_init) strm) else None.

(** The return value, the stream and [*pnwrite]; the outcomes of the two
    allocations are arguments. *)
Definition ngtcp2_strm_recv_reordering_buf (mem_init mem_push : bool) strm (buf : reorder_buf) (offset : Z)
    (allocator_owned : bool) : Z * ngtcp2_strm * Z :=
  match (match rx_reorder strm with None => strm_reorder_init mem_init strm | Some _ => Some strm end) with
  | None => (NGTCP2_ERR_NOMEM, strm, 0)
  | Some strm =>
      let r := match rx_reorder strm with Some r => r | None => ngtcp2_reorder_init end in
      let '(rv, r, nwrite) :=
        ngtcp2_reorder_push mem_push r buf offset (rx_cont_offset strm) allocator_owned in
      let strm := set_reorder (Some r) strm in
      if negb (rv =? 0) then (rv, strm, nwrite) else
      if strm_reorder_heavily_fragmented r then (NGTCP2_ERR_INTERNAL, strm, nwrite)
      else (0, strm, nwrite)
  end.

Definition ngtcp2_strm_update_rx_offset strm (offset : Z) : ngtcp2_strm :=
  match rx_reorder strm with
  | Some r => set_reorder (Some (ngtcp2_reorder_remove_prefix r offset)) (set_cont_offset offset strm)
  | None => set_cont_offset offset strm
  end.

Definition ngtcp2_strm_discard_reordered_data strm : ngtcp2_strm :=
  match rx_reorder strm with
  | Some r =>
      let strm := set_cont_offset (ngtcp2_strm_rx_offset strm) strm in
      mk_strm (strm_stream_id strm) (strm_flags strm) None (rx_cont_offset strm) (rx_last_offset strm)
        (rx_max_offset strm) (rx_unsent_max_offset strm) (rx_window strm)
        (reorder_released (ngtcp2_reorder_free r) ++ strm_released strm)
        (strm_app_error_code strm) (strm_tx_half strm)
  | None => strm
  end.

Definition ngtcp2_strm_shutdown strm (flags : Z) : ngtcp2_strm :=
  set_flags (Z.lor (strm_flags strm) (Z.land flags NGTCP2_STRM_FLAG_SHUT_RDWR)) strm.

(** *** The sending half *)
Definition ngtcp2_strm_get_acked_offset strm : res Z :=
  let tx := strm_tx_half strm in
  match tx_acked_offset tx with
  | None => Ok (tx_cont_acked_offset tx)
  | Some gaptr => ngtcp2_gaptr_first_gap_offset gaptr
  end.

Definition ngtcp2_strm_is_all_tx_data_acked strm : res bool :=
  let tx := strm_tx_half strm in
  match tx_acked_offset tx with
  | None => Ok (tx_cont_acked_offset tx =? tx_offset tx)
  | Some gaptr => let* offset := ngtcp2_gaptr_first_gap_offset gaptr in Ok (offset =? tx_offset tx)
  end.

Definition ngtcp2_strm_is_all_tx_data_fin_acked strm : res bool :=
  if has_flag strm NGTCP2_STRM_FLAG_FIN_ACKED then ngtcp2_strm_is_all_tx_data_acked strm else Ok false.

Definition ngtcp2_strm_get_unacked_range_after strm (offset : Z) : res ngtcp2_range :=
  let tx := strm_tx_half strm in
  match tx_acked_offset tx with
  | None => Ok (mk_range (tx_cont_acked_offset tx) UINT64_MAX)
  | Some gaptr => ngtcp2_gaptr_get_first_gap_after gaptr offset
  end.

(** [avail]: the memory for a new tracker; [None] when it cannot be
    allocated. *)
Definition strm_acked_offset_init (avail : option nat) strm : Z * ngtcp2_strm :=
  match avail with
  | None => (NGTCP2_ERR_NOMEM, strm)
  | Some avail =>
      let tx := strm_tx_half strm in
      (0, set_tx (set_acked (Some (ngtcp2_gaptr_init avail)) (tx_cont_acked_offset tx) tx) strm)
  end.

(** [ngtcp2_gaptr_push] to [acked_offset]. *)
Definition strm_acked_push strm (offset len : Z) : res (Z * ngtcp2_strm) :=
  let tx := strm_tx_half strm in
  match tx_acked_offset tx with
  | None => Fault
  | Some gaptr =>
      let* (rv, gaptr) := ngtcp2_gaptr_push gaptr offset len in
      Ok (rv, set_tx (set_acked (Some gaptr) (tx_cont_acked_offset tx) tx) strm)
  end.

Definition ngtcp2_strm_ack_data (avail : option nat) strm (offset len : Z) : res (Z * ngtcp2_strm) :=
  let tx := strm_tx_half strm in
  let finish strm :=
    let* (rv, strm) := strm_acked_push strm offset len in
    if negb (rv =? 0) then Ok (rv, strm) else
    match tx_acked_offset (strm_tx_half strm) with
    | None => Fault
    | Some gaptr => if 4000 <=? Z.of_nat (ngtcp2_ksl_len gaptr) then Ok (NGTCP2_ERR_INTERNAL, strm) else Ok (0, strm)
    end in
  match tx_acked_offset tx with
  | Some _ => finish strm
  | None =>
      if tx_cont_acked_offset tx =? offset then
        Ok (0, set_tx (set_acked None (u64 (tx_cont_acked_offset tx + len)) tx) strm)
      else
        let (rv, strm) := strm_acked_offset_init avail strm in
        if negb (rv =? 0) then Ok (rv, strm) else
        let* (rv, strm) := strm_acked_push strm 0 (tx_cont_acked_offset tx) in
        if negb (rv =? 0) then Ok (rv, strm) else finish strm
  end.

Definition ngtcp2_strm_set_app_error_code strm (app_error_code : Z) : res ngtcp2_strm :=
  if has_flag strm NGTCP2_STRM_FLAG_APP_ERROR_CODE_SET then Ok strm else
  assert! 0 =? strm_app_error_code strm;
  Ok (set_app_error app_error_code
        (set_flags (Z.lor (strm_flags strm) NGTCP2_STRM_FLAG_APP_ERROR_CODE_SET) strm)).

Definition ngtcp2_strm_require_retransmit_reset_stream strm : res bool :=
  let* acked := ngtcp2_strm_is_all_tx_data_fin_acked strm in Ok (negb acked).

Definition ngtcp2_strm_require_retransmit_stop_sending strm : bool :=
  negb (has_flag strm NGTCP2_STRM_FLAG_SHUT_RD) || negb (ngtcp2_strm_rx_offset strm =? rx_last_offset strm).

Definition ngtcp2_strm_require_retransmit_max_stream_data strm (max_stream_data : Z) : bool :=
  (max_stream_data =? rx_max_offset strm) &&
  negb (has_flag strm (Z.lor NGTCP2_STRM_FLAG_SHUT_RD NGTCP2_STRM_FLAG_STOP_SENDING)).

Definition ngtcp2_strm_require_retransmit_stream_data_blocked strm (offset : Z) : bool :=
  (offset =? tx_max_offset (strm_tx_half strm)) && negb (has_flag strm NGTCP2_STRM_FLAG_SHUT_WR).

(** ** Invariant *)

(** The entries of the reorder buffer. *)
Definition rx_entries strm : list ngtcp2_reorder_entry :=
  match rx_reorder strm with Some r => reorder_head r | None => [] end.

(** The owners the stream is responsible for: stored or released by it. *)
Definition rx_owners strm : list Z := owners (rx_entries strm).
Definition rx_released_owners strm : list Z :=
  match rx_reorder strm with Some r => released_owners r | None => [] end ++
  map (fun p => rb_id p.1) (strm_released strm).

(** The stored data are bytes of [stream], sorted and disjoint, in front of
    [limit]. *)
Record rx_ok (stream : Z -> Z) (limit : Z) strm : Prop := {
  ro_sorted : sorted_from (rx_cont_offset strm) (rx_entries strm);
  ro_carries : Forall (entry_carries stream) (rx_entries strm);
  ro_cont : 0 <= rx_cont_offset strm <= limit;
  ro_limit : forall x, covered (rx_entries strm) x -> x < limit;
}.

(** Everything that can be handed over was handed over. *)
Definition rx_drained strm : Prop := ~ covered (rx_entries strm) (rx_cont_offset strm).

(** What no operation on the data changes. *)
Definition same_stream strm strm' : Prop :=
  strm_stream_id strm' = strm_stream_id strm /\ strm_flags strm' = strm_flags strm /\
  rx_last_offset strm' = rx_last_offset strm /\ rx_max_offset strm' = rx_max_offset strm /\
  rx_unsent_max_offset strm' = rx_unsent_max_offset strm /\ rx_window strm' = rx_window strm /\
  strm_app_error_code strm' = strm_app_error_code strm /\ strm_tx_half strm' = strm_tx_half strm.

#[export] Instance same_stream_pre : PreOrder same_stream.
Proof.
  split; [done|]. intros s1 s2 s3 (? & ? & ? & ? & ? & ? & ? & ?) (? & ? & ? & ? & ? & ? & ? & ?). split_and!; congruence.
Qed.

Section Stream.
Context (stream : Z -> Z).

Lemma rx_ok_le limit limit' strm : limit <= limit' -> rx_ok stream limit strm -> rx_ok stream limit' strm.
Proof. intros Hle [Hs Hf Hc Hl]. split; [done|done|lia|]. intros x Hx%Hl. lia. Qed.

Lemma rx_offset_entries strm : ngtcp2_strm_rx_offset strm = first_gap (rx_entries strm) (rx_cont_offset strm).
Proof. unfold ngtcp2_strm_rx_offset, rx_entries. by destruct (rx_reorder strm). Qed.

Lemma first_gap_unique lo ents offset x :
  sorted_from lo ents -> offset <= x -> (forall y, offset <= y < x -> covered ents y) -> ~ covered ents x ->
  first_gap ents offset = x.
Proof.
  intros Hs Hle Hc Hn. destruct (first_gap_spec _ _ offset Hs) as (Hle' & Hc' & Hn').
  destruct (Z.lt_trichotomy (first_gap ents offset) x) as [Hlt|[?|Hlt]]; [|done|].
  - destruct Hn'. apply Hc. lia.
  - destruct Hn. apply Hc'. lia.
Qed.

Lemma rx_offset_drained limit strm :
  rx_ok stream limit strm -> rx_drained strm -> ngtcp2_strm_rx_offset strm = rx_cont_offset strm.
Proof. intros [Hs _ _ _] Hd. rewrite rx_offset_entries. eapply first_gap_unique; [done|lia|lia|done]. Qed.

Lemma rx_offset_bounds limit strm :
  rx_ok stream limit strm -> rx_cont_offset strm <= ngtcp2_strm_rx_offset strm <= limit.
Proof.
  intros [Hs _ Hc Hl]. rewrite rx_offset_entries.
  destruct (first_gap_spec _ _ (rx_cont_offset strm) Hs) as (Hle & Hcov & _). split; [done|].
  destruct (Z.le_gt_cases (first_gap (rx_entries strm) (rx_cont_offset strm)) limit); [done|].
  specialize (Hl limit (Hcov limit ltac:(lia))). lia.
Qed.

(** ** Storing out-of-order data *)
Lemma count_entries_spec ents n : n < 4000 -> count_entries ents n = (4000 <=? n + zlen ents).
Proof.
  revert n. induction ents as [|ent ents IH]; intros n Hn; cbn [count_entries]; zl.
  - symmetry. apply Z.leb_gt. lia.
  - destruct (Z.leb_spec 4000 (n + 1)) as [H|H].
    + symmetry. apply Z.leb_le. zlia.
    + rewrite IH by done. f_equal. lia.
Qed.

Lemma heavily_fragmented_spec r : strm_reorder_heavily_fragmented r = (4000 <=? zlen (reorder_head r)).
Proof. unfold strm_reorder_heavily_fragmented. by rewrite count_entries_spec. Qed.

Lemma strm_store mem_init mem_push limit strm buf offset own :
  rx_ok stream limit strm -> 0 <= offset -> carries stream offset (rb_data buf) ->
  offset + zlen (rb_data buf) <= limit -> limit < 2 ^ 64 ->
  exists rv strm' nwrite,
    ngtcp2_strm_recv_reordering_buf mem_init mem_push strm buf offset own = (rv, strm', nwrite) /\
    rx_ok stream limit strm' /\ same_stream strm strm' /\ rx_cont_offset strm' = rx_cont_offset strm /\
    0 <= nwrite /\
    (rv = NGTCP2_ERR_NOMEM /\ rx_entries strm' = rx_entries strm /\
    rx_released_owners strm' = rx_released_owners strm \/
     rv = (if 4000 <=? zlen (rx_entries strm') then NGTCP2_ERR_INTERNAL else 0) /\
    (exists stop, stop <= offset + zlen (rb_data buf) /\
    forall x, covered (rx_entries strm') x <->
          covered (rx_entries strm) x \/ Z.max offset (rx_cont_offset strm) <= x < stop) /\
    Permutation (rb_id buf :: rx_owners strm ++ rx_released_owners strm)
       (rx_owners strm' ++ rx_released_owners strm')).
Proof.
  intros Hok Hoff Hc Hend H64. pose proof (zlen_nonneg (rb_data buf)).
  unfold ngtcp2_strm_recv_reordering_buf.
  set (o := match rx_reorder strm with None => strm_reorder_init mem_init strm | Some _ => Some strm end).
  assert (Ho : o = None \/ exists r, o = Some (set_reorder (Some r) strm) /\ reorder_head r = rx_entries strm /\
    rx_released_owners (set_reorder (Some r) strm) = rx_released_owners strm).
  { subst o. unfold strm_reorder_init, rx_entries, rx_released_owners. destruct (rx_reorder strm) as [r|] eqn:E.
    - right. exists r. split_and!; [|done|by cbn]. f_equal. destruct strm. cbn in *. by subst.
    - destruct mem_init; [right|by left]. by exists ngtcp2_reorder_init. }
  destruct Ho as [->|(r & -> & Hr & Hrel)].
  { do 3 eexists. split; [reflexivity|]. split_and!; [done|done|done|lia|]. by left. }
  cbn [rx_reorder set_reorder rx_cont_offset]. destruct Hok as [Hs Hf Hct Hl]. rewrite <- Hr in *.
  destruct (reorder_push_run mem_push r buf offset (rx_cont_offset strm) own)
    as [[-> ->]|(r' & nwrite & stop & -> & Hp)]; [done|lia|lia|lia| |].
  { cbn [negb Z.eqb NGTCP2_ERR_NOMEM]. do 3 eexists. split; [reflexivity|].
    split_and!; [by split|done|done|lia|left]. by rewrite Hr. }
  cbn [negb Z.eqb]. destruct Hp as [Hs' Hst Hcov (b & Hb & Hnw & Hb1 & Hb2) _ Hown Hf'].
  set (strm' := set_reorder (Some r') (set_reorder (Some r) strm)).
  assert (Hok' : rx_ok stream limit strm').
  { split; cbn; [done|by apply Hf'|done|]. intros x [Hx|Hx]%Hcov; [by apply Hl|lia]. }
  exists (if strm_reorder_heavily_fragmented r' then NGTCP2_ERR_INTERNAL else 0), strm', nwrite.
  split; [by destruct (strm_reorder_heavily_fragmented r')|].
  split_and!; [done|done|done|lia|right]. rewrite heavily_fragmented_spec. split_and!.
  - done.
  - exists stop. split; [done|]. intros x. cbn. by rewrite Hcov.
  - unfold rx_owners. rewrite <- Hrel, <- Hr. unfold rx_released_owners. cbn. rewrite !app_assoc.
    apply Permutation_app_tail with (tl := map (fun p => rb_id p.1) (strm_released strm)) in Hown.
    rewrite <- !app_assoc in *. cbn in *. by rewrite <- !app_assoc in *.
Qed.

Lemma strm_update limit strm offset :
  rx_ok stream limit strm -> 0 <= offset <= limit ->
  let strm' := ngtcp2_strm_update_rx_offset strm offset in
  rx_ok stream limit strm' /\ same_stream strm strm' /\ rx_cont_offset strm' = offset /\
  (forall x, covered (rx_entries strm') x <-> covered (rx_entries strm) x /\ offset <= x) /\
  Permutation (rx_owners strm ++ rx_released_owners strm) (rx_owners strm' ++ rx_released_owners strm').
Proof.
  intros [Hs Hf Hc Hl] Ho.
  unfold ngtcp2_strm_update_rx_offset, rx_owners, rx_released_owners. cbv zeta.
  destruct (rx_reorder strm) as [r|] eqn:E; unfold rx_entries in *; rewrite E in *; cbn [rx_reorder set_reorder set_cont_offset].
  - destruct (remove_prefix_spec _ _ (reorder_released r) offset Hs) as [Hs' Hc' Ho' Hf'].
    fold (ngtcp2_reorder_remove_prefix r offset) in *.
    split_and!; [|done|done|done|].
    + split; cbn; [done|by apply Hf'|done|]. intros x [Hx _]%Hc'. by apply Hl.
    + rewrite !app_assoc. apply Permutation_app_tail. exact Ho'.
  - split_and!; [|done|done| |by rewrite E].
    + split; unfold rx_entries; cbn; rewrite ?E; done.
    + intros x. rewrite E, covered_nil. tauto.
Qed.

(** ** Handing data over

    One round of the loops of [conn_emit_pending_crypto_data] and
    [conn_emit_pending_stream_data]. *)
Lemma strm_data_at limit strm r :
  rx_reorder strm = Some r -> rx_ok stream limit strm ->
  ngtcp2_reorder_data_at r (rx_cont_offset strm) = Ok (0, None) /\ rx_drained strm \/
  exists n buf r',
    ngtcp2_reorder_data_at r (rx_cont_offset strm) = Ok (n, Some buf) /\
    0 < n /\ n = zlen (rb_data buf) /\ carries stream (rx_cont_offset strm) (rb_data buf) /\
    (forall x, rx_cont_offset strm <= x < rx_cont_offset strm + n -> covered (rx_entries strm) x) /\
    rx_cont_offset strm + n <= limit /\
    ngtcp2_reorder_pop r (rx_cont_offset strm) n = Ok r' /\
    let strm' := set_cont_offset (rx_cont_offset strm + n) (set_reorder (Some r') strm) in
    rx_ok stream limit strm' /\ (length (rx_entries strm') < length (rx_entries strm))%nat /\
    (forall x, covered (rx_entries strm') x <-> covered (rx_entries strm) x /\ rx_cont_offset strm + n <= x) /\
    Permutation (rx_owners strm ++ rx_released_owners strm) (rx_owners strm' ++ rx_released_owners strm').
Proof.
  intros E [Hs Hf Hc Hl]. unfold rx_drained, rx_owners, rx_released_owners, rx_entries in *. rewrite E in *.
  unfold ngtcp2_reorder_data_at. pose proof (data_at_spec _ _ Hs) as Hd.
  destruct r as [[|ent ents] rel]; cbn [reorder_head] in *.
  { left. split; [done|]. rewrite covered_nil; tauto. }
  rewrite Hd. pose proof Hs as (Hlo & Hok & Hs'). pose proof Hok as [Hr H64 Hlen].
  destruct (Z.eqb_spec (re_begin ent) (rx_cont_offset strm)) as [Hb|Hb].
  2:{ left. split; [done|]. rewrite covered_cons. intros [?|Hx]; [lia|].
      pose proof (sorted_covered _ _ _ Hs' Hx). lia. }
  right. rewrite <- Hb in *. apply Forall_cons_iff in Hf as [Hce Hf].
  do 3 eexists. split; [reflexivity|]. rewrite pop_head by done.
  split_and!; try reflexivity; try done; try lia.
  - intros x Hx. apply covered_cons. left. lia.
  - assert (Hx : covered (ent :: ents) (re_end ent - 1)) by (apply covered_cons; left; lia).
    apply Hl in Hx. lia.
  - split; cbn; [eapply sorted_from_le; [|done]; lia|done| |].
    + assert (Hx : covered (ent :: ents) (re_end ent - 1)) by (apply covered_cons; left; lia).
      apply Hl in Hx. lia.
    + intros x Hx. apply Hl, covered_cons. by right.
  - cbn. lia.
  - intros x. cbn. rewrite covered_cons. split.
    + intros Hx. pose proof (sorted_covered _ _ _ Hs' Hx). split; [auto|lia].
    + intros [[?|?] ?]; [lia|done].
  - cbn. apply Permutation_middle.
Qed.
End Stream.

(** ** Data handed over in order

    Chunks of [stream] that follow each other from offset [lo] to [hi]. *)
Fixpoint chunks (stream : Z -> Z) (lo : Z) (ds : list (Z * list Z)) (hi : Z) : Prop :=
  match ds with
  | [] => lo = hi
  | (offset, data) :: ds => offset = lo /\ carries stream offset data /\ chunks stream (lo + zlen data) ds hi
  end.

Lemma chunks_snoc stream lo ds hi data :
  chunks stream lo ds hi -> carries stream hi data -> chunks stream lo (ds ++ [(hi, data)]) (hi + zlen data).
Proof.
  revert lo. induction ds as [|[o d] ds IH]; intros lo; cbn.
  - intros -> Hc. by split_and!.
  - intros (-> & Hd & H) Hc. split_and!; [done|done|]. by apply IH.
Qed.

Lemma chunks_le stream lo ds hi : chunks stream lo ds hi -> lo <= hi.
Proof.
  revert lo. induction ds as [|[o d] ds IH]; intros lo; cbn; [lia|].
  intros (_ & _ & H%IH). pose proof (zlen_nonneg d). lia.
Qed.

(** The bytes handed over are the first [hi] bytes of the stream. *)
Lemma chunks_bytes stream lo ds hi :
  chunks stream lo ds hi -> carries stream lo (concat (map snd ds)) /\ lo + zlen (concat (map snd ds)) = hi.
Proof.
  revert lo. induction ds as [|[o d] ds IH]; intros lo; cbn.
  - intros ->. split; [done|]. by rewrite zlen_nil, Z.add_0_r.
  - intros (-> & Hd & H). destruct (IH _ H) as [Hc <-]. split; [|zlia].
    intros i b Hb. apply lookup_app_Some in Hb as [Hb|[Hi Hb]]; [by apply Hd|].
    apply Hc in Hb. rewrite Hb. f_equal. unfold zlen. lia.
Qed.
