(* ===== verification/StrmTx.v ===== *)
(** * Data to be sent again: [streamfrq] of [lib/ngtcp2_strm.c]

    The queue of STREAM (or CRYPTO) frames of a stream that are to be sent,
    ordered by their offset.  Data that were acknowledged meanwhile are
    skipped, and adjacent frames are merged, when a frame is taken out.
    [outs] are the outcomes of the allocations of frames and of retaining
    buffers. *)

From S2P Require Import Prelude Const Ksl Gaptr Vec FrameChain Reorder Strm.
From stdpp Require Import list.
#[local] Open Scope Z_scope.

Implicit Types (strm : ngtcp2_strm) (fr nfr : tx_frame) (outs : list Z) (it : ngtcp2_ksl_it).

Definition NGTCP2_MIN_STREAM_DATALEN : Z := 256.

Definition ngtcp2_ksl_uint64_less (lhs rhs : Z) : bool := lhs <? rhs.

Definition streamfrq strm : res ngtcp2_streamfrq :=
  match tx_streamfrq (strm_tx_half strm) with Some q => Ok q | None => Fault end.

Definition set_streamfrq (q : ngtcp2_streamfrq) strm : ngtcp2_strm :=
  set_tx (set_tx_streamfrq (Some q) (strm_tx_half strm)) strm.

(** [avail]: the memory for the list; [None] when the object cannot be
    allocated. *)
Definition strm_streamfrq_init (avail : option nat) strm : Z * ngtcp2_strm :=
  match avail with
  | None => (NGTCP2_ERR_NOMEM, strm)
  | Some avail => (0, set_streamfrq (ngtcp2_ksl_init avail) strm)
  end.

(** [ngtcp2_ksl_insert(strm->tx.streamfrq, NULL, &fr->offset, frc)] *)
Definition streamfrq_insert strm fr : res (Z * ngtcp2_strm) :=
  let* q := streamfrq strm in
  let* (rv, q, _) := ngtcp2_ksl_insert ngtcp2_ksl_uint64_less q (tf_offset fr) fr in
  Ok (rv, set_streamfrq q strm).

Definition ngtcp2_strm_streamfrq_push (avail : option nat) strm fr : res (Z * ngtcp2_strm) :=
  assert! (tf_type fr =? NGTCP2_FRAME_STREAM) || (tf_type fr =? NGTCP2_FRAME_CRYPTO);
  match tx_streamfrq (strm_tx_half strm) with
  | None =>
      let (rv, strm) := strm_streamfrq_init avail strm in
      if negb (rv =? 0) then Ok (rv, strm) else streamfrq_insert strm fr
  | Some q =>
      if 8000 <=? Z.of_nat (ngtcp2_ksl_len q) then Ok (NGTCP2_ERR_INTERNAL, strm) else streamfrq_insert strm fr
  end.

(** A return code, a frame, the stream, and the outcomes that are left. *)
Definition pop_result : Type := Z * option tx_frame * ngtcp2_strm * list Z.

(** [assert(ngtcp2_ksl_len(strm->tx.streamfrq) == 0)] *)
Definition streamfrq_none_left strm : res bool :=
  let* q := streamfrq strm in Ok (ngtcp2_ksl_len q =? 0)%nat.

(** A frame whose data are in a retained buffer. *)
Definition strm_streamfrq_unacked_pop_txbuf outs strm fr : res pop_result :=
  match tf_txbuf fr with
  | None => Fault
  | Some buf =>
      let datalen := txbuf_len buf in
      let end_offset := u64 (tf_offset fr + datalen) in
      let* gap := ngtcp2_strm_get_unacked_range_after strm (tf_offset fr) in
      let range_begin := Z.max (r_begin gap) (tf_offset fr) in
      if end_offset <=? range_begin then
        if tf_fin fr then
          if has_flag strm NGTCP2_STRM_FLAG_FIN_ACKED then
            let* none := streamfrq_none_left strm in
            assert! none;
            Ok (0, None, strm, outs)
          else Ok (0, Some (ngtcp2_stream_release_txbuf (set_tf_offset end_offset fr)), strm, outs)
        else Ok (0, None, strm, outs)
      else
        let range_end := Z.min (r_end gap) end_offset in
        if (range_begin =? tf_offset fr) && (range_end =? end_offset) then Ok (0, Some fr, strm, outs) else
        let off := range_begin - tf_offset fr in
        let len := range_end - range_begin in
        let cut fr :=
          set_tf_offset range_begin (set_tf_txbuf (Some (mk_txbuf (tb_pos buf + off) (tb_pos buf + off + len))) fr) in
        if range_end <? end_offset then
          let (nfr, outs) := ngtcp2_frame_chain_stream_datacnt_objalloc_new outs
            (mk_txfr (tf_type fr) 0 (tf_fin fr) (tf_stream_id fr) range_end [] None) in
          match nfr with
          | None => Ok (NGTCP2_ERR_NOMEM, None, strm, outs)
          | Some nfr =>
              let (rv, outs) := next_outcome outs in
              let* (rv, nfr) := ngtcp2_stream_copy_txbuf rv nfr fr in
              if negb (rv =? 0) then Ok (rv, None, strm, outs) else
              let nfr := set_tf_txbuf (Some (mk_txbuf (tb_pos buf + (range_end - tf_offset fr)) (tb_last buf))) nfr in
              let* (rv, strm) := streamfrq_insert strm nfr in
              if negb (rv =? 0) then assert! ngtcp2_err_is_fatal rv; Ok (rv, None, strm, outs) else
              Ok (0, Some (cut (set_tf_fin false fr)), strm, outs)
          end
        else Ok (0, Some (cut fr), strm, outs)
  end.

(** The first loop of [strm_streamfrq_unacked_pop]: the index of the first
    vector with data that are not acknowledged, its offset, and how much of
    it is acknowledged. *)
Fixpoint skip_acked (data : list ngtcp2_vec) (idx : nat) (offset gap_begin : Z) : nat * Z * Z :=
  match data with
  | [] => (idx, offset, 0)
  | v :: data =>
      if offset <? gap_begin then
        if gap_begin <? u64 (offset + v_len v) then (idx, offset, u64 (gap_begin - offset))
        else skip_acked data (S idx) (u64 (offset + v_len v)) gap_begin
      else (idx, offset, 0)
  end.

(** The second loop: the same for the end of the gap. *)
Fixpoint find_end (data : list ngtcp2_vec) (idx : nat) (offset gap_end : Z) : nat * Z * Z :=
  match data with
  | [] => (idx, offset, 0)
  | v :: data =>
      if gap_end <? u64 (offset + v_len v) then (idx, offset, u64 (gap_end - offset))
      else find_end data (S idx) (u64 (offset + v_len v)) gap_end
  end.

(** [ngtcp2_vec_drop(&data[0], n)] *)
Definition drop_first (data : list ngtcp2_vec) (n : Z) : res (list ngtcp2_vec) :=
  match data with
  | [] => Fault
  | v :: data => assert! n <? v_len v; Ok (ngtcp2_vec_drop v n :: data)
  end.

(** [data[datacnt - 1].len = n] *)
Definition cut_last_vec (data : list ngtcp2_vec) (n : Z) : res (list ngtcp2_vec) :=
  match last data with
  | None => Fault
  | Some v => assert! n <? v_len v; Ok (take (length data - 1) data ++ [mk_vec (v_base v) n])
  end.

(** The rest of the frame, from the end of the gap on, stays in the queue. *)
Definition keep_tail outs strm fr (idx end_idx : nat) (offset base_offset end_offset end_base_offset : Z) : res pop_result :=
  let* ndata := drop_first (drop end_idx (tf_data fr)) end_base_offset in
  let (nfr, outs) := ngtcp2_frame_chain_stream_datacnt_objalloc_new outs
    (mk_txfr (tf_type fr) 0 (tf_fin fr) (tf_stream_id fr) (u64 (end_offset + end_base_offset)) ndata None) in
  match nfr with
  | None => Ok (NGTCP2_ERR_NOMEM, None, strm, outs)
  | Some nfr =>
      let (rv, outs) := next_outcome outs in
      let* (rv, nfr) := ngtcp2_stream_copy_txbuf rv nfr fr in
      if negb (rv =? 0) then Ok (rv, None, strm, outs) else
      let fr := ngtcp2_stream_sync_txbuf fr in
      let nfr := ngtcp2_stream_sync_txbuf nfr in
      let* (rv, strm) := streamfrq_insert strm nfr in
      if negb (rv =? 0) then assert! ngtcp2_err_is_fatal rv; Ok (rv, None, strm, outs) else
      let end_idx := if end_base_offset =? 0 then end_idx else S end_idx in
      let data := drop idx (take end_idx (tf_data fr)) in
      assert! match data with v :: _ => base_offset <? v_len v | [] => false end;
      let* data := if end_base_offset =? 0 then Ok data else cut_last_vec data end_base_offset in
      match data with
      | [] => Fault
      | v :: data =>
          let fr := set_tf_data (ngtcp2_vec_drop v base_offset :: data)
                      (set_tf_offset (u64 (offset + base_offset)) (set_tf_fin false fr)) in
          Ok (0, Some (ngtcp2_stream_sync_txbuf fr), strm, outs)
      end
  end.

(** A frame whose data are vectors.  [None]: on to the next frame. *)
Definition unacked_pop_data outs strm fr : res (option pop_result) :=
  let ret o strm outs := Ok (Some (0, o, strm, outs)) in
  let datacnt := length (tf_data fr) in
  let* gap := ngtcp2_strm_get_unacked_range_after strm (tf_offset fr) in
  let gap_begin := Z.max (r_begin gap) (tf_offset fr) in
  let '(idx, offset, base_offset) := skip_acked (tf_data fr) 0 (tf_offset fr) gap_begin in
  if (idx =? datacnt)%nat then
    if tf_fin fr then
      if has_flag strm NGTCP2_STRM_FLAG_FIN_ACKED then
        let* none := streamfrq_none_left strm in
        assert! none;
        ret None strm outs
      else
        ret (Some (ngtcp2_stream_release_txbuf
          (set_tf_data [] (set_tf_offset (u64 (tf_offset fr + ngtcp2_vec_len (tf_data fr))) fr)))) strm outs
    else if (tf_offset fr =? 0) && (datacnt =? 0)%nat && (tx_offset (strm_tx_half strm) =? 0) &&
            negb (has_flag strm NGTCP2_STRM_FLAG_ANY_ACKED)
    then ret (Some fr) strm outs
    else Ok None
  else
    assert! gap_begin =? u64 (offset + base_offset);
    let '(end_idx, end_offset, end_base_offset) := find_end (drop idx (tf_data fr)) idx offset (r_end gap) in
    if (tf_offset fr =? offset) && (base_offset =? 0) && (datacnt =? end_idx)%nat then ret (Some fr) strm outs
    else if (datacnt =? end_idx)%nat then
      let* data := drop_first (drop idx (tf_data fr)) base_offset in
      ret (Some (ngtcp2_stream_sync_txbuf (set_tf_data data (set_tf_offset (u64 (offset + base_offset)) fr)))) strm outs
    else
      let* r := keep_tail outs strm fr idx end_idx offset base_offset end_offset end_base_offset in
      Ok (Some r).

(** The loop of [strm_streamfrq_unacked_pop]. *)
Fixpoint unacked_pop_loop (fuel : nat) outs strm it : res pop_result :=
  match fuel with
  | O => Fault
  | S fuel =>
      let* q := streamfrq strm in
      if ngtcp2_ksl_it_end q it then Ok (0, None, strm, outs) else
      let* fr := ngtcp2_ksl_it_get q it in
      let* (_, q, it) := ngtcp2_ksl_remove_hint ngtcp2_ksl_uint64_less q it (tf_offset fr) in
      let strm := set_streamfrq q strm in
      match tf_txbuf fr with
      | Some _ =>
          let* (rv, pfr, strm, outs) := strm_streamfrq_unacked_pop_txbuf outs strm fr in
          match pfr with
          | None => if negb (rv =? 0) then Ok (rv, None, strm, outs) else unacked_pop_loop fuel outs strm it
          | Some _ => Ok (rv, pfr, strm, outs)
          end
      | None =>
          let* r := unacked_pop_data outs strm fr in
          match r with
          | Some r => Ok r
          | None => unacked_pop_loop fuel outs strm it
          end
      end
  end.

Definition strm_streamfrq_unacked_pop outs strm : res pop_result :=
  let* q := streamfrq strm in
  assert! negb (ngtcp2_ksl_len q =? 0)%nat;
  unacked_pop_loop (S (ngtcp2_ksl_len q)) outs strm (ngtcp2_ksl_begin q).

(** The loop of [ngtcp2_strm_streamfrq_unacked_offset]. *)
Fixpoint unacked_offset_loop (fuel : nat) strm (q : ngtcp2_streamfrq) it : res Z :=
  match fuel with
  | O => Fault
  | S fuel =>
      if ngtcp2_ksl_it_end q it then Ok UINT64_MAX else
      let* fr := ngtcp2_ksl_it_get q it in
      let* gap := ngtcp2_strm_get_unacked_range_after strm (tf_offset fr) in
      let datalen := strm_frame_datalen fr in
      if r_begin gap <=? tf_offset fr then Ok (tf_offset fr)
      else if r_begin gap <? u64 (tf_offset fr + datalen) then Ok (r_begin gap)
      else if (u64 (tf_offset fr + datalen) =? r_begin gap) && tf_fin fr &&
              negb (has_flag strm NGTCP2_STRM_FLAG_FIN_ACKED)
      then Ok (u64 (tf_offset fr + datalen))
      else unacked_offset_loop fuel strm q (ngtcp2_ksl_it_next q it)
  end.

Definition ngtcp2_strm_streamfrq_unacked_offset strm : res Z :=
  let* q := streamfrq strm in
  assert! negb (ngtcp2_ksl_len q =? 0)%nat;
  unacked_offset_loop (S (ngtcp2_ksl_len q)) strm q (ngtcp2_ksl_begin q).

(** A frame goes back into the queue. *)
Definition put_back outs strm fr : res (Z * ngtcp2_strm) :=
  let* (rv, strm) := streamfrq_insert strm fr in
  if negb (rv =? 0) then assert! ngtcp2_err_is_fatal rv; Ok (rv, strm) else Ok (0, strm).

(** The frame is too long: what is behind [left] bytes goes back. *)
Definition pop_split outs strm fr (left : Z) : res pop_result :=
  let make ndata := ngtcp2_frame_chain_stream_datacnt_objalloc_new outs
    (mk_txfr (tf_type fr) 0 (tf_fin fr) (tf_stream_id fr) (u64 (tf_offset fr + left)) ndata None) in
  match tf_txbuf fr with
  | Some buf =>
      let (nfr, outs) := make [] in
      match nfr with
      | None => Ok (NGTCP2_ERR_NOMEM, None, strm, outs)
      | Some nfr =>
          let (rv, outs) := next_outcome outs in
          let* (rv, nfr) := ngtcp2_stream_copy_txbuf rv nfr fr in
          if negb (rv =? 0) then Ok (rv, None, strm, outs) else
          let nfr := set_tf_txbuf (Some (mk_txbuf (tb_pos buf + left) (tb_last buf))) nfr in
          let fr := set_tf_txbuf (Some (mk_txbuf (tb_pos buf) (tb_pos buf + left))) fr in
          let* (rv, strm) := put_back outs strm nfr in
          if negb (rv =? 0) then Ok (rv, None, strm, outs) else Ok (0, Some (set_tf_fin false fr), strm, outs)
      end
  | None =>
      let* (_, data, fdata) := ngtcp2_vec_split [] (tf_data fr) left NGTCP2_MAX_STREAM_DATACNT in
      assert! match fdata with [] => false | _ => true end;
      assert! match data with [] => false | _ => true end;
      let fr := set_tf_data fdata fr in
      let (nfr, outs) := make data in
      match nfr with
      | None => Ok (NGTCP2_ERR_NOMEM, None, strm, outs)
      | Some nfr =>
          let (rv, outs) := next_outcome outs in
          let* (rv, nfr) := ngtcp2_stream_copy_txbuf rv nfr fr in
          if negb (rv =? 0) then Ok (rv, None, strm, outs) else
          let fr := ngtcp2_stream_sync_txbuf fr in
          let nfr := ngtcp2_stream_sync_txbuf nfr in
          let* (rv, strm) := put_back outs strm nfr in
          if negb (rv =? 0) then Ok (rv, None, strm, outs) else Ok (0, Some (set_tf_fin false fr), strm, outs)
      end
  end.

(** The merging loop of [ngtcp2_strm_streamfrq_pop]: the return code, the
    frame with its [fin], and the array [data]. *)
Fixpoint pop_merge_loop (fuel : nat) outs strm fr (data : list ngtcp2_vec) (datalen left : Z)
    : res (Z * tx_frame * list ngtcp2_vec * ngtcp2_strm * list Z) :=
  match fuel with
  | O => Fault
  | S fuel =>
      let* q := streamfrq strm in
      if (left =? 0) || (ngtcp2_ksl_len q =? 0)%nat then Ok (0, fr, data, strm, outs) else
      let* unacked_offset := ngtcp2_strm_streamfrq_unacked_offset strm in
      if negb (unacked_offset =? u64 (tf_offset fr + datalen)) then
        assert! u64 (tf_offset fr + datalen) <? unacked_offset;
        Ok (0, fr, data, strm, outs)
      else
        let* (rv, nfr, strm, outs) := strm_streamfrq_unacked_pop outs strm in
        if negb (rv =? 0) then assert! ngtcp2_err_is_fatal rv; Ok (rv, fr, data, strm, outs) else
        match nfr with
        | None => Ok (0, fr, data, strm, outs)
        | Some nfr =>
            match tf_txbuf nfr with
            | Some _ => let* (rv, strm) := put_back outs strm nfr in Ok (rv, fr, data, strm, outs)
            | None =>
                if tf_fin nfr && (length (tf_data nfr) =? 0)%nat then Ok (0, set_tf_fin true fr, data, strm, outs) else
                let* (nmerged, data, ndata) := ngtcp2_vec_merge data (tf_data nfr) left NGTCP2_MAX_STREAM_DATACNT in
                let nfr := set_tf_data ndata nfr in
                if nmerged =? 0 then let* (rv, strm) := put_back outs strm nfr in Ok (rv, fr, data, strm, outs) else
                let datalen := u64 (datalen + nmerged) in
                let left := left - nmerged in
                if (length ndata =? 0)%nat then pop_merge_loop fuel outs strm (set_tf_fin (tf_fin nfr) fr) data datalen left
                else
                  let* (rv, strm) := streamfrq_insert strm (set_tf_offset (u64 (tf_offset nfr + nmerged)) nfr) in
                  Ok (rv, fr, data, strm, outs)
            end
        end
  end.

(** The frame fits: the frames behind it are merged into it.  The copy of the
    vectors goes to an array of [NGTCP2_MAX_STREAM_DATACNT] elements. *)
Definition pop_merge outs strm fr (datalen left : Z) : res pop_result :=
  match tf_txbuf fr with
  | Some _ => Ok (0, Some fr, strm, outs)
  | None =>
      assert! zlen (tf_data fr) <=? NGTCP2_MAX_STREAM_DATACNT;
      let* (rv, fr, data, strm, outs) :=
        pop_merge_loop (S (Z.to_nat left)) outs strm fr (tf_data fr) datalen left in
      if negb (rv =? 0) then Ok (rv, None, strm, outs) else
      let datacnt := length (tf_data fr) in
      if (length data =? datacnt)%nat then
        match last data with
        | Some v => Ok (0, Some (set_tf_data (take (datacnt - 1) (tf_data fr) ++ [v]) fr), strm, outs)
        | None => Ok (0, Some fr, strm, outs)
        end
      else
        assert! (datacnt <? length data)%nat;
        let (nfr, outs) := ngtcp2_frame_chain_stream_datacnt_objalloc_new outs
          (mk_txfr (tf_type fr) (tf_flags fr) (tf_fin fr) (tf_stream_id fr) (tf_offset fr) data None) in
        match nfr with
        | None => Ok (NGTCP2_ERR_NOMEM, None, strm, outs)
        | Some nfr => Ok (0, Some nfr, strm, outs)
        end
  end.

(** A frame of at most [left] bytes. *)
Definition ngtcp2_strm_streamfrq_pop outs strm (left : Z) : res pop_result :=
  match tx_streamfrq (strm_tx_half strm) with
  | None => Ok (0, None, strm, outs)
  | Some q =>
      if (ngtcp2_ksl_len q =? 0)%nat then Ok (0, None, strm, outs) else
      let* (rv, fr, strm, outs) := strm_streamfrq_unacked_pop outs strm in
      if negb (rv =? 0) then Ok (rv, None, strm, outs) else
      match fr with
      | None => Ok (0, None, strm, outs)
      | Some fr =>
          let datalen := strm_frame_datalen fr in
          if (tf_type fr =? NGTCP2_FRAME_STREAM) && ((left <? datalen) && (left <? NGTCP2_MIN_STREAM_DATALEN)) ||
             (left =? 0) && negb (datalen =? 0)
          then let* (rv, strm) := put_back outs strm fr in Ok (rv, None, strm, outs)
          else if left <? datalen then pop_split outs strm fr left
          else pop_merge outs strm fr datalen (left - datalen)
      end
  end.

Definition ngtcp2_strm_streamfrq_top strm : res tx_frame :=
  let* q := streamfrq strm in
  assert! negb (ngtcp2_ksl_len q =? 0)%nat;
  ngtcp2_ksl_it_get q (ngtcp2_ksl_begin q).

Definition ngtcp2_strm_streamfrq_empty strm : bool :=
  match tx_streamfrq (strm_tx_half strm) with
  | None => true
  | Some q => (ngtcp2_ksl_len q =? 0)%nat
  end.

Definition ngtcp2_strm_streamfrq_clear strm : ngtcp2_strm :=
  match tx_streamfrq (strm_tx_half strm) with
  | None => strm
  | Some q => set_streamfrq (ngtcp2_ksl_clear q) strm
  end.
