(* ===== verification/StrmTxInv.v ===== *)
(** * Data to be sent again: the queue

    The frames of the queue carry disjoint parts of the data of the stream;
    what is pending is what they carry and what is not acknowledged.  What
    taking one frame out of the queue does. *)

From S2P Require Import Prelude Const Ksl KslInv KslIter KslSearch KslSpec KslMap Gaptr Vec FrameChain Reorder Strm StrmTx.
From stdpp Require Import list.
#[local] Open Scope Z_scope.
#[local] Set Warnings "-clear-no-such-hyp".
#[local] Set Default Proof Using "Type".

Implicit Types (strm : ngtcp2_strm) (fr nfr : tx_frame) (outs : list Z) (it : ngtcp2_ksl_it)
  (q : ngtcp2_streamfrq) (l : list tx_frame) (P : Z -> Prop).

#[export] Instance uint64_less_order : StrictWeakOrder ngtcp2_ksl_uint64_less.
Proof. split; unfold ngtcp2_ksl_uint64_less; intros *; rewrite ?Z.ltb_lt, ?Z.ltb_ge; lia. Qed.

(** ** Frames *)

(** Where the data of a frame are. *)
Definition frame_vecs fr : list ngtcp2_vec :=
  match tf_txbuf fr with
  | Some buf => [mk_vec (tb_pos buf) (txbuf_len buf)]
  | None => tf_data fr
  end.

Definition frame_len fr : Z := vec_total (frame_vecs fr).
Definition frame_end fr : Z := tf_offset fr + frame_len fr.
Definition frame_has fr (x : Z) : Prop := tf_offset fr <= x < frame_end fr.

Section Queue.
(** The bytes in memory, the data of the stream, the kind of the frames, and
    how many bytes were accepted. *)
Context (mem stream : Z -> Z) (ty sid size : Z).

Definition frame_data fr : list Z := content mem (frame_vecs fr).

Record tx_frame_ok fr : Prop := {
  tk_type : tf_type fr = ty /\ tf_stream_id fr = sid;
  tk_vecs : vecs_pos (frame_vecs fr);
  tk_count : zlen (tf_data fr) <= NGTCP2_MAX_STREAM_DATACNT;
  tk_txbuf : tf_txbuf fr <> None -> tf_data fr = [];
  tk_range : 0 <= tf_offset fr /\ frame_end fr <= size <= NGTCP2_MAX_VARINT;
  tk_carries : carries stream (tf_offset fr) (frame_data fr);
  tk_fin : tf_fin fr = true -> frame_end fr = size;
  tk_empty : frame_len fr = 0 -> tf_fin fr = true \/ tf_offset fr = 0;
}.

(** In front of which offset the next frame cannot start. *)
Definition after_frame fr : Z := Z.max (frame_end fr) (tf_offset fr + 1).

Fixpoint chain (lo : Z) l : Prop :=
  match l with
  | [] => True
  | fr :: l => lo <= tf_offset fr /\ (tf_fin fr = true -> l = []) /\ chain (after_frame fr) l
  end.

Lemma chain_le lo lo' l : lo' <= lo -> chain lo l -> chain lo' l.
Proof. destruct l; cbn; [done|]. intros Hle (? & ? & ?). split_and!; [lia|done|done]. Qed.

Lemma frame_len_nonneg fr : tx_frame_ok fr -> 0 <= frame_len fr.
Proof. intros H. apply vec_total_nonneg, H. Qed.

Lemma datalen_ok fr : tx_frame_ok fr -> strm_frame_datalen fr = frame_len fr.
Proof.
  intros [_ Hv _ Ht [Ho Hr] _ _ _]. unfold strm_frame_datalen, frame_len, frame_end, frame_len, frame_vecs in *.
  unfold NGTCP2_MAX_VARINT in *. destruct (tf_txbuf fr); [cbn; lia|]. apply vec_len_total; [done|lia].
Qed.

Lemma carries_app offset data data' :
  carries stream offset (data ++ data') <-> carries stream offset data /\ carries stream (offset + zlen data) data'.
Proof.
  split.
  - intros H. split.
    + intros i b Hi. apply H. by apply lookup_app_l_Some.
    + intros i b Hi. replace (offset + zlen data + Z.of_nat i) with (offset + Z.of_nat (length data + i)) by (unfold zlen; lia).
      apply H. rewrite lookup_app_r by lia. by replace (length data + i - length data)%nat with i by lia.
  - intros [H1 H2] i b [Hi|[Hi Hb]]%lookup_app_Some; [by apply H1|]. apply H2 in Hb. rewrite Hb. f_equal. unfold zlen. lia.
Qed.

(** ** What is acknowledged *)
Definition tx_tracks (n : nat) P strm : Prop :=
  match tx_acked_offset (strm_tx_half strm) with
  | None => 0 <= tx_cont_acked_offset (strm_tx_half strm) <= NGTCP2_MAX_VARINT /\
      forall x, P x <-> 0 <= x < tx_cont_acked_offset (strm_tx_half strm)
  | Some gaptr => gaptr_rep n P gaptr
  end.

(** The first unacknowledged range from [offset] on. *)
Record unacked_range P (offset : Z) (r : ngtcp2_range) : Prop := {
  ur_range : r_begin r < r_end r /\ offset < r_end r /\ r_end r <= UINT64_MAX;
  ur_inside : forall x, Z.max offset (r_begin r) <= x < r_end r -> ~ P x;
  ur_before : forall x, offset <= x < r_begin r -> ~ ~ P x;
}.

Lemma unacked_range_run n P strm offset :
  tx_tracks n P strm -> 0 <= offset <= NGTCP2_MAX_VARINT ->
  exists r, ngtcp2_strm_get_unacked_range_after strm offset = Ok r /\ unacked_range P offset r.
Proof.
  unfold tx_tracks, ngtcp2_strm_get_unacked_range_after. intros Ht Ho.
  assert (HM : UINT64_MAX = 18446744073709551615) by reflexivity.
  assert (HV : NGTCP2_MAX_VARINT = 4611686018427387903) by reflexivity.
  destruct (tx_acked_offset (strm_tx_half strm)) as [gaptr|].
  - unfold ngtcp2_gaptr_get_first_gap_after. rewrite u64_small by (unfold is_u64; lia).
    destruct (Nat.eqb_spec (ngtcp2_ksl_len gaptr) 0) as [E|E].
    { destruct (gr_fresh _ _ _ Ht E) as [_ HP]. exists (mk_range 0 UINT64_MAX). split; [done|].
      split; cbn [r_begin r_end]; [lia|intros x _; apply HP|lia]. }
    destruct (gap_after_ok _ _ gaptr (mk_range offset (offset + 1)) Ht E) as (it & k & -> & Hend & Hkey & Hk & Hlt & Hin & Hbef);
      [split; cbn [r_begin r_end]; lia|cbn [r_begin r_end]; lia|].
    cbn [bind]. rewrite Hend, Hkey. cbn [negb]. exists k. split; [done|]. destruct Hk as [[? ?] ?]. cbn [r_begin r_end] in *.
    split; [lia| |exact Hbef]. intros x Hx. apply Hin. unfold inside. lia.
  - destruct Ht as [Hc HP]. eexists. split; [done|]. split; cbn [r_begin r_end]; [lia| |].
    + intros x Hx. rewrite HP. lia.
    + intros x Hx Hn. apply Hn, HP. lia.
Qed.

(** ** Cutting a frame *)

(** [fr'] is the part of [fr] from [b] to [e]. *)
Record part_of fr (b e : Z) (fin : bool) fr' : Prop := {
  po_ok : tx_frame_ok fr';
  po_offset : tf_offset fr' = b;
  po_end : frame_end fr' = e;
  po_fin : tf_fin fr' = fin;
}.

Lemma part_intro fr fr' D1 D3 b e (fin : bool) :
  tx_frame_ok fr -> frame_data fr = D1 ++ frame_data fr' ++ D3 ->
  b = tf_offset fr + zlen D1 -> e = frame_end fr - zlen D3 ->
  vecs_pos (frame_vecs fr') -> zlen (tf_data fr') <= NGTCP2_MAX_STREAM_DATACNT ->
  (tf_txbuf fr' <> None -> tf_data fr' = []) ->
  tf_offset fr' = b -> tf_fin fr' = fin -> tf_type fr' = tf_type fr ->
  tf_stream_id fr' = tf_stream_id fr -> (fin = true -> D3 = [] /\ tf_fin fr = true) ->
  (b < e \/ fin = true) -> part_of fr b e fin fr'.
Proof.
  intros [[H1 H1'] H2 H3 H4 H5 H6 H7 H8] HD -> -> Hv Hc Ht Ho Hf Hty Hid Hfin He.
  assert (Hlen : frame_len fr = zlen D1 + frame_len fr' + zlen D3).
  { unfold frame_len. rewrite <- !(content_len mem) by done. fold (frame_data fr) (frame_data fr').
    rewrite HD, !zlen_app. lia. }
  pose proof (zlen_nonneg D1). pose proof (zlen_nonneg D3).
  rewrite HD in H6. apply carries_app in H6 as [_ [H6 _]%carries_app].
  unfold frame_end in *. split; try done; [|unfold frame_end; lia].
  split; unfold frame_end; try done; [by rewrite Hty, Hid|lia|by rewrite Ho| |rewrite Hf; intros; destruct He; [lia|by left]].
  rewrite Hf. intros [-> ?]%Hfin. specialize (H7 ltac:(done)). rewrite zlen_nil in *. lia.
Qed.

(** The loops over the vectors. *)
Lemma skip_acked_ok data idx offset gb :
  vecs_pos data -> 0 <= offset <= gb -> offset + vec_total data < 2 ^ 63 -> gb < 2 ^ 64 ->
  let '(i, o, base) := skip_acked data idx offset gb in
  (idx <= i <= idx + length data)%nat /\ o = offset + vec_total (take (i - idx) data) /\
  (i = (idx + length data)%nat -> base = 0 /\ offset + vec_total data <= gb) /\
  ((i < idx + length data)%nat -> o + base = gb /\ exists v, data !! (i - idx)%nat = Some v /\ 0 <= base < v_len v).
Proof.
  revert idx offset. induction data as [|v data IH]; intros idx offset Hp Ho Ht Hg; cbn [skip_acked].
  { rewrite Nat.sub_diag. cbn in *. split_and!; lia. }
  apply Forall_cons_iff in Hp as [Hv Hp]. pose proof (vec_total_nonneg _ Hp) as Htp.
  assert (vec_total (v :: data) = v_len v + vec_total data) as E by done. rewrite E in *.
  assert (H64 : u64 (offset + v_len v) = offset + v_len v) by (apply u64_small; unfold is_u64; lia). rewrite H64.
  destruct (Z.ltb_spec offset gb); [destruct (Z.ltb_spec gb (offset + v_len v))|].
  - rewrite Nat.sub_diag, u64_small by (unfold is_u64; lia). cbn [take vec_total fold_right length lookup list_lookup].
    split_and!; [lia|lia|lia|lia|]. intros _. split; [lia|]. exists v. split; [done|lia].
  - specialize (IH (S idx) (offset + v_len v) Hp ltac:(lia) ltac:(lia) Hg).
    destruct (skip_acked data (S idx) (offset + v_len v) gb) as [[i o] base]. destruct IH as (I1 & I2 & I3 & I4).
    replace (i - idx)%nat with (S (i - S idx)) by lia. cbn [take vec_total fold_right length lookup list_lookup] in *.
    fold (vec_total (take (i - S idx) data)). split_and!; [lia|lia|lia| |].
    + intros Hi. destruct (I3 ltac:(lia)). split; lia.
    + intros Hi. apply I4. lia.
  - rewrite Nat.sub_diag. cbn [take vec_total fold_right length lookup list_lookup]. split_and!; [lia|lia|lia|lia|].
    intros _. split; [lia|]. exists v. split; [done|lia].
Qed.

Lemma find_end_ok data idx offset ge :
  vecs_pos data -> 0 <= offset -> offset + vec_total data < 2 ^ 63 -> ge < 2 ^ 64 ->
  offset <= ge ->
  let '(i, o, base) := find_end data idx offset ge in
  (idx <= i <= idx + length data)%nat /\ o = offset + vec_total (take (i - idx) data) /\
  (i = (idx + length data)%nat -> base = 0 /\ offset + vec_total data <= ge) /\
  ((i < idx + length data)%nat -> o + base = ge /\ exists v, data !! (i - idx)%nat = Some v /\ 0 <= base < v_len v).
Proof.
  revert idx offset. induction data as [|v data IH]; intros idx offset Hp Ho Ht Hg Hle; cbn [find_end].
  { rewrite Nat.sub_diag. cbn in *. split_and!; lia. }
  apply Forall_cons_iff in Hp as [Hv Hp]. pose proof (vec_total_nonneg _ Hp) as Htp.
  assert (vec_total (v :: data) = v_len v + vec_total data) as E by done. rewrite E in *.
  assert (H64 : u64 (offset + v_len v) = offset + v_len v) by (apply u64_small; unfold is_u64; lia). rewrite H64.
  destruct (Z.ltb_spec ge (offset + v_len v)).
  - rewrite Nat.sub_diag, u64_small by (unfold is_u64; lia). cbn [take vec_total fold_right length lookup list_lookup].
    split_and!; [lia|lia|lia|lia|]. intros _. split; [lia|]. exists v. split; [done|lia].
  - specialize (IH (S idx) (offset + v_len v) Hp ltac:(lia) ltac:(lia) Hg ltac:(lia)).
    destruct (find_end data (S idx) (offset + v_len v) ge) as [[i o] base]. destruct IH as (I1 & I2 & I3 & I4).
    replace (i - idx)%nat with (S (i - S idx)) by lia. cbn [take vec_total fold_right length lookup list_lookup] in *.
    fold (vec_total (take (i - S idx) data)). split_and!; [lia|lia|lia| |].
    + intros Hi. destruct (I3 ltac:(lia)). split; lia.
    + intros Hi. apply I4. lia.
Qed.

(** A cut at [b] bytes into the vector [i]. *)
Lemma cut_vecs data i v b :
  vecs_pos data -> data !! i = Some v -> 0 <= b < v_len v ->
  exists F, content mem data = F ++ content mem (ngtcp2_vec_drop v b :: drop (S i) data) /\
    zlen F = vec_total (take i data) + b /\ vecs_pos (ngtcp2_vec_drop v b :: drop (S i) data) /\
    content mem (take i data ++ if b =? 0 then [] else [mk_vec (v_base v) b]) = F /\
    vecs_pos (take i data ++ if b =? 0 then [] else [mk_vec (v_base v) b]).
Proof.
  intros Hp Hv Hb. pose proof (take_drop_middle data i v Hv) as Emid.
  assert (Hpp : vecs_pos (take i data) /\ vecs_pos (drop (S i) data)).
  { rewrite <- Emid in Hp. apply Forall_app in Hp as [H1 H2]. apply Forall_cons_iff in H2 as [_ H2]. done. }
  destruct Hpp as [Hp1 Hp2]. exists (content mem (take i data) ++ vec_bytes mem (mk_vec (v_base v) b)). split_and!.
  - rewrite <- Emid at 1. rewrite content_app, !content_cons, (vec_bytes_drop mem v b) by lia. by rewrite <- !app_assoc.
  - rewrite zlen_app, content_len, vec_bytes_len by (try done; cbn; lia). done.
  - constructor; [cbn; lia|done].
  - rewrite content_app. f_equal. destruct (Z.eqb_spec b 0) as [->|]; [done|apply content_one].
  - apply Forall_app. split; [done|]. destruct (Z.eqb_spec b 0); constructor; [cbn; lia|constructor].
Qed.

(** ** The queue *)
Definition keyed l : list (Z * tx_frame) := map (fun fr => (tf_offset fr, fr)) l.

(** [strm] has the frames [l] in its queue, and memory for [n] more. *)
Definition queue_rep (n : nat) strm l : Prop :=
  exists q, tx_streamfrq (strm_tx_half strm) = Some q /\ ksl_wf ngtcp2_ksl_uint64_less q /\ ksl_room n q /\
    ksl_elems q = keyed l.

Definition pending P l (x : Z) : Prop := exists fr, fr ∈ l /\ frame_has fr x /\ ~ P x.

Lemma pending_cons P fr l x : pending P (fr :: l) x <-> (frame_has fr x /\ ~ P x) \/ pending P l x.
Proof.
  unfold pending. setoid_rewrite elem_of_cons. split.
  - intros (fr' & [->|Hin] & H); [by left|]. right. by exists fr'.
  - intros [H|(fr' & Hin & H)]; [exists fr|exists fr']; auto.
Qed.

Lemma pending_nil P x : ~ pending P [] x.
Proof. intros (fr & ?%elem_of_nil & _). done. Qed.

(** The bytes that the frames carry. *)
Definition some_has l (x : Z) : Prop := exists fr, fr ∈ l /\ frame_has fr x.

Lemma some_has_cons fr l x : some_has (fr :: l) x <-> frame_has fr x \/ some_has l x.
Proof.
  unfold some_has. setoid_rewrite elem_of_cons. split.
  - intros (fr' & [->|Hin] & H); [by left|]. right. by exists fr'.
  - intros [H|(fr' & Hin & H)]; [exists fr|exists fr']; auto.
Qed.

(** A frame with neither data nor the end of the stream is not [solid]. *)
Definition solid fr : Prop := frame_len fr = 0 -> tf_fin fr = true.

Definition has_fin l : bool := existsb tf_fin l.

Lemma queue_len n strm l q :
  queue_rep n strm l -> tx_streamfrq (strm_tx_half strm) = Some q -> ngtcp2_ksl_len q = length l.
Proof.
  intros (q' & E & [_ _ Hn] & _ & HE) E'. rewrite E in E'. injection E' as <-. unfold ngtcp2_ksl_len.
  rewrite Hn, HE. unfold keyed. apply length_map.
Qed.

Lemma queue_room n strm l : queue_rep (S n) strm l -> queue_rep n strm l.
Proof. intros (q & ? & ? & ?%room_le & ?). by exists q. Qed.

Lemma chain_offsets lo l fr : chain lo l -> fr ∈ l -> lo <= tf_offset fr.
Proof.
  revert lo. induction l as [|fr' l IH]; intros lo; [by intros _ ?%elem_of_nil|]. cbn [chain]. rewrite elem_of_cons.
  intros (Hlo & _ & Hc) [->|Hin]; [done|]. specialize (IH _ Hc Hin). unfold after_frame in IH. lia.
Qed.

(** A frame in front of all others. *)
Lemma insert_front n strm l fr :
  queue_rep (S n) strm l -> chain (tf_offset fr + 1) l ->
  exists q, streamfrq_insert strm fr = Ok (0, set_streamfrq q strm) /\ queue_rep n (set_streamfrq q strm) (fr :: l).
Proof.
  intros (q & Eq & Hwf & Hroom & HE) Hc. unfold streamfrq_insert, streamfrq. rewrite Eq. cbn [bind].
  destruct (insert_ok_run _ q (tf_offset fr) fr Hwf (room_weaken _ _ Hroom)) as (rv & q' & it & -> & [Hwf' _ _ Ha Hh Hout]).
  assert (Hk : forall x, x ∈ ksl_elems q -> tf_offset fr < x.1).
  { intros x Hx. rewrite HE in Hx. unfold keyed in Hx. apply list_elem_of_fmap in Hx as (fr' & -> & Hin).
    pose proof (chain_offsets _ _ _ Hc Hin). cbn. lia. }
  destruct Hout as [(-> & (A & B & E & Hcur & HA & _) & _)|(_ & _ & (x & Hx & He))].
  - cbn [bind]. exists q'. split; [done|]. exists q'. split_and!; [done|done|by eapply room_step|].
    rewrite (cursor_elems _ _ _ _ Hcur). destruct A as [|a A].
    + cbn in *. by rewrite <- E, HE.
    + assert (Hin : a ∈ ksl_elems q) by (rewrite E; by left). specialize (Hk _ Hin). specialize (HA a ltac:(by left)).
      unfold ngtcp2_ksl_uint64_less in HA. apply Z.ltb_lt in HA. lia.
  - specialize (Hk _ Hx). destruct (key_equal_sides _ _ _ He) as [_ He'].  rename He' into Hs. unfold ngtcp2_ksl_uint64_less in Hs. apply Z.ltb_ge in Hs. lia.
Qed.

(** What taking a frame out of the queue [l] does. *)
Record popped n P lo strm l strm' fr' l' : Prop := {
  pp_same : exists q, strm' = set_streamfrq q strm;
  pp_queue : queue_rep n strm' l';
  pp_frames : Forall tx_frame_ok l';
  pp_frame : tx_frame_ok fr';
  pp_chain : chain lo (fr' :: l');
  pp_fresh : forall x, frame_has fr' x -> ~ P x;
  pp_pending : forall x, pending P l x <-> frame_has fr' x \/ pending P l' x;
  pp_fin : has_fin (fr' :: l') = has_fin l;
  pp_empty : frame_len fr' = 0 ->
    if tf_fin fr' then has_flag strm NGTCP2_STRM_FLAG_FIN_ACKED = false
    else tx_offset (strm_tx_half strm) = 0;
  pp_within : forall x, some_has (fr' :: l') x -> some_has l x;
  pp_solid : Forall solid l -> Forall solid (fr' :: l');
}.

(** The end of a frame is taken. *)
Lemma popped_end n P lo strm q fr l r fr' :
  tx_frame_ok fr -> Forall tx_frame_ok l -> chain lo (fr :: l) -> unacked_range P (tf_offset fr) r ->
  queue_rep n (set_streamfrq q strm) l -> 
  part_of fr (Z.min (frame_end fr) (Z.max (r_begin r) (tf_offset fr))) (frame_end fr) (tf_fin fr) fr' -> frame_end fr <= r_end r \/ frame_len fr' = 0 ->
  (frame_len fr' = 0 -> has_flag strm NGTCP2_STRM_FLAG_FIN_ACKED = false /\ tf_fin fr = true) ->
  popped n P lo strm (fr :: l) (set_streamfrq q strm) fr' l.
Proof.
  intros Hok Hl (Hlo & Hfin & Hc) [Hr1 Hr2 Hr3] Hq [Hok' Ho He Hf] Hend Hemp.
  pose proof (frame_len_nonneg _ Hok') as Hn. pose proof (frame_len_nonneg _ Hok).
  unfold frame_end in *. split; try done; [by exists q| | | | | | |].
  - cbn [chain]. split_and!; [lia|by rewrite Hf|]. destruct (Z.eq_dec (frame_len fr') 0) as [E|].
    + destruct (Hemp E) as [_ ->%Hfin]. done.
    + eapply chain_le; [|exact Hc]. unfold after_frame, frame_end. lia.
  - unfold frame_has, frame_end. intros x Hx. apply Hr2. lia.
  - intros x. rewrite pending_cons. unfold frame_has, frame_end. split.
    + intros [[Hx HP]|?]; [left|by right]. split; [|lia].
      destruct (Z.le_gt_cases (r_begin r) x); [lia|]. exfalso. apply (Hr3 x); [lia|done].
    + intros [Hx|?]; [left|by right]. split; [lia|]. apply Hr2. lia.
  - cbn [has_fin existsb]. by rewrite Hf.
  - rewrite Hf. intros [-> ->]%Hemp. done.
  - intros x. rewrite !some_has_cons. unfold frame_has, frame_end. intros [Hx|?]; [left; lia|by right].
  - intros [_ Hs]%Forall_cons_iff. constructor; [|done]. intros [_ ?]%Hemp. by rewrite Hf.
Qed.

(** A part in the middle is taken, and the end stays. *)
Lemma popped_middle n P lo strm q fr l r fr' nfr :
  tx_frame_ok fr -> Forall tx_frame_ok l -> chain lo (fr :: l) -> unacked_range P (tf_offset fr) r ->
  let b := Z.max (r_begin r) (tf_offset fr) in
  b < r_end r < frame_end fr -> queue_rep n (set_streamfrq q strm) (nfr :: l) ->
  part_of fr b (r_end r) false fr' -> part_of fr (r_end r) (frame_end fr) (tf_fin fr) nfr ->
  popped n P lo strm (fr :: l) (set_streamfrq q strm) fr' (nfr :: l).
Proof.
  intros Hok Hl (Hlo & Hfin & Hc) [Hr1 Hr2 Hr3] b Hb Hq [Hok' Ho He Hf] [Hokn Hon Hen Hfn].
  subst b. unfold frame_end in *. split; try done; [by exists q|by constructor| | | | | | |].
  - cbn [chain]. unfold after_frame, frame_end. split_and!; [lia|by rewrite Hf|lia|by rewrite Hfn|].
    eapply chain_le; [|exact Hc]. unfold after_frame, frame_end. lia.
  - unfold frame_has, frame_end. intros x Hx. apply Hr2. lia.
  - intros x. rewrite !pending_cons. unfold frame_has, frame_end. split.
    + intros [[Hx HP]|?]; [|by right; right]. destruct (Z.le_gt_cases (r_begin r) x); [|exfalso; apply (Hr3 x); [lia|done]].
      destruct (Z.lt_ge_cases x (r_end r)); [left; lia|right; left]. split; [lia|done].
    + intros [Hx|[[Hx HP]|?]]; [left|left|by right]; (split; [lia|]); [apply Hr2; lia|done].
  - cbn [has_fin existsb]. by rewrite Hf, Hfn.
  - unfold frame_len in *. intros. lia.
  - intros x. rewrite !some_has_cons. unfold frame_has, frame_end. intros [Hx|[Hx|?]]; [left|left|by right]; lia.
  - intros [Hs1 Hs]%Forall_cons_iff. repeat constructor; [| |done]; unfold solid, frame_len in *; intros; lia.
Qed.
End Queue.
