(* ===== verification/StrmTxPop.v ===== *)
(** * Data to be sent again: the first unacknowledged frame

    [strm_streamfrq_unacked_pop] and [ngtcp2_strm_streamfrq_unacked_offset]:
    nothing that is pending gets lost, and nothing that is acknowledged is
    returned. *)

From S2P Require Import Prelude Const Ksl KslInv KslIter KslSpec KslMap Gaptr Vec FrameChain Reorder Strm StrmTx StrmTxInv.
From stdpp Require Import list.
#[local] Open Scope Z_scope.
#[local] Set Warnings "-clear-no-such-hyp".
#[local] Set Default Proof Using "Type".

Implicit Types (strm : ngtcp2_strm) (fr nfr : tx_frame) (outs : list Z) (it : ngtcp2_ksl_it)
  (q : ngtcp2_streamfrq) (l : list tx_frame) (P : Z -> Prop).

Section Pop.
Context (mem stream : Z -> Z) (ty sid size : Z).
#[local] Abbreviation tx_frame_ok := (tx_frame_ok mem stream ty sid size).
#[local] Abbreviation part_of := (part_of mem stream ty sid size).
#[local] Abbreviation popped := (popped mem stream ty sid size).

Lemma set_streamfrq_same strm q : tx_streamfrq (strm_tx_half strm) = Some q -> set_streamfrq q strm = strm.
Proof. destruct strm as [? ? ? ? ? ? ? ? ? ? []]. cbn. by intros ->. Qed.

Lemma queue_same n strm l : queue_rep n strm l -> exists q, strm = set_streamfrq q strm.
Proof. intros (q & Hq & _). exists q. by rewrite set_streamfrq_same. Qed.

(** The frame is taken as it is. *)
Lemma popped_whole n P lo strm fr l :
  tx_frame_ok fr -> Forall tx_frame_ok l -> chain lo (fr :: l) -> queue_rep n strm l ->
  (forall x, frame_has fr x -> ~ P x) ->
  (frame_len fr = 0 -> if tf_fin fr then has_flag strm NGTCP2_STRM_FLAG_FIN_ACKED = false
                       else tx_offset (strm_tx_half strm) = 0) ->
  popped n P lo strm (fr :: l) strm fr l.
Proof.
  intros Hok Hl Hc Hq Hf He. pose proof (queue_same _ _ _ Hq). constructor; auto. intros x. rewrite pending_cons.
  pose proof (Hf x). tauto.
Qed.

(** [rv] comes from one of the outcomes, which is an error. *)
Definition fails outs (rv : Z) : Prop :=
  rv <> 0 /\ (rv ∈ outs \/ rv = NGTCP2_ERR_NOMEM /\ exists rv', rv' ∈ outs /\ rv' <> 0).

Lemma next_outcome_fails outs rv outs' :
  next_outcome outs = (rv, outs') -> (rv <> 0 -> fails outs rv) /\ (forall rv, fails outs' rv -> fails outs rv).
Proof.
  unfold fails. destruct outs as [|rv' outs]; cbn; intros [= <- <-]; [done|]. split.
  - intros H. split; [done|]. left. left.
  - intros rv (? & [?|(? & rv'' & ? & ?)]); (split; [done|]); [left; by right|right]. split; [done|].
    exists rv''. split; [by right|done].
Qed.

Lemma objalloc_new_fails outs fr o outs' :
  ngtcp2_frame_chain_stream_datacnt_objalloc_new outs fr = (o, outs') ->
  (o = Some fr \/ o = None /\ fails outs NGTCP2_ERR_NOMEM) /\ (forall rv, fails outs' rv -> fails outs rv).
Proof.
  unfold ngtcp2_frame_chain_stream_datacnt_objalloc_new. destruct (next_outcome outs) as [rv outs''] eqn:E.
  destruct (next_outcome_fails _ _ _ E) as [H1 H2]. destruct (Z.eqb_spec rv 0) as [->|Hrv]; intros [= <- <-]; [by auto|].
  split; [right|done]. split; [done|]. destruct (H1 Hrv) as [_ [Hin|(_ & Hx)]]; (split; [done|]); right; (split; [done|]); [by exists rv|done].
Qed.

Lemma copy_txbuf_none rv nfr fr : tf_txbuf fr = None -> ngtcp2_stream_copy_txbuf rv nfr fr = Ok (0, nfr).
Proof. unfold ngtcp2_stream_copy_txbuf. by intros ->. Qed.

(** Nothing of the frame is left to be sent. *)
Definition stale P strm fr (fin : bool) : Prop :=
  tf_fin fr = fin /\ (forall x, frame_has fr x -> ~ ~ P x) /\
  (fin = true -> has_flag strm NGTCP2_STRM_FLAG_FIN_ACKED = true).

(** What a step of the loop does with the frame at the head. *)
Definition taken n P lo outs strm fr l (r : pop_result) : Prop :=
  let '(rv, pfr, strm', outs') := r in
  (forall rv, fails outs' rv -> fails outs rv) /\
  (pfr = None /\ fails outs rv \/
   rv = 0 /\ match pfr with
             | None => strm' = strm /\ exists fin, stale P strm fr fin
             | Some fr' => exists l', popped n P lo strm (fr :: l) strm' fr' l'
             end).

Lemma size_range fr : tx_frame_ok fr ->
  0 <= tf_offset fr /\ 0 <= frame_len fr /\ tf_offset fr + frame_len fr <= size /\ size <= 4611686018427387903.
Proof.
  intros H. pose proof (frame_len_nonneg _ _ _ _ _ _ H). destruct (tk_range _ _ _ _ _ _ H) as (? & ? & ?).
  unfold frame_end, NGTCP2_MAX_VARINT in *. lia.
Qed.

Lemma frame_u64 fr x : tx_frame_ok fr -> 0 <= x <= frame_end fr -> u64 x = x.
Proof. intros H%size_range Hx. unfold frame_end in *. apply u64_small. unfold is_u64. lia. Qed.

Lemma none_left_run n strm l : queue_rep n strm l -> streamfrq_none_left strm = Ok (length l =? 0)%nat.
Proof.
  intros Hq. pose proof Hq as (q & E & _). unfold streamfrq_none_left, streamfrq. rewrite E. cbn [bind].
  by rewrite (queue_len n strm l q Hq E).
Qed.

(** Everything up to the end of the frame is acknowledged. *)
Lemma stale_data P fr r x :
  unacked_range P (tf_offset fr) r -> frame_end fr <= Z.max (r_begin r) (tf_offset fr) -> frame_has fr x -> ~ ~ P x.
Proof. intros [_ _ H] He Hx. apply H. unfold frame_has in Hx. lia. Qed.

(** A frame without data that only tells the end. *)
Lemma fin_part fr :
  tx_frame_ok fr -> tf_fin fr = true -> forall fr',
  fr' = ngtcp2_stream_release_txbuf (set_tf_data [] (set_tf_offset (frame_end fr) fr)) ->
  part_of fr (frame_end fr) (frame_end fr) true fr'.
Proof.
  intros Hok Hfin fr' ->. eapply (part_intro mem stream ty sid size fr _ (frame_data mem fr) []); try done; cbn.
  - by rewrite app_nil_r.
  - unfold frame_data. rewrite content_len by apply Hok. done.
  - rewrite zlen_nil. lia.
  - constructor.
  - by right.
Qed.

Lemma fin_taken n P lo strm fr l r outs :
  tx_frame_ok fr -> Forall tx_frame_ok l -> chain lo (fr :: l) -> queue_rep n strm l ->
  unacked_range P (tf_offset fr) r -> frame_end fr <= Z.max (r_begin r) (tf_offset fr) -> tf_fin fr = true ->
  has_flag strm NGTCP2_STRM_FLAG_FIN_ACKED = false -> forall fr',
  fr' = ngtcp2_stream_release_txbuf (set_tf_data [] (set_tf_offset (frame_end fr) fr)) ->
  taken n P lo outs strm fr l (0, Some fr', strm, outs).
Proof.
  intros Hok Hl Hc Hq Hr He Hfin Hack fr' ->. split; [done|]. right. split; [done|]. exists l.
  destruct (queue_same _ _ _ Hq) as [q Eq].
  rewrite Eq at 2. eapply popped_end; try done; [by rewrite <- Eq| |by right].
  rewrite Hfin, Z.min_l by done. by apply fin_part.
Qed.

(** ** A frame whose data are vectors *)
Lemma data_vecs fr : tf_txbuf fr = None -> frame_vecs fr = tf_data fr.
Proof. unfold frame_vecs. by intros ->. Qed.

Lemma sync_none fr : tf_txbuf fr = None -> ngtcp2_stream_sync_txbuf fr = fr.
Proof. unfold ngtcp2_stream_sync_txbuf. by intros ->. Qed.

Lemma data_end fr :
  tx_frame_ok fr -> tf_txbuf fr = None -> u64 (tf_offset fr + ngtcp2_vec_len (tf_data fr)) = frame_end fr.
Proof.
  intros Hok Hd. pose proof (datalen_ok _ _ _ _ _ _ Hok) as E. unfold strm_frame_datalen in E. rewrite Hd in E. rewrite E.
  apply (frame_u64 fr); [done|]. pose proof (size_range _ Hok). unfold frame_end. lia.
Qed.

(** [fr'] is [fr] from [b] bytes into the vector [i] on. *)
Lemma cut_front fr fr' i v b :
  tx_frame_ok fr -> tf_txbuf fr = None -> tf_data fr !! i = Some v -> 0 <= b < v_len v ->
  tf_data fr' = ngtcp2_vec_drop v b :: drop (S i) (tf_data fr) -> tf_txbuf fr' = None ->
  tf_offset fr' = tf_offset fr + vec_total (take i (tf_data fr)) + b -> tf_fin fr' = tf_fin fr ->
  tf_type fr' = tf_type fr -> tf_stream_id fr' = tf_stream_id fr ->
  part_of fr (tf_offset fr') (frame_end fr) (tf_fin fr) fr' /\ tf_offset fr' < frame_end fr.
Proof.
  intros Hok Hd Hv Hb Hd' Ht' Ho' Hf Hty Hid. pose proof (tk_vecs _ _ _ _ _ _ Hok) as Hp. rewrite data_vecs in Hp by done.
  destruct (cut_vecs mem (tf_data fr) i v b Hp Hv Hb) as (F & E & HF & Hp' & _). rewrite <- Hd' in E, Hp'.
  assert (Hlt : tf_offset fr' < frame_end fr).
  { unfold frame_end, frame_len. rewrite data_vecs by done. rewrite <- (content_len mem _ Hp), E, zlen_app, content_len by done.
    rewrite HF, Ho'. pose proof (vec_total_pos _ Hp' ltac:(by rewrite Hd')). lia. }
  split; [|done]. apply (part_intro mem stream ty sid size fr fr' F []); try done.
  - unfold frame_data. by rewrite !data_vecs, app_nil_r, E by done.
  - lia.
  - rewrite zlen_nil. lia.
  - by rewrite data_vecs.
  - pose proof (tk_count _ _ _ _ _ _ Hok). rewrite Hd'. unfold zlen in *. cbn [length]. rewrite length_drop.
    apply lookup_lt_Some in Hv. lia.
  - by left.
Qed.

(** [fr'] is [fr] up to [b] bytes into the vector [i]. *)
Lemma cut_back fr fr' i v b :
  tx_frame_ok fr -> tf_txbuf fr = None -> tf_data fr !! i = Some v -> 0 <= b < v_len v ->
  tf_data fr' = take i (tf_data fr) ++ (if b =? 0 then [] else [mk_vec (v_base v) b]) -> tf_txbuf fr' = None ->
  tf_offset fr' = tf_offset fr -> tf_fin fr' = false ->
  tf_type fr' = tf_type fr -> tf_stream_id fr' = tf_stream_id fr ->
  0 < vec_total (take i (tf_data fr)) + b ->
  part_of fr (tf_offset fr) (tf_offset fr + vec_total (take i (tf_data fr)) + b) false fr'.
Proof.
  intros Hok Hd Hv Hb Hd' Ht' Ho' Hf Hty Hid Hpos. pose proof (tk_vecs _ _ _ _ _ _ Hok) as Hp. rewrite data_vecs in Hp by done.
  destruct (cut_vecs mem (tf_data fr) i v b Hp Hv Hb) as (F & E & HF & Hp' & EF & HpF). rewrite <- Hd' in EF, HpF.
  apply (part_intro mem stream ty sid size fr fr' [] (content mem (ngtcp2_vec_drop v b :: drop (S i) (tf_data fr)))); try done.
  - unfold frame_data. by rewrite !data_vecs, EF by done.
  - rewrite zlen_nil. lia.
  - unfold frame_end, frame_len. rewrite data_vecs by done.
    rewrite <- (content_len mem _ Hp), E, zlen_app. lia.
  - by rewrite data_vecs.
  - pose proof (tk_count _ _ _ _ _ _ Hok). rewrite Hd'. unfold zlen in *. rewrite length_app, length_take.
    apply lookup_lt_Some in Hv. destruct (b =? 0); cbn [length]; lia.
  - left. lia.
Qed.

(** Where the first unacknowledged range begins and ends. *)
Definition at_vec fr (i : nat) (o b x : Z) : Prop :=
  o = tf_offset fr + vec_total (take i (tf_data fr)) /\ o + b = x /\ u64 (o + b) = x /\
  exists v, tf_data fr !! i = Some v /\ 0 <= b < v_len v.

Lemma scan_begin P fr r :
  tx_frame_ok fr -> tf_txbuf fr = None -> unacked_range P (tf_offset fr) r ->
  let gb := Z.max (r_begin r) (tf_offset fr) in
  let '(i, o, b) := skip_acked (tf_data fr) 0 (tf_offset fr) gb in
  if (i =? length (tf_data fr))%nat then frame_end fr <= gb else at_vec fr i o b gb.
Proof.
  intros Hok Hd [Hr1 _ _] gb. pose proof (size_range _ Hok) as Hs. pose proof (tk_vecs _ _ _ _ _ _ Hok) as Hp.
  unfold frame_len, frame_end, frame_len, at_vec in *. rewrite data_vecs in * by done.
  assert (HM : UINT64_MAX = 18446744073709551615) by reflexivity.
  pose proof (skip_acked_ok (tf_data fr) 0 (tf_offset fr) gb Hp ltac:(subst gb; lia) ltac:(lia) ltac:(subst gb; lia)) as H.
  destruct (skip_acked _ _ _ _) as [[i o] b]. rewrite Nat.sub_0_r, !Nat.add_0_l in H. destruct H as (H1 & H2 & H3 & H4).
  destruct (Nat.eqb_spec i (length (tf_data fr))); [by apply H3|]. destruct (H4 ltac:(lia)) as [H5 H6].
  rewrite H5. split_and!; try done. apply u64_small. unfold is_u64. subst gb. lia.
Qed.

Lemma scan_end P fr r i o b gb :
  tx_frame_ok fr -> tf_txbuf fr = None -> unacked_range P (tf_offset fr) r ->
  gb = Z.max (r_begin r) (tf_offset fr) -> at_vec fr i o b gb ->
  let '(j, eo, eb) := find_end (drop i (tf_data fr)) i o (r_end r) in
  if (length (tf_data fr) =? j)%nat then frame_end fr <= r_end r
  else at_vec fr j eo eb (r_end r) /\ (i <= j)%nat /\ r_end r < frame_end fr.
Proof.
  intros Hok Hd [Hr1 _ _] Hgb (Ho & Hob & _ & v & Hv & Hb). pose proof (size_range _ Hok) as Hs. pose proof (tk_vecs _ _ _ _ _ _ Hok) as Hp.
  unfold frame_len, frame_end, frame_len, at_vec in *. rewrite data_vecs in * by done.
  assert (HM : UINT64_MAX = 18446744073709551615) by reflexivity.
  assert (Ht : vec_total (tf_data fr) = vec_total (take i (tf_data fr)) + vec_total (drop i (tf_data fr))).
  { by rewrite <- vec_total_app, take_drop. }
  assert (Hpi : vecs_pos (take i (tf_data fr))) by (by apply Forall_take). pose proof (vec_total_nonneg _ Hpi).
  pose proof (find_end_ok (drop i (tf_data fr)) i o (r_end r) ltac:(by apply Forall_drop) ltac:(lia) ltac:(lia) ltac:(lia) ltac:(lia)) as H'.
  pose proof (lookup_lt_Some _ _ _ Hv) as Hi. rewrite length_drop in H'.
  replace (i + (length (tf_data fr) - i))%nat with (length (tf_data fr)) in H' by lia.
  destruct (find_end _ _ _ _) as [[j eo] eb]. destruct H' as (H1 & H2 & H3 & H4).
  destruct (Nat.eqb_spec (length (tf_data fr)) j); [destruct (H3 ltac:(done)); lia|]. destruct (H4 ltac:(lia)) as (H5 & w & Hw & Hwb).
  rewrite lookup_drop in Hw. replace (i + (j - i))%nat with j in Hw by lia.
  assert (Eo : eo = tf_offset fr + vec_total (take j (tf_data fr))).
  { rewrite H2, Ho. replace j with (i + (j - i))%nat at 2 by lia. rewrite <- take_take_drop, vec_total_app. lia. }
  rewrite H5. split; [split_and!; try done|].
  - apply u64_small. unfold is_u64. lia.
  - by exists w.
  - split; [lia|]. rewrite <- (take_drop_middle _ _ _ Hw), vec_total_app. cbn [vec_total fold_right].
    assert (Hpj : vecs_pos (drop (S j) (tf_data fr))) by (by apply Forall_drop). pose proof (vec_total_nonneg _ Hpj).
    fold (vec_total (drop (S j) (tf_data fr))). lia.
Qed.

Lemma cut_last_snoc (A : list ngtcp2_vec) w n :
  n < v_len w -> cut_last_vec (A ++ [w]) n = Ok (A ++ [mk_vec (v_base w) n]).
Proof.
  intros Hn. unfold cut_last_vec. rewrite last_snoc, (proj2 (Z.ltb_lt _ _) Hn), length_app. cbn [length].
  replace (length A + 1 - 1)%nat with (length A) by lia. by rewrite take_app_length.
Qed.

(** The vectors between the two cuts. *)
Lemma middle_vecs (data : list ngtcp2_vec) i v b j w eb :
  data !! i = Some v -> 0 <= b < v_len v -> data !! j = Some w -> 0 <= eb < v_len w -> (i <= j)%nat ->
  vec_total (take i data) + b < vec_total (take j data) + eb ->
  let data1 := take j data ++ if eb =? 0 then [] else [mk_vec (v_base w) eb] in
  let T := drop i (take (if eb =? 0 then j else S j) data) in
  (exists v0, head T = Some v0 /\ b < v_len v0) /\ (if eb =? 0 then Ok T else cut_last_vec T eb) = Ok (drop i data1) /\
  exists v', data1 !! i = Some v' /\ 0 <= b < v_len v' /\ take i data1 = take i data.
Proof.
  intros Hv Hb Hw Heb Hij Hlt data1 T.
  assert (ET : drop i data1 = drop i (take j data) ++ if eb =? 0 then [] else [mk_vec (v_base w) eb]).
  { apply drop_app_le. rewrite length_take. apply lookup_lt_Some in Hw. lia. }
  assert (Htk : take i data1 = take i data).
  { unfold data1. rewrite take_app_le by (rewrite length_take; apply lookup_lt_Some in Hw; lia). rewrite take_take. f_equal. lia. }
  assert (HT : T = drop i (take j data) ++ if eb =? 0 then [] else [w]).
  { unfold T. destruct (Z.eqb_spec eb 0); [by rewrite app_nil_r|]. rewrite (take_S_r _ _ _ Hw). apply drop_app_le.
    rewrite length_take. apply lookup_lt_Some in Hw. lia. }
  destruct (decide (i = j)) as [->|Hne].
  - rewrite Hv in Hw. injection Hw as <-. assert (Heb0 : eb <> 0) by lia. unfold data1 in *. rewrite (proj2 (Z.eqb_neq _ _) Heb0) in *.
    assert (Hnil : drop j (take j data) = []) by (apply drop_ge; rewrite length_take; lia). rewrite Hnil in *. rewrite HT, ET. cbn [app].
    split; [exists v; split; [done|lia]|]. split; [apply (cut_last_snoc []); lia|]. exists (mk_vec (v_base v) eb). cbn. split_and!; [|lia|lia|done].
    rewrite lookup_app_r, length_take by (rewrite length_take; lia). apply lookup_lt_Some in Hv.
    by replace (j - j `min` length data)%nat with 0%nat by lia.
  - assert (Hvj : take j data !! i = Some v) by (rewrite lookup_take_lt; [done|lia]).
    rewrite HT, ET. split_and!.
    + exists v. rewrite (drop_S _ _ _ Hvj). split; [done|lia].
    + destruct (eb =? 0); [by rewrite !app_nil_r|]. apply cut_last_snoc. lia.
    + exists v. split_and!; [|lia|lia|done]. by apply lookup_app_l_Some.
Qed.

Section Data.
Context (n : nat) (P : Z -> Prop) (lo : Z) (outs : list Z) (strm : ngtcp2_strm) (fr : tx_frame) (l : list tx_frame).
Context (r : ngtcp2_range).
Context (Hok : tx_frame_ok fr) (Hl : Forall tx_frame_ok l) (Hc : chain lo (fr :: l)) (Hq : queue_rep (S n) strm l)
  (Hr : unacked_range P (tf_offset fr) r) (Hdata : tf_txbuf fr = None).
#[local] Set Default Proof Using "All".

#[local] Abbreviation gb := (Z.max (r_begin r) (tf_offset fr)).

(** The beginning of the frame is acknowledged. *)
Lemma take_front i o b :
  at_vec fr i o b gb -> frame_end fr <= r_end r ->
  exists data, drop_first (drop i (tf_data fr)) b = Ok data /\
  taken n P lo outs strm fr l (0, Some (ngtcp2_stream_sync_txbuf (set_tf_data data (set_tf_offset gb fr))), strm, outs).
Proof.
  intros (Ho & Hob & _ & v & Hv & Hb) He. eexists. unfold drop_first. rewrite (drop_S _ _ _ Hv).
  rewrite (proj2 (Z.ltb_lt _ _)) by lia. split; [done|]. rewrite sync_none by done.
  split; [done|]. right. split; [done|]. exists l.
  edestruct (cut_front fr (set_tf_data (ngtcp2_vec_drop v b :: drop (S i) (tf_data fr)) (set_tf_offset gb fr)) i v b)
    as [Hpart Hlt]; try done; [cbn; lia|]. cbn [tf_offset set_tf_data set_tf_offset] in Hpart, Hlt.
  destruct (queue_same _ _ _ Hq) as [q Eq]. rewrite Eq at 2.
  eapply popped_end; try done; [apply queue_room; by rewrite <- Eq|rewrite Z.min_r by lia; exact Hpart|by left|].
  destruct Hpart as [_ Hpo Hpe _]. unfold frame_end in *. lia.
Qed.

(** A range in the middle of the frame. *)
Lemma take_middle i o b j eo eb :
  at_vec fr i o b gb -> at_vec fr j eo eb (r_end r) -> (i <= j)%nat -> r_end r < frame_end fr ->
  exists res, keep_tail outs strm fr i j o b eo eb = Ok res /\ taken n P lo outs strm fr l res /\
    (tf_fin fr = true \/ res.1.1 <> (0, None)).
Proof.
  intros (Ho & Hob & Hu & v & Hv & Hb) (Heo & Heob & Heu & w & Hw & Heb) Hij Hend. pose proof Hr as [Hr1 _ _].
  unfold keep_tail, drop_first. rewrite (drop_S _ _ _ Hw), (proj2 (Z.ltb_lt eb _)) by lia. cbn [bind]. rewrite Heu.
  destruct (ngtcp2_frame_chain_stream_datacnt_objalloc_new _ _) as [nfr outs1] eqn:E1.
  destruct (objalloc_new_fails _ _ _ _ E1) as [[->|[-> Hf]] Ho1]; [|eexists; split; [done|]; split; [split; [done|]; by left|by right]].
  destruct (next_outcome outs1) as [rv outs2] eqn:E2. destruct (next_outcome_fails _ _ _ E2) as [_ Ho2].
  rewrite copy_txbuf_none by done. cbn [bind]. set (nfr := mk_txfr _ _ _ _ _ _ _). rewrite !(sync_none nfr), (sync_none fr) by done.
  edestruct (cut_front fr nfr j w eb) as [Hn Hlt]; try done; [cbn; lia|]. cbn [tf_offset nfr] in Hn, Hlt.
  destruct (insert_front n strm l nfr Hq) as (q & -> & Hq').
  { destruct Hc as (_ & _ & Hc'). eapply chain_le; [|exact Hc']. unfold after_frame. cbn. lia. }
  cbn [bind negb Z.eqb]. destruct (middle_vecs (tf_data fr) i v b j w eb Hv Hb Hw Heb Hij ltac:(lia)) as ((v0 & Hv0 & Hb0) & Hcut & v' & Hv' & Hb' & Htk).
  set (data1 := take j (tf_data fr) ++ _) in *. set (fr1 := set_tf_data data1 (set_tf_fin false fr)).
  assert (H1 : part_of fr (tf_offset fr) (r_end r) false fr1).
  { replace (r_end r) with (tf_offset fr + vec_total (take j (tf_data fr)) + eb) by lia. by eapply cut_back; try done; lia. }
  destruct (drop i (take _ (tf_data fr))) as [|v1 T] eqn:ET; [done|]. injection Hv0 as ->.
  rewrite (proj2 (Z.ltb_lt _ _) Hb0), Hcut. cbn [bind]. rewrite (drop_S _ _ _ Hv'), Hu, sync_none by done.
  eexists. split; [done|]. split; [|by right]. split; [auto|]. right. split; [done|]. eexists.
  destruct H1 as [H1 _ H1e _]. edestruct (cut_front fr1 (set_tf_data (ngtcp2_vec_drop v' b :: drop (S i) data1)
    (set_tf_offset gb (set_tf_fin false fr))) i v' b) as [[H2 H2o H2e H2f] H2l]; try done.
  { cbn. rewrite Htk. lia. }
  eapply popped_middle; try done; [lia|]. split; [done|done|by rewrite H2e|done].
Qed.

Lemma pop_data_ok :
  ngtcp2_strm_get_unacked_range_after strm (tf_offset fr) = Ok r ->
  exists o, unacked_pop_data outs strm fr = Ok o /\
  match o with
  | Some res => taken n P lo outs strm fr l res /\ (tf_fin fr = true \/ res.1.1 <> (0, None))
  | None => stale P strm fr false
  end.
Proof.
  intros Hrun. unfold unacked_pop_data. rewrite Hrun. cbn [bind].
  pose proof (scan_begin P fr r Hok Hdata Hr) as Hb. cbv zeta in Hb. destruct (skip_acked _ _ _ _) as [[i o] b].
  destruct (i =? length (tf_data fr))%nat.
  - assert (Hst : forall x, frame_has fr x -> ~ ~ P x) by (intros x; by eapply stale_data).
    destruct (tf_fin fr) eqn:Hfin.
    + pose proof Hc as (_ & Hnil & _). specialize (Hnil Hfin).
      destruct (has_flag strm NGTCP2_STRM_FLAG_FIN_ACKED) eqn:Hack.
      * rewrite (none_left_run _ _ _ Hq), Hnil. cbn [bind length Nat.eqb]. eexists. split; [done|]. split; [|by left]. split; [done|].
        right. split; [done|]. split; [done|]. exists true. done.
      * eexists. split; [done|]. split; [|by left]. eapply fin_taken; try done; [by apply queue_room|]. by rewrite data_end.
    + destruct (_ && _) eqn:Hz; [|eexists; split; done]. apply andb_true_iff in Hz as [Hz _].
      rewrite !andb_true_iff, !Z.eqb_eq, Nat.eqb_eq in Hz. destruct Hz as [[Hz1 Hz2] Hz3]. eexists. split; [done|].
      split; [|by right]. split; [done|]. right. split; [done|]. exists l. apply popped_whole; try done; [by apply queue_room| |by rewrite Hfin].
      intros x Hx. unfold frame_has, frame_end, frame_len in Hx. rewrite data_vecs, (nil_length_inv _ Hz2) in Hx by done. cbn in Hx. lia.
  - pose proof Hb as (Ho & Hob & Hu & v & Hv & Hvb). rewrite Hu, Z.eqb_refl.
    pose proof (scan_end P fr r i o b gb Hok Hdata Hr eq_refl Hb) as He. destruct (find_end _ _ _ _) as [[j eo] eb].
    destruct (length (tf_data fr) =? j)%nat eqn:Ej.
    + rewrite !andb_true_r. destruct ((tf_offset fr =? o) && (b =? 0)) eqn:Ew.
      * apply andb_true_iff in Ew as [Eo%Z.eqb_eq Eb%Z.eqb_eq]. eexists. split; [done|]. split; [|by right].
        split; [done|]. right. split; [done|]. exists l. apply popped_whole; try done; [by apply queue_room| |].
        -- unfold frame_has. intros x Hx. destruct Hr as [_ Hr2 _]. apply Hr2. lia.
        -- intros Hz. unfold frame_len in Hz. rewrite data_vecs in Hz by done. pose proof (tk_vecs _ _ _ _ _ _ Hok) as Hp.
           rewrite data_vecs in Hp by done. destruct (tf_data fr) eqn:E; [done|]. pose proof (vec_total_pos _ Hp ltac:(done)). lia.
      * destruct (take_front i o b Hb He) as (data & -> & Ht). cbn [bind]. eexists. split; [done|]. split; [exact Ht|by right].
    + rewrite !andb_false_r. destruct He as (He1 & He2 & He3).
      destruct (take_middle i o b j eo eb Hb He1 He2 He3) as (res & -> & Ht & Hn). eexists. by split_and!.
Qed.
End Data.

(** ** A frame whose data are in a retained buffer *)
Lemma txbuf_vecs fr buf : tf_txbuf fr = Some buf -> frame_vecs fr = [mk_vec (tb_pos buf) (txbuf_len buf)].
Proof. unfold frame_vecs. by intros ->. Qed.

Lemma txbuf_frame_len fr buf : tf_txbuf fr = Some buf -> frame_len fr = txbuf_len buf.
Proof. intros H. unfold frame_len. rewrite (txbuf_vecs _ _ H). cbn. lia. Qed.

(** [fr'] is [fr] from the offset [b] to the offset [e]. *)
Lemma cut_txbuf fr fr' buf buf' b e (fin : bool) :
  tx_frame_ok fr -> tf_txbuf fr = Some buf -> tf_txbuf fr' = Some buf' -> tf_data fr' = [] ->
  tf_offset fr <= b < e -> e <= frame_end fr ->
  tb_pos buf' = tb_pos buf + (b - tf_offset fr) -> txbuf_len buf' = e - b ->
  tf_offset fr' = b -> tf_fin fr' = fin -> (fin = true -> e = frame_end fr /\ tf_fin fr = true) ->
  tf_type fr' = tf_type fr -> tf_stream_id fr' = tf_stream_id fr -> part_of fr b e fin fr'.
Proof.
  intros Hok Hb Hb' Hd Hbe He Hpos Hlen Ho Hf Hfin Hty Hid.
  pose proof (txbuf_frame_len _ _ Hb) as El. unfold frame_end in *. rewrite El in *.
  set (n1 := b - tf_offset fr). set (n3 := tf_offset fr + txbuf_len buf - e).
  apply (part_intro mem stream ty sid size fr fr' (vec_bytes mem (mk_vec (tb_pos buf) n1))
    (vec_bytes mem (mk_vec (tb_pos buf' + txbuf_len buf') n3))); try done.
  - unfold frame_data. rewrite (txbuf_vecs _ _ Hb), (txbuf_vecs _ _ Hb'), !content_one.
    replace (txbuf_len buf) with (n1 + (txbuf_len buf' + n3)) by lia.
    rewrite vec_bytes_cut by lia. f_equal. rewrite vec_bytes_cut by lia. subst n1. by rewrite Hpos.
  - rewrite vec_bytes_len; cbn; lia.
  - unfold frame_end. rewrite El, vec_bytes_len; cbn; lia.
  - rewrite (txbuf_vecs _ _ Hb'). constructor; [cbn; lia|constructor].
  - by rewrite Hd.
  - intros Ht. destruct (Hfin Ht) as [E ?]. split; [|done]. subst n3. by replace (_ - e) with 0 by lia.
  - left. lia.
Qed.

Section Txbuf.
Context (n : nat) (P : Z -> Prop) (lo : Z) (outs : list Z) (strm : ngtcp2_strm) (fr : tx_frame) (l : list tx_frame).
Context (r : ngtcp2_range) (buf : tx_buf).
Context (Hok : tx_frame_ok fr) (Hl : Forall tx_frame_ok l) (Hc : chain lo (fr :: l)) (Hq : queue_rep (S n) strm l)
  (Hr : unacked_range P (tf_offset fr) r) (Hbuf : tf_txbuf fr = Some buf).
#[local] Set Default Proof Using "All".

#[local] Abbreviation gb := (Z.max (r_begin r) (tf_offset fr)).

Lemma txbuf_end : u64 (tf_offset fr + txbuf_len buf) = frame_end fr.
Proof.
  rewrite <- (txbuf_frame_len _ _ Hbuf). apply (frame_u64 fr); [done|]. pose proof (size_range _ Hok). unfold frame_end. lia.
Qed.

Lemma pop_txbuf_ok :
  ngtcp2_strm_get_unacked_range_after strm (tf_offset fr) = Ok r ->
  exists res, strm_streamfrq_unacked_pop_txbuf outs strm fr = Ok res /\ taken n P lo outs strm fr l res.
Proof.
  intros Hrun. unfold strm_streamfrq_unacked_pop_txbuf. rewrite Hbuf, Hrun, txbuf_end. cbn [bind].
  pose proof (size_range _ Hok) as Hs. pose proof (txbuf_frame_len _ _ Hbuf) as El. pose proof Hr as [Hr1 Hr2 _].
  pose proof (tk_txbuf _ _ _ _ _ _ Hok ltac:(by rewrite Hbuf)) as Hnil.
  assert (Elast : tb_last buf = tb_pos buf + txbuf_len buf) by (unfold txbuf_len; lia).
  destruct (Z.leb_spec (frame_end fr) gb) as [Hle|Hgt].
  - assert (Hst : forall x, frame_has fr x -> ~ ~ P x) by (intros x; by eapply stale_data).
    destruct (tf_fin fr) eqn:Hfin; [destruct (has_flag strm NGTCP2_STRM_FLAG_FIN_ACKED) eqn:Hack|].
    + pose proof Hc as (_ & Hl0 & _). rewrite (none_left_run _ _ _ Hq), (Hl0 Hfin). eexists. split; [done|]. split; [done|].
      right. split; [done|]. split; [done|]. by exists true.
    + eexists. split; [done|]. eapply fin_taken; try done; [by apply queue_room|].
      unfold set_tf_data, set_tf_offset. cbn. by rewrite Hnil.
    + eexists. split; [done|]. split; [done|]. right. split; [done|]. split; [done|]. by exists false.
  - unfold frame_end in *. destruct (_ && _) eqn:Ew.
    + apply andb_true_iff in Ew as [Eb%Z.eqb_eq Ee%Z.eqb_eq]. eexists. split; [done|]. split; [done|]. right. split; [done|].
      exists l. apply popped_whole; try done; [by apply queue_room| |lia].
      unfold frame_has, frame_end. intros x Hx. apply Hr2. lia.
    + clear Ew. destruct (Z.ltb_spec (Z.min (r_end r) (tf_offset fr + frame_len fr)) (tf_offset fr + frame_len fr)) as [Hlt|Hge].
      * rewrite Z.min_l in * by lia. destruct (ngtcp2_frame_chain_stream_datacnt_objalloc_new _ _) as [nfr outs1] eqn:E1.
        destruct (objalloc_new_fails _ _ _ _ E1) as [[->|[-> Hf]] Ho1]; [|eexists; split; [done|]; split; [done|]; by left].
        destruct (next_outcome outs1) as [rv outs2] eqn:E2. destruct (next_outcome_fails _ _ _ E2) as [Hf Ho2].
        unfold ngtcp2_stream_copy_txbuf, ngtcp2_stream_set_txbuf. rewrite Hbuf. cbn [tf_txbuf].
        destruct (Z.eqb_spec rv 0) as [->|Hrv]; cbn [negb bind];
          [|rewrite (proj2 (Z.eqb_neq _ _) Hrv); eexists; split; [done|]; split; [auto|]; left; auto].
        set (nfr := set_tf_txbuf (Some (mk_txbuf _ (tb_last buf))) _).
        destruct (insert_front n strm l nfr Hq) as (q & -> & Hq').
        { destruct Hc as (_ & _ & Hc'). eapply chain_le; [|exact Hc']. unfold after_frame, frame_end. cbn. lia. }
        eexists. split; [done|]. split; [auto|]. right. split; [done|]. eexists.
        eapply popped_middle; try done; [unfold frame_end; lia| |].
        -- eapply cut_txbuf; try done; unfold frame_end, txbuf_len in *; cbn; lia.
        -- eapply cut_txbuf; try done; unfold frame_end, txbuf_len in *; cbn; lia.
      * destruct (queue_same _ _ _ Hq) as [q Eq]. eexists. split; [done|]. split; [done|]. right. split; [done|]. exists l.
        set (fr' := set_tf_offset _ _). assert (Hpart : part_of fr gb (frame_end fr) (tf_fin fr) fr').
        { eapply cut_txbuf; try done; unfold frame_end, txbuf_len in *; cbn; lia. }
        rewrite Eq at 2. eapply popped_end; try done.
        -- apply queue_room. by rewrite <- Eq.
        -- rewrite Z.min_r by (unfold frame_end; lia). exact Hpart.
        -- left. unfold frame_end. lia.
        -- destruct Hpart as [_ Hpo Hpe _]. unfold frame_end in *. lia.
Qed.
End Txbuf.
End Pop.
