(* ===== verification/StrmTxLoop.v ===== *)
(** * Data to be sent again: the search through the queue

    The loops of [strm_streamfrq_unacked_pop] and of
    [ngtcp2_strm_streamfrq_unacked_offset], and that they agree. *)

From S2P Require Import Prelude Const Ksl KslInv KslIter KslSpec KslMap Gaptr Vec FrameChain Reorder Strm StrmTx StrmTxInv StrmTxPop.
From stdpp Require Import list.
#[local] Open Scope Z_scope.
#[local] Set Warnings "-clear-no-such-hyp".
#[local] Set Default Proof Using "Type".

Implicit Types (strm : ngtcp2_strm) (fr nfr : tx_frame) (outs : list Z) (it : ngtcp2_ksl_it)
  (q : ngtcp2_streamfrq) (l : list tx_frame) (P : Z -> Prop).

(** What stays the same when the queue changes. *)
Lemma tracks_streamfrq m P strm q : tx_tracks m P strm -> tx_tracks m P (set_streamfrq q strm).
Proof. done. Qed.

Lemma set_streamfrq_twice strm q q' : set_streamfrq q (set_streamfrq q' strm) = set_streamfrq q strm.
Proof. done. Qed.

Lemma keyed_key l fr : key_equal ngtcp2_ksl_uint64_less (tf_offset fr, fr).1 (tf_offset fr) = true.
Proof. unfold key_equal, ngtcp2_ksl_uint64_less. cbn. by rewrite Z.ltb_irrefl. Qed.

Section Loop.
Context (mem stream : Z -> Z) (ty sid size : Z).
#[local] Abbreviation tx_frame_ok := (tx_frame_ok mem stream ty sid size).
#[local] Abbreviation popped := (popped mem stream ty sid size).
#[local] Abbreviation taken := (taken mem stream ty sid size).

(** What [strm_streamfrq_unacked_pop] does with the frames [l]. *)
Definition next_ok n P lo outs strm l (r : pop_result) : Prop :=
  let '(rv, pfr, strm', outs') := r in
  (forall rv, fails outs' rv -> fails outs rv) /\
  (pfr = None /\ fails outs rv \/
   rv = 0 /\ match pfr with
             | None => (exists q, strm' = set_streamfrq q strm) /\ queue_rep n strm' [] /\
                 (forall x, ~ pending P l x) /\
                 (has_fin l = true -> has_flag strm NGTCP2_STRM_FLAG_FIN_ACKED = true)
             | Some fr' => l <> [] /\ exists l', popped n P lo strm l strm' fr' l'
             end).

(** The frame at the head goes away. *)
Lemma next_stale n P lo outs q strm fr fin l r :
  stale P strm fr fin -> chain lo (fr :: l) ->
  next_ok n P (after_frame fr) outs (set_streamfrq q strm) l r -> next_ok n P lo outs strm (fr :: l) r.
Proof.
  intros (Hf & Hst & Hack) (Hlo & Hnil & _). destruct r as [[[rv pfr] strm'] outs']. intros [Ho Hr]. split; [done|].
  destruct Hr as [Hr|[Hrv Hr]]; [by left|right]. split; [done|].
  assert (Hp : forall x, pending P (fr :: l) x <-> pending P l x).
  { intros x. rewrite pending_cons. split; [|by right]. intros [[Hx Hn]|?]; [by destruct (Hst x Hx)|done]. }
  destruct pfr as [fr'|].
  - destruct Hr as [Hl [l' [(q' & Hs) Hq Hfs Hfr Hc Hfresh Hpend Hfin Hemp Hw Hsol]]]. split; [done|]. exists l'.
    assert (Hfin' : tf_fin fr = false). { destruct (tf_fin fr); [by rewrite Hnil in Hl|done]. }
    split; try done.
    + by exists q'.
    + destruct Hc as (? & ? & ?). split_and!; [unfold after_frame in *; lia|done|done].
    + intros x. by rewrite Hp, Hpend.
    + rewrite Hfin. cbn. by rewrite Hfin'.
    + intros x ?%Hw. apply some_has_cons. by right.
    + by intros [_ ?%Hsol]%Forall_cons_iff.
  - destruct Hr as ((q' & Hs) & Hq & Hn & Hfin). split_and!; try done; [by exists q'|intros x; by rewrite Hp|].
    cbn [has_fin existsb]. destruct (tf_fin fr) eqn:E; [|done]. intros _. apply Hack. by rewrite <- Hf.
Qed.

Lemma next_taken n P lo outs q strm fr l r :
  chain lo (fr :: l) -> queue_rep n (set_streamfrq q strm) l ->
  taken n P lo outs (set_streamfrq q strm) fr l r -> (forall fr strm' outs', r <> (0, None, strm', outs')) ->
  next_ok n P lo outs strm (fr :: l) r.
Proof.
  intros Hc Hq. destruct r as [[[rv pfr] strm'] outs']. intros [Ho Hr] Hsome. split; [done|].
  destruct Hr as [Hr|[Hrv Hr]]; [by left|right]. split; [done|]. destruct pfr as [fr'|].
  - destruct Hr as [l' [(q' & Hs) ? ? ? ? ? ? ? ? ? ?]]. split; [done|]. exists l'. split; try done. by exists q'.
  - destruct (Hsome fr strm' outs'). by rewrite Hrv.
Qed.

Lemma next_outs n P lo outs outs' strm l r :
  (forall rv, fails outs' rv -> fails outs rv) -> next_ok n P lo outs' strm l r -> next_ok n P lo outs strm l r.
Proof. destruct r as [[[rv pfr] strm'] outs'']. intros H [Ho [(? & ?)|Hr]]; (split; [by auto|]); [left; auto|by right]. Qed.

Lemma pop_loop_ok l : forall fuel m n P lo outs strm q it,
  tx_tracks m P strm -> Forall tx_frame_ok l -> chain lo l ->
  tx_streamfrq (strm_tx_half strm) = Some q -> ksl_wf ngtcp2_ksl_uint64_less q -> ksl_room (S n) q ->
  cursor q it [] (keyed l) -> (length l < fuel)%nat ->
  exists r, unacked_pop_loop fuel outs strm it = Ok r /\ next_ok n P lo outs strm l r.
Proof.
  induction l as [|fr l IH]; intros fuel m n P lo outs strm q it Htr Hl Hc Hsq Hwf Hroom Hcur Hfuel;
    (destruct fuel as [|fuel]; [cbn in Hfuel; lia|]); cbn [unacked_pop_loop];
    (unfold streamfrq at 1); rewrite Hsq; cbn [bind]; rewrite (cursor_it_end q it _ _ Hcur).
  - eexists. split; [done|]. split; [done|]. right. split; [done|]. split_and!; [|exists q|by intros x ?%pending_nil|done].
    + exists q. by rewrite set_streamfrq_same.
    + split_and!; [done|done|by apply room_le|]. by apply cursor_elems in Hcur.
  - apply Forall_cons_iff in Hl as [Hok Hl].
    rewrite bool_decide_eq_false_2 by done. cbn [keyed map] in Hcur. rewrite (cursor_it_get q it _ _ _ Hcur). cbn [bind snd].
    destruct (remove_hint_run _ q it [] (tf_offset fr, fr) (keyed l) (tf_offset fr) Hwf Hcur (keyed_key l fr))
      as (q' & it' & -> & [Hwf' _ _ Hav Hh Hcur']). cbn [bind].
    assert (Hroom' : ksl_room (S n) q') by (unfold ksl_room in *; nia).
    assert (Hq' : queue_rep (S n) (set_streamfrq q' strm) l).
    { exists q'. split_and!; try done. by apply cursor_elems in Hcur'. }
    pose proof (size_range _ _ _ _ _ _ Hok) as Hs.
    destruct (unacked_range_run m P (set_streamfrq q' strm) (tf_offset fr) Htr) as (r & Hrun & Hr); [unfold NGTCP2_MAX_VARINT; lia|].
    assert (Hrec : forall fin outs', (forall rv, fails outs' rv -> fails outs rv) -> stale P (set_streamfrq q' strm) fr fin -> exists r,
      unacked_pop_loop fuel outs' (set_streamfrq q' strm) it' = Ok r /\ next_ok n P lo outs strm (fr :: l) r).
    { intros fin outs' Ho Hst. pose proof Hc as (Hc1 & Hc2 & Hc3). cbn [length] in Hfuel.
      destruct (IH fuel m n P (after_frame fr) outs' (set_streamfrq q' strm) q' it' Htr Hl Hc3 eq_refl Hwf' Hroom' Hcur' ltac:(lia))
        as (res & E & Hn). exists res. split; [done|]. eapply next_outs; [exact Ho|]. by eapply next_stale. }
    pose proof (queue_room _ _ _ Hq') as Hqn.
    destruct (tf_txbuf fr) as [buf|] eqn:Hbuf.
    + destruct (pop_txbuf_ok mem stream ty sid size n P lo outs _ fr l r buf Hok Hl Hc Hq' Hr Hbuf Hrun) as (res & -> & Ht).
      destruct res as [[[rv pfr] strm'] outs']. cbn [bind]. destruct pfr as [fr'|].
      { eexists. split; [done|]. eapply next_taken; [done|exact Hqn|exact Ht|done]. }
      destruct (Z.eqb_spec rv 0) as [->|Hrv].
      * destruct Ht as [Ho [(_ & ? & _)|(_ & -> & fin & Hst)]]; [done|]. exact (Hrec fin outs' Ho Hst).
      * eexists. split; [done|]. eapply next_taken; [done|exact Hqn|exact Ht|congruence].
    + destruct (pop_data_ok mem stream ty sid size n P lo outs _ fr l r Hok Hl Hc Hq' Hr Hbuf Hrun) as ([res|] & -> & Ht);
        cbn [bind]; [|by eapply Hrec].
      destruct Ht as [Ht Hfin]. eexists. split; [done|]. destruct res as [[[rv pfr] strm'] outs'].
      destruct (decide (tf_fin fr = true)) as [Ef|Ef]; [destruct pfr as [fr'|]; [|destruct (Z.eq_dec rv 0) as [->|Hrv]]|].
      * eapply next_taken; [done|exact Hqn|exact Ht|congruence].
      * destruct Ht as [Ho [(_ & ? & _)|(_ & -> & fin & Hst)]]; [done|]. apply (next_stale n P lo outs q' strm fr fin); [exact Hst|exact Hc|].
        destruct Hc as (_ & Hnil & _). specialize (Hnil Ef). subst l. split; [done|]. right. split; [done|].
        split_and!; [by exists q'|done|by intros x ?%pending_nil|done].
      * eapply next_taken; [done|exact Hqn|exact Ht|congruence].
      * eapply next_taken; [done|exact Hqn|exact Ht|]. destruct Hfin as [?|Hne]; [done|]. cbn in Hne. congruence.
Qed.

Lemma unacked_pop_ok m n P lo outs strm l :
  tx_tracks m P strm -> Forall tx_frame_ok l -> chain lo l -> queue_rep (S n) strm l -> l <> [] ->
  exists r, strm_streamfrq_unacked_pop outs strm = Ok r /\ next_ok n P lo outs strm l r.
Proof.
  intros Htr Hl Hc Hq Hne. pose proof Hq as (q & Eq & Hwf & Hroom & HE). pose proof (queue_len _ _ _ _ Hq Eq) as Hlen.
  unfold strm_streamfrq_unacked_pop, streamfrq. rewrite Eq. cbn [bind]. rewrite Hlen.
  rewrite (proj2 (Nat.eqb_neq _ _)) by (by destruct l). cbn [negb].
  eapply pop_loop_ok; try done; [|lia]. rewrite <- HE. by eapply cursor_begin.
Qed.

(** ** Where the next frame starts *)
Definition starts P lo l (o : Z) : Prop :=
  lo <= o /\
  (pending P l o /\ (forall x, pending P l x -> o <= x) \/
   (forall x, ~ pending P l x) /\ (o = size \/ o = UINT64_MAX)).

Lemma starts_cons P lo fr l o :
  (forall x, frame_has fr x -> ~ ~ P x) -> chain lo (fr :: l) -> starts P (after_frame fr) l o -> starts P lo (fr :: l) o.
Proof.
  intros Hst (Hlo & _ & _) [Ho Hs].
  assert (Hp : forall x, pending P (fr :: l) x <-> pending P l x).
  { intros x. rewrite pending_cons. split; [|by right]. intros [[Hx Hn]|?]; [by destruct (Hst x Hx)|done]. }
  split; [unfold after_frame in Ho; lia|]. destruct Hs as [[H1 H2]|[H1 H2]]; [left|right].
  - split; [by apply Hp|]. intros x ?%Hp. by apply H2.
  - split; [|done]. intros x ?%Hp. by apply (H1 x).
Qed.

(** The frame at the head is the next one. *)
Lemma starts_here P lo fr l o :
  chain lo (fr :: l) -> tf_offset fr <= o < frame_end fr -> (forall x, tf_offset fr <= x < o -> ~ ~ P x) -> ~ P o ->
  starts P lo (fr :: l) o.
Proof.
  intros (Hlo & _ & Hc) Ho Hb Hn. split; [lia|]. left. split; [apply pending_cons; left; split; [unfold frame_has; lia|done]|].
  intros x [[Hx Hp]|(fr' & Hin & Hx & _)]%pending_cons.
  - destruct (Z.le_gt_cases o x); [done|]. unfold frame_has in Hx. by destruct (Hb x ltac:(lia)).
  - pose proof (chain_offsets _ _ _ Hc Hin). unfold frame_has, after_frame in *. lia.
Qed.

Lemma starts_fin P lo fr l :
  tx_frame_ok fr -> chain lo (fr :: l) -> tf_fin fr = true -> (forall x, frame_has fr x -> ~ ~ P x) ->
  starts P lo (fr :: l) (frame_end fr).
Proof.
  intros Hok (Hlo & Hnil & _) Hf Hst. pose proof (size_range _ _ _ _ _ _ Hok). rewrite (Hnil Hf).
  split; [unfold frame_end; lia|]. right. split; [|left; by apply Hok].
  intros x [[Hx Hp]|?%pending_nil]%pending_cons; [by destruct (Hst x Hx)|done].
Qed.

Lemma offset_loop_ok l : forall fuel m P lo strm q it A,
  tx_tracks m P strm -> Forall tx_frame_ok l -> chain lo l -> 1 <= lo <= NGTCP2_MAX_VARINT + 1 ->
  ksl_wf ngtcp2_ksl_uint64_less q -> cursor q it A (keyed l) -> (length l < fuel)%nat ->
  exists o, unacked_offset_loop fuel strm q it = Ok o /\ starts P lo l o.
Proof.
  assert (HM : UINT64_MAX = 18446744073709551615) by reflexivity.
  assert (HV : NGTCP2_MAX_VARINT = 4611686018427387903) by reflexivity.
  induction l as [|fr l IH]; intros fuel m P lo strm q it A Htr Hl Hc Hlo Hwf Hcur Hfuel;
    (destruct fuel as [|fuel]; [cbn in Hfuel; lia|]); cbn [unacked_offset_loop]; rewrite (cursor_it_end q it _ _ Hcur).
  { eexists. split; [done|]. split; [lia|]. right. split; [by intros x ?%pending_nil|by right]. }
  pose proof Hl as [Hok Hl']%Forall_cons_iff. pose proof (size_range _ _ _ _ _ _ Hok) as Hs. pose proof Hc as (Hlo' & Hnil & Hc').
  rewrite bool_decide_eq_false_2 by done. cbn [keyed map] in Hcur. rewrite (cursor_it_get q it _ _ _ Hcur). cbn [bind snd].
  destruct (unacked_range_run m P strm (tf_offset fr) Htr) as (r & -> & Hr); [lia|]. cbn [bind].
  rewrite (datalen_ok _ _ _ _ _ _ Hok). fold (frame_end fr). unfold frame_end at 1 2 3.
  rewrite (frame_u64 mem stream ty sid size fr) by (try done; unfold frame_end; lia). fold (frame_end fr).
  pose proof Hr as [Hr1 Hr2 Hr3].
  destruct (Z.leb_spec (r_begin r) (tf_offset fr)) as [H1|H1]; [|destruct (Z.ltb_spec (r_begin r) (frame_end fr)) as [H2|H2]].
  - eexists. split; [done|]. destruct (Z.eq_dec (frame_len fr) 0) as [E|E].
    + destruct (tk_empty _ _ _ _ _ _ Hok E) as [Hf|?]; [|lia]. replace (tf_offset fr) with (frame_end fr) by (unfold frame_end; lia).
      apply starts_fin; try done. unfold frame_has, frame_end. lia.
    + apply starts_here; try done; [unfold frame_end; lia|lia|]. apply Hr2. lia.
  - eexists. split; [done|]. apply starts_here; [done|lia|intros x ?; apply Hr3; lia|apply Hr2; lia].
  - assert (Hst : forall x, frame_has fr x -> ~ ~ P x) by (intros x Hx; apply Hr3; unfold frame_has in Hx; lia).
    destruct (_ && _) eqn:Hf.
    + eexists. split; [done|]. rewrite !andb_true_iff in Hf. destruct Hf as [[_ Hf] _]. by apply starts_fin.
    + destruct (IH fuel m P (after_frame fr) strm q (ngtcp2_ksl_it_next q it) (A ++ [(tf_offset fr, fr)]) Htr Hl' Hc') as (o & E & Ho);
        [unfold after_frame, frame_end; lia|done|by eapply cursor_next|cbn in Hfuel; lia|].
      exists o. split; [done|]. by apply starts_cons.
Qed.

Lemma unacked_offset_ok m n P lo strm l :
  tx_tracks m P strm -> Forall tx_frame_ok l -> chain lo l -> 1 <= lo <= NGTCP2_MAX_VARINT + 1 ->
  queue_rep n strm l -> l <> [] ->
  exists o, ngtcp2_strm_streamfrq_unacked_offset strm = Ok o /\ starts P lo l o.
Proof.
  intros Htr Hl Hc Hlo Hq Hne. pose proof Hq as (q & Eq & Hwf & Hroom & HE). pose proof (queue_len _ _ _ _ Hq Eq) as Hlen.
  unfold ngtcp2_strm_streamfrq_unacked_offset, streamfrq. rewrite Eq. cbn [bind]. rewrite Hlen.
  rewrite (proj2 (Nat.eqb_neq _ _)) by (by destruct l). cbn [negb].
  eapply offset_loop_ok; try done; [|lia]. rewrite <- HE. by eapply cursor_begin.
Qed.

(** The two agree. *)
Lemma starts_popped n P lo strm l o strm' fr' l' :
  popped n P lo strm l strm' fr' l' -> starts P lo l o -> 1 <= lo -> o <> UINT64_MAX -> tf_offset fr' = o.
Proof.
  intros [_ _ Hok' Hok Hc Hfresh Hp _ _ _ _] [Ho Hs] Hlo Hne. pose proof Hc as (Hlo' & Hnil & Hc').
  pose proof (size_range _ _ _ _ _ _ Hok) as Hsz.
  destruct (Z.eq_dec (frame_len fr') 0) as [E|E].
  - destruct (tk_empty _ _ _ _ _ _ Hok E) as [Hf|?]; [|lia]. pose proof (tk_fin _ _ _ _ _ _ Hok Hf) as Hfin.
    destruct Hs as [[H1 _]|[_ [->|?]]]; [|unfold frame_end in Hfin; lia|done].
    apply Hp in H1 as [Hx|H1]; [unfold frame_has, frame_end in Hx; lia|]. rewrite (Hnil Hf) in H1. by apply pending_nil in H1.
  - assert (H0 : pending P l (tf_offset fr')) by (apply Hp; left; unfold frame_has, frame_end; lia).
    destruct Hs as [[H1 H2]|[H1 _]]; [|by destruct (H1 _ H0)]. specialize (H2 _ H0).
    apply Hp in H1 as [Hx|(fr & Hin & Hx & _)]; [unfold frame_has in Hx; lia|].
    pose proof (chain_offsets _ _ _ Hc' Hin). unfold frame_has, after_frame in *. lia.
Qed.
End Loop.
