(* ===== verification/StrmTxSpec.v ===== *)
(** * Data to be sent again: taking a frame of a given size

    [ngtcp2_strm_streamfrq_pop]: the frame that is taken is cut to the size
    asked for, or grows by the frames behind it. *)

From S2P Require Import Prelude Const Ksl KslInv KslIter KslSearch KslSpec KslMap Gaptr Vec FrameChain Reorder Strm StrmTx StrmTxInv StrmTxPop StrmTxLoop.
From stdpp Require Import list.
#[local] Open Scope Z_scope.
#[local] Set Warnings "-clear-no-such-hyp".
#[local] Set Default Proof Using "Type".

Implicit Types (strm : ngtcp2_strm) (fr nfr cur : tx_frame) (outs : list Z) (it : ngtcp2_ksl_it)
  (q : ngtcp2_streamfrq) (l : list tx_frame) (P : Z -> Prop).

Lemma queue_le n k strm l : (k <= n)%nat -> queue_rep n strm l -> queue_rep k strm l.
Proof. induction 1; [done|]. intros H'. apply IHle. by apply queue_room. Qed.

Lemma some_has_app held l x : some_has (held ++ l) x <-> some_has held x \/ some_has l x.
Proof.
  induction held as [|fr held IH]; cbn [app]; [|rewrite !some_has_cons, IH; tauto].
  split; [by right|]. by intros [(fr & ?%elem_of_nil & _)|?].
Qed.

Section Spec.
(** [room]: the memory that is left for the list. *)
Context (mem stream : Z -> Z) (ty sid size : Z) (room : nat).
#[local] Abbreviation tx_frame_ok := (tx_frame_ok mem stream ty sid size).
#[local] Abbreviation part_of := (part_of mem stream ty sid size).
#[local] Abbreviation popped := (popped mem stream ty sid size).
#[local] Abbreviation next_ok := (next_ok mem stream ty sid size).

(** The frames [held] were taken out of the queue [l0], and [l] are left. *)
Record holding P strm0 l0 (held : list tx_frame) strm l : Prop := {
  hd_same : exists q, strm = set_streamfrq q strm0;
  hd_frames : Forall tx_frame_ok (held ++ l);
  hd_chain : chain 0 (held ++ l);
  hd_fresh : forall fr x, fr ∈ held -> frame_has fr x -> ~ P x;
  hd_pending : forall x, pending P l0 x <-> pending P (held ++ l) x;
  hd_fin : has_fin (held ++ l) = true -> has_fin l0 = true;
  hd_fin_kept : has_fin l0 = true -> has_fin (held ++ l) = true \/ has_flag strm0 NGTCP2_STRM_FLAG_FIN_ACKED = true;
  hd_within : forall x, some_has (held ++ l) x -> some_has l0 x;
  hd_solid : Forall solid l0 -> Forall solid (held ++ l);
}.

Lemma popped_holding n P strm l strm' fr' l' :
  popped n P 0 strm l strm' fr' l' -> holding P strm l [fr'] strm' l'.
Proof.
  intros [Hs Hq Hl Hok Hc Hf Hp Hfin _ Hw Hsol]. split; cbn [app]; try done; [by constructor| | |by rewrite Hfin|by left; rewrite Hfin].
  - intros fr x ->%list_elem_of_singleton. apply Hf.
  - intros x. rewrite Hp, pending_cons. pose proof (Hf x). tauto.
Qed.

(** Back into the queue. *)
Lemma put_back_ok n outs strm fr l :
  queue_rep (S n) strm l -> chain (tf_offset fr + 1) l ->
  exists q, put_back outs strm fr = Ok (0, set_streamfrq q strm) /\ queue_rep n (set_streamfrq q strm) (fr :: l).
Proof.
  intros Hq Hc. unfold put_back. destruct (insert_front n strm l fr Hq Hc) as (q & -> & H). by exists q.
Qed.

Lemma chain_next lo fr l : chain lo (fr :: l) -> chain (tf_offset fr + 1) l.
Proof. intros (_ & _ & H). eapply chain_le; [|exact H]. unfold after_frame. lia. Qed.

Lemma holding_back P strm0 l0 held fr strm l q :
  holding P strm0 l0 (held ++ [fr]) strm l -> holding P strm0 l0 held (set_streamfrq q strm) (fr :: l).
Proof.
  intros [(q' & ->) H1 H2 H3 H4 H5 H6 H7 H8]. rewrite <- app_assoc in *. split; try done; [by exists q|].
  intros fr' x Hin. apply H3, elem_of_app. by left.
Qed.

Lemma pending_held P held l x : pending P (held ++ l) x <-> (some_has held x /\ ~ P x) \/ pending P l x.
Proof.
  unfold pending, some_has. setoid_rewrite elem_of_app. split.
  - intros (fr & [?|?] & ? & ?); [left|right]; eauto.
  - intros [[(fr & ? & ?) ?]|(fr & ? & ? & ?)]; eauto.
Qed.

Lemma has_fin_app held l : has_fin (held ++ l) = has_fin held || has_fin l.
Proof. apply existsb_app. Qed.

(** The frames that were taken out are arranged in another way. *)
Lemma holding_change P strm0 l0 held held' strm l :
  holding P strm0 l0 held strm l -> Forall tx_frame_ok held' -> chain 0 (held' ++ l) ->
  (forall x, some_has held' x <-> some_has held x) -> has_fin held' = has_fin held ->
  (Forall solid held -> Forall solid held') -> holding P strm0 l0 held' strm l.
Proof.
  intros [Hs Hl Hc Hf Hp Hfin Hfin' Hw Hsol] Hok Hc' Hhas Hff Hso. rewrite has_fin_app in *. split; rewrite ?has_fin_app, ?Hff; try done.
  - apply Forall_app. split; [done|]. by apply Forall_app in Hl as [_ ?].
  - intros fr x Hin Hx. destruct (proj1 (Hhas x)) as (fr' & Hin' & Hx'); [by exists fr|]. by apply (Hf fr').
  - intros x. rewrite Hp, !pending_held, Hhas. done.
  - intros x. rewrite some_has_app, Hhas, <- some_has_app. apply Hw.
  - intros [? ?]%Hsol%Forall_app. apply Forall_app. auto.
Qed.

Lemma solid_pos fr : 0 < frame_len fr -> solid fr.
Proof. unfold solid. lia. Qed.

Lemma some_has_one fr x : some_has [fr] x <-> frame_has fr x.
Proof. unfold some_has. setoid_rewrite list_elem_of_singleton. split; [by intros (? & -> & ?)|intros; by exists fr]. Qed.

Lemma some_has_two fr nfr x : some_has [fr; nfr] x <-> frame_has fr x \/ frame_has nfr x.
Proof.
  unfold some_has. setoid_rewrite elem_of_cons. setoid_rewrite list_elem_of_singleton. split.
  - intros (? & [->| ->] & ?); auto.
  - intros [?|?]; [exists fr|exists nfr]; auto.
Qed.

(** The frame is cut in two. *)
Lemma holding_cut P strm0 l0 fr strm l b q fr' nfr :
  holding P strm0 l0 [fr] strm l -> tf_offset fr < b < frame_end fr ->
  part_of fr (tf_offset fr) b false fr' -> part_of fr b (frame_end fr) (tf_fin fr) nfr ->
  holding P strm0 l0 [fr'] (set_streamfrq q strm) (nfr :: l).
Proof.
  intros Hh Hb [Hok1 Ho1 He1 Hf1] [Hok2 Ho2 He2 Hf2]. apply (holding_back P strm0 l0 [fr'] nfr). cbn [app].
  pose proof (hd_chain _ _ _ _ _ _ Hh) as (Hc1 & Hc2 & Hc3).
  apply (holding_change P strm0 l0 [fr]); [done|constructor; [done|by constructor]| | | |].
  - cbn [chain app]. rewrite Hf1, Hf2. unfold after_frame at 1. rewrite Ho1, Ho2, He1. split_and!; [lia|done|lia|done|].
    eapply chain_le; [|exact Hc3]. unfold after_frame. lia.
  - intros x. rewrite some_has_one, some_has_two. unfold frame_has. lia.
  - cbn. by rewrite Hf1, Hf2.
  - intros _. repeat constructor; apply solid_pos; unfold frame_end in *; lia.
Qed.

(** What [ngtcp2_strm_streamfrq_pop] returns. *)
Definition pop_ok P outs strm l (left : Z) (r : pop_result) : Prop :=
  let '(rv, pfr, strm', outs') := r in
  (forall rv, fails outs' rv -> fails outs rv) /\
  (pfr = None /\ fails outs rv \/
   rv = 0 /\ exists l', queue_rep room strm' l' /\ holding P strm l (option_list pfr) strm' l' /\
     match pfr with
     | Some fr' => frame_len fr' <= left
     | None => l' = [] \/ left < NGTCP2_MIN_STREAM_DATALEN
     end).

(** The vectors of a frame are cut in two. *)
Lemma split_data fr left :
  tx_frame_ok fr -> tf_txbuf fr = None -> 0 < left < frame_len fr ->
  exists n ndata fdata, ngtcp2_vec_split [] (tf_data fr) left NGTCP2_MAX_STREAM_DATACNT = Ok (n, ndata, fdata) /\
  fdata <> [] /\ ndata <> [] /\ part_of fr (tf_offset fr) (tf_offset fr + left) false (set_tf_fin false (set_tf_data fdata fr)) /\
  part_of fr (tf_offset fr + left) (frame_end fr) (tf_fin fr)
    (mk_txfr (tf_type fr) 0 (tf_fin fr) (tf_stream_id fr) (tf_offset fr + left) ndata None).
Proof.
  intros Hok Hd Hleft. pose proof (size_range _ _ _ _ _ _ Hok) as Hs. pose proof (tk_vecs _ _ _ _ _ _ Hok) as Hp.
  pose proof (tk_count _ _ _ _ _ _ Hok) as Hcnt.
  unfold frame_end, frame_len in *. rewrite data_vecs in * by done.
  destruct (vec_split_ok mem (tf_data fr) left NGTCP2_MAX_STREAM_DATACNT Hp ltac:(lia) Hcnt ltac:(lia))
    as (ndata & fdata & -> & Hcont & Hft & Hnt & Hnp & Hfp & Hnc & Hfc).
  do 3 eexists. split; [done|]. split; [intros ->; cbn in Hft; lia|]. split; [intros ->; cbn in Hnt; lia|]. split.
  - apply (part_intro mem stream ty sid size fr _ [] (content mem ndata)); try done.
    + unfold frame_data. rewrite !data_vecs by done. cbn [tf_data set_tf_fin set_tf_data app]. by rewrite Hcont.
    + rewrite zlen_nil. lia.
    + unfold frame_end, frame_len. rewrite data_vecs, content_len by done. lia.
    + by rewrite data_vecs.
    + cbn. lia.
    + left. lia.
  - apply (part_intro mem stream ty sid size fr _ (content mem fdata) []); try done.
    + unfold frame_data. rewrite !data_vecs by done. cbn [tf_data]. by rewrite app_nil_r, Hcont.
    + rewrite content_len by done. lia.
    + unfold frame_end, frame_len. rewrite data_vecs, zlen_nil by done. lia.
    + cbn. lia.
    + left. lia.
Qed.

Lemma pop_split_ok n P outs strm0 l0 strm fr l left :
  (room <= n)%nat -> holding P strm0 l0 [fr] strm l -> queue_rep (S n) strm l -> 0 < left < frame_len fr ->
  exists r, pop_split outs strm fr left = Ok r /\ pop_ok P outs strm0 l0 left r.
Proof.
  intros Hroom Hh Hq Hleft. pose proof (hd_frames _ _ _ _ _ _ Hh) as [Hok Hl]%Forall_cons_iff.
  pose proof (chain_next _ _ _ (hd_chain _ _ _ _ _ _ Hh)) as Hc. pose proof (size_range _ _ _ _ _ _ Hok) as Hs.
  unfold pop_split. rewrite (frame_u64 mem stream ty sid size fr) by (try done; unfold frame_end; lia).
  assert (Hdone : forall outs' q fr' nfr, (forall rv, fails outs' rv -> fails outs rv) ->
    part_of fr (tf_offset fr) (tf_offset fr + left) false fr' ->
    part_of fr (tf_offset fr + left) (frame_end fr) (tf_fin fr) nfr -> queue_rep n (set_streamfrq q strm) (nfr :: l) ->
    pop_ok P outs strm0 l0 left (0, Some fr', set_streamfrq q strm, outs')).
  { intros outs' q fr' nfr Ho H1 H2 Hq'. split; [done|]. right. split; [done|]. exists (nfr :: l).
    split; [by eapply queue_le|]. split; [by eapply holding_cut; try done; unfold frame_end; lia|].
    destruct H1 as [_ H1 H1' _]. unfold frame_end in *. lia. }
  assert (Hchain : forall nfr, tf_offset nfr = tf_offset fr + left -> chain (tf_offset nfr + 1) l).
  { intros nfr ->. pose proof (hd_chain _ _ _ _ _ _ Hh) as (_ & _ & Hc'). eapply chain_le; [|exact Hc'].
    unfold after_frame, frame_end. lia. }
  destruct (tf_txbuf fr) as [buf|] eqn:Hbuf.
  - pose proof (txbuf_frame_len _ _ Hbuf) as El. pose proof (tk_txbuf _ _ _ _ _ _ Hok ltac:(by rewrite Hbuf)) as Hnil.
    destruct (ngtcp2_frame_chain_stream_datacnt_objalloc_new _ _) as [nfr outs1] eqn:E1.
    destruct (objalloc_new_fails _ _ _ _ E1) as [[->|[-> Hf]] Ho1]; [|eexists; split; [done|]; split; [done|]; by left].
    destruct (next_outcome outs1) as [rv outs2] eqn:E2. destruct (next_outcome_fails _ _ _ E2) as [Hf Ho2].
    unfold ngtcp2_stream_copy_txbuf, ngtcp2_stream_set_txbuf. rewrite Hbuf. cbn [tf_txbuf].
    destruct (Z.eqb_spec rv 0) as [->|Hrv]; cbn [negb bind];
      [|rewrite (proj2 (Z.eqb_neq _ _) Hrv); eexists; split; [done|]; split; [auto|]; left; auto].
    set (nfr := set_tf_txbuf (Some (mk_txbuf _ (tb_last buf))) _).
    destruct (put_back_ok n outs2 strm nfr l Hq (Hchain nfr eq_refl)) as (q & -> & Hq'). eexists. split; [done|].
    eapply Hdone; [auto| | |exact Hq'].
    + eapply cut_txbuf; try done; unfold frame_end, txbuf_len in *; cbn; lia.
    + eapply cut_txbuf; try done; unfold frame_end, txbuf_len in *; cbn; lia.
  - destruct (split_data fr left Hok Hbuf Hleft) as (k & ndata & fdata & -> & Hfd & Hnd & H1 & H2). cbn [bind].
    destruct fdata as [|v fdata]; [done|]. destruct ndata as [|w ndata]; [done|].
    destruct (ngtcp2_frame_chain_stream_datacnt_objalloc_new _ _) as [nfr outs1] eqn:E1.
    destruct (objalloc_new_fails _ _ _ _ E1) as [[->|[-> Hf]] Ho1]; [|eexists; split; [done|]; split; [done|]; by left].
    destruct (next_outcome outs1) as [rv outs2] eqn:E2. destruct (next_outcome_fails _ _ _ E2) as [_ Ho2].
    rewrite copy_txbuf_none by done. cbn [bind negb Z.eqb]. rewrite !sync_none by done.
    destruct (put_back_ok n outs2 strm _ l Hq (Hchain (mk_txfr (tf_type fr) 0 (tf_fin fr) (tf_stream_id fr) (tf_offset fr + left) (w :: ndata) None) eq_refl)) as (q & -> & Hq'). eexists. split; [done|].
    eapply Hdone; [auto|exact H1|exact H2|exact Hq'].
Qed.

(** Nothing of the other frames is left to be sent. *)
Lemma holding_none P strm0 l0 held strm l q :
  holding P strm0 l0 held strm l -> (forall x, ~ pending P l x) ->
  (has_fin l = true -> has_flag strm NGTCP2_STRM_FLAG_FIN_ACKED = true) ->
  holding P strm0 l0 held (set_streamfrq q strm) [].
Proof.
  intros [(q0 & ->) Hl Hc Hf Hp Hfin Hfin' Hw Hsol] Hnone Hack. rewrite has_fin_app in *. split; rewrite ?app_nil_r; try done.
  - by exists q.
  - by apply Forall_app in Hl as [? _].
  - clear -Hc. revert Hc. generalize 0. induction held as [|fr held IH]; [done|]. intros lo. cbn [app chain].
    intros (? & Hnil & ?). split_and!; [done|by intros [? _]%Hnil%app_eq_nil|by apply IH].
  - intros x. rewrite Hp, pending_held. split.
    + intros [[(fr & ? & ?) ?]|Hx]; [by exists fr|by destruct (Hnone x)].
    + intros (fr & ? & ? & ?). left. split; [by exists fr|done].
  - intros E. apply Hfin. by rewrite E.
  - intros [?|Hx]%Hfin'; [|by right]. destruct (has_fin held); [by left|right]. by apply Hack.
  - intros x Hx. apply Hw. apply some_has_app. by left.
  - by intros [? _]%Hsol%Forall_app.
Qed.

(** ** Merging *)

(** Only the last vector of [data] can change, and vectors are added. *)
Definition extends (data data' : list ngtcp2_vec) : Prop :=
  take (length data - 1) data' = take (length data - 1) data /\ (length data <= length data')%nat /\
  (data = [] -> data' = []).

Lemma extends_trans data1 data2 data3 : extends data1 data2 -> extends data2 data3 -> extends data1 data3.
Proof.
  intros (H1 & H2 & H3) (H4 & H5 & H6). split_and!; [|lia|auto]. rewrite <- H1.
  apply (f_equal (take (length data1 - 1))) in H4. rewrite !take_take in H4. by rewrite !Nat.min_l in H4 by lia.
Qed.

Lemma extends_same data data' : extends data data' -> length data' = length data ->
  match last data' with Some v => take (length data - 1) data ++ [v] | None => data end = data'.
Proof.
  intros (H1 & _ & H3) Hlen. destruct (last data') as [v|] eqn:E.
  - apply last_Some in E as (d & ->). rewrite <- H1, <- Hlen, length_app. cbn [length]. rewrite Nat.add_sub.
    by rewrite take_app_length.
  - apply last_None in E as ->. by destruct data.
Qed.

(** Vectors of the next frame move to the frame [cur]. *)
Record moved cur nfr (left n : Z) dst' src' : Prop := {
  mv_range : 0 <= n <= left /\ frame_len nfr = n + vec_total src';
  mv_total : vec_total dst' = frame_len cur + n;
  mv_pos : vecs_pos dst' /\ vecs_pos src';
  mv_count : zlen dst' <= NGTCP2_MAX_STREAM_DATACNT /\ zlen src' <= NGTCP2_MAX_STREAM_DATACNT;
  mv_carries : carries stream (tf_offset cur) (content mem dst') /\ carries stream (tf_offset nfr + n) (content mem src');
  mv_extends : extends (tf_data cur) dst';
  mv_nonempty : dst' <> [];
}.

Lemma merge_data cur nfr left :
  tx_frame_ok cur -> tx_frame_ok nfr -> tf_txbuf cur = None -> tf_txbuf nfr = None ->
  tf_offset nfr = frame_end cur -> tf_data cur <> [] -> 0 <= left ->
  exists n dst' src', ngtcp2_vec_merge (tf_data cur) (tf_data nfr) left NGTCP2_MAX_STREAM_DATACNT = Ok (n, dst', src') /\
    moved cur nfr left n dst' src'.
Proof.
  intros Hok1 Hok2 Hb1 Hb2 Ho Hne Hleft. unfold frame_end in Ho.
  pose proof (tk_vecs _ _ _ _ _ _ Hok1) as Hp1. pose proof (tk_vecs _ _ _ _ _ _ Hok2) as Hp2.
  pose proof (tk_carries _ _ _ _ _ _ Hok1) as Hc1. pose proof (tk_carries _ _ _ _ _ _ Hok2) as Hc2.
  pose proof (tk_count _ _ _ _ _ _ Hok1) as Hn1. pose proof (tk_count _ _ _ _ _ _ Hok2) as Hn2.
  unfold frame_data, frame_len in *. rewrite !data_vecs in * by done.
  destruct (exists_last Hne) as (A & a & EA). rewrite EA in *.
  pose proof Hp1 as [HpA [Ha _]%Forall_cons_iff]%Forall_app.
  destruct (vec_merge_ok mem A a (tf_data nfr) left NGTCP2_MAX_STREAM_DATACNT Ha Hp2 Hleft Hn1)
    as (dst' & src' & n & -> & [(a' & B & -> & Hcont & Htot & HpB) Ht Hr Hps Hcnt Hrest]).
  exists n, (A ++ a' :: B), src'. split; [done|].
  assert (Htotal : vec_total (A ++ a' :: B) = vec_total (A ++ [a]) + n).
  { rewrite !vec_total_app, Htot. cbn. unfold vec_total. lia. }
  assert (Hpd : vecs_pos (A ++ a' :: B)) by by apply Forall_app.
  assert (Hall : carries stream (tf_offset cur) (content mem (A ++ a' :: B) ++ content mem src')).
  { rewrite content_app, <- app_assoc, Hcont, app_assoc, <- (content_one mem a), <- content_app.
    apply carries_app. split; [done|]. rewrite content_len by done. by rewrite <- Ho. }
  apply carries_app in Hall as [Hall1 Hall2]. rewrite content_len in Hall2 by done.
  split; unfold frame_len; rewrite ?data_vecs, ?EA by done; try done; [lia| | |by destruct A].
  - split; [done|]. by replace (tf_offset nfr + n) with (tf_offset cur + vec_total (A ++ a' :: B)) by lia.
  - unfold extends. rewrite !length_app. cbn [length]. rewrite Nat.add_sub, !take_app_length.
    split_and!; [done|lia|]. by destruct A.
Qed.

(** One more frame is taken out. *)
Lemma holding_more n P strm0 l0 cur strm l strm1 nfr l1 :
  holding P strm0 l0 [cur] strm l -> l <> [] -> popped n P (after_frame cur) strm l strm1 nfr l1 ->
  holding P strm0 l0 [cur; nfr] strm1 l1.
Proof.
  intros [(q & ->) Hl (Hc1 & Hc2 & _) Hf Hp Hfin Hfin' Hw Hsol] Hne [(q' & ->) Hq Hl1 Hok Hc Hfresh Hpend Hfp _ Hpw Hps]. cbn [app] in *.
  pose proof Hl as [Hcur _]%Forall_cons_iff. split; cbn [app]; try done.
  - by exists q'.
  - by repeat (constructor; [done|]).
  - split_and!; [done|by intros ?%Hc2|done].
  - intros fr x. rewrite elem_of_cons, list_elem_of_singleton. intros [->| ->]; [apply Hf; by left|apply Hfresh].
  - intros x. rewrite Hp, !pending_cons, Hpend. pose proof (Hfresh x). tauto.
  - cbn [has_fin existsb] in *. unfold has_fin in Hfp. by rewrite Hfp.
  - cbn [has_fin existsb] in *. unfold has_fin in Hfp. by rewrite Hfp.
  - intros x [?|Hx%Hpw]%some_has_cons; apply Hw, some_has_cons; auto.
  - intros [? ?]%Hsol%Forall_cons_iff. constructor; auto.
Qed.

Lemma after_frame_pos fr : 0 < frame_len fr -> after_frame fr = frame_end fr.
Proof. unfold after_frame, frame_end. lia. Qed.

Lemma data_len_pos fr : tf_txbuf fr = None -> vecs_pos (tf_data fr) -> tf_data fr <> [] -> 0 < frame_len fr.
Proof. intros Hb Hp Hne. unfold frame_len. rewrite data_vecs by done. by apply vec_total_pos. Qed.

(** What the merging loop returns. *)
Definition merge_result P outs strm0 l0 fr (data : list ngtcp2_vec) (left : Z)
    (r : Z * tx_frame * list ngtcp2_vec * ngtcp2_strm * list Z) : Prop :=
  let '(rv, fr', data', strm', outs') := r in
  (forall rv, fails outs' rv -> fails outs rv) /\
  (fails outs rv \/
   rv = 0 /\ exists fin l', fr' = set_tf_fin fin fr /\ extends data data' /\ queue_rep room strm' l' /\
     holding P strm0 l0 [set_tf_data data' fr'] strm' l' /\ vec_total data' <= vec_total data + left).

Lemma tracks_holding m P strm0 l0 held strm l : holding P strm0 l0 held strm l -> tx_tracks m P strm0 -> tx_tracks m P strm.
Proof. by intros [(q & ->) _ _ _ _ _ _ _ _]. Qed.

(** The vectors that move, and what is left of the next frame. *)
Lemma moved_frames cur nfr left n dst' src' fin :
  tx_frame_ok cur -> tx_frame_ok nfr -> tf_txbuf cur = None -> tf_txbuf nfr = None -> tf_offset nfr = frame_end cur ->
  moved cur nfr left n dst' src' ->
  (fin = true -> src' = [] /\ tf_fin nfr = true) ->
  let cur' := set_tf_data dst' (set_tf_fin fin cur) in let nfr' := set_tf_offset (tf_offset nfr + n) (set_tf_data src' nfr) in
  tx_frame_ok cur' /\ frame_end cur' = tf_offset nfr + n /\ (src' <> [] -> part_of nfr (tf_offset nfr + n) (frame_end nfr) (tf_fin nfr) nfr').
Proof.
  intros Hok1 Hok2 Hb1 Hb2 Ho [[Hm1 Hm2] Hm3 [Hm4 Hm5] [Hm6 Hm7] [Hm8 Hm9] _ Hm10] Hfin cur' nfr'.
  pose proof (size_range _ _ _ _ _ _ Hok1) as Hs1. pose proof (size_range _ _ _ _ _ _ Hok2) as Hs2.
  pose proof (vec_total_nonneg _ Hm5) as Hp5.
  assert (Hv : frame_vecs cur' = dst' /\ frame_vecs nfr' = src') by by rewrite !data_vecs.
  destruct Hv as [Hv1 Hv2]. assert (He : frame_end cur' = tf_offset nfr + n).
  { rewrite Ho. unfold frame_end, frame_len at 1. rewrite Hv1. cbn. lia. }
  split; [|split; [done|]].
  - split; rewrite ?Hv1; try done; [by apply Hok1| | | |].
    + split; [by cbn; lia|]. split; [rewrite He; unfold frame_end in *; lia|apply Hok1].
    + unfold frame_data. by rewrite Hv1.
    + intros Hf. destruct (Hfin Hf) as [-> Hf']. rewrite He, <- (tk_fin _ _ _ _ _ _ Hok2 Hf'). unfold frame_end. cbn in *. lia.
    + unfold frame_len. rewrite Hv1. pose proof (vec_total_pos _ Hm4 Hm10). lia.
  - intros Hne. pose proof (vec_total_pos _ Hm5 Hne). split; try done.
    + split; rewrite ?Hv2; try done; [by apply Hok2| | | |].
      * split; [by cbn; lia|]. split; [unfold frame_end in *; unfold frame_len at 1; rewrite Hv2; cbn; lia|apply Hok2].
      * unfold frame_data. by rewrite Hv2.
      * cbn. intros Hf. rewrite <- (tk_fin _ _ _ _ _ _ Hok2 Hf). unfold frame_end, frame_len at 1. rewrite Hv2. cbn. lia.
      * unfold frame_len. rewrite Hv2. lia.
    + unfold frame_end, frame_len at 1. rewrite Hv2. cbn. lia.
Qed.

Lemma merge_stop n P outs strm0 l0 fr data left strm l :
  (room <= n)%nat -> queue_rep n strm l -> holding P strm0 l0 [set_tf_data data fr] strm l -> 0 <= left ->
  merge_result P outs strm0 l0 fr data left (0, fr, data, strm, outs).
Proof.
  intros Hroom Hq Hh Hleft. split; [done|]. right. split; [done|]. exists (tf_fin fr), l. split_and!; try done; [by destruct fr|eapply queue_le; [|exact Hq]; lia|lia].
Qed.

Section Step.
Context (n : nat) (P : Z -> Prop) (outs : list Z) (strm0 : ngtcp2_strm) (l0 : list tx_frame).
Context (fr : tx_frame) (data : list ngtcp2_vec) (left : Z) (strm1 : ngtcp2_strm) (nfr : tx_frame) (l1 : list tx_frame).
#[local] Abbreviation cur := (set_tf_data data fr).
Context (Hh : holding P strm0 l0 [cur; nfr] strm1 l1) (Hq : queue_rep (S n) strm1 l1) (Hroom : (room <= n)%nat) (Hfr : tf_txbuf fr = None)
  (Ho : tf_offset nfr = frame_end cur) (Hleft : 0 <= left).
#[local] Set Default Proof Using "All".

Lemma step_ok : tx_frame_ok cur /\ tx_frame_ok nfr.
Proof. pose proof (hd_frames _ _ _ _ _ _ Hh) as [? [? _]%Forall_cons_iff]%Forall_cons_iff. done. Qed.

(** It is not merged. *)
Lemma step_back :
  exists q, put_back outs strm1 nfr = Ok (0, set_streamfrq q strm1) /\
  merge_result P outs strm0 l0 fr data left (0, fr, data, set_streamfrq q strm1, outs).
Proof.
  pose proof (hd_chain _ _ _ _ _ _ Hh) as (_ & _ & Hc). destruct (put_back_ok n outs strm1 nfr l1 Hq) as (q & -> & Hq').
  { by eapply chain_next. }
  exists q. split; [done|]. eapply merge_stop; [|exact Hq'| |done]; [lia|]. by apply (holding_back P strm0 l0 [cur]).
Qed.

(** It only tells the end. *)
Lemma step_fin :
  tf_fin nfr = true -> tf_txbuf nfr = None -> tf_data nfr = [] ->
  merge_result P outs strm0 l0 fr data left (0, set_tf_fin true fr, data, strm1, outs).
Proof.
  intros Hf Hb Hd. destruct step_ok as [Hok1 Hok2]. pose proof (hd_chain _ _ _ _ _ _ Hh) as (Hc1 & _ & _ & Hc2 & _).
  assert (E : frame_len nfr = 0) by (unfold frame_len; by rewrite data_vecs, Hd).
  split; [done|]. right. split; [done|]. exists true, l1. split_and!; try done; [eapply queue_le; [|exact Hq]; lia| |lia].
  apply (holding_change P strm0 l0 [cur; nfr]); [done| | | |cbn; by rewrite Hf, orb_true_r|by repeat constructor].
  - constructor; [|done]. destruct Hok1 as [H1 H2 H3 H4 H5 H6 H7 H8]. split; try done; [|by left]. intros _. rewrite <- (tk_fin _ _ _ _ _ _ Hok2 Hf).
    unfold frame_end at 2. rewrite E, Ho, Z.add_0_r. done.
  - pose proof (Hc2 Hf) as E1. cbn [chain app] in *. rewrite E1. split_and!; done.
  - intros x. rewrite some_has_one, some_has_two. unfold frame_has. split; [by left|]. intros [?|?]; [done|].
    unfold frame_end in *. lia.
Qed.

(** Some of it is merged, and the rest goes back. *)
Lemma step_rest k dst' src' :
  tf_txbuf nfr = None -> moved cur nfr left k dst' src' -> src' <> [] -> 
  exists q, streamfrq_insert strm1 (set_tf_offset (tf_offset nfr + k) (set_tf_data src' nfr)) = Ok (0, set_streamfrq q strm1) /\
  merge_result P outs strm0 l0 fr data left (0, fr, dst', set_streamfrq q strm1, outs).
Proof.
  intros Hb Hm Hne. destruct step_ok as [Hok1 Hok2]. pose proof (hd_chain _ _ _ _ _ _ Hh) as (Hc1 & Hcf & Hc2 & Hcn & Hc3).
  assert (Hf : tf_fin fr = false) by (destruct (tf_fin fr) eqn:E; [by specialize (Hcf E)|done]).
  destruct (moved_frames cur nfr left k dst' src' false Hok1 Hok2 Hfr Hb Ho Hm ltac:(done)) as (Hok1' & He & Hpart).
  destruct (Hpart Hne) as [Hok2' Ho2 He2 Hf2]. set (nfr' := set_tf_offset _ _) in *.
  destruct Hm as [[Hm1 Hm2] Hm3 [Hm4' Hm4] _ _ Hm6 Hm7]. pose proof (vec_total_pos _ Hm4 Hne) as Hpos.
  assert (Hc3' : chain (frame_end nfr) l1) by (eapply chain_le; [|exact Hc3]; unfold after_frame; lia).
  assert (El : frame_end nfr = tf_offset nfr + frame_len nfr) by done.
  destruct (insert_front n strm1 l1 nfr' Hq) as (q & -> & Hq').
  { eapply chain_le; [|exact Hc3']. rewrite Ho2. lia. }
  exists q. split; [done|]. split; [done|]. right. split; [done|]. exists (tf_fin fr), (nfr' :: l1).
  split_and!; [by destruct fr|by apply Hm6|eapply queue_le; [|exact Hq']; lia| |].
  - assert (E1 : set_tf_data dst' fr = set_tf_data dst' (set_tf_fin false cur)) by (destruct fr; cbn in Hf; by subst).
    apply (holding_back P strm0 l0 [set_tf_data dst' fr]). rewrite E1. set (cur' := set_tf_data dst' _) in *.
    assert (Hl1 : after_frame cur' = frame_end cur') by (apply after_frame_pos, data_len_pos; done).
    apply (holding_change P strm0 l0 [cur; nfr]); [done| | | | |].
    + by constructor; [|by constructor].
    + cbn [app chain]. rewrite Hl1, He, Ho2, Hf2. split_and!; [done|done|lia|done|].
      eapply chain_le; [|exact Hc3']. unfold after_frame. rewrite Ho2, He2. lia.
    + cbn [app]. intros x. rewrite !some_has_two. unfold frame_has. rewrite He, Ho2, He2.
      change (tf_offset cur') with (tf_offset cur). unfold frame_end in *. pose proof (frame_len_nonneg _ _ _ _ _ _ Hok1). lia.
    + cbn. by rewrite Hf.
    + intros _. repeat constructor; apply solid_pos; [|unfold frame_end in *; lia].
      by apply data_len_pos.
  - unfold frame_len in Hm3. rewrite data_vecs in Hm3 by done. cbn [tf_data set_tf_data] in Hm3. lia.
Qed.

(** All of it is merged. *)
Lemma step_all k dst' :
  tf_txbuf nfr = None -> moved cur nfr left k dst' [] ->
  holding P strm0 l0 [set_tf_data dst' (set_tf_fin (tf_fin nfr) fr)] strm1 l1 /\ vec_total dst' = vec_total data + k /\
  extends data dst' /\ 0 <= k <= left /\ frame_len nfr = k.
Proof.
  intros Hb Hm. destruct step_ok as [Hok1 Hok2]. pose proof (hd_chain _ _ _ _ _ _ Hh) as (Hc1 & Hcf & Hc2 & Hcn & Hc3).
  destruct (moved_frames cur nfr left k dst' [] (tf_fin nfr) Hok1 Hok2 Hfr Hb Ho Hm ltac:(done)) as (Hok1' & He & _).
  destruct Hm as [[Hm1 Hm2] Hm3 [Hm4' Hm4] _ _ Hm6 Hm7]. cbn in Hm2.
  assert (El : frame_end nfr = tf_offset nfr + frame_len nfr) by done.
  assert (Hl1 : after_frame (set_tf_data dst' (set_tf_fin (tf_fin nfr) cur)) = frame_end nfr).
  { rewrite after_frame_pos by (apply data_len_pos; done). lia. }
  split_and!; [|unfold frame_len in Hm3; rewrite data_vecs in Hm3; done|done|lia|lia|lia].
  apply (holding_change P strm0 l0 [cur; nfr]); [done|by constructor| | | |].
  - cbn [app chain] in *. split_and!; [done|done|]. eapply chain_le; [|exact Hc3].
    change (after_frame (set_tf_data dst' (set_tf_fin (tf_fin nfr) cur)) <= after_frame nfr). rewrite Hl1. unfold after_frame. lia.
  - intros x. rewrite some_has_one, some_has_two. unfold frame_has.
    change (frame_end (set_tf_data dst' (set_tf_fin (tf_fin nfr) fr))) with (frame_end (set_tf_data dst' (set_tf_fin (tf_fin nfr) cur))).
    rewrite He. cbn [tf_offset set_tf_data set_tf_fin] in *. unfold frame_end in *. cbn [tf_offset set_tf_data] in *.
    pose proof (frame_len_nonneg _ _ _ _ _ _ Hok1). lia.
  - cbn in *. destruct (tf_fin fr); [by specialize (Hcf eq_refl)|]. by rewrite !orb_false_r.
  - intros _. repeat constructor. apply solid_pos. by apply data_len_pos.
Qed.
End Step.

Lemma merge_weaken P outs outs' strm0 l0 fr fin data data' left left' r :
  (forall rv, fails outs' rv -> fails outs rv) -> extends data data' -> vec_total data' + left' <= vec_total data + left ->
  merge_result P outs' strm0 l0 (set_tf_fin fin fr) data' left' r -> merge_result P outs strm0 l0 fr data left r.
Proof.
  destruct r as [[[[rv fr'] data''] strm'] outs'']. intros Ho He Hl [Ho' Hr]. split; [auto|].
  destruct Hr as [Hr|[Hrv (f & l' & -> & He' & Hq & Hh & Ht)]]; [auto|right]. split; [done|]. exists f, l'.
  split_and!; try done; [by eapply extends_trans|lia].
Qed.

Lemma merge_outs P outs outs' strm0 l0 fr data left r :
  (forall rv, fails outs' rv -> fails outs rv) -> merge_result P outs' strm0 l0 fr data left r -> merge_result P outs strm0 l0 fr data left r.
Proof. destruct r as [[[[rv fr'] data''] strm'] outs'']. intros Ho [Ho' [Hr|Hr]]; (split; [auto|]); [left; auto|by right]. Qed.

Lemma pop_merge_loop_run fuel : forall m P outs strm0 l0 strm fr data left l,
  (Z.to_nat left < fuel)%nat -> 0 <= left -> tx_tracks m P strm0 -> (forall rv, fails outs rv -> ngtcp2_err_is_fatal rv = true) ->
  tf_txbuf fr = None -> holding P strm0 l0 [set_tf_data data fr] strm l -> queue_rep (2 + (Z.to_nat left + room)) strm l ->
  exists r, pop_merge_loop fuel outs strm fr data (vec_total data) left = Ok r /\ merge_result P outs strm0 l0 fr data left r.
Proof.
  assert (HM : UINT64_MAX = 18446744073709551615) by reflexivity.
  assert (HV : NGTCP2_MAX_VARINT = 4611686018427387903) by reflexivity.
  induction fuel as [|fuel IH]; intros m P outs strm0 l0 strm fr data left l Hfuel Hleft Htr Hfatal Hfr Hh Hq; [lia|].
  pose proof Hq as (q & Eq & _). pose proof (queue_len _ _ _ _ Hq Eq) as Hlen.
  set (cur := set_tf_data data fr) in *. pose proof (hd_frames _ _ _ _ _ _ Hh) as [Hok Hl]%Forall_cons_iff.
  pose proof (hd_chain _ _ _ _ _ _ Hh) as (Hc1 & Hcf & Hc). pose proof (size_range _ _ _ _ _ _ Hok) as Hs.
  assert (Elen : frame_len cur = vec_total data) by (unfold frame_len; by rewrite data_vecs).
  cbn [pop_merge_loop]. unfold streamfrq at 1. rewrite Eq. cbn [bind]. rewrite Hlen.
  destruct ((left =? 0) || (length l =? 0)%nat) eqn:Hstop; [eexists; split; [done|]; eapply merge_stop; [|exact Hq|exact Hh|done]; lia|].
  apply orb_false_iff in Hstop as [Hleft0%Z.eqb_neq Hne%Nat.eqb_neq].
  assert (Hlne : l <> []) by by intros ->.
  assert (Hlo : 1 <= after_frame cur <= NGTCP2_MAX_VARINT + 1) by (unfold after_frame, frame_end; lia).
  pose proof (tracks_holding _ _ _ _ _ _ _ Hh Htr) as Htr'.
  destruct (unacked_offset_ok mem stream ty sid size m _ P _ strm l Htr' Hl Hc Hlo Hq Hlne) as (o & -> & Hst). cbn [bind].
  change (tf_offset fr) with (tf_offset cur). rewrite <- Elen. fold (frame_end cur).
  rewrite (frame_u64 mem stream ty sid size cur) by (try done; unfold frame_end; lia).
  pose proof (proj1 Hst) as Hst1. unfold after_frame in Hst1.
  destruct (Z.eqb_spec o (frame_end cur)) as [->|Hno]; cbn [negb].
  2: { rewrite (proj2 (Z.ltb_lt _ _)) by lia. eexists. split; [done|]. eapply merge_stop; [|exact Hq|exact Hh|done]. lia. }
  destruct (unacked_pop_ok mem stream ty sid size m (1 + (Z.to_nat left + room)) P _ outs strm l Htr' Hl Hc Hq Hlne) as (r & -> & Hr).
  destruct r as [[[rv pnfr] strm1] outs1]. cbn [bind]. destruct Hr as [Ho [(-> & Hf)|(-> & Hr)]].
  { destruct (Z.eqb_spec rv 0) as [->|]; [by destruct Hf|]. cbn [negb]. rewrite (Hfatal _ Hf). eexists. split; [done|]. split; [done|]. by left. }
  cbn [negb Z.eqb]. destruct pnfr as [nfr|].
  2: { destruct Hr as ((q' & ->) & Hq' & Hnone & Hack). eexists. split; [done|].
       assert (Hh' : holding P strm0 l0 [cur] (set_streamfrq q' strm) []).
       { by eapply holding_none. }
       eapply merge_outs; [exact Ho|]. eapply merge_stop; [|exact Hq'|exact Hh'|done]. lia. }
  destruct Hr as (_ & l1 & Hpop).
  assert (Hno : tf_offset nfr = frame_end cur).
  { eapply starts_popped; try done; [lia|]. unfold frame_end in *. lia. }
  pose proof (holding_more _ _ _ _ _ _ _ _ _ _ Hh Hlne Hpop) as Hh1. pose proof (pp_queue _ _ _ _ _ _ _ _ _ _ _ _ _ Hpop) as Hq1.
  cbn [Nat.add] in Hq1. assert (Hroom1 : (room <= Z.to_nat left + room)%nat) by lia.
  assert (Hback : exists q, put_back outs1 strm1 nfr = Ok (0, set_streamfrq q strm1) /\
    merge_result P outs strm0 l0 fr data left (0, fr, data, set_streamfrq q strm1, outs1)).
  { destruct (step_back (Z.to_nat left + room) P outs1 strm0 l0 fr data left strm1 nfr l1 Hh1 Hq1 Hroom1 Hfr Hno Hleft) as (q' & -> & Hm).
    exists q'. split; [done|]. by eapply merge_outs. }
  destruct (tf_txbuf nfr) as [buf|] eqn:Hb; [destruct Hback as (q' & -> & Hm); cbn [bind]; eexists; by split|].
  destruct (tf_fin nfr && (length (tf_data nfr) =? 0)%nat) eqn:Hfin.
  { apply andb_true_iff in Hfin as [Hfin Hnil%Nat.eqb_eq%nil_length_inv]. eexists. split; [done|].
    eapply merge_outs; [exact Ho|by eapply step_fin; try done]. }
  assert (Hdne : tf_data cur <> []).
  { intros Hd. assert (frame_len cur = 0) by (unfold frame_len; by rewrite data_vecs, Hd). unfold frame_end in Hst1. lia. }
  pose proof (step_ok (Z.to_nat left + room) P outs1 strm0 l0 fr data left strm1 nfr l1 Hh1 Hq1 Hroom1 Hfr Hno Hleft) as [_ Hokn].
  destruct (merge_data cur nfr left Hok Hokn Hfr Hb Hno Hdne Hleft) as (k & dst' & src' & E & Hm).
  change (tf_data cur) with data in E. rewrite E. cbn [bind].
  destruct (decide (src' = [])) as [->|Hsne].
  - destruct (step_all (Z.to_nat left + room) P outs1 strm0 l0 fr data left strm1 nfr l1 Hh1 Hq1 Hroom1 Hfr Hno Hleft k dst' Hb Hm)
      as (Hh2 & Ht2 & Hext & Hk & Hk').
    assert (Hkp : 0 < k).
    { rewrite <- Hk'. apply data_len_pos; [done|by rewrite <- data_vecs; [apply Hokn|]|]. intros Hnil. rewrite Hnil in Hfin. cbn in Hfin.
      destruct (tk_empty _ _ _ _ _ _ Hokn) as [Hf|?]; [unfold frame_len; by rewrite data_vecs, Hnil|by rewrite Hf in Hfin|unfold frame_end in *; lia]. }
    rewrite (proj2 (Z.eqb_neq k 0)) by lia. cbn [length Nat.eqb tf_fin set_tf_data].
    rewrite Elen, <- Ht2, u64_small.
    2: { pose proof (size_range _ _ _ _ _ _ Hokn) as Hs'. unfold frame_end, is_u64 in *. lia. }
    destruct (IH m P outs1 strm0 l0 strm1 (set_tf_fin (tf_fin nfr) fr) dst' (left - k) l1) as (r & -> & Hr); try done; [lia|lia|auto| |].
    { eapply queue_le; [|exact Hq1]. lia. }
    exists r. split; [done|]. eapply merge_weaken; [exact Ho|exact Hext| |exact Hr]. lia.
  - destruct (step_rest (Z.to_nat left + room) P outs1 strm0 l0 fr data left strm1 nfr l1 Hh1 Hq1 Hroom1 Hfr Hno Hleft k dst' src' Hb Hm Hsne)
      as (q' & Eins & Hmo).
    pose proof (size_range _ _ _ _ _ _ Hokn) as Hs'. destruct (mv_range _ _ _ _ _ _ Hm) as [Hk Hk'].
    pose proof (vec_total_nonneg _ (proj2 (mv_pos _ _ _ _ _ _ Hm))) as Hp.
    destruct (Z.eqb_spec k 0) as [->|Hk0].
    + assert (En : set_tf_offset (tf_offset nfr + 0) (set_tf_data src' nfr) = set_tf_data src' nfr) by (rewrite Z.add_0_r; by destruct nfr).
      rewrite En in Eins. unfold put_back. rewrite Eins. cbn [bind negb Z.eqb].
      eexists. split; [done|]. eapply merge_outs; [exact Ho|]. exact Hmo.
    + rewrite (proj2 (Nat.eqb_neq (length src') 0)) by by destruct src'. cbn [tf_offset set_tf_data].
      rewrite (u64_small (tf_offset nfr + k)) by (unfold is_u64; lia). rewrite Eins. cbn [bind].
      eexists. split; [done|]. eapply merge_outs; [exact Ho|]. exact Hmo.
Qed.

Lemma pop_merge_ok m P outs strm0 l0 strm fr l left :
  0 <= left -> tx_tracks m P strm0 -> (forall rv, fails outs rv -> ngtcp2_err_is_fatal rv = true) ->
  holding P strm0 l0 [fr] strm l -> queue_rep (2 + (Z.to_nat left + room)) strm l ->
  exists r, pop_merge outs strm fr (frame_len fr) left = Ok r /\ pop_ok P outs strm0 l0 (frame_len fr + left) r.
Proof.
  intros Hleft Htr Hfatal Hh Hq. pose proof (hd_frames _ _ _ _ _ _ Hh) as [Hok Hl]%Forall_cons_iff. unfold pop_merge.
  destruct (tf_txbuf fr) as [buf|] eqn:Hb.
  { eexists. split; [done|]. split; [done|]. right. split; [done|]. exists l. split_and!; [eapply queue_le; [|exact Hq]; lia|done|lia]. }
  rewrite (proj2 (Z.leb_le _ _) (tk_count _ _ _ _ _ _ Hok)).
  assert (Elen : frame_len fr = vec_total (tf_data fr)) by (unfold frame_len; by rewrite data_vecs).
  assert (Efr : set_tf_data (tf_data fr) fr = fr) by by destruct fr.
  destruct (pop_merge_loop_run (S (Z.to_nat left)) m P outs strm0 l0 strm fr (tf_data fr) left l) as (r & E & Hr); try done; [lia|by rewrite Efr|].
  rewrite Elen, E. destruct r as [[[[rv fr'] data'] strm'] outs']. cbn [bind]. destruct Hr as [Ho [Hf|(-> & fin & l' & -> & Hext & Hq' & Hh' & Ht)]].
  { pose proof Hf as [Hrv _]. rewrite (proj2 (Z.eqb_neq rv 0) Hrv). eexists. split; [done|]. split; [done|]. by left. }
  cbn [negb Z.eqb tf_data set_tf_fin].
  assert (Hdone : forall outs' fr', fr' = set_tf_data data' (set_tf_fin fin fr) -> (forall rv, fails outs' rv -> fails outs rv) ->
    pop_ok P outs strm0 l0 (vec_total (tf_data fr) + left) (0, Some fr', strm', outs')).
  { intros outs'' fr'' -> Ho'. split; [done|]. right. split; [done|]. exists l'. split_and!; [done|done|].
    unfold frame_len. by rewrite data_vecs. }
  destruct (Nat.eqb_spec (length data') (length (tf_data fr))) as [El|El].
  - pose proof (extends_same _ _ Hext El) as Es. destruct (last data') as [v|]; (eexists; split; [done|]; apply Hdone; [|done]).
    + by rewrite Es.
    + by rewrite <- Es, <- Efr at 1.
  - destruct Hext as (_ & Hle & _). rewrite (proj2 (Nat.ltb_lt _ _)) by lia.
    destruct (ngtcp2_frame_chain_stream_datacnt_objalloc_new _ _) as [nfr outs1] eqn:E1.
    destruct (objalloc_new_fails _ _ _ _ E1) as [[->|[-> Hf]] Ho1]; [|eexists; split; [done|]; split; [auto|]; left; auto].
    eexists. split; [done|]. apply Hdone; [|auto]. unfold set_tf_data, set_tf_fin. cbn. by rewrite Hb.
Qed.
End Spec.

(** ** The queue of a stream *)

(** The stream has the frames [l] to send again, memory for [n] more, and
    [P] is what was acknowledged. *)
Record tx_queue mem stream ty sid size (m n : nat) P strm l : Prop := {
  tq_tracks : tx_tracks m P strm;
  tq_queue : queue_rep n strm l;
  tq_frames : Forall (tx_frame_ok mem stream ty sid size) l;
  tq_chain : chain 0 l;
}.

Lemma chain_split lo l1 fr l2 :
  chain lo (l1 ++ fr :: l2) -> (forall f, f ∈ l1 -> tf_offset f < tf_offset fr) /\ chain (tf_offset fr + 1) l2.
Proof.
  revert lo. induction l1 as [|f l1 IH]; intros lo; cbn [app].
  - intros Hc. split; [by intros ? ?%elem_of_nil|by eapply chain_next].
  - intros (Hlo & _ & Hc). destruct (IH _ Hc) as [H1 H2]. split; [|done].
    intros g [->|Hin]%elem_of_cons; [|by apply H1].
    assert (after_frame f <= tf_offset fr); [|unfold after_frame in *; lia].
    eapply chain_offsets; [exact Hc|]. apply elem_of_app. right. left.
Qed.

Lemma app_sides {A : Type} (p : A -> Prop) (l1 l2 k1 k2 : list A) :
  l1 ++ l2 = k1 ++ k2 -> (forall x, x ∈ l1 -> p x) -> (forall x, x ∈ l2 -> ~ p x) ->
  (forall x, x ∈ k1 -> p x) -> (forall x, x ∈ k2 -> ~ p x) -> l1 = k1 /\ l2 = k2.
Proof.
  intros E H1 H2 H3 H4. apply app_eq_app in E as ([|x l] & [[-> E]|[-> E]]); cbn in E; rewrite ?app_nil_r; try done.
  - exfalso. apply (H4 x); [rewrite E; left|apply H1, elem_of_app; right; left].
  - exfalso. apply (H2 x); [rewrite E; left|apply H3, elem_of_app; right; left].
Qed.

(** A frame at its place in the queue. *)
Lemma insert_place n strm l1 l2 fr :
  queue_rep (S n) strm (l1 ++ l2) -> chain 0 (l1 ++ fr :: l2) ->
  exists q, streamfrq_insert strm fr = Ok (0, set_streamfrq q strm) /\ queue_rep n (set_streamfrq q strm) (l1 ++ fr :: l2).
Proof.
  intros (q & Eq & Hwf & Hroom & HE) Hc. destruct (chain_split _ _ _ _ Hc) as [H1 H2]. unfold streamfrq_insert, streamfrq. rewrite Eq. cbn [bind].
  destruct (insert_ok_run _ q (tf_offset fr) fr Hwf (room_weaken _ _ Hroom)) as (rv & q' & it & -> & [Hwf' _ _ Ha Hh Hout]).
  assert (Hk1 : forall x, x ∈ keyed l1 -> x.1 < tf_offset fr).
  { intros x Hx. apply list_elem_of_fmap in Hx as (f & -> & Hin). by apply H1. }
  assert (Hk2 : forall x, x ∈ keyed l2 -> tf_offset fr < x.1).
  { intros x Hx. apply list_elem_of_fmap in Hx as (f & -> & Hin). pose proof (chain_offsets _ _ _ H2 Hin). cbn. lia. }
  unfold keyed in HE. rewrite map_app in HE. fold (keyed l1) (keyed l2) in HE.
  destruct Hout as [(-> & (A & B & E & Hcur & HA & HB) & _)|(_ & _ & (x & Hx & He))].
  - cbn [bind]. exists q'. split; [done|]. exists q'. split_and!; [done|done|by eapply room_step|].
    rewrite (cursor_elems _ _ _ _ Hcur). rewrite HE in E.
    destruct (app_sides (fun x : Z * tx_frame => x.1 < tf_offset fr) A B (keyed l1) (keyed l2)) as [-> ->]; try done.
    + intros x Hx. apply Z.ltb_lt, (HA x Hx).
    + intros x Hx Hlt. specialize (HB x Hx). unfold ngtcp2_ksl_uint64_less in HB. apply Z.ltb_lt in HB. lia.
    + intros x Hx Hlt. specialize (Hk2 x Hx). lia.
    + unfold keyed. by rewrite map_app.
  - rewrite HE, elem_of_app in Hx. apply key_equal_sides in He as [He1 He2]. unfold ngtcp2_ksl_uint64_less in *.
    rewrite Z.ltb_ge in He1, He2. destruct Hx as [Hx|Hx]; [specialize (Hk1 x Hx)|specialize (Hk2 x Hx)]; lia.
Qed.

Lemma holding_init mem stream ty sid size m n P strm l :
  tx_queue mem stream ty sid size m n P strm l -> holding mem stream ty sid size P strm l [] strm l.
Proof.
  intros [Ht Hq Hl Hc]. split; try done; [by eapply queue_same|by intros ? ? ?%elem_of_nil|by left].
Qed.

Lemma streamfrq_pop_run mem stream ty sid size room m P outs strm l left :
  tx_queue mem stream ty sid size m (3 + (Z.to_nat left + room)) P strm l -> 0 <= left ->
  (forall rv, rv ∈ outs -> rv = 0 \/ ngtcp2_err_is_fatal rv = true) ->
  exists r, ngtcp2_strm_streamfrq_pop outs strm left = Ok r /\ pop_ok mem stream ty sid size room P outs strm l left r.
Proof.
  intros Htq Hleft Houts. pose proof Htq as [Htr Hq Hl Hc]. pose proof (holding_init _ _ _ _ _ _ _ _ _ _ Htq) as H0.
  assert (Hfatal : forall rv, fails outs rv -> ngtcp2_err_is_fatal rv = true).
  { intros rv [Hrv [Hin|[-> _]]]; [|done]. by destruct (Houts _ Hin). }
  pose proof Hq as (q & Eq & _). pose proof (queue_len _ _ _ _ Hq Eq) as Hlen.
  unfold ngtcp2_strm_streamfrq_pop. rewrite Eq, Hlen. destruct (Nat.eqb_spec (length l) 0) as [->%nil_length_inv|Hne].
  { eexists. split; [done|]. split; [done|]. right. split; [done|]. exists []. split_and!; [eapply queue_le; [|exact Hq]; lia|done|by left]. }
  assert (Hlne : l <> []) by by intros ->. change (3 + (Z.to_nat left + room))%nat with (S (2 + (Z.to_nat left + room))) in Hq.
  destruct (unacked_pop_ok mem stream ty sid size m _ P 0 outs strm l Htr Hl Hc Hq Hlne) as (r & -> & Hr).
  destruct r as [[[rv pfr] strm1] outs1]. cbn [bind]. destruct Hr as [Ho [(-> & Hf)|(-> & Hr)]].
  { pose proof Hf as [Hrv _]. rewrite (proj2 (Z.eqb_neq rv 0) Hrv). eexists. split; [done|]. split; [done|]. by left. }
  cbn [negb Z.eqb].
  assert (Hmono : forall r, pop_ok mem stream ty sid size room P outs1 strm l left r -> pop_ok mem stream ty sid size room P outs strm l left r).
  { intros [[[rv' pfr'] strm'] outs']. intros [Ho' [(-> & Hf)|Hr']]; (split; [by auto|]); [left; auto|by right]. }
  destruct pfr as [fr|].
  2: { destruct Hr as ((q' & ->) & Hq' & Hnone & Hack). eexists. split; [done|]. split; [done|]. right. split; [done|].
       exists []. split_and!; [eapply queue_le; [|exact Hq']; lia|by eapply holding_none|by left]. }
  destruct Hr as (_ & l1 & Hpop). pose proof (popped_holding _ _ _ _ _ _ _ _ _ _ _ _ Hpop) as Hh.
  pose proof (pp_queue _ _ _ _ _ _ _ _ _ _ _ _ _ Hpop) as Hq1. pose proof (pp_frame _ _ _ _ _ _ _ _ _ _ _ _ _ Hpop) as Hok.
  rewrite (datalen_ok _ _ _ _ _ _ Hok). destruct (_ || _) eqn:Hsmall.
  - destruct (put_back_ok (1 + (Z.to_nat left + room)) outs1 strm1 fr l1 Hq1) as (q' & -> & Hq').
    { eapply chain_next, (hd_chain _ _ _ _ _ _ _ _ _ _ _ Hh). }
    cbn [bind]. eexists. split; [done|]. apply Hmono. split; [done|]. right. split; [done|]. exists (fr :: l1).
    split_and!; [eapply queue_le; [|exact Hq']; lia|by apply (holding_back _ _ _ _ _ P strm l [] fr)|]. right.
    apply orb_true_iff in Hsmall as [Hs|Hs]; rewrite !andb_true_iff in Hs; unfold NGTCP2_MIN_STREAM_DATALEN in *; lia.
  - apply orb_false_iff in Hsmall as [_ Hz%andb_false_iff]. destruct (Z.ltb_spec left (frame_len fr)) as [Hlt|Hge].
    + destruct (pop_split_ok mem stream ty sid size room (1 + (Z.to_nat left + room)) P outs1 strm l strm1 fr l1 left ltac:(lia) Hh Hq1 ltac:(lia)) as (r & -> & Hr).
      eexists. split; [done|]. by apply Hmono.
    + pose proof (frame_len_nonneg _ _ _ _ _ _ Hok) as Hn.
      destruct (pop_merge_ok mem stream ty sid size room m P outs1 strm l strm1 fr l1 (left - frame_len fr)) as (r & -> & Hr);
        [lia|done|by auto|done| |].
      { eapply queue_le; [|exact Hq1]. lia. }
      eexists. split; [done|]. apply Hmono. by replace left with (frame_len fr + (left - frame_len fr)) by lia.
Qed.

Lemma push_ok n avail strm l1 l2 fr :
  tf_type fr = NGTCP2_FRAME_STREAM \/ tf_type fr = NGTCP2_FRAME_CRYPTO -> Z.of_nat (length (l1 ++ l2)) < 8000 ->
  queue_rep (S n) strm (l1 ++ l2) -> chain 0 (l1 ++ fr :: l2) ->
  exists q, ngtcp2_strm_streamfrq_push avail strm fr = Ok (0, set_streamfrq q strm) /\
    queue_rep n (set_streamfrq q strm) (l1 ++ fr :: l2).
Proof.
  intros Hty Hlen Hq Hc. pose proof Hq as (q & Eq & _). unfold ngtcp2_strm_streamfrq_push.
  rewrite Eq, (queue_len _ _ _ _ Hq Eq), (proj2 (Z.leb_gt 8000 _)) by lia.
  assert (Ht : (tf_type fr =? NGTCP2_FRAME_STREAM) || (tf_type fr =? NGTCP2_FRAME_CRYPTO) = true) by (destruct Hty as [-> | ->]; done).
  rewrite Ht. by apply insert_place.
Qed.

(** The queue is created with its first frame. *)
Lemma push_first n avail strm fr :
  tf_type fr = NGTCP2_FRAME_STREAM \/ tf_type fr = NGTCP2_FRAME_CRYPTO -> tx_streamfrq (strm_tx_half strm) = None ->
  (S n * (S n + 3) <= avail)%nat -> 0 <= tf_offset fr ->
  exists q, ngtcp2_strm_streamfrq_push (Some avail) strm fr = Ok (0, set_streamfrq q strm) /\
    queue_rep n (set_streamfrq q strm) [fr].
Proof.
  intros Hty Hnone Ha Ho. unfold ngtcp2_strm_streamfrq_push, strm_streamfrq_init. rewrite Hnone.
  assert (Ht : (tf_type fr =? NGTCP2_FRAME_STREAM) || (tf_type fr =? NGTCP2_FRAME_CRYPTO) = true) by (destruct Hty as [-> | ->]; done).
  rewrite Ht. cbn [negb Z.eqb].
  destruct (insert_place n (set_streamfrq (ngtcp2_ksl_init avail) strm) [] [] fr) as (q & -> & Hq); [|done|by exists q].
  exists (ngtcp2_ksl_init avail). split_and!; [done|apply init_wf|unfold ksl_room; cbn; lia|done].
Qed.

(** C38: data that are to be sent again are neither lost nor sent in vain.
    Taking a frame of at most [left] bytes out of the queue of a stream, with
    the merging and the splitting of frames that this needs, succeeds unless
    an allocation or retaining a buffer fails; the frame carries the bytes of
    the stream at its offset, none of them acknowledged and none of them still
    in the queue; what was pending is in the frame or still pending, and so is
    the end of the stream unless it is acknowledged.  No frame is returned
    only when fewer than 256 bytes may be sent or when nothing is pending. *)
Theorem strm_streamfrq_pop_conserves mem stream ty sid size room m P outs strm l left :
  tx_queue mem stream ty sid size m (3 + (Z.to_nat left + room)) P strm l -> 0 <= left ->
  (forall rv, rv ∈ outs -> rv = 0 \/ ngtcp2_err_is_fatal rv = true) ->
  exists rv pfr strm' outs', ngtcp2_strm_streamfrq_pop outs strm left = Ok (rv, pfr, strm', outs') /\
  (rv <> 0 /\ pfr = None /\ (exists e, e ∈ outs /\ e <> 0) \/
   rv = 0 /\ exists l', tx_queue mem stream ty sid size m room P strm' l' /\
     (forall x, pending P l x <-> some_has (option_list pfr) x \/ pending P l' x) /\
     (has_fin (option_list pfr ++ l') = true -> has_fin l = true) /\
     (has_fin l = true -> has_fin (option_list pfr ++ l') = true \/ has_flag strm NGTCP2_STRM_FLAG_FIN_ACKED = true) /\
     match pfr with
     | Some fr => tx_frame_ok mem stream ty sid size fr /\ frame_len fr <= left /\
         forall x, frame_has fr x -> ~ P x /\ ~ pending P l' x
     | None => left < NGTCP2_MIN_STREAM_DATALEN \/ forall x, ~ pending P l x
     end).
Proof.
  intros Htq Hleft Houts. destruct (streamfrq_pop_run mem stream ty sid size room m P outs strm l left Htq Hleft Houts) as ([[[rv pfr] strm'] outs'] & E & Ho & Hr).
  exists rv, pfr, strm', outs'. split; [done|]. destruct Hr as [(-> & Hrv & Hf)|(-> & l' & Hq & [(q & ->) Hl Hc Hfresh Hp Hfin Hfin' _ _] & Hfr)].
  { left. split_and!; [done|done|]. destruct Hf as [?|(_ & e & He)]; [by exists rv|by exists e]. }
  right. split; [done|]. exists l'. apply Forall_app in Hl as [Hl1 Hl2].
  assert (Hc' : chain 0 l').
  { destruct pfr as [fr|]; [|done]. destruct Hc as (Hlo & _ & Hc). eapply chain_le; [|exact Hc]. unfold after_frame. lia. }
  split_and!; [split; try done; apply Htq| |done|done|].
  - intros x. rewrite Hp, pending_held. split; [tauto|]. intros [Hx|?]; [left|by right]. split; [done|].
    destruct Hx as (fr & Hin & Hx). by eapply Hfresh.
  - destruct pfr as [fr|]; cbn in *.
    + apply Forall_cons_iff in Hl1 as [Hok _]. split_and!; [done|done|]. intros x Hx. split; [eapply Hfresh; [left|done]|].
      intros (fr' & Hin & Hx' & _). destruct Hc as (_ & _ & Hc). pose proof (chain_offsets _ _ _ Hc Hin).
      unfold frame_has, after_frame in *. lia.
    + destruct Hfr as [->|?]; [right|by left]. intros x Hx%Hp. by apply pending_nil in Hx.
Qed.

(** Three frames: the first is acknowledged in part, the last one has its
    data in a retained buffer and ends the stream. *)
Definition demo_mem (a : Z) : Z := (a * 7) mod 256.
Definition demo_stream (x : Z) : Z := demo_mem (1000 + x).
Definition demo_frame (offset len : Z) : tx_frame := mk_txfr NGTCP2_FRAME_STREAM 0 false 4 offset [mk_vec (1000 + offset) len] None.
Definition demo_end : tx_frame := mk_txfr NGTCP2_FRAME_STREAM 0 true 4 20 [] (Some (mk_txbuf 1020 1025)).

Definition demo_strm : ngtcp2_strm :=
  let strm := ngtcp2_strm_init 4 0 1000 1000 in
  let push strm fr := match ngtcp2_strm_streamfrq_push (Some 1000%nat) strm fr with Ok (_, strm) => strm | _ => strm end in
  push (push (push (set_tx (set_acked None 3 (strm_tx_half strm)) strm) demo_end) (demo_frame 0 10)) (demo_frame 10 5).

Lemma demo_carries a n : carries demo_stream a (content demo_mem [mk_vec (1000 + a) n]).
Proof.
  intros i b Hi. rewrite content_one in Hi. unfold vec_bytes in Hi. cbn [v_base v_len] in Hi.
  apply list_lookup_fmap_Some in Hi as (j & -> & Hj). apply lookup_seq in Hj as [-> _]. unfold demo_stream. f_equal. lia.
Qed.

Lemma demo_frames_ok : Forall (tx_frame_ok demo_mem demo_stream NGTCP2_FRAME_STREAM 4 25) [demo_frame 0 10; demo_frame 10 5; demo_end].
Proof.
  repeat apply Forall_cons_2; [| | |apply Forall_nil_2]; split; try apply demo_carries; try (by vm_compute);
    try (by repeat constructor); try (intros; discriminate).
Qed.

#[local] Ltac solve_chain := cbn [chain app]; repeat split; try (intros; discriminate); by vm_compute.

Lemma demo_queue : tx_queue demo_mem demo_stream NGTCP2_FRAME_STREAM 4 25 0 17 (fun x => 0 <= x < 3) demo_strm
  [demo_frame 0 10; demo_frame 10 5; demo_end].
Proof.
  split; [vm_compute; split; [done|tauto]| |apply demo_frames_ok|solve_chain].
  unfold demo_strm. set (strm0 := set_tx _ _).
  destruct (push_first 19 1000 strm0 demo_end) as (q1 & -> & Hq1); [by left|done|cbn; lia|done|].
  destruct (push_ok 18 (Some 1000%nat) (set_streamfrq q1 strm0) [] [demo_end] (demo_frame 0 10)) as (q2 & -> & Hq2); [by left|done|done|solve_chain|].
  destruct (push_ok 17 (Some 1000%nat) (set_streamfrq q2 (set_streamfrq q1 strm0)) [demo_frame 0 10] [demo_end] (demo_frame 10 5)) as (q3 & -> & Hq3);
    [by left|done|done|solve_chain|]. exact Hq3.
Qed.

(** The rest of the first frame and the second one are sent in one frame. *)
Lemma strm_streamfrq_pop_conserves_witness :
  (exists strm', ngtcp2_strm_streamfrq_pop [] demo_strm 12 = Ok (0, Some (mk_txfr NGTCP2_FRAME_STREAM 0 false 4 3 [mk_vec 1003 12] None), strm', [])) /\
  exists rv pfr strm' outs', ngtcp2_strm_streamfrq_pop [] demo_strm 12 = Ok (rv, pfr, strm', outs') /\
    (rv <> 0 /\ pfr = None /\ (exists e : Z, e ∈ ([] : list Z) /\ e <> 0) \/
     rv = 0 /\ exists l', tx_queue demo_mem demo_stream NGTCP2_FRAME_STREAM 4 25 0 2 (fun x => 0 <= x < 3) strm' l' /\
       (forall x, pending (fun x => 0 <= x < 3) [demo_frame 0 10; demo_frame 10 5; demo_end] x <->
          some_has (option_list pfr) x \/ pending (fun x => 0 <= x < 3) l' x)).
Proof.
  split; [eexists; by vm_compute|].
  destruct (strm_streamfrq_pop_conserves demo_mem demo_stream NGTCP2_FRAME_STREAM 4 25 2 0 (fun x => 0 <= x < 3) [] demo_strm
    [demo_frame 0 10; demo_frame 10 5; demo_end] 12 demo_queue ltac:(lia) ltac:(by intros ? ?%elem_of_nil)) as (rv & pfr & strm' & outs' & E & Hr).
  exists rv, pfr, strm', outs'. split; [exact E|]. destruct Hr as [Hr|(Hrv & l' & Hq & Hp & _)]; [left; exact Hr|right].
  split; [exact Hrv|]. exists l'. split; [exact Hq|exact Hp].
Defined.
