(* ===== verification/StrmSend.v ===== *)
(** * The sending half of a stream: [lib/ngtcp2_conn.c], [lib/ngtcp2_rtb.c]

    From the bytes that the application submits to their acknowledgement:
    what [ngtcp2_conn_submit_stream_buf] puts into the queue of a stream, the
    frames that are taken out of it to be sent, and what the acknowledgement
    and the loss of a packet do with the STREAM frames in it. *)

From S2P Require Import Prelude Const Ksl Gaptr Vec FrameChain Reorder Strm StrmTx.
From stdpp Require Import list.
#[local] Open Scope Z_scope.

Definition NGTCP2_ERR_STREAM_SHUT_WR : Z := -219.

Implicit Types (strm : ngtcp2_strm) (fr nfr : tx_frame) (outs : list Z).

Definition set_tx_offset (x : Z) (tx : strm_tx) : strm_tx :=
  mk_tx (tx_acked_offset tx) (tx_cont_acked_offset tx) x (tx_max_offset tx) (tx_last_blocked_offset tx)
    (tx_last_max_stream_data_ts tx) (tx_loss_count tx) (tx_last_lost_pkt_num tx) (tx_stop_sending_app_error_code tx)
    (tx_reset_stream_app_error_code tx) (tx_cycle tx) (tx_streamfrq tx).
Definition set_loss (count pkt_num : Z) (tx : strm_tx) : strm_tx :=
  mk_tx (tx_acked_offset tx) (tx_cont_acked_offset tx) (tx_offset tx) (tx_max_offset tx) (tx_last_blocked_offset tx)
    (tx_last_max_stream_data_ts tx) count pkt_num (tx_stop_sending_app_error_code tx)
    (tx_reset_stream_app_error_code tx) (tx_cycle tx) (tx_streamfrq tx).

(** [conn->tx.offset], [conn->tx.max_offset] *)
Record conn_tx := mk_conn_tx { ct_offset : Z; ct_max_offset : Z }.
Implicit Types (ct : conn_tx).

Definition conn_fc_credits ct strm : Z :=
  Z.min (u64 (tx_max_offset (strm_tx_half strm) - tx_offset (strm_tx_half strm))) (u64 (ct_max_offset ct - ct_offset ct)).

Definition conn_enforce_flow_control ct strm (len : Z) : Z := Z.min len (conn_fc_credits ct strm).

(** [ngtcp2_conn_submit_stream_buf] for a stream that was found: [datalen]
    bytes from [pos] on, in a buffer that passed the checks of the contract.
    The number of bytes that were accepted, or an error code. *)
Definition submit_stream_data outs (avail : option nat) ct strm (pos datalen : Z) (fin_flag : bool)
    : res (Z * conn_tx * ngtcp2_strm * list Z) :=
  if has_flag strm NGTCP2_STRM_FLAG_SHUT_WR then Ok (NGTCP2_ERR_STREAM_SHUT_WR, ct, strm, outs) else
  let accepted := conn_enforce_flow_control ct strm datalen in
  let fin := fin_flag && (accepted =? datalen) in
  if (accepted =? 0) && negb fin then Ok (0, ct, strm, outs) else
  let tx := strm_tx_half strm in
  if (u64 (NGTCP2_MAX_VARINT - tx_offset tx) <? accepted) || (u64 (NGTCP2_MAX_VARINT - ct_offset ct) <? accepted)
  then Ok (NGTCP2_ERR_INVALID_ARGUMENT, ct, strm, outs) else
  let (fr, outs) := ngtcp2_frame_chain_stream_datacnt_objalloc_new outs
    (mk_txfr NGTCP2_FRAME_STREAM 0 fin (strm_stream_id strm) (tx_offset tx) [] None) in
  match fr with
  | None => Ok (NGTCP2_ERR_NOMEM, ct, strm, outs)
  | Some fr =>
      let* (rv, fr, outs) :=
        if negb (accepted =? 0) then
          let (rv, outs) := next_outcome outs in
          let* (rv, fr) := ngtcp2_stream_set_txbuf rv fr (mk_txbuf pos (pos + accepted)) in Ok (rv, fr, outs)
        else Ok (0, fr, outs) in
      if negb (rv =? 0) then Ok (rv, ct, strm, outs) else
      let* (rv, strm) := ngtcp2_strm_streamfrq_push avail strm fr in
      if negb (rv =? 0) then Ok (rv, ct, strm, outs) else
      let tx := strm_tx_half strm in
      let strm := set_tx (set_tx_offset (u64 (tx_offset tx + accepted)) tx) strm in
      let ct := mk_conn_tx (u64 (ct_offset ct + accepted)) (ct_max_offset ct) in
      let strm := set_flags (Z.lor (strm_flags strm) NGTCP2_STRM_FLAG_ANY_SENT) strm in
      let strm := if fin then ngtcp2_strm_shutdown strm NGTCP2_STRM_FLAG_SHUT_WR else strm in
      Ok (accepted, ct, strm, outs)
  end.

(** The STREAM frames of [rtb_reclaim_frame].  The number of frames that were
    put back, or an error code. *)
Definition reclaim_stream outs (avail : option nat) (on_loss : bool) (pkt_num : Z) strm fr
    : res (Z * ngtcp2_strm * list Z) :=
  if has_flag strm NGTCP2_STRM_FLAG_RESET_STREAM then Ok (0, strm, outs) else
  let* gap := ngtcp2_strm_get_unacked_range_after strm (tf_offset fr) in
  let datalen := strm_frame_datalen fr in
  let range := ngtcp2_range_intersect (mk_range (tf_offset fr) (u64 (tf_offset fr + datalen))) gap in
  let tx := strm_tx_half strm in
  if (ngtcp2_range_len range =? 0) && negb (tf_fin fr) &&
     (negb (tf_offset fr =? 0) || negb (datalen =? 0) || negb (tx_offset tx =? 0) ||
      has_flag strm (Z.lor NGTCP2_STRM_FLAG_SHUT_WR NGTCP2_STRM_FLAG_ANY_ACKED))
  then Ok (0, strm, outs) else
  let strm :=
    if on_loss && negb (pkt_num =? tx_last_lost_pkt_num tx) then set_tx (set_loss (u64 (tx_loss_count tx + 1)) pkt_num tx) strm
    else strm in
  let (nfr, outs) := ngtcp2_frame_chain_stream_datacnt_objalloc_new outs
    (mk_txfr (tf_type fr) (tf_flags fr) (tf_fin fr) (tf_stream_id fr) (tf_offset fr)
       (match tf_txbuf fr with Some _ => [] | None => tf_data fr end) None) in
  match nfr with
  | None => Ok (NGTCP2_ERR_NOMEM, strm, outs)
  | Some nfr =>
      let (rv, outs) := next_outcome outs in
      let* (rv, nfr) := ngtcp2_stream_copy_txbuf rv nfr fr in
      if negb (rv =? 0) then Ok (rv, strm, outs) else
      let* (rv, strm) := ngtcp2_strm_streamfrq_push avail strm nfr in
      if negb (rv =? 0) then Ok (rv, strm, outs) else Ok (1, strm, outs)
  end.

(** The STREAM frames of [process_acked_pkt], with the call of
    [acked_stream_data_offset], if there is one. *)
Definition process_acked_stream (avail : option nat) (registered : bool) strm fr
    : res (Z * ngtcp2_strm * option (Z * Z)) :=
  let strm := set_flags (Z.lor (strm_flags strm) NGTCP2_STRM_FLAG_ANY_ACKED) strm in
  let strm := if tf_fin fr then set_flags (Z.lor (strm_flags strm) NGTCP2_STRM_FLAG_FIN_ACKED) strm else strm in
  let* prev_stream_offset := ngtcp2_strm_get_acked_offset strm in
  let* (rv, strm) := ngtcp2_strm_ack_data avail strm (tf_offset fr) (strm_frame_datalen fr) in
  if negb (rv =? 0) then Ok (rv, strm, None) else
  if negb registered then Ok (0, strm, None) else
  let* stream_offset := ngtcp2_strm_get_acked_offset strm in
  let datalen := u64 (stream_offset - prev_stream_offset) in
  if (datalen =? 0) && negb (tf_fin fr) then Ok (0, strm, None) else Ok (0, strm, Some (prev_stream_offset, datalen)).

(** ** What happens on the sending half of a stream *)

(** The state, with what is known of the network and of the application:
    [ss_data], the bytes that were accepted; [ss_sent], the frames that were
    sent, and if they still may be declared lost; [ss_acks], the frames that
    were acknowledged; [ss_calls], the calls of [acked_stream_data_offset]. *)
Record send_state := mk_ss {
  ss_conn : conn_tx;
  ss_strm : ngtcp2_strm;
  ss_data : list Z;
  ss_sent : list (tx_frame * bool);
  ss_acks : list tx_frame;
  ss_calls : list (Z * Z);
}.

Inductive send_event :=
| Submit (outs : list Z) (avail : option nat) (pos datalen : Z) (fin : bool)
| Send (outs : list Z) (n : Z)
| Lost (outs : list Z) (avail : option nat) (on_loss : bool) (pkt_num : Z) (i : nat)
| Acked (avail : option nat) (i : nat)
| MaxStreamData (n : Z)
| MaxData (n : Z).

(** [mem]: the bytes in memory.  A packet is declared lost, or its frames are
    sent again for a probe, at most once; an acknowledgement can come late. *)
Definition send_step (mem : Z -> Z) (ev : send_event) (st : send_state) : res (Z * send_state) :=
  let '(mk_ss ct strm data sent acks calls) := st in
  match ev with
  | Submit outs avail pos datalen fin =>
      let* (rv, ct, strm, _) := submit_stream_data outs avail ct strm pos datalen fin in
      Ok (rv, mk_ss ct strm (if 0 <? rv then data ++ content mem [mk_vec pos rv] else data) sent acks calls)
  | Send outs n =>
      let* (rv, fr, strm, _) := ngtcp2_strm_streamfrq_pop outs strm n in
      Ok (rv, mk_ss ct strm data (match fr with Some fr => sent ++ [(fr, true)] | None => sent end) acks calls)
  | Lost outs avail on_loss pkt_num i =>
      match sent !! i with
      | Some (fr, true) =>
          let* (rv, strm, _) := reclaim_stream outs avail on_loss pkt_num strm fr in
          Ok (rv, mk_ss ct strm data (<[i := (fr, false)]> sent) acks calls)
      | _ => Ok (0, st)
      end
  | Acked avail i =>
      match sent !! i with
      | Some (fr, _) =>
          let* (rv, strm, call) := process_acked_stream avail true strm fr in
          Ok (rv, mk_ss ct strm data (<[i := (fr, false)]> sent) (fr :: acks)
            (match call with Some call => calls ++ [call] | None => calls end))
      | None => Ok (0, st)
      end
  | MaxStreamData n =>
      let tx := strm_tx_half strm in
      Ok (0, mk_ss ct (if tx_max_offset tx <? n then set_tx (set_tx_max_offset n tx) strm else strm) data sent acks calls)
  | MaxData n => Ok (0, mk_ss (mk_conn_tx (ct_offset ct) (Z.max (ct_max_offset ct) n)) strm data sent acks calls)
  end.

(** After an error, other than one that [ngtcp2_conn_submit_stream_buf]
    returns, the connection is closed. *)
Definition send_goes_on (ev : send_event) (rv : Z) : bool :=
  match ev with Submit _ _ _ _ _ => true | _ => 0 <=? rv end.

Fixpoint send_run (mem : Z -> Z) (evs : list send_event) (st : send_state) : res (bool * send_state) :=
  match evs with
  | [] => Ok (true, st)
  | ev :: evs =>
      let* (rv, st) := send_step mem ev st in
      if send_goes_on ev rv then send_run mem evs st else Ok (false, st)
  end.

(** A new stream.  [max_tx_offset], [max_data]: the initial limits. *)
Definition send_start (sid max_rx_offset max_tx_offset max_data : Z) : send_state :=
  mk_ss (mk_conn_tx 0 max_data) (ngtcp2_strm_init sid 0 max_rx_offset max_tx_offset) [] [] [] [].

(** The frames that are not yet declared lost. *)
Definition in_flight (sent : list (tx_frame * bool)) : list tx_frame :=
  map fst (filter (fun x : tx_frame * bool => x.2 = true) sent).
