(* ===== verification/StrmSendInv.v ===== *)
(** * The sending half of a stream: the steps

    What an acknowledgement, a loss and a submission change. *)

From S2P Require Import Prelude Const Ksl KslInv KslIter KslSearch KslSpec KslMap Gaptr Vec FrameChain Reorder Strm StrmTx.
From S2P Require Import StrmTxInv StrmTxPop StrmTxSpec StrmSend.
From stdpp Require Import list.
#[local] Open Scope Z_scope.
#[local] Set Warnings "-clear-no-such-hyp".
#[local] Set Default Proof Using "Type".

Implicit Types (strm : ngtcp2_strm) (fr nfr f g : tx_frame) (outs : list Z) (l : list tx_frame) (P : Z -> Prop).

(** A limit on the number of gaps or of frames is reached. *)
Definition crowded strm : Prop :=
  (exists gaptr : ngtcp2_gaptr, tx_acked_offset (strm_tx_half strm) = Some gaptr /\ 4000 <= Z.of_nat (ngtcp2_ksl_len gaptr)) \/
  (exists q, tx_streamfrq (strm_tx_half strm) = Some q /\ 8000 <= Z.of_nat (ngtcp2_ksl_len q)).

(** ** Acknowledgement *)
Lemma empty_monotone (gaptr : ngtcp2_gaptr) x : monotone ngtcp2_ksl_range_compar ngtcp2_ksl_range_exclusive_compar (mk_range x x) (ksl_marks gaptr).
Proof.
  assert (E : forall k, ngtcp2_ksl_range_exclusive_compar k (mk_range x x) = (r_begin k <? x)).
  { intros k. unfold ngtcp2_ksl_range_exclusive_compar. cbn [r_begin r_end].
    rewrite (proj2 (Z.ltb_ge (Z.max _ _) _)) by lia. by rewrite andb_true_r. }
  intros m1 m2 _ _ Hlt _. rewrite !E, !Z.ltb_lt. unfold R, ngtcp2_ksl_range_compar in Hlt.
  destruct m2; cbn in *; rewrite ?Z.ltb_lt, ?Z.ltb_ge in Hlt; lia.
Qed.

(** An empty range is pushed. *)
Lemma gaptr_push_empty n P gaptr x :
  gaptr_rep (S n) P gaptr -> 0 <= x < UINT64_MAX ->
  exists gaptr', ngtcp2_gaptr_push gaptr x 0 = Ok (0, gaptr') /\ gaptr_rep n P gaptr'.
Proof.
  intros Hrep Hx. unfold ngtcp2_gaptr_push. rewrite Z.add_0_r, u64_small by (unfold is_u64, UINT64_MAX in *; lia).
  destruct (gap_init_ok n P gaptr Hrep) as (g1 & -> & Hok1 & Hroom1 & Hm1). cbn [bind Z.eqb negb].
  destruct (lower_bound_run _ ngtcp2_ksl_range_exclusive_compar g1 (mk_range x x) (go_wf _ Hok1) (empty_monotone _ _))
    as (it & A & B & -> & Hc & _). cbn [bind push_loop].
  assert (Hg : gaptr_rep n P g1).
  { pose proof (gr_last _ _ _ Hrep) as Hlast. split; try done.
    intros E. rewrite len_elems in E by done. apply length_zero_iff_nil in E.
    destruct (proj2 (Hm1 (UINT64_MAX - 1) ltac:(unfold UINT64_MAX; lia)) Hlast) as (e & Hel & _).
    rewrite E in Hel. by apply elem_of_nil in Hel. }
  exists g1. split; [|done]. rewrite (cursor_it_end g1 it _ _ Hc). destruct B as [|y B]; [done|].
  rewrite bool_decide_eq_false_2 by done. rewrite (cursor_it_key g1 it _ _ _ Hc). cbn [bind].
  unfold ngtcp2_range_intersect. cbn [r_begin r_end]. rewrite (proj2 (Z.ltb_ge (Z.max _ _) _)) by lia. done.
Qed.

(** Any range is pushed. *)
Lemma gaptr_push_any n P gaptr x len :
  gaptr_rep (S (S n)) P gaptr -> 0 <= x -> 0 <= len -> x + len <= NGTCP2_MAX_VARINT ->
  exists gaptr', ngtcp2_gaptr_push gaptr x len = Ok (0, gaptr') /\ gaptr_rep n (fun y => P y \/ x <= y < x + len) gaptr'.
Proof.
  assert (HM : UINT64_MAX = 18446744073709551615) by reflexivity.
  assert (HV : NGTCP2_MAX_VARINT = 4611686018427387903) by reflexivity. intros Hrep Hx Hlen Hle.
  destruct (Z.eq_dec len 0) as [->|].
  - destruct (gaptr_push_empty n P gaptr x) as (g & -> & Hg); [by apply gaptr_rep_room|lia|]. exists g. split; [done|].
    eapply gaptr_rep_ext; [|exact Hg]. cbn. intros y. split; [auto|]. intros [?|?]; [done|lia].
  - apply gaptr_push_ok; [done|lia|lia|lia].
Qed.

(** [P] has the tracker with memory for [n] more, or none yet. *)
Lemma tx_tracks_room n P strm : tx_tracks (S n) P strm -> tx_tracks n P strm.
Proof. unfold tx_tracks. destruct (tx_acked_offset _); [apply gaptr_rep_room|done]. Qed.

(** The rest of the stream stays the same. *)
Definition same_but_acked strm strm' : Prop :=
  exists acked cont, strm' = set_tx (set_acked acked cont (strm_tx_half strm)) strm.

Lemma same_but_acked_refl strm : same_but_acked strm strm.
Proof. exists (tx_acked_offset (strm_tx_half strm)), (tx_cont_acked_offset (strm_tx_half strm)). destruct strm as [? ? ? ? ? ? ? ? ? ? []]. done. Qed.

Lemma same_but_acked_trans strm strm1 strm2 : same_but_acked strm strm1 -> same_but_acked strm1 strm2 -> same_but_acked strm strm2.
Proof. intros (a & c & ->) (a' & c' & ->). by exists a', c'. Qed.

Lemma acked_push_run n P strm x len :
  gaptr_rep (S (S n)) P (default (ngtcp2_gaptr_init 0) (tx_acked_offset (strm_tx_half strm))) ->
  tx_acked_offset (strm_tx_half strm) <> None -> 0 <= x -> 0 <= len -> x + len <= NGTCP2_MAX_VARINT ->
  exists strm', strm_acked_push strm x len = Ok (0, strm') /\ same_but_acked strm strm' /\
    tx_acked_offset (strm_tx_half strm') <> None /\
    gaptr_rep n (fun y => P y \/ x <= y < x + len) (default (ngtcp2_gaptr_init 0) (tx_acked_offset (strm_tx_half strm'))).
Proof.
  unfold strm_acked_push. destruct (tx_acked_offset (strm_tx_half strm)) as [g|]; [|done]. cbn [default]. intros Hg _ Hx Hlen Hle.
  destruct (gaptr_push_any n P g x len Hg Hx Hlen Hle) as (g' & -> & Hg'). cbn [bind]. eexists. split; [done|].
  split; [by eexists _, _|]. done.
Qed.

Lemma ack_data_run n avail P strm x len :
  tx_tracks (4 + n) P strm -> (forall a, avail = Some a -> ((4 + n) * (4 + n + 3) <= a)%nat) ->
  0 <= x -> 0 <= len -> x + len <= NGTCP2_MAX_VARINT ->
  exists rv strm', ngtcp2_strm_ack_data avail strm x len = Ok (rv, strm') /\ same_but_acked strm strm' /\
    (rv < 0 /\ (avail = None \/ crowded strm') \/ rv = 0 /\ tx_tracks n (fun y => P y \/ x <= y < x + len) strm').
Proof.
  assert (HV : NGTCP2_MAX_VARINT = 4611686018427387903) by reflexivity.
  intros Htr Ha Hx Hlen Hle. unfold ngtcp2_strm_ack_data.
  set (finish := fun strm0 : ngtcp2_strm =>
    let* (rv, strm) := strm_acked_push strm0 x len in
    if negb (rv =? 0) then Ok (rv, strm) else
    match tx_acked_offset (strm_tx_half strm) with
    | None => Fault
    | Some gaptr => if 4000 <=? Z.of_nat (ngtcp2_ksl_len gaptr) then Ok (NGTCP2_ERR_INTERNAL, strm) else Ok (0, strm)
    end).
  assert (Hfin : forall Q strm0, (forall y, Q y <-> P y) -> same_but_acked strm strm0 -> tx_acked_offset (strm_tx_half strm0) <> None ->
    gaptr_rep (S (S n)) Q (default (ngtcp2_gaptr_init 0) (tx_acked_offset (strm_tx_half strm0))) ->
    exists rv strm', finish strm0 = Ok (rv, strm') /\ same_but_acked strm strm' /\
      (rv < 0 /\ (avail = None \/ crowded strm') \/ rv = 0 /\ tx_tracks n (fun y => P y \/ x <= y < x + len) strm')).
  { intros Q strm0 HQ Hs Hne Hg. unfold finish.
    destruct (acked_push_run n Q strm0 x len Hg Hne Hx Hlen Hle) as (strm1 & -> & Hs1 & Hne1 & Hg1). cbn [bind negb Z.eqb].
    pose proof (same_but_acked_trans _ _ _ Hs Hs1) as Hs2.
    destruct (tx_acked_offset (strm_tx_half strm1)) as [g|] eqn:Eg; [|done].
    destruct (Z.leb_spec 4000 (Z.of_nat (ngtcp2_ksl_len g))) as [Hle4|_]; (do 2 eexists; split; [done|]); (split; [done|]).
    { left. split; [done|]. right. left. by exists g. }
    right. split; [done|].
    unfold tx_tracks. rewrite Eg. eapply gaptr_rep_ext; [|exact Hg1]. cbn. intros y. by rewrite HQ. }
  unfold tx_tracks in Htr. destruct (tx_acked_offset (strm_tx_half strm)) as [g|] eqn:Eg.
  - apply (Hfin P); [done|apply same_but_acked_refl|by rewrite Eg|]. rewrite Eg. by do 2 apply gaptr_rep_room.
  - destruct Htr as [Hc HP]. destruct (Z.eqb_spec (tx_cont_acked_offset (strm_tx_half strm)) x) as [Ex|Ex].
    + rewrite u64_small by (unfold is_u64; lia). do 2 eexists. split; [done|]. split; [by eexists _, _|]. right. split; [done|].
      unfold tx_tracks. cbn. split; [lia|]. intros y. rewrite HP. lia.
    + unfold strm_acked_offset_init. destruct avail as [a|]; [|do 2 eexists; split; [done|]; split; [apply same_but_acked_refl|left; split; [done|by left]]].
      cbn [negb Z.eqb]. set (strm0 := set_tx _ strm).
      destruct (acked_push_run (S (S n)) (fun _ => False) strm0 0 (tx_cont_acked_offset (strm_tx_half strm))) as (strm1 & -> & Hs1 & Hne1 & Hg1);
        [by apply gaptr_init_rep, Ha|done|lia|lia|lia|]. cbn [bind negb Z.eqb].
      eapply Hfin; [|by eapply same_but_acked_trans; [|exact Hs1]; eexists _, _|exact Hne1|exact Hg1].
      cbn. intros y. rewrite HP. split; [intros [?|?]; [done|lia]|intros ?; right; lia].
Qed.

(** ** The place of a frame in the queue *)
Definition apart f g : Prop := (forall x, frame_has f x -> ~ frame_has g x) /\ (tf_fin f = true -> tf_fin g = false).

Lemma apart_sym f g : apart f g -> apart g f.
Proof.
  intros [H1 H2]. split; [intros x Hx Hf; by apply (H1 x)|]. intros Hg. destruct (tf_fin f); [|done].
  by rewrite (H2 eq_refl) in Hg.
Qed.

Section Place.
Context (mem stream : Z -> Z) (ty sid size : Z).
#[local] Abbreviation tx_frame_ok := (tx_frame_ok mem stream ty sid size).

(** A frame is empty at the end of the stream, or not empty. *)
Lemma solid_cases fr :
  tx_frame_ok fr -> solid fr ->
  0 < frame_len fr /\ frame_end fr <= size \/ frame_len fr = 0 /\ tf_fin fr = true /\ tf_offset fr = size.
Proof.
  intros Hok Hs. pose proof (size_range _ _ _ _ _ _ Hok). destruct (Z.eq_dec (frame_len fr) 0) as [E|].
  - right. pose proof (tk_fin _ _ _ _ _ _ Hok (Hs E)) as He. unfold frame_end in He. split_and!; [done|by apply Hs|lia].
  - left. unfold frame_end. lia.
Qed.

Lemma apart_order f g :
  tx_frame_ok f -> tx_frame_ok g -> solid f -> solid g -> apart f g ->
  tf_fin g = false /\ after_frame g <= tf_offset f \/ tf_fin f = false /\ after_frame f <= tf_offset g.
Proof.
  intros Hf Hg Sf Sg [Hb Hfin]. pose proof (tk_fin _ _ _ _ _ _ Hf) as Ff. pose proof (tk_fin _ _ _ _ _ _ Hg) as Fg.
  unfold frame_has, after_frame in *.
  destruct (solid_cases _ Hf Sf) as [[Lf Ef]|(Lf & Ff' & Of)]; destruct (solid_cases _ Hg Sg) as [[Lg Eg]|(Lg & Fg' & Og)];
    unfold frame_end in *.
  - destruct (Z.le_gt_cases (tf_offset g + frame_len g) (tf_offset f)).
    + left. split; [|lia]. destruct (tf_fin g); [|done]. specialize (Fg eq_refl). lia.
    + right. assert (Hle : tf_offset f + frame_len f <= tf_offset g).
      { destruct (Z.le_gt_cases (tf_offset f + frame_len f) (tf_offset g)); [done|].
        destruct (Hb (Z.max (tf_offset f) (tf_offset g))); lia. }
      split; [|lia]. destruct (tf_fin f); [|done]. specialize (Ff eq_refl). lia.
  - right. split; [|lia]. destruct (tf_fin f); [|done]. by rewrite (Hfin eq_refl) in Fg'.
  - left. split; [by apply Hfin|lia].
  - by rewrite (Hfin Ff') in Fg'.
Qed.

Lemma place_exists l lo f :
  tx_frame_ok f -> solid f -> Forall tx_frame_ok l -> Forall solid l -> chain lo l -> lo <= tf_offset f ->
  Forall (apart f) l -> exists l1 l2, l = l1 ++ l2 /\ chain lo (l1 ++ f :: l2).
Proof.
  intros Hf Sf. revert lo. induction l as [|g l IH]; intros lo Hl Sl Hc Hlo Ha.
  { exists [], []. split; [done|]. cbn. done. }
  apply Forall_cons_iff in Hl as [Hg Hl]. apply Forall_cons_iff in Sl as [Sg Sl]. apply Forall_cons_iff in Ha as [Hag Ha].
  destruct Hc as (Hlo' & Hnil & Hc). destruct (apart_order f g Hf Hg Sf Sg Hag) as [[Fg Hle]|[Ff Hle]].
  - destruct (IH (after_frame g) Hl Sl Hc Hle Ha) as (l1 & l2 & -> & Hc'). exists (g :: l1), l2. split; [done|].
    cbn [app chain]. split_and!; [done|by rewrite Fg|done].
  - exists [], (g :: l). split; [done|]. cbn [app chain]. split_and!; [done|by rewrite Ff|lia|done|done].
Qed.

(** The frames of a queue are apart. *)
Lemma chain_apart lo l : chain lo l -> ForallOrdPairs apart l.
Proof.
  revert lo. induction l as [|f l IH]; intros lo; [constructor|]. intros (Hlo & Hnil & Hc). constructor; [|by eapply IH].
  apply Forall_forall. intros g Hg. pose proof (chain_offsets _ _ _ Hc Hg). split.
  - unfold frame_has, after_frame in *. lia.
  - intros Hf. by rewrite (Hnil Hf), elem_of_nil in Hg.
Qed.
End Place.

(** ** The queue, which may not be there yet *)
Definition squeue (n : nat) strm l : Prop := tx_streamfrq (strm_tx_half strm) = None /\ l = [] \/ queue_rep n strm l.

Lemma squeue_le n k strm l : (k <= n)%nat -> squeue n strm l -> squeue k strm l.
Proof. intros Hk [?|?]; [by left|right]. by eapply queue_le. Qed.

Lemma squeue_push n avail strm l1 l2 f :
  squeue (S n) strm (l1 ++ l2) -> (forall a, avail = Some a -> (S n * (S n + 3) <= a)%nat) ->
  tf_type f = NGTCP2_FRAME_STREAM \/ tf_type f = NGTCP2_FRAME_CRYPTO -> chain 0 (l1 ++ f :: l2) ->
  exists rv strm', ngtcp2_strm_streamfrq_push avail strm f = Ok (rv, strm') /\
    (rv < 0 /\ strm' = strm /\ (avail = None \/ crowded strm) \/ rv = 0 /\ (exists q, strm' = set_streamfrq q strm) /\ squeue n strm' (l1 ++ f :: l2)).
Proof.
  intros Hq Ha Hty Hc. destruct Hq as [[Hnone [-> ->]%app_eq_nil]|Hq].
  - destruct avail as [a|].
    + destruct (push_first n a strm f Hty Hnone (Ha a eq_refl)) as (q & -> & Hq'); [by destruct Hc|].
      do 2 eexists. split; [done|]. right. split; [done|]. split; [by exists q|by right].
    + exists NGTCP2_ERR_NOMEM, strm. split; [|left; split_and!; [done|done|by left]]. unfold ngtcp2_strm_streamfrq_push. rewrite Hnone.
      by destruct Hty as [-> | ->].
  - destruct (Z.lt_ge_cases (Z.of_nat (length (l1 ++ l2))) 8000) as [Hlt|Hge].
    + destruct (push_ok n avail strm l1 l2 f Hty Hlt Hq Hc) as (q & -> & Hq'). do 2 eexists. split; [done|].
      right. split; [done|]. split; [by exists q|by right].
    + pose proof Hq as (q & Eq & _). exists NGTCP2_ERR_INTERNAL, strm. split.
      2: { left. split_and!; [done|done|]. right. right. exists q. split; [done|]. by rewrite (queue_len _ _ _ _ Hq Eq). }
      unfold ngtcp2_strm_streamfrq_push.
      rewrite Eq, (queue_len _ _ _ _ Hq Eq), (proj2 (Z.leb_le 8000 _)) by lia. by destruct Hty as [-> | ->].
Qed.

Lemma squeue_pop n strm l : squeue n strm l -> tx_streamfrq (strm_tx_half strm) = None \/ queue_rep n strm l.
Proof. intros [[? _]|?]; auto. Qed.
