(* ===== verification/StrmSendSpec.v ===== *)
(** * The sending half of a stream: nothing is forgotten

    Whatever is lost, acknowledged and sent, every byte that the application
    submitted is acknowledged, in flight, or waiting to be sent. *)

From S2P Require Import Prelude Const Ksl Gaptr Vec FrameChain Reorder Strm StrmTx.
From S2P Require Import StrmTxInv StrmTxPop StrmTxSpec StrmSend StrmSendInv.
From stdpp Require Import list.
#[local] Open Scope Z_scope.
#[local] Set Warnings "-clear-no-such-hyp".

Implicit Types (strm : ngtcp2_strm) (fr nfr f g : tx_frame) (outs : list Z) (l : list tx_frame) (P : Z -> Prop)
  (st : send_state) (ev : send_event) (sent : list (tx_frame * bool)).

(** ** Frames that were sent *)
Lemma pairs_app {A : Type} (R : A -> A -> Prop) (l1 l2 : list A) :
  ForallOrdPairs R (l1 ++ l2) <-> ForallOrdPairs R l1 /\ ForallOrdPairs R l2 /\ forall x, x ∈ l1 -> Forall (R x) l2.
Proof.
  induction l1 as [|x l1 IH]; cbn [app].
  { split; [intros H; split_and!; [constructor|done|by intros ? ?%elem_of_nil]|tauto]. }
  split.
  - intros H. inversion H as [|? ? Hx Hl]; subst. apply IH in Hl as (H1 & H2 & H3). apply Forall_app in Hx as [Hx1 Hx2].
    split_and!; [by constructor|done|]. intros y [->|Hy]%elem_of_cons; [done|by apply H3].
  - intros (H1 & H2 & H3). inversion H1 as [|? ? Hx Hl]; subst. constructor.
    + apply Forall_app. split; [done|]. apply H3. left.
    + apply IH. split_and!; [done|done|]. intros y Hy. apply H3. by right.
Qed.

Lemma apart_pick A f B : ForallOrdPairs apart (A ++ f :: B) -> ForallOrdPairs apart (A ++ B) /\ Forall (apart f) (A ++ B).
Proof.
  rewrite !pairs_app. intros (H1 & H2 & H3). inversion H2 as [|? ? Hx Hl]; subst. split.
  - split_and!; [done|done|]. intros x Hin. by specialize (H3 x Hin) as [_ ?]%Forall_cons_iff.
  - apply Forall_app. split; [|done]. apply Forall_forall. intros x Hin.
    specialize (H3 x Hin) as [? _]%Forall_cons_iff. by apply apart_sym.
Qed.

Lemma split_sent sent i x :
  sent !! i = Some x -> exists s1 s2, sent = s1 ++ x :: s2 /\ forall y, <[i := y]> sent = s1 ++ y :: s2.
Proof.
  intros Hi. exists (take i sent), (drop (S i) sent). split; [by rewrite take_drop_middle|].
  intros y. apply insert_take_drop. by eapply lookup_lt_Some.
Qed.

Lemma in_flight_app s1 s2 : in_flight (s1 ++ s2) = in_flight s1 ++ in_flight s2.
Proof. unfold in_flight. by rewrite filter_app, map_app. Qed.

Lemma in_flight_cons fr (b : bool) sent : in_flight ((fr, b) :: sent) = if b then fr :: in_flight sent else in_flight sent.
Proof. unfold in_flight. destruct b; [by rewrite filter_cons_True|by rewrite filter_cons_False]. Qed.

Lemma in_flight_sent sent f : f ∈ in_flight sent -> f ∈ map fst sent.
Proof.
  unfold in_flight. intros (x & -> & [_ Hx]%list_elem_of_filter)%list_elem_of_fmap. apply list_elem_of_fmap. by exists x.
Qed.

(** ** The data *)
Definition bytes_of (data : list Z) (x : Z) : Z := nth (Z.to_nat x) data 0.

Lemma carries_grow data data' offset d :
  0 <= offset -> offset + zlen d <= zlen data -> carries (bytes_of data) offset d -> carries (bytes_of (data ++ data')) offset d.
Proof.
  intros Ho Hl Hc i b Hi. rewrite (Hc i b Hi). unfold bytes_of. apply lookup_lt_Some in Hi. unfold zlen in *.
  rewrite app_nth1; [done|lia].
Qed.

Lemma carries_new data data' : carries (bytes_of (data ++ data')) (zlen data) data'.
Proof.
  intros i b Hi. unfold bytes_of, zlen. rewrite app_nth2 by lia.
  replace (Z.to_nat _ - length data)%nat with i by lia. symmetry. by apply nth_lookup_Some.
Qed.

Lemma frame_ok_grow mem ty sid data data' size size' f :
  tx_frame_ok mem (bytes_of data) ty sid size f -> size = zlen data -> size <= size' <= NGTCP2_MAX_VARINT ->
  tf_fin f = false -> tx_frame_ok mem (bytes_of (data ++ data')) ty sid size' f.
Proof.
  intros Hok Hs Hs' Hf. pose proof (size_range _ _ _ _ _ _ Hok) as Hr. pose proof Hok as [H1 H2 H3 H4 H5 H6 H7 H8].
  split; try done; [unfold frame_end in *; lia| |by rewrite Hf].
  apply carries_grow; [lia| |done]. unfold frame_data. rewrite content_len by done. unfold frame_len in Hr. lia.
Qed.

(** What is acknowledged is decidable. *)
Lemma some_has_stable l x : ~ ~ some_has l x -> some_has l x.
Proof.
  intros H. destruct (decide (Exists (fun f => tf_offset f <= x < frame_end f) l)) as [He|Hn].
  - apply Exists_exists in He as (f & Hf & Hx). by exists f.
  - destruct H. intros (f & Hf & Hx). apply Hn, Exists_exists. by exists f.
Qed.

(** ** The calls of the application *)
Definition first_unacked P (k : Z) : Prop := 0 <= k /\ ~ P k /\ forall x, 0 <= x < k -> ~ ~ P x.

Lemma first_unacked_unique P k k' : first_unacked P k -> first_unacked P k' -> k = k'.
Proof.
  intros (H1 & H2 & H3) (H4 & H5 & H6). destruct (Z.lt_total k k') as [?|[?|?]]; [|done|].
  - by destruct (H6 k ltac:(lia)).
  - by destruct (H3 k' ltac:(lia)).
Qed.

Lemma first_unacked_le P Q k k' : (forall x, P x -> Q x) -> first_unacked P k -> first_unacked Q k' -> k <= k'.
Proof.
  intros HPQ (H1 & H2 & H3) (H4 & H5 & H6). destruct (Z.le_gt_cases k k'); [done|]. exfalso. apply (H3 k'); [lia|]. auto.
Qed.

Lemma acked_offset_run n P strm :
  tx_tracks n P strm -> exists k, ngtcp2_strm_get_acked_offset strm = Ok k /\ first_unacked P k /\
    ngtcp2_strm_is_all_tx_data_acked strm = Ok (k =? tx_offset (strm_tx_half strm)).
Proof.
  unfold tx_tracks, ngtcp2_strm_get_acked_offset, ngtcp2_strm_is_all_tx_data_acked.
  destruct (tx_acked_offset (strm_tx_half strm)) as [g|].
  - intros Hg. destruct (first_gap_ok n P g Hg) as (k & -> & Hk & Hn & Hb). exists k.
    split; [done|]. split; [|done]. split; [lia|]. by split.
  - intros [Hc HP]. eexists. split; [done|]. split; [|done]. split; [lia|]. split; [rewrite HP; lia|].
    intros x Hx Hn. apply Hn, HP. lia.
Qed.

(** The calls follow each other from offset 0 to [k]. *)
Fixpoint contiguous (from : Z) (calls : list (Z * Z)) (k : Z) : Prop :=
  match calls with
  | [] => from = k
  | (offset, datalen) :: calls => offset = from /\ 0 <= datalen /\ contiguous (offset + datalen) calls k
  end.

Lemma contiguous_snoc from calls k n : contiguous from calls k -> 0 <= n -> contiguous from (calls ++ [(k, n)]) (k + n).
Proof. revert from. induction calls as [|[o d] calls IH]; intros from; cbn; [by intros ->|]. intros (? & ? & ?) ?. auto. Qed.

(** ** The invariant *)
Definition ss_acked st : Z -> Prop := some_has (ss_acks st).
Definition ss_size st : Z := tx_offset (strm_tx_half (ss_strm st)).
Definition ss_frames st l : list tx_frame := map fst (ss_sent st) ++ l.
Definition ss_waiting st l : list tx_frame := in_flight (ss_sent st) ++ l.

(** [ng], [nq]: the memory for the tracker of gaps and for the queue. *)
Record send_ok (mem : Z -> Z) (sid : Z) (ng nq : nat) st l : Prop := {
  so_tracks : tx_tracks ng (ss_acked st) (ss_strm st);
  so_queue : squeue nq (ss_strm st) l;
  so_chain : chain 0 l;
  so_frames : Forall (fun f => tx_frame_ok mem (bytes_of (ss_data st)) NGTCP2_FRAME_STREAM sid (ss_size st) f /\ solid f) (ss_frames st l);
  so_apart : ForallOrdPairs apart (ss_waiting st l);
  so_acks : forall f, f ∈ ss_acks st -> f ∈ map fst (ss_sent st);
  so_covered : forall x, 0 <= x < ss_size st -> ~ ss_acked st x -> some_has (ss_waiting st l) x;
  so_fin : if has_flag (ss_strm st) NGTCP2_STRM_FLAG_SHUT_WR
    then has_flag (ss_strm st) NGTCP2_STRM_FLAG_FIN_ACKED = true \/ has_fin (ss_waiting st l) = true
    else has_fin (ss_frames st l) = false /\ has_flag (ss_strm st) NGTCP2_STRM_FLAG_FIN_ACKED = false;
  so_size : ss_size st = zlen (ss_data st);
  so_limits : ss_size st <= tx_max_offset (strm_tx_half (ss_strm st)) <= NGTCP2_MAX_VARINT /\
    0 <= ct_offset (ss_conn st) <= ct_max_offset (ss_conn st) /\ ct_max_offset (ss_conn st) <= NGTCP2_MAX_VARINT;
  so_strm : strm_stream_id (ss_strm st) = sid /\ has_flag (ss_strm st) NGTCP2_STRM_FLAG_RESET_STREAM = false;
  so_calls : exists k, contiguous 0 (ss_calls st) k /\ first_unacked (ss_acked st) k;
}.

Lemma has_fin_In l : has_fin l = true <-> exists f, f ∈ l /\ tf_fin f = true.
Proof.
  unfold has_fin. rewrite existsb_exists. setoid_rewrite <- list_elem_of_In. done.
Qed.

Lemma has_fin_false l f : has_fin l = false -> f ∈ l -> tf_fin f = false.
Proof. intros H Hin. destruct (tf_fin f) eqn:E; [|done]. assert (has_fin l = true) by (apply has_fin_In; eauto). congruence. Qed.

(** An allocation or retaining a buffer fails in the event. *)
Definition send_fails ev : Prop :=
  match ev with
  | Submit outs avail _ _ _ | Lost outs avail _ _ _ => (exists rv, rv ∈ outs /\ rv <> 0) \/ avail = None
  | Send outs _ => exists rv, rv ∈ outs /\ rv <> 0
  | Acked avail _ => avail = None
  | _ => False
  end.

Definition outs_ok outs : Prop := forall rv, rv ∈ outs -> rv = 0 \/ ngtcp2_err_is_fatal rv = true.

Lemma fails_neg outs rv : outs_ok outs -> fails outs rv -> rv < 0 /\ exists rv, rv ∈ outs /\ rv <> 0.
Proof.
  intros Ho [Hrv [Hin|(-> & H)]]; [|done]. split; [|by exists rv]. destruct (Ho rv Hin) as [?|Hf]; [done|].
  unfold ngtcp2_err_is_fatal, NGTCP2_ERR_FATAL in Hf. lia.
Qed.

Section Steps.
Context (mem : Z -> Z) (sid : Z) (ng nq : nat).
#[local] Abbreviation send_ok := (send_ok mem sid).
Implicit Types (ct : conn_tx) (data : list Z) (acks : list tx_frame) (calls : list (Z * Z)).

Lemma ok_frame st l n k f : send_ok n k st l -> f ∈ ss_frames st l ->
  tx_frame_ok mem (bytes_of (ss_data st)) NGTCP2_FRAME_STREAM sid (ss_size st) f /\ solid f.
Proof. intros Hok Hin. pose proof (so_frames _ _ _ _ _ _ Hok) as H. rewrite Forall_forall in H. by apply H. Qed.

Lemma acked_range st l n k x : send_ok n k st l -> ss_acked st x -> 0 <= x < ss_size st.
Proof.
  intros Hok (f & Hf & Hx). apply (so_acks _ _ _ _ _ _ Hok) in Hf.
  destruct (ok_frame st l n k f Hok) as [Hfo _]; [by apply elem_of_app; left|]. pose proof (size_range _ _ _ _ _ _ Hfo).
  unfold frame_has, frame_end in Hx. lia.
Qed.

(** The flags that an acknowledgement sets. *)
Lemma has_flag_set strm (f g : Z) : has_flag (set_flags (Z.lor (strm_flags strm) f) strm) g = has_flag strm g || negb (Z.land f g =? 0).
Proof.
  unfold has_flag. cbn. rewrite Z.land_lor_distr_l.
  destruct (Z.eqb_spec (Z.land (strm_flags strm) g) 0) as [->|H1].
  - by rewrite Z.lor_0_l.
  - rewrite (proj2 (Z.eqb_neq _ _)); [done|]. by intros [? _]%Z.lor_eq_0_iff.
Qed.

Lemma tracks_le n k P strm : (k <= n)%nat -> tx_tracks n P strm -> tx_tracks k P strm.
Proof. induction 1; [done|]. intros H'. apply IHle. by apply tx_tracks_room. Qed.

Lemma send_ok_le n k n' k' st l : (n' <= n)%nat -> (k' <= k)%nat -> send_ok n k st l -> send_ok n' k' st l.
Proof. intros Hn Hk []. split; try done; [by eapply tracks_le|by eapply squeue_le]. Qed.

Lemma tx_tracks_ext n P Q strm : (forall x, P x <-> Q x) -> tx_tracks n P strm -> tx_tracks n Q strm.
Proof.
  intros HPQ. unfold tx_tracks. destruct (tx_acked_offset _); [by apply gaptr_rep_ext|]. intros [? H]. split; [done|].
  intros x. by rewrite <- HPQ.
Qed.

Lemma process_acked_run avail strm fr P k (Q : Z -> Prop) :
  tx_tracks (4 + ng) P strm -> (forall a, avail = Some a -> ((4 + ng) * (4 + ng + 3) <= a)%nat) ->
  0 <= tf_offset fr -> strm_frame_datalen fr = frame_len fr -> 0 <= frame_len fr -> frame_end fr <= NGTCP2_MAX_VARINT ->
  first_unacked P k -> (forall x, Q x <-> P x \/ frame_has fr x) -> (forall x, Q x -> x < NGTCP2_MAX_VARINT) ->
  exists rv strm' call, process_acked_stream avail true strm fr = Ok (rv, strm', call) /\
    (rv < 0 /\ (avail = None \/ crowded strm') \/
     rv = 0 /\ tx_tracks ng Q strm' /\
       same_but_acked (set_flags (strm_flags strm') strm) strm' /\
       (forall g : Z, has_flag strm' g = has_flag strm g || negb (Z.land NGTCP2_STRM_FLAG_ANY_ACKED g =? 0) ||
          (tf_fin fr && negb (Z.land NGTCP2_STRM_FLAG_FIN_ACKED g =? 0))) /\
       exists k', first_unacked Q k' /\
         match call with
         | Some (offset, datalen) => offset = k /\ 0 <= datalen /\ k + datalen = k'
         | None => k' = k
         end).
Proof.
  assert (HV : NGTCP2_MAX_VARINT = 4611686018427387903) by reflexivity.
  intros Htr Ha Ho Hd Hl He Hk HQ HQm. unfold process_acked_stream. rewrite Hd.
  set (strm0 := if tf_fin fr then _ else _).
  assert (Htr0 : tx_tracks (4 + ng) P strm0) by (unfold strm0; by destruct (tf_fin fr)).
  assert (Hs0 : strm0 = set_flags (strm_flags strm0) strm) by (unfold strm0; by destruct (tf_fin fr)).
  destruct (acked_offset_run _ P strm0 Htr0) as (k0 & -> & Hk0 & _). rewrite (first_unacked_unique _ _ _ Hk0 Hk). cbn [bind].
  destruct (ack_data_run ng avail P strm0 (tf_offset fr) (frame_len fr) Htr0 Ha Ho Hl He) as (rv & strm' & -> & Hsame & Hr).
  cbn [bind]. destruct Hr as [[Hrv Hwhy]|[-> Htr']].
  { rewrite (proj2 (Z.eqb_neq rv 0)) by lia. cbn [negb]. do 3 eexists. split; [done|]. by left. }
  cbn [negb Z.eqb]. assert (Htq : tx_tracks ng Q strm').
  { eapply tx_tracks_ext; [|exact Htr']. intros x. cbn. by rewrite HQ. }
  destruct (acked_offset_run _ Q strm' Htq) as (k' & -> & Hk' & _). cbn [bind].
  assert (Hkk : k <= k') by (eapply first_unacked_le; [|exact Hk|exact Hk']; intros; apply HQ; by left).
  assert (Hkm : k' <= NGTCP2_MAX_VARINT).
  { destruct Hk' as (? & _ & Hb). destruct (Z.le_gt_cases k' NGTCP2_MAX_VARINT); [done|]. exfalso.
    apply (Hb NGTCP2_MAX_VARINT); [lia|]. intros ?%HQm. lia. }
  assert (Hk1 := proj1 Hk). rewrite u64_small by (unfold is_u64; lia).
  assert (Hflags : forall g : Z, has_flag strm' g = has_flag strm g || negb (Z.land NGTCP2_STRM_FLAG_ANY_ACKED g =? 0) ||
    (tf_fin fr && negb (Z.land NGTCP2_STRM_FLAG_FIN_ACKED g =? 0))).
  { intros g. destruct Hsame as (a & c & ->). change (has_flag (set_tx _ strm0) g) with (has_flag strm0 g). unfold strm0.
    destruct (tf_fin fr); rewrite !has_flag_set; [done|by rewrite orb_false_r]. }
  assert (Hsame' : same_but_acked (set_flags (strm_flags strm') strm) strm').
  { destruct Hsame as (a & c & ->). exists a, c. rewrite Hs0. done. }
  destruct ((k' - k =? 0) && negb (tf_fin fr)) eqn:Ecall; do 3 eexists; (split; [done|]); right; split_and!; try done; exists k'; (split; [done|]).
  - lia.
  - lia.
Qed.

(** One frame is no longer waiting. *)
Lemma waiting_drop s1 fr (b : bool) s2 l :
  let W := in_flight (s1 ++ (fr, b) :: s2) ++ l in let W' := in_flight (s1 ++ (fr, false) :: s2) ++ l in
  (ForallOrdPairs apart W -> ForallOrdPairs apart W') /\
  (forall x, some_has W x -> some_has W' x \/ frame_has fr x) /\
  (has_fin W = true -> has_fin W' = true \/ tf_fin fr = true) /\
  (b = true -> ForallOrdPairs apart W -> Forall (apart fr) W').
Proof.
  cbn zeta. rewrite !in_flight_app, !in_flight_cons, <- !app_assoc. destruct b; [|split_and!; auto; done]. cbn [app]. split_and!.
  - by intros [? _]%apart_pick.
  - intros x. rewrite !some_has_app, some_has_cons, ?some_has_app. tauto.
  - intros H. destruct (tf_fin fr) eqn:E; [by right|left]. revert H. rewrite !has_fin_app.
    change (has_fin (fr :: ?X)) with (tf_fin fr || has_fin X). rewrite E, has_fin_app. done.
  - by intros _ [_ ?]%apart_pick.
Qed.

Lemma step_acked avail i st l :
  send_ok (4 + ng) nq st l -> (forall a, avail = Some a -> ((4 + ng) * (4 + ng + 3) <= a)%nat) ->
  exists rv st', send_step mem (Acked avail i) st = Ok (rv, st') /\
    (rv < 0 /\ (avail = None \/ crowded (ss_strm st')) \/ rv = 0 /\ send_ok ng nq st' l).
Proof.
  intros Hok Ha. destruct st as [ct strm data sent acks calls] eqn:Est. cbn [send_step].
  destruct (sent !! i) as [[fr b]|] eqn:Ei.
  2: { do 2 eexists. split; [done|]. right. split; [done|]. eapply send_ok_le; [| |exact Hok]; lia. }
  pose proof Hok as [Htr Hq Hc Hfr Hap Hack Hcov Hfin Hsize Hlim [Hsid Hrst] (k & Hcalls & Hk)]. unfold ss_acked, ss_size, ss_frames, ss_waiting in *. cbn [ss_conn ss_strm ss_data ss_sent ss_acks ss_calls] in *.
  destruct (split_sent _ _ _ Ei) as (s1 & s2 & -> & ->).
  assert (Hin : fr ∈ map fst (s1 ++ (fr, b) :: s2)) by (rewrite map_app; apply elem_of_app; right; left).
  destruct (ok_frame _ _ _ _ fr Hok) as [Hfo _]; [by apply elem_of_app; left|]. unfold ss_size in Hfo. cbn in Hfo.
  pose proof (size_range _ _ _ _ _ _ Hfo) as Hs.
  assert (HQm : forall x, some_has (fr :: acks) x -> x < NGTCP2_MAX_VARINT).
  { intros x [Hx|Hx]%some_has_cons; [unfold frame_has, frame_end in Hx; lia|].
    pose proof (acked_range _ _ _ _ x Hok Hx) as Hr. unfold ss_size in Hr. cbn in Hr. lia. }
  destruct (process_acked_run avail strm fr (some_has acks) k (some_has (fr :: acks)) Htr Ha ltac:(lia) (datalen_ok _ _ _ _ _ _ Hfo)
    ltac:(lia) ltac:(unfold frame_end; lia) Hk ltac:(intros; rewrite some_has_cons; tauto) HQm) as (rv & strm' & call & -> & Hr).
  cbn [bind]. do 2 eexists. split; [done|]. destruct Hr as [Hr|(-> & Htr' & Hsame & Hflags & k' & Hk' & Hcall)]; [by left|right].
  split; [done|]. destruct (waiting_drop s1 fr b s2 l) as (W1 & W2 & W3 & _).
  assert (Hmap : map fst (s1 ++ (fr, false) :: s2) = map fst (s1 ++ (fr, b) :: s2)) by by rewrite !map_app.
  assert (Hshut : has_flag strm' NGTCP2_STRM_FLAG_SHUT_WR = has_flag strm NGTCP2_STRM_FLAG_SHUT_WR).
  { rewrite Hflags. by destruct (has_flag strm NGTCP2_STRM_FLAG_SHUT_WR), (tf_fin fr). }
  assert (Hfa : has_flag strm' NGTCP2_STRM_FLAG_FIN_ACKED = has_flag strm NGTCP2_STRM_FLAG_FIN_ACKED || tf_fin fr).
  { rewrite Hflags. by destruct (has_flag strm NGTCP2_STRM_FLAG_FIN_ACKED), (tf_fin fr). }
  destruct Hsame as (ga & ca & Es). assert (Htx : strm_tx_half strm' = set_acked ga ca (strm_tx_half strm)) by by rewrite Es.
  split; unfold ss_acked, ss_size, ss_frames, ss_waiting; cbn [ss_conn ss_strm ss_data ss_sent ss_acks ss_calls]; rewrite ?Hmap, ?Hshut, ?Hfa, ?Htx; try done.
  - destruct Hq as [[? ?]|(q & ? & ?)]; [left|right]; rewrite ?Htx; [done|]. exists q. by rewrite Htx.
  - by apply W1.
  - intros f [->|?]%elem_of_cons; [done|by apply Hack].
  - intros x Hx Hn. rewrite some_has_cons in Hn. destruct (W2 x) as [?|?]; [apply Hcov; [done|tauto]|done|tauto].
  - destruct (has_flag strm NGTCP2_STRM_FLAG_SHUT_WR).
    + destruct Hfin as [-> |[?| ->]%W3]; [by left|by right|left; by rewrite orb_true_r].
    + destruct Hfin as [Hf ->]. split; [done|]. apply (has_fin_false _ _ Hf). apply elem_of_app. by left.
  - split; [by rewrite Es|]. rewrite Hflags, Hrst. by destruct (tf_fin fr).
  - exists k'. split; [|done]. destruct call as [[o d]|]; [|by subst]. destruct Hcall as (-> & Hd & <-). by apply contiguous_snoc.
Qed.

(** The copy of a frame, with its buffer retained once more. *)
Lemma copy_frame rv fr :
  (tf_txbuf fr <> None -> tf_data fr = []) ->
  exists rv' nfr, ngtcp2_stream_copy_txbuf rv (mk_txfr (tf_type fr) (tf_flags fr) (tf_fin fr) (tf_stream_id fr) (tf_offset fr)
    (match tf_txbuf fr with Some _ => [] | None => tf_data fr end) None) fr = Ok (rv', nfr) /\
    (rv' = 0 /\ nfr = fr \/ rv' <> 0 /\ rv' = rv).
Proof.
  intros Hd. unfold ngtcp2_stream_copy_txbuf, ngtcp2_stream_set_txbuf. destruct fr as [ty fl fin id off data [buf|]]; cbn in *.
  - rewrite Hd by done. destruct (Z.eqb_spec rv 0); cbn [negb]; do 2 eexists; (split; [done|]); [by left|by right].
  - do 2 eexists. split; [done|]. by left.
Qed.

Lemma reclaim_run outs avail on_loss pkt_num strm fr P n l m :
  outs_ok outs -> (forall a, avail = Some a -> (S n * (S n + 3) <= a)%nat) ->
  has_flag strm NGTCP2_STRM_FLAG_RESET_STREAM = false -> tx_tracks m P strm -> squeue (S n) strm l ->
  forall stream size, tx_frame_ok mem stream NGTCP2_FRAME_STREAM sid size fr -> solid fr ->
  (exists l1 l2, l = l1 ++ l2 /\ chain 0 (l1 ++ fr :: l2)) ->
  exists rv strm' outs', reclaim_stream outs avail on_loss pkt_num strm fr = Ok (rv, strm', outs') /\
    (rv < 0 /\ ((exists rv, rv ∈ outs /\ rv <> 0) \/ avail = None \/ crowded strm') \/
     rv = 0 /\ strm' = strm /\ tf_fin fr = false /\ (forall x, frame_has fr x -> ~ ~ P x) \/
     rv = 1 /\ exists q count pkt_num l1 l2,
       strm' = set_streamfrq q (set_tx (set_loss count pkt_num (strm_tx_half strm)) strm) /\
       l = l1 ++ l2 /\ chain 0 (l1 ++ fr :: l2) /\ squeue n strm' (l1 ++ fr :: l2)).
Proof.
  intros Houts Ha Hrst Htr Hq stream size Hok Hsol (l1 & l2 & -> & Hc). pose proof (size_range _ _ _ _ _ _ Hok) as Hs.
  unfold reclaim_stream. rewrite Hrst. destruct (unacked_range_run m P strm (tf_offset fr) Htr) as (r & -> & Hr); [unfold NGTCP2_MAX_VARINT; lia|].
  cbn [bind]. rewrite (datalen_ok _ _ _ _ _ _ Hok). fold (frame_end fr).
  rewrite (frame_u64 mem stream _ _ _ fr) by (try done; unfold frame_end; lia).
  destruct (_ && negb (tf_fin fr) && _) eqn:Hdrop.
  { rewrite !andb_true_iff in Hdrop. destruct Hdrop as [[Hlen Hf] _]. do 3 eexists. split; [done|]. right. left.
    split_and!; [done|done|by destruct (tf_fin fr)|]. intros x Hx. destruct Hr as [Hr1 _ Hr3]. apply Hr3.
    unfold ngtcp2_range_intersect, ngtcp2_range_len in Hlen. cbn [r_begin r_end] in Hlen. unfold frame_has in Hx.
    destruct (Z.ltb_spec (Z.max (tf_offset fr) (r_begin r)) (Z.min (frame_end fr) (r_end r))) as [Hlt|Hge]; [|lia].
    cbn [r_begin r_end ngtcp2_range_init] in Hlen. unfold UINT64_MAX, frame_end in *. rewrite u64_small in Hlen by (unfold is_u64; lia). lia. }
  clear Hdrop. set (strm1 := if _ && _ then _ else strm).
  assert (H1 : exists count pkt_num, strm1 = set_tx (set_loss count pkt_num (strm_tx_half strm)) strm).
  { unfold strm1. destruct (on_loss && _); [by do 2 eexists|]. exists (tx_loss_count (strm_tx_half strm)), (tx_last_lost_pkt_num (strm_tx_half strm)).
    by destruct strm as [? ? ? ? ? ? ? ? ? ? []]. }
  clearbody strm1. destruct H1 as (count & pn & H1).
  assert (Hq1 : squeue (S n) strm1 (l1 ++ l2)) by by rewrite H1.
  destruct (ngtcp2_frame_chain_stream_datacnt_objalloc_new _ _) as [nfr outs1] eqn:E1.
  destruct (objalloc_new_fails _ _ _ _ E1) as [[->|[-> Hf]] Ho1].
  2: { do 3 eexists. split; [done|]. left. destruct (fails_neg _ _ Houts Hf). split; [done|by left]. }
  destruct (next_outcome outs1) as [rv outs2] eqn:E2. destruct (next_outcome_fails _ _ _ E2) as [Hf Ho2].
  destruct (copy_frame rv fr (tk_txbuf _ _ _ _ _ _ Hok)) as (rv' & nfr & -> & [[-> ->]|[Hrv ->]]); cbn [bind].
  2: { rewrite (proj2 (Z.eqb_neq rv 0) Hrv). cbn [negb]. do 3 eexists. split; [done|]. left.
       destruct (fails_neg _ _ Houts (Ho1 _ (Hf Hrv))). split; [done|by left]. }
  cbn [negb Z.eqb].
  destruct (squeue_push n avail strm1 l1 l2 fr Hq1 Ha) as (rv' & strm' & -> & Hr'); [left; apply Hok|done|]. cbn [bind].
  destruct Hr' as [(Hneg & -> & Hwhy)|(-> & (q & ->) & Hq')].
  - rewrite (proj2 (Z.eqb_neq rv' 0)) by lia. cbn [negb]. do 3 eexists. split; [done|]. left. split; [done|]. by right.
  - do 3 eexists. split; [done|]. right. right. split; [done|]. exists q, count, pn, l1, l2. by rewrite <- H1.
Qed.

Lemma step_lost outs avail on_loss pkt_num i st l :
  send_ok ng (S nq) st l -> outs_ok outs -> (forall a, avail = Some a -> (S nq * (S nq + 3) <= a)%nat) ->
  exists rv st', send_step mem (Lost outs avail on_loss pkt_num i) st = Ok (rv, st') /\
    (rv < 0 /\ (send_fails (Lost outs avail on_loss pkt_num i) \/ crowded (ss_strm st')) \/ 0 <= rv /\ exists l', send_ok ng nq st' l').
Proof.
  intros Hok Houts Ha. destruct st as [ct strm data sent acks calls] eqn:Est. cbn [send_step].
  assert (Hsame : exists (rv : Z) st', Ok (0, mk_ss ct strm data sent acks calls) = Ok (rv, st') /\
    (rv < 0 /\ (send_fails (Lost outs avail on_loss pkt_num i) \/ crowded (ss_strm st')) \/ 0 <= rv /\ exists l', send_ok ng nq st' l')).
  { do 2 eexists. split; [done|]. right. split; [done|]. exists l. eapply send_ok_le; [| |exact Hok]; lia. }
  destruct (sent !! i) as [[fr [|]]|] eqn:Ei; [|exact Hsame|exact Hsame]. clear Hsame.
  pose proof Hok as [Htr Hq Hc Hfr Hap Hack Hcov Hfin Hsize Hlim [Hsid Hrst] Hcalls]. unfold ss_acked, ss_size, ss_frames, ss_waiting in *. cbn [ss_conn ss_strm ss_data ss_sent ss_acks ss_calls] in *.
  destruct (split_sent _ _ _ Ei) as (s1 & s2 & -> & ->).
  assert (Hin : fr ∈ map fst (s1 ++ (fr, true) :: s2)) by (rewrite map_app; apply elem_of_app; right; left).
  destruct (ok_frame _ _ _ _ fr Hok) as [Hfo Hsol]; [by apply elem_of_app; left|]. unfold ss_size in Hfo. cbn in Hfo.
  destruct (waiting_drop s1 fr true s2 l) as (W1 & W2 & W3 & W4). specialize (W4 eq_refl Hap). specialize (W1 Hap).
  apply Forall_app in W4 as [W4 W5]. apply Forall_app in Hfr as [Hfr1 Hfr2].
  assert (Hmap : map fst (s1 ++ (fr, false) :: s2) = map fst (s1 ++ (fr, true) :: s2)) by by rewrite !map_app.
  destruct (reclaim_run outs avail on_loss pkt_num strm fr (some_has acks) nq l ng Houts Ha Hrst Htr Hq _ _ Hfo Hsol) as (rv & strm' & outs' & -> & Hr).
  { eapply place_exists; [exact Hfo|done| | |exact Hc|apply (size_range _ _ _ _ _ _ Hfo)|exact W5]; (eapply Forall_impl; [exact Hfr2|]); cbn; tauto. }
  cbn [bind]. do 2 eexists. split; [done|]. destruct Hr as [[Hneg Hwhy]|[(-> & -> & Hff & Hst)|(-> & q & count & pn & l1 & l2 & -> & -> & Hc' & Hq')]].
  - left. split; [done|]. cbn. tauto.
  - right. split; [done|]. exists l. split; unfold ss_acked, ss_size, ss_frames, ss_waiting; cbn [ss_conn ss_strm ss_data ss_sent ss_acks ss_calls]; rewrite ?Hmap; try done.
    + eapply squeue_le; [|exact Hq]. lia.
    + by apply Forall_app.
    + intros x Hx Hn. destruct (W2 x (Hcov x Hx Hn)) as [?|Hx']; [done|by destruct (Hst x Hx')].
    + destruct (has_flag strm NGTCP2_STRM_FLAG_SHUT_WR); [|done]. destruct Hfin as [?|[?|?]%W3]; [by left|by right|congruence].
  - right. split; [done|]. exists (l1 ++ fr :: l2).
    apply Forall_app in Hfr2 as [Hfr2 Hfr3]. apply Forall_app in W5 as [W5 W6]. rewrite pairs_app in W1. destruct W1 as (V1 & _ & V5).
    split; unfold ss_acked, ss_size, ss_frames, ss_waiting; cbn [ss_conn ss_strm ss_data ss_sent ss_acks ss_calls]; rewrite ?Hmap; try done.
    + apply Forall_app. split; [done|]. apply Forall_app. split; [done|]. by constructor.
    + rewrite pairs_app. split; [done|]. split; [by eapply chain_apart|].
      intros f Hf. specialize (V5 f Hf). apply Forall_app in V5 as [? ?]. apply Forall_app. split; [done|]. constructor; [|done].
      rewrite Forall_forall in W4. by apply apart_sym, W4.
    + intros x Hx Hn. specialize (W2 x (Hcov x Hx Hn)). rewrite !some_has_app in *. rewrite some_has_cons. tauto.
    + change (has_flag (set_streamfrq q (set_tx (set_loss count pn (strm_tx_half strm)) strm))) with (has_flag strm).
      destruct (has_flag strm NGTCP2_STRM_FLAG_SHUT_WR).
      * destruct Hfin as [?|Hf%W3]; [by left|right]. rewrite !has_fin_app in *. cbn [has_fin existsb]. destruct (tf_fin fr); [by rewrite !orb_true_r|].
        destruct Hf as [Hf|?]; [|done]. exact Hf.
      * destruct Hfin as [Hf ?]. split; [|done]. rewrite !has_fin_app in *. cbn [has_fin existsb].
        rewrite (has_fin_false (map fst (s1 ++ (fr, true) :: s2)) fr) by (try done; by apply orb_false_iff in Hf as [? _]). exact Hf.
Qed.

Lemma pop_squeue outs strm l n P m stream size :
  squeue (3 + (Z.to_nat n + nq)) strm l -> 0 <= n -> outs_ok outs -> tx_tracks m P strm -> chain 0 l ->
  Forall (tx_frame_ok mem stream NGTCP2_FRAME_STREAM sid size) l ->
  exists rv pfr strm' outs', ngtcp2_strm_streamfrq_pop outs strm n = Ok (rv, pfr, strm', outs') /\
    (rv < 0 /\ (exists rv, rv ∈ outs /\ rv <> 0) \/
     rv = 0 /\ exists l', squeue nq strm' l' /\ (strm' = strm \/ exists q, strm' = set_streamfrq q strm) /\
       (l' = l /\ pfr = None \/ holding mem stream NGTCP2_FRAME_STREAM sid size P strm l (option_list pfr) strm' l')).
Proof.
  intros [[Hnone ->]|Hq] Hn Houts Htr Hc Hl.
  - unfold ngtcp2_strm_streamfrq_pop. rewrite Hnone. do 4 eexists. split; [done|]. right. split; [done|]. exists [].
    split; [by left|]. split; by left.
  - destruct (streamfrq_pop_run mem stream NGTCP2_FRAME_STREAM sid size nq m P outs strm l n) as (r & -> & Hr); [by split|done|done|].
    destruct r as [[[rv pfr] strm'] outs']. do 4 eexists. split; [done|]. destruct Hr as [_ [[-> Hf]|(-> & l' & Hq' & Hh & _)]].
    + left. by apply fails_neg.
    + right. split; [done|]. exists l'. split; [by right|]. split; [right; apply Hh|by right].
Qed.

Lemma step_send outs n st l :
  send_ok ng (3 + (Z.to_nat n + nq)) st l -> outs_ok outs -> 0 <= n ->
  exists rv st', send_step mem (Send outs n) st = Ok (rv, st') /\
    (rv < 0 /\ send_fails (Send outs n) \/ rv = 0 /\ exists l', send_ok ng nq st' l').
Proof.
  intros Hok Houts Hn. destruct st as [ct strm data sent acks calls] eqn:Est. cbn [send_step].
  pose proof Hok as [Htr Hq Hc Hfr Hap Hack Hcov Hfin Hsize Hlim Hstrm Hcalls]. unfold ss_acked, ss_size, ss_frames, ss_waiting in *. cbn [ss_conn ss_strm ss_data ss_sent ss_acks ss_calls] in *.
  pose proof Hfr as [Hfr1 Hfr2]%Forall_app. pose proof Hap as (Ap1 & Ap2 & Ap3)%pairs_app.
  destruct (pop_squeue outs strm l n (some_has acks) ng (bytes_of data) (tx_offset (strm_tx_half strm)) Hq Hn Houts Htr Hc) as (rv & pfr & strm' & outs' & -> & Hr).
  { eapply Forall_impl; [exact Hfr2|]. cbn. tauto. }
  cbn [bind]. do 2 eexists. split; [done|]. destruct Hr as [Hr|(-> & l' & Hq' & Hs & Hr)]; [by left|right]. split; [done|].
  destruct Hr as [[-> ->]|[_ Hl Hcl _ Hp Hf1 Hf2 Hw Hsol]].
  { exists l. destruct Hs as [->|[q ->]]; (split; try done). }
  assert (Hs' : exists q, strm' = set_streamfrq q strm \/ strm' = strm) by (destruct Hs as [->|[q ->]]; [exists (ngtcp2_ksl_init 0); by right|exists q; by left]).
  set (held := option_list pfr) in *.
  assert (Hsent : exists sent', sent' = match pfr with Some fr => sent ++ [(fr, true)] | None => sent end /\
    map fst sent' = map fst sent ++ held /\ in_flight sent' = in_flight sent ++ held).
  { eexists. split; [done|]. unfold held. destruct pfr as [fr|]; cbn [option_list]; [|by rewrite !app_nil_r].
    by rewrite map_app, in_flight_app, in_flight_cons. }
  destruct Hsent as (sent' & <- & Hm & Hfl). exists l'.
  assert (Hc' : chain 0 l').
  { unfold held in Hcl. destruct pfr as [fr|]; [|done]. destruct Hcl as (? & _ & Hcl). eapply chain_le; [|exact Hcl]. unfold after_frame. lia. }
  split; unfold ss_acked, ss_size, ss_frames, ss_waiting; cbn [ss_conn ss_strm ss_data ss_sent ss_acks ss_calls];
    rewrite ?Hm, ?Hfl, <- ?app_assoc; try (by destruct Hs as [->|[q ->]]); try done.
  - apply Forall_app. split; [by destruct Hs as [->|[q ->]]|].
    assert (Hall : Forall solid (held ++ l')) by (apply Hsol; eapply Forall_impl; [exact Hfr2|]; cbn; tauto).
    apply Forall_forall. intros f Hin. rewrite Forall_forall in Hl, Hall. split; [|by apply Hall].
    destruct Hs as [->|[q ->]]; by apply Hl.
  - rewrite pairs_app. split; [done|]. split; [by eapply chain_apart|]. intros f Hf. apply Forall_forall. intros g Hg.
    specialize (Ap3 f Hf). rewrite Forall_forall in Ap3. split.
    + intros x Hx Hgx. destruct (Hw x) as (h & Hh & Hhx); [by exists g|]. destruct (Ap3 h Hh) as [H _]. by apply (H x).
    + intros Hff. apply (has_fin_false (held ++ l')); [|done]. destruct (has_fin (held ++ l')) eqn:E; [|done].
      specialize (Hf1 eq_refl). apply has_fin_In in Hf1 as (h & Hh & Hhf). destruct (Ap3 h Hh) as [_ H]. by rewrite (H Hff) in Hhf.
  - intros f Hf. apply elem_of_app. left. by apply Hack.
  - intros x Hx Hnp. specialize (Hcov x ltac:(by destruct Hs as [->|[q ->]]) Hnp). rewrite some_has_app in *.
    destruct Hcov as [?|(h & Hh & Hhx)]; [by left|right].
    destruct (proj1 (Hp x)) as (g & Hg & Hgx & _); [by exists h|]. by exists g.
  - assert (Hfl' : forall g : Z, has_flag strm' g = has_flag strm g) by (by destruct Hs as [->|[q ->]]). rewrite !Hfl'.
    destruct (has_flag strm NGTCP2_STRM_FLAG_SHUT_WR).
    + destruct Hfin as [?|Hf]; [by left|]. rewrite has_fin_app in Hf. rewrite has_fin_app. apply orb_true_iff in Hf as [->|Hf]; [by right|].
      destruct (Hf2 Hf) as [->|?]; [right; by rewrite orb_true_r|by left].
    + destruct Hfin as [Hf ?]. split; [|done]. rewrite has_fin_app in Hf |- *. apply orb_false_iff in Hf as [-> Hf].
      destruct (has_fin (held ++ l')) eqn:E; [|done]. by rewrite (Hf1 eq_refl) in Hf.
Qed.

(** What a submission does with the stream. *)
Definition submitted_frame strm (pos accepted : Z) (fin : bool) : tx_frame :=
  mk_txfr NGTCP2_FRAME_STREAM 0 fin (strm_stream_id strm) (tx_offset (strm_tx_half strm)) []
    (if accepted =? 0 then None else Some (mk_txbuf pos (pos + accepted))).

Lemma submit_run outs avail ct strm pos datalen fin_flag l n :
  outs_ok outs -> (forall a, avail = Some a -> (S n * (S n + 3) <= a)%nat) -> squeue (S n) strm l -> 0 <= datalen ->
  0 <= tx_offset (strm_tx_half strm) <= tx_max_offset (strm_tx_half strm) ->
  tx_max_offset (strm_tx_half strm) <= NGTCP2_MAX_VARINT ->
  0 <= ct_offset ct <= ct_max_offset ct -> ct_max_offset ct <= NGTCP2_MAX_VARINT ->
  (has_flag strm NGTCP2_STRM_FLAG_SHUT_WR = false -> forall accepted fin, (accepted = 0 -> fin = true) -> 0 <= accepted ->
     tx_offset (strm_tx_half strm) + accepted <= NGTCP2_MAX_VARINT ->
     exists l1 l2, l = l1 ++ l2 /\ chain 0 (l1 ++ submitted_frame strm pos accepted fin :: l2)) ->
  exists rv ct' strm' outs', submit_stream_data outs avail ct strm pos datalen fin_flag = Ok (rv, ct', strm', outs') /\
    (rv <= 0 /\ ct' = ct /\ strm' = strm \/
     0 <= rv <= datalen /\ exists fin l1 l2 q,
       has_flag strm NGTCP2_STRM_FLAG_SHUT_WR = false /\ (rv = 0 -> fin = true) /\ ct' = mk_conn_tx (ct_offset ct + rv) (ct_max_offset ct) /\
       ct_offset ct + rv <= ct_max_offset ct /\
       tx_offset (strm_tx_half strm) + rv <= tx_max_offset (strm_tx_half strm) /\
       l = l1 ++ l2 /\ chain 0 (l1 ++ submitted_frame strm pos rv fin :: l2) /\
       squeue n strm' (l1 ++ submitted_frame strm pos rv fin :: l2) /\
       strm' = set_tx (set_tx_offset (tx_offset (strm_tx_half strm) + rv) (set_tx_streamfrq (Some q) (strm_tx_half strm)))
         (set_flags (strm_flags strm') strm) /\
       forall g : Z, has_flag strm' g = has_flag strm g || negb (Z.land NGTCP2_STRM_FLAG_ANY_SENT g =? 0) ||
         (fin && negb (Z.land NGTCP2_STRM_FLAG_SHUT_WR g =? 0))).
Proof.
  assert (HV : NGTCP2_MAX_VARINT = 4611686018427387903) by reflexivity.
  intros Houts Ha Hq Hd Hoff Hmax Hct Hcm Hplace. unfold submit_stream_data.
  destruct (has_flag strm NGTCP2_STRM_FLAG_SHUT_WR) eqn:Hshut; [do 4 eexists; split; [done|]; by left|]. specialize (Hplace eq_refl).
  unfold conn_enforce_flow_control, conn_fc_credits. rewrite (u64_small (_ - tx_offset _)) by (unfold is_u64; lia).
  rewrite (u64_small (_ - ct_offset _)) by (unfold is_u64; lia). set (accepted := Z.min datalen _).
  assert (Hacc : 0 <= accepted <= datalen /\ tx_offset (strm_tx_half strm) + accepted <= tx_max_offset (strm_tx_half strm) /\
    ct_offset ct + accepted <= ct_max_offset ct) by (unfold accepted; lia).
  set (fin := fin_flag && _). destruct ((accepted =? 0) && negb fin) eqn:Hnone; [do 4 eexists; split; [done|]; by left|].
  clearbody accepted fin. rewrite !u64_small by (unfold is_u64; lia).
  rewrite (proj2 (Z.ltb_ge _ accepted)), (proj2 (Z.ltb_ge _ accepted)) by lia. cbn [orb].
  assert (Hfin : accepted = 0 -> fin = true) by (intros ->; by destruct fin).
  destruct (ngtcp2_frame_chain_stream_datacnt_objalloc_new _ _) as [nfr outs1] eqn:E1.
  destruct (objalloc_new_fails _ _ _ _ E1) as [[->|[-> Hf]] Ho1]; [|do 4 eexists; split; [done|]; by left].
  assert (Hbuf : exists rv outs2, (if negb (accepted =? 0) then
      let (rv, outs) := next_outcome outs1 in
      let* (rv, fr) := ngtcp2_stream_set_txbuf rv (mk_txfr NGTCP2_FRAME_STREAM 0 fin (strm_stream_id strm)
        (tx_offset (strm_tx_half strm)) [] None) (mk_txbuf pos (pos + accepted)) in Ok (rv, fr, outs)
    else Ok (0, mk_txfr NGTCP2_FRAME_STREAM 0 fin (strm_stream_id strm) (tx_offset (strm_tx_half strm)) [] None, outs1))
    = Ok (rv, if rv =? 0 then submitted_frame strm pos accepted fin else mk_txfr NGTCP2_FRAME_STREAM 0 fin (strm_stream_id strm)
        (tx_offset (strm_tx_half strm)) [] None, outs2) /\ (rv <> 0 -> rv < 0)).
  { unfold submitted_frame. destruct (Z.eqb_spec accepted 0); cbn [negb]; [by exists 0, outs1|].
    destruct (next_outcome outs1) as [rv outs2] eqn:E2. destruct (next_outcome_fails _ _ _ E2) as [Hf _].
    unfold ngtcp2_stream_set_txbuf. cbn [tf_txbuf]. exists rv, outs2. destruct (Z.eqb_spec rv 0) as [->|Hrv]; cbn [negb bind Z.eqb].
    - done.
    - split; [done|]. intros _. by apply (fails_neg outs rv Houts), Ho1, Hf. }
  destruct Hbuf as (rv & outs2 & -> & Hneg). cbn [bind].
  destruct (Z.eqb_spec rv 0) as [->|Hrv]; cbn [negb]; [|do 4 eexists; split; [done|]; left; split; [|done]; specialize (Hneg Hrv); lia].
  destruct (Hplace accepted fin Hfin) as (l1 & l2 & -> & Hc); [lia|lia|].
  destruct (squeue_push n avail strm l1 l2 (submitted_frame strm pos accepted fin) Hq Ha) as (rv' & strm' & -> & Hr); [by left|done|].
  cbn [bind]. destruct Hr as [(Hn & -> & _)|(-> & (q & ->) & Hq')].
  { rewrite (proj2 (Z.eqb_neq rv' 0)) by lia. cbn [negb]. do 4 eexists. split; [done|]. left. split; [lia|done]. }
  cbn [negb Z.eqb]. change (tx_offset (strm_tx_half (set_streamfrq q strm))) with (tx_offset (strm_tx_half strm)).
  rewrite !u64_small by (unfold is_u64; lia). do 4 eexists. split; [done|]. right. split; [lia|].
  exists fin, l1, l2, q. split; [done|]. split; [done|]. split; [done|]. split; [lia|]. split; [lia|]. split; [done|]. split; [done|].
  split; [destruct fin; destruct Hq' as [[Hx _]|Hq']; (try by left); right; exact Hq'|]. split; [by destruct fin|].
  intros g. destruct fin.
  - unfold ngtcp2_strm_shutdown. change (Z.land NGTCP2_STRM_FLAG_SHUT_WR NGTCP2_STRM_FLAG_SHUT_RDWR) with NGTCP2_STRM_FLAG_SHUT_WR.
    rewrite !has_flag_set. done.
  - rewrite has_flag_set, orb_false_r. done.
Qed.

(** The new frame is behind all others. *)
Lemma submitted_ok data strm pos rv fin :
  tx_offset (strm_tx_half strm) = zlen data -> strm_stream_id strm = sid -> 0 <= rv -> (rv = 0 -> fin = true) ->
  tx_offset (strm_tx_half strm) + rv <= NGTCP2_MAX_VARINT ->
  let fr := submitted_frame strm pos rv fin in
  tx_frame_ok mem (bytes_of (data ++ content mem [mk_vec pos rv])) NGTCP2_FRAME_STREAM sid
    (tx_offset (strm_tx_half strm) + rv) fr /\ solid fr /\ frame_len fr = rv /\ tf_offset fr = tx_offset (strm_tx_half strm).
Proof.
  intros Hs Hid Hrv Hfin Hmax fr. pose proof (zlen_nonneg data).
  assert (Hv : frame_vecs fr = if rv =? 0 then [] else [mk_vec pos rv]).
  { unfold fr, submitted_frame, frame_vecs. cbn. destruct (rv =? 0); [done|]. unfold txbuf_len. cbn. do 2 f_equal. lia. }
  assert (Hl : frame_len fr = rv) by (unfold frame_len; rewrite Hv; destruct (Z.eqb_spec rv 0); cbn; lia).
  split_and!; [|unfold solid; rewrite Hl; exact Hfin|done|done].
  assert (Hlen : vecs_pos (frame_vecs fr)) by (rewrite Hv; destruct (Z.eqb_spec rv 0); repeat constructor; cbn; lia).
  split; unfold frame_end; rewrite ?Hl; try done.
  - cbn. lia.
  - unfold frame_data. rewrite Hv. cbn [fr submitted_frame tf_offset]. rewrite Hs. destruct (Z.eqb_spec rv 0) as [->|].
    + by intros i b Hi.
    + apply carries_new.
  - intros E. left. by apply Hfin.
Qed.

Lemma step_submit outs avail pos datalen fin_flag st l :
  send_ok ng (S nq) st l -> outs_ok outs -> (forall a, avail = Some a -> (S nq * (S nq + 3) <= a)%nat) -> 0 <= datalen ->
  exists rv st', send_step mem (Submit outs avail pos datalen fin_flag) st = Ok (rv, st') /\ exists l', send_ok ng nq st' l'.
Proof.
  intros Hok Houts Ha Hd. destruct st as [ct strm data sent acks calls] eqn:Est. cbn [send_step].
  pose proof Hok as [Htr Hq Hc Hfr Hap Hack Hcov Hfin Hsize Hlim [Hsid Hrst] Hcalls]. unfold ss_acked, ss_size, ss_frames, ss_waiting in *. cbn [ss_conn ss_strm ss_data ss_sent ss_acks ss_calls] in *.
  pose proof Hfr as [Hfr1 Hfr2]%Forall_app. pose proof (zlen_nonneg data) as Hz.
  assert (Hold : has_flag strm NGTCP2_STRM_FLAG_SHUT_WR = false -> forall f, f ∈ map fst sent ++ l ->
    tx_frame_ok mem (bytes_of data) NGTCP2_FRAME_STREAM sid (tx_offset (strm_tx_half strm)) f /\ solid f /\ tf_fin f = false).
  { intros Hs f Hf. rewrite Hs in Hfin. rewrite Forall_forall in Hfr. destruct (Hfr f Hf). split_and!; [done|done|].
    by apply (has_fin_false _ _ (proj1 Hfin)). }
  assert (Hapart : forall rv fin f, has_flag strm NGTCP2_STRM_FLAG_SHUT_WR = false -> 0 <= rv -> (rv = 0 -> fin = true) ->
    tx_offset (strm_tx_half strm) + rv <= NGTCP2_MAX_VARINT ->
    f ∈ map fst sent ++ l -> apart (submitted_frame strm pos rv fin) f).
  { intros rv fin f Hs Hrv Hrf Hmax Hf. destruct (Hold Hs f Hf) as (Hfo & _ & Hff).
    destruct (submitted_ok data strm pos rv fin Hsize Hsid Hrv Hrf Hmax) as (_ & _ & Hl & Ho). split; [|done].
    pose proof (size_range _ _ _ _ _ _ Hfo). unfold frame_has, frame_end. rewrite Hl, Ho. lia. }
  destruct (submit_run outs avail ct strm pos datalen fin_flag l nq) as (rv & ct' & strm' & outs' & -> & Hr); try done; try lia.
  { intros Hs rv fin Hrf Hrv Hmax. destruct (submitted_ok data strm pos rv fin Hsize Hsid Hrv Hrf Hmax) as (Hfo & Hsol & _ & Ho).
    assert (Hgrow : Forall (tx_frame_ok mem (bytes_of (data ++ content mem [mk_vec pos rv])) NGTCP2_FRAME_STREAM sid (tx_offset (strm_tx_half strm) + rv)) l).
    { apply Forall_forall. intros f Hf. destruct (Hold Hs f) as (H1 & _ & H3); [apply elem_of_app; by right|].
      eapply frame_ok_grow; [exact H1|done|lia|done]. }
    apply (place_exists _ _ _ _ _ l 0 _ Hfo Hsol Hgrow); [|done|rewrite Ho; lia|].
    - eapply Forall_impl; [exact Hfr2|]. cbn. tauto.
    - apply Forall_forall. intros f Hf. apply Hapart; try done. apply elem_of_app. by right. }
  cbn [bind]. do 2 eexists. split; [done|]. destruct Hr as [(Hneg & -> & ->)|(Hrv & fin & l1 & l2 & q & Hs & Hrf & -> & Hcl & Hml & -> & Hc' & Hq' & Es & Hflags)].
  { exists l. rewrite (proj2 (Z.ltb_ge 0 rv)) by lia. eapply send_ok_le; [| |exact Hok]; lia. }
  set (fr := submitted_frame strm pos rv fin) in *.
  destruct (submitted_ok data strm pos rv fin Hsize Hsid ltac:(lia) Hrf ltac:(lia)) as (Hfo & Hsol & Hl & Ho). fold fr in Hfo, Hsol, Hl, Ho.
  set (data' := if 0 <? rv then data ++ content mem [mk_vec pos rv] else data).
  assert (Hdata : data' = data ++ content mem [mk_vec pos rv]).
  { unfold data'. destruct (Z.ltb_spec 0 rv); [done|]. assert (rv = 0) as -> by lia. cbn. by rewrite app_nil_r. }
  rewrite Hdata. clearbody data'.
  assert (Htx : strm_tx_half strm' = set_tx_offset (tx_offset (strm_tx_half strm) + rv) (set_tx_streamfrq (Some q) (strm_tx_half strm))) by by rewrite Es.
  assert (Hmem : forall f, f ∈ l1 ++ l2 -> f ∈ map fst sent ++ l1 ++ l2) by (intros; apply elem_of_app; by right).
  exists (l1 ++ fr :: l2).
  assert (Hperm : forall f, f ∈ l1 ++ fr :: l2 <-> f = fr \/ f ∈ l1 ++ l2) by (intros f; rewrite !elem_of_app, elem_of_cons; tauto).
  split; unfold ss_acked, ss_size, ss_frames, ss_waiting; cbn [ss_conn ss_strm ss_data ss_sent ss_acks ss_calls ct_offset ct_max_offset];
    rewrite ?Htx; cbn [tx_offset tx_max_offset set_tx_offset set_tx_streamfrq]; try done.
  - by rewrite Es.
  - assert (Hgrow : forall f, f ∈ map fst sent ++ l1 ++ l2 ->
      tx_frame_ok mem (bytes_of (data ++ content mem [mk_vec pos rv])) NGTCP2_FRAME_STREAM sid (tx_offset (strm_tx_half strm) + rv) f /\ solid f).
    { intros f Hf. destruct (Hold Hs f Hf) as (H1 & H2 & H3). split; [|done]. eapply frame_ok_grow; [exact H1|done|lia|done]. }
    apply Forall_app. split; apply Forall_forall.
    + intros f Hf. apply Hgrow, elem_of_app. by left.
    + intros f [->|Hf]%Hperm; [done|]. by apply Hgrow, Hmem.
  - apply pairs_app in Hap as (Ap1 & Ap2 & Ap3). rewrite pairs_app. split; [done|]. split; [by eapply chain_apart|].
    intros f Hf. specialize (Ap3 f Hf). rewrite Forall_forall in Ap3. apply Forall_forall. intros g [->|Hg]%Hperm; [|by apply Ap3].
    apply apart_sym, Hapart; [done|lia|done|lia|]. apply elem_of_app. left. by apply in_flight_sent.
  - intros x Hx Hn. rewrite !some_has_app, some_has_cons. destruct (Z.lt_ge_cases x (tx_offset (strm_tx_half strm))) as [Hlt|Hge].
    + specialize (Hcov x ltac:(lia) Hn). rewrite !some_has_app in Hcov. tauto.
    + right. right. left. unfold frame_has, frame_end. lia.
  - rewrite !Hflags, Hs in *. change (Z.land NGTCP2_STRM_FLAG_ANY_SENT NGTCP2_STRM_FLAG_SHUT_WR =? 0) with true.
    change (Z.land NGTCP2_STRM_FLAG_SHUT_WR NGTCP2_STRM_FLAG_SHUT_WR =? 0) with false.
    change (Z.land NGTCP2_STRM_FLAG_ANY_SENT NGTCP2_STRM_FLAG_FIN_ACKED =? 0) with true.
    change (Z.land NGTCP2_STRM_FLAG_SHUT_WR NGTCP2_STRM_FLAG_FIN_ACKED =? 0) with true. destruct Hfin as [Hf1 Hf2]. cbn [negb orb]. rewrite andb_true_r.
    destruct fin; cbn [orb andb].
    + right. apply has_fin_In. exists fr. split; [|done]. apply elem_of_app. right. apply Hperm. by left.
    + rewrite Hf2. split; [|done]. rewrite !has_fin_app in *. cbn [has_fin existsb fr submitted_frame tf_fin]. exact Hf1.
  - rewrite zlen_app, content_one, vec_bytes_len by (cbn; lia). cbn. lia.
  - split; [lia|]. cbn. lia.
  - split; [by rewrite Es|]. rewrite Hflags, Hrst. by destruct fin.
Qed.
End Steps.
