(* ===== verification/StrmSendRun.v ===== *)
(** * The sending half of a stream, from the first byte to the last

    Any sequence of submissions, transmissions, losses and acknowledgements. *)

From S2P Require Import Prelude Const Ksl Gaptr Vec FrameChain Reorder Strm StrmTx.
From S2P Require Import StrmTxInv StrmTxPop StrmTxSpec StrmSend StrmSendInv StrmSendSpec.
From stdpp Require Import list.
#[local] Open Scope Z_scope.

Implicit Types (strm : ngtcp2_strm) (f : tx_frame) (outs : list Z) (l : list tx_frame) (st : send_state) (ev : send_event).

(** How much memory of the connection an event may need. *)
Definition ev_cost ev : nat :=
  match ev with
  | Acked _ _ => 4
  | Submit _ _ _ _ _ | Lost _ _ _ _ _ => 1
  | Send _ n => 3 + Z.to_nat n
  | MaxStreamData _ | MaxData _ => 0
  end.

Definition evs_cost (evs : list send_event) : nat := list_sum (map ev_cost evs).

(** What is assumed of an event: if it gets memory, then enough for [n]; an
    error from outside is fatal; the arguments are in the range of their types. *)
Definition ev_ok (n : nat) ev : Prop :=
  match ev with
  | Submit outs avail _ datalen _ => outs_ok outs /\ (forall a, avail = Some a -> (n * (n + 3) <= a)%nat) /\ 0 <= datalen
  | Send outs n => outs_ok outs /\ 0 <= n
  | Lost outs avail _ _ _ => outs_ok outs /\ forall a, avail = Some a -> (n * (n + 3) <= a)%nat
  | Acked avail _ => forall a, avail = Some a -> (n * (n + 3) <= a)%nat
  | MaxStreamData n | MaxData n => 0 <= n <= NGTCP2_MAX_VARINT
  end.

Section Run.
Context (mem : Z -> Z) (sid : Z) (N : nat).
#[local] Abbreviation send_ok := (send_ok mem sid).

Lemma avail_mono (n : nat) (avail : option nat) :
  (n <= N)%nat -> (forall a, avail = Some a -> (N * (N + 3) <= a)%nat) -> forall a, avail = Some a -> (n * (n + 3) <= a)%nat.
Proof. intros Hn Ha a Ea. specialize (Ha a Ea). nia. Qed.

Lemma step_max_stream_data n x st l :
  send_ok n n st l -> 0 <= x <= NGTCP2_MAX_VARINT -> exists st', send_step mem (MaxStreamData x) st = Ok (0, st') /\ send_ok n n st' l.
Proof.
  intros Hok Hx. destruct st as [ct strm data sent acks calls] eqn:Est. cbn [send_step]. eexists. split; [done|].
  destruct (Z.ltb_spec (tx_max_offset (strm_tx_half strm)) x); [|exact Hok].
  destruct Hok. split; try done. unfold ss_size in *. cbn in *. lia.
Qed.

Lemma step_max_data n x st l :
  send_ok n n st l -> 0 <= x <= NGTCP2_MAX_VARINT -> exists st', send_step mem (MaxData x) st = Ok (0, st') /\ send_ok n n st' l.
Proof.
  intros Hok Hx. destruct st as [ct strm data sent acks calls] eqn:Est. cbn [send_step]. eexists. split; [done|].
  destruct Hok. split; try done. unfold ss_size in *. cbn in *. lia.
Qed.

Lemma send_step_ok ev n st l :
  (ev_cost ev + n <= N)%nat -> ev_ok N ev -> send_ok (ev_cost ev + n) (ev_cost ev + n) st l ->
  exists rv st', send_step mem ev st = Ok (rv, st') /\
    (send_goes_on ev rv = false /\ (send_fails ev \/ crowded (ss_strm st')) \/
     send_goes_on ev rv = true /\ exists l', send_ok n n st' l').
Proof.
  intros HN Hev Hok. destruct ev as [outs avail pos datalen fin|outs m|outs avail on_loss pkt_num i|avail i|x|x]; cbn [ev_cost] in *; cbn in Hev.
  - destruct Hev as (Ho & Ha & Hd). assert (Hok' : send_ok n (S n) st l) by (eapply send_ok_le; [| |exact Hok]; lia).
    destruct (step_submit mem sid n n outs avail pos datalen fin st l Hok' Ho) as (rv & st' & -> & Hok''); [by eapply avail_mono|done|].
    do 2 eexists. split; [done|]. by right.
  - destruct Hev as (Ho & Hn). assert (Hok' : send_ok n (3 + (Z.to_nat m + n)) st l) by (eapply send_ok_le; [| |exact Hok]; lia).
    destruct (step_send mem sid n n outs m st l Hok' Ho Hn) as (rv & st' & -> & [[Hrv Hf]|[-> Hok'']]); do 2 eexists; (split; [done|]); cbn [send_goes_on].
    + left. split; [lia|by left].
    + by right.
  - destruct Hev as (Ho & Ha). assert (Hok' : send_ok n (S n) st l) by (eapply send_ok_le; [| |exact Hok]; lia).
    destruct (step_lost mem sid n n outs avail on_loss pkt_num i st l Hok' Ho) as (rv & st' & -> & [[Hrv Hf]|[Hrv Hok'']]); [by eapply avail_mono| |];
      do 2 eexists; (split; [done|]); cbn [send_goes_on]; [left|right]; (split; [lia|done]).
  - assert (Hok' : send_ok (4 + n) n st l) by (eapply send_ok_le; [| |exact Hok]; lia).
    destruct (step_acked mem sid n n avail i st l Hok') as (rv & st' & -> & [[Hrv Hf]|[-> Hok'']]); [by apply avail_mono| |];
      do 2 eexists; (split; [done|]); cbn [send_goes_on]; [left; split; [lia|done]|right; split; [done|by exists l]].
  - destruct (step_max_stream_data n x st l Hok Hev) as (st' & -> & Hok'). do 2 eexists. split; [done|]. right. split; [done|by exists l].
  - destruct (step_max_data n x st l Hok Hev) as (st' & -> & Hok'). do 2 eexists. split; [done|]. right. split; [done|by exists l].
Qed.

Lemma send_run_ok evs st l :
  (evs_cost evs <= N)%nat -> Forall (ev_ok N) evs -> send_ok (evs_cost evs) (evs_cost evs) st l ->
  exists go st', send_run mem evs st = Ok (go, st') /\
    (go = false /\ (Exists send_fails evs \/ crowded (ss_strm st')) \/ go = true /\ exists l', send_ok 0 0 st' l').
Proof.
  revert st l. induction evs as [|ev evs IH]; intros st l HN Hevs Hok; cbn [send_run].
  { do 2 eexists. split; [done|]. right. split; [done|by exists l]. }
  apply Forall_cons_iff in Hevs as [Hev Hevs]. change (evs_cost (ev :: evs)) with (ev_cost ev + evs_cost evs)%nat in *.
  destruct (send_step_ok ev (evs_cost evs) st l HN Hev Hok) as (rv & st' & -> & Hr); cbn [bind].
  destruct Hr as [[-> Hf]|[-> (l' & Hok')]].
  { do 2 eexists. split; [done|]. left. split; [done|]. destruct Hf; [by left; left|by right]. }
  destruct (IH st' l' ltac:(lia) Hevs Hok') as (go & st'' & -> & Hr). do 2 eexists. split; [done|].
  destruct Hr as [[-> [?|?]]|?]; [left; split; [done|by left; right]|left; split; [done|by right]|by right].
Qed.

Lemma start_ok max_rx max_tx max_data :
  0 <= max_tx <= NGTCP2_MAX_VARINT -> 0 <= max_data <= NGTCP2_MAX_VARINT -> send_ok N N (send_start sid max_rx max_tx max_data) [].
Proof.
  intros Ht Hd. assert (Hno : forall x, ~ some_has [] x) by (intros x (f & Hf & _); by apply elem_of_nil in Hf).
  split; try done.
  - split; [cbn; unfold NGTCP2_MAX_VARINT; lia|]. intros x. split; [by intros ?%Hno|cbn; lia].
  - by left.
  - by constructor.
  - intros x Hx. cbn in Hx. lia.
  - cbn. lia.
  - exists 0. split; [done|]. split; [lia|]. split; [apply Hno|lia].
Qed.
End Run.

(** ** The property *)
(** [f] is in the queue of [strm]. *)
Definition queued strm l : Prop :=
  match tx_streamfrq (strm_tx_half strm) with
  | None => l = []
  | Some q => map snd (ksl_elems q) = l
  end.

(** Where the data of the stream is. *)
Record nothing_lost (mem : Z -> Z) (sid : Z) st l : Prop := {
  nl_frames : Forall (tx_frame_ok mem (bytes_of (ss_data st)) NGTCP2_FRAME_STREAM sid (zlen (ss_data st))) (map fst (ss_sent st));
  nl_limits : tx_offset (strm_tx_half (ss_strm st)) = zlen (ss_data st) /\
    zlen (ss_data st) <= tx_max_offset (strm_tx_half (ss_strm st)) /\ ct_offset (ss_conn st) <= ct_max_offset (ss_conn st);
  nl_bytes : forall x, 0 <= x < zlen (ss_data st) ->
    some_has (ss_acks st) x \/ some_has (in_flight (ss_sent st)) x \/ some_has l x;
  nl_fin : has_flag (ss_strm st) NGTCP2_STRM_FLAG_SHUT_WR = true ->
    has_flag (ss_strm st) NGTCP2_STRM_FLAG_FIN_ACKED = true \/ has_fin (in_flight (ss_sent st)) = true \/ has_fin l = true;
  nl_calls : exists k, contiguous 0 (ss_calls st) k /\ 0 <= k <= zlen (ss_data st) /\ ~ some_has (ss_acks st) k /\
    (forall x, 0 <= x < k -> some_has (ss_acks st) x) /\
    ngtcp2_strm_is_all_tx_data_acked (ss_strm st) = Ok (k =? zlen (ss_data st));
  nl_done : in_flight (ss_sent st) = [] -> ngtcp2_strm_streamfrq_empty (ss_strm st) = true ->
    ngtcp2_strm_is_all_tx_data_acked (ss_strm st) = Ok true /\
    (has_flag (ss_strm st) NGTCP2_STRM_FLAG_SHUT_WR = true -> ngtcp2_strm_is_all_tx_data_fin_acked (ss_strm st) = Ok true);
}.

Lemma squeue_queued n strm l : squeue n strm l -> queued strm l.
Proof.
  intros [[E ->]|(q & E & _ & _ & HE)]; unfold queued; rewrite E; [done|]. rewrite HE. unfold keyed. rewrite map_map. apply map_id.
Qed.

Lemma empty_queue n strm l : squeue n strm l -> ngtcp2_strm_streamfrq_empty strm = true -> l = [].
Proof.
  intros [[E ->]|Hq]; [done|]. unfold ngtcp2_strm_streamfrq_empty. pose proof Hq as (q & E & _). rewrite E.
  rewrite (queue_len _ _ _ _ Hq E). intros ?%Nat.eqb_eq. by apply length_zero_iff_nil.
Qed.

Lemma acked_dec l x : some_has l x \/ ~ some_has l x.
Proof.
  destruct (decide (Exists (fun f => tf_offset f <= x < frame_end f) l)) as [He|Hn]; [left|right].
  - by apply Exists_exists in He.
  - intros H. by apply Hn, Exists_exists.
Qed.

Lemma send_ok_nothing_lost mem sid st l : send_ok mem sid 0 0 st l -> queued (ss_strm st) l /\ nothing_lost mem sid st l.
Proof.
  intros Hok. pose proof Hok as [Htr Hq Hc Hfr Hap Hack Hcov Hfin Hsize Hlim [Hsid Hrst] (k & Hcalls & Hk)]. split; [by eapply squeue_queued|].
  assert (Hcase : forall x, 0 <= x < zlen (ss_data st) -> some_has (ss_acks st) x \/ some_has (ss_waiting st l) x).
  { intros x Hx. destruct (acked_dec (ss_acks st) x) as [?|Hn]; [by left|right]. apply Hcov; [by rewrite Hsize|done]. }
  destruct (acked_offset_run _ _ _ Htr) as (k' & _ & Hk' & Hall). rewrite (first_unacked_unique _ _ _ Hk' Hk) in Hall. clear k' Hk'.
  change (tx_offset (strm_tx_half (ss_strm st))) with (ss_size st) in Hall. rewrite Hsize in Hall.
  assert (Hk1 : k <= zlen (ss_data st)).
  { destruct (Z.le_gt_cases k (zlen (ss_data st))) as [?|Hgt]; [done|]. exfalso. destruct Hk as (_ & _ & Hb). pose proof (zlen_nonneg (ss_data st)).
    apply (Hb (zlen (ss_data st))); [lia|]. intros Hx%(acked_range _ _ _ _ _ _ _ Hok). lia. }
  destruct Hk as (Hk0 & Hkn & Hkb). split.
  - apply Forall_app in Hfr as [Hfr _]. eapply Forall_impl; [exact Hfr|]. cbn. rewrite Hsize. tauto.
  - unfold ss_size in *. lia.
  - intros x Hx. specialize (Hcase x Hx). unfold ss_waiting in Hcase. rewrite some_has_app in Hcase. tauto.
  - intros Hs. rewrite Hs in Hfin. unfold ss_waiting in Hfin. rewrite has_fin_app, orb_true_iff in Hfin. tauto.
  - exists k. split_and!; try done. intros x Hx. by apply some_has_stable, Hkb.
  - intros Hnone Hempty. apply (empty_queue _ _ _ Hq) in Hempty as ->.
    assert (Hw : ss_waiting st [] = []) by (unfold ss_waiting; by rewrite Hnone).
    assert (Hk2 : k = zlen (ss_data st)).
    { destruct (Z.eq_dec k (zlen (ss_data st))) as [?|Hne]; [done|]. destruct (Hcase k ltac:(lia)) as [?|Hx]; [done|].
      rewrite Hw in Hx. by destruct Hx as (f & Hf%elem_of_nil & _). }
    rewrite Hall, Hk2, Z.eqb_refl. split; [done|]. intros Hs. rewrite Hs, Hw in Hfin. destruct Hfin as [Hf|?]; [|done].
    unfold ngtcp2_strm_is_all_tx_data_fin_acked. by rewrite Hf, Hall, Hk2, Z.eqb_refl.
Qed.

(** C39. Whatever an application submits, and whatever of it is sent, lost,
    sent again and acknowledged, in any order: the calls never fail an
    assertion, and they give up only when memory or another resource could not
    be had or a queue has grown too large; else every byte that was accepted
    is acknowledged, or in a frame in flight, or in a frame of the queue, and
    so is the end of the stream; every frame that was sent carries the bytes
    that were submitted, within the limits of the peer; the application is
    told the bytes that are acknowledged in order and each of them once; and
    when nothing is in flight and nothing is queued, the stream is done. *)
Theorem stream_data_never_lost (mem : Z -> Z) (sid max_rx max_tx max_data : Z) (evs : list send_event) :
  0 <= max_tx <= NGTCP2_MAX_VARINT -> 0 <= max_data <= NGTCP2_MAX_VARINT -> Forall (ev_ok (evs_cost evs)) evs ->
  exists go st, send_run mem evs (send_start sid max_rx max_tx max_data) = Ok (go, st) /\
    (go = false /\ (Exists send_fails evs \/ crowded (ss_strm st)) \/
     go = true /\ exists l, queued (ss_strm st) l /\ nothing_lost mem sid st l).
Proof.
  intros Ht Hd Hevs. destruct (send_run_ok mem sid (evs_cost evs) evs (send_start sid max_rx max_tx max_data) []) as (go & st & -> & Hr); [done|done|by apply start_ok|].
  do 2 eexists. split; [done|]. destruct Hr as [?|(-> & l & Hl)]; [by left|right]. split; [done|]. exists l. by apply send_ok_nothing_lost.
Qed.

(** Ten of twelve bytes are accepted and sent; the other two are submitted
    when the limit is raised, with the end of the stream.  Both packets are
    declared lost, but the first one is acknowledged before its data is sent
    again, so that the second transmission has the last two bytes only. *)
Definition demo_run_avail : option nat := Some (90 * 93)%nat.
Definition demo_run : list send_event :=
  [Submit [] demo_run_avail 1000 12 true; Send [] 20; MaxStreamData 100; Submit [] demo_run_avail 1010 2 true; Send [] 20;
   Lost [] demo_run_avail true 0 0; Lost [] demo_run_avail true 1 1; Acked demo_run_avail 0; Send [] 20; Acked demo_run_avail 2].

Lemma demo_run_ok : Forall (ev_ok (evs_cost demo_run)) demo_run.
Proof.
  assert (Ho : outs_ok []) by (intros rv Hrv; by apply elem_of_nil in Hrv).
  assert (Ha : forall a, demo_run_avail = Some a -> (evs_cost demo_run * (evs_cost demo_run + 3) <= a)%nat).
  { intros a [= <-]. apply Nat.leb_le. by vm_compute. }
  repeat apply Forall_cons_2; [..|apply Forall_nil_2]; cbn [ev_ok]; split_and?; first [exact Ho|exact Ha|lia|by vm_compute].
Qed.

Lemma stream_data_never_lost_witness :
  (exists st, send_run demo_mem demo_run (send_start 4 1000 10 100) = Ok (true, st) /\
    ss_calls st = [(0, 10); (10, 2)] /\ ngtcp2_strm_is_all_tx_data_fin_acked (ss_strm st) = Ok true /\
    map (fun x => (tf_offset x.1, frame_len x.1, tf_fin x.1)) (ss_sent st) = [(0, 10, false); (10, 2, true); (10, 2, true)]) /\
  exists go st, send_run demo_mem demo_run (send_start 4 1000 10 100) = Ok (go, st) /\
    (go = false /\ (Exists send_fails demo_run \/ crowded (ss_strm st)) \/
     go = true /\ exists l, queued (ss_strm st) l /\ nothing_lost demo_mem 4 st l).
Proof.
  split; [eexists; split; [by vm_compute|by vm_compute]|].
  apply (stream_data_never_lost demo_mem 4 1000 10 100 demo_run); [by vm_compute|by vm_compute|exact demo_run_ok].
Defined.
