(* ===== verification/ConnCrypto.v ===== *)
(** * Receiving CRYPTO data: [conn_recv_crypto] of [lib/ngtcp2_conn.c]

    CRYPTO frames of one encryption level are put in order and handed to the
    TLS library through the callback [recv_crypto_data].  The callback is a
    parameter: what it returns may depend on everything it was given before.
    The calls are recorded, so that "in order" is a statement about them. *)

From S2P Require Import Prelude Const Frame Reorder Strm Ratelim.
From stdpp Require Import list.
#[local] Open Scope Z_scope.
#[local] Set Warnings "-clear-no-such-hyp".

Definition NGTCP2_ENCRYPTION_LEVEL_INITIAL : Z := 0.
Definition NGTCP2_ENCRYPTION_LEVEL_HANDSHAKE : Z := 1.
Definition NGTCP2_ENCRYPTION_LEVEL_1RTT : Z := 2.

Definition NGTCP2_MAX_INITIAL_CRYPTO_OFFSET : Z := 16 * 1024.
Definition NGTCP2_MAX_HANDSHAKE_CRYPTO_OFFSET : Z := 64 * 1024.
Definition NGTCP2_MAX_1RTT_CRYPTO_OFFSET : Z := 256 * 1024.
Definition NGTCP2_MAX_REORDERED_CRYPTO_DATA : Z := 65536.

Definition NGTCP2_CONN_FLAG_HANDSHAKE_EARLY_RETRANSMIT : Z := 0x0200.

(** The fields of the connection that receiving CRYPTO data touches.
    [conn_delivered] are the calls of [recv_crypto_data] for this level, the
    first one first; [conn_released] the calls of [conn_reorder_release] that
    the connection makes itself. *)
Record ngtcp2_conn := mk_conn {
  conn_server : bool;
  conn_flags : Z;
  conn_glitch_rlim : ngtcp2_ratelim;
  conn_in_probe_pkt_left : Z;
  conn_hs_probe_pkt_left : Z;
  conn_delivered : list (Z * list Z);
  conn_released : list (reorder_buf * bool);
}.

Implicit Types (conn : ngtcp2_conn) (strm crypto : ngtcp2_strm) (fr : ngtcp2_stream).

Definition set_glitch_rlim (x : ngtcp2_ratelim) conn : ngtcp2_conn :=
  mk_conn (conn_server conn) (conn_flags conn) x (conn_in_probe_pkt_left conn) (conn_hs_probe_pkt_left conn)
    (conn_delivered conn) (conn_released conn).
Definition add_delivered (offset : Z) (data : list Z) conn : ngtcp2_conn :=
  mk_conn (conn_server conn) (conn_flags conn) (conn_glitch_rlim conn) (conn_in_probe_pkt_left conn)
    (conn_hs_probe_pkt_left conn) (conn_delivered conn ++ [(offset, data)]) (conn_released conn).
Definition conn_reorder_release (buf : reorder_buf) (allocator_owned : bool) conn : ngtcp2_conn :=
  mk_conn (conn_server conn) (conn_flags conn) (conn_glitch_rlim conn) (conn_in_probe_pkt_left conn)
    (conn_hs_probe_pkt_left conn) (conn_delivered conn) ((buf, allocator_owned) :: conn_released conn).

Definition conn_recv_crypto_data_result (rv : Z) : Z :=
  if (rv =? 0) || (rv =? NGTCP2_ERR_CRYPTO) || (rv =? NGTCP2_ERR_REQUIRED_TRANSPORT_PARAM)
     || (rv =? NGTCP2_ERR_MALFORMED_TRANSPORT_PARAM) || (rv =? NGTCP2_ERR_TRANSPORT_PARAM)
     || (rv =? NGTCP2_ERR_PROTO) || (rv =? NGTCP2_ERR_VERSION_NEGOTIATION_FAILURE)
     || (rv =? NGTCP2_ERR_NOMEM) || (rv =? NGTCP2_ERR_CALLBACK_FAILURE)
  then rv else NGTCP2_ERR_CALLBACK_FAILURE.

(** What a frame meets in its surroundings: the result of
    [conn_make_rx_callback_buf], the buffer that [conn_recv_reordering] gets
    (an error of the slice or of the copy, or its owner and whether it is a
    copy), and the outcomes of the two allocations of the reorder buffer. *)
Record rx_env := mk_env {
  env_view : Z;
  env_acquire : Z + Z * bool;
  env_mem_init : bool;
  env_mem_push : bool;
}.

(** [conn_recv_reordering]: an error code or the number of stored bytes. *)
Definition conn_recv_reordering (env : rx_env) conn strm (data : list Z) (offset : Z)
    : Z * ngtcp2_conn * ngtcp2_strm :=
  match env_acquire env with
  | inl rv => (rv, conn, strm)
  | inr (owner, allocator_owned) =>
      let buf := mk_rbuf owner data in
      let '(rv, strm, nwritebuf) :=
        ngtcp2_strm_recv_reordering_buf (env_mem_init env) (env_mem_push env) strm buf offset allocator_owned in
      if negb (rv =? 0) then (rv, conn_reorder_release buf allocator_owned conn, strm)
      else (nwritebuf, conn, strm)
  end.

(** [if (ngtcp2_ratelim_drain(&conn->glitch_rlim, 1, ts) != 0)] *)
Definition conn_glitch conn (ts : Z) : res (Z * ngtcp2_conn) :=
  let* (rv, rlim) := ngtcp2_ratelim_drain (conn_glitch_rlim conn) 1 ts in
  Ok (if negb (rv =? 0) then NGTCP2_ERR_INTERNAL else 0, set_glitch_rlim rlim conn).

Section Callback.
Context (recv_crypto_data : list (Z * list Z) -> Z -> list Z -> Z).

Definition conn_call_recv_crypto_data_buf conn (offset : Z) (data : list Z) : Z * ngtcp2_conn :=
  (conn_recv_crypto_data_result (recv_crypto_data (conn_delivered conn) offset data),
   add_delivered offset data conn).

Definition conn_call_recv_crypto_data (env : rx_env) conn (offset : Z) (data : list Z) : Z * ngtcp2_conn :=
  if negb (env_view env =? 0) then (env_view env, conn)
  else conn_call_recv_crypto_data_buf conn offset data.

(** The [for] loop of [conn_emit_pending_crypto_data]. *)
Fixpoint emit_crypto (fuel : nat) conn strm (rx_offset : Z) : res (Z * ngtcp2_conn * ngtcp2_strm) :=
  match fuel, rx_reorder strm with
  | S fuel, Some r =>
      let* (datalen, buf) := ngtcp2_reorder_data_at r rx_offset in
      if datalen =? 0 then
        assert! rx_offset =? ngtcp2_strm_rx_offset strm;
        Ok (0, conn, strm)
      else
        match buf with
        | None => Fault
        | Some buf =>
            let offset := rx_offset in
            let rx_offset := u64 (rx_offset + datalen) in
            let (rv, conn) := conn_call_recv_crypto_data_buf conn offset (rb_data buf) in
            if negb (rv =? 0) then Ok (rv, conn, strm) else
            let* r := ngtcp2_reorder_pop r offset datalen in
            emit_crypto fuel conn (set_cont_offset rx_offset (set_reorder (Some r) strm)) rx_offset
        end
  | _, _ => Fault
  end.

Definition conn_emit_pending_crypto_data conn strm (rx_offset : Z) : res (Z * ngtcp2_conn * ngtcp2_strm) :=
  match rx_reorder strm with
  | Some r => emit_crypto (S (length (reorder_head r))) conn strm rx_offset
  | None => Ok (0, conn, strm)
  end.

Definition crypto_max_offset (encryption_level : Z) : res Z :=
  if encryption_level =? NGTCP2_ENCRYPTION_LEVEL_INITIAL then Ok NGTCP2_MAX_INITIAL_CRYPTO_OFFSET
  else if encryption_level =? NGTCP2_ENCRYPTION_LEVEL_HANDSHAKE then Ok NGTCP2_MAX_HANDSHAKE_CRYPTO_OFFSET
  else if encryption_level =? NGTCP2_ENCRYPTION_LEVEL_1RTT then Ok NGTCP2_MAX_1RTT_CRYPTO_OFFSET
  else Fault.

(** "Speeding Up Handshake Completion" *)
Definition conn_early_retransmit (encryption_level : Z) conn : ngtcp2_conn :=
  if conn_server conn
     && (Z.land (conn_flags conn) NGTCP2_CONN_FLAG_HANDSHAKE_EARLY_RETRANSMIT =? 0)
     && (encryption_level =? NGTCP2_ENCRYPTION_LEVEL_INITIAL)
  then mk_conn (conn_server conn) (Z.lor (conn_flags conn) NGTCP2_CONN_FLAG_HANDSHAKE_EARLY_RETRANSMIT)
         (conn_glitch_rlim conn) 1 1 (conn_delivered conn) (conn_released conn)
  else conn.

Definition conn_recv_crypto (env : rx_env) conn (encryption_level : Z) crypto fr (ts : Z)
    : res (Z * ngtcp2_conn * ngtcp2_strm) :=
  match st_data fr with
  | [] =>
      if negb (encryption_level =? NGTCP2_ENCRYPTION_LEVEL_INITIAL) then
        let* (rv, conn) := conn_glitch conn ts in Ok (rv, conn, crypto)
      else Ok (0, conn, crypto)
  | data :: _ =>
      let fr_end_offset := u64 (st_offset fr + zlen data) in
      if NGTCP2_MAX_VARINT <? fr_end_offset then Ok (NGTCP2_ERR_FRAME_ENCODING, conn, crypto) else
      let* max_offset := crypto_max_offset encryption_level in
      if max_offset <? fr_end_offset then Ok (NGTCP2_ERR_CRYPTO_BUFFER_EXCEEDED, conn, crypto) else
      let rx_offset := ngtcp2_strm_rx_offset crypto in
      if fr_end_offset <=? rx_offset then
        let* (rv, conn) :=
          if negb (encryption_level =? NGTCP2_ENCRYPTION_LEVEL_INITIAL) then conn_glitch conn ts
          else Ok (0, conn) in
        if negb (rv =? 0) then Ok (rv, conn, crypto)
        else Ok (0, conn_early_retransmit encryption_level conn, crypto)
      else
      let crypto := set_last_offset (Z.max (rx_last_offset crypto) fr_end_offset) crypto in
      if st_offset fr <=? rx_offset then
        let ncut := rx_offset - st_offset fr in
        let data := zdrop ncut data in
        let offset := rx_offset in
        let rx_offset := u64 (rx_offset + zlen data) in
        let crypto := ngtcp2_strm_update_rx_offset crypto rx_offset in
        let (rv, conn) := conn_call_recv_crypto_data env conn offset data in
        if negb (rv =? 0) then Ok (rv, conn, crypto) else
        conn_emit_pending_crypto_data conn crypto rx_offset
      else if NGTCP2_MAX_REORDERED_CRYPTO_DATA <? fr_end_offset - rx_offset then
        Ok (NGTCP2_ERR_CRYPTO_BUFFER_EXCEEDED, conn, crypto)
      else
        let '(nwrite, conn, crypto) := conn_recv_reordering env conn crypto data (st_offset fr) in
        if nwrite <? 0 then Ok (nwrite, conn, crypto) else
        if negb (encryption_level =? NGTCP2_ENCRYPTION_LEVEL_INITIAL) && (nwrite =? 0) then
          let* (rv, conn) := conn_glitch conn ts in Ok (rv, conn, crypto)
        else Ok (0, conn, crypto)
  end.

(** A sequence of frames of one level, up to the first error. *)
Fixpoint crypto_run conn (encryption_level : Z) crypto (frames : list (rx_env * ngtcp2_stream * Z))
    : res (Z * ngtcp2_conn * ngtcp2_strm) :=
  match frames with
  | [] => Ok (0, conn, crypto)
  | (env, fr, ts) :: frames =>
      let* (rv, conn, crypto) := conn_recv_crypto env conn encryption_level crypto fr ts in
      if negb (rv =? 0) then Ok (rv, conn, crypto) else crypto_run conn encryption_level crypto frames
  end.
End Callback.

(** ** Ownership *)

(** The owners the connection accounts for: stored, or released once for
    each occurrence. *)
Definition accounted conn strm : list Z :=
  rx_owners strm ++ rx_released_owners strm ++ map (fun p => rb_id p.1) (conn_released conn).

Lemma recv_reordering_run stream limit env conn strm data offset owner own :
  rx_ok stream limit strm -> env_acquire env = inr (owner, own) ->
  0 <= offset -> carries stream offset data -> offset + zlen data <= limit -> limit < 2 ^ 64 ->
  exists rv conn' strm',
    conn_recv_reordering env conn strm data offset = (rv, conn', strm') /\
    rx_ok stream limit strm' /\ same_stream strm strm' /\ rx_cont_offset strm' = rx_cont_offset strm /\
    (exists log, conn' = mk_conn (conn_server conn) (conn_flags conn) (conn_glitch_rlim conn)
       (conn_in_probe_pkt_left conn) (conn_hs_probe_pkt_left conn) (conn_delivered conn) log) /\
    (forall x, covered (rx_entries strm') x -> covered (rx_entries strm) x \/ offset <= x) /\
    ((0 <= rv \/ rv = NGTCP2_ERR_NOMEM) /\ Permutation (owner :: accounted conn strm) (accounted conn' strm') \/
     rv = NGTCP2_ERR_INTERNAL /\ 4000 <= zlen (rx_entries strm') /\
     Permutation (owner :: owner :: accounted conn strm) (accounted conn' strm')).
Proof.
  intros Hok Ha Hoff Hc Hend H64. unfold conn_recv_reordering. rewrite Ha.
  destruct (strm_store stream (env_mem_init env) (env_mem_push env) limit strm (mk_rbuf owner data) offset own)
    as (rv & strm' & nw & -> & Hok' & Hsame & Hcont & Hnw & Hcase); [done..|].
  unfold accounted, rx_owners in *. destruct Hcase as [(-> & He & Hr)|(-> & (stop & Hstop & Hcov) & Hp)].
  - cbn [negb Z.eqb NGTCP2_ERR_NOMEM]. do 3 eexists. split; [reflexivity|].
    split_and!; [done|done|done|by eexists| |].
    + rewrite He. auto.
    + left. split; [by right|]. rewrite He, Hr. cbn. rewrite !app_assoc. apply Permutation_middle.
  - assert (Hx : forall x, covered (rx_entries strm') x -> covered (rx_entries strm) x \/ offset <= x).
    { intros x [?|?]%Hcov; [auto|right; lia]. }
    cbn [rb_id] in Hp. destruct (Z.leb_spec 4000 (zlen (rx_entries strm'))).
    + cbn [negb Z.eqb NGTCP2_ERR_INTERNAL]. do 3 eexists. split; [reflexivity|].
      split_and!; [done|done|done|by eexists|done|right]. split_and!; [done|done|].
      cbn. rewrite !app_assoc, <- Permutation_middle, <- Hp. cbn. by rewrite <- !app_assoc.
    + cbn [negb Z.eqb]. exists nw, conn, strm'. split; [done|].
      split_and!; [done|done|done|exists (conn_released conn); by destruct conn|done|left].
      split; [by left|]. rewrite !app_assoc, <- Hp. cbn. by rewrite <- !app_assoc.
Qed.

(** ** In-order delivery *)
Section Delivery.
Context (recv_crypto_data : list (Z * list Z) -> Z -> list Z -> Z) (stream : Z -> Z) (limit : Z).
Context (limit_u64 : limit < 2 ^ 64).

(** What the TLS library was given, and what is left to give. *)
Definition progress (rv : Z) conn crypto (hi : Z) : Prop :=
  rx_ok stream limit crypto /\ chunks stream 0 (conn_delivered conn) hi /\ hi <= limit /\
  (rv = 0 -> hi = rx_cont_offset crypto /\ rx_drained crypto).

Lemma emit_crypto_run fuel conn strm :
  rx_ok stream limit strm -> rx_reorder strm <> None -> (length (rx_entries strm) < fuel)%nat ->
  chunks stream 0 (conn_delivered conn) (rx_cont_offset strm) ->
  exists rv conn' strm' hi,
    emit_crypto recv_crypto_data fuel conn strm (rx_cont_offset strm) = Ok (rv, conn', strm') /\
    progress rv conn' strm' hi /\ rx_cont_offset strm <= rx_cont_offset strm' /\
    conn_glitch_rlim conn' = conn_glitch_rlim conn.
Proof.
  revert conn strm. induction fuel as [|fuel IH]; intros conn strm Hok Hr Hlen Hch; [lia|].
  cbn [emit_crypto]. destruct (rx_reorder strm) as [r|] eqn:E; [|done].
  destruct (strm_data_at stream limit strm r E Hok) as [[-> Hd]|
    (n & buf & r' & -> & Hn & Hnl & Hc & _ & Hlim & Hpop & Hok' & Hlt & _ & _)]; cbn [bind].
  - cbn [Z.eqb]. rewrite (rx_offset_drained stream limit) by done. rewrite Z.eqb_refl.
    pose proof (ro_cont _ _ _ Hok). do 4 eexists. split; [reflexivity|]. unfold progress. split_and!; done || lia.
  - rewrite (proj2 (Z.eqb_neq n 0)) by lia.
    rewrite u64_small by (unfold is_u64; destruct Hok as [_ _ ? _]; lia).
    cbn [conn_call_recv_crypto_data_buf].
    pose proof (chunks_snoc _ _ _ _ _ Hch Hc) as Hch'. rewrite <- Hnl in Hch'.
    destruct (Z.eqb_spec (conn_recv_crypto_data_result
      (recv_crypto_data (conn_delivered conn) (rx_cont_offset strm) (rb_data buf))) 0) as [E0|E0]; cbn [negb].
    + rewrite Hpop. cbn [bind].
      destruct (IH (add_delivered (rx_cont_offset strm) (rb_data buf) conn)
        (set_cont_offset (rx_cont_offset strm + n) (set_reorder (Some r') strm)))
        as (rv & conn' & strm' & hi & Hrun & Hp & Hle & Hg); [done|done|lia|done|].
      do 4 eexists. split; [exact Hrun|]. split_and!; [done|cbn in Hle; lia|done].
    + do 4 eexists. split; [reflexivity|]. split; [|split; [lia|done]].
      split_and!; [done|exact Hch'|lia|done].
Qed.

Lemma emit_pending_run conn strm :
  rx_ok stream limit strm -> chunks stream 0 (conn_delivered conn) (rx_cont_offset strm) ->
  exists rv conn' strm' hi,
    conn_emit_pending_crypto_data recv_crypto_data conn strm (rx_cont_offset strm) = Ok (rv, conn', strm') /\
    progress rv conn' strm' hi /\ rx_cont_offset strm <= rx_cont_offset strm' /\
    conn_glitch_rlim conn' = conn_glitch_rlim conn.
Proof.
  intros Hok Hch. unfold conn_emit_pending_crypto_data. destruct (rx_reorder strm) as [r|] eqn:E.
  - apply emit_crypto_run; [done|by rewrite E| |done]. unfold rx_entries. rewrite E. lia.
  - do 4 eexists. split; [reflexivity|]. split; [|split; [lia|done]].
    split_and!; [done|exact Hch|destruct Hok as [_ _ ? _]; lia|]. intros _. split; [done|].
    unfold rx_drained, rx_entries. rewrite E, covered_nil. tauto.
Qed.

Lemma glitch_run conn ts :
  ratelim_wf (conn_glitch_rlim conn) -> rl_ts (conn_glitch_rlim conn) <= ts ->
  exists rv rlim, conn_glitch conn ts = Ok (rv, set_glitch_rlim rlim conn) /\ ratelim_wf rlim /\ rl_ts rlim = ts.
Proof.
  intros Hwf Hts. unfold conn_glitch. pose proof (ratelim_drain_spec _ 1 ts Hwf Hts ltac:(lia)) as H.
  cbv zeta in H. destruct (bucket_drain _ _) as [ok lv]. destruct H as (rlim & -> & Hwf' & _ & _ & Ht & _).
  cbn [bind]. by do 2 eexists.
Qed.

(** The limiter works at time [ts] or before. *)
Definition glitch_ok conn (ts : Z) : Prop :=
  ratelim_wf (conn_glitch_rlim conn) /\ rl_ts (conn_glitch_rlim conn) <= ts.

(** What a step promises of the state after it; a frame that starts in the
    part that was handed over is handed over too. *)
Definition stepped (conn : ngtcp2_conn) crypto fr (ts : Z) (r : res (Z * ngtcp2_conn * ngtcp2_strm)) : Prop :=
  exists rv conn' crypto' hi, r = Ok (rv, conn', crypto') /\ progress rv conn' crypto' hi /\ glitch_ok conn' ts /\
    rx_cont_offset crypto <= rx_cont_offset crypto' /\
    (rv = 0 -> forall data l, st_data fr = data :: l -> st_offset fr <= rx_cont_offset crypto ->
       st_offset fr + zlen data <= rx_cont_offset crypto').

Lemma stepped_same conn crypto fr ts rv conn' hi :
  progress 0 conn crypto hi -> conn_delivered conn' = conn_delivered conn -> glitch_ok conn' ts ->
  (rv = 0 -> forall data l, st_data fr = data :: l -> st_offset fr <= rx_cont_offset crypto ->
     st_offset fr + zlen data <= rx_cont_offset crypto) ->
  stepped conn crypto fr ts (Ok (rv, conn', crypto)).
Proof.
  intros (Hok & Hch & Hhi & Hd) He Hg Hr. exists rv, conn', crypto, hi. rewrite <- He in Hch.
  unfold progress. split_and!; try done; try lia. intros _. by apply Hd.
Qed.

(** A frame that leaves what was handed over as it is. *)
Lemma stepped_kept conn crypto fr ts rv conn' crypto' :
  chunks stream 0 (conn_delivered conn) (rx_cont_offset crypto) -> conn_delivered conn' = conn_delivered conn ->
  rx_ok stream limit crypto' -> rx_drained crypto' -> rx_cont_offset crypto' = rx_cont_offset crypto ->
  glitch_ok conn' ts -> rx_cont_offset crypto < st_offset fr ->
  stepped conn crypto fr ts (Ok (rv, conn', crypto')).
Proof.
  intros Hch He Hok Hd Hc Hg Hlt. exists rv, conn', crypto', (rx_cont_offset crypto). unfold progress.
  rewrite He, Hc. destruct Hok as [? ? ? ?]. split_and!; try done; lia.
Qed.

(** Data that continue what was handed over. *)
Lemma deliver_step env conn crypto fr ts data l :
  let stop := st_offset fr + zlen data in
  let crypto' := ngtcp2_strm_update_rx_offset (set_last_offset (Z.max (rx_last_offset crypto) stop) crypto) stop in
  rx_ok stream limit crypto -> chunks stream 0 (conn_delivered conn) (rx_cont_offset crypto) -> glitch_ok conn ts ->
  st_data fr = data :: l -> st_offset fr <= rx_cont_offset crypto < stop -> stop <= limit ->
  carries stream (st_offset fr) data ->
  stepped conn crypto fr ts
    (let (rv, conn) := conn_call_recv_crypto_data recv_crypto_data env conn (rx_cont_offset crypto)
       (zdrop (rx_cont_offset crypto - st_offset fr) data) in
     if negb (rv =? 0) then Ok (rv, conn, crypto')
     else conn_emit_pending_crypto_data recv_crypto_data conn crypto' stop).
Proof.
  intros stop crypto' Hok Hch Hg Edata Hoff Hstop Hc.
  destruct (strm_update stream limit (set_last_offset (Z.max (rx_last_offset crypto) stop) crypto) stop)
    as (Hok' & _ & Hcont & _); [by destruct Hok; split|destruct Hok; lia|]. fold crypto' in Hok', Hcont.
  assert (Hlast : forall data0 l0, st_data fr = data0 :: l0 -> st_offset fr + zlen data0 = stop).
  { intros ? ? H. rewrite Edata in H. by injection H as <- <-. }
  assert (Herr : forall rv conn' hi, rv <> 0 -> chunks stream 0 (conn_delivered conn') hi -> hi <= limit ->
    glitch_ok conn' ts -> stepped conn crypto fr ts (Ok (rv, conn', crypto'))).
  { intros rv conn' hi Hrv Hch' Hhi Hg'. exists rv, conn', crypto', hi. unfold progress.
    split_and!; done || lia. }
  unfold conn_call_recv_crypto_data. destruct (Z.eqb_spec (env_view env) 0) as [Ev|Ev]; cbn [negb].
  2:{ rewrite (proj2 (Z.eqb_neq _ _)) by done. cbn [negb]. eapply Herr; [done|done|lia|done]. }
  cbn [conn_call_recv_crypto_data_buf]. set (chunk := zdrop _ data).
  assert (Hcc : carries stream (rx_cont_offset crypto) chunk /\ rx_cont_offset crypto + zlen chunk = stop).
  { subst chunk. pose proof (zlen_nonneg data). split; [|rewrite zlen_zdrop by lia; lia].
    replace (rx_cont_offset crypto) with (st_offset fr + (rx_cont_offset crypto - st_offset fr)) at 1 by lia.
    apply carries_drop; [lia|done]. }
  destruct Hcc as [Hcc Hend]. pose proof (chunks_snoc _ _ _ _ _ Hch Hcc) as Hch'. rewrite Hend in Hch'.
  unfold conn_call_recv_crypto_data_buf.
  destruct (Z.eqb_spec (conn_recv_crypto_data_result (recv_crypto_data (conn_delivered conn) (rx_cont_offset crypto) chunk)) 0)
    as [E0|E0]; cbn [negb]; [|by eapply Herr].
  destruct (emit_pending_run (add_delivered (rx_cont_offset crypto) chunk conn) crypto')
    as (rv & conn' & crypto'' & hi & Hrun & Hp & Hle & Hgl); [done|by rewrite Hcont|].
  rewrite Hcont in Hrun, Hle. exists rv, conn', crypto'', hi.
  split_and!; [done|done| |lia|].
  - unfold glitch_ok. rewrite Hgl. exact Hg.
  - intros _ data0 l0 H _. rewrite (Hlast _ _ H). done.
Qed.

Lemma recv_crypto_step env conn level crypto fr ts max hi :
  progress 0 conn crypto hi -> crypto_max_offset level = Ok max -> max <= limit ->
  glitch_ok conn ts -> 0 <= st_offset fr ->
  (forall data l, st_data fr = data :: l -> carries stream (st_offset fr) data /\ st_offset fr + zlen data < 2 ^ 64) ->
  stepped conn crypto fr ts (conn_recv_crypto recv_crypto_data env conn level crypto fr ts).
Proof.
  intros Hp Hmax Hml Hg Hoff Hfr. pose proof Hp as (Hok & Hch & Hhi & Hd). destruct (Hd eq_refl) as [-> Hdr].
  destruct (glitch_run conn ts) as (grv & rlim & Hgl & Hwf & Hts); [apply Hg..|].
  assert (Hgs : glitch_ok (set_glitch_rlim rlim conn) ts) by (split; cbn; [done|lia]).
  unfold conn_recv_crypto. destruct (st_data fr) as [|data l] eqn:Edata.
  { destruct (negb _); [rewrite Hgl; cbn [bind]|]; (eapply stepped_same; [done..|]);
      intros ? ? ? Hx; by rewrite Edata in Hx. }
  destruct (Hfr _ _ eq_refl) as [Hc H64]. clear Hfr. pose proof (zlen_nonneg data) as Hlen.
  rewrite u64_small by (unfold is_u64; lia).
  destruct (Z.ltb_spec NGTCP2_MAX_VARINT (st_offset fr + zlen data)); [by eapply stepped_same|].
  rewrite Hmax. cbn [bind].
  destruct (Z.ltb_spec max (st_offset fr + zlen data)) as [Hm|Hm]; [by eapply stepped_same|].
  rewrite (rx_offset_drained stream limit) by done.
  destruct (Z.leb_spec (st_offset fr + zlen data) (rx_cont_offset crypto)) as [Hold|Hnew].
  { assert (Hin : forall data l, st_data fr = data :: l -> st_offset fr <= rx_cont_offset crypto ->
      st_offset fr + zlen data <= rx_cont_offset crypto) by (intros ? ? Hx; rewrite Edata in Hx; by injection Hx as <- <-).
    assert (Her : forall c, glitch_ok c ts -> conn_delivered c = conn_delivered conn ->
      stepped conn crypto fr ts (Ok (0, conn_early_retransmit level c, crypto))).
    { intros c Hgc Hdc. eapply stepped_same; [done| | |done]; unfold conn_early_retransmit; by destruct (_ && _). }
    destruct (negb (level =? NGTCP2_ENCRYPTION_LEVEL_INITIAL)); [rewrite Hgl|]; cbn [bind].
    - destruct (negb (grv =? 0)); [by eapply stepped_same|by apply Her].
    - by apply Her. }
  destruct (Z.leb_spec (st_offset fr) (rx_cont_offset crypto)) as [Hin|Hout].
  { rewrite zlen_zdrop by lia. rewrite u64_small by (unfold is_u64; destruct Hok as [_ _ ? _]; lia).
    replace (rx_cont_offset crypto + _) with (st_offset fr + zlen data) by lia.
    eapply deliver_step; try done; lia. }
  set (crypto1 := set_last_offset (Z.max (rx_last_offset crypto) (st_offset fr + zlen data)) crypto).
  assert (Hok1 : rx_ok stream limit crypto1) by (destruct Hok; by split).
  destruct (Z.ltb_spec NGTCP2_MAX_REORDERED_CRYPTO_DATA (st_offset fr + zlen data - rx_cont_offset crypto)).
  { by eapply stepped_kept. }
  destruct (env_acquire env) as [arv|[owner own]] eqn:Ea.
  - unfold conn_recv_reordering. rewrite Ea.
    destruct (arv <? 0); [by eapply stepped_kept|].
    destruct (_ && _); [rewrite Hgl; cbn [bind]|]; by eapply stepped_kept.
  - destruct (recv_reordering_run stream limit env conn crypto1 data (st_offset fr) owner own)
      as (rv & conn' & crypto' & -> & Hok' & _ & Hcont & (log & ->) & Hcov & _); [done|done|lia|done|lia|done|].
    assert (Hdr' : rx_drained crypto').
    { unfold rx_drained. rewrite Hcont. intros [Hx|Hx]%Hcov; [by apply Hdr|]. cbn in Hx. lia. }
    destruct (rv <? 0); [by eapply stepped_kept|].
    destruct (_ && _); [|by eapply stepped_kept].
    match goal with |- context [conn_glitch ?c ts] =>
      destruct (glitch_run c ts) as (grv' & rlim' & Hgl' & Hwf' & Hts'); [apply Hg..|] end.
    rewrite Hgl'. cbn [bind]. eapply stepped_kept; try done. split; cbn; [done|lia].
Qed.
(** Frames of [stream], received from time [t] on. *)
Fixpoint frames_ok (t : Z) (frames : list (rx_env * ngtcp2_stream * Z)) : Prop :=
  match frames with
  | [] => True
  | (_, fr, ts) :: frames =>
      t <= ts /\ 0 <= st_offset fr /\
      (forall data l, st_data fr = data :: l -> carries stream (st_offset fr) data /\ st_offset fr + zlen data < 2 ^ 64) /\
      frames_ok ts frames
  end.

Lemma glitch_ok_le conn t ts : t <= ts -> glitch_ok conn t -> glitch_ok conn ts.
Proof. intros ? [? ?]. split; [done|lia]. Qed.

Lemma crypto_run_spec conn level crypto frames t max hi :
  progress 0 conn crypto hi -> crypto_max_offset level = Ok max -> max <= limit ->
  glitch_ok conn t -> frames_ok t frames ->
  exists rv conn' crypto' hi',
    crypto_run recv_crypto_data conn level crypto frames = Ok (rv, conn', crypto') /\
    progress rv conn' crypto' hi' /\ (rv = 0 -> rx_cont_offset crypto <= rx_cont_offset crypto') /\
    forall pre env fr ts post data l, frames = pre ++ (env, fr, ts) :: post -> rv = 0 -> st_data fr = data :: l ->
      exists conn1 crypto1, crypto_run recv_crypto_data conn level crypto pre = Ok (0, conn1, crypto1) /\
        (st_offset fr <= rx_cont_offset crypto1 -> st_offset fr + zlen data <= rx_cont_offset crypto').
Proof.
  intros Hp Hmax Hml. revert conn crypto t hi Hp.
  induction frames as [|[[env fr] ts] frames IH]; intros conn crypto t hi Hp Hg Hfr; cbn [crypto_run].
  { do 4 eexists. split; [reflexivity|]. split_and!; [exact Hp|lia|]. intros pre *. by destruct pre. }
  destruct Hfr as (Hts & Hoff & Hdata & Hfr). apply (glitch_ok_le _ _ _ Hts) in Hg.
  destruct (recv_crypto_step env conn level crypto fr ts max hi)
    as (rv & conn1 & crypto1 & hi1 & E & Hp1 & Hg1 & Hle & Hin); [done..|]. rewrite E. cbn [bind].
  destruct (Z.eqb_spec rv 0) as [->|Hrv]; cbn [negb].
  2:{ do 4 eexists. split; [reflexivity|]. split_and!; [exact Hp1|done|]. intros. done. }
  destruct (IH conn1 crypto1 ts hi1) as (rv & conn' & crypto' & hi' & Hrun & Hp' & Hle' & Hin'); [done..|].
  exists rv, conn', crypto', hi'. split_and!; [done|done|intros H; specialize (Hle' H); lia|].
  intros pre env0 fr0 ts0 post data l Hsplit Hrv Hdat. destruct pre as [|[[env1 fr1] ts1] pre]; cbn in Hsplit.
  - injection Hsplit as <- <- <- <-. exists conn, crypto. split; [done|]. intros Hst.
    specialize (Hin eq_refl _ _ Hdat Hst). specialize (Hle' Hrv). lia.
  - injection Hsplit as <- <- <- ->.
    destruct (Hin' _ _ _ _ _ _ _ eq_refl Hrv Hdat) as (c & s & Hc & Hs). exists c, s. split; [|done].
    cbn [crypto_run]. rewrite E. exact Hc.
Qed.
End Delivery.

(** ** Properties *)

(** C31: [conn_recv_reordering] accounts for the buffer it acquired exactly
    once (it is stored, or it was released), except when the reorder buffer
    is found to be heavily fragmented: then it returns [NGTCP2_ERR_INTERNAL]
    and releases the buffer although it was already stored or released, so
    that freeing the stream releases it again. *)
Theorem recv_reordering_ownership (stream : Z -> Z) (env : rx_env) (conn : ngtcp2_conn) (strm : ngtcp2_strm)
    (data : list Z) (offset owner limit : Z) (own : bool) :
  rx_ok stream limit strm -> env_acquire env = inr (owner, own) ->
  0 <= offset -> carries stream offset data -> offset + zlen data <= limit -> limit < 2 ^ 64 ->
  exists rv conn' strm', conn_recv_reordering env conn strm data offset = (rv, conn', strm') /\
    rx_ok stream limit strm' /\
    ((0 <= rv \/ rv = NGTCP2_ERR_NOMEM) /\ Permutation (owner :: accounted conn strm) (accounted conn' strm') \/
     rv = NGTCP2_ERR_INTERNAL /\ 4000 <= zlen (rx_entries strm') /\
     Permutation (owner :: owner :: accounted conn strm) (accounted conn' strm')).
Proof.
  intros Hok Ha Ho Hc He H64.
  destruct (recv_reordering_run stream limit env conn strm data offset owner own)
    as (rv & conn' & strm' & Hrun & Hok' & _ & _ & _ & _ & Hown); [done..|].
  by exists rv, conn', strm'.
Qed.

(** Single bytes with a gap in front of each. *)
Definition fragments (k n : nat) : list ngtcp2_reorder_entry :=
  map (fun i => mk_entry (2 * Z.of_nat i + 1) (2 * Z.of_nat i + 2) (mk_rbuf (Z.of_nat i) [0]) true) (seq k n).

Definition fragmented (n : nat) : ngtcp2_strm :=
  set_reorder (Some (mk_reorder (fragments 0 n) [])) (ngtcp2_strm_init 0 0 0 0).

Lemma fragments_ok k n lo :
  0 <= lo <= 2 * Z.of_nat k + 1 -> Z.of_nat (k + n) <= 5000 ->
  sorted_from lo (fragments k n) /\ Forall (entry_carries (fun _ => 0)) (fragments k n) /\
  forall x, covered (fragments k n) x -> x < 16384.
Proof.
  revert k lo. induction n as [|n IH]; intros k lo Hlo Hn.
  { split_and!; [done|constructor|]. intros x. by rewrite covered_nil. }
  unfold fragments in *. cbn [seq map].
  destruct (IH (S k) (2 * Z.of_nat k + 2)) as (Hs & Hf & Hc); [lia..|]. split_and!.
  - cbn [sorted_from re_begin re_end]. split_and!; [lia| |done]. split; cbn; [lia|lia|]. unfold zlen. cbn. lia.
  - constructor; [|done]. intros i b. destruct i as [|i]; [|by destruct i]. cbn. by intros [= <-].
  - intros x [Hx|Hx]%covered_cons; [cbn in Hx; lia|by apply Hc].
Qed.

Lemma fragmented_ok n : Z.of_nat n <= 5000 -> rx_ok (fun _ => 0) 16384 (fragmented n).
Proof. intros Hn. destruct (fragments_ok 0 n 0) as (Hs & Hf & Hc); [lia..|]. split; cbn; [exact Hs|exact Hf|lia|exact Hc]. Qed.

Definition no_glitch : ngtcp2_ratelim := ngtcp2_ratelim_init 10 1 0.

Definition fragmented_conn : ngtcp2_conn := mk_conn true 0 no_glitch 0 0 [] [].
Definition fragment_env : rx_env := mk_env 0 (inr (7777, true)) true true.

Lemma fragmented_internal :
  (conn_recv_reordering fragment_env fragmented_conn (fragmented (Z.to_nat 3999)) [0] 8001).1.1 = NGTCP2_ERR_INTERNAL.
Proof. vm_compute. reflexivity. Qed.

Lemma recv_reordering_ownership_witness :
  exists conn' strm',
    conn_recv_reordering fragment_env fragmented_conn (fragmented (Z.to_nat 3999)) [0] 8001
      = (NGTCP2_ERR_INTERNAL, conn', strm') /\
    Permutation (7777 :: 7777 :: accounted fragmented_conn (fragmented (Z.to_nat 3999))) (accounted conn' strm').
Proof.
  pose proof fragmented_internal as Hrv.
  destruct (recv_reordering_ownership (fun _ => 0) fragment_env fragmented_conn (fragmented (Z.to_nat 3999))
    [0] 8001 7777 16384 true) as (rv & conn' & strm' & Hrun & _ & Hown).
  - apply fragmented_ok. by vm_compute.
  - reflexivity.
  - lia.
  - intros i b. destruct i as [|i]; [|by destruct i]. cbn. by intros [= <-].
  - unfold zlen. cbn. lia.
  - reflexivity.
  - rewrite Hrun in Hrv. change (rv = NGTCP2_ERR_INTERNAL) in Hrv. subst rv. exists conn', strm'.
    split; [exact Hrun|]. destruct Hown as [[[H|H] _]|(_ & _ & H)]; [by destruct H|discriminate H|exact H].
Defined.

(** C32: for every sequence of CRYPTO frames of one stream, in any order,
    overlapping or repeated, no assertion fails and no fuel runs out, and
    the TLS library is given the bytes of the stream in order, without gap
    or repetition, within the limit of the encryption level.  Without an
    error, everything contiguous was given, and a frame that started inside
    of what had been given when it arrived was given up to its end. *)
Theorem crypto_in_order (recv_crypto_data : list (Z * list Z) -> Z -> list Z -> Z) (stream : Z -> Z)
    (server : bool) (flags id level max t : Z) (rlim : ngtcp2_ratelim) (frames : list (rx_env * ngtcp2_stream * Z)) :
  crypto_max_offset level = Ok max -> ratelim_wf rlim -> rl_ts rlim <= t -> frames_ok stream t frames ->
  let conn := mk_conn server flags rlim 0 0 [] [] in
  let crypto := ngtcp2_strm_init id 0 0 0 in
  exists rv conn' crypto' hi,
    crypto_run recv_crypto_data conn level crypto frames = Ok (rv, conn', crypto') /\
    hi <= max /\ chunks stream 0 (conn_delivered conn') hi /\
    (rv = 0 -> hi = rx_cont_offset crypto' /\ rx_drained crypto') /\
    forall pre env fr ts post data l, frames = pre ++ (env, fr, ts) :: post -> rv = 0 -> st_data fr = data :: l ->
      exists conn1 crypto1, crypto_run recv_crypto_data conn level crypto pre = Ok (0, conn1, crypto1) /\
        (st_offset fr <= rx_cont_offset crypto1 -> st_offset fr + zlen data <= hi).
Proof.
  intros Hmax Hwf Ht Hfr conn crypto.
  assert (Hm : 0 <= max < 2 ^ 64).
  { unfold crypto_max_offset in Hmax. repeat case_match; simplify_eq; by vm_compute. }
  destruct (crypto_run_spec recv_crypto_data stream max ltac:(lia) conn level crypto frames t max 0)
    as (rv & conn' & crypto' & hi & Hrun & (_ & Hch & Hhi & Hd) & _ & Hin); [|done|lia|by split|done|].
  - split_and!; [|done|lia|].
    + split; cbn; [done|constructor|lia|]. intros x. by rewrite covered_nil.
    + intros _. split; [done|]. unfold rx_drained. cbn. by intros ?%covered_nil.
  - exists rv, conn', crypto', hi. split_and!; try done. intros pre env fr ts post data l Hs Hrv Hdat.
    destruct (Hd Hrv) as [-> _]. by eapply Hin.
Qed.

(** Bytes 0, 1, 2, ... in three frames, the last one first. *)
Lemma crypto_in_order_witness :
  let fr o d := mk_stream NGTCP2_FRAME_CRYPTO 0 false 0 o [d] None in
  let env := mk_env 0 (inr (1, true)) true true in
  exists rv conn' crypto' hi,
    crypto_run (fun _ _ _ => 0) (mk_conn true 0 no_glitch 0 0 [] []) 0 (ngtcp2_strm_init 0 0 0 0)
      [(env, fr 4 [4; 5; 6], 1); (env, fr 2 [2; 3; 4; 5], 2); (env, fr 0 [0; 1; 2], 3)] = Ok (rv, conn', crypto') /\
    chunks (fun x => x) 0 (conn_delivered conn') hi /\ hi = 7.
Proof.
  cbv zeta.
  destruct (crypto_in_order (fun _ _ _ => 0) (fun x => x) true 0 0 0 16384 0 no_glitch
    [(mk_env 0 (inr (1, true)) true true, mk_stream NGTCP2_FRAME_CRYPTO 0 false 0 4 [[4; 5; 6]] None, 1);
     (mk_env 0 (inr (1, true)) true true, mk_stream NGTCP2_FRAME_CRYPTO 0 false 0 2 [[2; 3; 4; 5]] None, 2);
     (mk_env 0 (inr (1, true)) true true, mk_stream NGTCP2_FRAME_CRYPTO 0 false 0 0 [[0; 1; 2]] None, 3)])
    as (rv & conn' & crypto' & hi & Hrun & Hhi & Hch & Hd & _).
  - reflexivity.
  - split; vm_compute; intuition congruence.
  - cbn. lia.
  - cbn. split_and!; try lia; try done; intros data l [= <- <-]; (split; [|unfold zlen; cbn; lia]); intros i b;
      do 4 (destruct i as [|i]; cbn; [by intros [= <-]|]); intros [=].
  - exists rv, conn', crypto', hi. split; [exact Hrun|]. split; [exact Hch|].
    vm_compute in Hrun. injection Hrun as <- <- <-. destruct (Hd eq_refl) as [-> _]. reflexivity.
Defined.
