(* ===== verification/Acktr.v ===== *)
(** * Tracker of received packets: [lib/ngtcp2_acktr.c]

    Which packet numbers were received and are to be acknowledged, as a skip
    list of blocks of consecutive numbers in descending order; the ACK frames
    that were sent; and the construction of an ACK frame.

    The entries are objects that the skip list points to: the code changes
    them in place, so the model has a store of objects ([acktr_heap]) and the
    list holds their addresses. *)

From S2P Require Import Prelude Const Frame Ringbuf Ksl.
From stdpp Require Import list gmap.
#[local] Open Scope Z_scope.

Definition NGTCP2_ACKTR_MAX_ENT : Z := NGTCP2_MAX_ACK_RANGES + 1.
Definition NGTCP2_ACKTR_FLAG_NONE : Z := 0x00.
Definition NGTCP2_ACKTR_FLAG_IMMEDIATE_ACK : Z := 0x01.
Definition NGTCP2_ACKTR_FLAG_ACTIVE_ACK : Z := 0x02.
Definition NGTCP2_ACKTR_FLAG_CANCEL_TIMER : Z := 0x0100.

Definition NGTCP2_ECN_ECT_1 : Z := 0x1.
Definition NGTCP2_ECN_ECT_0 : Z := 0x2.
Definition NGTCP2_ECN_CE : Z := 0x3.
Definition NGTCP2_ECN_MASK : Z := 0x3.

Record ngtcp2_acktr_entry := mk_aent {
  ae_pkt_num : Z;
  ae_len : Z;
  ae_tstamp : Z;
}.

Record ngtcp2_acktr_ack_entry := mk_ack_ent {
  aa_largest_ack : Z;
  aa_pkt_num : Z;
}.

(** [acktr_next] is the next free address. *)
Record ngtcp2_acktr := mk_acktr {
  acktr_heap : gmap Z ngtcp2_acktr_entry;
  acktr_next : Z;
  acktr_acks : ngtcp2_ringbuf ngtcp2_acktr_ack_entry;
  acktr_ents : ngtcp2_ksl Z Z;
  acktr_flags : Z;
  acktr_first_unacked_ts : Z;
  acktr_rx_npkt : Z;
  acktr_max_pkt_num : Z;
  acktr_max_pkt_ts : Z;
  acktr_ecn : Z * Z * Z;
}.

Implicit Types (acktr : ngtcp2_acktr) (it : ngtcp2_ksl_it).

Definition set_ents (ents : ngtcp2_ksl Z Z) acktr : ngtcp2_acktr :=
  mk_acktr (acktr_heap acktr) (acktr_next acktr) (acktr_acks acktr) ents (acktr_flags acktr)
    (acktr_first_unacked_ts acktr) (acktr_rx_npkt acktr) (acktr_max_pkt_num acktr) (acktr_max_pkt_ts acktr)
    (acktr_ecn acktr).
Definition set_heap (heap : gmap Z ngtcp2_acktr_entry) acktr : ngtcp2_acktr :=
  mk_acktr heap (acktr_next acktr) (acktr_acks acktr) (acktr_ents acktr) (acktr_flags acktr)
    (acktr_first_unacked_ts acktr) (acktr_rx_npkt acktr) (acktr_max_pkt_num acktr) (acktr_max_pkt_ts acktr)
    (acktr_ecn acktr).
Definition set_acks (acks : ngtcp2_ringbuf ngtcp2_acktr_ack_entry) acktr : ngtcp2_acktr :=
  mk_acktr (acktr_heap acktr) (acktr_next acktr) acks (acktr_ents acktr) (acktr_flags acktr)
    (acktr_first_unacked_ts acktr) (acktr_rx_npkt acktr) (acktr_max_pkt_num acktr) (acktr_max_pkt_ts acktr)
    (acktr_ecn acktr).
Definition set_timer (flags first_unacked_ts rx_npkt : Z) acktr : ngtcp2_acktr :=
  mk_acktr (acktr_heap acktr) (acktr_next acktr) (acktr_acks acktr) (acktr_ents acktr) flags
    first_unacked_ts rx_npkt (acktr_max_pkt_num acktr) (acktr_max_pkt_ts acktr) (acktr_ecn acktr).
Definition set_max (pkt_num ts : Z) acktr : ngtcp2_acktr :=
  mk_acktr (acktr_heap acktr) (acktr_next acktr) (acktr_acks acktr) (acktr_ents acktr) (acktr_flags acktr)
    (acktr_first_unacked_ts acktr) (acktr_rx_npkt acktr) pkt_num ts (acktr_ecn acktr).
Definition set_ecn (ecn : Z * Z * Z) acktr : ngtcp2_acktr :=
  mk_acktr (acktr_heap acktr) (acktr_next acktr) (acktr_acks acktr) (acktr_ents acktr) (acktr_flags acktr)
    (acktr_first_unacked_ts acktr) (acktr_rx_npkt acktr) (acktr_max_pkt_num acktr) (acktr_max_pkt_ts acktr) ecn.

(** ** Objects *)
Definition acktr_load acktr (p : Z) : res ngtcp2_acktr_entry :=
  match acktr_heap acktr !! p with Some ent => Ok ent | None => Fault end.

Definition acktr_store acktr (p : Z) ent : res ngtcp2_acktr :=
  let* _ := acktr_load acktr p in Ok (set_heap (<[p := ent]> (acktr_heap acktr)) acktr).

(** [None] is a failed allocation. *)
Definition ngtcp2_acktr_entry_objalloc_new (mem_ok : bool) acktr (pkt_num tstamp : Z) : option (ngtcp2_acktr * Z) :=
  if mem_ok then
    let p := acktr_next acktr in
    Some (mk_acktr (<[p := mk_aent pkt_num 1 tstamp]> (acktr_heap acktr)) (p + 1) (acktr_acks acktr)
            (acktr_ents acktr) (acktr_flags acktr) (acktr_first_unacked_ts acktr) (acktr_rx_npkt acktr)
            (acktr_max_pkt_num acktr) (acktr_max_pkt_ts acktr) (acktr_ecn acktr), p)
  else None.

Definition ngtcp2_acktr_entry_objalloc_del acktr (p : Z) : ngtcp2_acktr :=
  set_heap (delete p (acktr_heap acktr)) acktr.

(** ** Operations *)
Definition ngtcp2_ksl_int64_greater (a b : Z) : bool := b <? a.

Abbreviation ksl_lower_bound := (ngtcp2_ksl_lower_bound_search ngtcp2_ksl_int64_greater).
Abbreviation ksl_update_key := (ngtcp2_ksl_update_key ngtcp2_ksl_int64_greater).
Abbreviation ksl_remove_hint := (ngtcp2_ksl_remove_hint ngtcp2_ksl_int64_greater).

(** [avail]: the blocks the skip list can allocate. *)
Definition ngtcp2_acktr_init (avail : nat) : res ngtcp2_acktr :=
  let* acks := ngtcp2_ringbuf_buf_init 32 (replicate 32 (mk_ack_ent 0 0)) in
  Ok (mk_acktr ∅ 0 acks (ngtcp2_ksl_init avail) NGTCP2_ACKTR_FLAG_NONE UINT64_MAX 0 (-1) UINT64_MAX (0, 0, 0)).

(** The entry at an iterator and its address. *)
Definition ent_at acktr it : res (Z * ngtcp2_acktr_entry) :=
  let* p := ngtcp2_ksl_it_get (acktr_ents acktr) it in
  let* ent := acktr_load acktr p in
  Ok (p, ent).

(** [ngtcp2_ksl_remove_hint] and the release of the entry. *)
Definition acktr_remove acktr it (p : Z) ent : res (ngtcp2_acktr * ngtcp2_ksl_it) :=
  let* (_, ents, it) := ksl_remove_hint (acktr_ents acktr) it (ae_pkt_num ent) in
  Ok (ngtcp2_acktr_entry_objalloc_del (set_ents ents acktr) p, it).

(** [++ent->len] *)
Definition grow_down acktr (p : Z) ent : res (ngtcp2_acktr * bool) :=
  let* acktr := acktr_store acktr p (mk_aent (ae_pkt_num ent) (ae_len ent + 1) (ae_tstamp ent)) in
  Ok (acktr, true).

(** The new packet number becomes the largest one of an entry. *)
Definition grow_up acktr (p : Z) ent (pkt_num ts : Z) : res (ngtcp2_acktr * bool) :=
  let* ents := ksl_update_key (acktr_ents acktr) (ae_pkt_num ent) pkt_num in
  let* acktr := acktr_store (set_ents ents acktr) p (mk_aent pkt_num (ae_len ent + 1) ts) in
  Ok (acktr, true).

(** The first part of [ngtcp2_acktr_add]: an entry that the packet number
    extends, or a gap that it fills. *)
Definition acktr_extend acktr (pkt_num ts : Z) : res (ngtcp2_acktr * bool) :=
  if (ngtcp2_ksl_len (acktr_ents acktr) =? 0)%nat then Ok (acktr, false) else
  let* it := ksl_lower_bound (acktr_ents acktr) pkt_num in
  if ngtcp2_ksl_it_end (acktr_ents acktr) it then
    let* it := ngtcp2_ksl_it_prev (acktr_ents acktr) it in
    let* (p, ent) := ent_at acktr it in
    assert! pkt_num + ae_len ent <=? ae_pkt_num ent;
    if ae_pkt_num ent =? pkt_num + ae_len ent then grow_down acktr p ent else Ok (acktr, false)
  else
    let* (p, ent) := ent_at acktr it in
    assert! negb (ae_pkt_num ent =? pkt_num);
    if ngtcp2_ksl_it_begin (acktr_ents acktr) it then
      if ae_pkt_num ent + 1 =? pkt_num then grow_up acktr p ent pkt_num ts else Ok (acktr, false)
    else
      let* prev_it := ngtcp2_ksl_it_prev (acktr_ents acktr) it in
      let* (prev_p, prev_ent) := ent_at acktr prev_it in
      assert! pkt_num + ae_len prev_ent <=? ae_pkt_num prev_ent;
      if ae_pkt_num ent + 1 =? pkt_num then
        if ae_pkt_num prev_ent =? pkt_num + ae_len prev_ent then
          let* acktr := acktr_store acktr prev_p
            (mk_aent (ae_pkt_num prev_ent) (ae_len prev_ent + (ae_len ent + 1)) (ae_tstamp prev_ent)) in
          let* (acktr, _) := acktr_remove acktr it p ent in
          Ok (acktr, true)
        else grow_up acktr p ent pkt_num ts
      else if ae_pkt_num prev_ent =? pkt_num + ae_len prev_ent then grow_down acktr prev_p prev_ent
      else Ok (acktr, false).

(** [if (!added)]: a new entry. *)
Definition acktr_new_entry (mem_ok : bool) acktr (pkt_num ts : Z) : res (Z * ngtcp2_acktr) :=
  match ngtcp2_acktr_entry_objalloc_new mem_ok acktr pkt_num ts with
  | None => Ok (NGTCP2_ERR_NOMEM, acktr)
  | Some (acktr, p) =>
      let* (rv, ents, _) := ngtcp2_ksl_insert ngtcp2_ksl_int64_greater (acktr_ents acktr) pkt_num p in
      let acktr := set_ents ents acktr in
      if negb (rv =? 0) then Ok (rv, ngtcp2_acktr_entry_objalloc_del acktr p) else Ok (0, acktr)
  end.

(** [if (ngtcp2_ksl_len(&acktr->ents) > NGTCP2_ACKTR_MAX_ENT)] *)
Definition acktr_trim acktr : res ngtcp2_acktr :=
  if NGTCP2_ACKTR_MAX_ENT <? Z.of_nat (ngtcp2_ksl_len (acktr_ents acktr)) then
    let* it := ngtcp2_ksl_it_prev (acktr_ents acktr) (ngtcp2_ksl_end (acktr_ents acktr)) in
    let* (p, delent) := ent_at acktr it in
    let* (acktr, _) := acktr_remove acktr it p delent in
    Ok acktr
  else Ok acktr.

Definition ngtcp2_acktr_add (mem_ok : bool) acktr (pkt_num : Z) (active_ack : bool) (ts : Z) : res (Z * ngtcp2_acktr) :=
  let* (acktr, added) := acktr_extend acktr pkt_num ts in
  let* (rv, acktr) := if negb added then acktr_new_entry mem_ok acktr pkt_num ts else Ok (0, acktr) in
  if negb (rv =? 0) then Ok (rv, acktr) else
  let acktr :=
    if active_ack then
      set_timer (Z.lor (acktr_flags acktr) NGTCP2_ACKTR_FLAG_ACTIVE_ACK)
        (if acktr_first_unacked_ts acktr =? UINT64_MAX then ts else acktr_first_unacked_ts acktr)
        (acktr_rx_npkt acktr) acktr
    else acktr in
  let* acktr := acktr_trim acktr in
  if acktr_max_pkt_num acktr <? pkt_num then Ok (0, set_max pkt_num ts acktr) else Ok (0, acktr).

(** Removal of every entry from an iterator on. *)
Fixpoint acktr_remove_from (fuel : nat) acktr it : res (ngtcp2_acktr * ngtcp2_ksl_it) :=
  match fuel with
  | O => Fault
  | S fuel =>
      if ngtcp2_ksl_it_end (acktr_ents acktr) it then Ok (acktr, it) else
      let* (p, ent) := ent_at acktr it in
      let* (acktr, it) := acktr_remove acktr it p ent in
      acktr_remove_from fuel acktr it
  end.

Definition ngtcp2_acktr_forget acktr ent : res ngtcp2_acktr :=
  let* it := ksl_lower_bound (acktr_ents acktr) (ae_pkt_num ent) in
  let* key := ngtcp2_ksl_it_key (acktr_ents acktr) it in
  assert! key =? ae_pkt_num ent;
  let* (acktr, _) := acktr_remove_from (S (ngtcp2_ksl_len (acktr_ents acktr))) acktr it in
  Ok acktr.

Definition ngtcp2_acktr_get acktr : ngtcp2_ksl_it := ngtcp2_ksl_begin (acktr_ents acktr).

Definition ngtcp2_acktr_empty acktr : bool :=
  ngtcp2_ksl_it_end (acktr_ents acktr) (ngtcp2_ksl_begin (acktr_ents acktr)).

Definition ngtcp2_acktr_add_ack acktr (pkt_num largest_ack : Z) : res ngtcp2_acktr :=
  let (rb, off) := ngtcp2_ringbuf_push_front (acktr_acks acktr) in
  let* rb := ringbuf_store rb off (mk_ack_ent largest_ack pkt_num) in
  Ok (set_acks rb acktr).

Definition ack_ent_get (rb : ngtcp2_ringbuf ngtcp2_acktr_ack_entry) (offset : Z) : res ngtcp2_acktr_ack_entry :=
  let* off := ngtcp2_ringbuf_get rb offset in ringbuf_load rb off.

Definition acktr_on_ack acktr (ack_ent_offset : Z) : res ngtcp2_acktr :=
  let rb := acktr_acks acktr in
  assert! negb (rb_len rb =? 0);
  let* ack_ent := ack_ent_get rb ack_ent_offset in
  let* it := ksl_lower_bound (acktr_ents acktr) (aa_largest_ack ack_ent) in
  let* (acktr, it) := acktr_remove_from (S (ngtcp2_ksl_len (acktr_ents acktr))) acktr it in
  let* acktr :=
    if negb (ngtcp2_ksl_len (acktr_ents acktr) =? 0)%nat then
      assert! ngtcp2_ksl_it_end (acktr_ents acktr) it;
      let* it := ngtcp2_ksl_it_prev (acktr_ents acktr) it in
      let* (p, ent) := ent_at acktr it in
      assert! aa_largest_ack ack_ent <? ae_pkt_num ent;
      if ae_pkt_num ent <? aa_largest_ack ack_ent + ae_len ent then
        acktr_store acktr p (mk_aent (ae_pkt_num ent) (ae_pkt_num ent - aa_largest_ack ack_ent) (ae_tstamp ent))
      else Ok acktr
    else Ok acktr in
  let* rb := ngtcp2_ringbuf_resize rb ack_ent_offset in
  Ok (set_acks rb acktr).

(** The first loop of [ngtcp2_acktr_recv_ack], from [j] on with [n] entries
    left. *)
Fixpoint find_ack (n : nat) (rb : ngtcp2_ringbuf ngtcp2_acktr_ack_entry) (j largest_ack : Z)
    : res (option (Z * ngtcp2_acktr_ack_entry)) :=
  match n with
  | O => Ok None
  | S n =>
      let* ent := ack_ent_get rb j in
      if aa_pkt_num ent <=? largest_ack then Ok (Some (j, ent)) else find_ack n rb (j + 1) largest_ack
  end.

(** The [for (;;)] loop for one range: the entry is acknowledged, or the scan
    goes on in the next range, or the entries are exhausted. *)
Inductive range_scan :=
| Acked (j : Z)
| Below (n : nat) (j : Z) (ent : ngtcp2_acktr_ack_entry)
| Exhausted.

Fixpoint scan_range (n : nat) (rb : ngtcp2_ringbuf ngtcp2_acktr_ack_entry) (j : Z) (ent : ngtcp2_acktr_ack_entry)
    (largest_ack min_ack : Z) : res range_scan :=
  if largest_ack <? aa_pkt_num ent then
    match n with
    | O => Ok Exhausted
    | S n => let* ent := ack_ent_get rb (j + 1) in scan_range n rb (j + 1) ent largest_ack min_ack
    end
  else if aa_pkt_num ent <? min_ack then Ok (Below n j ent)
  else Ok (Acked j).

Fixpoint scan_ranges (ranges : list ngtcp2_ack_range) (n : nat) (rb : ngtcp2_ringbuf ngtcp2_acktr_ack_entry) (j : Z)
    (ent : ngtcp2_acktr_ack_entry) (min_ack : Z) : res (option Z) :=
  match ranges with
  | [] => Ok None
  | r :: ranges =>
      let largest_ack := min_ack - i64 (ar_gap r) - 2 in
      let min_ack := largest_ack - i64 (ar_len r) in
      let* s := scan_range n rb j ent largest_ack min_ack in
      match s with
      | Acked j => Ok (Some j)
      | Below n j ent => scan_ranges ranges n rb j ent min_ack
      | Exhausted => Ok None
      end
  end.

Definition ngtcp2_acktr_recv_ack acktr (fr : ngtcp2_ack) : res ngtcp2_acktr :=
  let rb := acktr_acks acktr in
  let nacks := Z.to_nat (rb_len rb) in
  let* found := find_ack nacks rb 0 (ack_largest_ack fr) in
  match found with
  | None => Ok acktr
  | Some (j, ent) =>
      let min_ack := ack_largest_ack fr - i64 (ack_first_ack_range fr) in
      if min_ack <=? aa_pkt_num ent then acktr_on_ack acktr j
      else
        let* acked := scan_ranges (ack_ranges fr) (nacks - Z.to_nat j - 1) rb j ent min_ack in
        match acked with
        | None => Ok acktr
        | Some j => acktr_on_ack acktr j
        end
  end.

Definition ngtcp2_acktr_commit_ack acktr : ngtcp2_acktr :=
  set_timer
    (Z.ldiff (acktr_flags acktr)
       (Z.lor NGTCP2_ACKTR_FLAG_ACTIVE_ACK
          (Z.lor NGTCP2_ACKTR_FLAG_IMMEDIATE_ACK NGTCP2_ACKTR_FLAG_CANCEL_TIMER)))
    UINT64_MAX 0 acktr.

Definition ngtcp2_tstamp_elapsed (base d ts : Z) : bool :=
  negb (base =? UINT64_MAX) && (base <? UINT64_MAX - d) && (base + d <=? ts).

Definition ngtcp2_acktr_require_active_ack acktr (max_ack_delay ts : Z) : bool :=
  ngtcp2_tstamp_elapsed (acktr_first_unacked_ts acktr) max_ack_delay ts.

Definition ngtcp2_acktr_immediate_ack acktr : ngtcp2_acktr :=
  set_timer (Z.lor (acktr_flags acktr) NGTCP2_ACKTR_FLAG_IMMEDIATE_ACK) (acktr_first_unacked_ts acktr)
    (acktr_rx_npkt acktr) acktr.

(** The loop that writes [n] ranges. *)
Fixpoint ack_ranges_from (n : nat) acktr it (last_pkt_num : Z) : res (list ngtcp2_ack_range) :=
  match n with
  | O => Ok []
  | S n =>
      let* (_, rpkt) := ent_at acktr it in
      let range := mk_ack_range (u64 (last_pkt_num - ae_pkt_num rpkt - 2)) (u64 (ae_len rpkt - 1)) in
      let* ranges := ack_ranges_from n acktr (ngtcp2_ksl_it_next (acktr_ents acktr) it)
                       (ae_pkt_num rpkt - (ae_len rpkt - 1)) in
      Ok (range :: ranges)
  end.

(** 0 and the frame, or -1; and the state. *)
Definition ngtcp2_acktr_create_ack_frame acktr (type ts ack_delay ack_delay_exponent : Z)
    : res (Z * option ngtcp2_ack * ngtcp2_acktr) :=
  let ack_delay := if negb (Z.land (acktr_flags acktr) NGTCP2_ACKTR_FLAG_IMMEDIATE_ACK =? 0) then 0 else ack_delay in
  if negb (ngtcp2_acktr_require_active_ack acktr ack_delay ts) then Ok (-1, None, acktr) else
  let it := ngtcp2_acktr_get acktr in
  if ngtcp2_ksl_it_end (acktr_ents acktr) it then Ok (-1, None, ngtcp2_acktr_commit_ack acktr) else
  let num_acks := ngtcp2_ksl_len (acktr_ents acktr) in
  let '(ect0, ect1, ce) := acktr_ecn acktr in
  let ecn := if negb (ect0 =? 0) || negb (ect1 =? 0) || negb (ce =? 0) then Some (ect0, ect1, ce) else None in
  let ack_type := match ecn with Some _ => NGTCP2_FRAME_ACK_ECN | None => NGTCP2_FRAME_ACK end in
  let* (_, rpkt) := ent_at acktr it in
  let next := ngtcp2_ksl_it_next (acktr_ents acktr) it in
  let* (last_pkt_num, largest_ack_ts, largest_ack, first_ack_range, it, num_acks) :=
    if ae_pkt_num rpkt =? acktr_max_pkt_num acktr then
      Ok (ae_pkt_num rpkt - (ae_len rpkt - 1), ae_tstamp rpkt, ae_pkt_num rpkt, u64 (ae_len rpkt - 1), next,
          (num_acks - 1)%nat)
    else if ae_pkt_num rpkt + 1 =? acktr_max_pkt_num acktr then
      Ok (ae_pkt_num rpkt - (ae_len rpkt - 1), acktr_max_pkt_ts acktr, acktr_max_pkt_num acktr, ae_len rpkt, next,
          (num_acks - 1)%nat)
    else
      assert! ae_pkt_num rpkt <? acktr_max_pkt_num acktr;
      Ok (acktr_max_pkt_num acktr, acktr_max_pkt_ts acktr, acktr_max_pkt_num acktr, 0, it, num_acks) in
  let unscaled := if type =? NGTCP2_PKT_1RTT then u64 (ts - largest_ack_ts) else 0 in
  let scaled :=
    if type =? NGTCP2_PKT_1RTT then unscaled / NGTCP2_MICROSECONDS / 2 ^ ack_delay_exponent else 0 in
  let num_acks := Z.to_nat (Z.min (Z.of_nat num_acks) NGTCP2_MAX_ACK_RANGES) in
  let* ranges := ack_ranges_from num_acks acktr it last_pkt_num in
  Ok (0, Some (mk_ack ack_type largest_ack scaled unscaled ecn first_ack_range ranges), acktr).

Definition ngtcp2_acktr_increase_ecn_counts acktr (ecn : Z) : ngtcp2_acktr :=
  let '(ect0, ect1, ce) := acktr_ecn acktr in
  let bits := Z.land ecn NGTCP2_ECN_MASK in
  if bits =? NGTCP2_ECN_ECT_0 then set_ecn (u64 (ect0 + 1), ect1, ce) acktr
  else if bits =? NGTCP2_ECN_ECT_1 then set_ecn (ect0, u64 (ect1 + 1), ce) acktr
  else if bits =? NGTCP2_ECN_CE then set_ecn (ect0, ect1, u64 (ce + 1)) acktr
  else acktr.
