(* ===== verification/KslStore.v ===== *)
(** * Objects in a skip list

    A skip list that is ordered by descending packet number holds the
    addresses of objects that the code changes in place.  The lemmas follow
    the objects through the operations on the list. *)

From S2P Require Import Prelude Const Ksl KslInv KslIter KslSearch KslSpec KslMap Acktr.
From stdpp Require Import list gmap.
#[local] Open Scope Z_scope.

#[export] Instance int64_greater_order : StrictWeakOrder ngtcp2_ksl_int64_greater.
Proof. split; unfold ngtcp2_ksl_int64_greater; intros *; rewrite ?Z.ltb_lt, ?Z.ltb_ge; lia. Qed.

Lemma greater_true a b : ngtcp2_ksl_int64_greater a b = true <-> b < a.
Proof. apply Z.ltb_lt. Qed.

Lemma greater_false a b : ngtcp2_ksl_int64_greater a b = false <-> a <= b.
Proof. apply Z.ltb_ge. Qed.

Section Store.
Context {E : Type} (key : E -> Z).
Implicit Types (heap : gmap Z E) (elems A B : list (Z * Z)) (l : list E) (e : E).

(** The objects of the list are [l]. *)
Definition ents_rep heap elems l : Prop :=
  Forall2 (fun x e => x.1 = key e /\ heap !! x.2 = Some e) elems l /\ NoDup elems.*2.

Lemma ents_rep_split heap A x B l :
  ents_rep heap (A ++ x :: B) l ->
  exists lA e lB, l = lA ++ e :: lB /\ length lA = length A /\ length lB = length B /\
    x.1 = key e /\ heap !! x.2 = Some e.
Proof.
  intros [Hf _]. apply Forall2_app_inv_l in Hf as (lA & lB' & HA & HB & ->).
  apply Forall2_cons_inv_l in HB as (e & lB & [Hk Hp] & HB & ->).
  exists lA, e, lB. by rewrite <- (Forall2_length _ _ _ HA), <- (Forall2_length _ _ _ HB).
Qed.

Lemma ents_heap heap heap' elems l :
  (forall p, p ∈ elems.*2 -> heap' !! p = heap !! p) ->
  Forall2 (fun x e => x.1 = key e /\ heap !! x.2 = Some e) elems l ->
  Forall2 (fun x e => x.1 = key e /\ heap' !! x.2 = Some e) elems l.
Proof.
  intros Hh Hf. induction Hf as [|x e elems l [Hk Hp] Hf IH]; [constructor|]. cbn in Hh. constructor.
  - split; [done|]. rewrite Hh; [done|]. apply elem_of_cons. by left.
  - apply IH. intros p Hp'. apply Hh, elem_of_cons. by right.
Qed.

Lemma nodup_middle A B x :
  NoDup (A ++ x :: B).*2 -> (x.2 ∉ A.*2) /\ (x.2 ∉ B.*2) /\ NoDup (A ++ B).*2.
Proof.
  rewrite !fmap_app, fmap_cons, !NoDup_app, NoDup_cons. intros (HA & Hd & Hx & HB). split_and!.
  - intros Hin. apply (Hd _ Hin), elem_of_cons. by left.
  - done.
  - done.
  - intros p Hp Hp'. apply (Hd p Hp), elem_of_cons. by right.
  - done.
Qed.

Lemma ents_rep_change heap A x B lA e lB k' e' :
  ents_rep heap (A ++ x :: B) (lA ++ e :: lB) -> length lA = length A -> k' = key e' ->
  ents_rep (<[x.2 := e']> heap) (A ++ (k', x.2) :: B) (lA ++ e' :: lB).
Proof.
  intros [Hf Hnd] Hl ->. destruct (nodup_middle _ _ _ Hnd) as (HxA & HxB & _).
  apply Forall2_app_inv in Hf as [HA HB]; [|done]. apply Forall2_cons in HB as [_ HB]. split.
  - apply Forall2_app; [|constructor].
    + eapply ents_heap; [|exact HA]. intros p Hp. apply lookup_insert_ne. intros E'. by subst p.
    + split; [done|apply lookup_insert_eq].
    + eapply ents_heap; [|exact HB]. intros p Hp. apply lookup_insert_ne. intros E'. by subst p.
  - rewrite fmap_app, fmap_cons in *. exact Hnd.
Qed.

Lemma ents_rep_delete heap A x B lA e lB :
  ents_rep heap (A ++ x :: B) (lA ++ e :: lB) -> length lA = length A ->
  ents_rep (delete x.2 heap) (A ++ B) (lA ++ lB).
Proof.
  intros [Hf Hnd] Hl. destruct (nodup_middle _ _ _ Hnd) as (HxA & HxB & Hnd').
  apply Forall2_app_inv in Hf as [HA HB]; [|done]. apply Forall2_cons in HB as [_ HB]. split; [|done].
  apply Forall2_app; (eapply ents_heap; [|done]); intros p Hp; apply lookup_delete_ne; intros E'; by subst p.
Qed.

Lemma ents_rep_insert heap A B lA lB p e :
  ents_rep heap (A ++ B) (lA ++ lB) -> length lA = length A -> p ∉ (A ++ B).*2 ->
  ents_rep (<[p := e]> heap) (A ++ (key e, p) :: B) (lA ++ e :: lB).
Proof.
  intros [Hf Hnd] Hl Hp. apply Forall2_app_inv in Hf as [HA HB]; [|done].
  rewrite fmap_app, elem_of_app in Hp. split.
  - apply Forall2_app; [|constructor].
    + eapply ents_heap; [|exact HA]. intros q Hq. apply lookup_insert_ne. intros ->. tauto.
    + split; [done|apply lookup_insert_eq].
    + eapply ents_heap; [|exact HB]. intros q Hq. apply lookup_insert_ne. intros ->. tauto.
  - rewrite fmap_app, fmap_cons in *. cbn. rewrite NoDup_app, NoDup_cons in *.
    destruct Hnd as (H1 & H2 & H3). split_and!; [done| |tauto|done].
    intros q Hq. rewrite elem_of_cons. intros [->|Hq']; [tauto|by apply (H2 q)].
Qed.

(** ** Objects in the list and objects that were taken out of it *)

(** [out]: the objects that are not in the list (any more), with their
    addresses.  There are no others. *)
Record kstore (l : list E) (out : list (Z * E)) heap (next : Z) (ents : ngtcp2_ksl Z Z) : Prop := {
  ks_wf : ksl_wf ngtcp2_ksl_int64_greater ents;
  ks_rep : ents_rep heap (ksl_elems ents) l;
  ks_out : Forall (fun x => heap !! x.1 = Some x.2) out;
  ks_nodup : NoDup ((ksl_elems ents).*2 ++ out.*1);
  ks_live : forall p, is_Some (heap !! p) -> p < next /\ p ∈ (ksl_elems ents).*2 ++ out.*1;
}.

Lemma kstore_len l out heap next ents : kstore l out heap next ents -> ngtcp2_ksl_len ents = length l.
Proof. intros [[_ _ Hn] [Hf _] _ _ _]. unfold ngtcp2_ksl_len. rewrite Hn. by apply Forall2_length in Hf. Qed.

(** A cursor in the list is a place in [l]. *)
Lemma kstore_cursor l out heap next ents it A B :
  kstore l out heap next ents -> cursor ents it A B ->
  exists lA lB, l = lA ++ lB /\ length lA = length A /\ length lB = length B /\ map key lA = map fst A /\ map key lB = map fst B.
Proof.
  intros [_ [Hf _] _ _ _] Hc. rewrite (cursor_elems _ _ _ _ Hc) in Hf.
  apply Forall2_app_inv_l in Hf as (lA & lB & HA & HB & ->). exists lA, lB.
  pose proof (Forall2_length _ _ _ HA). pose proof (Forall2_length _ _ _ HB). split_and!; try done.
  - clear -HA. induction HA as [|x e A l [Hk _] _ IH]; cbn; [done|]. by rewrite IH, Hk.
  - clear -HB. induction HB as [|x e B l [Hk _] _ IH]; cbn; [done|]. by rewrite IH, Hk.
Qed.

Lemma kstore_at lA e lB out heap next ents it A B :
  kstore (lA ++ e :: lB) out heap next ents -> cursor ents it A B -> length lA = length A ->
  exists x B', B = x :: B' /\ x.1 = key e /\ ngtcp2_ksl_it_get ents it = Ok x.2 /\ ngtcp2_ksl_it_key ents it = Ok (key e) /\
    heap !! x.2 = Some e /\ length lB = length B'.
Proof.
  intros Hst Hc Hl. pose proof Hst as [_ Hr _ _ _]. rewrite (cursor_elems _ _ _ _ Hc) in Hr. destruct Hr as [Hf _].
  apply Forall2_app_inv in Hf as [_ HB]; [|done]. apply Forall2_cons_inv_r in HB as (x & B' & [Hk Hp] & HB & ->).
  exists x, B'. rewrite (cursor_it_get _ _ _ _ _ Hc), (cursor_it_key _ _ _ _ _ Hc), Hk. split_and!; try done.
  by apply Forall2_length in HB.
Qed.

(** An object is changed in place. *)
Lemma kstore_change lA e lB out heap next ents A x B e' :
  kstore (lA ++ e :: lB) out heap next ents -> ksl_elems ents = A ++ x :: B -> length lA = length A -> key e' = key e ->
  kstore (lA ++ e' :: lB) out (<[x.2 := e']> heap) next ents.
Proof.
  intros [Hwf Hr Ho Hnd Hlv] HE Hl Hk. pose proof Hr as Hr0. rewrite HE in Hr0, Hnd, Hlv.
  pose proof (ents_rep_split _ _ _ _ _ Hr0) as (lA' & e0 & lB' & Heq & HlA & _ & Hk0 & _).
  apply app_inj_1 in Heq as [-> [= <- <-]]; [|lia]. rewrite fmap_app, fmap_cons in Hnd, Hlv. split; try done; rewrite ?HE.
  - replace x with (x.1, x.2) at 2 by by destruct x. apply (ents_rep_change _ _ _ _ _ _ _ _ _ Hr0 Hl). congruence.
  - eapply List.Forall_impl; [|apply Forall_forall; intros y Hy; exact (conj Hy (proj1 (Forall_forall _ _) Ho y Hy))].
    intros y [Hy Hh]. rewrite lookup_insert_ne; [done|]. intros E'. apply NoDup_app in Hnd as (_ & Hd & _).
    apply (Hd x.2); [rewrite elem_of_app, elem_of_cons; auto|]. rewrite E'. by apply list_elem_of_fmap_2.
  - by rewrite fmap_app, fmap_cons.
  - intros p Hp. rewrite fmap_app, fmap_cons. destruct (decide (p = x.2)) as [->|Hne].
    + destruct (Hlv x.2) as [Hlt Hin]; [|done]. destruct Hr0 as [Hf _].
      apply Forall2_app_inv in Hf as [_ Hf]; [|done]. apply Forall2_cons in Hf as [[_ Hp'] _]. by eexists.
    + rewrite lookup_insert_ne in Hp by done. by apply Hlv.
Qed.

(** An object is taken out of the list. *)
Lemma kstore_remove lA e lB out heap next ents it A B :
  kstore (lA ++ e :: lB) out heap next ents -> cursor ents it A B -> length lA = length A ->
  exists p B' ents' it', ngtcp2_ksl_it_get ents it = Ok p /\ heap !! p = Some e /\ B = (key e, p) :: B' /\
    ksl_remove_hint ents it (key e) = Ok (0, ents', it') /\
    kstore (lA ++ lB) ((p, e) :: out) heap next ents' /\ cursor ents' it' A B' /\
    (forall n, ksl_room n ents -> ksl_room n ents').
Proof.
  intros Hst Hc Hl. destruct (kstore_at _ _ _ _ _ _ _ _ _ _ Hst Hc Hl) as ([k p] & B' & -> & Hk & Hg & _ & Hp & _). cbn in Hk, Hg, Hp. subst k.
  pose proof Hst as [Hwf Hr Ho Hnd Hlv].
  destruct (remove_hint_run _ _ it A (key e, p) B' (key e) Hwf Hc) as (ents' & it' & Hrm & [Hwf' _ _ Ha Hh Hc']).
  { unfold key_equal. cbn. by rewrite (less_irrefl (less := ngtcp2_ksl_int64_greater)). }
  exists p, B', ents', it'. pose proof (cursor_elems _ _ _ _ Hc) as HE. pose proof (cursor_elems _ _ _ _ Hc') as HE'.
  rewrite HE in Hr, Hnd, Hlv. rewrite fmap_app, fmap_cons in Hnd, Hlv. cbn in Hnd, Hlv.
  assert (Hperm : (A.*2 ++ p :: B'.*2) ++ out.*1 ≡ₚ (A.*2 ++ B'.*2) ++ p :: out.*1).
  { rewrite <- !app_assoc. cbn. apply Permutation_app_head. by rewrite Permutation_middle. }
  split_and!; try done.
  - split; try done; rewrite ?HE', ?fmap_app.
    + destruct Hr as [Hf Hnd']. destruct (nodup_middle _ _ _ Hnd') as (_ & _ & Hnd2). split; [|done].
      apply Forall2_app_inv in Hf as [HA HB]; [|done]. apply Forall2_cons in HB as [_ HB]. by apply Forall2_app.
    + by constructor.
    + by rewrite <- Hperm.
    + intros q Hq. destruct (Hlv q Hq) as [Hlt Hin]. split; [done|]. by rewrite <- Hperm.
  - intros n. unfold ksl_room. nia.
Qed.

(** It is changed. *)
Lemma kstore_change_out l p e e' out heap next ents :
  kstore l ((p, e) :: out) heap next ents -> kstore l ((p, e') :: out) (<[p := e']> heap) next ents.
Proof.
  intros [Hwf [Hf Hnd'] Ho Hnd Hlv]. apply Forall_cons in Ho as [Hp Ho]. cbn in Hp.
  pose proof Hnd as Hnd0. cbn in Hnd0. rewrite <- Permutation_middle in Hnd0. apply NoDup_cons in Hnd0 as [Hin _]. rewrite elem_of_app in Hin. split; try done.
  - split; [|done]. eapply ents_heap; [|exact Hf]. intros q Hq. apply lookup_insert_ne. intros ->. tauto.
  - constructor; [apply lookup_insert_eq|].
    eapply List.Forall_impl; [|apply Forall_forall; intros y Hy; exact (conj Hy (proj1 (Forall_forall _ _) Ho y Hy))].
    intros y [Hy Hh]. rewrite lookup_insert_ne; [done|]. intros ->. apply Hin. right. by apply list_elem_of_fmap_2.
  - intros q Hq. cbn in *. destruct (decide (q = p)) as [->|Hne]; [by apply Hlv|]. rewrite lookup_insert_ne in Hq by done. by apply Hlv.
Qed.

(** It is released. *)
Lemma kstore_free l p e out heap next ents :
  kstore l ((p, e) :: out) heap next ents -> kstore l out (delete p heap) next ents.
Proof.
  intros [Hwf [Hf Hnd'] Ho Hnd Hlv]. apply Forall_cons in Ho as [_ Ho]. cbn in Hnd, Hlv.
  rewrite <- Permutation_middle in Hnd. apply NoDup_cons in Hnd as [Hp Hnd]. rewrite elem_of_app in Hp. split; try done.
  - split; [|done]. eapply ents_heap; [|exact Hf]. intros q Hq. apply lookup_delete_ne. intros ->. tauto.
  - eapply List.Forall_impl; [|apply Forall_forall; intros y Hy; exact (conj Hy (proj1 (Forall_forall _ _) Ho y Hy))].
    intros y [Hy Hh]. rewrite lookup_delete_ne; [done|]. intros ->. apply Hp. right. by apply list_elem_of_fmap_2.
  - intros q Hq. destruct (decide (q = p)) as [->|Hne]; [rewrite lookup_delete_eq in Hq; by destruct Hq|].
    rewrite lookup_delete_ne in Hq by done. destruct (Hlv q Hq) as [? Hin]. split; [done|].
    rewrite !elem_of_app, elem_of_cons in *. naive_solver.
Qed.

(** A new object. *)
Lemma kstore_new l out heap next ents e :
  kstore l out heap next ents -> kstore l ((next, e) :: out) (<[next := e]> heap) (next + 1) ents.
Proof.
  intros [Hwf [Hf Hnd'] Ho Hnd Hlv].
  assert (Hfresh : next ∉ (ksl_elems ents).*2 ++ out.*1).
  { rewrite elem_of_app. intros [Hin|Hin].
    - apply list_elem_of_fmap in Hin as (x & Hx & Hin). apply list_elem_of_lookup_1 in Hin as [i Hi].
      destruct (Forall2_lookup_l _ _ _ _ _ Hf Hi) as (e0 & _ & _ & Hp).
      destruct (Hlv x.2) as [? _]; [by eexists|lia].
    - apply list_elem_of_fmap in Hin as (x & Hx & Hin). rewrite Forall_forall in Ho. specialize (Ho x Hin).
      destruct (Hlv x.1) as [? _]; [by eexists|lia]. }
  pose proof Hfresh as Hfr. rewrite elem_of_app in Hfr. split; try done.
  - split; [|done]. eapply ents_heap; [|exact Hf]. intros q Hq. apply lookup_insert_ne. intros ->. tauto.
  - constructor; [apply lookup_insert_eq|].
    eapply List.Forall_impl; [|apply Forall_forall; intros y Hy; exact (conj Hy (proj1 (Forall_forall _ _) Ho y Hy))].
    intros y [Hy Hh]. rewrite lookup_insert_ne; [done|]. intros ->. apply Hfr. right. by apply list_elem_of_fmap_2.
  - cbn. rewrite <- Permutation_middle. by constructor.
  - intros q Hq. cbn. rewrite <- Permutation_middle, elem_of_cons. destruct (decide (q = next)) as [->|Hne]; [split; [lia|by left]|].
    rewrite lookup_insert_ne in Hq by done. destruct (Hlv q Hq) as [? ?]. split; [lia|by right].
Qed.

(** It is put into the list, where it has the largest number. *)
Lemma kstore_insert n l p e out heap next ents :
  kstore l ((p, e) :: out) heap next ents -> (forall e0, e0 ∈ l -> key e0 < key e) -> ksl_room (S n) ents ->
  exists ents' it, ngtcp2_ksl_insert ngtcp2_ksl_int64_greater ents (key e) p = Ok (0, ents', it) /\
    kstore (e :: l) out heap next ents' /\ ksl_room n ents' /\ ksl_elems ents' = (key e, p) :: ksl_elems ents.
Proof.
  intros Hst Hgt Hroom. pose proof Hst as [Hwf [Hf Hnd'] Ho Hnd Hlv].
  assert (Hkey : forall x, x ∈ ksl_elems ents -> x.1 < key e).
  { intros x Hx. apply list_elem_of_lookup_1 in Hx as [i Hi]. destruct (Forall2_lookup_l _ _ _ _ _ Hf Hi) as (e0 & He0 & Hk & _).
    rewrite Hk. apply Hgt. by eapply list_elem_of_lookup_2. }
  destruct (insert_ok_run _ ents (key e) p Hwf (room_weaken n _ Hroom)) as (rv & ents' & it & Hrun & [Hwf' _ _ Hav Hh Hout]).
  destruct Hout as [(-> & (A & B & HE & Hc & HA & HB) & _)|(-> & _ & (y & Hy & Hye))].
  2:{ exfalso. specialize (Hkey y Hy). unfold key_equal in Hye.
      apply andb_true_iff in Hye as [H1%negb_true_iff%greater_false H2%negb_true_iff%greater_false]. lia. }
  destruct A as [|x A].
  2:{ exfalso. assert (Hx : x ∈ x :: A) by (rewrite elem_of_cons; auto). specialize (HA x Hx). apply greater_true in HA.
      specialize (Hkey x). rewrite HE in Hkey. cbn in Hkey. rewrite elem_of_cons in Hkey. specialize (Hkey (or_introl eq_refl)). lia. }
  cbn in HE. subst B. exists ents', it. pose proof (cursor_elems _ _ _ _ Hc) as HE'. cbn in HE'.
  split; [done|]. split; [|split; [by eapply room_step|done]]. apply Forall_cons in Ho as [Hp Ho].
  cbn in Hnd, Hlv, Hp. split; try done; rewrite ?HE'; cbn.
  - split; [by constructor|]. cbn. rewrite <- Permutation_middle in Hnd. apply NoDup_cons in Hnd as [Hp' Hnd].
    constructor; [|done]. rewrite elem_of_app in Hp'. tauto.
  - by rewrite <- Permutation_middle in Hnd.
  - intros q Hq. destruct (Hlv q Hq) as [? Hin]. split; [done|]. by rewrite <- Permutation_middle in Hin.
Qed.
End Store.
