(* ===== verification/AcktrSpec.v ===== *)
(** * Tracker of received packets: invariant and properties

    The entries of the tracker are blocks of packet numbers in descending
    order with a gap between them; every number in them was received.  The
    theorem follows a tracker through any sequence of received packets,
    created ACK frames and acknowledged ACK frames. *)

From S2P Require Import Prelude Const Frame FrameSafe PktAux Ringbuf Ksl KslInv KslIter KslSearch KslSpec KslMap Acktr KslStore.
From stdpp Require Import list gmap sorting.
#[local] Open Scope Z_scope.
#[local] Set Warnings "-clear-no-such-hyp".

Implicit Types (acktr : ngtcp2_acktr) (ent e : ngtcp2_acktr_entry) (it : ngtcp2_ksl_it) (l : list ngtcp2_acktr_entry)
  (heap : gmap Z ngtcp2_acktr_entry) (elems : list (Z * Z))
  (A B : list (Z * Z)) (R : Z -> Prop).

(** ** Blocks *)

(** The packet numbers of an entry. *)
Definition in_ent e (x : Z) : Prop := ae_pkt_num e - ae_len e < x <= ae_pkt_num e.

Definition in_blocks l (x : Z) : Prop := exists e, e ∈ l /\ in_ent e x.

(** Blocks in descending order below [hi], not adjacent. *)
Fixpoint below (hi : Z) l : Prop :=
  match l with
  | [] => True
  | e :: l => ae_pkt_num e < hi /\ 1 <= ae_len e <= ae_pkt_num e + 1 /\ below (ae_pkt_num e - ae_len e) l
  end.

Lemma in_blocks_app l1 l2 x : in_blocks (l1 ++ l2) x <-> in_blocks l1 x \/ in_blocks l2 x.
Proof. unfold in_blocks. setoid_rewrite elem_of_app. naive_solver. Qed.

Lemma in_blocks_cons e l x : in_blocks (e :: l) x <-> in_ent e x \/ in_blocks l x.
Proof. unfold in_blocks. setoid_rewrite elem_of_cons. naive_solver. Qed.

Lemma in_blocks_nil x : in_blocks [] x <-> False.
Proof. split; [|done]. by intros (e & He%elem_of_nil & _). Qed.

Lemma below_le hi hi' l : hi <= hi' -> below hi l -> below hi' l.
Proof. destruct l; cbn; [done|]. intros ? (? & ? & ?). split_and!; done || lia. Qed.

Lemma below_in hi l x : below hi l -> in_blocks l x -> 0 <= x < hi.
Proof.
  revert hi. induction l as [|e l IH]; intros hi; cbn; [by rewrite in_blocks_nil|].
  intros (? & ? & H). rewrite in_blocks_cons. intros [Hx|Hx]; [unfold in_ent in Hx; lia|].
  specialize (IH _ H Hx). lia.
Qed.

(** Where the blocks of the first part end. *)
Definition floor (hi : Z) l : Z :=
  match last l with Some e => ae_pkt_num e - ae_len e | None => hi end.

Lemma floor_cons hi e l : floor hi (e :: l) = floor (ae_pkt_num e - ae_len e) l.
Proof. unfold floor. destruct l as [|e' l]; [done|]. rewrite last_cons. by destruct (last (e' :: l)) eqn:E; [|apply last_None in E]. Qed.

Lemma floor_snoc hi l e : floor hi (l ++ [e]) = ae_pkt_num e - ae_len e.
Proof. unfold floor. by rewrite last_snoc. Qed.

Lemma below_elem hi l e : below hi l -> e ∈ l -> ae_pkt_num e < hi /\ 1 <= ae_len e <= ae_pkt_num e + 1.
Proof.
  revert hi. induction l as [|e' l IH]; intros hi; [by rewrite elem_of_nil|]. intros (? & ? & H).
  rewrite elem_of_cons. intros [->|He]; [done|]. destruct (IH _ H He). lia.
Qed.

Lemma floor_le hi l e : below hi l -> e ∈ l -> floor hi l <= ae_pkt_num e - ae_len e.
Proof.
  revert hi. induction l as [|e' l IH]; intros hi; [by rewrite elem_of_nil|]. intros (? & ? & H).
  rewrite elem_of_cons, floor_cons. intros [->|He]; [|by apply IH].
  clear -H. revert H. generalize (ae_pkt_num e' - ae_len e') as k. induction l as [|e2 l IH]; intros k H; [done|].
  rewrite floor_cons. destruct H as (? & ? & H). specialize (IH _ H). lia.
Qed.

Lemma below_app hi l1 l2 : below hi (l1 ++ l2) <-> below hi l1 /\ below (floor hi l1) l2.
Proof.
  revert hi. induction l1 as [|e l1 IH]; intros hi; [cbn; tauto|].
  cbn [app below]. rewrite IH, floor_cons. tauto.
Qed.

Lemma below_cons hi e l :
  below hi (e :: l) <-> ae_pkt_num e < hi /\ 1 <= ae_len e <= ae_pkt_num e + 1 /\ below (ae_pkt_num e - ae_len e) l.
Proof. done. Qed.

(** ** The store of entries *)
Abbreviation ents_rep := (KslStore.ents_rep ae_pkt_num).
Abbreviation ents_rep_split := (KslStore.ents_rep_split ae_pkt_num).
Abbreviation ents_rep_change := (KslStore.ents_rep_change ae_pkt_num).
Abbreviation ents_rep_delete := (KslStore.ents_rep_delete ae_pkt_num).
Abbreviation ents_rep_insert := (KslStore.ents_rep_insert ae_pkt_num).

(** ** Invariant *)

(** The entries are [l] and the keys of the list are in [R], the numbers that
    were received. *)
Record astore R l acktr : Prop := {
  as_wf : ksl_wf ngtcp2_ksl_int64_greater (acktr_ents acktr);
  as_marks : forall w, w ∈ ksl_marks (acktr_ents acktr) -> R (mkey w);
  as_ents : ents_rep (acktr_heap acktr) (ksl_elems (acktr_ents acktr)) l;
  as_fresh : forall p, is_Some (acktr_heap acktr !! p) -> p < acktr_next acktr;
}.

(** They are blocks of received numbers. *)
Record arep R l acktr : Prop := {
  ar_store : astore R l acktr;
  ar_below : below (2 ^ 62) l;
  ar_recv : forall x, in_blocks l x -> R x;
}.

(** What the operations on the entries leave alone. *)
Definition same_rest acktr acktr' : Prop :=
  acktr_acks acktr' = acktr_acks acktr /\ acktr_flags acktr' = acktr_flags acktr /\
  acktr_first_unacked_ts acktr' = acktr_first_unacked_ts acktr /\ acktr_rx_npkt acktr' = acktr_rx_npkt acktr /\
  acktr_max_pkt_num acktr' = acktr_max_pkt_num acktr /\ acktr_max_pkt_ts acktr' = acktr_max_pkt_ts acktr /\
  acktr_ecn acktr' = acktr_ecn acktr.

Lemma same_rest_trans a b c : same_rest a b -> same_rest b c -> same_rest a c.
Proof. intros (? & ? & ? & ? & ? & ? & ?) (? & ? & ? & ? & ? & ? & ?). split_and!; congruence. Qed.

Lemma astore_len R l acktr : astore R l acktr -> ngtcp2_ksl_len (acktr_ents acktr) = length l.
Proof.
  intros [[_ _ Hn] _ [Hf _] _]. unfold ngtcp2_ksl_len. rewrite Hn. by apply Forall2_length in Hf.
Qed.

Lemma ent_at_ok R l acktr it A x B :
  astore R l acktr -> cursor (acktr_ents acktr) it A (x :: B) ->
  exists lA e lB, l = lA ++ e :: lB /\ length lA = length A /\ length lB = length B /\ x.1 = ae_pkt_num e /\
    acktr_heap acktr !! x.2 = Some e /\ ent_at acktr it = Ok (x.2, e).
Proof.
  intros [_ _ He _] Hc. rewrite (cursor_elems _ _ _ _ Hc) in He.
  destruct (ents_rep_split _ _ _ _ _ He) as (lA & e & lB & -> & HlA & HlB & Hk & Hp).
  exists lA, e, lB. split_and!; try done. unfold ent_at. rewrite (cursor_it_get _ _ _ _ _ Hc). cbn [bind].
  unfold acktr_load. by rewrite Hp.
Qed.

Lemma astore_mono R R' l acktr : (forall x, R x -> R' x) -> astore R l acktr -> astore R' l acktr.
Proof. intros HR [? ? ? ?]. split; eauto. Qed.

Lemma arep_mono R R' l acktr : (forall x, R x -> R' x) -> arep R l acktr -> arep R' l acktr.
Proof. intros HR [? ? ?]. split; [by eapply astore_mono|done|auto]. Qed.

(** An entry is changed in place. *)
Lemma ents_store_ok R acktr lA e lB A x B e' :
  astore R (lA ++ e :: lB) acktr -> ksl_elems (acktr_ents acktr) = A ++ x :: B -> length lA = length A ->
  ae_pkt_num e' = x.1 ->
  exists acktr', acktr_store acktr x.2 e' = Ok acktr' /\ astore R (lA ++ e' :: lB) acktr' /\ same_rest acktr acktr' /\
    acktr_ents acktr' = acktr_ents acktr.
Proof.
  intros [Hwf Hm He Hf] HE Hl Hk. unfold acktr_store, acktr_load. rewrite HE in He.
  assert (Hp : acktr_heap acktr !! x.2 = Some e).
  { destruct He as [He _]. apply Forall2_app_inv in He as [_ He]; [|done]. by apply Forall2_cons in He as [[_ ?] _]. }
  rewrite Hp. cbn [bind]. eexists. split; [reflexivity|]. split_and!; [|by split_and!|done]. split; cbn; try done.
  - rewrite HE. pose proof (ents_rep_change _ _ _ _ _ _ _ _ e' He Hl (eq_sym Hk)) as H. by destruct x.
  - intros p Hp'. apply Hf. destruct (decide (p = x.2)) as [->|Hne]; [by exists e|].
    by rewrite lookup_insert_ne in Hp'.
Qed.

(** An entry is removed. *)
Lemma ents_remove_ok R acktr it A x B lA e lB :
  astore R (lA ++ e :: lB) acktr -> cursor (acktr_ents acktr) it A (x :: B) -> length lA = length A ->
  x.1 = ae_pkt_num e ->
  exists acktr' it', acktr_remove acktr it x.2 e = Ok (acktr', it') /\ astore R (lA ++ lB) acktr' /\
    same_rest acktr acktr' /\ cursor (acktr_ents acktr') it' A B /\
    (forall n, ksl_room n (acktr_ents acktr) -> ksl_room n (acktr_ents acktr')).
Proof.
  intros [Hwf Hm He Hf] Hc Hl Hk. unfold acktr_remove.
  destruct (remove_hint_run _ _ it A x B (ae_pkt_num e) Hwf Hc) as (g' & it' & -> & [Hwf' Hkin _ Ha Hh Hc']).
  { unfold key_equal. rewrite <- Hk, (less_irrefl (less := ngtcp2_ksl_int64_greater)). done. }
  cbn [bind]. do 2 eexists. split; [reflexivity|]. split_and!; [|by split_and!|done|].
  - split; cbn; try done.
    + intros w [Hw|(w0 & Hw & ->)]%Hkin; by apply Hm in Hw.
    + rewrite (cursor_elems _ _ _ _ Hc'). rewrite (cursor_elems _ _ _ _ Hc) in He. by eapply ents_rep_delete.
    + intros p Hp. apply Hf. destruct (decide (p = x.2)) as [->|Hne].
      * rewrite lookup_delete_eq in Hp. by destruct Hp.
      * by rewrite lookup_delete_ne in Hp.
  - intros n. cbn. unfold ksl_room. nia.
Qed.

Lemma below_remove hi lA e lB : below hi (lA ++ e :: lB) -> below hi (lA ++ lB).
Proof.
  rewrite !below_app, below_cons. intros (HA & H1 & H2 & HB). split; [done|]. eapply below_le; [|exact HB]. lia.
Qed.

Lemma in_blocks_remove lA e lB x : in_blocks (lA ++ lB) x -> in_blocks (lA ++ e :: lB) x.
Proof. rewrite !in_blocks_app, in_blocks_cons. tauto. Qed.

(** ** Adding a packet number *)

(** The place of a new number between the blocks. *)
Lemma between R l lA lB acktr A B pkt :
  arep R l acktr -> l = lA ++ lB -> ksl_elems (acktr_ents acktr) = A ++ B -> length lA = length A -> ~ R pkt ->
  (forall x, x ∈ A -> pkt < x.1) -> (forall x, x ∈ B -> x.1 <= pkt) -> 0 <= pkt < 2 ^ 62 ->
  pkt <= floor (2 ^ 62) lA /\ (lA = [] \/ exists lA' e, lA = lA' ++ [e] /\ pkt <= ae_pkt_num e - ae_len e) /\
  (forall e lB', lB = e :: lB' -> ae_pkt_num e < pkt).
Proof.
  intros [[_ _ [Hf _] _] Hb Hr] -> HE Hl Hn HA HB Hpkt. rewrite HE in Hf. apply Forall2_app_inv in Hf as [HfA HfB]; [|done].
  apply below_app in Hb as [Hb HbB].
  assert (Hlast : lA = [] \/ exists lA' e, lA = lA' ++ [e] /\ pkt <= ae_pkt_num e - ae_len e).
  { destruct lA as [|e lA' _] using rev_ind; [by left|right]. exists lA', e. split; [done|].
    apply Forall2_app_inv_r in HfA as (A1 & A2 & _ & HfA & ->). apply Forall2_cons_inv_r in HfA as (x & ? & [Hk _] & _ & ->).
    assert (Hx : pkt < x.1) by (apply HA; rewrite elem_of_app, elem_of_cons; auto).
    destruct (Z.le_gt_cases pkt (ae_pkt_num e - ae_len e)); [done|]. destruct Hn. apply Hr.
    rewrite !in_blocks_app, in_blocks_cons. left. right. left. unfold in_ent. lia. }
  split_and!; [|done|].
  - destruct Hlast as [->|(lA' & e & -> & He)]; [cbn; lia|]. by rewrite floor_snoc.
  - intros e lB' ->. apply Forall2_cons_inv_r in HfB as (x & ? & [Hk _] & _ & ->).
    assert (Hx : x.1 <= pkt) by (apply HB; rewrite elem_of_cons; auto).
    assert (Hne : ae_pkt_num e <> pkt); [|lia].
    intros <-. apply Hn, Hr. rewrite in_blocks_app, in_blocks_cons. right. left. unfold in_ent.
    destruct HbB as (_ & ? & _). lia.
Qed.

(** [pkt] was added without a new entry. *)
Record extended R l acktr (pkt : Z) l' acktr' : Prop := {
  ex_arep : arep (fun x => R x \/ x = pkt) l' acktr';
  ex_rest : same_rest acktr acktr';
  ex_blocks : forall x, in_blocks l' x <-> in_blocks l x \/ x = pkt;
  ex_room : forall n, ksl_room n (acktr_ents acktr) -> ksl_room n (acktr_ents acktr');
  ex_len : (length l' <= length l)%nat;
}.

Section Add.
Context (R : Z -> Prop) (pkt ts : Z).
Context (new : ~ R pkt) (pkt_range : 0 <= pkt < 2 ^ 62).
Abbreviation R' := (fun x => R x \/ x = pkt).

Lemma grow_down_ok l acktr it A x B lA e lB :
  arep R l acktr -> cursor (acktr_ents acktr) it A (x :: B) -> l = lA ++ e :: lB -> length lA = length A ->
  x.1 = ae_pkt_num e -> ae_pkt_num e = pkt + ae_len e ->
  (forall e' l', lB = e' :: l' -> ae_pkt_num e' + 1 < pkt) ->
  exists acktr' l', grow_down acktr x.2 e = Ok (acktr', true) /\ extended R l acktr pkt l' acktr'.
Proof.
  intros Hrep Hc Hl HlA Hk Hpkt HlB. subst l. unfold grow_down.
  set (e' := mk_aent (ae_pkt_num e) (ae_len e + 1) (ae_tstamp e)).
  pose proof Hrep as [Hst Hb Hr]. apply below_app in Hb as [Hb1 (Hb2 & Hb3 & Hb4)].
  apply (astore_mono R R') in Hst; [|auto].
  destruct (ents_store_ok R' acktr lA e lB A x B e' Hst)
    as (acktr' & -> & Hst' & Hrest & Hents); [by apply cursor_elems in Hc|done|done|].
  cbn [bind]. exists acktr', (lA ++ e' :: lB). split; [done|]. split; [split; [done| |]|done| | |].
  - apply below_app. split; [done|]. apply below_cons. cbn. split_and!; [done|lia..|].
    destruct lB as [|e2 l2]; [done|]. specialize (HlB _ _ eq_refl). destruct Hb4 as (? & ? & ?). split_and!; done || lia.
  - intros y. rewrite in_blocks_app, in_blocks_cons. unfold in_ent. cbn. intros Hy.
    destruct (Z.eq_dec y pkt) as [->|Hne]; [by right|left]. apply Hr. rewrite in_blocks_app, in_blocks_cons. unfold in_ent.
    destruct Hy as [?|[?|?]]; [auto|right; left; lia|auto].
  - intros y. rewrite !in_blocks_app, !in_blocks_cons. unfold in_ent. cbn.
    assert (ae_pkt_num e - (ae_len e + 1) < y <= ae_pkt_num e <-> ae_pkt_num e - ae_len e < y <= ae_pkt_num e \/ y = pkt) by lia.
    tauto.
  - by rewrite Hents.
  - by rewrite !length_app.
Qed.

Lemma grow_up_ok l acktr it A x B lA e lB :
  arep R l acktr -> cursor (acktr_ents acktr) it A (x :: B) -> l = lA ++ e :: lB -> length lA = length A ->
  acktr_heap acktr !! x.2 = Some e -> x.1 = ae_pkt_num e -> ae_pkt_num e + 1 = pkt -> pkt < floor (2 ^ 62) lA ->
  exists acktr' l', grow_up acktr x.2 e pkt ts = Ok (acktr', true) /\ extended R l acktr pkt l' acktr'.
Proof.
  intros Hrep Hc Hl HlA Hp Hk Hpkt Hfl. subst l. unfold grow_up.
  pose proof Hrep as [[Hwf Hm He Hf] Hb Hr]. apply below_app in Hb as [Hb1 (Hb2 & Hb3 & Hb4)].
  destruct (update_key_run ngtcp2_ksl_int64_greater (acktr_ents acktr) (ae_pkt_num e) pkt Hwf)
    as (g & -> & [Hwf' Hu _ Hav Hh (it0 & A0 & x0 & B0 & Hx0 & Hc0 & Hc')]).
  { intros w Hw. rewrite !greater_true. specialize (Hm w Hw). split; [|lia]. intros Hlt.
    destruct (Z.eq_dec (mkey w) pkt) as [Heq|]; [by rewrite Heq in Hm|lia]. }
  { exists x. split; [rewrite (cursor_elems _ _ _ _ Hc), elem_of_app, elem_of_cons; auto|].
    unfold key_equal. by rewrite <- Hk, (less_irrefl (less := ngtcp2_ksl_int64_greater)). }
  assert (Heq : A0 = A /\ x0 = x /\ B0 = B).
  { eapply (same_place _ (acktr_ents acktr) (ae_pkt_num e)); [done|by apply cursor_elems in Hc0|by apply cursor_elems in Hc|done|].
    unfold key_equal. by rewrite <- Hk, (less_irrefl (less := ngtcp2_ksl_int64_greater)). }
  destruct Heq as (-> & -> & ->). cbn [bind].
  set (e' := mk_aent pkt (ae_len e + 1) ts). unfold acktr_store, acktr_load. cbn [acktr_heap set_ents]. rewrite Hp. cbn [bind].
  eexists. exists (lA ++ e' :: lB). split; [reflexivity|]. split; [split; [split| |]|by split_and!| | |]; cbn; try done.
  - intros w Hw. destruct (Hu w Hw) as [[Hin _]|[(Hin & _)|Heq]]; [left; by apply Hm..|by right].
  - rewrite (cursor_elems _ _ _ _ Hc'). rewrite (cursor_elems _ _ _ _ Hc) in He.
    by apply (ents_rep_change _ _ _ _ _ _ _ _ _ He).
  - intros p Hp'. apply Hf. destruct (decide (p = x.2)) as [->|Hne]; [by exists e|].
    by rewrite lookup_insert_ne in Hp'.
  - apply below_app. split; [done|]. apply below_cons. cbn. split_and!; [done|lia..|].
    replace (pkt - (ae_len e + 1)) with (ae_pkt_num e - ae_len e) by lia. done.
  - intros y. rewrite in_blocks_app, in_blocks_cons. unfold in_ent. cbn. intros Hy.
    destruct (Z.eq_dec y pkt) as [->|Hne]; [by right|left]. apply Hr. rewrite in_blocks_app, in_blocks_cons. unfold in_ent.
    destruct Hy as [?|[?|?]]; [auto|right; left; lia|auto].
  - intros y. rewrite !in_blocks_app, !in_blocks_cons. unfold in_ent. cbn.
    assert (pkt - (ae_len e + 1) < y <= pkt <-> ae_pkt_num e - ae_len e < y <= ae_pkt_num e \/ y = pkt) by lia. tauto.
  - intros n. unfold ksl_room. by rewrite Hav, Hh.
  - rewrite !length_app. done.
Qed.
(** The gap between two entries is filled. *)
Lemma fill_gap_ok l acktr it prev_it A xp x B lA ep e lB :
  arep R l acktr -> cursor (acktr_ents acktr) it (A ++ [xp]) (x :: B) -> cursor (acktr_ents acktr) prev_it A (xp :: x :: B) ->
  l = lA ++ ep :: e :: lB -> length lA = length A -> xp.1 = ae_pkt_num ep -> x.1 = ae_pkt_num e ->
  ae_pkt_num ep = pkt + ae_len ep -> ae_pkt_num e + 1 = pkt ->
  exists acktr' l',
    (let* acktr := acktr_store acktr xp.2 (mk_aent (ae_pkt_num ep) (ae_len ep + (ae_len e + 1)) (ae_tstamp ep)) in
     let* (acktr, _) := acktr_remove acktr it x.2 e in Ok (acktr, true)) = Ok (acktr', true) /\
    extended R l acktr pkt l' acktr'.
Proof.
  intros Hrep Hc Hcp Hl HlA Hkp Hk Hp He. subst l. pose proof Hrep as [Hst Hb Hr].
  set (e' := mk_aent (ae_pkt_num ep) (ae_len ep + (ae_len e + 1)) (ae_tstamp ep)).
  apply (astore_mono R R') in Hst; [|auto].
  destruct (ents_store_ok R' acktr lA ep (e :: lB) A xp (x :: B) e' Hst)
    as (acktr1 & -> & Hst1 & Hrest1 & Hents1); [by apply cursor_elems in Hcp|done|done|]. cbn [bind].
  rewrite <- Hents1 in Hc. replace (lA ++ e' :: e :: lB) with ((lA ++ [e']) ++ e :: lB) in Hst1 by by rewrite <- app_assoc.
  destruct (ents_remove_ok R' acktr1 it (A ++ [xp]) x B (lA ++ [e']) e lB Hst1 Hc)
    as (acktr' & it' & -> & Hst' & Hrest' & Hc' & Hroom); [rewrite !length_app; by rewrite HlA|done|]. cbn [bind].
  exists acktr', ((lA ++ [e']) ++ lB). apply below_app in Hb as [Hb1 (Hb2 & Hb3 & Hb4 & Hb5 & Hb6)].
  assert (Hin : forall y, in_blocks ((lA ++ [e']) ++ lB) y <-> in_blocks (lA ++ ep :: e :: lB) y \/ y = pkt).
  { intros y. rewrite !in_blocks_app, !in_blocks_cons, in_blocks_nil. unfold in_ent. cbn.
    assert (ae_pkt_num ep - (ae_len ep + (ae_len e + 1)) < y <= ae_pkt_num ep <->
      ae_pkt_num ep - ae_len ep < y <= ae_pkt_num ep \/ ae_pkt_num e - ae_len e < y <= ae_pkt_num e \/ y = pkt) by lia.
    tauto. }
  split; [done|]. split; [split; [done| |]| |done| |].
  - rewrite <- app_assoc. cbn [app]. apply below_app. split; [done|]. apply below_cons. cbn. split_and!; [done|lia..|].
    eapply below_le; [|exact Hb6]. lia.
  - intros y [Hy| ->]%Hin; [left; by apply Hr|by right].
  - by eapply same_rest_trans.
  - intros n. rewrite <- Hents1. apply Hroom.
  - rewrite !length_app. cbn. lia.
Qed.

(** A number that extends no entry. *)
Definition isolated l : Prop := forall e, e ∈ l -> pkt < ae_pkt_num e - ae_len e \/ ae_pkt_num e + 1 < pkt.

Lemma isolated_split lA lB :
  below (2 ^ 62) (lA ++ lB) -> pkt < floor (2 ^ 62) lA -> (forall e lB', lB = e :: lB' -> ae_pkt_num e + 1 < pkt) ->
  isolated (lA ++ lB).
Proof.
  intros [HA HB]%below_app Hf Hn e [He|He]%elem_of_app.
  - left. pose proof (floor_le _ _ _ HA He). lia.
  - right. destruct lB as [|e1 lB]; [by apply elem_of_nil in He|]. specialize (Hn _ _ eq_refl).
    apply elem_of_cons in He as [->|He]; [done|]. destruct HB as (_ & ? & HB).
    pose proof (below_elem _ _ _ HB He). lia.
Qed.

Definition extend_ok l acktr (r : res (ngtcp2_acktr * bool)) : Prop :=
  (exists acktr' l', r = Ok (acktr', true) /\ extended R l acktr pkt l' acktr') \/
  (r = Ok (acktr, false) /\ isolated l).

Lemma acktr_extend_ok l acktr : arep R l acktr -> extend_ok l acktr (acktr_extend acktr pkt ts).
Proof.
  intros Hrep. pose proof Hrep as [Hst Hb Hr]. pose proof (as_wf _ _ _ Hst) as Hwf. unfold acktr_extend.
  destruct (Nat.eqb_spec (ngtcp2_ksl_len (acktr_ents acktr)) 0) as [E|E].
  { right. split; [done|]. rewrite (astore_len _ _ _ Hst) in E. apply length_zero_iff_nil in E as ->.
    intros e He. exfalso. by apply elem_of_nil in He. }
  destruct (lower_bound_run _ ngtcp2_ksl_int64_greater (acktr_ents acktr) pkt Hwf) as (it & A & B & -> & Hc & HA & HB);
    [apply monotone_self; apply _|]. cbn [bind]. rewrite (cursor_it_end _ _ _ _ Hc).
  pose proof (cursor_elems _ _ _ _ Hc) as HE.
  assert (HA' : forall x, x ∈ A -> pkt < x.1) by (intros x Hx; by apply greater_true, HA).
  assert (HB' : forall x, x ∈ B -> x.1 <= pkt) by (intros x Hx; by apply greater_false, HB).
  destruct B as [|x B]; cbn [bool_decide].
  - (* behind the last entry *)
    rewrite app_nil_r in HE.
    assert (HA0 : A <> []) by (intros ->; unfold ngtcp2_ksl_len in E; rewrite (wf_n _ _ Hwf), HE in E; done).
    destruct A as [|xp A _] using rev_ind; [done|].
    destruct (cursor_prev _ _ _ _ _ _ Hwf Hc) as (pit & -> & Hcp). cbn [bind].
    destruct (ent_at_ok _ _ _ _ _ _ _ Hst Hcp) as (lA & e & lB & Hl & HlA & HlB & Hk & Hp & ->). cbn [bind].
    apply length_zero_iff_nil in HlB as ->.
    destruct (between R l (lA ++ [e]) [] acktr (A ++ [xp]) [] pkt Hrep) as (Hfl & Hlast & _); try done.
    { by rewrite Hl, app_nil_r. } { by rewrite app_nil_r. } { rewrite !length_app. by rewrite HlA. }
    rewrite floor_snoc in Hfl. rewrite (proj2 (Z.leb_le _ _)) by lia.
    destruct (Z.eqb_spec (ae_pkt_num e) (pkt + ae_len e)) as [Heq|Hne].
    + left. by eapply grow_down_ok.
    + right. split; [done|]. subst l. replace (lA ++ [e]) with ((lA ++ [e]) ++ []) by apply app_nil_r.
      apply isolated_split; [by rewrite app_nil_r|rewrite floor_snoc; lia|done].
  - destruct (ent_at_ok _ _ _ _ _ _ _ Hst Hc) as (lA & e & lB & Hl & HlA & HlB & Hk & Hp & ->). cbn [bind].
    destruct (between R l lA (e :: lB) acktr A (x :: B) pkt Hrep) as (Hfl & Hlast & Hnext); try done.
    specialize (Hnext _ _ eq_refl). rewrite (proj2 (Z.eqb_neq _ _)) by lia. cbn [negb].
    rewrite (cursor_it_begin _ _ _ _ _ Hwf Hc).
    assert (Hup : ae_pkt_num e + 1 = pkt -> pkt < floor (2 ^ 62) lA ->
      extend_ok l acktr (grow_up acktr x.2 e pkt ts)) by (intros; left; by eapply grow_up_ok).
    assert (Hiso : ae_pkt_num e + 1 <> pkt -> pkt < floor (2 ^ 62) lA -> extend_ok l acktr (Ok (acktr, false))).
    { intros. right. split; [done|]. subst l. apply isolated_split; [done|done|]. intros ? ? [= <- <-]. lia. }
    destruct (bool_decide_reflect (A = [])) as [HA0|HA0].
    + subst A. apply length_zero_iff_nil in HlA as ->. cbn in Hup, Hiso.
      destruct (Z.eqb_spec (ae_pkt_num e + 1) pkt); [apply Hup|apply Hiso]; done || lia.
    + destruct A as [|xp A _] using rev_ind; [done|].
      destruct (cursor_prev _ _ _ _ _ _ Hwf Hc) as (pit & -> & Hcp). cbn [bind].
      destruct (ent_at_ok _ _ _ _ _ _ _ Hst Hcp) as (lA' & ep & lB' & Hl' & HlA' & HlB' & Hkp & Hpp & ->). cbn [bind].
      rewrite length_app in HlA. cbn in HlA.
      assert (Hsplit : lA = lA' ++ [ep] /\ lB' = e :: lB).
      { subst l. replace (lA' ++ ep :: lB') with ((lA' ++ [ep]) ++ lB') in Hl' by by rewrite <- app_assoc.
        apply app_inj_1 in Hl' as [-> ->]; [done|]. rewrite length_app. cbn. lia. }
      destruct Hsplit as [-> ->]. rewrite floor_snoc in *. rewrite (proj2 (Z.leb_le _ _)) by lia.
      destruct (Z.eqb_spec (ae_pkt_num e + 1) pkt) as [He|He];
        destruct (Z.eqb_spec (ae_pkt_num ep) (pkt + ae_len ep)) as [Hep|Hep].
      * left. by eapply fill_gap_ok.
      * apply Hup; lia.
      * left. eapply grow_down_ok; try done. intros ? ? [= <- <-]. lia.
      * apply Hiso; lia.
Qed.

Lemma acktr_new_entry_ok n l acktr :
  arep R l acktr -> isolated l -> ksl_room (S n) (acktr_ents acktr) ->
  exists acktr' l', acktr_new_entry true acktr pkt ts = Ok (0, acktr') /\ arep R' l' acktr' /\ same_rest acktr acktr' /\
    (forall x, in_blocks l' x <-> in_blocks l x \/ x = pkt) /\ ksl_room n (acktr_ents acktr') /\
    length l' = S (length l).
Proof.
  intros Hrep Hiso Hroom. pose proof Hrep as [Hst Hb Hr]. pose proof Hst as [Hwf Hm He Hf].
  unfold acktr_new_entry. cbn [ngtcp2_acktr_entry_objalloc_new acktr_ents].
  destruct (insert_ok_run _ (acktr_ents acktr) pkt (acktr_next acktr) Hwf (room_weaken n _ Hroom))
    as (rv & g & it & -> & [Hwf' Hk _ Hav Hh Hout]). cbn [bind].
  destruct Hout as [(-> & (A & B & HE & Hc & HA & HB) & _)|(-> & _ & (y & Hy & Hye))].
  2:{ exfalso. pose proof He as [Hf2 _]. apply list_elem_of_split in Hy as (A & B & HE). rewrite HE in Hf2.
      apply Forall2_app_inv_l in Hf2 as (lA & lB' & _ & HfB & ->).
      apply Forall2_cons_inv_l in HfB as (e & lB & [Hke _] & _ & ->).
      unfold key_equal in Hye. apply andb_true_iff in Hye as [H1%negb_true_iff%greater_false H2%negb_true_iff%greater_false].
      destruct (below_elem _ _ e Hb) as [_ ?]; [rewrite elem_of_app, elem_of_cons; auto|].
      destruct (Hiso e); [rewrite elem_of_app, elem_of_cons; auto|lia..]. }
  cbn [Z.eqb negb]. pose proof He as [Hf2 _]. rewrite HE in Hf2.
  apply Forall2_app_inv_l in Hf2 as (lA & lB & HfA & HfB & Hl). pose proof (Forall2_length _ _ _ HfA) as HlA.
  destruct (between R l lA lB acktr A B pkt Hrep Hl HE (eq_sym HlA) new) as (Hfl & Hlast & Hnext).
  { intros x Hx. by apply greater_true, HA. }
  { intros x Hx. specialize (HB x Hx). apply greater_true in HB. lia. }
  { done. }
  set (e := mk_aent pkt 1 ts). do 2 eexists. split; [reflexivity|]. rewrite Hl.
  assert (Hin : forall x, in_blocks (lA ++ e :: lB) x <-> in_blocks (lA ++ lB) x \/ x = pkt).
  { intros x. rewrite !in_blocks_app, in_blocks_cons. unfold in_ent. cbn.
    assert (pkt - 1 < x <= pkt <-> x = pkt) by lia. tauto. }
  split_and!; [|by split_and!|exact Hin| |rewrite !length_app; cbn; lia].
  - split; [split| |]; cbn.
    + done.
    + intros w [Hw|[(w0 & Hw & ->)|Hw]]%Hk; [left; by apply Hm in Hw..|by right].
    + rewrite (cursor_elems _ _ _ _ Hc). rewrite HE, Hl in He.
      apply (ents_rep_insert _ _ _ _ _ (acktr_next acktr) e He (eq_sym HlA)).
      intros Hin'. apply list_elem_of_fmap in Hin' as (y & Hy & Hyin). destruct He as [Hf2 _].
      apply list_elem_of_lookup_1 in Hyin as [i Hi]. destruct (Forall2_lookup_l _ _ _ _ _ Hf2 Hi) as (e0 & _ & _ & Hp).
      assert (y.2 < acktr_next acktr) by (apply Hf; by exists e0). lia.
    + intros p Hp. destruct (decide (p = acktr_next acktr)) as [->|Hne]; [lia|].
      rewrite lookup_insert_ne in Hp by done. specialize (Hf p Hp). lia.
    + subst l. apply below_app in Hb as [Hb1 Hb2]. apply below_app. split; [done|]. apply below_cons. cbn.
      split_and!; [|lia..|].
      * destruct Hlast as [->|(lA' & e1 & -> & He1)]; [cbn; lia|]. rewrite floor_snoc.
        destruct (below_elem _ _ e1 Hb1) as [_ ?]; [rewrite elem_of_app, elem_of_cons; auto|].
        destruct (Hiso e1); [rewrite !elem_of_app, elem_of_cons; auto|lia..].
      * destruct lB as [|e2 lB]; [done|]. specialize (Hnext _ _ eq_refl). destruct Hb2 as (? & ? & ?).
        destruct (Hiso e2); [rewrite elem_of_app, elem_of_cons; auto|lia|]. split_and!; done || lia.
    + intros x [Hx| ->]%Hin; [left; apply Hr; by rewrite Hl|by right].
  - cbn. by apply (room_step n (acktr_ents acktr) g).
Qed.
End Add.

(** ** Removal of the entries at the end *)
Lemma arep_remove R l acktr it A x B lA e lB :
  arep R l acktr -> cursor (acktr_ents acktr) it A (x :: B) -> l = lA ++ e :: lB -> length lA = length A ->
  x.1 = ae_pkt_num e ->
  exists acktr' it', acktr_remove acktr it x.2 e = Ok (acktr', it') /\ arep R (lA ++ lB) acktr' /\
    same_rest acktr acktr' /\ cursor (acktr_ents acktr') it' A B /\
    (forall n, ksl_room n (acktr_ents acktr) -> ksl_room n (acktr_ents acktr')).
Proof.
  intros [Hst Hb Hr] Hc -> Hl Hk. destruct (ents_remove_ok R acktr it A x B lA e lB Hst Hc Hl Hk) as (a' & it' & -> & Hst' & H).
  exists a', it'. split; [done|]. split; [|done]. split; [done|by eapply below_remove|].
  intros y Hy. by apply Hr, in_blocks_remove.
Qed.

Lemma same_rest_refl acktr : same_rest acktr acktr.
Proof. by split_and!. Qed.

Lemma acktr_trim_ok R l acktr :
  arep R l acktr ->
  exists acktr' l', acktr_trim acktr = Ok acktr' /\ arep R l' acktr' /\ same_rest acktr acktr' /\
    (forall n, ksl_room n (acktr_ents acktr) -> ksl_room n (acktr_ents acktr')) /\
    (if NGTCP2_ACKTR_MAX_ENT <? zlen l then exists e, l = l' ++ [e] else l' = l).
Proof.
  intros Hrep. pose proof Hrep as [Hst Hb Hr]. pose proof (as_wf _ _ _ Hst) as Hwf. unfold acktr_trim.
  rewrite (astore_len _ _ _ Hst). fold (zlen l). destruct (Z.ltb_spec NGTCP2_ACKTR_MAX_ENT (zlen l)) as [H|H].
  2:{ exists acktr, l. split_and!; done. }
  pose proof (cursor_end _ _ Hwf) as Hc. pose proof (Forall2_length _ _ _ (proj1 (as_ents _ _ _ Hst))) as Hlen.
  destruct (ksl_elems (acktr_ents acktr)) as [|x A _] using rev_ind; [destruct l; [done|done]|].
  destruct (cursor_prev _ _ _ _ _ _ Hwf Hc) as (it & -> & Hcp). cbn [bind].
  destruct (ent_at_ok _ _ _ _ _ _ _ Hst Hcp) as (lA & e & lB & Hl & HlA & HlB & Hk & _ & ->). cbn [bind].
  apply length_zero_iff_nil in HlB as ->.
  destruct (arep_remove R l acktr it A x [] lA e [] Hrep Hcp Hl HlA Hk) as (a' & it' & -> & Hrep' & Hrest & _ & Hroom).
  cbn [bind]. rewrite app_nil_r in Hrep'. exists a', lA. split_and!; try done. by exists e.
Qed.

Lemma remove_from_ok R fuel l acktr it A B lA lB :
  arep R l acktr -> cursor (acktr_ents acktr) it A B -> l = lA ++ lB -> length lA = length A -> (length B < fuel)%nat ->
  exists acktr' it', acktr_remove_from fuel acktr it = Ok (acktr', it') /\ arep R lA acktr' /\ same_rest acktr acktr' /\
    cursor (acktr_ents acktr') it' A [] /\
    (forall n, ksl_room n (acktr_ents acktr) -> ksl_room n (acktr_ents acktr')).
Proof.
  revert l acktr it B lB. induction fuel as [|fuel IH]; intros l acktr it B lB Hrep Hc Hl HlA Hf; [lia|].
  cbn [acktr_remove_from]. rewrite (cursor_it_end _ _ _ _ Hc). pose proof Hrep as [Hst _ _].
  destruct B as [|x B]; cbn [bool_decide].
  - pose proof (Forall2_length _ _ _ (proj1 (as_ents _ _ _ Hst))) as Hlen.
    rewrite (cursor_elems _ _ _ _ Hc), Hl, !length_app in Hlen. cbn in Hlen.
    assert (lB = []) as -> by (apply length_zero_iff_nil; lia). rewrite app_nil_r in Hl. subst l.
    exists acktr, it. split_and!; done.
  - destruct (ent_at_ok _ _ _ _ _ _ _ Hst Hc) as (lA' & e & lB' & Hl' & HlA' & HlB' & Hk & _ & ->). cbn [bind].
    assert (lA' = lA /\ lB = e :: lB') as [-> ->].
    { rewrite Hl in Hl'. apply app_inj_1 in Hl' as [-> ->]; [done|lia]. }
    destruct (arep_remove R l acktr it A x B lA e lB' Hrep Hc Hl HlA Hk) as (a1 & it1 & -> & Hrep1 & Hrest1 & Hc1 & Hroom1).
    cbn [bind]. destruct (IH _ a1 it1 B lB' Hrep1 Hc1 eq_refl HlA) as (a' & it' & Hrun & Hrep' & Hrest' & Hc' & Hroom');
      [cbn in Hf; lia|].
    exists a', it'. split_and!; [done|done|by eapply same_rest_trans|done|auto].
Qed.

(** ** Acknowledged ACK frames *)

(** The ACK frames that were sent, the last one first. *)
Definition acks_ok acktr : Prop := ringbuf_wf (acktr_acks acktr) /\ rb_mask (acktr_acks acktr) = 31.

Lemma ack_ent_get_ok (rb : ngtcp2_ringbuf ngtcp2_acktr_ack_entry) j :
  ringbuf_wf rb -> 0 <= j < rb_len rb ->
  exists a, ack_ent_get rb j = Ok a /\ contents rb !! Z.to_nat j = Some a.
Proof.
  intros Hwf Hj. pose proof (zlen_contents rb Hwf) as Hlen.
  destruct (lookup_lt_is_Some_2 (contents rb) (Z.to_nat j)) as [a Ha]; [unfold zlen in Hlen; lia|].
  exists a. split; [|done]. destruct (sim_get rb j a Hwf ltac:(lia) Ha) as (rb' & Hrun & _).
  cbn [ringbuf_exec] in Hrun. unfold ack_ent_get. destruct (ngtcp2_ringbuf_get rb j) as [off| |]; try done.
  cbn [bind] in *. destruct (ringbuf_load rb off); try done. cbn [bind] in Hrun. by injection Hrun as _ ->.
Qed.

(** The last entry is cut at [largest], so that nothing up to it is left. *)
Definition cut_last_entry acktr it (largest : Z) : res ngtcp2_acktr :=
  if negb (ngtcp2_ksl_len (acktr_ents acktr) =? 0)%nat then
    assert! ngtcp2_ksl_it_end (acktr_ents acktr) it;
    let* it := ngtcp2_ksl_it_prev (acktr_ents acktr) it in
    let* (p, ent) := ent_at acktr it in
    assert! largest <? ae_pkt_num ent;
    if ae_pkt_num ent <? largest + ae_len ent then
      acktr_store acktr p (mk_aent (ae_pkt_num ent) (ae_pkt_num ent - largest) (ae_tstamp ent))
    else Ok acktr
  else Ok acktr.

Lemma cut_last_ok R l acktr it A largest :
  arep R l acktr -> cursor (acktr_ents acktr) it A [] -> (forall e, e ∈ l -> largest < ae_pkt_num e) ->
  exists acktr' l', cut_last_entry acktr it largest = Ok acktr' /\ arep R l' acktr' /\ same_rest acktr acktr' /\
    (forall x, in_blocks l' x <-> in_blocks l x /\ largest < x) /\ length l' = length l /\
    acktr_ents acktr' = acktr_ents acktr.
Proof.
  intros Hrep Hc Hlt. pose proof Hrep as [Hst Hb Hr]. pose proof (as_wf _ _ _ Hst) as Hwf. unfold cut_last_entry.
  rewrite (astore_len _ _ _ Hst), (cursor_it_end _ _ _ _ Hc). pose proof (cursor_elems _ _ _ _ Hc) as HE.
  rewrite app_nil_r in HE. pose proof (Forall2_length _ _ _ (proj1 (as_ents _ _ _ Hst))) as Hlen. rewrite HE in Hlen.
  destruct (Nat.eqb_spec (length l) 0) as [E|E]; cbn [negb].
  { apply length_zero_iff_nil in E as ->. exists acktr, []. split_and!; try done. intros x. rewrite in_blocks_nil. tauto. }
  destruct A as [|xp A _] using rev_ind; [cbn in Hlen; lia|].
  destruct (cursor_prev _ _ _ _ _ _ Hwf Hc) as (pit & -> & Hcp). cbn [bind bool_decide].
  destruct (ent_at_ok _ _ _ _ _ _ _ Hst Hcp) as (lA & e & lB & Hl & HlA & HlB & Hk & _ & ->). cbn [bind].
  apply length_zero_iff_nil in HlB as ->. subst l.
  assert (Hel : largest < ae_pkt_num e) by (apply Hlt; rewrite elem_of_app, elem_of_cons; auto).
  rewrite (proj2 (Z.ltb_lt _ _)) by done. pose proof Hb as [HbA (Hb1 & Hb2 & _)]%below_app.
  assert (HA : forall x, in_blocks lA x -> ae_pkt_num e < x).
  { intros x (e1 & He1 & Hx). pose proof (floor_le _ _ _ HbA He1). unfold in_ent in Hx. lia. }
  destruct (Z.ltb_spec (ae_pkt_num e) (largest + ae_len e)) as [Hcut|Hcut].
  - set (e' := mk_aent (ae_pkt_num e) (ae_pkt_num e - largest) (ae_tstamp e)).
    destruct (ents_store_ok R acktr lA e [] A xp [] e' Hst) as (a' & -> & Hst' & Hrest & Hents); [by rewrite HE|done|done|].
    assert (Hin : forall x, in_blocks (lA ++ [e']) x <-> in_blocks (lA ++ [e]) x /\ largest < x).
    { intros x. rewrite !in_blocks_app, !in_blocks_cons, !in_blocks_nil. unfold in_ent. cbn. specialize (HA x). split.
      - intros [Hx|[Hx|[]]]; [specialize (HA Hx); split; [auto|lia]|split; [right; left; lia|lia]].
      - intros [[Hx|[Hx|[]]] ?]; [auto|right; left; lia]. }
    exists a', (lA ++ [e']). split_and!; [done| |done|exact Hin|by rewrite !length_app|done].
    split; [done| |].
    + apply below_app. split; [done|]. cbn. split_and!; [done|lia..|done].
    + intros x [Hx _]%Hin. by apply Hr.
  - exists acktr, (lA ++ [e]). split_and!; try done. intros x. rewrite !in_blocks_app, !in_blocks_cons, !in_blocks_nil.
    unfold in_ent. specialize (HA x). split; [|tauto]. intros [Hx|[Hx|[]]]; [specialize (HA Hx); split; [auto|lia]|].
    split; [auto|lia].
Qed.

(** Everything up to the largest number of the acknowledged frame is
    forgotten, and so are the frame and those sent before it. *)
Lemma on_ack_ok R l acktr j a :
  arep R l acktr -> acks_ok acktr -> 0 <= j < rb_len (acktr_acks acktr) ->
  contents (acktr_acks acktr) !! Z.to_nat j = Some a ->
  exists acktr' l', acktr_on_ack acktr j = Ok acktr' /\ arep R l' acktr' /\ acks_ok acktr' /\
    (forall x, in_blocks l' x <-> in_blocks l x /\ aa_largest_ack a < x) /\ (length l' <= length l)%nat /\
    contents (acktr_acks acktr') = ztake j (contents (acktr_acks acktr)) /\
    acktr_max_pkt_num acktr' = acktr_max_pkt_num acktr /\
    (forall n, ksl_room n (acktr_ents acktr) -> ksl_room n (acktr_ents acktr')).
Proof.
  intros Hrep [Hrb Hmask] Hj Ha. pose proof Hrep as [Hst Hb Hr]. unfold acktr_on_ack.
  rewrite (proj2 (Z.eqb_neq (rb_len _) 0)) by lia. cbn [negb].
  destruct (ack_ent_get_ok _ j Hrb Hj) as (a0 & -> & Ha0). rewrite Ha in Ha0. injection Ha0 as <-. cbn [bind].
  destruct (lower_bound_run _ ngtcp2_ksl_int64_greater (acktr_ents acktr) (aa_largest_ack a) (as_wf _ _ _ Hst))
    as (it & A & B & -> & Hc & HA & HB); [apply monotone_self; apply _|]. cbn [bind].
  pose proof (proj1 (as_ents _ _ _ Hst)) as Hf. rewrite (cursor_elems _ _ _ _ Hc) in Hf.
  apply Forall2_app_inv_l in Hf as (lA & lB & HfA & HfB & Hl). pose proof (Forall2_length _ _ _ HfA) as HlA.
  pose proof (Forall2_length _ _ _ HfB) as HlB.
  destruct (remove_from_ok R (S (ngtcp2_ksl_len (acktr_ents acktr))) l acktr it A B lA lB Hrep Hc Hl (eq_sym HlA))
    as (a1 & it1 & -> & Hrep1 & Hrest1 & Hc1 & Hroom1).
  { rewrite (astore_len _ _ _ Hst), Hl, length_app. lia. }
  cbn [bind]. fold (cut_last_entry a1 it1 (aa_largest_ack a)).
  destruct (cut_last_ok R lA a1 it1 A (aa_largest_ack a) Hrep1 Hc1) as (a2 & l' & -> & Hrep2 & Hrest2 & Hin & Hlen' & Hents).
  { intros e He. apply list_elem_of_lookup_1 in He as [i Hi]. destruct (Forall2_lookup_r _ _ _ _ _ HfA Hi) as (x & Hx & Hk & _).
    rewrite <- Hk. apply greater_true, HA. by eapply list_elem_of_lookup_2. }
  cbn [bind]. unfold ngtcp2_ringbuf_resize. rewrite Hmask.
  assert (Hrl : rb_len (acktr_acks acktr) <= 32).
  { destruct Hrb as (k & Hk & Hm & _ & _ & Hle). rewrite Hmask in Hm. lia. }
  rewrite (proj2 (Z.leb_le _ _)) by lia. cbn [bind].
  destruct (contents_shrink (acktr_acks acktr) j Hrb) as [Hrb' Hcont]; [lia|]. rewrite Hmask in Hrb', Hcont.
  eexists _, l'. split; [reflexivity|].
  pose proof (same_rest_trans _ _ _ Hrest1 Hrest2) as (_ & _ & _ & _ & Hmax & _).
  split_and!; [|by split|intros x; rewrite Hin, Hl, in_blocks_app| |done|done|].
  - destruct Hrep2 as [[? ? ? ?] ? ?]. by split.
  - split; [tauto|]. intros [[?|(e & He & Hx)] ?]; [done|]. exfalso.
    apply list_elem_of_lookup_1 in He as [i Hi]. destruct (Forall2_lookup_r _ _ _ _ _ HfB Hi) as (x0 & Hx0 & Hk & _).
    apply list_elem_of_lookup_2, HB, greater_false in Hx0. unfold in_ent in Hx. lia.
  - rewrite Hlen', Hl, length_app. lia.
  - intros n Hn. cbn. rewrite Hents. auto.
Qed.

Lemma elem_of_ztake {X : Type} (k : Z) (xs : list X) y : y ∈ ztake k xs -> y ∈ xs.
Proof. intros (i & Hi & _)%elem_of_take. by eapply list_elem_of_lookup_2. Qed.

(** [b] acknowledges [p]. *)
Definition in_block (b : Z * Z) (p : Z) : Prop := b.1 <= p <= b.2.

Lemma find_ack_ok (rb : ngtcp2_ringbuf ngtcp2_acktr_ack_entry) largest n j :
  ringbuf_wf rb -> 0 <= j -> j + Z.of_nat n = rb_len rb ->
  find_ack n rb j largest = Ok None \/
  exists j' a, find_ack n rb j largest = Ok (Some (j', a)) /\ j <= j' < rb_len rb /\
    contents rb !! Z.to_nat j' = Some a /\ aa_pkt_num a <= largest.
Proof.
  intros Hrb. revert j. induction n as [|n IH]; intros j Hj Hn; [by left|]. cbn [find_ack].
  destruct (ack_ent_get_ok rb j Hrb) as (a & -> & Ha); [lia|]. cbn [bind].
  destruct (Z.leb_spec (aa_pkt_num a) largest) as [H|H].
  - right. exists j, a. split_and!; done || lia.
  - destruct (IH (j + 1)) as [->|(j' & a' & -> & ? & ? & ?)]; [lia|lia|by left|right].
    exists j', a'. split_and!; done || lia.
Qed.

Lemma scan_range_ok (rb : ngtcp2_ringbuf ngtcp2_acktr_ack_entry) largest min n j a :
  ringbuf_wf rb -> 0 <= j -> j + Z.of_nat n + 1 = rb_len rb -> contents rb !! Z.to_nat j = Some a ->
  exists s, scan_range n rb j a largest min = Ok s /\
    match s with
    | Exhausted => True
    | Below n' j' a' => 0 <= j' /\ j' + Z.of_nat n' + 1 = rb_len rb /\ contents rb !! Z.to_nat j' = Some a'
    | Acked j' => 0 <= j' < rb_len rb /\ exists a', contents rb !! Z.to_nat j' = Some a' /\ min <= aa_pkt_num a' <= largest
    end.
Proof.
  intros Hrb. revert j a. induction n as [|n IH]; intros j a Hj Hn Ha; cbn [scan_range];
    (destruct (Z.ltb_spec largest (aa_pkt_num a)) as [H|H]; [|destruct (Z.ltb_spec (aa_pkt_num a) min) as [H2|H2]]).
  - by eexists.
  - eexists. split; [reflexivity|]. split_and!; done || lia.
  - eexists. split; [reflexivity|]. split; [lia|]. exists a. split; [done|lia].
  - destruct (ack_ent_get_ok rb (j + 1) Hrb) as (a' & -> & Ha'); [lia|]. cbn [bind]. apply IH; done || lia.
  - eexists. split; [reflexivity|]. split_and!; done || lia.
  - eexists. split; [reflexivity|]. split; [lia|]. exists a. split; [done|lia].
Qed.

Lemma scan_ranges_ok (rb : ngtcp2_ringbuf ngtcp2_acktr_ack_entry) ranges n j a lo :
  ringbuf_wf rb -> 0 <= j -> j + Z.of_nat n + 1 = rb_len rb -> contents rb !! Z.to_nat j = Some a ->
  Forall ack_range_ok ranges ->
  exists o, scan_ranges ranges n rb j a lo = Ok o /\
    match o with
    | None => True
    | Some j' => 0 <= j' < rb_len rb /\ exists a' b, contents rb !! Z.to_nat j' = Some a' /\
        b ∈ ack_blocks_below lo ranges /\ in_block b (aa_pkt_num a')
    end.
Proof.
  intros Hrb. revert n j a lo. induction ranges as [|r ranges IH]; intros n j a lo Hj Hn Ha Hf; [by eexists|].
  apply Forall_cons_iff in Hf as [[Hg Hl] Hf]. unfold varint in *. cbn [scan_ranges ack_blocks_below].
  rewrite !i64_small by lia. cbv zeta.
  destruct (scan_range_ok rb (lo - ar_gap r - 2) (lo - ar_gap r - 2 - ar_len r) n j a Hrb Hj Hn Ha) as (s & -> & Hs).
  cbn [bind]. destruct s as [j'|n' j' a'|].
  - eexists. split; [reflexivity|]. destruct Hs as (Hj' & a' & Ha' & Hb). split; [done|].
    exists a'. eexists. split_and!; [done|apply elem_of_cons; by left|]. exact Hb.
  - destruct Hs as (Hj' & Hn' & Ha'). destruct (IH n' j' a' (lo - ar_gap r - 2 - ar_len r) Hj' Hn' Ha' Hf) as (o & -> & Ho).
    exists o. split; [done|]. destruct o; [|done]. destruct Ho as (? & a2 & b & ? & ? & ?). split; [done|].
    exists a2, b. split_and!; [done|apply elem_of_cons; by right|done].
  - by eexists.
Qed.

(** [new]: the ACK frames that were recorded. *)
Record acked R n (new : list ngtcp2_acktr_ack_entry) l acktr l' acktr' : Prop := {
  ak_sent : forall a, a ∈ contents (acktr_acks acktr') -> a ∈ contents (acktr_acks acktr) \/ a ∈ new;
  ak_arep : arep R l' acktr';
  ak_acks : acks_ok acktr';
  ak_len : (length l' <= length l)%nat;
  ak_max : acktr_max_pkt_num acktr' = acktr_max_pkt_num acktr;
  ak_room : ksl_room n (acktr_ents acktr) -> ksl_room n (acktr_ents acktr');
}.

(** A received ACK frame changes something only if it acknowledges a packet
    with an ACK frame that was sent. *)
Lemma recv_ack_ok R n l acktr fr :
  arep R l acktr -> acks_ok acktr -> varint (ack_first_ack_range fr) -> Forall ack_range_ok (ack_ranges fr) ->
  exists acktr' l', ngtcp2_acktr_recv_ack acktr fr = Ok acktr' /\ acked R n [] l acktr l' acktr' /\
    ((forall x, in_blocks l' x <-> in_blocks l x) \/
     exists a b, a ∈ contents (acktr_acks acktr) /\ b ∈ ack_blocks fr /\ in_block b (aa_pkt_num a) /\
       forall x, in_blocks l' x <-> in_blocks l x /\ aa_largest_ack a < x).
Proof.
  intros Hrep Hacks Hfirst Hf. pose proof Hacks as [Hrb Hmask]. unfold ngtcp2_acktr_recv_ack. unfold varint in Hfirst.
  rewrite i64_small by lia.
  assert (Hn : 0 <= rb_len (acktr_acks acktr)) by (destruct Hrb as (? & ? & ? & ? & ? & ?); lia).
  assert (Hsame : exists acktr' l', Ok acktr = Ok acktr' /\ acked R n [] l acktr l' acktr' /\
    ((forall x, in_blocks l' x <-> in_blocks l x) \/
     exists a b, a ∈ contents (acktr_acks acktr) /\ b ∈ ack_blocks fr /\ in_block b (aa_pkt_num a) /\
       forall x, in_blocks l' x <-> in_blocks l x /\ aa_largest_ack a < x)).
  { exists acktr, l. split; [done|]. split; [split; auto|by left]. }
  assert (Hon : forall j a b, 0 <= j < rb_len (acktr_acks acktr) -> contents (acktr_acks acktr) !! Z.to_nat j = Some a ->
    b ∈ ack_blocks fr -> in_block b (aa_pkt_num a) -> exists acktr' l', acktr_on_ack acktr j = Ok acktr' /\
      acked R n [] l acktr l' acktr' /\
      ((forall x, in_blocks l' x <-> in_blocks l x) \/
       exists a b, a ∈ contents (acktr_acks acktr) /\ b ∈ ack_blocks fr /\ in_block b (aa_pkt_num a) /\
         forall x, in_blocks l' x <-> in_blocks l x /\ aa_largest_ack a < x)).
  { intros j a b Hj Ha Hb Hin. destruct (on_ack_ok R l acktr j a Hrep Hacks Hj Ha) as (a' & l' & -> & ? & ? & ? & ? & Hc & ? & ?).
    exists a', l'. split; [done|]. split; [split; auto|right].
    { rewrite Hc. intros a1 Ha1%elem_of_ztake. by left. } exists a, b. split_and!; try done.
    by eapply list_elem_of_lookup_2. }
  destruct (find_ack_ok (acktr_acks acktr) (ack_largest_ack fr) (Z.to_nat (rb_len (acktr_acks acktr))) 0)
    as [->|(j & a & -> & Hj & Ha & Hle)]; [done|lia|lia|exact Hsame|]. cbn [bind].
  destruct (Z.leb_spec (ack_largest_ack fr - ack_first_ack_range fr) (aa_pkt_num a)) as [Hmin|Hmin].
  - eapply Hon; [exact Hj|exact Ha|apply elem_of_cons; by left|]. unfold in_block. cbn. lia.
  - destruct (scan_ranges_ok (acktr_acks acktr) (ack_ranges fr) (Z.to_nat (rb_len (acktr_acks acktr)) - Z.to_nat j - 1) j a
      (ack_largest_ack fr - ack_first_ack_range fr)) as (o & -> & Ho); [done|lia|lia|done|done|]. cbn [bind].
    destruct o as [j'|]; [|exact Hsame]. destruct Ho as (Hj' & a' & b & Ha' & Hb & Hin).
    eapply Hon; [exact Hj'|exact Ha'|apply elem_of_cons; by right|done].
Qed.

Lemma add_ack_ok R n l acktr pkt_num largest :
  arep R l acktr -> acks_ok acktr ->
  exists acktr', ngtcp2_acktr_add_ack acktr pkt_num largest = Ok acktr' /\ acked R n [mk_ack_ent largest pkt_num] l acktr l acktr'.
Proof.
  intros Hrep [Hrb Hmask].
  destruct (sim_push_front (acktr_acks acktr) (mk_ack_ent largest pkt_num) Hrb) as (rb' & Hrun & Hrb' & Hmask' & Hcont).
  unfold ngtcp2_acktr_add_ack. cbn [ringbuf_exec] in Hrun. destruct (ngtcp2_ringbuf_push_front _) as [rb off].
  destruct (ringbuf_store rb off _) as [rb1| |]; try done. cbn [bind] in *. injection Hrun as ->.
  eexists. split; [reflexivity|]. destruct Hrep as [[? ? ? ?] ? ?]. split; cbn; try done.
  - rewrite Hcont. intros a [->|Ha]%elem_of_ztake%elem_of_cons; [right; by apply elem_of_cons; left|by left].
  - split; [done|]. cbn. by rewrite Hmask'.
Qed.

(** ** The state between two events *)
Definition max_ok R (max : Z) : Prop :=
  max = -1 /\ (forall x, ~ R x) \/ R max /\ 0 <= max < 2 ^ 62 /\ forall x, R x -> x <= max.

Record tracks R n l acktr : Prop := {
  tr_arep : arep R l acktr;
  tr_acks : acks_ok acktr;
  tr_len : zlen l <= NGTCP2_ACKTR_MAX_ENT;
  tr_max : max_ok R (acktr_max_pkt_num acktr);
  tr_room : ksl_room n (acktr_ents acktr);
}.

Lemma acked_tracks R n new l acktr l' acktr' : tracks R n l acktr -> acked R n new l acktr l' acktr' -> tracks R n l' acktr'.
Proof.
  intros [? ? Hlen Hmax Hroom] [_ ? ? Hlen' Hmax' Hroom']. split; try done; [unfold zlen in *; lia|by rewrite Hmax'|auto].
Qed.

Lemma max_ok_add R max pkt :
  max_ok R max -> ~ R pkt -> 0 <= pkt < 2 ^ 62 ->
  max_ok (fun x => R x \/ x = pkt) (if max <? pkt then pkt else max).
Proof.
  intros Hm Hn Hp. right. destruct Hm as [[-> HR]|(Hm & Hr & HR)].
  - rewrite (proj2 (Z.ltb_lt _ _)) by lia. split_and!; [by right|lia..|]. intros x [Hx| ->]; [by destruct (HR x)|lia].
  - destruct (Z.ltb_spec max pkt).
    + split_and!; [by right|lia..|]. intros x [Hx%HR| ->]; lia.
    + split_and!; [by left|lia..|]. intros x [Hx%HR| ->]; [done|lia].
Qed.

(** A number that was added is in a block, or it was dropped as the smallest
    one of too many. *)
Lemma acktr_add_ok R n l acktr pkt active ts :
  tracks R (S n) l acktr -> ~ R pkt -> 0 <= pkt < 2 ^ 62 ->
  exists acktr' l', ngtcp2_acktr_add true acktr pkt active ts = Ok (0, acktr') /\
    tracks (fun x => R x \/ x = pkt) n l' acktr' /\ acktr_acks acktr' = acktr_acks acktr /\
    (forall x, in_blocks l' x -> in_blocks l x \/ x = pkt) /\
    (forall x, in_blocks l x \/ x = pkt -> in_blocks l' x \/ zlen l' = NGTCP2_ACKTR_MAX_ENT /\ forall y, in_blocks l' y -> x < y).
Proof.
  intros [Hrep Hacks Hlen Hmax Hroom] Hnew Hpkt. unfold ngtcp2_acktr_add. set (R' := fun x => R x \/ x = pkt).
  assert (Hadd : exists acktr1 l1,
    (let* (acktr, added) := acktr_extend acktr pkt ts in
     if negb added then acktr_new_entry true acktr pkt ts else Ok (0, acktr)) = Ok (0, acktr1) /\
    arep R' l1 acktr1 /\ same_rest acktr acktr1 /\ (forall x, in_blocks l1 x <-> in_blocks l x \/ x = pkt) /\
    ksl_room n (acktr_ents acktr1) /\ (length l1 <= S (length l))%nat).
  { destruct (acktr_extend_ok R pkt ts Hnew Hpkt l acktr Hrep) as [(a1 & l1 & -> & [? ? ? Hr ?])|[-> Hiso]]; cbn [bind negb].
    - exists a1, l1. split_and!; try done; [|lia]. apply room_le. auto.
    - destruct (acktr_new_entry_ok R pkt ts Hnew Hpkt n l acktr Hrep Hiso Hroom) as (a1 & l1 & -> & ? & ? & ? & ? & ?).
      exists a1, l1. split_and!; done || lia. }
  destruct Hadd as (a1 & l1 & Hrun & Hrep1 & Hrest1 & Hin1 & Hroom1 & Hlen1).
  destruct (acktr_extend acktr pkt ts) as [[a0 added]| |]; try done. cbn [bind] in *. rewrite Hrun. cbn [bind Z.eqb negb].
  set (a2 := if active then _ else a1).
  assert (H2 : arep R' l1 a2 /\ acktr_acks a2 = acktr_acks a1 /\ acktr_ents a2 = acktr_ents a1 /\
    acktr_max_pkt_num a2 = acktr_max_pkt_num a1).
  { subst a2. destruct active; [|done]. split_and!; try done. destruct Hrep1 as [[? ? ? ?] ? ?]. by split. }
  destruct H2 as (Hrep2 & Hacks2 & Hents2 & Hmax2). clearbody a2.
  destruct (acktr_trim_ok R' l1 a2 Hrep2) as (a3 & l3 & -> & Hrep3 & (Hacks3 & _ & _ & _ & Hmax3 & _) & Hroom3 & Htrim).
  cbn [bind]. destruct Hrest1 as (Hacks1 & _ & _ & _ & Hmax1 & _).
  exists (if acktr_max_pkt_num a3 <? pkt then set_max pkt ts a3 else a3), l3. split; [by destruct (_ <? pkt)|].
  rewrite Hmax3, Hmax2, Hmax1.
  assert (Htr : tracks R' n l3 (if acktr_max_pkt_num acktr <? pkt then set_max pkt ts a3 else a3)).
  { pose proof (max_ok_add R _ pkt Hmax Hnew Hpkt) as Hm. split.
    - destruct (_ <? pkt); [|done]. destruct Hrep3 as [[? ? ? ?] ? ?]. by split.
    - unfold acks_ok in *. destruct (_ <? pkt); cbn; by rewrite Hacks3, Hacks2, Hacks1.
    - destruct (Z.ltb_spec NGTCP2_ACKTR_MAX_ENT (zlen l1)); [|by subst].
      destruct Htrim as [e ->]. rewrite length_app in Hlen1. cbn in Hlen1. unfold zlen in *. lia.
    - destruct (_ <? pkt); [exact Hm|]. by rewrite Hmax3, Hmax2, Hmax1.
    - assert (ksl_room n (acktr_ents a3)) by (apply Hroom3; by rewrite Hents2). by destruct (_ <? pkt). }
  assert (Hacks' : acktr_acks (if acktr_max_pkt_num acktr <? pkt then set_max pkt ts a3 else a3) = acktr_acks acktr).
  { destruct (_ <? pkt); cbn; by rewrite Hacks3, Hacks2, Hacks1. }
  destruct (Z.ltb_spec NGTCP2_ACKTR_MAX_ENT (zlen l1)) as [Hbig|Hbig].
  - destruct Htrim as [e ->]. split_and!; [done|done|intros x Hx; apply Hin1, in_blocks_app; by left|].
    intros x [Hx|Hx]%Hin1%in_blocks_app; [by left|right]. split.
    + pose proof (tr_len _ _ _ _ Htr). rewrite zlen_app in Hbig. unfold zlen in *. cbn in Hbig. lia.
    + destruct Hrep2 as [_ [Hb1 (Hb2 & _)]%below_app _]. rewrite in_blocks_cons, in_blocks_nil in Hx.
      destruct Hx as [Hx|[]]. unfold in_ent in Hx. intros y (e' & He' & Hy). pose proof (floor_le _ _ _ Hb1 He').
      unfold in_ent in Hy. lia.
  - subst l3. split_and!; [done|done|intros x Hx; by apply Hin1|intros x Hx; left; by apply Hin1].
Qed.

(** ** Creation of an ACK frame *)
Definition ent_block e : Z * Z := (ae_pkt_num e - ae_len e + 1, ae_pkt_num e).

Lemma in_ent_block e x : in_block (ent_block e) x <-> in_ent e x.
Proof. unfold in_block, in_ent, ent_block. cbn. lia. Qed.

Lemma ranges_from_ok R l acktr n it A B lA lB last_pkt_num :
  astore R l acktr -> cursor (acktr_ents acktr) it A B -> l = lA ++ lB -> length lA = length A ->
  below (last_pkt_num - 1) lB -> last_pkt_num < 2 ^ 62 -> (n <= length lB)%nat ->
  exists ranges, ack_ranges_from n acktr it last_pkt_num = Ok ranges /\ length ranges = n /\
    Forall ack_range_ok ranges /\ ack_blocks_below last_pkt_num ranges = map ent_block (take n lB).
Proof.
  intros Hst. revert it A B lA lB last_pkt_num. induction n as [|n IH]; intros it A B lA lB last_pkt_num Hc Hl HlA Hb Hlast Hn.
  { by exists []. }
  assert (HlB : length lB = length B).
  { pose proof (astore_len _ _ _ Hst) as H. destruct Hst as [[_ _ Hw] _ _ _]. unfold ngtcp2_ksl_len in H.
    rewrite Hw, (cursor_elems _ _ _ _ Hc), Hl, !length_app in H. lia. }
  destruct B as [|x B]; [cbn in *; lia|]. cbn [ack_ranges_from].
  destruct (ent_at_ok R l acktr it A x B Hst Hc) as (lA' & e & lB' & Hl' & HlA' & _ & _ & _ & ->). cbn [bind].
  rewrite Hl in Hl'. apply app_inj_1 in Hl' as [-> ->]; [|congruence].
  destruct Hb as (Hlt & Hlen & Hb).
  destruct (IH (ngtcp2_ksl_it_next (acktr_ents acktr) it) (A ++ [x]) B (lA' ++ [e]) lB' (ae_pkt_num e - (ae_len e - 1)))
    as (ranges & -> & Hrl & Hrok & Hbl).
  { exact (cursor_next _ _ it A x B (as_wf _ _ _ Hst) Hc). }
  { by rewrite <- app_assoc. }
  { rewrite !length_app. cbn. lia. }
  { eapply below_le; [|exact Hb]. lia. }
  { lia. }
  { cbn in Hn. lia. }
  cbn [bind]. eexists. split; [reflexivity|]. rewrite !u64_small by (unfold is_u64 in *; lia). split_and!.
  - cbn. by rewrite Hrl.
  - constructor; [|done]. unfold ack_range_ok, varint. cbn. lia.
  - cbn [ack_blocks_below ar_gap ar_len take map]. unfold ent_block at 1. f_equal; [f_equal; lia|].
    rewrite <- Hbl. f_equal. lia.
Qed.

(** What a created frame says: [R] the numbers received, [l] the entries. *)
Record ack_sound R l acktr (fr : ngtcp2_ack) : Prop := {
  so_largest : ack_largest_ack fr = acktr_max_pkt_num acktr;
  so_valid : ngtcp2_pkt_validate_ack fr 0 = 0;
  so_count : zlen (ack_ranges fr) <= NGTCP2_MAX_ACK_RANGES;
  so_received : forall b x, b ∈ ack_blocks fr -> in_block b x -> R x;
  so_all : forall x, in_blocks l x ->
    (exists b, b ∈ ack_blocks fr /\ in_block b x) \/
    zlen (ack_ranges fr) = NGTCP2_MAX_ACK_RANGES /\ forall b, b ∈ ack_blocks fr -> x < b.1;
}.

Lemma elem_of_ent_blocks l b : b ∈ map ent_block l <-> exists e, e ∈ l /\ b = ent_block e.
Proof. change (map ent_block l) with (ent_block <$> l). rewrite list_elem_of_fmap. naive_solver. Qed.

Lemma ack_sound_intro R lA lB acktr lo hi fr :
  arep R (lA ++ lB) acktr -> 0 <= lo <= hi -> hi < 2 ^ 62 -> hi = acktr_max_pkt_num acktr ->
  (forall x, lo <= x <= hi -> R x) -> (forall x, in_blocks lA x -> lo <= x <= hi) -> below (lo - 1) lB ->
  ack_largest_ack fr = hi -> ack_first_ack_range fr = hi - lo -> Forall ack_range_ok (ack_ranges fr) ->
  let n := Z.to_nat (Z.min (zlen lB) NGTCP2_MAX_ACK_RANGES) in
  length (ack_ranges fr) = n -> ack_blocks_below lo (ack_ranges fr) = map ent_block (take n lB) ->
  ack_sound R (lA ++ lB) acktr fr.
Proof.
  intros Hrep Hlo Hhi Hmax HR HA HB Hlargest Hfirst Hf n Hn Hbl.
  assert (E : ack_blocks fr = (lo, hi) :: map ent_block (take n lB)).
  { unfold ack_blocks. rewrite Hlargest, Hfirst. replace (hi - (hi - lo)) with lo by lia. by rewrite Hbl. }
  assert (Hpos : forall b, b ∈ ack_blocks fr -> 0 <= b.1).
  { rewrite E. intros b [->|(e & He%subseteq_take & ->)%elem_of_ent_blocks]%elem_of_cons; cbn; [lia|].
    destruct (below_elem _ _ _ HB He) as [? ?]. lia. }
  split.
  - congruence.
  - unfold ngtcp2_pkt_validate_ack. rewrite Hlargest, Hfirst, i64_small by lia.
    rewrite (proj2 (Z.ltb_ge _ _)) by lia. cbv zeta. rewrite (proj2 (Z.ltb_ge _ 0)) by lia.
    replace (hi - (hi - lo)) with lo by lia. rewrite validate_ack_ranges_eq by done. unfold ack_verdict.
    rewrite (proj2 (find_none_Forall _ _)); [done|]. apply List.Forall_forall. intros b Hb.
    assert (Hb0 : 0 <= b.1).
    { apply Hpos. rewrite E. apply elem_of_cons. right. rewrite <- Hbl. by apply list_elem_of_In. }
    by rewrite (proj2 (Z.ltb_ge _ _)).
  - unfold zlen. rewrite Hn. unfold n, NGTCP2_MAX_ACK_RANGES. lia.
  - rewrite E. intros b x [->|(e & He%subseteq_take & ->)%elem_of_ent_blocks]%elem_of_cons Hx; [by apply HR|].
    apply (ar_recv _ _ _ Hrep), in_blocks_app. right. exists e. split; [done|]. by apply in_ent_block.
  - intros x [Hx|(e & He & Hx)]%in_blocks_app.
    { left. exists (lo, hi). rewrite E. split; [apply elem_of_cons; by left|]. by apply HA. }
    rewrite <- (take_drop n lB) in He. apply elem_of_app in He as [He|He].
    { left. exists (ent_block e). split; [|by apply in_ent_block]. rewrite E. apply elem_of_cons. right.
      apply elem_of_ent_blocks. by exists e. }
    right. assert (Hlen : (n < length lB)%nat).
    { destruct (Nat.lt_ge_cases n (length lB)) as [|Hge]; [done|]. by rewrite drop_ge, elem_of_nil in He. }
    split; [clear -Hn Hlen; unfold n, zlen, NGTCP2_MAX_ACK_RANGES in *; lia|].
    rewrite <- (take_drop n lB) in HB. apply below_app in HB as [HB1 HB2].
    assert (Hx2 : 0 <= x < floor (lo - 1) (take n lB)) by (eapply below_in; [exact HB2|by exists e]).
    rewrite E. intros b [->|(e' & He' & ->)%elem_of_ent_blocks]%elem_of_cons; cbn.
    + clear -Hx2 HB1. destruct (take n lB) as [|e' l'] eqn:El; [cbn in Hx2; lia|].
      assert (floor (lo - 1) (e' :: l') <= ae_pkt_num e' - ae_len e').
      { eapply floor_le; [exact HB1|apply elem_of_cons; by left]. }
      destruct HB1 as (? & ? & _). lia.
    + pose proof (floor_le _ _ _ HB1 He'). lia.
Qed.

(** An ACK frame is due. *)
Definition ack_due acktr (ack_delay ts : Z) : bool :=
  ngtcp2_acktr_require_active_ack acktr
    (if negb (Z.land (acktr_flags acktr) NGTCP2_ACKTR_FLAG_IMMEDIATE_ACK =? 0) then 0 else ack_delay) ts.

(** A frame is created when one is due and the tracker is not empty. *)
Lemma create_ok R n l acktr type ts delay expo :
  tracks R n l acktr ->
  if negb (ack_due acktr delay ts) then ngtcp2_acktr_create_ack_frame acktr type ts delay expo = Ok (-1, None, acktr)
  else if decide (l = []) then
    ngtcp2_acktr_create_ack_frame acktr type ts delay expo = Ok (-1, None, ngtcp2_acktr_commit_ack acktr)
  else exists fr, ngtcp2_acktr_create_ack_frame acktr type ts delay expo = Ok (0, Some fr, acktr) /\ ack_sound R l acktr fr.
Proof.
  intros [Hrep Hacks Hlen Hmax Hroom]. pose proof Hrep as [Hst Hb Hr].
  unfold ngtcp2_acktr_create_ack_frame. fold (ack_due acktr delay ts). destruct (ack_due acktr delay ts); [|done]. cbn [negb].
  pose proof (cursor_begin _ _ (as_wf _ _ _ Hst)) as Hc. unfold ngtcp2_acktr_get.
  rewrite (cursor_it_end _ _ _ _ Hc), (astore_len _ _ _ Hst). pose proof (proj1 (as_ents _ _ _ Hst)) as Hf.
  destruct (ksl_elems (acktr_ents acktr)) as [|x B].
  { apply Forall2_nil_inv_l in Hf as ->. by rewrite bool_decide_eq_true_2, decide_True. }
  rewrite bool_decide_eq_false_2 by done.
  destruct (ent_at_ok R l acktr _ [] x B Hst Hc) as (lA & ent & lB & -> & HlA & HlB & _ & _ & ->).
  apply nil_length_inv in HlA as ->. cbn [app length] in *. rewrite decide_False by done. cbn [bind].
  destruct (acktr_ecn acktr) as [[ect0 ect1] ce].
  destruct Hb as (Hlt & Hl1 & Hb).
  assert (HR : forall x, in_ent ent x -> R x) by (intros y Hy; apply Hr, in_blocks_cons; by left).
  destruct Hmax as [[_ Hno]|(HRmax & Hmr & Hmle)].
  { destruct (Hno (ae_pkt_num ent)). apply HR. unfold in_ent. lia. }
  assert (Hle : ae_pkt_num ent <= acktr_max_pkt_num acktr) by (apply Hmle, HR; unfold in_ent; lia).
  assert (HA : forall y, in_blocks [ent] y <-> in_ent ent y).
  { intros y. rewrite in_blocks_cons, in_blocks_nil. tauto. }
  pose proof (cursor_next _ _ _ _ _ _ (as_wf _ _ _ Hst) Hc) as Hc'.
  destruct (Z.eqb_spec (ae_pkt_num ent) (acktr_max_pkt_num acktr)) as [E1|E1];
    [|destruct (Z.eqb_spec (ae_pkt_num ent + 1) (acktr_max_pkt_num acktr)) as [E2|E2]];
    [| |rewrite (proj2 (Z.ltb_lt _ _)) by lia]; cbn [bind];
    try replace (S (length lB) - 1)%nat with (length lB) by lia.
  - destruct (ranges_from_ok R _ acktr (Z.to_nat (Z.min (zlen lB) NGTCP2_MAX_ACK_RANGES)) _ _ _ [ent] lB
      (ae_pkt_num ent - (ae_len ent - 1)) Hst Hc')
      as (ranges & Hrun & Hrl & Hrok & Hbl); [done|done|eapply below_le; [|exact Hb]; lia|lia| |].
    { unfold zlen, NGTCP2_MAX_ACK_RANGES. lia. }
    unfold zlen in Hrun. rewrite Hrun. cbn [bind]. eexists. split; [reflexivity|].
    apply (ack_sound_intro R [ent] lB acktr (ae_pkt_num ent - (ae_len ent - 1)) (ae_pkt_num ent)); cbn; try done; try lia.
    + intros y Hy. apply HR. unfold in_ent. lia.
    + intros y Hy%HA. unfold in_ent in Hy. lia.
    + eapply below_le; [|exact Hb]. lia.
    + rewrite u64_small; unfold is_u64; lia.
  - destruct (ranges_from_ok R _ acktr (Z.to_nat (Z.min (zlen lB) NGTCP2_MAX_ACK_RANGES)) _ _ _ [ent] lB
      (ae_pkt_num ent - (ae_len ent - 1)) Hst Hc')
      as (ranges & Hrun & Hrl & Hrok & Hbl); [done|done|eapply below_le; [|exact Hb]; lia|lia| |].
    { unfold zlen, NGTCP2_MAX_ACK_RANGES. lia. }
    unfold zlen in Hrun. rewrite Hrun. cbn [bind]. eexists. split; [reflexivity|].
    apply (ack_sound_intro R [ent] lB acktr (ae_pkt_num ent - (ae_len ent - 1)) (acktr_max_pkt_num acktr)); cbn; try done; try lia.
    + intros y Hy. destruct (Z.eq_dec y (acktr_max_pkt_num acktr)) as [->|]; [done|]. apply HR. unfold in_ent. lia.
    + intros y Hy%HA. unfold in_ent in Hy. lia.
    + eapply below_le; [|exact Hb]. lia.
  - destruct (ranges_from_ok R (ent :: lB) acktr (Z.to_nat (Z.min (zlen (ent :: lB)) NGTCP2_MAX_ACK_RANGES)) _ _ _ []
      (ent :: lB) (acktr_max_pkt_num acktr) Hst Hc)
      as (ranges & Hrun & Hrl & Hrok & Hbl); [done|done| |lia| |].
    { apply below_cons. split_and!; [lia|lia|lia|done]. }
    { unfold zlen, NGTCP2_MAX_ACK_RANGES. lia. }
    unfold zlen in Hrun. cbn [length] in Hrun. rewrite Hrun. cbn [bind]. eexists. split; [reflexivity|].
    apply (ack_sound_intro R [] (ent :: lB) acktr (acktr_max_pkt_num acktr) (acktr_max_pkt_num acktr)); cbn; try done; try lia.
    + intros y Hy. by replace y with (acktr_max_pkt_num acktr) by lia.
    + intros y Hy%in_blocks_nil. done.
    + apply below_cons. split_and!; [lia|lia|lia|done].
Qed.

(** ** Sequences of events *)
#[local] Arguments ack_blocks : simpl never.

Inductive acktr_event :=
| EvAdd (pkt_num : Z) (active_ack : bool) (ts : Z)
| EvEcn (ecn : Z)
| EvImmediate
| EvAck (pkt_num type ts ack_delay ack_delay_exponent : Z)
| EvRecv (fr : ngtcp2_ack).

(** What happened: the numbers received, the ACK frames sent, and the blocks
    of the ACK frames received. *)
Record history := mk_hist {
  h_recv : list Z;
  h_sent : list ngtcp2_acktr_ack_entry;
  h_acked : list (Z * Z);
}.

(** [EvAck]: the frame is created and goes into the packet [pkt_num]. *)
Definition acktr_event_step (ev : acktr_event) acktr (h : history) : res (ngtcp2_acktr * history) :=
  match ev with
  | EvAdd pkt_num active_ack ts =>
      let* (rv, acktr) := ngtcp2_acktr_add true acktr pkt_num active_ack ts in
      assert! rv =? 0;
      Ok (acktr, mk_hist (pkt_num :: h_recv h) (h_sent h) (h_acked h))
  | EvEcn ecn => Ok (ngtcp2_acktr_increase_ecn_counts acktr ecn, h)
  | EvImmediate => Ok (ngtcp2_acktr_immediate_ack acktr, h)
  | EvAck pkt_num type ts ack_delay ack_delay_exponent =>
      let* (_, fr, acktr) := ngtcp2_acktr_create_ack_frame acktr type ts ack_delay ack_delay_exponent in
      match fr with
      | None => Ok (acktr, h)
      | Some fr =>
          let* acktr := ngtcp2_acktr_add_ack (ngtcp2_acktr_commit_ack acktr) pkt_num (ack_largest_ack fr) in
          Ok (acktr, mk_hist (h_recv h) (mk_ack_ent (ack_largest_ack fr) pkt_num :: h_sent h) (h_acked h))
      end
  | EvRecv fr =>
      let* acktr := ngtcp2_acktr_recv_ack acktr fr in
      Ok (acktr, mk_hist (h_recv h) (h_sent h) (ack_blocks fr ++ h_acked h))
  end.

Fixpoint acktr_run (evs : list acktr_event) acktr (h : history) : res (ngtcp2_acktr * history) :=
  match evs with
  | [] => Ok (acktr, h)
  | ev :: evs => let* (acktr, h) := acktr_event_step ev acktr h in acktr_run evs acktr h
  end.

(** Packet numbers are received once; the fields of frames are decoded. *)
Fixpoint events_ok (recv : list Z) (evs : list acktr_event) : Prop :=
  match evs with
  | [] => True
  | EvAdd pkt_num _ _ :: evs => (pkt_num ∉ recv) /\ (0 <= pkt_num < 2 ^ 62) /\ events_ok (pkt_num :: recv) evs
  | EvRecv fr :: evs =>
      varint (ack_first_ack_range fr) /\ Forall ack_range_ok (ack_ranges fr) /\ events_ok recv evs
  | _ :: evs => events_ok recv evs
  end.

(** [x] needs no further acknowledgement: the peer acknowledged a packet with
    an ACK frame whose largest number is not below [x]; or it was dropped,
    with more than [NGTCP2_MAX_ACK_RANGES] larger blocks. *)
Definition done_with (h : history) (x : Z) : Prop :=
  (exists a b, a ∈ h_sent h /\ b ∈ h_acked h /\ in_block b (aa_pkt_num a) /\ x <= aa_largest_ack a) \/
  (exists ys, NoDup ys /\ zlen ys = NGTCP2_ACKTR_MAX_ENT /\ forall y, y ∈ ys -> y ∈ h_recv h /\ x < y).

Record remembers n l acktr (h : history) : Prop := {
  rm_tracks : tracks (fun x => x ∈ h_recv h) n l acktr;
  rm_sent : forall a, a ∈ contents (acktr_acks acktr) -> a ∈ h_sent h;
  rm_done : forall x, x ∈ h_recv h -> in_blocks l x \/ done_with h x;
}.

Lemma done_with_mono h h' x :
  (forall y, y ∈ h_recv h -> y ∈ h_recv h') -> (forall a, a ∈ h_sent h -> a ∈ h_sent h') ->
  (forall b, b ∈ h_acked h -> b ∈ h_acked h') -> done_with h x -> done_with h' x.
Proof.
  intros HR HS HA [(a & b & ? & ? & ? & ?)|(ys & ? & ? & Hys)]; [left; exists a, b; auto|].
  right. exists ys. split_and!; [done|done|]. intros y Hy%Hys. naive_solver.
Qed.

Lemma tracks_ext R R' n l acktr : (forall x, R x <-> R' x) -> tracks R n l acktr -> tracks R' n l acktr.
Proof.
  intros HR [? ? ? Hm ?]. split; try done.
  - eapply arep_mono; [|done]. intros x. apply HR.
  - destruct Hm as [[? Hm]|(? & ? & Hm)]; [left|right].
    + split; [done|]. intros x Hx%HR. by apply (Hm x).
    + split_and!; [by apply HR|lia|lia|]. intros x Hx%HR. auto.
Qed.

Lemma tracks_room R n l acktr : tracks R (S n) l acktr -> tracks R n l acktr.
Proof. intros [? ? ? ? ?]. split; try done. by apply room_le. Qed.

(** Flags, timers and counters do not matter. *)
Lemma tracks_flags R n l acktr acktr' :
  acktr_heap acktr' = acktr_heap acktr -> acktr_next acktr' = acktr_next acktr -> acktr_acks acktr' = acktr_acks acktr ->
  acktr_ents acktr' = acktr_ents acktr -> acktr_max_pkt_num acktr' = acktr_max_pkt_num acktr ->
  tracks R n l acktr -> tracks R n l acktr'.
Proof.
  intros Eh En Ea Ee Em [[[? ? ? ?] ? ?] [? ?] ? ? ?].
  split; [split; [split|..]|split|..]; rewrite ?Eh, ?En, ?Ea, ?Ee, ?Em; done.
Qed.

Lemma below_tops hi l : below hi l -> NoDup (map ae_pkt_num l) /\ forall y, y ∈ map ae_pkt_num l -> in_blocks l y.
Proof.
  revert hi. induction l as [|e l IH]; intros hi; [split; [constructor|]; by intros y ?%elem_of_nil|].
  intros (? & ? & Hb). destruct (IH _ Hb) as [Hnd Hin]. cbn [map]. split.
  - constructor; [|done]. intros Hx%Hin. apply (below_in _ _ _ Hb) in Hx. lia.
  - intros y [->|Hy]%elem_of_cons; apply in_blocks_cons; [left; unfold in_ent; lia|right; auto].
Qed.

Lemma step_add n l acktr h pkt active ts :
  remembers (S n) l acktr h -> pkt ∉ h_recv h -> 0 <= pkt < 2 ^ 62 ->
  exists acktr' l', acktr_event_step (EvAdd pkt active ts) acktr h =
    Ok (acktr', mk_hist (pkt :: h_recv h) (h_sent h) (h_acked h)) /\
    remembers n l' acktr' (mk_hist (pkt :: h_recv h) (h_sent h) (h_acked h)).
Proof.
  intros [Htr Hs Hd] Hnew Hpkt. cbn [acktr_event_step].
  destruct (acktr_add_ok _ n l acktr pkt active ts Htr Hnew Hpkt) as (a' & l' & -> & Htr' & Hacks & _ & Hall).
  cbn [bind Z.eqb]. exists a', l'. split; [done|].
  assert (Htr2 : tracks (fun x => x ∈ pkt :: h_recv h) n l' a').
  { eapply tracks_ext; [|exact Htr']. intros x. cbn. rewrite elem_of_cons. tauto. }
  split; cbn; [done|by rewrite Hacks|].
  intros x Hx. assert (Hx' : (in_blocks l x \/ x = pkt) \/ done_with h x).
  { apply elem_of_cons in Hx as [->|Hx]; [by left; right|]. destruct (Hd x Hx); tauto. }
  destruct Hx' as [Hx'|Hx'].
  - destruct (Hall x Hx') as [?|[Hlen Hlt]]; [by left|right; right]. exists (map ae_pkt_num l').
    destruct (below_tops _ _ (ar_below _ _ _ (tr_arep _ _ _ _ Htr2))) as [Hnd Hin].
    split_and!; [done|unfold zlen in *; by rewrite length_map|]. intros y Hy%Hin. split; [|by apply Hlt].
    by apply (ar_recv _ _ _ (tr_arep _ _ _ _ Htr2)).
  - right. eapply done_with_mono; [..|exact Hx']; cbn; try done. intros y Hy. apply elem_of_cons. by right.
Qed.

Lemma step_recv n l acktr h fr :
  remembers (S n) l acktr h -> varint (ack_first_ack_range fr) -> Forall ack_range_ok (ack_ranges fr) ->
  exists acktr' l', acktr_event_step (EvRecv fr) acktr h =
    Ok (acktr', mk_hist (h_recv h) (h_sent h) (ack_blocks fr ++ h_acked h)) /\
    remembers n l' acktr' (mk_hist (h_recv h) (h_sent h) (ack_blocks fr ++ h_acked h)).
Proof.
  intros [Htr%tracks_room Hs Hd] Hfirst Hf. cbn [acktr_event_step].
  destruct (recv_ack_ok _ n l acktr fr (tr_arep _ _ _ _ Htr) (tr_acks _ _ _ _ Htr) Hfirst Hf) as (a' & l' & -> & Hak & Hch).
  cbn [bind]. exists a', l'. split; [done|].
  assert (Hmono : forall x, done_with h x -> done_with (mk_hist (h_recv h) (h_sent h) (ack_blocks fr ++ h_acked h)) x).
  { intros x. apply done_with_mono; cbn; try done. intros b Hb. apply elem_of_app. by right. }
  split; cbn; [by eapply acked_tracks| |].
  - intros a [Ha|Ha%elem_of_nil]%(ak_sent _ _ _ _ _ _ _ Hak); [auto|done].
  - intros x Hx. destruct (Hd x Hx) as [Hin|Hdone]; [|auto].
    destruct Hch as [Hch|(a & b & Ha & Hb & Hab & Hch)]; [left; by apply Hch|].
    destruct (Z.lt_ge_cases (aa_largest_ack a) x); [left; by apply Hch|]. right. left. exists a, b. cbn.
    split_and!; [auto|apply elem_of_app; by left|done|done].
Qed.

Lemma step_ack n l acktr h pkt type ts delay expo :
  remembers (S n) l acktr h ->
  exists acktr' l' h', acktr_event_step (EvAck pkt type ts delay expo) acktr h = Ok (acktr', h') /\
    remembers n l' acktr' h' /\ h_recv h' = h_recv h.
Proof.
  intros [Htr%tracks_room Hs Hd]. cbn [acktr_event_step].
  pose proof (create_ok _ n l acktr type ts delay expo Htr) as Hc.
  destruct (negb (ack_due _ _ _)); [|destruct (decide (l = []))].
  - rewrite Hc. cbn [bind]. by exists acktr, l, h.
  - rewrite Hc. cbn [bind]. eexists _, l, h. split; [done|]. split; [|done]. split; [|done|done].
    by eapply tracks_flags; [..|exact Htr].
  - destruct Hc as (fr & -> & _). cbn [bind].
    assert (Htr2 : tracks (fun x => x ∈ h_recv h) n l (ngtcp2_acktr_commit_ack acktr)) by (by eapply tracks_flags; [..|exact Htr]).
    destruct (add_ack_ok _ n l (ngtcp2_acktr_commit_ack acktr) pkt (ack_largest_ack fr) (tr_arep _ _ _ _ Htr2)
      (tr_acks _ _ _ _ Htr2)) as (a' & -> & Hak). cbn [bind].
    eexists a', l, _. split; [done|]. split; [|done]. split; cbn; [by eapply acked_tracks| |].
    + intros a [Ha|Ha]%(ak_sent _ _ _ _ _ _ _ Hak); apply elem_of_cons; [right; auto|left].
      by apply list_elem_of_singleton in Ha.
    + intros x Hx. destruct (Hd x Hx) as [?|Hdone]; [by left|right]. eapply done_with_mono; [..|exact Hdone]; cbn; try done.
      intros a Ha. apply elem_of_cons. by right.
Qed.

Lemma run_ok evs n l acktr h :
  remembers (length evs + n) l acktr h -> events_ok (h_recv h) evs ->
  exists acktr' l' h', acktr_run evs acktr h = Ok (acktr', h') /\ remembers n l' acktr' h'.
Proof.
  revert l acktr h. induction evs as [|ev evs IH]; intros l acktr h Hrm Hok; [by exists acktr, l, h|].
  cbn [length Nat.add acktr_run] in *.
  destruct ev as [pkt active ts|ecn| |pkt type ts delay expo|fr]; cbn [events_ok] in Hok.
  - destruct Hok as (Hnew & Hpkt & Hok). destruct (step_add _ l acktr h pkt active ts Hrm Hnew Hpkt) as (a' & l' & -> & Hrm').
    cbn [bind]. by apply (IH l').
  - cbn [acktr_event_step bind]. apply (IH l); [|done]. destruct Hrm as [Htr%tracks_room Hs Hd].
    unfold ngtcp2_acktr_increase_ecn_counts. destruct (acktr_ecn acktr) as [[a b] c].
    split; [|by repeat case_match|done]. eapply tracks_flags; [..|exact Htr]; by repeat case_match.
  - cbn [acktr_event_step bind]. apply (IH l); [|done]. destruct Hrm as [Htr%tracks_room Hs Hd].
    split; [|done|done]. by eapply tracks_flags; [..|exact Htr].
  - destruct (step_ack _ l acktr h pkt type ts delay expo Hrm) as (a' & l' & h' & -> & Hrm' & Hrecv). cbn [bind].
    apply (IH l'); [done|]. by rewrite Hrecv.
  - destruct Hok as (Hfirst & Hf & Hok). destruct (step_recv _ l acktr h fr Hrm Hfirst Hf) as (a' & l' & -> & Hrm').
    cbn [bind]. by apply (IH l').
Qed.

Lemma init_remembers n avail :
  (n * (n + 3) <= avail)%nat ->
  exists acktr, ngtcp2_acktr_init avail = Ok acktr /\ remembers n [] acktr (mk_hist [] [] []).
Proof.
  intros Hn. unfold ngtcp2_acktr_init. eexists. split; [reflexivity|].
  split; [split; [split; [split|..]|split|..]|..]; cbn; try done.
  - apply init_wf.
  - intros w Hw. by apply elem_of_nil in Hw.
  - split; [by constructor|constructor].
  - intros p. rewrite lookup_empty. by intros [? ?].
  - intros x Hx. by apply in_blocks_nil in Hx.
  - exists 5. cbn. split_and!; done || lia.
  - left. split; [done|]. intros x ?%elem_of_nil. done.
  - intros a Ha. by apply elem_of_nil in Ha.
Qed.

(** C35: acknowledgements are truthful and complete.  After any sequence of
    received packets, created ACK frames and received ACK frames, the
    tracker does not fail, and the next ACK frame, when one is due: is
    accepted by the validation that the peer does; acknowledges the largest
    number that was received; acknowledges only numbers that were received;
    has at most [NGTCP2_MAX_ACK_RANGES] ranges; and acknowledges every
    received number, except those below a frame with all its ranges in use,
    and those the tracker is done with: the peer acknowledged a packet with
    an ACK frame that reached the number, or there were more than
    [NGTCP2_MAX_ACK_RANGES] larger blocks. *)
Theorem acktr_acks_received (evs : list acktr_event) (avail : nat) (type ts ack_delay ack_delay_exponent : Z) :
  events_ok [] evs -> (length evs * (length evs + 3) <= avail)%nat ->
  exists acktr0 acktr h acktr' rv fr,
    ngtcp2_acktr_init avail = Ok acktr0 /\ acktr_run evs acktr0 (mk_hist [] [] []) = Ok (acktr, h) /\
    ngtcp2_acktr_create_ack_frame acktr type ts ack_delay ack_delay_exponent = Ok (rv, fr, acktr') /\
    match fr with
    | None =>
        rv = -1 /\
        (acktr' = acktr /\ ack_due acktr ack_delay ts = false \/
         acktr' = ngtcp2_acktr_commit_ack acktr /\ forall x, x ∈ h_recv h -> done_with h x)
    | Some fr =>
        rv = 0 /\ acktr' = acktr /\ ngtcp2_pkt_validate_ack fr 0 = 0 /\ zlen (ack_ranges fr) <= NGTCP2_MAX_ACK_RANGES /\
        (ack_largest_ack fr ∈ h_recv h /\ forall x, x ∈ h_recv h -> x <= ack_largest_ack fr) /\
        (forall b x, b ∈ ack_blocks fr -> in_block b x -> x ∈ h_recv h) /\
        (forall x, x ∈ h_recv h ->
           (exists b, b ∈ ack_blocks fr /\ in_block b x) \/ done_with h x \/
           zlen (ack_ranges fr) = NGTCP2_MAX_ACK_RANGES /\ forall b, b ∈ ack_blocks fr -> x < b.1)
    end.
Proof.
  intros Hok Hav. destruct (init_remembers (length evs) avail Hav) as (a0 & Hinit & Hrm).
  rewrite <- (Nat.add_0_r (length evs)) in Hrm.
  destruct (run_ok evs 0 [] a0 (mk_hist [] [] []) Hrm Hok) as (a & l & h & Hrun & [Htr Hs Hd]).
  pose proof (create_ok _ 0 l a type ts ack_delay ack_delay_exponent Htr) as Hc. exists a0, a, h.
  destruct (ack_due a ack_delay ts) eqn:Hdue; cbn [negb] in Hc; [destruct (decide (l = [])) as [->|]|].
  - eexists _, (-1), None. split_and!; try done. right. split; [done|]. intros x Hx.
    by destruct (Hd x Hx) as [?%in_blocks_nil|?].
  - destruct Hc as (fr & Hc & [Hlarge Hval Hcnt Hrecv Hall]). exists a, 0, (Some fr). split_and!; try done.
    + destruct (tr_max _ _ _ _ Htr) as [[Hm Hno]|(Hm & _ & _)]; [|by rewrite Hlarge].
      destruct l as [|e l]; [done|]. destruct (Hno (ae_pkt_num e)). apply (ar_recv _ _ _ (tr_arep _ _ _ _ Htr)).
      apply in_blocks_cons. left. destruct (ar_below _ _ _ (tr_arep _ _ _ _ Htr)) as (? & ? & _). unfold in_ent. lia.
    + destruct (tr_max _ _ _ _ Htr) as [[Hm Hno]|(_ & _ & Hle)]; rewrite Hlarge; [|done]. intros x Hx. by destruct (Hno x).
    + intros x Hx. destruct (Hd x Hx) as [Hin|?]; [|tauto]. destruct (Hall x Hin); tauto.
  - exists a, (-1), None. split_and!; try done. by left.
Qed.

Lemma acktr_acks_received_witness :
  let ack0 := mk_ack NGTCP2_FRAME_ACK 40 0 0 None 0 [] in
  let evs := [EvAdd 0 true 10; EvAdd 1 true 20; EvAdd 5 true 30; EvAck 40 NGTCP2_PKT_1RTT 50 0 3; EvAdd 3 true 60;
              EvAdd 7 true 70; EvRecv ack0; EvEcn NGTCP2_ECN_CE; EvAdd 8 true 80; EvAdd 4 true 90] in
  exists acktr0 acktr h acktr' rv fr,
    ngtcp2_acktr_init 200 = Ok acktr0 /\ acktr_run evs acktr0 (mk_hist [] [] []) = Ok (acktr, h) /\
    ngtcp2_acktr_create_ack_frame acktr NGTCP2_PKT_1RTT 100000 0 3 = Ok (rv, fr, acktr') /\
    fr = Some (mk_ack NGTCP2_FRAME_ACK_ECN 8 12 99920 (Some (0, 0, 1)) 1 [mk_ack_range 1 0]) /\ rv = 0.
Proof.
  cbv zeta.
  edestruct (acktr_acks_received
    [EvAdd 0 true 10; EvAdd 1 true 20; EvAdd 5 true 30; EvAck 40 NGTCP2_PKT_1RTT 50 0 3; EvAdd 3 true 60;
     EvAdd 7 true 70; EvRecv (mk_ack NGTCP2_FRAME_ACK 40 0 0 None 0 []); EvEcn NGTCP2_ECN_CE; EvAdd 8 true 80;
     EvAdd 4 true 90] 200 NGTCP2_PKT_1RTT 100000 0 3)
    as (acktr0 & acktr & h & acktr' & rv & fr & Hinit & Hrun & Hcreate & _).
  - cbn [events_ok]. rewrite ?not_elem_of_cons. unfold varint. split_and!; first [cbn; lia | apply not_elem_of_nil | by constructor].
  - cbn. lia.
  - exists acktr0, acktr, h, acktr', rv, fr. split; [exact Hinit|]. split; [exact Hrun|]. split; [exact Hcreate|].
    vm_compute in Hinit. injection Hinit as <-. vm_compute in Hrun. injection Hrun as <- <-.
    vm_compute in Hcreate. injection Hcreate as <- <- _. by split.
Defined.
