(* ===== verification/Map.v ===== *)
(** * Hash map: [lib/ngtcp2_map.c]

    Open addressing with Robin Hood hashing: every slot records how far its
    key is from the place it hashes to ([psl], 0 for an empty slot), an
    insertion displaces the keys that are nearer to their place, and a
    removal shifts the following keys back.

    The three arrays [keys], [data] and [psl] of the code are one list of
    slots here; they are parts of one allocation. *)

From S2P Require Import Prelude Const.
From stdpp Require Import list gmap.
#[local] Open Scope Z_scope.
#[local] Set Warnings "-clear-no-such-hyp".

Definition NGTCP2_INITIAL_HASHBITS : Z := 4.
Definition NGTCP2_MAP_HASHER : Z := 0xF1357AEA2E62A9C5.
Definition NGTCP2_MAP_FIBO : Z := 0x9E3779B97F4A7C15.
Definition NGTCP2_MAP_MAX_HASHBITS : Z := 8 * 8 - 1.
Definition NGTCP2_MAX_PSL_RESIZE_THRESH : Z := 128.

Section Map.
Context {V : Type}.

(** [sl_data] is [None] for a null pointer. *)
Record map_slot := mk_slot {
  sl_key : Z;
  sl_data : option V;
  sl_psl : Z;
}.

Record ngtcp2_map := mk_map {
  map_slots : list map_slot;
  map_seed : Z;
  map_size : Z;
  map_hashbits : Z;
}.

Implicit Types (map : ngtcp2_map) (key idx psl mask : Z) (data : option V).

Definition ngtcp2_map_init (seed : Z) : ngtcp2_map := mk_map [] seed 0 0.

Definition map_load map idx : res map_slot :=
  match map_slots map !! Z.to_nat idx with Some s => Ok s | None => Fault end.

(** [map_set_entry] *)
Definition map_set_entry map idx key data psl : res ngtcp2_map :=
  let* _ := map_load map idx in
  Ok (mk_map (<[Z.to_nat idx := mk_slot key data (u8 psl)]> (map_slots map)) (map_seed map) (map_size map)
        (map_hashbits map)).

Definition set_size (size : Z) map : ngtcp2_map := mk_map (map_slots map) (map_seed map) size (map_hashbits map).

Definition map_hash (seed key : Z) : Z :=
  let key := u64 (key + seed) in
  let key := u64 (key * NGTCP2_MAP_HASHER) in
  u64 (key * NGTCP2_MAP_FIBO).

Definition map_index map key : Z := Z.shiftr (map_hash (map_seed map) key) (64 - map_hashbits map).

Definition map_mask map : Z := 2 ^ map_hashbits map - 1.

(** The loop of [map_insert]; a negative index is an error code. *)
Fixpoint map_insert_loop (fuel : nat) map idx mask key data psl : res (Z * ngtcp2_map) :=
  match fuel with
  | O => Fault
  | S fuel =>
      let* s := map_load map idx in
      let kpsl := sl_psl s in
      if kpsl =? 0 then
        let* map := map_set_entry map idx key data psl in
        Ok (idx, set_size (map_size map + 1) map)
      else if kpsl <? psl then
        let* map := map_set_entry map idx key data psl in
        map_insert_loop fuel map (Z.land (idx + 1) mask) mask (sl_key s) (sl_data s) (kpsl + 1)
      else if sl_key s =? key then Ok (NGTCP2_ERR_INVALID_ARGUMENT, map)
      else map_insert_loop fuel map (Z.land (idx + 1) mask) mask key data (psl + 1)
  end.

Definition map_insert map key data : res (Z * ngtcp2_map) :=
  map_insert_loop (S (length (map_slots map))) map (map_index map key) (map_mask map) key data 1.

(** The loop of [map_resize] over the old slots. *)
Fixpoint map_reinsert (slots : list map_slot) (new_map : ngtcp2_map) : res ngtcp2_map :=
  match slots with
  | [] => Ok new_map
  | s :: slots =>
      if sl_psl s =? 0 then map_reinsert slots new_map else
      let* (idx, new_map) := map_insert new_map (sl_key s) (sl_data s) in
      assert! 0 <=? idx;
      map_reinsert slots new_map
  end.

(** [mem_ok]: the allocation of the table succeeds. *)
Definition map_resize (mem_ok : bool) map (new_hashbits : Z) : res (Z * ngtcp2_map) :=
  if NGTCP2_MAP_MAX_HASHBITS <? new_hashbits then Ok (NGTCP2_ERR_NOMEM, map) else
  if negb mem_ok then Ok (NGTCP2_ERR_NOMEM, map) else
  let tablelen := Z.to_nat (2 ^ new_hashbits) in
  let new_map := mk_map (replicate tablelen (mk_slot 0 None 0)) (map_seed map) 0 new_hashbits in
  let* new_map := if negb (map_size map =? 0) then map_reinsert (map_slots map) new_map else Ok new_map in
  Ok (0, mk_map (map_slots new_map) (map_seed map) (map_size map) new_hashbits).

Definition ngtcp2_map_insert (mem_ok : bool) map key data : res (Z * ngtcp2_map) :=
  assert! match data with Some _ => true | None => false end;
  let tablelen := 2 ^ map_hashbits map in
  if tablelen - Z.shiftr tablelen 3 <=? map_size map + 1 then
    let* (rv, map) := map_resize mem_ok map
      (if negb (map_hashbits map =? 0) then map_hashbits map + 1 else NGTCP2_INITIAL_HASHBITS) in
    if negb (rv =? 0) then Ok (rv, map) else
    let* (idx, map) := map_insert map key data in
    if idx <? 0 then Ok (idx, map) else Ok (0, map)
  else
    let* (idx, map) := map_insert map key data in
    if idx <? 0 then Ok (idx, map) else
    let* s := map_load map idx in
    if sl_psl s - 1 <? NGTCP2_MAX_PSL_RESIZE_THRESH then Ok (0, map) else
    map_resize mem_ok map (map_hashbits map + 1).

(** The loop of [ngtcp2_map_find] and of [ngtcp2_map_remove]: the index of
    the key. *)
Fixpoint map_probe (fuel : nat) map idx mask key psl : res (option Z) :=
  match fuel with
  | O => Fault
  | S fuel =>
      let* s := map_load map idx in
      if sl_psl s <? psl then Ok None
      else if sl_key s =? key then Ok (Some idx)
      else map_probe fuel map (Z.land (idx + 1) mask) mask key (psl + 1)
  end.

Definition ngtcp2_map_find map key : res (option V) :=
  if map_size map =? 0 then Ok None else
  let* found := map_probe (S (length (map_slots map))) map (map_index map key) (map_mask map) key 1 in
  match found with
  | None => Ok None
  | Some idx => let* s := map_load map idx in Ok (sl_data s)
  end.

(** The inner loop of [ngtcp2_map_remove]. *)
Fixpoint map_shift_back (fuel : nat) map dest idx mask : res ngtcp2_map :=
  match fuel with
  | O => Fault
  | S fuel =>
      let* s := map_load map idx in
      let kpsl := sl_psl s in
      if kpsl <=? 1 then
        let* d := map_load map dest in
        map_set_entry map dest (sl_key d) (sl_data d) 0
      else
        let* map := map_set_entry map dest (sl_key s) (sl_data s) (kpsl - 1) in
        map_shift_back fuel map idx (Z.land (idx + 1) mask) mask
  end.

Definition ngtcp2_map_remove map key : res (Z * ngtcp2_map) :=
  if map_size map =? 0 then Ok (NGTCP2_ERR_INVALID_ARGUMENT, map) else
  let mask := map_mask map in
  let* found := map_probe (S (length (map_slots map))) map (map_index map key) mask key 1 in
  match found with
  | None => Ok (NGTCP2_ERR_INVALID_ARGUMENT, map)
  | Some dest =>
      let* map := map_shift_back (S (length (map_slots map))) map dest (Z.land (dest + 1) mask) mask in
      Ok (0, set_size (map_size map - 1) map)
  end.

Definition ngtcp2_map_clear map : ngtcp2_map :=
  if map_size map =? 0 then map
  else mk_map (List.map (fun s => mk_slot (sl_key s) (sl_data s) 0) (map_slots map)) (map_seed map) 0
         (map_hashbits map).

Definition ngtcp2_map_size map : Z := map_size map.

(** [ptr] is the state the callback works on. *)
Section Each.
Context {S : Type} (func : option V -> S -> Z * S).

Fixpoint map_each_loop (slots : list map_slot) (ptr : S) : Z * S :=
  match slots with
  | [] => (0, ptr)
  | s :: slots =>
      if sl_psl s =? 0 then map_each_loop slots ptr else
      let (rv, ptr) := func (sl_data s) ptr in
      if negb (rv =? 0) then (rv, ptr) else map_each_loop slots ptr
  end.

Definition ngtcp2_map_each map (ptr : S) : Z * S :=
  if map_size map =? 0 then (0, ptr) else map_each_loop (map_slots map) ptr.
End Each.
End Map.
Arguments map_slot V : clear implicits.
Arguments ngtcp2_map V : clear implicits.
