(* ===== verification/MapSpec.v ===== *)
(** * Hash map: invariant and refinement of a finite map

    The table is a Robin Hood table (every key is as far from its place as
    its slot says, and the distances grow by at most one from a slot to the
    next); it represents a finite map. *)

From S2P Require Import Prelude Const Map.
From stdpp Require Import list gmap list_numbers.
#[local] Open Scope Z_scope.
#[local] Set Warnings "-clear-no-such-hyp".

(** ** Arithmetic of the ring of slots *)
Section Ring.
Context (n : Z) (n_pos : 0 < n).

Lemma ring_range i : 0 <= i mod n < n.
Proof. by apply Z.mod_pos_bound. Qed.

Lemma ring_inj a b : a mod n = b mod n -> a - b < n -> b - a < n -> a = b.
Proof.
  intros E H1 H2. pose proof (Z.div_mod a n ltac:(lia)). pose proof (Z.div_mod b n ltac:(lia)).
  assert (a / n = b / n) by nia. nia.
Qed.

Lemma ring_next i k : ((i mod n) + k) mod n = (i + k) mod n.
Proof. apply Z.add_mod_idemp_l. lia. Qed.

Lemma ring_back i k : ((i mod n) - k) mod n = (i - k) mod n.
Proof. apply Zminus_mod_idemp_l. Qed.

Lemma ring_small i : 0 <= i < n -> i mod n = i.
Proof. apply Z.mod_small. Qed.

Lemma ring_eq a b : a mod n = b mod n -> forall k, (a + k) mod n = (b + k) mod n.
Proof. intros E k. rewrite <- (ring_next a), <- (ring_next b). by rewrite E. Qed.

(** The number of steps from [i] to [e]. *)
Lemma ring_dist i e : 0 <= i < n -> 0 <= e < n -> i <> e -> (e - (i + 1) mod n) mod n = (e - i) mod n - 1.
Proof.
  intros Hi He Hne.
  replace (e - (i + 1) mod n) with (- ((i + 1) mod n) + e) by lia.
  assert (H : (i + 1) mod n = if i + 1 =? n then 0 else i + 1).
  { destruct (Z.eqb_spec (i + 1) n) as [->|]; [apply Z.mod_same; lia|apply Z.mod_small; lia]. }
  rewrite H. destruct (Z.eqb_spec (i + 1) n).
  - rewrite (Z.mod_small (- 0 + e)) by lia. replace (e - i) with (e + 1 + (-1) * n) by lia.
    rewrite Z.mod_add by lia. rewrite Z.mod_small; lia.
  - destruct (Z.lt_ge_cases i e).
    + rewrite !Z.mod_small; lia.
    + replace (- (i + 1) + e) with (e - (i + 1) + n + (-1) * n) by lia. rewrite Z.mod_add by lia.
      replace (e - i) with (e - i + n + (-1) * n) by lia. rewrite Z.mod_add by lia. rewrite !Z.mod_small; lia.
Qed.
End Ring.

Lemma land_ring b i : 0 <= b -> Z.land i (2 ^ b - 1) = i mod 2 ^ b.
Proof. intros Hb. rewrite <- Z.land_ones by done. by rewrite Z.ones_equiv. Qed.

(** ** The table *)
Section Table.
Context {V : Type} (bits seed : Z) (bits_range : 1 <= bits <= 63).
Abbreviation slot := (map_slot V).
Abbreviation n := (2 ^ bits).
Implicit Types (t : list slot) (m : gmap Z V) (i j k idx e : Z) (v : V) (map : ngtcp2_map V).

Lemma n_ge2 : 2 <= n.
Proof. replace 2 with (2 ^ 1) at 1 by done. apply Z.pow_le_mono_r; lia. Qed.

Lemma n_pos : 0 < n.
Proof. pose proof n_ge2. lia. Qed.

Definition no_slot : slot := mk_slot 0 None 0.
Definition get t i : slot := default no_slot (t !! Z.to_nat i).
Definition home k : Z := Z.shiftr (map_hash seed k) (64 - bits).
Definition psl t i : Z := sl_psl (get t i).
Definition key t i : Z := sl_key (get t i).

Lemma home_range k : 0 <= home k < n.
Proof.
  unfold home, map_hash. rewrite Z.shiftr_div_pow2 by lia.
  pose proof (u64_range (u64 (u64 (k + seed) * NGTCP2_MAP_HASHER) * NGTCP2_MAP_FIBO)) as H. unfold is_u64 in H.
  split; [apply Z.div_pos; lia|]. apply Z.div_lt_upper_bound; [lia|]. rewrite <- Z.pow_add_r by lia.
  replace (64 - bits + bits) with 64 by lia. lia.
Qed.

Lemma get_insert t i j s :
  0 <= i < zlen t -> 0 <= j -> get (<[Z.to_nat i := s]> t) j = if decide (j = i) then s else get t j.
Proof.
  intros Hi Hj. unfold get. destruct (decide (j = i)) as [->|Hne].
  - rewrite list_lookup_insert_eq; [done|]. unfold zlen in Hi. lia.
  - by rewrite list_lookup_insert_ne by lia.
Qed.

(** [free]: a slot that does not count. *)
Record entries_ok (free : Z -> Prop) t : Prop := {
  eo_len : zlen t = n;
  eo_psl : forall i, 0 <= i < n -> 0 <= psl t i <= 255;
  eo_home : forall i, 0 <= i < n -> ~ free i -> 0 < psl t i -> i = (home (key t i) + psl t i - 1) mod n;
  eo_inj : forall i j, 0 <= i < n -> 0 <= j < n -> ~ free i -> ~ free j -> 0 < psl t i -> 0 < psl t j ->
             key t i = key t j -> i = j;
  eo_data : forall i, 0 <= i < n -> ~ free i -> 0 < psl t i -> is_Some (sl_data (get t i));
}.

Definition ordered_at t i : Prop := psl t ((i + 1) mod n) <= psl t i + 1.

Record table_ok t : Prop := {
  to_entries : entries_ok (fun _ => False) t;
  to_order : forall i, 0 <= i < n -> ordered_at t i;
}.

(** The table, apart from free slots, holds the map. *)
Definition holds (free : Z -> Prop) t k v : Prop :=
  exists i, 0 <= i < n /\ ~ free i /\ 0 < psl t i /\ key t i = k /\ sl_data (get t i) = Some v.

Definition rep free t m : Prop := forall k v, m !! k = Some v <-> holds free t k v.
Abbreviation full := (fun _ : Z => False).

Lemma count_slots t m (L : list Z) :
  entries_ok full t -> rep full t m -> NoDup L -> (forall i, i ∈ L -> 0 <= i < n /\ 0 < psl t i) ->
  (length L <= size m)%nat.
Proof.
  intros He Hm Hnd HL.
  assert (Hndk : NoDup (key t <$> L)).
  { clear Hm. induction Hnd as [|i L Hi Hnd IH]; [constructor|]. cbn. constructor.
    - intros (j & Ej & Hj)%list_elem_of_fmap. destruct (HL i) as [Hir Hip]; [apply elem_of_cons; by left|].
      destruct (HL j) as [Hjr Hjp]; [apply elem_of_cons; by right|].
      assert (i = j) by (eapply (eo_inj _ _ He); eauto). by subst.
    - apply IH. intros j Hj. apply HL, elem_of_cons. by right. }
  assert (Hsub : list_to_set (key t <$> L) ⊆ dom m).
  { intros k (i & -> & Hi)%elem_of_list_to_set%list_elem_of_fmap. destruct (HL i Hi) as [Hr Hp].
    destruct (eo_data _ _ He i Hr) as [v Hv]; [auto|done|]. apply elem_of_dom. exists v. apply Hm.
    exists i. split_and!; auto; lia. }
  apply subseteq_size in Hsub. rewrite size_dom, size_list_to_set, length_fmap in Hsub by done. lia.
Qed.

Lemma empty_slot t m :
  entries_ok full t -> rep full t m -> Z.of_nat (size m) < n -> exists e, 0 <= e < n /\ psl t e = 0.
Proof.
  intros He Hm Hs. pose proof n_ge2.
  destruct (decide (Exists (fun i => psl t i = 0) (seqZ 0 n))) as [(e & He0 & Hp)%Exists_exists|Hn].
  - apply elem_of_seqZ in He0. exists e. split; [lia|done].
  - exfalso. assert (length (seqZ 0 n) <= size m)%nat; [|rewrite length_seqZ in *; lia].
    eapply count_slots; [done|done|apply NoDup_seqZ|]. intros i Hi%elem_of_seqZ. split; [lia|].
    pose proof (eo_psl _ _ He i ltac:(lia)). assert (psl t i <> 0); [|lia].
    intros E. apply Hn, Exists_exists. exists i. split; [|done]. apply elem_of_seqZ. lia.
Qed.

(** ** Probing *)

(** [k] would have distance [p] in slot [idx]. *)
Definition place idx k p : Prop := 0 <= idx < n /\ 1 <= p /\ idx = (home k + p - 1) mod n.

Lemma place_next idx k p : place idx k p -> place ((idx + 1) mod n) k (p + 1).
Proof.
  intros (Hi & Hp & ->). split; [apply ring_range, n_pos|]. split; [lia|]. rewrite ring_next by apply n_pos. f_equal. lia.
Qed.

(** The slots before [idx] have at least the distances counted back from [p]. *)
Definition behind t idx p : Prop := p - 1 <= psl t ((idx - 1) mod n).

Lemma chain t idx k :
  table_ok t -> 0 <= k -> psl t (idx mod n) - k <= psl t ((idx - k) mod n).
Proof.
  intros [He Ho] Hk. revert k Hk. apply (natlike_ind (fun k => psl t (idx mod n) - k <= psl t ((idx - k) mod n))).
  - by rewrite !Z.sub_0_r.
  - intros k Hk IH. pose proof (Ho ((idx - Z.succ k) mod n) (ring_range n n_pos _)) as H. unfold ordered_at in H.
    rewrite ring_next in H by lia. replace (idx - Z.succ k + 1) with (idx - k) in H by lia. lia.
Qed.

Lemma behind_next t idx p : table_ok t -> 0 <= idx < n -> p <= psl t idx -> behind t ((idx + 1) mod n) (p + 1).
Proof.
  intros Ht Hi Hp. unfold behind. rewrite ring_back. replace (idx + 1 - 1) with idx by lia. rewrite ring_small by (pose proof n_pos; lia). lia.
Qed.

Lemma psl_bound t m idx k p :
  table_ok t -> rep full t m -> Z.of_nat (size m) < n -> place idx k p -> behind t idx p ->
  p <= Z.of_nat (size m) + 1 /\ p <= n.
Proof.
  intros Ht Hm Hs (Hi & Hp & _) Hb. pose proof n_ge2.
  assert (Hc : forall j, 1 <= j <= Z.min (p - 1) n -> 0 < psl t ((idx - j) mod n)).
  { intros j Hj. pose proof (chain t (idx - 1) (j - 1) Ht ltac:(lia)) as Hc. unfold behind in Hb.
    replace (idx - 1 - (j - 1)) with (idx - j) in Hc by lia. lia. }
  assert (Hl : (length ((fun j => ((idx - j) mod n)%Z) <$> seqZ 1 (Z.min (p - 1) n)) <= size m)%nat).
  { eapply count_slots; [apply Ht|done| |].
    - apply NoDup_fmap_2_strong; [|apply NoDup_seqZ]. intros a b Ha%elem_of_seqZ Hb'%elem_of_seqZ E.
      apply (ring_inj n) in E; lia.
    - intros i (j & -> & Hj%elem_of_seqZ)%list_elem_of_fmap. split; [apply ring_range, n_pos|]. apply Hc. lia. }
  rewrite length_fmap, length_seqZ in Hl. lia.
Qed.

(** A present key is found at its slot. *)
Lemma present_step t m idx k p j :
  table_ok t -> rep full t m -> Z.of_nat (size m) < n -> 0 <= j < n -> 0 < psl t j -> key t j = k ->
  place idx k p -> p <= psl t j ->
  p <= psl t idx /\ (key t idx = k -> idx = j) /\ (key t idx <> k -> p < psl t j).
Proof.
  intros Ht Hm Hs Hj Hpj Hk (Hi & Hp & Hidx) Hle. pose proof n_ge2.
  pose proof (eo_home _ _ (to_entries _ Ht) j Hj ltac:(auto) Hpj) as Hhj. rewrite Hk in Hhj.
  assert (Hback : idx = (j - (psl t j - p)) mod n).
  { rewrite Hidx. rewrite Hhj at 1. rewrite ring_back. f_equal. lia. }
  assert (Hpi : p <= psl t idx).
  { pose proof (chain t j (psl t j - p) Ht ltac:(lia)) as Hc. rewrite <- Hback, ring_small in Hc by lia. lia. }
  split_and!; [done| |].
  - intros Ek. eapply (eo_inj _ _ (to_entries _ Ht)); eauto; try lia; congruence.
  - intros Ek. destruct (Z.eq_dec p (psl t j)) as [E|]; [|lia]. destruct Ek.
    replace (psl t j - p) with 0 in Hback by lia. rewrite Z.sub_0_r, ring_small in Hback by lia. by rewrite Hback.
Qed.

(** An absent key: the probe goes on over occupied slots only. *)
Lemma absent_step t m idx k p :
  entries_ok full t -> rep full t m -> m !! k = None -> 0 <= idx < n -> 1 <= p -> p <= psl t idx -> key t idx <> k.
Proof.
  intros He Hm Hk Hi Hp Hle E. destruct (eo_data _ _ He idx Hi) as [v Hv]; [auto|lia|].
  assert (m !! k = Some v); [|congruence]. apply Hm. exists idx. split_and!; auto; lia.
Qed.

Lemma load_get map i : 0 <= i < zlen (map_slots map) -> map_load map i = Ok (get (map_slots map) i).
Proof.
  intros Hi. unfold map_load, get. destruct (lookup_lt_is_Some_2 (map_slots map) (Z.to_nat i)) as [s Hs].
  - unfold zlen in Hi. lia.
  - by rewrite Hs.
Qed.

Abbreviation mask := (2 ^ bits - 1).

Lemma probe_present map m fuel idx k p j :
  table_ok (map_slots map) -> rep full (map_slots map) m -> Z.of_nat (size m) < n ->
  0 <= j < n -> 0 < psl (map_slots map) j -> key (map_slots map) j = k ->
  place idx k p -> p <= psl (map_slots map) j -> psl (map_slots map) j - p < Z.of_nat fuel ->
  map_probe fuel map idx mask k p = Ok (Some j).
Proof.
  intros Ht Hm Hs Hj Hpj Hk. revert idx p. induction fuel as [|fuel IH]; intros idx p Hpl Hle Hf; [lia|].
  destruct (present_step _ m idx k p j Ht Hm Hs Hj Hpj Hk Hpl Hle) as (Hp & Heq & Hne).
  cbn [map_probe]. destruct Hpl as (Hi & Hp1 & Hidx). rewrite load_get by (rewrite (eo_len _ _ (to_entries _ Ht)); lia).
  cbn [bind]. fold (psl (map_slots map) idx) (key (map_slots map) idx). rewrite (proj2 (Z.ltb_ge _ _)) by done.
  destruct (Z.eqb_spec (key (map_slots map) idx) k) as [E|E]; [by rewrite (Heq E)|].
  specialize (Hne E). rewrite land_ring by lia. apply IH; [by apply place_next|lia|lia].
Qed.

Lemma probe_absent map m fuel idx k p e :
  table_ok (map_slots map) -> rep full (map_slots map) m -> m !! k = None ->
  0 <= e < n -> psl (map_slots map) e = 0 -> place idx k p -> (e - idx) mod n < Z.of_nat fuel ->
  map_probe fuel map idx mask k p = Ok None.
Proof.
  intros Ht Hm Hk He Hpe. pose proof n_ge2. revert idx p. induction fuel as [|fuel IH]; intros idx p Hpl Hf.
  { pose proof (ring_range n n_pos (e - idx)). lia. }
  cbn [map_probe]. pose proof Hpl as (Hi & Hp1 & Hidx). rewrite load_get by (rewrite (eo_len _ _ (to_entries _ Ht)); lia).
  cbn [bind]. fold (psl (map_slots map) idx) (key (map_slots map) idx).
  destruct (Z.ltb_spec (psl (map_slots map) idx) p) as [|Hge]; [done|].
  rewrite (proj2 (Z.eqb_neq _ _)) by (eapply absent_step; eauto; apply Ht).
  rewrite land_ring by lia. apply IH; [by apply place_next|]. rewrite (ring_dist n) by (try lia; intros ->; lia). lia.
Qed.

(** ** Insertion *)
Lemma put_ok t m idx k v p :
  table_ok t -> rep full t m -> m !! k = None -> place idx k p -> behind t idx p -> p <= 255 -> psl t idx < p ->
  let t' := <[Z.to_nat idx := mk_slot k (Some v) p]> t in
  table_ok t' /\ rep full t' (<[k := v]> (if psl t idx =? 0 then m else delete (key t idx) m)).
Proof.
  intros [He Ho] Hm Hk (Hi & Hp & Hidx) Hb Hp255 Hlt t'. pose proof n_pos.
  assert (Hget : forall j, 0 <= j < n -> get t' j = if decide (j = idx) then mk_slot k (Some v) p else get t j).
  { intros j Hj. apply get_insert; [rewrite (eo_len _ _ He)|]; lia. }
  assert (Habs : forall j, 0 <= j < n -> 0 < psl t j -> key t j <> k).
  { intros j Hj Hpj. apply (absent_step t m j k 1 He Hm Hk Hj); lia. }
  split; [split; [split|]|].
  - unfold zlen, t'. rewrite length_insert. apply He.
  - intros j Hj. unfold psl. rewrite Hget by done. pose proof (eo_psl _ _ He j Hj). case_decide; cbn; [lia|done].
  - intros j Hj _. unfold psl, key. rewrite Hget by done. case_decide; cbn; [by subst j|]. apply (eo_home _ _ He); auto.
  - intros j j' Hj Hj' _ _. unfold psl, key. rewrite !Hget by done. repeat case_decide; cbn; subst; try done.
    + intros _ Hpj E. by destruct (Habs j').
    + intros Hpj _ E. by destruct (Habs j).
    + apply (eo_inj _ _ He); auto.
  - intros j Hj _. unfold psl. rewrite Hget by done. case_decide; cbn; [done|]. apply (eo_data _ _ He); auto.
  - intros j Hj. unfold ordered_at, psl. pose proof (ring_range n n_pos (j + 1)) as Hj1. rewrite !Hget by done.
    pose proof (Ho j Hj) as Hoj. unfold ordered_at, psl in Hoj, Hlt. repeat case_decide; cbn; try lia.
    + match goal with H : (j + 1) mod n = idx |- _ => rewrite <- H in Hb end.
      unfold behind, psl in Hb. rewrite ring_back in Hb. replace (j + 1 - 1) with j in Hb by lia.
      rewrite ring_small in Hb by lia. lia.
    + subst j. lia.
  - intros k' v'. destruct (Z.eq_dec k' k) as [->|Hne].
    + rewrite lookup_insert_eq. split.
      * intros [= <-]. exists idx. unfold psl, key. rewrite Hget, decide_True by done. cbn. split_and!; auto; lia.
      * intros (j & Hj & _ & Hpj & Hkj & Hvj). unfold psl, key in *. rewrite Hget in * by done.
        case_decide; [by cbn in *|]. by destruct (Habs j).
    + rewrite lookup_insert_ne by done.
      assert (Hold : holds full t' k' v' <-> exists j, j <> idx /\ 0 <= j < n /\ 0 < psl t j /\ key t j = k' /\ sl_data (get t j) = Some v').
      { split; intros (j & Hj); exists j.
        - destruct Hj as (Hj & _ & Hpj & Hkj & Hvj). unfold psl, key in *. rewrite Hget in * by done.
          case_decide; cbn in *; [by destruct Hne|done].
        - destruct Hj as (Hji & Hj & Hpj & Hkj & Hvj). unfold psl, key in *. rewrite Hget by done.
          rewrite decide_False by done. split_and!; auto; lia. }
      rewrite Hold. destruct (Z.eqb_spec (psl t idx) 0) as [E0|E0].
      * rewrite (Hm k' v'). split; intros (j & Hj); exists j.
        -- destruct Hj as (? & _ & ? & ? & ?). split_and!; try done; try lia. intros ->. lia.
        -- destruct Hj as (? & ? & ? & ? & ?). split_and!; auto; lia.
      * pose proof (eo_psl _ _ He idx Hi). rewrite lookup_delete_Some, (Hm k' v'). split.
        -- intros (Hkk & j & ? & _ & ? & ? & ?). exists j. split_and!; try done; try lia. congruence.
        -- intros (j & Hji & Hj & Hpj & Hkj & Hvj). split; [|exists j; split_and!; auto; lia].
           intros <-. apply Hji. apply (eo_inj _ _ He); auto; lia.
Qed.

Lemma set_entry_ok map idx k (d : option V) p :
  0 <= idx < zlen (map_slots map) -> 0 <= p <= 255 ->
  map_set_entry map idx k d p =
    Ok (mk_map (<[Z.to_nat idx := mk_slot k d p]> (map_slots map)) (map_seed map) (Map.map_size map) (map_hashbits map)).
Proof. intros Hi Hp. unfold map_set_entry. rewrite load_get by done. cbn [bind]. by rewrite u8_small by lia. Qed.

Lemma insert_present map m fuel idx k d p j :
  table_ok (map_slots map) -> rep full (map_slots map) m -> Z.of_nat (size m) < n ->
  0 <= j < n -> 0 < psl (map_slots map) j -> key (map_slots map) j = k ->
  place idx k p -> p <= psl (map_slots map) j -> psl (map_slots map) j - p < Z.of_nat fuel ->
  map_insert_loop fuel map idx mask k d p = Ok (NGTCP2_ERR_INVALID_ARGUMENT, map).
Proof.
  intros Ht Hm Hs Hj Hpj Hk. revert idx p. induction fuel as [|fuel IH]; intros idx p Hpl Hle Hf; [lia|].
  destruct (present_step _ m idx k p j Ht Hm Hs Hj Hpj Hk Hpl Hle) as (Hp & Heq & Hne).
  cbn [map_insert_loop]. pose proof Hpl as (Hi & Hp1 & Hidx).
  rewrite load_get by (rewrite (eo_len _ _ (to_entries _ Ht)); lia).
  cbn [bind]. fold (psl (map_slots map) idx) (key (map_slots map) idx).
  rewrite (proj2 (Z.eqb_neq (psl _ _) 0)), (proj2 (Z.ltb_ge _ _)) by lia.
  destruct (Z.eqb_spec (key (map_slots map) idx) k) as [E|E]; [done|].
  specialize (Hne E). rewrite land_ring by lia. apply IH; [by apply place_next|lia|lia].
Qed.

Lemma insert_absent fuel map m idx k v p e :
  table_ok (map_slots map) -> rep full (map_slots map) m -> m !! k = None -> Z.of_nat (size m) < n ->
  Z.of_nat (size m) <= 254 -> place idx k p -> behind (map_slots map) idx p ->
  0 <= e < n -> psl (map_slots map) e = 0 -> (e - idx) mod n < Z.of_nat fuel ->
  exists rv t', map_insert_loop fuel map idx mask k (Some v) p =
      Ok (rv, mk_map t' (map_seed map) (Map.map_size map + 1) (map_hashbits map)) /\
    0 <= rv < n /\ table_ok t' /\ rep full t' (<[k := v]> m).
Proof.
  revert map m idx k v p. induction fuel as [|fuel IH]; intros map m idx k v p Ht Hm Hk Hs H254 Hpl Hb He Hpe Hf.
  { pose proof (ring_range n n_pos (e - idx)). lia. }
  destruct (psl_bound _ m idx k p Ht Hm Hs Hpl Hb) as [Hp _]. pose proof Hpl as (Hi & Hp1 & Hidx).
  pose proof (eo_len _ _ (to_entries _ Ht)) as Hlen. pose proof (eo_psl _ _ (to_entries _ Ht) idx Hi) as Hpi.
  cbn [map_insert_loop]. rewrite load_get by lia. cbn [bind].
  fold (psl (map_slots map) idx) (key (map_slots map) idx).
  destruct (Z.ltb_spec (psl (map_slots map) idx) p) as [Hlt|Hge].
  - rewrite set_entry_ok by lia. cbn [bind].
    destruct (put_ok _ m idx k v p Ht Hm Hk Hpl Hb ltac:(lia) Hlt) as [Ht' Hm']. rename Ht' into Ht1, Hm' into Hm1.
    destruct (Z.eqb_spec (psl (map_slots map) idx) 0) as [E0|E0]; [by do 2 eexists|].
    destruct (eo_data _ _ (to_entries _ Ht) idx Hi) as [v' Hv']; [auto|lia|]. rewrite Hv'.
    assert (Hk' : m !! key (map_slots map) idx = Some v') by (apply Hm; exists idx; split_and!; auto; lia).
    rewrite land_ring by lia.
    set (map1 := mk_map _ _ _ _). set (m1 := <[k := v]> (delete (key (map_slots map) idx) m)).
    assert (Hne : key (map_slots map) idx <> k) by congruence.
    assert (Hs1 : size m1 = size m).
    { unfold m1. rewrite map_size_insert_None by (by rewrite lookup_delete_ne).
      rewrite map_size_delete_Some by done. assert (size m <> 0)%nat; [|lia].
      intros E%map_size_empty_inv. subst m. by rewrite lookup_empty in Hk'. }
    assert (Hget : forall i, 0 <= i < n -> i <> idx -> get (map_slots map1) i = get (map_slots map) i).
    { intros i Hir Hne'. cbn. rewrite get_insert by lia. by rewrite decide_False. }
    destruct (IH map1 m1 ((idx + 1) mod n) (key (map_slots map) idx) v' (psl (map_slots map) idx + 1))
      as (rv & t' & Hrun & Hrv & Ht' & Hm'); try done; try lia.
    + unfold m1. rewrite lookup_insert_ne by done. apply lookup_delete_eq.
    + apply place_next. split_and!; [lia|lia|lia|]. apply (eo_home _ _ (to_entries _ Ht)); auto; lia.
    + apply behind_next; [done|done|]. unfold psl at 2. cbn. rewrite get_insert, decide_True by lia. cbn. lia.
    + unfold psl. rewrite Hget; [done|lia|]. intros ->. lia.
    + rewrite (ring_dist n) by (try lia; intros ->; lia). lia.
    + exists rv, t'. split; [exact Hrun|]. split_and!; [lia|lia|done|].
      replace (<[k := v]> m) with (<[key (map_slots map) idx := v']> m1); [done|].
      unfold m1. rewrite insert_insert_ne by done. by rewrite insert_delete_id.
  - rewrite (proj2 (Z.eqb_neq (psl _ _) 0)) by lia.
    rewrite (proj2 (Z.eqb_neq _ _)) by (eapply absent_step; eauto; apply Ht).
    rewrite land_ring by lia. apply IH; try done.
    + by apply place_next.
    + by apply behind_next.
    + rewrite (ring_dist n) by (try lia; intros ->; lia). lia.
Qed.

(** ** Removal *)

(** The slot [dest] does not count; [p] bounds the distances around it. *)
Record hole_ok t dest p : Prop := {
  ho_range : 0 <= dest < n;
  ho_entries : entries_ok (eq dest) t;
  ho_order : forall i, 0 <= i < n -> i <> dest -> (i + 1) mod n <> dest -> ordered_at t i;
  ho_before : forall i, 0 <= i < n -> (i + 1) mod n = dest -> p - 1 <= psl t i;
  ho_after : psl t ((dest + 1) mod n) <= p + 1;
}.

Lemma next_ne i : 0 <= i < n -> (i + 1) mod n <> i.
Proof. intros Hi E. pose proof n_ge2. rewrite <- (ring_small n i) in E at 2 by lia. apply (ring_inj n) in E; lia. Qed.

Lemma next_inj i j : 0 <= i < n -> 0 <= j < n -> (i + 1) mod n = (j + 1) mod n -> i = j.
Proof. intros Hi Hj E. apply (ring_inj n) in E; lia. Qed.

(** The hole is filled with the entry behind it. *)
Lemma shift_ok t dest p m :
  let idx := (dest + 1) mod n in
  hole_ok t dest p -> rep (eq dest) t m -> 1 < psl t idx ->
  let t' := <[Z.to_nat dest := mk_slot (key t idx) (sl_data (get t idx)) (psl t idx - 1)]> t in
  hole_ok t' idx (psl t idx) /\ rep (eq idx) t' m.
Proof.
  intros idx [Hd He Ho Hbef Haft] Hm Hpi t'. pose proof n_pos.
  pose proof (ring_range n n_pos (dest + 1)) as Hi. fold idx in Hi, Haft. pose proof (next_ne dest Hd) as Hne. fold idx in Hne.
  pose proof (eo_psl _ _ He idx Hi) as Hpr.
  assert (Hget : forall j, 0 <= j < n -> get t' j =
    if decide (j = dest) then mk_slot (key t idx) (sl_data (get t idx)) (psl t idx - 1) else get t j).
  { intros j Hj. apply get_insert; [rewrite (eo_len _ _ He)|]; lia. }
  assert (Hhome : dest = (home (key t idx) + psl t idx - 1 - 1) mod n).
  { pose proof (eo_home _ _ He idx Hi ltac:(auto) ltac:(lia)) as E. apply (f_equal (fun x => (x - 1) mod n)) in E.
    rewrite ring_back in E. rewrite <- E. unfold idx. rewrite ring_back. replace (dest + 1 - 1) with dest by lia.
    by rewrite ring_small by lia. }
  split; [split; [done|split|..]|].
  - unfold zlen, t'. rewrite length_insert. apply He.
  - intros j Hj. unfold psl at 1 2. rewrite Hget by done. pose proof (eo_psl _ _ He j Hj). case_decide; cbn; [lia|done].
  - intros j Hj Hji. unfold psl at 1 2, key at 1. rewrite Hget by done. case_decide; cbn.
    + intros _. subst j. rewrite Hhome at 1. f_equal. lia.
    + apply (eo_home _ _ He); auto.
  - intros j j' Hj Hj' Hji Hji'. unfold psl at 1 2, key at 1 2. rewrite !Hget by done. repeat case_decide; cbn; try congruence.
    + intros _ Hpj E. destruct Hji'. apply (eo_inj _ _ He); auto; lia.
    + intros Hpj _ E. destruct Hji. apply (eo_inj _ _ He); auto; lia.
    + apply (eo_inj _ _ He); auto.
  - intros j Hj Hji. unfold psl at 1. rewrite Hget by done. case_decide; cbn; [|apply (eo_data _ _ He); auto].
    intros _. apply (eo_data _ _ He); auto; lia.
  - intros j Hj Hji Hjn. unfold ordered_at. pose proof (ring_range n n_pos (j + 1)) as Hj1.
    destruct (Z.eq_dec j dest) as [->|Hjd]; [done|]. unfold psl. rewrite !Hget by done.
    rewrite (decide_False (P := j = dest)) by done. case_decide as Hc; cbn.
    + pose proof (Hbef j Hj Hc). unfold psl in *. lia.
    + by apply Ho.
  - intros j Hj Hjn. apply next_inj in Hjn; [|done|done]. subst j. unfold psl at 2. rewrite Hget, decide_True by done. cbn. lia.
  - unfold psl at 1. pose proof (ring_range n n_pos (idx + 1)) as Hj1. rewrite Hget by done. case_decide as Hc; cbn; [lia|].
    by apply Ho.
  - intros k v. rewrite (Hm k v). split; intros (j & Hj & Hjf & Hpj & Hkj & Hvj).
    + destruct (Z.eq_dec j idx) as [->|Hji].
      * exists dest. unfold psl at 1, key at 1. rewrite !Hget, !decide_True by done. cbn. split_and!; auto; lia.
      * exists j. unfold psl at 1, key at 1. rewrite !Hget, !decide_False by auto. split_and!; auto; lia.
    + change (psl t' j) with (sl_psl (get t' j)) in Hpj. change (key t' j) with (sl_key (get t' j)) in Hkj.
      rewrite Hget in Hpj, Hkj, Hvj by done. case_decide; cbn in Hpj, Hkj, Hvj.
      * exists idx. split_and!; auto; lia.
      * exists j. split_and!; auto; lia.
Qed.

(** The hole is closed. *)
Lemma close_ok t dest p m k d :
  hole_ok t dest p -> rep (eq dest) t m -> psl t ((dest + 1) mod n) <= 1 ->
  let t' := <[Z.to_nat dest := mk_slot k d 0]> t in table_ok t' /\ rep full t' m.
Proof.
  intros [Hd He Ho Hbef Haft] Hm Hp1 t'. pose proof n_pos. pose proof (next_ne dest Hd) as Hne.
  assert (Hget : forall j, 0 <= j < n -> get t' j = if decide (j = dest) then mk_slot k d 0 else get t j).
  { intros j Hj. apply get_insert; [rewrite (eo_len _ _ He)|]; lia. }
  split; [split; [split|]|].
  - unfold zlen, t'. rewrite length_insert. apply He.
  - intros j Hj. unfold psl. rewrite Hget by done. pose proof (eo_psl _ _ He j Hj). case_decide; cbn; [lia|done].
  - intros j Hj _. unfold psl, key. rewrite Hget by done. case_decide; cbn; [lia|]. apply (eo_home _ _ He); auto.
  - intros j j' Hj Hj' _ _. unfold psl, key. rewrite !Hget by done. repeat case_decide; cbn; try lia.
    apply (eo_inj _ _ He); auto.
  - intros j Hj _. unfold psl. rewrite Hget by done. case_decide; cbn; [lia|]. apply (eo_data _ _ He); auto.
  - intros j Hj. unfold ordered_at. pose proof (ring_range n n_pos (j + 1)) as Hj1. pose proof (eo_psl _ _ He j Hj).
    unfold psl in *. rewrite !Hget by done. case_decide as Hc; cbn; case_decide as Hc2; cbn; try lia.
    + subst j. lia.
    + by apply Ho.
  - intros k' v'. rewrite (Hm k' v'). split; intros (j & Hj & Hjf & Hpj & Hkj & Hvj).
    + exists j. unfold psl, key in *. rewrite !Hget, !decide_False by auto. split_and!; auto; lia.
    + unfold psl, key in *. rewrite !Hget in * by done. case_decide; cbn in *; [lia|]. exists j. split_and!; auto; lia.
Qed.

Lemma shift_back_ok fuel map dest p m e :
  hole_ok (map_slots map) dest p -> rep (eq dest) (map_slots map) m ->
  0 <= e < n -> e <> dest -> psl (map_slots map) e = 0 -> (e - (dest + 1) mod n) mod n < Z.of_nat fuel ->
  exists t', map_shift_back fuel map dest ((dest + 1) mod n) mask =
      Ok (mk_map t' (map_seed map) (Map.map_size map) (map_hashbits map)) /\ table_ok t' /\ rep full t' m.
Proof.
  revert map dest p. induction fuel as [|fuel IH]; intros map dest p Hh Hm He Hed Hpe Hf.
  { pose proof (ring_range n n_pos (e - (dest + 1) mod n)). lia. }
  pose proof Hh as [Hd Hent _ _ _]. pose proof (eo_len _ _ Hent) as Hlen. pose proof (next_ne dest Hd) as Hne.
  pose proof (ring_range n n_pos (dest + 1)) as Hi. pose proof (eo_psl _ _ Hent _ Hi) as Hpi.
  cbn [map_shift_back]. rewrite load_get by lia. cbn [bind]. fold (psl (map_slots map) ((dest + 1) mod n)) (key (map_slots map) ((dest + 1) mod n)).
  destruct (Z.leb_spec (psl (map_slots map) ((dest + 1) mod n)) 1) as [Hle|Hgt].
  - rewrite load_get by lia. cbn [bind]. rewrite set_entry_ok by lia. eexists. split; [reflexivity|]. by eapply close_ok.
  - rewrite set_entry_ok by lia. cbn [bind]. rewrite land_ring by lia.
    destruct (shift_ok _ dest p m Hh Hm Hgt) as [Hh' Hm']. cbv zeta in Hh', Hm'.
    assert (Hei : e <> (dest + 1) mod n) by (intros ->; lia).
    destruct (IH (mk_map (<[Z.to_nat dest := mk_slot (key (map_slots map) ((dest + 1) mod n))
      (sl_data (get (map_slots map) ((dest + 1) mod n))) (psl (map_slots map) ((dest + 1) mod n) - 1)]> (map_slots map))
      (map_seed map) (Map.map_size map) (map_hashbits map)) ((dest + 1) mod n) (psl (map_slots map) ((dest + 1) mod n)))
      as (t' & Hrun & Ht' & Hm2); try done.
    + unfold psl. cbn. rewrite get_insert by lia. by rewrite decide_False.
    + rewrite (ring_dist n) by (try lia; auto). lia.
    + exists t'. split; [exact Hrun|]. done.
Qed.

(** A full table with the slot of a key as a hole. *)
Lemma open_hole t m j :
  table_ok t -> rep full t m -> 0 <= j < n -> 0 < psl t j ->
  hole_ok t j (psl t j) /\ rep (eq j) t (delete (key t j) m).
Proof.
  intros [He Ho] Hm Hj Hp. split; [split; [done|split|..]|].
  - apply He.
  - apply He.
  - intros i Hi _. apply (eo_home _ _ He); auto.
  - intros i i' Hi Hi' _ _. apply (eo_inj _ _ He); auto.
  - intros i Hi _. apply (eo_data _ _ He); auto.
  - intros i Hi _ _. by apply Ho.
  - intros i Hi <-. pose proof (Ho i Hi) as H. unfold ordered_at in H. lia.
  - by apply Ho.
  - intros k v. rewrite lookup_delete_Some, (Hm k v). split.
    + intros (Hk & i & Hi & _ & Hpi & Hki & Hvi). exists i. split_and!; try done; try lia. intros <-. congruence.
    + intros (i & Hi & Hij & Hpi & Hki & Hvi). split; [|exists i; split_and!; auto; lia].
      intros <-. apply Hij. apply (eo_inj _ _ He); auto.
Qed.
End Table.

(** ** The operations *)
Section Ops.
Context {V : Type}.
Implicit Types (t : list (map_slot V)) (m : gmap Z V) (map : ngtcp2_map V) (k : Z) (v : V).
Abbreviation full := (fun _ : Z => False).

(** A map with [bits] bits whose table holds [m]. *)
Record table_of (bits seed : Z) map m : Prop := {
  tf_range : 1 <= bits <= 63;
  tf_bits : map_hashbits map = bits;
  tf_seed : map_seed map = seed;
  tf_table : table_ok bits seed (map_slots map);
  tf_rep : rep bits full (map_slots map) m;
  tf_room : Z.of_nat (size m) < 2 ^ bits;
}.

Lemma index_home bits seed map m k : table_of bits seed map m -> map_index map k = home bits seed k.
Proof. intros [_ Hb Hs _ _ _]. unfold map_index, home. by rewrite Hb, Hs. Qed.

Lemma mask_of bits seed map m : table_of bits seed map m -> map_mask map = 2 ^ bits - 1.
Proof. intros [_ Hb _ _ _ _]. unfold map_mask. by rewrite Hb. Qed.

Lemma slots_len bits seed map m : table_of bits seed map m -> Z.of_nat (length (map_slots map)) = 2 ^ bits.
Proof. intros [_ _ _ [He _] _ _]. apply (eo_len _ _ _ _ He). Qed.

Lemma first_place bits seed map m k :
  table_of bits seed map m -> place bits seed (home bits seed k) k 1 /\ behind bits (map_slots map) (home bits seed k) 1.
Proof.
  intros [Hr _ _ [He _] _ _]. pose proof (home_range bits seed Hr k) as Hh. pose proof (n_pos bits Hr). split.
  - split_and!; try lia. replace (home bits seed k + 1 - 1) with (home bits seed k) by lia. by rewrite Z.mod_small.
  - unfold behind. pose proof (eo_psl _ _ _ _ He _ (ring_range _ (n_pos bits Hr) (home bits seed k - 1))). lia.
Qed.

Lemma slot_of bits seed map m k v :
  table_of bits seed map m -> m !! k = Some v -> exists j, 0 <= j < 2 ^ bits /\ 0 < psl (map_slots map) j /\
    key (map_slots map) j = k /\ sl_data (get (map_slots map) j) = Some v /\ psl (map_slots map) j <= 2 ^ bits.
Proof.
  intros [Hr _ _ Ht Hm Hroom] (j & Hj & _ & Hp & Hk & Hv)%Hm. exists j. split_and!; try done; try lia.
  destruct (psl_bound bits seed Hr (map_slots map) m j k (psl (map_slots map) j) Ht Hm Hroom) as [_ H]; [..|done].
  - split_and!; try lia. rewrite <- Hk. apply (eo_home _ _ _ _ (to_entries _ _ _ Ht)); auto.
  - unfold behind. pose proof (to_order _ _ _ Ht _ (ring_range _ (n_pos bits Hr) (j - 1))) as Ho. unfold ordered_at in Ho.
    rewrite ring_next in Ho by apply (n_pos bits Hr). replace (j - 1 + 1) with j in Ho by lia.
    rewrite (ring_small _ j) in Ho by lia. lia.
Qed.

Lemma empty_of bits seed map m i :
  table_of bits seed map m -> exists e, 0 <= e < 2 ^ bits /\ psl (map_slots map) e = 0 /\
    (e - i) mod 2 ^ bits < Z.of_nat (S (length (map_slots map))).
Proof.
  intros Htf. pose proof (slots_len _ _ _ _ Htf) as Hl. destruct Htf as [Hr _ _ [He Ho] Hm Hroom].
  destruct (empty_slot bits seed Hr _ m He Hm Hroom) as (e & Her & Hp). exists e. split_and!; try done; try lia.
  pose proof (ring_range _ (n_pos bits Hr) (e - i)). lia.
Qed.

(** *** Search *)
Lemma probe_some bits seed map m k v :
  table_of bits seed map m -> m !! k = Some v -> exists j,
    map_probe (S (length (map_slots map))) map (map_index map k) (map_mask map) k 1 = Ok (Some j) /\
    0 <= j < 2 ^ bits /\ 0 < psl (map_slots map) j /\ key (map_slots map) j = k /\ sl_data (get (map_slots map) j) = Some v.
Proof.
  intros Htf Hk. destruct (slot_of _ _ _ _ _ _ Htf Hk) as (j & Hj & Hp & Hkj & Hv & Hle). exists j. split; [|done].
  rewrite (index_home _ _ _ _ _ Htf), (mask_of _ _ _ _ Htf). destruct (first_place _ _ _ _ k Htf) as [Hpl _].
  pose proof (slots_len _ _ _ _ Htf). destruct Htf as [Hr _ _ Ht Hm Hroom].
  eapply (probe_present bits seed Hr); eauto; lia.
Qed.

Lemma probe_none bits seed map m k :
  table_of bits seed map m -> m !! k = None ->
  map_probe (S (length (map_slots map))) map (map_index map k) (map_mask map) k 1 = Ok None.
Proof.
  intros Htf Hk. rewrite (index_home _ _ _ _ _ Htf), (mask_of _ _ _ _ Htf). destruct (first_place _ _ _ _ k Htf) as [Hpl _].
  destruct (empty_of _ _ _ _ (home bits seed k) Htf) as (e & He & Hp & Hf). destruct Htf as [Hr _ _ Ht Hm Hroom].
  eapply (probe_absent bits seed Hr); eauto.
Qed.

(** *** Insertion into the table *)
Lemma map_insert_new bits seed map m k v :
  table_of bits seed map m -> m !! k = None -> Z.of_nat (size m) + 1 < 2 ^ bits -> Z.of_nat (size m) <= 254 ->
  exists idx t', Map.map_insert map k (Some v) = Ok (idx, mk_map t' seed (Map.map_size map + 1) bits) /\ 0 <= idx < 2 ^ bits /\
    forall sz, table_of bits seed (mk_map t' seed sz bits) (<[k := v]> m).
Proof.
  intros Htf Hk Hroom' H254. unfold Map.map_insert. rewrite (index_home _ _ _ _ _ Htf), (mask_of _ _ _ _ Htf).
  destruct (first_place _ _ _ _ k Htf) as [Hpl Hbe]. destruct (empty_of _ _ _ _ (home bits seed k) Htf) as (e & He & Hp & Hf).
  destruct Htf as [Hr Hb Hs Ht Hm Hroom].
  destruct (insert_absent bits seed Hr (S (length (map_slots map))) map m (home bits seed k) k v 1 e) as (idx & t' & -> & Hi & Ht' & Hm');
    try done. exists idx, t'. rewrite Hb, Hs. split; [done|]. split; [done|]. intros sz. split; cbn; try done.
  rewrite map_size_insert_None by done. lia.
Qed.

Lemma map_insert_dup bits seed map m k v d :
  table_of bits seed map m -> m !! k = Some v -> Map.map_insert map k d = Ok (NGTCP2_ERR_INVALID_ARGUMENT, map).
Proof.
  intros Htf Hk. unfold Map.map_insert. destruct (slot_of _ _ _ _ _ _ Htf Hk) as (j & Hj & Hp & Hkj & Hv & Hle).
  rewrite (index_home _ _ _ _ _ Htf), (mask_of _ _ _ _ Htf). destruct (first_place _ _ _ _ k Htf) as [Hpl _].
  pose proof (slots_len _ _ _ _ Htf). destruct Htf as [Hr _ _ Ht Hm Hroom].
  eapply (insert_present bits seed Hr); eauto; lia.
Qed.

(** *** Growing *)
Definition slot_entry (s : map_slot V) : option (Z * V) :=
  if sl_psl s =? 0 then None else v ← sl_data s; Some (sl_key s, v).

Definition entries t : list (Z * V) := omap slot_entry t.

Lemma entries_cons s t : entries (s :: t) = match slot_entry s with Some x => x :: entries t | None => entries t end.
Proof. done. Qed.

Lemma entries_keys t :
  (forall i j s s', t !! i = Some s -> t !! j = Some s' -> sl_psl s <> 0 -> sl_psl s' <> 0 -> sl_key s = sl_key s' -> i = j) ->
  NoDup (entries t).*1.
Proof.
  induction t as [|s t IH]; intros Hinj; [constructor|].
  assert (Ht : NoDup (entries t).*1).
  { apply IH. intros i j s1 s2 H1 H2 Hp1 Hp2 E. specialize (Hinj (S i) (S j) s1 s2 H1 H2 Hp1 Hp2 E). by injection Hinj. }
  rewrite entries_cons. unfold slot_entry. destruct (Z.eqb_spec (sl_psl s) 0) as [|Hp]; [done|].
  destruct (sl_data s) as [v|]; [|done]. cbn. constructor; [|done].
  intros ([k' v'] & Hk & Hin)%list_elem_of_fmap. cbn in Hk.
  apply list_elem_of_omap in Hin as (s' & Hs' & He). apply list_elem_of_lookup in Hs' as [i Hi].
  unfold slot_entry in He. destruct (Z.eqb_spec (sl_psl s') 0) as [|Hp']; [done|]. destruct (sl_data s'); [|done].
  cbn in He. injection He as Hk' _. by specialize (Hinj 0%nat (S i) s s' eq_refl Hi Hp Hp' ltac:(congruence)).
Qed.

Lemma get_lookup t i s : t !! i = Some s -> get t (Z.of_nat i) = s.
Proof. intros H. unfold get. by rewrite Nat2Z.id, H. Qed.

Lemma entries_spec bits seed map m :
  table_of bits seed map m -> NoDup (entries (map_slots map)).*1 /\ list_to_map (entries (map_slots map)) = m /\
    Forall (fun s => sl_psl s <> 0 -> is_Some (sl_data s)) (map_slots map).
Proof.
  intros Htf. pose proof (slots_len _ _ _ _ Htf) as Hlen. destruct Htf as [Hr _ _ [He _] Hm _].
  assert (Hin : forall i s, map_slots map !! i = Some s ->
    0 <= Z.of_nat i < 2 ^ bits /\ get (map_slots map) (Z.of_nat i) = s /\ (sl_psl s <> 0 -> 0 < psl (map_slots map) (Z.of_nat i))).
  { intros i s Hs. pose proof (lookup_lt_Some _ _ _ Hs). assert (Hir : 0 <= Z.of_nat i < 2 ^ bits) by lia.
    pose proof (eo_psl _ _ _ _ He _ Hir) as Hp. pose proof (get_lookup _ _ _ Hs) as Hg. split_and!; try done; try lia.
    unfold psl in *. rewrite Hg in *. lia. }
  assert (Hnd : NoDup (entries (map_slots map)).*1).
  { apply entries_keys. intros i j s s' Hs Hs' Hp Hp' E. destruct (Hin i s Hs) as (Hi & Hg & Hpi).
    destruct (Hin j s' Hs') as (Hj & Hg' & Hpj). apply Nat2Z.inj. apply (eo_inj _ _ _ _ He); auto.
    unfold key. by rewrite Hg, Hg'. }
  split_and!; [done| |].
  - apply map_eq. intros k. apply option_eq. intros v. rewrite <- elem_of_list_to_map by done. rewrite (Hm k v). split.
    + intros (s & Hs & Hse)%list_elem_of_omap. apply list_elem_of_lookup in Hs as [i Hs].
      unfold slot_entry in Hse. destruct (Z.eqb_spec (sl_psl s) 0) as [|Hp]; [done|].
      destruct (sl_data s) as [v'|] eqn:Hd; [|done]. cbn in Hse. injection Hse as Hk Hv.
      destruct (Hin i s Hs) as (Hi & Hg & Hpi). exists (Z.of_nat i). unfold key. rewrite Hg. split_and!; auto; try lia. congruence.
    + intros (j & Hj & _ & Hp & Hk & Hv). apply list_elem_of_omap. exists (get (map_slots map) j). split.
      * destruct (lookup_lt_is_Some_2 (map_slots map) (Z.to_nat j)) as [s Hs]; [lia|]. unfold get. rewrite Hs.
        by eapply list_elem_of_lookup_2.
      * unfold slot_entry. unfold psl in Hp. rewrite (proj2 (Z.eqb_neq _ 0)) by lia. rewrite Hv. cbn. by rewrite <- Hk.
  - apply Forall_lookup. intros i s Hs Hp. destruct (Hin i s Hs) as (Hi & Hg & Hpi). rewrite <- Hg.
    apply (eo_data _ _ _ _ He); auto.
Qed.

Lemma reinsert_ok bits seed slots t sz m :
  (forall sz, table_of bits seed (mk_map t seed sz bits) m) -> NoDup (entries slots).*1 ->
  (forall x, x ∈ (entries slots).*1 -> m !! x = None) -> Forall (fun s => sl_psl s <> 0 -> is_Some (sl_data s)) slots ->
  Z.of_nat (size m + length (entries slots)) < 2 ^ bits -> Z.of_nat (size m + length (entries slots)) <= 255 ->
  exists t' sz', map_reinsert slots (mk_map t seed sz bits) = Ok (mk_map t' seed sz' bits) /\
    forall sz, table_of bits seed (mk_map t' seed sz bits) (list_to_map (entries slots) ∪ m).
Proof.
  revert t sz m. induction slots as [|s slots IH]; intros t sz m Ht Hnd Hfr Hd Hroom H254.
  { exists t, sz. split; [done|]. intros sz'. cbn. by rewrite (left_id_L ∅ (∪)). }
  apply Forall_cons in Hd as [Hs Hd]. rewrite entries_cons in *. unfold slot_entry in *. cbn [map_reinsert].
  destruct (Z.eqb_spec (sl_psl s) 0) as [|Hp]; [by apply IH|]. destruct (Hs Hp) as [v Hv]. rewrite Hv in *. cbn in Hnd, Hfr, Hroom, H254.
  apply NoDup_cons in Hnd as [Hk Hnd].
  assert (Hm : m !! sl_key s = None) by (apply Hfr, elem_of_cons; by left).
  destruct (map_insert_new bits seed (mk_map t seed sz bits) m (sl_key s) v (Ht sz) Hm) as (idx & t' & -> & Hidx & Ht'); [lia|lia|].
  cbn [bind Map.map_size]. rewrite (proj2 (Z.leb_le 0 idx)) by lia.
  destruct (IH t' (sz + 1) (<[sl_key s := v]> m)) as (t2 & sz2 & Hrun & Ht2); try done.
  - intros x Hx. rewrite lookup_insert_ne by (by intros <-). apply Hfr, elem_of_cons. by right.
  - rewrite map_size_insert_None by done. lia.
  - rewrite map_size_insert_None by done. lia.
  - exists t2, sz2. split; [exact Hrun|]. intros sz'. cbn. rewrite <- insert_union_l.
    replace (<[sl_key s:=v]> (list_to_map (entries slots) ∪ m)) with (list_to_map (entries slots) ∪ <[sl_key s:=v]> m); [done|].
    rewrite <- insert_union_r; [done|]. by apply not_elem_of_list_to_map_1.
Qed.

(** A table without entries. *)
Lemma zero_table bits seed sz t :
  1 <= bits <= 63 -> zlen t = 2 ^ bits -> Forall (fun s => sl_psl s = 0) t -> table_of bits seed (mk_map t seed sz bits) ∅.
Proof.
  intros Hr Hlen Hz. pose proof (n_pos bits Hr) as Hn.
  assert (Hpsl : forall i, psl t i = 0).
  { intros i. unfold psl, get. destruct (t !! Z.to_nat i) as [s|] eqn:E; [|done]. by apply (proj1 (Forall_lookup _ _) Hz _ _ E). }
  split; cbn; [done..| | |rewrite map_size_empty; cbn; lia].
  - split; [split|].
    + done.
    + intros i Hi. rewrite Hpsl. lia.
    + intros i Hi _. rewrite Hpsl. lia.
    + intros i j Hi Hj _ _. rewrite Hpsl. lia.
    + intros i Hi _. rewrite Hpsl. lia.
    + intros i Hi. unfold ordered_at. rewrite !Hpsl. lia.
  - intros k v. rewrite lookup_empty. split; [done|]. intros (i & _ & _ & Hp & _). by rewrite Hpsl in Hp.
Qed.

Lemma fresh_table bits seed sz :
  1 <= bits <= 63 -> table_of bits seed (mk_map (replicate (Z.to_nat (2 ^ bits)) (mk_slot 0 None 0)) seed sz bits) ∅.
Proof.
  intros Hr. apply zero_table; [done| |by apply Forall_replicate]. rewrite zlen_replicate. pose proof (n_pos bits Hr). lia.
Qed.

(** *** The map *)
Definition map_ok map m : Prop :=
  Map.map_size map = Z.of_nat (size m) /\
  (map_hashbits map = 0 /\ m = ∅ \/
   exists bits, 4 <= bits /\ table_of bits (map_seed map) map m /\ Z.of_nat (size m) < 2 ^ bits - Z.shiftr (2 ^ bits) 3).

Lemma resize_ok mem_ok map m bits' :
  map_ok map m -> Z.of_nat (size m) <= 255 -> 4 <= bits' -> Z.of_nat (size m) < 2 ^ bits' ->
  map_resize mem_ok map bits' = Ok (NGTCP2_ERR_NOMEM, map) /\ (mem_ok = false \/ 63 < bits') \/
  exists t', map_resize mem_ok map bits' = Ok (0, mk_map t' (map_seed map) (Map.map_size map) bits') /\ bits' <= 63 /\
    forall sz, table_of bits' (map_seed map) (mk_map t' (map_seed map) sz bits') m.
Proof.
  intros [Hsz Hok] H254 Hb Hroom. unfold map_resize. change NGTCP2_MAP_MAX_HASHBITS with 63.
  destruct (Z.ltb_spec 63 bits') as [|Hb63]; [left; auto|]. destruct mem_ok; cbn [negb]; [right|left; auto].
  rewrite Hsz. destruct (Z.eqb_spec (Z.of_nat (size m)) 0) as [E|E]; cbn [negb].
  - cbn [bind]. eexists. split; [reflexivity|]. split; [done|]. intros sz.
    assert (m = ∅) as -> by (apply map_size_empty_inv; lia). apply fresh_table. lia.
  - destruct Hok as [(_ & ->)|(bits & _ & Htf & _)]; [by rewrite map_size_empty in E|].
    destruct (entries_spec _ _ _ _ Htf) as (Hnd & Hl & Hd).
    pose proof (map_size_list_to_map (M := gmap Z) (entries (map_slots map)) Hnd) as Hsl. rewrite Hl in Hsl.
    destruct (reinsert_ok bits' (map_seed map) (map_slots map) (replicate (Z.to_nat (2 ^ bits')) (mk_slot 0 None 0)) 0 ∅)
      as (t' & sz' & -> & Ht'); try done.
    + intros sz. apply fresh_table. lia.
    + rewrite map_size_empty. lia.
    + rewrite map_size_empty. lia.
    + cbn [bind]. exists t'. split; [done|]. split; [done|]. intros sz. specialize (Ht' sz).
      by rewrite Hl, (right_id_L ∅ (∪)) in Ht'.
Qed.

Lemma load_factor bits s : 4 <= bits -> s + 1 < 2 ^ bits - Z.shiftr (2 ^ bits) 3 -> s + 1 < 2 ^ bits.
Proof. intros Hb. rewrite Z.shiftr_div_pow2 by lia. pose proof (Z.div_pos (2 ^ bits) (2 ^ 3)). lia. Qed.

Lemma load_factor_double bits s :
  4 <= bits -> s < 2 ^ bits - Z.shiftr (2 ^ bits) 3 -> s + 1 < 2 ^ (bits + 1) - Z.shiftr (2 ^ (bits + 1)) 3.
Proof.
  intros Hb. rewrite !Z.shiftr_div_pow2 by lia. replace bits with (3 + (bits - 3)) by lia.
  replace (3 + (bits - 3) + 1) with (3 + (bits - 3 + 1)) by lia.
  rewrite !(Z.pow_add_r 2 3) by lia. rewrite !(Z.mul_comm (2 ^ 3)), !Z.div_mul by lia. rewrite (Z.pow_add_r 2 (bits - 3) 1) by lia.
  assert (1 <= 2 ^ (bits - 3)) by (pose proof (Z.pow_pos_nonneg 2 (bits - 3)); lia). lia.
Qed.

(** The outcome of an insertion. *)
Definition insert_spec mem_ok map m k v (rv : Z) m' : Prop :=
  m !! k = None /\ rv = 0 /\ m' = <[k := v]> m \/
  is_Some (m !! k) /\ rv = NGTCP2_ERR_INVALID_ARGUMENT /\ m' = m \/
  rv = NGTCP2_ERR_NOMEM /\ (mem_ok = false \/ 63 <= map_hashbits map) /\ (m' = m \/ m !! k = None /\ m' = <[k := v]> m).

(** [map_insert] into a table with room. *)
Lemma insert_in_table bits map m k v :
  4 <= bits -> table_of bits (map_seed map) map m -> Map.map_size map = Z.of_nat (size m) ->
  Z.of_nat (size m) + 1 < 2 ^ bits - Z.shiftr (2 ^ bits) 3 -> Z.of_nat (size m) <= 254 ->
  exists idx map', Map.map_insert map k (Some v) = Ok (idx, map') /\ map_seed map' = map_seed map /\ map_hashbits map' = bits /\
    (m !! k = None /\ 0 <= idx < 2 ^ bits /\ map_ok map' (<[k := v]> m) /\ table_of bits (map_seed map) map' (<[k := v]> m) \/
     is_Some (m !! k) /\ idx = NGTCP2_ERR_INVALID_ARGUMENT /\ map' = map).
Proof.
  intros Hb Htf Hsz Hl H254. destruct (m !! k) as [v0|] eqn:Hk.
  - rewrite (map_insert_dup _ _ _ _ _ _ _ Htf Hk). exists NGTCP2_ERR_INVALID_ARGUMENT, map. split_and!; [done|done|apply Htf|].
    right. split; [by eexists|done].
  - destruct (map_insert_new bits (map_seed map) map m k v Htf Hk) as (idx & t' & -> & Hi & Ht'); [by apply load_factor|lia|].
    do 2 eexists. split; [reflexivity|]. split; [done|]. split; [done|]. left. split_and!; try done; try lia.
    split; [cbn; rewrite map_size_insert_None by done; lia|]. right. exists bits. split_and!; [done|apply Ht'|].
    rewrite map_size_insert_None by done. lia.
Qed.

Lemma table_map_ok bits map m :
  4 <= bits -> table_of bits (map_seed map) map m -> Map.map_size map = Z.of_nat (size m) ->
  Z.of_nat (size m) < 2 ^ bits - Z.shiftr (2 ^ bits) 3 -> map_ok map m.
Proof. intros Hb Htf Hsz Hl. split; [done|]. right. by exists bits. Qed.

Lemma insert_ok mem_ok map m k v :
  map_ok map m -> Z.of_nat (size m) <= 254 ->
  exists rv map' m', ngtcp2_map_insert mem_ok map k (Some v) = Ok (rv, map') /\ map_ok map' m' /\ insert_spec mem_ok map m k v rv m'.
Proof.
  intros Hok H254. pose proof Hok as [Hsz Hcase]. unfold ngtcp2_map_insert.
  destruct (Z.leb_spec (2 ^ map_hashbits map - Z.shiftr (2 ^ map_hashbits map) 3) (Map.map_size map + 1)) as [Hge|Hlt].
  - set (bits' := if negb (map_hashbits map =? 0) then map_hashbits map + 1 else NGTCP2_INITIAL_HASHBITS).
    assert (Hb' : 4 <= bits' /\ Z.of_nat (size m) + 1 < 2 ^ bits' - Z.shiftr (2 ^ bits') 3 /\
      (63 < bits' -> 63 <= map_hashbits map)).
    { subst bits'. destruct Hcase as [(Hb & ->)|(bits & Hb & Htf & Hl)].
      - rewrite Hb, map_size_empty. cbn. unfold NGTCP2_INITIAL_HASHBITS. split_and!; [lia|done|lia].
      - rewrite (tf_bits _ _ _ _ Htf) in *. rewrite (proj2 (Z.eqb_neq bits 0)) by lia. cbn [negb].
        split_and!; [lia|by apply load_factor_double|lia]. }
    destruct Hb' as (Hb4 & Hroom & H63). clearbody bits'.
    destruct (resize_ok mem_ok map m bits' Hok ltac:(lia) Hb4) as [[-> Hm]|(t' & -> & Hb63 & Ht')].
    { apply load_factor in Hroom; lia. }
    + cbn [bind negb Z.eqb NGTCP2_ERR_NOMEM]. exists NGTCP2_ERR_NOMEM, map, m. split_and!; [done|done|]. right. right.
      split_and!; [done|destruct Hm as [?|?%H63]; auto|by left].
    + cbn [bind negb Z.eqb]. set (map1 := mk_map t' (map_seed map) (Map.map_size map) bits').
      destruct (insert_in_table bits' map1 m k v Hb4 (Ht' _) Hsz Hroom H254)
        as (idx & map' & -> & _ & _ & [(Hk & Hi & Hok' & _)|(Hk & -> & ->)]); cbn [bind].
      * rewrite (proj2 (Z.ltb_ge idx 0)) by lia. exists 0, map', (<[k := v]> m). split_and!; [done|done|]. by left.
      * cbn [Z.ltb Z.compare NGTCP2_ERR_INVALID_ARGUMENT]. exists NGTCP2_ERR_INVALID_ARGUMENT, map1, m. split_and!; [done| |].
        -- apply (table_map_ok bits'); [done|apply Ht'|exact Hsz|lia].
        -- right. by left.
  - destruct Hcase as [(Hb & ->)|(bits & Hb & Htf & Hl)].
    { rewrite Hsz, Hb, map_size_empty in Hlt. by cbn in Hlt. }
    rewrite (tf_bits _ _ _ _ Htf) in Hlt.
    destruct (insert_in_table bits map m k v Hb Htf Hsz ltac:(lia) H254)
      as (idx & map' & -> & Hseed & Hbits & [(Hk & Hi & Hok' & Htf')|(Hk & -> & ->)]); cbn [bind].
    + rewrite (proj2 (Z.ltb_ge idx 0)) by lia. rewrite load_get by (unfold zlen; rewrite (slots_len _ _ _ _ Htf'); lia).
      cbn [bind]. destruct (_ <? NGTCP2_MAX_PSL_RESIZE_THRESH).
      { exists 0, map', (<[k := v]> m). split_and!; [done|done|]. by left. }
      assert (Hs' : Z.of_nat (size (<[k := v]> m)) = Z.of_nat (size m) + 1) by (rewrite map_size_insert_None by done; lia).
      rewrite Hbits. destruct (resize_ok mem_ok map' (<[k := v]> m) (bits + 1) Hok' ltac:(lia) ltac:(lia))
        as [[-> Hm]|(t' & -> & Hb63 & Ht')].
      * apply load_factor_double, load_factor in Hl; lia.
      * exists NGTCP2_ERR_NOMEM, map', (<[k := v]> m). split_and!; [done|done|]. right. right.
        split_and!; [done| |by right]. rewrite (tf_bits _ _ _ _ Htf). destruct Hm; [by left|right; lia].
      * do 3 eexists. split; [reflexivity|]. split; [|by left].
        apply (table_map_ok (bits + 1)); [lia|apply Ht'|apply Hok'|].
        rewrite Hs'. by apply load_factor_double.
    + cbn [Z.ltb Z.compare NGTCP2_ERR_INVALID_ARGUMENT]. exists NGTCP2_ERR_INVALID_ARGUMENT, map, m. split_and!; [done|done|].
      right. by left.
Qed.

Lemma find_ok map m k : map_ok map m -> ngtcp2_map_find map k = Ok (m !! k).
Proof.
  intros [Hsz Hcase]. unfold ngtcp2_map_find. rewrite Hsz. destruct (Z.eqb_spec (Z.of_nat (size m)) 0) as [E|E].
  - assert (m = ∅) as -> by (apply map_size_empty_inv; lia). by rewrite lookup_empty.
  - destruct Hcase as [(_ & ->)|(bits & _ & Htf & _)]; [by rewrite map_size_empty in E|].
    destruct (m !! k) as [v|] eqn:Hk.
    + destruct (probe_some _ _ _ _ _ _ Htf Hk) as (j & -> & Hj & _ & _ & Hv). cbn [bind].
      rewrite load_get by (unfold zlen; rewrite (slots_len _ _ _ _ Htf); lia). cbn [bind]. by rewrite Hv.
    + by rewrite (probe_none _ _ _ _ _ Htf Hk).
Qed.

Lemma remove_ok map m k :
  map_ok map m -> exists rv map', ngtcp2_map_remove map k = Ok (rv, map') /\ map_ok map' (delete k m) /\
    rv = if decide (is_Some (m !! k)) then 0 else NGTCP2_ERR_INVALID_ARGUMENT.
Proof.
  intros Hok. pose proof Hok as [Hsz Hcase]. unfold ngtcp2_map_remove. rewrite Hsz.
  destruct (Z.eqb_spec (Z.of_nat (size m)) 0) as [E|E].
  - assert (m = ∅) as -> by (apply map_size_empty_inv; lia). do 2 eexists. split; [reflexivity|].
    rewrite delete_empty, lookup_empty. split; [done|]. rewrite decide_False; [done|]. by intros [? ?].
  - destruct Hcase as [(_ & ->)|(bits & Hb & Htf & Hl)]; [by rewrite map_size_empty in E|]. cbv zeta.
    destruct (m !! k) as [v|] eqn:Hk.
    + destruct (probe_some _ _ _ _ _ _ Htf Hk) as (j & -> & Hj & Hp & Hkj & Hv). cbn [bind].
      pose proof (slots_len _ _ _ _ Htf) as Hlen. rewrite (mask_of _ _ _ _ Htf). destruct Htf as [Hr Hbits _ Ht Hm Hroom].
      rewrite land_ring by lia.
      destruct (open_hole bits (map_seed map) (map_slots map) m j Ht Hm Hj Hp) as [Hh Hm']. rewrite Hkj in Hm'.
      destruct (empty_slot bits (map_seed map) Hr _ m (to_entries _ _ _ Ht) Hm Hroom) as (e & He & Hpe).
      destruct (shift_back_ok bits (map_seed map) Hr (S (length (map_slots map))) map j _ (delete k m) e Hh Hm' He)
        as (t' & -> & Ht' & Hm2); [intros ->; lia|done| |].
      { pose proof (ring_range _ (n_pos bits Hr) (e - (j + 1) mod 2 ^ bits)). lia. }
      cbn [bind]. assert (Hsd : (S (size (delete k m)) = size m)%nat).
      { rewrite map_size_delete_Some by (by eexists). lia. }
      do 2 eexists. split; [reflexivity|]. rewrite decide_True by (by eexists). split; [|done].
      apply (table_map_ok bits); cbn; [done|split; cbn; try done; lia|lia|lia].
    + rewrite (probe_none _ _ _ _ _ Htf Hk). cbn [bind]. do 2 eexists. split; [reflexivity|].
      rewrite delete_id by done. split; [done|]. rewrite decide_False; [done|]. by intros [? ?].
Qed.

Lemma clear_ok map m : map_ok map m -> map_ok (ngtcp2_map_clear map) ∅.
Proof.
  intros [Hsz Hcase]. unfold ngtcp2_map_clear. rewrite Hsz. destruct (Z.eqb_spec (Z.of_nat (size m)) 0) as [E|E].
  - assert (m = ∅) as -> by (apply map_size_empty_inv; lia). by split.
  - destruct Hcase as [(_ & ->)|(bits & Hb & Htf & Hl)]; [by rewrite map_size_empty in E|].
    pose proof (slots_len _ _ _ _ Htf) as Hlen. pose proof (tf_bits _ _ _ _ Htf) as Hbits.
    apply (table_map_ok bits); cbn; rewrite ?map_size_empty; try done.
    + rewrite Hbits. apply zero_table; [apply Htf| |].
      * unfold zlen. by rewrite length_map.
      * apply Forall_fmap. by apply Forall_true.
    + lia.
Qed.

(** The callback is called for the values until it returns nonzero. *)
Fixpoint each_value {S : Type} (func : option V -> S -> Z * S) (vs : list V) (ptr : S) : Z * S :=
  match vs with
  | [] => (0, ptr)
  | v :: vs => let (rv, ptr) := func (Some v) ptr in if negb (rv =? 0) then (rv, ptr) else each_value func vs ptr
  end.

Lemma each_ok {S : Type} (func : option V -> S -> Z * S) map m (ptr : S) :
  map_ok map m -> exists vs, Permutation vs (map_to_list m).*2 /\ ngtcp2_map_each func map ptr = each_value func vs ptr.
Proof.
  intros [Hsz Hcase]. unfold ngtcp2_map_each. rewrite Hsz. destruct (Z.eqb_spec (Z.of_nat (size m)) 0) as [E|E].
  - assert (m = ∅) as -> by (apply map_size_empty_inv; lia). exists []. by rewrite map_to_list_empty.
  - destruct Hcase as [(_ & ->)|(bits & _ & Htf & _)]; [by rewrite map_size_empty in E|].
    destruct (entries_spec _ _ _ _ Htf) as (Hnd & Hl & Hd). exists (entries (map_slots map)).*2. split.
    + apply fmap_Permutation. rewrite <- Hl. by rewrite map_to_list_to_map.
    + clear -Hd. revert ptr. induction (map_slots map) as [|s t IH]; intros ptr; [done|].
      apply Forall_cons in Hd as [Hs Hd]. rewrite entries_cons. unfold slot_entry. cbn [map_each_loop].
      destruct (Z.eqb_spec (sl_psl s) 0) as [|Hp]; [by apply IH|]. destruct (Hs Hp) as [v Hv]. rewrite Hv. cbn.
      destruct (func (Some v) ptr) as [rv ptr']. destruct (negb (rv =? 0)); [done|]. by apply IH.
Qed.
End Ops.

(** ** Properties *)
Inductive map_op (V : Type) :=
| MInsert (mem_ok : bool) (k : Z) (v : V)
| MFind (k : Z)
| MRemove (k : Z)
| MClear
| MSize
| MEach.
Arguments MInsert {V} mem_ok k v.
Arguments MFind {V} k.
Arguments MRemove {V} k.
Arguments MClear {V}.
Arguments MSize {V}.
Arguments MEach {V}.

(** A return value or size, the pointer that was found, or the pointers that
    [ngtcp2_map_each] visited. *)
Inductive map_ans (V : Type) :=
| ARv (rv : Z)
| AData (d : option V)
| AList (l : list (option V)).
Arguments ARv {V} rv.
Arguments AData {V} d.
Arguments AList {V} l.

Definition collect {V : Type} (d : option V) (l : list (option V)) : Z * list (option V) := (0, l ++ [d]).

Definition map_exec {V : Type} (op : map_op V) (map : ngtcp2_map V) : res (map_ans V * ngtcp2_map V) :=
  match op with
  | MInsert mem_ok k v => let* (rv, map) := ngtcp2_map_insert mem_ok map k (Some v) in Ok (ARv rv, map)
  | MFind k => let* d := ngtcp2_map_find map k in Ok (AData d, map)
  | MRemove k => let* (rv, map) := ngtcp2_map_remove map k in Ok (ARv rv, map)
  | MClear => Ok (ARv 0, ngtcp2_map_clear map)
  | MSize => Ok (ARv (ngtcp2_map_size map), map)
  | MEach => Ok (AList (ngtcp2_map_each collect map []).2, map)
  end.

(** What an operation answers and does, on a finite map. *)
Definition map_spec {V : Type} (op : map_op V) (map : ngtcp2_map V) (m : gmap Z V) (ans : map_ans V) (m' : gmap Z V) : Prop :=
  match op with
  | MInsert mem_ok k v => exists rv, ans = ARv rv /\ insert_spec mem_ok map m k v rv m'
  | MFind k => ans = AData (m !! k) /\ m' = m
  | MRemove k =>
      ans = ARv (if decide (is_Some (m !! k)) then 0 else NGTCP2_ERR_INVALID_ARGUMENT) /\ m' = delete k m
  | MClear => ans = ARv 0 /\ m' = ∅
  | MSize => ans = ARv (Z.of_nat (size m)) /\ m' = m
  | MEach => exists vs, ans = AList (Some <$> vs) /\ Permutation vs (map_to_list m).*2 /\ m' = m
  end.

(** The operations run and answer as on the finite map [m]; at most 255 keys
    are stored at a time. *)
Fixpoint agrees {V : Type} (ops : list (map_op V)) (map : ngtcp2_map V) (m : gmap Z V) : Prop :=
  match ops with
  | [] => True
  | op :: ops =>
      match op with MInsert _ _ _ => (size m < 255)%nat | _ => True end ->
      exists ans map' m', map_exec op map = Ok (ans, map') /\ map_spec op map m ans m' /\ agrees ops map' m'
  end.

Lemma collect_all {V : Type} (vs : list V) (acc : list (option V)) :
  (each_value collect vs acc).2 = acc ++ (Some <$> vs).
Proof.
  revert acc. induction vs as [|v vs IH]; intros acc; cbn; [by rewrite app_nil_r|]. rewrite IH. by rewrite <- app_assoc.
Qed.

Lemma exec_ok {V : Type} (op : map_op V) (map : ngtcp2_map V) (m : gmap Z V) :
  map_ok map m -> match op with MInsert _ _ _ => (size m < 255)%nat | _ => True end ->
  exists ans map' m', map_exec op map = Ok (ans, map') /\ map_spec op map m ans m' /\ map_ok map' m'.
Proof.
  intros Hok Hs. destruct op as [mem_ok k v|k|k| | |]; cbn [map_exec map_spec].
  - destruct (insert_ok mem_ok map m k v Hok) as (rv & map' & m' & -> & ? & ?); [lia|]. cbn [bind]. eauto 10.
  - rewrite (find_ok map m k Hok). cbn [bind]. eauto 10.
  - destruct (remove_ok map m k Hok) as (rv & map' & -> & ? & ->). cbn [bind]. eauto 10.
  - pose proof (clear_ok map m Hok). eauto 10.
  - unfold ngtcp2_map_size. rewrite (proj1 Hok). eauto 10.
  - destruct (each_ok collect map m [] Hok) as (vs & Hvs & ->). rewrite collect_all. eauto 10.
Qed.

(** C36: the hash map is a finite map.  Every sequence of insertions,
    searches, removals, clears and traversals, from an empty map with any
    seed, runs without fault or endless loop and answers as the finite map
    does, as long as at most 255 keys are stored: an insertion of a present
    key is refused and changes nothing, [NGTCP2_ERR_NOMEM] is returned only
    if an allocation fails or the table has 2^63 slots already, and a
    traversal visits every value once. *)
Theorem map_refines_gmap {V : Type} (seed : Z) (ops : list (map_op V)) : agrees ops (ngtcp2_map_init seed) ∅.
Proof.
  assert (Hok : map_ok (ngtcp2_map_init (V := V) seed) ∅) by (split; [done|by left]). revert Hok.
  generalize (ngtcp2_map_init (V := V) seed) as map. generalize (∅ : gmap Z V) as m.
  induction ops as [|op ops IH]; intros m map Hok; [done|]. cbn [agrees]. intros Hs.
  destruct (exec_ok op map m Hok Hs) as (ans & map' & m' & Hrun & Hspec & Hok'). exists ans, map', m'. auto.
Qed.

(** *** More than 255 keys

    The distances are bytes, and an insertion checks only the distance of the
    entry it displaced last.  With keys that hash to the first slot, and two
    entries behind them that are displaced by each insertion, the distance of
    the 256th key wraps to 0: its slot counts as empty, and the entries behind
    it are unreachable. *)

(** The key with the hash [h] for the seed 0. *)
Definition key_with_hash (h : Z) : Z := u64 (h * 0x38fdfb4dcd025319).

Definition colliding : list Z := map key_with_hash ([100 * 2 ^ 55; 200 * 2 ^ 55] ++ map Z.of_nat (seq 0 256)).

Fixpoint insert_all (ks : list Z) (map : ngtcp2_map unit) : res (bool * ngtcp2_map unit) :=
  match ks with
  | [] => Ok (true, map)
  | k :: ks =>
      let* (rv, map) := ngtcp2_map_insert true map k (Some tt) in
      let* (ok, map) := insert_all ks map in
      Ok ((rv =? 0) && ok, map)
  end.

Lemma map_loses_keys :
  match insert_all colliding (ngtcp2_map_init 0) with
  | Ok (ok, map) => ok = true /\ ngtcp2_map_size map = 258 /\ ngtcp2_map_find map (key_with_hash 255) = Ok None /\
      ngtcp2_map_find map (key_with_hash (100 * 2 ^ 55)) = Ok None
  | _ => False
  end.
Proof. vm_compute. done. Qed.

(** An insertion that fails to grow the table returns [NGTCP2_ERR_NOMEM], but
    the key is in the map. *)
Lemma map_nomem_inserted :
  match insert_all (map (fun i => key_with_hash (Z.of_nat i)) (seq 0 128)) (ngtcp2_map_init 0) with
  | Ok (true, map) =>
      match ngtcp2_map_insert false map (key_with_hash 128) (Some tt) with
      | Ok (rv, map') =>
          rv = NGTCP2_ERR_NOMEM /\ ngtcp2_map_find map (key_with_hash 128) = Ok None /\
          ngtcp2_map_find map' (key_with_hash 128) = Ok (Some tt)
      | _ => False
      end
  | _ => False
  end.
Proof. vm_compute. done. Qed.
