(* ===== verification/ConnStream.v ===== *)
(** * Streams of a connection: [lib/ngtcp2_conn.c]

    The frames about streams that are received, the callbacks of the
    application and the calls it makes in them, opening and closing of
    streams, and flow control on the receiving side.

    The application is a parameter: what a callback returns, and the functions
    of the library it calls meanwhile, may depend on everything that happened
    before.  The events are recorded, so that what the application is given
    and asks for are statements about the record.  The map of streams is a
    finite map (see [MapSpec]); a stream is denoted by its id. *)

From S2P Require Import Prelude Const Conv Frame Reorder Ksl Gaptr Idtr Pq Strm StrmTx StrmSend Ratelim ConnCrypto.
From stdpp Require Import list gmap.
#[local] Open Scope Z_scope.
#[local] Set Warnings "-clear-no-such-hyp".

Definition NGTCP2_STREAM_DATA_FLAG_NONE : Z := 0x00.
Definition NGTCP2_STREAM_DATA_FLAG_FIN : Z := 0x01.
Definition NGTCP2_STREAM_DATA_FLAG_0RTT : Z := 0x02.
Definition NGTCP2_STREAM_CLOSE_FLAG_NONE : Z := 0x00.
Definition NGTCP2_STREAM_CLOSE_FLAG_APP_ERROR_CODE_SET : Z := 0x01.
Definition NGTCP2_CONN_FLAG_TLS_HANDSHAKE_COMPLETED : Z := 0x01.
Definition NGTCP2_FLOW_WINDOW_RTT_FACTOR : Z := 2.
Definition NGTCP2_FLOW_WINDOW_SCALING_FACTOR : Z := 2.
Definition NGTCP2_MAX_STREAMS : Z := Z.shiftl 1 60.
Definition NGTCP2_ERR_STREAM_ID_BLOCKED : Z := -206.
Definition NGTCP2_ERR_STREAM_NOT_FOUND : Z := -220.

(** What [ngtcp2_map_insert] does with the entry of a new stream: it is
    stored; there is no memory, and the map is as it was; or there is no
    memory for a larger table after a long probe sequence, and the error is
    returned with the entry stored ([lib/ngtcp2_map.c], the last line of the
    function). *)
Inductive map_mem := MapStored | MapFails | MapFailsStored.

(** What the application calls about streams, in a callback or between them.
    [AppSubmit]: [ngtcp2_conn_submit_stream_buf]; what it makes of the sending
    half, for which see [StrmSend], is any. *)
Inductive app_call :=
| AppOpenBidi (mem_strm : bool) (mem_map : map_mem)
| AppOpenUni (mem_strm : bool) (mem_map : map_mem)
| AppSubmit (mem_ok : bool) (stream_id flags : Z) (tx : strm_tx)
| AppShutdownStream (mem_rd mem_wr : bool) (stream_id app_error_code : Z)
| AppShutdownWrite (mem_ok : bool) (stream_id app_error_code : Z)
| AppShutdownRead (mem_ok : bool) (stream_id app_error_code : Z)
| AppExtendMaxStreamOffset (mem_ok : bool) (stream_id datalen : Z)
| AppExtendMaxOffset (datalen : Z)
| AppExtendMaxStreams (bidi : bool) (n : Z).

Inductive conn_event :=
| CbStreamOpen (stream_id : Z)
| CbRecvStreamData (flags stream_id offset : Z) (data : list Z)
| CbStreamReset (stream_id final_size app_error_code : Z)
| CbStreamClose (flags stream_id app_error_code : Z)
| CbExtendMaxStreamData (stream_id max_data : Z)
| CbExtendMaxLocalStreams (bidi : bool) (max_streams : Z)
| CbExtendMaxRemoteStreams (bidi : bool) (max_streams : Z)
| EvCall (call : app_call).

(** Connection-level flow control ([conn->rx], [conn->tx.last_max_data_ts]). *)
Record conn_rx := mk_rx {
  crx_offset : Z;
  crx_max_offset : Z;
  crx_unsent_max_offset : Z;
  crx_window : Z;
  crx_last_max_data_ts : Z;
}.

(** The streams of one kind that one side opens. *)
Record local_streams := mk_local { ls_next_stream_id : Z; ls_max_streams : Z }.
Record remote_streams := mk_remote { rs_max_streams : Z; rs_unsent_max_streams : Z; rs_idtr : ngtcp2_idtr }.

(** Transport parameters, settings, and whether the 1RTT keys are there. *)
Record conn_config := mk_config {
  cfg_local_bidi_local : Z;
  cfg_local_bidi_remote : Z;
  cfg_local_uni : Z;
  cfg_remote_bidi_local : Z;
  cfg_remote_bidi_remote : Z;
  cfg_remote_uni : Z;
  cfg_max_window : Z;
  cfg_max_stream_window : Z;
  cfg_1rtt_keys : bool;
}.

Record conn_state := mk_cs {
  cs_base : ngtcp2_conn;
  cs_config : conn_config;
  cs_strms : gmap Z ngtcp2_strm;
  cs_strmq : ngtcp2_pq;
  cs_rx : conn_rx;
  cs_local_bidi : local_streams;
  cs_local_uni : local_streams;
  cs_remote_bidi : remote_streams;
  cs_remote_uni : remote_streams;
  cs_log : list conn_event;
}.

Implicit Types (cs : conn_state) (strm : ngtcp2_strm) (sid : Z).

Definition set_base (base : ngtcp2_conn) cs : conn_state :=
  mk_cs base (cs_config cs) (cs_strms cs) (cs_strmq cs) (cs_rx cs) (cs_local_bidi cs) (cs_local_uni cs)
    (cs_remote_bidi cs) (cs_remote_uni cs) (cs_log cs).
Definition set_strms (strms : gmap Z ngtcp2_strm) cs : conn_state :=
  mk_cs (cs_base cs) (cs_config cs) strms (cs_strmq cs) (cs_rx cs) (cs_local_bidi cs) (cs_local_uni cs)
    (cs_remote_bidi cs) (cs_remote_uni cs) (cs_log cs).
Definition set_strmq (strmq : ngtcp2_pq) cs : conn_state :=
  mk_cs (cs_base cs) (cs_config cs) (cs_strms cs) strmq (cs_rx cs) (cs_local_bidi cs) (cs_local_uni cs)
    (cs_remote_bidi cs) (cs_remote_uni cs) (cs_log cs).
Definition set_rx (rx : conn_rx) cs : conn_state :=
  mk_cs (cs_base cs) (cs_config cs) (cs_strms cs) (cs_strmq cs) rx (cs_local_bidi cs) (cs_local_uni cs)
    (cs_remote_bidi cs) (cs_remote_uni cs) (cs_log cs).
Definition set_local (bidi uni : local_streams) cs : conn_state :=
  mk_cs (cs_base cs) (cs_config cs) (cs_strms cs) (cs_strmq cs) (cs_rx cs) bidi uni
    (cs_remote_bidi cs) (cs_remote_uni cs) (cs_log cs).
Definition set_remote (bidi uni : remote_streams) cs : conn_state :=
  mk_cs (cs_base cs) (cs_config cs) (cs_strms cs) (cs_strmq cs) (cs_rx cs) (cs_local_bidi cs) (cs_local_uni cs)
    bidi uni (cs_log cs).
Definition log_event (e : conn_event) cs : conn_state :=
  mk_cs (cs_base cs) (cs_config cs) (cs_strms cs) (cs_strmq cs) (cs_rx cs) (cs_local_bidi cs) (cs_local_uni cs)
    (cs_remote_bidi cs) (cs_remote_uni cs) (cs_log cs ++ [e]).

Definition put_strm sid strm cs : conn_state := set_strms (<[sid := strm]> (cs_strms cs)) cs.

(** The stream a pointer denotes. *)
Definition get_strm cs sid : res ngtcp2_strm :=
  match cs_strms cs !! sid with Some strm => Ok strm | None => Fault end.

Definition ngtcp2_conn_find_stream cs sid : option ngtcp2_strm := cs_strms cs !! sid.

Definition conn_local_stream cs sid : bool :=
  u8 (Z.land sid 1) =? (if conn_server (cs_base cs) then 1 else 0).

Definition bidi_stream sid : bool := Z.land sid 0x2 =? 0.

Definition conn_is_tls_handshake_completed cs : bool :=
  negb (Z.land (conn_flags (cs_base cs)) NGTCP2_CONN_FLAG_TLS_HANDSHAKE_COMPLETED =? 0) && cfg_1rtt_keys (cs_config cs).

(** ** The queue of streams that have something to send *)
Definition cycle_less (strms : gmap Z ngtcp2_strm) (lhs rhs : Z) : bool :=
  match strms !! lhs, strms !! rhs with
  | Some ls, Some rs =>
      let lc := tx_cycle (strm_tx_half ls) in
      let rc := tx_cycle (strm_tx_half rs) in
      if lc =? rc then strm_stream_id ls <? strm_stream_id rs else u64 (rc - lc) <=? 1
  | _, _ => false
  end.

Definition ngtcp2_strm_is_tx_queued cs sid : bool :=
  match pq_index (cs_strmq cs) !! sid with Some _ => true | None => false end.

Definition ngtcp2_conn_tx_strmq_first_cycle cs : res Z :=
  if ngtcp2_pq_empty (cs_strmq cs) then Ok 0 else
  let* top := ngtcp2_pq_top (cs_strmq cs) in
  let* strm := get_strm cs top in
  Ok (tx_cycle (strm_tx_half strm)).

Definition ngtcp2_conn_tx_strmq_push (mem_ok : bool) cs sid : res (Z * conn_state) :=
  let (rv, pq) := ngtcp2_pq_push (cycle_less (cs_strms cs)) mem_ok (cs_strmq cs) sid in
  let* pq := pq in
  Ok (rv, set_strmq pq cs).

(** The position of an entry that is in no queue. *)
Definition unindexed sid (pq : ngtcp2_pq) : ngtcp2_pq := mk_pq (pq_q pq) (pq_capacity pq) (delete sid (pq_index pq)).

Definition ngtcp2_conn_tx_strmq_pop cs : res conn_state :=
  let* top := ngtcp2_pq_top (cs_strmq cs) in
  let* pq := ngtcp2_pq_pop (cycle_less (cs_strms cs)) (cs_strmq cs) in
  Ok (set_strmq (unindexed top pq) cs).

(** [strm->cycle = first_cycle] and the push. *)
Definition conn_enqueue_strm (mem_ok : bool) cs sid : res (Z * conn_state) :=
  let* cycle := ngtcp2_conn_tx_strmq_first_cycle cs in
  let* strm := get_strm cs sid in
  ngtcp2_conn_tx_strmq_push mem_ok (put_strm sid (set_tx (set_cycle cycle (strm_tx_half strm)) strm) cs) sid.

Definition conn_stop_sending (mem_ok : bool) cs sid (app_error_code : Z) : res (Z * conn_state) :=
  let* strm := get_strm cs sid in
  let cs := put_strm sid
    (set_tx (set_stop_sending_code app_error_code (strm_tx_half strm))
       (set_flags (Z.lor (strm_flags strm) NGTCP2_STRM_FLAG_SEND_STOP_SENDING) strm)) cs in
  if ngtcp2_strm_is_tx_queued cs sid then Ok (0, cs) else conn_enqueue_strm mem_ok cs sid.

Definition conn_reset_stream (mem_ok : bool) cs sid (app_error_code : Z) : res (Z * conn_state) :=
  let* strm := get_strm cs sid in
  let cs := put_strm sid
    (set_tx (set_reset_code app_error_code (strm_tx_half strm))
       (set_flags (Z.lor (strm_flags strm) NGTCP2_STRM_FLAG_SEND_RESET_STREAM) strm)) cs in
  if ngtcp2_strm_is_tx_queued cs sid then Ok (0, cs) else conn_enqueue_strm mem_ok cs sid.

(** ** Flow control *)
Definition ngtcp2_conn_extend_max_offset cs (datalen : Z) : conn_state :=
  let rx := cs_rx cs in
  let unsent := crx_unsent_max_offset rx in
  let unsent :=
    if (NGTCP2_MAX_VARINT <? datalen) || (NGTCP2_MAX_VARINT - datalen <? unsent) then NGTCP2_MAX_VARINT
    else unsent + datalen in
  set_rx (mk_rx (crx_offset rx) (crx_max_offset rx) unsent (crx_window rx) (crx_last_max_data_ts rx)) cs.

Definition conn_should_send_max_stream_data strm : bool :=
  rx_window strm <? u64 (4 * u64 (rx_unsent_max_offset strm - rx_max_offset strm)).

Definition conn_should_send_max_data cs : bool :=
  crx_window (cs_rx cs) <? u64 (4 * u64 (crx_unsent_max_offset (cs_rx cs) - crx_max_offset (cs_rx cs))).

Definition conn_extend_max_stream_offset (mem_ok : bool) cs sid (datalen : Z) : res (Z * conn_state) :=
  let* strm := get_strm cs sid in
  let unsent :=
    if (NGTCP2_MAX_VARINT <? datalen) || (NGTCP2_MAX_VARINT - datalen <? rx_unsent_max_offset strm)
    then NGTCP2_MAX_VARINT else rx_unsent_max_offset strm + datalen in
  let strm := set_unsent_max_offset unsent strm in
  let cs := put_strm sid strm cs in
  if negb (has_flag strm (Z.lor NGTCP2_STRM_FLAG_SHUT_RD NGTCP2_STRM_FLAG_STOP_SENDING)) &&
     negb (ngtcp2_strm_is_tx_queued cs sid) && conn_should_send_max_stream_data strm
  then conn_enqueue_strm mem_ok cs sid
  else Ok (0, cs).

Definition ngtcp2_conn_extend_max_stream_offset (mem_ok : bool) cs sid (datalen : Z) : res (Z * conn_state) :=
  if negb (bidi_stream sid) && conn_local_stream cs sid then Ok (NGTCP2_ERR_INVALID_ARGUMENT, cs) else
  match ngtcp2_conn_find_stream cs sid with
  | None => Ok (0, cs)
  | Some _ => conn_extend_max_stream_offset mem_ok cs sid datalen
  end.

(** The window update of MAX_DATA in [conn_write_pkt]: a new limit, and a
    larger window when the last update was recent. *)
Definition window_update (max_window last_ts ts smoothed_rtt window unsent : Z) : Z * Z :=
  if negb (max_window =? 0) && negb (last_ts =? UINT64_MAX) &&
     (u64 (ts - last_ts) <? u64 (NGTCP2_FLOW_WINDOW_RTT_FACTOR * smoothed_rtt)) && (window <? max_window)
  then
    let target_max_data := u64 (NGTCP2_FLOW_WINDOW_SCALING_FACTOR * window) in
    let target_max_data := if max_window <? target_max_data then max_window else target_max_data in
    let delta := u64 (target_max_data - window) in
    let delta := if NGTCP2_MAX_VARINT <? u64 (unsent + delta) then u64 (NGTCP2_MAX_VARINT - unsent) else delta in
    (delta, target_max_data)
  else (0, window).

Definition conn_write_max_data (mem_ok : bool) cs (ts smoothed_rtt : Z) : Z * conn_state :=
  if negb (conn_should_send_max_data cs) then (0, cs) else
  if negb mem_ok then (NGTCP2_ERR_NOMEM, cs) else
  let rx := cs_rx cs in
  let (delta, window) := window_update (cfg_max_window (cs_config cs)) (crx_last_max_data_ts rx) ts smoothed_rtt
    (crx_window rx) (crx_unsent_max_offset rx) in
  let max_data := u64 (crx_unsent_max_offset rx + delta) in
  (0, set_rx (mk_rx (crx_offset rx) max_data max_data window ts) cs).

(** The same for MAX_STREAM_DATA of the stream at the head of the queue. *)
Definition conn_write_max_stream_data (mem_ok : bool) cs sid (ts smoothed_rtt : Z) : res (Z * conn_state) :=
  let* strm := get_strm cs sid in
  if has_flag strm (Z.lor NGTCP2_STRM_FLAG_SHUT_RD NGTCP2_STRM_FLAG_STOP_SENDING) ||
     negb (conn_should_send_max_stream_data strm) then Ok (0, cs) else
  if negb mem_ok then Ok (NGTCP2_ERR_NOMEM, cs) else
  let (delta, window) := window_update (cfg_max_stream_window (cs_config cs))
    (tx_last_max_stream_data_ts (strm_tx_half strm)) ts smoothed_rtt (rx_window strm) (rx_unsent_max_offset strm) in
  let max_stream_data := u64 (rx_unsent_max_offset strm + delta) in
  Ok (0, put_strm sid
    (set_tx (set_max_stream_data_ts ts (strm_tx_half strm))
       (set_window window (set_unsent_max_offset max_stream_data (set_max_offset max_stream_data strm)))) cs).

(** ** Calls of the application *)
Definition conn_shutdown_stream_read (mem_ok : bool) cs sid (app_error_code : Z) : res (Z * conn_state) :=
  let* strm := get_strm cs sid in
  let* strm := ngtcp2_strm_set_app_error_code strm app_error_code in
  let cs := put_strm sid strm cs in
  if has_flag strm (Z.lor NGTCP2_STRM_FLAG_STOP_SENDING NGTCP2_STRM_FLAG_RESET_STREAM_RECVED) then Ok (0, cs) else
  if has_flag strm NGTCP2_STRM_FLAG_SHUT_RD && (ngtcp2_strm_rx_offset strm =? rx_last_offset strm) then Ok (0, cs) else
  let cs :=
    if negb (has_flag strm NGTCP2_STRM_FLAG_RESET_STREAM_RECVED)
    then ngtcp2_conn_extend_max_offset cs (u64 (rx_last_offset strm - ngtcp2_strm_rx_offset strm))
    else cs in
  let strm := set_flags (Z.lor (strm_flags strm) NGTCP2_STRM_FLAG_STOP_SENDING) strm in
  let strm := ngtcp2_strm_discard_reordered_data strm in
  conn_stop_sending mem_ok (put_strm sid strm cs) sid app_error_code.

Definition ngtcp2_conn_shutdown_stream_read (mem_ok : bool) cs sid (app_error_code : Z) : res (Z * conn_state) :=
  if negb (bidi_stream sid) && conn_local_stream cs sid then Ok (NGTCP2_ERR_INVALID_ARGUMENT, cs) else
  match ngtcp2_conn_find_stream cs sid with
  | None => Ok (0, cs)
  | Some _ => conn_shutdown_stream_read mem_ok cs sid app_error_code
  end.

Definition conn_shutdown_stream_write (mem_ok : bool) cs sid (app_error_code : Z) : res (Z * conn_state) :=
  let* strm := get_strm cs sid in
  let* strm := ngtcp2_strm_set_app_error_code strm app_error_code in
  let cs := put_strm sid strm cs in
  let* all_acked := ngtcp2_strm_is_all_tx_data_fin_acked strm in
  if has_flag strm NGTCP2_STRM_FLAG_RESET_STREAM || all_acked then Ok (0, cs) else
  let strm := set_flags (Z.lor (strm_flags strm) (Z.lor NGTCP2_STRM_FLAG_SHUT_WR NGTCP2_STRM_FLAG_RESET_STREAM)) strm in
  let strm := ngtcp2_strm_streamfrq_clear strm in
  conn_reset_stream mem_ok (put_strm sid strm cs) sid app_error_code.

Definition ngtcp2_conn_shutdown_stream_write (mem_ok : bool) cs sid (app_error_code : Z) : res (Z * conn_state) :=
  if negb (bidi_stream sid) && negb (conn_local_stream cs sid) then Ok (NGTCP2_ERR_INVALID_ARGUMENT, cs) else
  match ngtcp2_conn_find_stream cs sid with
  | None => Ok (0, cs)
  | Some _ => conn_shutdown_stream_write mem_ok cs sid app_error_code
  end.

Definition ngtcp2_conn_shutdown_stream (mem_rd mem_wr : bool) cs sid (app_error_code : Z) : res (Z * conn_state) :=
  match ngtcp2_conn_find_stream cs sid with
  | None => Ok (0, cs)
  | Some _ =>
      let* (rv, cs) :=
        if bidi_stream sid || negb (conn_local_stream cs sid) then conn_shutdown_stream_read mem_rd cs sid app_error_code
        else Ok (0, cs) in
      if negb (rv =? 0) then Ok (rv, cs) else
      if bidi_stream sid || conn_local_stream cs sid then conn_shutdown_stream_write mem_wr cs sid app_error_code
      else Ok (0, cs)
  end.

Definition handle_max_remote_streams_extension (unsent_max_remote_streams n : Z) : Z :=
  if (NGTCP2_MAX_STREAMS <? n) || (NGTCP2_MAX_STREAMS - n <? unsent_max_remote_streams) then NGTCP2_MAX_STREAMS
  else unsent_max_remote_streams + n.

Definition extend_max_streams (n : Z) (rs : remote_streams) : remote_streams :=
  mk_remote (rs_max_streams rs) (handle_max_remote_streams_extension (rs_unsent_max_streams rs) n) (rs_idtr rs).

Definition ngtcp2_conn_extend_max_streams_bidi cs (n : Z) : conn_state :=
  set_remote (extend_max_streams n (cs_remote_bidi cs)) (cs_remote_uni cs) cs.

Definition ngtcp2_conn_extend_max_streams_uni cs (n : Z) : conn_state :=
  set_remote (cs_remote_bidi cs) (extend_max_streams n (cs_remote_uni cs)) cs.

(** ** Opening *)
Definition conn_initial_stream_rx_offset cs sid : Z :=
  let cfg := cs_config cs in
  if bidi_stream sid then
    if conn_local_stream cs sid then cfg_local_bidi_local cfg else cfg_local_bidi_remote cfg
  else if conn_local_stream cs sid then 0 else cfg_local_uni cfg.

Definition initial_tx_offset cs sid : Z :=
  let cfg := cs_config cs in
  if bidi_stream sid then
    if conn_local_stream cs sid then cfg_remote_bidi_remote cfg else cfg_remote_bidi_local cfg
  else if conn_local_stream cs sid then cfg_remote_uni cfg else 0.

(** The entry of a new stream is not in the queue.  When the insertion fails,
    the stream is freed; if the map has stored it nevertheless, it keeps a
    pointer to a freed stream, which the next lookup of the id follows: the
    model ends there with a fault. *)
Definition ngtcp2_conn_init_stream (mem_map : map_mem) cs sid : res (Z * conn_state) :=
  let strm := ngtcp2_strm_init sid NGTCP2_STRM_FLAG_NONE (conn_initial_stream_rx_offset cs sid) (initial_tx_offset cs sid) in
  let strm :=
    if negb (bidi_stream sid) then
      if conn_local_stream cs sid then ngtcp2_strm_shutdown strm NGTCP2_STRM_FLAG_SHUT_RD
      else
        let strm := ngtcp2_strm_shutdown strm NGTCP2_STRM_FLAG_SHUT_WR in
        set_flags (Z.lor (strm_flags strm) NGTCP2_STRM_FLAG_FIN_ACKED) strm
    else strm in
  match cs_strms cs !! sid with
  | Some _ => Fault
  | None =>
      match mem_map with
      | MapStored => Ok (0, set_strmq (unindexed sid (cs_strmq cs)) (put_strm sid strm cs))
      | MapFails => Ok (NGTCP2_ERR_NOMEM, cs)
      | MapFailsStored => Fault
      end
  end.

Definition ngtcp2_conn_get_streams_left2 (ls : local_streams) : Z :=
  let n := ngtcp2_ord_stream_id (ls_next_stream_id ls) in
  if ls_max_streams ls <? n then 0 else ls_max_streams ls - n + 1.

Definition ngtcp2_conn_open_bidi_stream (mem_strm : bool) (mem_map : map_mem) cs : res (Z * conn_state) :=
  let ls := cs_local_bidi cs in
  if ngtcp2_conn_get_streams_left2 ls =? 0 then Ok (NGTCP2_ERR_STREAM_ID_BLOCKED, cs) else
  if negb mem_strm then Ok (NGTCP2_ERR_NOMEM, cs) else
  let* (rv, cs) := ngtcp2_conn_init_stream mem_map cs (ls_next_stream_id ls) in
  if negb (rv =? 0) then Ok (rv, cs) else
  Ok (0, set_local (mk_local (ls_next_stream_id ls + 4) (ls_max_streams ls)) (cs_local_uni cs) cs).

Definition ngtcp2_conn_open_uni_stream (mem_strm : bool) (mem_map : map_mem) cs : res (Z * conn_state) :=
  let ls := cs_local_uni cs in
  if ngtcp2_conn_get_streams_left2 ls =? 0 then Ok (NGTCP2_ERR_STREAM_ID_BLOCKED, cs) else
  if negb mem_strm then Ok (NGTCP2_ERR_NOMEM, cs) else
  let* (rv, cs) := ngtcp2_conn_init_stream mem_map cs (ls_next_stream_id ls) in
  if negb (rv =? 0) then Ok (rv, cs) else
  Ok (0, set_local (cs_local_bidi cs) (mk_local (ls_next_stream_id ls + 4) (ls_max_streams ls)) cs).

(** ** Submission *)

(** The flags of the sending half. *)
Definition tx_flags : Z :=
  Z.lor NGTCP2_STRM_FLAG_SHUT_WR (Z.lor NGTCP2_STRM_FLAG_RESET_STREAM (Z.lor NGTCP2_STRM_FLAG_RESET_STREAM_ACKED
    (Z.lor NGTCP2_STRM_FLAG_FIN_ACKED (Z.lor NGTCP2_STRM_FLAG_ANY_ACKED (Z.lor NGTCP2_STRM_FLAG_SEND_RESET_STREAM
      (Z.lor NGTCP2_STRM_FLAG_STOP_SENDING_RECVED NGTCP2_STRM_FLAG_ANY_SENT)))))).

(** Any progress of the sending half. *)
Definition put_sending sid (flags : Z) (tx : strm_tx) strm cs : conn_state :=
  put_strm sid (set_tx tx (set_flags (Z.lor (strm_flags strm) (Z.land flags tx_flags)) strm)) cs.

(** What [ngtcp2_conn_submit_stream_buf] does to the streams when the bytes
    are accepted. *)
Definition conn_submit_stream (mem_ok : bool) cs sid (flags : Z) (tx : strm_tx) : res (Z * conn_state) :=
  match ngtcp2_conn_find_stream cs sid with
  | None => Ok (NGTCP2_ERR_STREAM_NOT_FOUND, cs)
  | Some strm =>
      if has_flag strm NGTCP2_STRM_FLAG_SHUT_WR then Ok (NGTCP2_ERR_STREAM_SHUT_WR, cs) else
      let cs := put_sending sid flags tx strm cs in
      if ngtcp2_strm_is_tx_queued cs sid then Ok (0, cs) else conn_enqueue_strm mem_ok cs sid
  end.

(** The application may ignore what its calls return. *)
Definition app_do (call : app_call) cs : res conn_state :=
  let cs := log_event (EvCall call) cs in
  match call with
  | AppOpenBidi mem_strm mem_map => let* (_, cs) := ngtcp2_conn_open_bidi_stream mem_strm mem_map cs in Ok cs
  | AppOpenUni mem_strm mem_map => let* (_, cs) := ngtcp2_conn_open_uni_stream mem_strm mem_map cs in Ok cs
  | AppSubmit mem_ok sid flags tx => let* (_, cs) := conn_submit_stream mem_ok cs sid flags tx in Ok cs
  | AppShutdownStream mem_rd mem_wr sid code =>
      let* (_, cs) := ngtcp2_conn_shutdown_stream mem_rd mem_wr cs sid code in Ok cs
  | AppShutdownWrite mem_ok sid code => let* (_, cs) := ngtcp2_conn_shutdown_stream_write mem_ok cs sid code in Ok cs
  | AppShutdownRead mem_ok sid code => let* (_, cs) := ngtcp2_conn_shutdown_stream_read mem_ok cs sid code in Ok cs
  | AppExtendMaxStreamOffset mem_ok sid n => let* (_, cs) := ngtcp2_conn_extend_max_stream_offset mem_ok cs sid n in Ok cs
  | AppExtendMaxOffset n => Ok (ngtcp2_conn_extend_max_offset cs n)
  | AppExtendMaxStreams bidi n =>
      Ok (if bidi then ngtcp2_conn_extend_max_streams_bidi cs n else ngtcp2_conn_extend_max_streams_uni cs n)
  end.

Fixpoint app_do_all (calls : list app_call) cs : res conn_state :=
  match calls with
  | [] => Ok cs
  | call :: calls => let* cs := app_do call cs in app_do_all calls cs
  end.

(** ** The application *)
Section Application.
Context (app : list conn_event -> conn_event -> list app_call * Z).

(** A callback: it is recorded, the application makes its calls and returns. *)
Definition conn_callback (cb : conn_event) cs : res (Z * conn_state) :=
  let (calls, rv) := app (cs_log cs) cb in
  let* cs := app_do_all calls (log_event cb cs) in
  Ok (if rv =? 0 then 0 else NGTCP2_ERR_CALLBACK_FAILURE, cs).

Definition conn_call_stream_open cs sid : res (Z * conn_state) := conn_callback (CbStreamOpen sid) cs.

Definition conn_call_recv_stream_data_buf cs sid (flags offset : Z) (data : list Z) : res (Z * conn_state) :=
  conn_callback (CbRecvStreamData flags sid offset data) cs.

(** [env_view]: whether the buffer for the callback can be made. *)
Definition conn_call_recv_stream_data (env : rx_env) cs sid (flags offset : Z) (data : list Z) : res (Z * conn_state) :=
  if negb (env_view env =? 0) then Ok (env_view env, cs)
  else conn_call_recv_stream_data_buf cs sid flags offset data.

Definition conn_call_stream_reset cs sid (final_size app_error_code : Z) : res (Z * conn_state) :=
  conn_callback (CbStreamReset sid final_size app_error_code) cs.

Definition conn_call_stream_close cs sid : res (Z * conn_state) :=
  let* strm := get_strm cs sid in
  let flags :=
    if has_flag strm NGTCP2_STRM_FLAG_APP_ERROR_CODE_SET
    then Z.lor NGTCP2_STREAM_CLOSE_FLAG_NONE NGTCP2_STREAM_CLOSE_FLAG_APP_ERROR_CODE_SET
    else NGTCP2_STREAM_CLOSE_FLAG_NONE in
  conn_callback (CbStreamClose flags sid (strm_app_error_code strm)) cs.

Definition conn_call_extend_max_stream_data cs sid (datalen : Z) : res (Z * conn_state) :=
  conn_callback (CbExtendMaxStreamData sid datalen) cs.

Definition conn_call_extend_max_local_streams_bidi cs (max_streams : Z) : res (Z * conn_state) :=
  conn_callback (CbExtendMaxLocalStreams true max_streams) cs.
Definition conn_call_extend_max_local_streams_uni cs (max_streams : Z) : res (Z * conn_state) :=
  conn_callback (CbExtendMaxLocalStreams false max_streams) cs.
Definition conn_call_extend_max_remote_streams_bidi cs (max_streams : Z) : res (Z * conn_state) :=
  conn_callback (CbExtendMaxRemoteStreams true max_streams) cs.
Definition conn_call_extend_max_remote_streams_uni cs (max_streams : Z) : res (Z * conn_state) :=
  conn_callback (CbExtendMaxRemoteStreams false max_streams) cs.

(** ** Closing *)
Definition ngtcp2_conn_close_stream cs sid : res (Z * conn_state) :=
  let* (rv, cs) := conn_call_stream_close cs sid in
  if negb (rv =? 0) then Ok (rv, cs) else
  let* strm := get_strm cs sid in
  let less := cycle_less (cs_strms cs) in
  let queued := ngtcp2_strm_is_tx_queued cs sid in
  let cs := set_strms (delete sid (cs_strms cs)) cs in
  let* pq := if queued then ngtcp2_pq_remove less (cs_strmq cs) sid else Ok (cs_strmq cs) in
  let base := cs_base cs in
  let base := mk_conn (conn_server base) (conn_flags base) (conn_glitch_rlim base) (conn_in_probe_pkt_left base)
    (conn_hs_probe_pkt_left base) (conn_delivered base) (ngtcp2_strm_free strm ++ conn_released base) in
  Ok (0, set_base base (set_strmq pq cs)).

Definition ngtcp2_conn_close_stream_if_shut_rdwr cs sid : res (Z * conn_state) :=
  let* strm := get_strm cs sid in
  let* all_acked := ngtcp2_strm_is_all_tx_data_fin_acked strm in
  if (Z.land (strm_flags strm) NGTCP2_STRM_FLAG_SHUT_RDWR =? NGTCP2_STRM_FLAG_SHUT_RDWR) &&
     (has_flag strm NGTCP2_STRM_FLAG_RESET_STREAM_RECVED || (ngtcp2_strm_rx_offset strm =? rx_last_offset strm)) &&
     (has_flag strm NGTCP2_STRM_FLAG_RESET_STREAM && has_flag strm NGTCP2_STRM_FLAG_RESET_STREAM_ACKED || all_acked)
  then ngtcp2_conn_close_stream cs sid
  else Ok (0, cs).

(** ** Received frames *)

(** What a frame meets: the buffers of [conn_recv_reordering], and the
    allocations of a stream and of its entry in the map. *)
Record stream_env := mk_senv {
  se_rx : rx_env;
  se_mem_strm : bool;
  se_mem_map : map_mem;
}.

Definition stream_glitch cs (ts : Z) : res (Z * conn_state) :=
  let* (rv, base) := conn_glitch (cs_base cs) ts in Ok (rv, set_base base cs).

Definition conn_max_data_violated cs (datalen : Z) : bool :=
  u64 (crx_max_offset (cs_rx cs) - crx_offset (cs_rx cs)) <? datalen.

(** The checks of the stream id; [uni_err] for a local unidirectional stream. *)
Definition check_stream_id (uni_err : Z) cs sid : Z :=
  if bidi_stream sid then
    if conn_local_stream cs sid then
      if ls_next_stream_id (cs_local_bidi cs) <=? sid then NGTCP2_ERR_STREAM_STATE else 0
    else if rs_max_streams (cs_remote_bidi cs) <? ngtcp2_ord_stream_id sid then NGTCP2_ERR_STREAM_LIMIT else 0
  else if conn_local_stream cs sid then uni_err
  else if rs_max_streams (cs_remote_uni cs) <? ngtcp2_ord_stream_id sid then NGTCP2_ERR_STREAM_LIMIT else 0.

(** [ngtcp2_idtr_open] on the tracker of the kind of the stream. *)
Definition conn_idtr_open cs sid : res (Z * conn_state) :=
  if bidi_stream sid then
    let rs := cs_remote_bidi cs in
    let* (rv, idtr) := ngtcp2_idtr_open (rs_idtr rs) sid in
    Ok (rv, set_remote (mk_remote (rs_max_streams rs) (rs_unsent_max_streams rs) idtr) (cs_remote_uni cs) cs)
  else
    let rs := cs_remote_uni cs in
    let* (rv, idtr) := ngtcp2_idtr_open (rs_idtr rs) sid in
    Ok (rv, set_remote (cs_remote_bidi cs) (mk_remote (rs_max_streams rs) (rs_unsent_max_streams rs) idtr) cs).

(** The frame handler returns, or goes on with the stream, which may be new. *)
Inductive found_strm :=
| Return (rv : Z)
| Stream (new_strm : bool).

(** From [ngtcp2_conn_find_stream] to [conn_call_stream_open]; [refuse]: an
    error for a frame that would open a stream. *)
Definition conn_find_or_open (env : stream_env) (refuse : conn_state -> Z) cs sid (ts : Z) : res (found_strm * conn_state) :=
  match ngtcp2_conn_find_stream cs sid with
  | Some _ => Ok (Stream false, cs)
  | None =>
      if conn_local_stream cs sid then
        let* (rv, cs) := stream_glitch cs ts in Ok (Return rv, cs)
      else
        let* (rv, cs) := conn_idtr_open cs sid in
        if negb (rv =? 0) then
          if ngtcp2_err_is_fatal rv then Ok (Return rv, cs) else
          assert! rv =? NGTCP2_ERR_STREAM_IN_USE;
          let* (rv, cs) := stream_glitch cs ts in Ok (Return rv, cs)
        else if negb (refuse cs =? 0) then Ok (Return (refuse cs), cs)
        else if negb (se_mem_strm env) then Ok (Return NGTCP2_ERR_NOMEM, cs) else
        let* (rv, cs) := ngtcp2_conn_init_stream (se_mem_map env) cs sid in
        if negb (rv =? 0) then Ok (Return rv, cs) else
        let* (rv, cs) := conn_call_stream_open cs sid in
        if negb (rv =? 0) then Ok (Return rv, cs) else Ok (Stream true, cs)
  end.

(** The [for] loop of [conn_emit_pending_stream_data]. *)
Fixpoint emit_stream (fuel : nat) cs sid (rx_offset : Z) : res (Z * conn_state) :=
  match fuel with
  | O => Fault
  | S fuel =>
      let* strm := get_strm cs sid in
      if has_flag strm NGTCP2_STRM_FLAG_STOP_SENDING then Ok (0, cs) else
      match rx_reorder strm with
      | None => Fault
      | Some r =>
          let* (datalen, buf) := ngtcp2_reorder_data_at r rx_offset in
          if datalen =? 0 then
            assert! rx_offset =? ngtcp2_strm_rx_offset strm;
            Ok (0, cs)
          else
            match buf with
            | None => Fault
            | Some buf =>
                let offset := rx_offset in
                let rx_offset := u64 (rx_offset + datalen) in
                let sdflags :=
                  if has_flag strm NGTCP2_STRM_FLAG_SHUT_RD && (rx_offset =? rx_last_offset strm)
                  then NGTCP2_STREAM_DATA_FLAG_FIN else NGTCP2_STREAM_DATA_FLAG_NONE in
                let sdflags :=
                  if negb (conn_is_tls_handshake_completed cs) then Z.lor sdflags NGTCP2_STREAM_DATA_FLAG_0RTT
                  else sdflags in
                let* (rv, cs) := conn_call_recv_stream_data_buf cs sid sdflags offset (rb_data buf) in
                if negb (rv =? 0) then Ok (rv, cs) else
                let* strm := get_strm cs sid in
                match rx_reorder strm with
                | None => Ok (0, cs)
                | Some r =>
                    let* r := ngtcp2_reorder_pop r offset datalen in
                    emit_stream fuel (put_strm sid (set_cont_offset rx_offset (set_reorder (Some r) strm)) cs) sid rx_offset
                end
            end
      end
  end.

Definition conn_emit_pending_stream_data cs sid (rx_offset : Z) : res (Z * conn_state) :=
  let* strm := get_strm cs sid in
  match rx_reorder strm with
  | Some r => emit_stream (S (length (reorder_head r))) cs sid rx_offset
  | None => Ok (0, cs)
  end.

Definition frame_data_len (data : list (list Z)) : Z := u64 (fold_right (fun v n => zlen v + n) 0 data).

(** The data of the frame are handed over, and what was stored behind them. *)
Definition recv_stream_deliver (env : stream_env) cs sid (fr : ngtcp2_stream) (rx_offset : Z) : res (Z * conn_state) :=
  let* strm := get_strm cs sid in
  let ncut := rx_offset - st_offset fr in
  let offset := rx_offset in
  let (data, strm) :=
    match st_data fr with
    | data :: _ =>
        let data := zdrop ncut data in (data, ngtcp2_strm_update_rx_offset strm (u64 (rx_offset + zlen data)))
    | [] => ([], strm)
    end in
  let rx_offset := u64 (rx_offset + zlen data) in
  let cs := put_strm sid strm cs in
  if has_flag strm NGTCP2_STRM_FLAG_STOP_SENDING then ngtcp2_conn_close_stream_if_shut_rdwr cs sid else
  let fin := has_flag strm NGTCP2_STRM_FLAG_SHUT_RD && (rx_offset =? rx_last_offset strm) in
  assert! fin || negb (zlen data =? 0);
  let sdflags := if fin then NGTCP2_STREAM_DATA_FLAG_FIN else NGTCP2_STREAM_DATA_FLAG_NONE in
  let sdflags :=
    if negb (conn_is_tls_handshake_completed cs) then Z.lor sdflags NGTCP2_STREAM_DATA_FLAG_0RTT else sdflags in
  let* (rv, cs) := conn_call_recv_stream_data (se_rx env) cs sid sdflags offset data in
  if negb (rv =? 0) then Ok (rv, cs) else
  let* (rv, cs) := conn_emit_pending_stream_data cs sid rx_offset in
  if negb (rv =? 0) then Ok (rv, cs) else
  ngtcp2_conn_close_stream_if_shut_rdwr cs sid.

(** The data of the frame are stored. *)
Definition recv_stream_store (env : stream_env) cs sid (fr : ngtcp2_stream) (ts : Z) : res (Z * conn_state) :=
  let* strm := get_strm cs sid in
  match st_data fr with
  | data :: _ =>
      if has_flag strm NGTCP2_STRM_FLAG_STOP_SENDING then ngtcp2_conn_close_stream_if_shut_rdwr cs sid else
      let '(nwrite, base, strm) := conn_recv_reordering (se_rx env) (cs_base cs) strm data (st_offset fr) in
      let cs := put_strm sid strm (set_base base cs) in
      if nwrite <? 0 then Ok (nwrite, cs) else
      let* (rv, cs) := if nwrite =? 0 then stream_glitch cs ts else Ok (0, cs) in
      if negb (rv =? 0) then Ok (rv, cs) else ngtcp2_conn_close_stream_if_shut_rdwr cs sid
  | [] => ngtcp2_conn_close_stream_if_shut_rdwr cs sid
  end.

(** The final size and the largest offset of the stream.  [inl]: the handler
    returns, after a glitch when the result is 0. *)
Definition recv_stream_final_size (new_strm : bool) strm (fr : ngtcp2_stream) (fr_end_offset rx_offset : Z) : Z * bool + ngtcp2_strm :=
  if st_fin fr then
    if has_flag strm NGTCP2_STRM_FLAG_SHUT_RD then
      if negb (rx_last_offset strm =? fr_end_offset) then inl (NGTCP2_ERR_FINAL_SIZE, false)
      else if has_flag strm NGTCP2_STRM_FLAG_RESET_STREAM_RECVED then inl (0, true)
      else if rx_offset =? fr_end_offset then inl (0, negb new_strm)
      else inr strm
    else if fr_end_offset <? rx_last_offset strm then inl (NGTCP2_ERR_FINAL_SIZE, false)
    else inr (ngtcp2_strm_shutdown (set_last_offset fr_end_offset strm) NGTCP2_STRM_FLAG_SHUT_RD)
  else
    if has_flag strm NGTCP2_STRM_FLAG_SHUT_RD && (rx_last_offset strm <? fr_end_offset)
    then inl (NGTCP2_ERR_FINAL_SIZE, false)
    else inr (set_last_offset (Z.max (rx_last_offset strm) fr_end_offset) strm).

(** The early returns of a frame without FIN, after the update above. *)
Definition recv_stream_no_news (new_strm : bool) strm (fr : ngtcp2_stream) (fr_end_offset rx_offset : Z) : option bool :=
  if st_fin fr then None
  else if fr_end_offset <=? rx_offset then Some (negb new_strm)
  else if has_flag strm NGTCP2_STRM_FLAG_RESET_STREAM_RECVED then Some true
  else None.

Definition conn_recv_stream (env : stream_env) cs (fr : ngtcp2_stream) (ts : Z) : res (Z * conn_state) :=
  let datalen := frame_data_len (st_data fr) in
  let sid := st_stream_id fr in
  let rv := check_stream_id NGTCP2_ERR_STREAM_STATE cs sid in
  if negb (rv =? 0) then Ok (rv, cs) else
  if u64 (NGTCP2_MAX_VARINT - datalen) <? st_offset fr then Ok (NGTCP2_ERR_FLOW_CONTROL, cs) else
  let* (found, cs) := conn_find_or_open env (fun _ => 0) cs sid ts in
  match found with
  | Return rv => Ok (rv, cs)
  | Stream new_strm =>
      let* strm := get_strm cs sid in
      let fr_end_offset := u64 (st_offset fr + datalen) in
      if rx_max_offset strm <? fr_end_offset then Ok (NGTCP2_ERR_FLOW_CONTROL, cs) else
      let len := u64 (fr_end_offset - rx_last_offset strm) in
      let news := rx_last_offset strm <? fr_end_offset in
      if news && conn_max_data_violated cs len then Ok (NGTCP2_ERR_FLOW_CONTROL, cs) else
      let cs :=
        if news then
          let rx := cs_rx cs in
          let cs := set_rx (mk_rx (u64 (crx_offset rx + len)) (crx_max_offset rx) (crx_unsent_max_offset rx)
                              (crx_window rx) (crx_last_max_data_ts rx)) cs in
          if has_flag strm NGTCP2_STRM_FLAG_STOP_SENDING then ngtcp2_conn_extend_max_offset cs len else cs
        else cs in
      let rx_offset := ngtcp2_strm_rx_offset strm in
      match recv_stream_final_size new_strm strm fr fr_end_offset rx_offset with
      | inl (rv, glitch) => if glitch then stream_glitch cs ts else Ok (rv, cs)
      | inr strm =>
          let cs := put_strm sid strm cs in
          match recv_stream_no_news new_strm strm fr fr_end_offset rx_offset with
          | Some glitch => if glitch then stream_glitch cs ts else Ok (0, cs)
          | None =>
              if st_offset fr <=? rx_offset then recv_stream_deliver env cs sid fr rx_offset
              else recv_stream_store env cs sid fr ts
          end
      end
  end.

Definition conn_recv_reset_stream (env : stream_env) cs sid (app_error_code final_size : Z) (ts : Z) : res (Z * conn_state) :=
  let rv := check_stream_id NGTCP2_ERR_PROTO cs sid in
  if negb (rv =? 0) then Ok (rv, cs) else
  if NGTCP2_MAX_VARINT <? final_size then Ok (NGTCP2_ERR_FLOW_CONTROL, cs) else
  let* (found, cs) := conn_find_or_open env
    (fun cs => if (conn_initial_stream_rx_offset cs sid <? final_size) || conn_max_data_violated cs final_size
               then NGTCP2_ERR_FLOW_CONTROL else 0) cs sid ts in
  match found with
  | Return rv => Ok (rv, cs)
  | Stream _ =>
      let* strm := get_strm cs sid in
      if (if has_flag strm NGTCP2_STRM_FLAG_SHUT_RD then negb (rx_last_offset strm =? final_size)
          else final_size <? rx_last_offset strm)
      then Ok (NGTCP2_ERR_FINAL_SIZE, cs) else
      if has_flag strm NGTCP2_STRM_FLAG_RESET_STREAM_RECVED then stream_glitch cs ts else
      if rx_max_offset strm <? final_size then Ok (NGTCP2_ERR_FLOW_CONTROL, cs) else
      let datalen := u64 (final_size - rx_last_offset strm) in
      if conn_max_data_violated cs datalen then Ok (NGTCP2_ERR_FLOW_CONTROL, cs) else
      let* (rv, cs) := conn_call_stream_reset cs sid final_size app_error_code in
      if negb (rv =? 0) then Ok (rv, cs) else
      let* strm := get_strm cs sid in
      let cs :=
        if negb (has_flag strm NGTCP2_STRM_FLAG_STOP_SENDING)
        then ngtcp2_conn_extend_max_offset cs (u64 (rx_last_offset strm - ngtcp2_strm_rx_offset strm))
        else cs in
      let rx := cs_rx cs in
      let cs := set_rx (mk_rx (u64 (crx_offset rx + datalen)) (crx_max_offset rx) (crx_unsent_max_offset rx)
                          (crx_window rx) (crx_last_max_data_ts rx)) cs in
      let cs := ngtcp2_conn_extend_max_offset cs datalen in
      let strm := set_last_offset final_size strm in
      let strm := set_flags (Z.lor (strm_flags strm)
        (Z.lor NGTCP2_STRM_FLAG_SHUT_RD NGTCP2_STRM_FLAG_RESET_STREAM_RECVED)) strm in
      let* strm := ngtcp2_strm_set_app_error_code strm app_error_code in
      ngtcp2_conn_close_stream_if_shut_rdwr (put_strm sid strm cs) sid
  end.

(** The checks of the stream id for a frame about the sending half. *)
Definition check_send_stream_id cs sid : Z :=
  if bidi_stream sid then
    if conn_local_stream cs sid then
      if ls_next_stream_id (cs_local_bidi cs) <=? sid then NGTCP2_ERR_STREAM_STATE else 0
    else if rs_max_streams (cs_remote_bidi cs) <? ngtcp2_ord_stream_id sid then NGTCP2_ERR_STREAM_LIMIT else 0
  else if negb (conn_local_stream cs sid) || (ls_next_stream_id (cs_local_uni cs) <=? sid) then NGTCP2_ERR_STREAM_STATE
  else 0.

Definition conn_recv_max_stream_data (env : stream_env) cs sid (max_stream_data : Z) (ts : Z) : res (Z * conn_state) :=
  let rv := check_send_stream_id cs sid in
  if negb (rv =? 0) then Ok (rv, cs) else
  let* (found, cs) := conn_find_or_open env (fun _ => 0) cs sid ts in
  match found with
  | Return rv => Ok (rv, cs)
  | Stream _ =>
      let* strm := get_strm cs sid in
      let tx := strm_tx_half strm in
      if max_stream_data <=? tx_max_offset tx then stream_glitch cs ts else
      let cs := put_strm sid (set_tx (set_tx_max_offset max_stream_data tx) strm) cs in
      if has_flag strm NGTCP2_STRM_FLAG_SHUT_WR then stream_glitch cs ts else
      conn_call_extend_max_stream_data cs sid max_stream_data
  end.

Definition conn_recv_stop_sending (env : stream_env) (mem_ok : bool) cs sid (app_error_code : Z) (ts : Z) : res (Z * conn_state) :=
  let rv := check_send_stream_id cs sid in
  if negb (rv =? 0) then Ok (rv, cs) else
  let* (found, cs) := conn_find_or_open env (fun _ => 0) cs sid ts in
  match found with
  | Return rv => Ok (rv, cs)
  | Stream _ =>
      let* strm := get_strm cs sid in
      if has_flag strm NGTCP2_STRM_FLAG_STOP_SENDING_RECVED then stream_glitch cs ts else
      let* strm := ngtcp2_strm_set_app_error_code strm app_error_code in
      let cs := put_strm sid strm cs in
      let* all_acked := ngtcp2_strm_is_all_tx_data_fin_acked strm in
      let* (rv, cs) :=
        if negb all_acked && negb (has_flag strm NGTCP2_STRM_FLAG_RESET_STREAM) then
          let strm := set_flags (Z.lor (strm_flags strm) NGTCP2_STRM_FLAG_RESET_STREAM) strm in
          conn_reset_stream mem_ok (put_strm sid strm cs) sid app_error_code
        else Ok (0, cs) in
      if negb (rv =? 0) then Ok (rv, cs) else
      let* strm := get_strm cs sid in
      let strm := set_flags (Z.lor (strm_flags strm)
        (Z.lor NGTCP2_STRM_FLAG_SHUT_WR NGTCP2_STRM_FLAG_STOP_SENDING_RECVED)) strm in
      let strm := ngtcp2_strm_streamfrq_clear strm in
      ngtcp2_conn_close_stream_if_shut_rdwr (put_strm sid strm cs) sid
  end.

Definition conn_recv_max_streams cs (type max_streams : Z) : res (Z * conn_state) :=
  if NGTCP2_MAX_STREAMS <? max_streams then Ok (NGTCP2_ERR_FRAME_ENCODING, cs) else
  let n := Z.min max_streams NGTCP2_MAX_STREAMS in
  let bidi := cs_local_bidi cs in
  let uni := cs_local_uni cs in
  if type =? NGTCP2_FRAME_MAX_STREAMS_BIDI then
    if ls_max_streams bidi <? n then
      conn_call_extend_max_local_streams_bidi (set_local (mk_local (ls_next_stream_id bidi) n) uni cs) n
    else Ok (0, cs)
  else if ls_max_streams uni <? n then
    conn_call_extend_max_local_streams_uni (set_local bidi (mk_local (ls_next_stream_id uni) n) cs) n
  else Ok (0, cs).

(** The MAX_STREAMS frames of [conn_write_pkt]. *)
Definition max_streams_sent (rs : remote_streams) : remote_streams :=
  mk_remote (rs_unsent_max_streams rs) (rs_unsent_max_streams rs) (rs_idtr rs).

Definition conn_write_max_streams_bidi (mem_ok : bool) cs : res (Z * conn_state) :=
  let rs := cs_remote_bidi cs in
  if negb (rs_max_streams rs <? rs_unsent_max_streams rs) then Ok (0, cs) else
  let* (rv, cs) := conn_call_extend_max_remote_streams_bidi cs (rs_unsent_max_streams rs) in
  if negb (rv =? 0) then Ok (rv, cs) else
  if negb mem_ok then Ok (NGTCP2_ERR_NOMEM, cs) else
  Ok (0, set_remote (max_streams_sent (cs_remote_bidi cs)) (cs_remote_uni cs) cs).

Definition conn_write_max_streams_uni (mem_ok : bool) cs : res (Z * conn_state) :=
  let rs := cs_remote_uni cs in
  if negb (rs_max_streams rs <? rs_unsent_max_streams rs) then Ok (0, cs) else
  let* (rv, cs) := conn_call_extend_max_remote_streams_uni cs (rs_unsent_max_streams rs) in
  if negb (rv =? 0) then Ok (rv, cs) else
  if negb mem_ok then Ok (NGTCP2_ERR_NOMEM, cs) else
  Ok (0, set_remote (cs_remote_bidi cs) (max_streams_sent (cs_remote_uni cs)) cs).

(** ** Events *)

(** What can happen to the streams: a frame arrives, the application calls
    the library, a frame is written, the queue advances.  [InSending] is any
    progress of the sending half of a stream. *)
Inductive conn_input :=
| InStream (env : stream_env) (fr : ngtcp2_stream) (ts : Z)
| InReset (env : stream_env) (stream_id app_error_code final_size ts : Z)
| InStopSending (env : stream_env) (mem_ok : bool) (stream_id app_error_code ts : Z)
| InMaxStreamData (env : stream_env) (stream_id max_stream_data ts : Z)
| InMaxStreams (type max_streams : Z)
| InCall (call : app_call)
| InCloseIfShut (stream_id : Z)
| InWriteMaxData (mem_ok : bool) (ts smoothed_rtt : Z)
| InWriteMaxStreamData (mem_ok : bool) (stream_id ts smoothed_rtt : Z)
| InWriteMaxStreams (mem_ok bidi : bool)
| InPop
| InSending (stream_id flags : Z) (tx : strm_tx).

Definition conn_step (i : conn_input) cs : res (Z * conn_state) :=
  match i with
  | InStream env fr ts => conn_recv_stream env cs fr ts
  | InReset env sid code final_size ts => conn_recv_reset_stream env cs sid code final_size ts
  | InStopSending env mem_ok sid code ts => conn_recv_stop_sending env mem_ok cs sid code ts
  | InMaxStreamData env sid n ts => conn_recv_max_stream_data env cs sid n ts
  | InMaxStreams type n => conn_recv_max_streams cs type n
  | InCall call => let* cs := app_do call cs in Ok (0, cs)
  | InCloseIfShut sid =>
      match ngtcp2_conn_find_stream cs sid with
      | Some _ => ngtcp2_conn_close_stream_if_shut_rdwr cs sid
      | None => Ok (0, cs)
      end
  | InWriteMaxData mem_ok ts rtt => Ok (conn_write_max_data mem_ok cs ts rtt)
  | InWriteMaxStreamData mem_ok sid ts rtt =>
      match ngtcp2_conn_find_stream cs sid with
      | Some _ => conn_write_max_stream_data mem_ok cs sid ts rtt
      | None => Ok (0, cs)
      end
  | InWriteMaxStreams mem_ok bidi => if bidi then conn_write_max_streams_bidi mem_ok cs else conn_write_max_streams_uni mem_ok cs
  | InPop => if ngtcp2_pq_empty (cs_strmq cs) then Ok (0, cs) else let* cs := ngtcp2_conn_tx_strmq_pop cs in Ok (0, cs)
  | InSending sid flags tx =>
      match ngtcp2_conn_find_stream cs sid with
      | Some strm => Ok (0, put_sending sid flags tx strm cs)
      | None => Ok (0, cs)
      end
  end.

(** Up to the first error, which closes the connection. *)
Fixpoint conn_run (inputs : list conn_input) cs : res (Z * conn_state) :=
  match inputs with
  | [] => Ok (0, cs)
  | i :: inputs =>
      let* (rv, cs) := conn_step i cs in
      if negb (rv =? 0) then Ok (rv, cs) else conn_run inputs cs
  end.
End Application.

(** The state that [conn_new], [conn_set_local_transport_params] and the
    transport parameters of the peer leave.  [avail]: memory for the trackers
    of stream ids. *)
Definition conn_start (server : bool) (flags : Z) (rlim : ngtcp2_ratelim) (cfg : conn_config) (initial_max_data : Z)
    (local_bidi local_uni remote_bidi remote_uni : Z) (avail : nat) : conn_state :=
  mk_cs (mk_conn server flags rlim 0 0 [] []) cfg ∅ ngtcp2_pq_init
    (mk_rx 0 initial_max_data initial_max_data initial_max_data UINT64_MAX)
    (mk_local (if server then 1 else 0) local_bidi) (mk_local (if server then 3 else 2) local_uni)
    (mk_remote remote_bidi remote_bidi (ngtcp2_idtr_init avail)) (mk_remote remote_uni remote_uni (ngtcp2_idtr_init avail)) [].
