(* ===== verification/ConnStreamInv.v ===== *)
(** * Streams of a connection: the invariant

    The protocol of the callbacks as a state machine for each stream id, the
    invariant of the streams, their queue, the ids and the limits of flow
    control, and what leaves the data of a stream alone. *)

From S2P Require Import Prelude Const Conv Frame Reorder Ksl Gaptr Idtr Pq Strm StrmTx Ratelim ConnCrypto ConnStream.
From stdpp Require Import list gmap.
#[local] Open Scope Z_scope.
#[local] Set Warnings "-clear-no-such-hyp".

Implicit Types (cs : conn_state) (strm : ngtcp2_strm) (sid : Z) (log : list conn_event).

(** ** The protocol of the callbacks *)

(** What the application knows about a stream: [hi] is the number of bytes it
    was given, [fin] whether it was told that there are no more. *)
Inductive rx_phase :=
| Idle
| Receiving (hi : Z) (fin : bool)
| WasReset
| Closed.

Definition fin_flag (flags : Z) : bool := negb (Z.land flags NGTCP2_STREAM_DATA_FLAG_FIN =? 0).

Definition event_stream (ev : conn_event) : option Z :=
  match ev with
  | CbStreamOpen sid | CbRecvStreamData _ sid _ _ | CbStreamReset sid _ _ | CbStreamClose _ sid _ => Some sid
  | CbExtendMaxStreamData _ _ | CbExtendMaxLocalStreams _ _ | CbExtendMaxRemoteStreams _ _ | EvCall _ => None
  end.

Inductive cb_step (stream : Z -> Z) sid : rx_phase -> conn_event -> rx_phase -> Prop :=
| cb_open : cb_step stream sid Idle (CbStreamOpen sid) (Receiving 0 false)
| cb_data flags hi data :
    carries stream hi data -> (data = [] -> fin_flag flags = true) ->
    cb_step stream sid (Receiving hi false) (CbRecvStreamData flags sid hi data)
      (Receiving (hi + zlen data) (fin_flag flags))
| cb_reset hi fin final_size code :
    hi <= final_size -> cb_step stream sid (Receiving hi fin) (CbStreamReset sid final_size code) WasReset
| cb_close hi fin flags code : cb_step stream sid (Receiving hi fin) (CbStreamClose flags sid code) Closed
| cb_close_reset flags code : cb_step stream sid WasReset (CbStreamClose flags sid code) Closed
| cb_other ph ev : event_stream ev <> Some sid -> cb_step stream sid ph ev ph.

Definition local_id (server : bool) sid : bool := u8 (Z.land sid 1) =? (if server then 1 else 0).

(** A stream that the application opens is open without a callback, and there
    is nothing to receive if it is unidirectional. *)
Definition start_phase (server : bool) sid : rx_phase :=
  if local_id server sid then Receiving 0 (negb (bidi_stream sid)) else Idle.

Inductive given (stream : Z -> Z) (server : bool) sid : list conn_event -> rx_phase -> Prop :=
| given_nil : given stream server sid [] (start_phase server sid)
| given_snoc log ev ph ph' :
    given stream server sid log ph -> cb_step stream sid ph ev ph' -> given stream server sid (log ++ [ev]) ph'.

Lemma given_others stream server sid log evs ph :
  given stream server sid log ph -> Forall (fun ev => event_stream ev <> Some sid) evs ->
  given stream server sid (log ++ evs) ph.
Proof.
  revert log. induction evs as [|ev evs IH]; intros log Hg Hev; [by rewrite app_nil_r|].
  apply Forall_cons_iff in Hev as [He Hev]. change (ev :: evs) with ([ev] ++ evs). rewrite app_assoc. apply IH; [|done].
  by eapply given_snoc, cb_other.
Qed.

(** ** Flags *)
Lemma has_flag_lor strm f g :
  has_flag (set_flags (Z.lor (strm_flags strm) f) strm) g = has_flag strm g || negb (Z.land f g =? 0).
Proof.
  unfold has_flag. cbn [strm_flags set_flags]. rewrite Z.land_lor_distr_l.
  destruct (Z.eqb_spec (Z.lor (Z.land (strm_flags strm) g) (Z.land f g)) 0) as [H|H].
  - apply Z.lor_eq_0_iff in H as [-> ->]. done.
  - destruct (Z.eqb_spec (Z.land (strm_flags strm) g) 0) as [E|]; [|done].
    rewrite E, Z.lor_0_l in H. by destruct (Z.eqb_spec (Z.land f g) 0).
Qed.

Lemma has_flag_or strm f g : has_flag strm (Z.lor f g) = has_flag strm f || has_flag strm g.
Proof.
  unfold has_flag. rewrite Z.land_lor_distr_r.
  destruct (Z.eqb_spec (Z.land (strm_flags strm) f) 0) as [E|Hf]; [by rewrite E, Z.lor_0_l|].
  destruct (Z.eqb_spec (Z.lor (Z.land (strm_flags strm) f) (Z.land (strm_flags strm) g)) 0) as [H|]; [|done].
  by apply Z.lor_eq_0_iff in H as [? _].
Qed.

(** ** One stream *)

(** Everything up to [hi] is everything there is. *)
Definition rx_complete strm (hi : Z) : bool := has_flag strm NGTCP2_STRM_FLAG_SHUT_RD && (hi =? rx_last_offset strm).

Definition stopped strm : bool := has_flag strm NGTCP2_STRM_FLAG_STOP_SENDING.

(** How the stream and what the application knows fit; [d] bytes behind
    [rx_cont_offset] are given already. *)
Definition phase_is (d : Z) strm (ph : rx_phase) : Prop :=
  if has_flag strm NGTCP2_STRM_FLAG_RESET_STREAM_RECVED then ph = WasReset else
  exists hi fin, ph = Receiving hi fin /\ hi <= rx_last_offset strm /\
    if stopped strm then hi <= rx_cont_offset strm
    else hi = rx_cont_offset strm + d /\ fin = rx_complete strm hi.

(** Where the code is with a stream: between frames, in the callback for
    stored data ([d] bytes of it), or in that for a reset or for the close. *)
Inductive view :=
| Quiet
| Pending (d : Z)
| Resetting
| Closing.

Definition view_ok (v : view) strm (ph : rx_phase) : Prop :=
  match v with
  | Quiet => rx_drained strm /\ phase_is 0 strm ph
  | Pending d =>
      0 <= d /\
      (stopped strm = false ->
       forall x, rx_cont_offset strm <= x < rx_cont_offset strm + d -> covered (rx_entries strm) x) /\
      phase_is d strm ph
  | Resetting => rx_drained strm /\ ph = WasReset
  | Closing => ph = Closed
  end.

(** The tracker of acknowledged data is well formed. *)
Definition tx_ok strm : Prop :=
  forall gaptr, tx_acked_offset (strm_tx_half strm) = Some gaptr -> exists n P, gaptr_rep n P gaptr.

Definition code_ok strm : Prop :=
  has_flag strm NGTCP2_STRM_FLAG_APP_ERROR_CODE_SET = false -> strm_app_error_code strm = 0.

Record strm_ok (stream : Z -> Z) sid strm : Prop := {
  sk_id : strm_stream_id strm = sid;
  sk_rx : rx_ok stream (rx_last_offset strm) strm;
  sk_last : 0 <= rx_last_offset strm <= rx_max_offset strm;
  sk_max : rx_max_offset strm <= rx_unsent_max_offset strm <= NGTCP2_MAX_VARINT;
  sk_window : 0 <= rx_window strm <= NGTCP2_MAX_VARINT;
  sk_stop : stopped strm = true -> rx_reorder strm = None;
  sk_reset : has_flag strm NGTCP2_STRM_FLAG_RESET_STREAM_RECVED = true -> has_flag strm NGTCP2_STRM_FLAG_SHUT_RD = true;
  sk_code : code_ok strm;
  sk_tx : tx_ok strm;
}.

(** What the calls of the application, and the sending half, do to a stream. *)
Record strm_calm strm strm' : Prop := {
  ca_id : strm_stream_id strm' = strm_stream_id strm;
  ca_last : rx_last_offset strm' = rx_last_offset strm;
  ca_max : rx_max_offset strm' = rx_max_offset strm;
  ca_window : rx_window strm' = rx_window strm;
  ca_shut : has_flag strm' NGTCP2_STRM_FLAG_SHUT_RD = has_flag strm NGTCP2_STRM_FLAG_SHUT_RD;
  ca_reset : has_flag strm' NGTCP2_STRM_FLAG_RESET_STREAM_RECVED = has_flag strm NGTCP2_STRM_FLAG_RESET_STREAM_RECVED;
  ca_unsent : rx_unsent_max_offset strm <= NGTCP2_MAX_VARINT ->
    rx_unsent_max_offset strm <= rx_unsent_max_offset strm' <= NGTCP2_MAX_VARINT;
  ca_code : code_ok strm -> code_ok strm';
  ca_tx : tx_ok strm -> tx_ok strm';
  ca_data :
    stopped strm' = stopped strm /\ rx_reorder strm' = rx_reorder strm /\ rx_cont_offset strm' = rx_cont_offset strm \/
    stopped strm' = true /\ rx_reorder strm' = None /\ rx_cont_offset strm' = ngtcp2_strm_rx_offset strm;
}.

#[export] Instance strm_calm_pre : PreOrder strm_calm.
Proof.
  split; [by intros strm; split; auto; lia|].
  intros s1 s2 s3 [A1 A2 A3 A4 A5 A6 A7 A8 A9 A10] [B1 B2 B3 B4 B5 B6 B7 B8 B9 B10].
  split; try congruence; auto.
  - intros H. specialize (A7 H). specialize (B7 ltac:(lia)). lia.
  - unfold ngtcp2_strm_rx_offset in *.
    destruct A10 as [(a1 & a2 & a3)|(a1 & a2 & a3)], B10 as [(b1 & b2 & b3)|(b1 & b2 & b3)].
    + left. split_and!; congruence.
    + right. rewrite a2, a3 in b3. done.
    + right. split_and!; congruence.
    + right. rewrite a2 in b3. split_and!; congruence.
Qed.

(** A change that leaves the data alone. *)
Lemma calm_keep strm strm' :
  strm_stream_id strm' = strm_stream_id strm -> rx_last_offset strm' = rx_last_offset strm ->
  rx_max_offset strm' = rx_max_offset strm -> rx_window strm' = rx_window strm ->
  rx_unsent_max_offset strm' = rx_unsent_max_offset strm ->
  rx_reorder strm' = rx_reorder strm -> rx_cont_offset strm' = rx_cont_offset strm ->
  (forall f, f = NGTCP2_STRM_FLAG_SHUT_RD \/ f = NGTCP2_STRM_FLAG_RESET_STREAM_RECVED \/
    f = NGTCP2_STRM_FLAG_STOP_SENDING -> has_flag strm' f = has_flag strm f) ->
  (code_ok strm -> code_ok strm') -> (tx_ok strm -> tx_ok strm') -> strm_calm strm strm'.
Proof.
  intros E1 E2 E3 E4 E5 E6 E7 Hf Hc Ht. split; try done; try (apply Hf; tauto); [lia|].
  left. split_and!; [apply Hf; tauto|done|done].
Qed.

(** The flags that matter for the receiving half. *)
Definition rx_flags : Z :=
  Z.lor NGTCP2_STRM_FLAG_SHUT_RD (Z.lor NGTCP2_STRM_FLAG_RESET_STREAM_RECVED
    (Z.lor NGTCP2_STRM_FLAG_STOP_SENDING NGTCP2_STRM_FLAG_APP_ERROR_CODE_SET)).

(** Progress of the sending half. *)
Lemma calm_send strm f tx :
  Z.land f rx_flags = 0 -> (tx_ok strm -> tx_ok (set_tx tx strm)) ->
  strm_calm strm (set_tx tx (set_flags (Z.lor (strm_flags strm) f) strm)).
Proof.
  unfold rx_flags. rewrite !Z.land_lor_distr_r, !Z.lor_eq_0_iff. intros (F1 & F2 & F3 & F4) Htx.
  set (strm' := set_tx _ _).
  assert (Hf : forall g, Z.land f g = 0 -> has_flag strm' g = has_flag strm g).
  { intros g Hg. change (has_flag (set_flags (Z.lor (strm_flags strm) f) strm) g = has_flag strm g).
    by rewrite has_flag_lor, Hg, orb_false_r. }
  apply calm_keep; try done; [by intros g [->|[->| ->]]; apply Hf|]. unfold code_ok. by rewrite Hf.
Qed.

Lemma calm_send_flags strm f :
  Z.land f rx_flags = 0 -> strm_calm strm (set_flags (Z.lor (strm_flags strm) f) strm).
Proof. intros Hf. by apply (calm_send strm f (strm_tx_half strm)). Qed.

Lemma calm_send_clear strm f :
  Z.land f rx_flags = 0 -> strm_calm strm (ngtcp2_strm_streamfrq_clear (set_flags (Z.lor (strm_flags strm) f) strm)).
Proof.
  intros Hf. unfold ngtcp2_strm_streamfrq_clear. cbn [strm_tx_half set_flags].
  destruct (tx_streamfrq (strm_tx_half strm)) as [q|]; [|by apply calm_send_flags].
  by apply (calm_send strm f (set_tx_streamfrq (Some (ngtcp2_ksl_clear q)) (strm_tx_half strm))).
Qed.

Section Strm.
Context (stream : Z -> Z).

Lemma entries_none strm : rx_reorder strm = None -> rx_entries strm = [].
Proof. unfold rx_entries. by intros ->. Qed.

Lemma drained_none strm : rx_reorder strm = None -> rx_drained strm.
Proof. unfold rx_drained. intros ->%entries_none. by intros ?%covered_nil. Qed.

Lemma calm_ok sid strm strm' : strm_ok stream sid strm -> strm_calm strm strm' -> strm_ok stream sid strm'.
Proof.
  intros [S1 S2 S3 S4 S5 S6 S9 S7 S8] [A1 A2 A3 A4 A5 A6 A7 A8 A9 A10]. specialize (A7 ltac:(lia)).
  split; rewrite ?A1, ?A2, ?A3, ?A4, ?A5, ?A6; auto; [|lia|].
  - destruct A10 as [(_ & a2 & a3)|(_ & a2 & a3)].
    + destruct S2 as [H1 H2 H3 H4]. unfold rx_entries in *. split; unfold rx_entries; rewrite ?a2, ?a3; done.
    + pose proof (rx_offset_bounds _ _ _ S2). pose proof (ro_cont _ _ _ S2).
      split; rewrite ?(entries_none _ a2); [done|constructor|lia|]. intros x. by rewrite covered_nil.
  - destruct A10 as [(a1 & a2 & _)|(_ & a2 & _)]; [|done]. rewrite a1, a2. done.
Qed.

(** Data that are stored without a gap are in front of the first gap. *)
Lemma pending_offset limit strm d :
  rx_ok stream limit strm -> 0 <= d ->
  (forall x, rx_cont_offset strm <= x < rx_cont_offset strm + d -> covered (rx_entries strm) x) ->
  rx_cont_offset strm + d <= ngtcp2_strm_rx_offset strm.
Proof.
  intros Hok Hd Hc. rewrite rx_offset_entries.
  destruct (first_gap_spec _ _ (rx_cont_offset strm) (ro_sorted _ _ _ Hok)) as (Hle & _ & Hn).
  destruct (Z.le_gt_cases (rx_cont_offset strm + d) (first_gap (rx_entries strm) (rx_cont_offset strm))); [done|].
  destruct Hn. apply Hc. lia.
Qed.

Lemma calm_phase sid d strm strm' ph :
  strm_ok stream sid strm -> strm_calm strm strm' -> 0 <= d ->
  (stopped strm = false -> forall x, rx_cont_offset strm <= x < rx_cont_offset strm + d -> covered (rx_entries strm) x) ->
  phase_is d strm ph -> phase_is d strm' ph.
Proof.
  intros Hok [A1 A2 A3 A4 A5 A6 A7 A8 A9 A10] Hd Hc. unfold phase_is. rewrite A6, A2.
  destruct (has_flag strm NGTCP2_STRM_FLAG_RESET_STREAM_RECVED); [done|]. intros (hi & fin & -> & Hhi & Hst).
  exists hi, fin. split_and!; [done|done|]. destruct A10 as [(a1 & a2 & a3)|(a1 & a2 & a3)]; rewrite a1, a3.
  - unfold rx_complete in *. by rewrite A5, A2.
  - pose proof (rx_offset_bounds _ _ _ (sk_rx _ _ _ Hok)). destruct (stopped strm); [lia|].
    destruct Hst as [-> _]. apply (pending_offset _ _ d (sk_rx _ _ _ Hok)); auto.
Qed.

Lemma calm_drained strm strm' : strm_calm strm strm' -> rx_drained strm -> rx_drained strm'.
Proof.
  intros [_ _ _ _ _ _ _ _ _ [(_ & a2 & a3)|(_ & a2 & _)]]; [|by intros _; apply drained_none].
  unfold rx_drained, rx_entries. by rewrite a2, a3.
Qed.

Lemma calm_view sid v strm strm' ph :
  strm_ok stream sid strm -> strm_calm strm strm' -> view_ok v strm ph -> view_ok v strm' ph.
Proof.
  intros Hok Hca. destruct v as [|d| |]; cbn [view_ok].
  - intros [Hd Hph]. split; [by eapply calm_drained|]. eapply calm_phase; [done|done|done|lia|done].
  - intros (Hd & Hc & Hph). split_and!; [done| |by eapply calm_phase].
    destruct (ca_data _ _ Hca) as [(a1 & a2 & a3)|(a1 & _ & _)]; [|by rewrite a1].
    unfold rx_entries. by rewrite a1, a2, a3.
  - intros [Hd Hph]. split; [by eapply calm_drained|done].
  - done.
Qed.

Lemma tx_acked_run sid strm : strm_ok stream sid strm -> exists b, ngtcp2_strm_is_all_tx_data_fin_acked strm = Ok b.
Proof.
  intros Hok. unfold ngtcp2_strm_is_all_tx_data_fin_acked, ngtcp2_strm_is_all_tx_data_acked.
  destruct (has_flag _ _); [|eauto]. destruct (tx_acked_offset (strm_tx_half strm)) as [gaptr|] eqn:E; [|eauto].
  destruct (sk_tx _ _ _ Hok gaptr E) as (n & P & Hrep).
  destruct (first_gap_ok n P gaptr Hrep) as (x & -> & _). cbn [bind]. eauto.
Qed.

Lemma set_code_run strm code :
  code_ok strm -> exists strm', ngtcp2_strm_set_app_error_code strm code = Ok strm' /\ strm_calm strm strm' /\
    rx_reorder strm' = rx_reorder strm /\ rx_cont_offset strm' = rx_cont_offset strm /\
    rx_unsent_max_offset strm' = rx_unsent_max_offset strm /\
    (forall f, Z.land NGTCP2_STRM_FLAG_APP_ERROR_CODE_SET f = 0 -> has_flag strm' f = has_flag strm f).
Proof.
  intros Hc. unfold ngtcp2_strm_set_app_error_code.
  destruct (has_flag strm NGTCP2_STRM_FLAG_APP_ERROR_CODE_SET) eqn:E; [by exists strm|].
  rewrite (Hc E), Z.eqb_refl. eexists. split; [reflexivity|].
  assert (Hf : forall f, Z.land NGTCP2_STRM_FLAG_APP_ERROR_CODE_SET f = 0 ->
    has_flag (set_app_error code (set_flags (Z.lor (strm_flags strm) NGTCP2_STRM_FLAG_APP_ERROR_CODE_SET) strm)) f
    = has_flag strm f).
  { intros f Hf. change (has_flag (set_flags (Z.lor (strm_flags strm) NGTCP2_STRM_FLAG_APP_ERROR_CODE_SET) strm) f
      = has_flag strm f). by rewrite has_flag_lor, Hf, orb_false_r. }
  split_and!; try done. apply calm_keep; try done.
  - by intros f [->|[->| ->]]; apply Hf.
  - intros _ H. change (has_flag (set_flags (Z.lor (strm_flags strm) NGTCP2_STRM_FLAG_APP_ERROR_CODE_SET) strm)
      NGTCP2_STRM_FLAG_APP_ERROR_CODE_SET = false) in H. rewrite has_flag_lor, orb_true_r in H. done.
Qed.
End Strm.

(** ** The connection *)

(** The bytes that the open streams received. *)
Definition received_sum (strms : gmap Z ngtcp2_strm) : Z :=
  map_fold (fun _ strm n => rx_last_offset strm + n) 0 strms.

Lemma received_insert strms sid strm :
  strms !! sid = None -> received_sum (<[sid := strm]> strms) = rx_last_offset strm + received_sum strms.
Proof. intros H. unfold received_sum. rewrite map_fold_insert_L; [done| |done]. intros. lia. Qed.

Lemma received_delete strms sid strm :
  strms !! sid = Some strm -> received_sum strms = rx_last_offset strm + received_sum (delete sid strms).
Proof. intros H. unfold received_sum. rewrite (map_fold_delete_L _ _ sid strm strms); [done| |done]. intros. lia. Qed.

Lemma received_update strms sid strm strm' :
  strms !! sid = Some strm ->
  received_sum (<[sid := strm']> strms) = received_sum strms - rx_last_offset strm + rx_last_offset strm'.
Proof.
  intros H. rewrite (received_delete _ _ _ H), <- insert_delete_eq.
  rewrite received_insert by apply lookup_delete_eq. lia.
Qed.

Record flow_ok (rx : conn_rx) : Prop := {
  fo_offset : 0 <= crx_offset rx <= crx_max_offset rx;
  fo_max : crx_max_offset rx <= crx_unsent_max_offset rx <= NGTCP2_MAX_VARINT;
  fo_window : 0 <= crx_window rx <= NGTCP2_MAX_VARINT;
}.

Record config_ok (cfg : conn_config) : Prop := {
  co_local : 0 <= cfg_local_bidi_local cfg <= NGTCP2_MAX_VARINT /\
    0 <= cfg_local_bidi_remote cfg <= NGTCP2_MAX_VARINT /\ 0 <= cfg_local_uni cfg <= NGTCP2_MAX_VARINT;
  co_window : 0 <= cfg_max_window cfg <= NGTCP2_MAX_VARINT /\ 0 <= cfg_max_stream_window cfg <= NGTCP2_MAX_VARINT;
}.

(** The streams of the queue exist, and know whether they are in it. *)
Record queue_ok cs : Prop := {
  qo_indexed : indexed (cs_strmq cs);
  qo_open : forall x, x ∈ pq_q (cs_strmq cs) -> is_Some (cs_strms cs !! x);
  qo_known : forall x, is_Some (cs_strms cs !! x) -> is_Some (pq_index (cs_strmq cs) !! x) -> x ∈ pq_q (cs_strmq cs);
}.

(** The ids that the peer has opened (divided by 4), memory for [g_room]
    more, and a time that has passed. *)
Record ghost := mk_ghost { g_room : nat; g_bidi : list Z; g_uni : list Z; g_time : Z }.
Implicit Types (g : ghost) (act : Z -> view).

Definition quiet : Z -> view := fun _ => Quiet.
Definition active sid (v : view) : Z -> view := fun s => if decide (s = sid) then v else Quiet.

Lemma active_eq sid v : active sid v sid = v.
Proof. unfold active. by rewrite decide_True. Qed.

Lemma active_ne sid v s : s <> sid -> active sid v s = Quiet.
Proof. intros. unfold active. by rewrite decide_False. Qed.

Section Conn.
Context (server : bool) (stream : Z -> Z -> Z).

(** An id that no stream had yet. *)
Definition unused_id g cs sid : Prop :=
  if local_id server sid then
    (if bidi_stream sid then ls_next_stream_id (cs_local_bidi cs) else ls_next_stream_id (cs_local_uni cs)) <= sid
  else sid / 4 ∉ (if bidi_stream sid then g_bidi g else g_uni g).

Record ids_ok g cs : Prop := {
  io_bidi : idtr_rep (g_room g) (g_bidi g) (rs_idtr (cs_remote_bidi cs));
  io_uni : idtr_rep (g_room g) (g_uni g) (rs_idtr (cs_remote_uni cs));
  io_next_bidi : local_id server (ls_next_stream_id (cs_local_bidi cs)) = true /\
    bidi_stream (ls_next_stream_id (cs_local_bidi cs)) = true;
  io_next_uni : local_id server (ls_next_stream_id (cs_local_uni cs)) = true /\
    bidi_stream (ls_next_stream_id (cs_local_uni cs)) = false;
  io_fresh : forall sid, unused_id g cs sid ->
    cs_strms cs !! sid = None /\ given (stream sid) server sid (cs_log cs) (start_phase server sid);
}.

Definition strm_inv (v : view) log sid strm : Prop :=
  strm_ok (stream sid) sid strm /\ exists ph, given (stream sid) server sid log ph /\ view_ok v strm ph.

Definition log_ok log : Prop := forall sid, exists ph, given (stream sid) server sid log ph.

Record conn_inv g act cs : Prop := {
  ci_server : conn_server (cs_base cs) = server;
  ci_strms : forall sid strm, cs_strms cs !! sid = Some strm -> strm_inv (act sid) (cs_log cs) sid strm;
  ci_log : log_ok (cs_log cs);
  ci_queue : queue_ok cs;
  ci_flow : flow_ok (cs_rx cs);
  ci_sum : received_sum (cs_strms cs) <= crx_offset (cs_rx cs);
  ci_config : config_ok (cs_config cs);
  ci_ids : ids_ok g cs;
  ci_glitch : glitch_ok (cs_base cs) (g_time g);
  ci_active : forall sid, cs_strms cs !! sid = None -> act sid = Quiet;
}.

(** The open streams stay open. *)
Definition strms_calm (strms strms' : gmap Z ngtcp2_strm) : Prop :=
  forall sid strm, strms !! sid = Some strm -> exists strm', strms' !! sid = Some strm' /\ strm_calm strm strm'.

#[export] Instance strms_calm_pre : PreOrder strms_calm.
Proof.
  split; [by intros m sid strm Hs; exists strm|]. intros m1 m2 m3 A B sid strm (s2 & H2 & C2)%A.
  destruct (B _ _ H2) as (s3 & H3 & C3). exists s3. split; [done|by transitivity s2].
Qed.

(** What the calls of the application leave as it was. *)
Record calm cs cs' : Prop := {
  cm_base : cs_base cs' = cs_base cs;
  cm_config : cs_config cs' = cs_config cs;
  cm_offset : crx_offset (cs_rx cs') = crx_offset (cs_rx cs);
  cm_max : crx_max_offset (cs_rx cs') = crx_max_offset (cs_rx cs);
  cm_strms : strms_calm (cs_strms cs) (cs_strms cs');
}.

#[export] Instance calm_pre : PreOrder calm.
Proof.
  split; [by intros cs; split|]. intros c1 c2 c3 [A1 A2 A3 A4 A5] [B1 B2 B3 B4 B5].
  split; try congruence. by transitivity (cs_strms c2).
Qed.

Lemma calm_lookup cs cs' sid strm :
  calm cs cs' -> cs_strms cs !! sid = Some strm ->
  exists strm', cs_strms cs' !! sid = Some strm' /\ strm_calm strm strm'.
Proof.
  intros Hc. apply (cm_strms _ _ Hc).
Qed.

Lemma get_strm_ok cs sid strm : cs_strms cs !! sid = Some strm -> get_strm cs sid = Ok strm.
Proof. unfold get_strm. by intros ->. Qed.

Lemma conn_inv_view g act act' cs : (forall sid, act' sid = act sid) -> conn_inv g act cs -> conn_inv g act' cs.
Proof.
  intros He [H1 H2 H3 H4 H5 H6 H7 H8 H9 H10]. split; try done; [|intros sid; rewrite He; apply H10].
  intros sid strm. rewrite He. apply H2.
Qed.

Lemma conn_inv_quiet g sid cs : conn_inv g (active sid Quiet) cs <-> conn_inv g quiet cs.
Proof. split; apply conn_inv_view; intros s; unfold active, quiet; by case_decide. Qed.

(** A stream, what was received on the connection, and the log change. *)
Definition update_strm sid strm (rx : conn_rx) (evs : list conn_event) cs : conn_state :=
  mk_cs (cs_base cs) (cs_config cs) (<[sid := strm]> (cs_strms cs)) (cs_strmq cs) rx (cs_local_bidi cs)
    (cs_local_uni cs) (cs_remote_bidi cs) (cs_remote_uni cs) (cs_log cs ++ evs).

Lemma put_strm_update sid strm cs : put_strm sid strm cs = update_strm sid strm (cs_rx cs) [] cs.
Proof. unfold put_strm, update_strm, set_strms. by rewrite app_nil_r. Qed.

Lemma others_events sid s evs :
  Forall (fun ev => event_stream ev = Some sid) evs -> s <> sid ->
  Forall (fun ev => event_stream ev <> Some s) evs.
Proof. intros Hev Hne. eapply Forall_impl; [exact Hev|]. cbn. congruence. Qed.

Lemma queue_open_ext cs cs' :
  cs_strmq cs' = cs_strmq cs -> (forall s, is_Some (cs_strms cs' !! s) <-> is_Some (cs_strms cs !! s)) ->
  queue_ok cs -> queue_ok cs'.
Proof.
  intros Hq Hs [H1 H2 H3]. split; rewrite Hq; [done|intros x; rewrite Hs; auto|intros x; rewrite Hs; auto].
Qed.

Lemma insert_open (strms : gmap Z ngtcp2_strm) sid strm strm' s :
  strms !! sid = Some strm -> is_Some (<[sid := strm']> strms !! s) <-> is_Some (strms !! s).
Proof.
  intros H. rewrite lookup_insert_is_Some. destruct (decide (sid = s)) as [->|]; [rewrite H|]; naive_solver.
Qed.

Lemma update_strm_inv g act act' cs sid strm strm' rx evs :
  conn_inv g act cs -> cs_strms cs !! sid = Some strm -> (forall s, s <> sid -> act' s = act s) ->
  Forall (fun ev => event_stream ev = Some sid) evs -> strm_inv (act' sid) (cs_log cs ++ evs) sid strm' ->
  flow_ok rx -> rx_last_offset strm' - rx_last_offset strm <= crx_offset rx - crx_offset (cs_rx cs) ->
  conn_inv g act' (update_strm sid strm' rx evs cs).
Proof.
  intros [H1 H2 H3 H4 H5 H6 H7 H8 H9 H10] Hs Hact Hev Hinv Hrx Hsum.
  assert (Ho : forall s, s <> sid -> Forall (fun ev => event_stream ev <> Some s) evs).
  { intros s. by apply others_events. }
  split; cbn; try done.
  - intros s st. destruct (decide (s = sid)) as [->|Hne].
    + rewrite lookup_insert_eq. by intros [= <-].
    + rewrite lookup_insert_ne by done. intros Hst. rewrite Hact by done.
      destruct (H2 _ _ Hst) as (Hok & ph & Hg & Hv). split; [done|]. exists ph. split; [|done].
      by apply given_others; [|apply Ho].
  - intros s. destruct (decide (s = sid)) as [->|Hne].
    + destruct Hinv as (_ & ph & Hg & _). eauto.
    + destruct (H3 s) as (ph & Hg). exists ph. by apply given_others; [|apply Ho].
  - eapply queue_open_ext; [| |exact H4]; [done|]. intros s. by eapply insert_open.
  - rewrite (received_update _ _ _ _ Hs). lia.
  - destruct H8 as [I1 I2 I3 I4 I5]. split; try done. cbn. intros s Hf. destruct (I5 s Hf) as [Hn Hg].
    assert (s <> sid) by (intros ->; congruence). rewrite lookup_insert_ne by done. split; [done|].
    by apply given_others; [|apply Ho].
  - intros s [Hn Hne]%lookup_insert_None. rewrite Hact by congruence. by apply H10.
Qed.

Lemma put_calm g act cs sid strm strm' :
  conn_inv g act cs -> cs_strms cs !! sid = Some strm -> strm_calm strm strm' ->
  conn_inv g act (put_strm sid strm' cs) /\ calm cs (put_strm sid strm' cs).
Proof.
  intros Hinv Hs Hca. destruct (ci_strms _ _ _ Hinv _ _ Hs) as (Hok & ph & Hg & Hv). split.
  - rewrite put_strm_update. eapply update_strm_inv; try done.
    + split; [by eapply calm_ok|]. rewrite app_nil_r. exists ph. split; [done|]. by eapply calm_view.
    + apply Hinv.
    + rewrite (ca_last _ _ Hca). lia.
  - split; try done. intros s st Hst. cbn. destruct (decide (s = sid)) as [->|Hne].
    + rewrite Hs in Hst. injection Hst as <-. rewrite lookup_insert_eq. by exists strm'.
    + rewrite lookup_insert_ne by done. by exists st.
Qed.

Lemma put_lookup sid strm cs : cs_strms (put_strm sid strm cs) !! sid = Some strm.
Proof. apply lookup_insert_eq. Qed.

(** The queue, and the credit of the connection. *)
Lemma queue_inv g act cs pq :
  conn_inv g act cs -> queue_ok (set_strmq pq cs) -> conn_inv g act (set_strmq pq cs) /\ calm cs (set_strmq pq cs).
Proof.
  intros [H1 H2 H3 H4 H5 H6 H7 [I1 I2 I3 I4 I5] H9] Hq. split; [|by split]. by split.
Qed.

Lemma extend_max_offset_run g act cs n :
  0 <= n -> conn_inv g act cs ->
  conn_inv g act (ngtcp2_conn_extend_max_offset cs n) /\ calm cs (ngtcp2_conn_extend_max_offset cs n).
Proof.
  intros Hn [H1 H2 H3 H4 H5 H6 H7 [I1 I2 I3 I4 I5] H9]. split; [|by split].
  split; try done; try (by destruct H4); try (by split). destruct H5 as [F1 F2 F3]. split; cbn; [done| |done].
  destruct (Z.ltb_spec NGTCP2_MAX_VARINT n); cbn [orb]; [lia|].
  destruct (Z.ltb_spec (NGTCP2_MAX_VARINT - n) (crx_unsent_max_offset (cs_rx cs))); lia.
Qed.

Lemma log_other_inv g act cs ev :
  event_stream ev = None -> conn_inv g act cs -> conn_inv g act (log_event ev cs) /\ calm cs (log_event ev cs).
Proof.
  intros Hev [H1 H2 H3 H4 H5 H6 H7 [I1 I2 I3 I4 I5] H9]. split; [|by split].
  assert (Ho : forall s, Forall (fun ev => event_stream ev <> Some s) [ev]) by (intros; repeat constructor; by rewrite Hev).
  split; try done; [| |by destruct H4|split; try done].
  - intros s st Hst. destruct (H2 _ _ Hst) as (Hok & ph & Hg & Hv). split; [done|]. exists ph.
    split; [|done]. by apply given_others.
  - intros s. destruct (H3 s) as (ph & Hg). exists ph. by apply given_others.
  - intros s Hf. destruct (I5 s Hf). split; [done|]. by apply given_others.
Qed.
End Conn.
