(* ===== verification/ConnStreamCalls.v ===== *)
(** * Streams of a connection: the calls of the application

    New streams, and that every call that the application can make about
    streams, in a callback or between them, returns and keeps the invariant of
    [ConnStreamInv]. *)

From S2P Require Import Prelude Const Conv Frame Reorder Ksl Gaptr Idtr Pq Strm StrmTx StrmSend Ratelim ConnCrypto ConnStream ConnStreamInv.
From stdpp Require Import list gmap.
#[local] Open Scope Z_scope.
#[local] Set Warnings "-clear-no-such-hyp".

Implicit Types (cs : conn_state) (strm : ngtcp2_strm) (sid : Z) (log : list conn_event) (g : ghost) (act : Z -> view).

(** A failed insertion into the map of streams does not store the entry. *)
Definition map_ok (mem_map : map_mem) : Prop := mem_map <> MapFailsStored.

Section Open.
Context (server : bool) (stream : Z -> Z -> Z).
#[local] Abbreviation conn_inv := (conn_inv server stream).
#[local] Abbreviation given := (fun sid => given (stream sid) server sid).

(** *** New streams *)

(** A stream with nothing in it. *)
Record new_strm cs sid strm : Prop := {
  nw_id : strm_stream_id strm = sid;
  nw_reorder : rx_reorder strm = None;
  nw_cont : rx_cont_offset strm = 0;
  nw_last : rx_last_offset strm = 0;
  nw_max : rx_max_offset strm = conn_initial_stream_rx_offset cs sid /\
    rx_unsent_max_offset strm = rx_max_offset strm /\ rx_window strm = rx_max_offset strm;
  nw_code : strm_app_error_code strm = 0;
  nw_tx : tx_acked_offset (strm_tx_half strm) = None;
  nw_flags : has_flag strm NGTCP2_STRM_FLAG_RESET_STREAM_RECVED = false /\ stopped strm = false /\
    has_flag strm NGTCP2_STRM_FLAG_SHUT_RD = conn_local_stream cs sid && negb (bidi_stream sid);
}.

Lemma init_stream_run mem_map cs sid :
  map_ok mem_map -> cs_strms cs !! sid = None ->
  ngtcp2_conn_init_stream mem_map cs sid = Ok (NGTCP2_ERR_NOMEM, cs) \/
  exists strm, ngtcp2_conn_init_stream mem_map cs sid = Ok (0, set_strmq (unindexed sid (cs_strmq cs)) (put_strm sid strm cs)) /\
    new_strm cs sid strm.
Proof.
  intros Hm Hn. unfold ngtcp2_conn_init_stream. rewrite Hn. destruct mem_map; [right|by left|done].
  eexists. split; [reflexivity|]. destruct (bidi_stream sid) eqn:E1, (conn_local_stream cs sid) eqn:E2;
    split; try done; split_and!; try done; by rewrite ?E1, ?E2.
Qed.

Lemma initial_offset_range g act cs sid :
  conn_inv g act cs -> 0 <= conn_initial_stream_rx_offset cs sid <= NGTCP2_MAX_VARINT.
Proof.
  intros Hinv. destruct (co_local _ (ci_config _ _ _ _ _ Hinv)) as (? & ? & ?). unfold conn_initial_stream_rx_offset, NGTCP2_MAX_VARINT in *.
  destruct (bidi_stream sid), (conn_local_stream cs sid); lia.
Qed.

Lemma new_strm_ok g act cs sid strm : conn_inv g act cs -> new_strm cs sid strm -> strm_ok (stream sid) sid strm.
Proof.
  intros Hinv [N1 N2 N3 N4 (N5 & N6 & N7) N8 N9 (F1 & F2 & F3)]. pose proof (initial_offset_range _ _ _ sid Hinv).
  split; try done; try lia.
  - split; rewrite ?N3, ?N4, ?(entries_none _ N2); [done|constructor|lia|]. intros x. by intros ?%covered_nil.
  - congruence.
  - by intros _.
  - intros gaptr. by rewrite N9.
Qed.

(** The stream [sid] is new; the ids of the application may have advanced. *)
Lemma inserted_inv g act cs sid strm evs bidi uni :
  conn_inv g act cs -> cs_strms cs !! sid = None -> new_strm cs sid strm ->
  given sid (cs_log cs ++ evs) (Receiving 0 (conn_local_stream cs sid && negb (bidi_stream sid))) ->
  Forall (fun ev => event_stream ev = Some sid) evs ->
  let cs' := mk_cs (cs_base cs) (cs_config cs) (<[sid := strm]> (cs_strms cs)) (unindexed sid (cs_strmq cs)) (cs_rx cs)
    bidi uni (cs_remote_bidi cs) (cs_remote_uni cs) (cs_log cs ++ evs) in
  (local_id server (ls_next_stream_id bidi) = true /\ bidi_stream (ls_next_stream_id bidi) = true) ->
  (local_id server (ls_next_stream_id uni) = true /\ bidi_stream (ls_next_stream_id uni) = false) ->
  (forall s, unused_id server g cs' s -> s <> sid /\ unused_id server g cs s) -> conn_inv g act cs'.
Proof.
  intros Hinv Hn Hnew Hg Hev cs' Hb Hu Hfr. pose proof (new_strm_ok _ _ _ _ _ Hinv Hnew) as Hok.
  destruct Hnew as [N1 N2 N3 N4 _ N8 N9 (F1 & F2 & F3)]. destruct Hinv as [H1 H2 H3 [Q1 Q2 Q3] H5 H6 H7 [I1 I2 I3 I4 I5] H9 H10].
  assert (Hot : forall s, s <> sid -> Forall (fun ev => event_stream ev <> Some s) evs) by (intros s; by apply others_events).
  split; cbn; try done.
  - intros s st. destruct (decide (s = sid)) as [->|Hne].
    + rewrite lookup_insert_eq. intros [= <-]. split; [done|]. eexists. split; [exact Hg|]. rewrite (H10 _ Hn).
      split; [by apply drained_none|]. unfold phase_is. rewrite F1, F2. exists 0, (conn_local_stream cs sid && negb (bidi_stream sid)).
      split_and!; [done|lia|lia|]. unfold rx_complete. by rewrite F3, N4, andb_true_r.
    + rewrite lookup_insert_ne by done. intros (Hok' & ph & Hg' & Hv)%H2. split; [done|]. exists ph.
      split; [|done]. apply given_others; auto.
  - intros s. destruct (decide (s = sid)) as [->|Hne]; [eexists; exact Hg|]. destruct (H3 s) as (ph & Hg'). exists ph.
    apply given_others; auto.
  - assert (Hni : sid ∉ pq_q (cs_strmq cs)) by (intros [? Hx]%Q2; congruence). split; cbn.
    + intros i x Hx. cbn in *. rewrite lookup_delete_ne; [by apply Q1|]. intros <-. by apply list_elem_of_lookup_2 in Hx.
    + intros x Hx. rewrite lookup_insert_ne; [by apply Q2|]. by intros <-.
    + intros x Hx [Hne Hi]%lookup_delete_is_Some. rewrite lookup_insert_ne in Hx by done. by apply Q3.
  - rewrite received_insert, N4 by done. lia.
  - split; try done. cbn. intros s [Hne Hf]%Hfr. destruct (I5 s Hf) as [Hn' Hg']. rewrite lookup_insert_ne by done.
    split; [done|]. apply given_others; auto.
  - intros s [Hs _]%lookup_insert_None. by apply H10.
Qed.

Lemma set_local_inv g act cs bidi uni :
  conn_inv g act cs -> ls_next_stream_id bidi = ls_next_stream_id (cs_local_bidi cs) ->
  ls_next_stream_id uni = ls_next_stream_id (cs_local_uni cs) -> conn_inv g act (set_local bidi uni cs).
Proof.
  intros [H1 H2 H3 H4 H5 H6 H7 [I1 I2 I3 I4 I5] H9] E1 E2. split; try done; [by destruct H4|].
  split; cbn; rewrite ?E1, ?E2; try done. intros s Hf. apply I5. unfold unused_id in *. cbn in Hf. by rewrite E1, E2 in Hf.
Qed.

(** *** Opening *)
Lemma id_kind sid : bidi_stream (sid + 4) = bidi_stream sid /\ local_id server (sid + 4) = local_id server sid.
Proof.
  assert (E : forall m, Z.land 3 m = m -> Z.land (sid + 4) m = Z.land sid m).
  { intros m Hm. rewrite <- Hm, !Z.land_assoc. f_equal. change 3 with (Z.ones 2). rewrite !Z.land_ones by lia.
    change (2 ^ 2) with 4. replace (sid + 4) with (sid + 1 * 4) by lia. by rewrite Z.mod_add. }
  unfold bidi_stream, local_id. by rewrite !E.
Qed.

Lemma insert_calm (strms : gmap Z ngtcp2_strm) sid strm : strms !! sid = None -> strms_calm strms (<[sid := strm]> strms).
Proof. intros Hn s st Hs. exists st. split; [|done]. rewrite lookup_insert_ne; [done|]. congruence. Qed.

Lemma open_local_run mem_map g act cs sid :
  map_ok mem_map -> conn_inv g act cs -> local_id server sid = true -> unused_id server g cs sid ->
  ngtcp2_conn_init_stream mem_map cs sid = Ok (NGTCP2_ERR_NOMEM, cs) \/
  exists cs1, ngtcp2_conn_init_stream mem_map cs sid = Ok (0, cs1) /\
    cs_local_bidi cs1 = cs_local_bidi cs /\ cs_local_uni cs1 = cs_local_uni cs /\
    forall bidi uni,
      (local_id server (ls_next_stream_id bidi) = true /\ bidi_stream (ls_next_stream_id bidi) = true) ->
      (local_id server (ls_next_stream_id uni) = true /\ bidi_stream (ls_next_stream_id uni) = false) ->
      (forall s, unused_id server g (set_local bidi uni cs) s -> s <> sid /\ unused_id server g cs s) ->
      conn_inv g act (set_local bidi uni cs1) /\ calm cs (set_local bidi uni cs1).
Proof.
  intros Hm Hinv Hloc Hun. destruct (io_fresh _ _ _ _ (ci_ids _ _ _ _ _ Hinv) sid Hun) as [Hn Hg].
  destruct (init_stream_run mem_map cs sid Hm Hn) as [->|(strm & -> & Hnew)]; [by left|right].
  eexists. split_and!; [done..|]. intros bidi uni Hb Hu Hfr. split; [|by split; try done; apply insert_calm].
  unfold start_phase in Hg. rewrite Hloc in Hg.
  assert (E : set_local bidi uni (set_strmq (unindexed sid (cs_strmq cs)) (put_strm sid strm cs)) =
    mk_cs (cs_base cs) (cs_config cs) (<[sid := strm]> (cs_strms cs)) (unindexed sid (cs_strmq cs)) (cs_rx cs)
      bidi uni (cs_remote_bidi cs) (cs_remote_uni cs) (cs_log cs ++ [])) by (rewrite app_nil_r; done).
  rewrite E. apply (inserted_inv g act cs sid strm []); try done.
  rewrite app_nil_r. unfold conn_local_stream. rewrite (ci_server _ _ _ _ _ Hinv). fold (local_id server sid).
  by rewrite Hloc.
Qed.

(** The next id of one kind advances. *)
Lemma unused_next g act cs (b : bool) :
  conn_inv g act cs ->
  let ls := if b then cs_local_bidi cs else cs_local_uni cs in
  let sid := ls_next_stream_id ls in
  let ls' := mk_local (sid + 4) (ls_max_streams ls) in
  let bidi := if b then ls' else cs_local_bidi cs in
  let uni := if b then cs_local_uni cs else ls' in
  local_id server sid = true /\ unused_id server g cs sid /\
  (local_id server (ls_next_stream_id bidi) = true /\ bidi_stream (ls_next_stream_id bidi) = true) /\
  (local_id server (ls_next_stream_id uni) = true /\ bidi_stream (ls_next_stream_id uni) = false) /\
  (forall s, unused_id server g (set_local bidi uni cs) s -> s <> sid /\ unused_id server g cs s).
Proof.
  intros Hinv. pose proof (ci_ids _ _ _ _ _ Hinv) as [_ _ [I1 I2] [I3 I4] _]. cbn zeta. unfold unused_id.
  destruct b; cbn [ls_next_stream_id cs_local_bidi cs_local_uni set_local].
  - destruct (id_kind (ls_next_stream_id (cs_local_bidi cs))) as [-> ->]. rewrite I1, I2. split_and!; try done.
    intros s H. split; [intros ->; rewrite I1, I2 in H; lia|]. destruct (local_id server s), (bidi_stream s); lia || done.
  - destruct (id_kind (ls_next_stream_id (cs_local_uni cs))) as [-> ->]. rewrite I3, I4. split_and!; try done.
    intros s H. split; [intros ->; rewrite I3, I4 in H; lia|]. destruct (local_id server s), (bidi_stream s); lia || done.
Qed.

End Open.

(** ** The calls of the application *)
Section Calls.
Context (server : bool) (stream : Z -> Z -> Z).
#[local] Abbreviation conn_inv := (conn_inv server stream).

(** A call that succeeds, or fails with an error that the application sees. *)
Definition stays g act cs (c : res (Z * conn_state)) : Prop :=
  exists rv cs', c = Ok (rv, cs') /\ conn_inv g act cs' /\ calm cs cs'.

Lemma stays_ok g act cs rv : conn_inv g act cs -> stays g act cs (Ok (rv, cs)).
Proof. intros H. by exists rv, cs. Qed.

Lemma stays_calm g act cs cs1 c : calm cs cs1 -> stays g act cs1 c -> stays g act cs c.
Proof. intros Hc (rv & cs' & -> & Hinv & Hc'). exists rv, cs'. split_and!; [done|done|by transitivity cs1]. Qed.

Lemma open_bidi_run mem_strm mem_map g act cs :
  map_ok mem_map -> conn_inv g act cs -> stays g act cs (ngtcp2_conn_open_bidi_stream mem_strm mem_map cs).
Proof.
  intros Hm Hinv. unfold ngtcp2_conn_open_bidi_stream. destruct (_ =? 0); [by apply stays_ok|].
  destruct mem_strm; cbn [negb]; [|by apply stays_ok].
  destruct (unused_next server stream g act cs true Hinv) as (Hloc & Hun & Hb & Hu & Hfr).
  destruct (open_local_run server stream mem_map g act cs _ Hm Hinv Hloc Hun) as [->|(cs1 & -> & E1 & E2 & Hi)];
    [by apply stays_ok|].
  cbn [bind negb Z.eqb]. rewrite E2. eexists _, _. split; [done|]. by apply Hi.
Qed.

Lemma open_uni_run mem_strm mem_map g act cs :
  map_ok mem_map -> conn_inv g act cs -> stays g act cs (ngtcp2_conn_open_uni_stream mem_strm mem_map cs).
Proof.
  intros Hm Hinv. unfold ngtcp2_conn_open_uni_stream. destruct (_ =? 0); [by apply stays_ok|].
  destruct mem_strm; cbn [negb]; [|by apply stays_ok].
  destruct (unused_next server stream g act cs false Hinv) as (Hloc & Hun & Hb & Hu & Hfr).
  destruct (open_local_run server stream mem_map g act cs _ Hm Hinv Hloc Hun) as [->|(cs1 & -> & E1 & E2 & Hi)];
    [by apply stays_ok|].
  cbn [bind negb Z.eqb]. rewrite E1. eexists _, _. split; [done|]. by apply Hi.
Qed.

Lemma first_cycle_run g act cs : conn_inv g act cs -> exists cycle, ngtcp2_conn_tx_strmq_first_cycle cs = Ok cycle.
Proof.
  intros Hinv. unfold ngtcp2_conn_tx_strmq_first_cycle, ngtcp2_pq_empty, ngtcp2_pq_top.
  destruct (pq_q (cs_strmq cs)) as [|x q] eqn:Eq; [by exists 0|]. cbn.
  destruct (qo_open _ (ci_queue _ _ _ _ _ Hinv) x) as [strm Hs]; [rewrite Eq; left|].
  rewrite (get_strm_ok _ _ _ Hs). cbn. eauto.
Qed.

Lemma push_run mem_ok g act cs sid :
  conn_inv g act cs -> is_Some (cs_strms cs !! sid) -> ngtcp2_strm_is_tx_queued cs sid = false ->
  stays g act cs (ngtcp2_conn_tx_strmq_push mem_ok cs sid).
Proof.
  intros Hinv Hs Hq. unfold ngtcp2_conn_tx_strmq_push, ngtcp2_strm_is_tx_queued in *.
  destruct (pq_index (cs_strmq cs) !! sid) eqn:Ei; [done|].
  pose proof (ci_queue _ _ _ _ _ Hinv) as Hqo. destruct Hqo as [Q1 Q2 Q3].
  destruct (pq_push_items (cycle_less (cs_strms cs)) mem_ok (cs_strmq cs) sid Q1 Ei)
    as [->|(pq & -> & P1 & P2 & P3)]; cbn [bind].
  - exists NGTCP2_ERR_NOMEM, (set_strmq (cs_strmq cs) cs). split; [done|]. by apply queue_inv.
  - eexists _, _. split; [done|]. apply queue_inv; [done|]. split; cbn; [done| |].
    + intros x. rewrite P2, elem_of_cons. intros [->|Hx]; [done|by apply Q2].
    + intros x Hx. rewrite P2, P3, elem_of_cons. intros [->|Hi]; [by left|]. right. by apply Q3.
Qed.

Lemma put_queued sid strm cs s : ngtcp2_strm_is_tx_queued (put_strm sid strm cs) s = ngtcp2_strm_is_tx_queued cs s.
Proof. done. Qed.

Lemma enqueue_run mem_ok g act cs sid strm :
  conn_inv g act cs -> cs_strms cs !! sid = Some strm -> ngtcp2_strm_is_tx_queued cs sid = false ->
  stays g act cs (conn_enqueue_strm mem_ok cs sid).
Proof.
  intros Hinv Hs Hq. unfold conn_enqueue_strm. destruct (first_cycle_run _ _ _ Hinv) as (cycle & ->).
  rewrite (get_strm_ok _ _ _ Hs). cbn [bind].
  destruct (put_calm server stream g act cs sid strm (set_tx (set_cycle cycle (strm_tx_half strm)) strm)) as [Hi Hc]; [done|done| |].
  { by apply calm_keep. }
  eapply stays_calm; [exact Hc|]. apply push_run; [done|by rewrite put_lookup|done].
Qed.

Lemma stop_sending_run mem_ok g act cs sid strm code :
  conn_inv g act cs -> cs_strms cs !! sid = Some strm -> stays g act cs (conn_stop_sending mem_ok cs sid code).
Proof.
  intros Hinv Hs. unfold conn_stop_sending. rewrite (get_strm_ok _ _ _ Hs). cbn [bind]. set (strm' := set_tx _ _).
  destruct (put_calm server stream g act cs sid strm strm') as [Hi Hc]; [done|done| |].
  { by apply calm_send. }
  eapply stays_calm; [exact Hc|]. destruct (ngtcp2_strm_is_tx_queued _ _) eqn:Eq; [by apply stays_ok|].
  eapply enqueue_run; [done|apply put_lookup|done].
Qed.

Lemma reset_stream_run mem_ok g act cs sid strm code :
  conn_inv g act cs -> cs_strms cs !! sid = Some strm -> stays g act cs (conn_reset_stream mem_ok cs sid code).
Proof.
  intros Hinv Hs. unfold conn_reset_stream. rewrite (get_strm_ok _ _ _ Hs). cbn [bind]. set (strm' := set_tx _ _).
  destruct (put_calm server stream g act cs sid strm strm') as [Hi Hc]; [done|done|by apply calm_send|].
  eapply stays_calm; [exact Hc|]. destruct (ngtcp2_strm_is_tx_queued _ _) eqn:Eq; [by apply stays_ok|].
  eapply enqueue_run; [done|apply put_lookup|done].
Qed.

(** The stream stops to be read. *)
Lemma stop_calm limit strm :
  rx_ok (stream (strm_stream_id strm)) limit strm ->
  let strm' := ngtcp2_strm_discard_reordered_data
    (set_flags (Z.lor (strm_flags strm) NGTCP2_STRM_FLAG_STOP_SENDING) strm) in
  strm_calm strm strm'.
Proof.
  intros Hok strm'.
  assert (Hf : forall f, has_flag strm' f = has_flag strm f || negb (Z.land NGTCP2_STRM_FLAG_STOP_SENDING f =? 0)).
  { intros f. rewrite <- has_flag_lor. unfold strm', ngtcp2_strm_discard_reordered_data. cbn [rx_reorder set_flags].
    by destruct (rx_reorder strm). }
  assert (Ha : forall A (f : ngtcp2_strm -> A), (forall o c r, f (mk_strm (strm_stream_id strm) (strm_flags strm') o c
      (rx_last_offset strm) (rx_max_offset strm) (rx_unsent_max_offset strm) (rx_window strm) r
      (strm_app_error_code strm) (strm_tx_half strm)) = f strm) -> f strm' = f strm).
  { intros A f H. clear Hf. unfold strm', ngtcp2_strm_discard_reordered_data in *. clear strm'.
    destruct strm as [a b o c d e u w l k tx]. destruct o; apply H. }
  split; try (by apply Ha).
  - by rewrite Hf, orb_false_r.
  - by rewrite Hf, orb_false_r.
  - rewrite (Ha _ rx_unsent_max_offset) by done. lia.
  - unfold code_ok. by rewrite Hf, orb_false_r, (Ha _ strm_app_error_code).
  - unfold tx_ok. by rewrite (Ha _ strm_tx_half).
  - right. split; [unfold stopped; by rewrite Hf, orb_true_r|].
    unfold strm', ngtcp2_strm_discard_reordered_data, ngtcp2_strm_rx_offset. cbn [rx_reorder set_flags rx_cont_offset].
    destruct (rx_reorder strm) eqn:E; cbn; rewrite ?E; done.
Qed.

Lemma shutdown_read_run mem_ok g act cs sid strm code :
  conn_inv g act cs -> cs_strms cs !! sid = Some strm -> stays g act cs (conn_shutdown_stream_read mem_ok cs sid code).
Proof.
  intros Hinv Hs. destruct (ci_strms _ _ _ _ _ Hinv _ _ Hs) as (Hok & _). unfold conn_shutdown_stream_read.
  rewrite (get_strm_ok _ _ _ Hs). cbn [bind].
  destruct (set_code_run strm code (sk_code _ _ _ Hok)) as (strm1 & -> & Hca & Er & Ec & _). cbn [bind].
  destruct (put_calm server stream g act cs sid strm strm1 Hinv Hs Hca) as [Hinv1 Hc1]. eapply stays_calm; [exact Hc1|].
  pose proof (calm_ok _ _ _ _ Hok Hca) as Hok1.
  destruct (has_flag strm1 (Z.lor _ _)) eqn:Ef; [by apply stays_ok|].
  destruct (_ && _); [by apply stays_ok|].
  rewrite has_flag_or in Ef. apply orb_false_iff in Ef as [_ ->]. cbn [negb].
  pose proof (sk_rx _ _ _ Hok1) as Hrx. rewrite <- (sk_id _ _ _ Hok1) in Hrx.
  destruct (extend_max_offset_run server stream g act (put_strm sid strm1 cs)
    (u64 (rx_last_offset strm1 - ngtcp2_strm_rx_offset strm1))) as [Hinv2 Hc2]; [apply u64_range|done|].
  eapply stays_calm; [exact Hc2|]. set (cs2 := ngtcp2_conn_extend_max_offset _ _) in *.
  assert (Hs2 : cs_strms cs2 !! sid = Some strm1) by apply put_lookup.
  destruct (put_calm server stream g act cs2 sid strm1 _ Hinv2 Hs2 (stop_calm _ _ Hrx)) as [Hinv3 Hc3].
  eapply stays_calm; [exact Hc3|]. eapply stop_sending_run; [done|apply put_lookup].
Qed.

Lemma extend_stream_run mem_ok g act cs sid strm n :
  0 <= n -> conn_inv g act cs -> cs_strms cs !! sid = Some strm ->
  stays g act cs (conn_extend_max_stream_offset mem_ok cs sid n).
Proof.
  intros Hn Hinv Hs. destruct (ci_strms _ _ _ _ _ Hinv _ _ Hs) as (Hok & _). unfold conn_extend_max_stream_offset.
  rewrite (get_strm_ok _ _ _ Hs). cbn [bind]. set (unsent := if _ || _ then _ else _).
  assert (Hu : rx_unsent_max_offset strm <= unsent <= NGTCP2_MAX_VARINT).
  { pose proof (sk_max _ _ _ Hok). unfold unsent. destruct (Z.ltb_spec NGTCP2_MAX_VARINT n); cbn [orb]; [lia|].
    destruct (Z.ltb_spec (NGTCP2_MAX_VARINT - n) (rx_unsent_max_offset strm)); lia. }
  destruct (put_calm server stream g act cs sid strm (set_unsent_max_offset unsent strm)) as [Hi Hc]; [done|done| |].
  { split; try done. left. by split_and!. }
  eapply stays_calm; [exact Hc|]. destruct (_ && _) eqn:Eq; [|by apply stays_ok].
  apply andb_true_iff in Eq as [[_ Eq]%andb_true_iff _]. apply negb_true_iff in Eq.
  eapply enqueue_run; [done|apply put_lookup|done].
Qed.

Lemma shutdown_write_run mem_ok g act cs sid strm code :
  conn_inv g act cs -> cs_strms cs !! sid = Some strm -> stays g act cs (conn_shutdown_stream_write mem_ok cs sid code).
Proof.
  intros Hinv Hs. destruct (ci_strms _ _ _ _ _ Hinv _ _ Hs) as (Hok & _). unfold conn_shutdown_stream_write.
  rewrite (get_strm_ok _ _ _ Hs). cbn [bind].
  destruct (set_code_run strm code (sk_code _ _ _ Hok)) as (strm1 & -> & Hca & _). cbn [bind].
  destruct (put_calm server stream g act cs sid strm strm1 Hinv Hs Hca) as [Hinv1 Hc1]. eapply stays_calm; [exact Hc1|].
  destruct (tx_acked_run _ _ _ (calm_ok _ _ _ _ Hok Hca)) as (b & ->). cbn [bind]. destruct (_ || b); [by apply stays_ok|].
  destruct (put_calm server stream g act (put_strm sid strm1 cs) sid strm1
    (ngtcp2_strm_streamfrq_clear (set_flags (Z.lor (strm_flags strm1) (Z.lor NGTCP2_STRM_FLAG_SHUT_WR NGTCP2_STRM_FLAG_RESET_STREAM)) strm1)))
    as [Hi Hc]; [done|apply put_lookup|by apply calm_send_clear|].
  eapply stays_calm; [exact Hc|]. eapply reset_stream_run; [done|apply put_lookup].
Qed.

Lemma shutdown_run mem_rd mem_wr g act cs sid code :
  conn_inv g act cs -> stays g act cs (ngtcp2_conn_shutdown_stream mem_rd mem_wr cs sid code).
Proof.
  intros Hinv. unfold ngtcp2_conn_shutdown_stream, ngtcp2_conn_find_stream.
  destruct (cs_strms cs !! sid) as [strm|] eqn:Es; [|by apply stays_ok].
  assert (Hrd : stays g act cs (if bidi_stream sid || negb (conn_local_stream cs sid)
    then conn_shutdown_stream_read mem_rd cs sid code else Ok (0, cs))).
  { destruct (_ || _); [by eapply shutdown_read_run|by apply stays_ok]. }
  destruct Hrd as (rv & cs1 & -> & Hi & Hc). cbn [bind]. eapply stays_calm; [exact Hc|].
  destruct (Z.eqb_spec rv 0); cbn [negb]; [|by apply stays_ok]. destruct (_ || _); [|by apply stays_ok].
  destruct (calm_lookup _ _ _ _ Hc Es) as (strm1 & Es1 & _). by eapply shutdown_write_run.
Qed.

(** The limits of the peer's streams. *)
Lemma set_remote_inv g act cs bidi uni :
  conn_inv g act cs -> rs_idtr bidi = rs_idtr (cs_remote_bidi cs) -> rs_idtr uni = rs_idtr (cs_remote_uni cs) ->
  conn_inv g act (set_remote bidi uni cs) /\ calm cs (set_remote bidi uni cs).
Proof.
  intros [H1 H2 H3 H4 H5 H6 H7 [I1 I2 I3 I4 I5] H9] E1 E2. split; [|by split].
  split; try done; [by destruct H4|]. split; cbn; rewrite ?E1, ?E2; done.
Qed.

(** The tracker that the sending half keeps is well formed. *)
Definition sending_ok (tx : strm_tx) : Prop :=
  forall gaptr, tx_acked_offset tx = Some gaptr -> exists n P, gaptr_rep n P gaptr.

Lemma sending_calm flags tx strm :
  sending_ok tx -> strm_calm strm (set_tx tx (set_flags (Z.lor (strm_flags strm) (Z.land flags tx_flags)) strm)).
Proof.
  intros Htx. apply calm_send; [|by intros _]. rewrite <- Z.land_assoc. change (Z.land tx_flags rx_flags) with 0.
  apply Z.land_0_r.
Qed.

Lemma conn_submit_run mem_ok g act cs sid flags tx :
  sending_ok tx -> conn_inv g act cs -> stays g act cs (conn_submit_stream mem_ok cs sid flags tx).
Proof.
  intros Htx Hinv. unfold conn_submit_stream, ngtcp2_conn_find_stream.
  destruct (cs_strms cs !! sid) as [strm|] eqn:Es; [|by apply stays_ok]. destruct (has_flag _ _); [by apply stays_ok|].
  destruct (put_calm server stream g act cs sid strm _ Hinv Es (sending_calm flags tx strm Htx)) as [Hi Hc].
  eapply stays_calm; [exact Hc|]. unfold put_sending. destruct (ngtcp2_strm_is_tx_queued _ _) eqn:Eq; [by apply stays_ok|].
  eapply enqueue_run; [done|apply put_lookup|done].
Qed.

Definition call_ok (call : app_call) : Prop :=
  match call with
  | AppOpenBidi _ mem_map | AppOpenUni _ mem_map => map_ok mem_map
  | AppSubmit _ _ _ tx => sending_ok tx
  | AppShutdownStream _ _ _ _ | AppShutdownWrite _ _ _ | AppShutdownRead _ _ _ | AppExtendMaxStreams _ _ => True
  | AppExtendMaxStreamOffset _ _ n | AppExtendMaxOffset n => 0 <= n
  end.

Definition continues g act cs (c : res conn_state) : Prop :=
  exists cs', c = Ok cs' /\ conn_inv g act cs' /\ calm cs cs'.

Lemma stays_continues g act cs c : stays g act cs c -> continues g act cs (let* (_, cs') := c in Ok cs').
Proof. intros (rv & cs' & -> & ?). by exists cs'. Qed.

Lemma app_do_run g act cs call : call_ok call -> conn_inv g act cs -> continues g act cs (app_do call cs).
Proof.
  intros Hok Hinv. destruct (log_other_inv server stream g act cs (EvCall call) eq_refl Hinv) as [Hi Hc].
  cut (continues g act (log_event (EvCall call) cs) (app_do call cs)).
  { intros (cs' & E & Hi' & Hc'). exists cs'. split_and!; [done|done|by etransitivity]. }
  unfold app_do. set (cs1 := log_event _ _) in *. clearbody cs1. destruct call as [mem mem'|mem mem'|mem sid flags tx|mem mem' sid code|mem sid code|mem sid code|mem sid n|n|bidi n].
  - apply stays_continues. by apply open_bidi_run.
  - apply stays_continues. by apply open_uni_run.
  - apply stays_continues. by apply conn_submit_run.
  - apply stays_continues. by apply shutdown_run.
  - apply stays_continues. unfold ngtcp2_conn_shutdown_stream_write, ngtcp2_conn_find_stream.
    destruct (_ && _); [by apply stays_ok|]. destruct (cs_strms cs1 !! sid) eqn:Es; [|by apply stays_ok].
    by eapply shutdown_write_run.
  - apply stays_continues. unfold ngtcp2_conn_shutdown_stream_read, ngtcp2_conn_find_stream.
    destruct (_ && _); [by apply stays_ok|]. destruct (cs_strms cs1 !! sid) eqn:Es; [|by apply stays_ok].
    by eapply shutdown_read_run.
  - apply stays_continues. unfold ngtcp2_conn_extend_max_stream_offset, ngtcp2_conn_find_stream.
    destruct (_ && _); [by apply stays_ok|]. destruct (cs_strms cs1 !! sid) eqn:Es; [|by apply stays_ok].
    by eapply extend_stream_run.
  - eexists. split; [done|]. by apply extend_max_offset_run.
  - eexists. split; [done|]. destruct bidi; by apply set_remote_inv.
Qed.

Lemma app_do_all_run g act cs calls : Forall call_ok calls -> conn_inv g act cs -> continues g act cs (app_do_all calls cs).
Proof.
  intros Hok. revert cs. induction Hok as [|call calls Hc Hcs IH]; intros cs Hinv; cbn [app_do_all].
  { by exists cs. }
  destruct (app_do_run g act cs call Hc Hinv) as (cs1 & -> & Hi & Hca). cbn [bind].
  destruct (IH cs1 Hi) as (cs2 & -> & Hi2 & Hca2). exists cs2. split_and!; [done|done|by transitivity cs1].
Qed.
End Calls.
