(* ===== verification/ConnStreamEmit.v ===== *)
(** * Streams of a connection: callbacks

    A callback keeps the invariant of [ConnStreamInv], whatever the
    application does in it; closing a stream, and handing over the data that
    were stored, return without fault. *)

From S2P Require Import Prelude Const Conv Frame Reorder Ksl Gaptr Idtr Pq Strm StrmTx Ratelim ConnCrypto ConnStream ConnStreamInv ConnStreamCalls.
From stdpp Require Import list gmap.
#[local] Open Scope Z_scope.
#[local] Set Warnings "-clear-no-such-hyp".

Implicit Types (cs : conn_state) (strm : ngtcp2_strm) (sid : Z) (log : list conn_event) (g : ghost) (act : Z -> view).

Section App.
Context (app : list conn_event -> conn_event -> list app_call * Z).
Context (app_ok : forall log cb, Forall call_ok (app log cb).1).
Context (server : bool) (stream : Z -> Z -> Z).
#[local] Abbreviation conn_inv := (conn_inv server stream).
#[local] Abbreviation log_ok := (log_ok server stream).
#[local] Abbreviation stays := (stays server stream).
#[local] Abbreviation strm_inv := (strm_inv server stream).
#[local] Abbreviation given := (fun sid => given (stream sid) server sid).

(** The handler ends without fault; without an error the invariant holds. *)
Definition returns g (c : res (Z * conn_state)) : Prop :=
  exists rv cs', c = Ok (rv, cs') /\ log_ok (cs_log cs') /\ (rv = 0 -> conn_inv g quiet cs').

Lemma returns_quiet g cs rv : conn_inv g quiet cs -> returns g (Ok (rv, cs)).
Proof. intros H. exists rv, cs. split_and!; [done|apply H|done]. Qed.

Lemma returns_error g cs rv : log_ok (cs_log cs) -> rv <> 0 -> returns g (Ok (rv, cs)).
Proof. intros H Hrv. by exists rv, cs. Qed.

(** *** Callbacks *)
Lemma log_update cs sid strm ev :
  cs_strms cs !! sid = Some strm -> log_event ev cs = update_strm sid strm (cs_rx cs) [ev] cs.
Proof. intros H. unfold log_event, update_strm. by rewrite insert_id. Qed.

Lemma callback_run g act cs cb :
  conn_inv g act (log_event cb cs) -> stays g act cs (conn_callback app cb cs).
Proof.
  intros Hinv. unfold conn_callback. pose proof (app_ok (cs_log cs) cb) as Ha. destruct (app _ _) as [calls rv].
  destruct (app_do_all_run _ _ g act _ calls Ha Hinv) as (cs' & -> & Hi & Hc). cbn [bind].
  eexists _, cs'. split_and!; [done|done|]. by destruct Hc; split.
Qed.

(** *** Closing *)
Lemma phase_open d strm ph sid log flags code :
  given sid log ph -> phase_is d strm ph -> given sid (log ++ [CbStreamClose flags sid code]) Closed.
Proof.
  intros Hg Hph. eapply given_snoc; [exact Hg|]. unfold phase_is in Hph.
  destruct (has_flag _ _); [subst; constructor|]. destruct Hph as (hi & fin & -> & _). constructor.
Qed.

Lemma indexed_nodup pq : indexed pq -> NoDup (pq_q pq).
Proof. intros H. apply NoDup_alt. intros i j x Hi%H Hj%H. congruence. Qed.

Lemma unqueue_run cs sid strm :
  queue_ok cs -> cs_strms cs !! sid = Some strm ->
  exists pq, (if ngtcp2_strm_is_tx_queued cs sid then ngtcp2_pq_remove (cycle_less (cs_strms cs)) (cs_strmq cs) sid
              else Ok (cs_strmq cs)) = Ok pq /\
    queue_ok (set_strmq pq (set_strms (delete sid (cs_strms cs)) cs)).
Proof.
  intros [Q1 Q2 Q3] Hs. unfold ngtcp2_strm_is_tx_queued. pose proof (indexed_nodup _ Q1) as Hnd.
  destruct (pq_index (cs_strmq cs) !! sid) eqn:Ei.
  - assert (Hq : sid ∈ pq_q (cs_strmq cs)) by (apply Q3; [by rewrite Hs|by rewrite Ei]).
    destruct (pq_remove_items (cycle_less (cs_strms cs)) _ sid Q1 Hq) as (pq & -> & [W1 W2 W3]).
    exists pq. split; [done|]. rewrite W2 in Hnd. apply NoDup_cons in Hnd as [Hn _].
    split; cbn; [done| |].
    + intros x Hx. rewrite lookup_delete_ne by (by intros <-). apply Q2. rewrite W2. by right.
    + intros x [Hne Hx]%lookup_delete_is_Some Hi. rewrite W3 in Hi. specialize (Q3 x Hx Hi).
      rewrite W2 in Q3. apply elem_of_cons in Q3 as [->|?]; done.
  - exists (cs_strmq cs). split; [done|]. split; cbn; [done| |].
    + intros x Hx. rewrite lookup_delete_ne; [by apply Q2|]. intros <-.
      apply list_elem_of_lookup in Hx as [i Hi]. apply Q1 in Hi. congruence.
    + intros x [Hne Hx]%lookup_delete_is_Some Hi. by apply Q3.
Qed.

Lemma deleted_inv g cs sid strm pq base :
  conn_inv g (active sid Closing) cs -> cs_strms cs !! sid = Some strm ->
  queue_ok (set_strmq pq (set_strms (delete sid (cs_strms cs)) cs)) ->
  conn_server base = server -> glitch_ok base (g_time g) ->
  conn_inv g quiet (set_base base (set_strmq pq (set_strms (delete sid (cs_strms cs)) cs))).
Proof.
  intros [H1 H2 H3 H4 H5 H6 H7 [I1 I2 I3 I4 I5] H9] Hs Hq Hb Hg.
  pose proof (sk_last _ _ _ (proj1 (H2 _ _ Hs))). split; cbn; try done.
  - intros s st Hst. apply lookup_delete_Some in Hst as [Hne Hst]. specialize (H2 _ _ Hst).
    by rewrite active_ne in H2.
  - by destruct Hq.
  - rewrite (received_delete _ _ _ Hs) in H6. lia.
  - split; try done. cbn. intros s Hf. destruct (I5 s Hf). split; [|done]. apply lookup_delete_None. by right.
Qed.

Lemma close_run g cs sid strm :
  conn_inv g quiet cs -> cs_strms cs !! sid = Some strm -> returns g (ngtcp2_conn_close_stream app cs sid).
Proof.
  intros Hinv Hs. unfold ngtcp2_conn_close_stream, conn_call_stream_close. rewrite (get_strm_ok _ _ _ Hs). cbn [bind].
  set (flags := if has_flag _ _ then _ else _). set (ev := CbStreamClose _ _ _).
  destruct (ci_strms _ _ _ _ _ Hinv _ _ Hs) as (Hok & ph & Hg & _ & Hph).
  assert (Hlog : conn_inv g (active sid Closing) (log_event ev cs)).
  { rewrite (log_update _ _ _ _ Hs). eapply update_strm_inv; [exact Hinv|exact Hs| | | | |lia].
    - intros s. apply active_ne.
    - by repeat constructor.
    - rewrite active_eq. split; [done|]. exists Closed. split; [by eapply phase_open|done].
    - apply Hinv. }
  destruct (callback_run _ _ _ _ Hlog) as (rv & cs1 & -> & Hi & Hc). cbn [bind].
  destruct (Z.eqb_spec rv 0) as [->|Hrv]; cbn [negb]; [|apply returns_error; [apply Hi|done]].
  destruct (calm_lookup _ _ _ _ Hc Hs) as (strm1 & Hs1 & _). rewrite (get_strm_ok _ _ _ Hs1). cbn [bind].
  cbv zeta. change (cs_strmq (set_strms (delete sid (cs_strms cs1)) cs1)) with (cs_strmq cs1).
  destruct (unqueue_run cs1 sid strm1 (ci_queue _ _ _ _ _ Hi) Hs1) as (pq & -> & Hq). cbn [bind].
  apply returns_quiet. eapply deleted_inv; [exact Hi|exact Hs1|done|apply Hi|apply Hi].
Qed.

Lemma close_if_run g cs sid :
  conn_inv g quiet cs -> is_Some (cs_strms cs !! sid) -> returns g (ngtcp2_conn_close_stream_if_shut_rdwr app cs sid).
Proof.
  intros Hinv [strm Hs]. unfold ngtcp2_conn_close_stream_if_shut_rdwr. rewrite (get_strm_ok _ _ _ Hs). cbn [bind].
  destruct (tx_acked_run _ _ _ (proj1 (ci_strms _ _ _ _ _ Hinv _ _ Hs))) as (b & ->). cbn [bind].
  destruct (_ && _); [by eapply close_run|by apply returns_quiet].
Qed.

(** *** Stored data *)
Lemma fin_flag_value (b c : bool) :
  fin_flag (let f := if b then NGTCP2_STREAM_DATA_FLAG_FIN else NGTCP2_STREAM_DATA_FLAG_NONE in
            if c then Z.lor f NGTCP2_STREAM_DATA_FLAG_0RTT else f) = b.
Proof. by destruct b, c. Qed.

Lemma rx_ok_ext str limit strm strm' :
  rx_reorder strm' = rx_reorder strm -> rx_cont_offset strm' = rx_cont_offset strm ->
  rx_ok str limit strm -> rx_ok str limit strm'.
Proof. intros E1 E2 [H1 H2 H3 H4]. split; unfold rx_entries in *; by rewrite ?E1, ?E2. Qed.

Lemma receiving_ne strm n : 0 < n -> rx_cont_offset strm + n <= rx_last_offset strm ->
  rx_complete strm (rx_cont_offset strm) = false.
Proof. intros. unfold rx_complete. destruct (Z.eqb_spec (rx_cont_offset strm) (rx_last_offset strm)); [lia|apply andb_false_r]. Qed.

(** The state in the callback for data; [d] bytes of them are stored. *)
Lemma data_event g act cs sid strm strm' rx flags offset data d :
  conn_inv g act cs -> cs_strms cs !! sid = Some strm -> (forall s, s <> sid -> act s = Quiet) ->
  given sid (cs_log cs) (Receiving offset false) -> carries (stream sid) offset data ->
  offset + zlen data = rx_cont_offset strm' + d ->
  strm_ok (stream sid) sid strm' -> stopped strm' = false ->
  has_flag strm' NGTCP2_STRM_FLAG_RESET_STREAM_RECVED = false -> 0 <= d ->
  (forall x, rx_cont_offset strm' <= x < rx_cont_offset strm' + d -> covered (rx_entries strm') x) ->
  rx_cont_offset strm' + d <= rx_last_offset strm' ->
  fin_flag flags = rx_complete strm' (rx_cont_offset strm' + d) -> (data = [] -> fin_flag flags = true) ->
  flow_ok rx -> rx_last_offset strm' - rx_last_offset strm <= crx_offset rx - crx_offset (cs_rx cs) ->
  conn_inv g (active sid (Pending d)) (update_strm sid strm' rx [CbRecvStreamData flags sid offset data] cs).
Proof.
  intros Hinv Hs Hact Hg Hc Ho Hok Hst Hre Hd Hcov Hlast Hfin Hne Hrx Hsum.
  eapply update_strm_inv; [exact Hinv|exact Hs| |by repeat constructor| |done|done].
  { intros s Hsid. by rewrite active_ne, Hact. }
  rewrite active_eq. split; [done|]. exists (Receiving (rx_cont_offset strm' + d) (fin_flag flags)). split.
  - eapply given_snoc; [exact Hg|]. rewrite <- Ho. by constructor.
  - split_and!; [done|by intros _|]. unfold phase_is. rewrite Hre, Hst.
    exists (rx_cont_offset strm' + d), (fin_flag flags). by split_and!.
Qed.

(** What the application knows of a stream that is read. *)
Lemma reading_phase d strm ph :
  phase_is d strm ph -> stopped strm = false -> has_flag strm NGTCP2_STRM_FLAG_RESET_STREAM_RECVED = false ->
  ph = Receiving (rx_cont_offset strm + d) (rx_complete strm (rx_cont_offset strm + d)) /\
  rx_cont_offset strm + d <= rx_last_offset strm.
Proof. unfold phase_is. intros Hph Hst Hre. rewrite Hre, Hst in Hph. destruct Hph as (hi & fin & -> & ? & -> & ->). done. Qed.

(** The stored data of a callback are taken out of the buffer. *)
Lemma popped_inv g cs sid strm r n :
  conn_inv g (active sid (Pending n)) cs -> cs_strms cs !! sid = Some strm -> stopped strm = false ->
  let strm' := set_cont_offset (rx_cont_offset strm + n) (set_reorder (Some r) strm) in
  rx_ok (stream sid) (rx_last_offset strm) strm' ->
  conn_inv g (active sid (Pending 0)) (put_strm sid strm' cs).
Proof.
  intros Hinv Hs Hst strm' Hrx. destruct (ci_strms _ _ _ _ _ Hinv _ _ Hs) as (Hok & ph & Hg & Hv).
  rewrite active_eq in Hv. destruct Hv as (Hn & _ & Hph). rewrite put_strm_update.
  eapply update_strm_inv; [exact Hinv|exact Hs| |done| |apply Hinv|cbn; lia].
  { intros s Hne. by rewrite !active_ne. }
  rewrite active_eq, app_nil_r. split.
  - destruct Hok. split; try done. change (stopped strm' = true -> Some r = None).
    change (stopped strm') with (stopped strm). congruence.
  - exists ph. split; [done|]. split_and!; [lia|intros; lia|].
    unfold phase_is in *. change (has_flag strm' NGTCP2_STRM_FLAG_RESET_STREAM_RECVED) with (has_flag strm NGTCP2_STRM_FLAG_RESET_STREAM_RECVED).
    destruct (has_flag _ _); [done|]. destruct Hph as (hi & fin & -> & Hhi & Hx). exists hi, fin.
    split_and!; [done|done|]. change (stopped strm') with (stopped strm). rewrite Hst in *. cbn. by rewrite Z.add_0_r.
Qed.

(** Nothing is left of a callback. *)
Lemma settled_inv g cs sid strm d :
  conn_inv g (active sid (Pending d)) cs -> cs_strms cs !! sid = Some strm -> rx_drained strm ->
  (d = 0 \/ stopped strm = true) -> conn_inv g quiet cs.
Proof.
  intros Hinv Hs Hdr Hd. apply (conn_inv_quiet server stream g sid). destruct (ci_strms _ _ _ _ _ Hinv _ _ Hs) as (Hok & ph & Hg & Hv).
  rewrite active_eq in Hv. destruct Hv as (_ & _ & Hph).
  assert (E : cs = update_strm sid strm (cs_rx cs) [] cs).
  { rewrite <- put_strm_update. unfold put_strm, set_strms. rewrite insert_id by done. by destruct cs. }
  rewrite E. eapply update_strm_inv; [exact Hinv|exact Hs| |done| |apply Hinv|lia].
  { intros s Hne. by rewrite !active_ne. }
  rewrite active_eq, app_nil_r. split; [done|]. exists ph. split; [done|]. split; [done|].
  destruct Hd as [->|Hst]; [done|]. unfold phase_is in *. by rewrite Hst in *.
Qed.

Definition emitted g sid (c : res (Z * conn_state)) : Prop :=
  exists rv cs', c = Ok (rv, cs') /\ log_ok (cs_log cs') /\
    (rv = 0 -> conn_inv g quiet cs' /\ is_Some (cs_strms cs' !! sid)).

Lemma emit_stream_run fuel g cs sid strm :
  conn_inv g (active sid (Pending 0)) cs -> cs_strms cs !! sid = Some strm -> rx_reorder strm <> None ->
  has_flag strm NGTCP2_STRM_FLAG_RESET_STREAM_RECVED = false -> (length (rx_entries strm) < fuel)%nat ->
  emitted g sid (emit_stream app fuel cs sid (rx_cont_offset strm)).
Proof.
  revert cs strm. induction fuel as [|fuel IH]; intros cs strm Hinv Hs Hr Hre Hf; [lia|]. cbn [emit_stream].
  rewrite (get_strm_ok _ _ _ Hs). cbn [bind].
  destruct (ci_strms _ _ _ _ _ Hinv _ _ Hs) as (Hok & ph & Hg & Hv). rewrite active_eq in Hv. destruct Hv as (_ & _ & Hph).
  fold (stopped strm). destruct (stopped strm) eqn:Est; [by rewrite (sk_stop _ _ _ Hok Est) in Hr|].
  destruct (rx_reorder strm) as [r|] eqn:Er; [|done]. pose proof (sk_rx _ _ _ Hok) as Hrx.
  destruct (reading_phase _ _ _ Hph Est Hre) as [-> Hhi]. rewrite Z.add_0_r in *.
  destruct (strm_data_at (stream sid) (rx_last_offset strm) strm r Er Hrx)
    as [[-> Hdr]|(n & buf & r' & -> & Hn & Hlen & Hc & Hcov & Hle & Hpop & Hok' & Hlt & _)]; cbn [bind].
  { rewrite Z.eqb_refl, (rx_offset_drained _ _ _ Hrx Hdr), Z.eqb_refl. exists 0, cs.
    split_and!; [done|apply Hinv|]. intros _. split; [|by rewrite Hs]. eapply settled_inv; eauto. }
  destruct (Z.eqb_spec n 0) as [|_]; [lia|].
  assert (H64 : u64 (rx_cont_offset strm + n) = rx_cont_offset strm + n).
  { apply u64_small. pose proof (ro_cont _ _ _ Hrx). pose proof (sk_last _ _ _ Hok). pose proof (sk_max _ _ _ Hok).
    unfold is_u64. unfold NGTCP2_MAX_VARINT in *. lia. }
  rewrite H64. unfold conn_call_recv_stream_data_buf.
  set (flags := if negb (conn_is_tls_handshake_completed cs) then _ else _).
  assert (Hfl : fin_flag flags = rx_complete strm (rx_cont_offset strm + n)) by apply fin_flag_value.
  set (ev := CbRecvStreamData _ _ _ _).
  assert (Hlog : conn_inv g (active sid (Pending n)) (log_event ev cs)).
  { rewrite (log_update _ _ _ _ Hs). rewrite (receiving_ne strm n) in Hg by lia.
    eapply data_event; try done; [by apply active_ne|by rewrite Hlen|lia|intros Hx; rewrite Hx in Hlen; zl; lia|apply Hinv|lia]. }
  destruct (callback_run _ _ _ _ Hlog) as (rv & cs1 & -> & Hi & Hca). cbn [bind].
  destruct (Z.eqb_spec rv 0) as [->|Hrv]; cbn [negb].
  2:{ exists rv, cs1. split_and!; [done|apply Hi|done]. }
  destruct (calm_lookup _ _ _ _ Hca Hs) as (strm1 & Hs1 & Hcs). rewrite (get_strm_ok _ _ _ Hs1). cbn [bind].
  destruct (ca_data _ _ Hcs) as [(a1 & a2 & a3)|(a1 & a2 & a3)]; rewrite a2.
  - rewrite Er, Hpop. cbn [bind]. rewrite <- a3. 
    set (strm2 := set_cont_offset _ _). apply (IH (put_strm sid strm2 cs1) strm2).
    + apply popped_inv; [done|done|congruence|]. rewrite (ca_last _ _ Hcs). eapply rx_ok_ext; [| |exact Hok']; cbn; [done|lia].
    + apply put_lookup.
    + done.
    + change (has_flag strm1 NGTCP2_STRM_FLAG_RESET_STREAM_RECVED = false). by rewrite (ca_reset _ _ Hcs).
    + unfold rx_entries in *. cbn in *. lia.
  - exists 0, cs1. split_and!; [done|apply Hi|]. intros _. split; [|by rewrite Hs1].
    eapply settled_inv; [exact Hi|exact Hs1|by apply drained_none|by right].
Qed.

Lemma pending_data_run g cs sid strm :
  conn_inv g (active sid (Pending 0)) cs -> cs_strms cs !! sid = Some strm ->
  has_flag strm NGTCP2_STRM_FLAG_RESET_STREAM_RECVED = false ->
  forall rx_offset, (rx_reorder strm <> None -> rx_offset = rx_cont_offset strm) ->
  emitted g sid (conn_emit_pending_stream_data app cs sid rx_offset).
Proof.
  intros Hinv Hs Hre rx_offset Ho. unfold conn_emit_pending_stream_data. rewrite (get_strm_ok _ _ _ Hs). cbn [bind].
  destruct (rx_reorder strm) as [r|] eqn:Er.
  - rewrite Ho by done. apply emit_stream_run; [done|done|by rewrite Er|done|]. unfold rx_entries. rewrite Er. lia.
  - exists 0, cs. split_and!; [done|apply Hinv|]. intros _. split; [|by rewrite Hs].
    eapply settled_inv; [exact Hinv|exact Hs|by apply drained_none|by left].
Qed.
End App.
