(* ===== verification/ConnStreamSpec.v ===== *)
(** * Streams of a connection: frames that carry data

    The handlers of STREAM and RESET_STREAM frames, with the streams they
    open, keep the invariant of [ConnStreamInv] and return without fault. *)

From S2P Require Import Prelude Const Conv Frame Reorder Ksl Gaptr Idtr Pq Strm StrmTx Ratelim ConnCrypto.
From S2P Require Import ConnStream ConnStreamInv ConnStreamCalls ConnStreamEmit.
From stdpp Require Import list gmap.
#[local] Open Scope Z_scope.
#[local] Set Warnings "-clear-no-such-hyp".

Implicit Types (cs : conn_state) (strm : ngtcp2_strm) (sid : Z) (log : list conn_event) (g : ghost) (act : Z -> view).

Section Frames.
Context (app : list conn_event -> conn_event -> list app_call * Z).
Context (app_ok : forall log cb, Forall call_ok (app log cb).1).
Context (server : bool) (stream : Z -> Z -> Z).
#[local] Abbreviation conn_inv := (conn_inv server stream).
#[local] Abbreviation log_ok := (log_ok server stream).
#[local] Abbreviation returns := (returns server stream).
#[local] Abbreviation given := (fun sid => given (stream sid) server sid).

(** *** Parts of the state that no stream shares *)
Lemma set_base_inv g act cs base :
  conn_inv g act cs -> conn_server base = server -> glitch_ok base (g_time g) -> conn_inv g act (set_base base cs).
Proof. intros [H1 H2 H3 H4 H5 H6 H7 [I1 I2 I3 I4 I5] H9] Hb Hg. split; try done. by destruct H4. Qed.

Lemma set_rx_inv g act cs rx :
  conn_inv g act cs -> flow_ok rx -> crx_offset (cs_rx cs) <= crx_offset rx -> conn_inv g act (set_rx rx cs).
Proof.
  intros [H1 H2 H3 H4 H5 H6 H7 [I1 I2 I3 I4 I5] H9] Hrx Hle. split; try done; [by destruct H4|cbn; lia].
Qed.

Lemma glitch_step g cs : conn_inv g quiet cs -> returns g (stream_glitch cs (g_time g)).
Proof.
  intros Hinv. unfold stream_glitch.
  destruct (ci_glitch _ _ _ _ _ Hinv) as [Hwf Hts].
  destruct (glitch_run (cs_base cs) (g_time g) Hwf Hts) as (rv & rlim & -> & Hwf' & Hts'). cbn [bind].
  apply returns_quiet. apply set_base_inv; [done|apply Hinv|]. split; cbn; [done|lia].
Qed.

(** *** The sizes of a frame *)

(** The stream after the checks of a frame that ends at [fr_end]. *)
Record accepted strm strm' (fr_end : Z) : Prop := {
  ad_id : strm_stream_id strm' = strm_stream_id strm;
  ad_reorder : rx_reorder strm' = rx_reorder strm;
  ad_cont : rx_cont_offset strm' = rx_cont_offset strm;
  ad_max : rx_max_offset strm' = rx_max_offset strm;
  ad_unsent : rx_unsent_max_offset strm' = rx_unsent_max_offset strm;
  ad_window : rx_window strm' = rx_window strm;
  ad_code : strm_app_error_code strm' = strm_app_error_code strm;
  ad_tx : strm_tx_half strm' = strm_tx_half strm;
  ad_flags : forall f, Z.land NGTCP2_STRM_FLAG_SHUT_RD f = 0 -> has_flag strm' f = has_flag strm f;
  ad_last : rx_last_offset strm' = Z.max (rx_last_offset strm) fr_end;
  ad_shut : has_flag strm NGTCP2_STRM_FLAG_SHUT_RD = true ->
    has_flag strm' NGTCP2_STRM_FLAG_SHUT_RD = true /\ fr_end <= rx_last_offset strm;
}.

Lemma accepted_ok sid strm strm' fr_end :
  strm_ok (stream sid) sid strm -> accepted strm strm' fr_end -> fr_end <= rx_max_offset strm ->
  strm_ok (stream sid) sid strm'.
Proof.
  intros [S1 S2 S3 S4 S5 S6 S7 S8 S9] [A1 A2 A3 A4 A5 A6 A7 A8 A9 A10 A11] Hend.
  split; rewrite ?A1, ?A4, ?A5, ?A6; auto; [|lia| | | |].
  - eapply rx_ok_ext; [exact A2|exact A3|]. eapply rx_ok_le; [|exact S2]. lia.
  - unfold stopped in *. by rewrite A9, A2 by done.
  - rewrite A9 by done. intros H%S7. by apply A11.
  - unfold code_ok. by rewrite A9, A7 by done.
  - unfold tx_ok. by rewrite A8.
Qed.

(** A frame behind the data that were given does not complete them. *)
Lemma accepted_phase strm strm' fr_end ph :
  accepted strm strm' fr_end -> rx_drained strm -> phase_is 0 strm ph ->
  (stopped strm = false -> rx_complete strm' (rx_cont_offset strm) = rx_complete strm (rx_cont_offset strm)) ->
  rx_drained strm' /\ phase_is 0 strm' ph.
Proof.
  intros [A1 A2 A3 A4 A5 A6 A7 A8 A9 A10 A11] Hd Hph Hco. split.
  - unfold rx_drained, rx_entries in *. by rewrite A2, A3.
  - unfold phase_is in *. rewrite A9 by done. destruct (has_flag strm NGTCP2_STRM_FLAG_RESET_STREAM_RECVED); [done|].
    destruct Hph as (hi & fin & -> & Hhi & Hst). exists hi, fin. split_and!; [done|lia|].
    unfold stopped in *. rewrite A9, A3 by done. destruct (has_flag strm NGTCP2_STRM_FLAG_STOP_SENDING); [done|].
    destruct Hst as [-> ->]. split; [done|]. rewrite Z.add_0_r. symmetry. auto.
Qed.

Lemma accepted_inv g cs sid strm strm' rx fr_end :
  conn_inv g quiet cs -> cs_strms cs !! sid = Some strm -> accepted strm strm' fr_end -> fr_end <= rx_max_offset strm ->
  (stopped strm = false -> rx_complete strm' (rx_cont_offset strm) = rx_complete strm (rx_cont_offset strm)) ->
  flow_ok rx -> rx_last_offset strm' - rx_last_offset strm <= crx_offset rx - crx_offset (cs_rx cs) ->
  conn_inv g quiet (update_strm sid strm' rx [] cs).
Proof.
  intros Hinv Hs Ha Hend Hco Hrx Hsum. destruct (ci_strms _ _ _ _ _ Hinv _ _ Hs) as (Hok & ph & Hg & Hd & Hph).
  eapply update_strm_inv; [exact Hinv|exact Hs|done|done| |done|done]. rewrite app_nil_r.
  split; [by eapply accepted_ok|]. exists ph. split; [done|]. by eapply accepted_phase.
Qed.

(** *** STREAM frames *)
Definition frame_ok (fr : ngtcp2_stream) : Prop :=
  0 <= st_stream_id fr < 2 ^ 62 /\ 0 <= st_offset fr <= NGTCP2_MAX_VARINT /\
  exists data, carries (stream (st_stream_id fr)) (st_offset fr) data /\ zlen data <= NGTCP2_MAX_VARINT /\
    (st_data fr = [data] \/ data = [] /\ st_data fr = []).

(** The part of the data that was not given yet. *)
Lemma cut_data strm fr data limit :
  carries (stream (st_stream_id fr)) (st_offset fr) data -> st_data fr = [data] \/ data = [] /\ st_data fr = [] ->
  rx_ok (stream (st_stream_id fr)) limit strm -> limit <= NGTCP2_MAX_VARINT ->
  0 <= st_offset fr <= rx_cont_offset strm -> rx_cont_offset strm <= st_offset fr + zlen data <= limit ->
  exists cut strm',
    (match st_data fr with
     | data :: _ => let data := zdrop (rx_cont_offset strm - st_offset fr) data in
         (data, ngtcp2_strm_update_rx_offset strm (u64 (rx_cont_offset strm + zlen data)))
     | [] => ([], strm)
     end) = (cut, strm') /\
    carries (stream (st_stream_id fr)) (rx_cont_offset strm) cut /\
    rx_cont_offset strm + zlen cut = st_offset fr + zlen data /\
    rx_ok (stream (st_stream_id fr)) limit strm' /\ same_stream strm strm' /\
    rx_cont_offset strm' = st_offset fr + zlen data /\ (rx_reorder strm = None -> rx_reorder strm' = None).
Proof.
  intros Hc Hd Hok Hlim Hlo Hhi. unfold NGTCP2_MAX_VARINT in *. destruct Hd as [->|[-> ->]].
  - assert (Hl : zlen (zdrop (rx_cont_offset strm - st_offset fr) data) = st_offset fr + zlen data - rx_cont_offset strm)
      by (rewrite zlen_zdrop; lia).
    rewrite Hl, u64_small by (unfold is_u64; lia).
    replace (rx_cont_offset strm + _) with (st_offset fr + zlen data) by lia.
    destruct (strm_update (stream (st_stream_id fr)) limit strm (st_offset fr + zlen data) Hok) as (H1 & H2 & H3 & _); [lia|].
    do 2 eexists. split; [reflexivity|]. refine (conj _ (conj _ (conj H1 (conj H2 (conj H3 _))))); [|lia|].
    + replace (rx_cont_offset strm) with (st_offset fr + (rx_cont_offset strm - st_offset fr)) at 1 by lia.
      apply carries_drop; [lia|done].
    + unfold ngtcp2_strm_update_rx_offset. intros E. rewrite E. exact E.
  - rewrite zlen_nil in *. exists [], strm. split; [done|]. split; [intros i b; by rewrite lookup_nil|].
    rewrite zlen_nil. split_and!; done || lia.
Qed.

Lemma same_strm_ok sid strm strm' :
  strm_ok (stream sid) sid strm -> same_stream strm strm' -> rx_ok (stream sid) (rx_last_offset strm') strm' ->
  (rx_reorder strm = None -> rx_reorder strm' = None) -> strm_ok (stream sid) sid strm'.
Proof.
  intros [S1 S2 S3 S4 S5 S6 S7 S8 S9] (E1 & E2 & E3 & E4 & E5 & E6 & E7 & E8) Hrx Hr.
  rewrite E3 in Hrx. split; unfold stopped, code_ok, tx_ok, has_flag in *; rewrite ?E1, ?E2, ?E3, ?E4, ?E5, ?E6, ?E7, ?E8; auto.
Qed.

Lemma same_has_flag strm strm' f : same_stream strm strm' -> has_flag strm' f = has_flag strm f.
Proof. intros (_ & E & _). unfold has_flag. by rewrite E. Qed.

Lemma same_complete strm strm' hi : same_stream strm strm' -> rx_complete strm' hi = rx_complete strm hi.
Proof. intros (_ & E2 & E3 & _). unfold rx_complete, has_flag. by rewrite E2, E3. Qed.

Lemma put_update sid strm strm' rx evs cs :
  put_strm sid strm (update_strm sid strm' rx evs cs) = update_strm sid strm rx evs cs.
Proof. unfold put_strm, update_strm, set_strms. cbn. by rewrite insert_insert_eq. Qed.

Lemma log_event_update sid strm rx ev cs :
  log_event ev (update_strm sid strm rx [] cs) = update_strm sid strm rx [ev] cs.
Proof. unfold log_event, update_strm. cbn. by rewrite app_nil_r. Qed.

(** Data that the peer sends for a stream that is not read any more. *)
Lemma dropped_inv g cs sid strm strm' rx :
  conn_inv g quiet cs -> cs_strms cs !! sid = Some strm -> strm_ok (stream sid) sid strm' ->
  has_flag strm NGTCP2_STRM_FLAG_RESET_STREAM_RECVED = false -> stopped strm = true -> stopped strm' = true ->
  has_flag strm' NGTCP2_STRM_FLAG_RESET_STREAM_RECVED = false ->
  rx_cont_offset strm <= rx_cont_offset strm' -> rx_last_offset strm <= rx_last_offset strm' ->
  flow_ok rx -> rx_last_offset strm' - rx_last_offset strm <= crx_offset rx - crx_offset (cs_rx cs) ->
  conn_inv g quiet (update_strm sid strm' rx [] cs).
Proof.
  intros Hinv Hs Hok Hre Hst Hst' Hre' Hc Hl Hrx Hsum. destruct (ci_strms _ _ _ _ _ Hinv _ _ Hs) as (_ & ph & Hg & _ & Hph).
  eapply update_strm_inv; [exact Hinv|exact Hs|done|constructor| |exact Hrx|exact Hsum]. rewrite app_nil_r.
  split; [done|]. exists ph. split; [done|]. split; [by apply drained_none, (sk_stop _ _ _ Hok)|].
  unfold phase_is in *. rewrite Hre, Hst in Hph. rewrite Hre', Hst'. destruct Hph as (hi & fin & -> & ? & ?).
  exists hi, fin. split_and!; [done|lia|lia].
Qed.

Lemma deliver_run env g cs sid strm strm1 rx fr fr_end data :
  conn_inv g quiet cs -> cs_strms cs !! sid = Some strm -> sid = st_stream_id fr ->
  accepted strm strm1 fr_end -> fr_end <= rx_max_offset strm -> flow_ok rx ->
  rx_last_offset strm1 - rx_last_offset strm <= crx_offset rx - crx_offset (cs_rx cs) ->
  has_flag strm NGTCP2_STRM_FLAG_RESET_STREAM_RECVED = false ->
  carries (stream sid) (st_offset fr) data -> (st_data fr = [data] \/ data = [] /\ st_data fr = []) ->
  fr_end = st_offset fr + zlen data -> 0 <= st_offset fr <= rx_cont_offset strm -> rx_cont_offset strm <= fr_end ->
  (stopped strm = false -> rx_complete strm (rx_cont_offset strm) = false) ->
  (rx_cont_offset strm < fr_end \/ rx_complete strm1 fr_end = true) ->
  returns g (recv_stream_deliver app env (update_strm sid strm1 rx [] cs) sid fr (rx_cont_offset strm)).
Proof.
  intros Hinv Hs Hsid Ha Hmax Hrx Hsum Hre Hc Hd Hend Hlo Hhi Hco Hnews. unfold recv_stream_deliver.
  rewrite (get_strm_ok _ sid strm1) by apply lookup_insert_eq. cbn [bind].
  destruct (ci_strms _ _ _ _ _ Hinv _ _ Hs) as (Hok & ph & Hg & Hdr & Hph).
  pose proof (accepted_ok _ _ _ _ Hok Ha Hmax) as Hok1. pose proof Ha as [_ _ A3 _ _ _ _ _ A9 A10 _].
  pose proof (sk_last _ _ _ Hok1). pose proof (sk_max _ _ _ Hok1). rewrite <- A3 in *. subst sid.
  destruct (cut_data strm1 fr data (rx_last_offset strm1)) as (cut & strm2 & Hcut & Hcc & Hlen & Hrx2 & Hsame & Hcont & Hno);
    [done|done|apply Hok1|lia|lia|lia|]. cbv zeta in *. rewrite Hcut. clear Hcut. cbv zeta.
  assert (Hl2 : rx_last_offset strm2 = rx_last_offset strm1) by apply Hsame.
  assert (Hok2 : strm_ok (stream (st_stream_id fr)) (st_stream_id fr) strm2).
  { eapply same_strm_ok; [exact Hok1|exact Hsame|by rewrite Hl2|exact Hno]. }
  rewrite Hlen, u64_small by (unfold is_u64; unfold NGTCP2_MAX_VARINT in *; zlen_pos; lia). rewrite put_update.
  rewrite (same_has_flag _ _ _ Hsame), A9 by done. fold (stopped strm).
  assert (Hst2 : stopped strm2 = stopped strm) by (unfold stopped; by rewrite (same_has_flag _ _ _ Hsame), A9).
  assert (Hre2 : has_flag strm2 NGTCP2_STRM_FLAG_RESET_STREAM_RECVED = false) by (by rewrite (same_has_flag _ _ _ Hsame), A9).
  destruct (stopped strm) eqn:Est.
  { apply (close_if_run app app_ok); [|exists strm2; apply lookup_insert_eq].
    eapply dropped_inv; [exact Hinv|exact Hs|done|done|done|done|done|lia|lia|done|by rewrite Hl2]. }
  fold (rx_complete strm2 (st_offset fr + zlen data)). rewrite (same_complete _ _ _ Hsame), <- Hend.
  replace (rx_complete strm1 fr_end || negb (zlen cut =? 0)) with true.
  2:{ symmetry. apply orb_true_iff. destruct Hnews as [?|?]; [right|by left]. apply negb_true_iff, Z.eqb_neq. lia. }
  set (flags := if negb _ then _ else _). assert (Hfl : fin_flag flags = rx_complete strm1 fr_end) by apply fin_flag_value.
  destruct (reading_phase _ _ _ Hph Est Hre) as [-> Hle]. rewrite Z.add_0_r, <- A3, Hco in Hg by done.
  unfold conn_call_recv_stream_data. destruct (Z.eqb_spec (env_view (se_rx env)) 0) as [_|Hv]; cbn [negb].
  2:{ cbn [bind]. destruct (Z.eqb_spec (env_view (se_rx env)) 0); [done|]. cbn [negb].
      apply returns_error; [cbn; rewrite app_nil_r; apply Hinv|done]. }
  unfold conn_call_recv_stream_data_buf. set (ev := CbRecvStreamData _ _ _ _).
  assert (Hlog : conn_inv g (active (st_stream_id fr) (Pending 0)) (log_event ev (update_strm (st_stream_id fr) strm2 rx [] cs))).
  { rewrite log_event_update. apply (data_event server stream g quiet cs _ strm); try done; try (intros; lia).
    - by rewrite Hcont, Z.add_0_r, Hfl, (same_complete _ _ _ Hsame), Hend.
    - intros E. rewrite E, zlen_nil in Hlen. rewrite Hfl. destruct Hnews as [?|E']; [lia|exact E']. }
  destruct (callback_run app app_ok server stream _ _ _ _ Hlog) as (rv & cs1 & -> & Hi & Hca). cbn [bind].
  destruct (Z.eqb_spec rv 0) as [->|Hrv]; cbn [negb]; [|apply returns_error; [apply Hi|done]].
  assert (Hs2 : cs_strms (update_strm (st_stream_id fr) strm2 rx [] cs) !! st_stream_id fr = Some strm2) by apply lookup_insert_eq.
  destruct (calm_lookup _ _ _ _ Hca Hs2) as (strm3 & Hs3 & Hcs3).
  destruct (pending_data_run app app_ok server stream g cs1 (st_stream_id fr) strm3 Hi Hs3) with (rx_offset := fr_end)
    as (rv & cs2 & -> & Hlog2 & Hi2).
  { by rewrite (ca_reset _ _ Hcs3). }
  { intros Hne. destruct (ca_data _ _ Hcs3) as [(_ & _ & ->)|(_ & E & _)]; [by rewrite Hcont|done]. }
  cbn [bind]. destruct (Z.eqb_spec rv 0) as [->|Hrv]; cbn [negb]; [|by apply returns_error].
  destruct (Hi2 eq_refl). by apply (close_if_run app app_ok).
Qed.

Lemma stored_inv g cs sid strm strm' released :
  conn_inv g quiet cs -> cs_strms cs !! sid = Some strm -> same_stream strm strm' ->
  rx_ok (stream sid) (rx_last_offset strm) strm' -> rx_cont_offset strm' = rx_cont_offset strm -> rx_drained strm' ->
  stopped strm = false ->
  let base := cs_base cs in
  conn_inv g quiet (put_strm sid strm' (set_base (mk_conn (conn_server base) (conn_flags base) (conn_glitch_rlim base)
    (conn_in_probe_pkt_left base) (conn_hs_probe_pkt_left base) (conn_delivered base) released) cs)).
Proof.
  intros Hinv Hs Hsame Hrx Hcont Hdr Hst base. set (b := mk_conn _ _ _ _ _ _ _).
  assert (Hb : conn_inv g quiet (set_base b cs)) by (apply set_base_inv; [done|apply Hinv|apply Hinv]).
  destruct (ci_strms _ _ _ _ _ Hinv _ _ Hs) as (Hok & ph & Hg & _ & Hph).
  assert (Hst' : stopped strm' = false) by (unfold stopped; by rewrite (same_has_flag _ _ _ Hsame)).
  assert (Hl : rx_last_offset strm' = rx_last_offset strm) by apply Hsame.
  rewrite put_strm_update. eapply update_strm_inv; [exact Hb|exact Hs|done|constructor| |apply Hinv|cbn; lia].
  rewrite app_nil_r. split.
  - destruct Hok as [S1 S2 S3 S4 S5 S6 S7 S8 S9]. pose proof Hsame as (E1 & E2 & E3 & E4 & E5 & E6 & E7 & E8).
    split; rewrite ?E1, ?Hl, ?E4, ?E5, ?E6, ?Hst'; try done; unfold code_ok, tx_ok; rewrite ?(same_has_flag _ _ _ Hsame), ?E7, ?E8; done.
  - exists ph. split; [done|]. split; [done|]. unfold phase_is in *. rewrite (same_has_flag _ _ _ Hsame).
    destruct (has_flag strm NGTCP2_STRM_FLAG_RESET_STREAM_RECVED); [done|]. destruct Hph as (hi & fin & -> & Hhi & Hx).
    exists hi, fin. rewrite Hl, Hcont, Hst'. rewrite Hst in Hx. unfold rx_complete in *.
    by rewrite (same_has_flag _ _ _ Hsame), Hl.
Qed.

Lemma store_run env g cs sid strm fr data :
  conn_inv g quiet cs -> cs_strms cs !! sid = Some strm ->
  carries (stream sid) (st_offset fr) data -> (st_data fr = [data] \/ data = [] /\ st_data fr = []) ->
  0 <= st_offset fr -> rx_cont_offset strm < st_offset fr -> st_offset fr + zlen data <= rx_last_offset strm ->
  returns g (recv_stream_store app env cs sid fr (g_time g)).
Proof.
  intros Hinv Hs Hc Hd H0 Hlo Hhi. unfold recv_stream_store. rewrite (get_strm_ok _ _ _ Hs). cbn [bind].
  assert (Hclose : forall cs', conn_inv g quiet cs' -> is_Some (cs_strms cs' !! sid) ->
    returns g (ngtcp2_conn_close_stream_if_shut_rdwr app cs' sid)) by (intros; by apply (close_if_run app app_ok)).
  assert (Hsome : is_Some (cs_strms cs !! sid)) by (by rewrite Hs).
  destruct (st_data fr) as [|d l]; [by apply Hclose|]. assert (d = data) as -> by (destruct Hd as [H|[_ H]]; congruence).
  fold (stopped strm). destruct (stopped strm) eqn:Est; [by apply Hclose|].
  assert (Hnext : forall cs' b, conn_inv g quiet cs' -> is_Some (cs_strms cs' !! sid) ->
    returns g (let* (rv, cs) := (if (b : bool) then stream_glitch cs' (g_time g) else Ok (0, cs')) in
      if negb (rv =? 0) then Ok (rv, cs) else ngtcp2_conn_close_stream_if_shut_rdwr app cs sid)).
  { intros cs' b Hi Hso. destruct b; cbn [bind]; [|by apply Hclose].
    destruct (glitch_step g cs' Hi) as (rv & cs2 & E & Hl & Hi2). rewrite E. cbn [bind].
    destruct (Z.eqb_spec rv 0) as [->|]; cbn [negb]; [|by apply returns_error]. apply Hclose; [by apply Hi2|].
    unfold stream_glitch in E. destruct (conn_glitch _ _) as [[rv' b]| |]; [|done|done]. injection E as _ <-. exact Hso. }
  destruct (ci_strms _ _ _ _ _ Hinv _ _ Hs) as (Hok & ph & Hg & Hdr & _).
  pose proof (sk_last _ _ _ Hok). pose proof (sk_max _ _ _ Hok). unfold NGTCP2_MAX_VARINT in *.
  destruct (env_acquire (se_rx env)) as [arv|[owner own]] eqn:Ea.
  { unfold conn_recv_reordering. rewrite Ea.
    assert (E : put_strm sid strm (set_base (cs_base cs) cs) = cs).
    { unfold put_strm, set_strms, set_base. cbn. rewrite insert_id by done. by destruct cs. }
    rewrite E. destruct (Z.ltb_spec arv 0); [apply returns_error; [apply Hinv|lia]|]. by apply Hnext. }
  destruct (recv_reordering_run (stream sid) (rx_last_offset strm) (se_rx env) (cs_base cs) strm data (st_offset fr) owner own)
    as (rv & conn' & strm' & -> & Hok' & Hsame & Hcont & (log & ->) & Hcov & _); [apply Hok|done|done|done|lia|lia|].
  assert (Hi : conn_inv g quiet (put_strm sid strm' (set_base (mk_conn (conn_server (cs_base cs)) (conn_flags (cs_base cs))
    (conn_glitch_rlim (cs_base cs)) (conn_in_probe_pkt_left (cs_base cs)) (conn_hs_probe_pkt_left (cs_base cs))
    (conn_delivered (cs_base cs)) log) cs))).
  { eapply stored_inv; try done. unfold rx_drained. rewrite Hcont. intros [Hx|Hx]%Hcov; [by apply Hdr|lia]. }
  destruct (Z.ltb_spec rv 0); [apply returns_error; [apply Hi|lia]|]. apply Hnext; [done|by rewrite put_lookup].
Qed.

(** The credit of the connection that a frame takes. *)
Definition take_credit strm (fr_end : Z) cs : conn_state :=
  let len := u64 (fr_end - rx_last_offset strm) in
  if rx_last_offset strm <? fr_end then
    let rx := cs_rx cs in
    let cs := set_rx (mk_rx (u64 (crx_offset rx + len)) (crx_max_offset rx) (crx_unsent_max_offset rx)
                        (crx_window rx) (crx_last_max_data_ts rx)) cs in
    if has_flag strm NGTCP2_STRM_FLAG_STOP_SENDING then ngtcp2_conn_extend_max_offset cs len else cs
  else cs.

Lemma take_credit_run g cs sid strm fr_end :
  conn_inv g quiet cs -> cs_strms cs !! sid = Some strm -> fr_end <= rx_max_offset strm ->
  (rx_last_offset strm <? fr_end) && conn_max_data_violated cs (u64 (fr_end - rx_last_offset strm)) = false ->
  exists rx, take_credit strm fr_end cs = set_rx rx cs /\ flow_ok rx /\
    Z.max (rx_last_offset strm) fr_end - rx_last_offset strm = crx_offset rx - crx_offset (cs_rx cs).
Proof.
  intros Hinv Hs Hmax Hv. destruct (ci_strms _ _ _ _ _ Hinv _ _ Hs) as (Hok & _).
  pose proof (sk_last _ _ _ Hok). pose proof (sk_max _ _ _ Hok). unfold take_credit, conn_max_data_violated in *.
  pose proof (ci_flow _ _ _ _ _ Hinv) as Hfl. pose proof Hfl as [F1 F2 F3]. unfold NGTCP2_MAX_VARINT in *.
  destruct (Z.ltb_spec (rx_last_offset strm) fr_end) as [Hlt|Hle].
  2:{ exists (cs_rx cs). split_and!; [by destruct cs|done|lia]. }
  cbn [andb] in Hv. rewrite !u64_small in Hv by (unfold is_u64; lia). apply Z.ltb_ge in Hv.
  rewrite (u64_small (fr_end - _)), u64_small by (unfold is_u64; lia).
  assert (Hrx : flow_ok (mk_rx (crx_offset (cs_rx cs) + (fr_end - rx_last_offset strm)) (crx_max_offset (cs_rx cs))
    (crx_unsent_max_offset (cs_rx cs)) (crx_window (cs_rx cs)) (crx_last_max_data_ts (cs_rx cs)))) by (split; cbn; done || lia).
  destruct (has_flag _ _).
  - destruct (extend_max_offset_run server stream g quiet (set_rx _ cs) (fr_end - rx_last_offset strm) ltac:(lia)
      (set_rx_inv _ _ _ _ Hinv Hrx ltac:(cbn; lia))) as [Hi _].
    eexists. split; [reflexivity|]. split; [apply Hi|cbn; lia].
  - eexists. split; [reflexivity|]. split; [done|cbn; lia].
Qed.

Lemma final_size_run new_strm strm fr fr_end rx_offset :
  match recv_stream_final_size new_strm strm fr fr_end rx_offset with
  | inl (rv, glitch) => glitch = false \/ rv = 0
  | inr strm' =>
      accepted strm strm' fr_end /\
      (st_fin fr = true -> has_flag strm' NGTCP2_STRM_FLAG_SHUT_RD = true /\ rx_last_offset strm' = fr_end /\
         (has_flag strm NGTCP2_STRM_FLAG_SHUT_RD = true ->
          has_flag strm NGTCP2_STRM_FLAG_RESET_STREAM_RECVED = false /\ rx_offset <> fr_end)) /\
      (st_fin fr = false -> forall f, has_flag strm' f = has_flag strm f)
  end.
Proof.
  unfold recv_stream_final_size. destruct (st_fin fr).
  - destruct (has_flag strm NGTCP2_STRM_FLAG_SHUT_RD) eqn:Esh.
    + destruct (Z.eqb_spec (rx_last_offset strm) fr_end) as [E|]; cbn [negb]; [|by left].
      destruct (has_flag strm NGTCP2_STRM_FLAG_RESET_STREAM_RECVED) eqn:Er; [by right|].
      destruct (Z.eqb_spec rx_offset fr_end); [by right|]. split; [|by split_and!]. split; try done; [lia|]. split; [done|lia].
    + destruct (Z.ltb_spec fr_end (rx_last_offset strm)); [by left|].
      set (strm' := ngtcp2_strm_shutdown _ _).
      assert (Hf : forall f, has_flag strm' f = has_flag strm f || negb (Z.land NGTCP2_STRM_FLAG_SHUT_RD f =? 0)).
      { intros f. unfold strm', ngtcp2_strm_shutdown.
        change (has_flag (set_flags (Z.lor (strm_flags strm) NGTCP2_STRM_FLAG_SHUT_RD) strm) f
          = has_flag strm f || negb (Z.land NGTCP2_STRM_FLAG_SHUT_RD f =? 0)). apply has_flag_lor. }
      split; [|split; [|done]].
      * split; try done; [|cbn; lia|by rewrite Esh]. intros f E. by rewrite Hf, E, orb_false_r.
      * intros _. split_and!; [by rewrite Hf, orb_true_r|done|done].
  - destruct (_ && _) eqn:E; [by left|]. split; [|by split]. split; try done. intros Hsh. split; [done|].
    rewrite Hsh in E. cbn in E. apply Z.ltb_ge in E. lia.
Qed.

(** *** New streams *)
Lemma idtr_open_run g n cs sid :
  g_room g = S n -> conn_inv g quiet cs -> 0 <= sid < 2 ^ 62 -> local_id server sid = false ->
  (exists rv, conn_idtr_open cs sid = Ok (rv, cs) /\ rv = NGTCP2_ERR_STREAM_IN_USE) \/
  exists bidi uni g', conn_idtr_open cs sid = Ok (0, set_remote bidi uni cs) /\ conn_inv g' quiet (set_remote bidi uni cs) /\
    g_room g' = n /\ g_time g' = g_time g /\ unused_id server g cs sid /\ ~ unused_id server g' (set_remote bidi uni cs) sid.
Proof.
  intros Hn Hinv Hid Hloc. pose proof Hinv as [H1 H2 H3 H4 H5 H6 H7 [I1 I2 I3 I4 I5] H9].
  rewrite Hn in I1, I2. unfold conn_idtr_open. destruct (bidi_stream sid) eqn:Eb.
  - pose proof (idtr_open_ok n (g_bidi g) _ sid I1 Hid) as Hop. case_bool_decide as Hin.
    + left. rewrite Hop. cbn [bind]. eexists. split; [|done]. by destruct cs as [? ? ? ? ? ? ? [] ? ?].
    + right. destruct Hop as (idtr & -> & Hrep). cbn [bind].
      exists (mk_remote (rs_max_streams (cs_remote_bidi cs)) (rs_unsent_max_streams (cs_remote_bidi cs)) idtr), (cs_remote_uni cs), (mk_ghost n (sid / 4 :: g_bidi g) (g_uni g) (g_time g)).
      split_and!; try done.
      * split; try done; [by destruct H4|]. split; try done; [by apply idtr_rep_less|].
        intros s Hf. apply I5. revert Hf. unfold unused_id. cbn. destruct (local_id server s), (bidi_stream s); try done.
        rewrite elem_of_cons. tauto.
      * unfold unused_id. by rewrite Hloc, Eb.
      * unfold unused_id. rewrite Hloc, Eb. cbn. rewrite elem_of_cons. tauto.
  - pose proof (idtr_open_ok n (g_uni g) _ sid I2 Hid) as Hop. case_bool_decide as Hin.
    + left. rewrite Hop. cbn [bind]. eexists. split; [|done]. by destruct cs as [? ? ? ? ? ? ? ? [] ?].
    + right. destruct Hop as (idtr & -> & Hrep). cbn [bind].
      exists (cs_remote_bidi cs), (mk_remote (rs_max_streams (cs_remote_uni cs)) (rs_unsent_max_streams (cs_remote_uni cs)) idtr), (mk_ghost n (g_bidi g) (sid / 4 :: g_uni g) (g_time g)).
      split_and!; try done.
      * split; try done; [by destruct H4|]. split; try done; [by apply idtr_rep_less|].
        intros s Hf. apply I5. revert Hf. unfold unused_id. cbn. destruct (local_id server s), (bidi_stream s); try done.
        rewrite elem_of_cons. tauto.
      * unfold unused_id. by rewrite Hloc, Eb.
      * unfold unused_id. rewrite Hloc, Eb. cbn. rewrite elem_of_cons. tauto.
Qed.

Lemma less_room g n act cs :
  g_room g = S n -> conn_inv g act cs -> conn_inv (mk_ghost n (g_bidi g) (g_uni g) (g_time g)) act cs.
Proof.
  intros Hn [H1 H2 H3 H4 H5 H6 H7 [I1 I2 I3 I4 I5] H9]. rewrite Hn in I1, I2. split; try done.
  split; try done; by apply idtr_rep_less.
Qed.

(** The peer's stream after [ngtcp2_idtr_open]. *)
Lemma open_remote_run env g cs sid (log0 : given sid (cs_log cs) Idle) :
  map_ok (se_mem_map env) -> conn_inv g quiet cs -> cs_strms cs !! sid = None -> ~ unused_id server g cs sid -> local_id server sid = false ->
  exists found cs', (let* (rv, cs) := ngtcp2_conn_init_stream (se_mem_map env) cs sid in
      if negb (rv =? 0) then Ok (Return rv, cs) else
      let* (rv, cs) := conn_call_stream_open app cs sid in
      if negb (rv =? 0) then Ok (Return rv, cs) else Ok (Stream true, cs)) = Ok (found, cs') /\ log_ok (cs_log cs') /\
    match found with
    | Return rv => rv = 0 -> conn_inv g quiet cs'
    | Stream _ => conn_inv g quiet cs' /\ is_Some (cs_strms cs' !! sid)
    end.
Proof.
  intros Hmap Hinv Hn Hused Hloc.
  destruct (init_stream_run (se_mem_map env) cs sid Hmap Hn) as [->|(strm & -> & Hnew)]; cbn [bind].
  { exists (Return NGTCP2_ERR_NOMEM), cs. split_and!; [done|apply Hinv|done]. }
  cbn [negb Z.eqb]. unfold conn_call_stream_open. set (cs1 := set_strmq _ _).
  assert (Hl : conn_local_stream cs sid = false) by (unfold conn_local_stream; by rewrite (ci_server _ _ _ _ _ Hinv)).
  assert (Hlog : conn_inv g quiet (log_event (CbStreamOpen sid) cs1)).
  { pose proof (ci_ids _ _ _ _ _ Hinv) as [_ _ I3 I4 _].
    apply (inserted_inv server stream g quiet cs sid strm [CbStreamOpen sid] (cs_local_bidi cs) (cs_local_uni cs)); try done.
    - rewrite Hl. eapply given_snoc; [exact log0|constructor].
    - by repeat constructor.
    - intros s Hf. split; [|exact Hf]. intros ->. by apply Hused. }
  destruct (callback_run app app_ok server stream _ _ _ _ Hlog) as (rv & cs2 & -> & Hi & Hca). cbn [bind].
  destruct (Z.eqb_spec rv 0) as [->|Hrv]; cbn [negb].
  - exists (Stream true), cs2. split_and!; [done|apply Hi|done|].
    destruct (calm_lookup _ _ sid strm Hca) as (strm' & -> & _); [apply lookup_insert_eq|done].
  - exists (Return rv), cs2. split_and!; [done|apply Hi|done].
Qed.

Lemma find_or_open_run env refuse g n cs sid :
  map_ok (se_mem_map env) -> g_room g = S n -> conn_inv g quiet cs -> 0 <= sid < 2 ^ 62 ->
  exists found cs' g', conn_find_or_open app env refuse cs sid (g_time g) = Ok (found, cs') /\
    g_room g' = n /\ g_time g' = g_time g /\ log_ok (cs_log cs') /\
    match found with
    | Return rv => rv = 0 -> conn_inv g' quiet cs'
    | Stream _ => conn_inv g' quiet cs' /\ is_Some (cs_strms cs' !! sid)
    end.
Proof.
  intros Hmap Hn Hinv Hid. pose proof (less_room _ _ _ _ Hn Hinv) as Hinv'. set (g1 := mk_ghost n _ _ _) in *.
  unfold conn_find_or_open, ngtcp2_conn_find_stream. destruct (cs_strms cs !! sid) eqn:Hs.
  { exists (Stream false), cs, g1. split_and!; [done..|apply Hinv|done|by rewrite Hs]. }
  assert (Hgl : exists found cs' g', (let* (rv, cs) := stream_glitch cs (g_time g) in Ok (Return rv, cs)) = Ok (found, cs') /\
    g_room g' = n /\ g_time g' = g_time g /\ log_ok (cs_log cs') /\
    match found with
    | Return rv => rv = 0 -> conn_inv g' quiet cs'
    | Stream _ => conn_inv g' quiet cs' /\ is_Some (cs_strms cs' !! sid)
    end).
  { destruct (glitch_step g1 cs Hinv') as (rv & cs' & E & Hl & Hi). change (g_time g1) with (g_time g) in E.
    rewrite E. cbn [bind]. exists (Return rv), cs', g1. by split_and!. }
  unfold conn_local_stream. rewrite (ci_server _ _ _ _ _ Hinv). fold (local_id server sid).
  destruct (local_id server sid) eqn:Hloc; [exact Hgl|].
  destruct (idtr_open_run g n cs sid Hn Hinv Hid Hloc)
    as [(rv & -> & ->)|(bidi & uni & g' & -> & Hi & Hn' & Ht & Hfr & Hnf)]; cbn [bind]; [exact Hgl|].
  cbn [negb Z.eqb]. set (cs1 := set_remote bidi uni cs) in *.
  destruct (Z.eqb_spec (refuse cs1) 0) as [_|Hre]; cbn [negb].
  2:{ exists (Return (refuse cs1)), cs1, g'. split_and!; [done|done|done|apply Hi|done]. }
  destruct (se_mem_strm env); cbn [negb].
  2:{ exists (Return NGTCP2_ERR_NOMEM), cs1, g'. split_and!; [done|done|done|apply Hi|done]. }
  destruct (io_fresh _ _ _ _ (ci_ids _ _ _ _ _ Hinv) sid Hfr) as [_ Hg]. unfold start_phase in Hg. rewrite Hloc in Hg.
  destruct (open_remote_run env g' cs1 sid Hg Hmap Hi Hs Hnf Hloc) as (found & cs2 & -> & Hl & Hf).
  exists found, cs2, g'. by split_and!.
Qed.

Lemma returns_glitch g cs b :
  conn_inv g quiet cs -> returns g (if (b : bool) then stream_glitch cs (g_time g) else Ok (0, cs)).
Proof. intros H. destruct b; [by apply glitch_step|by apply returns_quiet]. Qed.

Lemma vec_len_data fr data :
  st_data fr = [data] \/ data = [] /\ st_data fr = [] -> zlen data <= NGTCP2_MAX_VARINT ->
  frame_data_len (st_data fr) = zlen data.
Proof.
  unfold NGTCP2_MAX_VARINT. intros [->|[-> ->]] Hl; [|done]. unfold frame_data_len. cbn. zlen_pos.
  rewrite u64_small by (unfold is_u64; lia). lia.
Qed.

(** A frame for a stream that is there. *)
Lemma recv_found_run env g cs fr data new_strm strm :
  conn_inv g quiet cs -> cs_strms cs !! st_stream_id fr = Some strm ->
  carries (stream (st_stream_id fr)) (st_offset fr) data -> (st_data fr = [data] \/ data = [] /\ st_data fr = []) ->
  0 <= st_offset fr ->
  let fr_end := st_offset fr + zlen data in
  fr_end <= rx_max_offset strm ->
  (rx_last_offset strm <? fr_end) && conn_max_data_violated cs (u64 (fr_end - rx_last_offset strm)) = false ->
  returns g (let cs := take_credit strm fr_end cs in
    let rx_offset := ngtcp2_strm_rx_offset strm in
    match recv_stream_final_size new_strm strm fr fr_end rx_offset with
    | inl (rv, glitch) => if glitch then stream_glitch cs (g_time g) else Ok (rv, cs)
    | inr strm =>
        let cs := put_strm (st_stream_id fr) strm cs in
        match recv_stream_no_news new_strm strm fr fr_end rx_offset with
        | Some glitch => if glitch then stream_glitch cs (g_time g) else Ok (0, cs)
        | None =>
            if st_offset fr <=? rx_offset then recv_stream_deliver app env cs (st_stream_id fr) fr rx_offset
            else recv_stream_store app env cs (st_stream_id fr) fr (g_time g)
        end
    end).
Proof.
  intros Hinv Hs Hc Hd H0 fr_end Hmax Hv. set (sid := st_stream_id fr) in *. zlen_pos.
  destruct (take_credit_run g cs sid strm fr_end Hinv Hs Hmax Hv) as (rx & -> & Hrx & Hsum). cbv zeta.
  destruct (ci_strms _ _ _ _ _ Hinv _ _ Hs) as (Hok & ph & Hg & Hdr & Hph).
  rewrite (rx_offset_drained _ _ _ (sk_rx _ _ _ Hok) Hdr).
  pose proof (final_size_run new_strm strm fr fr_end (rx_cont_offset strm)) as Hfs.
  destruct (recv_stream_final_size _ _ _ _ _) as [[rv glitch]|strm1].
  { assert (Hi : conn_inv g quiet (set_rx rx cs)) by (apply set_rx_inv; [done|done|lia]).
    destruct glitch; [by apply glitch_step|]. destruct (Z.eq_dec rv 0) as [->|]; [by apply returns_quiet|].
    apply returns_error; [apply Hi|done]. }
  destruct Hfs as (Hacc & Hfin & Hnofin). pose proof Hacc as [A1 A2 A3 A4 A5 A6 A7 A8 A9 A10 A11].
  assert (Ecs : put_strm sid strm1 (set_rx rx cs) = update_strm sid strm1 rx [] cs).
  { unfold put_strm, update_strm, set_strms. by rewrite app_nil_r. }
  rewrite Ecs. assert (Hsum1 : rx_last_offset strm1 - rx_last_offset strm <= crx_offset rx - crx_offset (cs_rx cs)) by lia.
  pose proof (ro_cont _ _ _ (sk_rx _ _ _ Hok)) as Hcl.
  assert (Hget : cs_strms (update_strm sid strm1 rx [] cs) !! sid = Some strm1) by apply lookup_insert_eq.
  destruct (recv_stream_no_news new_strm strm1 fr fr_end (rx_cont_offset strm)) as [b|] eqn:Enn.
  { apply returns_glitch. apply (accepted_inv g cs sid strm strm1 rx fr_end); try done. intros Est.
    unfold recv_stream_no_news in Enn. destruct (st_fin fr) eqn:Efin; [done|]. specialize (Hnofin eq_refl).
    destruct (Z.leb_spec fr_end (rx_cont_offset strm)).
    - unfold rx_complete. rewrite Hnofin. do 2 f_equal. lia.
    - destruct (has_flag strm1 NGTCP2_STRM_FLAG_RESET_STREAM_RECVED) eqn:Er; [|done].
      rewrite Hnofin in Er. pose proof (sk_reset _ _ _ Hok Er) as Hsh. apply A11 in Hsh as [_ Hle].
      unfold rx_complete. rewrite Hnofin. do 2 f_equal. lia. }
  assert (Hre : has_flag strm NGTCP2_STRM_FLAG_RESET_STREAM_RECVED = false).
  { unfold recv_stream_no_news in Enn. destruct (st_fin fr) eqn:Efin.
    - destruct (Hfin eq_refl) as (_ & _ & Hx). destruct (has_flag strm NGTCP2_STRM_FLAG_RESET_STREAM_RECVED) eqn:Er; [|done].
      by destruct (Hx (sk_reset _ _ _ Hok Er)).
    - destruct (fr_end <=? _); [done|]. rewrite <- (A9 NGTCP2_STRM_FLAG_RESET_STREAM_RECVED eq_refl). by destruct (has_flag strm1 NGTCP2_STRM_FLAG_RESET_STREAM_RECVED). }
  assert (Hend : rx_cont_offset strm <= fr_end /\ (rx_cont_offset strm < fr_end \/ rx_complete strm1 fr_end = true) /\
    rx_complete strm (rx_cont_offset strm) = false).
  { unfold recv_stream_no_news in Enn. unfold rx_complete. destruct (st_fin fr) eqn:Efin.
    - destruct (Hfin eq_refl) as (E1 & E2 & E3). rewrite E1, E2, Z.eqb_refl. split_and!; [lia|by right|].
      destruct (has_flag strm NGTCP2_STRM_FLAG_SHUT_RD) eqn:Esh; [|done]. destruct (E3 eq_refl) as [_ ?].
      destruct (A11 eq_refl). apply Z.eqb_neq. lia.
    - destruct (Z.leb_spec fr_end (rx_cont_offset strm)); [done|]. split_and!; [lia|left; lia|].
      destruct (has_flag strm NGTCP2_STRM_FLAG_SHUT_RD) eqn:Esh; [|done]. destruct (A11 eq_refl). apply Z.eqb_neq. lia. }
  destruct Hend as (Hle & Hnews & Hco).
  destruct (Z.leb_spec (st_offset fr) (rx_cont_offset strm)) as [Hin|Hout].
  - eapply deliver_run; try done; try lia.
  - assert (Hlt : rx_cont_offset strm < fr_end) by (pose proof (zlen_nonneg data); unfold fr_end; lia). rewrite <- A3 in Hout.
    eapply store_run; [|exact Hget|exact Hc|exact Hd|done|done|lia].
    apply (accepted_inv g cs sid strm strm1 rx fr_end); try done. intros _. rewrite Hco. unfold rx_complete.
    destruct (Z.eqb_spec (rx_cont_offset strm) (rx_last_offset strm1)); [lia|apply andb_false_r].
Qed.

Lemma recv_stream_run env g n cs fr :
  map_ok (se_mem_map env) -> g_room g = S n -> conn_inv g quiet cs -> frame_ok fr ->
  exists g', returns g' (conn_recv_stream app env cs fr (g_time g)) /\ g_room g' = n /\ g_time g' = g_time g.
Proof.
  intros Hmap Hn Hinv (Hid & Hoff & data & Hc & Hlen & Hd). unfold conn_recv_stream.
  pose proof (less_room _ _ _ _ Hn Hinv) as Hinv'.
  rewrite (vec_len_data _ _ Hd Hlen). pose proof (zlen_nonneg data) as Hz.
  assert (Herr : forall rv, rv <> 0 -> exists g', returns g' (Ok (rv, cs)) /\ g_room g' = n /\ g_time g' = g_time g).
  { intros rv Hrv. exists (mk_ghost n (g_bidi g) (g_uni g) (g_time g)). split; [|done]. apply returns_error; [apply Hinv|done]. }
  destruct (Z.eqb_spec (check_stream_id NGTCP2_ERR_STREAM_STATE cs (st_stream_id fr)) 0) as [_|Hrv]; cbn [negb]; [|by apply Herr].
  rewrite u64_small by (unfold is_u64, NGTCP2_MAX_VARINT in *; lia).
  destruct (Z.ltb_spec (NGTCP2_MAX_VARINT - zlen data) (st_offset fr)); [by apply Herr|].
  destruct (find_or_open_run env (fun _ => 0) g n cs (st_stream_id fr) Hmap Hn Hinv Hid)
    as (found & cs1 & g1 & -> & Hn1 & Ht1 & Hl1 & Hf). cbn [bind]. exists g1. split; [|done].
  destruct found as [rv|new_strm]; [by exists rv, cs1|]. destruct Hf as [Hi1 [strm Hs]].
  rewrite (get_strm_ok _ _ _ Hs). cbn [bind]. rewrite u64_small by (unfold is_u64, NGTCP2_MAX_VARINT in *; lia).
  destruct (Z.ltb_spec (rx_max_offset strm) (st_offset fr + zlen data)); [by apply returns_error|].
  destruct (_ && _) eqn:Ev; [by apply returns_error|]. rewrite <- Ht1.
  apply (recv_found_run env g1 cs1 fr data new_strm strm Hi1 Hs Hc Hd); [lia|lia|exact Ev].
Qed.

(** *** RESET_STREAM frames *)
Definition reset_strm (final_size : Z) strm : ngtcp2_strm :=
  let strm := set_last_offset final_size strm in
  set_flags (Z.lor (strm_flags strm) (Z.lor NGTCP2_STRM_FLAG_SHUT_RD NGTCP2_STRM_FLAG_RESET_STREAM_RECVED)) strm.

Lemma reset_flag final_size strm f :
  has_flag (reset_strm final_size strm) f =
  has_flag strm f || negb (Z.land (Z.lor NGTCP2_STRM_FLAG_SHUT_RD NGTCP2_STRM_FLAG_RESET_STREAM_RECVED) f =? 0).
Proof. apply (has_flag_lor (set_last_offset final_size strm)). Qed.

Lemma reset_strm_ok sid strm final_size :
  strm_ok (stream sid) sid strm -> rx_last_offset strm <= final_size <= rx_max_offset strm ->
  strm_ok (stream sid) sid (reset_strm final_size strm).
Proof.
  intros [S1 S2 S3 S4 S5 S6 S7 S8 S9] Hf. split; try done; cbn; try lia.
  - eapply rx_ok_ext; [| |eapply rx_ok_le; [|exact S2]]; [done|done|lia].
  - unfold stopped. by rewrite reset_flag, orb_false_r.
  - intros _. by rewrite reset_flag, orb_true_r.
  - unfold code_ok. by rewrite reset_flag, orb_false_r.
Qed.

(** The rest of the handler, after the callback. *)
Lemma reset_done_run g cs sid strm final_size code :
  conn_inv g (active sid Resetting) cs -> cs_strms cs !! sid = Some strm ->
  rx_last_offset strm <= final_size <= rx_max_offset strm ->
  final_size - rx_last_offset strm <= crx_max_offset (cs_rx cs) - crx_offset (cs_rx cs) ->
  returns g (
    let datalen := final_size - rx_last_offset strm in
    let rx := cs_rx cs in
    let cs := set_rx (mk_rx (u64 (crx_offset rx + datalen)) (crx_max_offset rx) (crx_unsent_max_offset rx)
                        (crx_window rx) (crx_last_max_data_ts rx)) cs in
    let cs := ngtcp2_conn_extend_max_offset cs datalen in
    let* strm := ngtcp2_strm_set_app_error_code (reset_strm final_size strm) code in
    ngtcp2_conn_close_stream_if_shut_rdwr app (put_strm sid strm cs) sid).
Proof.
  intros Hinv Hs Hf Hv. cbv zeta. set (n := final_size - rx_last_offset strm) in *.
  destruct (ci_strms _ _ _ _ _ Hinv _ _ Hs) as (Hok & ph & Hg & Hview). rewrite active_eq in Hview. destruct Hview as [Hdr ->].
  pose proof (ci_flow _ _ _ _ _ Hinv) as [F1 F2 F3]. unfold NGTCP2_MAX_VARINT in *.
  rewrite u64_small by (unfold is_u64; lia). set (rx := mk_rx _ _ _ _ _).
  assert (Hrx : flow_ok rx) by (split; cbn; unfold NGTCP2_MAX_VARINT; lia).
  assert (Hi : conn_inv g (active sid Resetting) (set_rx rx cs)) by (apply set_rx_inv; [done|done|cbn; lia]).
  destruct (extend_max_offset_run server stream g _ (set_rx rx cs) n ltac:(lia) Hi) as [Hi2 _].
  set (cs2 := ngtcp2_conn_extend_max_offset _ _) in *.
  pose proof (reset_strm_ok _ _ _ Hok Hf) as Hok3.
  destruct (set_code_run _ code (sk_code _ _ _ Hok3)) as (strm4 & -> & Hca & _). cbn [bind].
  apply (close_if_run app app_ok); [|rewrite put_lookup; done].
  assert (E : put_strm sid strm4 cs2 = update_strm sid strm4 (cs_rx cs2) [] cs).
  { unfold put_strm, update_strm, set_strms, cs2, ngtcp2_conn_extend_max_offset. cbn. by rewrite app_nil_r. }
  rewrite E. eapply update_strm_inv; [exact Hinv|exact Hs| |constructor| |apply Hi2|].
  - intros s Hne. by rewrite active_ne.
  - split; [by eapply calm_ok|]. exists WasReset. rewrite app_nil_r. split; [done|].
    eapply (calm_view (stream sid) sid Quiet); [exact Hok3|exact Hca|]. split; [done|]. unfold phase_is. by rewrite reset_flag, orb_true_r.
  - rewrite (ca_last _ _ Hca). cbn. lia.
Qed.

Lemma recv_reset_run env g n cs sid code final_size :
  map_ok (se_mem_map env) -> g_room g = S n -> conn_inv g quiet cs -> 0 <= sid < 2 ^ 62 -> 0 <= final_size ->
  exists g', returns g' (conn_recv_reset_stream app env cs sid code final_size (g_time g)) /\
    g_room g' = n /\ g_time g' = g_time g.
Proof.
  intros Hmap Hn Hinv Hid Hfs. unfold conn_recv_reset_stream. pose proof (less_room _ _ _ _ Hn Hinv) as Hinv'.
  assert (Herr : forall rv, rv <> 0 -> exists g', returns g' (Ok (rv, cs)) /\ g_room g' = n /\ g_time g' = g_time g).
  { intros rv Hrv. exists (mk_ghost n (g_bidi g) (g_uni g) (g_time g)). split; [|done]. apply returns_error; [apply Hinv|done]. }
  destruct (Z.eqb_spec (check_stream_id NGTCP2_ERR_PROTO cs sid) 0) as [_|Hrv]; cbn [negb]; [|by apply Herr].
  destruct (Z.ltb_spec NGTCP2_MAX_VARINT final_size); [by apply Herr|].
  match goal with |- context [conn_find_or_open app env ?f] => destruct (find_or_open_run env f g n cs sid Hmap Hn Hinv Hid)
    as (found & cs1 & g1 & -> & Hn1 & Ht1 & Hl1 & Hf) end. cbn [bind]. exists g1. split; [|done].
  destruct found as [rv|new_strm]; [by exists rv, cs1|]. destruct Hf as [Hi1 [strm Hs]].
  rewrite (get_strm_ok _ _ _ Hs). cbn [bind].
  destruct (ci_strms _ _ _ _ _ Hi1 _ _ Hs) as (Hok & ph & Hg & Hdr & Hph).
  pose proof (sk_last _ _ _ Hok) as Hlast. pose proof (sk_max _ _ _ Hok) as Hmax. pose proof (ci_flow _ _ _ _ _ Hi1) as [F1 F2 F3].
  destruct (if has_flag strm NGTCP2_STRM_FLAG_SHUT_RD then _ else _) eqn:Esz; [by apply returns_error|].
  assert (Hle : rx_last_offset strm <= final_size).
  { destruct (has_flag _ _); [apply negb_false_iff, Z.eqb_eq in Esz; lia|apply Z.ltb_ge in Esz; lia]. }
  destruct (has_flag strm NGTCP2_STRM_FLAG_RESET_STREAM_RECVED) eqn:Ere; [rewrite <- Ht1; by apply glitch_step|].
  destruct (Z.ltb_spec (rx_max_offset strm) final_size); [by apply returns_error|].
  unfold conn_max_data_violated. rewrite !u64_small by (unfold is_u64, NGTCP2_MAX_VARINT in *; lia).
  destruct (Z.ltb_spec (crx_max_offset (cs_rx cs1) - crx_offset (cs_rx cs1)) (final_size - rx_last_offset strm)); [by apply returns_error|].
  unfold conn_call_stream_reset. set (ev := CbStreamReset _ _ _).
  assert (Hlog : conn_inv g1 (active sid Resetting) (log_event ev cs1)).
  { rewrite (log_update _ _ _ _ Hs). eapply update_strm_inv; [exact Hi1|exact Hs| |by repeat constructor| |apply Hi1|lia].
    - intros s. apply active_ne.
    - rewrite active_eq. split; [done|]. exists WasReset. split; [|done]. eapply given_snoc; [exact Hg|].
      unfold phase_is in Hph. rewrite Ere in Hph. destruct Hph as (hi & fin & -> & ? & _). constructor. lia. }
  destruct (callback_run app app_ok server stream _ _ _ _ Hlog) as (rv & cs2 & -> & Hi2 & Hca). cbn [bind].
  destruct (Z.eqb_spec rv 0) as [->|Hrv]; cbn [negb]; [|apply returns_error; [apply Hi2|done]].
  destruct (calm_lookup _ _ _ _ Hca Hs) as (strm2 & Hs2 & Hcs). rewrite (get_strm_ok _ _ _ Hs2). cbn [bind].
  rewrite <- (ca_last _ _ Hcs) in *. rewrite <- (ca_max _ _ Hcs) in *.
  destruct (negb (has_flag strm2 NGTCP2_STRM_FLAG_STOP_SENDING)).
  - destruct (extend_max_offset_run server stream g1 _ cs2 (u64 (rx_last_offset strm2 - ngtcp2_strm_rx_offset strm2))
      (proj1 (u64_range _)) Hi2) as [Hi3 Hca3].
    apply (reset_done_run g1 _ sid strm2 final_size code Hi3); [done|lia|].
    rewrite (cm_offset _ _ Hca3), (cm_max _ _ Hca3), (cm_offset _ _ Hca), (cm_max _ _ Hca). lia.
  - apply (reset_done_run g1 _ sid strm2 final_size code Hi2); [done|lia|]. rewrite (cm_offset _ _ Hca), (cm_max _ _ Hca). lia.
Qed.
End Frames.
