(* ===== verification/ConnStreamRun.v ===== *)
(** * Streams of a connection: every sequence of events

    The remaining frames and operations keep the invariant; so the callbacks
    of every sequence of events follow the protocol, whatever the application
    does in them. *)

From S2P Require Import Prelude Const Conv Frame Reorder Ksl Gaptr Idtr Pq Strm StrmTx Ratelim ConnCrypto.
From S2P Require Import ConnStream ConnStreamInv ConnStreamCalls ConnStreamEmit ConnStreamSpec.
From stdpp Require Import list gmap.
#[local] Open Scope Z_scope.
#[local] Set Warnings "-clear-no-such-hyp".

Implicit Types (cs : conn_state) (strm : ngtcp2_strm) (sid : Z) (log : list conn_event) (g : ghost) (act : Z -> view).

Section Run.
Context (app : list conn_event -> conn_event -> list app_call * Z).
Context (app_ok : forall log cb, Forall call_ok (app log cb).1).
Context (server : bool) (stream : Z -> Z -> Z).
#[local] Abbreviation conn_inv := (conn_inv server stream).
#[local] Abbreviation log_ok := (log_ok server stream).
#[local] Abbreviation returns := (returns server stream).
#[local] Abbreviation stays := (stays server stream).
#[local] Abbreviation given := (fun sid => given (stream sid) server sid).

Lemma returns_stays g cs c : stays g quiet cs c -> returns g c.
Proof. intros (rv & cs' & -> & Hi & _). by apply returns_quiet. Qed.

Lemma returns_ignore g cs c : stays g quiet cs c -> returns g (let* (_, cs) := c in Ok (0, cs)).
Proof. intros (rv & cs' & -> & Hi & _). by apply returns_quiet. Qed.

(** *** Frames about the sending half *)
Lemma recv_max_stream_data_run env g n cs sid max :
  map_ok (se_mem_map env) -> g_room g = S n -> conn_inv g quiet cs -> 0 <= sid < 2 ^ 62 ->
  exists g', returns g' (conn_recv_max_stream_data app env cs sid max (g_time g)) /\ g_room g' = n /\ g_time g' = g_time g.
Proof.
  intros Hmap Hn Hinv Hid. unfold conn_recv_max_stream_data.
  destruct (Z.eqb_spec (check_send_stream_id cs sid) 0) as [_|Hrv]; cbn [negb].
  2:{ exists (mk_ghost n (g_bidi g) (g_uni g) (g_time g)). split; [|done]. apply returns_error; [apply Hinv|done]. }
  destruct (find_or_open_run app app_ok server stream env (fun _ => 0) g n cs sid Hmap Hn Hinv Hid)
    as (found & cs1 & g1 & -> & Hn1 & Ht1 & Hl1 & Hf). cbn [bind]. exists g1. split; [|done].
  destruct found as [rv|b]; [by exists rv, cs1|]. destruct Hf as [Hi1 [strm Hs]].
  rewrite (get_strm_ok _ _ _ Hs). cbn [bind]. rewrite <- Ht1. destruct (_ <=? _); [by apply glitch_step|].
  destruct (put_calm server stream g1 quiet cs1 sid strm (set_tx (set_tx_max_offset max (strm_tx_half strm)) strm))
    as [Hi2 _]; [done|done|by apply calm_keep|].
  destruct (has_flag _ _); [by apply glitch_step|]. unfold conn_call_extend_max_stream_data.
  eapply returns_stays, (callback_run app app_ok). by apply log_other_inv.
Qed.

Lemma recv_stop_sending_run env mem_ok g n cs sid code :
  map_ok (se_mem_map env) -> g_room g = S n -> conn_inv g quiet cs -> 0 <= sid < 2 ^ 62 ->
  exists g', returns g' (conn_recv_stop_sending app env mem_ok cs sid code (g_time g)) /\ g_room g' = n /\ g_time g' = g_time g.
Proof.
  intros Hmap Hn Hinv Hid. unfold conn_recv_stop_sending.
  destruct (Z.eqb_spec (check_send_stream_id cs sid) 0) as [_|Hrv]; cbn [negb].
  2:{ exists (mk_ghost n (g_bidi g) (g_uni g) (g_time g)). split; [|done]. apply returns_error; [apply Hinv|done]. }
  destruct (find_or_open_run app app_ok server stream env (fun _ => 0) g n cs sid Hmap Hn Hinv Hid)
    as (found & cs1 & g1 & -> & Hn1 & Ht1 & Hl1 & Hf). cbn [bind]. exists g1. split; [|done].
  destruct found as [rv|b]; [by exists rv, cs1|]. destruct Hf as [Hi1 [strm Hs]].
  rewrite (get_strm_ok _ _ _ Hs). cbn [bind]. rewrite <- Ht1. destruct (has_flag _ _); [by apply glitch_step|].
  destruct (ci_strms _ _ _ _ _ Hi1 _ _ Hs) as (Hok & _).
  destruct (set_code_run strm code (sk_code _ _ _ Hok)) as (strm1 & -> & Hca & _). cbn [bind].
  destruct (put_calm server stream g1 quiet cs1 sid strm strm1 Hi1 Hs Hca) as [Hi2 _].
  destruct (tx_acked_run _ _ _ (calm_ok _ _ _ _ Hok Hca)) as (acked & ->). cbn [bind].
  set (cs2 := put_strm sid strm1 cs1) in *. assert (Hs2 : cs_strms cs2 !! sid = Some strm1) by apply put_lookup.
  assert (Hst : exists rv cs3, (if negb acked && negb (has_flag strm1 NGTCP2_STRM_FLAG_RESET_STREAM) then
      conn_reset_stream mem_ok (put_strm sid (set_flags (Z.lor (strm_flags strm1) NGTCP2_STRM_FLAG_RESET_STREAM) strm1) cs2) sid code
      else Ok (0, cs2)) = Ok (rv, cs3) /\ conn_inv g1 quiet cs3 /\ is_Some (cs_strms cs3 !! sid)).
  { destruct (_ && _); [|exists 0, cs2; by rewrite Hs2].
    destruct (put_calm server stream g1 quiet cs2 sid strm1 (set_flags (Z.lor (strm_flags strm1) NGTCP2_STRM_FLAG_RESET_STREAM) strm1))
      as [Hi3 _]; [done|done|by apply calm_send_flags|].
    destruct (reset_stream_run server stream mem_ok g1 quiet _ sid _ code Hi3 (put_lookup _ _ _)) as (rv & cs3 & -> & Hi4 & Hc4).
    exists rv, cs3. split_and!; [done|done|]. destruct (calm_lookup _ _ _ _ Hc4 (put_lookup _ _ _)) as (? & -> & _). done. }
  destruct Hst as (rv & cs3 & -> & Hi3 & [strm3 Hs3]). cbn [bind].
  destruct (Z.eqb_spec rv 0); cbn [negb]; [|apply returns_error; [apply Hi3|done]].
  rewrite (get_strm_ok _ _ _ Hs3). cbn [bind]. apply (close_if_run app app_ok); [|by rewrite put_lookup].
  eapply put_calm; [exact Hi3|exact Hs3|by apply calm_send_clear].
Qed.

(** *** Limits on the number of streams *)
Lemma recv_max_streams_run g cs type max : conn_inv g quiet cs -> returns g (conn_recv_max_streams app cs type max).
Proof.
  intros Hinv. unfold conn_recv_max_streams. destruct (_ <? max); [apply returns_error; [apply Hinv|done]|].
  destruct (type =? _); (destruct (_ <? _); [|by apply returns_quiet]);
    (eapply returns_stays, (callback_run app app_ok), log_other_inv; [done|by apply set_local_inv]).
Qed.

Lemma write_max_streams_run mem_ok g cs b :
  conn_inv g quiet cs ->
  returns g (if (b : bool) then conn_write_max_streams_bidi app mem_ok cs else conn_write_max_streams_uni app mem_ok cs).
Proof.
  intros Hinv. unfold conn_write_max_streams_bidi, conn_write_max_streams_uni, conn_call_extend_max_remote_streams_bidi,
    conn_call_extend_max_remote_streams_uni.
  assert (Hcb : forall b n, stays g quiet cs (conn_callback app (CbExtendMaxRemoteStreams b n) cs)).
  { intros b' n. apply (callback_run app app_ok). by apply log_other_inv. }
  assert (Hsent : forall rv cs1 bidi uni, conn_inv g quiet cs1 -> rs_idtr bidi = rs_idtr (cs_remote_bidi cs1) ->
      rs_idtr uni = rs_idtr (cs_remote_uni cs1) ->
      returns g (if negb (rv =? 0) then Ok (rv, cs1) else if negb mem_ok then Ok (NGTCP2_ERR_NOMEM, cs1)
                 else Ok (0, set_remote bidi uni cs1))).
  { intros rv cs1 bidi uni Hi E1 E2. destruct (Z.eqb_spec rv 0); cbn [negb]; [|apply returns_error; [apply Hi|done]].
    destruct mem_ok; cbn [negb]; [|apply returns_error; [apply Hi|done]]. apply returns_quiet. by apply set_remote_inv. }
  destruct b; (destruct (_ <? _); [|by apply returns_quiet]); cbn [negb].
  - destruct (Hcb true (rs_unsent_max_streams (cs_remote_bidi cs))) as (rv & cs1 & -> & Hi & _). by apply Hsent.
  - destruct (Hcb false (rs_unsent_max_streams (cs_remote_uni cs))) as (rv & cs1 & -> & Hi & _). by apply Hsent.
Qed.

(** *** Limits that are sent *)
Lemma window_update_range max_window last_ts ts rtt window unsent :
  0 <= max_window <= NGTCP2_MAX_VARINT -> 0 <= window <= NGTCP2_MAX_VARINT -> 0 <= unsent <= NGTCP2_MAX_VARINT ->
  let (delta, w) := window_update max_window last_ts ts rtt window unsent in
  0 <= delta /\ u64 (unsent + delta) = unsent + delta /\ unsent + delta <= NGTCP2_MAX_VARINT /\ 0 <= w <= NGTCP2_MAX_VARINT.
Proof.
  unfold NGTCP2_MAX_VARINT. intros Hm Hw Hu. unfold window_update.
  assert (Hsm : forall x, 0 <= x < 2 ^ 64 -> u64 x = x) by (intros x Hx; by apply u64_small).
  destruct (_ && (window <? max_window)) eqn:E.
  2:{ rewrite (Hsm (unsent + 0)) by lia. lia. }
  apply andb_true_iff in E as [_ E%Z.ltb_lt]. unfold NGTCP2_FLOW_WINDOW_SCALING_FACTOR, NGTCP2_MAX_VARINT.
  rewrite (Hsm (2 * window)) by lia.
  set (target := if max_window <? 2 * window then max_window else 2 * window).
  assert (window <= target <= max_window) by (unfold target; destruct (Z.ltb_spec max_window (2 * window)); lia).
  rewrite (Hsm (target - window)), (Hsm (unsent + (target - window))) by lia.

  destruct (Z.ltb_spec (2 ^ 62 - 1) (unsent + (target - window))).
  - rewrite (Hsm (2 ^ 62 - 1 - unsent)), (Hsm (unsent + (2 ^ 62 - 1 - unsent))) by lia. lia.
  - rewrite (Hsm (unsent + (target - window))) by lia. lia.
Qed.

Lemma write_max_data_run mem_ok g cs ts rtt :
  conn_inv g quiet cs -> returns g (Ok (conn_write_max_data mem_ok cs ts rtt)).
Proof.
  intros Hinv. unfold conn_write_max_data. destruct (conn_should_send_max_data cs); cbn [negb]; [|by apply returns_quiet].
  destruct mem_ok; cbn [negb]; [|apply returns_error; [apply Hinv|done]].
  pose proof (ci_flow _ _ _ _ _ Hinv) as [F1 F2 F3].
  pose proof (window_update_range (cfg_max_window (cs_config cs)) (crx_last_max_data_ts (cs_rx cs)) ts rtt
    (crx_window (cs_rx cs)) (crx_unsent_max_offset (cs_rx cs)) (proj1 (co_window _ (ci_config _ _ _ _ _ Hinv))) F3) as Hw.
  destruct (window_update _ _ _ _ _ _) as [delta w]. destruct Hw as (W1 & W2 & W3 & W4); [lia|].
  apply returns_quiet. apply set_rx_inv; [done| |cbn; lia]. split; cbn; rewrite ?W2; lia.
Qed.

Lemma write_max_stream_data_run mem_ok g cs sid ts rtt :
  conn_inv g quiet cs -> is_Some (cs_strms cs !! sid) -> returns g (conn_write_max_stream_data mem_ok cs sid ts rtt).
Proof.
  intros Hinv [strm Hs]. unfold conn_write_max_stream_data. rewrite (get_strm_ok _ _ _ Hs). cbn [bind].
  destruct (_ || _); [by apply returns_quiet|]. destruct mem_ok; cbn [negb]; [|apply returns_error; [apply Hinv|done]].
  destruct (ci_strms _ _ _ _ _ Hinv _ _ Hs) as ([S1 S2 S3 S4 S5 S6 S7 S8 S9] & ph & Hg & Hv).
  pose proof (window_update_range (cfg_max_stream_window (cs_config cs)) (tx_last_max_stream_data_ts (strm_tx_half strm)) ts rtt
    (rx_window strm) (rx_unsent_max_offset strm) (proj2 (co_window _ (ci_config _ _ _ _ _ Hinv))) S5) as Hw.
  destruct (window_update _ _ _ _ _ _) as [delta w]. destruct Hw as (W1 & W2 & W3 & W4); [lia|].
  apply returns_quiet. rewrite W2, put_strm_update.
  eapply update_strm_inv; [exact Hinv|exact Hs|done|done| |apply Hinv|cbn; lia]. rewrite app_nil_r. split; [|by exists ph].
  split; try done; cbn; [|lia..]. eapply rx_ok_ext; [| |exact S2]; done.
Qed.

(** *** The queue *)
Lemma pop_run g cs :
  conn_inv g quiet cs -> ngtcp2_pq_empty (cs_strmq cs) = false ->
  returns g (let* cs := ngtcp2_conn_tx_strmq_pop cs in Ok (0, cs)).
Proof.
  intros Hinv He. unfold ngtcp2_conn_tx_strmq_pop, ngtcp2_pq_empty in *. pose proof (ci_queue _ _ _ _ _ Hinv) as [Q1 Q2 Q3].
  pose proof (indexed_nodup _ Q1) as Hnd. unfold ngtcp2_pq_top.
  destruct (pq_q (cs_strmq cs)) as [|top q] eqn:Eq; [done|]. cbn [bind].
  destruct (pq_pop_items (cycle_less (cs_strms cs)) (cs_strmq cs) top Q1) as (pq & -> & [P1 P2 P3]); [by rewrite Eq|].
  cbn [bind]. apply returns_quiet. apply queue_inv; [done|]. rewrite Eq in P2. rewrite P2 in Hnd.
  apply NoDup_cons in Hnd as [Hn _]. split; cbn.
  - intros i x Hx. cbn in *. rewrite lookup_delete_ne; [by apply P1|]. intros <-. by apply list_elem_of_lookup_2 in Hx.
  - intros x Hx. apply Q2. rewrite P2. by right.
  - intros x Hx [Hne Hi]%lookup_delete_is_Some. rewrite P3 in Hi. specialize (Q3 x Hx Hi). rewrite P2 in Q3.
    apply elem_of_cons in Q3 as [->|?]; done.
Qed.

(** *** Every event *)
Definition input_ok (i : conn_input) : Prop :=
  match i with
  | InStream env fr _ => map_ok (se_mem_map env) /\ frame_ok stream fr
  | InReset env sid _ final_size _ => map_ok (se_mem_map env) /\ 0 <= sid < 2 ^ 62 /\ 0 <= final_size
  | InStopSending env _ sid _ _ | InMaxStreamData env sid _ _ => map_ok (se_mem_map env) /\ 0 <= sid < 2 ^ 62
  | InCall call => call_ok call
  | InSending _ _ tx => sending_ok tx
  | InMaxStreams _ _ | InCloseIfShut _ | InWriteMaxData _ _ _
  | InWriteMaxStreamData _ _ _ _ | InWriteMaxStreams _ _ | InPop => True
  end.

(** The time at which a frame arrives. *)
Definition input_time (t : Z) (i : conn_input) : Z :=
  match i with
  | InStream _ _ ts | InReset _ _ _ _ ts | InStopSending _ _ _ _ ts | InMaxStreamData _ _ _ ts => ts
  | _ => t
  end.

Fixpoint inputs_from (t : Z) (inputs : list conn_input) : Prop :=
  match inputs with
  | [] => True
  | i :: inputs => t <= input_time t i /\ inputs_from (input_time t i) inputs
  end.

Definition at_time (t : Z) g : ghost := mk_ghost (g_room g) (g_bidi g) (g_uni g) t.

Lemma later_inv g act cs t : g_time g <= t -> conn_inv g act cs -> conn_inv (at_time t g) act cs.
Proof.
  intros Ht [H1 H2 H3 H4 H5 H6 H7 [I1 I2 I3 I4 I5] [H9 H10]]. split; try done. split; [done|cbn; lia].
Qed.

Lemma sending_run g cs sid strm flags tx :
  conn_inv g quiet cs -> cs_strms cs !! sid = Some strm -> sending_ok tx ->
  returns g (Ok (0, put_sending sid flags tx strm cs)).
Proof.
  intros Hinv Hs Htx. apply returns_quiet. eapply put_calm; [exact Hinv|exact Hs|by apply sending_calm].
Qed.

Lemma step_quiet g cs i :
  conn_inv g quiet cs -> input_ok i -> input_time (g_time g) i = g_time g ->
  match i with InStream _ _ _ | InReset _ _ _ _ _ | InStopSending _ _ _ _ _ | InMaxStreamData _ _ _ _ => False | _ => True end ->
  returns g (conn_step app i cs).
Proof.
  intros Hinv Hok _ Hi. destruct i; cbn [input_ok conn_step] in *; try done.
  - by apply recv_max_streams_run.
  - destruct (app_do_run server stream g quiet cs call Hok Hinv) as (cs' & -> & Hi' & _). by apply returns_quiet.
  - unfold ngtcp2_conn_find_stream. destruct (cs_strms cs !! stream_id) eqn:Es; [|by apply returns_quiet].
    apply (close_if_run app app_ok); [done|by rewrite Es].
  - by apply write_max_data_run.
  - unfold ngtcp2_conn_find_stream. destruct (cs_strms cs !! stream_id) eqn:Es; [|by apply returns_quiet].
    apply write_max_stream_data_run; [done|by rewrite Es].
  - by apply write_max_streams_run.
  - destruct (ngtcp2_pq_empty (cs_strmq cs)) eqn:Eq; [by apply returns_quiet|by apply pop_run].
  - unfold ngtcp2_conn_find_stream. destruct (cs_strms cs !! stream_id) eqn:Es; [|by apply returns_quiet].
    by apply sending_run.
Qed.

Lemma step_run g n cs i :
  g_room g = S n -> conn_inv g quiet cs -> input_ok i -> g_time g <= input_time (g_time g) i ->
  exists g', returns g' (conn_step app i cs) /\ g_room g' = n /\ g_time g' = input_time (g_time g) i.
Proof.
  intros Hn Hinv Hok Ht. pose proof (later_inv _ _ _ _ Ht Hinv) as Hlat.
  assert (Hn1 : g_room (at_time (input_time (g_time g) i) g) = S n) by done.
  destruct i.
  1: exact (recv_stream_run app app_ok server stream env _ n cs fr (proj1 Hok) Hn1 Hlat (proj2 Hok)).
  1: exact (recv_reset_run app app_ok server stream env _ n cs _ _ _ (proj1 Hok) Hn1 Hlat (proj1 (proj2 Hok)) (proj2 (proj2 Hok))).
  1: exact (recv_stop_sending_run env mem_ok _ n cs _ _ (proj1 Hok) Hn1 Hlat (proj2 Hok)).
  1: exact (recv_max_stream_data_run env _ n cs _ _ (proj1 Hok) Hn1 Hlat (proj2 Hok)).
  all: exists (mk_ghost n (g_bidi g) (g_uni g) (g_time g)); split; [|done]; apply step_quiet; try done; by apply less_room.
Qed.

Lemma run_inputs inputs g cs :
  g_room g = length inputs -> conn_inv g quiet cs -> Forall input_ok inputs -> inputs_from (g_time g) inputs ->
  exists g', returns g' (conn_run app inputs cs).
Proof.
  revert g cs. induction inputs as [|i inputs IH]; intros g cs Hn Hinv Hok Ht; cbn [conn_run].
  { exists g. by apply returns_quiet. }
  apply Forall_cons_iff in Hok as [Hi Hok]. destruct Ht as [Ht Hts].
  destruct (step_run g (length inputs) cs i Hn Hinv Hi Ht) as (g1 & (rv & cs1 & -> & Hl & Hi1) & Hn1 & Ht1). cbn [bind].
  destruct (Z.eqb_spec rv 0) as [Hrv|Hrv]; cbn [negb].
  - apply (IH g1); [done|by apply Hi1|done|by rewrite Ht1].
  - exists g1. by apply returns_error.
Qed.

Lemma start_inv flags rlim cfg initial_max_data lb lu rb ru avail n :
  ratelim_wf rlim -> config_ok cfg -> 0 <= initial_max_data <= NGTCP2_MAX_VARINT ->
  (2 * n * (2 * n + 3) <= avail)%nat ->
  conn_inv (mk_ghost n [] [] (rl_ts rlim)) quiet (conn_start server flags rlim cfg initial_max_data lb lu rb ru avail).
Proof.
  intros Hwf Hcfg Hmax Ha.
  assert (Hid : idtr_rep n [] (ngtcp2_idtr_init avail)).
  { eapply gaptr_rep_ext; [|by apply gaptr_init_rep]. intros x. cbn. by rewrite elem_of_nil. }
  split; try done.
  - intros sid. eexists. constructor.
  - split; cbn; [by intros i x|by intros x ?%elem_of_nil|by intros x []].
  - split; cbn; [lia|lia|done].
  - split; cbn; [done|done|by destruct server|by destruct server|]. intros sid _. split; [done|constructor].
Qed.
End Run.

(** ** Property *)

(** A stream that was neither reset nor abandoned by the application. *)
Definition being_read strm : Prop :=
  has_flag strm NGTCP2_STRM_FLAG_RESET_STREAM_RECVED = false /\ stopped strm = false.

(** What the application knows of the streams, and the limits. *)
Record streams_settled (server : bool) (stream : Z -> Z -> Z) cs : Prop := {
  ss_credit : 0 <= received_sum (cs_strms cs) <= crx_offset (cs_rx cs);
  ss_flow : flow_ok (cs_rx cs);
  ss_limit : forall sid strm, cs_strms cs !! sid = Some strm ->
    rx_last_offset strm <= rx_max_offset strm <= NGTCP2_MAX_VARINT;
  ss_given : forall sid strm, cs_strms cs !! sid = Some strm -> being_read strm ->
    let hi := ngtcp2_strm_rx_offset strm in
    given (stream sid) server sid (cs_log cs) (Receiving hi (rx_complete strm hi));
}.

Lemma received_nonneg strms :
  (forall sid strm, strms !! sid = Some strm -> 0 <= rx_last_offset strm) -> 0 <= received_sum strms.
Proof.
  induction strms as [|sid strm strms Hn IH] using map_ind; intros H; [done|]. rewrite received_insert by done.
  pose proof (H sid strm (lookup_insert_eq _ _ _)). apply Z.add_nonneg_nonneg; [done|]. apply IH. intros s st Hs. apply (H s).
  rewrite lookup_insert_ne; [done|]. intros <-. congruence.
Qed.

Lemma inv_settled server stream g cs : conn_inv server stream g quiet cs -> streams_settled server stream cs.
Proof.
  intros Hinv. pose proof (ci_strms _ _ _ _ _ Hinv) as Hst. split.
  - split; [|apply Hinv]. apply received_nonneg. intros sid strm (Hok & _)%Hst. apply Hok.
  - apply Hinv.
  - intros sid strm (Hok & _)%Hst. pose proof (sk_last _ _ _ Hok). pose proof (sk_max _ _ _ Hok). lia.
  - intros sid strm (Hok & ph & Hg & Hd & Hph)%Hst [Hre Hs]. cbn zeta.
    rewrite (rx_offset_drained _ _ _ (sk_rx _ _ _ Hok) Hd).
    destruct (reading_phase _ _ _ Hph Hs Hre) as [-> _]. by rewrite Z.add_0_r in Hg.
Qed.

(** C37: for every sequence of received frames, calls of the application,
    written limits and progress of the sending half, and whatever the
    application returns in its callbacks and calls in them about streams
    (opening streams, submitting data, shutting streams down, extending
    limits): no assertion fails, no pointer to a closed stream is used and no
    fuel runs out; the callbacks of each stream id follow the protocol
    [cb_step]: opened once, the bytes of the stream in order without gap or
    repetition, the end once and after the last byte, nothing after the close.
    Without an error the limits of flow control hold, and of each open stream
    that is read the application was given everything up to the first gap.
    Assumed ([call_ok], [input_ok]): a new stream whose insertion into the map
    fails for lack of memory is not stored in the map all the same.  The last
    line of [ngtcp2_map_insert] can break this; the map then keeps a pointer
    to a stream that is freed.  Functions that read or write packets, and
    [ngtcp2_conn_tls_early_data_rejected], are not called in callbacks. *)
Theorem stream_callbacks_protocol (app : list conn_event -> conn_event -> list app_call * Z)
    (server : bool) (stream : Z -> Z -> Z) (flags : Z) (rlim : ngtcp2_ratelim) (cfg : conn_config)
    (initial_max_data local_bidi local_uni remote_bidi remote_uni : Z) (avail : nat) (inputs : list conn_input) :
  (forall log cb, Forall call_ok (app log cb).1) ->
  ratelim_wf rlim -> config_ok cfg -> 0 <= initial_max_data <= NGTCP2_MAX_VARINT ->
  (2 * length inputs * (2 * length inputs + 3) <= avail)%nat ->
  Forall (input_ok stream) inputs -> inputs_from (rl_ts rlim) inputs ->
  exists rv cs,
    conn_run app inputs (conn_start server flags rlim cfg initial_max_data local_bidi local_uni remote_bidi remote_uni avail)
      = Ok (rv, cs) /\
    (forall sid, exists ph, given (stream sid) server sid (cs_log cs) ph) /\
    (rv = 0 -> streams_settled server stream cs).
Proof.
  intros Happ Hwf Hcfg Hmax Ha Hok Ht.
  destruct (run_inputs app Happ server stream inputs (mk_ghost (length inputs) [] [] (rl_ts rlim)) _ eq_refl
    (start_inv server stream flags rlim cfg initial_max_data local_bidi local_uni remote_bidi remote_uni avail _ Hwf Hcfg Hmax Ha) Hok Ht)
    as (g & rv & cs & -> & Hl & Hi).
  exists rv, cs. split_and!; [done|exact Hl|]. intros Hrv. eapply inv_settled. by apply Hi.
Qed.

(** An application that answers a stream of the peer on one of its own, gives
    back the credit of all that it gets, and stops reading stream 4. *)
Definition reader (log : list conn_event) (cb : conn_event) : list app_call * Z :=
  match cb with
  | CbStreamOpen sid => ([AppOpenUni true MapStored; AppSubmit true sid 0 (strm_tx_half (ngtcp2_strm_init sid 0 0 100))], 0)
  | CbRecvStreamData _ sid _ data =>
      if sid =? 4 then ([AppShutdownRead true 4 9; AppExtendMaxOffset (zlen data)], 0)
      else ([AppExtendMaxStreamOffset true sid (zlen data); AppExtendMaxOffset (zlen data)], 0)
  | _ => ([], 0)
  end.

Definition reader_inputs : list conn_input :=
  let fr sid o d fin := mk_stream NGTCP2_FRAME_STREAM 0 fin sid o [d] None in
  let env := mk_senv (mk_env 0 (inr (1, true)) true true) true MapStored in
  [InStream env (fr 0 3 [3; 4] true) 1; InStream env (fr 4 0 [0; 1] false) 2; InStream env (fr 0 0 [0; 1; 2] false) 3;
   InReset env 4 7 10 4; InCall (AppOpenBidi true MapStored); InPop; InWriteMaxData true 5 1].

Definition reader_start : conn_state :=
  conn_start true 1 no_glitch (mk_config 100 100 100 100 100 100 0 0 true) 1000 5 5 5 5 300.

Definition callbacks (log : list conn_event) : list conn_event :=
  filter (fun ev => is_Some (event_stream ev)) log.

Lemma reader_frame sid o d fin :
  0 <= sid < 2 ^ 62 -> 0 <= o <= 1000 -> zlen d <= 1000 -> carries (fun x => x) o d ->
  frame_ok (fun _ x => x) (mk_stream NGTCP2_FRAME_STREAM 0 fin sid o [d] None).
Proof.
  intros Hs Ho Hd Hc. split; [done|]. unfold NGTCP2_MAX_VARINT. split; [cbn; lia|]. exists d. split_and!; [done|lia|by left].
Qed.

Lemma stream_callbacks_protocol_witness :
  exists cs, conn_run reader reader_inputs reader_start = Ok (0, cs) /\
    callbacks (cs_log cs) =
      [CbStreamOpen 0; CbStreamOpen 4; CbRecvStreamData 0 4 0 [0; 1]; CbRecvStreamData 0 0 0 [0; 1; 2];
       CbRecvStreamData 1 0 3 [3; 4]; CbStreamReset 4 10 7] /\
    received_sum (cs_strms cs) = 15 /\ crx_offset (cs_rx cs) = 15 /\ crx_unsent_max_offset (cs_rx cs) = 1015 /\
    ls_next_stream_id (cs_local_uni cs) = 11 /\ ls_next_stream_id (cs_local_bidi cs) = 5 /\
    given (fun x => x) true 0 (cs_log cs) (Receiving 5 true) /\ streams_settled true (fun _ x => x) cs.
Proof.
  destruct (stream_callbacks_protocol reader true (fun _ x => x) 1 no_glitch (mk_config 100 100 100 100 100 100 0 0 true)
    1000 5 5 5 5 300 reader_inputs) as (rv & cs & Hrun & _ & Hset).
  - intros log cb. destruct cb as [sid|flags sid offset data| | | | | |]; cbn; [|destruct (sid =? 4)|..];
      repeat apply Forall_cons_2; try apply Forall_nil_2; try done; apply zlen_nonneg.
  - split; vm_compute; intuition congruence.
  - split; unfold NGTCP2_MAX_VARINT; cbn; lia.
  - unfold NGTCP2_MAX_VARINT. lia.
  - cbn. lia.
  - repeat apply Forall_cons_2; try apply Forall_nil_2; cbn; try done.
    all: split; [done|]; first [lia | apply reader_frame; [lia|lia|vm_compute; congruence|]].
    all: intros i b; do 4 (destruct i as [|i]; cbn; [by intros [= <-]|]); intros [=].
  - cbn. lia.
  - assert (E : match conn_run reader reader_inputs reader_start with
                | Ok (rv, cs) => (rv, callbacks (cs_log cs), received_sum (cs_strms cs), crx_offset (cs_rx cs),
                    crx_unsent_max_offset (cs_rx cs),
                    ls_next_stream_id (cs_local_uni cs), ls_next_stream_id (cs_local_bidi cs),
                    match cs_strms cs !! 0 with Some strm => (strm_flags strm, ngtcp2_strm_rx_offset strm, rx_last_offset strm) | None => (0, 0, 0) end)
                | _ => (1, [], 0, 0, 0, 0, 0, (0, 0, 0)) end =
      (0, [CbStreamOpen 0; CbStreamOpen 4; CbRecvStreamData 0 4 0 [0; 1]; CbRecvStreamData 0 0 0 [0; 1; 2];
       CbRecvStreamData 1 0 3 [3; 4]; CbStreamReset 4 10 7], 15, 15, 1015, 11, 5, (NGTCP2_STRM_FLAG_SHUT_RD, 5, 5))) by (vm_compute; reflexivity).
    unfold reader_start in *. rewrite Hrun in E. injection E as -> E1 E2 E3 E4 E6 E7 E5.
    specialize (Hset eq_refl). exists cs. split; [exact Hrun|]. clear Hrun.
    split; [exact E1|split; [exact E2|split; [exact E3|split; [exact E4|split; [exact E6|split; [exact E7|split; [|exact Hset]]]]]]].
    destruct (cs_strms cs !! 0) as [strm|] eqn:Es; [|discriminate E5].
    injection E5 as F1 F2 F3. pose proof (ss_given _ _ _ Hset 0 strm Es) as Hg. cbn zeta in Hg. rewrite F2 in Hg.
    unfold rx_complete, being_read, stopped, has_flag in Hg. rewrite F1, F3 in Hg. by apply Hg.
Defined.
