(* ===== verification/ConnStat.v ===== *)
(** * Statistics for recovery and congestion control: [lib/ngtcp2_conn_stat.h]

    The members of [ngtcp2_conn_stat] that loss detection and the congestion
    controllers read or write; the others count packets for the application
    or belong to the timers of the connection. *)

From S2P Require Import Prelude Const.
From stdpp Require Import list.
#[local] Open Scope Z_scope.

Definition NGTCP2_PKTNS_ID_INITIAL : Z := 0.
Definition NGTCP2_PKTNS_ID_HANDSHAKE : Z := 1.
Definition NGTCP2_PKTNS_ID_APPLICATION : Z := 2.
Definition NGTCP2_PKTNS_ID_MAX : Z := 3.

Record ngtcp2_conn_stat := mk_cstat {
  latest_rtt : Z;
  min_rtt : Z;
  smoothed_rtt : Z;
  rttvar : Z;
  first_rtt_sample_ts : Z;
  pto_count : Z;
  loss_time : list Z;
  cwnd : Z;
  ssthresh : Z;
  congestion_recovery_start_ts : Z;
  bytes_in_flight : Z;
  max_tx_udp_payload_size : Z;
  delivery_rate_sec : Z;
  pacing_interval_m : Z;
  send_quantum : Z;
  pkt_lost : Z;
  bytes_lost : Z;
  last_tx_pkt_ts : list Z;
  loss_detection_timer : Z;
}.

Implicit Types (cstat : ngtcp2_conn_stat).

Definition set_rtt (latest min smoothed var first_ts : Z) cstat : ngtcp2_conn_stat :=
  mk_cstat latest min smoothed var first_ts (pto_count cstat) (loss_time cstat) (cwnd cstat) (ssthresh cstat)
    (congestion_recovery_start_ts cstat) (bytes_in_flight cstat) (max_tx_udp_payload_size cstat) (delivery_rate_sec cstat)
    (pacing_interval_m cstat) (send_quantum cstat) (pkt_lost cstat) (bytes_lost cstat) (last_tx_pkt_ts cstat) (loss_detection_timer cstat).
Definition set_pto_count (n : Z) cstat : ngtcp2_conn_stat :=
  mk_cstat (latest_rtt cstat) (min_rtt cstat) (smoothed_rtt cstat) (rttvar cstat) (first_rtt_sample_ts cstat) n
    (loss_time cstat) (cwnd cstat) (ssthresh cstat) (congestion_recovery_start_ts cstat) (bytes_in_flight cstat)
    (max_tx_udp_payload_size cstat) (delivery_rate_sec cstat) (pacing_interval_m cstat) (send_quantum cstat)
    (pkt_lost cstat) (bytes_lost cstat) (last_tx_pkt_ts cstat) (loss_detection_timer cstat).
Definition set_loss_time (times : list Z) cstat : ngtcp2_conn_stat :=
  mk_cstat (latest_rtt cstat) (min_rtt cstat) (smoothed_rtt cstat) (rttvar cstat) (first_rtt_sample_ts cstat)
    (pto_count cstat) times (cwnd cstat) (ssthresh cstat) (congestion_recovery_start_ts cstat) (bytes_in_flight cstat)
    (max_tx_udp_payload_size cstat) (delivery_rate_sec cstat) (pacing_interval_m cstat) (send_quantum cstat)
    (pkt_lost cstat) (bytes_lost cstat) (last_tx_pkt_ts cstat) (loss_detection_timer cstat).
Definition set_window (w thresh recovery_start_ts : Z) cstat : ngtcp2_conn_stat :=
  mk_cstat (latest_rtt cstat) (min_rtt cstat) (smoothed_rtt cstat) (rttvar cstat) (first_rtt_sample_ts cstat)
    (pto_count cstat) (loss_time cstat) w thresh recovery_start_ts (bytes_in_flight cstat)
    (max_tx_udp_payload_size cstat) (delivery_rate_sec cstat) (pacing_interval_m cstat) (send_quantum cstat)
    (pkt_lost cstat) (bytes_lost cstat) (last_tx_pkt_ts cstat) (loss_detection_timer cstat).
Definition set_bytes_in_flight (n : Z) cstat : ngtcp2_conn_stat :=
  mk_cstat (latest_rtt cstat) (min_rtt cstat) (smoothed_rtt cstat) (rttvar cstat) (first_rtt_sample_ts cstat)
    (pto_count cstat) (loss_time cstat) (cwnd cstat) (ssthresh cstat) (congestion_recovery_start_ts cstat) n
    (max_tx_udp_payload_size cstat) (delivery_rate_sec cstat) (pacing_interval_m cstat) (send_quantum cstat)
    (pkt_lost cstat) (bytes_lost cstat) (last_tx_pkt_ts cstat) (loss_detection_timer cstat).
Definition set_max_tx_udp_payload_size (n : Z) cstat : ngtcp2_conn_stat :=
  mk_cstat (latest_rtt cstat) (min_rtt cstat) (smoothed_rtt cstat) (rttvar cstat) (first_rtt_sample_ts cstat)
    (pto_count cstat) (loss_time cstat) (cwnd cstat) (ssthresh cstat) (congestion_recovery_start_ts cstat)
    (bytes_in_flight cstat) n (delivery_rate_sec cstat) (pacing_interval_m cstat) (send_quantum cstat)
    (pkt_lost cstat) (bytes_lost cstat) (last_tx_pkt_ts cstat) (loss_detection_timer cstat).
Definition set_delivery_rate (rate : Z) cstat : ngtcp2_conn_stat :=
  mk_cstat (latest_rtt cstat) (min_rtt cstat) (smoothed_rtt cstat) (rttvar cstat) (first_rtt_sample_ts cstat)
    (pto_count cstat) (loss_time cstat) (cwnd cstat) (ssthresh cstat) (congestion_recovery_start_ts cstat)
    (bytes_in_flight cstat) (max_tx_udp_payload_size cstat) rate (pacing_interval_m cstat) (send_quantum cstat)
    (pkt_lost cstat) (bytes_lost cstat) (last_tx_pkt_ts cstat) (loss_detection_timer cstat).
Definition set_pacing (interval_m quantum : Z) cstat : ngtcp2_conn_stat :=
  mk_cstat (latest_rtt cstat) (min_rtt cstat) (smoothed_rtt cstat) (rttvar cstat) (first_rtt_sample_ts cstat)
    (pto_count cstat) (loss_time cstat) (cwnd cstat) (ssthresh cstat) (congestion_recovery_start_ts cstat)
    (bytes_in_flight cstat) (max_tx_udp_payload_size cstat) (delivery_rate_sec cstat) interval_m quantum
    (pkt_lost cstat) (bytes_lost cstat) (last_tx_pkt_ts cstat) (loss_detection_timer cstat).
Definition set_lost (pkts bytes : Z) cstat : ngtcp2_conn_stat :=
  mk_cstat (latest_rtt cstat) (min_rtt cstat) (smoothed_rtt cstat) (rttvar cstat) (first_rtt_sample_ts cstat)
    (pto_count cstat) (loss_time cstat) (cwnd cstat) (ssthresh cstat) (congestion_recovery_start_ts cstat)
    (bytes_in_flight cstat) (max_tx_udp_payload_size cstat) (delivery_rate_sec cstat) (pacing_interval_m cstat)
    (send_quantum cstat) pkts bytes (last_tx_pkt_ts cstat) (loss_detection_timer cstat).

Definition set_timers (times : list Z) (timer : Z) cstat : ngtcp2_conn_stat :=
  mk_cstat (latest_rtt cstat) (min_rtt cstat) (smoothed_rtt cstat) (rttvar cstat) (first_rtt_sample_ts cstat)
    (pto_count cstat) (loss_time cstat) (cwnd cstat) (ssthresh cstat) (congestion_recovery_start_ts cstat)
    (bytes_in_flight cstat) (max_tx_udp_payload_size cstat) (delivery_rate_sec cstat) (pacing_interval_m cstat)
    (send_quantum cstat) (pkt_lost cstat) (bytes_lost cstat) times timer.

(** [cwnd], [ssthresh] and [congestion_recovery_start_ts] on their own. *)
Definition set_cwnd (w : Z) cstat : ngtcp2_conn_stat := set_window w (ssthresh cstat) (congestion_recovery_start_ts cstat) cstat.
Definition set_ssthresh (n : Z) cstat : ngtcp2_conn_stat := set_window (cwnd cstat) n (congestion_recovery_start_ts cstat) cstat.
Definition set_recovery_start (ts : Z) cstat : ngtcp2_conn_stat := set_window (cwnd cstat) (ssthresh cstat) ts cstat.

(** Everything but the window and the pacing is the same. *)
Definition same_recovery cstat cstat' : Prop :=
  exists w thresh start interval_m quantum, cstat' = set_pacing interval_m quantum (set_window w thresh start cstat).

Lemma same_recovery_refl cstat : same_recovery cstat cstat.
Proof.
  exists (cwnd cstat), (ssthresh cstat), (congestion_recovery_start_ts cstat), (pacing_interval_m cstat), (send_quantum cstat).
  by destruct cstat.
Qed.

Lemma same_recovery_trans a b c : same_recovery a b -> same_recovery b c -> same_recovery a c.
Proof. intros (w & t & s & i & q & ->) (w' & t' & s' & i' & q' & ->). by exists w', t', s', i', q'. Qed.

#[export] Instance same_recovery_preorder : PreOrder same_recovery.
Proof. split; [intros ?; apply same_recovery_refl|intros ???; apply same_recovery_trans]. Qed.

Lemma same_set_window w thresh start cstat : same_recovery cstat (set_window w thresh start cstat).
Proof. exists w, thresh, start, (pacing_interval_m cstat), (send_quantum cstat). by destruct cstat. Qed.

Lemma same_set_pacing interval_m quantum cstat : same_recovery cstat (set_pacing interval_m quantum cstat).
Proof.
  exists (cwnd cstat), (ssthresh cstat), (congestion_recovery_start_ts cstat), interval_m, quantum. by destruct cstat.
Qed.

#[export] Hint Resolve same_recovery_refl same_set_window same_set_pacing : cstat.
