(* ===== verification/Rst.v ===== *)
(** * Delivery rate estimation: [lib/ngtcp2_rst.c]

    The rate sampler of a connection, and the entry of a packet that was sent
    ([lib/ngtcp2_rtb.h]), in which the sampler keeps its state at the time the
    packet was sent. *)

From S2P Require Import Prelude Const ConnStat.
From stdpp Require Import list.
#[local] Open Scope Z_scope.

Record ngtcp2_rs := mk_rs {
  rs_interval : Z;
  rs_delivered : Z;
  rs_prior_delivered : Z;
  rs_prior_ts : Z;
  rs_tx_in_flight : Z;
  rs_lost : Z;
  rs_send_elapsed : Z;
  rs_ack_elapsed : Z;
  rs_last_acked_pkt_id : Z;
  rs_is_app_limited : bool;
}.

Record ngtcp2_rst := mk_rst {
  rst_rs : ngtcp2_rs;
  rst_delivered : Z;
  rst_delivered_ts : Z;
  rst_first_sent_ts : Z;
  rst_app_limited : Z;
  rst_lost : Z;
  rst_pkt_id : Z;
  rst_is_cwnd_limited : bool;
}.

(** [ent->rst] *)
Record entry_rst := mk_ent_rst {
  er_delivered : Z;
  er_delivered_ts : Z;
  er_first_sent_ts : Z;
  er_tx_in_flight : Z;
  er_lost : Z;
  er_pkt_id : Z;
  er_is_app_limited : bool;
}.

(** [F]: the frames of a packet.  [ent_hd_flags]: the flags of its header. *)
Record ngtcp2_rtb_entry (F : Type) := mk_rtb_ent {
  ent_pkt_num : Z;
  ent_type : Z;
  ent_hd_flags : Z;
  ent_frc : list F;
  ent_ts : Z;
  ent_lost_ts : Z;
  ent_pktlen : Z;
  ent_rst : entry_rst;
  ent_flags : Z;
}.
Arguments mk_rtb_ent {F}.
Arguments ent_pkt_num {F}.
Arguments ent_type {F}.
Arguments ent_hd_flags {F}.
Arguments ent_frc {F}.
Arguments ent_ts {F}.
Arguments ent_lost_ts {F}.
Arguments ent_pktlen {F}.
Arguments ent_rst {F}.
Arguments ent_flags {F}.

Implicit Types (rs : ngtcp2_rs) (rst : ngtcp2_rst) (cstat : ngtcp2_conn_stat).

Definition ngtcp2_rs_init : ngtcp2_rs := mk_rs UINT64_MAX 0 0 UINT64_MAX 0 0 0 0 (-1) false.

Definition ngtcp2_rst_reset rst : ngtcp2_rst := mk_rst ngtcp2_rs_init 0 0 0 0 0 (rst_pkt_id rst) false.

Definition ngtcp2_rst_init : ngtcp2_rst := mk_rst ngtcp2_rs_init 0 0 0 0 0 (-1) false.

Definition set_rs rs rst : ngtcp2_rst :=
  mk_rst rs (rst_delivered rst) (rst_delivered_ts rst) (rst_first_sent_ts rst) (rst_app_limited rst) (rst_lost rst)
    (rst_pkt_id rst) (rst_is_cwnd_limited rst).
Definition set_cwnd_limited (b : bool) rst : ngtcp2_rst :=
  mk_rst (rst_rs rst) (rst_delivered rst) (rst_delivered_ts rst) (rst_first_sent_ts rst) (rst_app_limited rst)
    (rst_lost rst) (rst_pkt_id rst) b.
Definition set_rst_lost (n : Z) rst : ngtcp2_rst :=
  mk_rst (rst_rs rst) (rst_delivered rst) (rst_delivered_ts rst) (rst_first_sent_ts rst) (rst_app_limited rst)
    n (rst_pkt_id rst) (rst_is_cwnd_limited rst).

Definition ngtcp2_rst_reset_rate_sample rst cstat : ngtcp2_rst * ngtcp2_conn_stat :=
  let rs := rst_rs rst in
  (set_rs (mk_rs UINT64_MAX (rs_delivered rs) (rs_prior_delivered rs) UINT64_MAX (rs_tx_in_flight rs) (rs_lost rs)
             (rs_send_elapsed rs) (rs_ack_elapsed rs) (rs_last_acked_pkt_id rs) (rs_is_app_limited rs)) rst,
   set_delivery_rate 0 cstat).

Section Entries.
Context {F : Type}.
Implicit Types (ent : ngtcp2_rtb_entry F).

Definition set_ent_rst (er : entry_rst) ent : ngtcp2_rtb_entry F :=
  mk_rtb_ent (ent_pkt_num ent) (ent_type ent) (ent_hd_flags ent) (ent_frc ent) (ent_ts ent) (ent_lost_ts ent)
    (ent_pktlen ent) er (ent_flags ent).

Definition ngtcp2_rst_on_pkt_sent rst ent cstat : ngtcp2_rst * ngtcp2_rtb_entry F :=
  let none_in_flight := bytes_in_flight cstat =? ent_pktlen ent in
  let first_sent_ts := if none_in_flight then ent_ts ent else rst_first_sent_ts rst in
  let delivered_ts := if none_in_flight then ent_ts ent else rst_delivered_ts rst in
  let pkt_id := rst_pkt_id rst + 1 in
  (mk_rst (rst_rs rst) (rst_delivered rst) delivered_ts first_sent_ts (rst_app_limited rst) (rst_lost rst) pkt_id
     (rst_is_cwnd_limited rst),
   set_ent_rst (mk_ent_rst (rst_delivered rst) delivered_ts first_sent_ts (bytes_in_flight cstat) (rst_lost rst) pkt_id
     (negb (rst_app_limited rst =? 0))) ent).

Definition ngtcp2_rst_update_app_limited rst cstat : ngtcp2_rst := rst.

Definition ngtcp2_rst_on_ack_recv rst cstat : ngtcp2_rst * ngtcp2_conn_stat :=
  let app_limited :=
    if negb (rst_app_limited rst =? 0) && (rst_app_limited rst <? rst_delivered rst) then 0 else rst_app_limited rst in
  let rst := mk_rst (rst_rs rst) (rst_delivered rst) (rst_delivered_ts rst) (rst_first_sent_ts rst) app_limited
    (rst_lost rst) (rst_pkt_id rst) (rst_is_cwnd_limited rst) in
  let rs := rst_rs rst in
  if rs_prior_ts rs =? UINT64_MAX then (rst, cstat) else
  let rs := mk_rs (Z.max (rs_send_elapsed rs) (rs_ack_elapsed rs)) (u64 (rst_delivered rst - rs_prior_delivered rs))
    (rs_prior_delivered rs) (rs_prior_ts rs) (rs_tx_in_flight rs) (rs_lost rs) (rs_send_elapsed rs) (rs_ack_elapsed rs)
    (rs_last_acked_pkt_id rs) (rs_is_app_limited rs) in
  let rst := set_rs rs rst in
  if rs_interval rs <? min_rtt cstat then (rst, cstat) else
  if rs_interval rs =? 0 then (rst, cstat) else
  (rst, set_delivery_rate (u64 (rs_delivered rs * NGTCP2_SECONDS) / rs_interval rs) cstat).

Definition is_newest_pkt ent rs : bool := rs_last_acked_pkt_id rs <? er_pkt_id (ent_rst ent).

Definition ngtcp2_rst_update_rate_sample rst ent (ts : Z) : ngtcp2_rst :=
  let rs := rst_rs rst in
  let er := ent_rst ent in
  let delivered := u64 (rst_delivered rst + ent_pktlen ent) in
  if (rs_prior_ts rs =? UINT64_MAX) || is_newest_pkt ent rs then
    mk_rst (mk_rs (rs_interval rs) (rs_delivered rs) (er_delivered er) (er_delivered_ts er) (rs_tx_in_flight rs) (rs_lost rs)
        (u64 (ent_ts ent - er_first_sent_ts er)) (u64 (ts - er_delivered_ts er)) (er_pkt_id er) (er_is_app_limited er))
      delivered ts (ent_ts ent) (rst_app_limited rst) (rst_lost rst) (rst_pkt_id rst) (rst_is_cwnd_limited rst)
  else
    mk_rst rs delivered ts (rst_first_sent_ts rst) (rst_app_limited rst) (rst_lost rst) (rst_pkt_id rst) (rst_is_cwnd_limited rst).
End Entries.
