(* ===== verification/Cc.v ===== *)
(** * Congestion control: [lib/ngtcp2_cc.c]

    The interface that loss detection calls, and two controllers behind it:
    Reno and CUBIC with HyStart++.  Both compute in 64-bit integers. *)

From S2P Require Import Prelude Const ConnStat Rst.
From stdpp Require Import list.
#[local] Open Scope Z_scope.

Implicit Types (cstat : ngtcp2_conn_stat) (rst : ngtcp2_rst) (ts : Z).

Record ngtcp2_cc_pkt := mk_cc_pkt {
  pk_pkt_num : Z;
  pk_pktlen : Z;
  pk_pktns_id : Z;
  pk_sent_ts : Z;
  pk_lost : Z;
  pk_tx_in_flight : Z;
  pk_is_app_limited : bool;
}.

Record ngtcp2_cc_ack := mk_cc_ack {
  ca_bytes_delivered : Z;
  ca_bytes_lost : Z;
  ca_pkt_delivered : Z;
  ca_largest_pkt_sent_ts : Z;
  ca_rtt : Z;
}.

(** ** The interface *)

(** [S]: the state of a controller.  A callback changes it, the statistics of
    the connection, and the rate sampler. *)
Definition cc_result (S : Type) : Type := res (S * ngtcp2_conn_stat * ngtcp2_rst).
Definition cc_callback (S A : Type) : Type := S -> ngtcp2_conn_stat -> ngtcp2_rst -> A -> Z -> cc_result S.

Record ngtcp2_cc (S : Type) := mk_cc {
  on_pkt_acked : option (cc_callback S ngtcp2_cc_pkt);
  on_pkt_lost : option (cc_callback S ngtcp2_cc_pkt);
  congestion_event : option (cc_callback S (Z * ngtcp2_cc_ack));
  on_spurious_congestion : option (cc_callback S unit);
  on_persistent_congestion : option (cc_callback S unit);
  on_ack_recv : option (cc_callback S ngtcp2_cc_ack);
  on_pkt_sent : option (cc_callback S ngtcp2_cc_pkt);
  cc_reset : option (cc_callback S unit);
}.
Arguments mk_cc {S}.
Arguments on_pkt_acked {S}.
Arguments on_pkt_lost {S}.
Arguments congestion_event {S}.
Arguments on_spurious_congestion {S}.
Arguments on_persistent_congestion {S}.
Arguments on_ack_recv {S}.
Arguments on_pkt_sent {S}.
Arguments cc_reset {S}.

(** [if (cc->f) { cc->f(cc, cstat, a, ts); }] *)
Definition cc_call {S A} (f : option (cc_callback S A)) (s : S) cstat rst (a : A) ts : cc_result S :=
  match f with Some f => f s cstat rst a ts | None => Ok (s, cstat, rst) end.

(** ** Pacing *)
Definition div64 (a b : Z) : res Z := if b =? 0 then Fault else Ok (a / b).

Definition ngtcp2_cc_compute_initcwnd (max_udp_payload_size : Z) : Z :=
  Z.min (10 * max_udp_payload_size) (Z.max (2 * max_udp_payload_size) 14720).

Definition NGTCP2_CC_PACING_GAIN_H : Z := 125.

Definition init_pacing_rate cstat : res ngtcp2_conn_stat :=
  assert! negb (cwnd cstat =? 0);
  Ok (set_pacing (Z.max (Z.shiftl NGTCP2_MILLISECONDS 10 * 100 / NGTCP2_CC_PACING_GAIN_H / cwnd cstat) 1)
        (u64 (10 * max_tx_udp_payload_size cstat)) cstat).

Definition set_pacing_rate cstat : res ngtcp2_conn_stat :=
  assert! negb (cwnd cstat =? 0);
  let rtt := if first_rtt_sample_ts cstat =? UINT64_MAX then NGTCP2_MILLISECONDS else smoothed_rtt cstat in
  let interval_m := Z.max (u64 (u64 (Z.shiftl rtt 10) * 100) / NGTCP2_CC_PACING_GAIN_H / cwnd cstat) 1 in
  let quantum := Z.min (64 * 1024) (Z.shiftl NGTCP2_MILLISECONDS 10 / interval_m) in
  Ok (set_pacing interval_m (Z.max quantum (u64 (10 * max_tx_udp_payload_size cstat))) cstat).

Definition in_congestion_recovery cstat (sent_time : Z) : bool :=
  negb (congestion_recovery_start_ts cstat =? UINT64_MAX) && (sent_time <=? congestion_recovery_start_ts cstat).

(** ** Reno *)
Definition NGTCP2_LOSS_REDUCTION_FACTOR_BITS : Z := 1.

Record ngtcp2_cc_reno := mk_reno { pending_add : Z }.
Implicit Types (reno : ngtcp2_cc_reno) (pkt : ngtcp2_cc_pkt) (ack : ngtcp2_cc_ack).

Definition reno_cc_reset cstat : res (ngtcp2_cc_reno * ngtcp2_conn_stat) :=
  let* cstat := init_pacing_rate cstat in Ok (mk_reno 0, cstat).

Definition ngtcp2_cc_reno_cc_on_pkt_acked reno cstat rst pkt ts : cc_result ngtcp2_cc_reno :=
  if in_congestion_recovery cstat (pk_sent_ts pkt) || pk_is_app_limited pkt then Ok (reno, cstat, rst) else
  if cwnd cstat <? ssthresh cstat then
    let* cstat := set_pacing_rate (set_cwnd (u64 (cwnd cstat + pk_pktlen pkt)) cstat) in
    Ok (reno, cstat, rst)
  else
    let m := u64 (u64 (max_tx_udp_payload_size cstat * pk_pktlen pkt) + pending_add reno) in
    let* n := div64 m (cwnd cstat) in
    let reno := mk_reno (m mod cwnd cstat) in
    let* cstat := set_pacing_rate (set_cwnd (u64 (cwnd cstat + n)) cstat) in
    Ok (reno, cstat, rst).

Definition ngtcp2_cc_reno_cc_congestion_event reno cstat rst (sent_ack : Z * ngtcp2_cc_ack) ts : cc_result ngtcp2_cc_reno :=
  let (sent_ts, _) := sent_ack in
  if in_congestion_recovery cstat sent_ts then Ok (reno, cstat, rst) else
  let w := Z.max (Z.shiftr (cwnd cstat) NGTCP2_LOSS_REDUCTION_FACTOR_BITS) (u64 (2 * max_tx_udp_payload_size cstat)) in
  let* cstat := set_pacing_rate (set_window w w ts cstat) in
  Ok (mk_reno 0, cstat, rst).

Definition ngtcp2_cc_reno_cc_on_persistent_congestion reno cstat rst (_ : unit) ts : cc_result ngtcp2_cc_reno :=
  let* cstat := set_pacing_rate (set_window (u64 (2 * max_tx_udp_payload_size cstat)) (ssthresh cstat) UINT64_MAX cstat) in
  Ok (reno, cstat, rst).

Definition ngtcp2_cc_reno_cc_reset reno cstat rst (_ : unit) ts : cc_result ngtcp2_cc_reno :=
  let* (reno, cstat) := reno_cc_reset cstat in Ok (reno, cstat, rst).

Definition reno_cc : ngtcp2_cc ngtcp2_cc_reno :=
  mk_cc (Some ngtcp2_cc_reno_cc_on_pkt_acked) None (Some ngtcp2_cc_reno_cc_congestion_event) None
    (Some ngtcp2_cc_reno_cc_on_persistent_congestion) None None (Some ngtcp2_cc_reno_cc_reset).

Definition ngtcp2_cc_reno_init cstat : res (ngtcp2_cc_reno * ngtcp2_conn_stat) := reno_cc_reset cstat.

(** ** CUBIC *)
Record ngtcp2_cubic_vars := mk_cubic_vars {
  cwnd_prior : Z;
  w_max : Z;
  k_m : Z;
  epoch_start : Z;
  w_est : Z;
  app_limited_start_ts : Z;
  app_limited_duration : Z;
  pending_bytes_acked : Z;
  pending_est_bytes_acked : Z;
}.

(** The variables of HyStart++. *)
Record cubic_hs := mk_hs {
  current_round_min_rtt : Z;
  last_round_min_rtt : Z;
  curr_rtt : Z;
  rtt_sample_count : Z;
  css_baseline_min_rtt : Z;
  css_round : Z;
}.

Record ngtcp2_cc_cubic := mk_cubic {
  cu_current : ngtcp2_cubic_vars;
  undo_v : ngtcp2_cubic_vars;
  undo_cwnd : Z;
  undo_ssthresh : Z;
  cu_hs : cubic_hs;
  next_round_delivered : Z;
}.
Implicit Types (cubic : ngtcp2_cc_cubic) (v : ngtcp2_cubic_vars) (hs : cubic_hs).

Definition set_current v cubic : ngtcp2_cc_cubic :=
  mk_cubic v (undo_v cubic) (undo_cwnd cubic) (undo_ssthresh cubic) (cu_hs cubic) (next_round_delivered cubic).
Definition set_undo v (w thresh : Z) cubic : ngtcp2_cc_cubic :=
  mk_cubic (cu_current cubic) v w thresh (cu_hs cubic) (next_round_delivered cubic).
Definition set_hs hs cubic : ngtcp2_cc_cubic :=
  mk_cubic (cu_current cubic) (undo_v cubic) (undo_cwnd cubic) (undo_ssthresh cubic) hs (next_round_delivered cubic).
Definition set_next_round_delivered (n : Z) cubic : ngtcp2_cc_cubic :=
  mk_cubic (cu_current cubic) (undo_v cubic) (undo_cwnd cubic) (undo_ssthresh cubic) (cu_hs cubic) n.

Definition cubic_vars_reset : ngtcp2_cubic_vars := mk_cubic_vars 0 0 0 UINT64_MAX 0 UINT64_MAX 0 0 0.

Definition cubic_reset_state : ngtcp2_cc_cubic :=
  mk_cubic cubic_vars_reset cubic_vars_reset 0 0 (mk_hs UINT64_MAX UINT64_MAX UINT64_MAX 0 UINT64_MAX 0) 0.

Definition cubic_cc_reset cstat : res (ngtcp2_cc_cubic * ngtcp2_conn_stat) :=
  let* cstat := init_pacing_rate cstat in Ok (cubic_reset_state, cstat).

(** [if ((n >> s) >= b)], for one bit of the root. *)
Definition cbrt_step (s y n : Z) : Z * Z :=
  let y := u64 (Z.shiftl y 1) in
  let b := u64 (u64 (3 * y * (y + 1)) + 1) in
  if b <=? Z.shiftr n s then (u64 (y + 1), u64 (n - u64 (Z.shiftl b s))) else (y, n).

(** [k]: [s / 3]. *)
Fixpoint cbrt_loop (k : nat) (y n : Z) : Z * Z :=
  match k with
  | O => (y, n)
  | S k' => let (y, n) := cbrt_step (3 * Z.of_nat k) y n in cbrt_loop k' y n
  end.

Definition ngtcp2_cbrt (n : Z) : Z :=
  let (y, n) := cbrt_loop 21 0 n in fst (cbrt_step 0 y n).

Definition NGTCP2_HS_MIN_RTT_THRESH : Z := 4 * NGTCP2_MILLISECONDS.
Definition NGTCP2_HS_MAX_RTT_THRESH : Z := 16 * NGTCP2_MILLISECONDS.
Definition NGTCP2_HS_MIN_RTT_DIVISOR : Z := 8.
Definition NGTCP2_HS_N_RTT_SAMPLE : Z := 8.
Definition NGTCP2_HS_CSS_GROWTH_DIVISOR : Z := 4.
Definition NGTCP2_HS_CSS_ROUNDS : Z := 5.

Definition cubic_cc_compute_w_cubic v cstat ts : Z :=
  let t := u64 (ts - epoch_start v) in
  let tx_m := u64 (Z.shiftl t 10) / NGTCP2_SECONDS in
  let neg := tx_m <? k_m v in
  let time_delta_m := Z.min (if neg then k_m v - tx_m else tx_m - k_m v) (Z.shiftl 3600 10) in
  let cube := Z.shiftr (u64 (Z.shiftr (u64 (time_delta_m * time_delta_m)) 10 * time_delta_m)) 10 in
  let delta := Z.shiftr (u64 (u64 (cube * max_tx_udp_payload_size cstat) * 4) / 10) 10 in
  if neg then if w_max v <? delta then 0 else w_max v - delta else u64 (w_max v + delta).

(** Slow start: HyStart++ looks at the round trip times. *)
Definition hystart_round hs (round_start : bool) (rtt : Z) : cubic_hs :=
  let hs :=
    if round_start then
      mk_hs UINT64_MAX (current_round_min_rtt hs) (curr_rtt hs) 0 (css_baseline_min_rtt hs)
        (if css_round hs =? 0 then 0 else u64 (css_round hs + 1))
    else hs in
  mk_hs (Z.min (current_round_min_rtt hs) rtt) (last_round_min_rtt hs) (curr_rtt hs) (u64 (rtt_sample_count hs + 1))
    (css_baseline_min_rtt hs) (css_round hs).

Definition hystart_enter_css hs : cubic_hs :=
  if (NGTCP2_HS_N_RTT_SAMPLE <=? rtt_sample_count hs) && negb (current_round_min_rtt hs =? UINT64_MAX) &&
     negb (last_round_min_rtt hs =? UINT64_MAX) then
    let rtt_thresh := Z.max NGTCP2_HS_MIN_RTT_THRESH
      (Z.min (last_round_min_rtt hs / NGTCP2_HS_MIN_RTT_DIVISOR) NGTCP2_HS_MAX_RTT_THRESH) in
    if u64 (last_round_min_rtt hs + rtt_thresh) <=? current_round_min_rtt hs then
      mk_hs (current_round_min_rtt hs) (last_round_min_rtt hs) (curr_rtt hs) (rtt_sample_count hs) (current_round_min_rtt hs) 1
    else hs
  else hs.

Definition cubic_slow_start cubic cstat (round_start is_app_limited : bool) ack ts : res (ngtcp2_cc_cubic * ngtcp2_conn_stat) :=
  let* cstat :=
    if is_app_limited then Ok cstat else
    let n := if css_round (cu_hs cubic) =? 0 then ca_bytes_delivered ack
      else ca_bytes_delivered ack / NGTCP2_HS_CSS_GROWTH_DIVISOR in
    set_pacing_rate (set_cwnd (u64 (cwnd cstat + n)) cstat) in
  let hs := hystart_round (cu_hs cubic) round_start (ca_rtt ack) in
  if negb (css_round hs =? 0) then
    if current_round_min_rtt hs <? css_baseline_min_rtt hs then
      Ok (set_hs (mk_hs (current_round_min_rtt hs) (last_round_min_rtt hs) (curr_rtt hs) (rtt_sample_count hs) UINT64_MAX 0) cubic, cstat)
    else if NGTCP2_HS_CSS_ROUNDS <=? css_round hs then
      let v := cu_current cubic in
      Ok (set_current (mk_cubic_vars (cwnd cstat) (cwnd cstat) (k_m v) ts (cwnd cstat) (app_limited_start_ts v)
            (app_limited_duration v) (pending_bytes_acked v) (pending_est_bytes_acked v)) (set_hs hs cubic),
          set_ssthresh (cwnd cstat) cstat)
    else Ok (set_hs hs cubic, cstat)
  else Ok (set_hs (hystart_enter_css hs) cubic, cstat).

(** [app_limited_start_ts] and [app_limited_duration] *)
Definition set_app_limited (start_ts duration : Z) v : ngtcp2_cubic_vars :=
  mk_cubic_vars (cwnd_prior v) (w_max v) (k_m v) (epoch_start v) (w_est v) start_ts duration
    (pending_bytes_acked v) (pending_est_bytes_acked v).

Definition cubic_target cstat (w_cubic_next : Z) : Z :=
  if w_cubic_next <? cwnd cstat then cwnd cstat
  else if u64 (3 * cwnd cstat) <? u64 (2 * w_cubic_next) then u64 (cwnd cstat * 3) / 2
  else w_cubic_next.

(** Congestion avoidance.  Both counters of pending bytes are remainders. *)
Definition cubic_avoidance cubic cstat (is_app_limited : bool) ack ts : res (ngtcp2_cc_cubic * ngtcp2_conn_stat) :=
  let v := cu_current cubic in
  if is_app_limited then
    Ok (if app_limited_start_ts v =? UINT64_MAX then set_current (set_app_limited ts (app_limited_duration v) v) cubic else cubic,
        cstat)
  else
  let v := if app_limited_start_ts v =? UINT64_MAX then v
    else set_app_limited UINT64_MAX (u64 (app_limited_duration v + u64 (ts - app_limited_start_ts v))) v in
  let t := u64 (ts - app_limited_duration v) in
  let w_cubic := cubic_cc_compute_w_cubic v cstat t in
  let w_cubic_next := cubic_cc_compute_w_cubic v cstat (u64 (t + smoothed_rtt cstat)) in
  let target := cubic_target cstat w_cubic_next in
  let bytes_acked := u64 (ca_bytes_delivered ack * max_tx_udp_payload_size cstat) in
  let* m := div64 (u64 (bytes_acked + pending_est_bytes_acked v)) (cwnd cstat) in
  let pending_est := u64 (u64 (pending_est_bytes_acked v + bytes_acked) - u64 (m * cwnd cstat)) in
  assert! pending_est <? cwnd cstat;
  let west := u64 (w_est v + (if w_est v <? cwnd_prior v then u64 (m * 9) / 17 else m)) in
  let* (w, pending) :=
    if w_cubic <? west then Ok (west, pending_bytes_acked v) else
    let bytes_acked := u64 (u64 (target - cwnd cstat) * max_tx_udp_payload_size cstat) in
    let* m := div64 (u64 (bytes_acked + pending_bytes_acked v)) (cwnd cstat) in
    let pending := u64 (u64 (pending_bytes_acked v + bytes_acked) - u64 (m * cwnd cstat)) in
    assert! pending <? cwnd cstat;
    Ok (u64 (cwnd cstat + m), pending) in
  let v := mk_cubic_vars (cwnd_prior v) (w_max v) (k_m v) (epoch_start v) west (app_limited_start_ts v)
    (app_limited_duration v) pending pending_est in
  let* cstat := set_pacing_rate (set_cwnd w cstat) in
  Ok (set_current v cubic, cstat).

Definition ngtcp2_cc_cubic_cc_on_ack_recv cubic cstat rst ack ts : cc_result ngtcp2_cc_cubic :=
  let is_app_limited := rs_is_app_limited (rst_rs rst) && negb (rst_is_cwnd_limited rst) in
  if (ca_bytes_delivered ack =? 0) || in_congestion_recovery cstat (ca_largest_pkt_sent_ts ack) then Ok (cubic, cstat, rst) else
  let round_start := next_round_delivered cubic <=? ca_pkt_delivered ack in
  let cubic := if round_start then set_next_round_delivered (rst_delivered rst) cubic else cubic in
  let rst := if round_start then set_cwnd_limited false rst else rst in
  let* (cubic, cstat) :=
    if cwnd cstat <? ssthresh cstat then cubic_slow_start cubic cstat round_start is_app_limited ack ts
    else cubic_avoidance cubic cstat is_app_limited ack ts in
  Ok (cubic, cstat, rst).

Definition ngtcp2_cc_cubic_cc_congestion_event cubic cstat rst (sent_ack : Z * ngtcp2_cc_ack) ts : cc_result ngtcp2_cc_cubic :=
  let (sent_ts, ack) := sent_ack in
  if in_congestion_recovery cstat sent_ts then Ok (cubic, cstat, rst) else
  let cubic := if undo_cwnd cubic <? cwnd cstat then set_undo (cu_current cubic) (cwnd cstat) (ssthresh cstat) cubic else cubic in
  let v := cu_current cubic in
  let min_cwnd := u64 (2 * max_tx_udp_payload_size cstat) in
  let wmax := Z.max (if cwnd cstat <? w_max v then u64 (cwnd cstat * 17) / 20 else cwnd cstat) min_cwnd in
  let thresh := u64 (cwnd cstat * 7) / 10 in
  let delivered := rs_delivered (rst_rs rst) in
  let thresh :=
    if u64 (delivered * 2) <? cwnd cstat then
      Z.min thresh (Z.max delivered (u64 (bytes_in_flight cstat + ca_bytes_lost ack)))
    else thresh in
  let thresh := Z.max thresh min_cwnd in
  assert! thresh <=? wmax;
  let cwnd_delta := wmax - thresh in
  let* n := div64 (u64 (u64 (Z.shiftl cwnd_delta 30) * 10) / 4) (max_tx_udp_payload_size cstat) in
  let v := mk_cubic_vars (cwnd cstat) wmax (ngtcp2_cbrt n) ts thresh UINT64_MAX 0 0 0 in
  let* cstat := set_pacing_rate (set_window thresh thresh ts cstat) in
  Ok (set_current v cubic, cstat, rst).

Definition ngtcp2_cc_cubic_cc_on_spurious_congestion cubic cstat rst (_ : unit) ts : cc_result ngtcp2_cc_cubic :=
  let cstat := set_recovery_start UINT64_MAX cstat in
  let* (cubic, cstat) :=
    if cwnd cstat <? undo_cwnd cubic then
      let* cstat := set_pacing_rate (set_window (undo_cwnd cubic) (undo_ssthresh cubic) (congestion_recovery_start_ts cstat) cstat) in
      Ok (set_current (undo_v cubic) cubic, cstat)
    else Ok (cubic, cstat) in
  Ok (set_undo cubic_vars_reset 0 0 cubic, cstat, rst).

Definition ngtcp2_cc_cubic_cc_on_persistent_congestion cubic cstat rst (_ : unit) ts : cc_result ngtcp2_cc_cubic :=
  let* (cubic, cstat) := cubic_cc_reset cstat in
  let* cstat := set_pacing_rate (set_window (u64 (2 * max_tx_udp_payload_size cstat)) (ssthresh cstat) UINT64_MAX cstat) in
  Ok (cubic, cstat, rst).

Definition ngtcp2_cc_cubic_cc_reset cubic cstat rst (_ : unit) ts : cc_result ngtcp2_cc_cubic :=
  let* (cubic, cstat) := cubic_cc_reset cstat in Ok (cubic, cstat, rst).

Definition cubic_cc : ngtcp2_cc ngtcp2_cc_cubic :=
  mk_cc None None (Some ngtcp2_cc_cubic_cc_congestion_event) (Some ngtcp2_cc_cubic_cc_on_spurious_congestion)
    (Some ngtcp2_cc_cubic_cc_on_persistent_congestion) (Some ngtcp2_cc_cubic_cc_on_ack_recv) None
    (Some ngtcp2_cc_cubic_cc_reset).

Definition ngtcp2_cc_cubic_init cstat : res (ngtcp2_cc_cubic * ngtcp2_conn_stat) := cubic_cc_reset cstat.
