(* ===== verification/CcCbrt.v ===== *)
(** * The cube root of CUBIC

    [ngtcp2_cbrt] finds one bit of the root after the other; it returns the
    integer cube root of every 64-bit number. *)

From S2P Require Import Prelude Const ConnStat Rst Cc.
#[local] Open Scope Z_scope.

(** The root found so far, [y], and the rest [n] of [N]. *)
Record cbrt_rep (N s y n : Z) : Prop := {
  cr_root : 0 <= y /\ 2 ^ s * y ^ 3 <= N < 2 ^ s * (y + 1) ^ 3;
  cr_rest : n = N - 2 ^ s * y ^ 3;
}.

Lemma cbrt_root_bound (N s y : Z) : 0 <= N < 2 ^ 64 -> 0 <= s -> 0 <= y -> 2 ^ s * y ^ 3 <= N -> y < 2 ^ 22.
Proof.
  intros HN Hs Hy H. destruct (Z.lt_ge_cases y (2 ^ 22)) as [?|Hge]; [done|].
  assert (1 <= 2 ^ s) by (apply (Z.pow_le_mono_r 2 0); lia).
  assert ((2 ^ 22) ^ 3 <= y ^ 3) by (apply Z.pow_le_mono_l; lia). nia.
Qed.

Lemma cbrt_step_ok (N s y n : Z) :
  0 <= N < 2 ^ 64 -> 0 <= s -> cbrt_rep N (s + 3) y n ->
  let (y', n') := cbrt_step s y n in cbrt_rep N s y' n'.
Proof.
  intros HN Hs [[Hy [H1 H2]] ->]. unfold cbrt_step. rewrite Z.shiftl_mul_pow2 by lia.
  assert (Hp : 2 ^ (s + 3) = 8 * 2 ^ s) by (rewrite Z.pow_add_r by lia; lia).
  assert (H0 : 1 <= 2 ^ s) by (apply (Z.pow_le_mono_r 2 0); lia). rewrite Hp in *.
  assert (Hlow : 2 ^ s * (2 * y) ^ 3 <= N) by (replace ((2 * y) ^ 3) with (8 * y ^ 3) by ring; lia).
  pose proof (cbrt_root_bound N s (2 * y) HN Hs ltac:(lia) Hlow) as Hb.
  rewrite (u64_small (y * 2 ^ 1)) by (unfold is_u64; lia). replace (y * 2 ^ 1) with (2 * y) by lia.
  rewrite (u64_small (3 * (2 * y) * (2 * y + 1))) by (unfold is_u64; nia).
  rewrite u64_small by (unfold is_u64; nia). set (b := 3 * (2 * y) * (2 * y + 1) + 1).
  assert (Hb3 : (2 * y + 1) ^ 3 = (2 * y) ^ 3 + b) by (unfold b; ring).
  assert (Hup : N < 2 ^ s * (2 * y + 2) ^ 3) by (replace ((2 * y + 2) ^ 3) with (8 * (y + 1) ^ 3) by ring; lia).
  set (n := N - 8 * 2 ^ s * y ^ 3). assert (Hn : n = N - 2 ^ s * (2 * y) ^ 3) by (unfold n; ring).
  rewrite Z.shiftr_div_pow2, Z.shiftl_mul_pow2 by lia.
  assert (Hyp : 0 <= 2 ^ s * (2 * y) ^ 3) by (apply Z.mul_nonneg_nonneg; [lia|apply Z.pow_nonneg; lia]).
  destruct (Z.leb_spec b (n / 2 ^ s)) as [Hle|Hgt].
  - assert (Hbn : b * 2 ^ s <= n) by (pose proof (Z.mul_div_le n (2 ^ s) ltac:(lia)); pose proof (Z.mul_le_mono_nonneg_r b _ (2 ^ s) ltac:(lia) Hle); lia).
    assert (Hb0 : 0 <= b * 2 ^ s) by (apply Z.mul_nonneg_nonneg; [unfold b; nia|lia]).
    clearbody b n. rewrite (u64_small (2 * y + 1)), (u64_small (b * 2 ^ s)), u64_small by (unfold is_u64; lia).
    split; [split; [lia|]; split|].
    + rewrite Hb3. lia.
    + replace (2 * y + 1 + 1) with (2 * y + 2) by lia. done.
    + rewrite Hb3. lia.
  - assert (Hbn : n < b * 2 ^ s).
    { apply Z.lt_nge. intros Hc. apply Z.lt_nge in Hgt. apply Hgt, Z.div_le_lower_bound; lia. }
    split; [split; [lia|]; split; [done|]|done]. rewrite Hb3. lia.
Qed.

Lemma cbrt_loop_ok (k : nat) : forall N y n, 0 <= N < 2 ^ 64 -> cbrt_rep N (3 * Z.of_nat k + 3) y n ->
  let (y', n') := cbrt_loop k y n in cbrt_rep N 3 y' n'.
Proof.
  induction k as [|k IH]; intros N y n HN Hr; [done|]. cbn [cbrt_loop].
  pose proof (cbrt_step_ok N (3 * Z.of_nat (S k)) y n HN ltac:(lia) Hr) as Hs.
  destruct (cbrt_step _ y n) as [y' n']. apply IH; [done|]. by replace (3 * Z.of_nat k + 3) with (3 * Z.of_nat (S k)) by lia.
Qed.

(** C40. [ngtcp2_cbrt] returns the integer cube root of every 64-bit number,
    although it computes in 64-bit integers. *)
Theorem cbrt_floor (n : Z) : 0 <= n < 2 ^ 64 -> 0 <= ngtcp2_cbrt n /\ ngtcp2_cbrt n ^ 3 <= n < (ngtcp2_cbrt n + 1) ^ 3.
Proof.
  intros Hn. unfold ngtcp2_cbrt. assert (H0 : cbrt_rep n (3 * Z.of_nat 21 + 3) 0 n).
  { split; [|cbn; lia]. split; [lia|]. split; [cbn; lia|]. change (n < 2 ^ 66 * 1). lia. }
  pose proof (cbrt_loop_ok 21 n 0 n Hn H0) as H1. destruct (cbrt_loop 21 0 n) as [y r].
  pose proof (cbrt_step_ok n 0 y r Hn ltac:(lia) H1) as H2. destruct (cbrt_step 0 y r) as [y' r'].
  destruct H2 as [[? ?] _]. cbn [fst]. split; [done|]. lia.
Qed.

Lemma cbrt_floor_witness : 0 <= 2 ^ 63 < 2 ^ 64 /\ ngtcp2_cbrt (2 ^ 63) = 2 ^ 21 /\ ngtcp2_cbrt (2 ^ 63 - 1) = 2 ^ 21 - 1 /\
  (0 <= ngtcp2_cbrt (2 ^ 63) /\ ngtcp2_cbrt (2 ^ 63) ^ 3 <= 2 ^ 63 < (ngtcp2_cbrt (2 ^ 63) + 1) ^ 3).
Proof. split; [lia|]. split; [by vm_compute|]. split; [by vm_compute|]. apply (cbrt_floor (2 ^ 63)). lia. Defined.
