(* ===== verification/CcSpec.v ===== *)
(** * Congestion control: no overflow, no assertion, bounds of the window

    What loss detection relies on, as a class, and that both controllers
    provide it: a callback never fails, changes nothing but the window and the
    pacing, and the window keeps its lower bound and grows by a bounded
    amount. *)

From S2P Require Import Prelude Const ConnStat Rst Cc.
From stdpp Require Import list.
#[local] Open Scope Z_scope.

Implicit Types (cstat c : ngtcp2_conn_stat) (rst : ngtcp2_rst) (ts : Z) (pkt : ngtcp2_cc_pkt) (ack : ngtcp2_cc_ack).

(** No window is larger than this. *)
Definition CC_LIMIT : Z := 2 ^ 47.
Definition MIN_PAYLOAD : Z := 1200.

(** A window of at least [lo] bytes grows by at most this much when [bytes]
    are acknowledged in packets of at most [mss] bytes. *)
Definition growth (mss lo bytes : Z) : Z := Z.max bytes (bytes * mss / lo) + mss.

(** Only what the rate sampler knows about the sender may change. *)
Definition same_rst rst rst' : Prop := rst' = rst \/ rst' = set_cwnd_limited false rst.

(** What every controller provides.  [inv]: its invariant, with the bound of
    the windows. *)
Class CcLaws {S : Type} (cc : ngtcp2_cc S) (mss lo : Z) (inv : Z -> S -> ngtcp2_conn_stat -> Prop) : Prop := {
  cl_mono hi hi' s c : hi <= hi' <= CC_LIMIT -> inv hi s c -> inv hi' s c;
  cl_stat hi s c c' : inv hi s c -> cwnd c' = cwnd c -> ssthresh c' = ssthresh c ->
    max_tx_udp_payload_size c' = max_tx_udp_payload_size c -> inv hi s c';
  cl_window hi s c : inv hi s c -> lo <= cwnd c <= hi /\ hi <= CC_LIMIT;
  cl_payload hi s c n : inv hi s c -> MIN_PAYLOAD <= n <= mss -> inv hi s (set_max_tx_udp_payload_size n c);
  cl_pkt_acked hi s c rst pkt ts : inv hi s c -> 0 <= pk_pktlen pkt -> hi + growth mss lo (pk_pktlen pkt) <= CC_LIMIT ->
    exists s' c' rst', cc_call (on_pkt_acked cc) s c rst pkt ts = Ok (s', c', rst') /\ same_recovery c c' /\ same_rst rst rst' /\
      inv (hi + growth mss lo (pk_pktlen pkt)) s' c';
  cl_pkt_lost hi s c rst pkt ts : inv hi s c ->
    exists s' c' rst', cc_call (on_pkt_lost cc) s c rst pkt ts = Ok (s', c', rst') /\ same_recovery c c' /\ same_rst rst rst' /\
      inv hi s' c';
  cl_congestion hi s c rst sent_ts ack ts : inv hi s c ->
    exists s' c' rst', cc_call (congestion_event cc) s c rst (sent_ts, ack) ts = Ok (s', c', rst') /\ same_recovery c c' /\
      same_rst rst rst' /\ inv hi s' c';
  cl_spurious hi s c rst ts : inv hi s c ->
    exists s' c' rst', cc_call (on_spurious_congestion cc) s c rst tt ts = Ok (s', c', rst') /\ same_recovery c c' /\
      same_rst rst rst' /\ inv hi s' c';
  cl_persistent hi s c rst ts : inv hi s c -> lo = 1 ->
    exists s' c' rst', cc_call (on_persistent_congestion cc) s c rst tt ts = Ok (s', c', rst') /\ same_recovery c c' /\
      same_rst rst rst' /\ inv hi s' c';
  cl_ack_recv hi s c rst ack ts : inv hi s c -> 0 <= ca_bytes_delivered ack -> hi + growth mss lo (ca_bytes_delivered ack) <= CC_LIMIT ->
    exists s' c' rst', cc_call (on_ack_recv cc) s c rst ack ts = Ok (s', c', rst') /\ same_recovery c c' /\ same_rst rst rst' /\
      inv (hi + growth mss lo (ca_bytes_delivered ack)) s' c';
  cl_pkt_sent hi s c rst pkt ts : inv hi s c ->
    exists s' c' rst', cc_call (on_pkt_sent cc) s c rst pkt ts = Ok (s', c', rst') /\ same_recovery c c' /\ same_rst rst rst' /\
      inv hi s' c';
  cl_reset hi s c rst ts : inv hi s c ->
    let c0 := set_window (ngtcp2_cc_compute_initcwnd (max_tx_udp_payload_size c)) UINT64_MAX UINT64_MAX c in
    exists s' c' rst', cc_call (cc_reset cc) s c0 rst tt ts = Ok (s', c', rst') /\ same_recovery c c' /\ same_rst rst rst' /\
      inv hi s' c';
}.

(** ** Common lemmas *)
Lemma set_pacing_rate_run c : 1 <= cwnd c -> exists i q, set_pacing_rate c = Ok (set_pacing i q c).
Proof. intros H. unfold set_pacing_rate. rewrite (proj2 (Z.eqb_neq _ _)) by lia. cbn [negb]. by do 2 eexists. Qed.

Lemma init_pacing_rate_run c : 1 <= cwnd c -> exists i q, init_pacing_rate c = Ok (set_pacing i q c).
Proof. intros H. unfold init_pacing_rate. rewrite (proj2 (Z.eqb_neq _ _)) by lia. cbn [negb]. by do 2 eexists. Qed.

(** The initial window of RFC 9002, 7.2, for packets of [n] bytes. *)
Definition initial_window (n : Z) : Z := Z.min (10 * n) (Z.max (2 * n) 14720).

Lemma initcwnd_eq n : ngtcp2_cc_compute_initcwnd n = initial_window n.
Proof. unfold ngtcp2_cc_compute_initcwnd, initial_window. lia. Qed.

Lemma initcwnd_range mss n : MIN_PAYLOAD <= n <= mss -> 2 * n <= ngtcp2_cc_compute_initcwnd n <= initial_window mss.
Proof. rewrite initcwnd_eq. unfold initial_window, MIN_PAYLOAD. lia. Qed.

(** The part of every invariant that is about the window.  The congestion
    window cannot fall below two packets of the smallest size, unless [lo] is
    1; its upper bound [hi] is at least the initial window of the largest
    packets. *)
Record window_ok (mss lo hi : Z) c : Prop := {
  wo_mss : MIN_PAYLOAD <= max_tx_udp_payload_size c <= mss /\ mss <= 65535;
  wo_lo : lo = 1 \/ lo = 2 * MIN_PAYLOAD;
  wo_hi : (2 * mss <= hi <= CC_LIMIT) /\ initial_window mss <= hi;
  wo_cwnd : lo <= cwnd c <= hi;
}.

Lemma window_ext mss lo hi c c' :
  window_ok mss lo hi c -> cwnd c' = cwnd c -> max_tx_udp_payload_size c' = max_tx_udp_payload_size c -> window_ok mss lo hi c'.
Proof. intros [] E1 E2. split; rewrite ?E1, ?E2; done. Qed.

Lemma window_mono mss lo hi hi' c : hi <= hi' <= CC_LIMIT -> window_ok mss lo hi c -> window_ok mss lo hi' c.
Proof. intros ? []. split; try done; lia. Qed.

Lemma window_set mss lo hi c w thresh start :
  window_ok mss lo hi c -> lo <= w <= hi -> window_ok mss lo hi (set_window w thresh start c).
Proof. intros [] ?. by split. Qed.

Lemma window_reset mss lo hi c start :
  window_ok mss lo hi c -> window_ok mss lo hi (set_window (ngtcp2_cc_compute_initcwnd (max_tx_udp_payload_size c)) UINT64_MAX start c).
Proof.
  intros [Hm Hl Hh Hw]. pose proof (initcwnd_range mss (max_tx_udp_payload_size c) (proj1 Hm)). unfold MIN_PAYLOAD in *.
  split; cbn; try done. lia.
Qed.

Lemma growth_pos mss lo bytes : 0 <= bytes -> 0 < lo -> 0 <= mss -> mss <= growth mss lo bytes.
Proof. intros. unfold growth. lia. Qed.

(** What additive increase adds. *)
Lemma increase_bound mss lo w n bytes :
  0 < lo <= w -> 0 <= n <= mss -> 0 <= bytes -> bytes * n / w <= bytes * mss / lo.
Proof.
  intros Hw Hn Hb. transitivity (bytes * mss / w); [apply Z.div_le_mono; nia|]. apply Z.div_le_compat_l; nia.
Qed.

(** A remainder that was kept adds little, even when it was computed with
    another window. *)
Lemma pending_bound w hi pending : 0 < w <= hi -> 0 <= pending <= hi -> w + pending / w <= hi + 1.
Proof.
  intros Hw Hp. assert (pending / w <= hi / w) by (apply Z.div_le_mono; lia).
  assert (hi / w < hi - w + 2); [|lia]. apply Z.div_lt_upper_bound; [lia|]. nia.
Qed.

Lemma div_add_bound a b w : 0 < w -> (a + b) / w <= a / w + b / w + 1.
Proof.
  intros Hw. pose proof (Z.div_mod a w ltac:(lia)). pose proof (Z.div_mod b w ltac:(lia)).
  pose proof (Z.mod_pos_bound a w Hw). pose proof (Z.mod_pos_bound b w Hw).
  apply Z.lt_succ_r. apply Z.div_lt_upper_bound; nia.
Qed.

(** How much can be acknowledged without an overflow. *)
Lemma bytes_bound mss lo hi bytes n :
  0 <= bytes -> lo = 1 \/ lo = 2 * MIN_PAYLOAD -> 0 <= n <= mss -> mss <= 65535 -> 0 <= hi -> hi + growth mss lo bytes <= CC_LIMIT ->
  0 <= bytes * n < 2 ^ 59.
Proof.
  unfold growth, CC_LIMIT, MIN_PAYLOAD. intros Hb Hlo Hn Hm Hh Hg. assert (Hd : bytes * mss / lo < 2 ^ 47 + 1) by lia.
  assert (bytes * mss < lo * (2 ^ 47 + 1)); [|nia]. apply Z.lt_nge. intros Hge.
  assert (2 ^ 47 + 1 <= bytes * mss / lo) by (apply Z.div_le_lower_bound; lia). lia.
Qed.

(** ** Reno *)
Section Reno.
Context (mss lo : Z).

Record reno_inv (hi : Z) (reno : ngtcp2_cc_reno) c : Prop := {
  ri_window : window_ok mss lo hi c;
  ri_pending : 0 <= pending_add reno <= hi;
}.

Lemma reno_acked hi reno c rst pkt ts :
  reno_inv hi reno c -> 0 <= pk_pktlen pkt -> hi + growth mss lo (pk_pktlen pkt) <= CC_LIMIT ->
  exists s' c' rst', ngtcp2_cc_reno_cc_on_pkt_acked reno c rst pkt ts = Ok (s', c', rst') /\ same_recovery c c' /\ same_rst rst rst' /\
    reno_inv (hi + growth mss lo (pk_pktlen pkt)) s' c'.
Proof.
  intros [Hw Hp] Hl Hg. pose proof Hw as [[Hm1 Hm2] Hlo Hhi Hc]. unfold ngtcp2_cc_reno_cc_on_pkt_acked, MIN_PAYLOAD in *. set (bytes := pk_pktlen pkt) in *.
  assert (Hl0 : 0 < lo) by (unfold MIN_PAYLOAD in *; lia).
  pose proof (growth_pos mss lo bytes Hl Hl0 ltac:(unfold MIN_PAYLOAD in *; lia)) as Hgp.
  pose proof (bytes_bound mss lo hi bytes (max_tx_udp_payload_size c) Hl Hlo ltac:(unfold MIN_PAYLOAD in *; lia) Hm2 ltac:(lia) Hg) as Hb.
  assert (Hsame : exists s' c' rst', Ok (reno, c, rst) = Ok (s', c', rst') /\ same_recovery c c' /\ same_rst rst rst' /\
    reno_inv (hi + growth mss lo bytes) s' c').
  { do 3 eexists. split; [done|]. split; [apply same_recovery_refl|]. split; [by left|]. unfold MIN_PAYLOAD in *.
    split; [eapply window_mono; [|exact Hw]; lia|lia]. }
  destruct (_ || _); [exact Hsame|]. clear Hsame.
  assert (Hdone : forall w r, lo <= w <= hi + growth mss lo bytes -> 0 <= r <= hi -> exists s' c' rst',
    (let* cstat := set_pacing_rate (set_cwnd w c) in Ok (mk_reno r, cstat, rst)) = Ok (s', c', rst') /\
    same_recovery c c' /\ same_rst rst rst' /\ reno_inv (hi + growth mss lo bytes) s' c').
  { intros w r Hw' Hr. destruct (set_pacing_rate_run (set_cwnd w c)) as (i & q & ->); [cbn; lia|]. cbn [bind].
    do 3 eexists. split; [done|]. split; [by etransitivity; [apply same_set_window|apply same_set_pacing]|]. split; [by left|].
    unfold MIN_PAYLOAD in *. split; [|cbn; lia]. eapply window_ext; [apply (window_set _ _ _ c w 0 0)| |]; [|done|done|done].
    eapply window_mono; [|exact Hw]. lia. }
  unfold CC_LIMIT in *. destruct (cwnd c <? ssthresh c).
  - rewrite u64_small by (unfold is_u64, growth in *; lia). destruct reno as [r]. apply Hdone; [unfold growth; lia|done].
  - rewrite (Z.mul_comm (max_tx_udp_payload_size c)). rewrite (u64_small (bytes * _)) by (unfold is_u64; lia).
    rewrite (u64_small (_ + pending_add reno)) by (unfold is_u64; lia). unfold div64. rewrite (proj2 (Z.eqb_neq _ _)) by lia. cbn [bind].
    pose proof (div_add_bound (bytes * max_tx_udp_payload_size c) (pending_add reno) (cwnd c) ltac:(lia)) as H1.
    pose proof (increase_bound mss lo (cwnd c) (max_tx_udp_payload_size c) bytes ltac:(lia) ltac:(unfold MIN_PAYLOAD in *; lia) Hl) as H2.
    pose proof (pending_bound (cwnd c) hi (pending_add reno) ltac:(lia) Hp) as H3.
    assert (H4 : 0 <= (bytes * max_tx_udp_payload_size c + pending_add reno) / cwnd c) by (apply Z.div_pos; lia).
    pose proof (Z.mod_pos_bound (bytes * max_tx_udp_payload_size c + pending_add reno) (cwnd c) ltac:(lia)) as H5.
    unfold MIN_PAYLOAD in *. rewrite u64_small by (unfold is_u64, growth in *; lia). apply Hdone; [unfold growth; lia|lia].
Qed.

Lemma reno_set_window hi reno c rst w thresh start r :
  reno_inv hi reno c -> lo <= w <= hi -> 0 <= r <= hi -> exists s' c' rst',
    (let* cstat := set_pacing_rate (set_window w thresh start c) in Ok (mk_reno r, cstat, rst)) = Ok (s', c', rst') /\
    same_recovery c c' /\ same_rst rst rst' /\ reno_inv hi s' c'.
Proof.
  intros [Hw Hp] Hr Hr'. pose proof Hw as [_ Hlo Hhi _]. unfold MIN_PAYLOAD in *.
  destruct (set_pacing_rate_run (set_window w thresh start c)) as (i & q & ->); [cbn; lia|]. cbn [bind].
  do 3 eexists. split; [done|]. split; [by etransitivity; [apply same_set_window|apply same_set_pacing]|]. split; [by left|].
  split; [|done]. eapply window_ext; [apply (window_set _ _ _ c w thresh start Hw)| |]; done.
Qed.

Lemma reno_congestion hi reno c rst sent_ack ts :
  reno_inv hi reno c -> exists s' c' rst', ngtcp2_cc_reno_cc_congestion_event reno c rst sent_ack ts = Ok (s', c', rst') /\
    same_recovery c c' /\ same_rst rst rst' /\ reno_inv hi s' c'.
Proof.
  intros Hinv. pose proof Hinv as [[[Hm1 Hm2] Hlo Hhi Hc] Hp]. unfold MIN_PAYLOAD, CC_LIMIT in *. destruct sent_ack as [sent_ts ack].
  unfold ngtcp2_cc_reno_cc_congestion_event. destruct (in_congestion_recovery _ _).
  { do 3 eexists. split; [done|]. split; [apply same_recovery_refl|]. split; [by left|done]. }
  change NGTCP2_LOSS_REDUCTION_FACTOR_BITS with 1. rewrite Z.shiftr_div_pow2 by lia. change (2 ^ 1) with 2.
  rewrite u64_small by (unfold is_u64; lia). eapply reno_set_window; [exact Hinv| |lia]. split; [lia|].
  assert (cwnd c / 2 <= cwnd c) by (apply Z.div_le_upper_bound; lia). lia.
Qed.

#[export] Instance reno_laws : CcLaws reno_cc mss lo reno_inv.
Proof.
  assert (Hsame : forall hi s c rst, reno_inv hi s c -> exists s' c' rst', Ok (s, c, rst) = Ok (s', c', rst') /\
    same_recovery c c' /\ same_rst rst rst' /\ reno_inv hi s' c').
  { intros. do 3 eexists. split; [done|]. split; [apply same_recovery_refl|]. split; [by left|done]. }
  split; cbn [cc_call reno_cc on_pkt_acked on_pkt_lost congestion_event on_spurious_congestion on_persistent_congestion on_ack_recv
    on_pkt_sent cc_reset]; try (intros; by apply Hsame).
  - intros hi hi' s c Hh [Hw Hp]. split; [by eapply window_mono|lia].
  - intros hi s c c' [Hw Hp] E1 E2 E3. split; [by eapply window_ext|done].
  - intros hi s c [[] _]. lia.
  - intros hi s c n [[? ? ? ?] Hp] Hn. split; [|done]. split; cbn; try done. lia.
  - intros. by apply reno_acked.
  - intros. by apply reno_congestion.
  - intros hi [r] c rst ts Hinv _. pose proof Hinv as [[[Hm1 Hm2] Hlo Hhi Hc] Hp]. unfold MIN_PAYLOAD, CC_LIMIT in *.
    unfold ngtcp2_cc_reno_cc_on_persistent_congestion. rewrite u64_small by (unfold is_u64; lia). eapply reno_set_window; [exact Hinv|lia|done].
  - intros hi s c rst ack ts [Hw Hp] Hb Hg. pose proof Hw as [[? ?] ? ? ?]. unfold MIN_PAYLOAD in *.
    pose proof (growth_pos mss lo (ca_bytes_delivered ack) Hb ltac:(lia) ltac:(lia)). apply Hsame. split; [|lia].
    eapply window_mono; [|exact Hw]. lia.
  - intros hi s c rst ts [Hw Hp]. set (c0 := set_window _ _ _ c). unfold ngtcp2_cc_reno_cc_reset, reno_cc_reset.
    pose proof (window_reset mss lo hi c UINT64_MAX Hw) as Hw0. fold c0 in Hw0. pose proof Hw0 as [[Hm1 Hm2] Hlo Hhi Hc]. unfold MIN_PAYLOAD in *.
    destruct (init_pacing_rate_run c0) as (i & q & ->); [lia|]. cbn [bind]. do 3 eexists. split; [done|].
    split; [by etransitivity; [apply same_set_window|apply same_set_pacing]|]. split; [by left|]. split; [|cbn; lia].
    by eapply window_ext; [exact Hw0| |].
Qed.
End Reno.
