(* ===== verification/CcCubic.v ===== *)
(** * CUBIC: no overflow, no assertion, bounds of the window

    The invariant of the controller and of the state it keeps to undo a
    congestion event, and that every callback keeps it. *)

From S2P Require Import Prelude Const ConnStat Rst Cc CcSpec.
From stdpp Require Import list.
#[local] Open Scope Z_scope.

Implicit Types (cstat c : ngtcp2_conn_stat) (rst : ngtcp2_rst) (ts : Z) (pkt : ngtcp2_cc_pkt) (ack : ngtcp2_cc_ack)
  (v : ngtcp2_cubic_vars) (cubic : ngtcp2_cc_cubic).

(** ** The cubic function *)
Lemma w_cubic_range v c ts : 0 <= w_max v < 2 ^ 60 -> 0 <= cubic_cc_compute_w_cubic v c ts < 2 ^ 62.
Proof.
  intros Hw. unfold cubic_cc_compute_w_cubic. set (x := u64 (u64 (_ * max_tx_udp_payload_size c) * 4)).
  assert (Hx : 0 <= x < 2 ^ 64) by apply u64_range. clearbody x.
  assert (Hd : 0 <= Z.shiftr (x / 10) 10 < 2 ^ 60).
  { rewrite Z.shiftr_div_pow2 by lia. split; [apply Z.div_pos; [apply Z.div_pos|]; lia|].
    apply Z.div_lt_upper_bound; [lia|]. apply Z.div_lt_upper_bound; lia. }
  destruct (_ <? k_m v); [destruct (Z.ltb_spec (w_max v) (Z.shiftr (x / 10) 10)); lia|]. rewrite u64_small by (unfold is_u64; lia). lia.
Qed.

Lemma target_range c w_next : 0 <= cwnd c < 2 ^ 60 -> 0 <= w_next < 2 ^ 62 -> cwnd c <= cubic_target c w_next /\ 2 * cubic_target c w_next <= 3 * cwnd c.
Proof.
  intros Hc Hw. unfold cubic_target. rewrite !u64_small by (unfold is_u64; lia).
  destruct (Z.ltb_spec w_next (cwnd c)); [lia|]. destruct (Z.ltb_spec (3 * cwnd c) (2 * w_next)); [|lia].
  split; [apply Z.div_le_lower_bound; lia|]. pose proof (Z.mul_div_le (cwnd c * 3) 2). lia.
Qed.

(** ** The invariant *)

(** The variables together with the window they belong to. *)
Record vars_ok (lo hi w thresh : Z) v : Prop := {
  vo_max : 0 <= w_max v <= hi;
  vo_est : 0 <= w_est v <= hi;
  vo_pending : 0 <= pending_bytes_acked v <= hi /\ 0 <= pending_est_bytes_acked v <= hi;
  vo_sum : w_est v + pending_est_bytes_acked v / w <= hi + 1;
  vo_floor : thresh = UINT64_MAX \/ lo = 1 \/ lo <= thresh <= w_est v;
}.

Record cubic_inv (mss lo hi : Z) (cubic : ngtcp2_cc_cubic) c : Prop := {
  ci_window : window_ok mss lo hi c;
  ci_current : vars_ok lo hi (cwnd c) (ssthresh c) (cu_current cubic);
  ci_undo : undo_cwnd cubic = 0 \/
    lo <= undo_cwnd cubic <= hi /\ vars_ok lo hi (undo_cwnd cubic) (undo_ssthresh cubic) (undo_v cubic);
}.

Section Cubic.
Context (mss lo : Z).
#[local] Abbreviation window_ok := (window_ok mss lo).
#[local] Abbreviation cubic_inv := (cubic_inv mss lo).
#[local] Abbreviation growth := (growth mss lo).

Lemma vars_mono hi hi' w thresh v : hi <= hi' -> vars_ok lo hi w thresh v -> vars_ok lo hi' w thresh v.
Proof. intros ? []. split; try done; lia. Qed.

(** A larger window for the same variables. *)
Lemma vars_grow hi w w' thresh v : 0 < w <= w' -> vars_ok lo hi w thresh v -> vars_ok lo hi w' thresh v.
Proof.
  intros ? []. split; try done.
  assert (pending_est_bytes_acked v / w' <= pending_est_bytes_acked v / w) by (apply Z.div_le_compat_l; lia). lia.
Qed.

Lemma vars_reset_ok hi w thresh : 0 <= hi -> thresh = UINT64_MAX \/ lo = 1 -> vars_ok lo hi w thresh cubic_vars_reset.
Proof. intros Hh Ht. split; cbn; rewrite ?Zdiv_0_l; first [lia|tauto]. Qed.

Lemma cubic_mono hi hi' cubic c : hi <= hi' <= CC_LIMIT -> cubic_inv hi cubic c -> cubic_inv hi' cubic c.
Proof.
  intros Hh [Hw Hv Hu]. split; [by eapply window_mono|eapply vars_mono; [|done]; lia|].
  destruct Hu as [?|[? ?]]; [by left|right]. split; [lia|]. eapply vars_mono; [|done]. lia.
Qed.

Lemma cubic_lo hi cubic c : cubic_inv hi cubic c -> 0 < lo <= cwnd c /\ cwnd c <= hi <= 2 ^ 47 /\ 0 < mss <= 65535.
Proof. intros [[[Hm1 Hm2] Hlo Hhi Hc] _ _]. unfold MIN_PAYLOAD, CC_LIMIT in *. lia. Qed.

(** The last step of most callbacks. *)
Definition cubic_done (hi : Z) c rst (r : cc_result ngtcp2_cc_cubic) : Prop :=
  exists s' c' rst', r = Ok (s', c', rst') /\ same_recovery c c' /\ same_rst rst rst' /\ cubic_inv hi s' c'.

Lemma cubic_done_intro hi s c c' rst rst' :
  same_recovery c c' -> same_rst rst rst' -> cubic_inv hi s c' -> cubic_done hi c rst (Ok (s, c', rst')).
Proof. intros. by exists s, c', rst'. Qed.

Lemma cubic_ext hi s c c' : cubic_inv hi s c -> cwnd c' = cwnd c -> ssthresh c' = ssthresh c ->
  max_tx_udp_payload_size c' = max_tx_udp_payload_size c -> cubic_inv hi s c'.
Proof. intros [? ? ?] E1 E2 E3. split; [by eapply window_ext|by rewrite E1, E2|done]. Qed.

(** ** Slow start *)
Lemma slow_start_ok hi cubic c round_start app_limited ack ts :
  cubic_inv hi cubic c -> 0 <= ca_bytes_delivered ack -> hi + growth (ca_bytes_delivered ack) <= CC_LIMIT ->
  exists cubic' c', cubic_slow_start cubic c round_start app_limited ack ts = Ok (cubic', c') /\ same_recovery c c' /\
    cubic_inv (hi + growth (ca_bytes_delivered ack)) cubic' c'.
Proof.
  intros Hinv Hb Hg. destruct (cubic_lo _ _ _ Hinv) as (Hl & Hc & Hm). unfold cubic_slow_start. set (bytes := ca_bytes_delivered ack) in *.
  pose proof (growth_pos mss lo bytes Hb ltac:(lia) ltac:(lia)) as Hgp. unfold CC_LIMIT in *. set (hi' := hi + growth bytes) in *.
  assert (Hwin : exists c', (if app_limited then Ok c else
      set_pacing_rate (set_cwnd (u64 (cwnd c + (if css_round (cu_hs cubic) =? 0 then bytes else bytes / NGTCP2_HS_CSS_GROWTH_DIVISOR))) c))
      = Ok c' /\ same_recovery c c' /\ cubic_inv hi' cubic c' /\ lo <= cwnd c' <= hi').
  { pose proof (cubic_mono hi hi' cubic c ltac:(unfold CC_LIMIT; lia) Hinv) as Hinv'. destruct app_limited.
    { exists c. split; [done|]. split; [apply same_recovery_refl|]. split; [done|]. lia. }
    set (n := if css_round (cu_hs cubic) =? 0 then bytes else _). assert (Hn : 0 <= n <= bytes).
    { unfold n. destruct (_ =? 0); [lia|]. change NGTCP2_HS_CSS_GROWTH_DIVISOR with 4. split; [apply Z.div_pos; lia|].
      apply Z.div_le_upper_bound; lia. }
    clearbody n. unfold CcSpec.growth in *. rewrite u64_small by (unfold is_u64; lia).
    destruct (set_pacing_rate_run (set_cwnd (cwnd c + n) c)) as (i & q & ->); [cbn; lia|]. eexists. split; [done|].
    split; [by etransitivity; [apply same_set_window|apply same_set_pacing]|]. split; [|cbn; lia].
    destruct Hinv' as [Hw Hv Hu]. split; [|cbn; eapply vars_grow; [|exact Hv]; lia|done].
    eapply window_ext; [apply (window_set _ _ _ c (cwnd c + n) (ssthresh c) (congestion_recovery_start_ts c) Hw); lia| |]; done. }
  destruct Hwin as (c' & -> & Hsame & Hinv' & Hc'). cbn [bind]. set (hs := hystart_round _ _ _). clearbody hs.
  assert (Hhs : forall hs, cubic_inv hi' (set_hs hs cubic) c') by (intros ?; destruct Hinv'; by split).
  assert (Hkeep : forall hs, exists cubic' c1, Ok (set_hs hs cubic, c') = Ok (cubic', c1) /\ same_recovery c c1 /\ cubic_inv hi' cubic' c1).
  { intros hs'. do 2 eexists. split; [done|]. split; [done|apply Hhs]. }
  destruct (negb (css_round hs =? 0)); [|apply Hkeep]. destruct (_ <? _); [apply Hkeep|]. destruct (_ <=? _); [|apply Hkeep].
  do 2 eexists. split; [done|]. split; [by etransitivity; [exact Hsame|apply same_set_window]|].
  destruct Hinv' as [Hw Hv Hu]. split; [|cbn|done].
  - apply window_set; [done|lia].
  - destruct Hv as [? ? ? ? ?]. split; cbn; try done; try lia; apply pending_bound; lia.
Qed.

(** ** Congestion avoidance *)
Lemma remainder_step a p w :
  0 <= a < 2 ^ 63 -> 0 <= p < 2 ^ 62 -> 0 < w ->
  u64 (a + p) = a + p /\ u64 (u64 (p + a) - u64 ((a + p) / w * w)) = (a + p) mod w /\ 0 <= (a + p) mod w < w /\
  0 <= (a + p) / w <= a + p /\ (a + p) / w <= a / w + p / w + 1.
Proof.
  intros Ha Hp Hw. pose proof (Z.div_mod (a + p) w ltac:(lia)) as Hdm. pose proof (Z.mod_pos_bound (a + p) w Hw) as Hm.
  pose proof (div_add_bound a p w Hw) as Hd. assert (H0 : 0 <= (a + p) / w) by (apply Z.div_pos; lia).
  assert (Hle : (a + p) / w * 1 <= (a + p) / w * w) by (apply Z.mul_le_mono_nonneg_l; lia).
  set (m := (a + p) / w) in *. set (r := (a + p) mod w) in *. clearbody m r. rewrite (Z.mul_comm w m) in Hdm.
  rewrite (u64_small (a + p)), (u64_small (p + a)), (u64_small (m * w)) by (unfold is_u64; lia).
  rewrite u64_small by (unfold is_u64; lia). split_and!; lia.
Qed.

(** The new window: the estimate for a Reno sender, or a step towards the
    target. *)
Lemma window_step hi c n west target wc pending r hi' :
  0 < cwnd c <= hi -> hi <= 2 ^ 47 -> MIN_PAYLOAD <= n <= 65535 -> cwnd c <= target -> 2 * target <= 3 * cwnd c ->
  0 <= pending <= hi -> 0 <= r < cwnd c -> hi + n <= hi' <= 2 ^ 47 -> lo <= cwnd c -> 0 <= wc -> west <= hi' -> (wc < west -> lo <= west) ->
  exists w pending',
    (let* (w, pending) :=
       if wc <? west then Ok (west, pending) else
       let bytes_acked := u64 (u64 (target - cwnd c) * n) in
       let* m := div64 (u64 (bytes_acked + pending)) (cwnd c) in
       let pending := u64 (u64 (pending + bytes_acked) - u64 (m * cwnd c)) in
       assert! pending <? cwnd c;
       Ok (u64 (cwnd c + m), pending) in Ok (w, pending)) = Ok (w, pending') /\
    lo <= w <= hi' /\ 0 < w /\ 0 <= pending' <= hi' /\ west + r / w <= hi' + 1.
Proof.
  unfold MIN_PAYLOAD. intros Hc Hhi Hn Ht1 Ht2 Hp Hr Hh' Hlo Hwc Hwest Hfl. destruct (Z.ltb_spec wc west) as [Hlt|Hge].
  { exists west, pending. split; [done|]. split; [split; [by apply Hfl|done]|]. split; [lia|]. split; [lia|].
    apply pending_bound; lia. }
  rewrite (u64_small (target - cwnd c)) by (unfold is_u64; lia). set (x := (target - cwnd c) * n).
  assert (Hx : 0 <= x /\ 2 * x <= cwnd c * n) by (unfold x; nia). assert (Hx2 : cwnd c * n < 2 ^ 63) by nia. clearbody x.
  rewrite (u64_small x) by (unfold is_u64; lia).
  destruct (remainder_step x pending (cwnd c)) as (-> & Hrem & Hmod & Hm0 & Hm); [lia|lia|lia|].
  unfold div64. rewrite (proj2 (Z.eqb_neq (cwnd c) 0)) by lia. cbn [bind]. rewrite Hrem, (proj2 (Z.ltb_lt _ (cwnd c))) by lia. cbn [bind].
  pose proof (pending_bound (cwnd c) hi pending ltac:(lia) Hp) as Hpb.
  assert (Hxn : 2 * (x / cwnd c) <= n) by (pose proof (Z.mul_div_le x (cwnd c) ltac:(lia)); nia).
  rewrite u64_small by (unfold is_u64; lia). do 2 eexists. split; [done|]. split; [lia|]. split; [lia|]. split; [lia|].
  rewrite (Z.div_small r) by lia. lia.
Qed.

Lemma est_add_range v m : 0 <= m < 2 ^ 60 -> 0 <= (if w_est v <? cwnd_prior v then u64 (m * 9) / 17 else m) <= m.
Proof.
  intros Hm. destruct (_ <? _); [|lia]. rewrite u64_small by (unfold is_u64; lia).
  split; [apply Z.div_pos; lia|apply Z.div_le_upper_bound; lia].
Qed.

Lemma app_limited_ok hi w thresh v start_ts duration :
  vars_ok lo hi w thresh v -> vars_ok lo hi w thresh (set_app_limited start_ts duration v).
Proof. by intros []. Qed.

Lemma avoidance_ok hi cubic c app_limited ack ts :
  cubic_inv hi cubic c -> ssthresh c <= cwnd c -> 0 <= ca_bytes_delivered ack -> hi + growth (ca_bytes_delivered ack) <= CC_LIMIT ->
  exists cubic' c', cubic_avoidance cubic c app_limited ack ts = Ok (cubic', c') /\ same_recovery c c' /\
    cubic_inv (hi + growth (ca_bytes_delivered ack)) cubic' c'.
Proof.
  intros Hinv Hca Hb Hg. destruct (cubic_lo _ _ _ Hinv) as (Hl & Hc & Hm). unfold cubic_avoidance. set (bytes := ca_bytes_delivered ack) in *.
  pose proof (growth_pos mss lo bytes Hb ltac:(lia) ltac:(lia)) as Hgp. pose proof Hinv as [[[Hm1 Hm2] Hlo Hhi _] Hv Hu].
  pose proof (bytes_bound mss lo hi bytes (max_tx_udp_payload_size c) Hb Hlo ltac:(unfold MIN_PAYLOAD in *; lia) Hm2 ltac:(lia) Hg) as Hbn.
  destruct (cubic_mono hi (hi + growth bytes) cubic c ltac:(lia) Hinv) as [Hw0 Hv0 Hu0]. destruct app_limited.
  { do 2 eexists. split; [done|]. split; [apply same_recovery_refl|]. destruct (_ =? UINT64_MAX); [|by split].
    split; [done| |done]. by apply app_limited_ok. }
  set (v := if app_limited_start_ts _ =? UINT64_MAX then _ else _).
  assert (Hv' : vars_ok lo hi (cwnd c) (ssthresh c) v) by (unfold v; destruct (_ =? UINT64_MAX); [done|by apply app_limited_ok]).
  clearbody v. clear Hv Hv0. destruct Hv' as [Vm Ve [Vp Vpe] Vs Vf]. unfold CC_LIMIT in *. set (t := u64 (ts - _)). clearbody t.
  pose proof (w_cubic_range v c t ltac:(lia)) as Hw1. pose proof (w_cubic_range v c (u64 (t + smoothed_rtt c)) ltac:(lia)) as Hw2.
  destruct (target_range c (cubic_cc_compute_w_cubic v c (u64 (t + smoothed_rtt c))) ltac:(lia) Hw2) as [Ht1 Ht2].
  set (wc := cubic_cc_compute_w_cubic v c t) in *. set (target := cubic_target c _) in *. clearbody wc target.
  rewrite (u64_small (bytes * _)) by (unfold is_u64; lia).
  destruct (remainder_step (bytes * max_tx_udp_payload_size c) (pending_est_bytes_acked v) (cwnd c)) as (-> & Hrem & Hmod & Hm0 & Hmb); [lia|lia|lia|].
  unfold div64 at 1. rewrite (proj2 (Z.eqb_neq (cwnd c) 0)) by lia. cbn [bind]. rewrite Hrem, (proj2 (Z.ltb_lt _ (cwnd c))) by lia.
  pose proof (increase_bound mss lo (cwnd c) (max_tx_udp_payload_size c) bytes ltac:(lia) ltac:(unfold MIN_PAYLOAD in *; lia) Hb) as Hinc.
  set (r := _ mod cwnd c) in *. set (m := (_ + _) / cwnd c) in *. clearbody r m.
  pose proof (est_add_range v m ltac:(lia)) as Hadd. set (add := if w_est v <? cwnd_prior v then _ else m) in *. clearbody add.
  assert (Hest : w_est v + add <= hi + growth bytes) by (unfold CcSpec.growth, MIN_PAYLOAD in *; lia).
  rewrite (u64_small (w_est v + add)) by (unfold is_u64; lia).
  destruct (window_step hi c (max_tx_udp_payload_size c) (w_est v + add) target wc (pending_bytes_acked v) r (hi + growth bytes))
    as (w & pending & Heq & Hw & Hw3 & Hpend & Hsum); try lia.
  { destruct Vf as [Hf|[->|Hf]]; [unfold UINT64_MAX in *; lia|lia|lia]. }
  destruct (if wc <? _ then _ else _) as [[w' p']| |] in Heq |- *; cbn [bind] in *; [|done..]. injection Heq as -> ->.
  destruct (set_pacing_rate_run (set_cwnd w c)) as (i & q & ->); [cbn; lia|]. cbn [bind]. do 2 eexists. split; [done|].
  split; [by etransitivity; [apply same_set_window|apply same_set_pacing]|]. split; [|cbn|done].
  - eapply window_ext; [apply (window_set _ _ _ c w (ssthresh c) (congestion_recovery_start_ts c) Hw0 Hw)| |]; done.
  - split; cbn; [lia|lia|lia|exact Hsum|]. destruct Vf as [?|[?|?]]; [by left|right; by left|right; right; lia].
Qed.
(** ** The callbacks *)
Lemma ack_recv_ok hi cubic c rst ack ts :
  cubic_inv hi cubic c -> 0 <= ca_bytes_delivered ack -> hi + growth (ca_bytes_delivered ack) <= CC_LIMIT ->
  cubic_done (hi + growth (ca_bytes_delivered ack)) c rst (ngtcp2_cc_cubic_cc_on_ack_recv cubic c rst ack ts).
Proof.
  intros Hinv Hb Hg. destruct (cubic_lo _ _ _ Hinv) as (Hl & Hc & Hm). unfold ngtcp2_cc_cubic_cc_on_ack_recv.
  pose proof (growth_pos mss lo (ca_bytes_delivered ack) Hb ltac:(lia) ltac:(lia)) as Hgp. destruct (_ || _).
  { apply cubic_done_intro; [apply same_recovery_refl|by left|]. apply (cubic_mono hi); [lia|done]. }
  set (round_start := next_round_delivered cubic <=? _). set (app_limited := _ && _).
  set (cubic1 := if round_start then set_next_round_delivered _ _ else _). set (rst1 := if round_start then _ else rst).
  assert (Hinv1 : cubic_inv hi cubic1 c) by (unfold cubic1; destruct round_start; [|done]; by destruct Hinv).
  assert (Hrst : same_rst rst rst1) by (unfold rst1; destruct round_start; [by right|by left]). clearbody cubic1 rst1 app_limited round_start.
  destruct (Z.ltb_spec (cwnd c) (ssthresh c)) as [Hlt|Hge].
  - destruct (slow_start_ok hi cubic1 c round_start app_limited ack ts Hinv1 Hb Hg) as (cubic' & c' & -> & ? & ?). by apply cubic_done_intro.
  - destruct (avoidance_ok hi cubic1 c app_limited ack ts Hinv1 Hge Hb Hg) as (cubic' & c' & -> & ? & ?). by apply cubic_done_intro.
Qed.

Lemma congestion_ok hi cubic c rst sent_ack ts :
  cubic_inv hi cubic c -> cubic_done hi c rst (ngtcp2_cc_cubic_cc_congestion_event cubic c rst sent_ack ts).
Proof.
  intros Hinv. pose proof (cubic_lo _ _ _ Hinv) as (Hl & Hc & Hm). pose proof Hinv as [Hw _ _]. pose proof Hw as [[Hm1 Hm2] Hlo Hhi _].
  destruct sent_ack as [sent_ts ack]. unfold ngtcp2_cc_cubic_cc_congestion_event, MIN_PAYLOAD in *.
  destruct (in_congestion_recovery _ _); [apply cubic_done_intro; [apply same_recovery_refl|by left|done]|].
  set (cubic1 := if undo_cwnd cubic <? cwnd c then _ else cubic).
  assert (Hinv1 : cubic_inv hi cubic1 c).
  { unfold cubic1. destruct (_ <? _); [|done]. destruct Hinv as [? Hv _]. split; [done|done|]. right. cbn. split; [lia|done]. }
  clearbody cubic1. clear Hinv. destruct Hinv1 as [_ Hv Hu]. rewrite !(u64_small (2 * _)) by (unfold is_u64; lia).
  rewrite (u64_small (cwnd c * 17)), (u64_small (cwnd c * 7)) by (unfold is_u64; lia).
  set (n := max_tx_udp_payload_size c) in *. set (wm := if cwnd c <? _ then _ else _).
  assert (Hwm : cwnd c * 17 / 20 <= wm <= cwnd c).
  { assert (cwnd c * 17 / 20 <= cwnd c) by (apply Z.div_le_upper_bound; lia). unfold wm. destruct (_ <? _); lia. }
  set (th := if u64 _ <? cwnd c then _ else _). assert (Hth : th <= cwnd c * 7 / 10) by (unfold th; destruct (u64 (_ * 2) <? cwnd c); lia).
  clearbody wm th. assert (H7 : cwnd c * 7 / 10 <= cwnd c * 17 / 20).
  { apply Z.div_le_lower_bound; [lia|]. pose proof (Z.mul_div_le (cwnd c * 7) 10). lia. }
  rewrite (proj2 (Z.leb_le (Z.max th (2 * n)) (Z.max wm (2 * n)))) by lia. unfold div64. rewrite (proj2 (Z.eqb_neq n 0)) by lia. cbn [bind].
  set (thresh := Z.max th (2 * n)). assert (Ht : 2 * 1200 <= thresh <= hi) by (unfold thresh; lia).
  destruct (set_pacing_rate_run (set_window thresh thresh ts c)) as (i & q & ->); [cbn; lia|]. cbn [bind].
  apply cubic_done_intro; [by etransitivity; [apply same_set_window|apply same_set_pacing]|by left|]. split; cbn.
  - eapply window_ext; [apply (window_set _ _ _ c thresh thresh ts Hw); lia| |]; done.
  - split; cbn; rewrite ?Zdiv_0_l; lia.
  - done.
Qed.

Lemma spurious_ok hi cubic c rst ts :
  cubic_inv hi cubic c -> cubic_done hi c rst (ngtcp2_cc_cubic_cc_on_spurious_congestion cubic c rst tt ts).
Proof.
  intros Hinv. pose proof (cubic_lo _ _ _ Hinv) as (Hl & Hc & Hm). destruct Hinv as [Hw Hv Hu].
  unfold ngtcp2_cc_cubic_cc_on_spurious_congestion. destruct (Z.ltb_spec (cwnd (set_recovery_start UINT64_MAX c)) (undo_cwnd cubic)) as [Hlt|Hge].
  - cbn in Hlt. destruct Hu as [Hu|[Hr Hu]]; [lia|].
    destruct (set_pacing_rate_run (set_window (undo_cwnd cubic) (undo_ssthresh cubic) (congestion_recovery_start_ts (set_recovery_start UINT64_MAX c))
      (set_recovery_start UINT64_MAX c))) as (i & q & ->); [cbn; lia|]. cbn [bind]. apply cubic_done_intro; [|by left|].
    + etransitivity; [apply same_set_window|]. etransitivity; [apply same_set_window|apply same_set_pacing].
    + split; [|done|by left]. eapply window_ext; [apply (window_set _ _ _ c (undo_cwnd cubic) 0 0 Hw); lia| |]; done.
  - cbn [bind]. apply cubic_done_intro; [apply same_set_window|by left|]. split; [|done|by left]. by eapply window_ext; [exact Hw| |].
Qed.

(** The state after a reset, with any window. *)
Lemma reset_inv hi c : window_ok hi c -> ssthresh c = UINT64_MAX \/ lo = 1 -> cubic_inv hi cubic_reset_state c.
Proof. intros Hw Ht. pose proof Hw as [? ? ? ?]. unfold MIN_PAYLOAD in *. split; [done| |by left]. apply vars_reset_ok; [lia|done]. Qed.

Lemma persistent_ok hi cubic c rst ts :
  cubic_inv hi cubic c -> lo = 1 -> cubic_done hi c rst (ngtcp2_cc_cubic_cc_on_persistent_congestion cubic c rst tt ts).
Proof.
  intros Hinv Hone. pose proof (cubic_lo _ _ _ Hinv) as (Hl & Hc & Hm). destruct Hinv as [Hw _ _]. pose proof Hw as [[? ?] _ Hhi _].
  unfold ngtcp2_cc_cubic_cc_on_persistent_congestion, cubic_cc_reset, MIN_PAYLOAD in *.
  destruct (init_pacing_rate_run c) as (i & q & ->); [lia|]. cbn [bind].
  set (c0 := set_window _ _ _ (set_pacing i q c)).
  assert (Hc0 : 1 <= cwnd c0 <= hi) by (cbn; rewrite u64_small by (unfold is_u64; lia); lia).
  destruct (set_pacing_rate_run c0) as (i' & q' & ->); [lia|]. cbn [bind]. apply cubic_done_intro; [|by left|].
  - etransitivity; [apply same_set_pacing|]. etransitivity; [apply same_set_window|apply same_set_pacing].
  - apply reset_inv; [|by right]. eapply window_ext; [apply (window_set _ _ _ c (cwnd c0) 0 0 Hw); lia| |]; done.
Qed.

Lemma reset_ok hi cubic c rst ts :
  cubic_inv hi cubic c ->
  cubic_done hi c rst (ngtcp2_cc_cubic_cc_reset cubic
    (set_window (ngtcp2_cc_compute_initcwnd (max_tx_udp_payload_size c)) UINT64_MAX UINT64_MAX c) rst tt ts).
Proof.
  intros [Hw _ _]. set (c0 := set_window _ _ _ c). unfold ngtcp2_cc_cubic_cc_reset, cubic_cc_reset.
  pose proof (window_reset mss lo hi c UINT64_MAX Hw) as Hw0. fold c0 in Hw0. pose proof Hw0 as [_ Hlo _ Hc]. unfold MIN_PAYLOAD in *.
  destruct (init_pacing_rate_run c0) as (i & q & ->); [lia|]. cbn [bind].
  apply cubic_done_intro; [by etransitivity; [apply same_set_window|apply same_set_pacing]|by left|].
  apply reset_inv; [|by left]. by eapply window_ext; [exact Hw0| |].
Qed.

#[export] Instance cubic_laws : CcLaws cubic_cc mss lo cubic_inv.
Proof.
  split; cbn [cc_call cubic_cc on_pkt_acked on_pkt_lost congestion_event on_spurious_congestion on_persistent_congestion on_ack_recv
    on_pkt_sent cc_reset].
  - intros hi hi' s c. apply cubic_mono.
  - intros hi s c c'. apply cubic_ext.
  - intros hi s c [[] _ _]. lia.
  - intros hi s c n [[? ? ? ?] Hv Hu] Hn. split; [|done|done]. split; cbn; try done. lia.
  - intros hi s c rst pkt ts Hinv Hl Hg. apply cubic_done_intro; [apply same_recovery_refl|by left|].
    pose proof (cubic_lo _ _ _ Hinv) as (? & ? & ?). pose proof (growth_pos mss lo (pk_pktlen pkt) Hl ltac:(lia) ltac:(lia)).
    eapply cubic_mono; [|exact Hinv]. lia.
  - intros. by apply cubic_done_intro; [apply same_recovery_refl|left|].
  - intros. by apply congestion_ok.
  - intros. by apply spurious_ok.
  - intros. by apply persistent_ok.
  - intros. by apply ack_recv_ok.
  - intros. by apply cubic_done_intro; [apply same_recovery_refl|left|].
  - intros. by apply (reset_ok hi s c rst ts).
Qed.
End Cubic.
