(* ===== verification/CcRun.v ===== *)
(** * Congestion control: every sequence of callbacks *)

From S2P Require Import Prelude Const ConnStat Rst Cc CcSpec CcCubic.
From stdpp Require Import list.
#[local] Open Scope Z_scope.

Implicit Types (c : ngtcp2_conn_stat) (rst : ngtcp2_rst) (ts : Z) (pkt : ngtcp2_cc_pkt) (ack : ngtcp2_cc_ack).

(** The callbacks with any rate sample, and what else changes the statistics:
    the size of the packets, the round trip times and the bytes in flight. *)
Inductive cc_event :=
| CcPktAcked rst pkt ts
| CcPktLost rst pkt ts
| CcCongestion rst (sent_ts : Z) ack ts
| CcSpurious rst ts
| CcPersistent rst ts
| CcAckRecv rst ack ts
| CcPktSent rst pkt ts
| CcReset rst ts
| CcPayload (n : Z)
| CcStat (latest min smoothed var first_ts in_flight : Z).
Implicit Types (ev : cc_event).

Definition cc_step {S} (cc : ngtcp2_cc S) ev (st : S * ngtcp2_conn_stat) : res (S * ngtcp2_conn_stat) :=
  let (s, c) := st in
  let state (r : cc_result S) : res (S * ngtcp2_conn_stat) := let* (s, c, _) := r in Ok (s, c) in
  match ev with
  | CcPktAcked rst pkt ts => state (cc_call (on_pkt_acked cc) s c rst pkt ts)
  | CcPktLost rst pkt ts => state (cc_call (on_pkt_lost cc) s c rst pkt ts)
  | CcCongestion rst sent_ts ack ts => state (cc_call (congestion_event cc) s c rst (sent_ts, ack) ts)
  | CcSpurious rst ts => state (cc_call (on_spurious_congestion cc) s c rst tt ts)
  | CcPersistent rst ts => state (cc_call (on_persistent_congestion cc) s c rst tt ts)
  | CcAckRecv rst ack ts => state (cc_call (on_ack_recv cc) s c rst ack ts)
  | CcPktSent rst pkt ts => state (cc_call (on_pkt_sent cc) s c rst pkt ts)
  | CcReset rst ts =>
      let c := set_window (ngtcp2_cc_compute_initcwnd (max_tx_udp_payload_size c)) UINT64_MAX UINT64_MAX c in
      state (cc_call (cc_reset cc) s c rst tt ts)
  | CcPayload n => Ok (s, set_max_tx_udp_payload_size n c)
  | CcStat latest min smoothed var first_ts in_flight =>
      Ok (s, set_bytes_in_flight in_flight (set_rtt latest min smoothed var first_ts c))
  end.

Fixpoint cc_run {S} (cc : ngtcp2_cc S) (evs : list cc_event) (st : S * ngtcp2_conn_stat) : res (S * ngtcp2_conn_stat) :=
  match evs with
  | [] => Ok st
  | ev :: evs => let* st := cc_step cc ev st in cc_run cc evs st
  end.

Definition is_persistent ev : bool := match ev with CcPersistent _ _ => true | _ => false end.

(** The window never falls below this. *)
Definition cwnd_floor (evs : list cc_event) : Z := if existsb is_persistent evs then 1 else 2 * MIN_PAYLOAD.

Definition ev_growth (mss lo : Z) ev : Z :=
  match ev with
  | CcPktAcked _ pkt _ => growth mss lo (pk_pktlen pkt)
  | CcAckRecv _ ack _ => growth mss lo (ca_bytes_delivered ack)
  | _ => 0
  end.

Fixpoint evs_growth (mss lo : Z) (evs : list cc_event) : Z :=
  match evs with [] => 0 | ev :: evs => ev_growth mss lo ev + evs_growth mss lo evs end.

Definition cc_ev_ok (mss : Z) ev : Prop :=
  match ev with
  | CcPktAcked _ pkt _ => 0 <= pk_pktlen pkt
  | CcAckRecv _ ack _ => 0 <= ca_bytes_delivered ack
  | CcPayload n => MIN_PAYLOAD <= n <= mss
  | _ => True
  end.

(** A connection that starts: [conn_reset_conn_stat_cc] and the reset of the
    controller. *)
Definition start_stat (n : Z) c : ngtcp2_conn_stat :=
  set_window (ngtcp2_cc_compute_initcwnd n) UINT64_MAX UINT64_MAX (set_max_tx_udp_payload_size n c).

Section Run.
Context {S : Type} (cc : ngtcp2_cc S) (mss lo : Z) (inv : Z -> S -> ngtcp2_conn_stat -> Prop) {laws : CcLaws cc mss lo inv}.
Context (mss_pos : 0 <= mss) (lo_pos : 0 < lo).

Lemma ev_growth_nonneg ev : cc_ev_ok mss ev -> 0 <= ev_growth mss lo ev.
Proof.
  intros Hok. destruct ev; cbn in *; try done; (etransitivity; [exact mss_pos|apply growth_pos; lia]).
Qed.

Lemma evs_growth_nonneg evs : Forall (cc_ev_ok mss) evs -> 0 <= evs_growth mss lo evs.
Proof. induction 1 as [|ev evs Hev _ IH]; cbn; [done|]. pose proof (ev_growth_nonneg ev Hev). lia. Qed.

Lemma cc_step_ok hi s c ev :
  inv hi s c -> cc_ev_ok mss ev -> (is_persistent ev = true -> lo = 1) -> hi + ev_growth mss lo ev <= CC_LIMIT ->
  exists s' c', cc_step cc ev (s, c) = Ok (s', c') /\ inv (hi + ev_growth mss lo ev) s' c'.
Proof.
  intros Hinv Hok Hp Hg. pose proof (ev_growth_nonneg ev Hok) as Hg0.
  assert (Hdone : forall (r : cc_result S) hi', (exists s' c' rst', r = Ok (s', c', rst') /\ same_recovery c c' /\ True /\ inv hi' s' c') ->
    exists s' c', (let* (s, c, _) := r in Ok (s, c)) = Ok (s', c') /\ inv hi' s' c').
  { intros r hi' (s' & c' & rst' & -> & _ & _ & ?). by exists s', c'. }
  assert (Hrelax : forall (r : cc_result S) rst hi', (exists s' c' rst', r = Ok (s', c', rst') /\ same_recovery c c' /\ same_rst rst rst' /\ inv hi' s' c') ->
    exists s' c', (let* (s, c, _) := r in Ok (s, c)) = Ok (s', c') /\ inv hi' s' c').
  { intros r rst hi' (s' & c' & rst' & ? & ? & _ & ?). apply Hdone. by exists s', c', rst'. }
  clear Hdone. destruct ev; cbn [cc_step ev_growth] in *; rewrite ?Z.add_0_r.
  - eapply Hrelax, cl_pkt_acked; done.
  - eapply Hrelax, cl_pkt_lost; done.
  - eapply Hrelax, cl_congestion; done.
  - eapply Hrelax, cl_spurious; done.
  - eapply Hrelax, cl_persistent; [done|by apply Hp].
  - eapply Hrelax, cl_ack_recv; done.
  - eapply Hrelax, cl_pkt_sent; done.
  - eapply Hrelax. by apply (cl_reset hi).
  - do 2 eexists. split; [done|]. by apply (cl_payload hi).
  - do 2 eexists. split; [done|]. by eapply (cl_stat hi).
Qed.

Lemma cc_run_ok evs : forall hi s c,
  inv hi s c -> Forall (cc_ev_ok mss) evs -> (existsb is_persistent evs = true -> lo = 1) -> hi + evs_growth mss lo evs <= CC_LIMIT ->
  exists s' c', cc_run cc evs (s, c) = Ok (s', c') /\ inv (hi + evs_growth mss lo evs) s' c'.
Proof.
  induction evs as [|ev evs IH]; intros hi s c Hinv Hevs Hp Hg; cbn [cc_run evs_growth] in *.
  { rewrite Z.add_0_r. by do 2 eexists. }
  apply Forall_cons_iff in Hevs as [Hev Hevs]. pose proof (evs_growth_nonneg evs Hevs) as Hg0. cbn in Hp.
  destruct (cc_step_ok hi s c ev Hinv Hev) as (s1 & c1 & -> & Hinv1); [intros E; apply Hp; by rewrite E|lia|]. cbn [bind].
  destruct (IH _ s1 c1 Hinv1 Hevs) as (s2 & c2 & -> & Hinv2); [intros E; apply Hp; rewrite E; apply orb_true_r|lia|].
  do 2 eexists. split; [done|]. by rewrite Z.add_assoc.
Qed.
End Run.

Lemma cwnd_floor_cases evs : cwnd_floor evs = 1 \/ cwnd_floor evs = 2 * MIN_PAYLOAD.
Proof. unfold cwnd_floor. destruct (existsb _ _); [by left|by right]. Qed.

Lemma start_window mss evs n c :
  MIN_PAYLOAD <= n <= mss -> mss <= 65535 -> window_ok mss (cwnd_floor evs) (initial_window mss) (start_stat n c).
Proof.
  intros Hn Hm. pose proof (initcwnd_range mss n Hn) as Hi. pose proof (cwnd_floor_cases evs).
  assert (2 * mss <= initial_window mss < 2 ^ 47) by (unfold initial_window, MIN_PAYLOAD in *; lia).
  split; cbn [cwnd start_stat set_window max_tx_udp_payload_size set_max_tx_udp_payload_size]; unfold MIN_PAYLOAD, CC_LIMIT in *; try done; lia.
Qed.

(** ** The reactions to congestion *)

(** The packet was sent before the recovery period began. *)
Definition in_recovery (sent_ts : Z) c : Prop :=
  congestion_recovery_start_ts c <> UINT64_MAX /\ sent_ts <= congestion_recovery_start_ts c.

Lemma in_recovery_spec sent_ts c : in_congestion_recovery c sent_ts = true <-> in_recovery sent_ts c.
Proof. unfold in_congestion_recovery, in_recovery. rewrite andb_true_iff, negb_true_iff, Z.eqb_neq, Z.leb_le. done. Qed.

(** One reduction for each recovery period, of the window and of the slow
    start threshold, to [w] bytes but not below two packets of the size in
    use. *)
Definition reduces {S} (cc : ngtcp2_cc S) (reduced : Z -> Z -> Prop) (s : S) c : Prop :=
  forall rst sent_ts ack ts, exists s2 c2,
    cc_step cc (CcCongestion rst sent_ts ack ts) (s, c) = Ok (s2, c2) /\
    (in_recovery sent_ts c -> s2 = s /\ c2 = c) /\
    (~ in_recovery sent_ts c ->
       exists w, reduced (cwnd c) w /\ cwnd c2 = Z.max w (2 * max_tx_udp_payload_size c) /\
                 ssthresh c2 = cwnd c2 /\ congestion_recovery_start_ts c2 = ts).

(** Persistent congestion: two packets, and no recovery period. *)
Definition collapses {S} (cc : ngtcp2_cc S) (s : S) c : Prop :=
  forall rst ts, exists s2 c2, cc_step cc (CcPersistent rst ts) (s, c) = Ok (s2, c2) /\
    cwnd c2 = 2 * max_tx_udp_payload_size c /\ congestion_recovery_start_ts c2 = UINT64_MAX.

(** Half of the window, and seven tenths at most. *)
Definition half (before w : Z) : Prop := w = before / 2.
Definition seven_tenths (before w : Z) : Prop := w <= before * 7 / 10.

Section Reaction.
Context (mss lo hi : Z).

Lemma reno_reduces s c : window_ok mss lo hi c -> reduces reno_cc half s c.
Proof.
  intros [[Hm1 Hm2] Hlo Hhi Hc] rst sent_ts ack ts. unfold MIN_PAYLOAD, CC_LIMIT in *.
  cbn [cc_step cc_call reno_cc congestion_event]. unfold ngtcp2_cc_reno_cc_congestion_event.
  pose proof (in_recovery_spec sent_ts c) as Hr. destruct (in_congestion_recovery c sent_ts).
  { do 2 eexists. split; [done|]. split; [done|]. intros Hn. destruct Hn. by apply Hr. }
  assert (Hn : ~ in_recovery sent_ts c) by (intros Hn; by apply Hr in Hn). clear Hr.
  change NGTCP2_LOSS_REDUCTION_FACTOR_BITS with 1. rewrite Z.shiftr_div_pow2 by lia. change (2 ^ 1) with 2.
  rewrite u64_small by (unfold is_u64; lia). set (w := Z.max _ _).
  destruct (set_pacing_rate_run (set_window w w ts c)) as (i & q & ->); [cbn; lia|]. cbn [bind].
  do 2 eexists. split; [done|]. split; [done|]. intros _. by exists (cwnd c / 2).
Qed.

Lemma persistent_collapses_reno s c : window_ok mss lo hi c -> collapses reno_cc s c.
Proof.
  intros [[Hm1 Hm2] _ _ _] rst ts. unfold MIN_PAYLOAD in *.
  cbn [cc_step cc_call reno_cc on_persistent_congestion]. unfold ngtcp2_cc_reno_cc_on_persistent_congestion.
  rewrite u64_small by (unfold is_u64; lia). destruct (set_pacing_rate_run (set_window (2 * max_tx_udp_payload_size c) (ssthresh c) UINT64_MAX c)) as (i & q & ->); [cbn; lia|].
  by do 2 eexists.
Qed.

Lemma cubic_reduces s c : cubic_inv mss lo hi s c -> reduces cubic_cc seven_tenths s c.
Proof.
  intros Hinv rst sent_ts ack ts. destruct (congestion_ok mss lo hi s c rst (sent_ts, ack) ts Hinv) as (s2 & c2 & rst2 & E & _).
  destruct Hinv as [[[Hm1 Hm2] Hlo Hhi Hc] _ _]. unfold MIN_PAYLOAD, CC_LIMIT in *.
  cbn [cc_step cc_call cubic_cc congestion_event]. rewrite E. cbn [bind]. exists s2, c2. split; [done|].
  unfold ngtcp2_cc_cubic_cc_congestion_event in E. pose proof (in_recovery_spec sent_ts c) as Hr.
  destruct (in_congestion_recovery c sent_ts).
  { injection E as <- <- _. split; [done|]. intros Hn. destruct Hn. by apply Hr. }
  split; [intros Hn; by apply Hr in Hn|intros _]. rewrite !(u64_small (2 * _)), (u64_small (cwnd c * 7)) in E by (unfold is_u64; lia).
  set (th := if u64 _ <? cwnd c then _ else _) in E. assert (Hth : th <= cwnd c * 7 / 10) by (unfold th; destruct (u64 (_ * 2) <? cwnd c); lia).
  clearbody th. destruct (_ <=? _); [|done]. unfold div64 in E. rewrite (proj2 (Z.eqb_neq _ _)) in E by lia. cbn [bind] in E.
  set (w := Z.max th _) in E. destruct (set_pacing_rate_run (set_window w w ts c)) as (i & q & Ep); [cbn; lia|].
  rewrite Ep in E. injection E as _ <- _. by exists th.
Qed.

Lemma persistent_collapses_cubic s c : window_ok mss lo hi c -> 0 < lo -> collapses cubic_cc s c.
Proof.
  intros [[Hm1 Hm2] _ _ Hc] Hl rst ts. unfold MIN_PAYLOAD in *.
  cbn [cc_step cc_call cubic_cc on_persistent_congestion]. unfold ngtcp2_cc_cubic_cc_on_persistent_congestion, cubic_cc_reset.
  destruct (init_pacing_rate_run c) as (i & q & ->); [lia|]. cbn [bind].
  cbn [max_tx_udp_payload_size set_pacing ssthresh]. rewrite u64_small by (unfold is_u64; lia).
  set (c0 := set_window _ _ _ _). destruct (set_pacing_rate_run c0) as (i' & q' & ->); [cbn; lia|]. by do 2 eexists.
Qed.
End Reaction.

(** C13. Both congestion controllers, for every sequence of callbacks, changes
    of the packet size (up to [mss]) and round trip times: no assertion fails,
    nothing is divided by zero.  The window starts at the initial window of
    RFC 9002.  After the sequence, it is at most the initial window of packets
    of [mss] bytes plus [evs_growth]: for every acknowledgement, what it
    acknowledges (or [bytes * mss / lo], when that is more) and one packet.  It
    is at least 2 * 1200 bytes (two packets of the smallest size), or one byte
    when there was persistent congestion.  A congestion event for a packet of
    the current recovery period changes nothing; any other one starts a
    recovery period and reduces the window and the slow start threshold, to
    half of the window for Reno and to seven tenths of it or less for CUBIC,
    but not below two packets of the current size.  Persistent congestion
    leaves two packets of the current size. *)
Theorem cc_window_bounds (mss n : Z) (c : ngtcp2_conn_stat) (evs : list cc_event) :
  MIN_PAYLOAD <= n <= mss -> mss <= 65535 -> Forall (cc_ev_ok mss) evs ->
  let lo := cwnd_floor evs in let hi := initial_window mss + evs_growth mss lo evs in
  hi <= CC_LIMIT ->
  cwnd (start_stat n c) = initial_window n /\
  (exists reno c0 reno' c', ngtcp2_cc_reno_init (start_stat n c) = Ok (reno, c0) /\ cwnd c0 = initial_window n /\
    cc_run reno_cc evs (reno, c0) = Ok (reno', c') /\ lo <= cwnd c' <= hi /\
    reduces reno_cc half reno' c' /\ collapses reno_cc reno' c') /\
  (exists cubic c0 cubic' c', ngtcp2_cc_cubic_init (start_stat n c) = Ok (cubic, c0) /\ cwnd c0 = initial_window n /\
    cc_run cubic_cc evs (cubic, c0) = Ok (cubic', c') /\ lo <= cwnd c' <= hi /\
    reduces cubic_cc seven_tenths cubic' c' /\ collapses cubic_cc cubic' c').
Proof.
  intros Hn Hm Hevs lo hi Hhi. pose proof (start_window mss evs n c Hn Hm) as Hw. fold lo in Hw. pose proof Hw as [_ Hlo Hhi0 Hc].
  assert (Hpers : existsb is_persistent evs = true -> lo = 1) by (unfold lo, cwnd_floor; by intros ->).
  assert (Hl : 0 < lo) by (unfold MIN_PAYLOAD in *; lia). assert (Hm0 : 0 <= mss) by (unfold MIN_PAYLOAD in *; lia).
  assert (Hs : cwnd (start_stat n c) = initial_window n) by apply initcwnd_eq. split; [done|].
  destruct (init_pacing_rate_run (start_stat n c)) as (i & q & Hinit); [lia|].
  assert (Hw0 : window_ok mss lo (initial_window mss) (set_pacing i q (start_stat n c))) by (by eapply window_ext; [exact Hw| |]). split.
  - destruct (cc_run_ok reno_cc mss lo (reno_inv mss lo) Hm0 Hl evs (initial_window mss) (mk_reno 0) (set_pacing i q (start_stat n c)))
      as (s' & c' & E & Hinv); [by split; [|cbn; unfold MIN_PAYLOAD in *; lia]|done|done|done|].
    exists (mk_reno 0), (set_pacing i q (start_stat n c)), s', c'. unfold ngtcp2_cc_reno_init, reno_cc_reset. rewrite Hinit.
    pose proof Hinv as [Hw' _]. split_and!; try done; [by apply Hw'..| |]; [by eapply reno_reduces|by eapply persistent_collapses_reno].
  - destruct (cc_run_ok cubic_cc mss lo (cubic_inv mss lo) Hm0 Hl evs (initial_window mss) cubic_reset_state (set_pacing i q (start_stat n c)))
      as (s' & c' & E & Hinv); [by apply reset_inv; [|left]|done|done|done|].
    exists cubic_reset_state, (set_pacing i q (start_stat n c)), s', c'. unfold ngtcp2_cc_cubic_init, cubic_cc_reset. rewrite Hinit.
    pose proof Hinv as [Hw' _ _]. split_and!; try done; [by apply Hw'..| |]; [by eapply cubic_reduces|by eapply persistent_collapses_cubic].
Qed.

(** Slow start, a loss, and the growth after it. *)
Definition demo_stat : ngtcp2_conn_stat := mk_cstat 0 UINT64_MAX 333000000 0 UINT64_MAX 0 [] 0 0 0 0 0 0 0 0 0 0 [] UINT64_MAX.
Definition demo_ack (bytes sent_ts : Z) : ngtcp2_cc_ack := mk_cc_ack bytes 0 0 sent_ts 50000000.
Definition demo_pkt (len sent_ts : Z) : ngtcp2_cc_pkt := mk_cc_pkt 0 len 2 sent_ts 0 0 false.
Definition demo_losses : list cc_event :=
  [CcAckRecv ngtcp2_rst_init (demo_ack 12000 10) 20; CcPktAcked ngtcp2_rst_init (demo_pkt 12000 10) 20;
   CcStat 50000000 50000000 50000000 25000000 20 24000; CcCongestion ngtcp2_rst_init 30 (demo_ack 0 30) 40;
   CcCongestion ngtcp2_rst_init 35 (demo_ack 0 35) 45; CcAckRecv ngtcp2_rst_init (demo_ack 6000 50) 3000000000;
   CcPktAcked ngtcp2_rst_init (demo_pkt 6000 50) 3000000000].

Lemma demo_losses_ok : Forall (cc_ev_ok 1200) demo_losses.
Proof. repeat apply Forall_cons_2; [..|apply Forall_nil_2]; cbn; unfold MIN_PAYLOAD; first [done|lia]. Qed.

Lemma cc_window_bounds_witness :
  (exists reno c', cc_run reno_cc demo_losses (mk_reno 0, start_stat 1200 demo_stat) = Ok (reno, c') /\ cwnd c' = 12600) /\
  (exists cubic c', cc_run cubic_cc demo_losses (cubic_reset_state, start_stat 1200 demo_stat) = Ok (cubic, c') /\ cwnd c' = 17321) /\
  cwnd (start_stat 1200 demo_stat) = 12000 /\
  (exists reno c0 reno' c', ngtcp2_cc_reno_init (start_stat 1200 demo_stat) = Ok (reno, c0) /\
    cc_run reno_cc demo_losses (reno, c0) = Ok (reno', c') /\ 2400 <= cwnd c' <= 12000 + evs_growth 1200 2400 demo_losses /\
    reduces reno_cc half reno' c').
Proof.
  split; [do 2 eexists; by vm_compute|]. split; [do 2 eexists; by vm_compute|].
  destruct (cc_window_bounds 1200 1200 demo_stat demo_losses) as (Hs & (reno & c0 & reno' & c' & E0 & _ & E & Hb & Hr & _) & _);
    [by vm_compute|by vm_compute|exact demo_losses_ok|by vm_compute|].
  split; [exact Hs|]. by exists reno, c0, reno', c'.
Defined.

(** Why persistent congestion is an exception.  The variables of CUBIC are
    reset, but the slow start threshold is kept: when slow start reaches it,
    congestion avoidance starts with no epoch and an estimate of 0, and the
    window of 8400 bytes becomes 171 bytes. *)
Definition demo_persistent : list cc_event :=
  [CcStat 5000000 5000000 5000000 2500000 20 12000; CcCongestion ngtcp2_rst_init 30 (demo_ack 0 30) 40;
   CcPersistent ngtcp2_rst_init 100000000; CcAckRecv ngtcp2_rst_init (demo_ack 6000 110000000) 120000000].

Definition cubic_cwnd (evs : list cc_event) : option Z :=
  match cc_run cubic_cc evs (cubic_reset_state, start_stat 1200 demo_stat) with Ok (_, c) => Some (cwnd c) | _ => None end.

Lemma cubic_window_collapses :
  cubic_cwnd demo_persistent = Some 8400 /\
  cubic_cwnd (demo_persistent ++ [CcAckRecv ngtcp2_rst_init (demo_ack 1200 150000000) 200000000]) = Some 171.
Proof. by vm_compute. Qed.
