(* ===== verification/Recovery.v ===== *)
(** * Round trip time, probe timeout and the loss detection timer

    The functions of [lib/ngtcp2_conn.c] that loss detection uses: the
    estimate of the round trip time, the probe timeout (PTO) it gives, and the
    timer that fires when a packet is to be declared lost or a probe is to be
    sent. *)

From S2P Require Import Prelude Const ConnStat.
From stdpp Require Import list.
#[local] Open Scope Z_scope.

Definition NGTCP2_PKT_THRESHOLD : Z := 3.
Definition NGTCP2_GRANULARITY : Z := NGTCP2_MILLISECONDS.
Definition NGTCP2_PERSISTENT_CONGESTION_THRESHOLD : Z := 3.

(** What recovery knows about the connection.  [cp_max_ack_delay] is [None]
    before the transport parameters of the remote endpoint are there. *)
Record conn_params := mk_params {
  cp_server : bool;
  cp_addr_verified : bool;
  cp_confirmed : bool;
  cp_handshake_confirmed_ts : Z;
  cp_max_ack_delay : option Z;
  cp_initial_rtt : Z;
}.

Implicit Types (cstat : ngtcp2_conn_stat) (par : conn_params) (ts : Z).

(** ** Probe timeout *)
Definition compute_pto (smoothed_rtt rttvar max_ack_delay : Z) : Z :=
  let var := Z.max (u64 (4 * rttvar)) NGTCP2_GRANULARITY in
  u64 (u64 (smoothed_rtt + var) + max_ack_delay).

Definition pktns_max_ack_delay par (id : Z) : Z :=
  match cp_max_ack_delay par with
  | Some d => if id =? NGTCP2_PKTNS_ID_APPLICATION then d else 0
  | None => 0
  end.

Definition conn_compute_initial_pto par (id : Z) : Z :=
  compute_pto (cp_initial_rtt par) (cp_initial_rtt par / 2) (pktns_max_ack_delay par id).

Definition ngtcp2_conn_compute_pto par cstat (id : Z) : Z :=
  compute_pto (smoothed_rtt cstat) (rttvar cstat) (pktns_max_ack_delay par id).

Definition conn_compute_pv_timeout_pto par (pto : Z) : Z :=
  u64 (3 * Z.max pto (conn_compute_initial_pto par NGTCP2_PKTNS_ID_APPLICATION)).

Definition conn_compute_pv_timeout par cstat : Z :=
  conn_compute_pv_timeout_pto par (ngtcp2_conn_compute_pto par cstat NGTCP2_PKTNS_ID_APPLICATION).

(** ** Round trip time *)
Definition ngtcp2_conn_update_rtt par cstat (rtt ack_delay ts : Z) : res ngtcp2_conn_stat :=
  assert! 0 <? rtt;
  if min_rtt cstat =? UINT64_MAX then Ok (set_rtt rtt rtt rtt (rtt / 2) ts cstat) else
  let* (ignore, ack_delay) :=
    if cp_confirmed par then
      match cp_max_ack_delay par with
      | Some d => Ok (false, Z.min ack_delay d)
      | None => Fault
      end
    else Ok ((0 <? ack_delay) && (min_rtt cstat <=? rtt) && (rtt <? u64 (min_rtt cstat + ack_delay)), ack_delay) in
  if ignore then Ok cstat else
  let min := Z.min (min_rtt cstat) rtt in
  let adjusted := if u64 (min + ack_delay) <=? rtt then u64 (rtt - ack_delay) else rtt in
  let diff := if smoothed_rtt cstat <? adjusted then u64 (adjusted - smoothed_rtt cstat) else u64 (smoothed_rtt cstat - adjusted) in
  Ok (set_rtt rtt min (u64 (u64 (smoothed_rtt cstat * 7) + adjusted) / 8)
        (u64 (u64 (rttvar cstat * 3) + diff) / 4) (first_rtt_sample_ts cstat) cstat).

(** ** Loss detection timer *)

(** The number of packets that elicit a probe in each packet number space;
    [None]: the space is discarded. *)
Definition spaces : Type := list (option Z).

Definition nth_time (times : list Z) (id : Z) : res Z :=
  match times !! Z.to_nat id with Some t => Ok t | None => Fault end.

(** The earliest loss time, and the packet number space it belongs to. *)
Fixpoint earliest_loss_time (cstat : ngtcp2_conn_stat) (ids : list (Z * bool)) (earliest : Z) (pktns : option Z)
    : res (Z * option Z) :=
  match ids with
  | [] => Ok (earliest, pktns)
  | (id, present) :: ids =>
      let* t := nth_time (loss_time cstat) id in
      if negb present || (earliest <=? t) then earliest_loss_time cstat ids earliest pktns
      else earliest_loss_time cstat ids t (Some id)
  end.

Definition conn_get_loss_time_and_pktns cstat (in_pktns hs_pktns : bool) : res (Z * option Z) :=
  let* t := nth_time (loss_time cstat) NGTCP2_PKTNS_ID_INITIAL in
  earliest_loss_time cstat [(NGTCP2_PKTNS_ID_HANDSHAKE, hs_pktns); (NGTCP2_PKTNS_ID_APPLICATION, true)] t
    (if in_pktns then Some NGTCP2_PKTNS_ID_INITIAL else None).

(** [1ULL << n] *)
Definition shl1 (n : Z) : res Z := if (0 <=? n) && (n <? 64) then Ok (Z.shiftl 1 n) else Fault.

(** The loop over the spaces; [i]: the space that the list starts with. *)
Fixpoint pto_expiry par cstat (duration : Z) (ns : spaces) (i earliest_ts : Z) : res Z :=
  match ns with
  | [] => Ok earliest_ts
  | n :: ns =>
      let* time := nth_time (last_tx_pkt_ts cstat) i in
      if match n with None => true | Some n => n =? 0 end || (time =? UINT64_MAX) ||
         ((i =? NGTCP2_PKTNS_ID_APPLICATION) && negb (cp_confirmed par))
      then pto_expiry par cstat duration ns (i + 1) earliest_ts
      else
        let t := u64 (time + duration) in
        let* t :=
          if i =? NGTCP2_PKTNS_ID_APPLICATION then
            match cp_max_ack_delay par with
            | Some d => let* backoff := shl1 (pto_count cstat) in Ok (u64 (t + u64 (d * backoff)))
            | None => Fault
            end
          else Ok t in
        pto_expiry par cstat duration ns (i + 1) (if t <? earliest_ts then t else earliest_ts)
  end.

Definition conn_get_earliest_pto_expiry par cstat (ns : spaces) ts : res Z :=
  let* backoff := shl1 (pto_count cstat) in
  let duration := u64 (compute_pto (smoothed_rtt cstat) (rttvar cstat) 0 * backoff) in
  let* earliest_ts := pto_expiry par cstat duration ns NGTCP2_PKTNS_ID_INITIAL UINT64_MAX in
  if earliest_ts =? UINT64_MAX then Ok (u64 (ts + duration)) else Ok earliest_ts.

Definition ngtcp2_conn_cancel_loss_detection_timer cstat : ngtcp2_conn_stat :=
  set_pto_count 0 (set_timers (last_tx_pkt_ts cstat) UINT64_MAX cstat).

(** [!pktns || pktns->rtb.num_pto_eliciting == 0] *)
Definition no_pto (n : option Z) : bool := match n with None => true | Some n => n =? 0 end.

Definition ngtcp2_conn_set_loss_detection_timer par cstat (in_pto hs_pto : option Z) (pto : Z) ts : res ngtcp2_conn_stat :=
  let* (earliest, _) := conn_get_loss_time_and_pktns cstat (bool_decide (is_Some in_pto)) (bool_decide (is_Some hs_pto)) in
  if negb (earliest =? UINT64_MAX) then Ok (set_timers (last_tx_pkt_ts cstat) earliest cstat) else
  if no_pto in_pto && no_pto hs_pto && ((pto =? 0) || negb (cp_confirmed par)) &&
     (cp_server par || cp_addr_verified par || cp_confirmed par)
  then
    if negb (loss_detection_timer cstat =? UINT64_MAX) then Ok (ngtcp2_conn_cancel_loss_detection_timer cstat) else Ok cstat
  else
    let* t := conn_get_earliest_pto_expiry par cstat [in_pto; hs_pto; Some pto] ts in
    Ok (set_timers (last_tx_pkt_ts cstat) t cstat).
