(* ===== verification/Rtb.v ===== *)
(** * Packets in flight and loss detection: [lib/ngtcp2_rtb.c]

    The packets of one packet number space that were sent and not yet
    acknowledged, and the detection of lost packets.  The entries are objects
    that a skip list points to; an acknowledged entry is taken out of the list
    and kept on a list of its own, [ent->next], until it is processed.

    A step changes the packet number space and the state that the spaces of a
    connection share: the statistics, the rate sampler, the congestion
    controller, ECN, and, behind [conn_ops], the streams.  [Ok (rv, st)] is a
    return with the value [rv]. *)

From S2P Require Import Prelude Const Frame Ksl Acktr ConnStat Rst Cc Recovery.
From stdpp Require Import list gmap.
#[local] Open Scope Z_scope.

Definition NGTCP2_RTB_ENTRY_FLAG_PROBE : Z := 0x01.
Definition NGTCP2_RTB_ENTRY_FLAG_RETRANSMITTABLE : Z := 0x02.
Definition NGTCP2_RTB_ENTRY_FLAG_ACK_ELICITING : Z := 0x04.
Definition NGTCP2_RTB_ENTRY_FLAG_PTO_RECLAIMED : Z := 0x08.
Definition NGTCP2_RTB_ENTRY_FLAG_LOST_RETRANSMITTED : Z := 0x10.
Definition NGTCP2_RTB_ENTRY_FLAG_ECN : Z := 0x20.
Definition NGTCP2_RTB_ENTRY_FLAG_DATAGRAM : Z := 0x40.
Definition NGTCP2_RTB_ENTRY_FLAG_PMTUD_PROBE : Z := 0x80.
Definition NGTCP2_RTB_ENTRY_FLAG_PTO_ELICITING : Z := 0x100.
Definition NGTCP2_RTB_ENTRY_FLAG_SKIP : Z := 0x200.

Definition NGTCP2_ECN_STATE_TESTING : Z := 0.
Definition NGTCP2_ECN_STATE_UNKNOWN : Z := 1.
Definition NGTCP2_ECN_STATE_FAILED : Z := 2.
Definition NGTCP2_ECN_STATE_CAPABLE : Z := 3.

(** ** State *)
Record ngtcp2_rtb (F : Type) := mk_rtb {
  rtb_heap : gmap Z (ngtcp2_rtb_entry F);
  rtb_next : Z;
  rtb_ents : ngtcp2_ksl Z Z;
  largest_acked_tx_pkt_num : Z;
  num_ack_eliciting : Z;
  num_retransmittable : Z;
  num_pto_eliciting : Z;
  probe_pkt_left : Z;
  cc_pkt_num : Z;
  cc_bytes_in_flight : Z;
  num_lost_pkts : Z;
  num_lost_ignore_pkts : Z;
}.
Arguments mk_rtb {F}.
Arguments rtb_heap {F}.
Arguments rtb_next {F}.
Arguments rtb_ents {F}.
Arguments largest_acked_tx_pkt_num {F}.
Arguments num_ack_eliciting {F}.
Arguments num_retransmittable {F}.
Arguments num_pto_eliciting {F}.
Arguments probe_pkt_left {F}.
Arguments cc_pkt_num {F}.
Arguments cc_bytes_in_flight {F}.
Arguments num_lost_pkts {F}.
Arguments num_lost_ignore_pkts {F}.

(** [pktns->tx.ecn] *)
Record pktns_ecn := mk_pktns_ecn {
  pe_start_pkt_num : Z;
  pe_validation_pkt_sent : Z;
  pe_validation_pkt_lost : Z;
  pe_ect0 : Z;
}.

(** [conn->tx.ecn] *)
Record conn_ecn := mk_conn_ecn {
  ce_state : Z;
  ce_validation_start_ts : Z;
  ce_dgram_sent : Z;
}.

(** [ns_ack_ecn]: [pktns->acktr.ecn.ack]. *)
Record ngtcp2_pktns (F : Type) := mk_pktns {
  ns_id : Z;
  ns_rtb : ngtcp2_rtb F;
  ns_ecn : pktns_ecn;
  ns_ack_ecn : Z * Z * Z;
  ns_last_pkt_num : Z;
}.
Arguments mk_pktns {F}.
Arguments ns_id {F}.
Arguments ns_rtb {F}.
Arguments ns_ecn {F}.
Arguments ns_ack_ecn {F}.
Arguments ns_last_pkt_num {F}.

(** The key update that is going on; [ku_pkt_num]:
    [conn->pktns.crypto.tx.ckm->pkt_num]. *)
Record key_update := mk_key_update {
  ku_not_confirmed : bool;
  ku_initiator : bool;
  ku_pkt_num : Z;
  ku_confirmed_ts : Z;
}.

(** What happens to the frames of a packet outside of this file.  [C]: the
    state of the streams and of the connection.  [co_reclaim]:
    [rtb_reclaim_frame], with [NGTCP2_RECLAIM_FLAG_ON_LOSS] or without;
    [co_acked]: [process_acked_pkt]; [co_frc_del]: the release of a list of
    frames. *)
Record conn_ops (F C : Type) := mk_ops {
  co_reclaim : C -> bool -> Z -> list F -> res (Z * list F * C);
  co_acked : C -> ngtcp2_conn_stat -> ngtcp2_rtb_entry F -> res (Z * ngtcp2_conn_stat * C);
  co_reclaim_on_retry : C -> list F -> res (Z * list F * C);
  co_frc_del : C -> list F -> res C;
  co_dgram_id : F -> option Z;
  co_lost_datagram : option (C -> Z -> res (Z * C));
}.
Arguments co_reclaim {F C}.
Arguments co_acked {F C}.
Arguments co_reclaim_on_retry {F C}.
Arguments co_frc_del {F C}.
Arguments co_dgram_id {F C}.
Arguments co_lost_datagram {F C}.

(** [ld_others]: [pktns->tx.ecn] of the other spaces. *)
Record ld_state (F S C : Type) := mk_ld {
  ld_ns : ngtcp2_pktns F;
  ld_others : list pktns_ecn;
  ld_cstat : ngtcp2_conn_stat;
  ld_rst : ngtcp2_rst;
  ld_cc : S;
  ld_ecn : conn_ecn;
  ld_key : key_update;
  ld_par : conn_params;
  ld_app : C;
}.
Arguments mk_ld {F S C}.
Arguments ld_ns {F S C}.
Arguments ld_others {F S C}.
Arguments ld_cstat {F S C}.
Arguments ld_rst {F S C}.
Arguments ld_cc {F S C}.
Arguments ld_ecn {F S C}.
Arguments ld_key {F S C}.
Arguments ld_par {F S C}.
Arguments ld_app {F S C}.

(** [flags & f] *)
Definition has_flag (flags f : Z) : bool := negb (Z.land flags f =? 0).

Section Entries.
Context {F : Type}.
Implicit Types (rtb : ngtcp2_rtb F) (ent : ngtcp2_rtb_entry F) (it : ngtcp2_ksl_it) (cstat : ngtcp2_conn_stat).

Definition set_store (heap : gmap Z (ngtcp2_rtb_entry F)) (next : Z) (ents : ngtcp2_ksl Z Z) rtb : ngtcp2_rtb F :=
  mk_rtb heap next ents (largest_acked_tx_pkt_num rtb) (num_ack_eliciting rtb) (num_retransmittable rtb)
    (num_pto_eliciting rtb) (probe_pkt_left rtb) (cc_pkt_num rtb) (cc_bytes_in_flight rtb) (num_lost_pkts rtb)
    (num_lost_ignore_pkts rtb).
Definition set_largest_acked (n : Z) rtb : ngtcp2_rtb F :=
  mk_rtb (rtb_heap rtb) (rtb_next rtb) (rtb_ents rtb) n (num_ack_eliciting rtb) (num_retransmittable rtb)
    (num_pto_eliciting rtb) (probe_pkt_left rtb) (cc_pkt_num rtb) (cc_bytes_in_flight rtb) (num_lost_pkts rtb)
    (num_lost_ignore_pkts rtb).
Definition set_counts (ack_eliciting retransmittable pto_eliciting : Z) rtb : ngtcp2_rtb F :=
  mk_rtb (rtb_heap rtb) (rtb_next rtb) (rtb_ents rtb) (largest_acked_tx_pkt_num rtb) ack_eliciting retransmittable
    pto_eliciting (probe_pkt_left rtb) (cc_pkt_num rtb) (cc_bytes_in_flight rtb) (num_lost_pkts rtb)
    (num_lost_ignore_pkts rtb).
Definition set_probe_pkt_left (n : Z) rtb : ngtcp2_rtb F :=
  mk_rtb (rtb_heap rtb) (rtb_next rtb) (rtb_ents rtb) (largest_acked_tx_pkt_num rtb) (num_ack_eliciting rtb)
    (num_retransmittable rtb) (num_pto_eliciting rtb) n (cc_pkt_num rtb) (cc_bytes_in_flight rtb) (num_lost_pkts rtb)
    (num_lost_ignore_pkts rtb).
Definition set_cc_bytes (pkt_num bytes : Z) rtb : ngtcp2_rtb F :=
  mk_rtb (rtb_heap rtb) (rtb_next rtb) (rtb_ents rtb) (largest_acked_tx_pkt_num rtb) (num_ack_eliciting rtb)
    (num_retransmittable rtb) (num_pto_eliciting rtb) (probe_pkt_left rtb) pkt_num bytes (num_lost_pkts rtb)
    (num_lost_ignore_pkts rtb).
Definition set_lost_counts (lost ignore : Z) rtb : ngtcp2_rtb F :=
  mk_rtb (rtb_heap rtb) (rtb_next rtb) (rtb_ents rtb) (largest_acked_tx_pkt_num rtb) (num_ack_eliciting rtb)
    (num_retransmittable rtb) (num_pto_eliciting rtb) (probe_pkt_left rtb) (cc_pkt_num rtb) (cc_bytes_in_flight rtb)
    lost ignore.

Definition ent_has ent (f : Z) : bool := has_flag (ent_flags ent) f.
Definition set_ent_frc (frc : list F) ent : ngtcp2_rtb_entry F :=
  mk_rtb_ent (ent_pkt_num ent) (ent_type ent) (ent_hd_flags ent) frc (ent_ts ent) (ent_lost_ts ent) (ent_pktlen ent)
    (ent_rst ent) (ent_flags ent).
Definition set_ent_lost (flags lost_ts : Z) ent : ngtcp2_rtb_entry F :=
  mk_rtb_ent (ent_pkt_num ent) (ent_type ent) (ent_hd_flags ent) (ent_frc ent) (ent_ts ent) lost_ts (ent_pktlen ent)
    (ent_rst ent) flags.

(** *** Objects *)
Definition rtb_load rtb (p : Z) : res (ngtcp2_rtb_entry F) :=
  match rtb_heap rtb !! p with Some ent => Ok ent | None => Fault end.

Definition rtb_store rtb (p : Z) ent : res (ngtcp2_rtb F) :=
  let* _ := rtb_load rtb p in Ok (set_store (<[p := ent]> (rtb_heap rtb)) (rtb_next rtb) (rtb_ents rtb) rtb).

(** The entry at an iterator and its address. *)
Definition rtb_ent_at rtb it : res (Z * ngtcp2_rtb_entry F) :=
  let* p := ngtcp2_ksl_it_get (rtb_ents rtb) it in
  let* ent := rtb_load rtb p in
  Ok (p, ent).

Definition rtb_entry_init (pkt_num type hd_flags : Z) (frc : list F) (ts pktlen flags : Z) : ngtcp2_rtb_entry F :=
  mk_rtb_ent pkt_num type hd_flags frc ts UINT64_MAX pktlen (mk_ent_rst 0 0 0 0 0 0 false) flags.

(** [None] is a failed allocation. *)
Definition ngtcp2_rtb_entry_objalloc_new (mem_ok : bool) rtb ent : option (ngtcp2_rtb F * Z) :=
  if mem_ok then
    let p := rtb_next rtb in
    Some (set_store (<[p := ent]> (rtb_heap rtb)) (p + 1) (rtb_ents rtb) rtb, p)
  else None.

(** [ngtcp2_ksl_remove_hint(&rtb->ents, it, it, &ent->hd.pkt_num)] *)
Definition rtb_unlink rtb it ent : res (ngtcp2_rtb F * ngtcp2_ksl_it) :=
  let* (rv, ents, it) := ksl_remove_hint (rtb_ents rtb) it (ent_pkt_num ent) in
  assert! rv =? 0;
  Ok (set_store (rtb_heap rtb) (rtb_next rtb) ents rtb, it).

(** *** Operations on the counters *)
Definition ngtcp2_rtb_init (avail : nat) (cc_pkt_num : Z) : ngtcp2_rtb F :=
  mk_rtb ∅ 0 (ngtcp2_ksl_init avail) (-1) 0 0 0 0 cc_pkt_num 0 0 0.

Definition rtb_on_add rtb (p : Z) cstat rst : res (ngtcp2_rtb F * ngtcp2_conn_stat * ngtcp2_rst) :=
  let* ent := rtb_load rtb p in
  assert! cc_pkt_num rtb <=? ent_pkt_num ent;
  let cstat := set_bytes_in_flight (u64 (bytes_in_flight cstat + ent_pktlen ent)) cstat in
  let rtb := set_cc_bytes (cc_pkt_num rtb) (u64 (cc_bytes_in_flight rtb + ent_pktlen ent)) rtb in
  let (rst, ent) := ngtcp2_rst_on_pkt_sent rst ent cstat in
  let rst := ngtcp2_rst_update_app_limited rst cstat in
  let* rtb := rtb_store rtb p ent in
  Ok (set_counts (num_ack_eliciting rtb + Z.b2z (ent_has ent NGTCP2_RTB_ENTRY_FLAG_ACK_ELICITING))
        (num_retransmittable rtb + Z.b2z (ent_has ent NGTCP2_RTB_ENTRY_FLAG_RETRANSMITTABLE))
        (num_pto_eliciting rtb + Z.b2z (ent_has ent NGTCP2_RTB_ENTRY_FLAG_PTO_ELICITING)) rtb, cstat, rst).

Definition NGTCP2_RTB_ENTRY_FLAG_IGNORE : Z := Z.lor NGTCP2_RTB_ENTRY_FLAG_PMTUD_PROBE NGTCP2_RTB_ENTRY_FLAG_SKIP.

(** [assert(n); --n;], when [b]. *)
Definition decrease (b : bool) (n : Z) : res Z :=
  if b then (assert! negb (n =? 0); Ok (n - 1)) else Ok n.

(** The number of bytes that are lost when the packet is. *)
Definition rtb_on_remove rtb ent cstat : res (Z * ngtcp2_rtb F * ngtcp2_conn_stat) :=
  if ent_has ent NGTCP2_RTB_ENTRY_FLAG_LOST_RETRANSMITTED then
    let* lost := decrease true (num_lost_pkts rtb) in
    let* ignore := decrease (ent_has ent NGTCP2_RTB_ENTRY_FLAG_IGNORE) (num_lost_ignore_pkts rtb) in
    Ok (0, set_lost_counts lost ignore rtb, cstat)
  else
    let* ack_eliciting := decrease (ent_has ent NGTCP2_RTB_ENTRY_FLAG_ACK_ELICITING) (num_ack_eliciting rtb) in
    let* retransmittable :=
      decrease (ent_has ent NGTCP2_RTB_ENTRY_FLAG_RETRANSMITTABLE && negb (ent_has ent NGTCP2_RTB_ENTRY_FLAG_PTO_RECLAIMED))
        (num_retransmittable rtb) in
    let* pto_eliciting := decrease (ent_has ent NGTCP2_RTB_ENTRY_FLAG_PTO_ELICITING) (num_pto_eliciting rtb) in
    let rtb := set_counts ack_eliciting retransmittable pto_eliciting rtb in
    if cc_pkt_num rtb <=? ent_pkt_num ent then
      assert! ent_pktlen ent <=? bytes_in_flight cstat;
      let cstat := set_bytes_in_flight (bytes_in_flight cstat - ent_pktlen ent) cstat in
      assert! ent_pktlen ent <=? cc_bytes_in_flight rtb;
      let rtb := set_cc_bytes (cc_pkt_num rtb) (cc_bytes_in_flight rtb - ent_pktlen ent) rtb in
      Ok (if ent_has ent NGTCP2_RTB_ENTRY_FLAG_PMTUD_PROBE then 0 else ent_pktlen ent, rtb, cstat)
    else Ok (0, rtb, cstat).

Definition ngtcp2_rtb_head rtb : ngtcp2_ksl_it := ngtcp2_ksl_begin (rtb_ents rtb).

Definition ngtcp2_rtb_empty rtb : bool := (ngtcp2_ksl_len (rtb_ents rtb) =? 0)%nat.

Definition ngtcp2_rtb_reset_cc_state rtb (cc_pkt_num : Z) : ngtcp2_rtb F := set_cc_bytes cc_pkt_num 0 rtb.

Definition ngtcp2_rtb_lost_pkt_ts rtb : res Z :=
  if (ngtcp2_ksl_len (rtb_ents rtb) =? 0)%nat then Ok UINT64_MAX else
  let* it := ngtcp2_ksl_it_prev (rtb_ents rtb) (ngtcp2_ksl_end (rtb_ents rtb)) in
  let* (_, ent) := rtb_ent_at rtb it in
  Ok (if ent_has ent NGTCP2_RTB_ENTRY_FLAG_LOST_RETRANSMITTED then ent_lost_ts ent else UINT64_MAX).

(** [acked]: the addresses of the entries that are linked by [ent->next]. *)
Definition rtb_remove rtb it (acked : list Z) (p : Z) ent cstat
    : res (ngtcp2_rtb F * ngtcp2_ksl_it * list Z * ngtcp2_conn_stat) :=
  let* (_, rtb, cstat) := rtb_on_remove rtb ent cstat in
  let* (rtb, it) := rtb_unlink rtb it ent in
  assert! negb (bool_decide (p ∈ acked));
  Ok (rtb, it, p :: acked, cstat).
End Entries.

(** ** Operations on a packet number space *)
Section Space.
Context {F S C : Type} (cc : ngtcp2_cc S) (ops : conn_ops F C).
Abbreviation state := (ld_state F S C).
Implicit Types (st : state) (ent : ngtcp2_rtb_entry F) (it : ngtcp2_ksl_it) (ack : ngtcp2_cc_ack) (ts : Z).

Definition ld_rtb st : ngtcp2_rtb F := ns_rtb (ld_ns st).
Definition put_ns (ns : ngtcp2_pktns F) st : state :=
  mk_ld ns (ld_others st) (ld_cstat st) (ld_rst st) (ld_cc st) (ld_ecn st) (ld_key st) (ld_par st) (ld_app st).
Definition put_rtb (rtb : ngtcp2_rtb F) st : state :=
  let ns := ld_ns st in put_ns (mk_pktns (ns_id ns) rtb (ns_ecn ns) (ns_ack_ecn ns) (ns_last_pkt_num ns)) st.
Definition put_ns_ecn (ecn : pktns_ecn) (ack_ecn : Z * Z * Z) st : state :=
  let ns := ld_ns st in put_ns (mk_pktns (ns_id ns) (ns_rtb ns) ecn ack_ecn (ns_last_pkt_num ns)) st.
Definition put_cstat (cstat : ngtcp2_conn_stat) st : state :=
  mk_ld (ld_ns st) (ld_others st) cstat (ld_rst st) (ld_cc st) (ld_ecn st) (ld_key st) (ld_par st) (ld_app st).
Definition put_rst (rst : ngtcp2_rst) st : state :=
  mk_ld (ld_ns st) (ld_others st) (ld_cstat st) rst (ld_cc st) (ld_ecn st) (ld_key st) (ld_par st) (ld_app st).
Definition put_cc (s : S) st : state :=
  mk_ld (ld_ns st) (ld_others st) (ld_cstat st) (ld_rst st) s (ld_ecn st) (ld_key st) (ld_par st) (ld_app st).
Definition put_ecn (ecn : conn_ecn) st : state :=
  mk_ld (ld_ns st) (ld_others st) (ld_cstat st) (ld_rst st) (ld_cc st) ecn (ld_key st) (ld_par st) (ld_app st).
Definition put_key (key : key_update) st : state :=
  mk_ld (ld_ns st) (ld_others st) (ld_cstat st) (ld_rst st) (ld_cc st) (ld_ecn st) key (ld_par st) (ld_app st).
Definition put_app (app : C) st : state :=
  mk_ld (ld_ns st) (ld_others st) (ld_cstat st) (ld_rst st) (ld_cc st) (ld_ecn st) (ld_key st) (ld_par st) app.

(** [if (cc->f) { cc->f(...); }] *)
Definition call_cc {A} (f : option (cc_callback S A)) (a : A) ts st : res state :=
  let* (s, cstat, rst) := cc_call f (ld_cc st) (ld_cstat st) (ld_rst st) a ts in
  Ok (put_cc s (put_cstat cstat (put_rst rst st))).

Definition ngtcp2_cc_pkt_init st ent : ngtcp2_cc_pkt :=
  let er := ent_rst ent in
  mk_cc_pkt (ent_pkt_num ent) (ent_pktlen ent) (ns_id (ld_ns st)) (ent_ts ent) (er_lost er) (er_tx_in_flight er)
    (er_is_app_limited er).

Definition ngtcp2_rtb_entry_objalloc_del st (p : Z) : res state :=
  let rtb := ld_rtb st in
  let* ent := rtb_load rtb p in
  let* app := co_frc_del ops (ld_app st) (ent_frc ent) in
  Ok (put_app app (put_rtb (set_store (delete p (rtb_heap rtb)) (rtb_next rtb) (rtb_ents rtb) rtb) st)).

Fixpoint del_acked st (acked : list Z) : res state :=
  match acked with
  | [] => Ok st
  | p :: acked => let* st := ngtcp2_rtb_entry_objalloc_del st p in del_acked st acked
  end.

Fixpoint free_entries (fuel : nat) st it : res state :=
  match fuel with
  | O => Fault
  | Datatypes.S fuel =>
      let rtb := ld_rtb st in
      if ngtcp2_ksl_it_end (rtb_ents rtb) it then Ok st else
      let* p := ngtcp2_ksl_it_get (rtb_ents rtb) it in
      let* st := ngtcp2_rtb_entry_objalloc_del st p in
      free_entries fuel st (ngtcp2_ksl_it_next (rtb_ents rtb) it)
  end.

Definition entries_fuel st : nat := Datatypes.S (ngtcp2_ksl_len (rtb_ents (ld_rtb st))).

Definition ngtcp2_rtb_free st : res state :=
  free_entries (entries_fuel st) st (ngtcp2_ksl_begin (rtb_ents (ld_rtb st))).

Definition ngtcp2_rtb_add st (p : Z) : res (Z * state) :=
  let rtb := ld_rtb st in
  let* ent := rtb_load rtb p in
  let* (rv, ents, _) := ngtcp2_ksl_insert ngtcp2_ksl_int64_greater (rtb_ents rtb) (ent_pkt_num ent) p in
  let rtb := set_store (rtb_heap rtb) (rtb_next rtb) ents rtb in
  if negb (rv =? 0) then Ok (rv, put_rtb rtb st) else
  let* (rtb, cstat, rst) := rtb_on_add rtb p (ld_cstat st) (ld_rst st) in
  Ok (0, put_rtb rtb (put_cstat cstat (put_rst rst st))).

(** *** Lost packets *)
Fixpoint process_lost_datagram (f : C -> Z -> res (Z * C)) (app : C) (frc : list F) : res (Z * C) :=
  match frc with
  | [] => Ok (0, app)
  | fr :: frc =>
      match co_dgram_id ops fr with
      | None => process_lost_datagram f app frc
      | Some dgram_id =>
          let* (rv, app) := f app dgram_id in
          if negb (rv =? 0) then Ok (NGTCP2_ERR_CALLBACK_FAILURE, app) else process_lost_datagram f app frc
      end
  end.

Definition conn_process_lost_datagram st ent : res (Z * state) :=
  match co_lost_datagram ops with
  | Some f =>
      if ent_has ent NGTCP2_RTB_ENTRY_FLAG_DATAGRAM then
        let* (rv, app) := process_lost_datagram f (ld_app st) (ent_frc ent) in Ok (rv, put_app app st)
      else Ok (0, st)
  | None => Ok (0, st)
  end.

(** [rtb_reclaim_frame]: the number of frames, or an error; the frames of the
    entry, which may be bound to the new ones. *)
Definition rtb_reclaim_frame st (on_loss : bool) (p : Z) ent : res (Z * state * ngtcp2_rtb_entry F) :=
  assert! ent_has ent NGTCP2_RTB_ENTRY_FLAG_RETRANSMITTABLE;
  let* (reclaimed, frc, app) := co_reclaim ops (ld_app st) on_loss (ent_pkt_num ent) (ent_frc ent) in
  let ent := set_ent_frc frc ent in
  let* rtb := rtb_store (ld_rtb st) p ent in
  Ok (reclaimed, put_app app (put_rtb rtb st), ent).

Definition not_lost_yet ent : bool :=
  negb (ent_has ent NGTCP2_RTB_ENTRY_FLAG_LOST_RETRANSMITTED) && (ent_lost_ts ent =? UINT64_MAX).

(** The statistics, and the callback of the congestion controller. *)
Definition count_lost st ent ts : res state :=
  let rtb := ld_rtb st in
  if ent_has ent NGTCP2_RTB_ENTRY_FLAG_IGNORE then
    Ok (put_rtb (set_lost_counts (num_lost_pkts rtb) (num_lost_ignore_pkts rtb + 1) rtb) st)
  else
    let cstat := ld_cstat st in
    let st := put_cstat (set_lost (u64 (pkt_lost cstat + 1)) (u64 (bytes_lost cstat + ent_pktlen ent)) cstat) st in
    if cc_pkt_num rtb <=? ent_pkt_num ent then
      let st := put_rst (set_rst_lost (u64 (rst_lost (ld_rst st) + ent_pktlen ent)) (ld_rst st)) st in
      call_cc (on_pkt_lost cc) (ngtcp2_cc_pkt_init st ent) ts st
    else Ok st.

(** The frames of a lost packet. *)
Definition reclaim_lost st (p : Z) ent : res (Z * state * ngtcp2_rtb_entry F) :=
  if ent_has ent NGTCP2_RTB_ENTRY_FLAG_PTO_RECLAIMED then
    assert! not_lost_yet ent;
    Ok (0, st, ent)
  else
    let* (rv, st) := conn_process_lost_datagram st ent in
    if negb (rv =? 0) then Ok (rv, st, ent) else
    if ent_has ent NGTCP2_RTB_ENTRY_FLAG_RETRANSMITTABLE then
      assert! negb (bool_decide (length (ent_frc ent) = O));
      assert! not_lost_yet ent;
      let* (reclaimed, st, ent) := rtb_reclaim_frame st true p ent in
      Ok (if reclaimed <? 0 then reclaimed else 0, st, ent)
    else Ok (0, st, ent).

Definition rtb_on_pkt_lost st (p : Z) ent ts : res (Z * state) :=
  let* st := count_lost st ent ts in
  let* (rv, st, ent) := reclaim_lost st p ent in
  if negb (rv =? 0) then Ok (rv, st) else
  let ent := set_ent_lost (Z.lor (ent_flags ent) NGTCP2_RTB_ENTRY_FLAG_LOST_RETRANSMITTED) ts ent in
  let* rtb := rtb_store (ld_rtb st) p ent in
  Ok (0, put_rtb (set_lost_counts (num_lost_pkts rtb + 1) (num_lost_ignore_pkts rtb) rtb) st).

(** *** Detection *)

(** [9/8] is [kTimeThreshold]. *)
Definition compute_pkt_loss_delay (cstat : ngtcp2_conn_stat) : Z :=
  Z.max (u64 (Z.max (latest_rtt cstat) (smoothed_rtt cstat) * 9) / 8) NGTCP2_GRANULARITY.

Definition compute_pkt_thres (rtb : ngtcp2_rtb F) (cstat : ngtcp2_conn_stat) : res Z :=
  let* n := div64 (cc_bytes_in_flight rtb) (max_tx_udp_payload_size cstat) in
  Ok (Z.min (Z.max (n / 2) NGTCP2_PKT_THRESHOLD) 256).

Definition store_loss_time (id t : Z) (cstat : ngtcp2_conn_stat) : res ngtcp2_conn_stat :=
  let* _ := nth_time (loss_time cstat) id in
  Ok (set_loss_time (<[Z.to_nat id := t]> (loss_time cstat)) cstat).

Definition rtb_pkt_lost st ent (loss_delay pkt_thres ts : Z) : res (bool * state) :=
  if ngtcp2_tstamp_elapsed (ent_ts ent) loss_delay ts ||
     (ent_pkt_num ent + pkt_thres <=? largest_acked_tx_pkt_num (ld_rtb st))
  then Ok (true, st)
  else
    let id := ns_id (ld_ns st) in
    let* loss_time := nth_time (loss_time (ld_cstat st)) id in
    let t := u64 (ent_ts ent + loss_delay) in
    let* cstat := store_loss_time id (if loss_time =? UINT64_MAX then t else Z.min loss_time t) (ld_cstat st) in
    Ok (false, put_cstat cstat st).

Definition ecn_all_lost (ecn : pktns_ecn) : bool := pe_validation_pkt_sent ecn =? pe_validation_pkt_lost ecn.

Definition conn_all_ecn_pkt_lost st : bool := forallb ecn_all_lost (ld_others st) && ecn_all_lost (ns_ecn (ld_ns st)).

(** Is [ent] one of the packets that validate the path for ECN? *)
Definition ecn_counts (ns : ngtcp2_pktns F) ent : bool :=
  (pe_start_pkt_num (ns_ecn ns) <=? ent_pkt_num ent) && ent_has ent NGTCP2_RTB_ENTRY_FLAG_ECN.

(** The loop that declares every packet from the iterator on lost.
    [last_lost]: the last packet of the run of lost packets that is considered
    for persistent congestion, or -1. *)
Record lost_run := mk_lost_run {
  lr_oldest_ts : Z;
  lr_last_lost : Z;
  lr_ecn_lost : Z;
  lr_bytes_lost : Z;
}.

Definition extend_run (run : lost_run) ent (start_ts : Z) : lost_run :=
  if (lr_last_lost run =? ent_pkt_num ent + 1) && (start_ts <=? ent_ts ent)
  then mk_lost_run (ent_ts ent) (ent_pkt_num ent) (lr_ecn_lost run) (lr_bytes_lost run)
  else mk_lost_run (lr_oldest_ts run) (-1) (lr_ecn_lost run) (lr_bytes_lost run).

Fixpoint lost_loop (fuel : nat) st it (run : lost_run) (latest_ts congestion_period start_ts ts : Z)
    : res (Z * state * lost_run) :=
  match fuel with
  | O => Fault
  | Datatypes.S fuel =>
      if ngtcp2_ksl_it_end (rtb_ents (ld_rtb st)) it then Ok (0, st, run) else
      let* (p, ent) := rtb_ent_at (ld_rtb st) it in
      let run := extend_run run ent start_ts in
      if ent_has ent NGTCP2_RTB_ENTRY_FLAG_LOST_RETRANSMITTED then
        if negb (ns_id (ld_ns st) =? NGTCP2_PKTNS_ID_APPLICATION) || (lr_last_lost run =? -1) ||
           (congestion_period <=? u64 (latest_ts - lr_oldest_ts run))
        then Ok (0, st, run)
        else lost_loop fuel st (ngtcp2_ksl_it_next (rtb_ents (ld_rtb st)) it) run latest_ts congestion_period start_ts ts
      else
        let ecn_lost := lr_ecn_lost run + Z.b2z (ecn_counts (ld_ns st) ent) in
        let* (lost, rtb, cstat) := rtb_on_remove (ld_rtb st) ent (ld_cstat st) in
        let run := mk_lost_run (lr_oldest_ts run) (lr_last_lost run) ecn_lost (u64 (lr_bytes_lost run + lost)) in
        let* (rv, st) := rtb_on_pkt_lost (put_rtb rtb (put_cstat cstat st)) p ent ts in
        if negb (rv =? 0) then Ok (rv, st, run) else
        lost_loop fuel st (ngtcp2_ksl_it_next (rtb_ents (ld_rtb st)) it) run latest_ts congestion_period start_ts ts
  end.

(** [pktns->tx.ecn.validation_pkt_lost += ecn_pkt_lost;] and the assertion. *)
Definition add_ecn_lost st (n : Z) : res state :=
  let ecn := ns_ecn (ld_ns st) in
  let lost := pe_validation_pkt_lost ecn + n in
  assert! lost <=? pe_validation_pkt_sent ecn;
  Ok (put_ns_ecn (mk_pktns_ecn (pe_start_pkt_num ecn) (pe_validation_pkt_sent ecn) lost (pe_ect0 ecn)) (ns_ack_ecn (ld_ns st)) st).

Definition set_ecn_state (state : Z) st : ld_state F S C :=
  put_ecn (mk_conn_ecn state (ce_validation_start_ts (ld_ecn st)) (ce_dgram_sent (ld_ecn st))) st.

(** The [switch] on the state of ECN. *)
Definition ecn_on_loss st (ecn_lost pto ts : Z) : res state :=
  let ecn := ld_ecn st in
  let unknown st :=
    let* st := add_ecn_lost st ecn_lost in
    Ok (if conn_all_ecn_pkt_lost st then set_ecn_state NGTCP2_ECN_STATE_FAILED st else st) in
  if ce_state ecn =? NGTCP2_ECN_STATE_TESTING then
    if ce_validation_start_ts ecn =? UINT64_MAX then Ok st
    else if u64 (ts - ce_validation_start_ts ecn) <? u64 (3 * pto) then add_ecn_lost st ecn_lost
    else unknown (set_ecn_state NGTCP2_ECN_STATE_UNKNOWN st)
  else if ce_state ecn =? NGTCP2_ECN_STATE_UNKNOWN then unknown st
  else Ok st.

Definition congestion_period (par : conn_params) (cstat : ngtcp2_conn_stat) : Z :=
  u64 (compute_pto (smoothed_rtt cstat) (rttvar cstat) (default 0 (cp_max_ack_delay par)) *
       NGTCP2_PERSISTENT_CONGESTION_THRESHOLD).

(** What follows the loop. *)
Definition congestion_on_loss st ack (run : lost_run) (latest_ts period pto ts : Z) : res (state * ngtcp2_cc_ack) :=
  if lr_bytes_lost run =? 0 then Ok (st, ack) else
  let* st := ecn_on_loss st (lr_ecn_lost run) pto ts in
  let ack := mk_cc_ack (ca_bytes_delivered ack) (lr_bytes_lost run) (ca_pkt_delivered ack) (ca_largest_pkt_sent_ts ack) (ca_rtt ack) in
  let* st := call_cc (congestion_event cc) (latest_ts, ack) ts st in
  let loss_window := u64 (latest_ts - lr_oldest_ts run) in
  if (ns_id (ld_ns st) =? NGTCP2_PKTNS_ID_APPLICATION) && negb (loss_window =? 0) && (period <=? loss_window) then
    let rtt := cp_initial_rtt (ld_par st) in
    let cstat := ld_cstat st in
    let st := put_cstat (set_rtt (latest_rtt cstat) UINT64_MAX rtt (rtt / 2) UINT64_MAX cstat) st in
    let* st := call_cc (on_persistent_congestion cc) tt ts st in
    Ok (st, ack)
  else Ok (st, ack).

(** The outer loop. *)
Fixpoint detect_loop (fuel : nat) st it ack (loss_delay pkt_thres pto ts : Z) : res (Z * state * ngtcp2_cc_ack) :=
  match fuel with
  | O => Fault
  | Datatypes.S fuel =>
      if ngtcp2_ksl_it_end (rtb_ents (ld_rtb st)) it then Ok (0, st, ack) else
      let* (p, ent) := rtb_ent_at (ld_rtb st) it in
      if ent_has ent NGTCP2_RTB_ENTRY_FLAG_LOST_RETRANSMITTED then Ok (0, st, ack) else
      let* (lost, st) := rtb_pkt_lost st ent loss_delay pkt_thres ts in
      if lost then
        let run := mk_lost_run (ent_ts ent) (ent_pkt_num ent + 1) 0 0 in
        let period := congestion_period (ld_par st) (ld_cstat st) in
        let start_ts := Z.max (cp_handshake_confirmed_ts (ld_par st)) (first_rtt_sample_ts (ld_cstat st)) in
        let* (rv, st, run) := lost_loop (Datatypes.S fuel) st it run (ent_ts ent) period start_ts ts in
        if negb (rv =? 0) then Ok (rv, st, ack) else
        let* (st, ack) := congestion_on_loss st ack run (ent_ts ent) period pto ts in
        Ok (0, st, ack)
      else detect_loop fuel st (ngtcp2_ksl_it_next (rtb_ents (ld_rtb st)) it) ack loss_delay pkt_thres pto ts
  end.

(** *** Lost entries that are not kept *)

(** The last entry, which must be lost, is removed. *)
Definition remove_lost st it (p : Z) ent : res (state * ngtcp2_ksl_it) :=
  let rtb := ld_rtb st in
  let rtb := set_lost_counts (u64 (num_lost_pkts rtb - 1))
    (if ent_has ent NGTCP2_RTB_ENTRY_FLAG_IGNORE then u64 (num_lost_ignore_pkts rtb - 1) else num_lost_ignore_pkts rtb) rtb in
  let* (rtb, it) := rtb_unlink rtb it ent in
  let* st := ngtcp2_rtb_entry_objalloc_del (put_rtb rtb st) p in
  Ok (st, it).

(** [keep st ent]: the loop ends. *)
Fixpoint remove_lost_loop (fuel : nat) (more : ngtcp2_rtb F -> bool) (keep : ngtcp2_rtb_entry F -> bool) st it : res state :=
  match fuel with
  | O => Fault
  | Datatypes.S fuel =>
      if negb (more (ld_rtb st)) then Ok st else
      assert! ngtcp2_ksl_it_end (rtb_ents (ld_rtb st)) it;
      let* it := ngtcp2_ksl_it_prev (rtb_ents (ld_rtb st)) it in
      let* (p, ent) := rtb_ent_at (ld_rtb st) it in
      assert! ent_has ent NGTCP2_RTB_ENTRY_FLAG_LOST_RETRANSMITTED;
      if keep ent then Ok st else
      let* (st, it) := remove_lost st it p ent in
      remove_lost_loop fuel more keep st it
  end.

Definition ngtcp2_rtb_remove_excessive_lost_pkt st (n : Z) : res state :=
  remove_lost_loop (entries_fuel st) (fun rtb => n <? num_lost_pkts rtb) (fun _ => false) st
    (ngtcp2_ksl_end (rtb_ents (ld_rtb st))).

Definition ngtcp2_rtb_remove_expired_lost_pkt st (timeout ts : Z) : res state :=
  if num_lost_pkts (ld_rtb st) =? 0 then Ok st else
  remove_lost_loop (entries_fuel st) (fun rtb => negb (num_lost_pkts rtb =? 0))
    (fun ent => u64 (ts - ent_lost_ts ent) <? timeout) st (ngtcp2_ksl_end (rtb_ents (ld_rtb st))).

Definition rtb_detect_lost_pkt st ack ts : res (Z * state * ngtcp2_cc_ack) :=
  let id := ns_id (ld_ns st) in
  let* pkt_thres := compute_pkt_thres (ld_rtb st) (ld_cstat st) in
  let pto := ngtcp2_conn_compute_pto (ld_par st) (ld_cstat st) id in
  let* cstat := store_loss_time id UINT64_MAX (ld_cstat st) in
  let loss_delay := compute_pkt_loss_delay cstat in
  let st := put_cstat cstat st in
  let* it := ksl_lower_bound (rtb_ents (ld_rtb st)) (largest_acked_tx_pkt_num (ld_rtb st)) in
  let* (rv, st, ack) := detect_loop (entries_fuel st) st it ack loss_delay pkt_thres pto ts in
  if negb (rv =? 0) then Ok (rv, st, ack) else
  let* st := ngtcp2_rtb_remove_excessive_lost_pkt st pkt_thres in
  Ok (0, st, ack).

Definition empty_cc_ack : ngtcp2_cc_ack := mk_cc_ack 0 0 0 UINT64_MAX UINT64_MAX.

Definition ngtcp2_rtb_detect_lost_pkt st ts : res (Z * state) :=
  let* (rv, st, _) := rtb_detect_lost_pkt st empty_cc_ack ts in Ok (rv, st).
(** *** Acknowledgements *)
Definition rtb_on_pkt_acked st ent ts : res state :=
  assert! cc_pkt_num (ld_rtb st) <=? ent_pkt_num ent;
  let st := put_rst (ngtcp2_rst_update_rate_sample (ld_rst st) ent ts) st in
  let* st := call_cc (on_pkt_acked cc) (ngtcp2_cc_pkt_init st ent) ts st in
  Ok (if negb (ent_has ent NGTCP2_RTB_ENTRY_FLAG_PROBE) && ent_has ent NGTCP2_RTB_ENTRY_FLAG_ACK_ELICITING
      then put_cstat (set_pto_count 0 (ld_cstat st)) st else st).

(** The ECN counts of an ACK frame that cannot be right. *)
Definition ecn_invalid st (fr : ngtcp2_ack) (ecn_acked : Z) : bool :=
  let '(ect0, ect1, ce) := default (0, 0, 0) (ack_ecn fr) in
  let '(ack_ect0, ack_ect1, ack_ce) := ns_ack_ecn (ld_ns st) in
  (negb (ecn_acked =? 0) && (ack_type fr =? NGTCP2_FRAME_ACK)) ||
  (ack_type fr =? NGTCP2_FRAME_ACK_ECN) &&
  ((ect0 <? ack_ect0) || (ect1 <? ack_ect1) || (ce <? ack_ce) ||
   (u64 (u64 (ect0 - ack_ect0) + u64 (ce - ack_ce)) <? ecn_acked) || (pe_ect0 (ns_ecn (ld_ns st)) <? ect0) || negb (ect1 =? 0)).

Definition conn_verify_ecn st (fr : ngtcp2_ack) (ecn_acked : Z) ack ts : res state :=
  if ce_state (ld_ecn st) =? NGTCP2_ECN_STATE_FAILED then Ok st else
  if ecn_invalid st fr ecn_acked then Ok (set_ecn_state NGTCP2_ECN_STATE_FAILED st) else
  let st :=
    if negb (ce_state (ld_ecn st) =? NGTCP2_ECN_STATE_CAPABLE) && negb (ecn_acked =? 0)
    then set_ecn_state NGTCP2_ECN_STATE_CAPABLE st else st in
  if ack_type fr =? NGTCP2_FRAME_ACK_ECN then
    let '(ect0, ect1, ce) := default (0, 0, 0) (ack_ecn fr) in
    let '(_, _, ack_ce) := ns_ack_ecn (ld_ns st) in
    let* st :=
      if negb (ca_largest_pkt_sent_ts ack =? UINT64_MAX) && (ack_ce <? ce)
      then call_cc (congestion_event cc) (ca_largest_pkt_sent_ts ack, ack) ts st else Ok st in
    Ok (put_ns_ecn (ns_ecn (ld_ns st)) (ect0, ect1, ce) st)
  else Ok st.

(** What the loops over the acknowledged packets find: the time the largest
    one was sent, when it is newly acknowledged, and whether one of them
    elicited the ACK. *)
Record ack_info := mk_ack_info {
  ai_largest_sent_ts : Z;
  ai_ack_eliciting : bool;
}.

(** The entries from the iterator to [min_ack] are taken out of the list.
    [first]: the loop for the first range. *)
Fixpoint ack_range (fuel : nat) (first : bool) (largest_ack min_ack : Z) st it (acked : list Z) (info : ack_info)
    : res (Z * state * list Z * ack_info) :=
  match fuel with
  | O => Fault
  | Datatypes.S fuel =>
      let rtb := ld_rtb st in
      if ngtcp2_ksl_it_end (rtb_ents rtb) it then Ok (0, st, acked, info) else
      let* pkt_num := ngtcp2_ksl_it_key (rtb_ents rtb) it in
      assert! negb first || (pkt_num <=? largest_ack);
      if pkt_num <? min_ack then Ok (0, st, acked, info) else
      let* (p, ent) := rtb_ent_at rtb it in
      if ent_has ent NGTCP2_RTB_ENTRY_FLAG_SKIP then Ok (NGTCP2_ERR_PROTO, st, acked, info) else
      let info := mk_ack_info
        (if first && (largest_acked_tx_pkt_num rtb =? pkt_num) then ent_ts ent else ai_largest_sent_ts info)
        (ai_ack_eliciting info || ent_has ent NGTCP2_RTB_ENTRY_FLAG_ACK_ELICITING) in
      let* (rtb, it, acked, cstat) := rtb_remove rtb it acked p ent (ld_cstat st) in
      ack_range fuel first largest_ack min_ack (put_rtb rtb (put_cstat cstat st)) it acked info
  end.

Fixpoint ack_more_ranges (ranges : list ngtcp2_ack_range) (min_ack : Z) st (acked : list Z) (info : ack_info)
    : res (Z * state * list Z * ack_info) :=
  match ranges with
  | [] => Ok (0, st, acked, info)
  | r :: ranges =>
      let largest_ack := min_ack - i64 (ar_gap r) - 2 in
      let min_ack := largest_ack - i64 (ar_len r) in
      let* it := ksl_lower_bound (rtb_ents (ld_rtb st)) largest_ack in
      if ngtcp2_ksl_it_end (rtb_ents (ld_rtb st)) it then Ok (0, st, acked, info) else
      let* (rv, st, acked, info) := ack_range (entries_fuel st) false largest_ack min_ack st it acked info in
      if negb (rv =? 0) then Ok (rv, st, acked, info) else ack_more_ranges ranges min_ack st acked info
  end.

(** The two loops. *)
Definition take_acked st it (largest_ack min_ack : Z) (ranges : list ngtcp2_ack_range) (info : ack_info)
    : res (Z * state * list Z * ack_info) :=
  let* (rv, st, acked, info) := ack_range (entries_fuel st) true largest_ack min_ack st it [] info in
  if negb (rv =? 0) then Ok (rv, st, acked, info) else ack_more_ranges ranges min_ack st acked info.

Record acked_sum := mk_acked_sum {
  as_ack : ngtcp2_cc_ack;
  as_ecn_acked : Z;
  as_num_acked : Z;
}.

(** The loop over the acknowledged entries; the entries that are left when
    the processing of one fails. *)
Fixpoint process_acked st (acked : list Z) (sum : acked_sum) ts : res (Z * state * list Z * acked_sum) :=
  match acked with
  | [] => Ok (0, st, [], sum)
  | p :: rest =>
      let* ent := rtb_load (ld_rtb st) p in
      let ecn_acked := as_ecn_acked sum + Z.b2z (ecn_counts (ld_ns st) ent) in
      let* (rv, cstat, app) := co_acked ops (ld_app st) (ld_cstat st) ent in
      let st := put_app app (put_cstat cstat st) in
      if negb (rv =? 0) then Ok (rv, st, acked, mk_acked_sum (as_ack sum) ecn_acked (as_num_acked sum)) else
      let* (st, sum) :=
        if cc_pkt_num (ld_rtb st) <=? ent_pkt_num ent then
          let ack := as_ack sum in
          assert! ca_pkt_delivered ack <=? er_delivered (ent_rst ent);
          let ack := mk_cc_ack (u64 (ca_bytes_delivered ack + ent_pktlen ent)) (ca_bytes_lost ack) (er_delivered (ent_rst ent))
            (ca_largest_pkt_sent_ts ack) (ca_rtt ack) in
          let* st := rtb_on_pkt_acked st ent ts in
          Ok (st, mk_acked_sum ack ecn_acked (as_num_acked sum + 1))
        else Ok (st, mk_acked_sum (as_ack sum) ecn_acked (as_num_acked sum)) in
      let* st := ngtcp2_rtb_entry_objalloc_del st p in
      process_acked st rest sum ts
  end.

(** [fail:] *)
Definition ack_fail st (acked : list Z) (rv : Z) : res (Z * state) := let* st := del_acked st acked in Ok (rv, st).

Definition confirm_key_update st (largest_ack ts : Z) : ld_state F S C :=
  let key := ld_key st in
  if ku_not_confirmed key && ku_initiator key && (ku_pkt_num key <=? largest_ack)
  then put_key (mk_key_update false false (ku_pkt_num key) ts) st else st.

Definition update_rtt_on_ack st (info : ack_info) (ack_delay pkt_ts ts : Z) ack : res (state * ngtcp2_cc_ack) :=
  let sent_ts := ai_largest_sent_ts info in
  let ack := mk_cc_ack (ca_bytes_delivered ack) (ca_bytes_lost ack) (ca_pkt_delivered ack) sent_ts (ca_rtt ack) in
  if negb (sent_ts =? UINT64_MAX) && ai_ack_eliciting info then
    let rtt := Z.max (u64 (pkt_ts - sent_ts)) 1 in
    let* cstat := ngtcp2_conn_update_rtt (ld_par st) (ld_cstat st) rtt ack_delay ts in
    Ok (put_cstat cstat st, mk_cc_ack (ca_bytes_delivered ack) (ca_bytes_lost ack) (ca_pkt_delivered ack) sent_ts rtt)
  else Ok (st, ack).

(** What follows the processing of the acknowledged entries.  [num_lost]: the
    lost packets before. *)
Definition finish_ack st (fr : ngtcp2_ack) (verify_ecn : bool) (num_lost : Z) (sum : acked_sum) ts : res (Z * state) :=
  let ack := as_ack sum in
  let rtb := ld_rtb st in
  let* st :=
    if negb (num_lost =? 0) && (num_lost_pkts rtb =? num_lost_ignore_pkts rtb)
    then call_cc (on_spurious_congestion cc) tt ts st else Ok st in
  let* (rv, st, ack) :=
    if negb (as_num_acked sum =? 0) then
      let (rst, cstat) := ngtcp2_rst_on_ack_recv (ld_rst st) (ld_cstat st) in
      rtb_detect_lost_pkt (put_rst rst (put_cstat cstat st)) ack ts
    else Ok (0, st, ack) in
  if negb (rv =? 0) then Ok (rv, st) else
  let* st := if verify_ecn then conn_verify_ecn st fr (as_ecn_acked sum) ack ts else Ok st in
  let* st := call_cc (on_ack_recv cc) ack ts st in
  Ok (as_num_acked sum, st).

(** The key update, the largest acknowledged packet number and the rate sample. *)
Definition recv_ack_start st (largest_ack ts : Z) : ld_state F S C :=
  let st := confirm_key_update st largest_ack ts in
  let rtb := ld_rtb st in
  let st := if largest_acked_tx_pkt_num rtb <? largest_ack then put_rtb (set_largest_acked largest_ack rtb) st else st in
  let (rst, cstat) := ngtcp2_rst_reset_rate_sample (ld_rst st) (ld_cstat st) in
  put_rst rst (put_cstat cstat st).

Definition ngtcp2_rtb_recv_ack st (fr : ngtcp2_ack) (pkt_ts ts : Z) : res (Z * state) :=
  let largest_ack := ack_largest_ack fr in
  let num_lost := u64 (num_lost_pkts (ld_rtb st) - num_lost_ignore_pkts (ld_rtb st)) in
  let verify_ecn := largest_acked_tx_pkt_num (ld_rtb st) <? largest_ack in
  let st := recv_ack_start st largest_ack ts in
  let* it := ksl_lower_bound (rtb_ents (ld_rtb st)) largest_ack in
  if ngtcp2_ksl_it_end (rtb_ents (ld_rtb st)) it then
    let* st := if verify_ecn then conn_verify_ecn st fr 0 empty_cc_ack ts else Ok st in
    let* st := call_cc (on_ack_recv cc) empty_cc_ack ts st in
    Ok (0, st)
  else
    let min_ack := largest_ack - i64 (ack_first_ack_range fr) in
    let* (rv, st, acked, info) := take_acked st it largest_ack min_ack (ack_ranges fr) (mk_ack_info UINT64_MAX false) in
    if negb (rv =? 0) then ack_fail st acked rv else
    let* (st, ack) := update_rtt_on_ack st info (ack_delay_unscaled fr) pkt_ts ts empty_cc_ack in
    let* (rv, st, acked, sum) := process_acked st acked (mk_acked_sum ack 0 0) ts in
    if negb (rv =? 0) then ack_fail st acked rv else
    finish_ack st fr verify_ecn num_lost sum ts.

(** *** Retry, 0-RTT, probes *)

(** The checks on an entry that a Retry packet finds. *)
Definition retry_entry_ok (rtb : ngtcp2_rtb F) ent : bool :=
  negb (ent_has ent NGTCP2_RTB_ENTRY_FLAG_PROBE) && negb (ent_has ent NGTCP2_RTB_ENTRY_FLAG_LOST_RETRANSMITTED) &&
  (num_lost_pkts rtb =? 0) && (num_lost_ignore_pkts rtb =? 0) && negb (ent_has ent NGTCP2_RTB_ENTRY_FLAG_PMTUD_PROBE).

(** An entry with nothing to send again. *)
Definition retry_drop ent : bool :=
  ent_has ent NGTCP2_RTB_ENTRY_FLAG_PTO_RECLAIMED ||
  negb (ent_has ent NGTCP2_RTB_ENTRY_FLAG_RETRANSMITTABLE) &&
  (negb (ent_has ent NGTCP2_RTB_ENTRY_FLAG_DATAGRAM) || match co_lost_datagram ops with None => true | Some _ => false end).

Fixpoint retry_loop (fuel : nat) st it : res (Z * state) :=
  match fuel with
  | O => Fault
  | Datatypes.S fuel =>
      if ngtcp2_ksl_it_end (rtb_ents (ld_rtb st)) it then Ok (0, st) else
      let* (p, ent) := rtb_ent_at (ld_rtb st) it in
      let* (_, rtb, cstat) := rtb_on_remove (ld_rtb st) ent (ld_cstat st) in
      let* (rtb, it) := rtb_unlink rtb it ent in
      let st := put_rtb rtb (put_cstat cstat st) in
      assert! retry_entry_ok rtb ent;
      if retry_drop ent then
        let* st := ngtcp2_rtb_entry_objalloc_del st p in retry_loop fuel st it
      else
        let* (rv, frc, app) := co_reclaim_on_retry ops (ld_app st) (ent_frc ent) in
        let* rtb := rtb_store rtb p (set_ent_frc frc ent) in
        let* st := ngtcp2_rtb_entry_objalloc_del (put_app app (put_rtb rtb st)) p in
        if negb (rv =? 0) then Ok (rv, st) else retry_loop fuel st it
  end.

Definition ngtcp2_rtb_reclaim_on_retry st : res (Z * state) :=
  retry_loop (entries_fuel st) st (ngtcp2_ksl_begin (rtb_ents (ld_rtb st))).

Fixpoint early_data_loop (fuel : nat) st it : res state :=
  match fuel with
  | O => Fault
  | Datatypes.S fuel =>
      if ngtcp2_ksl_it_end (rtb_ents (ld_rtb st)) it then Ok st else
      let* (p, ent) := rtb_ent_at (ld_rtb st) it in
      if negb (ent_type ent =? NGTCP2_PKT_0RTT) then
        early_data_loop fuel st (ngtcp2_ksl_it_next (rtb_ents (ld_rtb st)) it)
      else
        let* (_, rtb, cstat) := rtb_on_remove (ld_rtb st) ent (ld_cstat st) in
        let* (rtb, it) := rtb_unlink rtb it ent in
        let* st := ngtcp2_rtb_entry_objalloc_del (put_rtb rtb (put_cstat cstat st)) p in
        early_data_loop fuel st it
  end.

Definition ngtcp2_rtb_remove_early_data st : res state :=
  early_data_loop (entries_fuel st) st (ngtcp2_ksl_begin (rtb_ents (ld_rtb st))).

Definition pto_skip ent : bool :=
  ent_has ent NGTCP2_RTB_ENTRY_FLAG_LOST_RETRANSMITTED || ent_has ent NGTCP2_RTB_ENTRY_FLAG_PTO_RECLAIMED ||
  negb (ent_has ent NGTCP2_RTB_ENTRY_FLAG_RETRANSMITTABLE).

(** [ent->flags |= PTO_RECLAIMED; ent->flags &= ~PTO_ELICITING;] and the
    counters. *)
Definition mark_reclaimed st (p : Z) ent : res state :=
  let flags := Z.lor (ent_flags ent) NGTCP2_RTB_ENTRY_FLAG_PTO_RECLAIMED in
  let* retransmittable := decrease true (num_retransmittable (ld_rtb st)) in
  let* pto_eliciting := decrease (has_flag flags NGTCP2_RTB_ENTRY_FLAG_PTO_ELICITING) (num_pto_eliciting (ld_rtb st)) in
  let* rtb := rtb_store (ld_rtb st) p (set_ent_lost (Z.ldiff flags NGTCP2_RTB_ENTRY_FLAG_PTO_ELICITING) (ent_lost_ts ent) ent) in
  Ok (put_rtb (set_counts (num_ack_eliciting rtb) retransmittable pto_eliciting rtb) st).

(** A negative number is an error; otherwise the packets that are still to be
    reclaimed. *)
Fixpoint pto_loop (fuel : nat) st it (num_pkts : Z) : res (Z * state) :=
  match fuel with
  | O => Fault
  | Datatypes.S fuel =>
      if ngtcp2_ksl_it_begin (rtb_ents (ld_rtb st)) it || (num_pkts =? 0) then Ok (num_pkts, st) else
      let* it := ngtcp2_ksl_it_prev (rtb_ents (ld_rtb st)) it in
      let* (p, ent) := rtb_ent_at (ld_rtb st) it in
      if pto_skip ent then pto_loop fuel st it num_pkts else
      assert! negb (bool_decide (length (ent_frc ent) = O));
      let* (reclaimed, st, ent) := rtb_reclaim_frame st false p ent in
      if reclaimed <? 0 then Ok (reclaimed, st) else
      let* st := mark_reclaimed st p ent in
      pto_loop fuel st it (if reclaimed =? 0 then num_pkts else num_pkts - 1)
  end.

Definition ngtcp2_rtb_reclaim_on_pto st (num_pkts : Z) : res (Z * state) :=
  let* (n, st) := pto_loop (entries_fuel st) st (ngtcp2_ksl_end (rtb_ents (ld_rtb st))) num_pkts in
  Ok (if n <? 0 then n else num_pkts - n, st).
End Space.
