(* ===== verification/RtbInv.v ===== *)
(** * Packets in flight: invariant

    The entries of a packet number space as a list in descending order of
    their packet numbers, what the counters say about it, and the steps that
    every operation is made of: an entry is read, changed, taken out of the
    list, released. *)

From S2P Require Import Prelude Const Ksl KslInv KslIter KslSearch KslSpec KslMap Acktr KslStore ConnStat Rst Cc Recovery Rtb.
From stdpp Require Import list gmap sorting.
#[local] Open Scope Z_scope.

(** ** Sums over a list *)
Fixpoint sumz {A : Type} (f : A -> Z) (l : list A) : Z :=
  match l with [] => 0 | x :: l => f x + sumz f l end.

Section Sums.
Context {A : Type}.
Implicit Types (f g : A -> Z) (l : list A).

Lemma sumz_app f l1 l2 : sumz f (l1 ++ l2) = sumz f l1 + sumz f l2.
Proof. induction l1; cbn; lia. Qed.

Lemma sumz_middle f l1 x l2 : sumz f (l1 ++ x :: l2) = f x + sumz f (l1 ++ l2).
Proof. rewrite !sumz_app. cbn. lia. Qed.

Lemma sumz_nonneg f l : (forall x, x ∈ l -> 0 <= f x) -> 0 <= sumz f l.
Proof.
  induction l as [|x l IH]; intros H; cbn; [done|]. pose proof (H x ltac:(rewrite elem_of_cons; auto)).
  specialize (IH ltac:(intros y Hy; apply H; rewrite elem_of_cons; auto)). lia.
Qed.

Lemma sumz_le f g l : (forall x, x ∈ l -> f x <= g x) -> sumz f l <= sumz g l.
Proof.
  induction l as [|x l IH]; intros H; cbn; [done|]. pose proof (H x ltac:(rewrite elem_of_cons; auto)).
  specialize (IH ltac:(intros y Hy; apply H; rewrite elem_of_cons; auto)). lia.
Qed.

Lemma sumz_ext f g l : (forall x, x ∈ l -> f x = g x) -> sumz f l = sumz g l.
Proof. intros H. apply Z.le_antisymm; apply sumz_le; intros x Hx; rewrite (H x Hx); lia. Qed.

Lemma sumz_rev f l : sumz f (rev l) = sumz f l.
Proof. induction l; cbn; [done|]. rewrite sumz_app. cbn. lia. Qed.
End Sums.

Lemma b2z_range b : 0 <= Z.b2z b <= 1.
Proof. by destruct b. Qed.

Section Inv.
Context {F : Type}.
Implicit Types (rtb : ngtcp2_rtb F) (e : ngtcp2_rtb_entry F) (l lA lB : list (ngtcp2_rtb_entry F)) (it : ngtcp2_ksl_it)
  (cstat : ngtcp2_conn_stat) (out : list (Z * ngtcp2_rtb_entry F)).

Definition is_lost e : bool := ent_has e NGTCP2_RTB_ENTRY_FLAG_LOST_RETRANSMITTED.

(** ** What an entry counts for *)
Definition w_ack e : Z := Z.b2z (negb (is_lost e) && ent_has e NGTCP2_RTB_ENTRY_FLAG_ACK_ELICITING).
Definition w_retr e : Z :=
  Z.b2z (negb (is_lost e) && (ent_has e NGTCP2_RTB_ENTRY_FLAG_RETRANSMITTABLE && negb (ent_has e NGTCP2_RTB_ENTRY_FLAG_PTO_RECLAIMED))).
Definition w_pto e : Z := Z.b2z (negb (is_lost e) && ent_has e NGTCP2_RTB_ENTRY_FLAG_PTO_ELICITING).
Definition w_lost e : Z := Z.b2z (is_lost e).
Definition w_ignore e : Z := Z.b2z (is_lost e && ent_has e NGTCP2_RTB_ENTRY_FLAG_IGNORE).
Definition w_bytes (cc_pkt_num : Z) e : Z := if negb (is_lost e) && (cc_pkt_num <=? ent_pkt_num e) then ent_pktlen e else 0.

(** What the counters count.  The first three leave out the packets that are
    lost, which [ents] still has (the comment in [lib/ngtcp2_rtb.h] says that
    [num_ack_eliciting] counts the entries of [ents]); the bytes in flight
    leave out the packets below [cc_pkt_num], which were sent before the
    congestion state was reset. *)
Record counts l rtb : Prop := {
  cn_ack : num_ack_eliciting rtb = sumz w_ack l;
  cn_retr : num_retransmittable rtb = sumz w_retr l;
  cn_pto : num_pto_eliciting rtb = sumz w_pto l;
  cn_lost : num_lost_pkts rtb = sumz w_lost l;
  cn_ignore : num_lost_ignore_pkts rtb = sumz w_ignore l;
  cn_bytes : cc_bytes_in_flight rtb = sumz (w_bytes (cc_pkt_num rtb)) l;
}.

Record ent_ok (largest_acked : Z) e : Prop := {
  eo_pkt_num : 0 <= ent_pkt_num e < 2 ^ 62;
  eo_pktlen : 0 <= ent_pktlen e;
  eo_live : is_lost e = false -> ent_lost_ts e = UINT64_MAX;
  eo_lost : is_lost e = true -> ent_pkt_num e <= largest_acked;
  eo_frc : ent_has e NGTCP2_RTB_ENTRY_FLAG_RETRANSMITTABLE = true -> ent_frc e <> [];
}.

(** [e2] was sent before [e1]. *)
Definition sent_after (cc_pkt_num : Z) e1 e2 : Prop :=
  ent_pkt_num e2 < ent_pkt_num e1 /\ (cc_pkt_num <= ent_pkt_num e2 -> er_delivered (ent_rst e2) <= er_delivered (ent_rst e1)).

Definition rtb_stored l out rtb : Prop := kstore ent_pkt_num l out (rtb_heap rtb) (rtb_next rtb) (rtb_ents rtb).

(** What the steps on the store and the counters leave alone. *)
Definition same_base rtb rtb' : Prop :=
  largest_acked_tx_pkt_num rtb' = largest_acked_tx_pkt_num rtb /\ cc_pkt_num rtb' = cc_pkt_num rtb /\
  probe_pkt_left rtb' = probe_pkt_left rtb.

Lemma w_nonneg e : 0 <= w_ack e /\ 0 <= w_retr e /\ 0 <= w_pto e /\ 0 <= w_lost e /\ 0 <= w_ignore e.
Proof. unfold w_ack, w_retr, w_pto, w_lost, w_ignore. repeat split; apply b2z_range. Qed.

Lemma w_bytes_range cc e : 0 <= ent_pktlen e -> 0 <= w_bytes cc e <= ent_pktlen e.
Proof. unfold w_bytes. destruct (_ && _); lia. Qed.

(** ** Steps on the store *)
Lemma rtb_ent_at_ok lA e lB out rtb it A B :
  rtb_stored (lA ++ e :: lB) out rtb -> cursor (rtb_ents rtb) it A B -> length lA = length A ->
  exists p B', B = (ent_pkt_num e, p) :: B' /\ rtb_heap rtb !! p = Some e /\ rtb_ent_at rtb it = Ok (p, e) /\
    ngtcp2_ksl_it_key (rtb_ents rtb) it = Ok (ent_pkt_num e) /\ length lB = length B'.
Proof.
  intros Hst Hc Hl. destruct (kstore_at _ _ _ _ _ _ _ _ _ _ _ Hst Hc Hl) as ([k p] & B' & -> & Hk & Hg & Hkey & Hp & HlB).
  cbn in *. subst k. exists p, B'. split_and!; try done. unfold rtb_ent_at, rtb_load. rewrite Hg. cbn [bind]. by rewrite Hp.
Qed.

Lemma rtb_store_ok lA e lB out rtb A p B e' :
  rtb_stored (lA ++ e :: lB) out rtb -> ksl_elems (rtb_ents rtb) = A ++ (ent_pkt_num e, p) :: B -> length lA = length A ->
  ent_pkt_num e' = ent_pkt_num e ->
  exists heap, rtb_store rtb p e' = Ok (set_store heap (rtb_next rtb) (rtb_ents rtb) rtb) /\
    kstore ent_pkt_num (lA ++ e' :: lB) out heap (rtb_next rtb) (rtb_ents rtb) /\ heap !! p = Some e'.
Proof.
  intros Hst HE Hl Hk. pose proof (kstore_change _ _ _ _ _ _ _ _ _ _ _ e' Hst HE Hl Hk) as Hst'. cbn in Hst'.
  pose proof Hst as [_ Hr _ _ _]. rewrite HE in Hr.
  destruct (ents_rep_split _ _ _ _ _ _ Hr) as (lA' & e0 & lB' & Heq & HlA & _ & _ & Hp). cbn in Hp.
  apply app_inj_1 in Heq as [-> [= <- <-]]; [|lia]. unfold rtb_store, rtb_load. rewrite Hp. cbn [bind].
  eexists. split; [reflexivity|]. split; [done|]. apply lookup_insert_eq.
Qed.

Lemma rtb_unlink_ok lA e lB out rtb it A B :
  rtb_stored (lA ++ e :: lB) out rtb -> cursor (rtb_ents rtb) it A B -> length lA = length A ->
  exists p B' ents it', B = (ent_pkt_num e, p) :: B' /\ rtb_heap rtb !! p = Some e /\
    rtb_unlink rtb it e = Ok (set_store (rtb_heap rtb) (rtb_next rtb) ents rtb, it') /\
    kstore ent_pkt_num (lA ++ lB) ((p, e) :: out) (rtb_heap rtb) (rtb_next rtb) ents /\ cursor ents it' A B' /\
    (forall n, ksl_room n (rtb_ents rtb) -> ksl_room n ents).
Proof.
  intros Hst Hc Hl. destruct (kstore_remove _ _ _ _ _ _ _ _ _ _ _ Hst Hc Hl) as (p & B' & ents & it' & _ & Hp & -> & Hrm & Hst' & Hc' & Hroom).
  exists p, B', ents, it'. split_and!; try done. unfold rtb_unlink. rewrite Hrm. done.
Qed.

(** ** Steps on the counters *)
Lemma decrease_ok b n : (b = true -> 1 <= n) -> decrease b n = Ok (n - Z.b2z b).
Proof.
  intros H. unfold decrease. destruct b; cbn; [|by rewrite Z.sub_0_r].
  rewrite (proj2 (Z.eqb_neq _ _)); [done|]. specialize (H eq_refl). lia.
Qed.

Lemma sum_ge_1 (f : ngtcp2_rtb_entry F -> Z) lA e lB b :
  (forall e, 0 <= f e) -> f e = Z.b2z b -> b = true -> 1 <= sumz f (lA ++ e :: lB).
Proof.
  intros Hf He ->. rewrite sumz_middle, He. pose proof (sumz_nonneg f (lA ++ lB) (fun x _ => Hf x)). cbn. lia.
Qed.

Definition lost_bytes rtb e : Z :=
  if is_lost e then 0 else if cc_pkt_num rtb <=? ent_pkt_num e then
    if ent_has e NGTCP2_RTB_ENTRY_FLAG_PMTUD_PROBE then 0 else ent_pktlen e else 0.

(** The counters without [e]. *)
Lemma on_remove_ok lA e lB rtb cstat :
  counts (lA ++ e :: lB) rtb -> (forall e0, e0 ∈ lA ++ e :: lB -> 0 <= ent_pktlen e0) ->
  cc_bytes_in_flight rtb <= bytes_in_flight cstat ->
  exists rtb', rtb_on_remove rtb e cstat =
      Ok (lost_bytes rtb e, rtb', set_bytes_in_flight (bytes_in_flight cstat - w_bytes (cc_pkt_num rtb) e) cstat) /\
    counts (lA ++ lB) rtb' /\ same_base rtb rtb' /\ cc_bytes_in_flight rtb' = cc_bytes_in_flight rtb - w_bytes (cc_pkt_num rtb) e /\
    rtb_heap rtb' = rtb_heap rtb /\ rtb_next rtb' = rtb_next rtb /\ rtb_ents rtb' = rtb_ents rtb.
Proof.
  intros [H1 H2 H3 H4 H5 H6] Hlen Hb. pose proof (fun e => proj1 (w_nonneg e)) as N1.
  pose proof (fun e => proj1 (proj2 (w_nonneg e))) as N2. pose proof (fun e => proj1 (proj2 (proj2 (w_nonneg e)))) as N3.
  pose proof (fun e => proj1 (proj2 (proj2 (proj2 (w_nonneg e))))) as N4. pose proof (fun e => proj2 (proj2 (proj2 (proj2 (w_nonneg e))))) as N5.
  unfold rtb_on_remove, lost_bytes. fold (is_lost e). destruct (is_lost e) eqn:El.
  - rewrite !decrease_ok; cbn [bind].
    2:{ intros E. rewrite H5. eapply sum_ge_1; [done| |exact E]. unfold w_ignore. by rewrite El. }
    2:{ intros _. rewrite H4. eapply (sum_ge_1 _ _ _ _ true); [done| |done]. unfold w_lost. by rewrite El. }
    assert (E0 : w_bytes (cc_pkt_num rtb) e = 0) by (unfold w_bytes; by rewrite El). rewrite E0, Z.sub_0_r.
    assert (Ec : set_bytes_in_flight (bytes_in_flight cstat) cstat = cstat) by by destruct cstat. rewrite Ec, Z.sub_0_r.
    eexists. split; [reflexivity|]. split_and!; try done.
    rewrite !sumz_middle in *. unfold w_ack at 1 in H1. unfold w_retr at 1 in H2. unfold w_pto at 1 in H3. unfold w_lost at 1 in H4. unfold w_ignore at 1 in H5. rewrite El in *.
    cbn [negb andb Z.b2z] in *. split; cbn; lia.
  - rewrite !decrease_ok; cbn [bind].
    2:{ intros E. rewrite H3. eapply sum_ge_1; [done| |exact E]. unfold w_pto. by rewrite El. }
    2:{ intros E. rewrite H2. eapply sum_ge_1; [done| |exact E]. unfold w_retr. by rewrite El. }
    2:{ intros E. rewrite H1. eapply sum_ge_1; [done| |exact E]. unfold w_ack. by rewrite El. }
    rewrite !sumz_middle in *. unfold w_ack at 1 in H1. unfold w_retr at 1 in H2. unfold w_pto at 1 in H3. unfold w_lost at 1 in H4. unfold w_ignore at 1 in H5. rewrite El in *.
    cbn [negb andb] in *. rewrite Z.add_0_l in H4, H5.
    assert (Hw : 0 <= sumz (w_bytes (cc_pkt_num rtb)) (lA ++ lB)).
    { apply sumz_nonneg. intros x Hx. apply w_bytes_range, Hlen. rewrite elem_of_app, elem_of_cons in *. tauto. }
    unfold w_bytes at 1 in H6. unfold w_bytes at 1 2. rewrite El in *. cbn [negb andb cc_pkt_num set_counts] in *.
    destruct (cc_pkt_num rtb <=? ent_pkt_num e).
    + cbn [cc_bytes_in_flight set_counts]. rewrite !(proj2 (Z.leb_le _ _)) by lia. eexists. split; [reflexivity|].
      split_and!; try done. split; cbn; try lia.
    + rewrite !Z.sub_0_r. assert (Ec : set_bytes_in_flight (bytes_in_flight cstat) cstat = cstat) by by destruct cstat.
      rewrite Ec. eexists. split; [reflexivity|]. split_and!; try done. split; cbn; try lia.
Qed.
End Inv.
