(* ===== verification/RtbStep.v ===== *)
(** * Packets in flight: the invariant of a packet number space

    What the application, which is behind [conn_ops], promises; the invariant
    of a packet number space together with the state it shares with the
    others; and the steps that the operations are made of. *)

From S2P Require Import Prelude Const Ksl KslInv KslIter KslSearch KslSpec KslMap Acktr KslStore ConnStat Rst Cc CcSpec Recovery Rtb RtbInv.
From stdpp Require Import list gmap sorting.
#[local] Open Scope Z_scope.

(** ** The application *)

(** Frames can be reclaimed, acknowledged and released at any time, with
    success or not; a packet keeps its frames when they are reclaimed. *)
Class AppLaws {F C : Type} (ops : conn_ops F C) (mss : Z) (cinv : C -> Prop) : Prop := {
  al_reclaim app on_loss pkt_num frc : cinv app -> frc <> [] ->
    exists n frc' app', co_reclaim ops app on_loss pkt_num frc = Ok (n, frc', app') /\ frc' <> [] /\ cinv app';
  al_acked app cstat ent : cinv app -> MIN_PAYLOAD <= max_tx_udp_payload_size cstat <= mss ->
    exists rv n app', co_acked ops app cstat ent = Ok (rv, set_max_tx_udp_payload_size n cstat, app') /\
      rv <= 0 /\ MIN_PAYLOAD <= n <= mss /\ cinv app';
  al_retry app frc : cinv app -> exists rv frc' app', co_reclaim_on_retry ops app frc = Ok (rv, frc', app') /\ rv <= 0 /\ cinv app';
  al_del app frc : cinv app -> exists app', co_frc_del ops app frc = Ok app' /\ cinv app';
  al_lost f app dgram_id : co_lost_datagram ops = Some f -> cinv app -> exists rv app', f app dgram_id = Ok (rv, app') /\ cinv app';
}.

(** Nothing fails: neither the callbacks nor what the streams need. *)
Record app_succeeds {F C : Type} (ops : conn_ops F C) : Prop := {
  ax_reclaim app on_loss pkt_num frc n frc' app' : co_reclaim ops app on_loss pkt_num frc = Ok (n, frc', app') -> 0 <= n;
  ax_acked app cstat ent rv cstat' app' : co_acked ops app cstat ent = Ok (rv, cstat', app') -> rv = 0;
  ax_lost f app dgram_id rv app' : co_lost_datagram ops = Some f -> f app dgram_id = Ok (rv, app') -> rv = 0;
}.

(** An error, which only [ops] can be the cause of, or 0. *)
Definition app_rv {F C : Type} (ops : conn_ops F C) (rv : Z) : Prop := rv <= 0 /\ (app_succeeds ops -> rv = 0).

Lemma app_rv_0 {F C : Type} (ops : conn_ops F C) : app_rv ops 0.
Proof. by split. Qed.
#[export] Hint Resolve app_rv_0 : core.

(** ** Removal from a list *)
Lemma sorted_remove {A : Type} (R : A -> A -> Prop) (l1 : list A) y l2 : StronglySorted R (l1 ++ y :: l2) -> StronglySorted R (l1 ++ l2).
Proof.
  induction l1 as [|z l1 IH]; cbn; [by intros [? _]%StronglySorted_inv|].
  intros [H Hf]%StronglySorted_inv. constructor; [auto|]. rewrite !Forall_app, Forall_cons in *. tauto.
Qed.

Lemma forall_remove {A : Type} (P : A -> Prop) (l1 : list A) y l2 : Forall P (l1 ++ y :: l2) -> Forall P (l1 ++ l2) /\ P y.
Proof. rewrite !Forall_app, Forall_cons. tauto. Qed.

(** The range of the packet size, and of the bytes that the other packet
    number spaces have in flight. *)
Class Bounds (mss other : Z) : Prop := {
  bd_mss : MIN_PAYLOAD <= mss <= 65535;
  bd_other : 0 <= other <= 2 ^ 62;
}.

(** Solves [stat_same], below. *)
Ltac same_stat := split_and!; cbn; rewrite ?length_insert; try done; solve [by left|by right].

Section State.
Context {F S C : Type} (cc : ngtcp2_cc S) (ops : conn_ops F C).
Context (mss : Z) (inv : Z -> S -> ngtcp2_conn_stat -> Prop) {laws : CcLaws cc mss 1 inv}.
Context (cinv : C -> Prop) {app_laws : AppLaws ops mss cinv}.
Context (other : Z) {bounds : Bounds mss other}.

Abbreviation state := (ld_state F S C).
Implicit Types (st : state) (e : ngtcp2_rtb_entry F) (l lA lB : list (ngtcp2_rtb_entry F)) (it : ngtcp2_ksl_it)
  (out : list (Z * ngtcp2_rtb_entry F)) (cstat c : ngtcp2_conn_stat) (b x ts : Z) (n : nat).

(** ** Invariant *)

(** By how much the window can grow when [bytes] are acknowledged; for an
    entry, it is counted as delivered, as a packet and in an ACK frame. *)
Definition grow (bytes : Z) : Z := bytes * mss + mss.
Definition cost e : Z := 3 * grow (ent_pktlen e).

Definition w_ecn (start : Z) e : Z :=
  Z.b2z (negb (is_lost e) && ((start <=? ent_pkt_num e) && ent_has e NGTCP2_RTB_ENTRY_FLAG_ECN)).

(** The path is being validated. *)
Definition validating (ecn : conn_ecn) : Prop :=
  ce_state ecn = NGTCP2_ECN_STATE_TESTING \/ ce_state ecn = NGTCP2_ECN_STATE_UNKNOWN.

(** No more ECN packets are lost than were sent; [x]: the ones that are lost
    and not counted yet. *)
Record ecn_ok (x : Z) l (ns : pktns_ecn) (ecn : conn_ecn) : Prop := {
  en_sent : validating ecn ->
    pe_validation_pkt_lost ns + x + sumz (w_ecn (pe_start_pkt_num ns)) l <= pe_validation_pkt_sent ns;
  en_start : ce_state ecn = NGTCP2_ECN_STATE_TESTING -> ce_validation_start_ts ecn = UINT64_MAX ->
    pe_validation_pkt_sent ns = 0 /\ pe_validation_pkt_lost ns = 0;
}.

(** [l]: the entries of the list; [out]: those that were taken out of it;
    [n]: how many packets can be added. *)
Record ns_ok n l out (delivered in_flight : Z) (ns : ngtcp2_pktns F) : Prop := {
  no_stored : rtb_stored l out (ns_rtb ns);
  no_room : ksl_room n (rtb_ents (ns_rtb ns));
  no_counts : counts l (ns_rtb ns);
  no_order : StronglySorted (sent_after (cc_pkt_num (ns_rtb ns))) l;
  no_ents : Forall (ent_ok (largest_acked_tx_pkt_num (ns_rtb ns))) l;
  no_last : Forall (fun e => ent_pkt_num e <= ns_last_pkt_num ns) l;
  no_cc : 0 <= cc_pkt_num (ns_rtb ns) <= ns_last_pkt_num ns + 1;
  no_delivered : Forall (fun e => cc_pkt_num (ns_rtb ns) <= ent_pkt_num e -> 0 <= er_delivered (ent_rst e) <= delivered) l;
  no_bytes : in_flight = cc_bytes_in_flight (ns_rtb ns) + other;
  no_id : 0 <= ns_id ns < NGTCP2_PKTNS_ID_MAX;
}.

(** The arrays with a member for each space, and the number of times the
    timer expired, which is an exponent of two. *)
Definition times_ok c : Prop := length (loss_time c) = 3%nat /\ length (last_tx_pkt_ts c) = 3%nat /\ 0 <= pto_count c < 64.

(** [b]: by how much the window can still grow. *)
Record sh_ok b st : Prop := {
  so_cc : exists hi, inv hi (ld_cc st) (ld_cstat st) /\ hi + b <= CC_LIMIT;
  so_payload : MIN_PAYLOAD <= max_tx_udp_payload_size (ld_cstat st) <= mss;
  so_delivered : 0 <= rst_delivered (ld_rst st) /\ rst_delivered (ld_rst st) + b <= CC_LIMIT;
  so_app : cinv (ld_app st);
  so_times : times_ok (ld_cstat st);
  so_par : cp_confirmed (ld_par st) = true -> is_Some (cp_max_ack_delay (ld_par st));
}.

Record ld_inv n l out b x st : Prop := {
  li_ns : ns_ok n l out (rst_delivered (ld_rst st)) (bytes_in_flight (ld_cstat st)) (ld_ns st);
  li_ecn : ecn_ok x l (ns_ecn (ld_ns st)) (ld_ecn st);
  li_sh : sh_ok (sumz cost l + sumz cost out.*2 + b) st;
}.

Lemma cost_pos e : 0 <= ent_pktlen e -> 0 <= cost e /\ 2 * ent_pktlen e <= cost e /\ 1200 <= cost e.
Proof. pose proof bd_mss as Hm. unfold cost, grow, MIN_PAYLOAD in *. intros. nia. Qed.

Lemma costs_pos largest l : Forall (ent_ok largest) l -> 0 <= sumz cost l.
Proof. intros H. apply sumz_nonneg. intros e He. rewrite Forall_forall in H. destruct (H e He). by apply cost_pos. Qed.

Lemma sh_mono b b' st : b' <= b -> sh_ok b st -> sh_ok b' st.
Proof. intros Hb [(hi & Hi & Hh) Hp Hd Ha Ht Hpar]. split; try done; [exists hi; split; [done|lia]|lia]. Qed.

(** A callback of the congestion controller. *)
Definition cc_changed st st' : Prop :=
  exists s c rst, st' = put_cc s (put_cstat c (put_rst rst st)) /\ same_recovery (ld_cstat st) c /\ same_rst (ld_rst st) rst.

Lemma cc_changed_refl st : cc_changed st st.
Proof.
  exists (ld_cc st), (ld_cstat st), (ld_rst st). split; [by destruct st|]. split; [apply same_recovery_refl|by left].
Qed.

(** What a call costs. *)
Lemma call_cc_ok {A} (f : option (cc_callback S A)) (a : A) ts st b d :
  sh_ok (b + d) st -> 0 <= d ->
  (forall hi, inv hi (ld_cc st) (ld_cstat st) -> hi + d <= CC_LIMIT -> exists s c rst, cc_call f (ld_cc st) (ld_cstat st) (ld_rst st) a ts = Ok (s, c, rst) /\
    same_recovery (ld_cstat st) c /\ same_rst (ld_rst st) rst /\ inv (hi + d) s c) ->
  0 <= b ->
  exists st', call_cc f a ts st = Ok st' /\ cc_changed st st' /\ sh_ok b st'.
Proof.
  intros [(hi & Hi & Hh) Hp Hd Ha Ht Hpar] Hd0 H Hb. destruct (H hi Hi) as (s & c & rst & Hrun & Hc & Hr & Hi'); [lia|].
  unfold call_cc. rewrite Hrun. cbn [bind]. eexists. split; [reflexivity|]. split; [by exists s, c, rst|].
  destruct Hc as (w & th & start & i & q & ->). assert (Hrd : rst_delivered rst = rst_delivered (ld_rst st)) by by destruct Hr as [-> | ->].
  split; cbn; try done; [|rewrite Hrd; lia]. exists (hi + d). split; [done|lia].
Qed.

(** ... which is nothing to the packets. *)
Lemma ld_inv_cc n l out b b' x st st' :
  ld_inv n l out b x st -> cc_changed st st' -> sh_ok (sumz cost l + sumz cost out.*2 + b') st' -> ld_inv n l out b' x st'.
Proof.
  intros [Hns He Hs] (s & c & rst & -> & (w & th & start & i & q & ->) & Hr) Hs'.
  assert (Hrd : rst_delivered rst = rst_delivered (ld_rst st)) by by destruct Hr as [-> | ->].
  split; cbn; [by rewrite Hrd|done|done].
Qed.

Lemma call_cc_inv n l out b d x st {A} (f : option (cc_callback S A)) (a : A) ts :
  ld_inv n l out (b + d) x st -> 0 <= d -> 0 <= sumz cost l + sumz cost out.*2 + b ->
  (forall hi, inv hi (ld_cc st) (ld_cstat st) -> hi + d <= CC_LIMIT -> exists s c rst, cc_call f (ld_cc st) (ld_cstat st) (ld_rst st) a ts = Ok (s, c, rst) /\
    same_recovery (ld_cstat st) c /\ same_rst (ld_rst st) rst /\ inv (hi + d) s c) ->
  exists st', call_cc f a ts st = Ok st' /\ cc_changed st st' /\ ld_inv n l out b x st'.
Proof.
  intros Hinv Hd Hb H. pose proof Hinv as [_ _ Hs].
  destruct (call_cc_ok f a ts st (sumz cost l + sumz cost out.*2 + b) d) as (st' & Hrun & Hch & Hs'); [|done|done|done|].
  { eapply sh_mono; [|exact Hs]. lia. }
  exists st'. split; [done|]. split; [done|]. by eapply ld_inv_cc.
Qed.

(** A change of the statistics that the invariant does not notice. *)
Definition stat_same c c' : Prop :=
  cwnd c' = cwnd c /\ ssthresh c' = ssthresh c /\ max_tx_udp_payload_size c' = max_tx_udp_payload_size c /\
  bytes_in_flight c' = bytes_in_flight c /\ length (loss_time c') = length (loss_time c) /\
  length (last_tx_pkt_ts c') = length (last_tx_pkt_ts c) /\ (pto_count c' = pto_count c \/ pto_count c' = 0).

Lemma times_same c c' : stat_same c c' -> times_ok c -> times_ok c'.
Proof. intros (_ & _ & _ & _ & E1 & E2 & E3) (H1 & H2 & H3). split_and!; [congruence..| |]; destruct E3; lia. Qed.

Lemma ld_inv_stat n l out b x st c :
  ld_inv n l out b x st -> stat_same (ld_cstat st) c -> ld_inv n l out b x (put_cstat c st).
Proof.
  intros [Hns He [(hi & Hi & Hh) Hp Hd Ha Ht Hpar]] Hc. pose proof (times_same _ _ Hc Ht) as Ht'. destruct Hc as (E1 & E2 & E3 & E4 & _).
  split; [by cbn; rewrite E4|done|]. split; cbn; rewrite ?E3; try done. exists hi. split; [|done]. by eapply cl_stat.
Qed.

Lemma ld_inv_app n l out b x st app : ld_inv n l out b x st -> cinv app -> ld_inv n l out b x (put_app app st).
Proof. intros [Hns He [? ? ? ? ? ?]] Ha. by split; [| |split]. Qed.

Lemma ld_inv_mono n l out b b' x st : b' <= b -> ld_inv n l out b x st -> ld_inv n l out b' x st.
Proof. intros Hb [Hns He Hs]. split; try done. eapply sh_mono; [|exact Hs]. lia. Qed.

(** The rest of the state is the same. *)
Definition same_else st st' : Prop :=
  ld_others st' = ld_others st /\ ld_cc st' = ld_cc st /\ ld_ecn st' = ld_ecn st /\ ld_key st' = ld_key st /\ ld_par st' = ld_par st /\
  ld_rst st' = ld_rst st /\ ns_id (ld_ns st') = ns_id (ld_ns st) /\ ns_ecn (ld_ns st') = ns_ecn (ld_ns st) /\
  ns_ack_ecn (ld_ns st') = ns_ack_ecn (ld_ns st) /\ ns_last_pkt_num (ld_ns st') = ns_last_pkt_num (ld_ns st) /\
  same_base (ld_rtb st) (ld_rtb st').

(** ** An entry is released *)
Lemma del_ok n l out b x st p e :
  ld_inv n l ((p, e) :: out) b x st ->
  exists st', ngtcp2_rtb_entry_objalloc_del ops st p = Ok st' /\ ld_inv n l out (b + cost e) x st' /\
    ld_rtb st' = set_store (delete p (rtb_heap (ld_rtb st))) (rtb_next (ld_rtb st)) (rtb_ents (ld_rtb st)) (ld_rtb st) /\
    ld_cstat st' = ld_cstat st /\ same_else st st'.
Proof.
  intros [[Hst Hrm [? ? ? ? ? ?] Ho He Hla Hcc Hdl Hb Hid] Hecn Hs]. unfold ngtcp2_rtb_entry_objalloc_del, rtb_load.
  pose proof Hst as [_ _ Hout _ _]. apply Forall_cons in Hout as [Hp _]. cbn in Hp. unfold ld_rtb. rewrite Hp. cbn [bind].
  pose proof Hs as [_ _ _ Ha _ _]. destruct (al_del (ops := ops) (ld_app st) (ent_frc e) Ha) as (app' & -> & Ha'). cbn [bind].
  eexists. split; [reflexivity|]. split; [|by split_and!]. apply kstore_free in Hst. split; cbn; [by split|done|].
  apply (sh_mono _ (sumz cost l + sumz cost out.*2 + (b + cost e))) in Hs as [? ? ? ? ? ?]; [by split|]. cbn. lia.
Qed.

Lemma del_acked_ok n l out b x st :
  ld_inv n l out b x st -> Forall (fun p => 0 <= ent_pktlen p.2) out ->
  exists st', del_acked ops st out.*1 = Ok st' /\ ld_inv n l [] b x st'.
Proof.
  revert st. induction out as [|[p e] out IH]; intros st Hinv Hl; [by exists st|].
  apply Forall_cons in Hl as [Hl Hls]. cbn [fmap list_fmap fst del_acked].
  destruct (del_ok _ _ _ _ _ _ _ _ Hinv) as (st1 & -> & Hinv1 & _). cbn [bind]. apply IH; [|done].
  eapply ld_inv_mono; [|exact Hinv1]. pose proof (cost_pos e Hl). lia.
Qed.

(** ** An entry is taken out of the list *)

Lemma w_ecn_range start e : 0 <= w_ecn start e <= 1.
Proof. apply b2z_range. Qed.

Lemma ecn_remove x lA e lB ns ecn : ecn_ok x (lA ++ e :: lB) ns ecn -> ecn_ok x (lA ++ lB) ns ecn.
Proof.
  intros [H1 H2]. split; [|done]. intros Hv. specialize (H1 Hv). rewrite sumz_middle in H1.
  pose proof (w_ecn_range (pe_start_pkt_num ns) e). lia.
Qed.

Lemma bytes_le l delivered in_flight n out ns : ns_ok n l out delivered in_flight ns -> cc_bytes_in_flight (ns_rtb ns) <= in_flight.
Proof. pose proof (bd_other (mss := mss) (other := other)). intros [_ _ _ _ _ _ _ _ -> _]. lia. Qed.

(** [rtb_on_remove] and [ngtcp2_ksl_remove_hint]. *)
Lemma take_out_ok n lA e lB out b x st it A B :
  ld_inv n (lA ++ e :: lB) out b x st -> cursor (rtb_ents (ld_rtb st)) it A B -> length lA = length A ->
  exists p B' rtb1 cstat rtb2 it',
    rtb_ent_at (ld_rtb st) it = Ok (p, e) /\ B = (ent_pkt_num e, p) :: B' /\
    rtb_on_remove (ld_rtb st) e (ld_cstat st) = Ok (lost_bytes (ld_rtb st) e, rtb1, cstat) /\ rtb_unlink rtb1 it e = Ok (rtb2, it') /\
    let st' := put_rtb rtb2 (put_cstat cstat st) in
    ld_inv n (lA ++ lB) ((p, e) :: out) b x st' /\ same_else st st' /\ cursor (rtb_ents rtb2) it' A B' /\
    loss_time cstat = loss_time (ld_cstat st) /\ rtb_heap rtb2 !! p = Some e.
Proof.
  intros [Hns Hecn Hs] Hc Hl. pose proof (bytes_le _ _ _ _ _ _ Hns) as Hle.
  destruct Hns as [Hst Hrm Hcn Ho He Hla Hcc Hdl Hb Hid].
  destruct (rtb_ent_at_ok _ _ _ _ _ _ _ _ Hst Hc Hl) as (p & B' & HB & Hp & Hat & _ & _).
  assert (Hlen : forall e0, e0 ∈ lA ++ e :: lB -> 0 <= ent_pktlen e0).
  { intros e0 H0. rewrite Forall_forall in He. by destruct (He e0 H0). }
  destruct (on_remove_ok lA e lB (ld_rtb st) (ld_cstat st) Hcn Hlen Hle) as (rtb1 & Hrun & Hcn1 & (Eb1 & Eb2 & Eb3) & Ec & Eh & En & Ee).
  assert (Hst1 : rtb_stored (lA ++ e :: lB) out rtb1) by (unfold rtb_stored; by rewrite Eh, En, Ee).
  rewrite <- Ee in Hc. destruct (rtb_unlink_ok lA e lB out rtb1 it A B Hst1 Hc Hl) as (p' & B'' & ents & it' & HB' & Hp' & Hun & Hst2 & Hc2 & Hroom).
  rewrite HB in HB'. injection HB' as <- <-.
  exists p, B', rtb1, (set_bytes_in_flight (bytes_in_flight (ld_cstat st) - w_bytes (cc_pkt_num (ld_rtb st)) e) (ld_cstat st)),
    (set_store (rtb_heap rtb1) (rtb_next rtb1) ents rtb1), it'.
  split_and!; try done. cbv zeta. destruct (forall_remove _ _ _ _ He) as [He' [Hpn Hpl _ _ _]]. split_and!; try done.
  - split; cbn.
    + split; cbn; rewrite ?Eb1, ?Eb2; try done.
      * apply Hroom. by rewrite Ee.
      * by destruct Hcn1.
      * eapply sorted_remove. exact Ho.
      * apply (forall_remove _ _ _ _ Hla).
      * apply (forall_remove _ _ _ _ Hdl).
      * rewrite Ec, Hb. fold (ld_rtb st). lia.
    + by eapply ecn_remove.
    + destruct Hs as [(hi & Hi & Hh) Hp0 Hd Ha Ht Hpar]. rewrite sumz_middle in *.
      split; cbn; try done; [|lia]. exists hi. split; [by eapply cl_stat|lia].
Qed.
End State.
#[global] Arguments take_out_ok {F} {S} {C} {cc} {mss} {inv} {laws} {cinv} {other} {bounds} {n} {lA} {e} {lB} {out} {b} {x} {st} {it} {A} {B} _ _ _.
#[global] Arguments del_ok {F} {S} {C} {ops} {mss} {inv} {cinv} {app_laws} {other} {n} {l} {out} {b} {x} {st} {p} {e} _.
#[global] Arguments del_acked_ok {F} {S} {C} {ops} {mss} {inv} {cinv} {app_laws} {other} {bounds} {n} {l} {out} {b} {x} {st} _ _.
#[global] Arguments call_cc_inv {F} {S} {C} {mss} {inv} {cinv} {other} {n} {l} {out} {b} {d} {x} {st} {A} f a ts _ _ _ _.
#[global] Arguments ld_inv_stat {F} {S} {C} {cc} {mss} {inv} {laws} {cinv} {other} {n} {l} {out} {b} {x} {st} {c} _ _.
#[global] Arguments ld_inv_app {F} {S} {C} {mss} {inv} {cinv} {other} {n} {l} {out} {b} {x} {st} {app} _ _.
#[global] Arguments ld_inv_mono {F} {S} {C} {mss} {inv} {cinv} {other} {n} {l} {out} {b} {b'} {x} {st} _ _.
#[global] Arguments sh_mono {F} {S} {C} {mss} {inv} {cinv} {b} {b'} {st} _ _.
#[global] Arguments costs_pos {F} {mss} {other} {bounds} {largest} {l} _ _.
#[global] Arguments cost_pos {F} {mss} {other} {bounds} {e} _.
#[global] Arguments ecn_remove {F} {x} {lA} {e} {lB} {ns} {ecn} _.
#[global] Arguments bytes_le {F} {mss} {other} {bounds} {l} {delivered} {in_flight} {n} {out} {ns} _ _.
