(* ===== verification/RtbAck.v ===== *)
(** * Packets in flight: acknowledgements

    The entries that an ACK frame acknowledges are taken out of the list; they
    are processed in ascending order and released. *)

From S2P Require Import Prelude Const Frame FrameSafe PktAux Ksl KslInv KslIter KslSearch KslSpec KslMap Acktr KslStore ConnStat Rst Cc CcSpec Recovery Rtb RtbInv RtbStep.
From stdpp Require Import list gmap sorting.
#[local] Open Scope Z_scope.

(** ** Lists in descending order *)
Section Descending.
Context {F : Type}.
Implicit Types (e : ngtcp2_rtb_entry F) (l lA lB R K : list (ngtcp2_rtb_entry F)).

Definition descending l : Prop := StronglySorted (fun e1 e2 => ent_pkt_num e2 < ent_pkt_num e1) l.

Lemma sent_descending cc l : StronglySorted (sent_after cc) l -> descending l.
Proof.
  induction 1 as [|e l _ IH Hf]; constructor; [done|]. eapply List.Forall_impl; [|exact Hf]. by intros e2 [? _].
Qed.

Lemma descending_tail lA e lB e0 : descending (lA ++ e :: lB) -> e0 ∈ lB -> ent_pkt_num e0 < ent_pkt_num e.
Proof.
  induction lA as [|? ? IH]; cbn; intros [Ho Hf]%StronglySorted_inv He; [|by apply IH].
  rewrite Forall_forall in Hf. by apply Hf.
Qed.

(** [b] acknowledges [e]. *)
Definition in_blk (b : Z * Z) e : bool := (b.1 <=? ent_pkt_num e) && (ent_pkt_num e <=? b.2).
Definition acked_by (blocks : list (Z * Z)) e : bool := existsb (fun b => in_blk b e) blocks.
Definition not_acked (blocks : list (Z * Z)) e : bool := negb (acked_by blocks e).

Lemma filter_all (P : ngtcp2_rtb_entry F -> bool) l : (forall e, e ∈ l -> P e = true) -> List.filter P l = l.
Proof.
  induction l as [|e l IH]; intros H; [done|]. cbn. rewrite (H e) by (rewrite elem_of_cons; auto). f_equal. apply IH.
  intros e' ?. apply H. rewrite elem_of_cons. auto.
Qed.

Lemma filter_none (P : ngtcp2_rtb_entry F -> bool) l : (forall e, e ∈ l -> P e = false) -> List.filter P l = [].
Proof.
  induction l as [|e l IH]; intros H; [done|]. cbn. rewrite (H e) by (rewrite elem_of_cons; auto). apply IH.
  intros e' ?. apply H. rewrite elem_of_cons. auto.
Qed.

Lemma elem_of_lfilter (P : ngtcp2_rtb_entry F -> bool) l e : e ∈ List.filter P l <-> e ∈ l /\ P e = true.
Proof. rewrite !list_elem_of_In. apply List.filter_In. Qed.

Lemma filter_ext_in (P Q : ngtcp2_rtb_entry F -> bool) l : (forall e, e ∈ l -> P e = Q e) -> List.filter P l = List.filter Q l.
Proof. intros H. apply List.filter_ext_in. intros e He. apply H. by apply list_elem_of_In. Qed.

Lemma filter_not_more b blocks l : List.filter (not_acked blocks) (List.filter (fun e => negb (in_blk b e)) l) = List.filter (not_acked (b :: blocks)) l.
Proof.
  induction l as [|e l IH]; [done|]. cbn [List.filter]. unfold not_acked at 2. cbn [acked_by existsb].
  destruct (in_blk b e); cbn [negb orb List.filter]; [exact IH|]. unfold not_acked at 1, acked_by.
  destruct (existsb _ blocks); cbn [negb]; by rewrite IH.
Qed.

(** The three parts of a list at a block. *)
Lemma filter_block (lo hi : Z) lA R K :
  (forall e, e ∈ lA -> hi < ent_pkt_num e) -> (forall e, e ∈ R -> lo <= ent_pkt_num e <= hi) -> (forall e, e ∈ K -> ent_pkt_num e < lo) ->
  List.filter (fun e => negb (in_blk (lo, hi) e)) (lA ++ R ++ K) = lA ++ K.
Proof.
  intros HA HR HK. rewrite !List.filter_app. unfold in_blk. cbn. rewrite (filter_all _ lA), (filter_none _ R), (filter_all _ K); [done|..]; cbn.
  - intros e He. specialize (HK e He). rewrite (proj2 (Z.leb_gt _ _)) by lia. done.
  - intros e He. specialize (HR e He). rewrite !(proj2 (Z.leb_le _ _)) by lia. done.
  - intros e He. specialize (HA e He). rewrite (proj2 (Z.leb_gt (ent_pkt_num e) _)) by lia. by rewrite andb_false_r.
Qed.

(** Blocks below a number. *)
Definition blocks_below (lo : Z) (blocks : list (Z * Z)) : Prop := Forall (fun b => b.2 < lo) blocks.

Lemma acked_below lo blocks e : blocks_below lo blocks -> lo <= ent_pkt_num e -> acked_by blocks e = false.
Proof.
  intros H He. unfold acked_by. induction H as [|b blocks Hb _ IH]; [done|]. cbn. rewrite IH, orb_false_r. unfold in_blk.
  rewrite (proj2 (Z.leb_gt (ent_pkt_num e) _)) by lia. by rewrite andb_false_r.
Qed.

Lemma filter_block_more (lo hi : Z) blocks lA R K :
  (forall e, e ∈ lA -> hi < ent_pkt_num e) -> (forall e, e ∈ R -> lo <= ent_pkt_num e <= hi) -> (forall e, e ∈ K -> ent_pkt_num e < lo) ->
  blocks_below lo blocks -> lo <= hi + 1 ->
  List.filter (acked_by ((lo, hi) :: blocks)) (lA ++ R ++ K) = R ++ List.filter (acked_by blocks) (lA ++ K).
Proof.
  intros HA HR HK Hb Hlo. rewrite !List.filter_app.
  assert (HA' : forall e, e ∈ lA -> acked_by blocks e = false) by (intros e He; specialize (HA e He); eapply acked_below; [done|lia]).
  rewrite (filter_none (acked_by blocks) lA HA'), (filter_none _ lA), (filter_all _ R); cbn [app].
  - f_equal. apply filter_ext_in. intros e He. specialize (HK e He). cbn. unfold in_blk. cbn. by rewrite (proj2 (Z.leb_gt _ _)) by lia.
  - intros e He. specialize (HR e He). cbn. unfold in_blk. cbn. by rewrite !(proj2 (Z.leb_le _ _)) by lia.
  - intros e He. pose proof (HA' e He) as HA0. specialize (HA e He). unfold acked_by in *. cbn. rewrite HA0. unfold in_blk. cbn.
    rewrite (proj2 (Z.leb_gt (ent_pkt_num e) _)) by lia. by rewrite andb_false_r.
Qed.

Lemma more_blocks_below lo ranges : Forall ack_range_ok ranges -> blocks_below (lo - 1) (ack_blocks_below lo ranges).
Proof.
  intros H. revert lo. induction H as [|r ranges [Hg Hl] _ IH]; intros lo; [constructor|]. unfold varint in *. cbn [ack_blocks_below].
  constructor; [cbn; lia|]. eapply List.Forall_impl; [|apply IH]. cbn. intros. lia.
Qed.

(** A list in descending order is cut at a number. *)
Lemma descending_cut (lo : Z) l : descending l ->
  exists R K, l = R ++ K /\ (forall e, e ∈ R -> lo <= ent_pkt_num e) /\ (forall e, e ∈ K -> ent_pkt_num e < lo).
Proof.
  induction l as [|e l IH]; intros H; [exists [], []; split_and!; [done|by intros ? ?%elem_of_nil..]|].
  apply StronglySorted_inv in H as [Hs Hf]. rewrite Forall_forall in Hf.
  destruct (Z.le_gt_cases lo (ent_pkt_num e)) as [H|H].
  - destruct (IH Hs) as (R & K & -> & HR & HK). exists (e :: R), K. split_and!; [done| |done].
    intros e0 [->|He0]%elem_of_cons; auto.
  - exists [], (e :: l). split_and!; [done|by intros ? ?%elem_of_nil|]. intros e0 [->|He0]%elem_of_cons; [done|].
    specialize (Hf e0 He0). cbn in Hf. lia.
Qed.

Lemma elem_of_middle e lA lB : e ∈ lA ++ e :: lB.
Proof. rewrite elem_of_app, elem_of_cons. auto. Qed.

Definition info_step (first : bool) (largest_acked : Z) (info : ack_info) e : ack_info :=
  mk_ack_info (if first && (largest_acked =? ent_pkt_num e) then ent_ts e else ai_largest_sent_ts info)
    (ai_ack_eliciting info || ent_has e NGTCP2_RTB_ENTRY_FLAG_ACK_ELICITING).

Definition is_skip e : bool := ent_has e NGTCP2_RTB_ENTRY_FLAG_SKIP.
End Descending.

Section Ack.
Context {F S C : Type} (cc : ngtcp2_cc S) (ops : conn_ops F C).
Context (mss : Z) (inv : Z -> S -> ngtcp2_conn_stat -> Prop) {laws : CcLaws cc mss 1 inv}.
Context (cinv : C -> Prop) {app_laws : AppLaws ops mss cinv}.
Context (other : Z) {bounds : Bounds mss other}.
Abbreviation ld_inv := (RtbStep.ld_inv mss inv cinv other).
Abbreviation state := (ld_state F S C).
Implicit Types (st : state) (e : ngtcp2_rtb_entry F) (l lA lB R K : list (ngtcp2_rtb_entry F)) (it : ngtcp2_ksl_it)
  (out : list (Z * ngtcp2_rtb_entry F)) (b x ts : Z) (n : nat) (info : ack_info).

Lemma same_else_trans st1 st2 st3 : same_else st1 st2 -> same_else st2 st3 -> same_else st1 st3.
Proof. unfold same_else, same_base. intros ? ?. naive_solver congruence. Qed.

Lemma same_else_refl st : same_else st st.
Proof. by split_and!. Qed.

(** What a loop over the entries of one range did.  [R]: the entries that
    were taken out, [K]: those that were left below. *)
Record range_done n (first : bool) (min_ack : Z) lA out b x st info R K (rv : Z) st' acked info' out' : Prop := {
  rd_inv : ld_inv n (lA ++ K) out' b x st';
  rd_acked : acked = out'.*1;
  rd_out : out'.*2 = rev R ++ out.*2;
  rd_else : same_else st st';
  rd_stat : loss_time (ld_cstat st') = loss_time (ld_cstat st);
  rd_range : forall e, e ∈ R -> min_ack <= ent_pkt_num e /\ is_skip e = false;
  rd_info : info' = fold_left (info_step first (largest_acked_tx_pkt_num (ld_rtb st))) R info;
  rd_rv : (rv = 0 /\ forall e, e ∈ K -> ent_pkt_num e < min_ack) \/
    (rv = NGTCP2_ERR_PROTO /\ exists e K', K = e :: K' /\ is_skip e = true /\ min_ack <= ent_pkt_num e);
}.

Lemma ack_range_run n (first : bool) largest_ack min_ack x b lA lB out st it A B info fuel :
  ld_inv n (lA ++ lB) out b x st -> cursor (rtb_ents (ld_rtb st)) it A B -> length lA = length A ->
  (first = true -> forall e, e ∈ lB -> ent_pkt_num e <= largest_ack) -> (length lB < fuel)%nat ->
  exists R K rv st' acked info' out', ack_range fuel first largest_ack min_ack st it out.*1 info = Ok (rv, st', acked, info') /\
    lB = R ++ K /\ range_done n first min_ack lA out b x st info R K rv st' acked info' out'.
Proof.
  revert st lB out it A B info. induction fuel as [|fuel IH]; intros st lB out it A B info Hinv Hc Hl Hfirst Hfuel; [lia|].
  cbn [ack_range]. rewrite (cursor_it_end _ _ _ _ Hc). pose proof Hinv as [[Hst _ _ Ho _ _ _ _ _ _] _ _].
  change (ns_rtb (ld_ns st)) with (ld_rtb st) in Hst, Ho.
  destruct lB as [|e lB].
  - rewrite app_nil_r in Hinv, Hst. assert (B = []) as ->.
    { destruct (kstore_cursor _ _ _ _ _ _ _ _ _ Hst Hc) as (? & ? & Hl' & ? & ? & _). apply (f_equal length) in Hl'.
      rewrite length_app in Hl'. apply length_zero_iff_nil. lia. }
    cbn [bool_decide]. exists [], [], 0, st, out.*1, info, out. split; [done|]. split; [done|].
    split; try done; [by rewrite app_nil_r|by intros ? ?%elem_of_nil|left; split; [done|by intros ? ?%elem_of_nil]].
  - destruct (take_out_ok Hinv Hc Hl) as (p & B' & rtb1 & c1 & rtb2 & it' & Hat & -> & Hrm & Hun & Hinv' & Helse & Hc' & Htimes & _).
    rewrite bool_decide_eq_false_2 by done. destruct (rtb_ent_at_ok _ _ _ _ _ _ _ _ Hst Hc Hl) as (_ & _ & _ & _ & _ & -> & _). cbn [bind].
    assert (Hle : negb first || (ent_pkt_num e <=? largest_ack) = true).
    { destruct first; [|done]. cbn. apply Z.leb_le, Hfirst; [done|]. rewrite elem_of_cons. auto. }
    rewrite Hle. destruct (Z.ltb_spec (ent_pkt_num e) min_ack) as [Hmin|Hmin].
    { exists [], (e :: lB), 0, st, out.*1, info, out. split; [done|]. split; [done|].
      split; try done; [by intros ? ?%elem_of_nil|]. left. split; [done|]. intros e0 [->|He0]%elem_of_cons; [done|].
      apply sent_descending in Ho. pose proof (descending_tail _ _ _ _ Ho He0). lia. }
    rewrite Hat. cbn [bind]. fold (is_skip e). destruct (is_skip e) eqn:Eskip.
    { exists [], (e :: lB), NGTCP2_ERR_PROTO, st, out.*1, info, out. split; [done|]. split; [done|].
      split; try done; [by intros ? ?%elem_of_nil|]. right. split; [done|]. by exists e, lB. }
    unfold rtb_remove. rewrite Hrm. cbn [bind]. rewrite Hun. cbn [bind].
    rewrite bool_decide_eq_false_2; cbn [negb].
    2:{ destruct Hst as [_ _ _ Hnd _]. rewrite (cursor_elems _ _ _ _ Hc), fmap_app, fmap_cons in Hnd. apply NoDup_app in Hnd as (_ & Hnd & _).
        apply Hnd. cbn. rewrite elem_of_app, elem_of_cons. auto. }
    cbn [bind]. specialize (IH (put_rtb rtb2 (put_cstat c1 st)) lB ((p, e) :: out) it' A B'). cbn [fmap list_fmap fst] in IH.
    edestruct IH as (R & K & rv & st' & acked & info' & out' & Hrun & -> & [Hi Ha Ho' He Hti Hr Hinfo Hrv]); [exact Hinv'|exact Hc'|exact Hl| |cbn in Hfuel; lia|].
    { intros E e0 He0. apply Hfirst; [done|]. rewrite elem_of_cons. auto. }
    exists (e :: R), K, rv, st', acked, info', out'. split; [exact Hrun|]. split; [done|]. split; try done.
    + rewrite Ho'. cbn. by rewrite <- app_assoc.
    + by eapply same_else_trans.
    + by rewrite Hti, <- Htimes.
    + intros e0 [->|He0]%elem_of_cons; [done|by apply Hr].
    + rewrite Hinfo. cbn [fold_left]. destruct Helse as (_ & _ & _ & _ & _ & _ & _ & _ & _ & _ & (El & _)). by rewrite El.
Qed.

Lemma lower_bound_split n l out b x st k :
  ld_inv n l out b x st -> exists it A B lA lB, ksl_lower_bound (rtb_ents (ld_rtb st)) k = Ok it /\ cursor (rtb_ents (ld_rtb st)) it A B /\
    l = lA ++ lB /\ length lA = length A /\ length lB = length B /\ (forall e, e ∈ lA -> k < ent_pkt_num e) /\ (forall e, e ∈ lB -> ent_pkt_num e <= k).
Proof.
  intros [[Hst _ _ _ _ _ _ _ _ _] _ _]. change (ns_rtb (ld_ns st)) with (ld_rtb st) in Hst.
  destruct (lower_bound_run _ ngtcp2_ksl_int64_greater (rtb_ents (ld_rtb st)) k (ks_wf _ _ _ _ _ _ Hst))
    as (it & A & B & Hrun & Hc & HA & HB); [apply monotone_self; apply _|].
  destruct (kstore_cursor _ _ _ _ _ _ _ _ _ Hst Hc) as (lA & lB & -> & HlA & HlB & HkA & HkB).
  exists it, A, B, lA, lB. split_and!; try done.
  - intros e He. assert (Hin : ent_pkt_num e ∈ map fst A) by (rewrite <- HkA; by apply list_elem_of_fmap_2).
    apply list_elem_of_fmap in Hin as (y & -> & Hy). by apply greater_true, HA.
  - intros e He. assert (Hin : ent_pkt_num e ∈ map fst B) by (rewrite <- HkB; by apply list_elem_of_fmap_2).
    apply list_elem_of_fmap in Hin as (y & -> & Hy). by apply greater_false, HB.
Qed.

Lemma entries_fuel_ok n l out b x st : ld_inv n l out b x st -> entries_fuel st = Datatypes.S (length l).
Proof. intros [[Hst _ _ _ _ _ _ _ _ _] _ _]. unfold entries_fuel, ld_rtb. by rewrite (kstore_len _ _ _ _ _ _ Hst). Qed.

(** What the loops did: with no error, exactly the entries in the blocks were
    taken out. *)
Record acks_done n (first : bool) (blocks : list (Z * Z)) l out b x st info (rv : Z) st' acked info' l' out' : Prop := {
  ad_inv : ld_inv n l' out' b x st';
  ad_acked : acked = out'.*1;
  ad_else : same_else st st';
  ad_stat : loss_time (ld_cstat st') = loss_time (ld_cstat st);
  ad_sub : forall e, e ∈ out'.*2 -> e ∈ l \/ e ∈ out.*2;
  ad_rv : rv = 0 \/ rv = NGTCP2_ERR_PROTO /\ exists e, e ∈ l /\ is_skip e = true /\ acked_by blocks e = true;
  ad_ok : rv = 0 -> l' = List.filter (not_acked blocks) l /\ out'.*2 = rev (List.filter (acked_by blocks) l) ++ out.*2 /\
    (forall e, e ∈ List.filter (acked_by blocks) l -> is_skip e = false);
}.

(** One range. *)
Lemma one_range_run n (first : bool) lo hi x b l out st info blocks :
  ld_inv n l out b x st -> lo <= hi + 1 -> blocks_below (lo - 1) blocks ->
  exists it lA lB, ksl_lower_bound (rtb_ents (ld_rtb st)) hi = Ok it /\ l = lA ++ lB /\
    ngtcp2_ksl_it_end (rtb_ents (ld_rtb st)) it = bool_decide (lB = []) /\ (forall e, e ∈ lA -> hi < ent_pkt_num e) /\
    exists R K rv st' acked info' out', ack_range (entries_fuel st) first hi lo st it out.*1 info = Ok (rv, st', acked, info') /\
      lB = R ++ K /\ range_done n first lo lA out b x st info R K rv st' acked info' out' /\
      (rv = 0 -> List.filter (not_acked ((lo, hi) :: blocks)) l = List.filter (not_acked blocks) (lA ++ K) /\
        List.filter (acked_by ((lo, hi) :: blocks)) l = R ++ List.filter (acked_by blocks) (lA ++ K)) /\
      (rv <> 0 -> exists e, e ∈ l /\ is_skip e = true /\ in_blk (lo, hi) e = true).
Proof.
  intros Hinv Hlo Hbl. destruct (lower_bound_split _ _ _ _ _ _ hi Hinv) as (it & A & B & lA & lB & Hlb & Hc & -> & HlA & HlB & HA & HB).
  exists it, lA, lB. split; [done|]. split; [done|]. split.
  { rewrite (cursor_it_end _ _ _ _ Hc). apply bool_decide_ext. rewrite <- !length_zero_iff_nil. by rewrite HlB. }
  split; [done|].
  destruct (ack_range_run n first hi lo x b lA lB out st it A B info (entries_fuel st) Hinv Hc HlA)
    as (R & K & rv & st' & acked & info' & out' & Hrun & -> & Hd); [done|rewrite (entries_fuel_ok _ _ _ _ _ _ Hinv), length_app; lia|].
  exists R, K, rv, st', acked, info', out'. split; [done|]. split; [done|]. split; [done|]. pose proof Hd as [_ _ _ _ _ Hr _ Hrv].
  assert (HR : forall e, e ∈ R -> lo <= ent_pkt_num e <= hi).
  { intros e He. split; [by apply Hr|]. apply HB. rewrite elem_of_app. auto. }
  split.
  - intros ->. destruct Hrv as [[_ HK]|[? _]]; [|done]. split.
    + rewrite <- filter_not_more. by rewrite (filter_block lo hi lA R K).
    + apply filter_block_more; try done. eapply List.Forall_impl; [|exact Hbl]. cbn. lia.
  - intros Hne. destruct Hrv as [[? _]|(_ & e & K' & -> & Hs & Hmin)]; [done|]. exists e. split; [|split; [done|]].
    + rewrite !elem_of_app, elem_of_cons. auto.
    + unfold in_blk. cbn. rewrite !(proj2 (Z.leb_le _ _)); [done| |done]. apply HB. rewrite elem_of_app, elem_of_cons. auto.
Qed.

(** The first range, and the ones below it. *)
Lemma acks_cons n first lo hi blocks lA R K out b x st info st1 acked1 info1 out1 rv st' acked' info' l' out' :
  range_done n first lo lA out b x st info R K 0 st1 acked1 info1 out1 ->
  List.filter (not_acked ((lo, hi) :: blocks)) (lA ++ R ++ K) = List.filter (not_acked blocks) (lA ++ K) /\
    List.filter (acked_by ((lo, hi) :: blocks)) (lA ++ R ++ K) = R ++ List.filter (acked_by blocks) (lA ++ K) ->
  acks_done n false blocks (lA ++ K) out1 b x st1 info1 rv st' acked' info' l' out' ->
  acks_done n first ((lo, hi) :: blocks) (lA ++ R ++ K) out b x st info rv st' acked' info' l' out'.
Proof.
  intros [Hi1 -> Ho1 He1 Ht1 Hr1 Hinfo Hrv] [Hf1 Hf2] [Ha1 Ha2 Ha3 Ha4 Ha7 Ha5 Ha6]. split; try done.
  - by eapply same_else_trans.
  - congruence.
  - intros e [He|He]%Ha7; [left; rewrite !elem_of_app in *; tauto|].
    rewrite Ho1 in He. rewrite !elem_of_app, !list_elem_of_In, <- List.in_rev in *. tauto.
  - destruct Ha5 as [->|(-> & e & He & Hse & Hb)]; [by left|right]. split; [done|]. exists e. split_and!; [|done|].
    + rewrite !elem_of_app in *. tauto.
    + cbn. unfold acked_by in Hb. rewrite Hb. apply orb_true_r.
  - intros ->. destruct (Ha6 eq_refl) as (-> & E2 & E3). rewrite Hf1, Hf2. split_and!; [done| |].
    + rewrite E2, Ho1, rev_app_distr. by rewrite app_assoc.
    + intros e [He|He]%elem_of_app; [by apply Hr1|by apply E3].
Qed.

Lemma acks_fail n first lo hi blocks lA R K out b x st info rv st1 acked1 info1 out1 :
  range_done n first lo lA out b x st info R K rv st1 acked1 info1 out1 -> rv <> 0 ->
  (exists e, e ∈ lA ++ R ++ K /\ is_skip e = true /\ in_blk (lo, hi) e = true) ->
  acks_done n first ((lo, hi) :: blocks) (lA ++ R ++ K) out b x st info rv st1 out1.*1 info1 (lA ++ K) out1.
Proof.
  intros [Hi1 -> Ho1 He1 Ht1 Hr1 Hinfo Hrv] Hne (e & He & Hse & Hb). split; try done.
  - intros e0. rewrite Ho1, !elem_of_app, !list_elem_of_In, <- List.in_rev. tauto.
  - right. destruct Hrv as [[? _]|[-> _]]; [done|]. split; [done|]. exists e. split_and!; [done|done|]. cbn. by rewrite Hb.
Qed.

Lemma acks_none n first blocks l out b x st info :
  ld_inv n l out b x st -> (forall e, e ∈ l -> acked_by blocks e = false) ->
  acks_done n first blocks l out b x st info 0 st out.*1 info l out.
Proof.
  intros Hinv Hno. split; try done; [by right|by left|]. intros _.
  rewrite (filter_none (acked_by _) _ Hno), filter_all; [split_and!; [done|done|by intros e ?%elem_of_nil]|].
  intros e He. unfold not_acked. by rewrite Hno.
Qed.

(** Nothing is in the first range. *)
Lemma above_not_acked lo hi blocks l : (forall e, e ∈ l -> hi < ent_pkt_num e) -> lo <= hi + 1 -> blocks_below (lo - 1) blocks ->
  forall e, e ∈ l -> acked_by ((lo, hi) :: blocks) e = false.
Proof.
  intros HA Hlo Hbl e He. apply (acked_below (hi + 1)); [|specialize (HA e He); lia]. constructor; [cbn; lia|].
  eapply List.Forall_impl; [|exact Hbl]. cbn. intros. lia.
Qed.

Lemma more_ranges_run n ranges : forall lo x b l out st info,
  ld_inv n l out b x st -> Forall ack_range_ok ranges ->
  exists rv st' acked info' l' out', ack_more_ranges ranges lo st out.*1 info = Ok (rv, st', acked, info') /\
    acks_done n false (ack_blocks_below lo ranges) l out b x st info rv st' acked info' l' out'.
Proof.
  induction ranges as [|r ranges IH]; intros lo x b l out st info Hinv Hok; cbn [ack_more_ranges ack_blocks_below].
  { exists 0, st, out.*1, info, l, out. split; [done|]. by apply acks_none. }
  apply Forall_cons in Hok as [[Hg Hl] Hok]. unfold varint in *. rewrite !i64_small by lia. cbv zeta.
  set (hi := lo - ar_gap r - 2). set (lo1 := hi - ar_len r). pose proof (more_blocks_below lo1 ranges Hok) as Hbl.
  destruct (one_range_run n false lo1 hi x b l out st info (ack_blocks_below lo1 ranges) Hinv ltac:(lia) Hbl)
    as (it & lA & lB & -> & -> & Hend & HA & R & K & rv & st1 & acked1 & info1 & out1 & Hrun & -> & Hd & Hf & Hs). cbn [bind]. rewrite Hend.
  case_bool_decide as E.
  { exists 0, st, out.*1, info, lA, out. split; [done|]. apply app_eq_nil in E as [-> ->]. rewrite !app_nil_r in *.
    apply acks_none; [done|]. apply above_not_acked; [done|lia|done]. }
  rewrite Hrun. cbn [bind]. pose proof Hd as [_ -> _ _ _ _ _ _].
  destruct (Z.eqb_spec rv 0) as [->|Hne]; cbn [negb].
  - destruct (IH lo1 x b (lA ++ K) out1 st1 info1 (rd_inv _ _ _ _ _ _ _ _ _ _ _ _ _ _ _ _ Hd) Hok) as (rv & st' & acked & info' & l' & out' & Hrun' & Ha).
    exists rv, st', acked, info', l', out'. split; [exact Hrun'|]. eapply acks_cons; [exact Hd|by apply Hf|exact Ha].
  - exists rv, st1, out1.*1, info1, (lA ++ K), out1. split; [done|]. eapply acks_fail; [exact Hd|done|by apply Hs].
Qed.

Lemma take_run n l b x st (hi first_range : Z) ranges info : varint first_range -> Forall ack_range_ok ranges -> ld_inv n l [] b x st ->
  let lo := hi - first_range in let blocks := (lo, hi) :: ack_blocks_below lo ranges in
  exists it, ksl_lower_bound (rtb_ents (ld_rtb st)) hi = Ok it /\
    if ngtcp2_ksl_it_end (rtb_ents (ld_rtb st)) it then forall e, e ∈ l -> acked_by blocks e = false else
    exists rv st' acked info' l' out', take_acked st it hi lo ranges info = Ok (rv, st', acked, info') /\
      acks_done n true blocks l [] b x st info rv st' acked info' l' out'.
Proof.
  intros Hf Hr Hinv lo blocks. unfold varint in Hf. pose proof (more_blocks_below lo _ Hr) as Hbl.
  destruct (one_range_run n true lo hi x b l [] st info (ack_blocks_below lo ranges) Hinv ltac:(lia) Hbl)
    as (it & lA & lB & Hlb & -> & Hend & HA & R & K & rv & st1 & acked1 & info1 & out1 & Hrun & -> & Hd & Hff & Hs).
  exists it. split; [done|]. rewrite Hend. case_bool_decide as E.
  { apply app_eq_nil in E as [-> ->]. rewrite !app_nil_r in *. apply above_not_acked; [done|lia|done]. }
  unfold take_acked. cbn [fmap list_fmap] in Hrun. rewrite Hrun. cbn [bind]. pose proof Hd as [_ -> _ _ _ _ _ _].
  destruct (Z.eqb_spec rv 0) as [->|Hne]; cbn [negb].
  - destruct (more_ranges_run n ranges lo x b (lA ++ K) out1 st1 info1 (rd_inv _ _ _ _ _ _ _ _ _ _ _ _ _ _ _ _ Hd) Hr)
      as (rv & st' & acked & info' & l' & out' & Hrun' & Ha).
    exists rv, st', acked, info', l', out'. split; [exact Hrun'|]. eapply acks_cons; [exact Hd|by apply Hff|exact Ha].
  - exists rv, st1, out1.*1, info1, (lA ++ K), out1. split; [done|]. eapply acks_fail; [exact Hd|done|by apply Hs].
Qed.
End Ack.
