(* ===== verification/RtbProcess.v ===== *)
(** * Packets in flight: processing of the acknowledged packets

    The acknowledged entries are processed in ascending order: their frames
    are acknowledged, the rate sampler and the congestion controller are told,
    and the entry is released. *)

From S2P Require Import Prelude Const Frame Ksl KslInv KslIter KslSpec Acktr KslStore ConnStat Rst Cc CcSpec Recovery Rtb RtbInv RtbStep RtbAck.
From stdpp Require Import list gmap sorting.
#[local] Open Scope Z_scope.

Section Process.
Context {F S C : Type} (cc : ngtcp2_cc S) (ops : conn_ops F C).
Context (mss : Z) (inv : Z -> S -> ngtcp2_conn_stat -> Prop) {laws : CcLaws cc mss 1 inv}.
Context (cinv : C -> Prop) {app_laws : AppLaws ops mss cinv}.
Context (other : Z) {bounds : Bounds mss other}.
Abbreviation ld_inv := (RtbStep.ld_inv mss inv cinv other).
Abbreviation sh_ok := (RtbStep.sh_ok mss inv cinv).
Abbreviation grow := (RtbStep.grow mss).
Abbreviation cost := (RtbStep.cost mss).
Abbreviation state := (ld_state F S C).
Implicit Types (st : state) (e : ngtcp2_rtb_entry F) (l lA lB R K : list (ngtcp2_rtb_entry F)) (it : ngtcp2_ksl_it)
  (out : list (Z * ngtcp2_rtb_entry F)) (b x ts : Z) (n : nat) (sum : acked_sum).

(** The packets, the path and the parameters are the same; the statistics,
    the rate sampler and the controller may have changed. *)
Definition same_conn st st' : Prop :=
  ld_others st' = ld_others st /\ ld_ecn st' = ld_ecn st /\ ld_key st' = ld_key st /\ ld_par st' = ld_par st /\
  ns_id (ld_ns st') = ns_id (ld_ns st) /\ ns_ecn (ld_ns st') = ns_ecn (ld_ns st) /\
  ns_ack_ecn (ld_ns st') = ns_ack_ecn (ld_ns st) /\ ns_last_pkt_num (ld_ns st') = ns_last_pkt_num (ld_ns st) /\
  same_base (ld_rtb st) (ld_rtb st').

Lemma same_conn_refl st : same_conn st st.
Proof. by split_and!. Qed.

Lemma same_conn_trans st1 st2 st3 : same_conn st1 st2 -> same_conn st2 st3 -> same_conn st1 st3.
Proof. unfold same_conn, same_base. intros ? ?. naive_solver congruence. Qed.

Lemma same_else_conn st st' : same_else st st' -> same_conn st st'.
Proof. unfold same_else, same_conn. naive_solver. Qed.

Lemma cc_changed_conn st st' : cc_changed st st' -> same_conn st st'.
Proof. intros (s & c & rst & -> & _). by split_and!. Qed.

Lemma ld_budget n l out b x st : ld_inv n l out b x st -> sumz cost l + sumz cost out.*2 + b <= CC_LIMIT.
Proof.
  intros [_ _ [(hi & Hi & Hh) _ _ _ _ _]]. destruct (cl_window (cc := cc) hi _ _ Hi) as [? ?]. lia.
Qed.

Lemma update_rate_delivered (rst : ngtcp2_rst) e ts :
  rst_delivered (ngtcp2_rst_update_rate_sample rst e ts) = u64 (rst_delivered rst + ent_pktlen e).
Proof. unfold ngtcp2_rst_update_rate_sample. by destruct (_ || _). Qed.

(** Bytes are delivered. *)
Lemma delivered_ok n l out b x st e ts :
  ld_inv n l out (b + grow (ent_pktlen e)) x st -> 0 <= ent_pktlen e -> 0 <= sumz cost l + sumz cost out.*2 + b ->
  ld_inv n l out b x (put_rst (ngtcp2_rst_update_rate_sample (ld_rst st) e ts) st).
Proof.
  intros [[Hst Hrm Hcn Ho He Hla Hcc Hdl Hb Hid] Hecn [(hi & Hi & Hh) Hp [Hd1 Hd2] Ha Ht Hpar]] Hl Hpos.
  pose proof (bd_mss (mss := mss) (other := other)) as Hm. unfold MIN_PAYLOAD in Hm.
  assert (Hg : ent_pktlen e <= grow (ent_pktlen e)) by (unfold RtbStep.grow; nia).
  assert (Hu : rst_delivered (ngtcp2_rst_update_rate_sample (ld_rst st) e ts) = rst_delivered (ld_rst st) + ent_pktlen e).
  { rewrite update_rate_delivered. apply u64_small. unfold is_u64, CC_LIMIT in *. lia. }
  split; cbn; rewrite ?Hu; [|done|].
  - split; try done. eapply List.Forall_impl; [|exact Hdl]. cbn. intros e0 H1 H2. specialize (H1 H2). lia.
  - split; cbn; rewrite ?Hu; try done; [|lia]. exists hi. split; [done|lia].
Qed.

Lemma growth_grow bytes : 0 <= bytes -> growth mss 1 bytes = grow bytes.
Proof.
  intros H. pose proof (bd_mss (mss := mss) (other := other)) as Hm. unfold MIN_PAYLOAD in Hm. unfold growth, RtbStep.grow. rewrite Z.div_1_r.
  rewrite Z.max_r; [done|]. nia.
Qed.

Lemma pkt_acked_ok n l out b x st e ts :
  ld_inv n l out (b + 2 * grow (ent_pktlen e)) x st -> 0 <= ent_pktlen e -> 0 <= sumz cost l + sumz cost out.*2 + b ->
  cc_pkt_num (ld_rtb st) <= ent_pkt_num e ->
  exists st', rtb_on_pkt_acked cc st e ts = Ok st' /\ ld_inv n l out b x st' /\ same_conn st st' /\
    ld_rtb st' = ld_rtb st /\ loss_time (ld_cstat st') = loss_time (ld_cstat st).
Proof.
  intros Hinv Hl Hpos Hcc. pose proof (bd_mss (mss := mss) (other := other)) as Hm. unfold MIN_PAYLOAD in Hm.
  assert (Hg : 0 <= grow (ent_pktlen e)) by (unfold RtbStep.grow; nia).
  unfold rtb_on_pkt_acked. rewrite (proj2 (Z.leb_le _ _)) by done.
  replace (b + 2 * grow (ent_pktlen e)) with (b + grow (ent_pktlen e) + grow (ent_pktlen e)) in Hinv by lia.
  pose proof (delivered_ok n l out (b + grow (ent_pktlen e)) x st e ts Hinv Hl ltac:(lia)) as Hinv1.
  set (st1 := put_rst _ st) in *.
  destruct (call_cc_inv (on_pkt_acked cc) (ngtcp2_cc_pkt_init st1 e) ts Hinv1 Hg Hpos) as (st2 & -> & Hch & Hinv2).
  { intros hi Hi Hh. rewrite <- growth_grow in * by done. by apply (cl_pkt_acked (mss := mss) (lo := 1) (inv := inv)). }
  cbn [bind].
  assert (Hsame : same_conn st st2) by (eapply same_conn_trans; [|by eapply cc_changed_conn]; by split_and!).
  assert (Hrtb : ld_rtb st2 = ld_rtb st) by by destruct Hch as (? & ? & ? & -> & _).
  assert (Htimes : loss_time (ld_cstat st2) = loss_time (ld_cstat st)) by by destruct Hch as (? & ? & ? & -> & (? & ? & ? & ? & ? & ->) & _).
  destruct (_ && _); eexists; (split; [reflexivity|]); split_and!; try done.
  - apply (ld_inv_stat (cc := cc)); [done|same_stat].
Qed.
(** The application acknowledges the frames. *)
Lemma app_acked_ok n l out b x st e :
  ld_inv n l out b x st -> exists rv cstat app, co_acked ops (ld_app st) (ld_cstat st) e = Ok (rv, cstat, app) /\ app_rv ops rv /\
    ld_inv n l out b x (put_app app (put_cstat cstat st)) /\ loss_time cstat = loss_time (ld_cstat st).
Proof.
  intros [Hns Hecn [(hi & Hi & Hh) Hp Hd Ha Ht Hpar]].
  destruct (al_acked (ops := ops) (ld_app st) (ld_cstat st) e Ha Hp) as (rv & k & app & Hrun & Hrv & Hk & Ha').
  do 3 eexists. split; [exact Hrun|]. split; [split; [done|]; intros Hx; by apply (ax_acked _ Hx) in Hrun|]. split; [|done]. split; [done|done|]. split; cbn; try done.
  exists hi. split; [|done]. by apply cl_payload.
Qed.

(** The entries that are processed, in ascending order. *)
Record acked_ok (cc_pkt_num delivered last : Z) (es : list (ngtcp2_rtb_entry F)) : Prop := {
  ao_order : StronglySorted (fun e1 e2 => sent_after cc_pkt_num e2 e1) es;
  ao_len : Forall (fun e => 0 <= ent_pktlen e) es;
  ao_delivered : Forall (fun e => cc_pkt_num <= ent_pkt_num e -> last <= er_delivered (ent_rst e)) es;
}.

Definition w_acked (cc_pkt_num : Z) e : Z := Z.b2z (cc_pkt_num <=? ent_pkt_num e).

(** What the loop did. *)
Record processed n l b x st sum (rv : Z) st' (acked : list Z) sum' (es : list (ngtcp2_rtb_entry F)) out' : Prop := {
  pd_inv : ld_inv n l out' (b + if rv =? 0 then grow (ca_bytes_delivered (as_ack sum')) else 0) x st';
  pd_acked : acked = out'.*1;
  pd_len : Forall (fun p => 0 <= ent_pktlen p.2) out';
  pd_conn : same_conn st st';
  pd_times : loss_time (ld_cstat st') = loss_time (ld_cstat st);
  pd_rv : app_rv ops rv;
  pd_ok : rv = 0 -> out' = [] /\ 0 <= ca_bytes_delivered (as_ack sum') /\
    as_num_acked sum' = as_num_acked sum + sumz (w_acked (cc_pkt_num (ld_rtb st))) es;
}.

Lemma process_acked_ents_run n l x ts out : forall b st sum,
  ld_inv n l out (b + grow (ca_bytes_delivered (as_ack sum))) x st -> 0 <= b -> 0 <= sumz cost l ->
  0 <= ca_bytes_delivered (as_ack sum) ->
  acked_ok (cc_pkt_num (ld_rtb st)) (rst_delivered (ld_rst st)) (ca_pkt_delivered (as_ack sum)) out.*2 ->
  exists rv st' acked sum' out', process_acked cc ops st out.*1 sum ts = Ok (rv, st', acked, sum') /\
    processed n l b x st sum rv st' acked sum' out.*2 out'.
Proof.
  pose proof (bd_mss (mss := mss) (other := other)) as Hm. unfold MIN_PAYLOAD in Hm.
  induction out as [|[p e] out IH]; intros b st sum Hinv Hb Hl0 Hd [Hord Hlen Hdel]; cbn [fmap list_fmap fst snd process_acked].
  { exists 0, st, [], sum, []. split; [done|]. split; try done. cbn. by rewrite Z.add_0_r. }
  cbn [fmap list_fmap fst snd] in *. apply Forall_cons in Hlen as [Hl Hlen]. apply Forall_cons in Hdel as [He Hdel].
  apply StronglySorted_inv in Hord as [Hord Hlt].
  assert (Hg : forall k, 0 <= k -> k <= grow k) by (intros k Hk; unfold RtbStep.grow; nia).
  assert (Hout0 : 0 <= sumz cost out.*2).
  { apply sumz_nonneg. intros e0 He0. rewrite Forall_forall in Hlen. by apply cost_pos, Hlen. }
  assert (Hload : rtb_load (ld_rtb st) p = Ok e).
  { destruct Hinv as [[Hst _ _ _ _ _ _ _ _ _] _ _]. destruct Hst as [_ _ Ho _ _]. apply Forall_cons in Ho as [Ho _]. cbn in Ho.
    unfold rtb_load, ld_rtb. by rewrite Ho. }
  rewrite Hload. cbn [bind].
  destruct (app_acked_ok _ _ _ _ _ _ e Hinv) as (rv & cstat & app & -> & Hrv & Hinv1 & Htimes1). cbn [bind].
  set (st1 := put_app app (put_cstat cstat st)) in *.
  destruct (Z.eqb_spec rv 0) as [->|Hne]; cbn [negb].
  2:{ exists rv, st1, (p :: out.*1), (mk_acked_sum (as_ack sum) (as_ecn_acked sum + Z.b2z (ecn_counts (ld_ns st) e)) (as_num_acked sum)), ((p, e) :: out).
      split; [reflexivity|]. split; try done; cbn.
      - rewrite (proj2 (Z.eqb_neq _ _)) by done. eapply ld_inv_mono; [|exact Hinv1]. specialize (Hg _ Hd). lia.
      - constructor; [done|]. clear -Hlen. induction out as [|[q e0] out IH]; [constructor|]. cbn in Hlen.
        apply Forall_cons in Hlen as [? ?]. constructor; [done|auto]. }
  change (ld_rtb st1) with (ld_rtb st). set (ack := as_ack sum) in *. set (D := ca_bytes_delivered ack) in *.
  pose proof (ld_budget _ _ _ _ _ _ Hinv) as Hbud. cbn [fmap list_fmap snd sumz] in Hbud.
  destruct (Z.leb_spec (cc_pkt_num (ld_rtb st)) (ent_pkt_num e)) as [Hc|Hc].
  - rewrite (proj2 (Z.leb_le _ _)) by auto. cbn [bind].
    destruct (pkt_acked_ok n l ((p, e) :: out) (b + grow D - 2 * grow (ent_pktlen e)) x st1 e ts) as (st2 & -> & Hinv2 & Hsame & Hrtb & Htimes2);
      [by rewrite Z.sub_add|done| |done|].
    { cbn [fmap list_fmap snd sumz]. assert (Ec : cost e = 3 * grow (ent_pktlen e)) by done.
      pose proof (Hg _ Hl). pose proof (Hg D Hd). lia. }
    cbn [bind]. destruct (del_ok Hinv2) as (st3 & -> & Hinv3 & Hrtb3 & Hc3 & Helse3). cbn [bind].
    assert (HD : u64 (D + ent_pktlen e) = D + ent_pktlen e).
    { apply u64_small. unfold is_u64, CC_LIMIT, RtbStep.cost, RtbStep.grow in *. nia. }
    assert (Hrun : same_conn st st3).
    { eapply same_conn_trans; [|by apply same_else_conn]. eapply same_conn_trans; [|exact Hsame]. by split_and!. }
    edestruct (IH b st3) as (rv & st' & acked & sum' & out' & Hrun' & [H1 H2 H3 H4 H5 H6 H7]);
      [| | | | |do 5 eexists; split; [exact Hrun'|]]; cbn [as_ack ca_bytes_delivered ca_pkt_delivered as_num_acked] in *; rewrite ?HD; try done.
    + eapply ld_inv_mono; [|exact Hinv3]. unfold RtbStep.cost, RtbStep.grow. nia.
    + lia.
    + assert (Hcn : cc_pkt_num (ld_rtb st3) = cc_pkt_num (ld_rtb st)) by (rewrite Hrtb3, Hrtb; done). rewrite Hcn.
      split; [done|done|]. rewrite Forall_forall in *. intros e0 He0 Hc0. apply (Hlt e0 He0). done.
    + split; try done; [by eapply same_conn_trans| |].
      * rewrite H5, Hc3, Htimes2. done.
      * intros E. destruct (H7 E) as (? & ? & Hn). split_and!; [done|done|]. cbn [sumz]. rewrite Hn.
        assert (Hcn : cc_pkt_num (ld_rtb st3) = cc_pkt_num (ld_rtb st)) by (rewrite Hrtb3, Hrtb; done). rewrite Hcn.
        unfold w_acked at 2. rewrite (proj2 (Z.leb_le _ _)) by done. cbn. lia.
  - cbn [bind]. destruct (del_ok Hinv1) as (st3 & -> & Hinv3 & Hrtb3 & Hc3 & Helse3). cbn [bind].
    assert (Hcn : cc_pkt_num (ld_rtb st3) = cc_pkt_num (ld_rtb st)) by (rewrite Hrtb3; done).
    assert (Hrun : same_conn st st3) by (eapply same_conn_trans; [|by apply same_else_conn]; by split_and!).
    edestruct (IH b st3) as (rv & st' & acked & sum' & out' & Hrun' & [H1 H2 H3 H4 H5 H6 H7]);
      [| | | | |do 5 eexists; split; [exact Hrun'|]]; cbn [as_ack ca_bytes_delivered ca_pkt_delivered as_num_acked] in *; try done.
    + eapply ld_inv_mono; [|exact Hinv3]. pose proof (cost_pos (mss := mss) (other := other) Hl). fold ack D. lia.
    + rewrite Hcn. split; done.
    + split; try done; [by eapply same_conn_trans| |].
      * rewrite H5, Hc3. done.
      * intros E. destruct (H7 E) as (? & ? & Hn). split_and!; [done|done|]. cbn [sumz]. rewrite Hn, Hcn.
        unfold w_acked at 2. rewrite (proj2 (Z.leb_gt _ _)) by done. cbn. lia.
Qed.
End Process.
