(* ===== verification/RtbLose.v ===== *)
(** * Packets in flight: a packet is declared lost

    The steps of [rtb_on_remove] and [rtb_on_pkt_lost] for a packet that stays
    in the list. *)

From S2P Require Import Prelude Const Ksl KslInv KslIter KslSpec Acktr KslStore ConnStat Rst Cc CcSpec Recovery Rtb RtbInv RtbStep RtbAck RtbProcess.
From stdpp Require Import list gmap sorting.
#[local] Open Scope Z_scope.

(** ** Flags *)
Lemma has_flag_lor_other a b f : Z.land b f = 0 -> has_flag (Z.lor a b) f = has_flag a f.
Proof. intros H. unfold has_flag. by rewrite Z.land_lor_distr_l, H, Z.lor_0_r. Qed.

Lemma has_flag_lor_self a f : f <> 0 -> has_flag (Z.lor a f) f = true.
Proof.
  intros Hf. unfold has_flag. apply negb_true_iff, Z.eqb_neq. rewrite Z.land_lor_distr_l, Z.land_diag.
  intros [_ ?]%Z.lor_eq_0_iff. done.
Qed.

Section Lose.
Context {F S C : Type} (cc : ngtcp2_cc S) (ops : conn_ops F C).
Context (mss : Z) (inv : Z -> S -> ngtcp2_conn_stat -> Prop) {laws : CcLaws cc mss 1 inv}.
Context (cinv : C -> Prop) {app_laws : AppLaws ops mss cinv}.
Context (other : Z) {bounds : Bounds mss other}.
Abbreviation ld_inv := (RtbStep.ld_inv mss inv cinv other).
Abbreviation sh_ok := (RtbStep.sh_ok mss inv cinv).
Abbreviation cost := (RtbStep.cost mss).
Abbreviation state := (ld_state F S C).
Implicit Types (st : state) (e : ngtcp2_rtb_entry F) (l lA lB lc : list (ngtcp2_rtb_entry F)) (it : ngtcp2_ksl_it)
  (b x ts : Z) (n : nat).

(** [e'] is [e], declared lost at [ts]. *)
Definition lost_of ts e e' : Prop :=
  exists frc, e' = set_ent_lost (Z.lor (ent_flags e) NGTCP2_RTB_ENTRY_FLAG_LOST_RETRANSMITTED) ts (set_ent_frc frc e) /\
    (ent_frc e <> [] -> frc <> []).

Lemma lost_of_lost ts e e' : lost_of ts e e' -> is_lost e' = true.
Proof. intros (frc & -> & _). by apply has_flag_lor_self. Qed.

Lemma lost_of_flag ts e e' f : lost_of ts e e' -> Z.land NGTCP2_RTB_ENTRY_FLAG_LOST_RETRANSMITTED f = 0 -> ent_has e' f = ent_has e f.
Proof. intros (frc & -> & _) Hf. by apply has_flag_lor_other. Qed.

(** Between the steps: the list is [l], the counters are those of [lc], with
    [ign] more entries to ignore. *)
Record mid_inv n l lc (ign : Z) b x st : Prop := {
  mi_stored : rtb_stored l [] (ld_rtb st);
  mi_room : ksl_room n (rtb_ents (ld_rtb st));
  mi_counts : counts lc (set_lost_counts (num_lost_pkts (ld_rtb st)) (num_lost_ignore_pkts (ld_rtb st) - ign) (ld_rtb st));
  mi_order : StronglySorted (sent_after (cc_pkt_num (ld_rtb st))) l;
  mi_ents : Forall (ent_ok (largest_acked_tx_pkt_num (ld_rtb st))) l;
  mi_last : Forall (fun e => ent_pkt_num e <= ns_last_pkt_num (ld_ns st)) l;
  mi_cc : 0 <= cc_pkt_num (ld_rtb st) <= ns_last_pkt_num (ld_ns st) + 1;
  mi_delivered : Forall (fun e => cc_pkt_num (ld_rtb st) <= ent_pkt_num e -> 0 <= er_delivered (ent_rst e) <= rst_delivered (ld_rst st)) l;
  mi_bytes : bytes_in_flight (ld_cstat st) = cc_bytes_in_flight (ld_rtb st) + other;
  mi_id : 0 <= ns_id (ld_ns st) < NGTCP2_PKTNS_ID_MAX;
  mi_ecn : ecn_ok x lc (ns_ecn (ld_ns st)) (ld_ecn st);
  mi_sh : sh_ok (sumz cost l + b) st;
}.

Lemma counts_ext lc (rtb rtb' : ngtcp2_rtb F) :
  counts lc rtb -> cc_pkt_num rtb' = cc_pkt_num rtb -> num_ack_eliciting rtb' = num_ack_eliciting rtb ->
  num_retransmittable rtb' = num_retransmittable rtb -> num_pto_eliciting rtb' = num_pto_eliciting rtb ->
  num_lost_pkts rtb' = num_lost_pkts rtb -> num_lost_ignore_pkts rtb' = num_lost_ignore_pkts rtb ->
  cc_bytes_in_flight rtb' = cc_bytes_in_flight rtb -> counts lc rtb'.
Proof. intros [] E1 E2 E3 E4 E5 E6 E7. split; rewrite ?E1, ?E2, ?E3, ?E4, ?E5, ?E6, ?E7; done. Qed.

Lemma sum_app_nil l b : sumz cost l + sumz cost ([] : list (Z * ngtcp2_rtb_entry F)).*2 + b = sumz cost l + b.
Proof. cbn. lia. Qed.

Lemma mid_of_inv n l b x st : ld_inv n l [] b x st -> mid_inv n l l 0 b x st.
Proof.
  intros [[] ? ?]. rewrite sum_app_nil in *. split; try done.
  eapply counts_ext; [eassumption|..]; try done. unfold ld_rtb. cbn. lia.
Qed.

Lemma inv_of_mid n l b x st : mid_inv n l l 0 b x st -> ld_inv n l [] b x st.
Proof.
  intros []. split; [split; try done| |]; try done.
  - eapply counts_ext; [eassumption|..]; try done. unfold ld_rtb. cbn. lia.
  - by rewrite sum_app_nil.
Qed.

Lemma mid_cc n l lc ign b x st st' : mid_inv n l lc ign b x st -> cc_changed st st' -> sh_ok (sumz cost l + b) st' -> mid_inv n l lc ign b x st'.
Proof.
  intros [] (s & c & rst & -> & (w & th & start & i & q & ->) & Hr) Hs.
  assert (Hrd : rst_delivered rst = rst_delivered (ld_rst st)) by by destruct Hr as [-> | ->].
  split; try done. cbn. by rewrite Hrd.
Qed.

Lemma mid_app n l lc ign b x st app : mid_inv n l lc ign b x st -> cinv app -> mid_inv n l lc ign b x (put_app app st).
Proof. intros [? ? ? ? ? ? ? ? ? ? ? [? ? ? ? ? ?]] Ha. by split; [..|split]. Qed.

Lemma mid_stat n l lc ign b x st c :
  mid_inv n l lc ign b x st -> stat_same (ld_cstat st) c -> mid_inv n l lc ign b x (put_cstat c st).
Proof.
  intros [? ? ? ? ? ? ? ? Hb ? ? [(hi & Hi & Hh) Hp Hd Ha Ht Hpar]] Hc. pose proof (times_same _ _ Hc Ht) as Ht'.
  destruct Hc as (E1 & E2 & E3 & E4 & _). split; try done.
  - cbn. by rewrite E4.
  - split; cbn; rewrite ?E3; try done. exists hi. split; [|done]. by eapply cl_stat.
Qed.

Lemma sh_rtb b st rtb : sh_ok b st -> sh_ok b (put_rtb rtb st).
Proof. by intros []. Qed.

(** The statistics. *)
Lemma count_lost_ok n l lc b x st e ts :
  mid_inv n l lc 0 b x st -> 0 <= sumz cost l + b ->
  exists st', count_lost cc st e ts = Ok st' /\ mid_inv n l lc (Z.b2z (ent_has e NGTCP2_RTB_ENTRY_FLAG_IGNORE)) b x st' /\
    same_conn st st' /\ loss_time (ld_cstat st') = loss_time (ld_cstat st) /\ rtb_ents (ld_rtb st') = rtb_ents (ld_rtb st).
Proof.
  intros Hinv Hb. unfold count_lost. destruct (ent_has e NGTCP2_RTB_ENTRY_FLAG_IGNORE); cbn [Z.b2z].
  - eexists. split; [reflexivity|]. split; [|by split_and!]. destruct Hinv. split; try done.
    + eapply counts_ext; [eassumption|..]; try done. cbn. lia.
    + by apply sh_rtb.
  - set (c := set_lost _ _ _). assert (Hinv1 : mid_inv n l lc 0 b x (put_cstat c st)) by (apply mid_stat; [done|same_stat]).
    set (st1 := put_cstat c st) in *. destruct (_ <=? _); [|eexists; split; [reflexivity|]; by split_and!].
    set (r := set_rst_lost _ _). assert (Hinv2 : mid_inv n l lc 0 b x (put_rst r st1)) by by destruct Hinv1 as [? ? ? ? ? ? ? ? ? ? ? [? ? ? ? ? ?]].
    set (st2 := put_rst r st1) in *. pose proof Hinv2 as [_ _ _ _ _ _ _ _ _ _ _ Hs].
    destruct (RtbStep.call_cc_ok mss inv cinv (on_pkt_lost cc) (ngtcp2_cc_pkt_init st2 e) ts st2 (sumz cost l + b) 0)
      as (st3 & -> & Hch & Hs3); [by rewrite Z.add_0_r|done| |done|].
    { intros hi Hi _. rewrite Z.add_0_r. by apply (cl_pkt_lost (mss := mss) (lo := 1) (inv := inv)). }
    eexists. split; [reflexivity|]. split_and!.
    + by eapply mid_cc.
    + eapply same_conn_trans; [|by apply cc_changed_conn]. by split_and!.
    + by destruct Hch as (? & ? & ? & -> & (? & ? & ? & ? & ? & ->) & _).
    + by destruct Hch as (? & ? & ? & -> & _).
Qed.

(** An entry is changed. *)
Lemma mid_store n lA e lB lc ign b x st A p B e' :
  mid_inv n (lA ++ e :: lB) lc ign b x st -> ksl_elems (rtb_ents (ld_rtb st)) = A ++ (ent_pkt_num e, p) :: B -> length lA = length A ->
  ent_pkt_num e' = ent_pkt_num e -> ent_pktlen e' = ent_pktlen e -> ent_rst e' = ent_rst e ->
  ent_ok (largest_acked_tx_pkt_num (ld_rtb st)) e' ->
  exists heap, rtb_store (ld_rtb st) p e' = Ok (set_store heap (rtb_next (ld_rtb st)) (rtb_ents (ld_rtb st)) (ld_rtb st)) /\
    mid_inv n (lA ++ e' :: lB) lc ign b x (put_rtb (set_store heap (rtb_next (ld_rtb st)) (rtb_ents (ld_rtb st)) (ld_rtb st)) st).
Proof.
  intros [Hst Hrm Hcn Ho He Hla Hcc Hdl Hb Hid Hecn Hs] HE Hl E1 E2 E3 Hok.
  destruct (rtb_store_ok _ _ _ _ _ _ _ _ e' Hst HE Hl E1) as (heap & Hrun & Hst' & _). exists heap. split; [done|].
  split; try done; cbn.
  - by eapply counts_ext.
  - clear -Ho E1 E3. cbn. induction lA as [|e0 lA IH]; cbn in *.
    + apply StronglySorted_inv in Ho as [Ho Hf]. constructor; [done|]. eapply List.Forall_impl; [|exact Hf]. unfold sent_after. by rewrite E1, E3.
    + apply StronglySorted_inv in Ho as [Ho Hf]. constructor; [auto|]. rewrite Forall_app, Forall_cons in *. unfold sent_after in *.
      by rewrite E1, E3.
  - apply Forall_app in He as [? [? ?]%Forall_cons]. apply Forall_app. split; [done|]. by constructor.
  - rewrite Forall_app, Forall_cons in *. by rewrite E1.
  - rewrite Forall_app, Forall_cons in *. by rewrite E1, E3.
  - apply sh_rtb. rewrite sumz_middle in *. unfold RtbStep.cost at 1. rewrite E2. exact Hs.
Qed.

Lemma process_lost_datagram_ok f frc : co_lost_datagram ops = Some f -> forall app, cinv app ->
  exists rv app', process_lost_datagram ops f app frc = Ok (rv, app') /\ app_rv ops rv /\ cinv app'.
Proof.
  intros Hf. induction frc as [|fr frc IH]; intros app Ha; cbn [process_lost_datagram]; [by do 2 eexists|].
  destruct (co_dgram_id ops fr) as [id|]; [|by apply IH].
  destruct (al_lost (ops := ops) f app id Hf Ha) as (rv & app1 & Hrun & Ha1). rewrite Hrun. cbn [bind].
  destruct (Z.eqb_spec rv 0) as [->|Hne]; cbn [negb]; [by apply IH|]. do 2 eexists. split; [done|]. split; [|done].
  split; [done|]. intros Hx. by apply (ax_lost _ Hx) in Hrun.
Qed.

Lemma lost_datagram_ok n l lc ign b x st e :
  mid_inv n l lc ign b x st -> exists rv app, conn_process_lost_datagram ops st e = Ok (rv, put_app app st) /\ app_rv ops rv /\ mid_inv n l lc ign b x (put_app app st).
Proof.
  intros Hinv. pose proof Hinv as [_ _ _ _ _ _ _ _ _ _ _ [_ _ _ Ha _ _]].
  assert (E : put_app (ld_app st) st = st) by by destruct st. unfold conn_process_lost_datagram.
  destruct (co_lost_datagram ops) as [f|] eqn:Ef; [|exists 0, (ld_app st); rewrite E; done].
  destruct (ent_has e _); [|exists 0, (ld_app st); rewrite E; done].
  destruct (process_lost_datagram_ok f (ent_frc e) Ef _ Ha) as (rv & app & -> & Hrv & Ha'). cbn [bind].
  exists rv, app. split; [done|]. split; [done|]. by apply mid_app.
Qed.

(** The frames may be bound to new ones. *)
Definition reframed e e' : Prop := exists frc, e' = set_ent_frc frc e /\ (ent_frc e <> [] -> frc <> []).

Lemma reframed_refl e : reframed e e.
Proof. exists (ent_frc e). split; [by destruct e|done]. Qed.

Lemma reframed_ok largest e e' : reframed e e' -> ent_ok largest e -> ent_ok largest e'.
Proof. intros (frc & -> & Hf) [? ? ? ? ?]. split; try done. cbn. auto. Qed.

Lemma reclaim_ok n lA e lB lc ign b x st A p B on_loss :
  mid_inv n (lA ++ e :: lB) lc ign b x st -> ksl_elems (rtb_ents (ld_rtb st)) = A ++ (ent_pkt_num e, p) :: B -> length lA = length A ->
  ent_has e NGTCP2_RTB_ENTRY_FLAG_RETRANSMITTABLE = true ->
  exists k st' e', rtb_reclaim_frame ops st on_loss p e = Ok (k, st', e') /\ mid_inv n (lA ++ e' :: lB) lc ign b x st' /\ reframed e e' /\
    same_conn st st' /\ ld_cstat st' = ld_cstat st /\ rtb_ents (ld_rtb st') = rtb_ents (ld_rtb st) /\ (app_succeeds ops -> 0 <= k).
Proof.
  intros Hinv HE Hl Hr. unfold rtb_reclaim_frame. rewrite Hr. pose proof Hinv as [_ _ _ _ He _ _ _ _ _ _ [_ _ _ Ha _ _]].
  apply Forall_app in He as [_ [Heok _]%Forall_cons]. pose proof Heok as [_ _ _ _ Hfrc].
  destruct (al_reclaim (ops := ops) (ld_app st) on_loss (ent_pkt_num e) (ent_frc e) Ha (Hfrc Hr)) as (k & frc & app & Hrun & Hne & Ha').
  rewrite Hrun. cbn [bind]. assert (Href : reframed e (set_ent_frc frc e)) by by exists frc.
  destruct (mid_store n lA e lB lc ign b x st A p B (set_ent_frc frc e) Hinv HE Hl) as (heap & -> & Hinv'); [done|done|done|by eapply reframed_ok|].
  cbn [bind]. do 3 eexists. split; [reflexivity|]. split; [by apply mid_app|]. split_and!; try done. intros Hx. by apply (ax_reclaim _ Hx) in Hrun.
Qed.

Lemma live_not_lost_yet largest e : ent_ok largest e -> is_lost e = false -> not_lost_yet e = true.
Proof. intros [_ _ Hl _ _] El. unfold not_lost_yet. fold (is_lost e). rewrite El, Hl by done. done. Qed.

Lemma reclaim_lost_ok n lA e lB lc ign b x st A p B :
  mid_inv n (lA ++ e :: lB) lc ign b x st -> ksl_elems (rtb_ents (ld_rtb st)) = A ++ (ent_pkt_num e, p) :: B -> length lA = length A ->
  is_lost e = false ->
  exists rv st' e', reclaim_lost ops st p e = Ok (rv, st', e') /\ app_rv ops rv /\ mid_inv n (lA ++ e' :: lB) lc ign b x st' /\ reframed e e' /\
    same_conn st st' /\ ld_cstat st' = ld_cstat st /\ rtb_ents (ld_rtb st') = rtb_ents (ld_rtb st).
Proof.
  intros Hinv HE Hl El. pose proof Hinv as [_ _ _ _ He _ _ _ _ _ _ _]. apply Forall_app in He as [_ [Heok _]%Forall_cons].
  pose proof (live_not_lost_yet _ e Heok El) as Hny. pose proof Heok as [_ _ _ _ Hfrc]. unfold reclaim_lost. rewrite Hny.
  destruct (ent_has e NGTCP2_RTB_ENTRY_FLAG_PTO_RECLAIMED).
  { exists 0, st, e. split; [done|]. split; [done|]. split; [done|]. split; [apply reframed_refl|]. split; [apply same_conn_refl|done]. }
  destruct (lost_datagram_ok _ _ _ _ _ _ st e Hinv) as (rv & app & -> & Hrv & Hinv1). cbn [bind].
  assert (Hsame : same_conn st (put_app app st)) by by split_and!.
  destruct (negb (rv =? 0)).
  { exists rv, (put_app app st), e. split; [done|]. split; [done|]. split; [done|]. split; [apply reframed_refl|]. split; [done|done]. }
  destruct (ent_has e NGTCP2_RTB_ENTRY_FLAG_RETRANSMITTABLE) eqn:Er.
  2:{ exists 0, (put_app app st), e. split; [done|]. split; [done|]. split; [done|]. split; [apply reframed_refl|]. split; [done|done]. }
  rewrite bool_decide_eq_false_2; [|intros E; by apply length_zero_iff_nil, (Hfrc eq_refl) in E]. cbn [negb].
  destruct (reclaim_ok n lA e lB lc ign b x (put_app app st) A p B true Hinv1 HE Hl Er) as (k & st2 & e' & -> & Hinv2 & Href & Hs2 & Hc2 & He2 & Hk).
  cbn [bind]. do 3 eexists. split; [reflexivity|]. split; [destruct (Z.ltb_spec k 0); [|done]; split; [lia|intros ?%Hk; lia]|]. split; [done|]. split; [done|]. split; [by eapply same_conn_trans|done].
Qed.

(** The entry counts as lost. *)
Lemma mid_finish n lA e lB b x st :
  mid_inv n (lA ++ e :: lB) (lA ++ lB) (Z.b2z (ent_has e NGTCP2_RTB_ENTRY_FLAG_IGNORE)) b x st -> is_lost e = true ->
  mid_inv n (lA ++ e :: lB) (lA ++ e :: lB) 0 b x
    (put_rtb (set_lost_counts (num_lost_pkts (ld_rtb st) + 1) (num_lost_ignore_pkts (ld_rtb st)) (ld_rtb st)) st).
Proof.
  intros [Hst Hrm [H1 H2 H3 H4 H5 H6] Ho He Hla Hcc Hdl Hb Hid [Hn1 Hn2] Hs] El. cbn in *. split; try done.
  - split; cbn; rewrite sumz_middle.
    + unfold w_ack at 1. by rewrite El, H1.
    + unfold w_retr at 1. by rewrite El, H2.
    + unfold w_pto at 1. by rewrite El, H3.
    + unfold w_lost at 1. rewrite El, H4. cbn. lia.
    + unfold w_ignore at 1. rewrite El. cbn. lia.
    + unfold w_bytes at 1. by rewrite El, H6.
  - split; [|done]. intros Hv. specialize (Hn1 Hv). rewrite sumz_middle. unfold w_ecn at 1. rewrite El. cbn in *. lia.
  - by apply sh_rtb.
Qed.

(** A packet is declared lost and stays in the list. *)
Record lost_one n lA e lB b x ts st (rv : Z) st' e' : Prop := {
  lo_inv : ld_inv n (lA ++ e' :: lB) [] b (x + Z.b2z (ecn_counts (ld_ns st) e)) st';
  lo_lost : lost_of ts e e';
  lo_conn : same_conn st st';
  lo_times : loss_time (ld_cstat st') = loss_time (ld_cstat st);
  lo_ents : rtb_ents (ld_rtb st') = rtb_ents (ld_rtb st);
}.

Lemma lost_ok largest ts e e' : lost_of ts e e' -> ent_ok largest e -> ent_pkt_num e <= largest -> ent_ok largest e'.
Proof.
  intros Hlo [? ? ? ? Hf] Hle. pose proof (lost_of_lost _ _ _ Hlo) as El. pose proof (lost_of_flag _ _ _ NGTCP2_RTB_ENTRY_FLAG_RETRANSMITTABLE Hlo eq_refl) as Er.
  destruct Hlo as (frc & -> & Hfrc). split; try done.
  - by rewrite El.
  - rewrite Er. cbn. intros E. by apply Hfrc, Hf.
Qed.

Lemma lose_one_ok n lA e lB b x st it A B ts :
  ld_inv n (lA ++ e :: lB) [] b x st -> cursor (rtb_ents (ld_rtb st)) it A B -> length lA = length A -> is_lost e = false ->
  ent_pkt_num e <= largest_acked_tx_pkt_num (ld_rtb st) -> 0 <= b ->
  exists p B' rtb cstat rv st', rtb_ent_at (ld_rtb st) it = Ok (p, e) /\ B = (ent_pkt_num e, p) :: B' /\
    rtb_on_remove (ld_rtb st) e (ld_cstat st) = Ok (lost_bytes (ld_rtb st) e, rtb, cstat) /\
    rtb_on_pkt_lost cc ops (put_rtb rtb (put_cstat cstat st)) p e ts = Ok (rv, st') /\ app_rv ops rv /\
    (rv = 0 -> exists e', lost_one n lA e lB b x ts st rv st' e').
Proof.
  intros Hinv Hc Hl El Hle Hb. pose proof Hinv as [[Hst Hrm Hcn Ho He Hla Hcc Hdl Hby Hid] Hecn Hs].
  change (ns_rtb (ld_ns st)) with (ld_rtb st) in *.
  destruct (rtb_ent_at_ok _ _ _ _ _ _ _ _ Hst Hc Hl) as (p & B' & -> & Hp & Hat & _ & _).
  pose proof (proj1 (Forall_forall _ _) He) as Hein. pose proof (Hein e (elem_of_middle e lA lB)) as Heok.
  destruct (on_remove_ok lA e lB (ld_rtb st) (ld_cstat st) Hcn) as (rtb & Hrun & Hcn1 & (Eb1 & Eb2 & Eb3) & Ec & Eh & En & Ee).
  { intros e0 He0. by destruct (Hein e0 He0). }
  { pose proof (bd_other (mss := mss) (other := other)). lia. }
  set (c := set_bytes_in_flight _ _) in *. set (st1 := put_rtb rtb (put_cstat c st)) in *.
  assert (Hcosts : 0 <= sumz cost (lA ++ e :: lB) + b).
  { assert (0 <= sumz cost (lA ++ e :: lB)); [|lia]. apply sumz_nonneg. intros e0 He0. destruct (Hein e0 He0). by apply cost_pos. }
  assert (Hmid : mid_inv n (lA ++ e :: lB) (lA ++ lB) 0 b (x + Z.b2z (ecn_counts (ld_ns st) e)) st1).
  { split; unfold ld_rtb; cbn; fold (ld_rtb st); rewrite ?Eb1, ?Eb2, ?Ee; try done.
    - unfold rtb_stored. by rewrite Eh, En, Ee.
    - eapply counts_ext; [exact Hcn1|..]; try done. cbn. lia.
    - lia.
    - destruct Hecn as [H1 H2]. split; [|done]. intros Hv. specialize (H1 Hv). rewrite sumz_middle in H1.
      unfold w_ecn at 1 in H1. rewrite El in H1. cbn [negb andb] in H1. unfold ecn_counts. lia.
    - rewrite sum_app_nil in Hs. destruct Hs as [(hi & Hi & Hh) ? ? ? ? ?]. split; try done. exists hi. split; [|done]. by eapply cl_stat. }
  exists p, B', rtb, c. fold st1. unfold rtb_on_pkt_lost.
  destruct (count_lost_ok _ _ _ _ _ st1 e ts Hmid Hcosts) as (st2 & -> & Hmid2 & Hs2 & Ht2 & He2). cbn [bind].
  assert (HE : forall ents', ents' = rtb_ents (ld_rtb st1) -> ksl_elems ents' = A ++ (ent_pkt_num e, p) :: B').
  { intros ents' ->. unfold st1, ld_rtb. cbn. rewrite Ee. by apply cursor_elems in Hc. }
  destruct (reclaim_lost_ok n lA e lB (lA ++ lB) _ b _ st2 A p B' Hmid2) as (rv & st3 & e1 & -> & Hrv & Hmid3 & Href & Hs3 & Hc3 & He3); [by apply HE|done|done|].
  cbn [bind]. destruct (Z.eqb_spec rv 0) as [->|Hne]; cbn [negb]; [|by exists rv, st3].
  set (e' := set_ent_lost _ ts e1). assert (Hlo : lost_of ts e e') by (destruct Href as (frc & -> & Hfrc); by exists frc).
  assert (Hs1 : same_conn st st1).
  { by unfold same_conn, same_base, st1, ld_rtb; cbn; split_and!. }
  assert (Hsame3 : same_conn st st3) by (eapply same_conn_trans; [exact Hs1|by eapply same_conn_trans]).
  assert (Hbase : largest_acked_tx_pkt_num (ld_rtb st3) = largest_acked_tx_pkt_num (ld_rtb st) /\ cc_pkt_num (ld_rtb st3) = cc_pkt_num (ld_rtb st))
    by by destruct Hsame3 as (_ & _ & _ & _ & _ & _ & _ & _ & ? & ? & _).
  destruct (mid_store n lA e1 lB (lA ++ lB) _ b _ st3 A p B' e' Hmid3) as (heap & -> & Hmid4).
  { rewrite (HE _); [|by rewrite He3, He2]. by destruct Href as (frc & -> & _). }
  { done. } { by destruct Href as (frc & -> & _). } { by destruct Href as (frc & -> & _). } { by destruct Href as (frc & -> & _). }
  { rewrite (proj1 Hbase). by apply (lost_ok _ ts e). }
  cbn [bind]. do 2 eexists. split; [done|]. split; [done|]. split; [done|]. split; [reflexivity|]. split; [done|]. intros _. exists e'. split; try done.
  - apply inv_of_mid. rewrite <- (lost_of_flag _ _ _ NGTCP2_RTB_ENTRY_FLAG_IGNORE Hlo) in Hmid4 by done.
    exact (mid_finish _ _ _ _ _ _ _ Hmid4 (lost_of_lost _ _ _ Hlo)).
  - cbn. rewrite Hc3, Ht2. done.
  - unfold ld_rtb at 1. cbn. rewrite He3, He2. unfold st1, ld_rtb. cbn. by rewrite Ee.
Qed.
End Lose.
