(* ===== verification/RtbDetect.v ===== *)
(** * Packets in flight: detection of lost packets

    The packets that are lost are a suffix of the list.  Loss detection marks
    the packets from the first one that meets the condition on, up to this
    suffix, and then drops the last entries when too many lost ones are
    kept. *)

From S2P Require Import Prelude Const Ksl KslInv KslIter KslSpec Acktr KslStore ConnStat Rst Cc CcSpec Recovery Rtb RtbInv RtbStep RtbAck RtbProcess RtbLose.
From stdpp Require Import list gmap sorting.
#[local] Open Scope Z_scope.

Section Detect.
Context {F S C : Type} (cc : ngtcp2_cc S) (ops : conn_ops F C).
Context (mss : Z) (inv : Z -> S -> ngtcp2_conn_stat -> Prop) {laws : CcLaws cc mss 1 inv}.
Context (cinv : C -> Prop) {app_laws : AppLaws ops mss cinv}.
Context (other : Z) {bounds : Bounds mss other}.
Abbreviation ld_inv := (RtbStep.ld_inv mss inv cinv other).
Abbreviation cost := (RtbStep.cost mss).
Abbreviation state := (ld_state F S C).
Implicit Types (st : state) (e : ngtcp2_rtb_entry F) (l lA lB L D : list (ngtcp2_rtb_entry F)) (it : ngtcp2_ksl_it)
  (b x ts : Z) (n : nat) (run : lost_run) (ack : ngtcp2_cc_ack).

Definition live l : Prop := Forall (fun e => is_lost e = false) l.
Definition dead l : Prop := Forall (fun e => is_lost e = true) l.

Lemma inv_ents n l b x st : ld_inv n l [] b x st -> Forall (ent_ok (largest_acked_tx_pkt_num (ld_rtb st))) l.
Proof. by intros [[] _ _]. Qed.

Lemma inv_costs n l b x st : ld_inv n l [] b x st -> 0 <= sumz cost l.
Proof. intros H%inv_ents. by eapply costs_pos. Qed.

Lemma lost_count L D : live L -> dead D -> sumz w_lost (L ++ D) = zlen D.
Proof.
  intros HL HD. rewrite sumz_app. assert (E1 : sumz (@w_lost F) L = 0).
  { clear -HL. induction HL as [|e L He _ IH]; [done|]. cbn. unfold w_lost at 1. by rewrite He, IH. }
  assert (E2 : sumz (@w_lost F) D = zlen D); [|lia].
  clear -HD. induction HD as [|e D He _ IH]; [done|]. cbn. unfold w_lost at 1. rewrite He, IH, zlen_cons. done.
Qed.

Lemma lost_weights cc0 e : is_lost e = true ->
  w_ack e = 0 /\ w_retr e = 0 /\ w_pto e = 0 /\ w_lost e = 1 /\ w_ignore e = Z.b2z (ent_has e NGTCP2_RTB_ENTRY_FLAG_IGNORE) /\ w_bytes cc0 e = 0.
Proof. intros El. unfold w_ack, w_retr, w_pto, w_lost, w_ignore, w_bytes. by rewrite El. Qed.

(** ** Lost entries are dropped *)
Lemma small_counts n l b x st (w : ngtcp2_rtb_entry F -> Z) :
  ld_inv n l [] b x st -> 0 <= b -> (forall e, 0 <= w e <= 1) -> 0 <= sumz w l <= CC_LIMIT.
Proof.
  intros Hinv Hb Hw. pose proof (ld_budget cc mss inv cinv other _ _ _ _ _ _ Hinv) as Hbud. rewrite sum_app_nil in Hbud.
  split; [apply sumz_nonneg; intros; apply Hw|]. assert (sumz w l <= sumz cost l); [|lia].
  pose proof (inv_ents _ _ _ _ _ Hinv) as He. rewrite Forall_forall in He. apply sumz_le. intros e Hin. specialize (Hw e).
  destruct (He e Hin) as [_ Hl _ _ _]. pose proof (cost_pos (mss := mss) (other := other) Hl). lia.
Qed.

Lemma remove_last_ok n l e b x st it A B :
  ld_inv n (l ++ [e]) [] b x st -> is_lost e = true -> 0 <= b -> cursor (rtb_ents (ld_rtb st)) it A B -> length l = length A ->
  exists p st' it', rtb_ent_at (ld_rtb st) it = Ok (p, e) /\ remove_lost ops st it p e = Ok (st', it') /\ ld_inv n l [] b x st' /\
    cursor (rtb_ents (ld_rtb st')) it' A [] /\ same_conn st st' /\ ld_cstat st' = ld_cstat st /\
    num_lost_pkts (ld_rtb st') = num_lost_pkts (ld_rtb st) - 1.
Proof.
  intros Hinv El Hb Hc Hl.
  pose proof (small_counts _ _ _ _ _ w_lost Hinv Hb ltac:(intros; apply b2z_range)) as Sl.
  pose proof (small_counts _ _ _ _ _ w_ignore Hinv Hb ltac:(intros; apply b2z_range)) as Si.
  pose proof Hinv as [[Hst Hrm Hcn Ho He Hla Hcc Hdl Hby Hid] Hecn Hs]. change (ns_rtb (ld_ns st)) with (ld_rtb st) in *.
  destruct (rtb_ent_at_ok _ _ _ _ _ _ _ _ Hst Hc Hl) as (p & B' & -> & Hp & Hat & _ & HlB). symmetry in HlB. apply length_zero_iff_nil in HlB as ->.
  exists p. unfold remove_lost. set (rtb1 := set_lost_counts _ _ (ld_rtb st)).
  destruct (rtb_unlink_ok l e [] [] rtb1 it A [(ent_pkt_num e, p)] Hst Hc Hl) as (p' & B' & ents & it' & HB & _ & -> & Hst2 & Hc2 & Hroom).
  injection HB as <- <-. cbn [bind]. set (rtb2 := set_store _ _ ents rtb1).
  assert (Hc1 : counts l rtb2).
  { destruct Hcn as [H1 H2 H3 H4 H5 H6]. rewrite sumz_middle, app_nil_r in *.
    destruct (lost_weights (cc_pkt_num (ld_rtb st)) e El) as (E1 & E2 & E3 & E4 & E5 & E6). rewrite E1, E2, E3, E4, E5, E6 in *.
    unfold CC_LIMIT in *. split; cbn; try done.
    - rewrite u64_small; [lia|]. unfold is_u64. pose proof (sumz_nonneg w_lost l (fun e _ => proj1 (b2z_range _))). lia.
    - destruct (ent_has e NGTCP2_RTB_ENTRY_FLAG_IGNORE); [|done]. cbn [Z.b2z] in *. rewrite u64_small; [lia|].
      unfold is_u64. pose proof (sumz_nonneg w_ignore l (fun e _ => proj1 (b2z_range _))). lia. }
  rewrite app_nil_r in Hst2.
  assert (Hinv2 : ld_inv n l [(p, e)] b x (put_rtb rtb2 st)).
  { split; cbn.
    - apply forall_remove in He as [He _]. apply forall_remove in Hla as [Hla _]. apply forall_remove in Hdl as [Hdl _].
      apply sorted_remove in Ho. rewrite app_nil_r in *. split; try done. by apply Hroom.
    - apply ecn_remove in Hecn. by rewrite app_nil_r in Hecn.
    - apply sh_rtb. rewrite sum_app_nil, sumz_middle, app_nil_r in Hs. replace (_ + _ + b) with (cost e + sumz cost l + b) by (cbn; lia). exact Hs. }
  destruct (del_ok Hinv2) as (st3 & -> & Hinv3 & Hr3 & Hc3 & Hs3). cbn [bind]. exists st3, it'. split; [done|]. split; [done|].
  apply same_else_conn in Hs3.
  destruct Hcn as [_ _ _ H4 _ _]. rewrite sumz_middle in H4, Sl. destruct (lost_weights 0 e El) as (_ & _ & _ & E4 & _). rewrite E4 in *.
  assert (Hle : 0 <= ent_pktlen e) by (rewrite Forall_forall in He; apply (He e), elem_of_middle).
  split_and!.
  - eapply ld_inv_mono; [|exact Hinv3]. pose proof (cost_pos (mss := mss) (other := other) Hle). lia.
  - by rewrite Hr3.
  - eapply same_conn_trans; [|exact Hs3]. by split_and!.
  - done.
  - rewrite Hr3. cbn. unfold CC_LIMIT in Sl. apply u64_small. unfold is_u64.
    pose proof (sumz_nonneg w_lost (l ++ []) (fun e _ => proj1 (b2z_range _))). lia.
Qed.

(** The loop ends with a prefix of the lost entries. *)
Lemma remove_lost_run n L b x more keep (more_lost : forall rtb : ngtcp2_rtb F, more rtb = true -> num_lost_pkts rtb <> 0) :
  0 <= b -> live L -> forall D fuel st it A, ld_inv n (L ++ D) [] b x st -> dead D -> cursor (rtb_ents (ld_rtb st)) it A [] -> (length D < fuel)%nat ->
  exists st' D' dropped, remove_lost_loop ops fuel more keep st it = Ok st' /\ D = D' ++ dropped /\ ld_inv n (L ++ D') [] b x st' /\
    same_conn st st' /\ ld_cstat st' = ld_cstat st /\ Forall (fun e => keep e = false) dropped /\
    (more (ld_rtb st') = false \/ exists D0 e, D' = D0 ++ [e] /\ keep e = true).
Proof.
  intros Hb HL. induction D as [|e D IH] using rev_ind; intros fuel st it A Hinv HD Hc Hf; (destruct fuel as [|fuel]; [lia|]); cbn [remove_lost_loop].
  - destruct (more (ld_rtb st)) eqn:Em; cbn [negb].
    + exfalso. specialize (more_lost _ Em). destruct Hinv as [[_ _ [_ _ _ H4 _ _] _ _ _ _ _ _ _] _ _].
      change (ns_rtb (ld_ns st)) with (ld_rtb st) in H4. rewrite (lost_count L [] HL HD), zlen_nil in H4. lia.
    + exists st, [], []. split_and!; try done; by left.
  - destruct (more (ld_rtb st)) eqn:Em; cbn [negb].
    2:{ exists st, (D ++ [e]), []. rewrite app_nil_r. split_and!; try done; by left. }
    rewrite (cursor_it_end _ _ _ _ Hc). cbn [bool_decide]. pose proof (Hinv) as [[Hst _ _ _ _ _ _ _ _ _] _ _].
    change (ns_rtb (ld_ns st)) with (ld_rtb st) in Hst. rewrite app_assoc in Hst, Hinv.
    destruct (kstore_cursor _ _ _ _ _ _ _ _ _ Hst Hc) as (l1 & l2 & Heq & Hl1 & Hl2 & _). apply length_zero_iff_nil in Hl2 as ->.
    rewrite app_nil_r in Heq. assert (HlA : length A = Datatypes.S (length (L ++ D))) by (rewrite <- Hl1, <- Heq, length_app; cbn; lia).
    destruct A as [|y A _] using rev_ind; [done|]. rewrite length_app in HlA. cbn in HlA.
    destruct (cursor_prev _ _ _ _ _ _ (ks_wf _ _ _ _ _ _ Hst) Hc) as (it1 & -> & Hc1). cbn [bind].
    apply Forall_app in HD as [HD [El _]%Forall_cons].
    destruct (remove_last_ok n (L ++ D) e b x st it1 A [y] Hinv El Hb Hc1) as (p & st1 & it2 & Hat & Hrm & Hinv1 & Hc2 & Hs1 & Hcs1 & _); [lia|].
    rewrite Hat. cbn [bind]. fold (is_lost e). rewrite El. destruct (keep e) eqn:Ek.
    { exists st, (D ++ [e]), []. rewrite app_nil_r, app_assoc. split_and!; try done. right. by exists D, e. }
    rewrite Hrm. cbn [bind].
    destruct (IH fuel st1 it2 A Hinv1 HD Hc2) as (st' & D' & dropped & Hrun & -> & H1 & H2 & H3 & H4 & H5); [rewrite length_app in Hf; cbn in Hf; lia|].
    exists st', D', (dropped ++ [e]). split_and!; try done; [by rewrite app_assoc|by eapply same_conn_trans|congruence|].
    apply Forall_app. split; [done|]. by constructor.
Qed.

(** ** The loop over the packets that are lost *)
Lemma cursor_next_at n lA e lB b x st it A B :
  ld_inv n (lA ++ e :: lB) [] b x st -> cursor (rtb_ents (ld_rtb st)) it A B -> length lA = length A ->
  exists p B', rtb_ent_at (ld_rtb st) it = Ok (p, e) /\ B = (ent_pkt_num e, p) :: B' /\ length B' = length lB /\
    ngtcp2_ksl_it_end (rtb_ents (ld_rtb st)) it = false /\
    cursor (rtb_ents (ld_rtb st)) (ngtcp2_ksl_it_next (rtb_ents (ld_rtb st)) it) (A ++ [(ent_pkt_num e, p)]) B'.
Proof.
  intros [[Hst _ _ _ _ _ _ _ _ _] _ _] Hc Hl. change (ns_rtb (ld_ns st)) with (ld_rtb st) in Hst.
  destruct (rtb_ent_at_ok _ _ _ _ _ _ _ _ Hst Hc Hl) as (p & B' & -> & _ & Hat & _ & HlB). exists p, B'. split_and!; try done.
  - by rewrite (cursor_it_end _ _ _ _ Hc).
  - eapply cursor_next; [exact (ks_wf _ _ _ _ _ _ Hst)|exact Hc].
Qed.

Lemma cursor_at_end n lA b x st it A B :
  ld_inv n lA [] b x st -> cursor (rtb_ents (ld_rtb st)) it A B -> length lA = length A ->
  ngtcp2_ksl_it_end (rtb_ents (ld_rtb st)) it = true.
Proof.
  intros [[Hst _ _ _ _ _ _ _ _ _] _ _] Hc Hl. change (ns_rtb (ld_ns st)) with (ld_rtb st) in Hst.
  rewrite (cursor_it_end _ _ _ _ Hc). destruct (kstore_cursor _ _ _ _ _ _ _ _ _ Hst Hc) as (l1 & l2 & Heq & Hl1 & Hl2 & _).
  apply (f_equal length) in Heq. rewrite length_app in Heq. apply bool_decide_eq_true. apply length_zero_iff_nil. lia.
Qed.

(** The lost packets at the end only matter for persistent congestion. *)
Lemma dead_run n b x latest_ts period start_ts ts D : forall lA fuel st it A B run,
  ld_inv n (lA ++ D) [] b x st -> dead D -> cursor (rtb_ents (ld_rtb st)) it A B -> length lA = length A -> (length D < fuel)%nat ->
  exists run', lost_loop cc ops fuel st it run latest_ts period start_ts ts = Ok (0, st, run') /\
    lr_ecn_lost run' = lr_ecn_lost run /\ lr_bytes_lost run' = lr_bytes_lost run.
Proof.
  induction D as [|e D IH]; intros lA fuel st it A B run Hinv HD Hc Hl Hf; (destruct fuel as [|fuel]; [lia|]); cbn [lost_loop].
  - rewrite app_nil_r in Hinv. rewrite (cursor_at_end _ _ _ _ _ _ _ _ Hinv Hc Hl). by exists run.
  - destruct (cursor_next_at _ _ _ _ _ _ _ _ _ _ Hinv Hc Hl) as (p & B' & Hat & -> & _ & Hend & Hc'). rewrite Hend, Hat. cbn [bind].
    apply Forall_cons in HD as [El HD]. fold (is_lost e). rewrite El.
    assert (He : lr_ecn_lost (extend_run run e start_ts) = lr_ecn_lost run /\ lr_bytes_lost (extend_run run e start_ts) = lr_bytes_lost run).
    { unfold extend_run. by destruct (_ && _). }
    destruct (_ || _); [by exists (extend_run run e start_ts)|].
    replace (lA ++ e :: D) with ((lA ++ [e]) ++ D) in Hinv by by rewrite <- app_assoc.
    destruct (IH (lA ++ [e]) fuel st (ngtcp2_ksl_it_next (rtb_ents (ld_rtb st)) it) (A ++ [(ent_pkt_num e, p)]) B' (extend_run run e start_ts) Hinv HD Hc') as (run' & -> & E1 & E2); [rewrite !length_app, Hl; done|cbn in Hf; lia|].
    exists run'. split; [done|]. destruct He. split; congruence.
Qed.

Lemma lost_loop_run n b x latest_ts period start_ts ts D : dead D -> 0 <= b -> forall todo lA fuel st it A B run,
  ld_inv n (lA ++ todo ++ D) [] b (x + lr_ecn_lost run) st -> live todo -> (forall e, e ∈ todo -> ent_pkt_num e <= largest_acked_tx_pkt_num (ld_rtb st)) ->
  cursor (rtb_ents (ld_rtb st)) it A B -> length lA = length A -> (length (todo ++ D) < fuel)%nat ->
  exists rv st' run', lost_loop cc ops fuel st it run latest_ts period start_ts ts = Ok (rv, st', run') /\ app_rv ops rv /\
    (rv = 0 -> exists todo', Forall2 (lost_of ts) todo todo' /\ ld_inv n (lA ++ todo' ++ D) [] b (x + lr_ecn_lost run') st' /\
      same_conn st st' /\ loss_time (ld_cstat st') = loss_time (ld_cstat st) /\ rtb_ents (ld_rtb st') = rtb_ents (ld_rtb st) /\
      lr_ecn_lost run <= lr_ecn_lost run').
Proof.
  intros HD Hb. induction todo as [|e todo IH]; intros lA fuel st it A B run Hinv Hlv Hle Hc Hl Hf.
  - destruct (dead_run n b (x + lr_ecn_lost run) latest_ts period start_ts ts D lA fuel st it A B run Hinv HD Hc Hl Hf) as (run' & -> & E1 & E2).
    exists 0, st, run'. split; [done|]. split; [done|]. intros _. exists []. rewrite E1. split_and!; done || lia.
  - destruct fuel as [|fuel]; [lia|]. cbn [lost_loop app] in *. apply Forall_cons in Hlv as [El Hlv].
    destruct (cursor_next_at _ _ _ _ _ _ _ _ _ _ Hinv Hc Hl) as (_ & _ & _ & _ & _ & Hend & _). rewrite Hend.
    destruct (lose_one_ok cc ops mss inv cinv other _ _ _ _ _ _ _ _ _ _ ts Hinv Hc Hl El) as (p & B' & rtb & c & rv & st1 & Hat & -> & Hrm & Hrun & Hrv & Hok);
      [by apply Hle, elem_of_cons; left|done|].
    rewrite Hat. cbn [bind]. fold (is_lost e). rewrite El, Hrm. cbn [bind]. set (run1 := mk_lost_run _ _ _ _). rewrite Hrun. cbn [bind].
    destruct (Z.eqb_spec rv 0) as [->|Hne]; cbn [negb]; [|by exists rv, st1, run1].
    destruct (Hok eq_refl) as (e' & [Hinv1 Hlo Hs1 Ht1 He1]).
    assert (Hx : x + lr_ecn_lost run1 = x + lr_ecn_lost run + Z.b2z (ecn_counts (ld_ns st) e)).
    { unfold run1. cbn. unfold extend_run. destruct (_ && _); cbn; lia. }
    rewrite <- Hx in Hinv1. replace (lA ++ e' :: todo ++ D) with ((lA ++ [e']) ++ todo ++ D) in Hinv1 by by rewrite <- app_assoc.
    assert (Hc1 : cursor (rtb_ents (ld_rtb st1)) (ngtcp2_ksl_it_next (rtb_ents (ld_rtb st1)) it) (A ++ [(ent_pkt_num e, p)]) B').
    { rewrite He1. destruct Hinv as [[Hst _ _ _ _ _ _ _ _ _] _ _]. eapply cursor_next; [exact (ks_wf _ _ _ _ _ _ Hst)|exact Hc]. }
    destruct (IH (lA ++ [e']) fuel st1 (ngtcp2_ksl_it_next (rtb_ents (ld_rtb st1)) it) (A ++ [(ent_pkt_num e, p)]) B' run1 Hinv1 Hlv) as (rv & st' & run' & Hrun' & Hrv' & Hok'); [|exact Hc1| | |].
    { intros e0 He0. destruct Hs1 as (_ & _ & _ & _ & _ & _ & _ & _ & Hla & _). rewrite Hla. apply Hle, elem_of_cons. by right. }
    { rewrite !length_app, Hl. done. } { cbn in Hf. lia. }
    exists rv, st', run'. split; [exact Hrun'|]. split; [done|]. intros E. destruct (Hok' E) as (todo' & Hf2 & Hinv' & Hs' & Ht' & He' & Hx').
    pose proof (b2z_range (ecn_counts (ld_ns st) e)) as Hw.
    exists (e' :: todo'). split_and!; [by constructor| |by eapply same_conn_trans|congruence|congruence|lia].
    by rewrite <- app_assoc in Hinv'.
Qed.

(** ** ECN, and the congestion event *)

(** The packets and the parameters are the same. *)
Definition same_space st st' : Prop :=
  ld_others st' = ld_others st /\ ld_key st' = ld_key st /\ ld_par st' = ld_par st /\ ns_id (ld_ns st') = ns_id (ld_ns st) /\
  ns_last_pkt_num (ld_ns st') = ns_last_pkt_num (ld_ns st) /\ same_base (ld_rtb st) (ld_rtb st').

Lemma same_space_refl st : same_space st st.
Proof. by split_and!. Qed.

Lemma same_space_trans st1 st2 st3 : same_space st1 st2 -> same_space st2 st3 -> same_space st1 st3.
Proof. unfold same_space, same_base. intros ? ?. naive_solver congruence. Qed.

Lemma same_conn_space st st' : same_conn st st' -> same_space st st'.
Proof. unfold same_conn, same_space. naive_solver. Qed.

Lemma ld_inv_ecn n l b x x' st ecn ns_ecn ack_ecn :
  ld_inv n l [] b x st -> ecn_ok x' l ns_ecn ecn -> ld_inv n l [] b x' (put_ns_ecn ns_ecn ack_ecn (put_ecn ecn st)).
Proof. intros [[] ? []] Hecn. by split. Qed.

Lemma put_ns_ecn_same st : put_ns_ecn (ns_ecn (ld_ns st)) (ns_ack_ecn (ld_ns st)) st = st.
Proof. by destruct st as [[]]. Qed.

Lemma set_ecn_ok n l b x x' st state0 :
  ld_inv n l [] b x st -> ecn_ok x' l (ns_ecn (ld_ns st)) (mk_conn_ecn state0 (ce_validation_start_ts (ld_ecn st)) (ce_dgram_sent (ld_ecn st))) ->
  ld_inv n l [] b x' (set_ecn_state state0 st).
Proof.
  intros Hinv Hecn. pose proof (ld_inv_ecn _ _ _ _ _ _ _ _ (ns_ack_ecn (ld_ns st)) Hinv Hecn) as H.
  by destruct st as [[]].
Qed.

Lemma ecn_sum_nonneg start l : 0 <= sumz (@w_ecn F start) l.
Proof. apply sumz_nonneg. intros. apply w_ecn_range. Qed.

Lemma add_ecn_ok n l b x st : ld_inv n l [] b x st -> validating (ld_ecn st) -> ce_state (ld_ecn st) = NGTCP2_ECN_STATE_UNKNOWN \/ ce_validation_start_ts (ld_ecn st) <> UINT64_MAX ->
  exists ecn, add_ecn_lost st x = Ok (put_ns_ecn ecn (ns_ack_ecn (ld_ns st)) st) /\ ld_inv n l [] b 0 (put_ns_ecn ecn (ns_ack_ecn (ld_ns st)) st).
Proof.
  intros Hinv Hv Hts. pose proof Hinv as [_ [H1 H2] _]. specialize (H1 Hv). pose proof (ecn_sum_nonneg (pe_start_pkt_num (ns_ecn (ld_ns st))) l).
  unfold add_ecn_lost. rewrite (proj2 (Z.leb_le _ _)) by lia. eexists. split; [reflexivity|].
  set (e' := mk_pktns_ecn _ _ _ _).
  assert (Hok : ecn_ok 0 l e' (ld_ecn st)).
  { split; cbn; [lia|]. intros E1 E2. destruct Hts as [E|E]; [|done]. rewrite E in E1. done. }
  pose proof (ld_inv_ecn _ _ _ _ _ _ _ _ (ns_ack_ecn (ld_ns st)) Hinv Hok) as H'. by destruct st as [[]].
Qed.

Lemma ecn_unknown_ok n l b x st : ld_inv n l [] b x st -> ce_state (ld_ecn st) = NGTCP2_ECN_STATE_UNKNOWN ->
  exists st', (let* st := add_ecn_lost st x in
     Ok (if conn_all_ecn_pkt_lost st then set_ecn_state NGTCP2_ECN_STATE_FAILED st else st)) = Ok st' /\
    ld_inv n l [] b 0 st' /\ same_space st st' /\ ld_cstat st' = ld_cstat st /\ rtb_ents (ld_rtb st') = rtb_ents (ld_rtb st).
Proof.
  intros Hinv E. destruct (add_ecn_ok _ _ _ _ _ Hinv) as (ecn & -> & Hinv1); [by right|by left|]. cbn [bind].
  eexists. split; [reflexivity|]. destruct (conn_all_ecn_pkt_lost _); [|by split_and!].
  split; [|by split_and!]. eapply set_ecn_ok; [exact Hinv1|]. split; [|done]. cbn. intros [?|?]; done.
Qed.

Lemma ecn_on_loss_ok n l b x st pto ts : ld_inv n l [] b x st -> 0 <= x ->
  exists st', ecn_on_loss st x pto ts = Ok st' /\ ld_inv n l [] b 0 st' /\ same_space st st' /\ ld_cstat st' = ld_cstat st /\
    rtb_ents (ld_rtb st') = rtb_ents (ld_rtb st).
Proof.
  intros Hinv Hx. unfold ecn_on_loss.
  assert (H0 : ecn_ok 0 l (ns_ecn (ld_ns st)) (ld_ecn st)) by (destruct Hinv as [_ [H1 H2] _]; split; [intros Hv; specialize (H1 Hv); lia|done]).
  assert (Hsame : ld_inv n l [] b 0 st).
  { pose proof (ld_inv_ecn _ _ _ _ _ _ _ _ (ns_ack_ecn (ld_ns st)) Hinv H0) as H. by destruct st as [[]]. }
  destruct (Z.eqb_spec (ce_state (ld_ecn st)) NGTCP2_ECN_STATE_TESTING) as [E|E].
  - destruct (Z.eqb_spec (ce_validation_start_ts (ld_ecn st)) UINT64_MAX) as [E2|E2]; [exists st; by split_and!|].
    destruct (_ <? _).
    + destruct (add_ecn_ok _ _ _ _ _ Hinv) as (ecn & -> & Hinv1); [by left|by right|]. eexists. split; [reflexivity|]. by split_and!.
    + assert (Hinv1 : ld_inv n l [] b x (set_ecn_state NGTCP2_ECN_STATE_UNKNOWN st)).
      { eapply set_ecn_ok; [exact Hinv|]. destruct Hinv as [_ [H1 H2] _]. split; [|done]. intros _. apply H1. by left. }
      destruct (ecn_unknown_ok _ _ _ _ _ Hinv1 eq_refl) as (st' & -> & H1 & H2 & H3 & H4). exists st'. split_and!; try done.
  - destruct (Z.eqb_spec (ce_state (ld_ecn st)) NGTCP2_ECN_STATE_UNKNOWN) as [E2|E2]; [|exists st; by split_and!].
    by apply ecn_unknown_ok.
Qed.

Lemma lost_congestion_ok n l b st ack run latest_ts period pto ts :
  ld_inv n l [] b (lr_ecn_lost run) st -> 0 <= lr_ecn_lost run -> 0 <= b ->
  exists st' ack', congestion_on_loss cc st ack run latest_ts period pto ts = Ok (st', ack') /\ ld_inv n l [] b 0 st' /\ same_space st st' /\
    loss_time (ld_cstat st') = loss_time (ld_cstat st) /\ ca_bytes_delivered ack' = ca_bytes_delivered ack /\
    rtb_ents (ld_rtb st') = rtb_ents (ld_rtb st).
Proof.
  intros Hinv Hx Hb. unfold congestion_on_loss. destruct (lr_bytes_lost run =? 0).
  { exists st, ack. assert (H0 : ecn_ok 0 l (ns_ecn (ld_ns st)) (ld_ecn st)).
    { destruct Hinv as [_ [H1 H2] _]; split; [intros Hv; specialize (H1 Hv); lia|done]. }
    pose proof (ld_inv_ecn _ _ _ _ _ _ _ _ (ns_ack_ecn (ld_ns st)) Hinv H0) as H. split_and!; try done. by destruct st as [[]]. }
  destruct (ecn_on_loss_ok _ _ _ _ _ pto ts Hinv Hx) as (st1 & -> & Hinv1 & Hs1 & Hc1 & He1). cbn [bind].
  set (ack' := mk_cc_ack _ _ _ _ _). rewrite <- (Z.add_0_r b) in Hinv1. pose proof (inv_costs _ _ _ _ _ Hinv1) as Hcosts.
  destruct (call_cc_inv (congestion_event cc) (latest_ts, ack') ts Hinv1) as (st2 & -> & Hch & Hinv2); [done|rewrite sum_app_nil; lia| |].
  { intros hi Hi _. rewrite Z.add_0_r. by apply (cl_congestion (mss := mss) (lo := 1) (inv := inv)). }
  cbn [bind]. assert (Hs2 : same_space st st2) by (eapply same_space_trans; [exact Hs1|by apply same_conn_space, cc_changed_conn]).
  assert (Ht2 : loss_time (ld_cstat st2) = loss_time (ld_cstat st) /\ rtb_ents (ld_rtb st2) = rtb_ents (ld_rtb st)).
  { rewrite <- Hc1, <- He1. by destruct Hch as (? & ? & ? & -> & (? & ? & ? & ? & ? & ->) & _). }
  destruct (_ && _).
  2:{ eexists _, _. split; [reflexivity|]. destruct Ht2. by split_and!. }
  set (c := set_rtt _ _ _ _ _ _). assert (Hinv3 : ld_inv n l [] (b + 0) 0 (put_cstat c st2)) by (rewrite Z.add_0_r; apply (ld_inv_stat (cc := cc)); [done|same_stat]).
  destruct (call_cc_inv (on_persistent_congestion cc) tt ts Hinv3) as (st4 & -> & Hch4 & Hinv4); [done|rewrite sum_app_nil; lia| |].
  { intros hi Hi _. rewrite Z.add_0_r. by apply (cl_persistent (mss := mss) (lo := 1) (inv := inv)). }
  cbn [bind]. eexists _, _. split; [reflexivity|]. split_and!; try done.
  - eapply same_space_trans; [exact Hs2|]. apply same_conn_space. eapply same_conn_trans; [|by eapply cc_changed_conn]. by split_and!.
  - destruct Ht2 as [<- _]. by destruct Hch4 as (? & ? & ? & -> & (? & ? & ? & ? & ? & ->) & _).
  - destruct Ht2 as [_ <-]. by destruct Hch4 as (? & ? & ? & -> & _).
Qed.

(** ** Detection *)

(** The condition on one packet. *)
Definition lost_cond (largest loss_delay pkt_thres ts : Z) e : bool :=
  ngtcp2_tstamp_elapsed (ent_ts e) loss_delay ts || (ent_pkt_num e + pkt_thres <=? largest).

(** The loss time when a packet is not lost yet. *)
Definition min_time (loss_delay t : Z) e : Z :=
  let u := u64 (ent_ts e + loss_delay) in if t =? UINT64_MAX then u else Z.min t u.

Definition store_time (id t : Z) (times : list Z) : list Z := <[Z.to_nat id := t]> times.

Lemma pkt_lost_ok n l b st e loss_delay pkt_thres ts t0 :
  ld_inv n l [] b 0 st -> loss_time (ld_cstat st) !! Z.to_nat (ns_id (ld_ns st)) = Some t0 ->
  exists st', rtb_pkt_lost st e loss_delay pkt_thres ts =
      Ok (lost_cond (largest_acked_tx_pkt_num (ld_rtb st)) loss_delay pkt_thres ts e, st') /\
    (lost_cond (largest_acked_tx_pkt_num (ld_rtb st)) loss_delay pkt_thres ts e = true -> st' = st) /\
    (lost_cond (largest_acked_tx_pkt_num (ld_rtb st)) loss_delay pkt_thres ts e = false ->
      st' = put_cstat (set_loss_time (store_time (ns_id (ld_ns st)) (min_time loss_delay t0 e) (loss_time (ld_cstat st))) (ld_cstat st)) st /\
      ld_inv n l [] b 0 st').
Proof.
  intros Hinv Ht. unfold rtb_pkt_lost, lost_cond, nth_time, store_loss_time. destruct (_ || _).
  - exists st. by split_and!.
  - rewrite Ht. cbn [bind]. unfold nth_time. rewrite Ht. cbn [bind]. eexists. split; [reflexivity|]. split; [done|]. intros _.
    split; [done|]. apply (ld_inv_stat (cc := cc)); [done|same_stat].
Qed.

(** What detection finds.  [todo]: the packets that are considered, of which
    [keep] are not lost and [lose] are. *)
Record detect_split (largest loss_delay pkt_thres ts : Z) (todo keep lose : list (ngtcp2_rtb_entry F)) : Prop := {
  ds_todo : todo = keep ++ lose;
  ds_keep : Forall (fun e => lost_cond largest loss_delay pkt_thres ts e = false) keep;
  ds_lose : forall e lose', lose = e :: lose' -> lost_cond largest loss_delay pkt_thres ts e = true;
}.

Lemma detect_loop_run n b ack loss_delay pkt_thres pto ts D : dead D -> 0 <= b -> forall todo lA fuel st it A B t0,
  ld_inv n (lA ++ todo ++ D) [] b 0 st -> live todo -> (forall e, e ∈ todo -> ent_pkt_num e <= largest_acked_tx_pkt_num (ld_rtb st)) ->
  cursor (rtb_ents (ld_rtb st)) it A B -> length lA = length A -> (length (todo ++ D) < fuel)%nat ->
  loss_time (ld_cstat st) !! Z.to_nat (ns_id (ld_ns st)) = Some t0 ->
  exists rv st' ack', detect_loop cc ops fuel st it ack loss_delay pkt_thres pto ts = Ok (rv, st', ack') /\ app_rv ops rv /\
    (rv = 0 -> ca_bytes_delivered ack' = ca_bytes_delivered ack /\
      exists keep lose lose', detect_split (largest_acked_tx_pkt_num (ld_rtb st)) loss_delay pkt_thres ts todo keep lose /\
        Forall2 (lost_of ts) lose lose' /\ ld_inv n (lA ++ keep ++ lose' ++ D) [] b 0 st' /\ same_space st st' /\
        rtb_ents (ld_rtb st') = rtb_ents (ld_rtb st) /\
        loss_time (ld_cstat st') = store_time (ns_id (ld_ns st)) (fold_left (min_time loss_delay) keep t0) (loss_time (ld_cstat st))).
Proof.
  intros HD Hb. induction todo as [|e todo IH]; intros lA fuel st it A B t0 Hinv Hlv Hle Hc Hl Hf Ht; (destruct fuel as [|fuel]; [lia|]); cbn [detect_loop].
  - exists 0, st, ack. split.
    + cbn [app] in Hinv. destruct D as [|e D].
      * rewrite app_nil_r in Hinv. by rewrite (cursor_at_end _ _ _ _ _ _ _ _ Hinv Hc Hl).
      * destruct (cursor_next_at _ _ _ _ _ _ _ _ _ _ Hinv Hc Hl) as (p & B' & Hat & _ & _ & Hend & _). rewrite Hend, Hat. cbn [bind].
        apply Forall_cons in HD as [El _]. fold (is_lost e). by rewrite El.
    + split; [done|]. intros _. split; [done|]. exists [], [], []. split_and!; try done. cbn. symmetry. by apply list_insert_id.
  - cbn [app] in *. destruct (cursor_next_at _ _ _ _ _ _ _ _ _ _ Hinv Hc Hl) as (p & B' & Hat & -> & HlB & Hend & Hc'). rewrite Hend, Hat. cbn [bind].
    pose proof Hlv as [El Hlv']%Forall_cons. fold (is_lost e). rewrite El.
    destruct (pkt_lost_ok _ _ _ _ e loss_delay pkt_thres ts t0 Hinv Ht) as (st1 & -> & H1 & H2). cbn [bind].
    destruct (lost_cond _ loss_delay pkt_thres ts e) eqn:Econd.
    + rewrite (H1 eq_refl) in *. clear H1 H2 st1. set (run := mk_lost_run _ _ _ _). set (period := congestion_period _ _). set (start_ts := Z.max _ _).
      destruct (lost_loop_run n b 0 (ent_ts e) period start_ts ts D HD Hb (e :: todo) lA (Datatypes.S fuel) st it A ((ent_pkt_num e, p) :: B') run)
        as (rv & st2 & run' & -> & Hrv & Hok); try done.
      cbn [bind]. destruct (Z.eqb_spec rv 0) as [->|Hne]; cbn [negb]; [|by exists rv, st2, ack].
      destruct (Hok eq_refl) as (lose' & Hf2 & Hinv2 & Hs2 & Ht2 & He2 & Hx2). rewrite Z.add_0_l in Hinv2.
      destruct (lost_congestion_ok n (lA ++ lose' ++ D) b st2 ack run' (ent_ts e) period pto ts Hinv2 Hx2 Hb) as (st3 & ack' & -> & Hinv3 & Hs3 & Ht3 & Ha3 & He3).
      cbn [bind]. exists 0, st3, ack'. split; [done|]. split; [done|]. intros _. split; [done|]. exists [], (e :: todo), lose'. split_and!; try done.
      * split; [done|constructor|]. by intros ? ? [= <- _].
      * eapply same_space_trans; [by apply same_conn_space|done].
      * congruence.
      * rewrite Ht3, Ht2. cbn. symmetry. by apply list_insert_id.
    + destruct (H2 eq_refl) as [-> Hinv1]. clear H1 H2. set (st1 := put_cstat _ st) in *.
      replace (lA ++ e :: todo ++ D) with ((lA ++ [e]) ++ todo ++ D) in Hinv1 by by rewrite <- app_assoc.
      destruct (IH (lA ++ [e]) fuel st1 (ngtcp2_ksl_it_next (rtb_ents (ld_rtb st)) it) (A ++ [(ent_pkt_num e, p)]) B' (min_time loss_delay t0 e) Hinv1 Hlv') as (rv & st' & ack' & Hrun & Hrv & Hok); try done.
      { intros e0 He0. apply Hle, elem_of_cons. by right. } { rewrite !length_app, Hl. done. } { cbn in Hf. lia. }
      { cbn. apply list_lookup_insert_eq. by eapply lookup_lt_Some. }
      exists rv, st', ack'. split; [exact Hrun|]. split; [done|]. intros E. destruct (Hok E) as (Hack & keep & lose & lose' & [-> Hk Hlo] & H3 & H4 & H5 & H6 & H7).
      split; [done|]. exists (e :: keep), lose, lose'. split_and!; try done.
      * split; [done|by constructor|done].
      * by rewrite <- app_assoc in H4.
      * rewrite H7. cbn. unfold store_time. by rewrite list_insert_insert_eq.
Qed.

(** Not more than [k] lost packets are kept. *)
Lemma excessive_ok n L D b x st k : 0 <= b -> 0 <= k -> live L -> dead D -> ld_inv n (L ++ D) [] b x st ->
  exists st' D' dropped, ngtcp2_rtb_remove_excessive_lost_pkt ops st k = Ok st' /\ D = D' ++ dropped /\ ld_inv n (L ++ D') [] b x st' /\
    same_conn st st' /\ ld_cstat st' = ld_cstat st /\ zlen D' <= k /\ (zlen D <= k -> dropped = []).
Proof.
  intros Hb Hk HL HD Hinv. unfold ngtcp2_rtb_remove_excessive_lost_pkt. pose proof Hinv as [[Hst _ Hcn _ _ _ _ _ _ _] _ _].
  change (ns_rtb (ld_ns st)) with (ld_rtb st) in *. pose proof (cursor_end _ _ (ks_wf _ _ _ _ _ _ Hst)) as Hc.
  assert (Hnum : forall st' D', ld_inv n (L ++ D') [] b x st' -> dead D' -> num_lost_pkts (ld_rtb st') = zlen D').
  { intros st' D' [[_ _ [_ _ _ H4 _ _] _ _ _ _ _ _ _] _ _] HD'. by rewrite (lost_count L D' HL HD') in H4. }
  destruct (Z.le_gt_cases (zlen D) k) as [Hle|Hgt].
  { exists st, D, []. rewrite (entries_fuel_ok mss inv cinv other _ _ _ _ _ _ Hinv). cbn [remove_lost_loop]. rewrite (Hnum _ _ Hinv HD).
    rewrite (proj2 (Z.ltb_ge _ _)) by done. rewrite app_nil_r. split_and!; done. }
  destruct (remove_lost_run n L b x (fun rtb => k <? num_lost_pkts rtb) (fun _ => false) ltac:(intros rtb H%Z.ltb_lt; lia) Hb HL D
    (entries_fuel st) st _ _ Hinv HD Hc) as (st' & D' & dropped & -> & -> & Hinv' & Hs & Hcs & _ & [Hm|(? & ? & _ & [=])]).
  { rewrite (entries_fuel_ok mss inv cinv other _ _ _ _ _ _ Hinv), length_app. lia. }
  apply Forall_app in HD as [HD' _]. exists st', D', dropped. split_and!; try done; [|lia].
  rewrite (Hnum _ _ Hinv' HD') in Hm. by apply Z.ltb_ge.
Qed.

(** The packets before detection are [L ++ D], those after it [L' ++ D']. *)
Record detected (loss_delay pkt_thres ts : Z) L D st L' D' (times' : list Z) : Prop := mk_detected {
  dt_above : list (ngtcp2_rtb_entry F);
  dt_keep : list (ngtcp2_rtb_entry F);
  dt_lose : list (ngtcp2_rtb_entry F);
  dt_lose' : list (ngtcp2_rtb_entry F);
  dt_dropped : list (ngtcp2_rtb_entry F);
  dt_L : L = dt_above ++ dt_keep ++ dt_lose;
  dt_larger : forall e, e ∈ dt_above -> largest_acked_tx_pkt_num (ld_rtb st) < ent_pkt_num e;
  dt_smaller : forall e, e ∈ dt_keep ++ dt_lose -> ent_pkt_num e <= largest_acked_tx_pkt_num (ld_rtb st);
  dt_split : detect_split (largest_acked_tx_pkt_num (ld_rtb st)) loss_delay pkt_thres ts (dt_keep ++ dt_lose) dt_keep dt_lose;
  dt_lost : Forall2 (lost_of ts) dt_lose dt_lose';
  dt_L' : L' = dt_above ++ dt_keep;
  dt_D' : D' ++ dt_dropped = dt_lose' ++ D;
  dt_kept : zlen D' <= pkt_thres /\ (zlen (dt_lose' ++ D) <= pkt_thres -> dt_dropped = []);
  dt_time : times' = store_time (ns_id (ld_ns st)) (fold_left (min_time loss_delay) dt_keep UINT64_MAX) (loss_time (ld_cstat st));
}.

Lemma pkt_thres_ok b st : RtbStep.sh_ok mss inv cinv b st -> 0 <= cc_bytes_in_flight (ld_rtb st) ->
  exists k, compute_pkt_thres (ld_rtb st) (ld_cstat st) = Ok k /\
    k = Z.min (Z.max (cc_bytes_in_flight (ld_rtb st) / max_tx_udp_payload_size (ld_cstat st) / 2) NGTCP2_PKT_THRESHOLD) 256 /\ 3 <= k <= 256.
Proof.
  intros [_ Hp _ _ _ _] Hb. unfold MIN_PAYLOAD in Hp. unfold compute_pkt_thres, div64. rewrite (proj2 (Z.eqb_neq _ _)) by lia. cbn [bind].
  eexists. split; [reflexivity|]. split; [done|]. unfold NGTCP2_PKT_THRESHOLD. lia.
Qed.

Lemma live_app l1 l2 : live (l1 ++ l2) <-> live l1 /\ live l2.
Proof. apply Forall_app. Qed.

Lemma lost_all_dead ts l l' : Forall2 (lost_of ts) l l' -> dead l'.
Proof. induction 1; constructor; [by eapply lost_of_lost|done]. Qed.

Lemma detect_run n L D b st ack ts : 0 <= b -> live L -> dead D -> ld_inv n (L ++ D) [] b 0 st ->
  exists pkt_thres rv st' ack', compute_pkt_thres (ld_rtb st) (ld_cstat st) = Ok pkt_thres /\
    rtb_detect_lost_pkt cc ops st ack ts = Ok (rv, st', ack') /\ app_rv ops rv /\
    (rv = 0 -> ca_bytes_delivered ack' = ca_bytes_delivered ack /\ same_space st st' /\
      exists L' D', detected (compute_pkt_loss_delay (ld_cstat st)) pkt_thres ts L D st L' D' (loss_time (ld_cstat st')) /\
        live L' /\ dead D' /\ ld_inv n (L' ++ D') [] b 0 st').
Proof.
  intros Hb HL HD Hinv. pose proof Hinv as [[Hst _ Hcn _ He _ _ _ _ Hid] _ Hs]. change (ns_rtb (ld_ns st)) with (ld_rtb st) in *.
  assert (Hcb : 0 <= cc_bytes_in_flight (ld_rtb st)).
  { destruct Hcn as [_ _ _ _ _ ->]. apply sumz_nonneg. intros e0 He0. rewrite Forall_forall in He. apply w_bytes_range. by destruct (He e0 He0). }
  destruct (pkt_thres_ok _ st Hs Hcb) as (k & Hk & _ & Hk'). exists k. unfold rtb_detect_lost_pkt. rewrite Hk. cbn [bind].
  destruct (so_times _ _ _ _ _ Hs) as [Htl _]. unfold NGTCP2_PKTNS_ID_MAX in Hid.
  destruct (lookup_lt_is_Some_2 (loss_time (ld_cstat st)) (Z.to_nat (ns_id (ld_ns st)))) as [t Ht]; [lia|].
  unfold store_loss_time, nth_time. rewrite Ht. cbn [bind].
  set (c := set_loss_time _ _). set (delay := compute_pkt_loss_delay c).
  assert (Hinv1 : ld_inv n (L ++ D) [] b 0 (put_cstat c st)).
  { apply (ld_inv_stat (cc := cc)); [done|same_stat]. }
  set (st1 := put_cstat c st) in *.
  destruct (lower_bound_split mss inv cinv other _ _ _ _ _ _ (largest_acked_tx_pkt_num (ld_rtb st1)) Hinv1)
    as (it & A & B & lA & lB & -> & Hc & Heq & HlA & HlB & HA & HB). cbn [bind].
  assert (Hsplit : exists todo, L = lA ++ todo /\ lB = todo ++ D).
  { apply List.app_eq_app in Heq as (k0 & [[-> ->]|[-> ->]]); [by exists k0|]. destruct k0 as [|e0 k0]; [exists []; by rewrite !app_nil_r|].
    exfalso. rewrite Forall_forall in He. apply Forall_app in HD as [HD _]. apply Forall_cons in HD as [El _].
    destruct (He e0) as [_ _ _ Hlo _]; [rewrite !elem_of_app, elem_of_cons; auto|]. specialize (Hlo El).
    specialize (HA e0). change (largest_acked_tx_pkt_num (ld_rtb st1)) with (largest_acked_tx_pkt_num (ld_rtb st)) in HA.
    rewrite elem_of_app, elem_of_cons in HA. assert (largest_acked_tx_pkt_num (ld_rtb st) < ent_pkt_num e0) by auto. lia. }
  destruct Hsplit as (todo & -> & ->). apply live_app in HL as [HLA HLt]. rewrite <- app_assoc in Hinv1.
  destruct (detect_loop_run n b ack delay k (ngtcp2_conn_compute_pto (ld_par st) (ld_cstat st) (ns_id (ld_ns st))) ts D HD Hb todo lA (entries_fuel st1) st1 it A B UINT64_MAX Hinv1 HLt)
    as (rv & st2 & ack' & Hrun & Hrv & Hok).
  { intros e0 He0. apply HB. rewrite elem_of_app. auto. } { done. } { done. }
  { rewrite (entries_fuel_ok mss inv cinv other _ _ _ _ _ _ Hinv1), !length_app. lia. }
  { cbn. apply list_lookup_insert_eq. by eapply lookup_lt_Some. }
  rewrite Hrun. cbn [bind]. destruct (Z.eqb_spec rv 0) as [->|Hne]; cbn [negb]; [|exists rv, st2, ack'; by split_and!].
  destruct (Hok eq_refl) as (Hack & keep & lose & lose' & [-> Hkeep Hlose] & Hf2 & Hinv2 & Hs2 & He2 & Ht2).
  apply live_app in HLt as [HLk _]. pose proof (lost_all_dead _ _ _ Hf2) as Hd'.
  rewrite app_assoc in Hinv2.
  destruct (excessive_ok n (lA ++ keep) (lose' ++ D) b 0 st2 k Hb ltac:(lia)) as (st3 & D' & dropped & -> & HDeq & Hinv3 & Hs3 & Hc3 & Hz & Hdrop);
    [by apply live_app|by apply Forall_app|done|]. cbn [bind].
  exists 0, st3, ack'. split; [done|]. split; [done|]. split; [done|]. intros _. split; [done|]. split.
  { eapply same_space_trans; [|by apply same_conn_space]. eapply same_space_trans; [|exact Hs2]. by split_and!. }
  exists (lA ++ keep), D'. split_and!; [|by apply live_app| |done].
  - apply (mk_detected _ _ _ _ _ _ _ _ _ lA keep lose lose' dropped); try done.
    + intros e0 He0. apply HB. rewrite !elem_of_app in *. tauto.
    + rewrite Hc3, Ht2. cbn. unfold store_time. by rewrite list_insert_insert_eq.
  - assert (Hdd : dead (lose' ++ D)) by by apply Forall_app. rewrite HDeq in Hdd. by apply Forall_app in Hdd as [? _].
Qed.
End Detect.
