(* ===== verification/RtbRecv.v ===== *)
(** * Packets in flight: an ACK frame is received

    The whole of [ngtcp2_rtb_recv_ack]: the acknowledged entries are taken out
    and processed, the round trip time is updated, lost packets are detected
    and the ECN counts are verified. *)

From S2P Require Import Prelude Const Frame FrameSafe PktAux Ksl KslInv KslIter KslSpec Acktr KslStore ConnStat Rst Cc CcSpec Recovery Rtb RtbInv RtbStep RtbAck RtbProcess RtbLose RtbDetect.
From stdpp Require Import list gmap sorting.
#[local] Open Scope Z_scope.

(** ** Sorted lists *)
Section Sorted.
Context {A : Type} (R : A -> A -> Prop).

Lemma sorted_filter (P : A -> bool) l : StronglySorted R l -> StronglySorted R (List.filter P l).
Proof.
  induction 1 as [|y l _ IH Hf]; cbn; [constructor|]. destruct (P y); [|done]. constructor; [done|].
  rewrite Forall_forall in *. intros z Hz. apply Hf. rewrite list_elem_of_In in *. by apply List.filter_In in Hz as [? _].
Qed.

Lemma sorted_snoc l y : StronglySorted R l -> Forall (fun z => R z y) l -> StronglySorted R (l ++ [y]).
Proof.
  induction 1 as [|z l Hs IH Hf]; intros Hy; cbn; [by repeat constructor|]. apply Forall_cons in Hy as [Hz Hy]. constructor; [auto|].
  apply Forall_app. split; [done|by constructor].
Qed.

Lemma forall_filter (Q : A -> Prop) (P : A -> bool) l : Forall Q l -> Forall Q (List.filter P l).
Proof. induction 1 as [|y l Hy _ IH]; cbn; [constructor|]. destruct (P y); [by constructor|done]. Qed.
End Sorted.

Lemma sorted_rev {A : Type} (R : A -> A -> Prop) l : StronglySorted R l -> StronglySorted (fun y z => R z y) (rev l).
Proof.
  induction 1 as [|y l _ IH Hf]; cbn; [constructor|]. apply sorted_snoc; [done|]. by apply List.Forall_rev.
Qed.

Lemma sumz_filter {A : Type} (f : A -> Z) (P : A -> bool) l : sumz f (List.filter P l) + sumz f (List.filter (fun y => negb (P y)) l) = sumz f l.
Proof. induction l as [|y l IH]; [done|]. cbn. destruct (P y); cbn; lia. Qed.

Section Recv.
Context {F S C : Type} (cc : ngtcp2_cc S) (ops : conn_ops F C).
Context (mss : Z) (inv : Z -> S -> ngtcp2_conn_stat -> Prop) {laws : CcLaws cc mss 1 inv}.
Context (cinv : C -> Prop) {app_laws : AppLaws ops mss cinv}.
Context (other : Z) {bounds : Bounds mss other}.
Abbreviation ld_inv := (RtbStep.ld_inv mss inv cinv other).
Abbreviation cost := (RtbStep.cost mss).
Abbreviation grow := (RtbStep.grow mss).
Abbreviation state := (ld_state F S C).
Implicit Types (st : state) (e : ngtcp2_rtb_entry F) (l lA lB L D : list (ngtcp2_rtb_entry F)) (it : ngtcp2_ksl_it)
  (b x ts : Z) (n : nat) (ack : ngtcp2_cc_ack) (fr : ngtcp2_ack) (out : list (Z * ngtcp2_rtb_entry F)).

(** ** Round trip time *)
Lemma update_rtt_ok par cstat rtt ack_delay ts :
  0 < rtt -> (cp_confirmed par = true -> is_Some (cp_max_ack_delay par)) ->
  exists latest min smoothed var first, ngtcp2_conn_update_rtt par cstat rtt ack_delay ts = Ok (set_rtt latest min smoothed var first cstat).
Proof.
  intros Hr Hp. unfold ngtcp2_conn_update_rtt. rewrite (proj2 (Z.ltb_lt _ _)) by done.
  assert (Hsame : cstat = set_rtt (latest_rtt cstat) (min_rtt cstat) (smoothed_rtt cstat) (rttvar cstat) (first_rtt_sample_ts cstat) cstat) by by destruct cstat.
  destruct (min_rtt cstat =? UINT64_MAX); [by do 5 eexists|].
  destruct (cp_confirmed par).
  - destruct (Hp eq_refl) as [d ->]. cbn [bind]. by do 5 eexists.
  - cbn [bind]. destruct (_ && _); [do 5 eexists; by f_equal|by do 5 eexists].
Qed.

Lemma update_rtt_on_ack_ok n l out b x st info ack_delay pkt_ts ts ack :
  ld_inv n l out b x st -> exists c ack', update_rtt_on_ack st info ack_delay pkt_ts ts ack = Ok (put_cstat c st, ack') /\
    ld_inv n l out b x (put_cstat c st) /\ loss_time c = loss_time (ld_cstat st) /\
    ca_bytes_delivered ack' = ca_bytes_delivered ack /\ ca_pkt_delivered ack' = ca_pkt_delivered ack.
Proof.
  intros Hinv. unfold update_rtt_on_ack. destruct (_ && _).
  - pose proof Hinv as [_ _ [_ _ _ _ _ Hpar]].
    destruct (update_rtt_ok (ld_par st) (ld_cstat st) (Z.max (u64 (pkt_ts - ai_largest_sent_ts info)) 1) ack_delay ts ltac:(lia) Hpar)
      as (r1 & r2 & r3 & r4 & r5 & ->). cbn [bind]. do 2 eexists. split; [reflexivity|]. split_and!; try done. apply (ld_inv_stat (cc := cc)); [done|same_stat].
  - exists (ld_cstat st). assert (E : put_cstat (ld_cstat st) st = st) by by destruct st. rewrite E. eexists. split; [reflexivity|]. by split_and!.
Qed.

(** ** ECN *)
Lemma verify_ecn_ok n l b st fr ecn_acked ack ts :
  ld_inv n l [] b 0 st -> 0 <= b ->
  exists st', conn_verify_ecn cc st fr ecn_acked ack ts = Ok st' /\ ld_inv n l [] b 0 st' /\ same_space st st' /\
    loss_time (ld_cstat st') = loss_time (ld_cstat st) /\ rtb_ents (ld_rtb st') = rtb_ents (ld_rtb st).
Proof.
  intros Hinv Hb. unfold conn_verify_ecn. destruct (_ =? _); [exists st; by split_and!|].
  assert (Hset : forall st state0, ld_inv n l [] b 0 st -> state0 = NGTCP2_ECN_STATE_FAILED \/ state0 = NGTCP2_ECN_STATE_CAPABLE ->
    ld_inv n l [] b 0 (set_ecn_state state0 st)).
  { intros st0 s0 H0 Hs0. eapply set_ecn_ok; [exact H0|]. split; cbn; [intros [E|E]|intros E]; destruct Hs0 as [-> | ->]; done. }
  destruct (ecn_invalid _ _ _).
  { eexists. split; [reflexivity|]. split; [by apply Hset; [|left]|]. by split_and!. }
  set (st1 := if negb (ce_state (ld_ecn st) =? NGTCP2_ECN_STATE_CAPABLE) && negb (ecn_acked =? 0)
    then set_ecn_state NGTCP2_ECN_STATE_CAPABLE st else st).
  assert (H1 : ld_inv n l [] b 0 st1 /\ same_space st st1 /\ loss_time (ld_cstat st1) = loss_time (ld_cstat st) /\ rtb_ents (ld_rtb st1) = rtb_ents (ld_rtb st)).
  { unfold st1. destruct (_ && _); [|by split_and!]. split; [by apply Hset; [|right]|]. by split_and!. }
  clearbody st1. destruct H1 as (Hinv1 & Hs1 & Ht1 & He1). destruct (ack_type fr =? _); [|exists st1; by split_and!].
  destruct (default (0, 0, 0) (ack_ecn fr)) as [[ect0 ect1] ce]. destruct (ns_ack_ecn (ld_ns st1)) as [[a0 a1] ace].
  assert (H2 : exists st2, (if negb (ca_largest_pkt_sent_ts ack =? UINT64_MAX) && (ace <? ce)
      then call_cc (congestion_event cc) (ca_largest_pkt_sent_ts ack, ack) ts st1 else Ok st1) = Ok st2 /\ ld_inv n l [] b 0 st2 /\
      same_space st1 st2 /\ loss_time (ld_cstat st2) = loss_time (ld_cstat st1) /\ rtb_ents (ld_rtb st2) = rtb_ents (ld_rtb st1)).
  { destruct (_ && _); [|exists st1; by split_and!]. rewrite <- (Z.add_0_r b) in Hinv1. pose proof (inv_costs mss inv cinv other _ _ _ _ _ Hinv1) as Hcosts.
    destruct (call_cc_inv (congestion_event cc) (ca_largest_pkt_sent_ts ack, ack) ts Hinv1) as (st2 & -> & Hch & Hinv2); [done|rewrite sum_app_nil; lia| |].
    { intros hi Hi _. rewrite Z.add_0_r. by apply (cl_congestion (mss := mss) (lo := 1) (inv := inv)). }
    exists st2. split_and!; try done; [by apply same_conn_space, cc_changed_conn|..]; by destruct Hch as (? & ? & ? & -> & (? & ? & ? & ? & ? & ->) & _). }
  destruct H2 as (st2 & -> & Hinv2 & Hs2 & Ht2 & He2). cbn [bind]. eexists. split; [reflexivity|]. split_and!.
  - pose proof Hinv2 as [_ Hecn _]. pose proof (ld_inv_ecn mss inv cinv other _ _ _ _ _ _ _ _ (ect0, ect1, ce) Hinv2 Hecn) as H. by destruct st2 as [[]].
  - eapply same_space_trans; [exact Hs1|]. eapply same_space_trans; [exact Hs2|]. by split_and!.
  - cbn. congruence.
  - change (rtb_ents (ld_rtb st2) = rtb_ents (ld_rtb st)). congruence.
Qed.

(** [on_ack_recv] *)
Lemma on_ack_recv_ok n l b st ack ts :
  ld_inv n l [] (b + grow (ca_bytes_delivered ack)) 0 st -> 0 <= b -> 0 <= ca_bytes_delivered ack ->
  exists st', call_cc (on_ack_recv cc) ack ts st = Ok st' /\ ld_inv n l [] b 0 st' /\ same_conn st st' /\
    loss_time (ld_cstat st') = loss_time (ld_cstat st) /\ rtb_ents (ld_rtb st') = rtb_ents (ld_rtb st).
Proof.
  intros Hinv Hb Hd. pose proof (bd_mss (mss := mss) (other := other)) as Hm. unfold MIN_PAYLOAD in Hm.
  pose proof (inv_costs mss inv cinv other _ _ _ _ _ Hinv) as Hcosts.
  destruct (call_cc_inv (on_ack_recv cc) ack ts Hinv) as (st' & -> & Hch & Hinv'); [unfold RtbStep.grow; nia|rewrite sum_app_nil; lia| |].
  { intros hi Hi Hh. rewrite <- (growth_grow mss other) in * by done. by apply (cl_ack_recv (mss := mss) (lo := 1) (inv := inv)). }
  exists st'. split_and!; try done; [by apply cc_changed_conn|..]; by destruct Hch as (? & ? & ? & -> & (? & ? & ? & ? & ? & ->) & _).
Qed.

Lemma ld_inv_rst n l out b x st rst : ld_inv n l out b x st -> rst_delivered rst = rst_delivered (ld_rst st) -> ld_inv n l out b x (put_rst rst st).
Proof. intros [Hns Hecn [? ? Hd ? ? ?]] E. split; cbn; [by rewrite E|done|]. split; cbn; rewrite ?E; done. Qed.

(** What loss detection reads. *)
Definition same_input st st' : Prop :=
  ld_ns st' = ld_ns st /\ latest_rtt (ld_cstat st') = latest_rtt (ld_cstat st) /\ smoothed_rtt (ld_cstat st') = smoothed_rtt (ld_cstat st) /\
  max_tx_udp_payload_size (ld_cstat st') = max_tx_udp_payload_size (ld_cstat st) /\ loss_time (ld_cstat st') = loss_time (ld_cstat st).

Lemma detected_input loss_delay k ts L D st st' L' D' times :
  same_input st st' -> detected loss_delay k ts L D st' L' D' times -> detected loss_delay k ts L D st L' D' times.
Proof.
  intros (E1 & _ & _ & _ & E5) [above keep lose lose' dropped H1 H2 H3 H4 H5 H6 H7 H8 H9]. unfold ld_rtb in *. rewrite E1, E5 in *.
  by eapply (mk_detected _ _ _ _ _ _ _ _ _ above keep lose lose' dropped).
Qed.

Lemma rst_ack_ok n l out b x st :
  ld_inv n l out b x st -> let (rst, cstat) := ngtcp2_rst_on_ack_recv (ld_rst st) (ld_cstat st) in
    ld_inv n l out b x (put_rst rst (put_cstat cstat st)) /\ same_conn st (put_rst rst (put_cstat cstat st)) /\ same_input st (put_rst rst (put_cstat cstat st)).
Proof.
  intros Hinv. unfold ngtcp2_rst_on_ack_recv.
  assert (H : forall rst c, rst_delivered rst = rst_delivered (ld_rst st) -> c = ld_cstat st \/ (exists rate, c = set_delivery_rate rate (ld_cstat st)) ->
    ld_inv n l out b x (put_rst rst (put_cstat c st)) /\ same_conn st (put_rst rst (put_cstat c st)) /\ same_input st (put_rst rst (put_cstat c st))).
  { intros rst c Hr Hc. assert (Hss : stat_same (ld_cstat st) c) by (destruct Hc as [->|[rate ->]]; same_stat).
    split; [apply ld_inv_rst; [by apply (ld_inv_stat (cc := cc))|done]|]. split; [by split_and!|]. by destruct Hc as [->|[rate ->]]. }
  destruct (_ =? UINT64_MAX); [by apply H; [|left]|]. destruct (_ <? min_rtt _); [by apply H; [|left]|].
  destruct (_ =? 0); [by apply H; [|left]|]. apply H; [done|right; by eexists].
Qed.

(** ** The last part *)
Record finished n L D b ts st (rv : Z) st' : Prop := mk_finished {
  fi_L : list (ngtcp2_rtb_entry F);
  fi_D : list (ngtcp2_rtb_entry F);
  fi_inv : ld_inv n (fi_L ++ fi_D) [] b 0 st';
  fi_live : live fi_L;
  fi_dead : dead fi_D;
  fi_space : same_space st st';
  fi_none : rv = 0 -> fi_L = L /\ fi_D = D /\ loss_time (ld_cstat st') = loss_time (ld_cstat st);
  fi_some : rv <> 0 -> exists k, compute_pkt_thres (ld_rtb st) (ld_cstat st) = Ok k /\
    detected (compute_pkt_loss_delay (ld_cstat st)) k ts L D st fi_L fi_D (loss_time (ld_cstat st'));
}.

Lemma finish_ack_run n L D b st fr verify_ecn num_lost sum ts :
  0 <= b -> live L -> dead D -> 0 <= ca_bytes_delivered (as_ack sum) -> 0 <= as_num_acked sum ->
  ld_inv n (L ++ D) [] (b + grow (ca_bytes_delivered (as_ack sum))) 0 st ->
  exists rv st', finish_ack cc ops st fr verify_ecn num_lost sum ts = Ok (rv, st') /\
    (rv < 0 /\ ~ app_succeeds ops \/ rv = as_num_acked sum /\ finished n L D b ts st rv st').
Proof.
  intros Hb HL HD Hd Hn Hinv. pose proof (bd_mss (mss := mss) (other := other)) as Hm. unfold MIN_PAYLOAD in Hm. unfold finish_ack.
  set (bytes := ca_bytes_delivered (as_ack sum)) in *. assert (Hg : 0 <= grow bytes) by (unfold RtbStep.grow; nia).
  assert (H1 : exists st1, (if negb (num_lost =? 0) && (num_lost_pkts (ld_rtb st) =? num_lost_ignore_pkts (ld_rtb st))
      then call_cc (on_spurious_congestion cc) tt ts st else Ok st) = Ok st1 /\ ld_inv n (L ++ D) [] (b + grow bytes) 0 st1 /\ same_conn st st1 /\ same_input st st1).
  { destruct (_ && _); [|exists st; by split_and!]. rewrite <- (Z.add_0_r (b + grow bytes)) in Hinv. pose proof (inv_costs mss inv cinv other _ _ _ _ _ Hinv) as Hcosts.
    destruct (call_cc_inv (on_spurious_congestion cc) tt ts Hinv) as (st2 & -> & Hch & Hinv2); [done|rewrite sum_app_nil; lia| |].
    { intros hi Hi _. rewrite Z.add_0_r. by apply (cl_spurious (mss := mss) (lo := 1) (inv := inv)). }
    exists st2. split_and!; try done; [by apply cc_changed_conn|..]; by destruct Hch as (? & ? & ? & -> & (? & ? & ? & ? & ? & ->) & _). }
  destruct H1 as (st1 & -> & Hinv1 & Hs1 & Hi1). cbn [bind].
  destruct (Z.eqb_spec (as_num_acked sum) 0) as [E|E]; cbn [negb bind].
  - cbn [Z.eqb negb]. assert (H2 : exists st2, (if verify_ecn then conn_verify_ecn cc st1 fr (as_ecn_acked sum) (as_ack sum) ts else Ok st1) = Ok st2 /\
        ld_inv n (L ++ D) [] (b + grow bytes) 0 st2 /\ same_space st1 st2 /\ loss_time (ld_cstat st2) = loss_time (ld_cstat st1)).
    { destruct verify_ecn; [|exists st1; by split_and!]. destruct (verify_ecn_ok n (L ++ D) (b + grow bytes) st1 fr (as_ecn_acked sum) (as_ack sum) ts Hinv1 ltac:(lia))
        as (st2 & -> & ? & ? & ? & _). by exists st2. }
    destruct H2 as (st2 & -> & Hinv2 & Hs2 & Ht2). cbn [bind].
    destruct (on_ack_recv_ok n (L ++ D) b st2 (as_ack sum) ts Hinv2 Hb Hd) as (st3 & -> & Hinv3 & Hs3 & Ht3 & _). cbn [bind].
    do 2 eexists. split; [reflexivity|]. right. split; [done|]. apply (mk_finished _ _ _ _ _ _ _ _ L D); try done.
    + eapply same_space_trans; [by apply same_conn_space|]. eapply same_space_trans; [exact Hs2|by apply same_conn_space].
    + intros _. destruct Hi1 as (_ & _ & _ & _ & Ht1). split_and!; congruence.
  - pose proof (rst_ack_ok _ _ _ _ _ _ Hinv1) as H2. destruct (ngtcp2_rst_on_ack_recv (ld_rst st1) (ld_cstat st1)) as [rst c].
    destruct H2 as (Hinv2 & Hs2 & Hi2). set (st2 := put_rst rst (put_cstat c st1)) in *.
    destruct (detect_run cc ops mss inv cinv other n L D (b + grow bytes) st2 (as_ack sum) ts ltac:(lia) HL HD Hinv2)
      as (k & rv & st3 & ack' & Hk & -> & Hrv & Hok). cbn [bind].
    destruct (Z.eqb_spec rv 0) as [->|Hne]; cbn [negb]; [|do 2 eexists; split; [reflexivity|]; left; destruct Hrv as [? Hx]; split; [lia|by intros ?%Hx]].
    destruct (Hok eq_refl) as (Hack & Hs3 & L' & D' & Hdet & HL' & HD' & Hinv3).
    assert (H4 : exists st4, (if verify_ecn then conn_verify_ecn cc st3 fr (as_ecn_acked sum) ack' ts else Ok st3) = Ok st4 /\
        ld_inv n (L' ++ D') [] (b + grow bytes) 0 st4 /\ same_space st3 st4 /\ loss_time (ld_cstat st4) = loss_time (ld_cstat st3)).
    { destruct verify_ecn; [|exists st3; by split_and!]. destruct (verify_ecn_ok n (L' ++ D') (b + grow bytes) st3 fr (as_ecn_acked sum) ack' ts Hinv3 ltac:(lia))
        as (st4 & -> & ? & ? & ? & _). by exists st4. }
    destruct H4 as (st4 & -> & Hinv4 & Hs4 & Ht4). cbn [bind]. fold bytes in Hack. rewrite <- Hack in Hinv4.
    destruct (on_ack_recv_ok n (L' ++ D') b st4 ack' ts Hinv4 Hb ltac:(lia)) as (st5 & -> & Hinv5 & Hs5 & Ht5 & _). cbn [bind].
    do 2 eexists. split; [reflexivity|]. right. split; [done|]. apply (mk_finished _ _ _ _ _ _ _ _ L' D'); try done.
    + eapply same_space_trans; [by apply same_conn_space|]. eapply same_space_trans; [by apply same_conn_space|].
      eapply same_space_trans; [exact Hs3|]. eapply same_space_trans; [exact Hs4|by apply same_conn_space].
    + intros _. exists k. destruct Hi1 as (A1 & A2 & A3 & A4 & A5). destruct Hi2 as (B1 & B2 & B3 & B4 & B5).
      assert (Hin : same_input st st2) by (split_and!; congruence).
      assert (Ed : compute_pkt_loss_delay (ld_cstat st2) = compute_pkt_loss_delay (ld_cstat st)) by (unfold compute_pkt_loss_delay; congruence).
      split.
      * rewrite <- Hk. unfold compute_pkt_thres, ld_rtb. by rewrite B1, A1, B4, A4.
      * rewrite Ht5, Ht4, <- Ed. by eapply detected_input.
Qed.
(** ** The whole *)

(** The state the entries are taken out of. *)
Record prepared (largest_ack : Z) st st' : Prop := {
  pp_largest : largest_acked_tx_pkt_num (ld_rtb st') = Z.max (largest_acked_tx_pkt_num (ld_rtb st)) largest_ack;
  pp_cc : cc_pkt_num (ld_rtb st') = cc_pkt_num (ld_rtb st);
  pp_ents : rtb_ents (ld_rtb st') = rtb_ents (ld_rtb st);
  pp_times : loss_time (ld_cstat st') = loss_time (ld_cstat st);
  pp_id : ns_id (ld_ns st') = ns_id (ld_ns st);
}.

Lemma recv_start_ok n l out b x st largest_ack ts :
  ld_inv n l out b x st -> ld_inv n l out b x (recv_ack_start st largest_ack ts) /\ prepared largest_ack st (recv_ack_start st largest_ack ts).
Proof.
  intros Hinv. unfold recv_ack_start.
  assert (H1 : ld_inv n l out b x (confirm_key_update st largest_ack ts) /\ ld_rtb (confirm_key_update st largest_ack ts) = ld_rtb st /\
    ld_cstat (confirm_key_update st largest_ack ts) = ld_cstat st /\ ns_id (ld_ns (confirm_key_update st largest_ack ts)) = ns_id (ld_ns st)).
  { unfold confirm_key_update. destruct (_ && _); [|by split_and!]. split; [|by split_and!]. by destruct Hinv as [? ? [? ? ? ? ? ?]]. }
  set (st1 := confirm_key_update _ _ _) in *. clearbody st1. destruct H1 as (Hinv1 & E1 & E2 & E3). cbv zeta.
  set (st2 := if _ <? _ then _ else _).
  assert (H2 : ld_inv n l out b x st2 /\ prepared largest_ack st st2).
  { unfold st2. destruct (Z.ltb_spec (largest_acked_tx_pkt_num (ld_rtb st1)) largest_ack) as [H|H].
    - split.
      + destruct Hinv1 as [[Hst Hrm [] Ho He Hla Hcc Hdl Hb Hid] Hecn []]. split; [split; try done| |]; try done.
        eapply List.Forall_impl; [|exact He]. intros e [? ? ? Hlo ?]. split; try done. intros E. specialize (Hlo E).
        change (ns_rtb (ld_ns st1)) with (ld_rtb st1) in Hlo. cbn. lia.
      + rewrite E1 in H. split; cbn; rewrite ?E1, ?E2, ?E3; try done. lia.
    - split; [done|]. rewrite E1 in H. split; rewrite ?E1, ?E2, ?E3; try done. lia. }
  clearbody st2. destruct H2 as [Hinv2 [P1 P2 P3 P4 P5]]. unfold ngtcp2_rst_reset_rate_sample. split; [|by split].
  apply ld_inv_rst; [|done]. apply (ld_inv_stat (cc := cc)); [done|same_stat].
Qed.

Definition w_newly (cc_pkt_num : Z) (blocks : list (Z * Z)) l : Z := sumz (w_acked cc_pkt_num) (List.filter (acked_by blocks) l).

(** An ACK frame. *)
Record ack_ok fr : Prop := {
  ak_first : varint (ack_first_ack_range fr);
  ak_ranges : Forall ack_range_ok (ack_ranges fr);
}.

Lemma filter_live (P : ngtcp2_rtb_entry F -> bool) l : live l -> live (List.filter P l).
Proof. apply forall_filter. Qed.

(** What an ACK frame does.  [L], [D]: the packets that are not lost, and
    those that are. *)
Definition received n L D b fr ts st (rv : Z) st' : Prop :=
  let l := L ++ D in let blocks := ack_blocks fr in
  Forall (fun e => is_skip e = false) (List.filter (acked_by blocks) l) /\
  rv = w_newly (cc_pkt_num (ld_rtb st)) blocks l /\
  exists st1, same_space (recv_ack_start st (ack_largest_ack fr) ts) st1 /\ loss_time (ld_cstat st1) = loss_time (ld_cstat st) /\
    finished n (List.filter (not_acked blocks) L) (List.filter (not_acked blocks) D) b ts st1 rv st'.

Lemma fail_ok n l out b x st rv : rv < 0 -> ld_inv n l out b x st -> Forall (fun p => 0 <= ent_pktlen p.2) out ->
  exists st', ack_fail ops st out.*1 rv = Ok (rv, st').
Proof. intros Hrv Hinv Hl. destruct (del_acked_ok Hinv Hl) as (st' & Hrun & _). exists st'. unfold ack_fail. by rewrite Hrun. Qed.

Lemma lens_ok (P : ngtcp2_rtb_entry F -> Prop) out : (forall e, e ∈ out.*2 -> P e) -> Forall (fun p => P p.2) out.
Proof.
  intros H. apply Forall_forall. intros p Hp. apply H. by apply list_elem_of_fmap_2.
Qed.

Lemma w_acked_nonneg cc0 l : 0 <= sumz (@w_acked F cc0) l.
Proof. apply sumz_nonneg. intros. apply b2z_range. Qed.

Lemma recv_ack_run n L D b st fr pkt_ts ts :
  0 <= b -> live L -> dead D -> ack_ok fr -> ld_inv n (L ++ D) [] (b + mss) 0 st ->
  exists rv st', ngtcp2_rtb_recv_ack cc ops st fr pkt_ts ts = Ok (rv, st') /\
    ((exists e, e ∈ L ++ D /\ is_skip e = true /\ acked_by (ack_blocks fr) e = true) -> rv = NGTCP2_ERR_PROTO) /\
    (rv < 0 /\ (rv = NGTCP2_ERR_PROTO /\ (exists e, e ∈ L ++ D /\ is_skip e = true /\ acked_by (ack_blocks fr) e = true) \/ ~ app_succeeds ops) \/
     received n L D b fr ts st rv st').
Proof.
  intros Hb HL HD [Hf Hr] Hinv. unfold ngtcp2_rtb_recv_ack. rewrite i64_small by (unfold varint in Hf; lia).
  set (num_lost := u64 _). set (verify_ecn := _ <? _). clearbody num_lost verify_ecn.
  destruct (recv_start_ok n (L ++ D) [] (b + mss) 0 st (ack_largest_ack fr) ts Hinv) as [Hinv1 Hp].
  set (st1 := recv_ack_start _ _ _) in *.
  destruct (take_run cc mss inv cinv other n (L ++ D) (b + mss) 0 st1 (ack_largest_ack fr) (ack_first_ack_range fr) (ack_ranges fr)
    (mk_ack_info UINT64_MAX false) Hf Hr Hinv1) as (it & -> & Htake). cbn [bind]. fold (ack_blocks fr) in Htake.
  pose proof (bd_mss (mss := mss) (other := other)) as Hm. unfold MIN_PAYLOAD in Hm.
  destruct (ngtcp2_ksl_it_end _ _).
  - assert (H2 : exists st2, (if verify_ecn then conn_verify_ecn cc st1 fr 0 empty_cc_ack ts else Ok st1) = Ok st2 /\
        ld_inv n (L ++ D) [] (b + mss) 0 st2 /\ same_space st1 st2 /\ loss_time (ld_cstat st2) = loss_time (ld_cstat st1)).
    { destruct verify_ecn; [|exists st1; by split_and!].
      destruct (verify_ecn_ok n (L ++ D) (b + mss) st1 fr 0 empty_cc_ack ts Hinv1 ltac:(lia)) as (st2 & -> & ? & ? & ? & _). by exists st2. }
    destruct H2 as (st2 & -> & Hinv2 & Hs2 & Ht2). cbn [bind].
    destruct (on_ack_recv_ok n (L ++ D) b st2 empty_cc_ack ts Hinv2 Hb) as (st3 & -> & Hinv3 & Hs3 & Ht3 & _); [done|]. cbn [bind].
    exists 0, st3. split; [done|]. split; [intros (e & He & _ & Ha); by rewrite Htake in Ha|]. right. unfold received, w_newly.
    rewrite (filter_none (acked_by _) (L ++ D) Htake). split; [done|]. split; [done|].
    exists st2. split; [done|]. split; [rewrite Ht2; apply (pp_times _ _ _ Hp)|].
    rewrite !filter_all.
    + apply (mk_finished _ _ _ _ _ _ _ _ L D); try done. by apply same_conn_space.
    + intros e He. unfold not_acked. rewrite Htake; [done|]. rewrite elem_of_app. auto.
    + intros e He. unfold not_acked. rewrite Htake; [done|]. rewrite elem_of_app. auto.
  - destruct Htake as (rv & st2 & acked & info & l' & out & Hrun & Hd).
    rewrite Hrun. cbn [bind]. pose proof Hd as [Hinv2 -> Helse Htimes Hsub Hrv Hok].
    pose proof (inv_ents mss inv cinv other _ _ _ _ _ Hinv) as Hents. rewrite Forall_forall in Hents.
    assert (Hlens : forall e, e ∈ L ++ D -> 0 <= ent_pktlen e) by (intros e He; by destruct (Hents e He)).
    assert (Hskip : rv = 0 -> (exists e, e ∈ L ++ D /\ is_skip e = true /\ acked_by (ack_blocks fr) e = true) -> False).
    { intros E (e & He & Hs & Ha). destruct (Hok E) as (_ & _ & Hno). rewrite Hno in Hs; [done|]. by apply elem_of_lfilter. }
    assert (Hout : Forall (fun p => 0 <= ent_pktlen p.2) out).
    { apply (lens_ok (fun e => 0 <= ent_pktlen e)). intros e [He|He%elem_of_nil]%Hsub; [by apply Hlens|done]. }
    destruct (Z.eqb_spec rv 0) as [->|Hne]; cbn [negb].
    2:{ destruct Hrv as [?|[-> Hw]]; [done|]. destruct (fail_ok n l' out (b + mss) 0 st2 NGTCP2_ERR_PROTO ltac:(done) Hinv2 Hout) as (st' & ->).
        exists NGTCP2_ERR_PROTO, st'. split_and!; [done|done|]. left. split; [done|]. by left. }
    specialize (Hskip eq_refl). destruct (Hok eq_refl) as (-> & Eout & Hno). rewrite app_nil_r in Eout.
    destruct (update_rtt_on_ack_ok n _ out (b + mss) 0 st2 info (ack_delay_unscaled fr) pkt_ts ts empty_cc_ack Hinv2)
      as (c & ack & -> & Hinv3 & Ht3 & Hbd & Hpd). cbn [bind]. set (st3 := put_cstat c st2) in *. cbn in Hbd, Hpd.
    assert (Ecc : cc_pkt_num (ld_rtb st3) = cc_pkt_num (ld_rtb st)).
    { rewrite <- (pp_cc _ _ _ Hp). change (ld_rtb st3) with (ld_rtb st2). destruct Helse as (_ & _ & _ & _ & _ & _ & _ & _ & _ & _ & _ & -> & _). done. }
    pose proof Hinv as [[_ _ _ Hord _ _ _ Hdel _ _] _ _]. change (ns_rtb (ld_ns st)) with (ld_rtb st) in *.
    destruct (process_acked_ents_run cc ops mss inv cinv other n (List.filter (not_acked (ack_blocks fr)) (L ++ D)) 0 ts out b st3 (mk_acked_sum ack 0 0))
      as (rv & st4 & acked & sum' & out' & -> & [Hinv4 -> Hlen4 Hconn4 Ht4 Hrv4 Hok4]); cbn [as_ack]; rewrite ?Hbd, ?Hpd; try done.
    { apply sumz_nonneg. intros e [He _]%elem_of_lfilter. apply (cost_pos (mss := mss) (other := other)). by apply Hlens. }
    { rewrite Ecc, Eout. split.
      - apply (sorted_rev (sent_after (cc_pkt_num (ld_rtb st)))). by apply sorted_filter.
      - apply List.Forall_rev, forall_filter, Forall_forall. exact Hlens.
      - apply List.Forall_rev, forall_filter. eapply List.Forall_impl; [|exact Hdel]. cbn. intros e H1 H2. by destruct (H1 H2). }
    cbn [bind]. destruct (Z.eqb_spec rv 0) as [->|Hne]; cbn [negb] in *.
    2:{ destruct (fail_ok n (List.filter (not_acked (ack_blocks fr)) (L ++ D)) out' _ 0 st4 rv ltac:(destruct Hrv4; lia) Hinv4 Hlen4) as (st' & ->).
        exists rv, st'. split; [done|]. split; [by intros ?%Hskip|left]. destruct Hrv4 as [? Hx]. split; [lia|]. right. by intros ?%Hx. }
    destruct (Hok4 eq_refl) as (-> & Hbytes & Hnum). rewrite List.filter_app in Hinv4. cbn [as_num_acked] in Hnum. rewrite Z.add_0_l in Hnum.
    assert (Hw : as_num_acked sum' = w_newly (cc_pkt_num (ld_rtb st)) (ack_blocks fr) (L ++ D)) by (rewrite Hnum, Ecc, Eout; apply sumz_rev).
    destruct (finish_ack_run n (List.filter (not_acked (ack_blocks fr)) L) (List.filter (not_acked (ack_blocks fr)) D) b st4 fr verify_ecn num_lost sum' ts Hb (filter_live _ _ HL) (forall_filter _ _ _ HD) Hbytes ltac:(rewrite Hw; apply w_acked_nonneg) Hinv4)
      as (rv & st5 & -> & Hfin). exists rv, st5. split; [done|]. split; [by intros ?%Hskip|].
    destruct Hfin as [[? ?]|[-> Hfin]]; [by left; split; [|right]|right]. split; [|split; [done|]].
    { apply Forall_forall. exact Hno. }
    exists st4. split; [|split; [|exact Hfin]].
    + eapply same_space_trans; [by apply same_conn_space, same_else_conn|]. apply same_conn_space.
      eapply same_conn_trans; [|exact Hconn4]. by split_and!.
    + rewrite Ht4. etransitivity; [exact Ht3|]. rewrite Htimes. by destruct Hp.
Qed.
End Recv.
