(* ===== verification/RtbConn.v ===== *)
(** * The callers of loss detection in [lib/ngtcp2_conn.c]

    What the connection does with the packets of one packet number space: a
    packet is sent and tracked, with its ECN marking; a packet number is
    skipped; an ACK frame is received; the loss detection timer expires; the
    path changes.  The state is that of [Rtb]; [pto]: [rtb.num_pto_eliciting]
    of the three spaces, [None] for one that is discarded. *)

From S2P Require Import Prelude Const Frame Ksl Acktr ConnStat Rst Cc Recovery Rtb.
From stdpp Require Import list gmap.
#[local] Open Scope Z_scope.

Definition INT64_MAX : Z := 2 ^ 63 - 1.
Definition NGTCP2_MAX_PKT_NUM : Z := 2 ^ 62 - 1.
Definition NGTCP2_ECN_NOT_ECT : Z := 0.
Definition NGTCP2_ECN_ECT_0 : Z := 2.
Definition NGTCP2_ECN_MAX_NUM_VALIDATION_PKTS : Z := 10.

(** ** Packet numbers to skip *)
Record skip_pkt := mk_skip {
  skip_next_pkt_num : Z;
  skip_exponent : Z;
}.

(** [r]: a random byte. *)
Definition conn_update_skip_pkt (last_pkt_num r : Z) (skip : skip_pkt) : res skip_pkt :=
  let min_gap := 3 in
  assert! negb (skip_next_pkt_num skip =? INT64_MAX);
  if (NGTCP2_MAX_PKT_NUM - min_gap) / (r + 1) <? Z.shiftl 1 (skip_exponent skip)
  then Ok (mk_skip INT64_MAX (skip_exponent skip))
  else
    let gap := (r + 1) * Z.shiftl 1 (skip_exponent skip) + min_gap in
    let exponent := skip_exponent skip + 1 in
    if NGTCP2_MAX_PKT_NUM - gap <? last_pkt_num then Ok (mk_skip INT64_MAX exponent)
    else Ok (mk_skip (last_pkt_num + gap) exponent).

Section Conn.
Context {F S C : Type} (cc : ngtcp2_cc S) (ops : conn_ops F C).
Abbreviation state := (ld_state F S C).
Implicit Types (st : state) (ent : ngtcp2_rtb_entry F) (ts : Z) (pto : list (option Z)).

(** ** Reset of the path *)
Definition ecn_reset (ecn : pktns_ecn) : pktns_ecn := mk_pktns_ecn INT64_MAX 0 0 (pe_ect0 ecn).

Definition conn_reset_ecn_validation_state st : state :=
  let st := put_ns_ecn (ecn_reset (ns_ecn (ld_ns st))) (ns_ack_ecn (ld_ns st)) st in
  mk_ld (ld_ns st) (map ecn_reset (ld_others st)) (ld_cstat st) (ld_rst st) (ld_cc st)
    (mk_conn_ecn NGTCP2_ECN_STATE_TESTING UINT64_MAX 0) (ld_key st) (ld_par st) (ld_app st).

(** [payload]: [ngtcp2_conn_get_path_max_tx_udp_payload_size2(conn)]. *)
Definition conn_reset_conn_stat_cc (initial_rtt payload : Z) (cstat : ngtcp2_conn_stat) : ngtcp2_conn_stat :=
  let cstat := set_rtt 0 UINT64_MAX initial_rtt (initial_rtt / 2) UINT64_MAX cstat in
  let cstat := set_timers (last_tx_pkt_ts cstat) UINT64_MAX (set_pto_count 0 cstat) in
  let cstat := set_max_tx_udp_payload_size payload cstat in
  let cstat := set_window (ngtcp2_cc_compute_initcwnd payload) UINT64_MAX UINT64_MAX cstat in
  set_pacing 0 (64 * 1024) (set_delivery_rate 0 (set_bytes_in_flight 0 cstat)).

(** [conn->tx.pacing] is not in the model. *)
Definition conn_reset_congestion_state st (payload ts : Z) : res state :=
  let st := put_cstat (conn_reset_conn_stat_cc (cp_initial_rtt (ld_par st)) payload (ld_cstat st)) st in
  let* st := call_cc (cc_reset cc) tt ts st in
  let st := put_rtb (ngtcp2_rtb_reset_cc_state (ld_rtb st) (ns_last_pkt_num (ld_ns st) + 1)) st in
  Ok (put_rst (ngtcp2_rst_reset (ld_rst st)) st).

(** ** Loss detection timer *)

(** [ngtcp2_conn_set_loss_detection_timer]; the count of this space is the
    one in the state. *)
Definition set_timer st pto ts : res state :=
  match <[Z.to_nat (ns_id (ld_ns st)) := Some (num_pto_eliciting (ld_rtb st))]> pto with
  | [in_pto; hs_pto; Some app_pto] =>
      let* cstat := ngtcp2_conn_set_loss_detection_timer (ld_par st) (ld_cstat st) in_pto hs_pto app_pto ts in
      Ok (put_cstat cstat st)
  | _ => Fault
  end.

(** The timer expired, and the earliest loss time is that of this space. *)
Definition on_loss_time st pto ts : res (Z * state) :=
  let* (rv, st) := ngtcp2_rtb_detect_lost_pkt cc ops st ts in
  if negb (rv =? 0) then Ok (rv, st) else
  let* st := set_timer st pto ts in Ok (0, st).

(** The timer expired, and no loss time is set: [probes] packets are to be
    sent in this space. *)
Definition on_pto_expiry st pto (probes ts : Z) : res (Z * state) :=
  let st := put_rtb (set_probe_pkt_left probes (ld_rtb st)) st in
  let st := put_cstat (set_pto_count (pto_count (ld_cstat st) + 1) (ld_cstat st)) st in
  let* st := set_timer st pto ts in Ok (0, st).

(** ** A packet is sent *)
Definition ecn_validate (pkt_num : Z) (ecn : pktns_ecn) : pktns_ecn :=
  mk_pktns_ecn (if pe_start_pkt_num ecn =? INT64_MAX then pkt_num else pe_start_pkt_num ecn)
    (pe_validation_pkt_sent ecn + 1) (pe_validation_pkt_lost ecn) (pe_ect0 ecn).
Definition ecn_add_ect0 (ecn : pktns_ecn) : pktns_ecn :=
  mk_pktns_ecn (pe_start_pkt_num ecn) (pe_validation_pkt_sent ecn) (pe_validation_pkt_lost ecn) (pe_ect0 ecn + 1).

Definition set_ns_tx_ecn (ecn : pktns_ecn) st : state := put_ns_ecn ecn (ns_ack_ecn (ld_ns st)) st.

(** [pi]: [pi->ecn]; [flags]: the flags of the entry, if there is one. *)
Definition mark_ect0 st (flags : option Z) : option Z * state :=
  (option_map (fun f => Z.lor f NGTCP2_RTB_ENTRY_FLAG_ECN) flags, set_ns_tx_ecn (ecn_add_ect0 (ns_ecn (ld_ns st))) st).

Definition ecn_testing st (pi : Z) (flags : option Z) (pkt_num ts : Z) : Z * option Z * state :=
  let st := set_ns_tx_ecn (ecn_validate pkt_num (ns_ecn (ld_ns st))) st in
  let sent := ce_dgram_sent (ld_ecn st) + 1 in
  let st := put_ecn (mk_conn_ecn
    (if sent =? NGTCP2_ECN_MAX_NUM_VALIDATION_PKTS then NGTCP2_ECN_STATE_UNKNOWN else ce_state (ld_ecn st))
    (ce_validation_start_ts (ld_ecn st)) sent) st in
  let (flags, st) := mark_ect0 st flags in (NGTCP2_ECN_ECT_0, flags, st).

Definition conn_handle_tx_ecn st (pi : Z) (flags : option Z) (pkt_num ts : Z) : res (Z * option Z * state) :=
  if negb (pi =? NGTCP2_ECN_NOT_ECT) then
    let st := set_ns_tx_ecn (ecn_validate pkt_num (ns_ecn (ld_ns st))) st in
    let (flags, st) := mark_ect0 st flags in Ok (pi, flags, st)
  else
    let ecn := ld_ecn st in
    if ce_state ecn =? NGTCP2_ECN_STATE_TESTING then
      if ce_validation_start_ts ecn =? UINT64_MAX then
        assert! pe_validation_pkt_sent (ns_ecn (ld_ns st)) =? 0;
        assert! pe_validation_pkt_lost (ns_ecn (ld_ns st)) =? 0;
        Ok (ecn_testing (put_ecn (mk_conn_ecn (ce_state ecn) ts (ce_dgram_sent ecn)) st) pi flags pkt_num ts)
      else if u64 (3 * ngtcp2_conn_compute_pto (ld_par st) (ld_cstat st) (ns_id (ld_ns st))) <=? u64 (ts - ce_validation_start_ts ecn) then
        Ok (pi, flags, set_ecn_state NGTCP2_ECN_STATE_UNKNOWN st)
      else Ok (ecn_testing st pi flags pkt_num ts)
    else if ce_state ecn =? NGTCP2_ECN_STATE_CAPABLE then
      let (flags, st) := mark_ect0 st flags in Ok (NGTCP2_ECN_ECT_0, flags, st)
    else Ok (pi, flags, st).

(** [if (pi) { conn_handle_tx_ecn(...); }]; [pi]: [pi->ecn]. *)
Definition tx_ecn st (pi flags : option Z) (pkt_num ts : Z) : res (option Z * option Z * state) :=
  match pi with
  | Some pi => let* (pi, flags, st) := conn_handle_tx_ecn st pi flags pkt_num ts in Ok (Some pi, flags, st)
  | None => Ok (None, flags, st)
  end.

(** [p]: the entry. *)
Definition conn_on_pkt_sent st pto (p : Z) : res (Z * state) :=
  let* ent := rtb_load (ld_rtb st) p in
  let id := ns_id (ld_ns st) in
  let* st :=
    if ent_has ent NGTCP2_RTB_ENTRY_FLAG_ACK_ELICITING
    then call_cc (on_pkt_sent cc) (mk_cc_pkt (ent_pkt_num ent) (ent_pktlen ent) id (ent_ts ent) 0 0 false) (ent_ts ent) st
    else Ok st in
  let* (rv, st) := ngtcp2_rtb_add st p in
  if negb (rv =? 0) then Ok (rv, st) else
  let* st :=
    if ent_has ent NGTCP2_RTB_ENTRY_FLAG_ACK_ELICITING then
      let cstat := ld_cstat st in
      let* _ := nth_time (last_tx_pkt_ts cstat) id in
      Ok (put_cstat (set_timers (<[Z.to_nat id := ent_ts ent]> (last_tx_pkt_ts cstat)) (loss_detection_timer cstat) cstat) st)
    else Ok st in
  let* st := set_timer st pto (ent_ts ent) in
  Ok (0, st).

Definition add_last_pkt_num st : state :=
  let ns := ld_ns st in put_ns (mk_pktns (ns_id ns) (ns_rtb ns) (ns_ecn ns) (ns_ack_ecn ns) (ns_last_pkt_num ns + 1)) st.

(** A new entry, which is added with [add]; it is released if that fails. *)
Definition track_pkt (mem_ok : bool) st ent (add : state -> Z -> res (Z * state)) : res (Z * state) :=
  match ngtcp2_rtb_entry_objalloc_new mem_ok (ld_rtb st) ent with
  | None => Ok (NGTCP2_ERR_NOMEM, st)
  | Some (rtb, p) =>
      let* (rv, st) := add (put_rtb rtb st) p in
      if rv =? 0 then Ok (0, st) else
      let* st := ngtcp2_rtb_entry_objalloc_del ops st p in Ok (rv, st)
  end.

(** What [conn_write_pkt] does with a packet it has written. *)
Record sent_pkt := mk_sent {
  sp_type : Z;
  sp_hd_flags : Z;
  sp_frc : list F;
  sp_pktlen : Z;
  sp_flags : Z;
  sp_padded : bool;
}.

Definition use_probe st (flags : Z) : state :=
  let rtb := ld_rtb st in
  if negb (probe_pkt_left rtb =? 0) && has_flag flags NGTCP2_RTB_ENTRY_FLAG_ACK_ELICITING
  then put_rtb (set_probe_pkt_left (probe_pkt_left rtb - 1) rtb) st else st.

Definition pkt_written (mem_ok : bool) st pto (pi : option Z) (pkt : sent_pkt) ts : res (Z * option Z * state) :=
  let pkt_num := ns_last_pkt_num (ld_ns st) + 1 in
  let* (rv, pi, flags, st) :=
    if has_flag (sp_flags pkt) NGTCP2_RTB_ENTRY_FLAG_ACK_ELICITING || sp_padded pkt then
      let* (pi, flags, st) := tx_ecn st pi (Some (sp_flags pkt)) pkt_num ts in
      let flags := default (sp_flags pkt) flags in
      let* (rv, st) := track_pkt mem_ok st
        (rtb_entry_init pkt_num (sp_type pkt) (sp_hd_flags pkt) (sp_frc pkt) ts (sp_pktlen pkt) flags)
        (fun st p => conn_on_pkt_sent st pto p) in
      Ok (rv, pi, flags, st)
    else if bool_decide (is_Some pi) && (ce_state (ld_ecn st) =? NGTCP2_ECN_STATE_CAPABLE) then
      let* (pi, _, st) := tx_ecn st pi None pkt_num ts in Ok (0, pi, sp_flags pkt, st)
    else Ok (0, pi, sp_flags pkt, st) in
  if negb (rv =? 0) then Ok (rv, pi, st) else
  Ok (0, pi, add_last_pkt_num (use_probe st flags)).

Definition conn_handle_skip_pkt (mem_ok : bool) st (skip : skip_pkt) (r ts : Z) : res (Z * skip_pkt * state) :=
  assert! ns_id (ld_ns st) =? NGTCP2_PKTNS_ID_APPLICATION;
  if negb (ns_last_pkt_num (ld_ns st) + 1 =? skip_next_pkt_num skip) then Ok (0, skip, st) else
  let* (rv, st) := track_pkt mem_ok st
    (rtb_entry_init (skip_next_pkt_num skip) NGTCP2_PKT_1RTT 0 [] ts 0 NGTCP2_RTB_ENTRY_FLAG_SKIP) (fun st p => ngtcp2_rtb_add st p) in
  if negb (rv =? 0) then Ok (rv, skip, st) else
  let st := add_last_pkt_num st in
  let* skip := conn_update_skip_pkt (ns_last_pkt_num (ld_ns st)) r skip in
  Ok (0, skip, st).

(** ** An ACK frame is received *)
Definition conn_recv_ack (acktr : ngtcp2_acktr) st pto (fr : ngtcp2_ack) (pkt_ts ts : Z) : res (Z * ngtcp2_acktr * state) :=
  if ns_last_pkt_num (ld_ns st) <? ack_largest_ack fr then Ok (NGTCP2_ERR_PROTO, acktr, st) else
  let* acktr := ngtcp2_acktr_recv_ack acktr fr in
  let* (num_acked, st) := ngtcp2_rtb_recv_ack cc ops st fr pkt_ts ts in
  if num_acked <=? 0 then Ok (num_acked, acktr, st) else
  let st := put_rtb (set_probe_pkt_left 0 (ld_rtb st)) st in
  let cstat := ld_cstat st in
  let st :=
    if negb (pto_count cstat =? 0) && (cp_server (ld_par st) || cp_addr_verified (ld_par st))
    then put_cstat (set_pto_count (Z.min (pto_count cstat) 2) cstat) st else st in
  let* st := set_timer st pto ts in
  Ok (0, acktr, st).

(** ** Lost packets are forgotten *)

(** [ngtcp2_conn_remove_lost_pkt], for one space. *)
Definition conn_remove_lost_pkt st ts : res state :=
  ngtcp2_rtb_remove_expired_lost_pkt ops st (u64 (ngtcp2_conn_compute_pto (ld_par st) (ld_cstat st) (ns_id (ld_ns st)) * 3)) ts.
End Conn.
