(* ===== verification/RtbOps.v ===== *)
(** * Packets in flight: the other operations

    A packet is sent; lost packets are forgotten; the packets of early data
    are dropped; the loss detection timer is set. *)

From S2P Require Import Prelude Const Frame Ksl KslInv KslIter KslSpec Acktr KslStore ConnStat Rst Cc CcSpec Recovery Rtb RtbInv RtbStep RtbAck RtbProcess RtbLose RtbDetect RtbRecv RtbConn.
From stdpp Require Import list gmap sorting.
#[local] Open Scope Z_scope.

(** ** The loss detection timer *)
Lemma nth_time_ok times id : length times = 3%nat -> 0 <= id < 3 -> exists t, nth_time times id = Ok t.
Proof.
  intros Hl Hid. unfold nth_time. destruct (lookup_lt_is_Some_2 times (Z.to_nat id)) as [t ->]; [lia|]. by exists t.
Qed.

Lemma shl1_ok n : 0 <= n < 64 -> shl1 n = Ok (Z.shiftl 1 n).
Proof. intros H. unfold shl1. rewrite (proj2 (Z.leb_le _ _)), (proj2 (Z.ltb_lt _ _)) by lia. done. Qed.

Section Timer.
Implicit Types (par : conn_params) (c : ngtcp2_conn_stat) (ts : Z).

Definition par_ok par : Prop := cp_confirmed par = true -> is_Some (cp_max_ack_delay par).

Lemma pto_expiry_ok par c duration ns : forall i earliest,
  par_ok par -> length (last_tx_pkt_ts c) = 3%nat -> 0 <= pto_count c < 64 -> 0 <= i -> i + Z.of_nat (length ns) <= 3 ->
  exists t, pto_expiry par c duration ns i earliest = Ok t.
Proof.
  induction ns as [|k ns IH]; intros i earliest Hpar Hl Hp Hi Hn; cbn [pto_expiry]; [by eexists|]. cbn [length] in Hn.
  destruct (nth_time_ok (last_tx_pkt_ts c) i Hl) as [t ->]; [lia|]. cbn [bind].
  destruct (_ || _) eqn:E; [apply IH; done || lia|]. destruct (i =? NGTCP2_PKTNS_ID_APPLICATION) eqn:Ei.
  - apply orb_false_iff in E as [_ E]. cbn in E. apply negb_false_iff in E. destruct (Hpar E) as [d ->]. rewrite shl1_ok by done. cbn [bind].
    apply IH; done || lia.
  - cbn [bind]. apply IH; done || lia.
Qed.

Lemma pto_timers times t c : set_pto_count (pto_count c) (set_timers times t c) = set_timers times t c.
Proof. done. Qed.

Lemma get_loss_time_ok c in_pktns hs_pktns : length (loss_time c) = 3%nat ->
  exists t id, conn_get_loss_time_and_pktns c in_pktns hs_pktns = Ok (t, id).
Proof.
  intros Hl. unfold conn_get_loss_time_and_pktns.
  destruct (nth_time_ok (loss_time c) NGTCP2_PKTNS_ID_INITIAL Hl ltac:(done)) as [t0 ->]. cbn [bind earliest_loss_time].
  destruct (nth_time_ok (loss_time c) NGTCP2_PKTNS_ID_HANDSHAKE Hl ltac:(done)) as [t1 ->]. cbn [bind].
  destruct (nth_time_ok (loss_time c) NGTCP2_PKTNS_ID_APPLICATION Hl ltac:(done)) as [t2 ->]. cbn [bind].
  destruct (negb hs_pktns || (t0 <=? t1)); destruct (_ || _); by do 2 eexists.
Qed.

Lemma set_timer_run par c in_pto hs_pto app_pto ts :
  par_ok par -> times_ok c ->
  exists t n, ngtcp2_conn_set_loss_detection_timer par c in_pto hs_pto app_pto ts = Ok (set_pto_count n (set_timers (last_tx_pkt_ts c) t c)) /\
    (n = pto_count c \/ n = 0).
Proof.
  intros Hpar (Hl & Ht & Hp). unfold ngtcp2_conn_set_loss_detection_timer.
  destruct (get_loss_time_ok c (bool_decide (is_Some in_pto)) (bool_decide (is_Some hs_pto)) Hl) as (earliest & id & ->). cbn [bind].
  destruct (negb (earliest =? _)); [exists earliest, (pto_count c); split; [by rewrite pto_timers|by left]|].
  destruct (_ && _).
  - destruct (negb _); [exists UINT64_MAX, 0; split; [done|by right]|].
    exists (loss_detection_timer c), (pto_count c). split; [by destruct c|by left].
  - unfold conn_get_earliest_pto_expiry. rewrite shl1_ok by done. cbn [bind].
    destruct (pto_expiry_ok par c (u64 (compute_pto (smoothed_rtt c) (rttvar c) 0 * Z.shiftl 1 (pto_count c))) [in_pto; hs_pto; Some app_pto]
      NGTCP2_PKTNS_ID_INITIAL UINT64_MAX Hpar Ht Hp ltac:(done) ltac:(done)) as [t ->]. cbn [bind].
    destruct (t =? UINT64_MAX); cbn [bind]; eexists _, (pto_count c); (split; [by rewrite pto_timers|by left]).
Qed.
End Timer.

Section Ops.
Context {F S C : Type} (cc : ngtcp2_cc S) (ops : conn_ops F C).
Context (mss : Z) (inv : Z -> S -> ngtcp2_conn_stat -> Prop) {laws : CcLaws cc mss 1 inv}.
Context (cinv : C -> Prop) {app_laws : AppLaws ops mss cinv}.
Context (other : Z) {bounds : Bounds mss other}.
Abbreviation ld_inv := (RtbStep.ld_inv mss inv cinv other).
Abbreviation cost := (RtbStep.cost mss).
Abbreviation state := (ld_state F S C).
Implicit Types (st : state) (e : ngtcp2_rtb_entry F) (l L D : list (ngtcp2_rtb_entry F)) (it : ngtcp2_ksl_it)
  (b x ts : Z) (n : nat) (out : list (Z * ngtcp2_rtb_entry F)) (pto : list (option Z)).

(** The application space is there. *)
Definition pto_ok pto : Prop := length pto = 3%nat /\ exists k, pto !! 2%nat = Some (Some k).

Lemma timer_ok n l out b x st pto ts :
  ld_inv n l out b x st -> pto_ok pto ->
  exists c, set_timer st pto ts = Ok (put_cstat c st) /\ ld_inv n l out b x (put_cstat c st) /\ stat_same (ld_cstat st) c.
Proof.
  intros Hinv [Hl (k & Hk)]. unfold set_timer. pose proof Hinv as [[_ _ _ _ _ _ _ _ _ Hid] _ [_ _ _ _ Ht Hpar]].
  destruct pto as [|p0 [|p1 [|p2 [|]]]]; try done. injection Hk as ->.
  assert (E : exists in_pto hs_pto app_pto, <[Z.to_nat (ns_id (ld_ns st)) := Some (num_pto_eliciting (ld_rtb st))]> [p0; p1; Some k] =
    [in_pto; hs_pto; Some app_pto]).
  { unfold NGTCP2_PKTNS_ID_MAX in Hid. destruct (Z.to_nat (ns_id (ld_ns st))) as [|[|[|i]]] eqn:Ei; [by do 3 eexists..|lia]. }
  destruct E as (a & h & q & ->). destruct (set_timer_run (ld_par st) (ld_cstat st) a h q ts Hpar Ht) as (t & m & -> & Hm). cbn [bind].
  assert (Hs : stat_same (ld_cstat st) (set_pto_count m (set_timers (last_tx_pkt_ts (ld_cstat st)) t (ld_cstat st)))) by by split_and!.
  eexists. split; [reflexivity|]. split; [|done]. by apply (ld_inv_stat (cc := cc)).
Qed.

(** ** Lost packets are forgotten *)
Lemma expired_ok n L D b st timeout ts : 0 <= b -> live L -> dead D -> ld_inv n (L ++ D) [] b 0 st ->
  exists st' D' dropped, ngtcp2_rtb_remove_expired_lost_pkt ops st timeout ts = Ok st' /\ D = D' ++ dropped /\ ld_inv n (L ++ D') [] b 0 st' /\
    same_conn st st' /\ ld_cstat st' = ld_cstat st /\ Forall (fun e => timeout <= u64 (ts - ent_lost_ts e)) dropped /\
    (D' = [] \/ exists D0 e, D' = D0 ++ [e] /\ u64 (ts - ent_lost_ts e) < timeout).
Proof.
  intros Hb HL HD Hinv. unfold ngtcp2_rtb_remove_expired_lost_pkt. pose proof Hinv as [[Hst _ Hcn _ _ _ _ _ _ _] _ _].
  change (ns_rtb (ld_ns st)) with (ld_rtb st) in *. pose proof (cursor_end _ _ (ks_wf _ _ _ _ _ _ Hst)) as Hc.
  assert (Hnum : forall st' D', ld_inv n (L ++ D') [] b 0 st' -> dead D' -> num_lost_pkts (ld_rtb st') = zlen D').
  { intros st' D' [[_ _ [_ _ _ H4 _ _] _ _ _ _ _ _ _] _ _] HD'. by rewrite (lost_count L D' HL HD') in H4. }
  rewrite (Hnum _ _ Hinv HD). destruct (Z.eqb_spec (zlen D) 0) as [E|E].
  { exists st, D, []. rewrite app_nil_r. split_and!; try done. left. apply length_zero_iff_nil. unfold zlen in E. lia. }
  destruct (remove_lost_run cc ops mss inv cinv other n L b 0 (fun rtb => negb (num_lost_pkts rtb =? 0)) (fun ent => u64 (ts - ent_lost_ts ent) <? timeout))
    with (D := D) (fuel := entries_fuel st) (st := st) (it := ngtcp2_ksl_end (rtb_ents (ld_rtb st))) (A := ksl_elems (rtb_ents (ld_rtb st)))
    as (st' & D' & dropped & -> & -> & Hinv' & Hs & Hcs & Hdr & Hend); try done.
  { intros rtb E2. by apply negb_true_iff, Z.eqb_neq in E2. }
  { rewrite (entries_fuel_ok mss inv cinv other _ _ _ _ _ _ Hinv), length_app. lia. }
  apply Forall_app in HD as [HD' _]. exists st', D', dropped. split_and!; try done.
  - eapply List.Forall_impl; [|exact Hdr]. cbn. intros e He. by apply Z.ltb_ge.
  - destruct Hend as [Hm|(D0 & e & -> & He)].
    + left. rewrite (Hnum _ _ Hinv' HD') in Hm. apply negb_false_iff, Z.eqb_eq in Hm. apply length_zero_iff_nil. unfold zlen in Hm. lia.
    + right. exists D0, e. split; [done|]. by apply Z.ltb_lt.
Qed.
End Ops.
