(* ===== verification/RtbSend.v ===== *)
(** * Packets in flight: a packet is sent

    The ECN marking, the new entry, and the counters. *)

From S2P Require Import Prelude Const Frame Ksl KslInv KslIter KslSpec KslMap Acktr KslStore ConnStat Rst Cc CcSpec Recovery Rtb RtbInv RtbStep RtbAck RtbProcess RtbLose RtbDetect RtbRecv RtbConn RtbOps.
From stdpp Require Import list gmap sorting.
#[local] Open Scope Z_scope.

Section Send.
Context {F S C : Type} (cc : ngtcp2_cc S) (ops : conn_ops F C).
Context (mss : Z) (inv : Z -> S -> ngtcp2_conn_stat -> Prop) {laws : CcLaws cc mss 1 inv}.
Context (cinv : C -> Prop) {app_laws : AppLaws ops mss cinv}.
Context (other : Z) {bounds : Bounds mss other}.
Abbreviation ld_inv := (RtbStep.ld_inv mss inv cinv other).
Abbreviation cost := (RtbStep.cost mss).
Abbreviation state := (ld_state F S C).
Implicit Types (st : state) (e : ngtcp2_rtb_entry F) (l L D : list (ngtcp2_rtb_entry F)) (it : ngtcp2_ksl_it)
  (b x ts : Z) (n : nat) (out : list (Z * ngtcp2_rtb_entry F)) (pto : list (option Z)).

Lemma entry_new_ok n l b x st e :
  ld_inv n l [] (b + cost e) x st ->
  exists rtb, ngtcp2_rtb_entry_objalloc_new true (ld_rtb st) e = Some (rtb, rtb_next (ld_rtb st)) /\
    ld_inv n l [(rtb_next (ld_rtb st), e)] b x (put_rtb rtb st) /\ rtb_heap rtb !! rtb_next (ld_rtb st) = Some e.
Proof.
  intros [[Hst Hrm [] Ho He Hla Hcc Hdl Hb Hid] Hecn Hs]. change (ns_rtb (ld_ns st)) with (ld_rtb st) in *.
  pose proof (kstore_new _ _ _ _ _ _ e Hst) as Hst'. eexists. split; [reflexivity|]. split; [|apply lookup_insert_eq].
  split; cbn; [by split|done|]. apply sh_rtb. eapply sh_mono; [|exact Hs]. cbn. lia.
Qed.

(** The entry of the next packet. *)
Record new_ent (last_pkt_num : Z) e : Prop := {
  ne_pkt_num : ent_pkt_num e = last_pkt_num + 1 /\ last_pkt_num + 1 < 2 ^ 62;
  ne_pktlen : 0 <= ent_pktlen e;
  ne_live : is_lost e = false;
  ne_lost_ts : ent_lost_ts e = UINT64_MAX;
  ne_frc : ent_has e NGTCP2_RTB_ENTRY_FLAG_RETRANSMITTABLE = true -> ent_frc e <> [];
}.

Lemma bytes_budget n l out b x st :
  ld_inv n l out b x st -> 0 <= cc_bytes_in_flight (ld_rtb st) <= sumz cost l.
Proof.
  intros [[_ _ [_ _ _ _ _ Hby] _ He _ _ _ _ _] _ _]. change (ns_rtb (ld_ns st)) with (ld_rtb st) in *. rewrite Hby.
  rewrite Forall_forall in He. split; [apply sumz_nonneg|apply sumz_le]; intros e Hin; destruct (He e Hin) as [_ Hl _ _ _];
    pose proof (w_bytes_range (cc_pkt_num (ld_rtb st)) e Hl); pose proof (cost_pos (mss := mss) (other := other) Hl); lia.
Qed.

Lemma counts_cons l (rtb : ngtcp2_rtb F) e : counts l rtb -> is_lost e = false -> cc_pkt_num rtb <= ent_pkt_num e ->
  ent_has e NGTCP2_RTB_ENTRY_FLAG_PTO_RECLAIMED = false ->
  counts (e :: l) (set_counts (num_ack_eliciting rtb + Z.b2z (ent_has e NGTCP2_RTB_ENTRY_FLAG_ACK_ELICITING))
    (num_retransmittable rtb + Z.b2z (ent_has e NGTCP2_RTB_ENTRY_FLAG_RETRANSMITTABLE))
    (num_pto_eliciting rtb + Z.b2z (ent_has e NGTCP2_RTB_ENTRY_FLAG_PTO_ELICITING))
    (set_cc_bytes (cc_pkt_num rtb) (cc_bytes_in_flight rtb + ent_pktlen e) rtb)).
Proof.
  intros [H1 H2 H3 H4 H5 H6] El Hcc Hr. split; cbn.
  - unfold w_ack at 1. rewrite El. cbn. lia.
  - unfold w_retr at 1. rewrite El, Hr, andb_true_r. cbn. lia.
  - unfold w_pto at 1. rewrite El. cbn. lia.
  - unfold w_lost at 1. rewrite El. cbn. lia.
  - unfold w_ignore at 1. rewrite El. cbn. lia.
  - unfold w_bytes at 1. rewrite El, (proj2 (Z.leb_le _ _) Hcc). cbn. lia.
Qed.

Lemma rtb_add_ok n l b x st p e :
  ld_inv (Datatypes.S n) l [(p, e)] b x st -> 0 <= b -> new_ent (ns_last_pkt_num (ld_ns st)) e ->
  ent_has e NGTCP2_RTB_ENTRY_FLAG_PTO_RECLAIMED = false ->
  (validating (ld_ecn st) -> w_ecn (pe_start_pkt_num (ns_ecn (ld_ns st))) e <= x) -> 0 <= x ->
  exists st' er, ngtcp2_rtb_add st p = Ok (0, st') /\ ld_inv n (set_ent_rst er e :: l) [] b 0 (add_last_pkt_num st') /\
    ns_id (ld_ns st') = ns_id (ld_ns st).
Proof.
  intros Hinv Hb [[Hpn Hmax] Hlen El Hts Hfrc] Hr Hw Hx.
  pose proof (ld_budget cc mss inv cinv other _ _ _ _ _ _ Hinv) as Hbud. pose proof (bytes_budget _ _ _ _ _ _ Hinv) as Hby.
  pose proof (cost_pos (mss := mss) (other := other) Hlen) as Hcost. pose proof (bd_other (mss := mss) (other := other)) as Hother. cbn in Hbud.
  pose proof Hinv as [[Hst Hrm Hcn Ho He Hla Hcc Hdl Hb0 Hid] [Hn1 Hn2] [(hi & Hi & Hh) Hp [Hd1 Hd2] Ha Ht Hpar]].
  change (ns_rtb (ld_ns st)) with (ld_rtb st) in *.
  pose proof Hst as [_ _ Hout _ _]. apply Forall_cons in Hout as [Hpe _]. cbn in Hpe.
  destruct (kstore_insert _ n _ _ _ _ _ _ _ Hst) as (ents & it & Hins & Hst' & Hrm' & HE); [|done|].
  { intros e0 He0. rewrite Forall_forall in Hla. specialize (Hla e0 He0). lia. }
  unfold ngtcp2_rtb_add. unfold rtb_load at 1. rewrite Hpe. cbn [bind]. rewrite Hins. cbn [bind].
  change (negb (0 =? 0)) with false. cbv iota. unfold rtb_on_add. unfold rtb_load at 1. cbn [rtb_heap set_store]. rewrite Hpe. cbn [bind].
  cbn [cc_pkt_num set_store]. rewrite (proj2 (Z.leb_le _ _)) by lia.
  unfold CC_LIMIT in *. cbn [cc_bytes_in_flight set_store]. rewrite !u64_small by (unfold is_u64; lia).
  unfold ngtcp2_rst_on_pkt_sent, ngtcp2_rst_update_app_limited. set (er := mk_ent_rst _ _ _ _ _ _ _). set (rst := mk_rst _ _ _ _ _ _ _ _).
  cbv beta iota zeta. set (rtb1 := set_cc_bytes _ _ _). cbn [app] in HE.
  destruct (rtb_store_ok [] e l [] rtb1 [] p (ksl_elems (rtb_ents (ld_rtb st))) (set_ent_rst er e) Hst') as (heap & -> & Hst2 & _); [done|done|done|].
  cbn [bind]. do 2 eexists. split; [reflexivity|]. split; [|done].
  split; cbn.
  - split; cbn; try done.
    + apply (counts_cons _ _ (set_ent_rst er e)) in Hcn; [|done|cbn; lia|done]. destruct Hcn. split; done.
    + constructor; [done|]. rewrite Forall_forall in *. intros e0 He0. split; cbn; [specialize (Hla e0 He0); lia|].
      intros Hc0. destruct (Hdl e0 He0 Hc0). done.
    + constructor; [|done]. split; cbn; try done; [lia|]. intros El'. unfold is_lost, ent_has in *. cbn in El'. by rewrite El in El'.
    + constructor; [cbn; lia|]. eapply List.Forall_impl; [|exact Hla]. cbn. lia.
    + lia.
    + constructor; [cbn; lia|done].
    + lia.
  - split; [|done]. intros Hv. specialize (Hn1 Hv). specialize (Hw Hv). cbn [sumz].
    change (w_ecn (pe_start_pkt_num (ns_ecn (ld_ns st))) (set_ent_rst er e)) with (w_ecn (pe_start_pkt_num (ns_ecn (ld_ns st))) e).
    unfold add_last_pkt_num, put_ns. cbn. lia.
  - split; cbn; try done.
    + exists hi. split; [by eapply cl_stat|]. change (cost (set_ent_rst er e)) with (cost e). unfold CC_LIMIT. cbn in Hh. lia.
    + change (cost (set_ent_rst er e)) with (cost e). unfold CC_LIMIT. cbn in Hd2. lia.
Qed.

(** ** ECN *)
Lemma ecn_start_le (l : list (ngtcp2_rtb_entry F)) last ecn : Forall (fun e => ent_pkt_num e <= last) l -> last + 1 < 2 ^ 62 ->
  sumz (w_ecn (pe_start_pkt_num (ecn_validate (last + 1) ecn))) l <= sumz (w_ecn (pe_start_pkt_num ecn)) l.
Proof.
  intros Hl Hlast. unfold ecn_validate. cbn. destruct (Z.eqb_spec (pe_start_pkt_num ecn) INT64_MAX) as [->|_]; [|lia].
  rewrite Forall_forall in Hl. apply sumz_le. intros e He. specialize (Hl e He). unfold w_ecn, INT64_MAX.
  rewrite (proj2 (Z.leb_gt (last + 1) _)), (proj2 (Z.leb_gt (2 ^ 63 - 1) _)) by lia. by rewrite !andb_false_r.
Qed.

(** The marking did not change the packets. *)
Definition marked st st' : Prop :=
  ld_rtb st' = ld_rtb st /\ ns_id (ld_ns st') = ns_id (ld_ns st) /\ ns_last_pkt_num (ld_ns st') = ns_last_pkt_num (ld_ns st) /\
  ld_cstat st' = ld_cstat st.

Lemma testing_ok n l b st pi flags start_ts ts :
  ld_inv n l [] b 0 st -> ns_last_pkt_num (ld_ns st) + 1 < 2 ^ 62 -> ce_state (ld_ecn st) = NGTCP2_ECN_STATE_TESTING -> start_ts <> UINT64_MAX ->
  exists st', ecn_testing (put_ecn (mk_conn_ecn (ce_state (ld_ecn st)) start_ts (ce_dgram_sent (ld_ecn st))) st) pi flags
      (ns_last_pkt_num (ld_ns st) + 1) ts = (NGTCP2_ECN_ECT_0, option_map (fun f => Z.lor f NGTCP2_RTB_ENTRY_FLAG_ECN) flags, st') /\
    ld_inv n l [] b 1 st' /\ marked st st'.
Proof.
  intros Hinv Hlast Hstate Hts. eexists. split; [reflexivity|]. split; [|done]. pose proof Hinv as [[_ _ _ _ _ Hla _ _ _ _] [H1 H2] _].
  specialize (H1 (or_introl Hstate)). pose proof (ecn_start_le l _ (ns_ecn (ld_ns st)) Hla Hlast) as Hsum.
  set (ecn := ecn_add_ect0 (ecn_validate (ns_last_pkt_num (ld_ns st) + 1) (ns_ecn (ld_ns st)))).
  set (k := ce_dgram_sent (ld_ecn st) + 1).
  assert (Hok : ecn_ok 1 l ecn (mk_conn_ecn (if k =? NGTCP2_ECN_MAX_NUM_VALIDATION_PKTS then NGTCP2_ECN_STATE_UNKNOWN else ce_state (ld_ecn st)) start_ts k)).
  { split; cbn in *; [intros _; lia|done]. }
  pose proof (ld_inv_ecn mss inv cinv other _ _ _ _ _ _ _ _ (ns_ack_ecn (ld_ns st)) Hinv Hok) as H. by destruct st as [[]].
Qed.

Lemma tx_ecn_ok n l b st flags ts :
  ld_inv n l [] b 0 st -> ns_last_pkt_num (ld_ns st) + 1 < 2 ^ 62 -> ts <> UINT64_MAX ->
  exists pi flags' st' x, conn_handle_tx_ecn st NGTCP2_ECN_NOT_ECT flags (ns_last_pkt_num (ld_ns st) + 1) ts = Ok (pi, flags', st') /\
    ld_inv n l [] b x st' /\ marked st st' /\
    (flags' = flags /\ x = 0 \/ flags' = option_map (fun f => Z.lor f NGTCP2_RTB_ENTRY_FLAG_ECN) flags /\ x = 1).
Proof.
  intros Hinv Hlast Hts. unfold conn_handle_tx_ecn. cbn [Z.eqb NGTCP2_ECN_NOT_ECT negb]. pose proof Hinv as [_ [H1 H2] _].
  destruct (Z.eqb_spec (ce_state (ld_ecn st)) NGTCP2_ECN_STATE_TESTING) as [E|E].
  - destruct (Z.eqb_spec (ce_validation_start_ts (ld_ecn st)) UINT64_MAX) as [E2|E2].
    + destruct (H2 E E2) as [-> ->]. cbn [Z.eqb].
      destruct (testing_ok n l b st NGTCP2_ECN_NOT_ECT flags ts ts Hinv Hlast E Hts) as (st' & -> & Hinv' & Hm).
      eexists _, _, _, 1. split; [reflexivity|]. split; [done|]. split; [done|]. by right.
    + destruct (_ <=? _).
      * eexists _, _, _, 0. split; [reflexivity|]. split; [|split; [done|by left]]. eapply (set_ecn_ok mss inv cinv other); [exact Hinv|].
        split; cbn; [intros _; apply H1; by left|done].
      * destruct (testing_ok n l b st NGTCP2_ECN_NOT_ECT flags (ce_validation_start_ts (ld_ecn st)) ts Hinv Hlast E E2) as (st' & Hrun & Hinv' & Hm).
        assert (Est : put_ecn (mk_conn_ecn (ce_state (ld_ecn st)) (ce_validation_start_ts (ld_ecn st)) (ce_dgram_sent (ld_ecn st))) st = st)
          by by destruct st as [? ? ? ? ? []].
        rewrite Est in Hrun. rewrite Hrun. eexists _, _, _, 1. split; [reflexivity|]. split; [done|]. split; [done|]. by right.
  - destruct (Z.eqb_spec (ce_state (ld_ecn st)) NGTCP2_ECN_STATE_CAPABLE) as [E2|E2].
    + eexists _, _, _, 1. split; [reflexivity|]. split; [|split; [done|by right]].
      assert (Hok : ecn_ok 1 l (ecn_add_ect0 (ns_ecn (ld_ns st))) (ld_ecn st)) by (split; [unfold validating; rewrite E2; by intros [?|?]|by rewrite E2]).
      pose proof (ld_inv_ecn mss inv cinv other _ _ _ _ _ _ _ _ (ns_ack_ecn (ld_ns st)) Hinv Hok) as H. by destruct st as [[]].
    + eexists _, _, _, 0. split; [reflexivity|]. split; [done|]. split; [done|]. by left.
Qed.

(** ** The number of the last packet *)
Lemma set_timer_last st pto ts : set_timer (add_last_pkt_num st) pto ts = let* st := set_timer st pto ts in Ok (add_last_pkt_num st).
Proof.
  unfold set_timer. change (ns_id (ld_ns (add_last_pkt_num st))) with (ns_id (ld_ns st)). change (ld_rtb (add_last_pkt_num st)) with (ld_rtb st).
  destruct (<[_ := _]> pto) as [|p0 [|p1 [|[p2|] [|]]]]; try done.
  change (ld_par (add_last_pkt_num st)) with (ld_par st). change (ld_cstat (add_last_pkt_num st)) with (ld_cstat st).
  by destruct (ngtcp2_conn_set_loss_detection_timer _ _ _ _ _ _).
Qed.

Lemma add_last_ok n l out b x st : ld_inv n l out b x st -> ld_inv n l out b x (add_last_pkt_num st).
Proof.
  intros [[Hst Hrm Hcn Ho He Hla Hcc Hdl Hb Hid] Hecn []]. split; [split|done|split]; try done; cbn.
  - eapply List.Forall_impl; [|exact Hla]. cbn. lia.
  - lia.
Qed.

Lemma probe_ok n l out b x st k : ld_inv n l out b x st -> ld_inv n l out b x (put_rtb (set_probe_pkt_left k (ld_rtb st)) st).
Proof. intros [[Hst Hrm [] Ho He Hla Hcc Hdl Hb Hid] Hecn []]. by split; [split|done|split]. Qed.

Lemma use_probe_ok n l out b x st flags : ld_inv n l out b x (add_last_pkt_num st) -> ld_inv n l out b x (add_last_pkt_num (use_probe st flags)).
Proof. intros H. unfold use_probe. destruct (_ && _); [|done]. by apply (probe_ok _ _ _ _ _ _ (probe_pkt_left (ld_rtb st) - 1)) in H. Qed.

(** ** The packet is tracked *)
Lemma on_pkt_sent_ok n l b x st pto p e :
  ld_inv (Datatypes.S n) l [(p, e)] b x st -> 0 <= b -> new_ent (ns_last_pkt_num (ld_ns st)) e -> pto_ok pto ->
  ent_has e NGTCP2_RTB_ENTRY_FLAG_PTO_RECLAIMED = false ->
  (validating (ld_ecn st) -> w_ecn (pe_start_pkt_num (ns_ecn (ld_ns st))) e <= x) -> 0 <= x ->
  exists st' er, conn_on_pkt_sent cc st pto p = Ok (0, st') /\ ld_inv n (set_ent_rst er e :: l) [] b 0 (add_last_pkt_num st').
Proof.
  intros Hinv Hb Hne Hpto Hr Hw Hx. pose proof Hinv as [[Hst _ _ _ He _ _ _ _ _] _ _]. change (ns_rtb (ld_ns st)) with (ld_rtb st) in *.
  pose proof Hst as [_ _ Hout _ _]. apply Forall_cons in Hout as [Hpe _]. cbn in Hpe. pose proof (ne_pktlen _ _ Hne) as Hlen.
  unfold conn_on_pkt_sent. unfold rtb_load at 1. rewrite Hpe. cbn [bind]. set (elicits := ent_has e _).
  pose proof (cost_pos (mss := mss) (other := other) Hlen) as Hcost. pose proof (costs_pos (mss := mss) (other := other) He) as Hcosts.
  assert (H1 : exists st1, (if elicits then call_cc (on_pkt_sent cc) (mk_cc_pkt (ent_pkt_num e) (ent_pktlen e) (ns_id (ld_ns st)) (ent_ts e) 0 0 false) (ent_ts e) st
      else Ok st) = Ok st1 /\ ld_inv (Datatypes.S n) l [(p, e)] b x st1 /\ ld_ns st1 = ld_ns st /\ ld_ecn st1 = ld_ecn st).
  { destruct elicits; [|by exists st]. rewrite <- (Z.add_0_r b) in Hinv.
    destruct (call_cc_inv (on_pkt_sent cc) (mk_cc_pkt (ent_pkt_num e) (ent_pktlen e) (ns_id (ld_ns st)) (ent_ts e) 0 0 false) (ent_ts e) Hinv)
      as (st1 & -> & Hch & Hinv1); [done|cbn; lia| |].
    { intros hi Hi _. rewrite Z.add_0_r. by apply (cl_pkt_sent (mss := mss) (lo := 1) (inv := inv)). }
    exists st1. split; [done|]. split; [done|]. by destruct Hch as (? & ? & ? & -> & _). }
  destruct H1 as (st1 & -> & Hinv1 & En & Ee). cbn [bind].
  destruct (rtb_add_ok n l b x st1 p e Hinv1 Hb) as (st2 & er & -> & Hinv2 & Eid); [by rewrite En|done|by rewrite En, Ee|done|].
  cbn [bind Z.eqb negb].
  assert (H3 : exists st3, (if elicits then
      let* _ := nth_time (last_tx_pkt_ts (ld_cstat st2)) (ns_id (ld_ns st)) in
      Ok (put_cstat (set_timers (<[Z.to_nat (ns_id (ld_ns st)) := ent_ts e]> (last_tx_pkt_ts (ld_cstat st2))) (loss_detection_timer (ld_cstat st2)) (ld_cstat st2)) st2)
      else Ok st2) = Ok st3 /\ ld_inv n (set_ent_rst er e :: l) [] b 0 (add_last_pkt_num st3)).
  { destruct elicits; [|by exists st2]. pose proof Hinv2 as [[_ _ _ _ _ _ _ _ _ Hid] _ [_ _ _ _ (Ht1 & Ht2 & Ht3) _]].
    destruct (nth_time_ok (last_tx_pkt_ts (ld_cstat st2)) (ns_id (ld_ns st)) Ht2) as [t ->].
    { rewrite <- En, <- Eid. exact Hid. }
    cbn [bind]. eexists. split; [reflexivity|].
    apply (ld_inv_stat (cc := cc) (c := set_timers (<[Z.to_nat (ns_id (ld_ns st)) := ent_ts e]> (last_tx_pkt_ts (ld_cstat st2)))
      (loss_detection_timer (ld_cstat st2)) (ld_cstat st2))) in Hinv2; [exact Hinv2|same_stat]. }
  destruct H3 as (st3 & -> & Hinv3). cbn [bind].
  destruct (timer_ok cc mss inv cinv other _ _ _ _ _ _ pto (ent_ts e) Hinv3 Hpto) as (c & Hrun & Hinv4 & _).
  rewrite set_timer_last in Hrun. destruct (set_timer st3 pto (ent_ts e)) as [st4| |]; try done. cbn [bind] in *.
  exists st4, er. split; [done|]. by replace (add_last_pkt_num st4) with (put_cstat c (add_last_pkt_num st3)) by congruence.
Qed.

Lemma room_ok n l out b x st : ld_inv (Datatypes.S n) l out b x st -> ld_inv n l out b x st.
Proof. intros [[] ? ?]. split; [split|done|done]; try done. unfold ksl_room in *. nia. Qed.

(** An entry that is not ECN was not counted as one. *)
Lemma ecn_less n l b st : ld_inv n l [] b 1 st -> ld_inv n l [] b 0 st.
Proof.
  intros Hinv. pose proof Hinv as [_ [H1 H2] _].
  assert (Hok : ecn_ok 0 l (ns_ecn (ld_ns st)) (ld_ecn st)) by (split; [intros Hv; specialize (H1 Hv); lia|done]).
  pose proof (ld_inv_ecn mss inv cinv other _ _ _ _ _ _ _ _ (ns_ack_ecn (ld_ns st)) Hinv Hok) as H. by destruct st as [[]].
Qed.

Lemma track_ok mem_ok n l b x st e add :
  ld_inv (Datatypes.S n) l [] (b + cost e) x st ->
  (forall p rtb, ld_inv (Datatypes.S n) l [(p, e)] b x (put_rtb rtb st) ->
    exists st' er, add (put_rtb rtb st) p = Ok (0, st') /\ ld_inv n (set_ent_rst er e :: l) [] b 0 (add_last_pkt_num st')) ->
  exists rv st', track_pkt ops mem_ok st e add = Ok (rv, st') /\ (mem_ok = true -> rv = 0) /\ rv <= 0 /\
    (rv = 0 -> exists er, ld_inv n (set_ent_rst er e :: l) [] b 0 (add_last_pkt_num st')).
Proof.
  intros Hinv Hadd. unfold track_pkt. destruct mem_ok; [|by exists NGTCP2_ERR_NOMEM, st].
  destruct (entry_new_ok _ _ _ _ _ _ Hinv) as (rtb & Hnew & Hinv1 & _). rewrite Hnew.
  destruct (Hadd _ _ Hinv1) as (st' & er & -> & Hinv'). cbn [bind Z.eqb]. exists 0, st'. split; [done|]. split; [done|]. split; [done|]. by exists er.
Qed.

(** What is known of a packet that was written. *)
Record sent_ok (pkt : sent_pkt) : Prop := {
  sk_pktlen : 0 <= sp_pktlen pkt;
  sk_lost : has_flag (sp_flags pkt) NGTCP2_RTB_ENTRY_FLAG_LOST_RETRANSMITTED = false;
  sk_reclaimed : has_flag (sp_flags pkt) NGTCP2_RTB_ENTRY_FLAG_PTO_RECLAIMED = false;
  sk_ecn : has_flag (sp_flags pkt) NGTCP2_RTB_ENTRY_FLAG_ECN = false;
  sk_frc : has_flag (sp_flags pkt) NGTCP2_RTB_ENTRY_FLAG_RETRANSMITTABLE = true -> sp_frc pkt <> ([] : list F);
}.

Definition sent_cost (pkt : @sent_pkt F) : Z := 3 * RtbStep.grow mss (sp_pktlen pkt).

Lemma ecn_flag_other (f g : Z) : g ∈ [NGTCP2_RTB_ENTRY_FLAG_LOST_RETRANSMITTED; NGTCP2_RTB_ENTRY_FLAG_PTO_RECLAIMED; NGTCP2_RTB_ENTRY_FLAG_RETRANSMITTABLE] ->
  has_flag (Z.lor f NGTCP2_RTB_ENTRY_FLAG_ECN) g = has_flag f g.
Proof. intros Hg. apply has_flag_lor_other. by repeat (apply elem_of_cons in Hg as [->|Hg]); [..|apply elem_of_nil in Hg]. Qed.

(** [f]: the flags of the packet, perhaps with that for ECN. *)
Lemma written_ent_ok last pkt flags ts :
  sent_ok pkt -> last + 1 < 2 ^ 62 -> flags = sp_flags pkt \/ flags = Z.lor (sp_flags pkt) NGTCP2_RTB_ENTRY_FLAG_ECN ->
  let e := rtb_entry_init (last + 1) (sp_type pkt) (sp_hd_flags pkt) (sp_frc pkt) ts (sp_pktlen pkt) flags in
  new_ent last e /\ ent_has e NGTCP2_RTB_ENTRY_FLAG_PTO_RECLAIMED = false.
Proof.
  intros [Hl Hlost Hrec Hecn Hfrc] Hlast Hf e.
  assert (H : forall g, g ∈ [NGTCP2_RTB_ENTRY_FLAG_LOST_RETRANSMITTED; NGTCP2_RTB_ENTRY_FLAG_PTO_RECLAIMED; NGTCP2_RTB_ENTRY_FLAG_RETRANSMITTABLE] ->
    ent_has e g = has_flag (sp_flags pkt) g).
  { intros g Hg. unfold ent_has. cbn. destruct Hf as [->| ->]; [done|by apply ecn_flag_other]. }
  split; [split; try done|].
  - unfold is_lost. rewrite H; [done|]. rewrite elem_of_cons. by left.
  - rewrite H; [done|]. rewrite !elem_of_cons. auto.
  - rewrite H; [done|]. rewrite !elem_of_cons. auto.
Qed.

Lemma tx_ecn_opt_ok (info : bool) n l b st flags ts :
  ld_inv n l [] b 0 st -> ns_last_pkt_num (ld_ns st) + 1 < 2 ^ 62 -> ts <> UINT64_MAX ->
  exists pi flags' st' x, tx_ecn st (if info then Some NGTCP2_ECN_NOT_ECT else None) flags (ns_last_pkt_num (ld_ns st) + 1) ts = Ok (pi, flags', st') /\
    ld_inv n l [] b x st' /\ marked st st' /\
    (flags' = flags /\ x = 0 \/ flags' = option_map (fun f => Z.lor f NGTCP2_RTB_ENTRY_FLAG_ECN) flags /\ x = 1).
Proof.
  intros Hinv Hlast Hts. destruct info; unfold tx_ecn.
  - destruct (tx_ecn_ok n l b st flags ts Hinv Hlast Hts) as (pi & flags' & st' & x & -> & H). cbn [bind]. by exists (Some pi), flags', st', x.
  - exists None, flags, st, 0. split; [done|]. split; [done|]. split; [done|by left].
Qed.

Lemma pkt_written_ok mem_ok (info : bool) n l b st pto pkt ts :
  ld_inv (Datatypes.S n) l [] (b + sent_cost pkt) 0 st -> 0 <= b -> sent_ok pkt -> pto_ok pto ->
  ns_last_pkt_num (ld_ns st) + 1 < 2 ^ 62 -> ts <> UINT64_MAX ->
  exists rv pi st', pkt_written cc ops mem_ok st pto (if info then Some NGTCP2_ECN_NOT_ECT else None) pkt ts = Ok (rv, pi, st') /\ (mem_ok = true -> rv = 0) /\ rv <= 0 /\
    (rv = 0 -> exists new, ld_inv n (new ++ l) [] b 0 st' /\ live new).
Proof.
  intros Hinv Hb Hok Hpto Hlast Hts. unfold pkt_written. pose proof (sk_pktlen _ Hok) as Hlen.
  pose proof (bd_mss (mss := mss) (other := other)) as Hm. unfold MIN_PAYLOAD in Hm.
  assert (Hcost : 0 <= sent_cost pkt) by (unfold sent_cost, RtbStep.grow; nia).
  destruct (_ || _).
  - destruct (tx_ecn_opt_ok info _ l (b + sent_cost pkt) st (Some (sp_flags pkt)) ts Hinv Hlast Hts) as (pi & flags & st1 & x & -> & Hinv1 & (M1 & M2 & M3 & M4) & Hf).
    cbn [bind]. assert (Hx : 0 <= x <= 1) by (destruct Hf as [[_ ->]|[_ ->]]; lia).
    destruct (written_ent_ok (ns_last_pkt_num (ld_ns st)) pkt (default (sp_flags pkt) flags) ts Hok Hlast) as [Hne Hrec].
    { destruct Hf as [[-> _]|[-> _]]; cbn; auto. }
    set (e := rtb_entry_init _ _ _ _ _ _ _) in *.
    assert (Hw : forall start, w_ecn start e <= x).
    { intros start. pose proof (w_ecn_range start e). destruct Hf as [[-> ->]|[-> ->]]; [|lia].
      unfold w_ecn, e, ent_has. cbn. rewrite (sk_ecn _ Hok), !andb_false_r. done. }
    destruct (track_ok mem_ok n l b x st1 e (fun st p => conn_on_pkt_sent cc st pto p) Hinv1) as (rv & st2 & -> & Hmem & Hrv & Hinv2).
    { intros p rtb Hinv2. apply (on_pkt_sent_ok n l b x _ pto p e Hinv2 Hb); try done; [by cbn; rewrite M3|lia]. }
    cbn [bind]. destruct (Z.eqb_spec rv 0) as [->|Hne0]; cbn [negb]; [|by exists rv, pi, st2].
    eexists 0, pi, _. split; [reflexivity|]. split; [done|]. split; [done|]. intros _. destruct (Hinv2 eq_refl) as [er Hinv3].
    exists [set_ent_rst er e]. split; [by apply use_probe_ok|]. constructor; [|done]. by destruct Hne.
  - assert (Hinv0 : forall st1, ld_inv (Datatypes.S n) l [] (b + sent_cost pkt) 0 st1 -> ld_inv n ([] ++ l) [] b 0 (add_last_pkt_num (use_probe st1 (sp_flags pkt)))).
    { intros st1 H1. apply use_probe_ok, add_last_ok. eapply ld_inv_mono; [|by apply room_ok]. lia. }
    destruct (_ && _); cbn [bind Z.eqb negb].
    + destruct (tx_ecn_opt_ok info _ l (b + sent_cost pkt) st None ts Hinv Hlast Hts) as (pi & flags & st1 & x & Hrun & Hinv1 & Hmk & Hf).
      rewrite Hrun. cbn [bind Z.eqb negb]. eexists 0, pi, _. split; [reflexivity|]. split; [done|]. split; [done|]. intros _. exists []. split; [|constructor].
      apply Hinv0. destruct Hf as [[_ ->]|[_ ->]]; [done|]. by apply ecn_less.
    + eexists 0, _, _. split; [reflexivity|]. split; [done|]. split; [done|]. intros _. exists []. split; [by apply Hinv0|constructor].
Qed.
End Send.
