(* ===== verification/RtbPto.v ===== *)
(** * Packets in flight: probes and early data

    When the probe timeout expires, the frames of the oldest packets are sent
    again; when early data is rejected, its packets are dropped. *)

From S2P Require Import Prelude Const Frame Ksl KslInv KslIter KslSpec Acktr KslStore ConnStat Rst Cc CcSpec Recovery Rtb RtbInv RtbStep RtbAck RtbProcess RtbLose RtbDetect.
From stdpp Require Import list gmap sorting.
#[local] Open Scope Z_scope.

Lemma has_flag_ldiff a b f : Z.land b f = 0 -> has_flag (Z.ldiff a b) f = has_flag a f.
Proof.
  intros H. unfold has_flag. f_equal. f_equal. apply Z.bits_inj_iff'. intros i Hi. rewrite !Z.land_spec, Z.ldiff_spec by done.
  assert (Hb : Z.testbit (Z.land b f) i = false) by by rewrite H, Z.bits_0. rewrite Z.land_spec in Hb.
  destruct (Z.testbit a i), (Z.testbit b i), (Z.testbit f i); done.
Qed.

Lemma has_flag_ldiff_self a f : has_flag (Z.ldiff a f) f = false.
Proof.
  unfold has_flag. apply negb_false_iff, Z.eqb_eq, Z.bits_inj_iff'. intros i Hi. rewrite Z.land_spec, Z.ldiff_spec, Z.bits_0 by done.
  by destruct (Z.testbit a i), (Z.testbit f i).
Qed.

Section Pto.
Context {F S C : Type} (cc : ngtcp2_cc S) (ops : conn_ops F C).
Context (mss : Z) (inv : Z -> S -> ngtcp2_conn_stat -> Prop) {laws : CcLaws cc mss 1 inv}.
Context (cinv : C -> Prop) {app_laws : AppLaws ops mss cinv}.
Context (other : Z) {bounds : Bounds mss other}.
Abbreviation ld_inv := (RtbStep.ld_inv mss inv cinv other).
Abbreviation cost := (RtbStep.cost mss).
Abbreviation state := (ld_state F S C).
Implicit Types (st : state) (e : ngtcp2_rtb_entry F) (l L D lA lB : list (ngtcp2_rtb_entry F)) (it : ngtcp2_ksl_it)
  (b x ts : Z) (n : nat).

(** ** Early data *)
Definition not_early e : bool := negb (ent_type e =? NGTCP2_PKT_0RTT).

Lemma early_data_run n b lB : forall lA fuel st it A B,
  ld_inv n (lA ++ lB) [] b 0 st -> cursor (rtb_ents (ld_rtb st)) it A B -> length lA = length A -> (length lB < fuel)%nat ->
  exists st', early_data_loop ops fuel st it = Ok st' /\ ld_inv n (lA ++ List.filter not_early lB) [] b 0 st'.
Proof.
  induction lB as [|e lB IH]; intros lA fuel st it A B Hinv Hc Hl Hf; (destruct fuel as [|fuel]; [cbn in Hf; lia|]); cbn [early_data_loop].
  - cbn. pose proof Hinv as Hinv0. rewrite app_nil_r in Hinv0. rewrite (cursor_at_end mss inv cinv other _ _ _ _ _ _ _ _ Hinv0 Hc Hl). by exists st.
  - destruct (cursor_next_at mss inv cinv other _ _ _ _ _ _ _ _ _ _ Hinv Hc Hl) as (p & B' & Hat & -> & _ & Hend & Hnext).
    rewrite Hend, Hat. cbn [bind List.filter]. cbn in Hf. fold (not_early e). destruct (not_early e).
    + replace (lA ++ e :: lB) with ((lA ++ [e]) ++ lB) in Hinv by by rewrite <- app_assoc.
      destruct (IH (lA ++ [e]) fuel st _ _ _ Hinv Hnext) as (st' & -> & Hinv'); [by rewrite !length_app, Hl|lia|].
      exists st'. split; [done|]. by rewrite <- app_assoc in Hinv'.
    + destruct (take_out_ok Hinv Hc Hl) as (p' & B'' & rtb1 & c & rtb2 & it' & Hat' & HB & Hrm & Hun & Hinv1 & _ & Hc1 & _ & _).
      rewrite Hat in Hat'. injection Hat' as <-. injection HB as <-. rewrite Hrm. cbn [bind]. rewrite Hun. cbn [bind].
      assert (Hlen : 0 <= ent_pktlen e).
      { pose proof (inv_ents mss inv cinv other _ _ _ _ _ Hinv) as He. rewrite Forall_forall in He. apply (He e), elem_of_middle. }
      destruct (del_ok Hinv1) as (st3 & -> & Hinv3 & Hr3 & _ & _). cbn [bind].
      apply (IH lA fuel st3 it' A B'); [|by rewrite Hr3|done|lia].
      eapply ld_inv_mono; [|exact Hinv3]. pose proof (cost_pos (mss := mss) (other := other) Hlen). lia.
Qed.

Lemma remove_early_data_ok n l b st : ld_inv n l [] b 0 st ->
  exists st', ngtcp2_rtb_remove_early_data ops st = Ok st' /\ ld_inv n (List.filter not_early l) [] b 0 st'.
Proof.
  intros Hinv. unfold ngtcp2_rtb_remove_early_data. pose proof Hinv as [[Hst _ _ _ _ _ _ _ _ _] _ _].
  change (ns_rtb (ld_ns st)) with (ld_rtb st) in Hst.
  apply (early_data_run n b l [] _ st _ [] (ksl_elems (rtb_ents (ld_rtb st))) Hinv); [|done|].
  - eapply cursor_begin. exact (ks_wf _ _ _ _ _ _ Hst).
  - rewrite (entries_fuel_ok mss inv cinv other _ _ _ _ _ _ Hinv). lia.
Qed.

(** ** Retry *)

(** What can be reclaimed when a Retry packet arrives: nothing is lost yet. *)
Definition retry_ok e : Prop :=
  is_lost e = false /\ ent_has e NGTCP2_RTB_ENTRY_FLAG_PROBE = false /\ ent_has e NGTCP2_RTB_ENTRY_FLAG_PMTUD_PROBE = false.

Lemma retry_counts l (rtb : ngtcp2_rtb F) : counts l rtb -> Forall retry_ok l -> num_lost_pkts rtb = 0 /\ num_lost_ignore_pkts rtb = 0.
Proof.
  intros [_ _ _ -> -> _] H. split.
  - induction H as [|e l (El & _) _ IH]; [done|]. cbn. unfold w_lost at 1. by rewrite El, IH.
  - induction H as [|e l (El & _) _ IH]; [done|]. cbn. unfold w_ignore at 1. by rewrite El, IH.
Qed.

(** An entry that was taken out gets other frames. *)
Lemma store_out_ok n l p e b x st frc :
  ld_inv n l [(p, e)] b x st ->
  exists heap, rtb_store (ld_rtb st) p (set_ent_frc frc e) = Ok (set_store heap (rtb_next (ld_rtb st)) (rtb_ents (ld_rtb st)) (ld_rtb st)) /\
    ld_inv n l [(p, set_ent_frc frc e)] b x (put_rtb (set_store heap (rtb_next (ld_rtb st)) (rtb_ents (ld_rtb st)) (ld_rtb st)) st).
Proof.
  intros [[Hst Hrm [] Ho He Hla Hcc Hdl Hb Hid] Hecn Hs]. change (ns_rtb (ld_ns st)) with (ld_rtb st) in *.
  pose proof Hst as [_ _ Hout _ _]. apply Forall_cons in Hout as [Hp _]. cbn in Hp. unfold rtb_store, rtb_load. rewrite Hp. cbn [bind].
  eexists. split; [reflexivity|]. apply kstore_change_out with (e' := set_ent_frc frc e) in Hst. split; cbn; [by split; [| |split|..]|done|].
  apply sh_rtb. exact Hs.
Qed.

Lemma retry_run n b x : forall l fuel st it,
  ld_inv n l [] b x st -> Forall retry_ok l -> 0 <= b -> cursor (rtb_ents (ld_rtb st)) it [] (ksl_elems (rtb_ents (ld_rtb st))) -> (length l < fuel)%nat ->
  exists rv st', retry_loop ops fuel st it = Ok (rv, st') /\ rv <= 0 /\ (rv = 0 -> ld_inv n [] [] b x st').
Proof.
  induction l as [|e l IH]; intros fuel st it Hinv Hok Hb Hc Hf; (destruct fuel as [|fuel]; [cbn in Hf; lia|]); cbn [retry_loop].
  - rewrite (cursor_at_end mss inv cinv other _ _ _ _ _ _ _ _ Hinv Hc eq_refl). by exists 0, st.
  - destruct (cursor_next_at mss inv cinv other _ [] _ _ _ _ _ _ _ _ Hinv Hc eq_refl) as (p & B' & Hat & HB & _ & Hend & _).
    rewrite Hend, Hat. cbn [bind].
    destruct (take_out_ok (lA := []) Hinv Hc eq_refl) as (p' & B'' & rtb1 & c & rtb2 & it' & Hat' & HB' & Hrm & Hun & Hinv1 & _ & Hc1 & _ & _).
    rewrite Hat in Hat'. injection Hat' as <-. rewrite HB in HB'. injection HB' as <-. rewrite Hrm. cbn [bind]. rewrite Hun. cbn [bind app] in *.
    apply Forall_cons in Hok as [(El & Ep & Em) Hok]. set (st1 := put_rtb rtb2 (put_cstat c st)) in *.
    pose proof Hinv1 as [[_ _ Hcn _ _ _ _ _ _ _] _ _]. change (ns_rtb (ld_ns st1)) with rtb2 in Hcn.
    destruct (retry_counts _ _ Hcn Hok) as [E1 E2]. unfold retry_entry_ok. fold (is_lost e). rewrite El, Ep, Em, E1, E2. cbn [negb andb Z.eqb].
    assert (Hlen : 0 <= ent_pktlen e).
    { pose proof (inv_ents mss inv cinv other _ _ _ _ _ Hinv) as He. apply Forall_cons in He as [[] _]. done. }
    pose proof (cost_pos (mss := mss) (other := other) Hlen) as Hcost.
    assert (Hnext : forall e1 st2, ld_inv n l [(p, e1)] b x st2 -> ent_pktlen e1 = ent_pktlen e -> rtb_ents (ld_rtb st2) = rtb_ents rtb2 ->
      exists st3, ngtcp2_rtb_entry_objalloc_del ops st2 p = Ok st3 /\ ld_inv n l [] b x st3 /\
        cursor (rtb_ents (ld_rtb st3)) it' [] (ksl_elems (rtb_ents (ld_rtb st3)))).
    { intros e1 st2 Hinv2 El1 Ee. destruct (del_ok Hinv2) as (st3 & Hrun & Hinv3 & Hr3 & _ & _). exists st3. split; [done|]. split.
      - eapply ld_inv_mono; [|exact Hinv3]. unfold RtbStep.cost in *. rewrite El1. lia.
      - rewrite Hr3. cbn. rewrite Ee. pose proof (cursor_elems _ _ _ _ Hc1) as E. cbn in E. by rewrite E. }
    destruct (retry_drop ops e).
    + destruct (Hnext e st1 Hinv1 eq_refl eq_refl) as (st3 & -> & Hinv3 & Hc3). cbn [bind]. apply (IH fuel st3 it' Hinv3 Hok Hb Hc3). cbn in Hf. lia.
    + pose proof Hinv1 as [_ _ [_ _ _ Ha _ _]].
      destruct (al_retry (ops := ops) (ld_app st1) (ent_frc e) Ha) as (rv & frc & app & -> & Hrv & Ha'). cbn [bind].
      destruct (store_out_ok _ _ _ _ _ _ _ frc Hinv1) as (heap & Hst & Hinv2). change (ld_rtb st1) with rtb2 in Hst, Hinv2. rewrite Hst. cbn [bind].
      pose proof (ld_inv_app Hinv2 Ha') as Hinv2'.
      destruct (Hnext _ _ Hinv2' eq_refl eq_refl) as (st3 & -> & Hinv3 & Hc3). cbn [bind].
      destruct (Z.eqb_spec rv 0) as [->|Hne]; cbn [negb]; [|by exists rv, st3].
      apply (IH fuel st3 it' Hinv3 Hok Hb Hc3). cbn in Hf. lia.
Qed.

Lemma reclaim_on_retry_ok n l b st : ld_inv n l [] b 0 st -> Forall retry_ok l -> 0 <= b ->
  exists rv st', ngtcp2_rtb_reclaim_on_retry ops st = Ok (rv, st') /\ rv <= 0 /\ (rv = 0 -> ld_inv n [] [] b 0 st').
Proof.
  intros Hinv Hok Hb. unfold ngtcp2_rtb_reclaim_on_retry. pose proof Hinv as [[Hst _ _ _ _ _ _ _ _ _] _ _].
  change (ns_rtb (ld_ns st)) with (ld_rtb st) in Hst. apply (retry_run n b 0 l _ st _ Hinv Hok Hb).
  - eapply cursor_begin. exact (ks_wf _ _ _ _ _ _ Hst).
  - rewrite (entries_fuel_ok mss inv cinv other _ _ _ _ _ _ Hinv). lia.
Qed.

(** ** All entries are released *)
Lemma free_entries_run ents B : forall fuel st it A,
  ksl_wf ngtcp2_ksl_int64_greater ents -> rtb_ents (ld_rtb st) = ents -> cursor ents it A B -> cinv (ld_app st) -> NoDup B.*2 ->
  (forall p, p ∈ B.*2 -> is_Some (rtb_heap (ld_rtb st) !! p)) -> (length B < fuel)%nat ->
  exists st', free_entries ops fuel st it = Ok st' /\ forall p, rtb_heap (ld_rtb st') !! p = if decide (p ∈ B.*2) then None else rtb_heap (ld_rtb st) !! p.
Proof.
  induction B as [|[k p] B IH]; intros fuel st it A Hwf He Hc Ha Hnd Hlv Hf; (destruct fuel as [|fuel]; [lia|]); cbn [free_entries].
  - rewrite He, (cursor_it_end _ _ _ _ Hc). exists st. split; [done|]. intros p. by rewrite decide_False by (by intros ?%elem_of_nil).
  - rewrite He, (cursor_it_end _ _ _ _ Hc). cbn [bool_decide]. rewrite bool_decide_eq_false_2 by done. rewrite (cursor_it_get _ _ _ _ _ Hc). cbn [bind snd].
    cbn in Hnd, Hf. apply NoDup_cons in Hnd as [Hp Hnd]. unfold ngtcp2_rtb_entry_objalloc_del, rtb_load.
    destruct (Hlv p) as [e Hpe]; [by left|]. rewrite Hpe. cbn [bind].
    destruct (al_del (ops := ops) (ld_app st) (ent_frc e) Ha) as (app & -> & Ha'). cbn [bind].
    set (st1 := put_app app _). edestruct (IH fuel st1) as (st' & Hrun & Hh); [done|exact He|by eapply cursor_next|exact Ha'|done| |lia|].
    { intros q Hq. unfold st1, ld_rtb. cbn. rewrite lookup_delete_ne by (intros ->; done). apply Hlv. by right. }
    exists st'. split; [exact Hrun|]. intros q. rewrite Hh. unfold st1, ld_rtb at 1. cbn. destruct (decide (q = p)) as [->|Hne].
    + rewrite (decide_False (P := p ∈ B.*2)), decide_True, lookup_delete_eq by (done || by left). done.
    + rewrite lookup_delete_ne by done. destruct (decide (q ∈ B.*2)); [rewrite decide_True by (by right); done|].
      rewrite decide_False; [done|]. by intros [?|?]%elem_of_cons.
Qed.

(** Nothing is left. *)
Lemma free_ok n l b st : ld_inv n l [] b 0 st -> exists st', ngtcp2_rtb_free ops st = Ok st' /\ rtb_heap (ld_rtb st') = ∅.
Proof.
  intros [[Hst _ _ _ _ _ _ _ _ _] _ [_ _ _ Ha _ _]]. change (ns_rtb (ld_ns st)) with (ld_rtb st) in Hst.
  pose proof Hst as [Hwf [Hrep Hnd] _ _ Hlv]. unfold ngtcp2_rtb_free.
  edestruct (free_entries_run (rtb_ents (ld_rtb st)) (ksl_elems (rtb_ents (ld_rtb st))) (entries_fuel st) st) as (st' & -> & Hh);
    [done|done|by eapply cursor_begin|done|done| | |].
  - intros p Hp. apply list_elem_of_fmap in Hp as (y & -> & Hy). apply list_elem_of_lookup_1 in Hy as [i Hi].
    destruct (Forall2_lookup_l _ _ _ _ _ Hrep Hi) as (e & _ & _ & Hp). by eexists.
  - unfold entries_fuel. rewrite (kstore_len _ _ _ _ _ _ Hst). apply Forall2_length in Hrep. lia.
  - exists st'. split; [done|]. apply map_eq. intros p. rewrite lookup_empty, Hh. destruct (decide _) as [|Hno]; [done|].
    destruct (rtb_heap (ld_rtb st) !! p) eqn:E; [|done]. destruct (Hlv p) as [_ Hin]; [by eexists|]. cbn in Hin. by rewrite app_nil_r in Hin.
Qed.

(** ** Probes *)

(** The frames of [e] were reclaimed. *)
Definition probed e e' : Prop :=
  exists frc, e' = set_ent_lost (Z.ldiff (Z.lor (ent_flags e) NGTCP2_RTB_ENTRY_FLAG_PTO_RECLAIMED) NGTCP2_RTB_ENTRY_FLAG_PTO_ELICITING)
    (ent_lost_ts e) (set_ent_frc frc e) /\ (ent_frc e <> [] -> frc <> []).

Lemma probed_flag e e' f : probed e e' -> Z.land NGTCP2_RTB_ENTRY_FLAG_PTO_RECLAIMED f = 0 -> Z.land NGTCP2_RTB_ENTRY_FLAG_PTO_ELICITING f = 0 ->
  ent_has e' f = ent_has e f.
Proof. intros (frc & -> & _) H1 H2. unfold ent_has. cbn. by rewrite has_flag_ldiff, has_flag_lor_other. Qed.

Lemma probed_lost e e' : probed e e' -> is_lost e' = is_lost e.
Proof. intros H. by apply (probed_flag _ _ _ H). Qed.

Lemma probed_eliciting e e' : probed e e' -> ent_has e' NGTCP2_RTB_ENTRY_FLAG_PTO_ELICITING = false.
Proof. intros (frc & -> & _). apply has_flag_ldiff_self. Qed.

Lemma probed_reclaimed e e' : probed e e' -> ent_has e' NGTCP2_RTB_ENTRY_FLAG_PTO_RECLAIMED = true.
Proof. intros (frc & -> & _). unfold ent_has. cbn. rewrite has_flag_ldiff by done. by apply has_flag_lor_self. Qed.

Lemma probed_ok largest e e' : probed e e' -> ent_ok largest e -> ent_ok largest e'.
Proof.
  intros Hp [H1 H2 H3 H4 H5]. pose proof (probed_lost _ _ Hp) as El.
  pose proof (probed_flag _ _ NGTCP2_RTB_ENTRY_FLAG_RETRANSMITTABLE Hp eq_refl eq_refl) as Er.
  destruct Hp as (frc & -> & Hfrc). split; try done; rewrite ?El, ?Er; try done. cbn. auto.
Qed.

(** The counters after a packet was reclaimed. *)
Lemma counts_probed lA e lB e' (rtb : ngtcp2_rtb F) :
  counts (lA ++ e :: lB) rtb -> probed e e' -> pto_skip e = false ->
  decrease true (num_retransmittable rtb) = Ok (num_retransmittable rtb - 1) /\
  decrease (ent_has e NGTCP2_RTB_ENTRY_FLAG_PTO_ELICITING) (num_pto_eliciting rtb) =
    Ok (num_pto_eliciting rtb - Z.b2z (ent_has e NGTCP2_RTB_ENTRY_FLAG_PTO_ELICITING)) /\
  counts (lA ++ e' :: lB) (set_counts (num_ack_eliciting rtb) (num_retransmittable rtb - 1)
    (num_pto_eliciting rtb - Z.b2z (ent_has e NGTCP2_RTB_ENTRY_FLAG_PTO_ELICITING)) rtb).
Proof.
  intros [H1 H2 H3 H4 H5 H6] Hp Hs. apply orb_false_iff in Hs as [Hs Hr%negb_false_iff]. apply orb_false_iff in Hs as [El Ec]. fold (is_lost e) in El.
  pose proof (probed_lost _ _ Hp) as El'. pose proof (probed_eliciting _ _ Hp) as Ee'. pose proof (probed_reclaimed _ _ Hp) as Er'.
  pose proof (probed_flag _ _ NGTCP2_RTB_ENTRY_FLAG_ACK_ELICITING Hp eq_refl eq_refl) as Ea'.
  assert (W2 : w_retr e = 1) by (unfold w_retr; by rewrite El, Ec, Hr). assert (W2' : w_retr e' = 0) by (unfold w_retr; by rewrite Er', !andb_false_r).
  assert (W3 : w_pto e = Z.b2z (ent_has e NGTCP2_RTB_ENTRY_FLAG_PTO_ELICITING)) by (unfold w_pto; by rewrite El).
  assert (W3' : w_pto e' = 0) by (unfold w_pto; by rewrite Ee', andb_false_r).
  pose proof (sumz_nonneg w_retr (lA ++ lB) (fun e _ => proj1 (proj2 (w_nonneg e)))) as N2.
  pose proof (sumz_nonneg w_pto (lA ++ lB) (fun e _ => proj1 (proj2 (proj2 (w_nonneg e))))) as N3.
  rewrite !sumz_middle in *. split_and!.
  - rewrite decrease_ok; [done|]. intros _. lia.
  - apply decrease_ok. intros E. rewrite E in *. cbn in W3. lia.
  - assert (W1 : w_ack e' = w_ack e) by (unfold w_ack; by rewrite El', Ea').
    assert (W4 : w_lost e' = w_lost e) by (unfold w_lost; by rewrite El'). assert (W5 : w_ignore e' = w_ignore e) by (unfold w_ignore; by rewrite El', El).
    assert (W6 : w_bytes (cc_pkt_num rtb) e' = w_bytes (cc_pkt_num rtb) e).
    { unfold w_bytes. rewrite El'. by destruct Hp as (frc & -> & _). }
    split; cbn; rewrite sumz_middle; lia.
Qed.

Lemma mark_ok n lA e lB b x st A p B :
  ld_inv n (lA ++ e :: lB) [] b x st -> ksl_elems (rtb_ents (ld_rtb st)) = A ++ (ent_pkt_num e, p) :: B -> length lA = length A -> pto_skip e = false ->
  exists st' e', mark_reclaimed st p e = Ok st' /\ probed e e' /\ ld_inv n (lA ++ e' :: lB) [] b x st' /\ rtb_ents (ld_rtb st') = rtb_ents (ld_rtb st).
Proof.
  intros Hinv HE Hl Hs. set (e' := set_ent_lost (Z.ldiff (Z.lor (ent_flags e) NGTCP2_RTB_ENTRY_FLAG_PTO_RECLAIMED) NGTCP2_RTB_ENTRY_FLAG_PTO_ELICITING)
    (ent_lost_ts e) e).
  assert (Hp : probed e e') by (exists (ent_frc e); split; [by destruct e|done]).
  pose proof (mid_of_inv mss inv cinv other _ _ _ _ _ Hinv) as Hmid. pose proof Hinv as [[_ _ Hcn _ He _ _ _ _ _] _ _].
  change (ns_rtb (ld_ns st)) with (ld_rtb st) in *. apply Forall_app in He as [_ [Heok _]%Forall_cons].
  destruct (counts_probed _ _ _ e' _ Hcn Hp Hs) as (D1 & D2 & _).
  destruct (mid_store mss inv cinv other n lA e lB _ _ _ _ st A p B e' Hmid HE Hl) as (heap & Hrun & Hmid'); [done|done|done|by eapply probed_ok|].
  unfold mark_reclaimed. rewrite D1. cbn [bind]. rewrite has_flag_lor_other by done. fold (ent_has e NGTCP2_RTB_ENTRY_FLAG_PTO_ELICITING). rewrite D2. cbn [bind].
  fold e'. rewrite Hrun. cbn [bind]. do 2 eexists. split; [reflexivity|]. split; [exact Hp|]. split; [|done].
  apply (inv_of_mid mss inv cinv other). destruct Hmid' as [Hst Hrm Hc Ho He Hla Hcc Hdl Hb Hid [Hn1 Hn2] Hsh].
  split; try done.
  - eapply counts_ext; [exact (proj2 (proj2 (counts_probed _ _ _ e' _ Hc Hp Hs)))|..]; done.
  - split; [|done]. intros Hv. specialize (Hn1 Hv). rewrite sumz_middle in *.
    assert (Ew : forall start, w_ecn start e' = w_ecn start e); [|cbn in *; rewrite Ew; lia].
    intros start. unfold w_ecn. rewrite (probed_lost _ _ Hp), (probed_flag _ _ NGTCP2_RTB_ENTRY_FLAG_ECN Hp) by done. done.
  - destruct Hsh as [? ? ? ? ? ?]. by split.
Qed.

(** The packets before and after: some were reclaimed, and not more than
    [k] had frames that are to be sent again. *)
Definition maybe_probed e e' : Prop := e' = e \/ (probed e e' /\ pto_skip e = false).

Lemma maybe_refl l : Forall2 maybe_probed l l.
Proof. induction l; constructor; [by left|done]. Qed.

Lemma probed_reframed e e1 e' : reframed e e1 -> probed e1 e' -> probed e e'.
Proof. intros (frc & -> & H1) (frc' & -> & H2). exists frc'. split; [done|]. auto. Qed.

Lemma mid_reframed n lA e e1 lB ign b x st :
  mid_inv mss inv cinv other n (lA ++ e1 :: lB) (lA ++ e :: lB) ign b x st -> reframed e e1 ->
  mid_inv mss inv cinv other n (lA ++ e1 :: lB) (lA ++ e1 :: lB) ign b x st.
Proof.
  intros [? ? [H1 H2 H3 H4 H5 H6] ? ? ? ? ? ? ? [Hn1 Hn2] ?] (frc & -> & _). rewrite sumz_middle in H1, H2, H3, H4, H5, H6.
  split; try done.
  - split; rewrite sumz_middle; done.
  - split; [|done]. intros Hv. specialize (Hn1 Hv). rewrite sumz_middle in Hn1 |- *. done.
Qed.

Lemma pto_loop_run n b lA : forall lB fuel st it A B k,
  ld_inv n (lA ++ lB) [] b 0 st -> cursor (rtb_ents (ld_rtb st)) it A B -> length lA = length A -> (length lA < fuel)%nat -> 0 <= k ->
  exists r st' lA', pto_loop ops fuel st it k = Ok (r, st') /\ r <= k /\ (0 <= r -> ld_inv n (lA' ++ lB) [] b 0 st' /\ Forall2 maybe_probed lA lA').
Proof.
  induction lA as [|e lA IH] using rev_ind; intros lB fuel st it A B k Hinv Hc Hl Hf Hk; (destruct fuel as [|fuel]; [lia|]); cbn [pto_loop];
    pose proof Hinv as [[Hst _ _ _ _ _ _ _ _ _] _ _]; change (ns_rtb (ld_ns st)) with (ld_rtb st) in Hst.
  - symmetry in Hl. apply length_zero_iff_nil in Hl as ->. rewrite (cursor_it_begin _ _ _ _ _ (ks_wf _ _ _ _ _ _ Hst) Hc). cbn.
    exists k, st, []. split; [done|]. split; [lia|done].
  - rewrite !length_app in *. cbn in Hl, Hf. destruct A as [|y A _] using rev_ind; [cbn in Hl; lia|]. rewrite length_app in Hl. cbn in Hl.
    rewrite (cursor_it_begin _ _ _ _ _ (ks_wf _ _ _ _ _ _ Hst) Hc), bool_decide_eq_false_2 by by destruct A. cbn [orb].
    destruct (Z.eqb_spec k 0) as [->|Hk0].
    { exists 0, st, (lA ++ [e]). split; [done|]. split; [done|]. intros _. split; [done|]. apply maybe_refl. }
    destruct (cursor_prev _ _ _ _ _ _ (ks_wf _ _ _ _ _ _ Hst) Hc) as (it1 & -> & Hc1). cbn [bind].
    rewrite <- app_assoc in Hinv, Hst. cbn [app] in *.
    destruct (rtb_ent_at_ok _ _ _ _ _ _ _ _ Hst Hc1) as (p & B' & HB & Hp & -> & _ & _); [lia|]. injection HB as -> <-. cbn [bind].
    destruct (pto_skip e) eqn:Es.
    { destruct (IH (e :: lB) fuel st it1 A ((ent_pkt_num e, p) :: B) k Hinv Hc1) as (r & st' & lA' & -> & Hr & Hok); [lia|lia|done|].
      exists r, st', (lA' ++ [e]). split; [done|]. split; [done|]. intros H0. destruct (Hok H0) as [Hinv' HF]. rewrite <- app_assoc. split; [done|].
      apply Forall2_app; [done|]. constructor; [by left|constructor]. }
    pose proof Es as Es'. apply orb_false_iff in Es' as [_ Hr%negb_false_iff].
    assert (Hfrc : ent_frc e <> []).
    { pose proof (inv_ents mss inv cinv other _ _ _ _ _ Hinv) as He. rewrite Forall_forall in He. destruct (He e (elem_of_middle _ _ _)). auto. }
    rewrite bool_decide_eq_false_2 by (intros E; by apply length_zero_iff_nil in E). cbn [negb].
    pose proof (cursor_elems _ _ _ _ Hc1) as HE. assert (HlA : length lA = length A) by lia.
    destruct (reclaim_ok ops mss inv cinv other n lA e lB _ _ _ _ st A p B false (mid_of_inv mss inv cinv other _ _ _ _ _ Hinv) HE HlA Hr)
      as (j & st1 & e1 & -> & Hmid & Href & _ & _ & He1 & _). cbn [bind].
    destruct (Z.ltb_spec j 0) as [Hj|Hj]; [exists j, st1, []; split; [done|split; lia]|].
    assert (Hinv1 : ld_inv n (lA ++ e1 :: lB) [] b 0 st1).
    { apply (inv_of_mid mss inv cinv other). by eapply mid_reframed. }
    assert (Es1 : pto_skip e1 = false) by by destruct Href as (frc & -> & _).
    assert (HE1 : ksl_elems (rtb_ents (ld_rtb st1)) = A ++ (ent_pkt_num e1, p) :: B) by (rewrite He1; by destruct Href as (frc & -> & _)).
    destruct (mark_ok n lA e1 lB b 0 st1 A p B Hinv1 HE1 HlA Es1) as (st2 & e2 & -> & Hpr & Hinv2 & He2). cbn [bind].
    destruct (IH (e2 :: lB) fuel st2 it1 A ((ent_pkt_num e, p) :: B) (if j =? 0 then k else k - 1) Hinv2) as (r & st' & lA' & -> & Hrk & Hok);
      [by rewrite He2, He1|lia|lia|destruct (j =? 0); lia|].
    exists r, st', (lA' ++ [e2]). split; [done|]. split; [destruct (j =? 0); lia|]. intros H0. destruct (Hok H0) as [Hinv' HF]. rewrite <- app_assoc. split; [done|].
    apply Forall2_app; [done|]. constructor; [|constructor]. right. split; [by eapply probed_reframed|done].
Qed.

Lemma maybe_live L L' : Forall2 maybe_probed L L' -> live L -> live L'.
Proof.
  induction 1 as [|e e' L L' He _ IH]; intros H; [constructor|]. apply Forall_cons in H as [El H]. constructor; [|by apply IH].
  destruct He as [->|[Hp _]]; [done|]. by rewrite (probed_lost _ _ Hp).
Qed.

Lemma maybe_dead D D' : Forall2 maybe_probed D D' -> dead D -> D' = D.
Proof.
  induction 1 as [|e e' D D' He _ IH]; intros H; [done|]. apply Forall_cons in H as [El H]. rewrite IH by done.
  destruct He as [->|[_ Hs]]; [done|]. unfold pto_skip in Hs. fold (is_lost e) in Hs. by rewrite El in Hs.
Qed.

Lemma reclaim_on_pto_ok n L D b st k : live L -> dead D -> 0 <= k -> ld_inv n (L ++ D) [] b 0 st ->
  exists r st', ngtcp2_rtb_reclaim_on_pto ops st k = Ok (r, st') /\
    (0 <= r -> exists L', ld_inv n (L' ++ D) [] b 0 st' /\ live L' /\ Forall2 maybe_probed L L').
Proof.
  intros HL HD Hk Hinv. unfold ngtcp2_rtb_reclaim_on_pto. pose proof Hinv as [[Hst _ _ _ _ _ _ _ _ _] _ _].
  change (ns_rtb (ld_ns st)) with (ld_rtb st) in Hst. pose proof (cursor_end _ _ (ks_wf _ _ _ _ _ _ Hst)) as Hc.
  rewrite <- (app_nil_r (L ++ D)) in Hinv.
  destruct (pto_loop_run n b (L ++ D) [] (entries_fuel st) st _ _ [] k Hinv Hc) as (r & st' & l' & -> & Hr & Hok).
  { rewrite <- (kstore_len _ _ _ _ _ _ Hst). unfold ngtcp2_ksl_len. by destruct (ks_wf _ _ _ _ _ _ Hst) as [_ _ ->]. }
  { rewrite (entries_fuel_ok mss inv cinv other _ _ _ _ _ _ Hinv), app_nil_r. lia. } { done. }
  cbn [bind]. do 2 eexists. split; [reflexivity|]. destruct (Z.ltb_spec r 0) as [H0|H0]; [intros; lia|]. intros _.
  destruct (Hok H0) as [Hinv' HF]. rewrite app_nil_r in Hinv'. apply Forall2_app_inv_l in HF as (L' & D' & HFL & HFD & ->).
  apply maybe_dead in HFD as ->; [|done]. exists L'. split; [done|]. split; [by eapply maybe_live|done].
Qed.
End Pto.
