(* ===== verification/RtbRun.v ===== *)
(** * Loss detection: every sequence of events

    The events that reach a packet number space, and what holds in every
    state they lead to. *)

From S2P Require Import Prelude Const Frame FrameSafe PktAux Ringbuf Ksl KslInv KslIter KslSpec KslMap Acktr KslStore AcktrSpec ConnStat Rst Cc CcSpec Recovery Rtb RtbInv RtbStep RtbAck RtbProcess RtbLose RtbDetect RtbRecv RtbConn RtbOps RtbSend RtbPto.
From stdpp Require Import list gmap sorting.
#[local] Open Scope Z_scope.

Lemma sorted_ext_in {A : Type} (R R' : A -> A -> Prop) l :
  (forall y z, y ∈ l -> z ∈ l -> R y z -> R' y z) -> StronglySorted R l -> StronglySorted R' l.
Proof.
  intros H Hs. induction Hs as [|y l _ IH Hf]; constructor.
  - apply IH. intros. apply H; [by right..|done].
  - rewrite Forall_forall in *. intros z Hz. apply H; [by left|by right|by apply Hf].
Qed.

Section Stat.
Implicit Types (c : ngtcp2_conn_stat).
Lemma window_window w t s w' t' s' c : set_window w t s (set_window w' t' s' c) = set_window w t s c.
Proof. done. Qed.
Lemma window_pacing w t s i q c : set_window w t s (set_pacing i q c) = set_pacing i q (set_window w t s c).
Proof. done. Qed.
Lemma window_rate w t s r c : set_window w t s (set_delivery_rate r c) = set_delivery_rate r (set_window w t s c).
Proof. done. Qed.
Lemma window_bytes w t s n c : set_window w t s (set_bytes_in_flight n c) = set_bytes_in_flight n (set_window w t s c).
Proof. done. Qed.

Lemma reset_stat_window irtt payload w t s c :
  let c1 := conn_reset_conn_stat_cc irtt payload c in
  set_window (ngtcp2_cc_compute_initcwnd payload) UINT64_MAX UINT64_MAX (set_window w t s c1) = c1.
Proof. unfold conn_reset_conn_stat_cc. cbv zeta. by rewrite window_window, window_pacing, window_rate, window_bytes, window_window. Qed.
End Stat.

Section Callers.
Context {F S C : Type} (cc : ngtcp2_cc S) (ops : conn_ops F C).
Context (mss : Z) (inv : Z -> S -> ngtcp2_conn_stat -> Prop) {laws : CcLaws cc mss 1 inv}.
Context (cinv : C -> Prop) {app_laws : AppLaws ops mss cinv}.
Context (other : Z) {bounds : Bounds mss other}.
Abbreviation ld_inv := (RtbStep.ld_inv mss inv cinv other).
Abbreviation cost := (RtbStep.cost mss).
Abbreviation state := (ld_state F S C).
Implicit Types (st : state) (e : ngtcp2_rtb_entry F) (l L D : list (ngtcp2_rtb_entry F)) (b x ts : Z) (n : nat) (pto : list (option Z))
  (fr : ngtcp2_ack) (acktr : ngtcp2_acktr).

(** ** The callers *)

(** The packets are in two groups: those that are not lost, and those that
    are. *)
Definition split_inv n b st : Prop := exists L D, ld_inv n (L ++ D) [] b 0 st /\ live L /\ dead D.

Lemma on_loss_time_ok n b st pto ts : split_inv n b st -> 0 <= b -> pto_ok pto ->
  exists rv st', on_loss_time cc ops st pto ts = Ok (rv, st') /\ (0 <= rv -> split_inv n b st').
Proof.
  intros (L & D & Hinv & HL & HD) Hb Hpto. unfold on_loss_time, ngtcp2_rtb_detect_lost_pkt.
  destruct (detect_run cc ops mss inv cinv other n L D b st empty_cc_ack ts Hb HL HD Hinv) as (k & rv & st1 & ack & _ & -> & Hrv & Hok). cbn [bind].
  destruct (Z.eqb_spec rv 0) as [->|Hne]; cbn [negb]; [|exists rv, st1; split; [done|intros; destruct Hrv; lia]].
  destruct (Hok eq_refl) as (_ & _ & L' & D' & _ & HL' & HD' & Hinv').
  destruct (timer_ok cc mss inv cinv other _ _ _ _ _ _ pto ts Hinv' Hpto) as (c & -> & Hinv2 & _). cbn [bind].
  do 2 eexists. split; [reflexivity|]. intros _. by exists L', D'.
Qed.

Lemma on_pto_expiry_ok n b st pto probes ts : split_inv n b st -> pto_ok pto -> pto_count (ld_cstat st) < 63 ->
  exists st', on_pto_expiry st pto probes ts = Ok (0, st') /\ split_inv n b st'.
Proof.
  intros (L & D & Hinv & HL & HD) Hpto Hp. unfold on_pto_expiry. apply (probe_ok _ _ _ _ _ _ _ _ _ _ probes) in Hinv.
  set (st1 := put_rtb _ st) in *. set (c1 := set_pto_count _ _).
  assert (Hinv1 : ld_inv n (L ++ D) [] b 0 (put_cstat c1 st1)).
  { destruct Hinv as [Hns Hecn [(hi & Hi & Hh) Hpl Hd Ha (T1 & T2 & T3) Hpar]]. split; [done|done|]. split; try done.
    - exists hi. split; [|done]. by eapply cl_stat.
    - split_and!; [done|done|cbn in *; lia..]. }
  destruct (timer_ok cc mss inv cinv other _ _ _ _ _ _ pto ts Hinv1 Hpto) as (c & -> & Hinv2 & _). cbn [bind].
  eexists. split; [reflexivity|]. by exists L, D.
Qed.

Lemma conn_recv_ack_ok n b R la acktr st pto fr pkt_ts ts :
  split_inv n (b + mss) st -> 0 <= b -> pto_ok pto -> ack_ok fr -> arep R la acktr -> acks_ok acktr ->
  exists rv acktr' st', conn_recv_ack cc ops acktr st pto fr pkt_ts ts = Ok (rv, acktr', st') /\
    (0 <= rv -> split_inv n b st' /\ (exists la', arep R la' acktr') /\ acks_ok acktr').
Proof.
  intros (L & D & Hinv & HL & HD) Hb Hpto Hfr Har Hak. unfold conn_recv_ack.
  destruct (_ <? _); [by do 3 eexists|]. destruct Hfr as [Hf Hr].
  destruct (recv_ack_ok R 0%nat la acktr fr Har Hak Hf Hr) as (acktr' & la' & -> & [_ Har' Hak' _ _ _] & _). cbn [bind].
  destruct (recv_ack_run cc ops mss inv cinv other n L D b st fr pkt_ts ts Hb HL HD ltac:(by split) Hinv) as (rv & st1 & -> & _ & Hok). cbn [bind].
  destruct (Z.leb_spec rv 0) as [Hle|Hgt].
  - do 3 eexists. split; [reflexivity|]. intros H0. destruct Hok as [?|(_ & _ & st2 & _ & _ & [L' D' Hinv' HL' HD' _ _ _])]; [lia|].
    split; [by exists L', D'|]. split; [by exists la'|done].
  - destruct Hok as [?|(_ & _ & st2 & _ & _ & [L' D' Hinv' HL' HD' _ _ _])]; [lia|].
    apply (probe_ok _ _ _ _ _ _ _ _ _ _ 0) in Hinv'. set (st3 := put_rtb _ st1) in *. set (st4 := if _ && _ then _ else st3).
    assert (Hinv4 : ld_inv n (L' ++ D') [] b 0 st4).
    { unfold st4. destruct (_ && _); [|done]. destruct Hinv' as [Hns Hecn [(hi & Hi & Hh) Hpl Hd Ha (T1 & T2 & T3) Hpar]].
      split; [done|done|]. split; try done.
      - exists hi. split; [|done]. by eapply cl_stat.
      - split_and!; [done|done|cbn in *; lia..]. }
    destruct (timer_ok cc mss inv cinv other _ _ _ _ _ _ pto ts Hinv4 Hpto) as (c & -> & Hinv5 & _). cbn [bind].
    do 3 eexists. split; [reflexivity|]. intros _. split; [by exists L', D'|]. split; [by exists la'|done].
Qed.

Lemma split_after_sent n b st' : (exists new l, ld_inv n (new ++ l) [] b 0 st' /\ live new /\ exists L D, l = L ++ D /\ live L /\ dead D) -> split_inv n b st'.
Proof.
  intros (new & l & Hinv & Hn & L & D & -> & HL & HD). exists (new ++ L), D. rewrite <- app_assoc. split; [done|]. split; [by apply live_app|done].
Qed.

Lemma send_ok mem_ok (info : bool) n b st pto pkt ts :
  split_inv (Datatypes.S n) (b + sent_cost mss pkt) st -> 0 <= b -> sent_ok pkt -> pto_ok pto ->
  ns_last_pkt_num (ld_ns st) + 1 < 2 ^ 62 -> ts <> UINT64_MAX ->
  exists rv pi st', pkt_written cc ops mem_ok st pto (if info then Some NGTCP2_ECN_NOT_ECT else None) pkt ts = Ok (rv, pi, st') /\ (mem_ok = true -> rv = 0) /\
    (0 <= rv -> split_inv n b st').
Proof.
  intros (L & D & Hinv & HL & HD) Hb Hok Hpto Hlast Hts.
  destruct (pkt_written_ok cc ops mss inv cinv other mem_ok info n _ b st pto pkt ts Hinv Hb Hok Hpto Hlast Hts) as (rv & pi & st' & Hrun & Hm & Hrv & Hinv').
  exists rv, pi, st'. split; [done|]. split; [done|]. intros E. destruct (Hinv' ltac:(lia)) as (new & Hi & Hn). apply split_after_sent.
  exists new, (L ++ D). split; [done|]. split; [done|]. by exists L, D.
Qed.

Lemma skip_update_ok last r skip : skip_next_pkt_num skip <> INT64_MAX -> exists skip', conn_update_skip_pkt last r skip = Ok skip'.
Proof.
  intros H. unfold conn_update_skip_pkt. rewrite (proj2 (Z.eqb_neq _ _)) by done. cbn [negb]. destruct (_ <? _); [by eexists|].
  destruct (_ <? _); by eexists.
Qed.

Lemma skip_ok mem_ok n b st skip r ts :
  split_inv (Datatypes.S n) (b + 3 * RtbStep.grow mss 0) st -> 0 <= b -> ns_id (ld_ns st) = NGTCP2_PKTNS_ID_APPLICATION ->
  ns_last_pkt_num (ld_ns st) + 1 < 2 ^ 62 ->
  exists rv skip' st', conn_handle_skip_pkt ops mem_ok st skip r ts = Ok (rv, skip', st') /\ (mem_ok = true -> rv = 0) /\
    (0 <= rv -> split_inv n b st').
Proof.
  intros (L & D & Hinv & HL & HD) Hb Hid Hlast. unfold conn_handle_skip_pkt. rewrite Hid. cbn [Z.eqb NGTCP2_PKTNS_ID_APPLICATION].
  pose proof (bd_mss (mss := mss) (other := other)) as Hm. unfold MIN_PAYLOAD in Hm.
  destruct (Z.eqb_spec (ns_last_pkt_num (ld_ns st) + 1) (skip_next_pkt_num skip)) as [E|E].
  2:{ cbn. do 3 eexists. split; [reflexivity|]. split; [done|]. intros _. exists L, D. split; [|done]. apply room_ok.
      eapply ld_inv_mono; [|exact Hinv]. unfold RtbStep.grow. lia. }
  cbn [negb Pos.eqb]. set (e := rtb_entry_init _ _ _ _ _ _ _).
  assert (Hne : new_ent (ns_last_pkt_num (ld_ns st)) e) by (split; try done; cbn; by rewrite E).
  destruct (track_ok ops mss inv cinv other mem_ok n (L ++ D) b 0 st e (fun st p => ngtcp2_rtb_add st p) Hinv) as (rv & st1 & -> & Hmem & Hrv & Hok).
  { intros p rtb Hinv1. destruct (rtb_add_ok cc mss inv cinv other n (L ++ D) b 0 _ p e Hinv1 Hb Hne) as (st' & er & -> & Hinv2 & _); [done| |done|by exists st', er].
    intros _. unfold w_ecn, ent_has. cbn. rewrite !andb_false_r. done. }
  cbn [bind]. destruct (Z.eqb_spec rv 0) as [->|Hne0]; cbn [negb]; [|exists rv, skip, st1; split_and!; [done|done|intros; lia]].
  destruct (skip_update_ok (ns_last_pkt_num (ld_ns (add_last_pkt_num st1))) r skip) as (skip' & ->); [unfold INT64_MAX; lia|]. cbn [bind].
  do 3 eexists. split; [reflexivity|]. split; [done|]. intros _. destruct (Hok eq_refl) as [er Hinv2]. apply split_after_sent.
  exists [set_ent_rst er e], (L ++ D). split; [done|]. split; [by repeat constructor|]. by exists L, D.
Qed.

(** ** The path changes *)
Lemma reset_ecn_ok n b st : split_inv n b st -> split_inv n b (conn_reset_ecn_validation_state st).
Proof.
  intros (L & D & Hinv & HL & HD). exists L, D. split; [|done].
  assert (Hok : ecn_ok 0 (L ++ D) (ecn_reset (ns_ecn (ld_ns st))) (mk_conn_ecn NGTCP2_ECN_STATE_TESTING UINT64_MAX 0)).
  { split; [|done]. intros _. cbn. replace (sumz _ _) with 0; [lia|]. symmetry. apply Z.le_antisymm; [|apply ecn_sum_nonneg].
    pose proof (inv_ents mss inv cinv other _ _ _ _ _ Hinv) as He. rewrite Forall_forall in He.
    transitivity (sumz (fun _ : ngtcp2_rtb_entry F => 0) (L ++ D)); [|clear; induction (L ++ D); cbn; lia]. apply sumz_le. intros e Hin. destruct (He e Hin) as [Hp _ _ _ _].
    unfold w_ecn. rewrite (proj2 (Z.leb_gt _ _)) by (unfold INT64_MAX; lia). by rewrite andb_false_r. }
  pose proof (ld_inv_ecn mss inv cinv other _ _ _ _ _ _ _ _ (ns_ack_ecn (ld_ns st)) Hinv Hok) as H.
  destruct H as [[] ? []]. by split.
Qed.

Lemma reset_congestion_ok n b st payload ts : other = 0 -> split_inv n b st -> 0 <= b -> MIN_PAYLOAD <= payload <= mss ->
  exists st', conn_reset_congestion_state cc st payload ts = Ok st' /\ split_inv n b st'.
Proof.
  intros Hother (L & D & Hinv & HL & HD) Hb Hpl. unfold conn_reset_congestion_state.
  pose proof (inv_costs mss inv cinv other _ _ _ _ _ Hinv) as Hcosts.
  destruct Hinv as [[Hst Hrm Hcn Ho He Hla Hcc Hdl Hby Hid] Hecn [(hi & Hi & Hh) Hp Hd Ha (T1 & T2 & T3) Hpar]].
  change (ns_rtb (ld_ns st)) with (ld_rtb st) in *.
  set (c := conn_reset_conn_stat_cc _ _ _).
  set (c2 := set_window (cwnd (ld_cstat st)) (ssthresh (ld_cstat st)) UINT64_MAX c).
  assert (Hi2 : inv hi (ld_cc st) c2).
  { eapply cl_stat; [apply (cl_payload hi _ _ payload Hi Hpl)|..]; done. }
  destruct (cl_reset (mss := mss) hi _ _ (ld_rst st) ts Hi2) as (s & c' & rst & Hrun & Hc & Hr & Hi').
  unfold call_cc. cbn [ld_cc ld_cstat ld_rst put_cstat].
  assert (Ep : max_tx_udp_payload_size c2 = payload) by done. rewrite Ep in Hrun. 
  pose proof (reset_stat_window (cp_initial_rtt (ld_par st)) payload (cwnd (ld_cstat st)) (ssthresh (ld_cstat st)) UINT64_MAX (ld_cstat st)) as E2.
  cbv zeta in E2. fold c in E2. fold c2 in E2. rewrite E2 in Hrun. rewrite Hrun. cbn [bind].
  eexists. split; [reflexivity|]. exists L, D. split; [|done].
  assert (Hc2 : same_recovery c c2) by apply same_set_window.
  destruct (same_recovery_trans _ _ _ Hc2 Hc) as (w & th & s0 & i & q & ->).
  destruct (cl_window (cc := cc) _ _ _ Hi') as [? ?].
  assert (Hnone : forall e, e ∈ L ++ D -> ns_last_pkt_num (ld_ns st) + 1 <= ent_pkt_num e -> False).
  { rewrite Forall_forall in Hla. intros e Hin Hlt. specialize (Hla e Hin). cbn in Hla. lia. }
  split; cbn; [|done|].
  - split; cbn; try done.
    + destruct Hcn as [H1 H2 H3 H4 H5 _]. split; cbn; try done.
      transitivity (sumz (fun _ : ngtcp2_rtb_entry F => 0) (L ++ D)); [clear; induction (L ++ D); cbn; lia|].
      apply sumz_ext. intros e Hin. unfold w_bytes. destruct (Z.leb_spec (ns_last_pkt_num (ld_ns st) + 1) (ent_pkt_num e)); [by destruct (Hnone e Hin)|].
      by rewrite andb_false_r.
    + eapply sorted_ext_in; [|exact Ho]. intros e1 e2 _ H2 [Hlt _]. split; [done|]. intros Hle. by destruct (Hnone e2 H2).
    + lia.
    + apply Forall_forall. intros e Hin Hle. by destruct (Hnone e Hin).
  - split; cbn; try done.
    + exists hi. split; [done|]. cbn in Hh. lia.
    + cbn in Hh. lia.
Qed.
End Callers.
