(* ===== verification/RtbSpec.v ===== *)
(** * Loss detection: what it does

    The packets of a space as a list; which of them are lost, by the rule of
    RFC 9002; and the effect of loss detection and of an ACK frame on the
    list. *)

From S2P Require Import Prelude Const Frame FrameSafe PktAux Ringbuf Ksl KslInv KslIter KslSpec KslMap Acktr KslStore AcktrSpec ConnStat Rst Cc CcSpec Recovery Rtb RtbInv RtbStep RtbAck RtbProcess RtbLose RtbDetect RtbRecv RtbConn RtbOps RtbSend RtbPto RtbRun.
From stdpp Require Import list gmap sorting.
#[local] Open Scope Z_scope.

Section Lists.
Context {F : Type}.
Implicit Types (e : ngtcp2_rtb_entry F) (l L D : list (ngtcp2_rtb_entry F)).

(** The packets, the latest first. *)
Definition rtb_list (rtb : ngtcp2_rtb F) : list (ngtcp2_rtb_entry F) :=
  omap (fun x => rtb_heap rtb !! x.2) (ksl_elems (rtb_ents rtb)).

Lemma stored_list l out (rtb : ngtcp2_rtb F) : rtb_stored l out rtb -> rtb_list rtb = l.
Proof.
  intros [_ [Hf _] _ _ _]. unfold rtb_list. induction Hf as [|x e A l' [_ Hp] _ IH]; cbn; [done|]. by rewrite Hp, IH.
Qed.

(** A packet is lost when a packet that is not older, and not newer than the
    largest acknowledged one, was sent [loss_delay] ago or [pkt_thres]
    packets before that one. *)
Definition lost_now (largest loss_delay pkt_thres ts : Z) L e : bool :=
  (ent_pkt_num e <=? largest) &&
  existsb (fun e0 => (ent_pkt_num e <=? ent_pkt_num e0) && ((ent_pkt_num e0 <=? largest) && lost_cond largest loss_delay pkt_thres ts e0)) L.

(** The packets that are neither lost nor newer than the largest acknowledged
    one: the timer waits for them. *)
Definition pending (largest loss_delay pkt_thres ts : Z) L e : bool :=
  (ent_pkt_num e <=? largest) && negb (lost_now largest loss_delay pkt_thres ts L e).

(** The list before and after detection. *)
Record after_detection (largest loss_delay pkt_thres ts : Z) l l' : Prop := mk_after {
  af_kept : list (ngtcp2_rtb_entry F);
  af_new : list (ngtcp2_rtb_entry F);
  af_dropped : list (ngtcp2_rtb_entry F);
  af_list : let L := List.filter (fun e => negb (is_lost e)) l in
    l' = List.filter (fun e => negb (lost_now largest loss_delay pkt_thres ts L e)) L ++ af_kept;
  af_lost : let L := List.filter (fun e => negb (is_lost e)) l in
    Forall2 (lost_of ts) (List.filter (lost_now largest loss_delay pkt_thres ts L) L) af_new;
  af_bound : af_kept ++ af_dropped = af_new ++ List.filter is_lost l /\ zlen af_kept <= pkt_thres /\
    (zlen (af_new ++ List.filter is_lost l) <= pkt_thres -> af_dropped = []);
}.

Lemma existsb_false {A : Type} (f : A -> bool) (xs : list A) : (forall y, y ∈ xs -> f y = false) -> existsb f xs = false.
Proof.
  induction xs as [|y xs IH]; intros H; [done|]. cbn. rewrite (H y) by (by left). apply IH. intros z Hz. apply H. by right.
Qed.

Lemma existsb_true {A : Type} (f : A -> bool) (xs : list A) y : y ∈ xs -> f y = true -> existsb f xs = true.
Proof. intros Hy Hf. apply existsb_exists. exists y. by rewrite <- list_elem_of_In. Qed.

Lemma descending_app l1 l2 e1 e2 : descending (l1 ++ l2) -> e1 ∈ l1 -> e2 ∈ l2 -> ent_pkt_num e2 < ent_pkt_num e1.
Proof.
  induction l1 as [|e l1 IH]; intros Hs H1 H2; [by apply elem_of_nil in H1|]. apply StronglySorted_inv in Hs as [Hs Hf].
  apply elem_of_cons in H1 as [->|H1]; [|by apply IH]. rewrite Forall_forall in Hf. apply Hf. rewrite elem_of_app. by right.
Qed.

Lemma descending_app_r l1 l2 : descending (l1 ++ l2) -> descending l2.
Proof. induction l1 as [|e l1 IH]; intros Hs; [done|]. apply StronglySorted_inv in Hs as [Hs _]. by apply IH. Qed.

Lemma descending_app_l l1 l2 : descending (l1 ++ l2) -> descending l1.
Proof.
  induction l1 as [|e l1 IH]; intros Hs; [constructor|]. apply StronglySorted_inv in Hs as [Hs Hf]. constructor; [by apply IH|].
  by apply Forall_app in Hf as [? _].
Qed.

(** The declarative rule is what the loop computes. *)
Lemma split_lost_now largest d k ts above keep lose :
  descending (above ++ keep ++ lose) -> (forall e, e ∈ above -> largest < ent_pkt_num e) -> (forall e, e ∈ keep ++ lose -> ent_pkt_num e <= largest) ->
  detect_split largest d k ts (keep ++ lose) keep lose ->
  let L := above ++ keep ++ lose in
  List.filter (lost_now largest d k ts L) L = lose /\ List.filter (fun e => negb (lost_now largest d k ts L e)) L = above ++ keep /\
  List.filter (pending largest d k ts L) L = keep.
Proof.
  intros Hs Ha Hle [_ Hk Hl] L. rewrite Forall_forall in Hk.
  assert (H1 : forall e, e ∈ above -> lost_now largest d k ts L e = false).
  { intros e He. specialize (Ha e He). unfold lost_now. by rewrite (proj2 (Z.leb_gt _ _)) by lia. }
  assert (H2 : forall e, e ∈ keep -> lost_now largest d k ts L e = false).
  { intros e He. unfold lost_now. rewrite existsb_false; [by rewrite andb_false_r|]. intros e0 He0. unfold L in He0.
    rewrite !elem_of_app in He0. destruct He0 as [He0|[He0|He0]].
    - specialize (Ha e0 He0). rewrite (proj2 (Z.leb_gt (ent_pkt_num e0) _)) by lia. by rewrite andb_false_r.
    - rewrite (Hk e0 He0). by rewrite !andb_false_r.
    - pose proof (descending_app _ _ _ _ (descending_app_r _ _ Hs) He He0). by rewrite (proj2 (Z.leb_gt _ _)) by lia. }
  assert (H3 : forall e, e ∈ lose -> lost_now largest d k ts L e = true).
  { intros e He. assert (Hlast : ent_pkt_num e <= largest) by (apply Hle; rewrite elem_of_app; by right).
    unfold lost_now. rewrite (proj2 (Z.leb_le _ _) Hlast). cbn [andb]. destruct lose as [|e1 lose]; [by apply elem_of_nil in He|].
    apply (existsb_true _ _ e1); [unfold L; rewrite !elem_of_app, elem_of_cons; auto|]. rewrite (Hl e1 lose eq_refl).
    assert (Hle1 : ent_pkt_num e1 <= largest) by (apply Hle; rewrite elem_of_app, elem_of_cons; auto). rewrite (proj2 (Z.leb_le _ _) Hle1).
    rewrite (proj2 (Z.leb_le _ _)); [done|]. apply elem_of_cons in He as [->|He]; [done|].
    pose proof (descending_app_r _ _ (descending_app_r _ _ Hs)) as Hs'. pose proof (descending_tail [] e1 lose e Hs' He). lia. }
  unfold L at 2 4 6. rewrite !List.filter_app. unfold pending.
  rewrite (filter_none _ above H1), (filter_none _ keep H2), (filter_all _ lose H3). split; [done|]. split.
  - rewrite (filter_all _ above) by (intros e He; by rewrite H1). rewrite (filter_all _ keep) by (intros e He; by rewrite H2).
    rewrite (filter_none _ lose) by (intros e He; by rewrite H3). by rewrite app_nil_r.
  - rewrite (filter_none _ above) by (intros e He; specialize (Ha e He); by rewrite (proj2 (Z.leb_gt _ _)) by lia).
    rewrite (filter_all _ keep); [rewrite (filter_none _ lose) by (intros e He; by rewrite H3, andb_false_r); by rewrite app_nil_r|].
    intros e He. rewrite H2 by done. rewrite (proj2 (Z.leb_le _ _)); [done|]. apply Hle. rewrite elem_of_app. by left.
Qed.

Lemma filter_split L D : live L -> dead D ->
  List.filter (fun e => negb (is_lost e)) (L ++ D) = L /\ List.filter is_lost (L ++ D) = D.
Proof.
  intros HL HD. unfold live, dead in *. rewrite Forall_forall in *. rewrite !List.filter_app. split.
  - rewrite (filter_all _ L), (filter_none _ D); [by rewrite app_nil_r|intros e He; by rewrite (HD e He)|intros e He; by rewrite (HL e He)].
  - rewrite (filter_none _ L), (filter_all _ D); done.
Qed.

Lemma filter_split_acked blocks L D : live L -> dead D ->
  List.filter (fun e => negb (is_lost e)) (List.filter (not_acked blocks) (L ++ D)) = List.filter (not_acked blocks) L /\
  List.filter is_lost (List.filter (not_acked blocks) (L ++ D)) = List.filter (not_acked blocks) D.
Proof. intros HL HD. rewrite List.filter_app. apply filter_split; by apply forall_filter. Qed.
End Lists.

Lemma detected_after {F S C : Type} (d k ts : Z) (L D : list (ngtcp2_rtb_entry F)) (st : ld_state F S C) L' D' times' :
  detected d k ts L D st L' D' times' -> live L -> dead D -> descending (L ++ D) ->
  let largest := largest_acked_tx_pkt_num (ld_rtb st) in
  after_detection largest d k ts (L ++ D) (L' ++ D') /\
  times' = store_time (ns_id (ld_ns st)) (fold_left (min_time d) (List.filter (pending largest d k ts L) L) UINT64_MAX) (loss_time (ld_cstat st)).
Proof.
  intros [above keep lose lose' dropped -> Ha Hle Hsp Hlost -> HD' Hk Ht] HL HD Hs largest.
  destruct (split_lost_now largest d k ts above keep lose (descending_app_l _ _ Hs) Ha Hle Hsp) as (E1 & E2 & E3).
  destruct (filter_split _ _ HL HD) as [F1 F2]. split.
  - apply (mk_after _ _ _ _ _ _ D' lose' dropped); rewrite ?F1, ?F2; cbv zeta; rewrite ?E1, ?E2; done.
  - by rewrite E3.
Qed.
