(* ===== verification/RtbRetry.v ===== *)
(** * Loss detection: what a Retry packet finds

    The packets of a space in which no ACK frame was processed and no loss
    timer expired: none of them is lost, and none is a probe, unless it was
    sent as one. *)

From S2P Require Import Prelude Const Frame Ksl Acktr ConnStat Rst Cc Recovery Rtb RtbInv RtbStep RtbLose RtbConn RtbSend RtbPto RtbSpec.
From stdpp Require Import list gmap.
#[local] Open Scope Z_scope.

Section Retry.
Context {F S C : Type} (cc : ngtcp2_cc S) (ops : conn_ops F C).
Abbreviation state := (ld_state F S C).
Implicit Types (st : state) (e : ngtcp2_rtb_entry F) (rtb : ngtcp2_rtb F) (ts : Z).

(** Every packet, in the list or on its way to it. *)
Definition all_plain rtb : Prop := forall p e, rtb_heap rtb !! p = Some e -> retry_ok e.

Lemma plain_list rtb : all_plain rtb -> Forall retry_ok (rtb_list rtb).
Proof.
  intros H. unfold rtb_list. apply Forall_forall. intros e He. apply list_elem_of_omap in He as ([k p] & _ & Hp). by eapply H.
Qed.

(** *** The heap *)
Lemma plain_same rtb rtb' : rtb_heap rtb' = rtb_heap rtb -> all_plain rtb -> all_plain rtb'.
Proof. intros E H p e. rewrite E. apply H. Qed.

Lemma plain_insert p e next ents rtb : retry_ok e -> all_plain rtb -> all_plain (set_store (<[p := e]> (rtb_heap rtb)) next ents rtb).
Proof.
  intros He H q e'. cbn. destruct (decide (q = p)) as [->|Hne]; [rewrite lookup_insert_eq|rewrite lookup_insert_ne by done; apply H].
  by intros [= <-].
Qed.

Lemma plain_delete p next ents rtb : all_plain rtb -> all_plain (set_store (delete p (rtb_heap rtb)) next ents rtb).
Proof. intros H q e. cbn. intros [_ Hq]%lookup_delete_Some. by eapply H. Qed.

Lemma plain_load rtb p e : all_plain rtb -> rtb_load rtb p = Ok e -> retry_ok e.
Proof. unfold rtb_load. intros H. destruct (rtb_heap rtb !! p) eqn:E; [|done]. intros [= <-]. by eapply H. Qed.

Lemma plain_store rtb p e rtb' : all_plain rtb -> retry_ok e -> rtb_store rtb p e = Ok rtb' -> all_plain rtb'.
Proof. unfold rtb_store. intros H He. destruct (rtb_load rtb p); cbn [bind]; [|done..]. intros [= <-]. by apply plain_insert. Qed.

(** The flags that are set later. *)
Lemma retry_ok_flags e e' : retry_ok e -> ent_flags e' = ent_flags e -> retry_ok e'.
Proof. unfold retry_ok, is_lost, ent_has. by intros H ->. Qed.

(** *** Operations *)
Lemma plain_ent_at rtb it p e : all_plain rtb -> rtb_ent_at rtb it = Ok (p, e) -> retry_ok e.
Proof.
  unfold rtb_ent_at. intros H. destruct (ngtcp2_ksl_it_get _ _); cbn [bind]; [|done..].
  destruct (rtb_load rtb a) eqn:E; cbn [bind]; [|done..]. intros [= <- <-]. by eapply plain_load.
Qed.

Lemma plain_unlink rtb it e rtb' it' : all_plain rtb -> rtb_unlink rtb it e = Ok (rtb', it') -> all_plain rtb'.
Proof.
  unfold rtb_unlink. intros H. destruct (ksl_remove_hint _ _ _) as [[[rv ents] it1]| |]; cbn [bind]; [|done..].
  destruct (rv =? 0); [|done]. intros [= <- <-]. by eapply plain_same.
Qed.

Lemma plain_on_remove rtb e c n rtb' c' : all_plain rtb -> rtb_on_remove rtb e c = Ok (n, rtb', c') -> all_plain rtb'.
Proof.
  intros H. unfold rtb_on_remove, decrease. intros E. repeat (case_match; cbn [bind] in E; simplify_eq); by eapply plain_same.
Qed.

Lemma plain_del st p st' : all_plain (ld_rtb st) -> ngtcp2_rtb_entry_objalloc_del ops st p = Ok st' -> all_plain (ld_rtb st').
Proof.
  intros H. unfold ngtcp2_rtb_entry_objalloc_del. destruct (rtb_load _ _); cbn [bind]; [|done..].
  destruct (co_frc_del _ _ _); cbn [bind]; [|done..]. intros [= <-]. by apply plain_delete.
Qed.

Lemma call_cc_rtb {A} (f : option (cc_callback S A)) a ts st st' : call_cc f a ts st = Ok st' -> ld_rtb st' = ld_rtb st.
Proof. unfold call_cc. destruct (cc_call _ _ _ _ _ _) as [[[s c] r]| |]; cbn [bind]; [|done..]. by intros [= <-]. Qed.

Lemma set_timer_rtb st pto ts st' : set_timer st pto ts = Ok st' -> ld_rtb st' = ld_rtb st.
Proof.
  unfold set_timer. destruct (<[_ := _]> pto) as [|? [|? [|[?|] [|]]]]; try done.
  destruct (ngtcp2_conn_set_loss_detection_timer _ _ _ _ _ _); cbn [bind]; [|done..]. by intros [= <-].
Qed.

Lemma plain_on_add rtb p c rst rtb' c' rst' : all_plain rtb -> rtb_on_add rtb p c rst = Ok (rtb', c', rst') -> all_plain rtb'.
Proof.
  intros H. unfold rtb_on_add. destruct (rtb_load rtb p) as [e| |] eqn:El; cbn [bind]; [|done..]. destruct (_ <=? _); [|done].
  set (rtb0 := set_cc_bytes _ _ rtb). destruct (ngtcp2_rst_on_pkt_sent _ _ _) as [r e1] eqn:Er.
  destruct (rtb_store rtb0 p e1) as [rtb1| |] eqn:Es; cbn [bind]; [|done..]. intros [= <- _ _].
  assert (H1 : all_plain rtb1); [|by eapply plain_same]. eapply (plain_store rtb0); [by eapply plain_same| |exact Es].
  eapply retry_ok_flags; [by eapply plain_load|]. unfold ngtcp2_rst_on_pkt_sent in Er. cbv zeta in Er. by injection Er as _ <-.
Qed.

Lemma plain_rtb_add st p rv st' : all_plain (ld_rtb st) -> ngtcp2_rtb_add st p = Ok (rv, st') -> all_plain (ld_rtb st').
Proof.
  intros H. unfold ngtcp2_rtb_add. destruct (rtb_load _ _); cbn [bind]; [|done..].
  destruct (ngtcp2_ksl_insert _ _ _ _) as [[[r ents] it]| |]; cbn [bind]; [|done..].
  destruct (negb _). { intros [= _ <-]. by eapply plain_same. }
  destruct (rtb_on_add _ _ _ _) as [[[rtb c] rst]| |] eqn:Ea; cbn [bind]; [|done..]. intros [= _ <-].
  change (ld_rtb (put_rtb rtb _)) with rtb. eapply plain_on_add; [|exact Ea]. by eapply plain_same.
Qed.

Lemma plain_on_pkt_sent st pto p rv st' : all_plain (ld_rtb st) -> conn_on_pkt_sent cc st pto p = Ok (rv, st') -> all_plain (ld_rtb st').
Proof.
  intros H. unfold conn_on_pkt_sent. destruct (rtb_load _ _) as [e| |]; cbn [bind]; [|done..].
  destruct (if ent_has e _ then call_cc _ _ _ _ else _) as [st1| |] eqn:E1; cbn [bind]; [|done..].
  assert (H1 : ld_rtb st1 = ld_rtb st) by (destruct (ent_has e _); [by apply call_cc_rtb in E1|by injection E1 as <-]).
  destruct (ngtcp2_rtb_add st1 p) as [[r st2]| |] eqn:E2; cbn [bind]; [|done..]. apply plain_rtb_add in E2; [|by rewrite H1].
  destruct (negb _); [by intros [= _ <-]|].
  destruct (if ent_has e _ then (let* _ := nth_time _ _ in _) else _) as [st3| |] eqn:E3; cbn [bind]; [|done..].
  assert (H3 : ld_rtb st3 = ld_rtb st2).
  { destruct (ent_has e _); [|by injection E3 as <-]. destruct (nth_time _ _); cbn [bind] in E3; [|done..]. by injection E3 as <-. }
  destruct (set_timer st3 pto _) as [st4| |] eqn:E4; cbn [bind]; [|done..]. intros [= _ <-]. apply set_timer_rtb in E4. by rewrite E4, H3.
Qed.

Lemma plain_track mem_ok st e add rv st' :
  all_plain (ld_rtb st) -> retry_ok e ->
  (forall st1 p r st2, all_plain (ld_rtb st1) -> add st1 p = Ok (r, st2) -> all_plain (ld_rtb st2)) ->
  track_pkt ops mem_ok st e add = Ok (rv, st') -> all_plain (ld_rtb st').
Proof.
  intros H He Hadd. unfold track_pkt, ngtcp2_rtb_entry_objalloc_new. destruct mem_ok; [|by intros [= _ <-]].
  set (rtb1 := set_store _ _ _ _). assert (H1 : all_plain rtb1) by by apply plain_insert.
  destruct (add _ _) as [[r st1]| |] eqn:Ea; cbn [bind]; [|done..]. apply Hadd in Ea; [|exact H1].
  destruct (r =? 0); [by intros [= _ <-]|].
  destruct (ngtcp2_rtb_entry_objalloc_del _ _ _) as [st2| |] eqn:Ed; cbn [bind]; [|done..]. intros [= _ <-]. by eapply plain_del.
Qed.

Lemma handle_tx_ecn_rtb st pi flags pkt_num ts pi' flags' st' :
  conn_handle_tx_ecn st pi flags pkt_num ts = Ok (pi', flags', st') ->
  ld_rtb st' = ld_rtb st /\ (flags' = flags \/ flags' = option_map (fun f => Z.lor f NGTCP2_RTB_ENTRY_FLAG_ECN) flags).
Proof.
  unfold conn_handle_tx_ecn, ecn_testing, mark_ect0. intros E.
  repeat (case_match; cbn [bind] in E; simplify_eq); (split; [done|]); auto.
Qed.

Lemma plain_written mem_ok st pto pi pkt ts rv pi' st' :
  all_plain (ld_rtb st) -> sent_ok pkt ->
  has_flag (sp_flags pkt) NGTCP2_RTB_ENTRY_FLAG_PROBE = false -> has_flag (sp_flags pkt) NGTCP2_RTB_ENTRY_FLAG_PMTUD_PROBE = false ->
  pkt_written cc ops mem_ok st pto pi pkt ts = Ok (rv, pi', st') -> all_plain (ld_rtb st').
Proof.
  intros H Hs Hp Hm. unfold pkt_written. set (num := ns_last_pkt_num (ld_ns st) + 1).
  assert (Hecn : forall fl pi1 fl1 st1, tx_ecn st pi fl num ts = Ok (pi1, fl1, st1) -> ld_rtb st1 = ld_rtb st /\
    (fl1 = fl \/ fl1 = option_map (fun f => Z.lor f NGTCP2_RTB_ENTRY_FLAG_ECN) fl)).
  { intros fl pi1 fl1 st1. unfold tx_ecn. destruct pi as [i|]; [|intros [= _ <- <-]; auto].
    destruct (conn_handle_tx_ecn _ _ _ _ _) as [[[i1 f1] s1]| |] eqn:E; cbn [bind]; [|done..]. intros [= _ <- <-].
    by eapply handle_tx_ecn_rtb. }
  assert (Hflag : forall fl g, fl = Some (sp_flags pkt) \/ fl = option_map (fun f => Z.lor f NGTCP2_RTB_ENTRY_FLAG_ECN) (Some (sp_flags pkt)) ->
    g ∈ [NGTCP2_RTB_ENTRY_FLAG_LOST_RETRANSMITTED; NGTCP2_RTB_ENTRY_FLAG_PROBE; NGTCP2_RTB_ENTRY_FLAG_PMTUD_PROBE] ->
    has_flag (default (sp_flags pkt) fl) g = has_flag (sp_flags pkt) g).
  { intros fl g [->| ->] Hg; [done|]. cbn. apply has_flag_lor_other. by repeat (apply elem_of_cons in Hg as [->|Hg]); [..|apply elem_of_nil in Hg]. }
  assert (Hend : forall (s : state) f, all_plain (ld_rtb s) -> all_plain (ld_rtb (add_last_pkt_num (use_probe s f)))).
  { intros s f Hs1. unfold use_probe. destruct (_ && _); by eapply plain_same. }
  destruct (_ || _).
  - destruct (tx_ecn _ _ _ _ _) as [[[pi1 fl1] st1]| |] eqn:E1; cbn [bind]; [|done..]. apply Hecn in E1 as [E1 Hfl].
    destruct (track_pkt _ _ _ _ _) as [[r st2]| |] eqn:E2; cbn [bind]; [|done..].
    apply plain_track in E2; [|by rewrite E1| |intros; by eapply plain_on_pkt_sent].
    2:{ destruct Hs as [_ Hlost _ _ _]. unfold retry_ok, is_lost, ent_has. cbn [ent_flags rtb_entry_init].
        rewrite !(Hflag fl1) by (done || by rewrite !elem_of_cons; auto). done. }
    destruct (negb _); [by intros [= _ _ <-]|]. intros [= _ _ <-]. by apply Hend.
  - destruct (_ && _).
    + destruct (tx_ecn _ _ _ _ _) as [[[pi1 fl1] st1]| |] eqn:E1; cbn [bind]; [|done..]. apply Hecn in E1 as [E1 _].
      cbn [Z.eqb negb]. intros [= _ _ <-]. apply Hend. by rewrite E1.
    + cbn [bind Z.eqb negb]. intros [= _ _ <-]. by apply Hend.
Qed.

Lemma plain_skip mem_ok st skip r ts rv skip' st' :
  all_plain (ld_rtb st) -> conn_handle_skip_pkt ops mem_ok st skip r ts = Ok (rv, skip', st') -> all_plain (ld_rtb st').
Proof.
  intros H. unfold conn_handle_skip_pkt. destruct (_ =? _); [|done]. destruct (negb _); [by intros [= _ _ <-]|].
  destruct (track_pkt _ _ _ _ _) as [[rv1 st1]| |] eqn:E; cbn [bind]; [|done..].
  apply plain_track in E; [|done|done|intros; by eapply plain_rtb_add]. destruct (negb _); [by intros [= _ _ <-]|].
  destruct (conn_update_skip_pkt _ _ _); cbn [bind]; [|done..]. intros [= _ _ <-]. by eapply plain_same.
Qed.

(** *** Probes and removals *)
Lemma reclaimed_flags f : has_flag f NGTCP2_RTB_ENTRY_FLAG_LOST_RETRANSMITTED = false -> has_flag f NGTCP2_RTB_ENTRY_FLAG_PROBE = false ->
  has_flag f NGTCP2_RTB_ENTRY_FLAG_PMTUD_PROBE = false -> forall g,
  g ∈ [NGTCP2_RTB_ENTRY_FLAG_LOST_RETRANSMITTED; NGTCP2_RTB_ENTRY_FLAG_PROBE; NGTCP2_RTB_ENTRY_FLAG_PMTUD_PROBE] ->
  has_flag (Z.ldiff (Z.lor f NGTCP2_RTB_ENTRY_FLAG_PTO_RECLAIMED) NGTCP2_RTB_ENTRY_FLAG_PTO_ELICITING) g = false.
Proof.
  intros H1 H2 H3 g Hg. rewrite has_flag_ldiff by (by repeat (apply elem_of_cons in Hg as [->|Hg]); [..|apply elem_of_nil in Hg]).
  rewrite has_flag_lor_other by (by repeat (apply elem_of_cons in Hg as [->|Hg]); [..|apply elem_of_nil in Hg]).
  by repeat (apply elem_of_cons in Hg as [->|Hg]); [..|apply elem_of_nil in Hg].
Qed.

Lemma plain_reclaimed st p e st' : all_plain (ld_rtb st) -> retry_ok e -> mark_reclaimed st p e = Ok st' -> all_plain (ld_rtb st').
Proof.
  intros H (E1 & E2 & E3). unfold mark_reclaimed. destruct (decrease true _); cbn [bind]; [|done..].
  destruct (decrease (has_flag _ _) _); cbn [bind]; [|done..]. destruct (rtb_store _ _ _) as [rtb| |] eqn:E; cbn [bind]; [|done..].
  intros [= <-]. apply plain_store in E; [by eapply plain_same|done|].
  unfold retry_ok, is_lost, ent_has in *. cbn [ent_flags set_ent_lost].
  split_and!; (apply reclaimed_flags; [done..|rewrite !elem_of_cons; auto]).
Qed.

Lemma plain_pto_loop fuel : forall st it k r st', all_plain (ld_rtb st) -> pto_loop ops fuel st it k = Ok (r, st') -> all_plain (ld_rtb st').
Proof.
  induction fuel as [|fuel IH]; intros st it k r st' H; cbn [pto_loop]; [done|]. destruct (_ || _); [by intros [= _ <-]|].
  destruct (ngtcp2_ksl_it_prev _ _) as [it1| |]; cbn [bind]; [|done..].
  destruct (rtb_ent_at _ _) as [[p e]| |] eqn:Ee; cbn [bind]; [|done..]. destruct (pto_skip e); [by apply IH|].
  destruct (negb _); [|done]. unfold rtb_reclaim_frame. destruct (ent_has e _); cbn [bind]; [|done].
  destruct (co_reclaim _ _ _ _ _) as [[[n frc] app]| |]; cbn [bind]; [|done..].
  assert (He : retry_ok (set_ent_frc frc e)) by (eapply retry_ok_flags; [by eapply plain_ent_at|done]).
  destruct (rtb_store _ _ _) as [rtb| |] eqn:Es; cbn [bind]; [|done..]. apply plain_store in Es; [|done..].
  set (st1 := put_app app _). assert (H1 : all_plain (ld_rtb st1)) by done. destruct (n <? 0); [by intros [= _ <-]|].
  destruct (mark_reclaimed st1 p _) as [st2| |] eqn:Em; cbn [bind]; [|done..]. apply plain_reclaimed in Em; [|done..]. by apply IH.
Qed.

Lemma plain_on_pto st k r st' : all_plain (ld_rtb st) -> ngtcp2_rtb_reclaim_on_pto ops st k = Ok (r, st') -> all_plain (ld_rtb st').
Proof.
  intros H. unfold ngtcp2_rtb_reclaim_on_pto. destruct (pto_loop _ _ _ _ _) as [[n st1]| |] eqn:E; cbn [bind]; [|done..].
  intros [= _ <-]. by eapply plain_pto_loop.
Qed.

Lemma plain_remove_lost more keep fuel : forall st it st', all_plain (ld_rtb st) -> remove_lost_loop ops fuel more keep st it = Ok st' -> all_plain (ld_rtb st').
Proof.
  induction fuel as [|fuel IH]; intros st it st' H; cbn [remove_lost_loop]; [done|]. destruct (negb (more _)); [by intros [= <-]|].
  destruct (ngtcp2_ksl_it_end _ _); [|done]. destruct (ngtcp2_ksl_it_prev _ _) as [it1| |]; cbn [bind]; [|done..].
  destruct (rtb_ent_at _ _) as [[p e]| |] eqn:Ee; cbn [bind]; [|done..]. destruct (ent_has e _) eqn:El; [|done].
  apply plain_ent_at in Ee as (E & _); [|done]. unfold is_lost in E. by rewrite El in E.
Qed.

Lemma plain_expired st timeout ts st' : all_plain (ld_rtb st) -> ngtcp2_rtb_remove_expired_lost_pkt ops st timeout ts = Ok st' -> all_plain (ld_rtb st').
Proof. intros H. unfold ngtcp2_rtb_remove_expired_lost_pkt. destruct (_ =? 0); [by intros [= <-]|]. by apply plain_remove_lost. Qed.

Lemma plain_early_data fuel : forall st it st', all_plain (ld_rtb st) -> early_data_loop ops fuel st it = Ok st' -> all_plain (ld_rtb st').
Proof.
  induction fuel as [|fuel IH]; intros st it st' H; cbn [early_data_loop]; [done|]. destruct (ngtcp2_ksl_it_end _ _); [by intros [= <-]|].
  destruct (rtb_ent_at _ _) as [[p e]| |] eqn:Ee; cbn [bind]; [|done..]. destruct (negb _); [by apply IH|].
  destruct (rtb_on_remove _ _ _) as [[[n rtb] c]| |] eqn:Er; cbn [bind]; [|done..]. apply plain_on_remove in Er; [|done].
  destruct (rtb_unlink _ _ _) as [[rtb1 it1]| |] eqn:Eu; cbn [bind]; [|done..]. apply plain_unlink in Eu; [|done].
  destruct (ngtcp2_rtb_entry_objalloc_del _ _ _) as [st1| |] eqn:Ed; cbn [bind]; [|done..]. apply plain_del in Ed; [|done]. by apply IH.
Qed.
End Retry.
