(* ===== verification/RtbTop.v ===== *)
(** * Loss detection: the theorems

    The events that reach a packet number space, the states they lead to, and
    the theorems about them. *)

From S2P Require Import Prelude Const Frame FrameSafe PktAux Ringbuf Ksl KslInv KslIter KslSpec KslMap Acktr KslStore AcktrSpec ConnStat Rst Cc CcSpec Recovery Rtb RtbInv RtbStep RtbAck RtbProcess RtbLose RtbDetect RtbRecv RtbConn RtbOps RtbSend RtbPto RtbRun RtbSpec RtbRetry.
From stdpp Require Import list gmap sorting.
#[local] Open Scope Z_scope.

(** ** Events *)

(** A packet was written ([conn_write_pkt]), the first of its datagram, with or
    without packet information ([info]); a packet number may be skipped;
    an ACK frame arrives; the loss detection timer expires, for a loss time or
    for a probe; frames are reclaimed for a probe; lost packets are forgotten;
    the server rejects early data; a Retry packet arrives; the path changes. *)
Inductive rec_event (F : Type) :=
| EvSend (mem_ok info : bool) (pto : list (option Z)) (pkt : @sent_pkt F) (ts : Z)
| EvSkip (mem_ok : bool) (r ts : Z)
| EvAck (pto : list (option Z)) (fr : ngtcp2_ack) (pkt_ts ts : Z)
| EvLossTime (pto : list (option Z)) (ts : Z)
| EvPtoExpiry (pto : list (option Z)) (probes ts : Z)
| EvReclaim (num_pkts : Z)
| EvForget (ts : Z)
| EvEarlyReject
| EvRetry
| EvResetEcn
| EvResetCongestion (payload ts : Z).
Arguments EvSend {F}.
Arguments EvSkip {F}.
Arguments EvAck {F}.
Arguments EvLossTime {F}.
Arguments EvPtoExpiry {F}.
Arguments EvReclaim {F}.
Arguments EvForget {F}.
Arguments EvEarlyReject {F}.
Arguments EvRetry {F}.
Arguments EvResetEcn {F}.
Arguments EvResetCongestion {F}.

Record rec_state (F S C : Type) := mk_rec {
  rc_acktr : ngtcp2_acktr;
  rc_skip : skip_pkt;
  rc_ld : ld_state F S C;
}.
Arguments mk_rec {F S C}.
Arguments rc_acktr {F S C}.
Arguments rc_skip {F S C}.
Arguments rc_ld {F S C}.

Section Top.
Context {F S C : Type} (cc : ngtcp2_cc S) (ops : conn_ops F C).
Context (mss : Z) (inv : Z -> S -> ngtcp2_conn_stat -> Prop).
Context (cinv : C -> Prop).
Context (other : Z).
Abbreviation state := (rec_state F S C).
Implicit Types (s : state) (ev : rec_event F) (e : ngtcp2_rtb_entry F) (l : list (ngtcp2_rtb_entry F)) (b ts : Z).

Definition ld_only s (r : res (Z * ld_state F S C)) : res (Z * state) :=
  let* (rv, st) := r in Ok (rv, mk_rec (rc_acktr s) (rc_skip s) st).

(** A negative number is an error. *)
Definition rec_step ev s : res (Z * state) :=
  let st := rc_ld s in
  match ev with
  | EvSend mem_ok info pto pkt ts =>
      let* (rv, _, st) := pkt_written cc ops mem_ok st pto (if info then Some NGTCP2_ECN_NOT_ECT else None) pkt ts in Ok (rv, mk_rec (rc_acktr s) (rc_skip s) st)
  | EvSkip mem_ok r ts =>
      let* (rv, skip, st) := conn_handle_skip_pkt ops mem_ok st (rc_skip s) r ts in Ok (rv, mk_rec (rc_acktr s) skip st)
  | EvAck pto fr pkt_ts ts =>
      let* (rv, acktr, st) := conn_recv_ack cc ops (rc_acktr s) st pto fr pkt_ts ts in Ok (rv, mk_rec acktr (rc_skip s) st)
  | EvLossTime pto ts => ld_only s (on_loss_time cc ops st pto ts)
  | EvPtoExpiry pto probes ts => ld_only s (on_pto_expiry st pto probes ts)
  | EvReclaim num_pkts => ld_only s (ngtcp2_rtb_reclaim_on_pto ops st num_pkts)
  | EvForget ts => let* st := conn_remove_lost_pkt ops st ts in Ok (0, mk_rec (rc_acktr s) (rc_skip s) st)
  | EvEarlyReject => let* st := ngtcp2_rtb_remove_early_data ops st in Ok (0, mk_rec (rc_acktr s) (rc_skip s) st)
  | EvRetry => ld_only s (ngtcp2_rtb_reclaim_on_retry ops st)
  | EvResetEcn => Ok (0, mk_rec (rc_acktr s) (rc_skip s) (conn_reset_ecn_validation_state st))
  | EvResetCongestion payload ts =>
      let* st := conn_reset_congestion_state cc st payload ts in Ok (0, mk_rec (rc_acktr s) (rc_skip s) st)
  end.

(** By how much an event lets the congestion window and the counters grow. *)
Definition ev_cost ev : Z :=
  match ev with
  | EvSend _ _ _ pkt _ => sent_cost mss pkt
  | EvSkip _ _ _ => 3 * RtbStep.grow mss 0
  | EvAck _ _ _ _ => mss
  | _ => 0
  end.

(** What no packet of a space did before a Retry packet arrives: the client
    processes one only before the first Initial packet of the server
    ([NGTCP2_CONN_FLAG_INITIAL_PKT_PROCESSED]), so that there was no ACK frame
    and no loss time yet; and it sends neither packets with just a PING frame
    nor probes of the path MTU before the handshake. *)
Definition before_retry ev : Prop :=
  match ev with
  | EvAck _ _ _ _ | EvLossTime _ _ | EvRetry => False
  | EvSend _ _ _ pkt _ =>
      has_flag (sp_flags pkt) NGTCP2_RTB_ENTRY_FLAG_PROBE = false /\ has_flag (sp_flags pkt) NGTCP2_RTB_ENTRY_FLAG_PMTUD_PROBE = false
  | _ => True
  end.

(** When an event can happen after the events [hist].  There are packet
    numbers left, and memory for one insertion into the list; the fields of
    frames are decoded; a packet that is to be sent again has frames; the
    backoff of the timer stays below 64 doublings; a Retry packet is the
    first one that arrives; and the other spaces are gone when the path
    changes. *)
Definition ev_ok (hist : list (rec_event F)) ev s : Prop :=
  let st := rc_ld s in
  match ev with
  | EvSend _ _ pto pkt ts =>
      ksl_room 1 (rtb_ents (ld_rtb st)) /\ sent_ok pkt /\ pto_ok pto /\ ns_last_pkt_num (ld_ns st) + 1 < 2 ^ 62 /\ ts <> UINT64_MAX
  | EvSkip _ _ _ =>
      ksl_room 1 (rtb_ents (ld_rtb st)) /\ ns_id (ld_ns st) = NGTCP2_PKTNS_ID_APPLICATION /\ ns_last_pkt_num (ld_ns st) + 1 < 2 ^ 62
  | EvAck pto fr _ _ => pto_ok pto /\ ack_ok fr
  | EvLossTime pto _ => pto_ok pto
  | EvPtoExpiry pto _ _ => pto_ok pto /\ pto_count (ld_cstat st) < 63
  | EvReclaim num_pkts => 0 <= num_pkts
  | EvRetry => Forall before_retry hist
  | EvResetCongestion payload _ => other = 0 /\ MIN_PAYLOAD <= payload <= mss
  | EvForget _ | EvEarlyReject | EvResetEcn => True
  end.

(** ** Reachable states *)

(** A new space ([pktns_init]); [hi]: a bound of the congestion window. *)
Record rec_start (hi : Z) s : Prop := {
  rs_rtb : exists avail, ld_rtb (rc_ld s) = ngtcp2_rtb_init avail (ns_last_pkt_num (ld_ns (rc_ld s)) + 1);
  rs_last : -1 <= ns_last_pkt_num (ld_ns (rc_ld s));
  rs_id : 0 <= ns_id (ld_ns (rc_ld s)) < NGTCP2_PKTNS_ID_MAX;
  rs_ecn : ecn_ok 0 ([] : list (ngtcp2_rtb_entry F)) (ns_ecn (ld_ns (rc_ld s))) (ld_ecn (rc_ld s));
  rs_cc : inv hi (ld_cc (rc_ld s)) (ld_cstat (rc_ld s));
  rs_payload : MIN_PAYLOAD <= max_tx_udp_payload_size (ld_cstat (rc_ld s)) <= mss;
  rs_delivered : 0 <= rst_delivered (ld_rst (rc_ld s)) <= hi;
  rs_bytes : bytes_in_flight (ld_cstat (rc_ld s)) = other;
  rs_times : times_ok (ld_cstat (rc_ld s));
  rs_par : par_ok (ld_par (rc_ld s));
  rs_app : cinv (ld_app (rc_ld s));
  rs_acktr : exists n, ngtcp2_acktr_init n = Ok (rc_acktr s);
}.

(** The states that events without an error lead to, with these events. *)
Inductive reachable (s0 : state) : list (rec_event F) -> state -> Prop :=
| reach_start : reachable s0 [] s0
| reach_step hist s ev rv s' :
    reachable s0 hist s -> ev_ok hist ev s -> rec_step ev s = Ok (rv, s') -> 0 <= rv -> reachable s0 (hist ++ [ev]) s'.

Definition evs_cost (evs : list (rec_event F)) : Z := sumz ev_cost evs.

(** What the packets and the counters of the space agree on.  The numbers of
    packets that elicit an ACK, that can be sent again and that elicit a
    probe count the packets that are not lost; the bytes in flight are those
    of the packets that are not lost and were sent on the current path. *)
Record consistent s : Prop := {
  co_order : descending (rtb_list (ld_rtb (rc_ld s)));
  co_lost : exists L D, rtb_list (ld_rtb (rc_ld s)) = L ++ D /\ live L /\ dead D;
  co_counts : counts (rtb_list (ld_rtb (rc_ld s))) (ld_rtb (rc_ld s));
  co_bytes : bytes_in_flight (ld_cstat (rc_ld s)) = cc_bytes_in_flight (ld_rtb (rc_ld s)) + other;
  co_heap : forall p, is_Some (rtb_heap (ld_rtb (rc_ld s)) !! p) <-> p ∈ (ksl_elems (rtb_ents (ld_rtb (rc_ld s)))).*2;
  co_free : exists st, ngtcp2_rtb_free ops (rc_ld s) = Ok st /\ rtb_heap (ld_rtb st) = ∅;
}.
End Top.

Section Theorems.
Context {F S C : Type} (cc : ngtcp2_cc S) (ops : conn_ops F C).
Context (mss : Z) (inv : Z -> S -> ngtcp2_conn_stat -> Prop) {laws : CcLaws cc mss 1 inv}.
Context (cinv : C -> Prop) {app_laws : AppLaws ops mss cinv}.
Context (other : Z) {bounds : Bounds mss other}.
Abbreviation state := (rec_state F S C).
Implicit Types (s : state) (ev : rec_event F) (e : ngtcp2_rtb_entry F) (l : list (ngtcp2_rtb_entry F)) (b ts : Z) (n : nat) (st : ld_state F S C).

Record rec_inv b s : Prop := {
  ri_ld : split_inv mss inv cinv other 0 b (rc_ld s);
  ri_acktr : exists R la, arep R la (rc_acktr s) /\ acks_ok (rc_acktr s);
}.

(** The packets that a Retry packet can find are not lost. *)
Definition ev_ready hist ev s : Prop :=
  ev_ok mss other hist ev s /\ (ev = EvRetry -> Forall retry_ok (rtb_list (ld_rtb (rc_ld s)))).

Lemma ev_cost_nonneg hist ev s : ev_ok mss other hist ev s -> 0 <= ev_cost mss ev.
Proof.
  pose proof (bd_mss (mss := mss) (other := other)) as Hm. unfold MIN_PAYLOAD in Hm. destruct ev; cbn; try lia.
  - intros (_ & [Hl _ _ _ _] & _). unfold sent_cost, RtbStep.grow. nia.
  - intros _. unfold RtbStep.grow. nia.
Qed.

Lemma split_mono n b b' st : b' <= b -> split_inv mss inv cinv other n b st -> split_inv mss inv cinv other n b' st.
Proof. intros Hb (L & D & Hi & H). exists L, D. split; [by eapply ld_inv_mono|done]. Qed.

Lemma split_room n b st : split_inv mss inv cinv other 0 b st -> ksl_room n (rtb_ents (ld_rtb st)) -> split_inv mss inv cinv other n b st.
Proof. intros (L & D & [[] ? ?] & H) Hr. exists L, D. by split; [split; [split| |]|]. Qed.

Lemma inv_list n l out b x st : ld_inv mss inv cinv other n l out b x st -> rtb_list (ld_rtb st) = l.
Proof. intros [[Hst _ _ _ _ _ _ _ _ _] _ _]. by eapply stored_list. Qed.

(** The operations that only change the packets. *)
Lemma quiet_ok b hist ev s : split_inv mss inv cinv other 0 b (rc_ld s) -> 0 <= b -> ev_ready hist ev s ->
  match ev with EvReclaim _ | EvForget _ | EvEarlyReject | EvRetry | EvResetEcn | EvResetCongestion _ _ => True | _ => False end ->
  exists rv st', rec_step cc ops ev s = Ok (rv, mk_rec (rc_acktr s) (rc_skip s) st') /\ (0 <= rv -> split_inv mss inv cinv other 0 b st').
Proof.
  intros Hsp Hb [Hok Hretry] Hev. pose proof Hsp as (L & D & Hinv & HL & HD).
  destruct ev as [| | | | |k|ts| | | |payload ts]; try done; cbn [rec_step ev_ok] in *; unfold ld_only.
  - destruct (reclaim_on_pto_ok ops mss inv cinv other 0 L D b (rc_ld s) k HL HD Hok Hinv) as (r & st' & -> & Hr). cbn [bind].
    do 2 eexists. split; [reflexivity|]. intros H0. destruct (Hr H0) as (L' & Hi & HL' & _). by exists L', D.
  - unfold conn_remove_lost_pkt. set (timeout := u64 _).
    destruct (expired_ok cc ops mss inv cinv other 0 L D b (rc_ld s) timeout ts Hb HL HD Hinv) as (st' & D' & dr & -> & -> & Hi & _).
    cbn [bind]. do 2 eexists. split; [reflexivity|]. intros _. apply Forall_app in HD as [HD' _]. by exists L, D'.
  - destruct (remove_early_data_ok cc ops mss inv cinv other 0 _ b _ Hinv) as (st' & -> & Hi). cbn [bind].
    do 2 eexists. split; [reflexivity|]. intros _. rewrite List.filter_app in Hi. do 2 eexists. split; [exact Hi|]. split; by apply forall_filter.
  - specialize (Hretry eq_refl). rewrite (inv_list _ _ _ _ _ _ Hinv) in Hretry.
    destruct (reclaim_on_retry_ok cc ops mss inv cinv other 0 _ b _ Hinv Hretry Hb) as (rv & st' & -> & Hrv & Hi). cbn [bind].
    do 2 eexists. split; [reflexivity|]. intros H0. exists [], []. split; [apply Hi; lia|]. split; constructor.
  - do 2 eexists. split; [reflexivity|]. intros _. by apply reset_ecn_ok.
  - destruct Hok as [Ho Hp]. destruct (reset_congestion_ok cc mss inv cinv other 0 b (rc_ld s) payload ts Ho Hsp Hb Hp) as (st' & -> & Hi). cbn [bind].
    do 2 eexists. split; [reflexivity|]. done.
Qed.

Lemma rec_step_ok b hist ev s : rec_inv (b + ev_cost mss ev) s -> 0 <= b -> ev_ready hist ev s ->
  exists rv s', rec_step cc ops ev s = Ok (rv, s') /\ (0 <= rv -> rec_inv b s').
Proof.
  intros [Hld (R & la & Har & Hak)] Hb Hrd. pose proof Hrd as [Hok _]. pose proof (ev_cost_nonneg _ _ _ Hok) as Hcost.
  assert (Hr : forall rv skip st, (0 <= rv -> split_inv mss inv cinv other 0 b st) -> 0 <= rv -> rec_inv b (mk_rec (rc_acktr s) skip st)).
  { intros rv skip st H H0. split; [by apply H|by exists R, la]. }
  assert (Hq : match ev with EvReclaim _ | EvForget _ | EvEarlyReject | EvRetry | EvResetEcn | EvResetCongestion _ _ => True | _ => False end ->
    exists rv s', rec_step cc ops ev s = Ok (rv, s') /\ (0 <= rv -> rec_inv b s')).
  { intros Hev. apply (split_mono 0 _ b) in Hld; [|lia].
    destruct (quiet_ok b hist ev s Hld Hb Hrd Hev) as (rv & st' & -> & Hi). do 2 eexists. split; [reflexivity|]. by apply Hr. }
  destruct ev as [mem_ok info pto pkt ts|mem_ok r ts|pto fr pkt_ts ts|pto ts|pto probes ts|k|ts| | | |payload ts]; try (by apply Hq); clear Hq;
    cbn [rec_step ev_ok ev_cost] in *.
  - destruct Hok as (Hroom & Hsent & Hpto & Hlast & Hts).
    destruct (send_ok cc ops mss inv cinv other mem_ok info 0 b (rc_ld s) pto pkt ts) as (rv & pi & st' & -> & _ & Hinv); try done; [by apply split_room|].
    cbn [bind]. do 2 eexists. split; [reflexivity|]. by apply Hr.
  - destruct Hok as (Hroom & Hid & Hlast).
    destruct (skip_ok cc ops mss inv cinv other mem_ok 0 b (rc_ld s) (rc_skip s) r ts) as (rv & skip & st' & -> & _ & Hinv); try done; [by apply split_room|].
    cbn [bind]. do 2 eexists. split; [reflexivity|]. by apply Hr.
  - destruct Hok as (Hpto & Hfr).
    destruct (conn_recv_ack_ok cc ops mss inv cinv other 0 b R la (rc_acktr s) (rc_ld s) pto fr pkt_ts ts Hld Hb Hpto Hfr Har Hak)
      as (rv & acktr' & st' & -> & Hinv). cbn [bind]. do 2 eexists. split; [reflexivity|]. intros H0. destruct (Hinv H0) as (Hi & (la' & Ha') & Hk').
    split; [done|]. by exists R, la'.
  - rewrite Z.add_0_r in Hld. unfold ld_only.
    destruct (on_loss_time_ok cc ops mss inv cinv other 0 b (rc_ld s) pto ts Hld Hb Hok) as (rv & st' & -> & Hi). cbn [bind].
    do 2 eexists. split; [reflexivity|]. by apply Hr.
  - rewrite Z.add_0_r in Hld. destruct Hok as [Hpto Hp]. unfold ld_only.
    destruct (on_pto_expiry_ok cc mss inv cinv other 0 b (rc_ld s) pto probes ts Hld Hpto Hp) as (st' & -> & Hi). cbn [bind].
    do 2 eexists. split; [reflexivity|]. by apply (Hr 0).
Qed.

(** What was sent before a Retry packet. *)
Definition ev_sent_ok ev : Prop := match ev with EvSend _ _ _ pkt _ => sent_ok pkt | _ => True end.

Lemma plain_step ev s rv s' : all_plain (ld_rtb (rc_ld s)) -> ev_sent_ok ev -> before_retry ev -> rec_step cc ops ev s = Ok (rv, s') ->
  all_plain (ld_rtb (rc_ld s')).
Proof.
  intros H Hs Hb. destruct ev as [mem_ok info pto pkt ts|mem_ok r ts| | |pto probes ts|k|ts| | | |payload ts]; try done; cbn [rec_step before_retry] in *; unfold ld_only.
  - destruct (pkt_written _ _ _ _ _ _ _ _) as [[[r1 pi] st]| |] eqn:E; cbn [bind]; [|done..]. intros [= _ <-]. destruct Hb. by eapply plain_written.
  - destruct (conn_handle_skip_pkt _ _ _ _ _ _) as [[[r1 sk] st]| |] eqn:E; cbn [bind]; [|done..]. intros [= _ <-]. by eapply plain_skip.
  - unfold on_pto_expiry. destruct (set_timer _ _ _) as [st| |] eqn:E; cbn [bind]; [|done..]. intros [= _ <-].
    apply set_timer_rtb in E. cbn [rc_ld]. rewrite E. by eapply plain_same.
  - destruct (ngtcp2_rtb_reclaim_on_pto _ _ _) as [[r1 st]| |] eqn:E; cbn [bind]; [|done..]. intros [= _ <-]. by eapply plain_on_pto.
  - unfold conn_remove_lost_pkt. destruct (ngtcp2_rtb_remove_expired_lost_pkt _ _ _ _) as [st| |] eqn:E; cbn [bind]; [|done..].
    intros [= _ <-]. by eapply plain_expired.
  - unfold ngtcp2_rtb_remove_early_data. destruct (early_data_loop _ _ _ _) as [st| |] eqn:E; cbn [bind]; [|done..].
    intros [= _ <-]. by eapply plain_early_data.
  - intros [= _ <-]. by eapply plain_same.
  - unfold conn_reset_congestion_state. destruct (call_cc _ _ _ _) as [st| |] eqn:E; cbn [bind]; [|done..]. intros [= _ <-].
    apply call_cc_rtb in E. eapply (plain_same (ld_rtb (rc_ld s))); [|done]. cbn. by rewrite E.
Qed.

Lemma reachable_plain hist s0 s : all_plain (ld_rtb (rc_ld s0)) -> reachable cc ops mss other s0 hist s -> Forall before_retry hist ->
  all_plain (ld_rtb (rc_ld s)).
Proof.
  intros H0. induction 1 as [|hist s ev rv s' _ IH Hok Hstep _]; intros Hb; [done|].
  apply Forall_app in Hb as [Hb [Hev _]%Forall_cons]. eapply plain_step; [by apply IH| |done|done]. by destruct ev; cbn in *; try done; destruct Hok as (_ & ? & _).
Qed.

Lemma reach_ready hist s0 s ev : all_plain (ld_rtb (rc_ld s0)) -> reachable cc ops mss other s0 hist s -> ev_ok mss other hist ev s -> ev_ready hist ev s.
Proof. intros H0 Hr Hok. split; [done|]. intros ->. apply plain_list. by eapply reachable_plain. Qed.

Lemma evs_cost_snoc hist ev : evs_cost mss (hist ++ [ev]) = evs_cost mss hist + ev_cost mss ev.
Proof. unfold evs_cost. induction hist as [|e hist IH]; cbn [sumz app]; lia. Qed.

Lemma reachable_inv s0 hist s b :
  all_plain (ld_rtb (rc_ld s0)) -> reachable cc ops mss other s0 hist s -> rec_inv (b + evs_cost mss hist) s0 -> 0 <= b ->
  rec_inv b s /\ 0 <= evs_cost mss hist.
Proof.
  intros H0 H. revert b. induction H as [|hist s ev rv s' Hr IH Hok Hstep Hrv]; intros b Hinv Hb; [by rewrite Z.add_0_r in Hinv|].
  rewrite evs_cost_snoc in *.
  pose proof (ev_cost_nonneg _ _ _ Hok) as Hc. destruct (IH (b + ev_cost mss ev)) as [Hi Hs]; [by rewrite <- Z.add_assoc, (Z.add_comm (ev_cost mss ev))|lia|].
  destruct (rec_step_ok b hist ev s Hi Hb (reach_ready _ _ _ _ H0 Hr Hok)) as (rv' & s'' & Hstep' & Hi').
  rewrite Hstep in Hstep'. injection Hstep' as <- <-. split; [by apply Hi'|lia].
Qed.

Lemma start_plain hi s : rec_start mss inv cinv other hi s -> all_plain (ld_rtb (rc_ld s)).
Proof. intros [(avail & ->) _ _ _ _ _ _ _ _ _ _ _] p e. cbn. by rewrite lookup_empty. Qed.

Lemma rec_start_inv hi b s : rec_start mss inv cinv other hi s -> 0 <= b -> hi + b <= CC_LIMIT -> rec_inv b s.
Proof.
  intros [(avail & Hrtb) Hlast Hid Hecn Hcc Hp Hd Hby Ht Hpar Happ (na & Hak)] Hb Hhi. split.
  - exists [], []. split; [|split; constructor]. change (ns_rtb (ld_ns (rc_ld s))) with (ld_rtb (rc_ld s)) in *. split; [|done|].
    + split; change (ns_rtb (ld_ns (rc_ld s))) with (ld_rtb (rc_ld s)); rewrite ?Hrtb; cbn; try done; try lia.
      * split; cbn; try done; [apply init_wf|split; constructor|constructor|]. intros p. rewrite lookup_empty. by intros [? ?].
      * unfold ksl_room. lia.
      * constructor.
    + split; try done; [exists hi; split; [done|cbn; lia]|cbn; lia].
  - destruct (init_remembers 0 na ltac:(lia)) as (acktr & Hinit & [[Har Hacks _ _ _] _ _]). rewrite Hinit in Hak. injection Hak as <-. by eexists _, _.
Qed.

Lemma inv_consistent b s : rec_inv b s -> consistent ops other s.
Proof.
  intros [(L & D & Hinv & HL & HD) _]. pose proof (inv_list _ _ _ _ _ _ Hinv) as El.
  pose proof Hinv as [[Hst _ Hcn Ho _ _ _ _ Hby _] _ _]. change (ns_rtb (ld_ns (rc_ld s))) with (ld_rtb (rc_ld s)) in *.
  split; rewrite ?El; try done.
  - by eapply sent_descending.
  - by exists L, D.
  - intros p. destruct Hst as [_ [Hrep _] _ _ Hlv]. split.
    + intros Hp. destruct (Hlv p Hp) as [_ Hin]. cbn in Hin. by rewrite app_nil_r in Hin.
    + intros Hp. apply list_elem_of_fmap in Hp as (y & -> & Hy). apply list_elem_of_lookup_1 in Hy as [i Hi].
      destruct (Forall2_lookup_l _ _ _ _ _ Hrep Hi) as (e & _ & _ & Hp). by eexists.
  - by eapply free_ok.
Qed.

Lemma reach_spent s0 hist s : reachable cc ops mss other s0 hist s -> 0 <= evs_cost mss hist.
Proof.
  induction 1 as [|hist s ev rv s' _ IH Hok _ _]; [done|]. rewrite evs_cost_snoc. pose proof (ev_cost_nonneg _ _ _ Hok). lia.
Qed.

Lemma reach_inv hi s0 hist s b :
  rec_start mss inv cinv other hi s0 -> reachable cc ops mss other s0 hist s -> hi + evs_cost mss hist + b <= CC_LIMIT -> 0 <= b -> rec_inv b s.
Proof.
  intros Hs Hr Hb Hb0. pose proof (reach_spent _ _ _ Hr). pose proof (start_plain _ _ Hs) as Hp. apply (rec_start_inv hi (b + evs_cost mss hist)) in Hs; [|lia..].
  by destruct (reachable_inv _ _ _ b Hp Hr Hs Hb0).
Qed.

(** C28. The bookkeeping of the packets of a space, in every state that a
    sequence of events leads to: every event that can happen returns, so that
    no assertion of loss detection and of its callers fails, those of the
    reclaiming after a Retry packet included (the packets it finds are not
    lost because no ACK frame and no loss time came before it).  What is done
    to the frames of a packet is behind [AppLaws]: it returns, with success
    or not.  The list of packets is in descending order of the packet
    numbers; the lost packets are a suffix of it; the counters of packets
    that elicit an ACK, can be sent again or elicit a probe are the numbers of
    such packets that are not lost, the counters of lost packets are those of
    the lost ones; the bytes in flight of the space are the sum of the
    lengths of the packets that are not lost and that were sent on the
    current path, and those of the connection are the sum of this space and
    the others; every entry is reachable from the list, and
    [ngtcp2_rtb_free] releases all of them. *)
Theorem recovery_never_fails hi hist s0 s ev :
  rec_start mss inv cinv other hi s0 -> reachable cc ops mss other s0 hist s ->
  ev_ok mss other hist ev s -> hi + evs_cost mss hist + ev_cost mss ev <= CC_LIMIT ->
  consistent ops other s /\ exists rv s', rec_step cc ops ev s = Ok (rv, s') /\ (0 <= rv -> consistent ops other s').
Proof.
  intros Hs Hr Hok Hb. pose proof (ev_cost_nonneg _ _ _ Hok) as Hc.
  pose proof (reach_inv hi s0 hist s (0 + ev_cost mss ev) Hs Hr ltac:(lia) ltac:(lia)) as Hinv.
  split; [by eapply inv_consistent|].
  destruct (rec_step_ok 0 hist ev s Hinv ltac:(done) (reach_ready _ _ _ _ (start_plain _ _ Hs) Hr Hok)) as (rv & s' & -> & Hi).
  do 2 eexists. split; [reflexivity|]. intros H0. by eapply inv_consistent, Hi.
Qed.

Lemma thres_range (rtb : ngtcp2_rtb F) c k : compute_pkt_thres rtb c = Ok k -> 3 <= k <= 256.
Proof. unfold compute_pkt_thres, div64. destruct (_ =? 0); [done|]. intros [= <-]. unfold NGTCP2_PKT_THRESHOLD. lia. Qed.

Lemma delay_range c : NGTCP2_GRANULARITY <= compute_pkt_loss_delay c.
Proof. unfold compute_pkt_loss_delay. lia. Qed.

(** C30. An ACK frame, in every state that a sequence of events leads to: a
    frame that acknowledges a packet number that was skipped is an error;
    otherwise, unless what happens to the frames fails ([app_succeeds]),
    exactly the packets in the blocks of the frame are taken out of the list.
    The result is the number of them that congestion control counts
    ([cc_pkt_num] or later: sent since the last reset of the congestion
    state), which can be 0 although packets were acknowledged.  When it is
    not 0, loss detection is run on the others, with the new largest
    acknowledged number; when it is 0, nothing else is done to the list. *)
Theorem ack_removes_acked hi hist s0 s fr pkt_ts ts :
  rec_start mss inv cinv other hi s0 -> reachable cc ops mss other s0 hist s ->
  ack_ok fr -> hi + evs_cost mss hist + mss <= CC_LIMIT ->
  let st := rc_ld s in let l := rtb_list (ld_rtb st) in let blocks := ack_blocks fr in
  let largest := Z.max (largest_acked_tx_pkt_num (ld_rtb st)) (ack_largest_ack fr) in
  let others := List.filter (not_acked blocks) l in
  exists rv st', ngtcp2_rtb_recv_ack cc ops st fr pkt_ts ts = Ok (rv, st') /\
    ((exists e, e ∈ l /\ is_skip e = true /\ acked_by blocks e = true) -> rv = NGTCP2_ERR_PROTO) /\
    (rv < 0 /\ (rv = NGTCP2_ERR_PROTO /\ (exists e, e ∈ l /\ is_skip e = true /\ acked_by blocks e = true) \/ ~ app_succeeds ops) \/
     rv = w_newly (cc_pkt_num (ld_rtb st)) blocks l /\ largest_acked_tx_pkt_num (ld_rtb st') = largest /\
     (rv = 0 -> rtb_list (ld_rtb st') = others) /\
     (rv <> 0 -> exists loss_delay pkt_thres, NGTCP2_GRANULARITY <= loss_delay /\ 3 <= pkt_thres <= 256 /\
        after_detection largest loss_delay pkt_thres ts others (rtb_list (ld_rtb st')))).
Proof.
  intros Hs Hr Hfr Hb. pose proof (bd_mss (mss := mss) (other := other)) as Hm. unfold MIN_PAYLOAD in Hm.
  pose proof (reach_inv hi s0 hist s (0 + mss) Hs Hr ltac:(lia) ltac:(lia)) as [(L & D & Hinv & HL & HD) _].
  intros st l blocks largest others. subst l others. fold st in Hinv. rewrite (inv_list _ _ _ _ _ _ Hinv).
  destruct (recv_ack_run cc ops mss inv cinv other 0 L D 0 st fr pkt_ts ts ltac:(done) HL HD Hfr Hinv) as (rv & st' & -> & Hskip & Hok).
  do 2 eexists. split; [reflexivity|]. split; [exact Hskip|]. destruct Hok as [?|(_ & Hrv & st1 & Hs1 & _ & [L' D' Hinv' HL' HD' Hs' Hnone Hsome])]; [by left|right].
  destruct (recv_start_ok cc mss inv cinv other 0 _ _ _ _ st (ack_largest_ack fr) ts Hinv) as [_ [Hlg _ _ _ _]]. fold largest in Hlg.
  assert (Hlg1 : largest_acked_tx_pkt_num (ld_rtb st1) = largest) by (destruct Hs1 as (_ & _ & _ & _ & _ & -> & _); done).
  rewrite (inv_list _ _ _ _ _ _ Hinv'). split; [done|]. split; [|split].
  - destruct Hs' as (_ & _ & _ & _ & _ & -> & _). done.
  - intros E. destruct (Hnone E) as (-> & -> & _). by rewrite List.filter_app.
  - intros E. destruct (Hsome E) as (k & Hk & Hdet). exists (compute_pkt_loss_delay (ld_cstat st1)), k.
    split; [apply delay_range|]. split; [by eapply thres_range|]. rewrite List.filter_app, <- Hlg1.
    apply (detected_after _ _ _ _ _ st1 _ _ _ Hdet); [by apply forall_filter|by apply forall_filter|].
    rewrite <- List.filter_app. apply sorted_filter. eapply sent_descending. by destruct Hinv as [[]].
Qed.

(** C15. Loss detection, in every state that a sequence of events leads
    to.  It fails only if what happens to the frames does
    ([app_succeeds]); otherwise exactly those packets are declared lost
    that are not newer than the largest acknowledged one and for which
    there is a packet, not older and not newer than the largest
    acknowledged one, that was sent [max(9/8 max(latest_rtt,
    smoothed_rtt), 1ms)] ago, or whose number is the threshold or more
    below the largest acknowledged one; the threshold is half the packets
    in flight, but between 3 and 256.  The other packets are as before;
    not more lost packets are kept than the threshold, and none is dropped
    below it.  The timer of the space is set to the earliest time at which
    one of the pending packets is lost. *)
Theorem lost_packets_detected hi hist s0 s ts :
  rec_start mss inv cinv other hi s0 -> reachable cc ops mss other s0 hist s -> hi + evs_cost mss hist <= CC_LIMIT ->
  let st := rc_ld s in let l := rtb_list (ld_rtb st) in let largest := largest_acked_tx_pkt_num (ld_rtb st) in
  let L := List.filter (fun e => negb (is_lost e)) l in
  let delay := compute_pkt_loss_delay (ld_cstat st) in
  let thres := Z.min (Z.max (cc_bytes_in_flight (ld_rtb st) / max_tx_udp_payload_size (ld_cstat st) / 2) 3) 256 in
  exists rv st', ngtcp2_rtb_detect_lost_pkt cc ops st ts = Ok (rv, st') /\ app_rv ops rv /\
    (rv = 0 -> after_detection largest delay thres ts l (rtb_list (ld_rtb st')) /\
      loss_time (ld_cstat st') = store_time (ns_id (ld_ns st))
        (fold_left (min_time delay) (List.filter (pending largest delay thres ts L) L) UINT64_MAX) (loss_time (ld_cstat st))).
Proof.
  intros Hs Hr Hb. pose proof (reach_inv hi s0 hist s 0 Hs Hr ltac:(lia) ltac:(done)) as [(L0 & D & Hinv & HL & HD) _].
  intros st l largest L delay thres. subst L l. fold st in Hinv. rewrite (inv_list _ _ _ _ _ _ Hinv).
  pose proof Hinv as [[_ _ _ Ho _ _ _ _ _ _] _ Hsh]. change (ns_rtb (ld_ns st)) with (ld_rtb st) in Ho.
  destruct (pkt_thres_ok mss inv cinv _ st Hsh (proj1 (bytes_budget mss inv cinv other _ _ _ _ _ _ Hinv))) as (k & Hk & Ek & _).
  destruct (detect_run cc ops mss inv cinv other 0 L0 D 0 st empty_cc_ack ts ltac:(done) HL HD Hinv) as (k' & rv & st' & ack & Hk' & Hrun & Hrv & Hok).
  unfold ngtcp2_rtb_detect_lost_pkt. rewrite Hrun. cbn [bind]. do 2 eexists. split; [reflexivity|]. split; [done|]. intros E.
  destruct (Hok E) as (_ & _ & L' & D' & Hdet & HL' & HD' & Hinv'). rewrite Hk in Hk'. injection Hk' as <-.
  rewrite (inv_list _ _ _ _ _ _ Hinv'). destruct (filter_split _ _ HL HD) as [-> _]. subst thres. unfold NGTCP2_PKT_THRESHOLD in Ek. rewrite <- Ek.
  apply (detected_after _ _ _ _ _ st _ _ _ Hdet HL HD). by eapply sent_descending.
Qed.
End Theorems.

(** ** An application space with Reno

    The frames are numbers; the application accepts everything. *)
Section Demo.
Context (F S C : Type) (cc : ngtcp2_cc S) (ops : conn_ops F C).

Fixpoint rec_run (evs : list (rec_event F)) (s : rec_state F S C) : res (rec_state F S C) :=
  match evs with
  | [] => Ok s
  | ev :: evs => let* (_, s) := rec_step cc ops ev s in rec_run evs s
  end.

Fixpoint evs_ok (mss other : Z) (hist evs : list (rec_event F)) (s : rec_state F S C) : Prop :=
  match evs with
  | [] => True
  | ev :: evs =>
      ev_ok mss other hist ev s /\
      match rec_step cc ops ev s with Ok (rv, s') => 0 <= rv /\ evs_ok mss other (hist ++ [ev]) evs s' | _ => False end
  end.
End Demo.

Lemma run_reachable {F S C : Type} (cc : ngtcp2_cc S) (ops : conn_ops F C) mss other s0 evs : forall hist s s',
  reachable cc ops mss other s0 hist s -> evs_ok F S C cc ops mss other hist evs s -> rec_run F S C cc ops evs s = Ok s' ->
  reachable cc ops mss other s0 (hist ++ evs) s'.
Proof.
  induction evs as [|ev evs IH]; intros hist s s' Hr Hok Hrun; cbn [rec_run evs_ok] in *.
  - injection Hrun as <-. by rewrite app_nil_r.
  - destruct Hok as [Hev Hok]. destruct (rec_step cc ops ev s) as [[rv s1]| |] eqn:E; [|done..]. destruct Hok as [Hrv Hok]. cbn [bind] in Hrun.
    rewrite cons_middle, app_assoc. apply (IH _ s1); [|done|done]. by eapply reach_step.
Qed.

Definition demo_ops : conn_ops Z unit :=
  mk_ops Z unit (fun app _ _ frc => Ok (zlen frc, frc, app)) (fun app c _ => Ok (0, set_max_tx_udp_payload_size (max_tx_udp_payload_size c) c, app))
    (fun app frc => Ok (0, frc, app)) (fun app _ => Ok app) (fun _ => None) None.

#[export] Instance demo_laws : AppLaws demo_ops 1200 (fun _ => True).
Proof.
  split; try done.
  - intros app on_loss n frc _ Hf. by exists (zlen frc), frc, app.
  - intros app c ent _ Hp. by exists 0, (max_tx_udp_payload_size c), app.
  - intros app frc _. by exists 0, frc, app.
  - intros app frc _. by exists app.
Qed.

#[export] Instance demo_bounds : Bounds 1200 0.
Proof. split; unfold MIN_PAYLOAD; lia. Qed.

Definition demo_times : list Z := [UINT64_MAX; UINT64_MAX; UINT64_MAX].
Definition demo_stat : ngtcp2_conn_stat :=
  set_window (ngtcp2_cc_compute_initcwnd 1200) UINT64_MAX UINT64_MAX
    (mk_cstat 0 UINT64_MAX 333000000 166500000 UINT64_MAX 0 demo_times 0 0 0 0 1200 0 0 0 0 0 demo_times UINT64_MAX).
Definition demo_params : conn_params := mk_params true true true 0 (Some 25000000) 333000000.
Definition demo_acktr : ngtcp2_acktr := match ngtcp2_acktr_init 100 with Ok a => a | _ => mk_acktr ∅ 0 (mk_ringbuf [] 0 0 0) (ngtcp2_ksl_init 0) 0 0 0 0 0 (0, 0, 0) end.
Definition demo_start : rec_state Z ngtcp2_cc_reno unit :=
  mk_rec demo_acktr (mk_skip 1000 0)
    (mk_ld (mk_pktns NGTCP2_PKTNS_ID_APPLICATION (ngtcp2_rtb_init 200 0) (mk_pktns_ecn INT64_MAX 0 0 0) (0, 0, 0) (-1)) []
       demo_stat ngtcp2_rst_init (mk_reno 0) (mk_conn_ecn NGTCP2_ECN_STATE_TESTING UINT64_MAX 0) (mk_key_update false false 0 0) demo_params tt).

(** Four packets are sent; the last one is acknowledged. *)
Definition demo_pto : list (option Z) := [None; None; Some 0].
Definition demo_send (ts : Z) : rec_event Z := EvSend true true demo_pto (mk_sent NGTCP2_PKT_1RTT 0 [ts] 1200 0x106 false) ts.
Definition demo_fr : ngtcp2_ack := mk_ack NGTCP2_FRAME_ACK 3 0 0 None 0 [].
Definition demo_sends : list (rec_event Z) := [demo_send 10; demo_send 20; demo_send 30; demo_send 40].
Definition demo_sent : rec_state Z ngtcp2_cc_reno unit :=
  match rec_run _ _ _ reno_cc demo_ops demo_sends demo_start with Ok s => s | _ => demo_start end.

Lemma demo_run : rec_run _ _ _ reno_cc demo_ops demo_sends demo_start = Ok demo_sent.
Proof. by vm_compute. Qed.

Lemma demo_rec_start : rec_start 1200 (reno_inv 1200 1) (fun _ => True) 0 15600 demo_start.
Proof.
  split; try done.
  - by exists 200%nat.
  - split; [split|]; first [by left|by vm_compute|by split; vm_compute].
  - intros _. by eexists.
  - by exists 100%nat.
Qed.

Ltac demo_ok := vm_compute; split_and!; first [done|lia|by eexists|by split|by split; [..|constructor]].

Lemma demo_sends_ok : evs_ok _ _ _ reno_cc demo_ops 1200 0 [] demo_sends demo_start.
Proof. demo_ok. Qed.

Lemma demo_reach : reachable reno_cc demo_ops 1200 0 demo_start demo_sends demo_sent.
Proof. apply (run_reachable _ _ _ _ _ demo_sends [] demo_start demo_sent); [constructor|apply demo_sends_ok|apply demo_run]. Qed.

(** The packet 0 is lost. *)
Definition demo_ack_events : list (rec_event Z) := demo_sends ++ [EvAck demo_pto demo_fr 60 60].
Definition demo_acked : rec_state Z ngtcp2_cc_reno unit :=
  match rec_run _ _ _ reno_cc demo_ops demo_ack_events demo_start with Ok s => s | _ => demo_start end.

Lemma demo_ack_ok : evs_ok _ _ _ reno_cc demo_ops 1200 0 [] demo_ack_events demo_start.
Proof. demo_ok. Qed.

Lemma demo_ack_reach : reachable reno_cc demo_ops 1200 0 demo_start demo_ack_events demo_acked.
Proof.
  apply (run_reachable _ _ _ _ _ demo_ack_events [] demo_start demo_acked); [constructor|apply demo_ack_ok|by vm_compute].
Qed.

Definition packets (s : rec_state Z ngtcp2_cc_reno unit) : list (Z * bool) :=
  map (fun e => (ent_pkt_num e, is_lost e)) (rtb_list (ld_rtb (rc_ld s))).

(** An ACK frame, and a Retry packet in its place. *)
Lemma recovery_never_fails_witness :
  packets demo_sent = [(3, false); (2, false); (1, false); (0, false)] /\ bytes_in_flight (ld_cstat (rc_ld demo_sent)) = 4800 /\
  consistent demo_ops 0 demo_sent /\
  (exists rv s', rec_step reno_cc demo_ops (EvAck demo_pto demo_fr 60 60) demo_sent = Ok (rv, s') /\ (0 <= rv -> consistent demo_ops 0 s')) /\
  (exists s', rec_step reno_cc demo_ops EvRetry demo_sent = Ok (0, s') /\ packets s' = [] /\ consistent demo_ops 0 s').
Proof.
  assert (H : forall ev, ev_ok 1200 0 demo_sends ev demo_sent -> 15600 + evs_cost 1200 demo_sends + ev_cost 1200 ev <= CC_LIMIT ->
    consistent demo_ops 0 demo_sent /\ exists rv s', rec_step reno_cc demo_ops ev demo_sent = Ok (rv, s') /\ (0 <= rv -> consistent demo_ops 0 s')).
  { intros ev Hok Hb. exact (recovery_never_fails reno_cc demo_ops 1200 (reno_inv 1200 1) (fun _ => True) 0 15600 demo_sends demo_start demo_sent ev
      demo_rec_start demo_reach Hok Hb). }
  split; [by vm_compute|]. split; [by vm_compute|].
  destruct (H (EvAck demo_pto demo_fr 60 60)) as [H1 H2]; [demo_ok|by vm_compute|]. split; [exact H1|]. split; [exact H2|].
  destruct (H EvRetry) as [_ (rv & s' & E & Hc)]; [repeat constructor|by vm_compute|].
  assert (E1 : match rec_step reno_cc demo_ops EvRetry demo_sent with Ok (rv, s') => rv = 0 /\ packets s' = [] | _ => False end) by (vm_compute; by split).
  rewrite E in E1. destruct E1 as [-> Hp]. exists s'. split; [exact E|]. split; [exact Hp|]. by apply Hc.
Defined.

Lemma ack_removes_acked_witness :
  packets demo_acked = [(2, false); (1, false); (0, true)] /\
  let st := rc_ld demo_sent in let l := rtb_list (ld_rtb st) in let blocks := ack_blocks demo_fr in
  let largest := Z.max (largest_acked_tx_pkt_num (ld_rtb st)) (ack_largest_ack demo_fr) in
  let others := List.filter (not_acked blocks) l in
  exists rv st', ngtcp2_rtb_recv_ack reno_cc demo_ops st demo_fr 60 60 = Ok (rv, st') /\
    ((exists e, e ∈ l /\ is_skip e = true /\ acked_by blocks e = true) -> rv = NGTCP2_ERR_PROTO) /\
    (rv < 0 /\ (rv = NGTCP2_ERR_PROTO /\ (exists e, e ∈ l /\ is_skip e = true /\ acked_by blocks e = true) \/ ~ app_succeeds demo_ops) \/
     rv = w_newly (cc_pkt_num (ld_rtb st)) blocks l /\ largest_acked_tx_pkt_num (ld_rtb st') = largest /\
     (rv = 0 -> rtb_list (ld_rtb st') = others) /\
     (rv <> 0 -> exists loss_delay pkt_thres, NGTCP2_GRANULARITY <= loss_delay /\ 3 <= pkt_thres <= 256 /\
        after_detection largest loss_delay pkt_thres 60 others (rtb_list (ld_rtb st')))).
Proof.
  split; [by vm_compute|].
  apply (ack_removes_acked reno_cc demo_ops 1200 (reno_inv 1200 1) (fun _ => True) 0 15600 demo_sends demo_start);
    [exact demo_rec_start|exact demo_reach|by split; [|constructor]|by vm_compute].
Defined.

(** One millisecond later the other two are lost. *)
Lemma lost_packets_detected_witness :
  (exists st', ngtcp2_rtb_detect_lost_pkt reno_cc demo_ops (rc_ld demo_acked) 1000030 = Ok (0, st') /\
     map (fun e => (ent_pkt_num e, is_lost e)) (rtb_list (ld_rtb st')) = [(2, true); (1, true); (0, true)]) /\
  let st := rc_ld demo_acked in let l := rtb_list (ld_rtb st) in let largest := largest_acked_tx_pkt_num (ld_rtb st) in
  let L := List.filter (fun e => negb (is_lost e)) l in
  let delay := compute_pkt_loss_delay (ld_cstat st) in
  let thres := Z.min (Z.max (cc_bytes_in_flight (ld_rtb st) / max_tx_udp_payload_size (ld_cstat st) / 2) 3) 256 in
  exists rv st', ngtcp2_rtb_detect_lost_pkt reno_cc demo_ops st 1000030 = Ok (rv, st') /\ app_rv demo_ops rv /\
    (rv = 0 -> after_detection largest delay thres 1000030 l (rtb_list (ld_rtb st')) /\
      loss_time (ld_cstat st') = store_time (ns_id (ld_ns st))
        (fold_left (min_time delay) (List.filter (pending largest delay thres 1000030 L) L) UINT64_MAX) (loss_time (ld_cstat st))).
Proof.
  split; [eexists; by vm_compute|].
  apply (lost_packets_detected reno_cc demo_ops 1200 (reno_inv 1200 1) (fun _ => True) 0 15600 demo_ack_events demo_start);
    [exact demo_rec_start|exact demo_ack_reach|by vm_compute].
Defined.
